(* ===== verification/_CoqProject ===== *)
-Q . S2P
Prelude.v
Safe.v
GoStrings.v
Rounding.v
Decimal.v
SDec.v
Types.v
StockDomain.v
BillDomain.v
GoTime.v
Store.v
StockRepo.v
StockCalc.v
Concrete.v
WAC.v
StockFIFO.v
FIFO.v
StockRecord.v
StockLedger.v
StockAdjust.v
BillRepo.v
BillRows.v
BillDraft.v
BillApprove.v
BillEdit.v
Checkout.v
Ledger.v
Payment.v
BillReturn.v
ReturnCap.v
PurchaseReturn.v
SaleReturn.v
SaleReturnLaws.v
BillLife.v
Roles.v
OrgApi.v
DevOrg.v
DevOrgLaws.v
TeamStore.v
TeamService.v
TeamLaws.v
TeamTrip.v
Access.v
Trim.v
ExtStore.v
Currency.v
Csv.v
Importing.v
ImportParse.v
ImportLaws.v
ImportOnce.v
ImportRemarks.v
RetryQueue.v
EventOutbox.v
UsageReport.v
Idempotency.v
Subscription.v
Entitlement.v
Codegen.v
Runes.v
CatalogueStore.v
Catalogue.v
CatalogueLaws.v
CatalogueEffects.v
InvoiceStore.v
Invoice.v
InvoiceLaws.v
Replenish.v
ReplenishLaws.v
