(* ===== verification/Prelude.v ===== *)
(** * lurus-tally: the commerce core

    The program is a shop ledger in Go: purchases, sales, returns, stock and money for many
    tenants, behind HTTP handlers, over one PostgreSQL schema.  This library models the part
    that decides what is sold, what is in stock, what is owed and who may do it: the use cases
    of src/internal/app/stock, app/bill, app/payment, app/team and app/importing, their domain
    packages, the repositories of src/internal/adapter/repo they call, the gate in front of the
    handlers (src/internal/adapter/middleware: permission.go, idempotency.go), and the workers
    that tell other services what happened (adapter/nats, adapter/usagereport).

    ** How the program is modelled

    - A use case is a function in the state and error monad [stm] of this file: a world goes
      in, [Ok], [Err] or [Panic] and a world come out.  A world (Store.v) is the database and a
      counter of driver calls, fresh ids and clock readings; the environment [Env] (Types.v)
      says what id, what time and whether a driver fault comes at each count.  So a run is
      deterministic in the environment, and a theorem quantified over it covers every clock,
      every id generator and every pattern of driver failures.
    - The database [DB] (Store.v) is the tables of the schema the core touches.  A statement
      runs on it whole or not at all; NUMERIC columns round what they store; the CHECK, UNIQUE
      and primary key constraints that can fire are tested.  [WithTx] restores the database when
      its body fails, panics or cannot commit.  A component with tables of its own runs on
      [Ext X] (ExtStore.v), the shop's world with rows of type [X] beside it.
    - Money and quantities are [dec], the decimals of shopspring/decimal, through the class
      [DecimalOps] and its laws [DecimalLaws] (Decimal.v): the exact rational value of each
      operation, with division and rounding as that library documents them.  SDec.v is an
      implementation that satisfies the laws, so witnesses compute.
    - Errors are the Go sentinels and typed errors with their [%w] chains; what the text of an
      error says beyond them is kept only as a label.
    - Go maps are [gmap]s; where the program ranges over one the order cannot matter, since the
      updates it makes commute.
    - Other people's requests: the histories of StockLedger, BillLife, TeamLaws and ImportOnce
      are sequences of requests; the team is also modelled with changes by others before each of
      its operations, since what it guards against is a race with the organization service.
      The idempotency middleware is modelled as concurrent requests whose steps interleave.
    - Services outside the program (the organization service, NATS, the billing platform, Redis)
      are parameters or the answers of an environment: a message can be refused, or arrive
      without its acknowledgement.

    ** Files

    Shared ground: Prelude (lists, options, the monad, its inversion tactics), GoStrings
    (package strings, SQL LIKE), Rounding (decimal rounding on the rationals), Decimal and SDec,
    Types (ids, clocks, errors), GoTime (calendar, %0d), Store, Concrete (an example shop),
    ExtStore (components with tables of their own), Csv (encoding/csv and time.Parse).

    Stock, app/stock: StockDomain, StockRepo (adapter/repo/stock), StockCalc (the interface
    InventoryCalculator as a class with laws, and the weighted average), StockFIFO (the FIFO
    calculator), StockRecord (usecase.go), StockLedger (histories of movements), WAC and FIFO
    (what the two calculators do to value and to lots), StockAdjust (adjust.go, query.go,
    safety_qty.go).

    Bills, app/bill: BillDomain, BillRepo and BillRows (adapter/repo/bill and payment), BillDraft
    (create, update, cancel, restore), BillEdit (what the edits did), BillApprove (approve_sale.go,
    approve_purchase.go), BillReturn and ReturnCap (returns and their cap), SaleReturn and
    SaleReturnLaws (the shop-floor return and its refund), Checkout (quick_checkout.go),
    PurchaseReturn (purchase_return.go), BillLife (every use case as one history: the abstract
    life of a bill and its refinement), Safe (runs that cannot panic).

    Money, app/payment: Ledger (the open bills of a partner), Payment (record.go, receipt.go).
    Currency (app/currency: exchange rates).

    People: Roles (domain/team, domain/permission: roles, permissions, the route table), OrgApi
    (the interfaces of app/team/ports.go as classes with laws), DevOrg and DevOrgLaws (the
    organization client adapter/platform/org_dev.go and its laws), TeamStore (adapter/repo/team and
    the role cache), TeamService (app/team: resolver.go, service.go), TeamLaws and TeamTrip (what
    no history of requests can do, and the way of a role to the platform and back), Access (the
    middleware in front of every handler), Trim (what it takes out of replies).

    Orders of other shops, app/importing: Importing (usecase.go, adapter/repo/importing and the
    adapters of src/internal/lifecycle), ImportParse (what an export is read as),
    ImportLaws (uploading twice), ImportOnce (histories of
    requests), ImportRemarks (the remarks by which returns find their sale).

    Background work: RetryQueue (a queue of rows a worker tries again and again, as a class with
    laws), EventOutbox (its instance for stock events: adapter/nats/outbox_worker.go,
    adapter/repo/event_outbox), UsageReport (its instance for metered tokens, with the reporter:
    adapter/usagereport, adapter/repo/usage_report_outbox).

    Idempotency (adapter/middleware/idempotency.go): requests served at the same time over a
    key-value store, as a step relation.

    Plans: Subscription (app/subscription, adapter/repo/subscription and the guard of writes:
    concurrent callers of one cached verdict, as a step relation), Entitlement (app/entitlement,
    adapter/repo/usage: the limits of a plan, over any component that has a [PlanStore]), Codegen
    (pkg/codegen: generated codes and the attempts at them).

    Catalogue: Runes (utf8 and VARCHAR), CatalogueStore (adapter/repo/product, sku, unit and
    dbscope.InTx), Catalogue (app/product, app/sku, app/unit and what their handlers decide),
    CatalogueLaws (what every history keeps), CatalogueEffects (what each use case leaves).
    Invoices: InvoiceStore (domain/invoice, adapter/repo/invoice), Invoice (app/invoice), InvoiceLaws
    (the registry next to the bills it covers, along any history of both).
    Replenishment, app/replenish: Replenish (usecase.go, low_stock.go, scorecard.go, batch_draft.go
    and adapter/repo/replenish: the forecast, its log and the drafts made of it), ReplenishLaws.

    The interfaces between them: the approvals and returns are clients of [ExecuteInTx] of
    StockRecord, which is a client of the class [InventoryCalculator]; their theorems hold for any
    calculator with [CalculatorLaws], and StockCalc and StockFIFO prove them for the two the
    program has.  The team is a client of the class [OrgClient] with its laws, which DevOrgLaws
    proves for the client of the repository; the gate is a client of the team.  The import is a
    client of the bills.  The theorems about retrying are proved for any [RetryQueue] with its laws;
    EventOutbox and UsageReport discharge them.  The plan guard is a client of [PlanStore], which
    the catalogue implements.  [DecimalOps]/[DecimalLaws], [Env]/[EnvLaws], [HasRates], and for
    replenishment [FloatMath] and [SortSlice] (the square root and median in float64, sort.Slice) are
    the other classes.

    ** What the theorems show

    - Stock: along any history the book of a SKU is the sum of its movements, up to the rounding
      of its column, and never negative; a count writes what differs and nothing else; FIFO lots add up to the book and are drained oldest first; the weighted average
      accounts for the value; a movement is recorded whole or not at all.
    - Bills: what each create, update, approval, return, refund and checkout leaves behind on
      success, row by row, and that nothing else changed; approvals and checkouts happen once;
      shortages are reported completely; the cap on returns to and from the shop; along any
      history every bill follows its abstract life, an approved one never changes.
    - Money: payments stay within what a bill is worth; a receipt goes through the open
      bills from the oldest on, skipping none, and is spread over them exactly.
    - People: no history of requests makes an owner; a role written to the platform is read back
      as the same role; routes for owners are passed by owners only; a trimmed reply shows no
      cost and reveals nothing of what it hides.
    - Orders: an order becomes at most one bill along any history of uploads, webhooks,
      cancellations and refunds; a file uploaded twice books nothing new; a repeated cancellation
      changes nothing; the remark of a reversal is read back as the sale it reverses.
    - Background work: a row marked done was handed over; a recorded movement reaches the broker,
      and used tokens the billing platform, within a number of polls bounded by the attempts
      still to be spent on older rows; no call is billed twice; what an outage longer than the
      attempts loses.
    - Repeated requests: one handler at a time per key while none outlasts the lock; a replay is
      an answer that was given; a kept answer is final; and the race that is left.
    - Plans: a shop is told it is locked only on a recent answer of the platform; an enforced
      limit holds whenever the use can be counted.
    - Catalogue: identifiers and codes stay unique and the commerce core sees the same products
      along any history; a create or an update is all or nothing and stores field by field what was
      sent; a price action reports what it moved; who sees no costs changes none.
    - Invoices: no bill is invoiced beyond its total along any history of the registry and the
      bills; numbers are unique, a status changes once; a red letter takes back exactly what it
      strikes, so the totals are those of the invoices that stand.
    - Replenishment: a suggestion asks for the least quantity that covers the demand; the low stock
      list is exactly what is below its reorder point; a batch becomes one draft per supplier; a
      suggestion that was taken up is never rewritten.

    ** Bounds

    Loops of the modelled code run over lists, and need no fuel, with one exception: the CSV
    reader (Csv.v) and the rows of an export (Importing.v) take the number of bytes left as fuel;
    ImportParse proves that more of it reads the same, and that a file is accepted exactly when
    its records make rows.  Integers that could
    overflow (line numbers, sequence values) are [Z]; the program never brings them near their
    width.  NUMERIC precision (18 or 20 digits) is not modelled.

    ** Not modelled

    HTTP handlers (decoding, status codes), the spreadsheet imports of the catalogue, sign-in, reports and exports, the assistant, remote
    services (shop platforms, billing, language models), metrics and logging.  Row locks and isolation: a run is one transaction after another;
    the locks the code takes are queries that return nothing; in particular two deliveries of one
    order do not overlap.  Foreign keys are part of the hypothesis [docs_wf], not of the
    statements. *)
From stdpp Require Import base gmap strings list sorting.
From Stdlib Require Import ZArith QArith Qround Qabs Lqa Lia.


Declare Scope tally_scope.
Delimit Scope tally_scope with tally.

(** ** Lists and options *)

Definition is_none {A} (o : option A) : bool := match o with None => true | Some _ => false end.

Lemma is_none_true {A} (o : option A) : is_none o = true <-> o = None.
Proof. by destruct o. Qed.
Lemma is_none_false {A} (o : option A) : is_none o = false <-> is_Some o.
Proof. rewrite <- not_eq_None_Some. by destruct o. Qed.

(** The rows of a table a WHERE clause keeps, in table order. *)
Definition select {A} (p : A -> bool) (l : list A) : list A := List.filter p l.

Lemma elem_of_select {A} (p : A -> bool) l x : x ∈ select p l <-> p x = true /\ x ∈ l.
Proof. unfold select. rewrite !list_elem_of_In, filter_In. tauto. Qed.

Lemma select_app {A} (p : A -> bool) l k : select p (l ++ k) = select p l ++ select p k.
Proof. apply List.filter_app. Qed.

Lemma select_nil {A} (p : A -> bool) l : (forall x, x ∈ l -> p x = false) -> select p l = [].
Proof.
  induction l as [|x l IH]; intros H; [done|]. simpl. rewrite (H x) by left.
  apply IH. intros y Hy. apply H. by right.
Qed.

Lemma select_fmap {A B} (f : A -> B) (c : B -> bool) l : f <$> select (fun x => c (f x)) l = select c (f <$> l).
Proof. unfold select. induction l as [|x l IH]; [done|]. csimpl. destruct (c (f x)); csimpl; by rewrite IH. Qed.

Lemma select_nil_existsb {A} (p : A -> bool) l : select p l = [] -> existsb p l = false.
Proof.
  intros H. apply not_true_iff_false. intros (c & Hc & Ht)%existsb_exists.
  assert (c ∈ select p l) as K by (apply elem_of_select; split; [done|by apply list_elem_of_In]).
  rewrite H in K. by apply elem_of_nil in K.
Qed.

#[export] Instance select_perm {A} (p : A -> bool) : Proper (Permutation ==> Permutation) (select p).
Proof.
  intros l k H. induction H as [|a l k _ IH|a b l|l k m _ IH1 _ IH2]; simpl; [done| | |by etrans].
  - by destruct (p a); rewrite IH.
  - destruct (p a), (p b); try done. constructor.
Qed.

(** Rows with a key. *)
Lemma NoDup_key {A K} (f : A -> K) l x y : NoDup (f <$> l) -> x ∈ l -> y ∈ l -> f x = f y -> x = y.
Proof.
  induction l as [|a l IH]; [by intros _ ?%elem_of_nil|]. simpl. intros [Ha Hl]%NoDup_cons Hx Hy E.
  apply elem_of_cons in Hx as [->|Hx], Hy as [->|Hy]; [done|exfalso; apply Ha..|by apply IH].
  - rewrite E. by apply list_elem_of_fmap_2.
  - rewrite <- E. by apply list_elem_of_fmap_2.
Qed.

Lemma NoDup_select_key {A K} (f : A -> K) (p : A -> bool) l : NoDup (f <$> l) -> NoDup (f <$> select p l).
Proof.
  induction l as [|a l IH]; simpl; [done|]. intros [Ha Hl]%NoDup_cons. destruct (p a); [|by apply IH].
  simpl. apply NoDup_cons. split; [|by apply IH]. intros (b & E & Hb)%list_elem_of_fmap. apply Ha.
  apply elem_of_select in Hb as [_ Hb]. rewrite E. by apply list_elem_of_fmap_2.
Qed.

Lemma Forall2_impl_in {A B} (P Q : A -> B -> Prop) l k :
  Forall2 P l k -> (forall x y, x ∈ l -> P x y -> Q x y) -> Forall2 Q l k.
Proof.
  induction 1 as [|x y l k H Hl IH]; intros HI; constructor.
  - apply HI; [left|done].
  - apply IH. intros a b Ha. apply HI. by right.
Qed.

Lemma Forall2_compose {A B C} (P : A -> B -> Prop) (Q : B -> C -> Prop) (R : A -> C -> Prop) l k m :
  (forall x y z, P x y -> Q y z -> R x z) -> Forall2 P l k -> Forall2 Q k m -> Forall2 R l m.
Proof.
  intros HR H. revert m. induction H as [|x y l k Hx Hl IH]; intros m Hm; inversion Hm; subst; constructor; eauto.
Qed.

(** ** Outcomes and the state-and-error monad

    A Go function with a [*sql.Tx] argument reads and writes shared state and
    returns a value, an [error], or panics.  The state is kept on the error and
    panic paths too: only the transaction helper restores it. *)

Inductive res (E A : Type) : Type :=
  | Ok (a : A)
  | Err (e : E)
  | Panic (reason : string).
Arguments Ok {E A} a.
Arguments Err {E A} e.
Arguments Panic {E A} reason.

Definition stm (S E A : Type) : Type := S -> res E A * S.

#[global] Instance stm_ret {S E} : MRet (stm S E) :=
  fun A a s => (Ok a, s).

#[global] Instance stm_bind {S E} : MBind (stm S E) :=
  fun A B k m s =>
    match m s with
    | (Ok a, s') => k a s'
    | (Err e, s') => (Err e, s')
    | (Panic r, s') => (Panic r, s')
    end.

#[global] Instance stm_fmap {S E} : FMap (stm S E) :=
  fun A B f m s =>
    match m s with
    | (Ok a, s') => (Ok (f a), s')
    | (Err e, s') => (Err e, s')
    | (Panic r, s') => (Panic r, s')
    end.

Section stm.
Context {S E : Type}.

Definition throw {A} (e : E) : stm S E A := fun s => (Err e, s).
Definition panic {A} (why : string) : stm S E A := fun s => (Panic why, s).

(** [if err != nil { return f(err) }]: rewrites the error, nothing else. *)
Definition on_err {A} (f : E -> E) (m : stm S E A) : stm S E A := fun s =>
  match m s with
  | (Err e, s') => (Err (f e), s')
  | r => r
  end.

(** [v, err := m]: the caller inspects the error itself. *)
Definition try {A} (m : stm S E A) : stm S E (E + A) := fun s =>
  match m s with
  | (Ok a, s') => (Ok (inr a), s')
  | (Err e, s') => (Ok (inl e), s')
  | (Panic r, s') => (Panic r, s')
  end.

Definition of_option {A} (e : E) (o : option A) : stm S E A :=
  match o with Some a => mret a | None => throw e end.

Definition of_sum {A} (r : E + A) : stm S E A :=
  match r with inr a => mret a | inl e => throw e end.

(** [if cond { return e }] *)
Definition guard_err (cond : bool) (e : E) : stm S E unit :=
  if cond then throw e else mret tt.

(** [for _, x := range l { a = f a x }] with an early exit on error. *)
Fixpoint foldM {A X} (f : A -> X -> stm S E A) (l : list X) (a : A) : stm S E A :=
  match l with
  | [] => mret a
  | x :: l' => a' ← f a x; foldM f l' a'
  end.

Fixpoint mapM_ {X} (f : X -> stm S E unit) (l : list X) : stm S E unit :=
  match l with
  | [] => mret tt
  | x :: l' => f x;; mapM_ f l'
  end.

(** *** Inversion of successful runs *)

Lemma bind_Ok {A B} (m : stm S E A) (k : A -> stm S E B) s b s' :
  (m ≫= k) s = (Ok b, s') <->
  exists a s1, m s = (Ok a, s1) /\ k a s1 = (Ok b, s').
Proof.
  unfold mbind, stm_bind. destruct (m s) as [[a|e|r] s1]; split.
  - eauto.
  - by intros (?&?&[= <- <-]&?).
  - done.
  - by intros (?&?&?&?).
  - done.
  - by intros (?&?&?&?).
Qed.

Lemma fmap_Ok {A B} (f : A -> B) (m : stm S E A) s b s' :
  (f <$> m) s = (Ok b, s') <-> exists a, m s = (Ok a, s') /\ b = f a.
Proof.
  unfold fmap, stm_fmap. destruct (m s) as [[a|e|r] s1]; split; intros H.
  all: try (destruct H as (?&?&?)); simplify_eq; eauto.
Qed.

Lemma ret_Ok {A} (a b : A) s s' :
  (mret a : stm S E A) s = (Ok b, s') <-> a = b /\ s = s'.
Proof. unfold mret, stm_ret. split; [by intros [= -> ->] | by intros [-> ->]]. Qed.

Lemma throw_Ok {A} e (a : A) s s' : throw e s = (Ok a, s') <-> False.
Proof. done. Qed.

Lemma panic_Ok {A} why (a : A) s s' : panic why s = (Ok a, s') <-> False.
Proof. done. Qed.

Lemma on_err_Ok {A} f (m : stm S E A) a s s' :
  on_err f m s = (Ok a, s') <-> m s = (Ok a, s').
Proof. unfold on_err. by destruct (m s) as [[]]. Qed.

Lemma try_Ok {A} (m : stm S E A) r s s' :
  try m s = (Ok r, s') <->
  match r with inr a => m s = (Ok a, s') | inl e => m s = (Err e, s') end.
Proof.
  unfold try. destruct (m s) as [[a|e|w] s1], r; split; congruence.
Qed.

Lemma guard_err_Ok c e u s s' :
  guard_err c e s = (Ok u, s') <-> c = false /\ s = s'.
Proof.
  unfold guard_err. destruct c, u; rewrite ?ret_Ok, ?throw_Ok; intuition congruence.
Qed.

Lemma of_option_Ok {A} e (o : option A) a s s' :
  of_option e o s = (Ok a, s') <-> o = Some a /\ s = s'.
Proof.
  destruct o; simpl; rewrite ?ret_Ok, ?throw_Ok; intuition congruence.
Qed.

Lemma of_sum_Ok {A} (o : E + A) a s s' :
  of_sum o s = (Ok a, s') <-> o = inr a /\ s = s'.
Proof.
  destruct o; simpl; rewrite ?ret_Ok, ?throw_Ok; intuition congruence.
Qed.

Lemma bind_Err {A B} (m : stm S E A) (k : A -> stm S E B) s e s' :
  (m ≫= k) s = (Err e, s') <->
  m s = (Err e, s') \/ exists a s1, m s = (Ok a, s1) /\ k a s1 = (Err e, s').
Proof.
  unfold mbind, stm_bind. destruct (m s) as [[a|e'|r] s1]; split; intros H.
  - right. eauto.
  - destruct H as [?|(? & ? & [= <- <-] & ?)]; [congruence|done].
  - left. congruence.
  - by destruct H as [?|(? & ? & ? & ?)]; [congruence|].
  - done.
  - by destruct H as [?|(? & ? & ? & ?)].
Qed.

Lemma on_err_Err {A} f (m : stm S E A) s e s' :
  on_err f m s = (Err e, s') <-> exists e0, m s = (Err e0, s') /\ e = f e0.
Proof.
  unfold on_err. destruct (m s) as [[a|e'|r] s1]; split; intros H.
  all: try (destruct H as (? & ? & ?)); simplify_eq; eauto.
Qed.

(** *** Equations that drive a run *)

Lemma bind_run_Ok {A B} (m : stm S E A) (k : A -> stm S E B) s a s1 :
  m s = (Ok a, s1) -> (m ≫= k) s = k a s1.
Proof. intros H. unfold mbind, stm_bind. by rewrite H. Qed.

Lemma bind_run_Err {A B} (m : stm S E A) (k : A -> stm S E B) s e s1 :
  m s = (Err e, s1) -> (m ≫= k) s = (Err e, s1).
Proof. intros H. unfold mbind, stm_bind. by rewrite H. Qed.

Lemma ret_run {A} (a : A) (s : S) r s' : (mret a : stm S E A) s = (r, s') -> Ok a = r /\ s = s'.
Proof. by intros [= <- <-]. Qed.

Lemma guard_err_false e s : guard_err false e s = (Ok tt, s).
Proof. done. Qed.

(** *** Relations every run respects

    [keeps R m]: whatever the outcome, the final state is [R]-related to the
    initial one.  For a preorder [R] this composes along the code. *)

Definition keeps (R : S -> S -> Prop) {A} (m : stm S E A) : Prop :=
  forall s, R s (m s).2.

(** *** Errors a run can fail with *)

Definition errs (Q : E -> Prop) {A} (m : stm S E A) : Prop :=
  forall s e s', m s = (Err e, s') -> Q e.

Section errs.
Context (Q : E -> Prop).
Lemma errs_ret {A} (a : A) : errs Q (mret a).
Proof. by intros s e s'. Qed.
Lemma errs_throw {A} e : Q e -> errs Q (throw (A:=A) e).
Proof. by intros H s e' s' [= <- _]. Qed.
Lemma errs_panic {A} w : errs Q (panic (A:=A) w).
Proof. by intros s e s'. Qed.
Lemma errs_guard_err (c : bool) e : (c = true -> Q e) -> errs Q (guard_err c e).
Proof. intros H. destruct c; [by apply errs_throw, H | apply errs_ret]. Qed.
Lemma errs_bind {A B} (m : stm S E A) (k : A -> stm S E B) :
  errs Q m -> (forall a, errs Q (k a)) -> errs Q (m ≫= k).
Proof. intros Hm Hk s e s' [H|(a & s1 & _ & H)]%bind_Err; [by eapply Hm | by eapply Hk]. Qed.
Lemma errs_on_err {A} f (m : stm S E A) :
  errs (fun e => Q (f e)) m -> errs Q (on_err f m).
Proof. intros Hm s e s' (e0 & H & ->)%on_err_Err. by eapply Hm. Qed.
Lemma errs_try {A} (m : stm S E A) : errs Q (try m).
Proof. intros s e s' H. unfold try in H. by destruct (m s) as [[]]. Qed.
Lemma errs_of_sum {A} (o : E + A) : (forall e, o = inl e -> Q e) -> errs Q (of_sum o).
Proof. intros H. destruct o; [by apply errs_throw, H | apply errs_ret]. Qed.
Lemma errs_of_option {A} e (o : option A) : Q e -> errs Q (of_option e o).
Proof. intros H. destruct o; [apply errs_ret | by apply errs_throw]. Qed.
Lemma errs_foldM {A X} (f : A -> X -> stm S E A) l a :
  (forall a x, errs Q (f a x)) -> errs Q (foldM f l a).
Proof.
  intros Hf. revert a. induction l as [|x l IH]; intros a; simpl.
  - apply errs_ret.
  - by apply errs_bind.
Qed.
Lemma errs_mapM_ {X} (f : X -> stm S E unit) l :
  (forall x, errs Q (f x)) -> errs Q (mapM_ f l).
Proof.
  intros Hf. induction l as [|x l IH]; simpl.
  - apply errs_ret.
  - by apply errs_bind.
Qed.
End errs.

Context (R : S -> S -> Prop) `{!PreOrder R}.

Lemma keeps_run {A} (m : stm S E A) s r s' :
  keeps R m -> m s = (r, s') -> R s s'.
Proof. intros H Hm. specialize (H s). by rewrite Hm in H. Qed.

Lemma keeps_ret {A} (a : A) : keeps R (mret a).
Proof. intros s. reflexivity. Qed.
Lemma keeps_throw {A} e : keeps R (throw (A:=A) e).
Proof. intros s. reflexivity. Qed.
Lemma keeps_panic {A} w : keeps R (panic (A:=A) w).
Proof. intros s. reflexivity. Qed.
Lemma keeps_guard_err c e : keeps R (guard_err c e).
Proof. destruct c; intros s; reflexivity. Qed.
Lemma keeps_of_option {A} e (o : option A) : keeps R (of_option e o).
Proof. destruct o; intros s; reflexivity. Qed.
Lemma keeps_of_sum {A} (o : E + A) : keeps R (of_sum o).
Proof. destruct o; intros s; reflexivity. Qed.

(** From one state, where what follows may know what has run. *)
Lemma bind_at {A B} (m : stm S E A) (k : A -> stm S E B) s :
  R s (m s).2 -> (forall a s', m s = (Ok a, s') -> R s' (k a s').2) -> R s ((m ≫= k) s).2.
Proof.
  intros Hm Hk. unfold mbind, stm_bind. destruct (m s) as [[a|e|w] s1]; simpl in *; [|done|done].
  etrans; [exact Hm | by apply Hk].
Qed.

Lemma keeps_bind {A B} (m : stm S E A) (k : A -> stm S E B) :
  keeps R m -> (forall a, keeps R (k a)) -> keeps R (m ≫= k).
Proof. intros Hm Hk s. apply bind_at; [apply Hm | intros; apply Hk]. Qed.

Lemma keeps_fmap {A B} (f : A -> B) (m : stm S E A) :
  keeps R m -> keeps R (f <$> m).
Proof.
  intros Hm s. specialize (Hm s). unfold fmap, stm_fmap.
  by destruct (m s) as [[a|e|w] s1].
Qed.

Lemma keeps_on_err {A} f (m : stm S E A) : keeps R m -> keeps R (on_err f m).
Proof.
  intros Hm s. specialize (Hm s). unfold on_err.
  by destruct (m s) as [[a|e|w] s1].
Qed.

Lemma keeps_try {A} (m : stm S E A) : keeps R m -> keeps R (try m).
Proof.
  intros Hm s. specialize (Hm s). unfold try.
  by destruct (m s) as [[a|e|w] s1].
Qed.

Lemma keeps_foldM {A X} (f : A -> X -> stm S E A) l a :
  (forall a x, keeps R (f a x)) -> keeps R (foldM f l a).
Proof.
  intros Hf. revert a. induction l as [|x l IH]; intros a; simpl.
  - apply keeps_ret.
  - by apply keeps_bind.
Qed.

Lemma keeps_mapM_ {X} (f : X -> stm S E unit) l :
  (forall x, keeps R (f x)) -> keeps R (mapM_ f l).
Proof.
  intros Hf. induction l as [|x l IH]; simpl.
  - apply keeps_ret.
  - by apply keeps_bind.
Qed.
End stm.

(** Decompose [m s = (Ok a, s')] along the structure of [m].  [mstep_ext] is the
    hook where later files add their own primitive operations. *)
Ltac mstep_ext H := idtac.
Ltac minv H :=
  cbn beta iota in H;
  lazymatch type of H with
  | (_ ≫= _) _ = (Ok _, _) =>
      let a := fresh "x" in let s1 := fresh "s" in let H1 := fresh "Hm" in
      apply bind_Ok in H as (a & s1 & H1 & H); minv H1; try minv H
  | (mret _) _ = (Ok _, _) => apply ret_Ok in H as [? ?]; simplify_eq
  | (_ <$> _) _ = (Ok _, _) =>
      let a := fresh "x" in apply fmap_Ok in H as (a & H & ?); minv H
  | on_err _ _ _ = (Ok _, _) => apply on_err_Ok in H; minv H
  | try _ _ = (Ok _, _) => apply try_Ok in H
  | guard_err _ _ _ = (Ok _, _) => apply guard_err_Ok in H as [H ?]; simplify_eq
  | of_option _ _ _ = (Ok _, _) => apply of_option_Ok in H as [H ?]; simplify_eq
  | of_sum _ _ = (Ok _, _) => apply of_sum_Ok in H as [H ?]; simplify_eq
  | throw _ _ = (Ok _, _) => exfalso; exact (proj1 (throw_Ok _ _ _ _) H)
  | panic _ _ = (Ok _, _) => exfalso; exact (proj1 (panic_Ok _ _ _ _) H)
  | (match ?x with _ => _ end) _ = (Ok _, _) =>
      lazymatch type of x with (_ * _)%type => destruct x; minv H | _ => idtac end
  | _ => mstep_ext H
  end.

(** Pass a guard at the head of [H]: [G] is what it checked; the state keeps its name. *)
Tactic Notation "mguard" hyp(H) "as" ident(G) :=
  let u := fresh in let s := fresh in
  apply bind_Ok in H as (u & s & G & H); apply guard_err_Ok in G as [G <-].

(** Split a bind whose head is one of the test forms above. *)
Ltac case_bool_in H :=
  match type of H with
  | context [if ?b then _ else _] => let E := fresh "Hb" in destruct b eqn:E
  | context [match ?o with Some _ => _ | None => _ end] =>
      let E := fresh "Ho" in destruct o eqn:E
  end.

(** [keeps_solve] walks a program; the leaves are the hints of database [keeps]. *)
Create HintDb keeps discriminated.
#[export] Hint Constants Opaque : keeps.
#[export] Hint Extern 0 (PreOrder _) => tc_solve : keeps.

Ltac keeps_leaf := fail.
Ltac keeps_step :=
  intros;
  lazymatch goal with
  | |- keeps _ (_ ≫= _) => apply keeps_bind
  | |- keeps _ (_ <$> _) => apply keeps_fmap
  | |- keeps _ (on_err _ _) => apply keeps_on_err
  | |- keeps _ (try _) => apply keeps_try
  | |- keeps _ (mret _) => apply keeps_ret
  | |- keeps _ (throw _) => apply keeps_throw
  | |- keeps _ (panic _) => apply keeps_panic
  | |- keeps _ (guard_err _ _) => apply keeps_guard_err
  | |- keeps _ (of_option _ _) => apply keeps_of_option
  | |- keeps _ (of_sum _) => apply keeps_of_sum
  | |- keeps _ (foldM _ _ _) => apply keeps_foldM
  | |- keeps _ (mapM_ _ _) => apply keeps_mapM_
  | |- keeps _ (match ?x with _ => _ end) => destruct x
  | |- PreOrder _ => tc_solve
  | |- keeps _ _ => first [solve [auto with keeps] | keeps_leaf]
  end.
Ltac keeps_solve := repeat keeps_step.

Create HintDb errs discriminated.
#[export] Hint Constants Opaque : errs.

(** The same walk for [errs]; what is left are the errors the program names. *)
Ltac errs_leaf := fail.
Ltac errs_step :=
  intros;
  lazymatch goal with
  | |- errs _ (_ ≫= _) => apply errs_bind
  | |- errs _ (on_err _ _) => apply errs_on_err
  | |- errs _ (mret _) => apply errs_ret
  | |- errs _ (throw _) => apply errs_throw
  | |- errs _ (panic _) => apply errs_panic
  | |- errs _ (guard_err _ _) => apply errs_guard_err
  | |- errs _ (try _) => apply errs_try
  | |- errs _ (of_sum _) => apply errs_of_sum
  | |- errs _ (of_option _ _) => apply errs_of_option
  | |- errs _ (foldM _ _ _) => apply errs_foldM
  | |- errs _ (mapM_ _ _) => apply errs_mapM_
  | |- errs _ (match ?x with _ => _ end) => destruct x
  | |- errs _ _ => first [solve [auto with errs] | errs_leaf]
  end.
Ltac errs_solve := repeat errs_step.

(** Continue from a failed run [m s = (Err e, s')] with an [errs] goal for [m]. *)
Ltac errs_in H Q :=
  match type of H with
  | ?m _ = (Err _, _) =>
      let K := fresh in
      assert (errs Q m) as K; [errs_solve | apply K in H]
  end.
