(* ===== verification/Safe.v ===== *)
(** A program logic for invariants.

    [safe I R m Q]: from a state that satisfies [I], every outcome of [m] - a value, an error or
    a panic - leaves a state that satisfies [I] and is [R]-related to the first one, and a value
    satisfies [Q] there.  [R] is a preorder along which the facts a caller holds on to are
    stable.  The rules follow the constructors of the monad, so a proof walks the code. *)
From S2P Require Import Prelude.
From stdpp Require Import base tactics list.

Section safe.
Context {S E : Type} (I : S -> Prop) (R : S -> S -> Prop).

Definition safe {A} (m : stm S E A) (Q : A -> S -> Prop) : Prop :=
  forall s r s', I s -> m s = (r, s') -> I s' /\ R s s' /\ forall a, r = Ok a -> Q a s'.

(** A fact a caller keeps while other code runs. *)
Definition stable (P : S -> Prop) : Prop := forall s s', R s s' -> P s -> P s'.

Lemma stable_pure (P : Prop) : stable (fun _ => P).
Proof. by intros s s' _. Qed.
Lemma stable_and (P Q : S -> Prop) : stable P -> stable Q -> stable (fun s => P s /\ Q s).
Proof. intros HP HQ s s' Hs [H K]. split; [by eapply HP | by eapply HQ]. Qed.
Lemma stable_impl (P : Prop) (Q : S -> Prop) : stable Q -> stable (fun s => P -> Q s).
Proof. intros HQ s s' Hs H HP. eapply HQ; [done|by apply H]. Qed.

Context `{!PreOrder R}.

Lemma safe_weaken {A} (m : stm S E A) (Q Q' : A -> S -> Prop) :
  safe m Q -> (forall a s, I s -> Q a s -> Q' a s) -> safe m Q'.
Proof.
  intros Hm HQ s r s' Hs Hr. destruct (Hm s r s' Hs Hr) as (Hi & Hr' & Hq).
  split_and!; [done..|]. intros a E0. by apply HQ, Hq.
Qed.

Lemma safe_ret {A} (a : A) (Q : A -> S -> Prop) : (forall s, I s -> Q a s) -> safe (mret a) Q.
Proof. intros HQ s r s' Hs [= <- <-]. split_and!; [done..|]. intros b [= <-]. by apply HQ. Qed.

Lemma safe_throw {A} e (Q : A -> S -> Prop) : safe (throw e) Q.
Proof. intros s r s' Hs [= <- <-]. by split_and!. Qed.

Lemma safe_panic {A} e (Q : A -> S -> Prop) : safe (panic e) Q.
Proof. intros s r s' Hs [= <- <-]. by split_and!. Qed.

Lemma safe_guard_err c e : safe (guard_err c e) (fun _ _ => c = false).
Proof. destruct c; [apply safe_throw | by apply safe_ret]. Qed.

(** What held before [m] and is stable still holds for the code that follows. *)
Lemma safe_frame {A} (P : S -> Prop) (m : stm S E A) (Q : A -> S -> Prop) s r s' :
  stable P -> safe m Q -> I s -> P s -> m s = (r, s') ->
  I s' /\ R s s' /\ P s' /\ forall a, r = Ok a -> Q a s'.
Proof.
  intros HP Hm Hs HPs Hr. destruct (Hm s r s' Hs Hr) as (Hi & Hr' & Hq).
  split_and!; [done..|by eapply HP|done].
Qed.

(** A triple with a precondition that is stable. *)
Definition triple {A} (P : S -> Prop) (m : stm S E A) (Q : A -> S -> Prop) : Prop :=
  forall s r s', I s -> P s -> m s = (r, s') -> I s' /\ R s s' /\ forall a, r = Ok a -> Q a s'.

Lemma triple_safe {A} P (m : stm S E A) Q : safe m Q -> triple P m Q.
Proof. intros Hm s r s' Hs _. by apply Hm. Qed.

Lemma safe_triple {A} (m : stm S E A) Q : triple (fun _ => True) m Q -> safe m Q.
Proof. intros Hm s r s' Hs. by apply Hm. Qed.

Lemma triple_weaken {A} (P P' : S -> Prop) (m : stm S E A) (Q Q' : A -> S -> Prop) :
  triple P m Q -> (forall s, I s -> P' s -> P s) -> (forall a s, I s -> Q a s -> Q' a s) -> triple P' m Q'.
Proof.
  intros Hm HP HQ s r s' Hs Hps Hr. destruct (Hm s r s' Hs (HP _ Hs Hps) Hr) as (Hi & Hr' & Hq).
  split_and!; [done..|]. intros a E0. by apply HQ, Hq.
Qed.

Lemma triple_any {A} P (m : stm S E A) Q : triple (fun _ => True) m Q -> triple P m Q.
Proof. intros Hm s r s' Hs _. by apply Hm. Qed.

Lemma triple_drop {A} P (m : stm S E A) Q : triple P m Q -> triple P m (fun _ _ => True).
Proof. intros Hm s r s' Hs HP Hr. destruct (Hm s r s' Hs HP Hr) as (? & ? & _). by split_and!. Qed.

(** A precondition that speaks of no state is a hypothesis. *)
Lemma triple_pure {A} (X : Prop) (P : S -> Prop) (m : stm S E A) Q :
  (X -> triple P m Q) -> triple (fun s => X /\ P s) m Q.
Proof. intros H s r s' Hs [HX HP]. by apply H. Qed.

Lemma triple_ret {A} (a : A) (P : S -> Prop) (Q : A -> S -> Prop) :
  (forall s, I s -> P s -> Q a s) -> triple P (mret a) Q.
Proof. intros HQ s r s' Hs HP [= <- <-]. split_and!; [done..|]. intros b [= <-]. by apply HQ. Qed.

Lemma triple_throw {A} e P (Q : A -> S -> Prop) : triple P (throw e) Q.
Proof. apply triple_safe, safe_throw. Qed.

Lemma triple_bind {A B} (P : S -> Prop) (m : stm S E A) (k : A -> stm S E B)
    (Q : A -> S -> Prop) (Q' : B -> S -> Prop) :
  stable P -> triple P m Q -> (forall a, triple (fun s => Q a s /\ P s) (k a) Q') -> triple P (m ≫= k) Q'.
Proof.
  intros HP Hm Hk s r s' Hs HPs. unfold mbind, stm_bind. destruct (m s) as [o s1] eqn:Em.
  destruct (Hm s o s1 Hs HPs Em) as (Hi & Hr & Hq).
  destruct o as [a|e|w]; intros Hr'.
  - destruct (Hk a s1 r s' Hi) as (Hi' & Hr2 & Hq'); [split; [by apply Hq | by eapply HP] | done |].
    split_and!; [done | by etrans | done].
  - injection Hr' as <- <-. by split_and!.
  - injection Hr' as <- <-. by split_and!.
Qed.

Lemma triple_on_err {A} f P (m : stm S E A) Q : triple P m Q -> triple P (on_err f m) Q.
Proof.
  intros Hm s r s' Hs HPs. unfold on_err. destruct (m s) as [o s1] eqn:Em.
  destruct (Hm s o s1 Hs HPs Em) as (Hi & Hr & Hq).
  destruct o; intros [= <- <-]; by split_and!.
Qed.

Lemma triple_try {A} P (m : stm S E A) Q :
  triple P m Q -> triple P (try m) (fun v s => match v with inr a => Q a s | inl _ => True end).
Proof.
  intros Hm s r s' Hs HPs. unfold try. destruct (m s) as [o s1] eqn:Em.
  destruct (Hm s o s1 Hs HPs Em) as (Hi & Hr & Hq).
  destruct o; intros [= <- <-]; split_and!; try done; intros a0 [= <-]; [by apply Hq | done].
Qed.

Lemma triple_guard_err P c e : triple P (guard_err c e) (fun _ _ => c = false).
Proof. apply triple_safe, safe_guard_err. Qed.

(** The two steps a walk takes most: a call whose reply tells nothing, and an early return. *)
Lemma triple_then {A B} P (m : stm S E A) (k : A -> stm S E B) Q :
  stable P -> triple P m (fun _ _ => True) -> (forall a, triple P (k a) Q) -> triple P (m ≫= k) Q.
Proof.
  intros HP Hm Hk. eapply triple_bind; [done..|]. intros a.
  eapply triple_weaken; [apply Hk | by intros s _ [_ H] | done].
Qed.

(** A call whose reply is known to satisfy something that speaks of no state. *)
Lemma triple_learn {A B} P (m : stm S E A) (k : A -> stm S E B) (F : A -> Prop) Q :
  stable P -> triple P m (fun a _ => F a) -> (forall a, F a -> triple P (k a) Q) -> triple P (m ≫= k) Q.
Proof.
  intros HP Hm Hk. eapply triple_bind; [done..|]. intros a.
  apply (triple_pure (F a)). apply Hk.
Qed.

Lemma triple_guard {B} P c e (k : unit -> stm S E B) Q :
  stable P -> (c = false -> triple P (k tt) Q) -> triple P (guard_err c e ≫= k) Q.
Proof.
  intros HP Hk. eapply triple_bind; [done | apply triple_guard_err | intros []].
  apply triple_pure. exact Hk.
Qed.

Lemma triple_fmap {A B} (f : A -> B) P (m : stm S E A) Q :
  triple P m (fun a => Q (f a)) -> triple P (f <$> m) Q.
Proof.
  intros Hm s r s' Hs HPs. unfold fmap, stm_fmap. destruct (m s) as [o s1] eqn:Em.
  destruct (Hm s o s1 Hs HPs Em) as (Hi & Hr & Hq).
  destruct o; intros [= <- <-]; split_and!; try done. intros b [= <-]. by apply Hq.
Qed.

Lemma triple_mapM {X} P (f : X -> stm S E unit) l :
  stable P -> (forall x, triple P (f x) (fun _ _ => True)) -> triple P (mapM_ f l) (fun _ _ => True).
Proof.
  intros HP Hf. induction l as [|x l IH]; simpl; [by apply triple_ret|].
  eapply triple_bind; [done | apply Hf | intros []].
  eapply triple_weaken; [apply IH | by intros s _ [_ H] | done].
Qed.
End safe.

Create HintDb stable.
#[export] Hint Resolve stable_pure stable_and stable_impl : stable.

(** Applies a rule and settles its preorder. *)
Tactic Notation "rule" uconstr(t) :=
  eapply t; try lazymatch goal with |- PreOrder _ => tc_solve end.
