(* ===== verification/GoStrings.v ===== *)
(** Package strings and SQL LIKE, as the remark conventions use them.

    A Go string is a byte sequence, here a [string] of 8-bit characters.  [trim_space] is
    strings.TrimSpace: it removes the encodings of the Unicode white space code points at
    both ends.  [like] is SQL LIKE on UTF-8 text: an underscore stands for one character. *)
From S2P Require Import Prelude.
From stdpp Require Import base tactics strings list.
From Stdlib Require Import NArith Lia Ascii.

(** strings.CutPrefix *)
Fixpoint cut_prefix (pre s : string) : option string :=
  match pre, s with
  | EmptyString, _ => Some s
  | String a pre', String b s' => if Ascii.eqb a b then cut_prefix pre' s' else None
  | String _ _, EmptyString => None
  end.

(** strings.Cut: around the first occurrence of [sep]. *)
Fixpoint cut_first (sep s : string) : option (string * string) :=
  match cut_prefix sep s with
  | Some t => Some (EmptyString, t)
  | None =>
      match s with
      | EmptyString => None
      | String a s' => match cut_first sep s' with Some (b, t) => Some (String a b, t) | None => None end
      end
  end.

(** The text around the last occurrence of a non-empty [sep]: strings.LastIndex and slicing. *)
Fixpoint cut_last (sep s : string) : option (string * string) :=
  match s with
  | EmptyString => None
  | String a s' =>
      match cut_last sep s' with
      | Some (b, t) => Some (String a b, t)
      | None => match cut_prefix sep s with Some t => Some (EmptyString, t) | None => None end
      end
  end.

(** ** strings.TrimSpace *)

Definition bytes (l : list N) : string := String.string_of_list_ascii (ascii_of_N <$> l).

(** The UTF-8 encodings of unicode.IsSpace. *)
Definition spaces : list string :=
  bytes <$> [[9]; [10]; [11]; [12]; [13]; [32]; [194; 133]; [194; 160]; [225; 154; 128];
             [226; 128; 128]; [226; 128; 129]; [226; 128; 130]; [226; 128; 131]; [226; 128; 132];
             [226; 128; 133]; [226; 128; 134]; [226; 128; 135]; [226; 128; 136]; [226; 128; 137];
             [226; 128; 138]; [226; 128; 168]; [226; 128; 169]; [226; 128; 175]; [226; 129; 159];
             [227; 128; 128]]%N.

Definition cut_space (sps : list string) (s : string) : option string :=
  head (omap (fun sp => cut_prefix sp s) sps).

(** Each round removes at least one byte, so the length of the string is fuel enough. *)
Fixpoint trim_left (sps : list string) (fuel : nat) (s : string) : string :=
  match fuel with
  | O => s
  | S n => match cut_space sps s with Some t => trim_left sps n t | None => s end
  end.

Definition rev_string (s : string) : string :=
  String.string_of_list_ascii (rev (String.list_ascii_of_string s)).

Definition trim_space (s : string) : string :=
  let s := trim_left spaces (String.length s) s in
  rev_string (trim_left (rev_string <$> spaces) (String.length s) (rev_string s)).

(** ** SQL LIKE *)

Inductive like_item := LikeChar (a : ascii) | LikeOne | LikeMany.

Fixpoint like_pattern (s : string) : list like_item :=
  match s with
  | EmptyString => []
  | String a s' =>
      (if Ascii.eqb a "%" then LikeMany else if Ascii.eqb a "_" then LikeOne else LikeChar a)
      :: like_pattern s'
  end.

(** The continuation bytes of a UTF-8 character. *)
Fixpoint skip_continuation (s : string) : string :=
  match s with
  | String a s' => if N.eqb (N.land (N_of_ascii a) 192) 128 then skip_continuation s' else s
  | EmptyString => EmptyString
  end.

Fixpoint like (p : list like_item) : string -> bool :=
  match p with
  | [] => fun s => String.eqb s EmptyString
  | LikeChar a :: p' => fun s =>
      match s with String b s' => Ascii.eqb a b && like p' s' | EmptyString => false end
  | LikeOne :: p' => fun s =>
      match s with String _ s' => like p' (skip_continuation s') | EmptyString => false end
  | LikeMany :: p' => fix many (s : string) : bool :=
      like p' s || match s with String _ s' => many s' | EmptyString => false end
  end.

(** ** Laws *)

#[local] Arguments String.append : simpl nomatch.

Lemma cut_prefix_app p s : cut_prefix p (p ++ s) = Some s.
Proof. induction p as [|a p IH]; simpl; [done|]. by rewrite Ascii.eqb_refl. Qed.

Lemma cut_prefix_Some p s t : cut_prefix p s = Some t -> s = (p ++ t)%string.
Proof.
  revert s. induction p as [|a p IH]; intros s H; [by injection H|].
  destruct s as [|b s]; [done|]. cbn [cut_prefix] in H.
  destruct (Ascii.eqb_spec a b) as [->|]; [|done]. by rewrite (IH _ H).
Qed.

Definition chars (s : string) : list ascii := String.list_ascii_of_string s.

Lemma chars_app s t : chars (s ++ t) = chars s ++ chars t.
Proof. induction s; simpl; [done|]. f_equal. exact IHs. Qed.

Lemma of_chars s : String.string_of_list_ascii (chars s) = s.
Proof. apply String.string_of_list_ascii_of_string. Qed.

Lemma append_assoc a b c : ((a ++ b) ++ c = a ++ (b ++ c))%string.
Proof. induction a; simpl; congruence. Qed.

(** An occurrence found late starts late: the text after the separator contains its last
    character. *)
Lemma cut_last_None sep c s :
  c ∉ chars s -> cut_last (sep ++ String c EmptyString) s = None.
Proof.
  induction s as [|a s IH]; intros H; [done|]. cbn [cut_last].
  rewrite IH by (intros Hc; apply H; by right).
  destruct (cut_prefix _ _) as [t|] eqn:E; [|done].
  apply cut_prefix_Some in E. exfalso. apply H. rewrite E, !chars_app.
  apply elem_of_app. left. apply elem_of_app. right. by left.
Qed.

Lemma cut_prefix_tail sep c a s t :
  cut_prefix (sep ++ String c EmptyString) (s ++ t) = Some a ->
  (String.length s < String.length sep + 1)%nat -> c ∈ chars t.
Proof.
  intros E%cut_prefix_Some Hl.
  assert (forall p q, (String.length q < String.length p + 1)%nat ->
    forall x, (q ++ x = (p ++ String c EmptyString) ++ a)%string -> c ∈ chars x) as K.
  { clear. induction p as [|b p IH]; intros [|d q] Hl x H; simpl in *; try lia.
    - rewrite H. left.
    - rewrite H. right. rewrite !chars_app. apply elem_of_app. left. apply elem_of_app. right. left.
    - injection H as _ H. apply (IH q); [lia|done]. }
  by eapply K.
Qed.

(** With no later separator character, the last occurrence is the one that was put there. *)
Lemma cut_last_app sep c b t :
  c ∉ chars t ->
  cut_last (sep ++ String c EmptyString) (b ++ (sep ++ String c EmptyString) ++ t) = Some (b, t).
Proof.
  intros Ht. set (key := (sep ++ String c EmptyString)%string).
  assert (forall q, (String.length q < String.length key)%nat -> cut_last key (q ++ t) = None) as K.
  { induction q as [|a q IH]; intros Hl; [by apply cut_last_None|]. simpl in *.
    rewrite IH by lia. destruct (cut_prefix key (String a (q ++ t))) as [x|] eqn:E; [|done].
    exfalso. apply Ht. apply (cut_prefix_tail sep c x (String a q) t); [exact E|].
    unfold key in Hl. clear -Hl. simpl. revert Hl. generalize sep. intros sep0. 
    assert (String.length (sep0 ++ String c EmptyString) = (String.length sep0 + 1)%nat) as ->
      by (induction sep0; simpl; congruence). lia. }
  induction b as [|a b IH]; simpl.
  - destruct key as [|k0 key'] eqn:Ek; [by destruct sep|]. simpl.
    rewrite K by (simpl; lia). rewrite Ascii.eqb_refl, cut_prefix_app. done.
  - by rewrite IH.
Qed.

Lemma cut_first_app sep c b t :
  c ∉ chars b -> sep = String c EmptyString -> cut_first sep (b ++ sep ++ t) = Some (b, t).
Proof.
  intros Hb ->. induction b as [|a b IH]; simpl in *.
  - by rewrite Ascii.eqb_refl.
  - destruct (Ascii.eqb_spec c a) as [->|]; [exfalso; apply Hb; left|].
    rewrite IH; [done|]. intros H. apply Hb. by right.
Qed.

(** ** Text without white space *)

(** Printable ASCII: no space starts or ends with one of these. *)
Definition plain (a : ascii) : Prop := (33 <= N_of_ascii a <= 126)%N.

Lemma cut_space_plain sps a s :
  Forall (fun sp => exists b t, sp = String b t /\ ~ plain b) sps -> plain a -> cut_space sps (String a s) = None.
Proof.
  intros H Ha. unfold cut_space. induction H as [|sp sps (b & t & -> & Hb) _ IH]; [done|].
  simpl. destruct (Ascii.eqb_spec b a) as [->|]; [done|]. exact IH.
Qed.

Definition plainb (a : ascii) : bool := N.leb 33 (N_of_ascii a) && N.leb (N_of_ascii a) 126.
Lemma plain_spec a : plainb a = true <-> plain a.
Proof. unfold plainb, plain. rewrite andb_true_iff, !N.leb_le. tauto. Qed.

Definition unplain_head (s : string) : bool :=
  match s with String b _ => negb (plainb b) | EmptyString => false end.

Lemma unplain_heads l :
  forallb unplain_head l = true -> Forall (fun sp => exists b t, sp = String b t /\ ~ plain b) l.
Proof.
  intros H. apply Forall_forall. intros s Hs. rewrite forallb_forall in H.
  apply list_elem_of_In, H in Hs. destruct s as [|b t]; [done|]. exists b, t. split; [done|].
  rewrite <- plain_spec. simpl in Hs. by destruct (plainb b).
Qed.

Lemma trim_left_plain sps n s :
  forallb unplain_head sps = true -> Forall plain (chars s) -> trim_left sps n s = s.
Proof.
  intros Hs Hp. destruct n as [|n]; [done|]. simpl. destruct s as [|a s].
  - destruct (cut_space sps "") as [t|] eqn:E; [|done]. exfalso. revert E. clear -Hs. unfold cut_space.
    induction sps as [|sp sps IH]; [done|]. simpl in *. apply andb_true_iff in Hs as [H1 H2].
    destruct sp; [done|]. simpl. by apply IH.
  - rewrite cut_space_plain; [done|by apply unplain_heads|]. by inversion Hp.
Qed.

Lemma chars_rev s : chars (rev_string s) = rev (chars s).
Proof. unfold rev_string, chars. apply String.list_ascii_of_string_of_list_ascii. Qed.
Lemma rev_rev_string s : rev_string (rev_string s) = s.
Proof.
  unfold rev_string at 1. fold (chars (rev_string s)). rewrite chars_rev, rev_involutive. apply of_chars.
Qed.

Lemma spaces_unplain :
  forallb unplain_head spaces = true /\ forallb unplain_head (rev_string <$> spaces) = true.
Proof. by split; vm_compute. Qed.

Lemma trim_space_plain s : Forall plain (chars s) -> trim_space s = s.
Proof.
  intros H. unfold trim_space. destruct spaces_unplain as [H1 H2].
  rewrite (trim_left_plain spaces _ s H1 H), trim_left_plain; [apply rev_rev_string|done|].
  rewrite chars_rev. rewrite Forall_forall in *. intros x Hx. apply H.
  rewrite list_elem_of_In in *. by apply in_rev.
Qed.

(** ** The first rune of a text

    [string([]rune(s)[0])]: the first UTF-8 sequence, or U+FFFD for a byte that starts none. *)

Definition byte_in (lo hi : N) (a : ascii) : bool := N.leb lo (N_of_ascii a) && N.leb (N_of_ascii a) hi.

(** The range the second byte must be in and how many bytes follow the lead byte. *)
Definition rune_shape (lead : ascii) : option (N * N * nat) :=
  let n := N_of_ascii lead in
  if N.ltb n 128%N then Some (0%N, 0%N, 0%nat)
  else if N.ltb n 194%N then None
  else if N.ltb n 224%N then Some (128%N, 191%N, 1%nat)
  else if N.eqb n 224%N then Some (160%N, 191%N, 2%nat)
  else if N.eqb n 237%N then Some (128%N, 159%N, 2%nat)
  else if N.ltb n 240%N then Some (128%N, 191%N, 2%nat)
  else if N.eqb n 240%N then Some (144%N, 191%N, 3%nat)
  else if N.ltb n 244%N then Some (128%N, 191%N, 3%nat)
  else if N.eqb n 244%N then Some (128%N, 143%N, 3%nat)
  else None.

Definition replacement_rune : string := bytes [239; 191; 189]%N.

Definition first_rune (s : string) : string :=
  match chars s with
  | [] => ""%string
  | lead :: rest =>
      match rune_shape lead with
      | None => replacement_rune
      | Some (lo, hi, k) =>
          let tail := take k rest in
          if Nat.eqb (length tail) k
             && match tail with [] => true | b :: bs => byte_in lo hi b && forallb (byte_in 128%N 191%N) bs end
          then String.string_of_list_ascii (lead :: tail)
          else replacement_rune
      end
  end.
