(* ===== verification/Rounding.v ===== *)
(** Rounding to decimal places on the rationals.

    [qround n q] is [q] rounded to [n] decimal places, ties away from zero: the
    rule of decimal.Round, of decimal.Div's last digit and of a PostgreSQL
    NUMERIC column.  [on_scale n q] says that [q] has at most [n] decimals. *)
From S2P Require Import Prelude.
From stdpp Require Import base tactics.
From Stdlib Require Import ZArith QArith Qround Qabs Lqa Lia Field Qminmax.

Local Open Scope Q_scope.

Definition pow10 (n : nat) : Q := inject_Z (10 ^ Z.of_nat n).

(** Nearest integer, ties away from zero. *)
Definition half_away (x : Q) : Z :=
  if Qle_bool 0 x then Qfloor (x + (1#2)) else (- Qfloor (- x + (1#2)))%Z.

Definition qround (n : nat) (q : Q) : Q := inject_Z (half_away (q * pow10 n)) / pow10 n.

Definition on_scale (n : nat) (q : Q) : Prop := exists z : Z, q * pow10 n == inject_Z z.

Lemma pow10_pos n : 0 < pow10 n.
Proof. unfold pow10. rewrite <- (Zlt_Qlt 0). apply Z.pow_pos_nonneg; lia. Qed.

Lemma pow10_nonzero n : ~ pow10 n == 0.
Proof. pose proof (pow10_pos n). lra. Qed.

Lemma pow10_ge_1 n : 1 <= pow10 n.
Proof.
  unfold pow10. change 1 with (inject_Z 1). rewrite <- Zle_Qle.
  pose proof (Z.pow_pos_nonneg 10 (Z.of_nat n)). lia.
Qed.

#[export] Hint Resolve pow10_nonzero pow10_pos : core.

Lemma half_away_bounds x :
  inject_Z (half_away x) <= x + (1#2) /\ x - (1#2) <= inject_Z (half_away x).
Proof.
  unfold half_away. destruct (Qle_bool 0 x).
  - pose proof (Qfloor_le (x + (1#2))). pose proof (Qlt_floor (x + (1#2))) as H2.
    rewrite inject_Z_plus in H2. change (inject_Z 1) with 1 in H2. lra.
  - pose proof (Qfloor_le (- x + (1#2))). pose proof (Qlt_floor (- x + (1#2))) as H2.
    rewrite inject_Z_plus in H2. change (inject_Z 1) with 1 in H2.
    rewrite inject_Z_opp. lra.
Qed.

Lemma Qfloor_unique x z : inject_Z z <= x -> x < inject_Z z + 1 -> Qfloor x = z.
Proof.
  intros H1 H2.
  pose proof (Qfloor_le x) as H3. pose proof (Qlt_floor x) as H4.
  rewrite inject_Z_plus in H4. change (inject_Z 1) with 1 in H4.
  assert (inject_Z z < inject_Z (Qfloor x + 1)) as H5.
  { rewrite inject_Z_plus. change (inject_Z 1) with 1. lra. }
  assert (inject_Z (Qfloor x) < inject_Z (z + 1)) as H6.
  { rewrite inject_Z_plus. change (inject_Z 1) with 1. lra. }
  rewrite <- Zlt_Qlt in H5, H6. lia.
Qed.

Lemma half_away_Z z x : x == inject_Z z -> half_away x = z.
Proof.
  intros Hx. unfold half_away. destruct (Qle_bool 0 x) eqn:E.
  - apply Qfloor_unique; lra.
  - rewrite (Qfloor_unique _ (- z)); [lia | rewrite inject_Z_opp; lra ..].
Qed.

#[export] Instance half_away_proper : Proper (Qeq ==> eq) half_away.
Proof.
  intros x y Hxy. unfold half_away.
  replace (Qle_bool 0 y) with (Qle_bool 0 x).
  2: { apply eq_true_iff_eq. rewrite !Qle_bool_iff. by rewrite Hxy. }
  destruct (Qle_bool 0 x); [|f_equal]; apply Qfloor_comp; by rewrite Hxy.
Qed.

Lemma half_away_nonneg x : 0 <= x -> (0 <= half_away x)%Z.
Proof.
  intros Hx. pose proof (half_away_bounds x) as [_ H].
  assert (inject_Z (-1) < inject_Z (half_away x)) as H1
    by (change (inject_Z (-1)) with (-(1)); lra).
  rewrite <- Zlt_Qlt in H1. lia.
Qed.

Lemma half_away_mono x y : x <= y -> (half_away x <= half_away y)%Z.
Proof.
  intros Hxy. unfold half_away.
  destruct (Qle_bool 0 x) eqn:Ex, (Qle_bool 0 y) eqn:Ey.
  - apply Qfloor_resp_le. lra.
  - exfalso. apply Qle_bool_iff in Ex.
    assert (Qle_bool 0 y = true) by (apply Qle_bool_iff; lra). congruence.
  - assert (x < 0) as Hx0.
    { apply Qnot_le_lt. intros H. apply Qle_bool_iff in H. congruence. }
    apply Qle_bool_iff in Ey.
    transitivity 0%Z.
    + assert (0 <= - x + (1#2)) as H by lra. apply Qfloor_resp_le in H. change (Qfloor 0) with 0%Z in H. lia.
    + assert (0 <= y + (1#2)) as H by lra. apply Qfloor_resp_le in H. change (Qfloor 0) with 0%Z in H. lia.
  - assert (- y + (1#2) <= - x + (1#2)) as H by lra. apply Qfloor_resp_le in H. lia.
Qed.

#[export] Instance qround_proper n : Proper (Qeq ==> Qeq) (qround n).
Proof. intros x y Hxy. unfold qround. by rewrite Hxy. Qed.

Lemma qround_bounds n q :
  q - (1#2) / pow10 n <= qround n q <= q + (1#2) / pow10 n.
Proof.
  unfold qround. pose proof (half_away_bounds (q * pow10 n)) as [H1 H2].
  pose proof (pow10_pos n) as Hp. split.
  - apply Qle_shift_div_l; [done|].
    setoid_replace ((q - (1#2) / pow10 n) * pow10 n) with (q * pow10 n - (1#2)) using relation Qeq; [done|].
    field. auto.
  - apply Qle_shift_div_r; [done|].
    setoid_replace ((q + (1#2) / pow10 n) * pow10 n) with (q * pow10 n + (1#2)) using relation Qeq; [done|].
    field. auto.
Qed.

Lemma qround_on_scale n q : on_scale n (qround n q).
Proof. exists (half_away (q * pow10 n)). unfold qround. field. auto. Qed.

Lemma qround_id n q : on_scale n q -> qround n q == q.
Proof.
  intros [z Hz]. unfold qround. rewrite (half_away_Z z) by done.
  rewrite <- Hz. field. auto.
Qed.

Lemma qround_mono n p q : p <= q -> qround n p <= qround n q.
Proof.
  intros H. unfold qround, Qdiv. apply Qmult_le_compat_r.
  - rewrite <- Zle_Qle. apply half_away_mono. apply Qmult_le_compat_r; [done|].
    apply Qlt_le_weak; auto.
  - apply Qlt_le_weak, Qinv_lt_0_compat; auto.
Qed.

Lemma on_scale_Z n z : on_scale n (inject_Z z).
Proof. exists (z * 10 ^ Z.of_nat n)%Z. unfold pow10. by rewrite inject_Z_mult. Qed.

Lemma on_scale_0 n : on_scale n 0.
Proof. apply (on_scale_Z n 0). Qed.

Lemma qround_nonneg n q : 0 <= q -> 0 <= qround n q.
Proof.
  intros H. rewrite <- (qround_id n 0) by apply on_scale_0. by apply qround_mono.
Qed.

#[export] Instance on_scale_proper n : Proper (Qeq ==> iff) (on_scale n).
Proof. intros p q H. unfold on_scale. split; intros [z Hz]; exists z; rewrite <- Hz; by rewrite H. Qed.

Lemma on_scale_plus n p q : on_scale n p -> on_scale n q -> on_scale n (p + q).
Proof.
  intros [a Ha] [b Hb]. exists (a + b)%Z. rewrite inject_Z_plus, <- Ha, <- Hb. ring.
Qed.

Lemma on_scale_opp n p : on_scale n p -> on_scale n (- p).
Proof. intros [a Ha]. exists (- a)%Z. rewrite inject_Z_opp, <- Ha. ring. Qed.

Lemma on_scale_minus n p q : on_scale n p -> on_scale n q -> on_scale n (p - q).
Proof. intros. apply on_scale_plus; [done|]. by apply on_scale_opp. Qed.

Lemma pow10_add n m : pow10 (n + m) == pow10 n * pow10 m.
Proof.
  unfold pow10. rewrite <- inject_Z_mult, Nat2Z.inj_add, Z.pow_add_r by lia. reflexivity.
Qed.

Lemma on_scale_mult n m p q : on_scale n p -> on_scale m q -> on_scale (n + m) (p * q).
Proof.
  intros [a Ha] [b Hb]. exists (a * b)%Z.
  rewrite inject_Z_mult, <- Ha, <- Hb, pow10_add. ring.
Qed.

Lemma on_scale_weaken n m q : (n <= m)%nat -> on_scale n q -> on_scale m q.
Proof.
  intros Hle Hq. replace m with (n + (m - n))%nat by lia.
  rewrite <- (Qmult_1_r q). apply on_scale_mult; [done|]. apply (on_scale_Z _ 1).
Qed.

(** Two numbers with at most [n] decimals differ by nothing or by a full step. *)
Lemma on_scale_gap n p q : on_scale n p -> on_scale n q -> p < q -> p + 1 / pow10 n <= q.
Proof.
  intros [a Ha] [b Hb] Hlt. pose proof (pow10_pos n) as Hp.
  assert (inject_Z a < inject_Z b) as Hab.
  { rewrite <- Ha, <- Hb. by apply Qmult_lt_r. }
  rewrite <- Zlt_Qlt in Hab.
  assert (inject_Z (a + 1) <= inject_Z b) as Hab2 by (rewrite <- Zle_Qle; lia).
  rewrite inject_Z_plus, <- Ha, <- Hb in Hab2. change (inject_Z 1) with 1 in Hab2.
  apply (Qmult_le_r _ _ (pow10 n)); [done|].
  setoid_replace ((p + 1 / pow10 n) * pow10 n) with (p * pow10 n + 1) using relation Qeq; [done|].
  field. auto.
Qed.

Lemma on_scale_max n p q : on_scale n p -> on_scale n q -> on_scale n (Qmax p q).
Proof. intros Hp Hq. by destruct (Q.max_spec p q) as [[_ ->]|[_ ->]]. Qed.
Lemma on_scale_min n p q : on_scale n p -> on_scale n q -> on_scale n (Qmin p q).
Proof. intros Hp Hq. by destruct (Q.min_spec p q) as [[_ ->]|[_ ->]]. Qed.

#[export] Instance on_scale_dec n q : Decision (on_scale n q).
Proof.
  destruct (Qeq_dec (qround n q) q) as [H|H]; [left|right].
  - rewrite <- H. apply qround_on_scale.
  - intros Hs. apply H. by apply qround_id.
Defined.

Create HintDb scale discriminated.
#[export] Hint Resolve on_scale_0 on_scale_Z on_scale_plus on_scale_opp on_scale_minus
  on_scale_max on_scale_min qround_on_scale qround_nonneg : scale.

(** Linear goals with [Qmin] and [Qmax]. *)
Ltac qminmax :=
  repeat match goal with
  | |- context [Qmin ?a ?b] =>
      let m := fresh "m" in let H := fresh in
      pose proof (Q.min_spec a b) as H; set (m := Qmin a b) in *; clearbody m;
      destruct H as [[? ?]|[? ?]]
  | |- context [Qmax ?a ?b] =>
      let m := fresh "m" in let H := fresh in
      pose proof (Q.max_spec a b) as H; set (m := Qmax a b) in *; clearbody m;
      destruct H as [[? ?]|[? ?]]
  | H0 : context [Qmin ?a ?b] |- _ =>
      let m := fresh "m" in let H := fresh in
      pose proof (Q.min_spec a b) as H; set (m := Qmin a b) in *; clearbody m;
      destruct H as [[? ?]|[? ?]]
  | H0 : context [Qmax ?a ?b] |- _ =>
      let m := fresh "m" in let H := fresh in
      pose proof (Q.max_spec a b) as H; set (m := Qmax a b) in *; clearbody m;
      destruct H as [[? ?]|[? ?]]
  end; lra.
