(* ===== verification/Decimal.v ===== *)
(** The decimal library interface.

    shopspring/decimal is not part of the repository: its operations are the
    class [DecimalOps] and its documented behaviour the class [DecimalLaws],
    stated through the rational number [val d] a decimal stands for.  Two
    decimals of the same value may differ in representation (1.0 and 1.00), so
    equality of decimals is [deq], equality of values.  SDec.v is a concrete
    implementation: coefficient and scale. *)
From S2P Require Import Prelude Rounding.
From stdpp Require Import base tactics strings pretty.
From Stdlib Require Import ZArith QArith Qround Qabs Qminmax Lqa Lia.

Class DecimalOps := {
  dec : Type;
  dzero : dec;                          (* decimal.Zero *)
  dint : Z -> dec;                      (* decimal.NewFromInt *)
  dnew : Z -> nat -> dec;               (* decimal.New(n, -places); NewFromFloat of such a literal *)
  dadd : dec -> dec -> dec;             (* Add *)
  dsub : dec -> dec -> dec;             (* Sub *)
  dmul : dec -> dec -> dec;             (* Mul *)
  ddiv : dec -> dec -> dec;             (* Div, for a non-zero divisor *)
  dneg : dec -> dec;                    (* Neg *)
  dabs : dec -> dec;                    (* Abs *)
  dround : nat -> dec -> dec;           (* Round(places) *)
  dtruncate : nat -> dec -> dec;        (* Truncate(places) *)
  dceil : dec -> dec;                   (* Ceil *)
  dcmp : dec -> dec -> comparison;      (* Cmp *)
  dmin : dec -> dec -> dec;             (* decimal.Min of two *)
  dmax : dec -> dec -> dec;             (* decimal.Max of two *)
  dof_string : string -> option dec;    (* NewFromString *)
  dto_string : dec -> string;           (* String *)
  dto_fixed : nat -> dec -> string;     (* StringFixed(places) *)
}.

Section tests.
Context `{!DecimalOps}.
Definition is_zero (d : dec) : bool := match dcmp d dzero with Eq => true | _ => false end.
Definition is_positive (d : dec) : bool := match dcmp d dzero with Gt => true | _ => false end.
Definition is_negative (d : dec) : bool := match dcmp d dzero with Lt => true | _ => false end.
Definition dgt (a b : dec) : bool := match dcmp a b with Gt => true | _ => false end.
Definition dlt (a b : dec) : bool := match dcmp a b with Lt => true | _ => false end.
Definition deqb (a b : dec) : bool := match dcmp a b with Eq => true | _ => false end.
(** a.Equal(a.Round(2)): money in whole cents. *)
Definition whole_cents (d : dec) : bool := deqb d (dround 2 d).
End tests.

Local Open Scope Q_scope.

Class DecimalLaws (ops : DecimalOps) := {
  val : dec -> Q;
  val_zero : val dzero == 0;
  val_int z : val (dint z) == inject_Z z;
  val_new z n : val (dnew z n) == inject_Z z / pow10 n;
  val_add a b : val (dadd a b) == val a + val b;
  val_sub a b : val (dsub a b) == val a - val b;
  val_mul a b : val (dmul a b) == val a * val b;
  (* "If it doesn't divide exactly, the result will have DivisionPrecision (16)
     digits after the decimal point", the last one rounded half away from zero *)
  val_div a b : ~ val b == 0 -> val (ddiv a b) == qround 16 (val a / val b);
  val_neg a : val (dneg a) == - val a;
  val_abs a : val (dabs a) == Qabs (val a);
  val_round n a : val (dround n a) == qround n (val a);
  val_truncate n a :
    on_scale n (val (dtruncate n a)) /\
    (0 <= val a -> val (dtruncate n a) <= val a < val (dtruncate n a) + 1 / pow10 n);
  val_truncate_neg n a : val a <= 0 -> val (dtruncate n a) <= 0;
  val_ceil a : val (dceil a) == inject_Z (Qceiling (val a));
  dcmp_val a b : dcmp a b = (val a ?= val b);
  val_min a b : val (dmin a b) == Qmin (val a) (val b);
  val_max a b : val (dmax a b) == Qmax (val a) (val b);
  dof_to_string a : exists b, dof_string (dto_string a) = Some b /\ val b == val a;
  dof_string_1 : exists b, dof_string "1" = Some b /\ val b == 1;
  dto_string_nonempty a : dto_string a <> "";
}.

Section laws.
Context {ops : DecimalOps} {laws : DecimalLaws ops}.

Definition deq (a b : dec) : Prop := val a == val b.

Local Ltac via_cmp :=
  rewrite ?dcmp_val; rewrite ?val_zero;
  match goal with |- context [?a ?= ?b] => destruct (Qcompare_spec a b) end;
  split; intros; try done; try lra.

Lemma cmp_zero d : dcmp d dzero = (val d ?= 0).
Proof. rewrite dcmp_val. by rewrite val_zero. Qed.

Lemma is_zero_true d : is_zero d = true <-> val d == 0.
Proof. unfold is_zero. rewrite cmp_zero. via_cmp. Qed.
Lemma is_zero_false d : is_zero d = false <-> ~ val d == 0.
Proof. unfold is_zero. rewrite cmp_zero. via_cmp. Qed.
Lemma is_positive_true d : is_positive d = true <-> 0 < val d.
Proof. unfold is_positive. rewrite cmp_zero. via_cmp. Qed.
Lemma is_positive_false d : is_positive d = false <-> val d <= 0.
Proof. unfold is_positive. rewrite cmp_zero. via_cmp. Qed.
Lemma is_negative_true d : is_negative d = true <-> val d < 0.
Proof. unfold is_negative. rewrite cmp_zero. via_cmp. Qed.
Lemma is_negative_false d : is_negative d = false <-> 0 <= val d.
Proof. unfold is_negative. rewrite cmp_zero. via_cmp. Qed.
Lemma dgt_true a b : dgt a b = true <-> val b < val a.
Proof. unfold dgt. via_cmp. Qed.
Lemma dgt_false a b : dgt a b = false <-> val a <= val b.
Proof. unfold dgt. via_cmp. Qed.
Lemma dlt_true a b : dlt a b = true <-> val a < val b.
Proof. unfold dlt. via_cmp. Qed.
Lemma dlt_false a b : dlt a b = false <-> val b <= val a.
Proof. unfold dlt. via_cmp. Qed.
Lemma deqb_true a b : deqb a b = true <-> val a == val b.
Proof. unfold deqb. via_cmp. Qed.
Lemma deqb_false a b : deqb a b = false <-> ~ val a == val b.
Proof. unfold deqb. via_cmp. Qed.

#[export] Instance deq_equivalence : Equivalence deq.
Proof.
  unfold deq. split; repeat intro; [reflexivity | by symmetry | by etrans].
Qed.

Lemma val_min_cases a b :
  (val (dmin a b) == val a /\ val a <= val b) \/
  (val (dmin a b) == val b /\ val b <= val a).
Proof. rewrite val_min. destruct (Q.min_spec (val a) (val b)) as [[? ->]|[? ->]]; [left|right]; split; try done; lra. Qed.

Lemma val_max_cases a b :
  (val (dmax a b) == val a /\ val b <= val a) \/
  (val (dmax a b) == val b /\ val a <= val b).
Proof. rewrite val_max. destruct (Q.max_spec (val a) (val b)) as [[? ->]|[? ->]]; [right|left]; split; try done; lra. Qed.
End laws.

(** [dec_learn] adds the value of every decimal expression in sight; [dec]
    also turns the boolean tests into comparisons and closes linear goals. *)
Ltac learn_fact L :=
  let T := type of L in
  lazymatch goal with
  | H : T |- _ => fail
  | _ => pose proof L
  end.

Ltac dec_tests :=
  repeat match goal with
  | H : is_zero _ = true |- _ => apply is_zero_true in H
  | H : is_zero _ = false |- _ => apply is_zero_false in H
  | H : is_positive _ = true |- _ => apply is_positive_true in H
  | H : is_positive _ = false |- _ => apply is_positive_false in H
  | H : is_negative _ = true |- _ => apply is_negative_true in H
  | H : is_negative _ = false |- _ => apply is_negative_false in H
  | H : dgt _ _ = true |- _ => apply dgt_true in H
  | H : dgt _ _ = false |- _ => apply dgt_false in H
  | H : dlt _ _ = true |- _ => apply dlt_true in H
  | H : dlt _ _ = false |- _ => apply dlt_false in H
  | H : deqb _ _ = true |- _ => apply deqb_true in H
  | H : deqb _ _ = false |- _ => apply deqb_false in H
  | H : negb _ = true |- _ => apply negb_true_iff in H
  | H : negb _ = false |- _ => apply negb_false_iff in H
  | H : _ && _ = true |- _ => apply andb_true_iff in H as [? ?]
  | H : _ || _ = false |- _ => apply orb_false_iff in H as [? ?]
  | |- is_zero _ = true => apply is_zero_true
  | |- is_zero _ = false => apply is_zero_false
  | |- is_positive _ = true => apply is_positive_true
  | |- is_positive _ = false => apply is_positive_false
  | |- is_negative _ = true => apply is_negative_true
  | |- is_negative _ = false => apply is_negative_false
  | |- dgt _ _ = true => apply dgt_true
  | |- dgt _ _ = false => apply dgt_false
  | |- dlt _ _ = true => apply dlt_true
  | |- dlt _ _ = false => apply dlt_false
  | |- deqb _ _ = true => apply deqb_true
  | |- deqb _ _ = false => apply deqb_false
  end.

Ltac dec_learn :=
  unfold deq in *;
  repeat match goal with
  | |- context [val (dadd ?a ?b)] => learn_fact (val_add a b)
  | _ : context [val (dadd ?a ?b)] |- _ => learn_fact (val_add a b)
  | |- context [val (dsub ?a ?b)] => learn_fact (val_sub a b)
  | _ : context [val (dsub ?a ?b)] |- _ => learn_fact (val_sub a b)
  | |- context [val (dmul ?a ?b)] => learn_fact (val_mul a b)
  | _ : context [val (dmul ?a ?b)] |- _ => learn_fact (val_mul a b)
  | |- context [val (dneg ?a)] => learn_fact (val_neg a)
  | _ : context [val (dneg ?a)] |- _ => learn_fact (val_neg a)
  | |- context [val (dint ?a)] => learn_fact (val_int a)
  | _ : context [val (dint ?a)] |- _ => learn_fact (val_int a)
  | |- context [@val ?o ?l dzero] => learn_fact (@val_zero o l)
  | _ : context [@val ?o ?l dzero] |- _ => learn_fact (@val_zero o l)
  end.

Ltac dec_minmax :=
  repeat match goal with
  | |- context [val (dmin ?a ?b)] =>
      lazymatch goal with
      | H : val (dmin a b) == _ |- _ => fail
      | _ => destruct (val_min_cases a b) as [[? ?]|[? ?]]
      end
  | _ : context [val (dmin ?a ?b)] |- _ =>
      lazymatch goal with
      | H : val (dmin a b) == _ |- _ => fail
      | _ => destruct (val_min_cases a b) as [[? ?]|[? ?]]
      end
  | |- context [val (dmax ?a ?b)] =>
      lazymatch goal with
      | H : val (dmax a b) == _ |- _ => fail
      | _ => destruct (val_max_cases a b) as [[? ?]|[? ?]]
      end
  | _ : context [val (dmax ?a ?b)] |- _ =>
      lazymatch goal with
      | H : val (dmax a b) == _ |- _ => fail
      | _ => destruct (val_max_cases a b) as [[? ?]|[? ?]]
      end
  end.

Ltac dec := dec_tests; dec_minmax; dec_learn; change (inject_Z 1) with 1 in *; try done; lra.

Section proper.
Context {ops : DecimalOps} {laws : DecimalLaws ops}.

#[export] Instance val_proper : Proper (deq ==> Qeq) val.
Proof. by intros a b. Qed.
#[export] Instance dadd_proper : Proper (deq ==> deq ==> deq) dadd.
Proof. intros a b ? c d ?. dec. Qed.
#[export] Instance dsub_proper : Proper (deq ==> deq ==> deq) dsub.
Proof. intros a b ? c d ?. dec. Qed.
#[export] Instance dmul_proper : Proper (deq ==> deq ==> deq) dmul.
Proof. intros a b Hab c d Hcd. unfold deq in *. by rewrite !val_mul, Hab, Hcd. Qed.
#[export] Instance dneg_proper : Proper (deq ==> deq) dneg.
Proof. intros a b ?. dec. Qed.
#[export] Instance dround_proper n : Proper (deq ==> deq) (dround n).
Proof. intros a b Hab. unfold deq in *. by rewrite !val_round, Hab. Qed.
#[export] Instance dcmp_proper : Proper (deq ==> deq ==> eq) dcmp.
Proof. intros a b Hab c d Hcd. unfold deq in *. rewrite !dcmp_val. by rewrite Hab, Hcd. Qed.
#[export] Instance is_zero_proper : Proper (deq ==> eq) is_zero.
Proof. intros a b Hab. unfold is_zero. by rewrite Hab. Qed.
#[export] Instance is_positive_proper : Proper (deq ==> eq) is_positive.
Proof. intros a b Hab. unfold is_positive. by rewrite Hab. Qed.
#[export] Instance is_negative_proper : Proper (deq ==> eq) is_negative.
Proof. intros a b Hab. unfold is_negative. by rewrite Hab. Qed.

(** Sum of a list of decimals, left to right as the loops accumulate it. *)
Fixpoint dsum_from (acc : dec) (l : list dec) : dec :=
  match l with [] => acc | x :: l' => dsum_from (dadd acc x) l' end.
Fixpoint qsum (l : list Q) : Q := match l with [] => 0 | q :: l' => q + qsum l' end.

Lemma val_dsum_from acc l : val (dsum_from acc l) == val acc + qsum (val <$> l).
Proof.
  revert acc. induction l as [|x l IH]; intros acc; csimpl; [lra|].
  rewrite IH, val_add. lra.
Qed.

Lemma qsum_app l k : qsum (l ++ k) == qsum l + qsum k.
Proof. induction l as [|x l IH]; simpl; [lra|]. rewrite IH. lra. Qed.

Lemma qsum_ext {A} (f g : A -> Q) l :
  (forall x, x ∈ l -> f x == g x) -> qsum (f <$> l) == qsum (g <$> l).
Proof.
  induction l as [|x l IH]; intros H; [done|]. csimpl. rewrite IH.
  - by rewrite (H x) by constructor.
  - intros y Hy. apply H. by constructor.
Qed.

Lemma on_scale_qsum n l : Forall (on_scale n) l -> on_scale n (qsum l).
Proof. induction 1 as [|x l Hx _ IH]; simpl; [apply on_scale_0|by apply on_scale_plus]. Qed.
Lemma qsum_zero {A} (l : list A) : qsum ((fun _ => 0) <$> l) == 0.
Proof. induction l as [|x l IH]; csimpl; [done|]. rewrite IH. ring. Qed.

Lemma qsum_perm l1 l2 : Permutation l1 l2 -> qsum l1 == qsum l2.
Proof. induction 1; simpl; lra. Qed.

Lemma qsum_nonneg l : Forall (fun q => 0 <= q) l -> 0 <= qsum l.
Proof. induction 1; simpl; lra. Qed.

Lemma val_round_nonneg n d : 0 <= val d -> 0 <= val (dround n d).
Proof. intros H. rewrite val_round. by apply qround_nonneg. Qed.

Lemma val_round_scale n d : on_scale n (val (dround n d)).
Proof. rewrite val_round. apply qround_on_scale. Qed.

Lemma val_round_id n d : on_scale n (val d) -> val (dround n d) == val d.
Proof. intros H. rewrite val_round. by apply qround_id. Qed.
End proper.
#[export] Hint Resolve val_round_scale val_round_nonneg : scale.
