(* ===== verification/SDec.v ===== *)
(** A concrete decimal: integer coefficient and scale.

    [SDec] implements [DecimalOps] and satisfies [DecimalLaws], so the laws the
    development assumes of the decimal library are consistent, and concrete
    runs of the model evaluate.  Its textual form is the exponent notation
    [<coefficient>e-<scale>] (a plain integer when the scale is 0). *)
From S2P Require Import Prelude Rounding Decimal.
From stdpp Require Import base tactics strings.
From Stdlib Require Import ZArith QArith Qround Qabs Qminmax Lqa Lia Ascii DecimalString DecimalZ.

Local Open Scope Q_scope.

Record sdec := SD { sc : Z; ss : nat }.

Definition sval (d : sdec) : Q := inject_Z (sc d) / pow10 (ss d).

Definition salign (d : sdec) (s : nat) : Z := (sc d * 10 ^ Z.of_nat (s - ss d))%Z.

Definition sadd (a b : sdec) : sdec :=
  let s := Nat.max (ss a) (ss b) in SD (salign a s + salign b s) s.
Definition sneg (a : sdec) : sdec := SD (- sc a) (ss a).
Definition smul (a b : sdec) : sdec := SD (sc a * sc b) (ss a + ss b).
Definition sround (n : nat) (a : sdec) : sdec := SD (half_away (sval a * pow10 n)) n.
Definition sdiv (a b : sdec) : sdec := SD (half_away (sval a / sval b * pow10 16)) 16.
Definition struncate (n : nat) (a : sdec) : sdec :=
  SD (Z.quot (sc a * 10 ^ Z.of_nat n) (10 ^ Z.of_nat (ss a))) n.

Fixpoint split_e (s : string) : string * string :=
  match s with
  | EmptyString => ("", "")
  | String "e"%char (String "-"%char s') => ("", s')
  | String c s' => let '(a, b) := split_e s' in (String c a, b)
  end.

Definition Z_to_string (z : Z) : string := NilZero.string_of_int (Z.to_int z).
Definition Z_of_string (s : string) : option Z := Z.of_int <$> NilZero.int_of_string s.

Definition sto_string (d : sdec) : string :=
  match ss d with
  | O => Z_to_string (sc d)
  | s => (Z_to_string (sc d) +:+ "e-" +:+ Z_to_string (Z.of_nat s))%string
  end.

Definition sof_string (s : string) : option sdec :=
  let '(a, b) := split_e s in
  c ← Z_of_string a;
  match b with
  | EmptyString => Some (SD c 0)
  | _ => n ← Z_of_string b; Some (SD c (Z.to_nat n))
  end.

#[export] Instance SDecOps : DecimalOps := {|
  dec := sdec;
  dzero := SD 0 0;
  dint z := SD z 0;
  dnew z n := SD z n;
  dadd := sadd;
  dsub a b := sadd a (sneg b);
  dmul := smul;
  ddiv := sdiv;
  dneg := sneg;
  dabs a := SD (Z.abs (sc a)) (ss a);
  dround := sround;
  dtruncate := struncate;
  dceil a := SD (Qceiling (sval a)) 0;
  dcmp a b := sval a ?= sval b;
  dmin a b := match sval b ?= sval a with Lt => b | _ => a end;
  dmax a b := match sval b ?= sval a with Gt => b | _ => a end;
  dof_string := sof_string;
  dto_string := sto_string;
  dto_fixed n a := sto_string (sround n a);
|}.

Lemma sval_align d s : (ss d <= s)%nat -> inject_Z (salign d s) == sval d * pow10 s.
Proof.
  intros H. unfold salign, sval. rewrite inject_Z_mult. fold (pow10 (s - ss d)).
  replace s with (ss d + (s - ss d))%nat at 2 by lia. rewrite pow10_add. field. auto.
Qed.

Lemma sval_add a b : sval (sadd a b) == sval a + sval b.
Proof.
  unfold sadd. unfold sval at 1. simpl. rewrite inject_Z_plus, !sval_align by lia.
  field. auto.
Qed.

Lemma sval_neg a : sval (sneg a) == - sval a.
Proof. unfold sval. simpl. rewrite inject_Z_opp. field. auto. Qed.

Lemma sval_mul a b : sval (smul a b) == sval a * sval b.
Proof. unfold sval. simpl. rewrite inject_Z_mult, pow10_add. field. auto. Qed.

Lemma sval_abs a : sval (SD (Z.abs (sc a)) (ss a)) == Qabs (sval a).
Proof.
  unfold sval, Qdiv. cbn [sc ss].
  assert (0 <= / pow10 (ss a)) as Hp by (apply Qlt_le_weak, Qinv_lt_0_compat; auto).
  setoid_rewrite Qabs_Qmult. setoid_rewrite (Qabs_pos _ Hp). reflexivity.
Qed.

Lemma sval_truncate_neg n a : sval a <= 0 -> sval (struncate n a) <= 0.
Proof.
  intros Ha. assert (sc a <= 0)%Z as Hc.
  { apply (Qmult_le_compat_r _ _ (pow10 (ss a))) in Ha; [|apply Qlt_le_weak; auto].
    assert (inject_Z (sc a) <= inject_Z 0) as Hz; [|by rewrite <- Zle_Qle in Hz].
    unfold sval in Ha. setoid_replace (inject_Z (sc a)) with (inject_Z (sc a) / pow10 (ss a) * pow10 (ss a)) using relation Qeq by (field; auto).
    setoid_replace (inject_Z 0) with (0 * pow10 (ss a)) using relation Qeq by ring. done. }
  unfold sval, struncate. simpl. apply Qle_shift_div_r; [auto|]. setoid_replace (0 * pow10 n) with (inject_Z 0) using relation Qeq by ring.
  rewrite <- Zle_Qle. assert (0 < 10 ^ Z.of_nat (ss a))%Z by (apply Z.pow_pos_nonneg; lia).
  rewrite <-(Z.opp_involutive (sc a * _)), Z.quot_opp_l by lia.
  pose proof (Z.quot_pos (- (sc a * 10 ^ Z.of_nat n)) (10 ^ Z.of_nat (ss a)) ltac:(nia) ltac:(lia)). lia.
Qed.

Lemma sval_truncate n a :
  on_scale n (sval (struncate n a)) /\
  (0 <= sval a -> sval (struncate n a) <= sval a < sval (struncate n a) + 1 / pow10 n).
Proof.
  split.
  - exists (sc (struncate n a)). unfold sval. change (ss (struncate n a)) with n. field. auto.
  - intros Ha. unfold sval, struncate in *. simpl in *.
    set (p := (10 ^ Z.of_nat (ss a))%Z) in *. set (t := (10 ^ Z.of_nat n)%Z).
    assert (0 < p)%Z as Hp by (apply Z.pow_pos_nonneg; lia).
    assert (0 < t)%Z as Ht by (apply Z.pow_pos_nonneg; lia).
    assert (0 <= sc a)%Z as Hc.
    { apply (Qmult_le_compat_r _ _ (pow10 (ss a))) in Ha; [|apply Qlt_le_weak; auto].
      assert (inject_Z 0 <= inject_Z (sc a)) as Hz; [|by rewrite <- Zle_Qle in Hz].
      setoid_replace (inject_Z (sc a)) with (inject_Z (sc a) / pow10 (ss a) * pow10 (ss a)) using relation Qeq by (field; auto).
      setoid_replace (inject_Z 0) with (0 * pow10 (ss a)) using relation Qeq by ring. done. }
    rewrite Z.quot_div_nonneg by nia.
    pose proof (Z.mul_div_le (sc a * t) p Hp) as H1.
    pose proof (Z.mul_succ_div_gt (sc a * t) p Hp) as H2.
    set (q := ((sc a * t) / p)%Z) in *.
    assert (inject_Z (p * q) <= inject_Z (sc a * t)) as H1' by (rewrite <- Zle_Qle; lia).
    assert (inject_Z (sc a * t) < inject_Z (p * (q + 1))) as H2' by (rewrite <- Zlt_Qlt; lia).
    rewrite !inject_Z_mult in H1', H2'. rewrite inject_Z_plus in H2'.
    change (inject_Z p) with (pow10 (ss a)) in *. change (inject_Z t) with (pow10 n) in *.
    change (inject_Z 1) with 1 in *.
    pose proof (pow10_pos n). pose proof (pow10_pos (ss a)). split.
    + apply Qle_shift_div_l; [done|].
      setoid_replace (inject_Z q / pow10 n * pow10 (ss a))
        with (pow10 (ss a) * inject_Z q / pow10 n) using relation Qeq by (field; auto).
      apply Qle_shift_div_r; done.
    + apply Qlt_shift_div_r; [done|].
      setoid_replace ((inject_Z q / pow10 n + 1 / pow10 n) * pow10 (ss a))
        with (pow10 (ss a) * (inject_Z q + 1) / pow10 n) using relation Qeq by (field; auto).
      apply Qlt_shift_div_l; done.
Qed.

Lemma append_cons c s t : (String c s +:+ t = String c (s +:+ t))%string.
Proof. done. Qed.

Lemma append_nil_l t : ("" +:+ t = t)%string.
Proof. done. Qed.

Lemma append_nil_r s : (s +:+ "")%string = s.
Proof. induction s; rewrite ?append_cons, ?append_nil_l; congruence. Qed.

Lemma split_e_uint u t :
  split_e (NilEmpty.string_of_uint u +:+ t) =
  let '(a, b) := split_e t in ((NilEmpty.string_of_uint u +:+ a)%string, b).
Proof.
  induction u as [|u IH|u IH|u IH|u IH|u IH|u IH|u IH|u IH|u IH|u IH];
    cbn [NilEmpty.string_of_uint]; rewrite ?append_nil_l, ?append_cons; cbn [split_e].
  all: try rewrite IH; by destruct (split_e t).
Qed.

Lemma split_e_int z t :
  split_e (Z_to_string z +:+ t) =
  let '(a, b) := split_e t in ((Z_to_string z +:+ a)%string, b).
Proof.
  unfold Z_to_string, NilZero.string_of_int, NilZero.string_of_uint.
  destruct (Z.to_int z) as [[]|[]]; try apply split_e_uint;
    rewrite ?append_cons, ?append_nil_l; cbn [split_e]; rewrite ?split_e_uint.
  all: destruct (split_e t); rewrite ?append_cons, ?append_nil_l; done.
Qed.

Lemma Z_of_to_string z : Z_of_string (Z_to_string z) = Some z.
Proof.
  unfold Z_of_string, Z_to_string. rewrite NilZero.isi by (destruct z as [|p|p]; simpl; try done;
    intros [= H]; by destruct (DecimalPos.Unsigned.to_uint_nonnil p)).
  simpl. by rewrite DecimalZ.of_to.
Qed.

Lemma sof_to_string d : sof_string (sto_string d) = Some d.
Proof.
  unfold sof_string, sto_string. destruct d as [c [|s]]; cbn [ss sc].
  - rewrite <- (append_nil_r (Z_to_string c)), split_e_int. cbn.
    by rewrite append_nil_r, Z_of_to_string.
  - rewrite split_e_int, !append_cons, append_nil_l. cbn [split_e].
    rewrite append_nil_r, (Z_of_to_string c). cbn [mbind option_bind].
    pose proof (Z_of_to_string (Z.of_nat (S s))) as H.
    destruct (Z_to_string (Z.of_nat (S s))) as [|x y]; [done|].
    rewrite H. cbn [mbind option_bind]. by rewrite Nat2Z.id.
Qed.

#[local] Obligation Tactic := idtac.
#[export] Program Instance SDecLaws : DecimalLaws SDecOps := {| val := sval |}.
Next Obligation. done. Qed.
Next Obligation.
  intros z. change (inject_Z z / pow10 0 == inject_Z z). change (pow10 0) with 1. field.
Qed.
Next Obligation. done. Qed.
Next Obligation. apply sval_add. Qed.
Next Obligation. intros a b. simpl. rewrite sval_add, sval_neg. ring. Qed.
Next Obligation. apply sval_mul. Qed.
Next Obligation. done. Qed.
Next Obligation. apply sval_neg. Qed.
Next Obligation. apply sval_abs. Qed.
Next Obligation. done. Qed.
Next Obligation. apply sval_truncate. Qed.
Next Obligation. apply sval_truncate_neg. Qed.
Next Obligation.
  intros a. change (inject_Z (Qceiling (sval a)) / pow10 0 == inject_Z (Qceiling (sval a))). change (pow10 0) with 1. field.
Qed.
Next Obligation. done. Qed.
Next Obligation.
  intros a b. simpl. destruct (Qcompare_spec (sval b) (sval a)).
  - rewrite Q.min_l by lra. done.
  - by rewrite Q.min_r by lra.
  - by rewrite Q.min_l by lra.
Qed.
Next Obligation.
  intros a b. simpl. destruct (Qcompare_spec (sval b) (sval a)).
  - rewrite Q.max_l by lra. done.
  - by rewrite Q.max_l by lra.
  - by rewrite Q.max_r by lra.
Qed.
Next Obligation. intros a. exists a. split; [apply (sof_to_string a) | done]. Qed.
Next Obligation. by exists (SD 1 0). Qed.
Next Obligation. intros a H. pose proof (sof_to_string a) as Hs. simpl in H. by rewrite H in Hs. Qed.
