(* ===== verification/Types.v ===== *)
(** Identifiers, clocks, errors: the vocabulary every component shares.

    A uuid.UUID is a 16-byte array, kept as the big-endian number it spells; the
    nil UUID is 0.  A time.Time is the number of nanoseconds since Go's zero
    time (0001-01-01 UTC), so [IsZero] is equality with 0.  [Env] is what the
    process gets from outside: fresh UUIDs, the clock, driver failures and the
    order PostgreSQL returns rows of equal sort key in.  [error] is the Go error
    value: sentinels, the typed errors with their fields, and [%w] wrapping. *)
From S2P Require Import Prelude GoStrings Rounding Decimal.
From stdpp Require Import base tactics strings gmap.
From Stdlib Require Import ZArith Lia Sorting.Permutation Sorting.Sorted.

Definition uuid := N.
Definition uuid_nil : uuid := 0%N.
Definition uuid_is_nil (u : uuid) : bool := N.eqb u uuid_nil.
#[global] Typeclasses Transparent uuid.

Definition time := Z.
Definition time_zero : time := 0%Z.
Definition time_is_zero (t : time) : bool := Z.eqb t time_zero.
Definition second : Z := 1000000000.
Definition minute : Z := 60 * second.
Definition hour : Z := 60 * minute.

Class Env := {
  uuid_at : nat -> uuid;                 (* the n-th uuid.New() *)
  clock_at : nat -> time;                (* the n-th time.Now() *)
  db_fault : nat -> bool;                (* the n-th driver call fails *)
  uuid_string : uuid -> string;          (* uuid.UUID.String *)
  uuid_parse : string -> option uuid;    (* uuid.Parse *)
  sql_order : forall {A}, (A -> Z) -> list A -> list A;  (* ORDER BY key ASC *)
}.

(** Lower-case hexadecimal digits and dashes. *)
Definition uuid_char (a : Ascii.ascii) : Prop :=
  let n := Ascii.N_of_ascii a in (48 <= n <= 57 \/ 97 <= n <= 102)%N \/ n = 45%N.

Class EnvLaws (E : Env) := {
  uuid_at_fresh n : uuid_at n <> uuid_nil;
  uuid_at_inj n m : uuid_at n = uuid_at m -> n = m;
  uuid_parse_string u : uuid_parse (uuid_string u) = Some u;
  uuid_string_chars u : Forall uuid_char (chars (uuid_string u));
  sql_order_perm {A} (key : A -> Z) l : Permutation (sql_order key l) l;
  sql_order_sorted {A} (key : A -> Z) l :
    StronglySorted (fun a b => (key a <= key b)%Z) (sql_order key l);
}.

Section env.
Context `{!EnvLaws E}.
Lemma uuid_string_inj u v : uuid_string u = uuid_string v -> u = v.
Proof.
  intros H. pose proof (uuid_parse_string u) as Hu. rewrite H in Hu.
  rewrite uuid_parse_string in Hu. congruence.
Qed.

Lemma uuid_char_plain a : uuid_char a -> plain a.
Proof. unfold uuid_char, plain. lia. Qed.

Lemma uuid_string_trim u : trim_space (uuid_string u) = uuid_string u.
Proof. apply trim_space_plain. eapply Forall_impl; [apply uuid_string_chars|apply uuid_char_plain]. Qed.

(** No separator hides in an identifier. *)
Lemma uuid_string_free c u : ~ uuid_char c -> c ∉ chars (uuid_string u).
Proof. intros Hc H. apply Hc. pose proof (uuid_string_chars u) as K. rewrite Forall_forall in K. by apply K. Qed.
End env.

(** The package-level [errors.New] values, by their Go names. *)
Inductive sentinel :=
  (* domain/bill, app/bill *)
  | ErrInvalidTransition | ErrIllegalTransition | ErrCannotCancelPaidBill
  | ErrBillNotFound | ErrInvalidBillStatus | ErrCannotCancelApproved
  | ErrBillApprovalConflict | ErrValidation | ErrNegativeFee | ErrWarehouseRequired
  | ErrPaidExceedsTotal | ErrBillAlreadyApproved | ErrInvalidPayMethod | ErrZeroPriceLines
  | ErrInvalidUnitForProduct | ErrCannotRestoreApproved | ErrBillAlreadyRestoredOnce
  | ErrNothingToReverse | ErrSaleNotReturnable | ErrReturnItemNotFound
  | ErrWarehouseNotFound | ErrReturnExceedsSold | ErrPurchaseNotReturnable
  | ErrRefundReturnMismatch | ErrCheckoutAlreadyExists | ErrDuplicateClientRef
  (* domain/stock, app/stock *)
  | ErrInvalidDirection | ErrInsufficientStock | ErrInvalidUnitFactor
  | ErrNoWarehouse | ErrInvalidSafetyQty
  (* app/payment *)
  | ErrInvalidPayType | ErrCreditNotPayment | ErrBillNotApproved | ErrBillNotPayable
  | ErrInvalidReceiptDirection | ErrReceiptAmount | ErrInvalidStatementRange
  (* app/team, adapter/middleware *)
  | ErrUnavailable | ErrForbidden | ErrNotMember | ErrAlreadyInShop | ErrAlreadyMemberHere
  | ErrInviteInvalid | ErrLastOwner | ErrInvalidRole | ErrOrgNotReady | ErrTenantNotFound
  | ErrMappingExists | ErrShopNotEmpty | ErrRoleNotForShop | ErrOrgNotDissolvable
  | ErrNotShopMember
  (* app/currency, app/warehouse, app/importing *)
  | ErrRateValidation | ErrWarehouseMissing | ErrNothingReversed
  (* adapter/repo/product, adapter/repo/unit, app/supplier, app/customer, app/project *)
  | ErrProductNotFound | ErrUnitNotFound | ErrSupplierNotFound | ErrCustomerNotFound | ErrProjectNotFound
  (* app/invoice *)
  | ErrInvoiceNotFound | ErrInvalidInput | ErrDuplicateNo | ErrConflict | ErrRule.

#[export] Instance sentinel_eq_dec : EqDecision sentinel.
Proof. solve_decision. Defined.

Section errors.
Context {ops : DecimalOps}.

(** app/stock.InsufficientStockError *)
Record InsufficientStockError := mkInsufficientStockError {
  ise_product : uuid;
  ise_available : dec;
  ise_requested : dec;
}.

(** app/bill.ZeroPriceLine *)
Record ZeroPriceLine := mkZeroPriceLine { zpl_line_no : Z; zpl_product : uuid }.

Inductive error : Type :=
  | ESentinel (s : sentinel)
  | EMsg (text : string)
  | EDriver                                   (* what database/sql returned *)
  | EConstraint (name : string)               (* a violated table constraint *)
  | EWrap (context : string) (cause : error)  (* fmt.Errorf("context: %w", cause) *)
  | EInsufficient (e : InsufficientStockError)
  | EBatchInsufficient (shortages : list InsufficientStockError)
  | EAdjust (msg code : string) (products : list uuid)
  | EZeroPrice (lines : list ZeroPriceLine)
  | EReturnExceeded (line_no : Z) (remaining : dec)
  | ERefundExceeded (max : dec)
  | EDuplicateCheckout (bill_id : uuid) (bill_no : string)
  | EExceedsOutstanding (amount outstanding : dec) (payable : bool)
  | EExceedsPartnerDebt (amount owed : dec) (payable : bool)
  | EAlreadyInShop (can_abandon is_owner : bool)
  | EPlanLimit (key : string) (used limit : Z)
  | EUser (type msg : string)                 (* PriceError, SaveError, ImportError *)
  | EInvoice (kind : sentinel) (msg : string). (* app/invoice.Error *)

(** errors.Is: walks the [%w] chain and the types' own Is / Unwrap methods. *)
Fixpoint errors_is (e : error) (target : sentinel) : bool :=
  match e with
  | ESentinel s => bool_decide (s = target)
  | EWrap _ e' => errors_is e' target
  | EZeroPrice _ => bool_decide (target = ErrZeroPriceLines)
  | EDuplicateCheckout _ _ => bool_decide (target = ErrCheckoutAlreadyExists)
  | EReturnExceeded _ _ => bool_decide (target = ErrReturnExceedsSold)
  | EAlreadyInShop _ _ => bool_decide (target = ErrAlreadyInShop)
  | EInvoice kind _ => bool_decide (target = kind)
  | _ => false
  end.

(** errors.As(err, &ise) with ise an InsufficientStockError pointer *)
Fixpoint errors_as_insufficient (e : error) : option InsufficientStockError :=
  match e with
  | EInsufficient i => Some i
  | EWrap _ e' => errors_as_insufficient e'
  | _ => None
  end.

(** app/stock.IsInsufficientStock: a type assertion, which does not unwrap. *)
Definition IsInsufficientStock (e : error) : bool :=
  match e with EInsufficient _ => true | _ => false end.

(** app/stock.IsBatchInsufficientStock *)
Definition IsBatchInsufficientStock (e : error) : bool :=
  match e with EBatchInsufficient _ => true | _ => false end.

Definition validation (what : string) : error := EWrap what (ESentinel ErrValidation).
End errors.
