(* ===== verification/StockDomain.v ===== *)
(** internal/domain/stock: movements, snapshots and FIFO lots. *)
From S2P Require Import Prelude Rounding Decimal Types.
From stdpp Require Import base tactics strings.
From Stdlib Require Import ZArith.

Definition Direction := string.
Definition DirectionIn : Direction := "in".
Definition DirectionOut : Direction := "out".
Definition DirectionAdjust : Direction := "adjust".

Definition Direction_Validate (d : Direction) : option sentinel :=
  if String.eqb d DirectionIn then None
  else if String.eqb d DirectionOut then None
  else if String.eqb d DirectionAdjust then None
  else Some ErrInvalidDirection.

Definition ReferenceType := string.
Definition RefPurchase : ReferenceType := "purchase".
Definition RefSale : ReferenceType := "sale".
Definition RefReturn : ReferenceType := "return".
Definition RefAdjust : ReferenceType := "adjust".
Definition RefTransfer : ReferenceType := "transfer".
Definition RefInit : ReferenceType := "init".

Definition CostStrategyWAC : string := "wac".
Definition CostStrategyFIFO : string := "fifo".

Section stock_domain.
Context {ops : DecimalOps}.

Record Movement := mkMovement {
  mv_id : uuid;
  mv_tenant : uuid;
  mv_product : uuid;
  mv_warehouse : uuid;
  mv_direction : Direction;
  mv_qty_base : dec;
  mv_unit_cost : dec;
  mv_total_cost : dec;
  mv_reference_type : ReferenceType;
  mv_reference_id : option uuid;
  mv_occurred_at : time;
  mv_created_by : option uuid;
  mv_note : string;
  mv_created_at : time;
  mv_explicit_cost : bool;
  mv_allow_negative : bool;
}.

Record Snapshot := mkSnapshot {
  sn_id : uuid;
  sn_tenant : uuid;
  sn_product : uuid;
  sn_warehouse : uuid;
  sn_on_hand : dec;
  sn_available : dec;
  sn_unit_cost : dec;
  sn_strategy : string;
  sn_updated_at : time;
}.

Record Lot := mkLot {
  lot_id : uuid;
  lot_tenant : uuid;
  lot_product : uuid;
  lot_warehouse : uuid;
  lot_no : string;
  lot_qty : dec;
  lot_remaining : dec;
  lot_unit_cost : dec;
  lot_received_at : time;
  lot_source : option uuid;
  lot_created_at : time;
}.

(** Assignments the code makes to the movement it was handed. *)
Definition mv_with_cost (m : Movement) (unit_cost total_cost : dec) : Movement :=
  mkMovement (mv_id m) (mv_tenant m) (mv_product m) (mv_warehouse m) (mv_direction m)
    (mv_qty_base m) unit_cost total_cost (mv_reference_type m) (mv_reference_id m)
    (mv_occurred_at m) (mv_created_by m) (mv_note m) (mv_created_at m)
    (mv_explicit_cost m) (mv_allow_negative m).

Definition mv_with_times (m : Movement) (occurred created : time) : Movement :=
  mkMovement (mv_id m) (mv_tenant m) (mv_product m) (mv_warehouse m) (mv_direction m)
    (mv_qty_base m) (mv_unit_cost m) (mv_total_cost m) (mv_reference_type m)
    (mv_reference_id m) occurred (mv_created_by m) (mv_note m) created
    (mv_explicit_cost m) (mv_allow_negative m).
End stock_domain.
