(* ===== verification/BillDomain.v ===== *)
(** internal/domain/bill and internal/domain/payment: bills, lines, payments.

    [BillHead] has the fields of the Go struct in its order.  The Go code
    assigns single fields of a head it holds a pointer to; the [with_] functions
    are those assignments. *)
From S2P Require Import Prelude Rounding Decimal Types.
From stdpp Require Import base tactics strings.
From Stdlib Require Import ZArith QArith Qminmax Lqa Lia.

Definition BillStatus := Z.
Definition StatusDraft : BillStatus := 0%Z.
Definition StatusApproved : BillStatus := 2%Z.
Definition StatusCancelled : BillStatus := 9%Z.

Definition BillType := string.
Definition BillTypePurchase : BillType := "入库".
Definition BillTypeSale : BillType := "出库".

Definition BillSubType := string.
Definition BillSubTypePurchase : BillSubType := "采购".
Definition BillSubTypeSale : BillSubType := "销售".
Definition BillSubTypeSaleReturn : BillSubType := "销售退货".
Definition BillSubTypePurchaseReturn : BillSubType := "采购退货".

(** [BillStatus.CanTransitionTo] *)
Definition BillStatus_CanTransitionTo (s next : BillStatus) : bool :=
  if Z.eqb s StatusDraft
  then Z.eqb next StatusApproved || Z.eqb next StatusCancelled
  else false.

Definition InvoiceNone : string := "none".
Definition InvoicePartial : string := "partial".
Definition InvoiceFull : string := "full".
Definition PaymentUnpaid : string := "unpaid".
Definition PaymentPartial : string := "partial".
Definition PaymentPaid : string := "paid".

Definition PayType := string.
Definition PayTypeCash : PayType := "cash".
Definition PayTypeWechat : PayType := "wechat".
Definition PayTypeAlipay : PayType := "alipay".
Definition PayTypeCard : PayType := "card".
Definition PayTypeCredit : PayType := "credit".
Definition PayTypeTransfer : PayType := "transfer".
Definition PayTypeBank : PayType := "bank".

Definition validPayTypes : list PayType :=
  [PayTypeCash; PayTypeWechat; PayTypeAlipay; PayTypeCard; PayTypeCredit;
   PayTypeTransfer; PayTypeBank].

Section bill_domain.
Context {ops : DecimalOps}.

Record BillHead := mkBillHead {
  bh_id : uuid;
  bh_tenant : uuid;
  bh_bill_no : string;
  bh_type : BillType;
  bh_sub_type : BillSubType;
  bh_status : BillStatus;
  bh_partner : option uuid;
  bh_warehouse : option uuid;
  bh_operator : option uuid;
  bh_creator : uuid;
  bh_date : time;
  bh_subtotal : dec;
  bh_shipping_fee : dec;
  bh_tax : dec;
  bh_total : dec;
  bh_paid : dec;
  bh_currency : string;
  bh_rate : dec;
  bh_amount_local : dec;
  bh_approved_at : option time;
  bh_approved_by : option uuid;
  bh_revision : Z;
  bh_remark : string;
  bh_created_at : time;
  bh_updated_at : time;
  bh_client_ref : string;
  bh_source : string;
  bh_occurred_at : option time;
  bh_partner_name : string;
  bh_warehouse_name : string;
  bh_invoiced : dec;
  bh_returned : dec;
}.

Record BillItem := mkBillItem {
  bi_id : uuid;
  bi_tenant : uuid;
  bi_head : uuid;
  bi_product : uuid;
  bi_unit : option uuid;
  bi_unit_name : string;
  bi_line_no : Z;
  bi_qty : dec;
  bi_unit_price : dec;
  bi_line_amount : dec;
  bi_remark : string;
}.

Record Payment := mkPayment {
  py_id : uuid;
  py_tenant : uuid;
  py_bill : uuid;
  py_type : PayType;
  py_amount : dec;
  py_total : dec;
  py_partner : option uuid;
  py_operator : option uuid;
  py_creator : uuid;
  py_bill_no : string;
  py_date : time;
  py_remark : string;
  py_created_at : time;
}.

Definition PayType_Validate (p : PayType) : option error :=
  if existsb (String.eqb p) validPayTypes then None
  else Some (EMsg "payment: invalid pay_type").

(** [BillHead.ReceivableAmount] *)
Definition ReceivableAmount (h : BillHead) : dec :=
  let diff := dsub (bh_total h) (bh_paid h) in
  if is_negative diff then dzero else diff.

(** [BillHead.CanTransitionTo] *)
Definition CanTransitionTo (b : BillHead) (next : BillStatus) : option sentinel :=
  if Z.eqb (bh_status b) StatusDraft then
    if Z.eqb next StatusApproved || Z.eqb next StatusCancelled then None
    else Some ErrIllegalTransition
  else if Z.eqb (bh_status b) StatusApproved then
    if Z.eqb next StatusCancelled then None else Some ErrIllegalTransition
  else if Z.eqb (bh_status b) StatusCancelled then
    if Z.eqb next StatusDraft && Z.eqb (bh_revision b) 0 then None
    else Some ErrIllegalTransition
  else Some ErrIllegalTransition.

Definition InvoiceStatus (b : BillHead) : string :=
  if negb (is_positive (bh_invoiced b)) then InvoiceNone
  else if dlt (bh_invoiced b) (dtruncate 2 (bh_total b)) then InvoicePartial
  else InvoiceFull.

Definition PaymentStatus (b : BillHead) : string :=
  if negb (Z.eqb (bh_status b) StatusApproved) then ""
  else if negb (is_positive (bh_paid b)) then PaymentUnpaid
  else if dlt (bh_paid b) (dmax (dsub (bh_total b) (bh_returned b)) dzero) then PaymentPartial
  else PaymentPaid.

(** Field assignments. *)
Definition with_status (h : BillHead) (v : BillStatus) (updated : time) : BillHead :=
  mkBillHead (bh_id h) (bh_tenant h) (bh_bill_no h) (bh_type h) (bh_sub_type h) v
    (bh_partner h) (bh_warehouse h) (bh_operator h) (bh_creator h) (bh_date h)
    (bh_subtotal h) (bh_shipping_fee h) (bh_tax h) (bh_total h) (bh_paid h)
    (bh_currency h) (bh_rate h) (bh_amount_local h) (bh_approved_at h) (bh_approved_by h)
    (bh_revision h) (bh_remark h) (bh_created_at h) updated (bh_client_ref h)
    (bh_source h) (bh_occurred_at h) (bh_partner_name h) (bh_warehouse_name h)
    (bh_invoiced h) (bh_returned h).

Definition with_approval (h : BillHead) (at_ : option time) (by_ : option uuid) (rev : Z) : BillHead :=
  mkBillHead (bh_id h) (bh_tenant h) (bh_bill_no h) (bh_type h) (bh_sub_type h) (bh_status h)
    (bh_partner h) (bh_warehouse h) (bh_operator h) (bh_creator h) (bh_date h)
    (bh_subtotal h) (bh_shipping_fee h) (bh_tax h) (bh_total h) (bh_paid h)
    (bh_currency h) (bh_rate h) (bh_amount_local h) at_ by_
    rev (bh_remark h) (bh_created_at h) (bh_updated_at h) (bh_client_ref h)
    (bh_source h) (bh_occurred_at h) (bh_partner_name h) (bh_warehouse_name h)
    (bh_invoiced h) (bh_returned h).

Definition with_paid (h : BillHead) (v : dec) (updated : time) : BillHead :=
  mkBillHead (bh_id h) (bh_tenant h) (bh_bill_no h) (bh_type h) (bh_sub_type h) (bh_status h)
    (bh_partner h) (bh_warehouse h) (bh_operator h) (bh_creator h) (bh_date h)
    (bh_subtotal h) (bh_shipping_fee h) (bh_tax h) (bh_total h) v
    (bh_currency h) (bh_rate h) (bh_amount_local h) (bh_approved_at h) (bh_approved_by h)
    (bh_revision h) (bh_remark h) (bh_created_at h) updated (bh_client_ref h)
    (bh_source h) (bh_occurred_at h) (bh_partner_name h) (bh_warehouse_name h)
    (bh_invoiced h) (bh_returned h).

Definition with_warehouse (h : BillHead) (v : option uuid) (updated : time) : BillHead :=
  mkBillHead (bh_id h) (bh_tenant h) (bh_bill_no h) (bh_type h) (bh_sub_type h) (bh_status h)
    (bh_partner h) v (bh_operator h) (bh_creator h) (bh_date h)
    (bh_subtotal h) (bh_shipping_fee h) (bh_tax h) (bh_total h) (bh_paid h)
    (bh_currency h) (bh_rate h) (bh_amount_local h) (bh_approved_at h) (bh_approved_by h)
    (bh_revision h) (bh_remark h) (bh_created_at h) updated (bh_client_ref h)
    (bh_source h) (bh_occurred_at h) (bh_partner_name h) (bh_warehouse_name h)
    (bh_invoiced h) (bh_returned h).

(** The columns UpdateBill and the draft updates rewrite. *)
Definition with_draft (h : BillHead) (partner warehouse : option uuid) (date : time)
    (subtotal shipping tax total amount_local : dec) (remark : string) (updated : time) : BillHead :=
  mkBillHead (bh_id h) (bh_tenant h) (bh_bill_no h) (bh_type h) (bh_sub_type h) (bh_status h)
    partner warehouse (bh_operator h) (bh_creator h) date
    subtotal shipping tax total (bh_paid h)
    (bh_currency h) (bh_rate h) amount_local (bh_approved_at h) (bh_approved_by h)
    (bh_revision h) remark (bh_created_at h) updated (bh_client_ref h)
    (bh_source h) (bh_occurred_at h) (bh_partner_name h) (bh_warehouse_name h)
    (bh_invoiced h) (bh_returned h).

(** The columns CreateBill stores and the ones the table fills in. *)
Definition with_stored (h : BillHead) (subtotal shipping tax total paid : dec)
    (currency : string) (rate amount_local : dec) (revision : Z) (source : string) : BillHead :=
  mkBillHead (bh_id h) (bh_tenant h) (bh_bill_no h) (bh_type h) (bh_sub_type h) (bh_status h)
    (bh_partner h) (bh_warehouse h) None (bh_creator h) (bh_date h)
    subtotal shipping tax total paid
    currency rate amount_local None None
    revision (bh_remark h) (bh_created_at h) (bh_updated_at h) (bh_client_ref h)
    source (bh_occurred_at h) EmptyString EmptyString dzero dzero.

(** What a SELECT of the head's columns scans into a fresh [BillHead]. *)
Definition as_scanned (h : BillHead) : BillHead :=
  mkBillHead (bh_id h) (bh_tenant h) (bh_bill_no h) (bh_type h) (bh_sub_type h) (bh_status h)
    (bh_partner h) (bh_warehouse h) None (bh_creator h) (bh_date h)
    (bh_subtotal h) (bh_shipping_fee h) (bh_tax h) (bh_total h) (bh_paid h)
    (bh_currency h) (bh_rate h) (bh_amount_local h) (bh_approved_at h) (bh_approved_by h)
    (bh_revision h) (bh_remark h) (bh_created_at h) (bh_updated_at h) EmptyString
    EmptyString (bh_occurred_at h) EmptyString EmptyString dzero dzero.
(** The heads the use cases build: a draft with the zero value in every other field. *)
Definition draft_head (id tenant : uuid) (no : string) (type : BillType) (sub : BillSubType)
    (partner warehouse : option uuid) (creator : uuid) (date : time)
    (subtotal shipping tax total : dec) (currency : string) (rate amount_local : dec)
    (remark : string) (now : time) (client_ref source : string) (occurred : option time) : BillHead :=
  mkBillHead id tenant no type sub StatusDraft partner warehouse None creator date
    subtotal shipping tax total dzero currency rate amount_local None None 0%Z remark now now
    client_ref source occurred EmptyString EmptyString dzero dzero.

(** item.HeadID = billID *)
Definition with_head (head : uuid) (it : BillItem) : BillItem :=
  mkBillItem (bi_id it) (bi_tenant it) head (bi_product it) (bi_unit it) (bi_unit_name it)
    (bi_line_no it) (bi_qty it) (bi_unit_price it) (bi_line_amount it) (bi_remark it).

(** The display names GetBill fills in. *)
Definition with_names (h : BillHead) (partner warehouse : string) : BillHead :=
  mkBillHead (bh_id h) (bh_tenant h) (bh_bill_no h) (bh_type h) (bh_sub_type h) (bh_status h)
    (bh_partner h) (bh_warehouse h) (bh_operator h) (bh_creator h) (bh_date h)
    (bh_subtotal h) (bh_shipping_fee h) (bh_tax h) (bh_total h) (bh_paid h)
    (bh_currency h) (bh_rate h) (bh_amount_local h) (bh_approved_at h) (bh_approved_by h)
    (bh_revision h) (bh_remark h) (bh_created_at h) (bh_updated_at h) (bh_client_ref h)
    (bh_source h) (bh_occurred_at h) partner warehouse (bh_invoiced h) (bh_returned h).
End bill_domain.
