(* ===== verification/GoTime.v ===== *)
(** Go's calendar and integer formatting, as far as bill numbers use them.

    [civil] is the date algorithm of package time on the day number counted from
    0001-01-01; [BillNoDay] is the function of adapter/repo/bill that turns an
    instant into the YYYYMMDD of the shop's wall clock; [fmt_d n w] is
    [fmt.Sprintf] with the verb [%0wd]. *)
From S2P Require Import Prelude Rounding Decimal Types.
From stdpp Require Import base tactics strings pretty list.
From Stdlib Require Import ZArith Lia Ascii.

Local Open Scope Z_scope.
#[local] Ltac Zify.zify_post_hook ::= Z.to_euclidean_division_equations.

Definition day_number (t : time) : Z := t / (24 * hour).

Definition is_leap (y : Z) : bool :=
  (y mod 4 =? 0) && (negb (y mod 100 =? 0) || (y mod 400 =? 0)).

Definition days_before (month : Z) : Z :=
  nth (Z.to_nat month) [0; 31; 59; 90; 120; 151; 181; 212; 243; 273; 304; 334; 365] 365.

(** Month (1-12) and day (1-31) of the day [yday] (from 0) of a year. *)
Definition month_day (leap : bool) (yday : Z) : Z * Z :=
  if leap && (yday =? 59) then (2, 29)
  else
    let day := if leap && (59 <? yday) then yday - 1 else yday in
    let month := day / 31 in
    let fin := days_before (month + 1) in
    if fin <=? day then (month + 2, day - fin + 1)
    else (month + 1, day - days_before month + 1).

(** Year, month and day of a day number. *)
Definition civil (d0 : Z) : Z * Z * Z :=
  let n400 := d0 / 146097 in
  let d1 := d0 - 146097 * n400 in
  let n100 := let n := d1 / 36524 in n - Z.shiftr n 2 in
  let d2 := d1 - 36524 * n100 in
  let n4 := d2 / 1461 in
  let d3 := d2 - 1461 * n4 in
  let n1 := let n := d3 / 365 in n - Z.shiftr n 2 in
  let yday := d3 - 365 * n1 in
  let year := 400 * n400 + 100 * n100 + 4 * n4 + n1 + 1 in
  let '(m, d) := month_day (is_leap year) yday in
  (year, m, d).

Fixpoint zeros (n : nat) : string :=
  match n with O => EmptyString | S n' => String "0"%char (zeros n') end.

Definition fmt_d (n : Z) (width : nat) : string :=
  let s := pretty (Z.to_N n) in
  (zeros (width - String.length s) ++ s)%string.

(** [time.FixedZone("CST", 8*3600)] *)
Definition billNoZone : Z := 8 * hour.

Definition BillNoDay (t : time) : string :=
  let '(y, m, d) := civil (day_number (t + billNoZone)) in
  (fmt_d y 4 ++ fmt_d m 2 ++ fmt_d d 2)%string.

(** ** The calendar is right

    [days_of] counts the days before a date from the definition of the Gregorian
    calendar; [civil] inverts it. *)
Definition days_of (y m d : Z) : Z :=
  let p := y - 1 in
  365 * p + p / 4 - p / 100 + p / 400
  + days_before (m - 1) + (if is_leap y && (2 <? m) then 1 else 0) + (d - 1).

Definition month_day_ok (leap : bool) (yday : Z) : bool :=
  let '(m, d) := month_day leap yday in
  (1 <=? m) && (m <=? 12) && (1 <=? d) && (d <=? 31)
  && (days_before (m - 1) + (if leap && (2 <? m) then 1 else 0) + (d - 1) =? yday).

Fixpoint all_below (n : nat) (p : Z -> bool) (from : Z) : bool :=
  match n with O => true | S n' => p from && all_below n' p (from + 1) end.

Lemma all_below_spec n p from d :
  all_below n p from = true -> from <= d < from + Z.of_nat n -> p d = true.
Proof.
  revert from. induction n as [|n IH]; intros from H Hd; [lia|].
  apply andb_true_iff in H as [H1 H2].
  destruct (decide (d = from)) as [->|]; [done|]. apply (IH (from + 1)); [done|lia].
Qed.

Lemma month_day_spec (leap : bool) yday :
  0 <= yday < (if leap then 366 else 365) -> month_day_ok leap yday = true.
Proof.
  destruct leap; intros Hd.
  - apply (all_below_spec 366 _ 0); [by vm_compute | lia].
  - apply (all_below_spec 365 _ 0); [by vm_compute | lia].
Qed.

(** The 400/100/4/1-year cycles. *)
Lemma cycles d n100 n4 n1 :
  0 <= d < 146097 ->
  n100 = d / 36524 - Z.shiftr (d / 36524) 2 ->
  n4 = (d - 36524 * n100) / 1461 ->
  n1 = (d - 36524 * n100 - 1461 * n4) / 365
       - Z.shiftr ((d - 36524 * n100 - 1461 * n4) / 365) 2 ->
  0 <= n100 <= 3 /\ 0 <= n4 <= 24 /\ 0 <= n1 <= 3 /\
  0 <= d - 36524 * n100 - 1461 * n4 - 365 * n1
  < 365 + (if (n1 =? 3) && (negb (n4 =? 24) || (n100 =? 3)) then 1 else 0).
Proof.
  intros Hd. rewrite !Z.shiftr_div_pow2 by lia. change (2 ^ 2) with 4.
  intros H100 H4 H1.
  assert (0 <= d / 36524 <= 4) by lia.
  assert (0 <= n100 <= 3) by lia.
  assert (Hr : 0 <= d - 36524 * n100 <= 36524) by lia.
  assert (d - 36524 * n100 = 36524 -> n100 = 3) by lia.
  assert (0 <= n4 <= 24) by lia.
  set (e := d - 36524 * n100 - 1461 * n4) in *.
  assert (0 <= e < 1461) by lia.
  assert (0 <= n1 <= 3) by lia.
  split_and!; try lia.
  destruct (Z.eqb_spec n1 3), (Z.eqb_spec n4 24), (Z.eqb_spec n100 3); simpl; lia.
Qed.

Lemma leap_cycles n400 n100 n4 n1 :
  0 <= n100 <= 3 -> 0 <= n4 <= 24 -> 0 <= n1 <= 3 ->
  is_leap (400 * n400 + 100 * n100 + 4 * n4 + n1 + 1)
  = (n1 =? 3) && (negb (n4 =? 24) || (n100 =? 3)).
Proof.
  intros. unfold is_leap.
  destruct (Z.eqb_spec n1 3), (Z.eqb_spec n4 24), (Z.eqb_spec n100 3); simpl;
    repeat match goal with |- context [?a =? ?b] => destruct (Z.eqb_spec a b) end;
    simpl; try done; lia.
Qed.

Lemma civil_days_of d :
  let '(y, m, dd) := civil d in days_of y m dd = d /\ 1 <= m <= 12 /\ 1 <= dd <= 31.
Proof.
  unfold civil.
  set (n400 := d / 146097). set (d1 := d - 146097 * n400).
  set (n100 := d1 / 36524 - Z.shiftr (d1 / 36524) 2).
  set (n4 := (d1 - 36524 * n100) / 1461).
  set (n1 := (d1 - 36524 * n100 - 1461 * n4) / 365
             - Z.shiftr ((d1 - 36524 * n100 - 1461 * n4) / 365) 2).
  assert (Hd1 : 0 <= d1 < 146097) by (subst d1 n400; lia).
  destruct (cycles d1 n100 n4 n1 Hd1 eq_refl eq_refl eq_refl) as (H1 & H2 & H3 & H4).
  clearbody n100 n4 n1. cbv zeta.
  set (year := 400 * n400 + 100 * n100 + 4 * n4 + n1 + 1).
  set (yday := d1 - 36524 * n100 - 1461 * n4 - 365 * n1) in *.
  rewrite <- (leap_cycles n400) in H4 by done. fold year in H4.
  assert (Hy : 0 <= yday < (if is_leap year then 366 else 365))
    by (destruct (is_leap year); lia).
  pose proof (month_day_spec _ _ Hy) as Hok. unfold month_day_ok in Hok.
  destruct (month_day (is_leap year) yday) as [m dd].
  repeat (apply andb_true_iff in Hok as [Hok ?]).
  unfold days_of. subst year. split; [|lia].
  assert ((400 * n400 + 100 * n100 + 4 * n4 + n1 + 1 - 1) / 4 = 100 * n400 + 25 * n100 + n4) by lia.
  assert ((400 * n400 + 100 * n100 + 4 * n4 + n1 + 1 - 1) / 100 = 4 * n400 + n100) by lia.
  assert ((400 * n400 + 100 * n100 + 4 * n4 + n1 + 1 - 1) / 400 = n400) by lia.
  subst d1 yday. lia.
Qed.

(** Day numbers with the same date are the same. *)
Lemma civil_inj d1 d2 : civil d1 = civil d2 -> d1 = d2.
Proof.
  intros H. pose proof (civil_days_of d1) as H1. pose proof (civil_days_of d2) as H2.
  rewrite <- H in H2. destruct (civil d1) as [[??]?]. lia.
Qed.

(** ** Zero-padded numbers *)
Lemma length_append s1 s2 : String.length (s1 ++ s2) = (String.length s1 + String.length s2)%nat.
Proof. induction s1; simpl; [done|]. by rewrite IHs1. Qed.

Lemma append_inj_len a b c d :
  String.length a = String.length c -> (a ++ b = c ++ d)%string -> a = c /\ b = d.
Proof.
  revert c. induction a as [|x a IH]; intros [|y c] Hl H; simpl in *; try lia.
  - done.
  - injection H as -> H. apply IH in H as [-> ->]; [done|lia].
Qed.

(** The number a decimal string reads as; leading zeros do not matter. *)
Fixpoint read_N (acc : N) (s : string) : N :=
  match s with
  | EmptyString => acc
  | String c s' => read_N (acc * 10 + (N_of_ascii c - 48)) s'
  end.

Lemma read_digit x : (x < 10)%N -> (N_of_ascii (pretty_N_char x) - 48)%N = x.
Proof.
  intros Hx. destruct x as [|p]; [done|].
  do 4 (destruct p as [p|p|]; try done; try lia).
Qed.

Lemma read_pretty_go x s : read_N 0 (pretty_N_go x s) = read_N x s.
Proof.
  revert s. induction (N.lt_wf_0 x) as [x _ IH]; intros s.
  destruct (decide (0 < x)%N) as [Hx|Hx].
  - rewrite pretty_N_go_step by done. rewrite IH by (by apply N.div_lt).
    simpl. rewrite read_digit by (by apply N.mod_lt). f_equal.
    rewrite N.mul_comm. symmetry. apply N.Div0.div_mod.
  - assert (x = 0%N) as -> by lia. by rewrite pretty_N_go_0.
Qed.

Lemma read_pretty x : read_N 0 (pretty x) = x.
Proof.
  unfold pretty, pretty_N. case_decide; [by subst|]. apply read_pretty_go.
Qed.

Lemma read_zeros k s : read_N 0 (zeros k ++ s) = read_N 0 s.
Proof. by induction k. Qed.

Lemma fmt_d_inj n m w v : 0 <= n -> 0 <= m -> fmt_d n w = fmt_d m v -> n = m.
Proof.
  unfold fmt_d. intros Hn Hm H. apply (f_equal (read_N 0)) in H.
  rewrite !read_zeros, !read_pretty in H. lia.
Qed.
