(* ===== verification/Store.v ===== *)
(** The database, the process state and transactions.

    [DB] holds the tables of schema tally the commerce core reads and writes;
    NUMERIC columns keep their declared scale ([num4], [num6], [num8] are the
    rounding PostgreSQL applies on store) and the CHECK and UNIQUE constraints
    that can fire are tested by the statements in the repository files.  Foreign
    keys, row locks and NUMERIC precision are not modelled.  Every driver call,
    [uuid.New] and [time.Now] consumes one tick of [World]; the environment says
    which ticks fail.  [WithTx] is the helper the repositories share. *)
From S2P Require Import Prelude Rounding Decimal Types StockDomain BillDomain.
From stdpp Require Import base tactics strings gmap list.
From Stdlib Require Import ZArith Lia.

(** tenant, product, warehouse *)
Abbreviation stock_key := (uuid * uuid * uuid)%type.

(** The optional collaborators of the use cases: in production all are wired. *)
Class Wiring := {
  has_outbox : bool;      (* RecordMovementUseCase.outbox *)
  has_units : bool;       (* the approvals' unitRepo *)
  has_payments : bool;    (* the approvals' payment recorder *)
}.

Section store.
Context {ops : DecimalOps}.

Definition num4 (d : dec) : dec := dround 4 d.   (* NUMERIC(18,4) *)
Definition num6 (d : dec) : dec := dround 6 d.   (* NUMERIC(18,6), NUMERIC(20,6) *)
Definition num8 (d : dec) : dec := dround 8 d.   (* NUMERIC(20,8) *)

(** tally.bill_head: the columns of [BillHead] plus link_bill_id, deleted_at. *)
Record HeadRow := mkHeadRow {
  hr_head : BillHead;
  hr_link : option uuid;
  hr_deleted : bool;
}.

(** tally.bill_item *)
Record ItemRow := mkItemRow {
  ir_item : BillItem;
  ir_link : option uuid;
  ir_purchase_price : option dec;
  ir_deleted : bool;
}.

(** tally.payment_head *)
Record PaymentRow := mkPaymentRow { pr_payment : Payment; pr_deleted : bool }.

Record WarehouseRow := mkWarehouseRow {
  wh_id : uuid;
  wh_tenant : uuid;
  wh_default : bool;
  wh_enabled : bool;
  wh_created_at : time;
  wh_deleted : bool;
  wh_name : string;
}.

Record ProductRow := mkProductRow {
  pd_id : uuid;
  pd_tenant : uuid;
  pd_default_unit : option uuid;
  pd_unit : option uuid;
  pd_name : string;
  pd_deleted : bool;
}.

Record PartnerRow := mkPartnerRow {
  pt_id : uuid;
  pt_tenant : uuid;
  pt_name : string;
  pt_deleted : bool;
}.

Record SkuRow := mkSkuRow {
  sk_tenant : uuid;
  sk_product : uuid;
  sk_default : bool;
  sk_deleted : bool;
  sk_purchase_price : dec;
}.

(** tally.import_order_seen *)
Record OrderSeenRow := mkOrderSeenRow {
  os_tenant : uuid;
  os_platform : string;
  os_order_no : string;
  os_bill : uuid;
}.

(** tally.audit_log rows RecordNegativeStock writes *)
Record AuditRow := mkAuditRow {
  au_tenant : uuid;
  au_user : option uuid;
  au_bill : uuid;
  au_product : uuid;
  au_on_hand : dec;
}.

(** tally.event_outbox rows: the envelope and its payload, before JSON encoding *)
Record OutboxRow := mkOutboxRow {
  ob_id : uuid;
  ob_created_at : time;
  ob_tenant : uuid;
  ob_subject : string;
  ob_event_id : uuid;
  ob_occurred_at : time;
  ob_product : uuid;
  ob_warehouse : uuid;
  ob_direction : string;
  ob_qty_delta : dec;
  ob_on_hand_after : dec;
  ob_unit_cost : dec;
  ob_reference_type : string;
}.

Record DB := mkDB {
  db_snapshots : gmap stock_key Snapshot;
  db_movements : list Movement;
  db_lots : list Lot;
  db_heads : gmap uuid HeadRow;
  db_items : list ItemRow;
  db_payments : list PaymentRow;
  db_sequence : gmap (uuid * string) Z;
  db_warehouses : list WarehouseRow;
  db_products : list ProductRow;
  db_partners : list PartnerRow;
  db_product_unit : gmap (uuid * uuid) dec;
  db_skus : list SkuRow;
  db_orders_seen : list OrderSeenRow;
  db_initial : gmap stock_key (dec * option dec);   (* stock_initial: qty, low_safe_qty *)
  db_audit : list AuditRow;
  db_outbox : list OutboxRow;
}.

Definition set_snapshots (d : DB) v := mkDB v (db_movements d) (db_lots d) (db_heads d) (db_items d) (db_payments d) (db_sequence d) (db_warehouses d) (db_products d) (db_partners d) (db_product_unit d) (db_skus d) (db_orders_seen d) (db_initial d) (db_audit d) (db_outbox d).
Definition set_movements (d : DB) v := mkDB (db_snapshots d) v (db_lots d) (db_heads d) (db_items d) (db_payments d) (db_sequence d) (db_warehouses d) (db_products d) (db_partners d) (db_product_unit d) (db_skus d) (db_orders_seen d) (db_initial d) (db_audit d) (db_outbox d).
Definition set_lots (d : DB) v := mkDB (db_snapshots d) (db_movements d) v (db_heads d) (db_items d) (db_payments d) (db_sequence d) (db_warehouses d) (db_products d) (db_partners d) (db_product_unit d) (db_skus d) (db_orders_seen d) (db_initial d) (db_audit d) (db_outbox d).
Definition set_heads (d : DB) v := mkDB (db_snapshots d) (db_movements d) (db_lots d) v (db_items d) (db_payments d) (db_sequence d) (db_warehouses d) (db_products d) (db_partners d) (db_product_unit d) (db_skus d) (db_orders_seen d) (db_initial d) (db_audit d) (db_outbox d).
Definition set_items (d : DB) v := mkDB (db_snapshots d) (db_movements d) (db_lots d) (db_heads d) v (db_payments d) (db_sequence d) (db_warehouses d) (db_products d) (db_partners d) (db_product_unit d) (db_skus d) (db_orders_seen d) (db_initial d) (db_audit d) (db_outbox d).
Definition set_payments (d : DB) v := mkDB (db_snapshots d) (db_movements d) (db_lots d) (db_heads d) (db_items d) v (db_sequence d) (db_warehouses d) (db_products d) (db_partners d) (db_product_unit d) (db_skus d) (db_orders_seen d) (db_initial d) (db_audit d) (db_outbox d).
Definition set_sequence (d : DB) v := mkDB (db_snapshots d) (db_movements d) (db_lots d) (db_heads d) (db_items d) (db_payments d) v (db_warehouses d) (db_products d) (db_partners d) (db_product_unit d) (db_skus d) (db_orders_seen d) (db_initial d) (db_audit d) (db_outbox d).
Definition set_initial (d : DB) v := mkDB (db_snapshots d) (db_movements d) (db_lots d) (db_heads d) (db_items d) (db_payments d) (db_sequence d) (db_warehouses d) (db_products d) (db_partners d) (db_product_unit d) (db_skus d) (db_orders_seen d) v (db_audit d) (db_outbox d).
Definition set_audit (d : DB) v := mkDB (db_snapshots d) (db_movements d) (db_lots d) (db_heads d) (db_items d) (db_payments d) (db_sequence d) (db_warehouses d) (db_products d) (db_partners d) (db_product_unit d) (db_skus d) (db_orders_seen d) (db_initial d) v (db_outbox d).
Definition set_outbox (d : DB) v := mkDB (db_snapshots d) (db_movements d) (db_lots d) (db_heads d) (db_items d) (db_payments d) (db_sequence d) (db_warehouses d) (db_products d) (db_partners d) (db_product_unit d) (db_skus d) (db_orders_seen d) (db_initial d) (db_audit d) v.

Record World := mkWorld { w_db : DB; w_tick : nat }.

Definition M : Type -> Type := stm World error.

Definition bump (w : World) : World := mkWorld (w_db w) (S (w_tick w)).
Definition with_db (w : World) (d : DB) : World := mkWorld d (w_tick w).

Context {env : Env}.

Definition uuid_new : M uuid := fun w => (Ok (uuid_at (w_tick w)), bump w).
Definition time_now : M time := fun w => (Ok (clock_at (w_tick w)), bump w).

(** One statement sent to PostgreSQL: [f] computes the rows and the new state,
    or the constraint it violates.  A failed statement changes nothing. *)
Definition statement {A} (label : string) (f : DB -> error + (A * DB)) : M A := fun w =>
  if db_fault (w_tick w) then (Err (EWrap label EDriver), bump w)
  else match f (w_db w) with
       | inl e => (Err (EWrap label e), bump w)
       | inr (a, d) => (Ok a, bump (with_db w d))
       end.

(** [a.Div(b)]: the decimal library panics on a zero divisor. *)
Definition Div (a b : dec) : M dec :=
  if is_zero b then panic "decimal division by 0" else mret (ddiv a b).

Definition query {A} (label : string) (f : DB -> A) : M A :=
  statement label (fun d => inr (f d, d)).
Definition update (label : string) (f : DB -> DB) : M unit :=
  statement label (fun d => inr (tt, f d)).
Definition update_checked (label : string) (f : DB -> error + DB) : M unit :=
  statement label (fun d => match f d with inl e => inl e | inr d' => inr (tt, d') end).

Definition restore (db : DB) (w : World) : World := mkWorld db (w_tick w).

(** [repo.WithTx]: begin, run, commit; roll back on an error or a panic.  When
    the rollback itself fails its error replaces the one of [body]; the server
    drops the transaction either way. *)
Definition WithTx {A} (repo : string) (body : M A) : M A := fun w =>
  if db_fault (w_tick w) then (Err (EWrap (repo ++ ": begin tx") EDriver), bump w)
  else match body (bump w) with
       | (Ok a, w') =>
           if db_fault (w_tick w')
           then (Err (EWrap (repo ++ ": commit tx") EDriver), bump (restore (w_db w) w'))
           else (Ok a, bump w')
       | (Err e, w') =>
           if db_fault (w_tick w')
           then (Err (EWrap (repo ++ ": rollback") EDriver), bump (restore (w_db w) w'))
           else (Err e, bump (restore (w_db w) w'))
       | (Panic r, w') => (Panic r, bump (restore (w_db w) w'))
       end.

(** *** What a successful call did *)

Lemma uuid_new_Ok w u w' :
  uuid_new w = (Ok u, w') <-> u = uuid_at (w_tick w) /\ w' = bump w.
Proof. unfold uuid_new. intuition congruence. Qed.

Lemma time_now_Ok w t w' :
  time_now w = (Ok t, w') <-> t = clock_at (w_tick w) /\ w' = bump w.
Proof. unfold time_now. intuition congruence. Qed.

Lemma statement_Ok {A} l (f : DB -> error + (A * DB)) w a w' :
  statement l f w = (Ok a, w') <->
  db_fault (w_tick w) = false /\
  exists d, f (w_db w) = inr (a, d) /\ w' = bump (with_db w d).
Proof.
  unfold statement. destruct (db_fault (w_tick w)).
  - split; [done | by intros [? _]].
  - destruct (f (w_db w)) as [e|[b d]] eqn:Hf.
    + split; [done | by intros (_ & ? & ? & _)].
    + split; [intros [= -> <-]; eauto | by intros (_ & d' & [= -> ->] & ->)].
Qed.

Lemma Div_Ok a b w c w' :
  Div a b w = (Ok c, w') <-> is_zero b = false /\ c = ddiv a b /\ w' = w.
Proof.
  unfold Div. destruct (is_zero b).
  - rewrite panic_Ok. by intuition.
  - rewrite ret_Ok. by intuition.
Qed.

Lemma query_Ok {A} l (f : DB -> A) w a w' :
  query l f w = (Ok a, w') <->
  db_fault (w_tick w) = false /\ a = f (w_db w) /\ w' = bump w.
Proof.
  unfold query. rewrite statement_Ok. split.
  - intros (? & d & [= <- <-] & ->). by destruct w.
  - intros (? & -> & ->). split; [done|]. exists (w_db w). by destruct w.
Qed.

Lemma update_Ok l f w u w' :
  update l f w = (Ok u, w') <->
  db_fault (w_tick w) = false /\ w' = bump (with_db w (f (w_db w))).
Proof.
  unfold update. rewrite statement_Ok. destruct u. split.
  - by intros (? & d & [= <-] & ->).
  - intros (? & ->). eauto.
Qed.

Lemma update_checked_Ok l f w u w' :
  update_checked l f w = (Ok u, w') <->
  db_fault (w_tick w) = false /\
  exists d, f (w_db w) = inr d /\ w' = bump (with_db w d).
Proof.
  unfold update_checked. rewrite statement_Ok. destruct u. split.
  - intros (? & d & H & ->). destruct (f (w_db w)); simplify_eq. eauto.
  - intros (? & d & H & ->). rewrite H. eauto.
Qed.

Lemma WithTx_Ok {A} repo (body : M A) w a w' :
  WithTx repo body w = (Ok a, w') <->
  exists w1, body (bump w) = (Ok a, w1) /\ w' = bump w1 /\
    db_fault (w_tick w) = false /\ db_fault (w_tick w1) = false.
Proof.
  unfold WithTx. destruct (db_fault (w_tick w)).
  { split; [done | by intros (? & ? & ? & ? & ?)]. }
  destruct (body (bump w)) as [[b|e|r] w1].
  - destruct (db_fault (w_tick w1)) eqn:Hf; split; intros H; simplify_eq; eauto.
    all: destruct H as (? & ? & ? & ? & ?); simplify_eq; eauto. congruence.
  - destruct (db_fault (w_tick w1)); split; intros H; simplify_eq;
      by destruct H as (? & ? & ? & ? & ?).
  - split; [done | by intros (? & ? & ? & ? & ?)].
Qed.

(** A transaction that does not commit leaves the database as it was. *)
Lemma WithTx_atomic {A} repo (body : M A) w r w' :
  WithTx repo body w = (r, w') ->
  (exists a w1, r = Ok a /\ body (bump w) = (Ok a, w1) /\ w_db w' = w_db w1) \/
  (w_db w' = w_db w /\ forall a, r <> Ok a).
Proof.
  unfold WithTx. intros H. destruct (db_fault (w_tick w)).
  { right. by simplify_eq. }
  destruct (body (bump w)) as [[b|e|x] w1].
  - destruct (db_fault (w_tick w1)); simplify_eq; [by right|left; eauto].
  - right. by destruct (db_fault (w_tick w1)); simplify_eq.
  - right. by simplify_eq.
Qed.

Lemma WithTx_Err {A} repo (body : M A) w e w' :
  WithTx repo body w = (Err e, w') ->
  w_db w' = w_db w /\
  ((exists s, e = EWrap s EDriver) \/ exists w1, body (bump w) = (Err e, w1)).
Proof.
  unfold WithTx. intros H. destruct (db_fault (w_tick w)).
  { simplify_eq. split; [done|]. left. by eexists. }
  destruct (body (bump w)) as [[b|e0|x] w1]; [| |done];
    destruct (db_fault (w_tick w1)); simplify_eq; split; try done; [left|left|right]; by eexists.
Qed.

Lemma errs_statement (Q : error -> Prop) {A} l (f : DB -> error + (A * DB)) :
  Q (EWrap l EDriver) -> (forall d e, f d = inl e -> Q (EWrap l e)) -> errs Q (statement l f).
Proof.
  intros H1 H2 w e w' H. unfold statement in H.
  destruct (db_fault _); [by simplify_eq|]. destruct (f _) as [e'|[a d]] eqn:Hf; [|done].
  simplify_eq. eauto.
Qed.
Lemma errs_query (Q : error -> Prop) {A} l (f : DB -> A) :
  Q (EWrap l EDriver) -> errs Q (query l f).
Proof. intros H. by apply errs_statement. Qed.
Lemma errs_update (Q : error -> Prop) l f : Q (EWrap l EDriver) -> errs Q (update l f).
Proof. intros H. by apply errs_statement. Qed.
Lemma errs_update_checked (Q : error -> Prop) l f :
  Q (EWrap l EDriver) -> (forall d e, f d = inl e -> Q (EWrap l e)) -> errs Q (update_checked l f).
Proof. intros H1 H2. apply errs_statement; [done|]. intros d e. destruct (f d) eqn:Hf; intros; simplify_eq; eauto. Qed.
Lemma errs_uuid_new (Q : error -> Prop) : errs Q uuid_new.
Proof. by intros w e w'. Qed.
Lemma errs_time_now (Q : error -> Prop) : errs Q time_now.
Proof. by intros w e w'. Qed.
Lemma errs_Div (Q : error -> Prop) a b : errs Q (Div a b).
Proof. unfold Div. destruct (is_zero b); by intros w e w'. Qed.
Lemma errs_WithTx (Q : error -> Prop) {A} l (body : M A) :
  (forall s, Q (EWrap s EDriver)) -> errs Q body -> errs Q (WithTx l body).
Proof.
  intros HQ Hb w e w' H. unfold WithTx in H.
  destruct (db_fault _); [by simplify_eq|].
  destruct (body (bump w)) as [[a|e0|r] w1] eqn:E; [| |done];
    destruct (db_fault _); simplify_eq; eauto.
Qed.

(** *** A database nothing goes wrong with: progress statements assume it. *)
Definition db_reliable : Prop := forall n, db_fault n = false.

Lemma query_run {A} l (f : DB -> A) w :
  db_fault (w_tick w) = false -> query l f w = (Ok (f (w_db w)), bump w).
Proof. intros H. by apply query_Ok. Qed.
Lemma update_run l f w :
  db_fault (w_tick w) = false ->
  update l f w = (Ok tt, bump (with_db w (f (w_db w)))).
Proof. intros H. by apply update_Ok. Qed.
Lemma update_checked_run l f w d :
  db_fault (w_tick w) = false -> f (w_db w) = inr d ->
  update_checked l f w = (Ok tt, bump (with_db w d)).
Proof. intros H ?. apply update_checked_Ok. eauto. Qed.

(** *** Frames

    [db_rel P]: the databases are [P]-related and time has not gone back. *)
Definition db_rel (P : DB -> DB -> Prop) (w w' : World) : Prop :=
  P (w_db w) (w_db w') /\ w_tick w <= w_tick w'.

#[export] Instance db_rel_preorder P `{!PreOrder P} : PreOrder (db_rel P).
Proof.
  split.
  - intros w. split; [reflexivity|done].
  - intros w1 w2 w3 [? ?] [? ?]. split; [by etrans|lia].
Qed.

Section keeps.
Context (P : DB -> DB -> Prop) `{!PreOrder P}.

Lemma db_rel_bump w d : P (w_db w) d -> db_rel P w (bump (with_db w d)).
Proof. split; simpl; [done|lia]. Qed.
Lemma db_rel_tick w : db_rel P w (bump w).
Proof. split; simpl; [reflexivity|lia]. Qed.

Lemma keeps_uuid_new : keeps (db_rel P) uuid_new.
Proof. intros w. apply db_rel_tick. Qed.
Lemma keeps_time_now : keeps (db_rel P) time_now.
Proof. intros w. apply db_rel_tick. Qed.

Lemma keeps_Div a b : keeps (db_rel P) (Div a b).
Proof. unfold Div. destruct (is_zero b); intros w; reflexivity. Qed.

Lemma keeps_statement {A} l (f : DB -> error + (A * DB)) :
  (forall d a d', f d = inr (a, d') -> P d d') -> keeps (db_rel P) (statement l f).
Proof.
  intros Hf w. unfold statement.
  destruct (db_fault (w_tick w)); simpl; [apply db_rel_tick|].
  destruct (f (w_db w)) as [e|[a d]] eqn:H; simpl; [apply db_rel_tick|].
  apply db_rel_bump. eauto.
Qed.
Lemma keeps_query {A} l (f : DB -> A) : keeps (db_rel P) (query l f).
Proof. apply keeps_statement. intros d a d' [= _ <-]. reflexivity. Qed.
Lemma keeps_update l f : (forall d, P d (f d)) -> keeps (db_rel P) (update l f).
Proof. intros Hf. apply keeps_statement. by intros d a d' [= _ <-]. Qed.
Lemma keeps_update_checked l f :
  (forall d d', f d = inr d' -> P d d') -> keeps (db_rel P) (update_checked l f).
Proof.
  intros Hf. apply keeps_statement. intros d a d' H.
  destruct (f d) eqn:E; simplify_eq. eauto.
Qed.

Lemma keeps_WithTx {A} repo (body : M A) :
  keeps (db_rel P) body -> keeps (db_rel P) (WithTx repo body).
Proof.
  intros Hb w. specialize (Hb (bump w)). unfold WithTx.
  destruct (db_fault (w_tick w)); [apply db_rel_tick|].
  destruct (body (bump w)) as [[a|e|r] w1], Hb as [H1 H2]; simpl in *;
    [destruct (db_fault (w_tick w1))..|]; split; simpl; try done; try reflexivity; lia.
Qed.
End keeps.
(** *** All or nothing

    [atomic m]: unless [m] succeeds the database is as it was.  Reads keep it; what follows
    them must be atomic; a transaction is. *)
Definition atomic {A} (m : M A) : Prop :=
  forall w x w', m w = (x, w') -> (forall a, x <> Ok a) -> w_db w' = w_db w.

Lemma atomic_reads {A} (m : M A) : keeps (db_rel eq) m -> atomic m.
Proof. intros H w x w' Hm _. by destruct (keeps_run _ _ _ _ _ H Hm). Qed.
Lemma atomic_bind {A B} (m : M A) (k : A -> M B) :
  keeps (db_rel eq) m -> (forall a, atomic (k a)) -> atomic (m ≫= k).
Proof.
  intros Hm Hk w x w' H Hx. unfold mbind, stm_bind in H. destruct (m w) as [r w1] eqn:E.
  destruct (keeps_run _ _ _ _ _ Hm E) as [E1 _].
  destruct r as [a|e|s]; [|congruence..]. rewrite E1. by eapply Hk.
Qed.
Lemma atomic_WithTx {A} repo (body : M A) : atomic (WithTx repo body).
Proof. intros w x w' [(a & w1 & -> & _)|[H _]]%WithTx_atomic Hx; [by destruct (Hx a)|done]. Qed.
Lemma atomic_on_err {A} f (m : M A) : atomic m -> atomic (on_err f m).
Proof.
  intros Hm w x w' H Hx. unfold on_err in H. destruct (m w) as [r w1] eqn:E.
  destruct r as [a|e|s]; simplify_eq; [by destruct (Hx a)|by eapply Hm..].
Qed.
(** A last step that cannot fail after the transaction. *)
Lemma atomic_bind_ret {A B} (m : M A) (f : A -> B) : atomic m -> atomic (a ← m; mret (f a)).
Proof.
  intros Hm w x w' H Hx. unfold mbind, stm_bind in H. destruct (m w) as [r w1] eqn:E.
  destruct r as [a|e|s]; [|simplify_eq; by eapply Hm..].
  unfold mret, stm_ret in H. simplify_eq. by destruct (Hx (f a)).
Qed.
End store.

(** Walk a use case to its transaction. *)
Create HintDb atomic discriminated.
#[export] Hint Constants Opaque : atomic.
Ltac atomic_step :=
  intros;
  lazymatch goal with
  | |- atomic (WithTx _ _) => apply atomic_WithTx
  | |- atomic (on_err _ _) => apply atomic_on_err
  | |- atomic (match ?x with _ => _ end) => destruct x
  | |- atomic (_ ← _; mret _) =>
      first [apply atomic_bind; [solve [keeps_solve]|] | apply atomic_bind_ret]
  | |- atomic (_ ≫= _) => apply atomic_bind; [solve [keeps_solve]|]
  | |- atomic _ => first [solve [auto with atomic] | apply atomic_reads; solve [keeps_solve]]
  end.
Ltac atomic_solve := repeat atomic_step.

Ltac keeps_leaf ::=
  lazymatch goal with
  | |- keeps _ uuid_new => apply keeps_uuid_new
  | |- keeps _ time_now => apply keeps_time_now
  | |- keeps _ (Div _ _) => apply keeps_Div
  | |- keeps _ (query _ _) => apply keeps_query
  | |- keeps _ (update _ _) => apply keeps_update
  | |- keeps _ (update_checked _ _) => apply keeps_update_checked
  | |- keeps _ (statement _ _) => apply keeps_statement
  | |- keeps _ (WithTx _ _) => apply keeps_WithTx
  end.

Ltac errs_leaf ::=
  lazymatch goal with
  | |- errs _ uuid_new => apply errs_uuid_new
  | |- errs _ time_now => apply errs_time_now
  | |- errs _ (Div _ _) => apply errs_Div
  | |- errs _ (query _ _) => apply errs_query
  | |- errs _ (update _ _) => apply errs_update
  | |- errs _ (update_checked _ _) => apply errs_update_checked
  | |- errs _ (statement _ _) => apply errs_statement
  | |- errs _ (WithTx _ _) => apply errs_WithTx
  end.

Ltac mstep_ext H ::=
  match type of H with
  | uuid_new _ = (Ok _, _) => apply uuid_new_Ok in H as [? ?]; simplify_eq
  | time_now _ = (Ok _, _) => apply time_now_Ok in H as [? ?]; simplify_eq
  | Div _ _ _ = (Ok _, _) =>
      let F := fresh "Hdiv" in apply Div_Ok in H as (F & ? & ?); simplify_eq
  | query _ _ _ = (Ok _, _) =>
      let F := fresh "Hf" in apply query_Ok in H as (F & ? & ?); simplify_eq
  | update _ _ _ = (Ok _, _) =>
      let F := fresh "Hf" in apply update_Ok in H as (F & ?); simplify_eq
  | update_checked _ _ _ = (Ok _, _) =>
      let F := fresh "Hf" in let d := fresh "d" in
      apply update_checked_Ok in H as (F & d & H & ?); simplify_eq
  | _ => idtac
  end.

(** The database is what proofs follow; the clock ticks are noise. *)
Ltac wsimpl := cbn [w_db w_tick bump with_db restore fst snd] in *.
