(* ===== verification/StockRepo.v ===== *)
(** adapter/repo/stock: the stock tables behind the calculators.

    One definition per repository method, under the Go names.  A row goes in with
    its NUMERIC columns rounded and its CHECK and UNIQUE constraints tested; the
    text round trip of decimals through the driver ([String] and
    decimalutil.Parse) is the identity on the stored value. *)
From S2P Require Import Prelude Rounding Decimal Types StockDomain BillDomain Store.
From stdpp Require Import base tactics strings gmap list.
From Stdlib Require Import ZArith.

Section decimalutil.
Context {ops : DecimalOps}.

(** pkg/decimalutil.Parse *)
Definition Parse (s field : string) : error + dec :=
  match s with
  | EmptyString => inr dzero
  | _ => match dof_string s with
         | Some d => inr d
         | None => inl (EWrap ("decimalutil: parse " ++ field) (EMsg "can't convert to decimal"))
         end
  end.
End decimalutil.

Section stock_repo.
Context {ops : DecimalOps} {env : Env}.

(** ** Row predicates and columns *)

Definition at_key (tenant product warehouse : uuid) (t p w : uuid) : bool :=
  N.eqb t tenant && N.eqb p product && N.eqb w warehouse.

Definition reference_types : list string :=
  [RefPurchase; RefSale; RefReturn; RefAdjust; RefTransfer; RefInit].

(** The row INSERT INTO stock_movement stores: the two flags have no column. *)
Definition stored_movement (m : Movement) : Movement :=
  mkMovement (mv_id m) (mv_tenant m) (mv_product m) (mv_warehouse m) (mv_direction m)
    (num6 (mv_qty_base m)) (num6 (mv_unit_cost m)) (num6 (mv_total_cost m))
    (mv_reference_type m) (mv_reference_id m) (mv_occurred_at m) (mv_created_by m)
    (mv_note m) (mv_created_at m) false false.

Definition movement_checks (m : Movement) : option error :=
  if is_none (mv_reference_id m) then Some (EConstraint "stock_movement.reference_id not null")
  else if negb (existsb (String.eqb (mv_reference_type m)) reference_types)
  then Some (EConstraint "stock_movement_reference_type_check")
  else if is_none (Direction_Validate (mv_direction m)) then None
  else Some (EConstraint "stock_movement_direction_check").

Definition stored_lot (l : Lot) : Lot :=
  mkLot (lot_id l) (lot_tenant l) (lot_product l) (lot_warehouse l) (lot_no l)
    (num4 (lot_qty l)) (num4 (lot_remaining l)) (num6 (lot_unit_cost l))
    (lot_received_at l) (lot_source l) (lot_created_at l).

(** UNIQUE (tenant_id, product_id, lot_no) *)
Definition lot_no_taken (d : DB) (l : Lot) : bool :=
  existsb (fun r => N.eqb (lot_tenant r) (lot_tenant l) && N.eqb (lot_product r) (lot_product l)
                    && String.eqb (lot_no r) (lot_no l)) (db_lots d).

Definition with_remaining (l : Lot) (q : dec) : Lot :=
  mkLot (lot_id l) (lot_tenant l) (lot_product l) (lot_warehouse l) (lot_no l)
    (lot_qty l) q (lot_unit_cost l) (lot_received_at l) (lot_source l) (lot_created_at l).

Definition stored_snapshot (s : Snapshot) (id : uuid) (now : time) : Snapshot :=
  mkSnapshot id (sn_tenant s) (sn_product s) (sn_warehouse s)
    (num4 (sn_on_hand s)) (num4 (sn_available s)) (num6 (sn_unit_cost s)) (sn_strategy s) now.

Definition sn_key (s : Snapshot) : stock_key := (sn_tenant s, sn_product s, sn_warehouse s).

(** ** Methods *)

Definition AcquireAdvisoryLock (tenant product warehouse : uuid) : M unit :=
  query "stock repo: advisory lock" (fun _ => tt).

Definition CheckOwned (tenant warehouse : uuid) (products : list uuid) : M (bool * Z) :=
  whCount ← query "stock repo: check warehouse" (fun d =>
    Z.of_nat (length (select (fun r => N.eqb (wh_tenant r) tenant && N.eqb (wh_id r) warehouse
                                       && negb (wh_deleted r)) (db_warehouses d))));
  n ← query "stock repo: check products" (fun d =>
    Z.of_nat (length (select (fun r => N.eqb (pd_tenant r) tenant
                                       && existsb (N.eqb (pd_id r)) products
                                       && negb (pd_deleted r)) (db_products d))));
  mret (Z.eqb whCount 1, n).

Definition GetSnapshot (tenant product warehouse : uuid) : M (option Snapshot) :=
  query "stock repo: scan snapshot" (fun d => db_snapshots d !! (tenant, product, warehouse)).

Definition SelectForUpdate (tenant product warehouse : uuid) : M (option Snapshot) :=
  query "stock repo: scan snapshot" (fun d => db_snapshots d !! (tenant, product, warehouse)).

Definition upsert_row (s : Snapshot) (now : time) (d : DB) : DB :=
  let id := match db_snapshots d !! sn_key s with
            | Some old => sn_id old
            | None => sn_id s
            end in
  set_snapshots d (<[sn_key s := stored_snapshot s id now]> (db_snapshots d)).

Definition strategy_checks (s : Snapshot) : option error :=
  if String.eqb (sn_strategy s) CostStrategyFIFO || String.eqb (sn_strategy s) CostStrategyWAC
  then None else Some (EConstraint "stock_snapshot_cost_strategy_check").

Definition UpsertSnapshot (s : Snapshot) : M unit :=
  now ← time_now;
  update_checked "stock repo: upsert snapshot" (fun d =>
    match strategy_checks s with
    | Some e => inl e
    | None => inr (upsert_row s now d)
    end).

Definition InsertMovement (m : Movement) : M unit :=
  update_checked "stock repo: insert movement" (fun d =>
    match movement_checks m with
    | Some e => inl e
    | None => inr (set_movements d (db_movements d ++ [stored_movement m]))
    end).

Definition InsertLot (l : Lot) : M unit :=
  update_checked "stock repo: insert lot" (fun d =>
    if lot_no_taken d l then inl (EConstraint "idx_lot_no")
    else inr (set_lots d (db_lots d ++ [stored_lot l]))).

Definition active_lot (tenant product warehouse : uuid) (l : Lot) : bool :=
  at_key tenant product warehouse (lot_tenant l) (lot_product l) (lot_warehouse l)
  && is_positive (lot_remaining l).

Definition ListActiveLots (tenant product warehouse : uuid) : M (list Lot) :=
  query "stock repo: list active lots" (fun d =>
    sql_order lot_received_at (select (active_lot tenant product warehouse) (db_lots d))).

Definition UpdateLotQty (id : uuid) (qtyRemaining : dec) : M unit :=
  update "stock repo: update lot qty" (fun d =>
    set_lots d ((fun l => if N.eqb (lot_id l) id then with_remaining l (num4 qtyRemaining) else l)
                <$> db_lots d)).

(** adjust_cost.go: the default SKU's purchase price, else the cost the product
    carries in the warehouse whose snapshot changed last. *)
Definition FallbackCost (tenant product warehouse : uuid) : M dec :=
  sku ← query "stock repo: fallback cost" (fun d =>
    head (sql_order (fun _ => 0%Z)
      (sk_purchase_price <$> select (fun r => N.eqb (sk_tenant r) tenant && N.eqb (sk_product r) product
         && sk_default r && negb (sk_deleted r) && is_positive (sk_purchase_price r)) (db_skus d))));
  match sku with
  | Some p => mret p
  | None =>
      other ← query "stock repo: fallback cost" (fun d =>
        head (sql_order (fun s => (- sn_updated_at s)%Z)
          (select (fun s => N.eqb (sn_tenant s) tenant && N.eqb (sn_product s) product
             && negb (N.eqb (sn_warehouse s) warehouse) && is_positive (sn_unit_cost s))
             (snd <$> map_to_list (db_snapshots d)))));
      mret (match other with Some s => sn_unit_cost s | None => dzero end)
  end.

(** LIMIT / OFFSET; PostgreSQL rejects a negative OFFSET. *)
Definition page {A} (limit offset : Z) (rows : list A) : error + list A :=
  if Z.ltb offset 0 then inl (EMsg "OFFSET must not be negative")
  else inr (firstn (Z.to_nat limit) (skipn (Z.to_nat offset) rows)).

Definition paged {A} (label : string) (limit offset : Z) (rows : DB -> list A) : M (list A) :=
  statement label (fun d =>
    match page limit offset (rows d) with inl e => inl e | inr l => inr (l, d) end).

(** A filter field that is uuid.Nil does not filter. *)
Definition opt_eq (want have : uuid) : bool := uuid_is_nil want || N.eqb have want.

Definition ListSnapshots (tenant product warehouse : uuid) (limit offset : Z) : M (list Snapshot) :=
  let lim := if Z.leb limit 0 then 20%Z else limit in
  paged "stock repo: list snapshots" lim offset (fun d =>
    sql_order (fun s => (- sn_updated_at s)%Z)
      (select (fun s => N.eqb (sn_tenant s) tenant && opt_eq product (sn_product s)
                        && opt_eq warehouse (sn_warehouse s))
         (snd <$> map_to_list (db_snapshots d)))).

Definition ListMovements (tenant product warehouse : uuid) (limit offset : Z) : M (list Movement) :=
  let lim := if Z.leb limit 0 then 50%Z else limit in
  paged "stock repo: list movements" lim offset (fun d =>
    sql_order (fun m => (- mv_occurred_at m)%Z)
      (select (fun m => N.eqb (mv_tenant m) tenant && opt_eq product (mv_product m)
                        && opt_eq warehouse (mv_warehouse m)) (db_movements d))).

Definition ListMovementsByReference (tenant reference : uuid) : M (list Movement) :=
  query "stock repo: list by reference" (fun d =>
    sql_order mv_created_at
      (select (fun m => N.eqb (mv_tenant m) tenant
                        && bool_decide (mv_reference_id m = Some reference)) (db_movements d))).

(** stock_initial.low_safe_qty: update every row of the product, insert one when
    there is none and a quantity is set. *)
Definition set_low_safe (qty : option dec) (tenant product : uuid) (d : DB) : DB :=
  set_initial d (map_imap (fun k r =>
    let '(t, p, _) := k in
    Some (if N.eqb t tenant && N.eqb p product then (r.1, num4 <$> qty) else r)) (db_initial d)).

Definition initial_rows (tenant product : uuid) (d : DB) : Z :=
  Z.of_nat (length (select (fun kr : stock_key * (dec * option dec) =>
    let '(t, p, _) := kr.1 in N.eqb t tenant && N.eqb p product) (map_to_list (db_initial d)))).

Definition SetProductSafetyQty (tenant product : uuid) (qty : option dec) (defaultWarehouse : uuid) : M unit :=
  n ← statement "stock repo: set safety qty update" (fun d =>
    inr (initial_rows tenant product d, set_low_safe qty tenant product d));
  if Z.ltb 0 n || is_none qty then mret tt
  else if uuid_is_nil defaultWarehouse
  then throw (EMsg "stock repo: set safety qty: default warehouse required")
  else
    _ ← uuid_new;
    update "stock repo: set safety qty insert" (fun d =>
      let k := (tenant, product, defaultWarehouse) in
      let q := match db_initial d !! k with Some r => r.1 | None => dzero end in
      set_initial d (<[k := (q, num4 <$> qty)]> (db_initial d))).
End stock_repo.
