(* ===== verification/StockCalc.v ===== *)
(** app/stock: the InventoryCalculator interface and the weighted-average
    calculator (calculator.go, calculator_factory.go, calc_wac.go).

    [InventoryCalculator] is the Go interface.  ApplyMovement works on a pointer
    and overwrites the cost and the times of the movement, so the definition
    returns the movement as it left it.  [CalculatorLaws] is what the interface
    promises its clients; [wac_laws] discharges it here and StockFIFO does for
    the FIFO calculator. *)
From S2P Require Import Prelude Rounding Decimal Types StockDomain BillDomain Store StockRepo.
From stdpp Require Import base tactics strings gmap list.
From Stdlib Require Import ZArith QArith Qabs Lqa Lia.

Section calculator.
Context {ops : DecimalOps} {env : Env}.

Class InventoryCalculator := {
  ValidateMovement : Movement -> M unit;
  ApplyMovement : Movement -> M (Movement * Snapshot);
  calc_Name : string;
}.

(** The two switch statements every calculator shares. *)
Definition snap_qty (snap : option Snapshot) : dec :=
  match snap with Some s => sn_on_hand s | None => dzero end.
Definition snap_cost (snap : option Snapshot) : dec :=
  match snap with Some s => sn_unit_cost s | None => dzero end.

Definition shortage (m : Movement) (available requested : dec) : error :=
  EInsufficient (mkInsufficientStockError (mv_product m) available requested).

Definition check_available (m : Movement) (available : dec) : option error :=
  if String.eqb (mv_direction m) DirectionOut then
    if dgt (mv_qty_base m) available && negb (mv_allow_negative m)
    then Some (shortage m available (mv_qty_base m)) else None
  else if String.eqb (mv_direction m) DirectionAdjust then
    if is_negative (mv_qty_base m) && dgt (dneg (mv_qty_base m)) available
    then Some (shortage m available (dneg (mv_qty_base m))) else None
  else None.

Definition validate_with (label : string) (m : Movement) : M unit :=
  if String.eqb (mv_direction m) DirectionIn then mret tt
  else
    snap ← on_err (EWrap label) (SelectForUpdate (mv_tenant m) (mv_product m) (mv_warehouse m));
    match check_available m (snap_qty snap) with
    | Some e => throw e
    | None => mret tt
    end.

(** blendedCost: the weighted average after [qty] more units come in at [cost]. *)
Definition blendedCost (oldQty oldCost qty cost : dec) : dec :=
  let newQty := dadd oldQty qty in
  if is_zero newQty then dzero
  else if is_zero oldQty then cost
  else dround 6 (ddiv (dadd (dmul oldQty oldCost) (dmul qty cost)) newQty).

(** costAfterExplicitOut: the average of what stays after [qty] units leave at [unitCost]. *)
Definition costAfterExplicitOut (oldQty oldCost qty unitCost : dec) : dec :=
  let left := dsub oldQty qty in
  if negb (is_positive left) then oldCost
  else dmax (dround 6 (ddiv (dsub (dmul oldQty oldCost) (dmul qty unitCost)) left)) dzero.

Definition buildSnapshot (existing : option Snapshot) (tenant product warehouse : uuid)
    (qty cost : dec) (strategy : string) : M Snapshot :=
  id ← uuid_new;
  now ← time_now;
  mret (mkSnapshot (match existing with Some s => sn_id s | None => id end)
          tenant product warehouse qty qty cost strategy now).

Definition stamp (m : Movement) (now : time) : Movement :=
  mv_with_times m
    (if time_is_zero (mv_occurred_at m) then now else mv_occurred_at m)
    (if time_is_zero (mv_created_at m) then now else mv_created_at m).

(** ** Weighted average cost *)

(** New quantity, new average and the costs written back to the movement. *)
Definition wac_cost (m : Movement) (oldQty oldCost : dec) : error + (dec * dec * Movement) :=
  let qty := mv_qty_base m in
  let inboundCost := mv_unit_cost m in
  if String.eqb (mv_direction m) DirectionIn then
    let newQty := dadd oldQty qty in
    let newCost :=
      if is_zero newQty then dzero
      else if negb (is_positive oldQty) then inboundCost
      else dround 6 (ddiv (dadd (dmul oldQty oldCost) (dmul qty inboundCost)) newQty) in
    inr (newQty, newCost, mv_with_cost m inboundCost (dmul qty inboundCost))
  else if String.eqb (mv_direction m) DirectionOut then
    if dgt qty oldQty && negb (mv_allow_negative m) then inl (shortage m oldQty qty)
    else if mv_explicit_cost m then
      inr (dsub oldQty qty, costAfterExplicitOut oldQty oldCost qty inboundCost,
           mv_with_cost m inboundCost (dmul qty inboundCost))
    else inr (dsub oldQty qty, oldCost, mv_with_cost m oldCost (dmul qty oldCost))
  else if String.eqb (mv_direction m) DirectionAdjust then
    let newQty := dadd oldQty qty in
    if is_negative newQty then inl (shortage m oldQty (dneg qty))
    else if is_positive qty && is_positive inboundCost then
      inr (newQty, blendedCost oldQty oldCost qty inboundCost,
           mv_with_cost m inboundCost (dmul qty inboundCost))
    else inr (newQty, oldCost, mv_with_cost m oldCost (dmul (dabs qty) oldCost))
  else inr (dzero, dzero, m).

Definition wac_apply (m : Movement) : M (Movement * Snapshot) :=
  snap ← on_err (EWrap "wac apply: load snapshot")
           (SelectForUpdate (mv_tenant m) (mv_product m) (mv_warehouse m));
  r ← of_sum (wac_cost m (snap_qty snap) (snap_cost snap));
  let '(newQty, newCost, m1) := r in
  now ← time_now;
  let m2 := stamp m1 now in
  on_err (EWrap "wac apply: insert movement") (InsertMovement m2);;
  newSnap ← buildSnapshot snap (mv_tenant m) (mv_product m) (mv_warehouse m)
              newQty newCost CostStrategyWAC;
  on_err (EWrap "wac apply: upsert snapshot") (UpsertSnapshot newSnap);;
  mret (m2, newSnap).

Definition WACCalculator : InventoryCalculator := {|
  ValidateMovement := validate_with "wac validate";
  ApplyMovement := wac_apply;
  calc_Name := CostStrategyWAC;
|}.
End calculator.

(** ** What the interface promises *)
Section contract.
Context {ops : DecimalOps} {laws : DecimalLaws ops} {env : Env}.
Local Open Scope Q_scope.

Definition mv_key (m : Movement) : stock_key := (mv_tenant m, mv_product m, mv_warehouse m).
Definition on_hand (d : DB) (k : stock_key) : dec := snap_qty (db_snapshots d !! k).
Definition book_cost (d : DB) (k : stock_key) : dec := snap_cost (db_snapshots d !! k).

(** What a movement does to the book quantity. *)
Definition delta (m : Movement) : Q :=
  if String.eqb (mv_direction m) DirectionOut then - val (mv_qty_base m)
  else val (mv_qty_base m).

(** The movement rows about one SKU in one warehouse. *)
Definition moves_at (k : stock_key) (m : Movement) : bool := bool_decide (mv_key m = k).
Definition log_sum (d : DB) (k : stock_key) : Q :=
  qsum (delta <$> select (moves_at k) (db_movements d)).

Definition lot_key (l : Lot) : stock_key := (lot_tenant l, lot_product l, lot_warehouse l).

(** The tables the stock component does not own. *)
Definition strip_stock (d : DB) : DB := set_lots (set_movements (set_snapshots d ∅) []) [].

(** What every run, failed ones included, respects: other tables are untouched
    and the movement log only grows. *)
Definition stock_frame (d d' : DB) : Prop :=
  strip_stock d = strip_stock d' /\
  exists l, db_movements d' = db_movements d ++ l.

#[export] Instance stock_frame_preorder : PreOrder stock_frame.
Proof.
  split.
  - intros d. split; [done|]. exists []. by rewrite app_nil_r.
  - intros d1 d2 d3 [H1 [l1 H2]] [H3 [l2 H4]]. split; [congruence|].
    exists (l1 ++ l2). by rewrite H4, H2, app_assoc.
Qed.

Lemma strip_heads d d' : strip_stock d = strip_stock d' -> db_heads d = db_heads d'.
Proof. intros H. exact (f_equal db_heads H). Qed.
Lemma strip_items d d' : strip_stock d = strip_stock d' -> db_items d = db_items d'.
Proof. intros H. exact (f_equal db_items H). Qed.
Lemma strip_payments d d' : strip_stock d = strip_stock d' -> db_payments d = db_payments d'.
Proof. intros H. exact (f_equal db_payments H). Qed.

(** The movement as the calculator leaves it: only costs and times change. *)
Definition same_movement (m m' : Movement) : Prop :=
  mv_id m' = mv_id m /\ mv_key m' = mv_key m /\ mv_direction m' = mv_direction m /\
  mv_qty_base m' = mv_qty_base m /\ mv_reference_type m' = mv_reference_type m /\
  mv_reference_id m' = mv_reference_id m /\ mv_created_by m' = mv_created_by m /\
  mv_note m' = mv_note m.

Record stock_effect (m m' : Movement) (s : Snapshot) (d d' : DB) : Prop := {
  se_same : same_movement m m';
  se_rest : strip_stock d = strip_stock d';
  se_log : db_movements d' = db_movements d ++ [stored_movement m'];
  se_snaps : exists row, db_snapshots d' = <[mv_key m := row]> (db_snapshots d) /\
    sn_key row = mv_key m /\
    sn_on_hand row = num4 (sn_on_hand s) /\ sn_unit_cost row = num6 (sn_unit_cost s);
  se_on_hand : val (sn_on_hand s) == val (on_hand d (mv_key m)) + delta m;
  se_guard : mv_direction m <> DirectionIn -> mv_allow_negative m = false ->
    0 <= val (sn_on_hand s);
}.

Class CalculatorLaws (C : InventoryCalculator) : Prop := {
  validate_reads m : keeps (db_rel eq) (ValidateMovement m);
  validate_passes m w w' :
    ValidateMovement m w = (Ok tt, w') ->
    mv_direction m = DirectionIn \/
    check_available m (on_hand (w_db w) (mv_key m)) = None;
  validate_refuses m w e :
    db_fault (w_tick w) = false -> mv_direction m <> DirectionIn ->
    check_available m (on_hand (w_db w) (mv_key m)) = Some e ->
    ValidateMovement m w = (Err e, bump w);
  validate_short m w e w' i :
    ValidateMovement m w = (Err e, w') -> errors_as_insufficient e = Some i ->
    check_available m (on_hand (w_db w) (mv_key m)) = Some e;
  apply_effect m w m' s w' :
    Direction_Validate (mv_direction m) = None ->
    ApplyMovement m w = (Ok (m', s), w') ->
    stock_effect m m' s (w_db w) (w_db w');
  apply_frame m : keeps (db_rel stock_frame) (ApplyMovement m);
  apply_not_short m w e w' :
    Direction_Validate (mv_direction m) = None ->
    mv_direction m <> DirectionAdjust \/ 0 <= val (on_hand (w_db w) (mv_key m)) ->
    check_available m (on_hand (w_db w) (mv_key m)) = None ->
    ApplyMovement m w = (Err e, w') -> errors_as_insufficient e = None;
}.

(** ** Frames of the repository methods *)

Lemma keeps_SelectForUpdate P `{!PreOrder P} t p k : keeps (db_rel P) (SelectForUpdate t p k).
Proof. unfold SelectForUpdate. keeps_solve. Qed.

Lemma keeps_InsertMovement m : keeps (db_rel stock_frame) (InsertMovement m).
Proof.
  unfold InsertMovement. keeps_solve. intros d d' H. destruct (movement_checks m); simplify_eq.
  split; [done|]. by eexists.
Qed.

Lemma keeps_UpsertSnapshot s : keeps (db_rel stock_frame) (UpsertSnapshot s).
Proof.
  unfold UpsertSnapshot. keeps_solve. intros d d' H. destruct (strategy_checks s); simplify_eq.
  split; [done|]. exists []. by rewrite app_nil_r.
Qed.

Lemma keeps_buildSnapshot P `{!PreOrder P} e t p w q c k :
  keeps (db_rel P) (buildSnapshot e t p w q c k).
Proof. unfold buildSnapshot. keeps_solve. Qed.

(** ** Lemmas the calculators share *)

Lemma direction_cases d :
  Direction_Validate d = None <-> d = DirectionIn \/ d = DirectionOut \/ d = DirectionAdjust.
Proof.
  unfold Direction_Validate.
  destruct (String.eqb_spec d DirectionIn), (String.eqb_spec d DirectionOut),
    (String.eqb_spec d DirectionAdjust); intuition congruence.
Qed.

Lemma validate_with_reads l m : keeps (db_rel eq) (validate_with l m).
Proof.
  unfold validate_with, SelectForUpdate. keeps_solve.
Qed.

Lemma validate_with_passes l m w w' :
  validate_with l m w = (Ok tt, w') ->
  mv_direction m = DirectionIn \/
  check_available m (on_hand (w_db w) (mv_key m)) = None.
Proof.
  unfold validate_with, SelectForUpdate. destruct (String.eqb_spec (mv_direction m) DirectionIn); [by left|].
  intros H. minv H. right. case_match; [minv H | done].
Qed.

Lemma validate_with_refuses l m w e :
  db_fault (w_tick w) = false -> mv_direction m <> DirectionIn ->
  check_available m (on_hand (w_db w) (mv_key m)) = Some e ->
  validate_with l m w = (Err e, bump w).
Proof.
  intros Hf Hd Hc. unfold validate_with, SelectForUpdate.
  destruct (String.eqb_spec (mv_direction m) DirectionIn); [done|].
  unfold mbind, stm_bind, on_err. rewrite query_run by done.
  unfold on_hand, mv_key in Hc. cbn beta iota. by rewrite Hc.
Qed.

Lemma same_movement_stamp m m' now : same_movement m m' -> same_movement m (stamp m' now).
Proof. done. Qed.
Lemma same_movement_cost m u t : same_movement m (mv_with_cost m u t).
Proof. done. Qed.

Lemma validate_with_short l m w e w' i :
  validate_with l m w = (Err e, w') -> errors_as_insufficient e = Some i ->
  check_available m (on_hand (w_db w) (mv_key m)) = Some e.
Proof.
  unfold validate_with, SelectForUpdate. destruct (String.eqb_spec (mv_direction m) DirectionIn); [done|].
  intros [H|(o & w1 & H1 & H)]%bind_Err Hi.
  - apply on_err_Err in H as (e0 & H & ->). simpl in Hi.
    errs_in H (fun e => errors_as_insufficient e = None); [done|congruence].
  - minv H1. unfold on_hand, mv_key. destruct (check_available m (snap_qty (db_snapshots (w_db w) !! (mv_tenant m, mv_product m, mv_warehouse m))));
      [|done]. by injection H as <- <-.
Qed.

(** What may differ before the tail of ApplyMovement: the lots. *)
Definition lots_only (d d1 : DB) : Prop :=
  strip_stock d = strip_stock d1 /\ db_movements d1 = db_movements d /\
  db_snapshots d1 = db_snapshots d.

(** The common tail: the movement row, then the snapshot row. *)
Lemma record_effect m m2 newSnap now d d1 :
  lots_only d d1 ->
  same_movement m m2 -> sn_key newSnap = mv_key m ->
  val (sn_on_hand newSnap) == val (on_hand d (mv_key m)) + delta m ->
  (mv_direction m <> DirectionIn -> mv_allow_negative m = false -> 0 <= val (sn_on_hand newSnap)) ->
  stock_effect m m2 newSnap d
    (upsert_row newSnap now (set_movements d1 (db_movements d1 ++ [stored_movement m2]))).
Proof.
  intros (H1 & H2 & H3) Hs Hk Hq Hg. constructor; try done.
  - simpl. by rewrite H2.
  - rewrite <- Hk. simpl. rewrite H3. eexists. by split_and!.
Qed.
End contract.
#[export] Hint Resolve keeps_SelectForUpdate keeps_InsertMovement keeps_UpsertSnapshot
  keeps_buildSnapshot : keeps.

(** ** The weighted-average calculator keeps the contract *)
Section wac.
Context {ops : DecimalOps} {laws : DecimalLaws ops} {env : Env}.
Local Open Scope Q_scope.

Lemma wac_cost_spec m q c newQty newCost m1 :
  Direction_Validate (mv_direction m) = None ->
  wac_cost m q c = inr (newQty, newCost, m1) ->
  same_movement m m1 /\ val newQty == val q + delta m /\
  (mv_direction m <> DirectionIn -> mv_allow_negative m = false -> 0 <= val newQty).
Proof.
  intros Hd H. unfold wac_cost, delta in *.
  apply direction_cases in Hd as [Hd|[Hd|Hd]]; rewrite Hd in *; simpl in H |- *.
  - simplify_eq. split; [done|]. split; [dec|done].
  - case_bool_in H; simplify_eq. case_bool_in H; simplify_eq.
    all: split; [done|]; split; [dec|]; intros _ Hn; rewrite Hn in Hb; simpl in Hb;
      rewrite andb_true_r in Hb; dec.
  - case_bool_in H; simplify_eq. case_bool_in H; simplify_eq.
    all: split; [done|]; split; [dec|]; intros; dec.
Qed.

Lemma wac_cost_short m q c e :
  Direction_Validate (mv_direction m) = None ->
  mv_direction m <> DirectionAdjust \/ 0 <= val q ->
  check_available m q = None -> wac_cost m q c <> inl e.
Proof.
  intros Hd Hq Hc. unfold wac_cost, check_available in *.
  apply direction_cases in Hd as [Hd|[Hd|Hd]]; rewrite Hd in *; simpl in Hc |- *; [done| |].
  - destruct (dgt (mv_qty_base m) q && negb (mv_allow_negative m)); [done|].
    by destruct (mv_explicit_cost m).
  - destruct Hq as [?|Hq]; [done|].
    destruct (is_negative (dadd q (mv_qty_base m))) eqn:Hn.
    2:{ destruct (is_positive (mv_qty_base m) && is_positive (mv_unit_cost m)); discriminate. }
    exfalso. destruct (is_negative (mv_qty_base m)) eqn:Hneg; simpl in Hc.
    + case_bool_in Hc; [done|]. dec.
    + dec.
Qed.

Lemma wac_apply_effect m w m' s w' :
  Direction_Validate (mv_direction m) = None ->
  wac_apply m w = (Ok (m', s), w') ->
  stock_effect m m' s (w_db w) (w_db w') /\
  exists m1 now,
    wac_cost m (on_hand (w_db w) (mv_key m)) (snap_cost (db_snapshots (w_db w) !! mv_key m))
    = inr (sn_on_hand s, sn_unit_cost s, m1) /\ m' = stamp m1 now.
Proof.
  intros Hd H. unfold wac_apply, SelectForUpdate, InsertMovement, buildSnapshot, UpsertSnapshot in H.
  minv H. wsimpl.
  destruct (movement_checks _); simplify_eq. destruct (strategy_checks _); simplify_eq.
  destruct (wac_cost_spec _ _ _ _ _ _ Hd Hm) as (Hs & Hq & Hg).
  split; [|by eauto].
  by apply record_effect.
Qed.

#[export] Instance wac_laws : CalculatorLaws WACCalculator.
Proof.
  split; simpl.
  - intros m. apply validate_with_reads.
  - apply validate_with_passes.
  - apply validate_with_refuses.
  - apply validate_with_short.
  - intros m w m' s w' Hd H. by apply wac_apply_effect in H as [H _].
  - intros m. unfold wac_apply. keeps_solve.
  - intros m w e w' Hd Hq Hc H. unfold wac_apply, SelectForUpdate in H.
    apply bind_Err in H as [H|(snap & w1 & H1 & H)].
    { by errs_in H (fun e => errors_as_insufficient e = None). }
    minv H1. apply bind_Err in H as [H|(r & w2 & _ & H)].
    { destruct (wac_cost _ _ _) eqn:Hw in H; [|done]. by apply wac_cost_short in Hw. }
    unfold InsertMovement, buildSnapshot, UpsertSnapshot in H.
    errs_in H (fun e => errors_as_insufficient e = None); try done.
    all: intros ??; unfold movement_checks, strategy_checks; intros;
      repeat case_match; by simplify_eq.
Qed.
End wac.
