(* ===== verification/Concrete.v ===== *)
(** A concrete environment and a small shop.

    [ex_env] is a process whose driver never fails, whose clock ticks by a
    millisecond per call and whose UUIDs are numbered; with [SDecOps] it gives
    runs that evaluate, which is how the theorems' hypotheses are shown to hold
    somewhere. *)
From S2P Require Import Prelude GoStrings Rounding Decimal SDec Types StockDomain BillDomain Store StockRepo StockCalc.
From stdpp Require Import base tactics strings gmap list sorting.
From Stdlib Require Import ZArith QArith Lia Sorting.Permutation Sorting.Sorted Ascii DecimalString.

Section sql.
Context {A : Type} (key : A -> Z).
#[local] Instance key_le_dec : RelDecision (fun a b : A => (key a <= key b)%Z).
Proof. intros a b. apply Z.le_dec. Defined.
Definition key_sort (l : list A) : list A := merge_sort (fun a b : A => (key a <= key b)%Z) l.
Lemma key_sort_perm l : Permutation (key_sort l) l.
Proof. apply merge_sort_Permutation. Qed.
Lemma key_sort_sorted l : StronglySorted (fun a b => (key a <= key b)%Z) (key_sort l).
Proof.
  apply StronglySorted_merge_sort.
  - intros a b c. apply Z.le_trans.
  - intros a b. destruct (Z.le_ge_cases (key a) (key b)); auto.
Qed.
End sql.

Definition ex_start : time := (63000000000 * second)%Z.

(** Parametrised by which driver calls fail. *)
Definition env_with (fault : nat -> bool) : Env := {|
  uuid_at n := (1000 + N.of_nat n)%N;
  clock_at n := (ex_start + 1000000 * Z.of_nat n)%Z;
  db_fault := fault;
  uuid_string u := Z_to_string (Z.of_N u);
  uuid_parse s := Z.to_N <$> Z_of_string s;
  sql_order A := key_sort;
|}.

#[export] Instance ex_env : Env := env_with (fun _ => false).

Lemma uint_chars d : Forall uuid_char (chars (DecimalString.NilEmpty.string_of_uint d)).
Proof. induction d; constructor; try assumption; unfold uuid_char; vm_compute; left; left; split; discriminate. Qed.

Lemma Z_to_string_chars z : (0 <= z)%Z -> Forall uuid_char (chars (Z_to_string z)).
Proof.
  intros H. unfold Z_to_string, DecimalString.NilZero.string_of_int, DecimalString.NilZero.string_of_uint.
  destruct (Z.to_int z) as [d|d] eqn:E; [|by destruct z].
  destruct d; try apply uint_chars. constructor; [|constructor].
  unfold uuid_char. vm_compute. left. left. split; discriminate.
Qed.

#[export] Instance ex_env_laws : EnvLaws ex_env.
Proof.
  split; simpl.
  - intros n. unfold uuid_nil. lia.
  - intros n m H. lia.
  - intros u. rewrite Z_of_to_string. simpl. by rewrite N2Z.id.
  - intros u. apply Z_to_string_chars. lia.
  - intros A. apply key_sort_perm.
  - intros A. apply key_sort_sorted.
Qed.




Definition D (coef : Z) (scale : nat) : dec := SD coef scale.

(** Tenant 1, warehouse 10 (default), products 20 and 21, customer 30, supplier 31. *)
Definition ex_tenant : uuid := 1%N.
Definition ex_other_tenant : uuid := 2%N.
Definition ex_wh : uuid := 10%N.
Definition ex_p1 : uuid := 20%N.
Definition ex_p2 : uuid := 21%N.
Definition ex_unit : uuid := 40%N.
Definition ex_box : uuid := 41%N.
Definition ex_customer : uuid := 30%N.
Definition ex_supplier : uuid := 31%N.
Definition ex_user : uuid := 50%N.

Definition ex_db : DB := {|
  db_snapshots := ∅;
  db_movements := [];
  db_lots := [];
  db_heads := ∅;
  db_items := [];
  db_payments := [];
  db_sequence := ∅;
  db_warehouses := [mkWarehouseRow ex_wh ex_tenant true true 1%Z false "shop"];
  db_products := [mkProductRow ex_p1 ex_tenant (Some ex_unit) None "tea" false;
                  mkProductRow ex_p2 ex_tenant (Some ex_unit) None "cup" false];
  db_partners := [mkPartnerRow ex_customer ex_tenant "customer" false;
                  mkPartnerRow ex_supplier ex_tenant "supplier" false];
  db_product_unit := {[ (ex_p1, ex_box) := D 12 0 ]};
  db_skus := [];
  db_orders_seen := [];
  db_initial := ∅;
  db_audit := [];
  db_outbox := [];
|}.

Definition ex_world : World := mkWorld ex_db 0.

(** A stock row, for starting states with goods on hand. *)
Definition ex_snap (product : uuid) (qty cost : dec) : Snapshot :=
  mkSnapshot (product + 100)%N ex_tenant product ex_wh qty qty cost CostStrategyWAC ex_start.

Definition with_stock (w : World) (product : uuid) (qty cost : dec) : World :=
  with_db w (set_snapshots (w_db w)
    (<[(ex_tenant, product, ex_wh) := ex_snap product qty cost]> (db_snapshots (w_db w)))).

(** Decide closed goals about rational numbers and booleans by computation. *)
Ltac compute_goal :=
  vm_compute; first [reflexivity | discriminate | by intros | by intuition discriminate].

Definition is_ok {A} (r : res error A * World) : bool :=
  match r.1 with Ok _ => true | _ => false end.

Lemma ok_run {A} (r : res error A * World) :
  is_ok r = true -> exists a w', r = (Ok a, w').
Proof. destruct r as [[a|e|x] w']; [by eauto|done..]. Qed.

Lemma not_ok_run {A} (r : res error A * World) : is_ok r = false -> forall a, r.1 <> Ok a.
Proof. unfold is_ok. intros H a E. by rewrite E in H. Qed.

(** [run_ok r a w' H]: the concrete run [r] succeeds; name its result. *)
Tactic Notation "run_ok" constr(r) "as" ident(a) ident(w) ident(H) :=
  destruct (ok_run r) as (a & w & H); [vm_compute; reflexivity|].

Definition ex_move (dir : Direction) (ref : ReferenceType) (product : uuid) (qty cost : dec) : Movement :=
  mkMovement 900%N ex_tenant product ex_wh dir qty cost dzero ref (Some 800%N) 0%Z None
    EmptyString 0%Z false false.

#[export] Instance ex_wiring : Wiring := {| has_outbox := true; has_units := true; has_payments := true |}.

(** Ten pieces of the first product at 2.00 on the shelf. *)
Definition ex_shelf : World := with_stock ex_world ex_p1 (D 10 0) (D 2 0).

Lemma ex_shelf_on_hand k :
  on_hand (w_db ex_shelf) k = if decide (k = (ex_tenant, ex_p1, ex_wh)) then D 10 0 else dzero.
Proof.
  unfold on_hand, ex_shelf, with_stock. simpl. destruct (decide _) as [->|Hne].
  - by rewrite lookup_insert_eq.
  - by rewrite lookup_insert_ne.
Qed.
