(* ===== verification/WAC.v ===== *)
(** The weighted-average calculator: what it does to the value of the stock.

    A receipt moves the average between the old cost and the receipt's own and
    adds the value of the goods, up to the rounding of the average; goods that
    leave at the average take exactly their share with them; a purchase return,
    which leaves at its own price, takes that price. *)
From S2P Require Import Prelude Rounding Decimal SDec Types StockDomain BillDomain Store StockRepo StockCalc Concrete.
From stdpp Require Import base tactics strings gmap list.
From Stdlib Require Import ZArith QArith Qabs Qminmax Lqa Lia.

Local Open Scope Q_scope.

(** [Div] rounds to 16 places, [Round(6)] to 6. *)
Definition avg_eps : Q := (1 # 2) / pow10 6 + (1 # 2) / pow10 16.

Section wac.
Context {ops : DecimalOps} {laws : DecimalLaws ops} {env : Env}.

Definition avg (a b : dec) : dec := dround 6 (ddiv a b).

Lemma avg_error a b : 0 < val b -> val a / val b - avg_eps <= val (avg a b) <= val a / val b + avg_eps.
Proof.
  intros Hb. unfold avg, avg_eps. rewrite val_round, val_div by lra.
  pose proof (qround_bounds 6 (qround 16 (val a / val b))).
  pose proof (qround_bounds 16 (val a / val b)). lra.
Qed.

(** Multiplied out: the total is kept up to the error on every unit. *)
Lemma avg_value a b :
  0 < val b ->
  val a - val b * avg_eps <= val b * val (avg a b) <= val a + val b * avg_eps.
Proof.
  intros Hb. destruct (avg_error a b Hb) as [H1 H2].
  assert (val b * (val a / val b) == val a) as Hq by (field; lra).
  split.
  - setoid_replace (val a - val b * avg_eps) with (val b * (val a / val b - avg_eps)) using relation Qeq
      by (rewrite <- Hq at 1; ring).
    apply Qmult_le_l; lra.
  - setoid_replace (val a + val b * avg_eps) with (val b * (val a / val b + avg_eps)) using relation Qeq
      by (rewrite <- Hq at 1; ring).
    apply Qmult_le_l; lra.
Qed.

Lemma on_scale_6_16 q : on_scale 6 q -> qround 16 q == q.
Proof. intros H. apply qround_id. eapply on_scale_weaken; [|exact H]. lia. Qed.

(** Rounding does not leave an interval whose ends have six decimals. *)
Lemma avg_between a b lo hi :
  0 < val b -> on_scale 6 lo -> on_scale 6 hi ->
  lo * val b <= val a <= hi * val b -> lo <= val (avg a b) <= hi.
Proof.
  intros Hb Hlo Hhi [H1 H2]. unfold avg. rewrite val_round, val_div by lra.
  assert (lo <= val a / val b) by (by apply Qle_shift_div_l).
  assert (val a / val b <= hi) by (by apply Qle_shift_div_r).
  split.
  - rewrite <- (qround_id 6 lo) by done. apply qround_mono.
    rewrite <- (on_scale_6_16 lo) by done. by apply qround_mono.
  - rewrite <- (qround_id 6 hi) by done. apply qround_mono.
    rewrite <- (on_scale_6_16 hi) by done. by apply qround_mono.
Qed.

(** The three outcomes of a successful ApplyMovement, by direction. *)
Lemma wac_in m w m' s w' :
  mv_direction m = DirectionIn -> wac_apply m w = (Ok (m', s), w') ->
  0 < val (on_hand (w_db w) (mv_key m)) -> 0 < val (sn_on_hand s) ->
  sn_unit_cost s = avg (dadd (dmul (on_hand (w_db w) (mv_key m)) (book_cost (w_db w) (mv_key m)))
                          (dmul (mv_qty_base m) (mv_unit_cost m))) (sn_on_hand s).
Proof.
  intros Hd H Ho Hn. apply wac_apply_effect in H as [_ (m1 & now & H & _)]; [|by rewrite Hd].
  unfold wac_cost in H. rewrite Hd in H. simpl in H. injection H as Hq Hc _.
  rewrite <- Hc, <- Hq. rewrite <- Hq in Hn.
  rewrite (proj2 (is_zero_false _)) by lra.
  by rewrite (proj2 (is_positive_true _)) by lra.
Qed.

Definition book_value (d : DB) (k : stock_key) : Q := val (on_hand d k) * val (book_cost d k).
Definition snap_value (s : Snapshot) : Q := val (sn_on_hand s) * val (sn_unit_cost s).

(** The value a movement row says came in (or, negative, went out). *)
Definition value_flow (m : Movement) : Q :=
  if String.eqb (mv_direction m) DirectionOut || is_negative (mv_qty_base m)
  then - val (mv_total_cost m) else val (mv_total_cost m).

Definition close_to (err a b : Q) : Prop := b - err <= a <= b + err.

#[local] Instance close_to_proper : Proper (Qeq ==> Qeq ==> Qeq ==> iff) close_to.
Proof. intros e1 e2 He a1 a2 Ha b1 b2 Hb. unfold close_to. by rewrite He, Ha, Hb. Qed.

Lemma close_refl err a b : 0 <= err -> a == b -> close_to err a b.
Proof. unfold close_to. intros. lra. Qed.

Lemma avg_close a b : 0 < val b -> close_to (val b * avg_eps) (val b * val (avg a b)) (val a).
Proof. apply avg_value. Qed.

Lemma avg_eps_pos : 0 < avg_eps.
Proof. reflexivity. Qed.

Lemma eps_nonneg q : 0 <= q -> 0 <= q * avg_eps.
Proof. intros H. pose proof avg_eps_pos. nra. Qed.

(** Receipt, priced count: the blended cost carries old and new value. *)
Lemma blended_value oldQty oldCost qty cost :
  0 <= val oldQty -> 0 <= val qty ->
  close_to (val (dadd oldQty qty) * avg_eps)
    (val (dadd oldQty qty) * val (blendedCost oldQty oldCost qty cost))
    (val oldQty * val oldCost + val qty * val cost).
Proof.
  intros Ho Hq. unfold blendedCost.
  assert (0 <= val (dadd oldQty qty) * avg_eps) as He by (apply eps_nonneg; dec).
  destruct (is_zero (dadd oldQty qty)) eqn:Hz.
  - apply close_refl; [done|]. dec_tests.
    assert (val oldQty == 0) as -> by dec. assert (val qty == 0) as -> by dec.
    rewrite val_zero. lra.
  - destruct (is_zero oldQty) eqn:Hz0.
    + apply close_refl; [done|]. dec_tests. rewrite val_add, Hz0. ring.
    + pose proof (avg_close (dadd (dmul oldQty oldCost) (dmul qty cost)) (dadd oldQty qty)
        ltac:(dec)) as H.
      unfold close_to in *. by rewrite (val_add (dmul _ _)), !val_mul in H.
Qed.

Lemma in_is_blend q c qty cost :
  0 <= val q ->
  (if is_zero (dadd q qty) then dzero
   else if negb (is_positive q) then cost
   else dround 6 (ddiv (dadd (dmul q c) (dmul qty cost)) (dadd q qty)))
  = blendedCost q c qty cost.
Proof.
  intros Hq. unfold blendedCost. destruct (is_zero (dadd q qty)); [done|].
  destruct (is_zero q) eqn:Hz.
  - by rewrite (proj2 (is_positive_false _)) by dec.
  - rewrite (proj2 (is_positive_true _)); [done|]. dec_tests.
    destruct (Qlt_le_dec 0 (val q)); [done|]. exfalso. apply Hz. lra.
Qed.

(** Explicit out: what stays carries the old value less the price of what left. *)
Lemma explicit_value oldQty oldCost qty cost :
  val qty < val oldQty -> val qty * val cost <= val oldQty * val oldCost ->
  close_to (val (dsub oldQty qty) * avg_eps)
    (val (dsub oldQty qty) * val (costAfterExplicitOut oldQty oldCost qty cost))
    (val oldQty * val oldCost - val qty * val cost).
Proof.
  intros Hq Hv. unfold costAfterExplicitOut.
  rewrite (proj2 (is_positive_true _)) by dec. simpl.
  set (n := dsub (dmul oldQty oldCost) (dmul qty cost)). set (l := dsub oldQty qty).
  assert (0 < val l) as Hl by (subst l; dec).
  assert (0 <= val n) as Hn by (subst n; dec).
  assert (0 <= val (avg n l)) as Ha.
  { unfold avg. apply val_round_nonneg. rewrite val_div by lra. apply qround_nonneg.
    apply Qle_shift_div_l; lra. }
  setoid_replace (val (dmax (dround 6 (ddiv n l)) dzero)) with (val (avg n l)) using relation Qeq.
  - setoid_replace (val oldQty * val oldCost - val qty * val cost) with (val n) using relation Qeq
      by (subst n; dec).
    by apply avg_close.
  - change (dround 6 (ddiv n l)) with (avg n l). clearbody n l.
    destruct (val_max_cases (avg n l) dzero) as [[-> _]|[Hm Hle]]; [done|].
    rewrite Hm. rewrite val_zero in *. lra.
Qed.

(** a receipt into stock on hand moves the average cost to a value between the
    old average and the receipt's unit cost, both NUMERIC(18,6). *)
Theorem wac_receipt_between m w m' s w' :
  mv_direction m = DirectionIn ->
  ApplyMovement (InventoryCalculator := WACCalculator) m w = (Ok (m', s), w') ->
  0 < val (on_hand (w_db w) (mv_key m)) -> 0 < val (mv_qty_base m) ->
  on_scale 6 (val (book_cost (w_db w) (mv_key m))) -> on_scale 6 (val (mv_unit_cost m)) ->
  Qmin (val (book_cost (w_db w) (mv_key m))) (val (mv_unit_cost m))
    <= val (sn_unit_cost s)
    <= Qmax (val (book_cost (w_db w) (mv_key m))) (val (mv_unit_cost m)).
Proof.
  intros Hd H Ho Hq Hc Hu. simpl in H.
  destruct (wac_apply_effect _ _ _ _ _ ltac:(by rewrite Hd) H) as [[_ _ _ _ Hn _] _].
  unfold delta in Hn. rewrite Hd in Hn. simpl in Hn.
  rewrite (wac_in m w m' s w') by (done || lra).
  set (o := val (on_hand (w_db w) (mv_key m))) in *.
  set (c := val (book_cost (w_db w) (mv_key m))) in *.
  apply avg_between; [lra| | |].
  - destruct (Q.min_spec c (val (mv_unit_cost m))) as [[_ ->]|[_ ->]]; done.
  - destruct (Q.max_spec c (val (mv_unit_cost m))) as [[_ ->]|[_ ->]]; done.
  - rewrite val_add, !val_mul, Hn. fold o c.
    pose proof (Q.le_min_l c (val (mv_unit_cost m))). pose proof (Q.le_min_r c (val (mv_unit_cost m))).
    pose proof (Q.le_max_l c (val (mv_unit_cost m))). pose proof (Q.le_max_r c (val (mv_unit_cost m))).
    split; nra.
Qed.

End wac.

(** ** Witnesses: 10 pieces at 2.00 on the shelf *)
Definition ex_receipt : Movement := ex_move DirectionIn RefPurchase ex_p1 (D 5 0) (D 35 1).

Lemma wac_receipt_between_witness :
  exists m' s w',
    ApplyMovement (InventoryCalculator := WACCalculator) ex_receipt ex_shelf = (Ok (m', s), w') /\
    Qmin (val (book_cost (w_db ex_shelf) (mv_key ex_receipt))) (val (mv_unit_cost ex_receipt))
      <= val (sn_unit_cost s)
      <= Qmax (val (book_cost (w_db ex_shelf) (mv_key ex_receipt))) (val (mv_unit_cost ex_receipt)).
Proof.
  run_ok (ApplyMovement (InventoryCalculator := WACCalculator) ex_receipt ex_shelf) as a w' H.
  destruct a as [m' s]. exists m', s, w'. split; [exact H|].
  apply (wac_receipt_between ex_receipt ex_shelf m' s w' eq_refl H).
  - compute_goal.
  - compute_goal.
  - exists 2000000%Z. compute_goal.
  - exists 3500000%Z. compute_goal.
Defined.

(** A purchase return of 4 pieces at 1.50 out of the same shelf. *)
Definition ex_return_out : Movement :=
  mkMovement 900%N ex_tenant ex_p1 ex_wh DirectionOut (D 4 0) (D 15 1) dzero RefReturn
    (Some 800%N) 0%Z None EmptyString 0%Z true false.

