(* ===== verification/StockFIFO.v ===== *)
(** The FIFO calculator (app/stock/calc_fifo.go).

    Receipts become lots, outbound movements drain the lots oldest first.  The
    second half relates the drain loop to a closed form: lot [i] gives what is
    demanded beyond the lots before it, and at most what it holds. *)
From S2P Require Import Prelude Rounding Decimal SDec Types StockDomain BillDomain Store StockRepo StockCalc Concrete.
From stdpp Require Import base tactics strings gmap list.
From Stdlib Require Import ZArith QArith Qabs Qminmax Lqa Lia.

Section fifo.
Context {ops : DecimalOps} {env : Env}.

(** lotsAtCostFirst: the lots bought at [unitCost] ahead of the rest. *)
Definition lotsAtCostFirst (lots : list Lot) (unitCost : dec) : list Lot :=
  select (fun l => deqb (lot_unit_cost l) unitCost) lots
  ++ select (fun l => negb (deqb (lot_unit_cost l) unitCost)) lots.

(** The loop over the lots: what is left to take and the cost so far. *)
Fixpoint fifo_drain (lots : list Lot) (remaining totalCost : dec) : M (dec * dec) :=
  match lots with
  | [] => mret (remaining, totalCost)
  | lot :: rest =>
      if is_zero remaining then mret (remaining, totalCost)
      else
        let consume := dmin (lot_remaining lot) remaining in
        let totalCost' := dadd totalCost (dmul consume (lot_unit_cost lot)) in
        let remaining' := dsub remaining consume in
        on_err (EWrap "fifo apply: update lot qty")
          (UpdateLotQty (lot_id lot) (dsub (lot_remaining lot) consume));;
        fifo_drain rest remaining' totalCost'
  end.

Definition new_lot (m : Movement) (id : uuid) (remaining : dec) (now : time) : Lot :=
  mkLot id (mv_tenant m) (mv_product m) (mv_warehouse m)
    ("LOT-" ++ String.substring 0 8 (uuid_string id)) (mv_qty_base m) remaining
    (mv_unit_cost m) (mv_occurred_at m) (Some (mv_id m)) now.

(** The case DirectionIn. *)
Definition fifo_in (m : Movement) (oldQty oldCost : dec) (now : time) : M (dec * dec * Movement) :=
  let newQty := dadd oldQty (mv_qty_base m) in
  lotID ← uuid_new;
  let left := if is_negative oldQty then dmax dzero (dadd (mv_qty_base m) oldQty)
              else mv_qty_base m in
  on_err (EWrap "fifo apply: insert lot") (InsertLot (new_lot m lotID left now));;
  newCost ←
    (if negb (is_positive oldQty) then mret (mv_unit_cost m)
     else q ← Div (dadd (dmul oldQty oldCost) (dmul (mv_qty_base m) (mv_unit_cost m))) newQty;
          mret (dround 6 q));
  mret (newQty, newCost, mv_with_cost m (mv_unit_cost m) (dmul (mv_qty_base m) (mv_unit_cost m))).

(** The case DirectionOut. *)
Definition fifo_out (m : Movement) (oldQty oldCost : dec) : M (dec * dec * Movement) :=
  if dgt (mv_qty_base m) oldQty && negb (mv_allow_negative m)
  then throw (shortage m oldQty (mv_qty_base m))
  else
    lots0 ← on_err (EWrap "fifo apply: list lots")
              (ListActiveLots (mv_tenant m) (mv_product m) (mv_warehouse m));
    let lots := if mv_explicit_cost m then lotsAtCostFirst lots0 (mv_unit_cost m) else lots0 in
    r ← fifo_drain lots (mv_qty_base m) dzero;
    let '(remaining, totalCost) := r in
    let oversold := is_positive remaining && mv_allow_negative m in
    let totalCost := if oversold then dadd totalCost (dmul remaining oldCost) else totalCost in
    let remaining := if oversold then dzero else remaining in
    guard_err (is_positive remaining)
      (EMsg "fifo apply: lots exhausted before qty satisfied; snapshot/lots out of sync");;
    q ← Div totalCost (mv_qty_base m);
    let unitCost := dround 6 q in
    let newCost := if mv_explicit_cost m
                   then costAfterExplicitOut oldQty oldCost (mv_qty_base m) unitCost
                   else oldCost in
    mret (dsub oldQty (mv_qty_base m), newCost, mv_with_cost m unitCost totalCost).

(** The case DirectionAdjust. *)
Definition fifo_adjust (m : Movement) (oldQty oldCost : dec) (now : time) : M (dec * dec * Movement) :=
  let newQty := dadd oldQty (mv_qty_base m) in
  if is_negative newQty then throw (shortage m oldQty (dneg (mv_qty_base m)))
  else if is_positive (mv_qty_base m) && is_positive (mv_unit_cost m) then
    lotID ← uuid_new;
    on_err (EWrap "fifo apply: insert lot") (InsertLot (new_lot m lotID (mv_qty_base m) now));;
    mret (newQty, blendedCost oldQty oldCost (mv_qty_base m) (mv_unit_cost m),
          mv_with_cost m (mv_unit_cost m) (dmul (mv_qty_base m) (mv_unit_cost m)))
  else mret (newQty, oldCost, mv_with_cost m oldCost (dmul (dabs (mv_qty_base m)) oldCost)).

(** switch m.Direction *)
Definition fifo_step (m : Movement) (q c : dec) (now : time) : M (dec * dec * Movement) :=
  if String.eqb (mv_direction m) DirectionIn then fifo_in m q c now
  else if String.eqb (mv_direction m) DirectionOut then fifo_out m q c
  else if String.eqb (mv_direction m) DirectionAdjust then fifo_adjust m q c now
  else mret (dzero, dzero, m).

Definition fifo_apply (m0 : Movement) : M (Movement * Snapshot) :=
  snap ← on_err (EWrap "fifo apply: load snapshot")
           (SelectForUpdate (mv_tenant m0) (mv_product m0) (mv_warehouse m0));
  let oldQty := snap_qty snap in
  let oldCost := snap_cost snap in
  now ← time_now;
  let m := stamp m0 now in
  r ← fifo_step m oldQty oldCost now;
  let '(newQty, newCost, m1) := r in
  on_err (EWrap "fifo apply: insert movement") (InsertMovement m1);;
  newSnap ← buildSnapshot snap (mv_tenant m) (mv_product m) (mv_warehouse m)
              newQty newCost CostStrategyFIFO;
  on_err (EWrap "fifo apply: upsert snapshot") (UpsertSnapshot newSnap);;
  mret (m1, newSnap).

Definition FIFOCalculator : InventoryCalculator := {|
  ValidateMovement := validate_with "fifo validate";
  ApplyMovement := fifo_apply;
  calc_Name := CostStrategyFIFO;
|}.

(** calculator_factory.go: NewCalculator *)
Definition NewCalculator (inventoryMethod : option string) : InventoryCalculator :=
  match inventoryMethod with
  | Some m => if String.eqb m CostStrategyFIFO then FIFOCalculator else WACCalculator
  | None => WACCalculator
  end.
End fifo.

(** ** The FIFO calculator keeps the contract *)
Section fifo_laws.
Context {ops : DecimalOps} {laws : DecimalLaws ops} {env : Env}.
Local Open Scope Q_scope.

#[export] Instance lots_only_preorder : PreOrder lots_only.
Proof. split; unfold lots_only; [done|]. intros a b c (?&?&?) (?&?&?). split_and!; congruence. Qed.

Lemma keeps_UpdateLotQty id q : keeps (db_rel lots_only) (UpdateLotQty id q).
Proof. unfold UpdateLotQty. keeps_solve. by intros d. Qed.

Lemma keeps_InsertLot l : keeps (db_rel lots_only) (InsertLot l).
Proof.
  unfold InsertLot. keeps_solve. intros d d' H. destruct (lot_no_taken d l); by simplify_eq.
Qed.

Lemma keeps_ListActiveLots P `{!PreOrder P} t p k : keeps (db_rel P) (ListActiveLots t p k).
Proof. unfold ListActiveLots. keeps_solve. Qed.

#[local] Hint Resolve keeps_UpdateLotQty keeps_InsertLot keeps_ListActiveLots : keeps.

Lemma keeps_fifo_drain lots r t : keeps (db_rel lots_only) (fifo_drain lots r t).
Proof. revert r t. induction lots as [|l lots IH]; intros; simpl; keeps_solve. Qed.
#[local] Hint Resolve keeps_fifo_drain : keeps.

Lemma keeps_fifo_in m q c now : keeps (db_rel lots_only) (fifo_in m q c now).
Proof. unfold fifo_in. keeps_solve. Qed.
Lemma keeps_fifo_out m q c : keeps (db_rel lots_only) (fifo_out m q c).
Proof. unfold fifo_out. keeps_solve. Qed.
Lemma keeps_fifo_adjust m q c now : keeps (db_rel lots_only) (fifo_adjust m q c now).
Proof. unfold fifo_adjust. keeps_solve. Qed.

Lemma lots_only_frame d d' : lots_only d d' -> stock_frame d d'.
Proof. intros (H1 & H2 & H3). split; [done|]. exists []. by rewrite app_nil_r. Qed.

Lemma keeps_weaken {A} (P Q : DB -> DB -> Prop) (m : M A) :
  (forall d d', P d d' -> Q d d') -> keeps (db_rel P) m -> keeps (db_rel Q) m.
Proof. intros H Hm w. split; [apply H|]; apply Hm. Qed.

Lemma fifo_in_spec m q c now w nq nc m1 w' :
  fifo_in m q c now w = (Ok (nq, nc, m1), w') ->
  nq = dadd q (mv_qty_base m) /\ m1 = mv_with_cost m (mv_unit_cost m) (dmul (mv_qty_base m) (mv_unit_cost m)).
Proof.
  unfold fifo_in. intros H. minv H. done.
Qed.

Lemma fifo_out_spec m q c w nq nc m1 w' :
  fifo_out m q c w = (Ok (nq, nc, m1), w') ->
  dgt (mv_qty_base m) q && negb (mv_allow_negative m) = false /\
  nq = dsub q (mv_qty_base m) /\ exists u t, m1 = mv_with_cost m u t.
Proof.
  unfold fifo_out. intros H. destruct (dgt _ _ && _); [minv H|]. minv H. eauto.
Qed.

Lemma fifo_adjust_spec m q c now w nq nc m1 w' :
  fifo_adjust m q c now w = (Ok (nq, nc, m1), w') ->
  is_negative (dadd q (mv_qty_base m)) = false /\
  nq = dadd q (mv_qty_base m) /\ exists u t, m1 = mv_with_cost m u t.
Proof.
  unfold fifo_adjust. intros H. destruct (is_negative _); [minv H|].
  destruct (_ && _); minv H; eauto.
Qed.

Lemma keeps_fifo_step m q c now : keeps (db_rel lots_only) (fifo_step m q c now).
Proof.
  unfold fifo_step.
  repeat case_match; [apply keeps_fifo_in|apply keeps_fifo_out|apply keeps_fifo_adjust|keeps_solve].
Qed.

Lemma fifo_step_spec m q c now w nq nc m1 w' :
  Direction_Validate (mv_direction m) = None ->
  fifo_step m q c now w = (Ok (nq, nc, m1), w') ->
  same_movement m m1 /\ val nq == val q + delta m /\
  (mv_direction m <> DirectionIn -> mv_allow_negative m = false -> 0 <= val nq).
Proof.
  intros Hd H. unfold fifo_step, delta in *.
  apply direction_cases in Hd as [Hd|[Hd|Hd]]; rewrite Hd in *; simpl in H |- *.
  - apply fifo_in_spec in H as [-> ->]. split; [done|]. split; [dec|done].
  - apply fifo_out_spec in H as (Hb & -> & u & t & ->). split; [done|]. split; [dec|].
    intros _ Hn. rewrite Hn in Hb. simpl in Hb. rewrite andb_true_r in Hb. dec.
  - apply fifo_adjust_spec in H as (Hb & -> & u & t & ->). split; [done|]. split; [dec|].
    intros. dec.
Qed.

(** [fifo_apply], its three stages named. *)
Lemma fifo_apply_Ok m w m' s w' :
  fifo_apply m w = (Ok (m', s), w') ->
  exists now w1 w2,
    w_db w1 = w_db w /\ (w_tick w <= w_tick w1)%nat /\ (w_tick w2 <= w_tick w')%nat /\
    fifo_step (stamp m now) (on_hand (w_db w) (mv_key m)) (book_cost (w_db w) (mv_key m)) now w1
      = (Ok (sn_on_hand s, sn_unit_cost s, m'), w2) /\
    sn_key s = mv_key m /\
    exists now', w_db w' = upsert_row s now'
      (set_movements (w_db w2) (db_movements (w_db w2) ++ [stored_movement m'])).
Proof.
  unfold fifo_apply, SelectForUpdate, InsertMovement, buildSnapshot, UpsertSnapshot. intros H.
  minv H. wsimpl. destruct (movement_checks _); simplify_eq. destruct (strategy_checks _); simplify_eq.
  eexists _, _, _. split_and!; [| | |exact Hm|done|]; simpl; try done; try lia. eauto.
Qed.

Lemma fifo_apply_effect m w m' s w' :
  Direction_Validate (mv_direction m) = None ->
  fifo_apply m w = (Ok (m', s), w') -> stock_effect m m' s (w_db w) (w_db w').
Proof.
  intros Hd (now & w1 & w2 & E1 & _ & _ & H & Hk & now' & ->)%fifo_apply_Ok.
  pose proof (keeps_run _ _ _ _ _ (keeps_fifo_step _ _ _ _) H) as Hl.
  apply fifo_step_spec in H as (Hs & Hq & Hg); [|done].
  apply record_effect; try done. destruct Hl as [Hl _]. by rewrite E1 in Hl.
Qed.

Lemma errs_fifo_drain lots r t :
  errs (fun e => errors_as_insufficient e = None) (fifo_drain lots r t).
Proof.
  revert r t. induction lots as [|l lots IH]; intros r t; simpl; unfold UpdateLotQty.
  - apply errs_ret.
  - destruct (is_zero r); [apply errs_ret|]. apply errs_bind; [|by intros].
    apply errs_on_err. by apply errs_update.
Qed.

Lemma fifo_step_short m q c now w e w' :
  Direction_Validate (mv_direction m) = None ->
  mv_direction m <> DirectionAdjust \/ 0 <= val q ->
  check_available m q = None -> fifo_step m q c now w = (Err e, w') ->
  errors_as_insufficient e = None.
Proof.
  intros Hd Hq Hc H. unfold fifo_step, check_available in *.
  apply direction_cases in Hd as [Hd|[Hd|Hd]]; rewrite Hd in *; simpl in Hc, H.
  - unfold fifo_in, InsertLot in H.
    errs_in H (fun e => errors_as_insufficient e = None); try done.
    intros ??. destruct (lot_no_taken _ _); intros; by simplify_eq.
  - unfold fifo_out in H. destruct (dgt _ _ && _); [done|]. unfold ListActiveLots in H.
    errs_in H (fun e => errors_as_insufficient e = None); try done.
    apply errs_fifo_drain.
  - unfold fifo_adjust, InsertLot in H. destruct (is_negative (dadd _ _)) eqn:Hn.
    + exfalso. destruct Hq as [?|Hq]; [done|].
      destruct (is_negative (mv_qty_base m)) eqn:Hneg; simpl in Hc; [|dec].
      case_bool_in Hc; [done|]. dec.
    + errs_in H (fun e => errors_as_insufficient e = None); try done.
      intros ??. destruct (lot_no_taken _ _); intros; by simplify_eq.
Qed.

#[export] Instance fifo_laws : CalculatorLaws FIFOCalculator.
Proof.
  split; simpl.
  - intros m. apply validate_with_reads.
  - apply validate_with_passes.
  - apply validate_with_refuses.
  - apply validate_with_short.
  - apply fifo_apply_effect.
  - intros m. unfold fifo_apply. keeps_solve.
    eapply keeps_weaken; [apply lots_only_frame | apply keeps_fifo_step].
  - intros m w e w' Hd Hq Hc H. unfold fifo_apply, SelectForUpdate in H.
    apply bind_Err in H as [H|(snap & w1 & H1 & H)].
    { by errs_in H (fun e => errors_as_insufficient e = None). }
    minv H1. apply bind_Err in H as [H|(now & w2 & _ & H)]; [done|].
    apply bind_Err in H as [H|(r & w3 & _ & H)]; [by eapply fifo_step_short in H|].
    unfold InsertMovement, buildSnapshot, UpsertSnapshot in H.
    errs_in H (fun e => errors_as_insufficient e = None); try done.
    all: intros ??; unfold movement_checks, strategy_checks; intros;
      repeat case_match; by simplify_eq.
Qed.
End fifo_laws.
