(* ===== verification/FIFO.v ===== *)
(** FIFO: the drain loop against its closed form, and lots against the book.

    [fifo_takes] says what each lot gives in closed form; [lots_agree] is the
    invariant that the lots of a SKU add up to its positive book quantity. *)
From S2P Require Import Prelude Rounding Decimal SDec Types StockDomain BillDomain Store StockRepo StockCalc StockFIFO Concrete.
From stdpp Require Import base tactics strings gmap list.
From Stdlib Require Import ZArith QArith Qabs Qminmax Lqa Lia Sorting.Permutation.

Local Open Scope Q_scope.

Section drain.
Context {ops : DecimalOps} {laws : DecimalLaws ops} {env : Env}.

(** What a lot holding [r] gives when [q] is demanded beyond the older lots. *)
Definition clamp (r q : Q) : Q := Qmax 0 (Qmin r q).

Fixpoint fifo_takes (q : Q) (lots : list Lot) : list Q :=
  match lots with
  | [] => []
  | l :: rest => clamp (val (lot_remaining l)) q :: fifo_takes (q - val (lot_remaining l)) rest
  end.

(** The same by lot identity. *)
Fixpoint taken (id : uuid) (q : Q) (lots : list Lot) : Q :=
  match lots with
  | [] => 0
  | l :: rest => if N.eqb (lot_id l) id then clamp (val (lot_remaining l)) q
                 else taken id (q - val (lot_remaining l)) rest
  end.

Fixpoint takes_cost (q : Q) (lots : list Lot) : Q :=
  match lots with
  | [] => 0
  | l :: rest => clamp (val (lot_remaining l)) q * val (lot_unit_cost l)
                 + takes_cost (q - val (lot_remaining l)) rest
  end.

Definition held (lots : list Lot) : Q := qsum (val ∘ lot_remaining <$> lots).

Definition positive_lot (l : Lot) : Prop := 0 < val (lot_remaining l).

#[local] Instance clamp_proper : Proper (Qeq ==> Qeq ==> Qeq) clamp.
Proof. intros a b H c d K. unfold clamp. by rewrite H, K. Qed.

Lemma clamp_cases r q :
  0 < r ->
  (q <= 0 /\ clamp r q == 0) \/ (0 < q <= r /\ clamp r q == q) \/ (r < q /\ clamp r q == r).
Proof.
  intros Hr. unfold clamp. destruct (Qlt_le_dec 0 q) as [Hq|Hq]; [|left; split; [done|qminmax]].
  right. destruct (Qlt_le_dec r q) as [Hrq|Hrq]; [right|left]; (split; [lra|qminmax]).
Qed.

Lemma held_nonneg lots : Forall positive_lot lots -> 0 <= held lots.
Proof.
  intros H. apply qsum_nonneg. apply Forall_fmap. eapply Forall_impl; [exact H|].
  intros l Hl. apply Qlt_le_weak. exact Hl.
Qed.

Lemma takes_sum q lots :
  Forall positive_lot lots -> qsum (fifo_takes q lots) == Qmax 0 (Qmin q (held lots)).
Proof.
  intros H. revert q. induction H as [|l lots Hl H IH]; intros q.
  { unfold held. simpl. qminmax. }
  cbn [fifo_takes qsum]. rewrite IH. pose proof (held_nonneg _ H) as Hh.
  change (held (l :: lots)) with (val (lot_remaining l) + held lots).
  set (r := val (lot_remaining l)) in *. assert (0 < r) as Hr by exact Hl.
  unfold clamp. qminmax.
Qed.

Lemma takes_cost_takes q lots :
  takes_cost q lots = qsum (zip_with Qmult (fifo_takes q lots) (val ∘ lot_unit_cost <$> lots)).
Proof.
  revert q. induction lots as [|l lots IH]; intros q; [done|]. csimpl. by rewrite IH.
Qed.

Lemma takes_none q lots :
  Forall positive_lot lots -> q <= 0 -> takes_cost q lots == 0 /\ forall id, taken id q lots == 0.
Proof.
  intros H. revert q. induction H as [|l lots Hl H IH]; intros q Hq; [done|]. simpl.
  assert (0 < val (lot_remaining l)) as Hr by exact Hl.
  destruct (IH (q - val (lot_remaining l))) as [Hc Ht]; [lra|].
  destruct (clamp_cases _ q Hr) as [[_ E]|[[? _]|[? _]]]; [|lra..].
  split; [rewrite E, Hc; lra|]. intros id. destruct (N.eqb _ _); [done|apply Ht].
Qed.

Lemma taken_other id q lots : id ∉ lot_id <$> lots -> taken id q lots = 0.
Proof.
  revert q. induction lots as [|l lots IH]; intros q Hid; [done|]. csimpl in Hid. simpl.
  rewrite not_elem_of_cons in Hid. destruct Hid as [Hne Hid].
  destruct (N.eqb_spec (lot_id l) id); [congruence|]. by apply IH.
Qed.

(** The cost and the rest of the loop, whatever order the lots are in. *)
Lemma fifo_drain_value lots q r t w r' t' w' :
  fifo_drain lots r t w = (Ok (r', t'), w') ->
  Forall positive_lot lots -> val r == Qmax 0 q ->
  val r' == Qmax 0 (q - held lots) /\ val t' == val t + takes_cost q lots.
Proof.
  intros H Hl. revert q r t w H. induction Hl as [|l lots Hl Hls IH]; intros q r t w H Hr.
  { simpl in H. minv H. unfold held. simpl. split; [|lra]. rewrite Hr. qminmax. }
  simpl in H. assert (0 < val (lot_remaining l)) as Hp by exact Hl.
  pose proof (held_nonneg _ Hls) as Hh.
  change (held (l :: lots)) with (val (lot_remaining l) + held lots).
  destruct (is_zero r) eqn:Hz.
  - minv H. dec_tests. assert (q <= 0) as Hq by qminmax.
    destruct (takes_none q (l :: lots)) as [Hc _]; [by constructor|done|]. rewrite Hc, Hz.
    split; qminmax.
  - dec_tests. assert (0 < q /\ val r == q) as [Hq Hrq] by (split; qminmax).
    unfold UpdateLotQty in H. minv H.
    assert (val (dmin (lot_remaining l) r) == clamp (val (lot_remaining l)) q) as Hm.
    { rewrite val_min. unfold clamp. rewrite Hrq. qminmax. }
    apply (IH (q - val (lot_remaining l))) in H as [H1 H2].
    + split.
      * rewrite H1. qminmax.
      * rewrite H2, val_add, val_mul, Hm. simpl. lra.
    + rewrite val_sub, Hm, Hrq. unfold clamp. qminmax.
Qed.

(** ** The lots table after the loop *)

Definition lot_less (q : Q) (lots : list Lot) (L L' : Lot) : Prop :=
  L' = with_remaining L (lot_remaining L') /\
  val (lot_remaining L') == val (lot_remaining L) - taken (lot_id L) q lots.

Lemma lot_less_refl q lots L : taken (lot_id L) q lots == 0 -> lot_less q lots L L.
Proof. intros H. split; [by destruct L|]. rewrite H. lra. Qed.

Lemma clamp_scale r q : on_scale 4 r -> on_scale 4 q -> on_scale 4 (clamp r q).
Proof.
  intros Hr Hq. unfold clamp.
  destruct (Q.min_spec r q) as [[_ ->]|[_ ->]];
    [destruct (Q.max_spec 0 r) as [[_ ->]|[_ ->]] | destruct (Q.max_spec 0 q) as [[_ ->]|[_ ->]]];
    auto with scale; apply on_scale_0.
Qed.

(** The lots the loop holds are rows of the table, with quantities of 4 decimals. *)
Record lots_current (table lots : list Lot) : Prop := {
  lc_positive : Forall positive_lot lots;
  lc_nodup : NoDup (lot_id <$> lots);
  lc_scale : Forall (fun l => on_scale 4 (val (lot_remaining l))) lots;
  lc_rows : forall L l, L ∈ table -> l ∈ lots -> lot_id L = lot_id l ->
    val (lot_remaining L) == val (lot_remaining l);
}.

Lemma fifo_drain_lots lots q r t w r' t' w' :
  fifo_drain lots r t w = (Ok (r', t'), w') ->
  lots_current (db_lots (w_db w)) lots -> on_scale 4 q -> val r == Qmax 0 q ->
  Forall2 (lot_less q lots) (db_lots (w_db w)) (db_lots (w_db w')).
Proof.
  revert q r t w. induction lots as [|l lots IH]; intros q r t w H [Hp Hn Hs Hc] Hq Hr.
  { simpl in H. minv H. apply Forall_Forall2_diag, Forall_forall. intros L _. by apply lot_less_refl. }
  inversion_clear Hp as [|? ? Hl Hls]. apply NoDup_cons in Hn as [Hnl Hn].
  inversion_clear Hs as [|? ? Hsl Hss]. assert (0 < val (lot_remaining l)) as Hpos by exact Hl.
  simpl in H. destruct (is_zero r) eqn:Hz.
  { minv H. dec_tests. apply Forall_Forall2_diag, Forall_forall. intros L _. apply lot_less_refl.
    apply takes_none; [by constructor|]. qminmax. }
  dec_tests. assert (0 < q /\ val r == q) as [Hq0 Hrq] by (split; qminmax).
  unfold UpdateLotQty in H. minv H. wsimpl.
  assert (val (dmin (lot_remaining l) r) == clamp (val (lot_remaining l)) q) as Hm.
  { rewrite val_min. unfold clamp. rewrite Hrq. qminmax. }
  assert (val (num4 (dsub (lot_remaining l) (dmin (lot_remaining l) r)))
          == val (lot_remaining l) - clamp (val (lot_remaining l)) q) as Hnew.
  { unfold num4. rewrite val_round_id; rewrite val_sub, Hm; [done|].
    apply on_scale_minus; [done|]. by apply clamp_scale. }
  set (upd := fun L => if N.eqb (lot_id L) (lot_id l)
                       then with_remaining L (num4 (dsub (lot_remaining l) (dmin (lot_remaining l) r)))
                       else L) in *.
  assert (forall L, lot_id (upd L) = lot_id L) as Hid
    by (intros L; unfold upd; by destruct (N.eqb _ _)).
  apply (IH (q - val (lot_remaining l))) in H.
  - simpl in H. rewrite Forall2_fmap_l in H.
    apply Forall2_same_length_lookup. apply Forall2_same_length_lookup in H as [Hlen H].
    split; [done|]. intros i L L' HL HL'. specialize (H i L L' HL HL').
    destruct H as [Hw H]. split.
    { rewrite Hw. unfold upd. destruct (N.eqb _ _); by destruct L. }
    rewrite Hid in H. simpl. rewrite H. unfold upd. rewrite (N.eqb_sym (lot_id l)).
    destruct (N.eqb_spec (lot_id L) (lot_id l)) as [E|]; [|done].
    rewrite E, taken_other by done. simpl. rewrite Hnew.
    rewrite (Hc L l); [lra|by eapply list_elem_of_lookup_2|left|done].
  - split; [done..|]. intros L l2 [L0 [-> HL0]]%list_elem_of_fmap Hl2 E.
    rewrite Hid in E. unfold upd. destruct (N.eqb_spec (lot_id L0) (lot_id l)) as [E2|].
    + destruct Hnl. rewrite <- E2, E. by apply list_elem_of_fmap_2.
    + apply Hc; [done|by right|done].
  - by apply on_scale_minus.
  - rewrite val_sub, Hm, Hrq. unfold clamp. qminmax.
Qed.
End drain.

Section fifo.
Context {ops : DecimalOps} {laws : DecimalLaws ops} {env : Env} {elaws : EnvLaws env}.

Definition open_lots (d : DB) (k : stock_key) : list Lot :=
  let '(t, p, wh) := k in
  sql_order lot_received_at (select (active_lot t p wh) (db_lots d)).

(** Lot rows: distinct ids, quantities not negative and of four decimals. *)
Record lots_wf (d : DB) : Prop := {
  lw_ids : NoDup (lot_id <$> db_lots d);
  lw_rows : Forall (fun l => 0 <= val (lot_remaining l) /\ on_scale 4 (val (lot_remaining l)))
              (db_lots d);
}.

Lemma lots_current_perm table l1 l2 : Permutation l1 l2 -> lots_current table l1 -> lots_current table l2.
Proof.
  intros HP [H1 H2 H3 H4]. split.
  - by rewrite <- HP.
  - by rewrite <- HP.
  - by rewrite <- HP.
  - intros L l HL Hl. apply H4; [done|]. by rewrite HP.
Qed.

Lemma open_lots_current d k : lots_wf d -> lots_current (db_lots d) (open_lots d k).
Proof.
  intros [Hn Hw]. destruct k as [[t p] wh]. unfold open_lots.
  eapply lots_current_perm; [symmetry; apply sql_order_perm|].
  rewrite Forall_forall in Hw. split.
  - apply Forall_forall. intros l [Ha _]%elem_of_select. unfold active_lot in Ha.
    unfold positive_lot. dec.
  - by apply NoDup_select_key.
  - apply Forall_forall. intros l [_ Hl]%elem_of_select. by apply Hw.
  - intros L l HL [_ Hl]%elem_of_select E. by rewrite (NoDup_key lot_id _ _ _ Hn HL Hl E).
Qed.

Lemma lotsAtCostFirst_perm lots c : Permutation (lotsAtCostFirst lots c) lots.
Proof.
  unfold lotsAtCostFirst. induction lots as [|l lots IH]; [done|]. simpl.
  destruct (deqb (lot_unit_cost l) c); simpl; [by constructor|].
  etrans; [symmetry; apply Permutation_middle|]. by constructor.
Qed.

(** The lots in the order this movement drains them. *)
Definition drain_order (m : Movement) (d : DB) : list Lot :=
  let lots := open_lots d (mv_key m) in
  if mv_explicit_cost m then lotsAtCostFirst lots (mv_unit_cost m) else lots.

Lemma drain_order_current m d : lots_wf d -> lots_current (db_lots d) (drain_order m d).
Proof.
  intros H. pose proof (open_lots_current _ (mv_key m) H) as Hc. unfold drain_order.
  destruct (mv_explicit_cost m); [|done].
  eapply lots_current_perm; [symmetry; apply lotsAtCostFirst_perm|done].
Qed.

Lemma fifo_out_drained m q c w nq nc m1 w' :
  fifo_out m q c w = (Ok (nq, nc, m1), w') ->
  0 < val (mv_qty_base m) -> on_scale 4 (val (mv_qty_base m)) -> lots_wf (w_db w) ->
  let lots := drain_order m (w_db w) in
  Forall2 (lot_less (val (mv_qty_base m)) lots) (db_lots (w_db w)) (db_lots (w_db w')) /\
  val (mv_total_cost m1) == takes_cost (val (mv_qty_base m)) lots
    + Qmax 0 (val (mv_qty_base m) - held lots) * val c /\
  (val (mv_qty_base m) <= held lots \/ mv_allow_negative m = true).
Proof.
  intros H Hq Hs Hw. pose proof (drain_order_current m _ Hw) as Hc. unfold drain_order in *.
  cbv zeta. unfold fifo_out, ListActiveLots in H. destruct (dgt _ _ && _); [minv H|].
  minv H. unfold open_lots, mv_key in *. unfold lotsAtCostFirst in *.
  match type of Hm with fifo_drain ?l _ _ _ = _ => set (lots := l) in * end.
  pose proof (fifo_drain_lots _ (val (mv_qty_base m)) _ _ _ _ _ _ Hm Hc Hs) as Hl.
  pose proof (fifo_drain_value _ (val (mv_qty_base m)) _ _ _ _ _ _ Hm (lc_positive _ _ Hc)) as Hv.
  assert (val (mv_qty_base m) == Qmax 0 (val (mv_qty_base m))) as E by qminmax.
  specialize (Hl E). specialize (Hv E) as [H1 H2]. split; [done|]. simpl.
  rewrite val_zero in H2. split.
  - destruct (is_positive d && mv_allow_negative m) eqn:Hb; dec_tests.
    + rewrite val_add, val_mul, H1, H2. lra.
    + rewrite H2. assert (Qmax 0 (val (mv_qty_base m) - held lots) == 0) as -> by qminmax. lra.
  - destruct (mv_allow_negative m); [by right|left].
    rewrite andb_false_r in Hm0. dec_tests. qminmax.
Qed.

(** The drain reads its own movement's key whatever the times are. *)
Lemma drain_order_stamp m now d : drain_order (stamp m now) d = drain_order m d.
Proof. done. Qed.

Lemma upsert_lots s now d : db_lots (upsert_row s now d) = db_lots d.
Proof. done. Qed.

(** C7: FIFO out: every lot of the table keeps its row and gives exactly what is
    demanded beyond the lots drained before it, oldest receipt first (for a purchase
    return, the lots bought at its price first); the movement leaves at the sum of what
    the lots gave at their own costs, plus the oversold part at the book cost; without
    AllowNegative the lots held enough. *)
Theorem fifo_out_oldest_first m w m' s w' :
  mv_direction m = DirectionOut ->
  ApplyMovement (InventoryCalculator := FIFOCalculator) m w = (Ok (m', s), w') ->
  0 < val (mv_qty_base m) -> on_scale 4 (val (mv_qty_base m)) -> lots_wf (w_db w) ->
  let lots := drain_order m (w_db w) in
  Sorted.StronglySorted (fun a b => (lot_received_at a <= lot_received_at b)%Z)
    (open_lots (w_db w) (mv_key m)) /\
  Forall2 (lot_less (val (mv_qty_base m)) lots) (db_lots (w_db w)) (db_lots (w_db w')) /\
  val (mv_total_cost m') ==
    qsum (zip_with Qmult (fifo_takes (val (mv_qty_base m)) lots) (val ∘ lot_unit_cost <$> lots))
    + Qmax 0 (val (mv_qty_base m) - held lots) * val (book_cost (w_db w) (mv_key m)) /\
  (val (mv_qty_base m) <= held lots \/ mv_allow_negative m = true).
Proof.
  intros Hd H Hq Hs Hw lots. split.
  { unfold open_lots. destruct (mv_key m) as [[t p] wh]. apply sql_order_sorted. }
  apply fifo_apply_Ok in H as (now & w1 & w2 & E1 & _ & _ & H & _ & now' & ->).
  unfold fifo_step in H. simpl in H. rewrite Hd in H. simpl in H.
  apply fifo_out_drained in H; [|done|done|by rewrite E1]. cbv zeta in H.
  rewrite E1, drain_order_stamp in H. fold lots in H.
  rewrite <- takes_cost_takes. rewrite upsert_lots. exact H.
Qed.

(** ** Lots against the book *)

Definition lots_at (d : DB) (k : stock_key) : list Lot :=
  select (fun l => bool_decide (lot_key l = k)) (db_lots d).

Definition lots_agree (d : DB) (k : stock_key) : Prop :=
  held (lots_at d k) == Qmax 0 (val (on_hand d k)) /\ on_scale 4 (val (on_hand d k)).

(** No later uuid.New() yields a lot id already in the table. *)
Definition fresh_lots (w : World) : Prop :=
  forall L n, L ∈ db_lots (w_db w) -> (w_tick w <= n)%nat -> uuid_at n <> lot_id L.

Record fifo_inv (w : World) : Prop := {
  fi_wf : lots_wf (w_db w);
  fi_fresh : fresh_lots w;
  fi_agree : forall k, lots_agree (w_db w) k;
}.

Lemma held_perm l1 l2 : Permutation l1 l2 -> held l1 == held l2.
Proof. intros H. apply qsum_perm. by apply Permutation_map. Qed.

(** Rows that are not open hold nothing. *)
Lemma held_open d k : lots_wf d -> held (open_lots d k) == held (lots_at d k).
Proof.
  intros [_ Hw]. destruct k as [[t p] wh]. unfold open_lots.
  rewrite (held_perm _ _ (sql_order_perm _ _)). unfold lots_at, held.
  induction (db_lots d) as [|l ls IH]; [done|]. inversion_clear Hw as [|? ? [Hl _] Hls].
  specialize (IH Hls). simpl. unfold active_lot at 1, at_key.
  assert (bool_decide (lot_key l = (t, p, wh))
          = N.eqb (lot_tenant l) t && N.eqb (lot_product l) p && N.eqb (lot_warehouse l) wh) as ->.
  { symmetry. destruct (decide (lot_key l = (t, p, wh))) as [E|E].
    - rewrite bool_decide_true by done. unfold lot_key in E. injection E as -> -> ->.
      by rewrite !N.eqb_refl.
    - rewrite bool_decide_false by done. apply not_true_iff_false. intros Ht. apply E.
      unfold lot_key. repeat (apply andb_true_iff in Ht as [Ht ?]).
      repeat match goal with H : N.eqb _ _ = true |- _ => apply N.eqb_eq in H end. congruence. }
  destruct (N.eqb (lot_tenant l) t && N.eqb (lot_product l) p && N.eqb (lot_warehouse l) wh);
    simpl; [|done]. csimpl.
  destruct (is_positive (lot_remaining l)) eqn:E; csimpl; dec_tests;
    rewrite IH; [done|].
  assert ((val ∘ lot_remaining) l == 0) as -> by (unfold compose; lra). by rewrite Qplus_0_l.
Qed.

Lemma sum_taken A q lots :
  NoDup (lot_id <$> A) -> NoDup (lot_id <$> lots) ->
  (forall l, l ∈ lots -> lot_id l ∈ lot_id <$> A) ->
  qsum ((fun L => taken (lot_id L) q lots) <$> A) == qsum (fifo_takes q lots).
Proof.
  intros HA. revert q. induction lots as [|l lots IH]; intros q Hn Hin.
  { simpl. clear. induction A as [|a A IHA]; csimpl; [done|]. rewrite IHA. lra. }
  csimpl in Hn. apply NoDup_cons in Hn as [Hl Hn]. cbn [fifo_takes qsum].
  rewrite <- (IH (q - val (lot_remaining l)) Hn) by (intros x Hx; apply Hin; by right).
  specialize (Hin l ltac:(left)). clear IH. simpl.
  set (c := clamp (val (lot_remaining l)) q). set (q' := q - val (lot_remaining l)).
  assert (forall B, lot_id l ∉ lot_id <$> B ->
    qsum ((fun L => if N.eqb (lot_id l) (lot_id L) then c else taken (lot_id L) q' lots) <$> B)
    == qsum ((fun L => taken (lot_id L) q' lots) <$> B)) as Hout.
  { intros B HB. apply qsum_ext. intros x Hx. destruct (N.eqb_spec (lot_id l) (lot_id x)) as [E|]; [|done].
    destruct HB. rewrite E. by apply list_elem_of_fmap_2. }
  induction A as [|a A IHA]; [by apply not_elem_of_nil in Hin|]. csimpl in *.
  apply NoDup_cons in HA as [Ha HA].
  destruct (N.eqb_spec (lot_id l) (lot_id a)) as [E|E].
  - rewrite Hout by by rewrite E. rewrite <- E, taken_other by done. lra.
  - apply elem_of_cons in Hin as [?|Hin]; [done|]. rewrite (IHA HA Hin). lra.
Qed.

Lemma held_less q lots A A' (p : Lot -> bool) :
  Forall2 (lot_less q lots) A A' ->
  (forall L r, p (with_remaining L r) = p L) ->
  held (select p A') == held (select p A) - qsum ((fun L => taken (lot_id L) q lots) <$> select p A).
Proof.
  intros H Hp. unfold held. induction H as [|L L' A A' [Hw HL] H IH]; simpl; [lra|].
  rewrite Hw, Hp. destruct (p L); [|done]. csimpl. rewrite IH, HL. lra.
Qed.

Lemma lots_less_ids q lots A A' : Forall2 (lot_less q lots) A A' -> lot_id <$> A' = lot_id <$> A.
Proof.
  induction 1 as [|L L' A A' [Hw HL] H IH]; [done|]. csimpl. rewrite IH, Hw. done.
Qed.

(** Ids of one SKU's open lots do not occur among another's. *)
Lemma drain_order_ids m d l :
  l ∈ drain_order m d -> l ∈ lots_at d (mv_key m).
Proof.
  intros H. assert (l ∈ open_lots d (mv_key m)) as H1.
  { unfold drain_order in H. destruct (mv_explicit_cost m); [|done].
    by rewrite (lotsAtCostFirst_perm _ _) in H. }
  unfold open_lots in H1. destruct (mv_key m) as [[t p] wh] eqn:E.
  rewrite sql_order_perm in H1. apply elem_of_select in H1 as [Ha Hl].
  apply elem_of_select. split; [|done]. apply bool_decide_eq_true.
  unfold active_lot, at_key in Ha. repeat (apply andb_true_iff in Ha as [Ha ?]).
  unfold lot_key. repeat match goal with H : N.eqb _ _ = true |- _ => apply N.eqb_eq in H end.
  congruence.
Qed.

Lemma on_hand_upsert s now d k :
  sn_key s = k -> on_hand (upsert_row s now d) k = num4 (sn_on_hand s).
Proof. intros <-. unfold on_hand, upsert_row. simpl. by rewrite lookup_insert_eq. Qed.

Lemma on_hand_upsert_ne s now d k :
  sn_key s <> k -> on_hand (upsert_row s now d) k = on_hand d k.
Proof. intros H. unfold on_hand, upsert_row. simpl. by rewrite lookup_insert_ne. Qed.

Lemma lot_less_key q lots L L' k :
  lot_less q lots L L' -> (lot_key L' = k <-> lot_key L = k).
Proof. intros [-> _]. done. Qed.

Lemma lots_at_with_remaining k L r :
  bool_decide (lot_key (with_remaining L r) = k) = bool_decide (lot_key L = k).
Proof. done. Qed.

Lemma taken_elsewhere m d q k :
  lots_wf d -> k <> mv_key m ->
  qsum ((fun L => taken (lot_id L) q (drain_order m d)) <$> lots_at d k) == 0.
Proof.
  intros Hw Hk. transitivity (qsum ((fun _ => 0) <$> lots_at d k)).
  - apply qsum_ext. intros L [HLk HL]%elem_of_select. rewrite taken_other; [done|].
    intros [l [E Hl]]%list_elem_of_fmap. apply drain_order_ids in Hl.
    apply elem_of_select in Hl as [Hlk Hl]. apply bool_decide_eq_true in HLk, Hlk.
    apply Hk. rewrite <- HLk, <- Hlk. by rewrite (NoDup_key lot_id _ _ _ (lw_ids _ Hw) HL Hl E).
  - induction (lots_at d k) as [|L ls IH]; csimpl; [done|]. by rewrite IH.
Qed.

Lemma taken_here m d q :
  lots_wf d -> 0 <= q ->
  qsum ((fun L => taken (lot_id L) q (drain_order m d)) <$> lots_at d (mv_key m))
  == Qmin q (held (lots_at d (mv_key m))).
Proof.
  intros Hw Hq. pose proof (drain_order_current m d Hw) as [Hp Hn _ _].
  rewrite sum_taken; [|by apply NoDup_select_key, lw_ids|done|].
  - rewrite takes_sum by done.
    assert (held (drain_order m d) == held (lots_at d (mv_key m))) as E.
    { rewrite <- held_open by done. apply held_perm. unfold drain_order.
      destruct (mv_explicit_cost m); [apply lotsAtCostFirst_perm|done]. }
    rewrite <- E. pose proof (held_nonneg _ Hp). qminmax.
  - intros l Hl. by apply list_elem_of_fmap_2, drain_order_ids.
Qed.

Lemma lots_wf_less q lots d d' :
  lots_wf d -> Forall2 (lot_less q lots) (db_lots d) (db_lots d') ->
  lots_current (db_lots d) lots -> on_scale 4 q -> lots_wf d'.
Proof.
  intros [Hn Hr] H Hc Hq. split; [by rewrite (lots_less_ids _ _ _ _ H)|].
  rewrite Forall_forall in Hr. apply Forall_forall. intros L' HL'.
  apply list_elem_of_lookup in HL' as [i HL'].
  destruct (Forall2_lookup_r _ _ _ _ _ H HL') as (L & HL & _ & E).
  apply list_elem_of_lookup_2 in HL. destruct (Hr L HL) as [H0 Hs].
  cut (0 <= taken (lot_id L) q lots <= val (lot_remaining L) /\ on_scale 4 (taken (lot_id L) q lots)).
  { intros [Hb Hsc]. rewrite E. split; [lra|]. by apply on_scale_minus. }
  clear -H0 Hs Hc Hq HL laws. destruct Hc as [Hp _ Hsc Hrows]. revert q Hq.
  induction lots as [|l lots IH]; intros q Hq; simpl.
  { split; [lra|apply on_scale_0]. }
  inversion_clear Hp as [|? ? Hl Hls]. inversion_clear Hsc as [|? ? Hsl Hss].
  destruct (N.eqb_spec (lot_id l) (lot_id L)) as [Ei|_].
  - rewrite (Hrows L l) by (done || left). split; [|by apply clamp_scale].
    assert (0 < val (lot_remaining l)) by exact Hl. unfold clamp. split; qminmax.
  - apply IH; try done; [|by apply on_scale_minus].
    intros L0 l0 ??. apply Hrows; [done|by right].
Qed.

Lemma fifo_out_inv m w q c nq nc m1 w1 s now' :
  fifo_out m q c w = (Ok (nq, nc, m1), w1) ->
  0 < val (mv_qty_base m) -> on_scale 4 (val (mv_qty_base m)) ->
  lots_wf (w_db w) -> (forall k, lots_agree (w_db w) k) ->
  sn_key s = mv_key m ->
  val (sn_on_hand s) == val (on_hand (w_db w) (mv_key m)) - val (mv_qty_base m) ->
  let d' := upsert_row s now' (set_movements (w_db w1) (db_movements (w_db w1) ++ [stored_movement m1])) in
  db_snapshots (w_db w1) = db_snapshots (w_db w) ->
  lots_wf d' /\ forall k, lots_agree d' k.
Proof.
  intros H Hq Hs Hw Ha Hk Hn d' Hsn.
  destruct (fifo_out_drained _ _ _ _ _ _ _ _ H Hq Hs Hw) as [Hl _].
  pose proof (drain_order_current m _ Hw) as Hc.
  split; [by eapply (lots_wf_less (val (mv_qty_base m)) _ (w_db w))|].
  intros k. destruct (Ha k) as [H1 H2]. unfold lots_agree.
  assert (held (lots_at d' k) == held (lots_at (w_db w) k)
    - qsum ((fun L => taken (lot_id L) (val (mv_qty_base m)) (drain_order m (w_db w))) <$> lots_at (w_db w) k)) as Hh.
  { apply held_less; [exact Hl|]. intros L r. apply lots_at_with_remaining. }
  destruct (decide (mv_key m = k)) as [<-|Hne].
  - subst d'. rewrite on_hand_upsert by done. unfold num4. rewrite val_round_id.
    + split; [|rewrite Hn; by apply on_scale_minus].
      rewrite Hh, taken_here, H1, Hn by (done || lra). qminmax.
    + rewrite Hn. by apply on_scale_minus.
  - subst d'. rewrite on_hand_upsert_ne by congruence. rewrite Hh, taken_elsewhere by done.
    unfold on_hand in *. simpl. rewrite Hsn. split; [rewrite H1; lra|done].
Qed.

Lemma fifo_in_inv m w q c now nq nc m1 w1 s now' :
  fifo_in m q c now w = (Ok (nq, nc, m1), w1) ->
  0 < val (mv_qty_base m) -> on_scale 4 (val (mv_qty_base m)) ->
  q = on_hand (w_db w) (mv_key m) ->
  lots_wf (w_db w) -> fresh_lots w -> (forall k, lots_agree (w_db w) k) ->
  sn_key s = mv_key m ->
  val (sn_on_hand s) == val q + val (mv_qty_base m) ->
  let d' := upsert_row s now' (set_movements (w_db w1) (db_movements (w_db w1) ++ [stored_movement m1])) in
  lots_wf d' /\ (forall k, lots_agree d' k) /\
  (forall L n, L ∈ db_lots d' -> (w_tick w1 <= n)%nat -> uuid_at n <> lot_id L).
Proof.
  intros H Hq Hs Eq Hw Hf Ha Hk Hn. revert Eq. unfold fifo_in, InsertLot in H. minv H.
  destruct (lot_no_taken _ _); [done|]. injection Hm as <-. intros Eq d'.
  set (left := if is_negative q then dmax dzero (dadd (mv_qty_base m) q) else mv_qty_base m) in *.
  set (L0 := stored_lot (new_lot m (uuid_at (w_tick w)) left now)) in *.
  destruct (Ha (mv_key m)) as [Hheld Hscale]. rewrite <- Eq in Hheld, Hscale.
  assert (val left == Qmax 0 (val q + val (mv_qty_base m)) - Qmax 0 (val q)) as Hleft.
  { subst left. destruct (is_negative q) eqn:Hng; dec_tests.
    - rewrite val_max, val_zero, val_add. qminmax.
    - qminmax. }
  assert (on_scale 4 (val left)) as Hls.
  { subst left. destruct (is_negative q); [|done]. rewrite val_max.
    destruct (Q.max_spec (val dzero) (val (dadd (mv_qty_base m) q))) as [[_ ->]|[_ ->]].
    - rewrite val_add. by apply on_scale_plus.
    - rewrite val_zero. apply on_scale_0. }
  assert (val (lot_remaining L0) == val left) as HL0 by (subst L0; simpl; unfold num4; by apply val_round_id).
  assert (db_lots (w_db w1) = db_lots (w_db w) ++ [L0] /\ db_snapshots (w_db w1) = db_snapshots (w_db w)
          /\ (S (w_tick w) <= w_tick w1)%nat) as (E1 & E2 & E3).
  { destruct (negb (is_positive q)); minv Hm0; simpl; split_and!; (done || lia). }
  clear Hm0. assert (db_lots d' = db_lots (w_db w) ++ [L0]) as EL by (subst d'; rewrite upsert_lots; exact E1).
  assert (uuid_at (w_tick w) ∉ lot_id <$> db_lots (w_db w)) as Hnew.
  { intros [L [EqL HL]]%list_elem_of_fmap. by apply (Hf L (w_tick w) HL). }
  split; [|split].
  - destruct Hw as [Hnd Hr]. split; rewrite EL.
    + rewrite fmap_app. apply NoDup_app. split; [done|]. split; [|apply NoDup_singleton].
      intros y Hy ->%list_elem_of_singleton. by apply Hnew.
    + apply Forall_app. split; [done|]. apply Forall_singleton. rewrite HL0. split; [|done].
      rewrite Hleft. qminmax.
  - intros k. destruct (Ha k) as [H1 H2]. unfold lots_agree, lots_at. rewrite EL, select_app.
    unfold held. rewrite fmap_app, qsum_app. fold (held (lots_at (w_db w) k)).
    change (select (fun l => bool_decide (lot_key l = k)) [L0])
      with (if bool_decide (mv_key m = k) then [L0] else []).
    case_bool_decide as Hkk.
    + subst k. subst d'. rewrite on_hand_upsert by done. unfold num4.
      rewrite val_round_id by (rewrite Hn; by apply on_scale_plus).
      split; [|rewrite Hn; by apply on_scale_plus].
      change (held (lots_at (w_db w) (mv_key m)) + (val (lot_remaining L0) + 0)
              == Qmax 0 (val (sn_on_hand s))).
      rewrite Hheld, HL0, Hleft, Hn. lra.
    + subst d'. rewrite on_hand_upsert_ne by congruence. unfold on_hand in *. simpl. rewrite E2.
      split; [|done]. rewrite <- H1. unfold lots_at, held. simpl. lra.
  - intros L n HL Hge. rewrite EL in HL. apply elem_of_app in HL as [HL|HL].
    + apply Hf; [done|lia].
    + apply list_elem_of_singleton in HL as ->. simpl. intros E. apply uuid_at_inj in E. lia.
Qed.

(** C6: receipts and issues keep the FIFO lots of every SKU adding up to its positive
    book quantity (a receipt into oversold stock first covers the goods already
    sold), with distinct lot ids and no negative lot. *)
Theorem fifo_lots_match_book m w m' s w' :
  mv_direction m = DirectionIn \/ mv_direction m = DirectionOut ->
  ApplyMovement (InventoryCalculator := FIFOCalculator) m w = (Ok (m', s), w') ->
  0 < val (mv_qty_base m) -> on_scale 4 (val (mv_qty_base m)) ->
  fifo_inv w -> fifo_inv w'.
Proof.
  intros Hd H Hq Hs [Hw Hf Ha].
  assert (Direction_Validate (mv_direction m) = None) as Hv
    by (apply direction_cases; intuition).
  destruct (fifo_apply_effect _ _ _ _ _ Hv H) as [_ _ _ _ Hn _].
  apply fifo_apply_Ok in H as (now & w1 & w2 & E1 & T1 & T2 & H & Hk & now' & E).
  assert (fresh_lots w1) as Hf1 by (intros L n HL Hge; rewrite E1 in HL; apply Hf; [done|lia]).
  unfold fifo_step, delta in *. destruct Hd as [Hd|Hd]; simpl in H; rewrite Hd in H, Hn; simpl in H, Hn.
  - eapply fifo_in_inv in H as (A & B & C); [..|exact Hk|]; try done; try by rewrite E1.
    split; rewrite ?E; [done| |done]. intros L n HL Hge. rewrite E in HL. eapply C; [done|lia].
  - assert (db_lots (w_db w') = db_lots (w_db w2)) as EL by by rewrite E.
    pose proof (keeps_run _ _ _ _ _ (keeps_fifo_out _ _ _) H) as [(_ & _ & Hsn) Ht].
    pose proof H as H0.
    eapply fifo_out_inv in H as (A & B); [..|exact Hk| |exact Hsn]; try done; try by rewrite E1.
    split; rewrite ?E; [done| |done]. intros L n HL Hge. rewrite EL in HL.
    eapply fifo_out_drained in H0 as [Hl _]; try done; [|by rewrite E1].
    apply (list_elem_of_fmap_2 lot_id) in HL. rewrite (lots_less_ids _ _ _ _ Hl), E1 in HL.
    apply list_elem_of_fmap in HL as (L1 & -> & HL1). apply Hf; [done|lia].
Qed.
End fifo.

(** ** Witnesses *)
Lemma ex_world_fifo_inv : fifo_inv ex_world.
Proof.
  split.
  - split; [constructor | constructor].
  - intros L n HL. by apply not_elem_of_nil in HL.
  - intros k. unfold lots_agree. assert (on_hand (w_db ex_world) k = dzero) as -> by reflexivity.
    split; [compute_goal | exists 0%Z; compute_goal].
Qed.

Definition ex_fifo_receipt : Movement := ex_move DirectionIn RefPurchase ex_p1 (D 5 0) (D 35 1).

Lemma fifo_lots_match_book_witness :
  exists m' s w',
    ApplyMovement (InventoryCalculator := FIFOCalculator) ex_fifo_receipt ex_world = (Ok (m', s), w') /\
    fifo_inv w'.
Proof.
  run_ok (ApplyMovement (InventoryCalculator := FIFOCalculator) ex_fifo_receipt ex_world) as a w' H.
  destruct a as [m' s]. exists m', s, w'. split; [exact H|].
  apply (fifo_lots_match_book ex_fifo_receipt ex_world m' s w' (or_introl eq_refl) H).
  - compute_goal.
  - exists 50000%Z. compute_goal.
  - exact ex_world_fifo_inv.
Defined.

(** Two lots, the younger listed first in the table: 3 at 2.00, then 4 at 3.00. *)
Definition ex_lot (id : uuid) (rem cost : dec) (received : time) : Lot :=
  mkLot id ex_tenant ex_p1 ex_wh EmptyString rem rem cost received None received.
Definition ex_two_lots : World :=
  let w := with_stock ex_world ex_p1 (D 7 0) (D 25 1) in
  with_db w (set_lots (w_db w)
    [ex_lot 61%N (D 4 0) (D 3 0) 200%Z; ex_lot 60%N (D 3 0) (D 2 0) 100%Z]).
Definition ex_issue : Movement := ex_move DirectionOut RefSale ex_p1 (D 5 0) (D 0 0).

Lemma ex_two_lots_wf : lots_wf (w_db ex_two_lots).
Proof.
  split.
  - apply (bool_decide_unpack _). vm_compute. reflexivity.
  - repeat constructor; try compute_goal; [exists 40000%Z | exists 30000%Z]; compute_goal.
Qed.

Lemma fifo_out_oldest_first_witness :
  exists m' s w',
    ApplyMovement (InventoryCalculator := FIFOCalculator) ex_issue ex_two_lots = (Ok (m', s), w') /\
    val (mv_total_cost m') ==
      qsum (zip_with Qmult (fifo_takes (val (mv_qty_base ex_issue)) (drain_order ex_issue (w_db ex_two_lots)))
             (val ∘ lot_unit_cost <$> drain_order ex_issue (w_db ex_two_lots)))
      + Qmax 0 (val (mv_qty_base ex_issue) - held (drain_order ex_issue (w_db ex_two_lots)))
        * val (book_cost (w_db ex_two_lots) (mv_key ex_issue)).
Proof.
  run_ok (ApplyMovement (InventoryCalculator := FIFOCalculator) ex_issue ex_two_lots) as a w' H.
  destruct a as [m' s]. exists m', s, w'. split; [exact H|].
  apply (fifo_out_oldest_first ex_issue ex_two_lots m' s w' eq_refl H).
  - compute_goal.
  - exists 50000%Z. compute_goal.
  - exact ex_two_lots_wf.
Defined.
