(* ===== verification/StockRecord.v ===== *)
(** RecordMovementUseCase (app/stock/usecase.go): one movement, end to end.

    Client of the calculator interface: everything here holds for any calculator
    that keeps [CalculatorLaws]. *)
From S2P Require Import Prelude Rounding Decimal SDec Types StockDomain BillDomain Store StockRepo StockCalc StockFIFO Concrete.
From stdpp Require Import base tactics strings gmap list.
From Stdlib Require Import ZArith QArith Qabs Lqa Lia.

Section record.
Context {ops : DecimalOps} {env : Env} {wiring : Wiring} {calc : InventoryCalculator}.

Record RecordMovementRequest := mkRecordMovementRequest {
  rq_tenant : uuid;
  rq_product : uuid;
  rq_warehouse : uuid;
  rq_direction : Direction;
  rq_qty : dec;
  rq_unit : uuid;
  rq_conv_factor : string;
  rq_unit_cost : dec;
  rq_explicit_cost : bool;
  rq_allow_negative : bool;
  rq_cost_strategy : string;
  rq_reference_type : ReferenceType;
  rq_reference_id : option uuid;
  rq_occurred_at : time;
  rq_created_by : option uuid;
  rq_note : string;
}.

Definition convertToBase (qty : dec) (factor : string) : error + dec :=
  if String.eqb factor "" || String.eqb factor "1" then inr qty
  else match Parse factor "conversion_factor" with
       | inl e => inl (EWrap "invalid conversion factor" e)
       | inr f => if is_zero f || is_negative f then inl (EWrap factor (ESentinel ErrInvalidUnitFactor))
                  else inr (dmul qty f)
       end.

(** The movement both entry points build from a request. *)
Definition new_movement (r : RecordMovementRequest) (id : uuid) (qtyBase : dec) (occurred : time) : Movement :=
  mkMovement id (rq_tenant r) (rq_product r) (rq_warehouse r) (rq_direction r) qtyBase
    (rq_unit_cost r) dzero (rq_reference_type r)
    (if String.eqb (rq_reference_type r) RefInit && is_none (rq_reference_id r)
     then Some id else rq_reference_id r)
    occurred (rq_created_by r) (rq_note r) time_zero (rq_explicit_cost r) (rq_allow_negative r).

(** The checks, the conversion and the movement, up to the transaction. *)
Definition prepare (label : string) (r : RecordMovementRequest) : M Movement :=
  guard_err (uuid_is_nil (rq_tenant r)) (EMsg (label ++ ": tenant_id is required"));;
  guard_err (uuid_is_nil (rq_product r)) (EMsg (label ++ ": product_id is required"));;
  guard_err (uuid_is_nil (rq_warehouse r)) (EMsg (label ++ ": warehouse_id is required"));;
  match Direction_Validate (rq_direction r) with
  | Some e => throw (EWrap label (ESentinel e))
  | None =>
      qtyBase ← on_err (fun e => EWrap (label ++ ": unit conversion") e)
                  (of_sum (convertToBase (rq_qty r) (rq_conv_factor r)));
      occurredAt ← (if time_is_zero (rq_occurred_at r) then time_now else mret (rq_occurred_at r));
      id ← uuid_new;
      mret (new_movement r id qtyBase occurredAt)
  end.

(** enqueueOutbox and event_outbox.Store.Enqueue *)
Definition outbox_subject : string := "PSI_EVENTS.stock.movement_recorded".

Definition enqueueOutbox (r : RecordMovementRequest) (m : Movement) (snap : Snapshot) : M unit :=
  eventID ← uuid_new;
  id ← uuid_new;
  now ← time_now;
  update "event_outbox: enqueue" (fun d =>
    set_outbox d (db_outbox d ++
      [mkOutboxRow id now (rq_tenant r) outbox_subject eventID (mv_occurred_at m) (mv_product m)
         (mv_warehouse m) (mv_direction m) (mv_qty_base m) (sn_on_hand snap) (mv_unit_cost m)
         (mv_reference_type m)])).

Definition ExecuteInTx (r : RecordMovementRequest) : M Snapshot :=
  m ← prepare "record movement (tx)" r;
  on_err (EWrap "record movement (tx): acquire advisory lock")
    (AcquireAdvisoryLock (rq_tenant r) (rq_product r) (rq_warehouse r));;
  ValidateMovement m;;
  ms ← on_err (EWrap "record movement (tx): apply movement") (ApplyMovement m);
  (if has_outbox
   then on_err (EWrap "record movement (tx): enqueue outbox") (enqueueOutbox r ms.1 ms.2)
   else mret tt);;
  mret ms.2.

Definition Execute (r : RecordMovementRequest) : M Snapshot :=
  m ← prepare "record movement" r;
  WithTx "stock repo" (
    on_err (EWrap "acquire advisory lock")
      (AcquireAdvisoryLock (rq_tenant r) (rq_product r) (rq_warehouse r));;
    ValidateMovement m;;
    ms ← on_err (EWrap "apply movement") (ApplyMovement m);
    (if has_outbox then on_err (EWrap "enqueue outbox") (enqueueOutbox r ms.1 ms.2) else mret tt);;
    mret ms.2).
End record.

(** ** What a recorded movement did, for any calculator *)
Section record_laws.
Context {ops : DecimalOps} {laws : DecimalLaws ops} {env : Env} {wiring : Wiring}
  {calc : InventoryCalculator} {CL : CalculatorLaws calc}.
Local Open Scope Q_scope.

(** Tables neither the stock component nor the outbox owns. *)
Definition strip_tx (d : DB) : DB := set_outbox (strip_stock d) [].

Definition tx_frame (d d' : DB) : Prop :=
  strip_tx d = strip_tx d' /\ exists l, db_movements d' = db_movements d ++ l.

#[export] Instance tx_frame_preorder : PreOrder tx_frame.
Proof.
  split.
  - intros d. split; [done|]. exists []. by rewrite app_nil_r.
  - intros d1 d2 d3 [H1 [l1 H2]] [H3 [l2 H4]]. split; [congruence|].
    exists (l1 ++ l2). by rewrite H4, H2, app_assoc.
Qed.

Lemma stock_tx_frame d d' : stock_frame d d' -> tx_frame d d'.
Proof. intros [H1 H2]. split; [|done]. unfold strip_tx. by rewrite H1. Qed.

Lemma keeps_ValidateMovement P `{!PreOrder P} m : keeps (db_rel P) (ValidateMovement m).
Proof. eapply keeps_weaken; [|apply validate_reads]. by intros d d' ->. Qed.

Lemma keeps_ApplyMovement m : keeps (db_rel tx_frame) (ApplyMovement m).
Proof. eapply keeps_weaken; [apply stock_tx_frame | apply apply_frame]. Qed.

Lemma keeps_prepare P `{!PreOrder P} l r : keeps (db_rel P) (prepare l r).
Proof. unfold prepare. keeps_solve. Qed.

Lemma keeps_AcquireAdvisoryLock P `{!PreOrder P} t p k : keeps (db_rel P) (AcquireAdvisoryLock t p k).
Proof. unfold AcquireAdvisoryLock. keeps_solve. Qed.

Lemma keeps_enqueueOutbox r m s : keeps (db_rel tx_frame) (enqueueOutbox r m s).
Proof.
  unfold enqueueOutbox. keeps_solve. intros d. split; [done|]. exists []. by rewrite app_nil_r.
Qed.

#[local] Hint Resolve keeps_ValidateMovement keeps_ApplyMovement keeps_prepare
  keeps_AcquireAdvisoryLock keeps_enqueueOutbox : keeps.

Lemma keeps_ExecuteInTx r : keeps (db_rel tx_frame) (ExecuteInTx r).
Proof. unfold ExecuteInTx. keeps_solve. Qed.
Lemma keeps_Execute r : keeps (db_rel tx_frame) (Execute r).
Proof. unfold Execute. keeps_solve. Qed.

Definition rq_key (r : RecordMovementRequest) : stock_key :=
  (rq_tenant r, rq_product r, rq_warehouse r).

Lemma prepare_Ok l r w m w' :
  prepare l r w = (Ok m, w') ->
  w_db w' = w_db w /\ (w_tick w <= w_tick w')%nat /\
  Direction_Validate (rq_direction r) = None /\
  uuid_is_nil (rq_tenant r) = false /\ uuid_is_nil (rq_product r) = false /\
  uuid_is_nil (rq_warehouse r) = false /\
  exists q id t, convertToBase (rq_qty r) (rq_conv_factor r) = inr q /\ m = new_movement r id q t.
Proof.
  intros H. pose proof (keeps_run _ _ _ _ _ (keeps_prepare eq l r) H) as [Hd Ht].
  unfold prepare in H. minv H. destruct (Direction_Validate _); minv H.
  split_and!; try done. eauto.
Qed.

(** A recorded movement, up to the event row. *)
Definition recorded (r : RecordMovementRequest) (s : Snapshot) (d d' : DB) : Prop :=
  exists q id t m' d1 rows,
    convertToBase (rq_qty r) (rq_conv_factor r) = inr q /\
    Direction_Validate (rq_direction r) = None /\
    stock_effect (new_movement r id q t) m' s d d1 /\
    d' = set_outbox d1 (db_outbox d1 ++ rows) /\
    length rows = (if has_outbox then 1 else 0)%nat.

Lemma outbox_step r m s w u w' :
  (if has_outbox then on_err (EWrap r) (enqueueOutbox m s.1 s.2) else mret tt : M unit) w = (Ok u, w') ->
  exists rows, w_db w' = set_outbox (w_db w) (db_outbox (w_db w) ++ rows) /\
    length rows = (if has_outbox then 1 else 0)%nat.
Proof.
  destruct has_outbox; intros H; unfold enqueueOutbox in *; minv H; simpl.
  - by eexists.
  - exists []. rewrite app_nil_r. by destruct (w_db w').
Qed.

Lemma ExecuteInTx_Ok r w s w' :
  ExecuteInTx r w = (Ok s, w') -> recorded r s (w_db w) (w_db w').
Proof.
  unfold ExecuteInTx. intros H.
  apply bind_Ok in H as (m & w1 & Hp & H). apply prepare_Ok in Hp as (E1 & _ & Hd & _ & _ & _ & q & id & t & Hq & ->).
  apply bind_Ok in H as (? & w2 & Hl & H). minv Hl.
  pose proof (keeps_run _ _ _ _ _ (keeps_AcquireAdvisoryLock eq _ _ _) Hl) as [E2 _].
  apply bind_Ok in H as (? & w3 & Hv & H).
  pose proof (keeps_run _ _ _ _ _ (validate_reads _) Hv) as [E3 _].
  apply bind_Ok in H as ([m' s'] & w4 & Ha & H). minv Ha.
  apply apply_effect in Ha; [|done].
  apply bind_Ok in H as (? & w5 & Ho & H). apply outbox_step in Ho as (rows & Ho & Hn). minv H.
  exists q, id, t, m', (w_db w4), rows. split_and!; try done. by rewrite <- E1, E2, E3.
Qed.

Lemma Execute_Ok r w s w' :
  Execute r w = (Ok s, w') -> recorded r s (w_db w) (w_db w').
Proof.
  unfold Execute. intros H.
  apply bind_Ok in H as (m & w1 & Hp & H). apply prepare_Ok in Hp as (E1 & _ & Hd & _ & _ & _ & q & id & t & Hq & ->).
  apply WithTx_Ok in H as (w9 & H & -> & _).
  apply bind_Ok in H as (? & w2 & Hl & H). minv Hl.
  pose proof (keeps_run _ _ _ _ _ (keeps_AcquireAdvisoryLock eq _ _ _) Hl) as [E2 _].
  apply bind_Ok in H as (? & w3 & Hv & H).
  pose proof (keeps_run _ _ _ _ _ (validate_reads _) Hv) as [E3 _].
  apply bind_Ok in H as ([m' s'] & w4 & Ha & H). minv Ha.
  apply apply_effect in Ha; [|done].
  apply bind_Ok in H as (? & w5 & Ho & H). apply outbox_step in Ho as (rows & Ho & Hn). minv H.
  exists q, id, t, m', (w_db w4), rows. split_and!; try done. simpl in *. by rewrite <- E1, E2, E3.
Qed.
(** The book after one recorded movement. *)
Lemma recorded_on_hand r s d d' k :
  recorded r s d d' ->
  exists q m', convertToBase (rq_qty r) (rq_conv_factor r) = inr q /\
    mv_key m' = rq_key r /\ mv_direction m' = rq_direction r /\ mv_qty_base m' = q /\
    db_movements d' = db_movements d ++ [stored_movement m'] /\
    val (on_hand d' k) ==
      (if decide (k = rq_key r) then qround 4 (val (on_hand d k) + delta m') else val (on_hand d k)) /\
    (k = rq_key r -> rq_direction r <> DirectionIn -> rq_allow_negative r = false ->
     0 <= val (on_hand d' k)).
Proof.
  intros (q & id & t & m' & d1 & rows & Hq & Hd & [Hs Hrest Hlog (row & Hsn & Hk & Hoh & Huc) Hn Hg] & -> & Hr).
  destruct Hs as (Hid & Hkey & Hdir & Hqty & _).
  exists q, m'. split_and!; try done.
  - unfold on_hand at 1. simpl. rewrite Hsn. destruct (decide (k = rq_key r)) as [->|Hne].
    + change (mv_key (new_movement r id q t)) with (rq_key r) in *.
      rewrite lookup_insert_eq. simpl. rewrite Hoh. unfold num4. rewrite val_round, Hn.
      unfold delta. by rewrite Hdir, Hqty.
    + rewrite lookup_insert_ne by done. done.
  - intros -> Hd' Ha. unfold on_hand. simpl. rewrite Hsn.
    change (mv_key (new_movement r id q t)) with (rq_key r). rewrite lookup_insert_eq.
    simpl. rewrite Hoh. unfold num4. apply val_round_nonneg. by apply Hg.
Qed.

(** What recorded movements leave alone, apart from the tables of others ([strip_tx]): the book of
    every other SKU, and the events there were; an event is added for each of the [n] movements. *)
Record aside (keys : list stock_key) (n : nat) (d d' : DB) : Prop := {
  ak_books : forall k, k ∉ keys -> db_snapshots d' !! k = db_snapshots d !! k;
  ak_events : exists evs, db_outbox d' = db_outbox d ++ evs /\ length evs = (if has_outbox then n else 0)%nat;
}.
Lemma aside_same d d' : db_snapshots d' = db_snapshots d -> db_outbox d' = db_outbox d -> aside [] 0 d d'.
Proof. intros Hs Ho. split; [by rewrite Hs|]. exists []. rewrite app_nil_r. split; [done|]. by destruct has_outbox. Qed.
Lemma aside_trans keys1 n1 keys2 n2 d1 d2 d3 : aside keys1 n1 d1 d2 -> aside keys2 n2 d2 d3 -> aside (keys1 ++ keys2) (n1 + n2) d1 d3.
Proof.
  intros [B1 (e1 & O1 & L1)] [B2 (e2 & O2 & L2)]. split.
  - intros k [H1 H2]%not_elem_of_app. by rewrite B2, B1.
  - exists (e1 ++ e2). rewrite O2, O1, app_assoc, length_app, L1, L2. split; [done|]. by destruct has_outbox.
Qed.
Lemma recorded_aside r s d d' : recorded r s d d' -> aside [rq_key r] 1 d d'.
Proof.
  intros (q & id & t & m' & d1 & rows & _ & _ & [_ Hrest _ (row & Hsn & _) _ _] & -> & Hr). split.
  - intros k Hk%not_elem_of_cons. simpl. rewrite Hsn. apply lookup_insert_ne. intros E. by apply (proj1 Hk).
  - exists rows. simpl. split; [by rewrite (f_equal db_outbox Hrest : db_outbox d = db_outbox d1)|done].
Qed.

End record_laws.
#[export] Hint Resolve keeps_ValidateMovement keeps_ApplyMovement keeps_prepare
  keeps_AcquireAdvisoryLock keeps_enqueueOutbox keeps_ExecuteInTx keeps_Execute : keeps.
