(* ===== verification/StockLedger.v ===== *)
(** The stock ledger: histories of recorded movements.

    [stock_step] is one call of RecordMovementUseCase.Execute, successful or not;
    the theorems follow the book quantity along any number of them, for every
    calculator that keeps its contract. *)
From S2P Require Import Prelude Rounding Decimal SDec Types StockDomain BillDomain Store StockRepo StockCalc StockFIFO StockRecord Concrete.
From stdpp Require Import base tactics strings gmap list relations.
From Stdlib Require Import ZArith QArith Qabs Lqa Lia.

Local Open Scope Q_scope.

Section ledger.
Context {ops : DecimalOps} {laws : DecimalLaws ops} {env : Env} {wiring : Wiring}
  {calc : InventoryCalculator} {CL : CalculatorLaws calc}.

(** a movement that is not recorded leaves the database as it was, whatever
    stopped it: validation, a shortage, the driver, or a panic. *)
Theorem execute_all_or_nothing r w o w' :
  Execute r w = (o, w') -> (forall s, o <> Ok s) -> w_db w' = w_db w.
Proof.
  intros H Ho. unfold Execute, mbind, stm_bind in H.
  destruct (prepare _ _ _) as [p w1] eqn:Hp.
  pose proof (keeps_run _ _ _ _ _ (keeps_prepare eq _ _) Hp) as [E _].
  destruct p as [m|e|x]; simplify_eq; try done.
  apply WithTx_atomic in H as [(s & ? & -> & _)|[H _]]; [by destruct (Ho s)|congruence].
Qed.

(** ** convertToBase *)

Lemma convertToBase_cases qty factor :
  match convertToBase qty factor with
  | inr q => (factor = "" \/ factor = "1") /\ q = qty \/
             exists f, dof_string factor = Some f /\ 0 < val f /\ val q == val qty * val f
  | inl e => (exists f, dof_string factor = Some f /\ val f <= 0 /\ errors_is e ErrInvalidUnitFactor = true)
             \/ dof_string factor = None
  end.
Proof.
  unfold convertToBase.
  destruct (String.eqb_spec factor ""), (String.eqb_spec factor "1"); simpl; [by eauto..|].
  unfold Parse. destruct factor as [|c0 s0]; [done|].
  destruct (dof_string (String c0 s0)) as [f|] eqn:Hf; [|by right].
  destruct (is_zero f || is_negative f) eqn:Hz.
  - left. exists f. split; [done|]. split; [|done].
    apply orb_true_iff in Hz as [?|?]; dec.
  - right. exists f. split; [done|]. split; [|by rewrite val_mul].
    apply orb_false_iff in Hz as [Hz Hn]. dec_tests. destruct (Qlt_le_dec 0 (val f)); [done|]. exfalso. apply Hz. lra.
Qed.

(** the base quantity is the quantity times the factor, unchanged for an empty
    factor or "1"; a factor that is zero or negative is refused with
    ErrInvalidUnitFactor, one that does not parse with the parser's error. *)
Theorem convertToBase_spec qty factor :
  match convertToBase qty factor with
  | inr q => (factor = "" \/ factor = "1") /\ q = qty \/
             exists f, dof_string factor = Some f /\ 0 < val f /\ val q == val qty * val f
  | inl e => (exists f, dof_string factor = Some f /\ val f <= 0 /\ errors_is e ErrInvalidUnitFactor = true)
             \/ dof_string factor = None
  end.
Proof. apply convertToBase_cases. Qed.

Lemma convertToBase_sign qty factor q :
  convertToBase qty factor = inr q -> 0 <= val qty -> 0 <= val q.
Proof.
  intros H Hq. pose proof (convertToBase_cases qty factor) as Hs. rewrite H in Hs.
  destruct Hs as [[_ ->]|(f & _ & Hf & ->)]; [done|]. nra.
Qed.

(** ** Histories *)

Definition stock_step (ok : RecordMovementRequest -> Prop) (w w' : World) : Prop :=
  exists r o, ok r /\ Execute r w = (o, w').

Lemma Execute_cases r w o w' :
  Execute r w = (o, w') ->
  w_db w' = w_db w \/ exists s, o = Ok s /\ recorded r s (w_db w) (w_db w').
Proof.
  intros H. destruct o as [s|e|x].
  - right. exists s. split; [done|]. by apply Execute_Ok.
  - left. unfold Execute, mbind, stm_bind in H.
    destruct (prepare _ _ _) as [p w1] eqn:Hp.
    pose proof (keeps_run _ _ _ _ _ (keeps_prepare eq _ _) Hp) as [E _].
    destruct p as [m|e'|x]; simplify_eq; try done.
    apply WithTx_atomic in H as [(s & ? & ? & _)|[H _]]; [done|congruence].
  - left. unfold Execute, mbind, stm_bind in H.
    destruct (prepare _ _ _) as [p w1] eqn:Hp.
    pose proof (keeps_run _ _ _ _ _ (keeps_prepare eq _ _) Hp) as [E _].
    destruct p as [m|e'|x']; simplify_eq; try done.
    apply WithTx_atomic in H as [(s & ? & ? & _)|[H _]]; [done|congruence].
Qed.

(** Requests that may not oversell and do not disguise an issue as a receipt. *)
Definition calm (r : RecordMovementRequest) : Prop :=
  rq_allow_negative r = false /\ (rq_direction r = DirectionIn -> 0 <= val (rq_qty r)).


(** Requests whose base quantity has the four decimals stock_snapshot keeps. *)
Definition four_decimals (r : RecordMovementRequest) : Prop :=
  forall q, convertToBase (rq_qty r) (rq_conv_factor r) = inr q -> on_scale 4 (val q).

Definition book_is_log (d : DB) : Prop :=
  forall k, on_scale 4 (val (on_hand d k)) /\ val (on_hand d k) == log_sum d k.

Lemma recorded_book r s d d' :
  four_decimals r -> recorded r s d d' -> book_is_log d -> book_is_log d'.
Proof.
  intros Hr H H0 k. destruct (H0 k) as [Hs Hl].
  apply (recorded_on_hand _ _ _ _ k) in H as (q & m' & Hq & Hk & Hdir & Hqty & Hlog & Hv & _).
  apply Hr in Hq. unfold log_sum. rewrite Hlog, select_app, fmap_app, qsum_app.
  fold (log_sum d k). rewrite <- Hl.
  assert (delta (stored_movement m') == delta m') as Hst.
  { unfold delta. simpl. rewrite Hqty. destruct (String.eqb _ _); unfold num6;
      by rewrite val_round_id by (eapply on_scale_weaken; [|exact Hq]; lia). }
  assert (on_scale 4 (delta m')) as Hsd.
  { unfold delta. rewrite Hqty. destruct (String.eqb _ _); [by apply on_scale_opp|done]. }
  unfold select. simpl. unfold moves_at.
  change (mv_key (stored_movement m')) with (mv_key m'). rewrite Hk, Hv.
  destruct (decide (k = rq_key r)) as [->|Hne].
  - rewrite bool_decide_true by done. simpl. rewrite Hst, qround_id by by apply on_scale_plus.
    split; [by apply on_scale_plus|lra].
  - rewrite bool_decide_false by done. simpl. split; [done|lra].
Qed.

(** Without that condition every entry moves the book away from the log by at most half a
    unit of the fourth decimal (the snapshot) and of the sixth (the log). *)
Definition entries (d : DB) (k : stock_key) : nat := length (select (moves_at k) (db_movements d)).
Definition book_near_log (d : DB) : Prop :=
  forall k, Qabs (val (on_hand d k) - log_sum d k) <= inject_Z (Z.of_nat (entries d k)) * (101 # 2000000).

Lemma qround_near n q e : (1 # 2) / pow10 n == e -> Qabs (qround n q - q) <= e.
Proof. intros E. pose proof (qround_bounds n q) as [H1 H2]. rewrite E in *. apply Qabs_Qle_condition. lra. Qed.
Lemma stored_delta_near m : Qabs (delta (stored_movement m) - delta m) <= 1 # 2000000.
Proof.
  assert (H : Qabs (val (num6 (mv_qty_base m)) - val (mv_qty_base m)) <= 1 # 2000000).
  { unfold num6. rewrite val_round. by apply qround_near. }
  apply Qabs_Qle_condition in H. unfold delta. cbn [stored_movement mv_direction mv_qty_base]. destruct (String.eqb _ _); apply Qabs_Qle_condition; lra.
Qed.

Lemma log_grows d d' m k : db_movements d' = db_movements d ++ [m] ->
  log_sum d' k == log_sum d k + (if decide (k = mv_key m) then delta m else 0) /\
  entries d' k = (entries d k + (if decide (k = mv_key m) then 1 else 0))%nat.
Proof.
  intros E. unfold log_sum, entries. rewrite E, select_app, fmap_app, qsum_app, length_app.
  assert (select (moves_at k) [m] = if decide (k = mv_key m) then [m] else []) as ->.
  { unfold select, moves_at. cbn [List.filter]. destruct (decide (k = mv_key m)) as [Ek|Hne].
    - by rewrite bool_decide_true.
    - by rewrite bool_decide_false. }
  destruct (decide _); (split; [|done]); [|done]. rewrite fmap_cons. simpl. ring.
Qed.
Lemma recorded_near r s d d' : recorded r s d d' -> book_near_log d -> book_near_log d'.
Proof.
  intros H H0 k. pose proof (H0 k) as Hn. clear H0.
  destruct (recorded_on_hand _ _ _ _ k H) as (q & m' & _ & Hk & _ & _ & Hlog & Hv & _). clear H.
  destruct (log_grows _ _ _ k Hlog) as [HL ->]. change (mv_key (stored_movement m')) with (mv_key m') in *. rewrite Hk in *.
  apply Qabs_Qle_condition in Hn. apply Qabs_Qle_condition. rewrite Nat2Z.inj_add, inject_Z_plus.
  destruct (decide (k = rq_key r)).
  - pose proof (qround_near 4 (val (on_hand d k) + delta m') (1 # 20000) ltac:(reflexivity)) as A%Qabs_Qle_condition.
    pose proof (stored_delta_near m') as B%Qabs_Qle_condition. change (inject_Z (Z.of_nat 1)) with 1. lra.
  - change (inject_Z (Z.of_nat 0)) with 0. lra.
Qed.

(** C1: along any history of requests whose base quantities have at most the four decimals of
    stock_snapshot.on_hand_qty, the book quantity of every SKU is the sum of its movement log
    (receipts and counts added, issues subtracted).  Along any history whatever it stays within
    0.0000505 of that sum per entry of the log, which is what the two roundings of an entry, of the
    snapshot to four decimals and of the log to six, can come to. *)
Theorem book_equals_movement_log w w' :
  (rtc (stock_step four_decimals) w w' -> book_is_log (w_db w) -> book_is_log (w_db w')) /\
  (rtc (stock_step (fun _ => True)) w w' -> book_near_log (w_db w) -> book_near_log (w_db w')).
Proof.
  split; induction 1 as [|w1 w2 w3 (r & o & Hr & H) _ IH]; try done; intros H0; apply IH;
    apply Execute_cases in H as [->|(s & -> & H)]; try done; [by eapply recorded_book|by eapply recorded_near].
Qed.

(** ** Refusals and progress, on a database that does not fail *)

Definition well_formed (r : RecordMovementRequest) (q : dec) : Prop :=
  uuid_is_nil (rq_tenant r) = false /\ uuid_is_nil (rq_product r) = false /\
  uuid_is_nil (rq_warehouse r) = false /\ Direction_Validate (rq_direction r) = None /\
  convertToBase (rq_qty r) (rq_conv_factor r) = inr q.

Lemma prepare_run l r q w :
  well_formed r q ->
  exists id t w1, prepare l r w = (Ok (new_movement r id q t), w1) /\ w_db w1 = w_db w.
Proof.
  intros (H1 & H2 & H3 & H4 & H5). unfold prepare. rewrite H1, H2, H3, H4. simpl.
  unfold mbind, stm_bind, on_err. simpl. rewrite H5. simpl.
  destruct (time_is_zero _); simpl; eauto.
Qed.

(** an issue of more than the book holds is refused with the SKU, the quantity on
    hand and the base quantity asked for, and changes nothing. *)
Theorem oversell_refused r q w :
  db_reliable -> well_formed r q -> rq_direction r = DirectionOut ->
  rq_allow_negative r = false -> val (on_hand (w_db w) (rq_key r)) < val q ->
  exists w',
    Execute r w = (Err (EInsufficient (mkInsufficientStockError (rq_product r)
                          (on_hand (w_db w) (rq_key r)) q)), w') /\
    w_db w' = w_db w.
Proof.
  intros Hrel Hwf Hd Ha Hlt.
  destruct (prepare_run "record movement" r q w Hwf) as (id & t & w1 & Hp & E).
  unfold Execute. rewrite (bind_run_Ok _ _ _ _ _ Hp). unfold WithTx. rewrite Hrel.
  rewrite (bind_run_Ok _ _ _ tt (bump (bump w1)))
    by (unfold on_err, AcquireAdvisoryLock; by rewrite query_run by apply Hrel).
  rewrite (bind_run_Err _ _ _ (shortage (new_movement r id q t) (on_hand (w_db w) (rq_key r)) q)
             (bump (bump (bump w1)))).
  - rewrite Hrel. eexists. split; [reflexivity|]. done.
  - apply validate_refuses; [apply Hrel|simpl; by rewrite Hd|].
    unfold check_available. simpl. rewrite Hd, Ha, E. simpl.
    change (mv_key (new_movement r id q t)) with (rq_key r).
    by rewrite (proj2 (dgt_true _ _)) by done.
Qed.
End ledger.

(** ** The production calculator makes progress *)
Section progress.
Context {ops : DecimalOps} {laws : DecimalLaws ops} {env : Env} {wiring : Wiring}.

Lemma wac_cost_total m q c :
  Direction_Validate (mv_direction m) = None ->
  mv_direction m <> DirectionAdjust \/ 0 <= val q -> check_available m q = None ->
  exists r, wac_cost m q c = inr r.
Proof.
  intros Hd Hq Hc. destruct (wac_cost m q c) as [e|r] eqn:E; [|by eauto].
  by apply wac_cost_short in E.
Qed.

Lemma wac_cost_checks m q c nq nc m1 now :
  wac_cost m q c = inr (nq, nc, m1) -> movement_checks (stamp m1 now) = movement_checks m.
Proof.
  unfold wac_cost. intros H. repeat case_match; by simplify_eq.
Qed.

Lemma validate_with_run l m w :
  db_reliable -> check_available m (on_hand (w_db w) (mv_key m)) = None ->
  exists w', validate_with l m w = (Ok tt, w') /\ w_db w' = w_db w.
Proof.
  intros Hrel Hc. unfold validate_with, SelectForUpdate.
  destruct (String.eqb _ _); [by eexists|].
  unfold mbind, stm_bind, on_err. rewrite query_run by apply Hrel.
  unfold on_hand, mv_key in Hc. cbn beta iota. rewrite Hc. by eexists.
Qed.

Lemma wac_apply_run m w :
  db_reliable -> Direction_Validate (mv_direction m) = None ->
  mv_direction m <> DirectionAdjust \/ 0 <= val (on_hand (w_db w) (mv_key m)) ->
  check_available m (on_hand (w_db w) (mv_key m)) = None -> movement_checks m = None ->
  exists m' s w', wac_apply m w = (Ok (m', s), w').
Proof.
  intros Hrel Hd Hq Hc Hm.
  destruct (wac_cost_total m _ (book_cost (w_db w) (mv_key m)) Hd Hq Hc) as [[[nq nc] m1] Hw].
  unfold wac_apply, SelectForUpdate, InsertMovement, buildSnapshot, UpsertSnapshot.
  unfold mbind, stm_bind, on_err. rewrite query_run by apply Hrel. cbn beta iota.
  unfold on_hand, book_cost, mv_key in Hw. rewrite Hw. simpl.
  erewrite update_checked_run; [|apply Hrel|by rewrite (wac_cost_checks _ _ _ _ _ _ _ Hw), Hm].
  simpl. erewrite update_checked_run; [|apply Hrel|done]. eauto.
Qed.

(** on a database that does not fail, a well-formed movement with a reference and
    enough stock is recorded by the calculator production uses. *)
Theorem wac_execute_succeeds r q w :
  db_reliable -> well_formed r q ->
  In (rq_reference_type r) reference_types ->
  is_Some (rq_reference_id r) \/ rq_reference_type r = RefInit ->
  (rq_direction r = DirectionIn \/
   rq_direction r = DirectionOut /\ (rq_allow_negative r = true \/ val q <= val (on_hand (w_db w) (rq_key r))) \/
   rq_direction r = DirectionAdjust /\ 0 <= val (on_hand (w_db w) (rq_key r)) /\
     0 <= val (on_hand (w_db w) (rq_key r)) + val q) ->
  exists s w', Execute (calc := WACCalculator) r w = (Ok s, w').
Proof.
  intros Hrel Hwf Hrt Hri Hstock.
  destruct (prepare_run "record movement" r q w Hwf) as (id & t & w1 & Hp & E).
  unfold Execute. rewrite (bind_run_Ok _ _ _ _ _ Hp). unfold WithTx. rewrite Hrel.
  set (m := new_movement r id q t).
  assert (check_available m (on_hand (w_db w) (rq_key r)) = None) as Hc. 
  { unfold check_available. simpl. destruct Hstock as [->|[[-> Hs]|(-> & H0 & H1)]]; simpl; [done| |].
    - destruct Hs as [->|Hs]; [by rewrite andb_false_r|].
      by rewrite (proj2 (dgt_false _ _)) by done.
    - destruct (is_negative q) eqn:Hn; simpl; [|done].
      by rewrite (proj2 (dgt_false _ _)) by dec. }
  rewrite (bind_run_Ok _ _ _ tt (bump (bump w1)))
    by (unfold on_err, AcquireAdvisoryLock; by rewrite query_run by apply Hrel).
  destruct (validate_with_run "wac validate" m (bump (bump w1))) as (w2 & Hv & E2);
    [done|by simpl; rewrite E|].
  simpl. rewrite (bind_run_Ok _ _ _ _ _ Hv).
  assert (Direction_Validate (mv_direction m) = None) as Hdir by apply Hwf.
  destruct (wac_apply_run m w2) as (m' & s & w3 & Ha); try done.
  { rewrite E2. simpl. rewrite E. change (mv_key m) with (rq_key r). simpl.
    destruct Hstock as [Hs|[[Hs _]|(_ & ? & _)]]; [left..|by right]; by rewrite Hs. }
  { rewrite E2. simpl. by rewrite E. }
  { assert (existsb (String.eqb (rq_reference_type r)) reference_types = true) as Hex
      by (apply existsb_exists; exists (rq_reference_type r); split; [done|apply String.eqb_refl]).
    unfold movement_checks. change (mv_reference_type m) with (rq_reference_type r).
    rewrite Hex, Hdir. simpl. destruct (rq_reference_id r) as [x|]; simpl.
    - by rewrite andb_false_r.
    - destruct Hri as [[? ?]| ->]; done. }
  rewrite (bind_run_Ok _ _ _ (m', s) w3) by (unfold on_err; by rewrite Ha). simpl.
  destruct has_outbox; simpl.
  - unfold enqueueOutbox, mbind, stm_bind, on_err. simpl.
    rewrite update_run by apply Hrel. simpl. rewrite Hrel. eauto.
  - rewrite Hrel. eauto.
Qed.
End progress.

(** ** Witnesses: sell 4 of the 10 pieces on the shelf, then try to sell 20 *)
Definition ex_request (dir : Direction) (qty : dec) (factor : string) : RecordMovementRequest :=
  mkRecordMovementRequest ex_tenant ex_p1 ex_wh dir qty uuid_nil factor (D 2 0) false false
    EmptyString RefSale (Some 800%N) 0%Z None EmptyString.
Definition ex_sell4 : RecordMovementRequest := ex_request DirectionOut (D 4 0) EmptyString.
Definition ex_sell20 : RecordMovementRequest := ex_request DirectionOut (D 20 0) EmptyString.

Lemma execute_all_or_nothing_witness :
  w_db (Execute (calc := WACCalculator) ex_sell20 ex_shelf).2 = w_db ex_shelf.
Proof.
  apply (execute_all_or_nothing (calc := WACCalculator) ex_sell20 ex_shelf
           (Execute (calc := WACCalculator) ex_sell20 ex_shelf).1).
  - apply surjective_pairing.
  - apply not_ok_run. vm_compute. reflexivity.
Defined.


(** The shelf was filled by a receipt of 10: the book is the log. *)
Definition ex_logged : World :=
  with_db ex_shelf (set_movements (w_db ex_shelf) [ex_move DirectionIn RefPurchase ex_p1 (D 10 0) (D 2 0)]).

Lemma ex_logged_book : book_is_log (w_db ex_logged).
Proof.
  intros k. unfold log_sum. change (on_hand (w_db ex_logged) k) with (on_hand (w_db ex_shelf) k).
  rewrite ex_shelf_on_hand. simpl. unfold select. simpl. unfold moves_at.
  destruct (decide (k = (ex_tenant, ex_p1, ex_wh))) as [->|Hne].
  - split; [exists 100000%Z|]; compute_goal.
  - rewrite bool_decide_false by (intros <-; by apply Hne). split; [exists 0%Z|]; compute_goal.
Qed.

Lemma book_equals_movement_log_witness :
  book_is_log (w_db (Execute (calc := WACCalculator) ex_sell4 ex_logged).2) /\
  book_near_log (w_db (Execute (calc := WACCalculator) ex_sell4 ex_logged).2).
Proof.
  pose proof (book_equals_movement_log (calc := WACCalculator) ex_logged (Execute (calc := WACCalculator) ex_sell4 ex_logged).2) as [H1 H2].
  split; [apply H1|apply H2].
  - apply rtc_once. exists ex_sell4, (Execute (calc := WACCalculator) ex_sell4 ex_logged).1.
    split; [|apply surjective_pairing]. intros q [= <-]. exists 40000%Z. compute_goal.
  - exact ex_logged_book.
  - apply rtc_once. exists ex_sell4, (Execute (calc := WACCalculator) ex_sell4 ex_logged).1.
    split; [done|apply surjective_pairing].
  - intros k. destruct (ex_logged_book k) as [_ ->]. unfold Qminus. rewrite Qplus_opp_r. simpl.
    apply Qmult_le_0_compat; [|done]. change 0 with (inject_Z 0). rewrite <- Zle_Qle. lia.
Defined.

Lemma oversell_refused_witness :
  exists w', Execute (calc := WACCalculator) ex_sell20 ex_shelf
             = (Err (EInsufficient (mkInsufficientStockError ex_p1 (D 10 0) (D 20 0))), w') /\
             w_db w' = w_db ex_shelf.
Proof.
  apply (oversell_refused (calc := WACCalculator) ex_sell20 (D 20 0) ex_shelf); try reflexivity.
  - by intros n.
  - by split_and!.
Defined.

Lemma wac_execute_succeeds_witness :
  exists s w', Execute (calc := WACCalculator) ex_sell4 ex_shelf = (Ok s, w').
Proof.
  apply (wac_execute_succeeds ex_sell4 (D 4 0) ex_shelf).
  - by intros n.
  - by split_and!.
  - simpl. tauto.
  - left. by eexists.
  - right. left. split; [reflexivity|]. right. compute_goal.
Defined.
