(* ===== verification/StockAdjust.v ===== *)
(** Stock counts (app/stock/adjust.go) and the small read use cases (query.go,
    safety_qty.go).

    A count sheet is validated and sorted, then every difference between the
    counted and the book quantity is recorded in one transaction. *)
From S2P Require Import Prelude Rounding Decimal SDec Types StockDomain BillDomain Store StockRepo StockCalc StockFIFO StockRecord Concrete.
From stdpp Require Import base tactics strings gmap list sorting.
From Stdlib Require Import ZArith QArith Qabs Lqa Lia Sorting.Sorted.

Section adjust.
Context {ops : DecimalOps} {env : Env} {wiring : Wiring} {calc : InventoryCalculator}.

Definition maxAdjustItems : nat := 500.
Definition AdjustCostRequired : string := "cost_required".

Record AdjustItem := mkAdjustItem {
  ai_product : uuid;
  ai_counted : dec;
  ai_unit_cost : dec;
}.

Record AdjustRequest := mkAdjustRequest {
  ar_tenant : uuid;
  ar_warehouse : uuid;
  ar_items : list AdjustItem;
  ar_remark : string;
  ar_created_by : option uuid;
}.

Record AdjustLine := mkAdjustLine {
  al_product : uuid;
  al_before : dec;
  al_counted : dec;
  al_delta : dec;
}.

Record AdjustResult := mkAdjustResult {
  as_id : uuid;
  as_adjusted : Z;
  as_unchanged : Z;
  as_lines : list AdjustLine;
}.

Definition AdjustError (msg : string) : error := EAdjust msg "" [].

(** The loop over the sheet: [seen] is the Go map. *)
Fixpoint check_items (seen : list uuid) (items : list AdjustItem) : option error :=
  match items with
  | [] => None
  | it :: rest =>
      if uuid_is_nil (ai_product it) then Some (AdjustError "盘点单里有商品信息缺失，请刷新页面后重试")
      else if is_negative (ai_counted it) then Some (AdjustError "盘点数量不能为负数")
      else if is_negative (ai_unit_cost it) then Some (AdjustError "进货单价不能为负数")
      else if existsb (N.eqb (ai_product it)) seen
      then Some (AdjustError "同一个商品在盘点单里出现了多次，请合并后再提交")
      else check_items (ai_product it :: seen) rest
  end.

(** items[i].ProductID.String() < items[j].ProductID.String() *)
Definition item_le (a b : AdjustItem) : Prop :=
  String.leb (uuid_string (ai_product a)) (uuid_string (ai_product b)) = true.

#[export] Instance item_le_dec : RelDecision item_le.
Proof. intros a b. unfold item_le. apply bool_eq_dec. Defined.

Definition validateAdjust (req : AdjustRequest) : error + list AdjustItem :=
  if uuid_is_nil (ar_tenant req) then inl (EMsg "stock adjust: tenant_id is required")
  else if uuid_is_nil (ar_warehouse req) then inl (AdjustError "请先选择要盘点的仓库")
  else if Nat.eqb (length (ar_items req)) 0 then inl (AdjustError "请至少填写一个商品的盘点数量")
  else if Nat.ltb maxAdjustItems (length (ar_items req)) then inl (AdjustError "一次最多盘点 500 个商品，请分批提交")
  else match check_items [] (ar_items req) with
       | Some e => inl e
       | None => inr (merge_sort item_le (ar_items req))
       end.

(** What the loop accumulates. *)
Record AdjustAcc := mkAdjustAcc {
  ac_adjusted : Z;
  ac_unchanged : Z;
  ac_lines : list AdjustLine;
  ac_need_cost : list uuid;
}.

(** The price stock counted in is valued at: the keeper's, else the snapshot's, else the
    product's purchase price. *)
Definition adjust_cost (req : AdjustRequest) (it : AdjustItem) (snap : option Snapshot) : M dec :=
  let cost := ai_unit_cost it in
  let cost := if negb (is_positive cost) then match snap with Some s => sn_unit_cost s | None => cost end
              else cost in
  if negb (is_positive cost)
  then on_err (EWrap "stock adjust: fallback cost")
         (FallbackCost (ar_tenant req) (ai_product it) (ar_warehouse req))
  else mret cost.

Definition adjust_movement (req : AdjustRequest) (adjustID : uuid) (it : AdjustItem) (delta cost : dec)
  : RecordMovementRequest :=
  mkRecordMovementRequest (ar_tenant req) (ai_product it) (ar_warehouse req) DirectionAdjust delta
    uuid_nil "" cost false false "" RefAdjust (Some adjustID) time_zero (ar_created_by req)
    (ar_remark req).

(** One counted product. *)
Definition adjust_item (req : AdjustRequest) (adjustID : uuid) (acc : AdjustAcc) (it : AdjustItem) : M AdjustAcc :=
  on_err (EWrap "stock adjust: acquire advisory lock")
    (AcquireAdvisoryLock (ar_tenant req) (ai_product it) (ar_warehouse req));;
  snap ← on_err (EWrap "stock adjust: load snapshot")
           (SelectForUpdate (ar_tenant req) (ai_product it) (ar_warehouse req));
  let before := snap_qty snap in
  let line := mkAdjustLine (ai_product it) before (ai_counted it) (dsub (ai_counted it) before) in
  let lines := ac_lines acc ++ [line] in
  if is_zero (al_delta line)
  then mret (mkAdjustAcc (ac_adjusted acc) (ac_unchanged acc + 1) lines (ac_need_cost acc))
  else
    priced ← (if is_positive (al_delta line) then Some <$> adjust_cost req it snap else mret None);
    let cost := match priced with Some c => if negb (is_positive c) then dzero else c | None => dzero end in
    let missing := match priced with Some c => negb (is_positive c) && is_zero before | None => false end in
    if (missing : bool)
    then mret (mkAdjustAcc (ac_adjusted acc) (ac_unchanged acc) lines (ac_need_cost acc ++ [ai_product it]))
    else
      ExecuteInTx (adjust_movement req adjustID it (al_delta line) cost);;
      mret (mkAdjustAcc (ac_adjusted acc + 1) (ac_unchanged acc) lines (ac_need_cost acc)).

Definition adjust_body (req : AdjustRequest) (items : list AdjustItem) (adjustID : uuid) : M AdjustAcc :=
  own ← on_err (EWrap "stock adjust: check ownership")
          (CheckOwned (ar_tenant req) (ar_warehouse req) (ai_product <$> items));
  guard_err (negb own.1 || negb (Z.eqb own.2 (Z.of_nat (length items))))
    (AdjustError "盘点单里有商品或仓库不存在，请刷新页面后重试");;
  acc ← foldM (adjust_item req adjustID) items (mkAdjustAcc 0 0 [] []);
  guard_err (negb (Nat.eqb (length (ac_need_cost acc)) 0))
    (EAdjust "有商品账面是 0 又没有进价，请填写它们的进货单价后再提交" AdjustCostRequired (ac_need_cost acc));;
  mret acc.

Definition AdjustUseCase_Execute (req : AdjustRequest) : M AdjustResult :=
  items ← of_sum (validateAdjust req);
  adjustID ← uuid_new;
  acc ← WithTx "stock repo" (adjust_body req items adjustID);
  mret (mkAdjustResult adjustID (ac_adjusted acc) (ac_unchanged acc) (ac_lines acc)).

(** ** Reads and the safety quantity *)

Definition GetSnapshotUseCase_Execute (tenant product warehouse : uuid) : M (option Snapshot) :=
  on_err (EWrap "get snapshot") (GetSnapshot tenant product warehouse).

Definition ListSnapshotsUseCase_Execute (tenant product warehouse : uuid) (limit offset : Z) : M (list Snapshot) :=
  on_err (EWrap "list snapshots")
    (ListSnapshots tenant product warehouse (if Z.leb limit 0 then 20 else limit)%Z offset).

Definition ListMovementsUseCase_Execute (tenant product warehouse : uuid) (limit offset : Z) : M (list Movement) :=
  on_err (EWrap "list movements")
    (ListMovements tenant product warehouse (if Z.leb limit 0 then 50 else limit)%Z offset).

(** safety_qty.go; [lookup] is the DefaultWarehouseLookup collaborator. *)
Definition SetSafetyQtyUseCase_Execute (lookup : uuid -> M uuid) (tenant product : uuid) (qty : dec) : M unit :=
  guard_err (uuid_is_nil product) (EWrap "product_id required" (ESentinel ErrInvalidSafetyQty));;
  guard_err (is_negative qty) (EWrap "must be >= 0" (ESentinel ErrInvalidSafetyQty));;
  let ptr := if is_positive qty then Some qty else None in
  whID ← (if is_none ptr then mret uuid_nil
          else on_err (fun _ => ESentinel ErrNoWarehouse) (lookup tenant));
  on_err (EWrap "set safety qty") (SetProductSafetyQty tenant product ptr whID).
End adjust.

Section adjust_laws.
Context {ops : DecimalOps} {laws : DecimalLaws ops} {env : Env} {elaws : EnvLaws env} {wiring : Wiring}
  {calc : InventoryCalculator} {CL : CalculatorLaws calc}.
Local Open Scope Q_scope.

Lemma check_items_spec seen items :
  check_items seen items = None ->
  NoDup (ai_product <$> items) /\
  Forall (fun it => ai_product it <> uuid_nil /\ 0 <= val (ai_counted it) /\ 0 <= val (ai_unit_cost it)
                    /\ ai_product it ∉ seen) items.
Proof.
  revert seen. induction items as [|it items IH]; intros seen H; [split; constructor|].
  simpl in H. unfold uuid_is_nil in H.
  destruct (N.eqb_spec (ai_product it) uuid_nil); [done|].
  destruct (is_negative (ai_counted it)) eqn:H1; [done|].
  destruct (is_negative (ai_unit_cost it)) eqn:H2; [done|].
  destruct (existsb (N.eqb (ai_product it)) seen) eqn:H3; [done|].
  destruct (IH _ H) as [Hn Hf]. rewrite Forall_forall in Hf. csimpl. split.
  - apply NoDup_cons. split; [|done]. intros [x [E Hx]]%list_elem_of_fmap.
    destruct (Hf x Hx) as (_ & _ & _ & Hs). apply Hs. rewrite E. left.
  - apply Forall_cons. split.
    + split_and!; [done|dec|dec|]. intros Hin. apply not_true_iff_false in H3. apply H3.
      apply existsb_exists. exists (ai_product it). split; [by apply list_elem_of_In|apply N.eqb_refl].
    + apply Forall_forall. intros x Hx. destruct (Hf x Hx) as (? & ? & ? & Hs).
      split_and!; try done. intros Hin. apply Hs. by right.
Qed.

(** String order on ids, as Go's [<] compares them. *)
Lemma string_leb_trans a b c :
  String.leb a b = true -> String.leb b c = true -> String.leb a c = true.
Proof.
  unfold String.leb. revert b c. induction a as [|x a IH]; intros [|y b] [|z c]; simpl; try done.
  unfold Ascii.compare. intros H1 H2. specialize (IH b c).
  destruct (N.compare_spec (Ascii.N_of_ascii x) (Ascii.N_of_ascii y)) as [E1|E1|E1],
    (N.compare_spec (Ascii.N_of_ascii y) (Ascii.N_of_ascii z)) as [E2|E2|E2],
    (N.compare_spec (Ascii.N_of_ascii x) (Ascii.N_of_ascii z)) as [E3|E3|E3]; try done; try lia; auto.
Qed.

#[local] Instance item_le_trans : Transitive item_le.
Proof. intros a b c. apply string_leb_trans. Qed.
#[local] Instance item_le_total : Total item_le.
Proof. intros a b. unfold item_le. destruct (String.leb_total (uuid_string (ai_product a)) (uuid_string (ai_product b))); auto. Qed.

(** What a sheet that passes validation satisfied. *)
Lemma validateAdjust_Ok req items :
  validateAdjust req = inr items ->
  items = merge_sort item_le (ar_items req) /\ items ≡ₚ ar_items req /\ NoDup (ai_product <$> items) /\
  Forall (fun it => ai_product it <> uuid_nil /\ 0 <= val (ai_counted it) /\ 0 <= val (ai_unit_cost it)) items /\
  ar_tenant req <> uuid_nil /\ ar_warehouse req <> uuid_nil /\ (1 <= length (ar_items req) <= maxAdjustItems)%nat.
Proof.
  unfold validateAdjust, uuid_is_nil. intros H.
  destruct (N.eqb_spec (ar_tenant req) uuid_nil); [done|].
  destruct (N.eqb_spec (ar_warehouse req) uuid_nil); [done|].
  destruct (Nat.eqb_spec (length (ar_items req)) 0); [done|].
  destruct (Nat.ltb_spec maxAdjustItems (length (ar_items req))); [done|].
  destruct (check_items [] _) eqn:Hc; [done|]. simplify_eq.
  apply check_items_spec in Hc as [Hn Hf].
  assert (merge_sort item_le (ar_items req) ≡ₚ ar_items req) as Hp by apply merge_sort_Permutation.
  split_and!; try done.
  - by rewrite Hp.
  - rewrite Hp. eapply Forall_impl; [exact Hf|]. simpl. tauto.
  - lia.
Qed.

(** a sheet that passes validation is worked through in id order, without losing or
    repeating a product, and names between 1 and 500 products with non-negative numbers. *)
Theorem validateAdjust_spec req items :
  validateAdjust req = inr items ->
  items ≡ₚ ar_items req /\ StronglySorted item_le items /\
  NoDup (ai_product <$> items) /\ (1 <= length items <= maxAdjustItems)%nat /\
  ar_tenant req <> uuid_nil /\ ar_warehouse req <> uuid_nil /\
  Forall (fun it => ai_product it <> uuid_nil /\ 0 <= val (ai_counted it) /\ 0 <= val (ai_unit_cost it)) items.
Proof.
  intros (E & Hp & Hn & Hf & Ht & Hw & Hl)%validateAdjust_Ok. split_and!; try done.
  - rewrite E. apply (StronglySorted_merge_sort item_le).
  - rewrite Hp. lia.
  - rewrite Hp. lia.
Qed.

Definition item_key (req : AdjustRequest) (it : AdjustItem) : stock_key :=
  (ar_tenant req, ai_product it, ar_warehouse req).

Lemma keeps_adjust_cost req it snap : keeps (db_rel eq) (adjust_cost req it snap).
Proof. unfold adjust_cost, FallbackCost. keeps_solve. Qed.

(** The line a product gets, when the book holds [before]. *)
Definition line_for (it : AdjustItem) (before : Q) (l : AdjustLine) : Prop :=
  al_product l = ai_product it /\ al_counted l = ai_counted it /\ val (al_before l) == before /\
  val (al_delta l) == val (ai_counted it) - before.

(** The log row a counted product gets. *)
Record counted_row (req : AdjustRequest) (id : uuid) (it : AdjustItem) (before : Q) (m : Movement) : Prop := {
  co_key : mv_key m = item_key req it;
  co_direction : mv_direction m = DirectionAdjust;
  co_qty : val (mv_qty_base m) == qround 6 (val (ai_counted it) - before);
  co_reference : mv_reference_type m = RefAdjust /\ mv_reference_id m = Some id;
  co_by : mv_created_by m = ar_created_by req;
  co_note : mv_note m = ar_remark req;
}.
(** The products whose count differs from the book. *)
Definition differ (req : AdjustRequest) (d : DB) (items : list AdjustItem) : list AdjustItem :=
  select (fun it => negb (deqb (ai_counted it) (on_hand d (item_key req it)))) items.
(** What a count writes: a row of the log for each product that differs, in the order of the sheet,
    with its event, and the books of these products. *)
Definition counted (req : AdjustRequest) (id : uuid) (items : list AdjustItem) (d d' : DB) : Prop :=
  strip_tx d' = strip_tx d /\ aside (item_key req <$> items) (length items) d d' /\
  exists rows, db_movements d' = db_movements d ++ rows /\
    Forall2 (fun it m => counted_row req id it (val (on_hand d (item_key req it))) m) items rows.

Lemma adjust_item_writes req id acc it w acc' w' :
  adjust_item req id acc it w = (Ok acc', w') ->
  (ac_need_cost acc' = ac_need_cost acc /\ counted req id (differ req (w_db w) [it]) (w_db w) (w_db w') /\
   ac_adjusted acc' = (ac_adjusted acc + Z.of_nat (length (differ req (w_db w) [it])))%Z) \/
  ac_need_cost acc' = ac_need_cost acc ++ [ai_product it].
Proof.
  unfold adjust_item, AcquireAdvisoryLock, SelectForUpdate. intros H. minv H. wsimpl.
  change (snap_qty (db_snapshots (w_db w) !! (ar_tenant req, ai_product it, ar_warehouse req)))
    with (on_hand (w_db w) (item_key req it)) in *.
  unfold differ, select. cbn [List.filter]. set (before := on_hand (w_db w) (item_key req it)) in *.
  simpl in H. destruct (is_zero (dsub (ai_counted it) before)) eqn:Hz.
  - minv H. rewrite (proj2 (deqb_true _ _)) by dec. simpl. left. split_and!; [done| |lia].
    split; [done|]. split; [by apply aside_same|]. exists []. rewrite app_nil_r. by split.
  - apply bind_Ok in H as (priced & w1 & Hp & H).
    assert (w_db w1 = w_db w) as E.
    { destruct (is_positive _); [|by minv Hp].
      apply fmap_Ok in Hp as (c & Hp & ->). symmetry. exact (proj1 (keeps_run _ _ _ _ _ (keeps_adjust_cost _ _ _) Hp)). }
    cbn zeta in H.
    destruct (match priced with Some c => negb (is_positive c) && is_zero before | None => false end); [minv H; by right|].
    apply bind_Ok in H as (s & w2 & Hx & H). minv H. left. apply ExecuteInTx_Ok in Hx. rewrite E in Hx.
    destruct (deqb (ai_counted it) before) eqn:Hd; [exfalso; dec_tests; apply Hz; rewrite val_sub; lra|].
    pose proof (recorded_aside _ _ _ _ Hx) as HA. destruct Hx as (q & i & t & m' & d1 & rows & [= <-] & _ & [Hs Hrest Hlog _ _ _] & Ed & _).
    simpl. split_and!; [done| |lia]. split; [rewrite Ed; unfold strip_tx; simpl; by rewrite Hrest|]. split; [done|].
    exists [stored_movement m']. split; [rewrite Ed; exact Hlog|]. constructor; [|done].
    destruct Hs as (_ & Hk & Hdir & Hq & Hrt & Hri & Hby & Hno). simpl in *.
    split; simpl; try done. unfold num6. by rewrite val_round, Hq, val_sub.
Qed.

Lemma differ_same req d d' items :
  (forall it, it ∈ items -> val (on_hand d' (item_key req it)) == val (on_hand d (item_key req it))) -> differ req d' items = differ req d items.
Proof.
  intros H. unfold differ, select. apply List.filter_ext_in. intros it Hit%list_elem_of_In. specialize (H it Hit). f_equal.
  apply eq_true_iff_eq. rewrite !deqb_true. by rewrite H.
Qed.
Lemma counted_trans req id l1 l2 d1 d2 d3 :
  (forall it, it ∈ l2 -> val (on_hand d2 (item_key req it)) == val (on_hand d1 (item_key req it))) ->
  counted req id l1 d1 d2 -> counted req id l2 d2 d3 -> counted req id (l1 ++ l2) d1 d3.
Proof.
  intros Hs (S1 & A1 & r1 & M1 & F1) (S2 & A2 & r2 & M2 & F2). split; [by rewrite S2, S1|]. split.
  - rewrite fmap_app, length_app. by eapply aside_trans.
  - exists (r1 ++ r2). split; [by rewrite M2, M1, app_assoc|]. apply Forall2_app; [done|].
    eapply Forall2_impl_in; [exact F2|]. intros it m Hit [? ? Hq ? ? ?]. split; try done. by rewrite Hq, (Hs it Hit).
Qed.

Lemma adjust_item_Ok req id acc it w acc' w' :
  adjust_item req id acc it w = (Ok acc', w') ->
  (forall k, k <> item_key req it -> val (on_hand (w_db w') k) == val (on_hand (w_db w) k)) /\
  (exists l, ac_lines acc' = ac_lines acc ++ [l] /\ line_for it (val (on_hand (w_db w) (item_key req it))) l) /\
  ((ac_adjusted acc' + ac_unchanged acc' = ac_adjusted acc + ac_unchanged acc + 1)%Z /\
   ac_need_cost acc' = ac_need_cost acc /\
   (on_scale 4 (val (ai_counted it)) ->
    val (on_hand (w_db w') (item_key req it)) == val (ai_counted it)) \/
   ac_need_cost acc' = ac_need_cost acc ++ [ai_product it]).
Proof.
  unfold adjust_item, AcquireAdvisoryLock, SelectForUpdate. intros H. minv H. wsimpl.
  change (snap_qty (db_snapshots (w_db w) !! (ar_tenant req, ai_product it, ar_warehouse req)))
    with (on_hand (w_db w) (item_key req it)) in *.
  set (before := on_hand (w_db w) (item_key req it)) in *.
  assert (forall l, l = mkAdjustLine (ai_product it) before (ai_counted it) (dsub (ai_counted it) before) ->
    line_for it (val before) l) as Hl by (intros l ->; split_and!; simpl; try done; dec).
  simpl in H. destruct (is_zero (dsub (ai_counted it) before)) eqn:Hz.
  - minv H. simpl. split_and!; [done|by eauto|]. left. split_and!; [lia|done|]. intros _. fold before. dec.
  - apply bind_Ok in H as (priced & w1 & Hp & H).
    assert (w_db w1 = w_db w) as E.
    { destruct (is_positive _); [|by minv Hp].
      apply fmap_Ok in Hp as (c & Hp & ->). symmetry. exact (proj1 (keeps_run _ _ _ _ _ (keeps_adjust_cost _ _ _) Hp)). }
    cbn zeta in H.
    destruct (match priced with Some c => negb (is_positive c) && is_zero before | None => false end).
    + minv H. simpl. rewrite E. split_and!; [done|by eauto|by right].
    + apply bind_Ok in H as (s & w2 & Hx & H). minv H. apply ExecuteInTx_Ok in Hx.
      simpl. rewrite E in Hx. split_and!; [|by eauto|left; split_and!; [lia|done|]].
      * intros k Hk. apply (recorded_on_hand _ _ _ _ k) in Hx as (q & m' & _ & _ & _ & _ & _ & Hv & _).
        by rewrite decide_False in Hv.
      * intros Hs. apply (recorded_on_hand _ _ _ _ (item_key req it)) in Hx as (q & m' & Hq & _ & Hd & Hqm & _ & Hv & _).
        rewrite decide_True in Hv by done. rewrite Hv. simpl in Hq. injection Hq as <-.
        unfold delta. rewrite Hd, Hqm. simpl. fold before. rewrite val_sub.
        assert (val before + (val (ai_counted it) - val before) == val (ai_counted it)) as -> by ring.
        by apply qround_id.
Qed.

Lemma adjust_items_Ok req id items acc w acc' w' :
  NoDup (ai_product <$> items) ->
  foldM (adjust_item req id) items acc w = (Ok acc', w') ->
  (forall k, (forall it, it ∈ items -> item_key req it <> k) ->
     val (on_hand (w_db w') k) == val (on_hand (w_db w) k)) /\
  (exists ls, ac_lines acc' = ac_lines acc ++ ls /\
     Forall2 (fun it l => line_for it (val (on_hand (w_db w) (item_key req it))) l) items ls) /\
  (exists ps, ac_need_cost acc' = ac_need_cost acc ++ ps /\
     (ps = [] ->
      (ac_adjusted acc' + ac_unchanged acc' = ac_adjusted acc + ac_unchanged acc + Z.of_nat (length items))%Z /\
      forall it, it ∈ items -> on_scale 4 (val (ai_counted it)) ->
        val (on_hand (w_db w') (item_key req it)) == val (ai_counted it))).
Proof.
  revert acc w. induction items as [|it items IH]; intros acc w Hn H; cbn [foldM] in H.
  { minv H. split_and!; [done| |]; exists []; rewrite app_nil_r; [by split|].
    split; [done|]. intros _. split; [simpl; lia|]. by intros it ?%elem_of_nil. }
  apply bind_Ok in H as (a1 & w1 & H1 & H). csimpl in Hn.
  apply NoDup_cons in Hn as [Hit Hn].
  assert (forall x, x ∈ items -> item_key req x <> item_key req it) as Hk.
  { intros x Hx [= E]. apply Hit. rewrite <- E. by apply list_elem_of_fmap_2. }
  apply adjust_item_Ok in H1 as (F1 & (l & L1 & Hl) & D1).
  apply IH in H as (F2 & (ls & L2 & Hls) & (ps & P2 & D2)); [|done].
  split_and!.
  - intros k Hne. rewrite F2 by (intros x Hx; apply Hne; by right).
    apply F1. apply not_eq_sym, Hne. by left.
  - exists (l :: ls). split; [by rewrite L2, L1, <- app_assoc|]. constructor; [done|].
    eapply Forall2_impl_in; [exact Hls|]. intros x y Hx (? & ? & Hb & Hd).
    specialize (F1 (item_key req x) (Hk x Hx)). split_and!; try done; lra.
  - destruct D1 as [(S1 & E1 & V1)|E1]; [exists ps|exists (ai_product it :: ps)].
    + split; [by rewrite P2, E1|]. intros Hps. destruct (D2 Hps) as [S2 V2].
      split; [simpl length; lia|]. intros x Hx Hs. apply elem_of_cons in Hx as [->|Hx]; [|by apply V2].
      rewrite F2 by done. by apply V1.
    + split; [by rewrite P2, E1, <- app_assoc|done].
Qed.

Lemma adjust_items_write req id items acc w acc' w' :
  NoDup (ai_product <$> items) ->
  foldM (adjust_item req id) items acc w = (Ok acc', w') -> ac_need_cost acc' = ac_need_cost acc ->
  counted req id (differ req (w_db w) items) (w_db w) (w_db w') /\
  ac_adjusted acc' = (ac_adjusted acc + Z.of_nat (length (differ req (w_db w) items)))%Z.
Proof.
  revert acc w. induction items as [|it items IH]; intros acc w Hn H Hc; cbn [foldM] in H.
  { minv H. split; [|simpl; lia]. split; [done|]. split; [by apply aside_same|]. exists []. rewrite app_nil_r. by split. }
  apply bind_Ok in H as (a1 & w1 & H1 & H). csimpl in Hn. apply NoDup_cons in Hn as [Hit Hn].
  pose proof (adjust_item_Ok _ _ _ _ _ _ _ H1) as (F1 & _ & _). apply adjust_item_writes in H1.
  pose proof (adjust_items_Ok _ _ _ _ _ _ _ Hn H) as (_ & _ & ps & Eps & _).
  assert (Hsame : forall x, x ∈ items -> val (on_hand (w_db w1) (item_key req x)) == val (on_hand (w_db w) (item_key req x))).
  { intros x Hx. apply F1. intros [= E]. apply Hit. rewrite <- E. by apply list_elem_of_fmap_2. }
  destruct H1 as [(E1 & C1 & N1)|E1].
  2:{ exfalso. rewrite Eps, E1, <- app_assoc in Hc. apply (f_equal length) in Hc. rewrite length_app in Hc. simpl in Hc. lia. }
  destruct (IH _ _ Hn H) as [C2 N2]; [by rewrite Hc, E1|]. rewrite (differ_same _ _ _ _ Hsame) in C2, N2.
  assert (differ req (w_db w) (it :: items) = differ req (w_db w) [it] ++ differ req (w_db w) items) as ->.
  { unfold differ. change (it :: items) with ([it] ++ items). by rewrite select_app. }
  split; [|rewrite N2, N1, length_app; lia]. eapply counted_trans; [|exact C1|exact C2].
  intros x [_ Hx]%elem_of_select. by apply Hsame.
Qed.

(** C9: a stock count that succeeds leaves every counted product at the counted quantity, and reports
    for each product, in id order, what the book said before.  All it writes is, in id order, one
    adjustment in the log for each product whose count differs from the book, by the difference and
    under the id of the count, its event, and the stock rows of these products: the stock row of any
    other product or warehouse stays as it is, cost included, and so does every other table (the
    cost layers, which belong to the calculator, apart). *)
Theorem adjust_sets_book req w r w' :
  AdjustUseCase_Execute req w = (Ok r, w') ->
  (forall it, it ∈ ar_items req -> on_scale 4 (val (ai_counted it)) ->
     val (on_hand (w_db w') (item_key req it)) == val (ai_counted it)) /\
  (forall k, (forall it, it ∈ ar_items req -> item_key req it <> k) ->
     val (on_hand (w_db w') k) == val (on_hand (w_db w) k)) /\
  (as_adjusted r + as_unchanged r = Z.of_nat (length (ar_items req)))%Z /\
  exists items, items ≡ₚ ar_items req /\ StronglySorted item_le items /\
    Forall2 (fun it l => line_for it (val (on_hand (w_db w) (item_key req it))) l) items (as_lines r) /\
    as_adjusted r = Z.of_nat (length (differ req (w_db w) items)) /\
    counted req (as_id r) (differ req (w_db w) items) (w_db w) (w_db w').
Proof.
  unfold AdjustUseCase_Execute. intros H.
  apply bind_Ok in H as (items & w1 & Hv & H). minv Hv.
  apply validateAdjust_Ok in Hv as (Hsort & Hp & Hn & _).
  assert (StronglySorted item_le items) as HS by (rewrite Hsort; apply (StronglySorted_merge_sort item_le)). clear Hsort.
  apply bind_Ok in H as (id & w2 & Hu & H). minv Hu.
  apply bind_Ok in H as (acc & w3 & Hx & H). minv H.
  apply WithTx_Ok in Hx as (w4 & Hx & -> & _). unfold adjust_body, CheckOwned in Hx.
  apply bind_Ok in Hx as ([ok n] & w5 & Ho & Hx). minv Ho.
  apply bind_Ok in Hx as (? & w6 & Hg & Hx). minv Hg.
  apply bind_Ok in Hx as (acc' & w7 & Hx & Ht). minv Ht.
  pose proof (adjust_items_write _ _ _ _ _ _ _ Hn Hx) as HW.
  apply adjust_items_Ok in Hx as (F & (ls & L & Hls) & (ps & P & D)); [|done]. simpl in *.
  rewrite P in Hm, HW. destruct ps as [|]; [|done]. destruct (D eq_refl) as [S V]. split_and!.
  - intros it Hit. apply V. by rewrite Hp.
  - intros k Hk. apply F. intros it Hit. apply Hk. by rewrite <- Hp.
  - rewrite S, Hp. lia.
  - destruct (HW eq_refl) as [HC HN]. exists items. rewrite L. by split_and!.
Qed.

(** a stock count that fails, for whatever reason, changes nothing. *)
Theorem adjust_all_or_nothing req w r w' :
  AdjustUseCase_Execute req w = (r, w') -> (forall a, r <> Ok a) -> w_db w' = w_db w.
Proof.
  unfold AdjustUseCase_Execute. unfold mbind, stm_bind, of_sum.
  destruct (validateAdjust req) as [e|items]; [by intros [= <- <-]|]. simpl. intros H Hr.
  destruct (WithTx _ _ (bump w)) as [x w1] eqn:E. apply WithTx_atomic in E as [(a & w2 & -> & _)|[E Hx]].
  - exfalso. apply ret_run in H as [<- _]. by eapply Hr.
  - destruct x; [by destruct (Hx a)|by simplify_eq..].
Qed.
End adjust_laws.

(** ** Witness: 7 pieces counted where the book says 10 *)
Definition ex_count : AdjustRequest :=
  mkAdjustRequest ex_tenant ex_wh [mkAdjustItem ex_p2 (D 3 0) (D 5 0); mkAdjustItem ex_p1 (D 7 0) dzero]
    EmptyString None.

Lemma validateAdjust_spec_witness :
  exists items, validateAdjust ex_count = inr items /\ StronglySorted item_le items.
Proof.
  exists [mkAdjustItem ex_p1 (D 7 0) dzero; mkAdjustItem ex_p2 (D 3 0) (D 5 0)].
  assert (validateAdjust ex_count = inr [mkAdjustItem ex_p1 (D 7 0) dzero; mkAdjustItem ex_p2 (D 3 0) (D 5 0)])
    as H by (vm_compute; reflexivity).
  split; [exact H|]. apply (validateAdjust_spec ex_count _ H).
Defined.

Lemma adjust_sets_book_witness :
  exists r w', AdjustUseCase_Execute (calc := WACCalculator) ex_count ex_shelf = (Ok r, w') /\
    (val (on_hand (w_db w') (ex_tenant, ex_p1, ex_wh)) == 7)%Q.
Proof.
  run_ok (AdjustUseCase_Execute (calc := WACCalculator) ex_count ex_shelf) as r w' H.
  exists r, w'. split; [exact H|].
  destruct (adjust_sets_book (calc := WACCalculator) ex_count ex_shelf r w' H) as [Hc _].
  apply (Qeq_trans _ (val (D 7 0))); [|compute_goal].
  apply (Hc (mkAdjustItem ex_p1 (D 7 0) dzero)).
  - right. left.
  - exists 70000%Z. compute_goal.
Defined.

Lemma adjust_all_or_nothing_witness :
  let bad := mkAdjustRequest ex_tenant ex_wh [mkAdjustItem ex_p1 (D 7 0) dzero; mkAdjustItem ex_p2 (D 3 0) dzero]
               EmptyString None in
  w_db (AdjustUseCase_Execute (calc := WACCalculator) bad ex_shelf).2 = w_db ex_shelf.
Proof.
  intros bad. apply (adjust_all_or_nothing (calc := WACCalculator) bad ex_shelf
    (AdjustUseCase_Execute (calc := WACCalculator) bad ex_shelf).1).
  - apply surjective_pairing.
  - apply not_ok_run. vm_compute. reflexivity.
Defined.
