(* ===== verification/BillRepo.v ===== *)
(** adapter/repo/bill: the tables behind bills (repo.go, return_cost.go,
    return_link.go, purchase_return.go), adapter/repo/payment and the unit factors of
    adapter/repo/unit.

    One definition per repository method, under the Go names.  Reads that go through
    [dbscope.From] run on the connection the request pinned, which is the one the
    transaction is open on, so they see its uncommitted rows. *)
From S2P Require Import Prelude GoStrings Rounding Decimal Types StockDomain BillDomain GoTime Store StockRepo.
From stdpp Require Import base tactics strings gmap list.
From Stdlib Require Import ZArith.

Section go_map.
Context {ops : DecimalOps}.

(** Go maps from ids to decimals: a missing key reads as the zero decimal. *)
Definition mget {K} `{Countable K} (m : gmap K dec) (k : K) : dec :=
  match m !! k with Some q => q | None => dzero end.

(** SUM(q) ... GROUP BY k *)
Definition group_sum {K} `{Countable K} (rows : list (K * dec)) : gmap K dec :=
  fold_left (fun m kq => <[kq.1 := dadd (mget m kq.1) kq.2]> m) rows ∅.
End go_map.

Section bill_repo.
Context {ops : DecimalOps} {env : Env}.

(** ** Rows *)

(** WHERE id = .. AND tenant_id = .. AND deleted_at IS NULL *)
Definition live_row (tenant id : uuid) (d : DB) : option HeadRow :=
  match db_heads d !! id with
  | Some r => if N.eqb (bh_tenant (hr_head r)) tenant && negb (hr_deleted r) then Some r else None
  | None => None
  end.

Definition put_head (id : uuid) (r : HeadRow) (d : DB) : DB :=
  set_heads d (<[id := r]> (db_heads d)).

(** UPDATE bill_head SET .. on the live row; the number of rows it found. *)
Definition update_row (tenant id : uuid) (f : BillHead -> BillHead) (d : DB) : Z * DB :=
  match live_row tenant id d with
  | Some r => (1%Z, put_head id (mkHeadRow (f (hr_head r)) (hr_link r) (hr_deleted r)) d)
  | None => (0%Z, d)
  end.

(** CHECK bill_head_paid_le_total *)
Definition head_checks (h : BillHead) : option error :=
  if dgt (bh_paid h) (bh_total h) then Some (EConstraint "bill_head_paid_le_total") else None.

Definition update_row_checked (tenant id : uuid) (f : BillHead -> BillHead) (d : DB) : error + DB :=
  match live_row tenant id d with
  | Some r =>
      match head_checks (f (hr_head r)) with
      | Some e => inl e
      | None => inr (put_head id (mkHeadRow (f (hr_head r)) (hr_link r) (hr_deleted r)) d)
      end
  | None => inr d
  end.

(** The row INSERT INTO bill_head stores: paid_amount and revision keep their defaults. *)
Definition stored_head (h : BillHead) : BillHead :=
  let currency := if String.eqb (bh_currency h) "" then "CNY" else bh_currency h in
  let rate := if is_zero (bh_rate h) || is_negative (bh_rate h) then dint 1 else bh_rate h in
  let amountLocal := if is_zero (bh_amount_local h) then bh_total h else bh_amount_local h in
  with_stored h (num4 (bh_subtotal h)) (num4 (bh_shipping_fee h)) (num4 (bh_tax h))
    (num4 (bh_total h)) dzero currency (num8 rate) (num4 amountLocal) 0
    (if String.eqb (bh_source h) "" then "web" else bh_source h).

Definition stored_item (it : BillItem) : BillItem :=
  mkBillItem (bi_id it) (bi_tenant it) (bi_head it) (bi_product it) (bi_unit it) (bi_unit_name it)
    (bi_line_no it) (num4 (bi_qty it)) (num6 (bi_unit_price it)) (num4 (bi_line_amount it)) (bi_remark it).

(** The keys of bill_head, in the order their violation is reported. *)
Definition head_keys (h : BillHead) (d : DB) : option error :=
  let rows := snd <$> map_to_list (db_heads d) in
  if is_none (db_heads d !! bh_id h) then
    if existsb (fun r => N.eqb (bh_tenant (hr_head r)) (bh_tenant h)
                         && String.eqb (bh_bill_no (hr_head r)) (bh_bill_no h)
                         && negb (hr_deleted r)) rows
    then Some (EConstraint "idx_bill_head_no")
    else if negb (String.eqb (bh_client_ref h) "")
            && existsb (fun r => N.eqb (bh_tenant (hr_head r)) (bh_tenant h)
                                 && String.eqb (bh_client_ref (hr_head r)) (bh_client_ref h)) rows
    then Some (ESentinel ErrDuplicateClientRef)
    else None
  else Some (EConstraint "bill_head_pkey").

(** ** bill_no, bill_head, bill_item *)

Definition AcquireBillAdvisoryLock (tenant bill : uuid) : M unit :=
  query "bill repo: advisory lock" (fun _ => tt).

Definition next_val (tenant : uuid) (seqPrefix : string) (d : DB) : Z :=
  match db_sequence d !! (tenant, seqPrefix) with Some n => (n + 1)%Z | None => 1%Z end.

Definition NextBillNo (tenant : uuid) (prefix : string) : M string :=
  now ← time_now;
  let seqPrefix := (prefix ++ "-" ++ BillNoDay now)%string in
  _ ← uuid_new;
  seq ← statement "bill repo: next bill no" (fun d =>
    let n := next_val tenant seqPrefix d in
    inr (n, set_sequence d (<[(tenant, seqPrefix) := n]> (db_sequence d))));
  mret (seqPrefix ++ "-" ++ fmt_d seq 4)%string.

Definition insertItems (items : list BillItem) : M unit :=
  mapM_ (fun it => update_checked "bill repo: create item" (fun d =>
    if existsb (fun r => N.eqb (bi_id (ir_item r)) (bi_id it)) (db_items d)
    then inl (EConstraint "bill_item_pkey")
    else inr (set_items d (db_items d ++ [mkItemRow (stored_item it) None None false])))) items.

Definition CreateBill (head : BillHead) (items : list BillItem) : M unit :=
  update_checked "bill repo: create head" (fun d =>
    match head_checks (stored_head head) with
    | Some e => inl e
    | None =>
        match head_keys head d with
        | Some e => inl e
        | None => inr (put_head (bh_id head) (mkHeadRow (stored_head head) None false) d)
        end
    end);;
  insertItems items.

Definition scan_head (tenant id : uuid) : M BillHead :=
  r ← query "bill repo: scan head" (live_row tenant id);
  match r with
  | Some r => mret (as_scanned (hr_head r))
  | None => throw (ESentinel ErrBillNotFound)
  end.

Definition GetBillForUpdate (tenant id : uuid) : M BillHead := scan_head tenant id.

Definition GetBill (tenant id : uuid) : M BillHead :=
  h ← scan_head tenant id;
  partner ← match bh_partner h with
            | Some p => query "bill repo: get partner name" (fun d =>
                default "" (head (pt_name <$> select (fun r => N.eqb (pt_id r) p && N.eqb (pt_tenant r) tenant)
                                     (db_partners d))))
            | None => mret ""
            end;
  warehouse ← match bh_warehouse h with
              | Some k => query "bill repo: get warehouse name" (fun d =>
                  default "" (head (wh_name <$> select (fun r => N.eqb (wh_id r) k && N.eqb (wh_tenant r) tenant)
                                       (db_warehouses d))))
              | None => mret ""
              end;
  mret (with_names h partner warehouse).

Definition ProductExists (tenant product : uuid) : M bool :=
  query "bill repo product exists" (fun d =>
    existsb (fun r => N.eqb (pd_id r) product && N.eqb (pd_tenant r) tenant && negb (pd_deleted r)) (db_products d)).

Definition WarehouseExists (tenant warehouse : uuid) : M bool :=
  query "bill repo warehouse exists" (fun d =>
    existsb (fun r => N.eqb (wh_id r) warehouse && N.eqb (wh_tenant r) tenant && negb (wh_deleted r)) (db_warehouses d)).

Definition PartnerExists (tenant partner : uuid) : M bool :=
  query "bill repo partner exists" (fun d =>
    existsb (fun r => N.eqb (pt_id r) partner && N.eqb (pt_tenant r) tenant && negb (pt_deleted r)) (db_partners d)).

(** The two rows ORDER BY is_default DESC, created_at ASC LIMIT 2 returns. *)
Definition warehouse_candidates (tenant : uuid) (d : DB) : list WarehouseRow :=
  let rows := select (fun r => N.eqb (wh_tenant r) tenant && negb (wh_deleted r) && wh_enabled r) (db_warehouses d) in
  firstn 2 (sql_order wh_created_at (select wh_default rows)
            ++ sql_order wh_created_at (select (fun r => negb (wh_default r)) rows)).

Definition pick_warehouse (rows : list WarehouseRow) : option uuid :=
  match rows with
  | [] => None
  | r :: rest => if negb (wh_default r) && negb (Nat.eqb (length rest) 0) then None else Some (wh_id r)
  end.

Definition DefaultWarehouseID (tenant : uuid) : M (option uuid) :=
  query "bill repo default warehouse" (fun d => pick_warehouse (warehouse_candidates tenant d)).

Definition SetBillWarehouse (tenant bill warehouse : uuid) : M unit :=
  now ← time_now;
  n ← statement "bill repo set warehouse" (fun d =>
        inr (update_row tenant bill (fun h => with_warehouse h (Some warehouse) now) d));
  guard_err (Z.eqb n 0) (ESentinel ErrBillNotFound).

Definition GetBillItems (tenant bill : uuid) : M (list BillItem) :=
  query "bill repo: get items" (fun d =>
    sql_order bi_line_no (ir_item <$> select (fun r => N.eqb (bi_head (ir_item r)) bill
                                                   && N.eqb (bi_tenant (ir_item r)) tenant) (db_items d))).

(** The optional SET clauses of UpdateBillStatus. *)
Record StatusMeta := mkStatusMeta {
  sm_approved : option (time * uuid);
  sm_revision : option Z;
}.

Definition status_set (status : BillStatus) (meta : StatusMeta) (now : time) (h : BillHead) : BillHead :=
  let h := with_status h status now in
  let h := match sm_approved meta with
           | Some (at_, by_) => with_approval h (Some at_) (Some by_) (bh_revision h)
           | None => h
           end in
  match sm_revision meta with
  | Some rev => with_approval h (bh_approved_at h) (bh_approved_by h) rev
  | None => h
  end.

Definition no_meta : StatusMeta := mkStatusMeta None None.
Definition approval_meta (at_ : time) (by_ : uuid) : StatusMeta := mkStatusMeta (Some (at_, by_)) None.
Definition revision_meta (rev : Z) : StatusMeta := mkStatusMeta None (Some rev).

Definition UpdateBillStatus (tenant bill : uuid) (status : BillStatus) (meta : StatusMeta) : M unit :=
  now ← time_now;
  update "bill repo: update status" (fun d => (update_row tenant bill (status_set status meta now) d).2).

Definition UpdateBill (head : BillHead) (items : list BillItem) : M unit :=
  let amountLocal := if is_zero (bh_amount_local head) then bh_total head else bh_amount_local head in
  update_checked "bill repo: update head" (update_row_checked (bh_tenant head) (bh_id head) (fun h =>
    with_draft h (bh_partner head) (bh_warehouse head) (bh_date head) (num4 (bh_subtotal head))
      (num4 (bh_shipping_fee head)) (num4 (bh_tax head)) (num4 (bh_total head)) (num4 amountLocal)
      (bh_remark head) (bh_updated_at head)));;
  update "bill repo: delete items on update" (fun d =>
    set_items d (select (fun r => negb (N.eqb (bi_head (ir_item r)) (bh_id head)
                                        && N.eqb (bi_tenant (ir_item r)) (bh_tenant head))) (db_items d)));;
  insertItems items.

Definition UpdatePaidAmount (tenant bill : uuid) (paid : dec) : M unit :=
  now ← time_now;
  update_checked "bill repo: update paid_amount"
    (update_row_checked tenant bill (fun h => with_paid h (num4 paid) now)).

Definition with_purchase_price (r : ItemRow) (price : dec) : ItemRow :=
  mkItemRow (ir_item r) (ir_link r) (Some (num6 price)) (ir_deleted r).

Definition UpdateItemPurchasePrice (tenant item : uuid) (price : dec) : M unit :=
  update "bill repo: update item purchase_price" (fun d =>
    set_items d ((fun r => if N.eqb (bi_id (ir_item r)) item && N.eqb (bi_tenant (ir_item r)) tenant
                              && negb (ir_deleted r)
                           then with_purchase_price r price else r) <$> db_items d)).

Definition FindBillByClientRef (tenant : uuid) (ref : string) : M (option (uuid * string)) :=
  query "bill repo: find by client_ref" (fun d =>
    head ((fun r => (bh_id (hr_head r), bh_bill_no (hr_head r)))
      <$> select (fun r => N.eqb (bh_tenant (hr_head r)) tenant && negb (String.eqb ref "")
                           && String.eqb (bh_client_ref (hr_head r)) ref)
            (snd <$> map_to_list (db_heads d)))).

Definition RecordNegativeStock (tenant bill user product : uuid) (onHand : dec) : M unit :=
  update "bill repo: record negative stock" (fun d =>
    set_audit d (db_audit d ++
      ((fun _ => mkAuditRow tenant (if uuid_is_nil user then None else Some user) bill product onHand)
       <$> select (fun p => N.eqb (pd_id p) product && N.eqb (pd_tenant p) tenant) (db_products d)))).

(** ** What a return asks: return_cost.go, return_link.go, purchase_return.go *)

Definition LinkedBillID (tenant bill : uuid) : M (option uuid) :=
  query "bill repo: linked bill id" (fun d =>
    match db_heads d !! bill with
    | Some r => if N.eqb (bh_tenant (hr_head r)) tenant then hr_link r else None
    | None => None
    end).

Definition ImportedOrderBillID (tenant : uuid) (platform orderNo : string) : M (option uuid) :=
  query "bill repo: imported order bill id" (fun d =>
    head (os_bill <$> select (fun s => N.eqb (os_tenant s) tenant && String.eqb (os_platform s) platform
                                       && String.eqb (os_order_no s) orderNo) (db_orders_seen d))).

(** The stock-out movements of a product a sale booked. *)
Definition sale_out (tenant sale product : uuid) (d : DB) : list Movement :=
  select (fun m => N.eqb (mv_tenant m) tenant && String.eqb (mv_reference_type m) RefSale
                   && bool_decide (mv_reference_id m = Some sale) && N.eqb (mv_product m) product
                   && String.eqb (mv_direction m) DirectionOut) (db_movements d).

Definition SaleOutUnitCost (tenant sale product : uuid) : M (option dec) :=
  rows ← query "bill repo: sale out cost" (sale_out tenant sale product);
  let cost := dsum_from dzero (mv_total_cost <$> rows) in
  let qty := dsum_from dzero (mv_qty_base <$> rows) in
  if Nat.eqb (length rows) 0 then mret None
  else if negb (is_positive qty) then mret None
  else c ← Div cost qty; mret (Some (dround 6 c)).

Definition SnapshotUnitCost (tenant product warehouse : uuid) : M (option dec) :=
  query "bill repo: snapshot unit cost" (fun d => sn_unit_cost <$> db_snapshots d !! (tenant, product, warehouse)).

(** remark LIKE 'cancel:%:original_bill_id=' || sale, and starts_with(remark, 'refund:..') *)
Definition cancels (remark : string) (sale : uuid) : bool :=
  like (like_pattern ("cancel:%:original_bill_id=" ++ uuid_string sale)%string) remark.

Definition refund_remark (platform orderNo : string) : string :=
  ("refund:" ++ platform ++ ":" ++ orderNo ++ ":refund_id=")%string.

Definition refunds (tenant : uuid) (remark : string) (sale : uuid) (d : DB) : bool :=
  existsb (fun s => N.eqb (os_tenant s) tenant && N.eqb (os_bill s) sale
                    && negb (is_none (cut_prefix (refund_remark (os_platform s) (os_order_no s)) remark)))
    (db_orders_seen d).

(** The approved sales returns that count against a sale. *)
Definition approved_return (tenant : uuid) (sub : BillSubType) (r : HeadRow) : bool :=
  N.eqb (bh_tenant (hr_head r)) tenant && String.eqb (bh_sub_type (hr_head r)) sub
  && Z.eqb (bh_status (hr_head r)) StatusApproved && negb (hr_deleted r).

Definition linked_to (bill : uuid) (r : HeadRow) : bool := bool_decide (hr_link r = Some bill).

Definition gives_back (tenant sale : uuid) (d : DB) (r : HeadRow) : bool :=
  approved_return tenant BillSubTypeSaleReturn r
  && (linked_to sale r || cancels (bh_remark (hr_head r)) sale
      || refunds tenant (bh_remark (hr_head r)) sale d).

(** FROM bill_head h JOIN bill_item i ON i.head_id = h.id AND i.tenant_id = h.tenant_id *)
Definition items_of (p : HeadRow -> bool) (d : DB) : list ItemRow :=
  select (fun i => match db_heads d !! bi_head (ir_item i) with
                   | Some r => N.eqb (bi_tenant (ir_item i)) (bh_tenant (hr_head r)) && p r
                   | None => false
                   end) (db_items d).

(** app/bill.ReturnedLine *)
Record ReturnedLine := mkReturnedLine { rl_product : uuid; rl_unit : option uuid; rl_qty : dec }.

Definition ReturnedQty (tenant sale : uuid) : M (list ReturnedLine) :=
  query "bill repo: returned qty" (fun d =>
    (fun kq : (uuid * option uuid) * dec => mkReturnedLine kq.1.1 kq.1.2 kq.2) <$> map_to_list (group_sum
      ((fun i => ((bi_product (ir_item i), bi_unit (ir_item i)), bi_qty (ir_item i)))
       <$> items_of (gives_back tenant sale d) d))).

Definition returned_amount (tenant sale : uuid) (d : DB) : dec :=
  dsum_from dzero ((fun r => bh_total (hr_head r))
    <$> select (gives_back tenant sale d) (snd <$> map_to_list (db_heads d))).

Definition ReturnedAmount (tenant sale : uuid) : M dec :=
  query "bill repo: returned amount" (returned_amount tenant sale).
Definition ReturnedAmountTx (tenant sale : uuid) : M dec :=
  query "bill repo: returned amount (tx)" (returned_amount tenant sale).

Definition SetLinkBill (tenant bill linked : uuid) : M unit :=
  n ← statement "bill repo: set link bill" (fun d =>
    match db_heads d !! bill, db_heads d !! linked with
    | Some r, Some s =>
        if N.eqb (bh_tenant (hr_head r)) tenant && N.eqb (bh_tenant (hr_head s)) tenant
        then inr (1%Z, put_head bill (mkHeadRow (hr_head r) (Some linked) (hr_deleted r)) d)
        else inr (0%Z, d)
    | _, _ => inr (0%Z, d)
    end);
  guard_err (Z.eqb n 0) (EMsg "bill repo: set link bill: bill or linked sale not found in tenant").

Definition is_item (tenant id : uuid) (r : ItemRow) : bool :=
  N.eqb (bi_id (ir_item r)) id && N.eqb (bi_tenant (ir_item r)) tenant.

Definition SetLinkItems (tenant sale : uuid) (links : list (uuid * uuid)) : M unit :=
  mapM_ (fun il =>
    n ← statement "bill repo: set link item" (fun d =>
      if existsb (fun s => is_item tenant il.2 s && N.eqb (bi_head (ir_item s)) sale) (db_items d)
         && existsb (is_item tenant il.1) (db_items d)
      then inr (1%Z, set_items d ((fun r => if is_item tenant il.1 r
                 then mkItemRow (ir_item r) (Some il.2) (ir_purchase_price r) (ir_deleted r) else r)
                 <$> db_items d))
      else inr (0%Z, d));
    guard_err (Z.eqb n 0) (EMsg "bill repo: set link item: line or linked sale line not found in tenant")) links.

Definition ReturnLinks (tenant bill : uuid) : M (gmap uuid uuid) :=
  query "bill repo: return links" (fun d =>
    list_to_map (omap (fun r => link ← ir_link r; Some (bi_id (ir_item r), link))
      (select (fun r => N.eqb (bi_head (ir_item r)) bill && N.eqb (bi_tenant (ir_item r)) tenant) (db_items d)))).

(** Per line of [bill], what approved returns of kind [sub] linked to it gave back. *)
Definition returned_by_line (sub : BillSubType) (tenant bill : uuid) (d : DB) : gmap uuid dec :=
  group_sum (omap (fun i => link ← ir_link i; Some (link, bi_qty (ir_item i)))
    (items_of (fun r => approved_return tenant sub r && linked_to bill r) d)).

Definition ReturnedQtyByLine (tenant sale : uuid) : M (gmap uuid dec) :=
  query "bill repo: returned qty by line" (returned_by_line BillSubTypeSaleReturn tenant sale).
Definition PurchaseReturnedQtyByLine (tenant purchase : uuid) : M (gmap uuid dec) :=
  query "bill repo: purchase returned qty by line" (returned_by_line BillSubTypePurchaseReturn tenant purchase).

(** ** adapter/repo/payment *)

Definition stored_payment (p : Payment) (payDate created : time) : Payment :=
  mkPayment (py_id p) (py_tenant p) (py_bill p) (py_type p) (num4 (py_amount p)) (num4 (py_amount p))
    (py_partner p) (py_operator p) (py_creator p) (py_bill_no p) payDate (py_remark p) created.

Definition with_ids (p : Payment) (id : uuid) (created : time) : Payment :=
  mkPayment id (py_tenant p) (py_bill p) (py_type p) (py_amount p) (py_total p)
    (py_partner p) (py_operator p) (py_creator p) (py_bill_no p) (py_date p) (py_remark p) created.

(** Returns the payment as it leaves the caller's pointer. *)
Definition Record_ (p : Payment) : M Payment :=
  id ← (if uuid_is_nil (py_id p) then uuid_new else mret (py_id p));
  payDate ← (if time_is_zero (py_date p) then time_now else mret (py_date p));
  created ← (if time_is_zero (py_created_at p) then time_now else mret (py_created_at p));
  let p := with_ids p id created in
  update_checked "payment repo: record" (fun d =>
    if existsb (fun r => N.eqb (py_id (pr_payment r)) id) (db_payments d)
    then inl (EConstraint "payment_head_pkey")
    else inr (set_payments d (db_payments d ++ [mkPaymentRow (stored_payment p payDate created) false])));;
  mret p.

Definition live_payment (tenant bill : uuid) (r : PaymentRow) : bool :=
  N.eqb (py_bill (pr_payment r)) bill && N.eqb (py_tenant (pr_payment r)) tenant && negb (pr_deleted r).

Definition payments_of (tenant bill : uuid) (d : DB) : list Payment :=
  pr_payment <$> select (live_payment tenant bill) (db_payments d).

Definition ListByBill (tenant bill : uuid) : M (list Payment) :=
  query "payment repo: list by bill" (fun d => sql_order py_date (payments_of tenant bill d)).

Definition paid_sum (tenant bill : uuid) (d : DB) : dec :=
  dsum_from dzero (py_amount <$> payments_of tenant bill d).

Definition SumByBill (tenant bill : uuid) : M dec :=
  query "payment repo: sum by bill" (paid_sum tenant bill).

(** ORDER BY pay_date DESC, created_at DESC LIMIT 1 *)
Definition LatestPayType (tenant bill : uuid) : M (option PayType) :=
  query "payment repo: latest pay type" (fun d =>
    let ps := payments_of tenant bill d in
    let latest := fold_left Z.max (py_date <$> ps) (match ps with p :: _ => py_date p | [] => 0%Z end) in
    head (py_type <$> sql_order (fun p => (- py_created_at p)%Z)
                        (select (fun p => Z.eqb (py_date p) latest) ps))).

(** ** adapter/repo/unit *)

Definition GetConversionFactor (product unit_ : uuid) : M dec :=
  f ← query "unit repo: get conversion factor" (fun d => db_product_unit d !! (product, unit_));
  match f with
  | Some f => mret f
  | None =>
      isBase ← query "unit repo: check base unit" (fun d =>
        existsb (fun p => N.eqb (pd_id p) product
                          && (bool_decide (pd_default_unit p = Some unit_) || bool_decide (pd_unit p = Some unit_)))
          (db_products d));
      if (isBase : bool) then mret (dint 1) else throw (ESentinel ErrInvalidUnitForProduct)
  end.
End bill_repo.
