(* ===== verification/BillRows.v ===== *)
(** What the bill repository does to the rows, and the frames the use cases are followed
    with.

    [core] is a bill without the columns that may change after it was written: two heads of
    equal [core] are the same document.  [line_frame] is what booking the lines of a bill
    may touch: stock, outbox rows and the purchase price of the lines. *)
From S2P Require Import Prelude Rounding Decimal Types StockDomain BillDomain GoTime Store StockRepo StockCalc StockRecord BillRepo.
From stdpp Require Import base tactics strings gmap list.
From Stdlib Require Import ZArith QArith Lqa Lia.

Section rows.
Context {ops : DecimalOps} {laws : DecimalLaws ops} {env : Env} {wiring : Wiring}.

(** ** Frames *)

Lemma tx_heads d d' : tx_frame d d' -> db_heads d' = db_heads d.
Proof. intros [H _]. symmetry. exact (f_equal db_heads H). Qed.
Lemma tx_items d d' : tx_frame d d' -> db_items d' = db_items d.
Proof. intros [H _]. symmetry. exact (f_equal db_items H). Qed.
Lemma tx_payments d d' : tx_frame d d' -> db_payments d' = db_payments d.
Proof. intros [H _]. symmetry. exact (f_equal db_payments H). Qed.

Definition erase_price (r : ItemRow) : ItemRow := mkItemRow (ir_item r) (ir_link r) None (ir_deleted r).

Definition strip_lines (d : DB) : DB := set_items (strip_tx d) (erase_price <$> db_items d).

Definition line_frame (d d' : DB) : Prop :=
  strip_lines d = strip_lines d' /\ exists l, db_movements d' = db_movements d ++ l.

#[export] Instance line_frame_preorder : PreOrder line_frame.
Proof.
  split.
  - intros d. split; [done|]. exists []. by rewrite app_nil_r.
  - intros d1 d2 d3 [H1 [l1 H2]] [H3 [l2 H4]]. split; [congruence|].
    exists (l1 ++ l2). by rewrite H4, H2, app_assoc.
Qed.

Lemma tx_line_frame d d' : tx_frame d d' -> line_frame d d'.
Proof.
  intros H. pose proof (tx_items _ _ H) as Hi. destruct H as [H1 H2].
  split; [|done]. unfold strip_lines. by rewrite H1, Hi.
Qed.

Lemma line_heads d d' : line_frame d d' -> db_heads d' = db_heads d.
Proof. intros [H _]. symmetry. exact (f_equal db_heads H). Qed.
Lemma line_payments d d' : line_frame d d' -> db_payments d' = db_payments d.
Proof. intros [H _]. symmetry. exact (f_equal db_payments H). Qed.
Lemma line_items d d' : line_frame d d' -> ir_item <$> db_items d' = ir_item <$> db_items d.
Proof.
  intros [H _]. pose proof (f_equal db_items H) as E. simpl in E.
  apply (f_equal (fmap ir_item)) in E. rewrite <- !list_fmap_compose in E. simpl in E. done.
Qed.

Lemma keeps_UpdateItemPurchasePrice t i p : keeps (db_rel line_frame) (UpdateItemPurchasePrice t i p).
Proof.
  unfold UpdateItemPurchasePrice. keeps_solve. intros d. split.
  - unfold strip_lines. simpl. f_equal. rewrite <- list_fmap_compose. apply list_fmap_ext.
    intros j r _. simpl. by case_match.
  - exists []. by rewrite app_nil_r.
Qed.

(** A relation on databases that holds whenever [bill_head], [bill_item] and
    [payment_head] are untouched. *)
Definition doc_frame (d d' : DB) : Prop :=
  db_heads d' = db_heads d /\ db_items d' = db_items d /\ db_payments d' = db_payments d.
#[export] Instance doc_frame_preorder : PreOrder doc_frame.
Proof. split; [by intros d|]. intros d1 d2 d3 (? & ? & ?) (? & ? & ?). split_and!; congruence. Qed.

Lemma tx_doc_frame d d' : tx_frame d d' -> doc_frame d d'.
Proof. intros H. split_and!; eauto using tx_heads, tx_items, tx_payments. Qed.

(** ** Reads *)

Section reads.
Context (P : DB -> DB -> Prop) `{!PreOrder P}.
Tactic Notation "reads" reference(f) := unfold f; keeps_solve.
Lemma keeps_AcquireBillAdvisoryLock t b : keeps (db_rel P) (AcquireBillAdvisoryLock t b).
Proof. reads AcquireBillAdvisoryLock. Qed.
Lemma keeps_scan_head t b : keeps (db_rel P) (scan_head t b).
Proof. reads scan_head. Qed.
Lemma keeps_GetBillForUpdate t b : keeps (db_rel P) (GetBillForUpdate t b).
Proof. apply keeps_scan_head. Qed.
#[local] Hint Resolve keeps_scan_head : keeps.
Lemma keeps_GetBill t b : keeps (db_rel P) (GetBill t b).
Proof. reads GetBill. Qed.
Lemma keeps_ProductExists t p : keeps (db_rel P) (ProductExists t p).
Proof. reads ProductExists. Qed.
Lemma keeps_WarehouseExists t p : keeps (db_rel P) (WarehouseExists t p).
Proof. reads WarehouseExists. Qed.
Lemma keeps_PartnerExists t p : keeps (db_rel P) (PartnerExists t p).
Proof. reads PartnerExists. Qed.
Lemma keeps_DefaultWarehouseID t : keeps (db_rel P) (DefaultWarehouseID t).
Proof. reads DefaultWarehouseID. Qed.
Lemma keeps_GetBillItems t b : keeps (db_rel P) (GetBillItems t b).
Proof. reads GetBillItems. Qed.
Lemma keeps_FindBillByClientRef t r : keeps (db_rel P) (FindBillByClientRef t r).
Proof. reads FindBillByClientRef. Qed.
Lemma keeps_LinkedBillID t b : keeps (db_rel P) (LinkedBillID t b).
Proof. reads LinkedBillID. Qed.
Lemma keeps_ImportedOrderBillID t p n : keeps (db_rel P) (ImportedOrderBillID t p n).
Proof. reads ImportedOrderBillID. Qed.
Lemma keeps_SaleOutUnitCost t b p : keeps (db_rel P) (SaleOutUnitCost t b p).
Proof. reads SaleOutUnitCost. Qed.
Lemma keeps_SnapshotUnitCost t p k : keeps (db_rel P) (SnapshotUnitCost t p k).
Proof. reads SnapshotUnitCost. Qed.
Lemma keeps_ReturnedQty t b : keeps (db_rel P) (ReturnedQty t b).
Proof. reads ReturnedQty. Qed.
Lemma keeps_ReturnedAmount t b : keeps (db_rel P) (ReturnedAmount t b).
Proof. reads ReturnedAmount. Qed.
Lemma keeps_ReturnedAmountTx t b : keeps (db_rel P) (ReturnedAmountTx t b).
Proof. reads ReturnedAmountTx. Qed.
Lemma keeps_ReturnLinks t b : keeps (db_rel P) (ReturnLinks t b).
Proof. reads ReturnLinks. Qed.
Lemma keeps_ReturnedQtyByLine t b : keeps (db_rel P) (ReturnedQtyByLine t b).
Proof. reads ReturnedQtyByLine. Qed.
Lemma keeps_PurchaseReturnedQtyByLine t b : keeps (db_rel P) (PurchaseReturnedQtyByLine t b).
Proof. reads PurchaseReturnedQtyByLine. Qed.
Lemma keeps_ListByBill t b : keeps (db_rel P) (ListByBill t b).
Proof. reads ListByBill. Qed.
Lemma keeps_SumByBill t b : keeps (db_rel P) (SumByBill t b).
Proof. reads SumByBill. Qed.
Lemma keeps_GetConversionFactor p u : keeps (db_rel P) (GetConversionFactor p u).
Proof. reads GetConversionFactor. Qed.
End reads.

(** ** Same document *)

(** A head without the columns that change after it was written. *)
Definition core (h : BillHead) : BillHead :=
  with_paid (with_warehouse (with_status (with_approval h None None 0%Z) 0%Z 0%Z) None 0%Z) dzero 0%Z.

Lemma core_fields h h' :
  core h = core h' ->
  bh_id h' = bh_id h /\ bh_tenant h' = bh_tenant h /\ bh_bill_no h' = bh_bill_no h /\
  bh_type h' = bh_type h /\ bh_sub_type h' = bh_sub_type h /\ bh_partner h' = bh_partner h /\
  bh_total h' = bh_total h /\ bh_client_ref h' = bh_client_ref h /\ bh_remark h' = bh_remark h.
Proof.
  intros H. split_and!.
  - exact (eq_sym (f_equal bh_id H)).
  - exact (eq_sym (f_equal bh_tenant H)).
  - exact (eq_sym (f_equal bh_bill_no H)).
  - exact (eq_sym (f_equal bh_type H)).
  - exact (eq_sym (f_equal bh_sub_type H)).
  - exact (eq_sym (f_equal bh_partner H)).
  - exact (eq_sym (f_equal bh_total H)).
  - exact (eq_sym (f_equal bh_client_ref H)).
  - exact (eq_sym (f_equal bh_remark H)).
Qed.

(** ** Inversions *)

Lemma scan_head_Ok t b w h w' :
  scan_head t b w = (Ok h, w') ->
  w' = bump w /\ exists r, live_row t b (w_db w) = Some r /\ h = as_scanned (hr_head r).
Proof.
  unfold scan_head. intros H. minv H. destruct (live_row t b (w_db w)) as [r|] eqn:E; minv H.
  split; [done|]. by exists r.
Qed.

Lemma live_row_Some t b d r :
  live_row t b d = Some r ->
  db_heads d !! b = Some r /\ bh_tenant (hr_head r) = t /\ hr_deleted r = false.
Proof.
  unfold live_row. destruct (db_heads d !! b) as [r0|]; [|done].
  destruct (N.eqb_spec (bh_tenant (hr_head r0)) t), (hr_deleted r0) eqn:E; simpl; intros; simplify_eq; eauto.
Qed.

(** bill_head's primary key is the id column. *)
Definition keyed (d : DB) : Prop := map_Forall (fun b r => bh_id (hr_head r) = b) (db_heads d).

Lemma live_row_id t b d r : keyed d -> live_row t b d = Some r -> bh_id (hr_head r) = b.
Proof. intros K (H & _)%live_row_Some. exact (K _ _ H). Qed.

(** What the primary and foreign keys of the bill tables guarantee: rows sit under their own
    id, every line belongs to a bill, and the nil UUID names no bill. *)
Record docs_wf (d : DB) : Prop := {
  wf_keyed : keyed d;
  wf_items : Forall (fun i => is_Some (db_heads d !! bi_head (ir_item i))) (db_items d);
  wf_nil : db_heads d !! uuid_nil = None;
}.

Lemma live_row_intro t b d r :
  db_heads d !! b = Some r -> bh_tenant (hr_head r) = t -> hr_deleted r = false ->
  live_row t b d = Some r.
Proof. intros H <- E. unfold live_row. by rewrite H, N.eqb_refl, E. Qed.

Lemma live_row_heads t b d d' : db_heads d' = db_heads d -> live_row t b d' = live_row t b d.
Proof. intros H. unfold live_row. by rewrite H. Qed.

(** The row as it is after some columns were assigned. *)
Definition map_head (f : BillHead -> BillHead) (r : HeadRow) : HeadRow :=
  mkHeadRow (f (hr_head r)) (hr_link r) (hr_deleted r).

Lemma update_row_live t b f d r :
  live_row t b d = Some r -> update_row t b f d = (1%Z, put_head b (map_head f r) d).
Proof. intros H. unfold update_row. by rewrite H. Qed.

Lemma put_head_live t b d r' :
  bh_tenant (hr_head r') = t -> hr_deleted r' = false -> live_row t b (put_head b r' d) = Some r' .
Proof. intros H1 H2. apply live_row_intro; [|done|done]. simpl. apply lookup_insert_eq. Qed.

Lemma put_put b (r r' : HeadRow) d : put_head b r' (put_head b r d) = put_head b r' d.
Proof. unfold put_head, set_heads. simpl. by rewrite insert_insert_eq. Qed.

Lemma put_head_id b r d : db_heads d !! b = Some r -> put_head b r d = d.
Proof. intros H. unfold put_head. rewrite insert_id by done. by destruct d. Qed.

(** The same document, later: what no use case changes on a stored bill. *)
Definition same_row (r r' : HeadRow) : Prop :=
  core (hr_head r') = core (hr_head r) /\ hr_link r' = hr_link r /\ hr_deleted r' = hr_deleted r.

#[export] Instance same_row_equiv : Equivalence same_row.
Proof.
  split.
  - by intros r.
  - by intros r r' (? & ? & ?).
  - intros r1 r2 r3 (? & ? & ?) (? & ? & ?). split_and!; congruence.
Qed.

Lemma same_row_fields r r' :
  same_row r r' ->
  let h := hr_head r in let h' := hr_head r' in
  bh_id h' = bh_id h /\ bh_tenant h' = bh_tenant h /\ bh_bill_no h' = bh_bill_no h /\
  bh_type h' = bh_type h /\ bh_sub_type h' = bh_sub_type h /\ bh_partner h' = bh_partner h /\
  bh_total h' = bh_total h /\ bh_client_ref h' = bh_client_ref h /\ bh_remark h' = bh_remark h.
Proof. intros (H & _ & _). by apply core_fields. Qed.

Lemma live_same_row t b d r r' :
  live_row t b d = Some r -> same_row r r' -> live_row t b (put_head b r' d) = Some r'.
Proof.
  intros (_ & Ht & Hd)%live_row_Some H. apply put_head_live.
  - apply same_row_fields in H as (_ & -> & _). done.
  - destruct H as (_ & _ & ->). done.
Qed.

Lemma SetBillWarehouse_Ok t b k w u w' r :
  live_row t b (w_db w) = Some r ->
  SetBillWarehouse t b k w = (Ok u, w') ->
  exists now, w_db w' = put_head b (map_head (fun h => with_warehouse h (Some k) now) r) (w_db w).
Proof.
  intros Hr H. unfold SetBillWarehouse in H.
  apply bind_Ok in H as (now & w1 & H1 & H). minv H1.
  apply bind_Ok in H as (n & w2 & H2 & H). apply statement_Ok in H2 as (_ & d & E & ->). minv H. simpl in *.
  rewrite (update_row_live _ _ _ _ _ Hr) in E. simplify_eq. eauto.
Qed.

Lemma UpdateBillStatus_Ok t b s meta w u w' r :
  live_row t b (w_db w) = Some r ->
  UpdateBillStatus t b s meta w = (Ok u, w') ->
  exists now, w_db w' = put_head b (map_head (status_set s meta now) r) (w_db w).
Proof.
  intros Hr H. unfold UpdateBillStatus in H. minv H. simpl.
  rewrite (update_row_live _ _ _ _ _ Hr). eauto.
Qed.

Lemma UpdatePaidAmount_Ok t b p w u w' r :
  live_row t b (w_db w) = Some r ->
  UpdatePaidAmount t b p w = (Ok u, w') ->
  (val (num4 p) <= val (bh_total (hr_head r)))%Q /\
  exists now, w_db w' = put_head b (map_head (fun h => with_paid h (num4 p) now) r) (w_db w).
Proof.
  intros Hr H. unfold UpdatePaidAmount in H. minv H. simpl in *.
  unfold update_row_checked, head_checks in H. rewrite Hr in H. simpl in H.
  case_bool_in H; simplify_eq. split; [by dec_tests|]. eauto.
Qed.

Lemma Record_Ok p w q w' :
  Record_ p w = (Ok q, w') ->
  exists date created row, q = with_ids p (py_id q) created /\
    row = mkPaymentRow (stored_payment q date created) false /\
    w_db w' = set_payments (w_db w) (db_payments (w_db w) ++ [row]) /\
    (py_id p <> uuid_nil -> py_id q = py_id p) /\
    (forall r, r ∈ db_payments (w_db w) -> py_id (pr_payment r) <> py_id q).
Proof.
  unfold Record_. intros H.
  apply bind_Ok in H as (id & w1 & H1 & H).
  apply bind_Ok in H as (date & w2 & H2 & H).
  apply bind_Ok in H as (created & w3 & H3 & H).
  assert (w_db w3 = w_db w) as E.
  { assert (w_db w1 = w_db w) as <- by (destruct (uuid_is_nil _); by minv H1).
    assert (w_db w2 = w_db w1) as <- by (destruct (time_is_zero _); by minv H2).
    destruct (time_is_zero (py_created_at p)); by minv H3. }
  minv H. rewrite E in *. destruct (existsb _ _) eqn:Hx; simplify_eq.
  exists date, created, (mkPaymentRow (stored_payment (with_ids p id created) date created) false).
  split_and!; try done.
  - simpl. unfold uuid_is_nil in H1. destruct (N.eqb_spec (py_id p) uuid_nil); [done|]. by minv H1.
  - simpl. intros r Hr Heq. apply not_true_iff_false in Hx. apply Hx. apply existsb_exists.
    exists r. split; [by apply list_elem_of_In|]. by apply N.eqb_eq.
Qed.

Lemma insertItems_Ok items w u w' :
  insertItems items w = (Ok u, w') ->
  w_db w' = set_items (w_db w) (db_items (w_db w) ++ ((fun it => mkItemRow (stored_item it) None None false) <$> items)) /\
  NoDup (bi_id <$> items) /\
  (forall r it, r ∈ db_items (w_db w) -> it ∈ items -> bi_id (ir_item r) <> bi_id it).
Proof.
  unfold insertItems. revert w. induction items as [|it items IH]; intros w H; cbn [mapM_] in H.
  { minv H. csimpl. rewrite app_nil_r. split_and!; [by destruct (w_db w')|constructor|].
    by intros r it _ ?%elem_of_nil. }
  apply bind_Ok in H as (x & w1 & H1 & H). minv H1. destruct (existsb _ _) eqn:Hx; simplify_eq.
  assert (forall r, r ∈ db_items (w_db w) -> bi_id (ir_item r) <> bi_id it) as Hfresh.
  { intros r Hr E. apply not_true_iff_false in Hx. apply Hx. apply existsb_exists.
    exists r. split; [by apply list_elem_of_In|]. by apply N.eqb_eq. }
  apply IH in H as (E & Hn & Hnew). simpl in *. rewrite E. csimpl. split_and!.
  - by rewrite <- app_assoc.
  - apply NoDup_cons. split; [|done]. intros (y & Ey & Hy)%list_elem_of_fmap.
    eapply (Hnew (mkItemRow (stored_item it) None None false) y); [|done|done].
    apply elem_of_app. right. left.
  - intros r y Hr [->|Hy]%elem_of_cons; [by apply Hfresh|].
    apply Hnew; [|done]. apply elem_of_app. by left.
Qed.

Lemma CreateBill_Ok head items w u w' :
  CreateBill head items w = (Ok u, w') ->
  db_heads (w_db w) !! bh_id head = None /\ head_keys head (w_db w) = None /\
  (0 <= val (num4 (bh_total head)))%Q /\
  w_db w' = set_items (put_head (bh_id head) (mkHeadRow (stored_head head) None false) (w_db w))
    (db_items (w_db w) ++ ((fun it => mkItemRow (stored_item it) None None false) <$> items)) /\
  NoDup (bi_id <$> items) /\
  (forall r it, r ∈ db_items (w_db w) -> it ∈ items -> bi_id (ir_item r) <> bi_id it).
Proof.
  unfold CreateBill. intros H. apply bind_Ok in H as (x & w1 & H1 & H). minv H1.
  destruct (head_checks _) eqn:Hc in H1; simplify_eq. destruct (head_keys _ _) eqn:Hk; simplify_eq.
  apply insertItems_Ok in H as (E & Hn & Hnew). simpl in *. split_and!; try done.
  - unfold head_keys in Hk. by destruct (db_heads (w_db w) !! bh_id head).
  - unfold head_checks in Hc. simpl in Hc. case_bool_in Hc; simplify_eq. dec_tests.
    by rewrite val_zero in Hb.
Qed.

(** A payment row booked on a bill. *)
Definition payment_on (tenant bill : uuid) (type : PayType) (amount : dec) (row : PaymentRow) : Prop :=
  py_tenant (pr_payment row) = tenant /\ py_bill (pr_payment row) = bill /\
  py_type (pr_payment row) = type /\ py_amount (pr_payment row) = num4 amount /\ pr_deleted row = false.

Definition fresh_payment (row : PaymentRow) (d : DB) : Prop :=
  forall r, r ∈ db_payments d -> py_id (pr_payment r) <> py_id (pr_payment row).
(** ** The lines of a bill *)

(** The lines GetBillItems returns. *)
Definition lines_of (t b : uuid) (d : DB) : list BillItem :=
  sql_order bi_line_no (ir_item <$> select (fun r => N.eqb (bi_head (ir_item r)) b
                                                 && N.eqb (bi_tenant (ir_item r)) t) (db_items d)).

Lemma GetBillItems_Ok t b w l w' :
  GetBillItems t b w = (Ok l, w') -> l = lines_of t b (w_db w) /\ w_db w' = w_db w.
Proof. unfold GetBillItems. intros H. by minv H. Qed.

Definition on_bill (t b : uuid) (it : BillItem) : bool := N.eqb (bi_head it) b && N.eqb (bi_tenant it) t.

Lemma lines_of_on_bill t b d : lines_of t b d = sql_order bi_line_no (select (on_bill t b) (ir_item <$> db_items d)).
Proof. unfold lines_of. by rewrite <- (select_fmap ir_item (on_bill t b)). Qed.

Lemma select_sublist {A} (c : A -> bool) l : select c l `sublist_of` l.
Proof. unfold select. induction l as [|x l IH]; simpl; [done|]. destruct (c x); by constructor. Qed.

Lemma select_all {A} (c : A -> bool) l : Forall (fun x => c x = true) l -> select c l = l.
Proof. induction 1 as [|x l Hx _ IH]; [done|]. unfold select in *. simpl. by rewrite Hx, IH. Qed.

(** The lines of a bill just added. *)
Lemma fresh_lines t b d d' items :
  docs_wf d -> db_heads d !! b = None ->
  ir_item <$> db_items d' = (ir_item <$> db_items d) ++ (stored_item <$> items) ->
  Forall (fun it => bi_tenant it = t /\ bi_head it = b) items ->
  lines_of t b d' = sql_order bi_line_no (stored_item <$> items).
Proof.
  intros WF Hb Hi Hf. rewrite lines_of_on_bill, Hi, select_app, select_nil, select_all; [done|..].
  - apply Forall_fmap. eapply Forall_impl; [exact Hf|]. intros it [<- <-]. unfold on_bill. simpl.
    by rewrite !N.eqb_refl.
  - intros it (i & -> & Hin)%list_elem_of_fmap. unfold on_bill.
    destruct (N.eqb_spec (bi_head (ir_item i)) b) as [E|]; [|done].
    pose proof (wf_items _ WF) as Wi. rewrite Forall_forall in Wi. destruct (Wi i Hin) as [r Hr]. congruence.
Qed.
End rows.
#[export] Hint Resolve keeps_AcquireBillAdvisoryLock keeps_scan_head keeps_GetBillForUpdate
  keeps_GetBill keeps_ProductExists keeps_WarehouseExists keeps_PartnerExists
  keeps_DefaultWarehouseID keeps_GetBillItems keeps_FindBillByClientRef keeps_LinkedBillID
  keeps_ImportedOrderBillID keeps_SaleOutUnitCost keeps_SnapshotUnitCost keeps_ReturnedQty
  keeps_ReturnedAmount keeps_ReturnedAmountTx keeps_ReturnLinks keeps_ReturnedQtyByLine
  keeps_PurchaseReturnedQtyByLine keeps_ListByBill keeps_SumByBill keeps_GetConversionFactor
  keeps_UpdateItemPurchasePrice : keeps.

(** A concrete run finds a row with a decidable property. *)
Lemma row_run `{ops : DecimalOps} (o : option HeadRow) (P : HeadRow -> bool) :
  match o with Some r => P r | None => false end = true -> exists r, o = Some r /\ P r = true.
Proof. destruct o as [r|]; [by eauto|done]. Qed.
