(* ===== verification/BillDraft.v ===== *)
(** Drafts: app/bill/refs.go, create_purchase.go, create_sale.go, update_purchase.go,
    update_sale.go, cancel_purchase.go and restore_purchase.go.

    The use cases keep the order of the code: the checks and the ids a loop draws come
    before the references are looked up, and those before the transaction opens. *)
From S2P Require Import Prelude Rounding Decimal SDec Types StockDomain BillDomain GoTime Store StockRepo StockCalc StockRecord BillRepo BillRows Concrete.
From stdpp Require Import base tactics strings gmap list.
From Stdlib Require Import ZArith QArith Lqa Lia.

Section draft.
Context {ops : DecimalOps} {env : Env} {wiring : Wiring}.

(** ** refs.go *)

(** [seen] is the Go map of product ids already looked up. *)
Fixpoint check_products (tenant : uuid) (seen products : list uuid) : M unit :=
  match products with
  | [] => mret tt
  | pid :: rest =>
      if uuid_is_nil pid || existsb (N.eqb pid) seen then check_products tenant seen rest
      else
        ok ← on_err (EWrap "validate product reference") (ProductExists tenant pid);
        guard_err (negb ok) (validation "product does not exist in this tenant");;
        check_products tenant (pid :: seen) rest
  end.

Definition validateRefs (tenant : uuid) (products : list uuid) (warehouse : option uuid) : M unit :=
  check_products tenant [] products;;
  match warehouse with
  | Some k =>
      if uuid_is_nil k then mret tt
      else
        ok ← on_err (EWrap "validate warehouse reference") (WarehouseExists tenant k);
        guard_err (negb ok) (validation "warehouse does not exist in this tenant")
  | None => mret tt
  end.

Definition validatePartner (tenant : uuid) (partner : option uuid) : M unit :=
  match partner with
  | Some p =>
      if uuid_is_nil p then mret tt
      else
        ok ← on_err (EWrap "validate partner reference") (PartnerExists tenant p);
        guard_err (negb ok) (validation "往来单位不存在")
  | None => mret tt
  end.

(** ** Lines *)

(** The body the line loops share: the checks, the amount in cents, the new item. *)
Definition check_line (product : uuid) (qty price : dec) : M unit :=
  guard_err (uuid_is_nil product) (validation "item product_id is required");;
  guard_err (is_zero qty || is_negative qty) (validation "item qty must be positive");;
  guard_err (is_negative price) (validation "item unit_price must be non-negative").

Definition line_amount (qty price : dec) : dec := dround 2 (dmul qty price).

Definition new_line (tenant head product : uuid) (unit_ : option uuid) (unit_name : string) (line_no : Z)
    (qty price : dec) (acc : dec * list BillItem) : M (dec * list BillItem) :=
  let amount := line_amount qty price in
  id ← uuid_new;
  mret (dadd acc.1 amount,
        acc.2 ++ [mkBillItem id tenant head product unit_ unit_name line_no qty price amount EmptyString]).

(** ** create_purchase.go *)

Record CreatePurchaseItemInput := mkCreatePurchaseItemInput {
  ci_product : uuid;
  ci_unit : option uuid;
  ci_unit_name : string;
  ci_line_no : Z;
  ci_qty : dec;
  ci_price : dec;
}.

Record CreatePurchaseDraftRequest := mkCreatePurchaseDraftRequest {
  cp_tenant : uuid;
  cp_creator : uuid;
  cp_partner : option uuid;
  cp_warehouse : option uuid;
  cp_date : time;
  cp_shipping : dec;
  cp_tax : dec;
  cp_remark : string;
  cp_items : list CreatePurchaseItemInput;
  cp_currency : string;
  cp_rate : dec;
}.

(** The bill id and number a create returns. *)
Record CreateDraftOutput := mkCreateDraftOutput { co_bill : uuid; co_no : string }.

Definition purchase_line (tenant : uuid) (acc : dec * list BillItem) (it : CreatePurchaseItemInput)
  : M (dec * list BillItem) :=
  check_line (ci_product it) (ci_qty it) (ci_price it);;
  new_line tenant uuid_nil (ci_product it) (ci_unit it) (ci_unit_name it) (ci_line_no it)
    (ci_qty it) (ci_price it) acc.

(** Currency, rate, total in the invoice currency and total in CNY. *)
Definition purchase_amounts (currency : string) (rate total : dec) : error + (string * dec * dec * dec) :=
  let currency := if String.eqb currency "" then "CNY" else currency in
  if String.eqb currency "CNY" then inr (currency, dint 1, total, total)
  else if is_zero rate || is_negative rate
  then inl (validation "exchange_rate must be positive for non-CNY currency")
  else inr (currency, rate, total, dround 2 (dmul total rate)).

Definition CreatePurchaseDraft_Execute (req : CreatePurchaseDraftRequest) : M CreateDraftOutput :=
  guard_err (uuid_is_nil (cp_tenant req)) (validation "tenant_id is required");;
  guard_err (uuid_is_nil (cp_creator req)) (validation "creator_id is required");;
  guard_err (Nat.eqb (length (cp_items req)) 0) (validation "at least one item is required");;
  date ← (if time_is_zero (cp_date req) then time_now else mret (cp_date req));
  lines ← foldM (purchase_line (cp_tenant req)) (cp_items req) (dzero, []);
  let '(subtotal, items) := lines in
  guard_err (is_negative (cp_shipping req)) (EWrap "shipping_fee" (ESentinel ErrNegativeFee));;
  guard_err (is_negative (cp_tax req)) (EWrap "tax_amount" (ESentinel ErrNegativeFee));;
  let total := dround 2 (dadd (dadd subtotal (cp_shipping req)) (cp_tax req)) in
  amounts ← of_sum (purchase_amounts (cp_currency req) (cp_rate req) total);
  let '(currency, rate, amountLocal, totalCNY) := amounts in
  validateRefs (cp_tenant req) (ci_product <$> cp_items req) (cp_warehouse req);;
  validatePartner (cp_tenant req) (cp_partner req);;
  billID ← uuid_new;
  now ← time_now;
  WithTx "bill repo" (
    billNo ← on_err (EWrap "create purchase draft: generate bill_no") (NextBillNo (cp_tenant req) "PO");
    let head := draft_head billID (cp_tenant req) billNo BillTypePurchase BillSubTypePurchase
                  (cp_partner req) (cp_warehouse req) (cp_creator req) date subtotal (cp_shipping req)
                  (cp_tax req) totalCNY currency rate amountLocal (cp_remark req) now "" "" None in
    on_err (EWrap "create purchase draft: persist bill") (CreateBill head (with_head billID <$> items));;
    mret (mkCreateDraftOutput billID billNo)).

(** ** create_sale.go *)

Record SaleItem := mkSaleItem {
  si_product : uuid;
  si_warehouse : uuid;
  si_unit : option uuid;
  si_unit_name : string;
  si_line_no : Z;
  si_qty : dec;
  si_price : dec;
  si_conv_factor : string;
}.

Record CreateSaleRequest := mkCreateSaleRequest {
  cs_tenant : uuid;
  cs_creator : uuid;
  cs_partner : option uuid;
  cs_warehouse : option uuid;
  cs_date : time;
  cs_shipping : dec;
  cs_tax : dec;
  cs_remark : string;
  cs_items : list SaleItem;
}.

Definition sale_line (tenant head : uuid) (acc : dec * list BillItem) (it : SaleItem)
  : M (dec * list BillItem) :=
  check_line (si_product it) (si_qty it) (si_price it);;
  new_line tenant head (si_product it) (si_unit it) (si_unit_name it) (si_line_no it)
    (si_qty it) (si_price it) acc.

(** The first line's warehouse stands in for a missing bill-level one. *)
Definition line_warehouse (items : list SaleItem) : option uuid :=
  match items with
  | it :: _ => if uuid_is_nil (si_warehouse it) then None else Some (si_warehouse it)
  | [] => None
  end.

Definition resolve_warehouse (warehouse : option uuid) (items : list SaleItem) : option uuid :=
  match warehouse with Some k => Some k | None => line_warehouse items end.

Definition CreateSale_Execute (req : CreateSaleRequest) : M CreateDraftOutput :=
  guard_err (uuid_is_nil (cs_tenant req)) (validation "tenant_id is required");;
  guard_err (uuid_is_nil (cs_creator req)) (validation "creator_id is required");;
  guard_err (Nat.eqb (length (cs_items req)) 0) (validation "at least one item is required");;
  date ← (if time_is_zero (cs_date req) then time_now else mret (cs_date req));
  lines ← foldM (sale_line (cs_tenant req) uuid_nil) (cs_items req) (dzero, []);
  let '(subtotal, items) := lines in
  guard_err (is_negative (cs_shipping req)) (EWrap "shipping_fee" (ESentinel ErrNegativeFee));;
  guard_err (is_negative (cs_tax req)) (EWrap "tax_amount" (ESentinel ErrNegativeFee));;
  let total := dround 2 (dadd (dadd subtotal (cs_shipping req)) (cs_tax req)) in
  let warehouse := resolve_warehouse (cs_warehouse req) (cs_items req) in
  validateRefs (cs_tenant req) (si_product <$> cs_items req) warehouse;;
  validatePartner (cs_tenant req) (cs_partner req);;
  billID ← uuid_new;
  now ← time_now;
  WithTx "bill repo" (
    billNo ← on_err (EWrap "create sale draft: generate bill_no") (NextBillNo (cs_tenant req) "SL");
    let head := draft_head billID (cs_tenant req) billNo BillTypeSale BillSubTypeSale
                  (cs_partner req) warehouse (cs_creator req) date subtotal (cs_shipping req)
                  (cs_tax req) total "" dzero dzero (cs_remark req) now "" "" None in
    on_err (EWrap "create sale draft: persist bill") (CreateBill head (with_head billID <$> items));;
    mret (mkCreateDraftOutput billID billNo)).

(** ** update_purchase.go *)

Record UpdatePurchaseDraftRequest := mkUpdatePurchaseDraftRequest {
  up_tenant : uuid;
  up_bill : uuid;
  up_partner : option uuid;
  up_warehouse : option uuid;
  up_date : time;
  up_shipping : dec;
  up_tax : dec;
  up_remark : string;
  up_items : list CreatePurchaseItemInput;
  up_keep_prices : bool;
  up_only_creator : uuid;
}.

Definition sameUnit (a b : option uuid) : bool :=
  match a, b with
  | Some x, Some y => N.eqb x y
  | None, None => true
  | _, _ => false
  end.

(** [None] is the Go (zero, false). *)
Definition unitFactor (product : uuid) (unit_ : option uuid) : M (option dec) :=
  match unit_ with
  | None => mret (Some (dint 1))
  | Some u =>
      if has_units then
        r ← try (GetConversionFactor product u);
        mret (match r with inr f => if is_positive f then Some f else None | inl _ => None end)
      else mret None
  end.

Definition kept_line (old : list BillItem) (it : CreatePurchaseItemInput) : option BillItem :=
  match List.find (fun o => Z.eqb (bi_line_no o) (ci_line_no it) && N.eqb (bi_product o) (ci_product it)) old with
  | Some o => Some o
  | None => List.find (fun o => N.eqb (bi_product o) (ci_product it)) old
  end.

Definition keptPrice (old : list BillItem) (it : CreatePurchaseItemInput) : M dec :=
  match kept_line old it with
  | None => mret dzero
  | Some o =>
      if sameUnit (bi_unit o) (ci_unit it) then mret (bi_unit_price o)
      else
        from ← unitFactor (ci_product it) (bi_unit o);
        match from with
        | None => mret dzero
        | Some from =>
            to_ ← unitFactor (ci_product it) (ci_unit it);
            match to_ with
            | None => mret dzero
            | Some to_ => q ← Div (dmul (bi_unit_price o) to_) from; mret (dround 6 q)
            end
        end
  end.

Definition update_purchase_line (req : UpdatePurchaseDraftRequest) (old : list BillItem)
    (acc : dec * list BillItem) (it : CreatePurchaseItemInput) : M (dec * list BillItem) :=
  guard_err (uuid_is_nil (ci_product it)) (validation "item product_id is required");;
  guard_err (is_zero (ci_qty it) || is_negative (ci_qty it)) (validation "item qty must be positive");;
  price ← (if up_keep_prices req then keptPrice old it else mret (ci_price it));
  new_line (up_tenant req) (up_bill req) (ci_product it) (ci_unit it) (ci_unit_name it) (ci_line_no it)
    (ci_qty it) price acc.

Definition clamp_fee (fee : dec) : dec := if is_negative fee then dzero else fee.

Definition foreign (head : BillHead) : bool :=
  negb (String.eqb (bh_currency head) "") && negb (String.eqb (bh_currency head) "CNY").

Definition update_purchase_body (req : UpdatePurchaseDraftRequest) : M BillHead :=
  head ← on_err (EWrap "update purchase draft") (GetBillForUpdate (up_tenant req) (up_bill req));
  guard_err (negb (uuid_is_nil (up_only_creator req)) && negb (N.eqb (bh_creator head) (up_only_creator req)))
    (EWrap "update purchase draft" (ESentinel ErrBillNotFound));;
  guard_err (negb (Z.eqb (bh_status head) StatusDraft))
    (EWrap "update purchase draft: only draft bills can be updated" (ESentinel ErrInvalidBillStatus));;
  old ← (if up_keep_prices req
         then on_err (EWrap "update purchase draft: load items") (GetBillItems (up_tenant req) (up_bill req))
         else mret []);
  lines ← foldM (update_purchase_line req old) (up_items req) (dzero, []);
  let '(subtotal, items) := lines in
  let shipping := clamp_fee (if up_keep_prices req then bh_shipping_fee head else up_shipping req) in
  let tax := clamp_fee (if up_keep_prices req then bh_tax head else up_tax req) in
  let amountLocal := dround 2 (dadd (dadd subtotal shipping) tax) in
  guard_err (foreign head && negb (is_positive (bh_rate head)))
    (EWrap "update purchase draft: stored exchange_rate is invalid" (ESentinel ErrValidation));;
  let total := if foreign head then dround 2 (dmul amountLocal (bh_rate head)) else amountLocal in
  let date := if time_is_zero (up_date req) then bh_date head else up_date req in
  now ← time_now;
  let head := with_draft head (up_partner req) (up_warehouse req) date subtotal shipping tax total
                amountLocal (up_remark req) now in
  on_err (EWrap "update purchase draft: persist") (UpdateBill head items);;
  mret head.

Definition UpdatePurchaseDraft_Execute (req : UpdatePurchaseDraftRequest) : M BillHead :=
  guard_err (uuid_is_nil (up_tenant req)) (validation "tenant_id is required");;
  guard_err (uuid_is_nil (up_bill req)) (validation "bill_id is required");;
  guard_err (Nat.eqb (length (up_items req)) 0) (validation "at least one item is required");;
  validateRefs (up_tenant req) (ci_product <$> up_items req) (up_warehouse req);;
  validatePartner (up_tenant req) (up_partner req);;
  WithTx "bill repo" (update_purchase_body req).

(** ** update_sale.go *)

Record UpdateSaleDraftRequest := mkUpdateSaleDraftRequest {
  us_tenant : uuid;
  us_bill : uuid;
  us_partner : option uuid;
  us_warehouse : option uuid;
  us_date : time;
  us_shipping : dec;
  us_tax : dec;
  us_remark : string;
  us_items : list SaleItem;
}.

Definition update_sale_body (req : UpdateSaleDraftRequest) (warehouse : option uuid) (subtotal : dec)
    (items : list BillItem) : M BillHead :=
  head ← on_err (EWrap "update sale draft") (GetBillForUpdate (us_tenant req) (us_bill req));
  guard_err (negb (String.eqb (bh_type head) BillTypeSale) || negb (String.eqb (bh_sub_type head) BillSubTypeSale))
    (EWrap "update sale draft" (ESentinel ErrBillNotFound));;
  guard_err (negb (Z.eqb (bh_status head) StatusDraft))
    (EWrap "update sale draft: only draft bills can be updated" (ESentinel ErrInvalidBillStatus));;
  let date := if time_is_zero (us_date req) then bh_date head else us_date req in
  let total := dround 2 (dadd (dadd subtotal (us_shipping req)) (us_tax req)) in
  now ← time_now;
  let head := with_draft head (us_partner req) warehouse date subtotal (us_shipping req) (us_tax req)
                total total (us_remark req) now in
  on_err (EWrap "update sale draft: persist") (UpdateBill head items);;
  mret head.

Definition UpdateSaleDraft_Execute (req : UpdateSaleDraftRequest) : M BillHead :=
  guard_err (uuid_is_nil (us_tenant req)) (validation "tenant_id is required");;
  guard_err (uuid_is_nil (us_bill req)) (validation "bill_id is required");;
  guard_err (Nat.eqb (length (us_items req)) 0) (validation "at least one item is required");;
  guard_err (is_negative (us_shipping req)) (EWrap "shipping_fee" (ESentinel ErrNegativeFee));;
  guard_err (is_negative (us_tax req)) (EWrap "tax_amount" (ESentinel ErrNegativeFee));;
  lines ← foldM (sale_line (us_tenant req) (us_bill req)) (us_items req) (dzero, []);
  let '(subtotal, items) := lines in
  let warehouse := resolve_warehouse (us_warehouse req) (us_items req) in
  validateRefs (us_tenant req) (si_product <$> us_items req) warehouse;;
  validatePartner (us_tenant req) (us_partner req);;
  WithTx "bill repo" (update_sale_body req warehouse subtotal items).

(** ** cancel_purchase.go, restore_purchase.go *)

Definition cancel_body (tenant bill : uuid) : M unit :=
  head ← on_err (EWrap "cancel purchase") (GetBillForUpdate tenant bill);
  guard_err (Z.eqb (bh_status head) StatusApproved)
    (EWrap "approved bills require a purchase-return flow" (ESentinel ErrCannotCancelApproved));;
  if Z.eqb (bh_status head) StatusCancelled then mret tt
  else
    guard_err (negb (BillStatus_CanTransitionTo (bh_status head) StatusCancelled))
      (EWrap "cancel purchase" (ESentinel ErrInvalidBillStatus));;
    on_err (EWrap "cancel purchase: update status")
      (UpdateBillStatus tenant bill StatusCancelled no_meta).

Definition CancelPurchase_Execute (tenant bill : uuid) : M unit :=
  guard_err (uuid_is_nil tenant) (EMsg "cancel purchase: tenant_id is required");;
  guard_err (uuid_is_nil bill) (EMsg "cancel purchase: bill_id is required");;
  WithTx "bill repo" (cancel_body tenant bill).

Definition restore_body (tenant bill : uuid) : M unit :=
  head ← on_err (EWrap "restore purchase") (GetBillForUpdate tenant bill);
  guard_err (Z.eqb (bh_status head) StatusApproved)
    (EWrap "approved bills require a purchase-return flow" (ESentinel ErrCannotRestoreApproved));;
  if Z.eqb (bh_status head) StatusDraft then mret tt
  else
    guard_err (negb (Z.eqb (bh_status head) StatusCancelled))
      (EWrap "restore purchase" (ESentinel ErrInvalidBillStatus));;
    guard_err (Z.leb 1 (bh_revision head)) (EWrap "restore purchase" (ESentinel ErrBillAlreadyRestoredOnce));;
    on_err (EWrap "restore purchase: update status")
      (UpdateBillStatus tenant bill StatusDraft (revision_meta (bh_revision head + 1))).

Definition RestorePurchase_Execute (tenant bill : uuid) : M unit :=
  guard_err (uuid_is_nil tenant) (EMsg "restore purchase: tenant_id is required");;
  guard_err (uuid_is_nil bill) (EMsg "restore purchase: bill_id is required");;
  WithTx "bill repo" (restore_body tenant bill).
End draft.

(** ** What the draft use cases did *)
Section draft_laws.
Context {ops : DecimalOps} {laws : DecimalLaws ops} {env : Env} {wiring : Wiring}.
Local Open Scope Q_scope.

(** *** References *)

Definition product_of (tenant product : uuid) (d : DB) : Prop :=
  exists p, p ∈ db_products d /\ pd_id p = product /\ pd_tenant p = tenant /\ pd_deleted p = false.
Definition warehouse_of (tenant warehouse : uuid) (d : DB) : Prop :=
  exists k, k ∈ db_warehouses d /\ wh_id k = warehouse /\ wh_tenant k = tenant /\ wh_deleted k = false.
Definition partner_of (tenant partner : uuid) (d : DB) : Prop :=
  exists p, p ∈ db_partners d /\ pt_id p = partner /\ pt_tenant p = tenant /\ pt_deleted p = false.

Lemma ProductExists_Ok t p w w' : ProductExists t p w = (Ok true, w') -> product_of t p (w_db w).
Proof.
  unfold ProductExists. intros H. apply query_Ok in H as (_ & H & _). symmetry in H.
  apply existsb_exists in H as (x & Hx & H). rewrite !andb_true_iff, negb_true_iff, !N.eqb_eq in H.
  exists x. rewrite list_elem_of_In. tauto.
Qed.
Lemma WarehouseExists_Ok t k w w' : WarehouseExists t k w = (Ok true, w') -> warehouse_of t k (w_db w).
Proof.
  unfold WarehouseExists. intros H. apply query_Ok in H as (_ & H & _). symmetry in H.
  apply existsb_exists in H as (x & Hx & H). rewrite !andb_true_iff, negb_true_iff, !N.eqb_eq in H.
  exists x. rewrite list_elem_of_In. tauto.
Qed.
Lemma PartnerExists_Ok t p w w' : PartnerExists t p w = (Ok true, w') -> partner_of t p (w_db w).
Proof.
  unfold PartnerExists. intros H. apply query_Ok in H as (_ & H & _). symmetry in H.
  apply existsb_exists in H as (x & Hx & H). rewrite !andb_true_iff, negb_true_iff, !N.eqb_eq in H.
  exists x. rewrite list_elem_of_In. tauto.
Qed.

Lemma keeps_check_products P `{!PreOrder P} t seen ps : keeps (db_rel P) (check_products t seen ps).
Proof. revert seen. induction ps as [|p ps IH]; intros seen; simpl; keeps_solve; apply IH. Qed.
Lemma keeps_validateRefs P `{!PreOrder P} t ps k : keeps (db_rel P) (validateRefs t ps k).
Proof. unfold validateRefs. apply keeps_bind; [tc_solve|by apply keeps_check_products|]. keeps_solve. Qed.
Lemma keeps_validatePartner P `{!PreOrder P} t p : keeps (db_rel P) (validatePartner t p).
Proof. unfold validatePartner. keeps_solve. Qed.

Lemma keeps_check_line P `{!PreOrder P} p q x : keeps (db_rel P) (check_line p q x).
Proof. unfold check_line. keeps_solve. Qed.
Lemma keeps_new_line P `{!PreOrder P} t h p u n l q x acc : keeps (db_rel P) (new_line t h p u n l q x acc).
Proof. unfold new_line. keeps_solve. Qed.
#[local] Hint Resolve keeps_check_line keeps_new_line : keeps.
Lemma keeps_purchase_line P `{!PreOrder P} t acc x : keeps (db_rel P) (purchase_line t acc x).
Proof. unfold purchase_line. keeps_solve. Qed.
Lemma keeps_sale_line P `{!PreOrder P} t h acc x : keeps (db_rel P) (sale_line t h acc x).
Proof. unfold sale_line. keeps_solve. Qed.

Lemma check_products_Ok t seen ps w u w' :
  check_products t seen ps w = (Ok u, w') ->
  w_db w' = w_db w /\ Forall (fun p => p = uuid_nil \/ p ∈ seen \/ product_of t p (w_db w)) ps.
Proof.
  revert seen w. induction ps as [|p ps IH]; intros seen w H; cbn [check_products] in H.
  { minv H. split; [done|constructor]. }
  unfold uuid_is_nil in H. destruct (N.eqb_spec p uuid_nil) as [->|Hp]; simpl in H.
  { apply IH in H as [E Hf]. split; [done|]. constructor; [by left|done]. }
  destruct (existsb (N.eqb p) seen) eqn:Hs.
  { apply IH in H as [E Hf]. split; [done|]. constructor; [|done]. right. left.
    apply existsb_exists in Hs as (x & Hx & ->%N.eqb_eq). by apply list_elem_of_In. }
  apply bind_Ok in H as (ok & w1 & H1 & H). minv H1.
  pose proof (keeps_run _ _ _ _ _ (keeps_ProductExists eq _ _) H1) as [E1 _].
  apply bind_Ok in H as (? & w2 & H2 & H). minv H2. apply negb_false_iff in H2 as ->.
  apply ProductExists_Ok in H1. apply IH in H as [E Hf]. rewrite E, <- E1. split; [done|].
  constructor; [tauto|]. rewrite <- E1 in Hf. eapply Forall_impl; [exact Hf|].
  intros y [?|[[->|?]%elem_of_cons|?]]; tauto.
Qed.

Lemma validateRefs_Ok t ps k w u w' :
  validateRefs t ps k w = (Ok u, w') ->
  w_db w' = w_db w /\ Forall (fun p => p = uuid_nil \/ product_of t p (w_db w)) ps /\
  (forall x, k = Some x -> x = uuid_nil \/ warehouse_of t x (w_db w)).
Proof.
  unfold validateRefs. intros H. apply bind_Ok in H as (? & w1 & H1 & H).
  apply check_products_Ok in H1 as [E1 Hf]. split; [|split].
  - rewrite <- E1. destruct k as [y|]; [|by minv H]. destruct (uuid_is_nil y); [by minv H|].
    apply bind_Ok in H as (ok & w2 & H2 & H). minv H2. minv H.
    symmetry. by destruct (keeps_run _ _ _ _ _ (keeps_WarehouseExists eq _ _) H2).
  - eapply Forall_impl; [exact Hf|]. intros y [?|[?%elem_of_nil|?]]; tauto.
  - intros y ->. unfold uuid_is_nil in H. destruct (N.eqb_spec y uuid_nil); [by left|right].
    apply bind_Ok in H as (ok & w2 & H2 & H). minv H2. minv H. apply negb_false_iff in H as ->.
    apply WarehouseExists_Ok in H2. by rewrite <- E1.
Qed.

Lemma validatePartner_Ok t p w u w' :
  validatePartner t p w = (Ok u, w') ->
  w_db w' = w_db w /\ forall x, p = Some x -> x = uuid_nil \/ partner_of t x (w_db w).
Proof.
  intros H. split; [symmetry; by destruct (keeps_run _ _ _ _ _ (keeps_validatePartner eq _ _) H)|].
  intros x ->. unfold validatePartner, uuid_is_nil in H.
  destruct (N.eqb_spec x uuid_nil); [by left|right].
  apply bind_Ok in H as (ok & w2 & H2 & H). minv H2. minv H. apply negb_false_iff in H as ->.
  by apply PartnerExists_Ok in H2.
Qed.

(** *** Lines *)

(** The item a requested line becomes. *)
Definition line_of (tenant head product : uuid) (qty price : dec) (it : BillItem) : Prop :=
  bi_tenant it = tenant /\ bi_head it = head /\ bi_product it = product /\
  bi_qty it = qty /\ bi_unit_price it = price /\ bi_line_amount it = line_amount qty price.

Lemma check_line_Ok p q x w u w' :
  check_line p q x w = (Ok u, w') -> w' = w /\ p <> uuid_nil /\ 0 < val q /\ 0 <= val x.
Proof.
  unfold check_line, uuid_is_nil. intros H. minv H. rewrite orb_false_iff in *.
  destruct (N.eqb_spec p uuid_nil); [done|]. split_and!; [done|done| |dec].
  match goal with H : _ /\ _ |- _ => destruct H end. dec_tests.
  match goal with H : ~ val q == 0 |- _ => destruct (Qlt_le_dec 0 (val q)); [done|exfalso; apply H; lra] end.
Qed.

Lemma new_line_Ok t h p u n l q x acc w acc' w' :
  new_line t h p u n l q x acc w = (Ok acc', w') ->
  w_db w' = w_db w /\ exists it, line_of t h p q x it /\
    acc'.1 = dadd acc.1 (line_amount q x) /\ acc'.2 = acc.2 ++ [it].
Proof. unfold new_line. intros H. minv H. split; [done|]. simpl. eexists. split; [|done]. by split_and!. Qed.

(** The running total of the loop is the sum of the line amounts. *)
Definition line_sum (items : list BillItem) : Q := qsum (val <$> (bi_line_amount <$> items)).

Definition sums (acc : dec * list BillItem) : Prop := val acc.1 == line_sum acc.2.

Lemma lines_Ok {X} (f : dec * list BillItem -> X -> M (dec * list BillItem)) t h
    (product : X -> uuid) (qty price : X -> dec) l acc w acc' w' :
  (forall acc x w acc' w', f acc x w = (Ok acc', w') ->
     w_db w' = w_db w /\ product x <> uuid_nil /\ 0 < val (qty x) /\ 0 <= val (price x) /\
     exists it, line_of t h (product x) (qty x) (price x) it /\
       acc'.1 = dadd acc.1 (line_amount (qty x) (price x)) /\ acc'.2 = acc.2 ++ [it]) ->
  foldM f l acc w = (Ok acc', w') -> sums acc ->
  w_db w' = w_db w /\ sums acc' /\ exists items, acc'.2 = acc.2 ++ items /\
    Forall2 (fun x it => line_of t h (product x) (qty x) (price x) it /\ product x <> uuid_nil /\
                         0 < val (qty x) /\ 0 <= val (price x)) l items.
Proof.
  intros Hf. revert acc w. induction l as [|x l IH]; intros acc w H Hs; cbn [foldM] in H.
  { minv H. split_and!; [done|done|]. exists []. split; [by rewrite app_nil_r|constructor]. }
  apply bind_Ok in H as (a1 & w1 & H1 & H).
  apply Hf in H1 as (E1 & Hp & Hq & Hx & it & Hit & Ha & Hb).
  apply IH in H as (E & Hs' & items & Hi & Hl).
  - split_and!; [congruence|done|]. exists (it :: items). rewrite Hi, Hb, <- app_assoc. split; [done|].
    by constructor.
  - unfold sums in *. rewrite Ha, Hb, val_add, Hs. unfold line_sum. rewrite !fmap_app, qsum_app. simpl.
    destruct Hit as (_ & _ & _ & _ & _ & ->). ring.
Qed.

Lemma line_sum_scale items :
  Forall (fun it => on_scale 2 (val (bi_line_amount it))) items -> on_scale 2 (line_sum items).
Proof.
  unfold line_sum. induction 1 as [|it items H _ IH]; csimpl; [apply on_scale_0|by apply on_scale_plus].
Qed.

(** *** A new document *)

Definition new_rows (items : list BillItem) : list ItemRow :=
  (fun it => mkItemRow (stored_item it) None None false) <$> items.

Definition strip_new (d : DB) : DB := set_sequence (set_items (set_heads d ∅) []) ∅.

(** One head and its lines were added; nothing else but the bill numbers changed. *)
Record new_bill (h : BillHead) (items : list BillItem) (d d' : DB) : Prop := {
  nb_fresh : db_heads d !! bh_id h = None;
  nb_keys : head_keys h d = None;
  nb_total : 0 <= val (num4 (bh_total h));
  nb_heads : db_heads d' = <[bh_id h := mkHeadRow (stored_head h) None false]> (db_heads d);
  nb_items : db_items d' = db_items d ++ new_rows items;
  nb_ids : NoDup (bi_id <$> items);
  nb_new : forall r it, r ∈ db_items d -> it ∈ items -> bi_id (ir_item r) <> bi_id it;
  nb_rest : strip_new d = strip_new d';
}.

Definition only_sequence (d d' : DB) : Prop := d' = set_sequence d (db_sequence d').

Lemma NextBillNo_Ok t pre w no w' :
  NextBillNo t pre w = (Ok no, w') ->
  let key := (t, (pre ++ "-" ++ BillNoDay (clock_at (w_tick w)))%string) in
  let n := next_val t key.2 (w_db w) in
  no = (key.2 ++ "-" ++ fmt_d n 4)%string /\
  w_db w' = set_sequence (w_db w) (<[key := n]> (db_sequence (w_db w))).
Proof.
  unfold NextBillNo. intros H. apply bind_Ok in H as (now & w1 & H1 & H). minv H1.
  apply bind_Ok in H as (u & w2 & H2 & H). minv H2.
  apply bind_Ok in H as (n & w3 & H3 & H). apply statement_Ok in H3 as (_ & d & E & ->). simplify_eq.
  minv H. by simpl.
Qed.

Lemma CreateBill_new head items w u w' :
  CreateBill head items w = (Ok u, w') -> new_bill head items (w_db w) (w_db w').
Proof.
  intros H. apply CreateBill_Ok in H as (H1 & Hk & Ht & E & Hn & Hf). rewrite E. constructor; try done.
Qed.

Lemma new_bill_seq h items d s d' :
  new_bill h items (set_sequence d s) d' -> new_bill h items d d'.
Proof. intros [H1 H2 H3 H4 H5 H6 H7 H8]. constructor; try done. Qed.

Lemma CreateBill_numbered l1 l2 t pre head items w x w' :
  (no ← on_err l1 (NextBillNo t pre);
   on_err l2 (CreateBill (head no) items);;
   mret no) w = (Ok x, w') ->
  new_bill (head x) items (w_db w) (w_db w').
Proof.
  intros H. apply bind_Ok in H as (no & w1 & H1 & H). minv H1. apply NextBillNo_Ok in H1 as [_ E].
  apply bind_Ok in H as (? & w2 & H2 & H). minv H2. minv H. apply CreateBill_new in H2.
  rewrite E in H2. by eapply new_bill_seq.
Qed.

(** Money sums of requested lines, in cents. *)
Definition cents_of (qty price : dec) : Q := qround 2 (val qty * val price).

Lemma line_amount_val q x : val (line_amount q x) == cents_of q x.
Proof. unfold line_amount, cents_of. by rewrite val_round, val_mul. Qed.

Lemma num4_cents d : on_scale 2 (val d) -> val (num4 d) == val d.
Proof. intros H. apply val_round_id. eapply on_scale_weaken; [|exact H]. lia. Qed.

Lemma num4_cents_at a x : on_scale 2 x -> val a == x -> val (num4 a) == x.
Proof. intros Hs E. rewrite num4_cents; [done|by rewrite E]. Qed.

(** What the two line loops leave. *)
Lemma purchase_lines_Ok t l acc w acc' w' :
  foldM (purchase_line t) l acc w = (Ok acc', w') -> sums acc ->
  w_db w' = w_db w /\ sums acc' /\ exists items, acc'.2 = acc.2 ++ items /\
    Forall2 (fun x it => line_of t uuid_nil (ci_product x) (ci_qty x) (ci_price x) it /\
      ci_product x <> uuid_nil /\ 0 < val (ci_qty x) /\ 0 <= val (ci_price x)) l items.
Proof.
  apply (lines_Ok (purchase_line t) t uuid_nil ci_product ci_qty ci_price).
  clear. intros acc x w acc' w' H. unfold purchase_line in H.
  apply bind_Ok in H as (u & w1 & H1 & H). apply check_line_Ok in H1 as (-> & ? & ? & ?).
  by apply new_line_Ok in H as [? ?].
Qed.

Lemma sale_lines_Ok t h l acc w acc' w' :
  foldM (sale_line t h) l acc w = (Ok acc', w') -> sums acc ->
  w_db w' = w_db w /\ sums acc' /\ exists items, acc'.2 = acc.2 ++ items /\
    Forall2 (fun x it => line_of t h (si_product x) (si_qty x) (si_price x) it /\
      si_product x <> uuid_nil /\ 0 < val (si_qty x) /\ 0 <= val (si_price x)) l items.
Proof.
  apply (lines_Ok (sale_line t h) t h si_product si_qty si_price).
  clear. intros acc x w acc' w' H. unfold sale_line in H.
  apply bind_Ok in H as (u & w1 & H1 & H). apply check_line_Ok in H1 as (-> & ? & ? & ?).
  by apply new_line_Ok in H as [? ?].
Qed.

Lemma sums_nil : sums (dzero, []).
Proof. unfold sums, line_sum. simpl. by rewrite val_zero. Qed.

(** The subtotal in terms of the request. *)
Lemma line_sum_cents {X} (qty price : X -> dec) (R : X -> BillItem -> Prop) l items :
  (forall x it, R x it -> bi_line_amount it = line_amount (qty x) (price x)) ->
  Forall2 R l items -> line_sum items == qsum ((fun x => cents_of (qty x) (price x)) <$> l).
Proof.
  intros HR. unfold line_sum. induction 1 as [|x it l items Hx _ IH]; csimpl; [done|].
  rewrite (HR _ _ Hx), line_amount_val, IH. done.
Qed.

Lemma with_head_line t h p q x b it :
  line_of t h p q x it -> line_of t b p q x (with_head b it).
Proof. intros (? & ? & ? & ? & ? & ?). by split_and!. Qed.
(** *** What a create leaves behind *)

Definition in_cny (currency : string) : bool := String.eqb currency "" || String.eqb currency "CNY".

Lemma purchase_amounts_Ok c r t x :
  purchase_amounts c r t = inr x ->
  x.1.2 = t /\
  if in_cny c then x.1.1.1 = "CNY"%string /\ x.1.1.2 = dint 1 /\ x.2 = t
  else x.1.1.1 = c /\ x.1.1.2 = r /\ 0 < val r /\ x.2 = dround 2 (dmul t r).
Proof.
  unfold purchase_amounts, in_cny. intros H.
  destruct (String.eqb_spec c "") as [->|Hc]; simpl in *; [by simplify_eq|].
  destruct (String.eqb_spec c "CNY") as [->|Hn]; simpl in *; [by simplify_eq|].
  destruct (is_zero r || is_negative r) eqn:Hr; simplify_eq. split_and!; try done. simpl.
  apply orb_false_iff in Hr as [? ?]. dec_tests.
  match goal with H : ~ val r == 0 |- _ => destruct (Qlt_le_dec 0 (val r)); [done|exfalso; apply H; lra] end.
Qed.

(** Money of the requested lines, fees included, rounded to cents. *)
Definition request_total {X} (qty price : X -> dec) (l : list X) (shipping tax : dec) : Q :=
  qround 2 (qsum ((fun x => cents_of (qty x) (price x)) <$> l) + val shipping + val tax).

(** The draft a create leaves: one head, one item per requested line, all references of
    the tenant. *)
Definition draft_of {X} (tenant : uuid) (product : X -> uuid) (qty price : X -> dec) (l : list X)
    (partner warehouse : option uuid) (bill : uuid) (no : string) (h : BillHead) (items : list BillItem)
    (d : DB) : Prop :=
  bh_id h = bill /\ bh_bill_no h = no /\ bh_tenant h = tenant /\ bh_status h = StatusDraft /\
  bh_partner h = partner /\ bh_warehouse h = warehouse /\ bh_revision h = 0%Z /\ bh_paid h = dzero /\
  Forall2 (fun x it => line_of tenant bill (product x) (qty x) (price x) it /\
             0 < val (qty x) /\ 0 <= val (price x) /\ product_of tenant (product x) d) l items /\
  (forall k, warehouse = Some k -> k = uuid_nil \/ warehouse_of tenant k d) /\
  (forall p, partner = Some p -> p = uuid_nil \/ partner_of tenant p d).

Lemma draft_lines {X} t b (product : X -> uuid) (qty price : X -> dec) l items d :
  Forall2 (fun x it => line_of t uuid_nil (product x) (qty x) (price x) it /\
     product x <> uuid_nil /\ 0 < val (qty x) /\ 0 <= val (price x)) l items ->
  Forall (fun p => p = uuid_nil \/ product_of t p d) (product <$> l) ->
  Forall2 (fun x it => line_of t b (product x) (qty x) (price x) it /\
     0 < val (qty x) /\ 0 <= val (price x) /\ product_of t (product x) d) l (with_head b <$> items).
Proof.
  intros H Hp. rewrite Forall_fmap in Hp. apply Forall2_fmap_r. eapply Forall2_impl_in; [exact H|].
  intros x it Hx (Hl & Hn & Hq & Hpr). rewrite Forall_forall in Hp.
  split; [by eapply with_head_line|]. split_and!; [done|done|]. by destruct (Hp x Hx).
Qed.

Lemma request_total_val {X} (qty price : X -> dec) R (l : list X) items acc shipping tax :
  (forall x it, R x it -> bi_line_amount it = line_amount (qty x) (price x)) ->
  Forall2 R l items -> val acc == line_sum items ->
  val (dround 2 (dadd (dadd acc shipping) tax)) == request_total qty price l shipping tax.
Proof.
  intros HR Hl Hs. rewrite val_round, !val_add, Hs, (line_sum_cents qty price R l items HR Hl). done.
Qed.

(** a successful purchase create leaves exactly one new draft purchase, numbered and
    identified as it reports, with one line per requested line priced to the cent; its amount
    in the invoice currency is the lines plus the fees rounded to cents, its total that amount
    in CNY at the given rate; the products, the warehouse and the supplier exist in the
    tenant; and no other row of the books changed. *)
Theorem create_purchase_effect req w out w' :
  CreatePurchaseDraft_Execute req w = (Ok out, w') ->
  exists h items,
    new_bill h items (w_db w) (w_db w') /\
    draft_of (cp_tenant req) ci_product ci_qty ci_price (cp_items req) (cp_partner req) (cp_warehouse req)
      (co_bill out) (co_no out) h items (w_db w) /\
    bh_type h = BillTypePurchase /\ bh_sub_type h = BillSubTypePurchase /\
    0 <= val (cp_shipping req) /\ 0 <= val (cp_tax req) /\ cp_items req <> [] /\
    let total := request_total ci_qty ci_price (cp_items req) (cp_shipping req) (cp_tax req) in
    val (bh_amount_local h) == total /\
    if in_cny (cp_currency req) then val (bh_total h) == total
    else 0 < val (cp_rate req) /\ val (bh_total h) == qround 2 (total * val (cp_rate req)).
Proof.
  intros H. unfold CreatePurchaseDraft_Execute in H.
  mguard H as G1. mguard H as G2.
  mguard H as G3.
  apply bind_Ok in H as (date & w1 & Hd & H).
  assert (w_db w1 = w_db w) as E1 by (destruct (time_is_zero _); by minv Hd).
  apply bind_Ok in H as ([sub items] & w2 & Hl & H).
  apply purchase_lines_Ok in Hl as (E2 & Hs & its & Hi & Hl); [|exact sums_nil]. simpl in Hi. subst its.
  mguard H as G4. mguard H as G5.
  apply bind_Ok in H as ([[[cur rate] loc] cny] & w3 & Ha & H). minv Ha.
  apply purchase_amounts_Ok in Ha as [El Ha]. simpl in El, Ha. subst loc.
  apply bind_Ok in H as (? & w4 & Hr & H). apply validateRefs_Ok in Hr as (E4 & Hp & Hk).
  apply bind_Ok in H as (? & w5 & Hr & H). apply validatePartner_Ok in Hr as (E5 & Hq).
  apply bind_Ok in H as (bid & w6 & G & H). minv G. apply bind_Ok in H as (now & w7 & G & H). minv G.
  apply WithTx_Ok in H as (w8 & H & -> & _). cbn [bump w_db] in *.
  apply bind_Ok in H as (no & w9 & Hn & H). minv Hn. apply NextBillNo_Ok in Hn as [_ En].
  apply bind_Ok in H as (? & w10 & Hc & H). minv Hc. minv H. apply CreateBill_new in Hc.
  rewrite En in Hc. apply new_bill_seq in Hc. wsimpl. rewrite E5, E4, E2, E1 in *. clear E1 E2 E4 E5.
  eexists _, _. split; [exact Hc|].
  assert (val (dround 2 (dadd (dadd sub (cp_shipping req)) (cp_tax req))) ==
    request_total ci_qty ci_price (cp_items req) (cp_shipping req) (cp_tax req)) as Ht.
  { eapply request_total_val; [|exact Hl|exact Hs]. by intros ? ? [(_ & _ & _ & _ & _ & ->) _]. }
  split_and!; try done; [by split_and!; try done; apply draft_lines|dec|dec|by destruct (cp_items req)|].
  destruct (in_cny _); simpl.
  - destruct Ha as (_ & _ & ->). done.
  - destruct Ha as (_ & _ & Hr & ->). split; [done|]. by rewrite val_round, val_mul, Ht.
Qed.

(** What a successful sale create leaves. *)
Definition sale_created (req : CreateSaleRequest) (out : CreateDraftOutput) (h : BillHead) (items : list BillItem)
    (d d' : DB) : Prop :=
  new_bill h items d d' /\
  draft_of (cs_tenant req) si_product si_qty si_price (cs_items req) (cs_partner req)
    (resolve_warehouse (cs_warehouse req) (cs_items req)) (co_bill out) (co_no out) h items d /\
  bh_type h = BillTypeSale /\ bh_sub_type h = BillSubTypeSale /\ bh_remark h = cs_remark req /\
  0 <= val (cs_shipping req) /\ 0 <= val (cs_tax req) /\ cs_items req <> [] /\
  val (bh_total h) == request_total si_qty si_price (cs_items req) (cs_shipping req) (cs_tax req).

Lemma create_sale_run req w out w' :
  CreateSale_Execute req w = (Ok out, w') -> exists h items, sale_created req out h items (w_db w) (w_db w').
Proof.
  intros H. unfold CreateSale_Execute in H.
  mguard H as G1. mguard H as G2.
  mguard H as G3.
  apply bind_Ok in H as (date & w1 & Hd & H).
  assert (w_db w1 = w_db w) as E1 by (destruct (time_is_zero _); by minv Hd).
  apply bind_Ok in H as ([sub items] & w2 & Hl & H).
  apply sale_lines_Ok in Hl as (E2 & Hs & its & Hi & Hl); [|exact sums_nil]. simpl in Hi. subst its.
  mguard H as G4. mguard H as G5.
  apply bind_Ok in H as (? & w4 & Hr & H). apply validateRefs_Ok in Hr as (E4 & Hp & Hk).
  apply bind_Ok in H as (? & w5 & Hr & H). apply validatePartner_Ok in Hr as (E5 & Hq).
  apply bind_Ok in H as (bid & w6 & G & H). minv G. apply bind_Ok in H as (now & w7 & G & H). minv G.
  apply WithTx_Ok in H as (w8 & H & -> & _). cbn [bump w_db] in *.
  apply bind_Ok in H as (no & w9 & Hn & H). minv Hn. apply NextBillNo_Ok in Hn as [_ En].
  apply bind_Ok in H as (? & w10 & Hc & H). minv Hc. minv H. apply CreateBill_new in Hc.
  rewrite En in Hc. apply new_bill_seq in Hc. wsimpl. rewrite E5, E4, E2, E1 in *. clear E1 E2 E4 E5.
  eexists _, _. split; [exact Hc|].
  split_and!; try done; [by split_and!; try done; apply draft_lines|dec|dec|by destruct (cs_items req)|].
  eapply request_total_val; [|exact Hl|exact Hs]. by intros ? ? [(_ & _ & _ & _ & _ & ->) _].
Qed.

(** a successful sale create leaves exactly one new draft sale, numbered and identified as
    it reports, with one line per requested line priced to the cent and a total of the lines
    plus the fees rounded to cents; a missing bill-level warehouse is the first line's; every
    reference exists in the tenant; and no other row of the books changed. *)
Theorem create_sale_effect req w out w' :
  CreateSale_Execute req w = (Ok out, w') ->
  exists h items,
    new_bill h items (w_db w) (w_db w') /\
    draft_of (cs_tenant req) si_product si_qty si_price (cs_items req) (cs_partner req)
      (resolve_warehouse (cs_warehouse req) (cs_items req)) (co_bill out) (co_no out) h items (w_db w) /\
    bh_type h = BillTypeSale /\ bh_sub_type h = BillSubTypeSale /\
    0 <= val (cs_shipping req) /\ 0 <= val (cs_tax req) /\ cs_items req <> [] /\
    val (bh_total h) == request_total si_qty si_price (cs_items req) (cs_shipping req) (cs_tax req).
Proof.
  intros (h & items & N & D & T & S & _ & X)%create_sale_run. exists h, items. by split_and!; try apply X.
Qed.
#[local] Hint Resolve keeps_validateRefs keeps_validatePartner keeps_purchase_line keeps_sale_line : keeps.

Lemma create_purchase_atomic req : atomic (CreatePurchaseDraft_Execute req).
Proof. unfold CreatePurchaseDraft_Execute. atomic_solve. Qed.
Lemma create_sale_atomic req : atomic (CreateSale_Execute req).
Proof. unfold CreateSale_Execute. atomic_solve. Qed.
Lemma update_purchase_atomic req : atomic (UpdatePurchaseDraft_Execute req).
Proof. unfold UpdatePurchaseDraft_Execute. atomic_solve. Qed.
Lemma update_sale_atomic req : atomic (UpdateSaleDraft_Execute req).
Proof. unfold UpdateSaleDraft_Execute. atomic_solve. Qed.
Lemma cancel_atomic t b : atomic (CancelPurchase_Execute t b).
Proof. unfold CancelPurchase_Execute. atomic_solve. Qed.
Lemma restore_atomic t b : atomic (RestorePurchase_Execute t b).
Proof. unfold RestorePurchase_Execute. atomic_solve. Qed.
End draft_laws.
#[export] Hint Resolve keeps_validateRefs keeps_validatePartner keeps_check_line keeps_new_line
  keeps_purchase_line keeps_sale_line : keeps.

(** ** A small shop's documents *)

(** Three teas at 1.999 USD and a fee of 1.50, at 7 CNY per USD. *)
Definition ex_po : CreatePurchaseDraftRequest :=
  mkCreatePurchaseDraftRequest ex_tenant ex_user (Some ex_supplier) (Some ex_wh) time_zero (D 150 2) (D 0 0) ""
    [mkCreatePurchaseItemInput ex_p1 None "pc" 1 (D 3 0) (D 1999 3)] "USD" (D 7 0).

(** Two teas at 5.00 and a cup at 2.50, no bill-level warehouse. *)
Definition ex_sale : CreateSaleRequest :=
  mkCreateSaleRequest ex_tenant ex_user (Some ex_customer) None time_zero (D 0 0) (D 0 0) ""
    [mkSaleItem ex_p1 ex_wh None "pc" 1 (D 2 0) (D 5 0) "";
     mkSaleItem ex_p2 ex_wh None "pc" 2 (D 1 0) (D 25 1) ""].

(** The shop right after the create, and the bill's id. *)
Definition ex_po_world : World := (CreatePurchaseDraft_Execute ex_po ex_world).2.
Definition ex_sale_world : World := (CreateSale_Execute ex_sale ex_shelf).2.
Definition created (r : res error CreateDraftOutput * World) : uuid :=
  match r.1 with Ok out => co_bill out | _ => uuid_nil end.
Definition ex_po_bill : uuid := created (CreatePurchaseDraft_Execute ex_po ex_world).
Definition ex_sale_bill : uuid := created (CreateSale_Execute ex_sale ex_shelf).

Lemma create_purchase_effect_witness :
  exists out w', CreatePurchaseDraft_Execute ex_po ex_world = (Ok out, w') /\
    exists h items, new_bill h items (w_db ex_world) (w_db w') /\ (val (bh_total h) == val (D 5250 2))%Q.
Proof.
  run_ok (CreatePurchaseDraft_Execute ex_po ex_world) as out w' H. exists out, w'. split; [exact H|].
  destruct (create_purchase_effect ex_po ex_world out w' H) as (h & items & Hn & _ & _ & _ & _ & _ & _ & _ & _ & Ht).
  exists h, items. split; [exact Hn|]. eapply Qeq_trans; [exact Ht|]. compute_goal.
Defined.

Lemma create_sale_effect_witness :
  exists out w', CreateSale_Execute ex_sale ex_shelf = (Ok out, w') /\
    exists h items, new_bill h items (w_db ex_shelf) (w_db w') /\ (val (bh_total h) == val (D 1250 2))%Q.
Proof.
  run_ok (CreateSale_Execute ex_sale ex_shelf) as out w' H. exists out, w'. split; [exact H|].
  destruct (create_sale_effect ex_sale ex_shelf out w' H) as (h & items & Hn & _ & _ & _ & _ & _ & _ & Ht).
  exists h, items. split; [exact Hn|]. eapply Qeq_trans; [exact Ht|]. compute_goal.
Defined.
