(* ===== verification/BillApprove.v ===== *)
(** Approvals: app/bill/approve_purchase.go and approve_sale.go.

    An approval takes the bill's lock, re-reads it, books one stock movement per line
    through RecordMovementUseCase.ExecuteInTx, turns the bill approved and may book a
    first payment, all in one transaction.  Clients of the calculator interface. *)
From S2P Require Import Prelude Rounding Decimal SDec Types StockDomain BillDomain Store StockRepo StockCalc StockRecord StockLedger BillRepo BillRows BillDraft Concrete WAC.
From stdpp Require Import base tactics strings gmap list.
From Stdlib Require Import ZArith QArith Lqa Lia.

Section approve.
Context {ops : DecimalOps} {env : Env} {wiring : Wiring} {calc : InventoryCalculator}.

(** ** Shared by both approvals *)

Definition nil_dereference : string := "invalid memory address or nil pointer dereference".

Definition resolveApprovalWarehouse (head : BillHead) (tenant bill : uuid) : M uuid :=
  match bh_warehouse head with
  | Some k => mret k
  | None =>
      k ← on_err (EWrap "resolve default warehouse") (DefaultWarehouseID tenant);
      match k with
      | None => throw (ESentinel ErrWarehouseRequired)
      | Some k =>
          on_err (EWrap "set bill warehouse") (SetBillWarehouse tenant bill k);;
          mret k
      end
  end.

Definition resolvePayType (method : string) : error + PayType :=
  if String.eqb method "" then inr PayTypeCash
  else if is_none (PayType_Validate method) then inr method
  else inl (EWrap method (ESentinel ErrInvalidPayMethod)).

Definition checkSettlementMethod (method : string) (amount : dec) : option error :=
  if is_positive amount && String.eqb method PayTypeCredit
  then Some (EWrap method (ESentinel ErrInvalidPayMethod)) else None.

Definition check (e : option error) : M unit :=
  match e with Some e => throw e | None => mret tt end.

Definition recordInitialPayment (head : BillHead) (tenant bill creator : uuid) (amount : dec)
    (method : string) (now : time) (remark : string) : M unit :=
  payType ← of_sum (resolvePayType method);
  check (checkSettlementMethod method amount);;
  id ← uuid_new;
  let p := mkPayment id tenant bill payType amount dzero (bh_partner head) None creator "" now remark time_zero in
  (if has_payments then on_err (EWrap "record payment") (Record_ p) else panic nil_dereference);;
  on_err (EWrap "update paid_amount") (UpdatePaidAmount tenant bill amount).

(** The text of the factor for the movement and its value; a line without a unit is
    already in base units.  The approvals call the unit repo unconditionally. *)
Definition line_factor (label : string) (it : BillItem) : M (string * dec) :=
  match bi_unit it with
  | None => mret ("1", dint 1)
  | Some u =>
      if has_units then
        f ← on_err (EWrap label) (GetConversionFactor (bi_product it) u);
        mret (dto_string f, f)
      else panic nil_dereference
  end.

Definition unit_or_nil (it : BillItem) : uuid :=
  match bi_unit it with Some u => u | None => uuid_nil end.

(** ** approve_purchase.go *)

Record ApprovePurchaseRequest := mkApprovePurchaseRequest {
  ap_tenant : uuid;
  ap_bill : uuid;
  ap_by : uuid;
  ap_paid : dec;
  ap_pay_type : string;
  ap_allow_zero : bool;
}.

Definition alreadyPaidApprovalResult (paid : dec) : M unit :=
  guard_err (dgt paid dzero) (ESentinel ErrBillAlreadyApproved).

Definition zero_price_lines (items : list BillItem) : list ZeroPriceLine :=
  (fun it => mkZeroPriceLine (bi_line_no it) (bi_product it))
  <$> select (fun it => is_zero (bi_unit_price it)) items.

Definition base_rate (head : BillHead) : dec :=
  if is_zero (bh_rate head) || is_negative (bh_rate head) then dint 1 else bh_rate head.

Definition purchase_movement (req : ApprovePurchaseRequest) (warehouse : uuid) (it : BillItem)
    (factor : string) (cost : dec) : RecordMovementRequest :=
  mkRecordMovementRequest (ap_tenant req) (bi_product it) warehouse DirectionIn (bi_qty it)
    (unit_or_nil it) factor cost false false "wac" RefPurchase (Some (ap_bill req)) time_zero None "".

Definition approve_purchase_line (req : ApprovePurchaseRequest) (warehouse : uuid) (rate : dec)
    (it : BillItem) : M unit :=
  f ← line_factor "approve purchase: item" it;
  cost ← Div (dmul (bi_unit_price it) rate) f.2;
  _ ← on_err (EWrap "approve purchase: record movement")
        (ExecuteInTx (purchase_movement req warehouse it f.1 cost));
  mret tt.

Definition approve_purchase_body (req : ApprovePurchaseRequest) : M unit :=
  let tenant := ap_tenant req in let bill := ap_bill req in
  on_err (fun _ => EWrap "approve purchase" (ESentinel ErrBillApprovalConflict))
    (AcquireBillAdvisoryLock tenant bill);;
  head ← on_err (EWrap "approve purchase: load bill") (GetBillForUpdate tenant bill);
  if Z.eqb (bh_status head) StatusApproved then alreadyPaidApprovalResult (ap_paid req)
  else
    guard_err (dgt (ap_paid req) (bh_total head)) (EWrap "approve purchase" (ESentinel ErrPaidExceedsTotal));;
    guard_err (negb (BillStatus_CanTransitionTo (bh_status head) StatusApproved))
      (EWrap "approve purchase" (ESentinel ErrInvalidBillStatus));;
    items ← on_err (EWrap "approve purchase: load items") (GetBillItems tenant bill);
    guard_err (negb (ap_allow_zero req) && negb (Nat.eqb (length (zero_price_lines items)) 0))
      (EWrap "approve purchase" (EZeroPrice (zero_price_lines items)));;
    warehouse ← on_err (EWrap "approve purchase") (resolveApprovalWarehouse head tenant bill);
    mapM_ (approve_purchase_line req warehouse (base_rate head)) items;;
    now ← time_now;
    on_err (EWrap "approve purchase: update status")
      (UpdateBillStatus tenant bill StatusApproved (approval_meta now (ap_by req)));;
    if dgt (ap_paid req) dzero
    then on_err (EWrap "approve purchase")
           (recordInitialPayment head tenant bill (ap_by req) (ap_paid req) (ap_pay_type req) now "")
    else mret tt.

(** [preFetch, err := GetBill]: any error is ignored and the locked path decides. *)
Definition already_approved (tenant bill : uuid) : M bool :=
  r ← try (GetBill tenant bill);
  mret (match r with inr h => Z.eqb (bh_status h) StatusApproved | inl _ => false end).

Definition ApprovePurchase_ExecuteWithPayment (req : ApprovePurchaseRequest) : M unit :=
  guard_err (uuid_is_nil (ap_tenant req)) (EMsg "approve purchase: tenant_id is required");;
  guard_err (uuid_is_nil (ap_bill req)) (EMsg "approve purchase: bill_id is required");;
  guard_err (is_negative (ap_paid req)) (validation "approve purchase: paid_amount must be non-negative");;
  _ ← of_sum (resolvePayType (ap_pay_type req));
  check (checkSettlementMethod (ap_pay_type req) (ap_paid req));;
  guard_err (dgt (ap_paid req) dzero && negb has_payments) (EMsg "approve purchase: payments are not enabled");;
  already ← already_approved (ap_tenant req) (ap_bill req);
  if (already : bool) then alreadyPaidApprovalResult (ap_paid req)
  else WithTx "bill repo" (approve_purchase_body req).

Definition ApprovePurchase_Execute (tenant bill by_ : uuid) : M unit :=
  ApprovePurchase_ExecuteWithPayment (mkApprovePurchaseRequest tenant bill by_ dzero "" false).

(** ** approve_sale.go *)

Record ApproveSaleRequest := mkApproveSaleRequest {
  aq_tenant : uuid;
  aq_bill : uuid;
  aq_creator : uuid;
  aq_paid : dec;
  aq_pay_type : string;
  aq_payment_remark : string;
  aq_occurred_at : time;
  aq_allow_negative : bool;
  aq_notify : bool;              (* OnNegativeStock is set *)
}.

Definition alreadyApprovedResult (req : ApproveSaleRequest) : M unit :=
  guard_err (dgt (aq_paid req) dzero) (ESentinel ErrBillAlreadyApproved).

Definition sale_movement (req : ApproveSaleRequest) (warehouse : uuid) (it : BillItem) (factor : string)
  : RecordMovementRequest :=
  mkRecordMovementRequest (aq_tenant req) (bi_product it) warehouse DirectionOut (bi_qty it)
    (unit_or_nil it) factor dzero false (aq_allow_negative req) "wac" RefSale (Some (aq_bill req))
    (aq_occurred_at req) None "".

(** What the loop collects: the shortages, and the calls of OnNegativeStock. *)
Record SaleAcc := mkSaleAcc {
  sl_short : list InsufficientStockError;
  sl_negative : list (uuid * dec);
}.

Definition approve_sale_line (req : ApproveSaleRequest) (warehouse : uuid) (acc : SaleAcc) (it : BillItem)
  : M SaleAcc :=
  f ← line_factor "approve sale: item" it;
  r ← try (ExecuteInTx (sale_movement req warehouse it f.1));
  match r with
  | inl e =>
      match errors_as_insufficient e with
      | Some ise => mret (mkSaleAcc (sl_short acc ++ [ise]) (sl_negative acc))
      | None => throw (EWrap "approve sale: record movement" e)
      end
  | inr snap =>
      let negative :=
        if aq_allow_negative req && aq_notify req && is_negative (sn_on_hand snap)
        then sl_negative acc ++ [(bi_product it, sn_on_hand snap)] else sl_negative acc in
      on_err (EWrap "approve sale: persist purchase_price")
        (UpdateItemPurchasePrice (aq_tenant req) (bi_id it) (sn_unit_cost snap));;
      mret (mkSaleAcc (sl_short acc) negative)
  end.

Definition ApproveSale_executeInTx (req : ApproveSaleRequest) : M (list (uuid * dec)) :=
  let tenant := aq_tenant req in let bill := aq_bill req in
  on_err (fun _ => EWrap "approve sale" (ESentinel ErrBillApprovalConflict))
    (AcquireBillAdvisoryLock tenant bill);;
  head ← on_err (EWrap "approve sale: load bill") (GetBillForUpdate tenant bill);
  if Z.eqb (bh_status head) StatusApproved then alreadyApprovedResult req;; mret []
  else
    guard_err (is_negative (aq_paid req)) (validation "approve sale: paid_amount must be non-negative");;
    guard_err (dgt (aq_paid req) (bh_total head)) (EWrap "approve sale" (ESentinel ErrPaidExceedsTotal));;
    guard_err (negb (BillStatus_CanTransitionTo (bh_status head) StatusApproved))
      (EWrap "approve sale" (ESentinel ErrInvalidBillStatus));;
    items ← on_err (EWrap "approve sale: load items") (GetBillItems tenant bill);
    warehouse ← on_err (EWrap "approve sale") (resolveApprovalWarehouse head tenant bill);
    acc ← foldM (approve_sale_line req warehouse) items (mkSaleAcc [] []);
    guard_err (negb (Nat.eqb (length (sl_short acc)) 0)) (EBatchInsufficient (sl_short acc));;
    now ← time_now;
    let payDate := if time_is_zero (aq_occurred_at req) then now else aq_occurred_at req in
    on_err (EWrap "approve sale: update status")
      (UpdateBillStatus tenant bill StatusApproved (approval_meta now (aq_creator req)));;
    (if dgt (aq_paid req) dzero
     then on_err (EWrap "approve sale")
            (recordInitialPayment head tenant bill (aq_creator req) (aq_paid req) (aq_pay_type req)
               payDate (aq_payment_remark req))
     else mret tt);;
    mret (sl_negative acc).

Definition ApproveSale_Execute (req : ApproveSaleRequest) : M unit :=
  guard_err (uuid_is_nil (aq_tenant req)) (EMsg "approve sale: tenant_id is required");;
  guard_err (uuid_is_nil (aq_bill req)) (EMsg "approve sale: bill_id is required");;
  guard_err (is_negative (aq_paid req)) (validation "approve sale: paid_amount must be non-negative");;
  _ ← of_sum (resolvePayType (aq_pay_type req));
  already ← already_approved (aq_tenant req) (aq_bill req);
  if (already : bool) then alreadyApprovedResult req
  else WithTx "bill repo" (_ ← ApproveSale_executeInTx req; mret tt).
End approve.

(** ** What an approval did *)
Section approve_laws.
Context {ops : DecimalOps} {laws : DecimalLaws ops} {env : Env} {wiring : Wiring}
  {calc : InventoryCalculator} {CL : CalculatorLaws calc}.
Local Open Scope Q_scope.

(** Base units in one unit of the line, as the unit tables have it. *)
Definition unit_factor (d : DB) (product : uuid) (unit_ : option uuid) : option dec :=
  match unit_ with
  | None => Some (dint 1)
  | Some u =>
      match db_product_unit d !! (product, u) with
      | Some f => Some f
      | None =>
          if existsb (fun p => N.eqb (pd_id p) product
               && (bool_decide (pd_default_unit p = Some u) || bool_decide (pd_unit p = Some u))) (db_products d)
          then Some (dint 1) else None
      end
  end.

Definition factor_of (d : DB) (it : BillItem) : option dec := unit_factor d (bi_product it) (bi_unit it).

Lemma keeps_line_factor P `{!PreOrder P} l it : keeps (db_rel P) (line_factor l it).
Proof. unfold line_factor. keeps_solve. Qed.

Lemma GetConversionFactor_Ok p u w f w' :
  GetConversionFactor p u w = (Ok f, w') ->
  w_db w' = w_db w /\ unit_factor (w_db w) p (Some u) = Some f.
Proof.
  intros H. split; [by destruct (keeps_run _ _ _ _ _ (keeps_GetConversionFactor eq p u) H)|].
  unfold unit_factor. unfold GetConversionFactor in H.
  apply bind_Ok in H as (o & w1 & H1 & H). minv H1.
  destruct (db_product_unit (w_db w) !! (p, u)); minv H; [done|].
  simpl in *. by case_bool_in H; minv H.
Qed.

Lemma line_factor_Ok l it w f w' :
  line_factor l it w = (Ok f, w') ->
  w_db w' = w_db w /\ factor_of (w_db w) it = Some f.2 /\
  forall qty q, convertToBase qty f.1 = inr q -> val q == val qty * val f.2.
Proof.
  intros H. split; [by destruct (keeps_run _ _ _ _ _ (keeps_line_factor eq l it) H)|].
  unfold line_factor in H. destruct (bi_unit it) as [u|] eqn:Hu.
  - destruct has_units; [|done].
    apply bind_Ok in H as (g & w1 & H1 & H). minv H1. minv H.
    apply GetConversionFactor_Ok in H1 as [_ Hf]. unfold factor_of. rewrite Hu. simpl. split; [exact Hf|].
    intros qty q Hq. pose proof (convertToBase_cases qty (dto_string g)) as Hc. rewrite Hq in Hc.
    destruct (dof_to_string g) as (b & Hb & Hv). destruct Hc as [[Hs ->]|(f & Hf' & _ & ->)].
    + destruct Hs as [Hs|Hs]; [by destruct (dto_string_nonempty g)|].
      destruct dof_string_1 as (c & Hc1 & Hc2). rewrite Hs in Hb.
      assert (b = c) as -> by congruence. rewrite <- Hv, Hc2. ring.
    + assert (f = b) as -> by congruence. by rewrite Hv.
  - minv H. simpl. unfold factor_of, unit_factor. rewrite Hu. split; [done|].
    intros qty q [= <-]. rewrite val_int. unfold inject_Z. ring.
Qed.

(** The movement a line of a bill books. *)
Definition line_movement (tenant warehouse bill : uuid) (dir : Direction) (ref : ReferenceType)
    (f : dec) (it : BillItem) (m : Movement) : Prop :=
  mv_key m = (tenant, bi_product it, warehouse) /\ mv_direction m = dir /\
  mv_reference_type m = ref /\ mv_reference_id m = Some bill /\
  val (mv_qty_base m) == qround 6 (val (bi_qty it) * val f).

(** The log row of a movement a document books. *)
Definition document_movement (key : stock_key) (bill : uuid) (dir : Direction) (ref : ReferenceType)
    (qty : Q) (m : Movement) : Prop :=
  mv_key m = key /\ mv_direction m = dir /\ mv_reference_type m = ref /\ mv_reference_id m = Some bill /\
  val (mv_qty_base m) == qround 6 qty.

Lemma recorded_move r s d d' F bill :
  recorded r s d d' ->
  (forall qty q, convertToBase qty (rq_conv_factor r) = inr q -> val q == val qty * F) ->
  rq_reference_type r <> RefInit -> rq_reference_id r = Some bill ->
  tx_frame d d' /\ exists m, db_movements d' = db_movements d ++ [m] /\
    document_movement (rq_key r) bill (rq_direction r) (rq_reference_type r) (val (rq_qty r) * F) m.
Proof.
  intros (q & id & t & m' & d1 & rows & Hq & _ & [Hs Hrest Hlog _ _ _] & -> & _) Hc Hi Hb.
  split.
  { split; [|exists [stored_movement m']; by simpl]. unfold strip_tx. by rewrite Hrest. }
  exists (stored_movement m'). split; [done|].
  destruct Hs as (_ & Hkey & Hdir & Hqm & Hrt & Hri & _). unfold document_movement. simpl in *.
  rewrite Hqm, Hrt, Hri, Hdir, Hb. unfold is_none. rewrite andb_false_r.
  split_and!; try done. unfold num6. by rewrite val_round, (Hc _ _ Hq).
Qed.

Lemma recorded_line r s d d' f it :
  recorded r s d d' ->
  (forall qty q, convertToBase qty (rq_conv_factor r) = inr q -> val q == val qty * val f) ->
  rq_qty r = bi_qty it -> rq_product r = bi_product it ->
  rq_reference_type r <> RefInit ->
  forall bill, rq_reference_id r = Some bill ->
  tx_frame d d' /\ exists m, db_movements d' = db_movements d ++ [m] /\
    line_movement (rq_tenant r) (rq_warehouse r) bill (rq_direction r) (rq_reference_type r) f it m.
Proof.
  intros H Hc Hqty Hp Hi bill Hb.
  destruct (recorded_move _ _ _ _ _ _ H Hc Hi Hb) as (F & m & Hm & Hk & Hd & Hr & Hx & Hq).
  split; [done|]. exists m. split; [done|]. unfold line_movement. rewrite Hk. unfold rq_key.
  rewrite Hp, <- Hqty. by split_and!.
Qed.

Lemma factor_frame d d' it : line_frame d d' -> factor_of d' it = factor_of d it.
Proof.
  intros [H _]. unfold factor_of, unit_factor.
  rewrite (f_equal db_product_unit H : db_product_unit d = db_product_unit d').
  by rewrite (f_equal db_products H : db_products d = db_products d').
Qed.

(** Every line of the bill booked exactly one movement, in line order. *)
Definition booked_lines (tenant warehouse bill : uuid) (dir : Direction) (ref : ReferenceType)
    (d : DB) (items : list BillItem) (ms : list Movement) : Prop :=
  Forall2 (fun it m => exists f, factor_of d it = Some f /\ line_movement tenant warehouse bill dir ref f it m)
    items ms.

Lemma booked_lines_frame t k b dir ref d d' items ms :
  line_frame d d' -> booked_lines t k b dir ref d' items ms -> booked_lines t k b dir ref d items ms.
Proof.
  intros H Hb. eapply Forall2_impl; [exact Hb|]. intros it m (f & Hf & Hm). exists f.
  by rewrite <- (factor_frame _ _ it H).
Qed.

Lemma approve_purchase_line_Ok req k rate it w u w' :
  approve_purchase_line req k rate it w = (Ok u, w') ->
  line_frame (w_db w) (w_db w') /\ exists f m,
    factor_of (w_db w) it = Some f /\ db_movements (w_db w') = db_movements (w_db w) ++ [m] /\
    line_movement (ap_tenant req) k (ap_bill req) DirectionIn RefPurchase f it m.
Proof.
  unfold approve_purchase_line. intros H.
  apply bind_Ok in H as ([t f] & w1 & H1 & H). apply line_factor_Ok in H1 as (E1 & Hf & Hc).
  apply bind_Ok in H as (c & w2 & H2 & H). minv H2.
  apply bind_Ok in H as (s & w3 & H3 & H). minv H3. minv H.
  apply ExecuteInTx_Ok in H3. rewrite E1 in H3.
  apply (recorded_line _ _ _ _ f it) with (bill := ap_bill req) in H3 as (Hx & m & Hm & Hl); try done.
  split; [by apply tx_line_frame|]. by exists f, m.
Qed.

Lemma approve_purchase_lines_Ok req k rate items w u w' :
  mapM_ (approve_purchase_line req k rate) items w = (Ok u, w') ->
  line_frame (w_db w) (w_db w') /\ exists ms,
    db_movements (w_db w') = db_movements (w_db w) ++ ms /\
    booked_lines (ap_tenant req) k (ap_bill req) DirectionIn RefPurchase (w_db w) items ms.
Proof.
  revert w. induction items as [|it items IH]; intros w H; cbn [mapM_] in H.
  { minv H. split; [reflexivity|]. exists []. split; [by rewrite app_nil_r|constructor]. }
  apply bind_Ok in H as (x & w1 & H1 & H).
  apply approve_purchase_line_Ok in H1 as (F1 & f & m & Hf & Hm & Hl).
  apply IH in H as (F2 & ms & Hms & Hb). split; [by etrans|].
  exists (m :: ms). split; [by rewrite Hms, Hm, <- app_assoc|].
  constructor; [by exists f|]. by eapply booked_lines_frame.
Qed.

Lemma approve_sale_line_Ok req k acc it w acc' w' :
  approve_sale_line req k acc it w = (Ok acc', w') ->
  line_frame (w_db w) (w_db w') /\
  ((exists f m, sl_short acc' = sl_short acc /\ factor_of (w_db w) it = Some f /\
     db_movements (w_db w') = db_movements (w_db w) ++ [m] /\
     line_movement (aq_tenant req) k (aq_bill req) DirectionOut RefSale f it m) \/
   exists e, sl_short acc' = sl_short acc ++ [e]).
Proof.
  unfold approve_sale_line. intros H.
  apply bind_Ok in H as ([t f] & w1 & H1 & H). apply line_factor_Ok in H1 as (E1 & Hf & Hc).
  apply bind_Ok in H as (r & w2 & H2 & H). apply try_Ok in H2. destruct r as [e|s].
  - pose proof (keeps_run _ _ _ _ _ (keeps_ExecuteInTx _) H2) as [F _]. rewrite E1 in F.
    destruct (errors_as_insufficient e); [|done]. minv H. split; [by apply tx_line_frame|]. right. by eexists.
  - apply ExecuteInTx_Ok in H2. rewrite E1 in H2.
    apply (recorded_line _ _ _ _ f it) with (bill := aq_bill req) in H2 as (Hx & m & Hm & Hl); try done.
    apply bind_Ok in H as (x & w3 & H3 & H). minv H3. minv H.
    pose proof (keeps_run _ _ _ _ _ (keeps_UpdateItemPurchasePrice _ _ _) H3) as [F _].
    split; [etrans; [by apply tx_line_frame|done]|]. left. exists f, m. split_and!; try done.
    unfold UpdateItemPurchasePrice in H3. minv H3. done.
Qed.

Lemma approve_sale_lines_Ok req k items acc w acc' w' :
  foldM (approve_sale_line req k) items acc w = (Ok acc', w') ->
  line_frame (w_db w) (w_db w') /\ exists l,
    sl_short acc' = sl_short acc ++ l /\
    (l = [] -> exists ms, db_movements (w_db w') = db_movements (w_db w) ++ ms /\
       booked_lines (aq_tenant req) k (aq_bill req) DirectionOut RefSale (w_db w) items ms).
Proof.
  revert acc w. induction items as [|it items IH]; intros acc w H; cbn [foldM] in H.
  { minv H. split; [reflexivity|]. exists []. rewrite app_nil_r. split; [done|]. intros _. exists [].
    split; [by rewrite app_nil_r|constructor]. }
  apply bind_Ok in H as (a1 & w1 & H1 & H).
  apply approve_sale_line_Ok in H1 as (F1 & D). apply IH in H as (F2 & l & Hl & Hb).
  split; [by etrans|]. destruct D as [(f & m & S & Hf & Hm & Hx)|[e S]].
  - exists l. rewrite Hl, S. split; [done|]. intros Hn. destruct (Hb Hn) as (ms & Hms & Hq).
    exists (m :: ms). split; [by rewrite Hms, Hm, <- app_assoc|].
    constructor; [by exists f|]. by eapply booked_lines_frame.
  - exists (e :: l). rewrite Hl, S, <- app_assoc. split; [done|]. intros; discriminate.
Qed.

(** What issuing lines writes besides the log: the stock rows of the given keys, the purchase prices
    of the given lines, and an event each. *)
Definition priced_line (ids : list uuid) (i i' : ItemRow) : Prop :=
  ir_item i' = ir_item i /\ ir_link i' = ir_link i /\ ir_deleted i' = ir_deleted i /\
  (bi_id (ir_item i) ∉ ids -> ir_purchase_price i' = ir_purchase_price i).
Record goods_only (ids : list uuid) (keys : list stock_key) (n : nat) (d d' : DB) : Prop := {
  go_stock : aside keys n d d';
  go_lines : Forall2 (priced_line ids) (db_items d) (db_items d');
}.
Lemma priced_refl ids l : Forall2 (priced_line ids) l l.
Proof. apply Forall_Forall2_diag, Forall_true. intros i. by split_and!. Qed.
Lemma goods_trans ids1 keys1 n1 ids2 keys2 n2 d1 d2 d3 :
  goods_only ids1 keys1 n1 d1 d2 -> goods_only ids2 keys2 n2 d2 d3 -> goods_only (ids1 ++ ids2) (keys1 ++ keys2) (n1 + n2) d1 d3.
Proof.
  intros [A1 L1] [A2 L2]. split; [by eapply aside_trans|]. eapply Forall2_trans; [|exact L1|exact L2].
  intros i j k (I1 & K1 & D1 & P1) (I2 & K2 & D2 & P2). unfold priced_line. split_and!; try congruence.
  intros [H1 H2]%not_elem_of_app. rewrite P2, P1; [done|done|congruence].
Qed.
Lemma goods_recorded r s d d' : recorded r s d d' -> goods_only [] [rq_key r] 1 d d'.
Proof.
  intros H. split; [by eapply recorded_aside|]. destruct H as (q & id & t & m' & d1 & rows & _ & _ & [_ Hrest _ _ _ _] & -> & _).
  simpl. rewrite <- (strip_items _ _ Hrest). apply priced_refl.
Qed.

Lemma approve_sale_line_goods req k acc it w acc' w' :
  approve_sale_line req k acc it w = (Ok acc', w') -> sl_short acc' = sl_short acc ->
  goods_only [bi_id it] [(aq_tenant req, bi_product it, k)] 1 (w_db w) (w_db w').
Proof.
  unfold approve_sale_line. intros H Hn.
  apply bind_Ok in H as ([t f] & w1 & H1 & H). apply line_factor_Ok in H1 as (E1 & _).
  apply bind_Ok in H as (r & w2 & H2 & H). apply try_Ok in H2. destruct r as [e|s].
  - exfalso. destruct (errors_as_insufficient e); [|done]. minv H. simpl in Hn. apply (f_equal length) in Hn.
    rewrite length_app in Hn. simpl in Hn. lia.
  - apply ExecuteInTx_Ok, goods_recorded in H2. rewrite E1 in H2.
    apply bind_Ok in H as (x & w3 & H3 & H). minv H3. minv H. unfold UpdateItemPurchasePrice in H3. minv H3. simpl.
    change (rq_key _) with (aq_tenant req, bi_product it, k) in H2.
    apply (goods_trans [] [_] 1 [bi_id it] [] 0 _ _ _ H2). split; [by apply aside_same|]. simpl.
    apply Forall2_fmap_r, Forall_Forall2_diag, Forall_true. intros i. simpl.
    destruct (_ && negb (ir_deleted i)) eqn:B; [|by split_and!]. apply andb_true_iff in B as [[B%N.eqb_eq _]%andb_true_iff _].
    split_and!; try done. intros Hi. exfalso. apply Hi. rewrite B. by left.
Qed.
Lemma approve_sale_lines_goods req k items acc w acc' w' :
  foldM (approve_sale_line req k) items acc w = (Ok acc', w') -> sl_short acc' = sl_short acc ->
  goods_only (bi_id <$> items) ((fun it => (aq_tenant req, bi_product it, k)) <$> items) (length items) (w_db w) (w_db w').
Proof.
  revert acc w. induction items as [|it items IH]; intros acc w H Hn; cbn [foldM] in H.
  { minv H. split; [by apply aside_same|apply priced_refl]. }
  apply bind_Ok in H as (a1 & w1 & H1 & H).
  pose proof (approve_sale_lines_Ok _ _ _ _ _ _ _ H) as (_ & l & Hl & _).
  assert (sl_short a1 = sl_short acc) as E1.
  { pose proof (approve_sale_line_Ok _ _ _ _ _ _ _ H1) as (_ & [(f & m & S & _)|[e S]]); [done|]. exfalso.
    rewrite Hn, S in Hl. apply (f_equal length) in Hl. rewrite !length_app in Hl. simpl in Hl. lia. }
  apply approve_sale_line_goods in H1; [|done]. apply IH in H; [|congruence].
  exact (goods_trans [_] [_] 1 _ _ _ _ _ _ H1 H).
Qed.

(** Writes to the bill and the payments leave the goods alone. *)
Definition goods_same (d d' : DB) : Prop :=
  db_snapshots d' = db_snapshots d /\ db_items d' = db_items d /\ db_outbox d' = db_outbox d.
#[local] Instance goods_same_preorder : PreOrder goods_same.
Proof. split; [by intros d|]. intros d1 d2 d3 (? & ? & ?) (? & ? & ?). split_and!; congruence. Qed.
Lemma goods_same_only d d' : goods_same d d' -> goods_only [] [] 0 d d'.
Proof. intros (Hs & Hi & Ho). split; [by apply aside_same|]. rewrite Hi. apply priced_refl. Qed.
Lemma same_update_row t b f d : goods_same d (update_row t b f d).2.
Proof. unfold update_row. by destruct (live_row t b d). Qed.
Lemma same_update_row_checked t b f d d' : update_row_checked t b f d = inr d' -> goods_same d d'.
Proof. unfold update_row_checked. destruct (live_row t b d); [destruct (head_checks _)|]; by intros [= <-]. Qed.
Lemma same_UpdateBillStatus t b s m : keeps (db_rel goods_same) (UpdateBillStatus t b s m).
Proof. unfold UpdateBillStatus. keeps_solve. apply same_update_row. Qed.
Lemma same_SetBillWarehouse t b k : keeps (db_rel goods_same) (SetBillWarehouse t b k).
Proof. unfold SetBillWarehouse. keeps_solve. intros d n d' [= E]. pose proof (same_update_row t b (fun h => with_warehouse h (Some k) a) d) as S. by rewrite E in S. Qed.
Lemma same_UpdatePaidAmount t b p : keeps (db_rel goods_same) (UpdatePaidAmount t b p).
Proof. unfold UpdatePaidAmount. keeps_solve. intros d d'. apply same_update_row_checked. Qed.
Lemma same_Record p : keeps (db_rel goods_same) (Record_ p).
Proof. unfold Record_. keeps_solve. intros d d'. destruct (existsb _ _); [done|]. by intros [= <-]. Qed.
#[local] Hint Resolve same_UpdateBillStatus same_SetBillWarehouse same_UpdatePaidAmount same_Record : keeps.
Lemma same_recordInitialPayment h t b by_ paid method date remark :
  keeps (db_rel goods_same) (recordInitialPayment h t b by_ paid method date remark).
Proof. unfold recordInitialPayment, check. keeps_solve. Qed.
Lemma same_resolveWarehouse h t b : keeps (db_rel goods_same) (resolveApprovalWarehouse h t b).
Proof. unfold resolveApprovalWarehouse. keeps_solve. Qed.

(** ** The bill *)

Lemma resolveApprovalWarehouse_Ok h t b w k w' r :
  live_row t b (w_db w) = Some r -> bh_warehouse h = bh_warehouse (hr_head r) ->
  resolveApprovalWarehouse h t b w = (Ok k, w') ->
  exists r1, w_db w' = put_head b r1 (w_db w) /\ same_row r r1 /\
    bh_status (hr_head r1) = bh_status (hr_head r) /\ bh_revision (hr_head r1) = bh_revision (hr_head r) /\
    bh_paid (hr_head r1) = bh_paid (hr_head r) /\ bh_warehouse (hr_head r1) = Some k /\
    (bh_warehouse (hr_head r) = None \/ bh_warehouse (hr_head r) = Some k).
Proof.
  intros Hr Hw H. unfold resolveApprovalWarehouse in H. rewrite Hw in H.
  destruct (bh_warehouse (hr_head r)) as [k0|] eqn:E.
  - minv H. exists r. apply live_row_Some in Hr as (Hr & _ & _).
    split_and!; try done; [by rewrite put_head_id|by right].
  - apply bind_Ok in H as (o & w1 & H1 & H). minv H1.
    pose proof (keeps_run _ _ _ _ _ (keeps_DefaultWarehouseID eq t) H1) as [E1 _].
    destruct o as [k1|]; [|done]. apply bind_Ok in H as (u & w2 & H2 & H). minv H2. minv H.
    rewrite E1 in Hr |- *. eapply SetBillWarehouse_Ok in H2 as [now H2]; [|exact Hr].
    eexists. split; [exact H2|]. split_and!; try done. by left.
Qed.

Lemma recordInitialPayment_Ok h t b c amount method now remark w u w' r :
  live_row t b (w_db w) = Some r ->
  recordInitialPayment h t b c amount method now remark w = (Ok u, w') ->
  exists type row r', resolvePayType method = inr type /\
    payment_on t b type amount row /\ fresh_payment row (w_db w) /\
    val (num4 amount) <= val (bh_total (hr_head r)) /\
    w_db w' = put_head b r' (set_payments (w_db w) (db_payments (w_db w) ++ [row])) /\
    same_row r r' /\ bh_status (hr_head r') = bh_status (hr_head r) /\
    bh_revision (hr_head r') = bh_revision (hr_head r) /\ bh_paid (hr_head r') = num4 amount /\
    bh_approved_by (hr_head r') = bh_approved_by (hr_head r) /\
    bh_warehouse (hr_head r') = bh_warehouse (hr_head r).
Proof.
  intros Hr H. unfold recordInitialPayment in H.
  apply bind_Ok in H as (type & w1 & H1 & H). minv H1.
  apply bind_Ok in H as (? & w2 & H2 & H). unfold check in H2. destruct (checkSettlementMethod _ _); [done|]. minv H2.
  apply bind_Ok in H as (id & w3 & H3 & H). minv H3.
  apply bind_Ok in H as (q & w4 & H4 & H). destruct has_payments; [|done]. minv H4.
  apply Record_Ok in H4 as (date & created & row & Eq & -> & E4 & Hid & Hfresh). minv H.
  eapply UpdatePaidAmount_Ok in H as (Hle & now' & E5).
  2:{ rewrite E4. simpl. exact Hr. }
  rewrite E4 in E5. simpl in E5.
  eexists type, _, _. split; [done|]. split; [|split; [|split; [exact Hle|split; [exact E5|split_and!; try done]]]].
  - rewrite Eq. split_and!; done.
  - exact Hfresh.
Qed.

Definition strip_docs (d : DB) : DB := set_payments (set_heads (strip_lines d) ∅) [].

(** The bill row and the payments after an approval. *)
Record approved_as (t b by_ : uuid) (paid : dec) (method : string) (k : uuid) (d d' : DB) (r r' : HeadRow)
    (ps : list PaymentRow) : Prop := {
  aa_row : db_heads d' = <[b := r']> (db_heads d);
  aa_same : same_row r r';
  aa_status : bh_status (hr_head r') = StatusApproved;
  aa_revision : bh_revision (hr_head r') = bh_revision (hr_head r);
  aa_by : bh_approved_by (hr_head r') = Some by_;
  aa_warehouse : bh_warehouse (hr_head r') = Some k;
  aa_warehouse_old : bh_warehouse (hr_head r) = None \/ bh_warehouse (hr_head r) = Some k;
  aa_payments : db_payments d' = db_payments d ++ ps;
  aa_paid :
    (val paid <= 0 /\ ps = [] /\ bh_paid (hr_head r') = bh_paid (hr_head r)) \/
    (0 < val paid /\ val (num4 paid) <= val (bh_total (hr_head r)) /\ bh_paid (hr_head r') = num4 paid /\
     exists type row, ps = [row] /\ resolvePayType method = inr type /\ payment_on t b type paid row /\
       fresh_payment row d);
  aa_rest : strip_docs d = strip_docs d';
  aa_items : ir_item <$> db_items d' = ir_item <$> db_items d;
}.

(** The tail both approvals share: status, then payment. *)
Lemma approve_tail_Ok label label' h t b by_ paid method payDate remark now w x w1 u w' r :
  live_row t b (w_db w) = Some r -> bh_warehouse (hr_head r) <> None ->
  on_err (EWrap label) (UpdateBillStatus t b StatusApproved (approval_meta now by_)) w = (Ok x, w1) ->
  (if dgt paid dzero
   then on_err (EWrap label') (recordInitialPayment h t b by_ paid method payDate remark)
   else mret tt) w1 = (Ok u, w') ->
  exists k r' ps, approved_as t b by_ paid method k (w_db w) (w_db w') r r' ps /\
    db_movements (w_db w') = db_movements (w_db w).
Proof.
  intros Hr Hk H1 H. minv H1.
  eapply UpdateBillStatus_Ok in H1 as [now' E1]; [|exact Hr].
  set (r1 := map_head _ r) in E1.
  assert (same_row r r1) as S1 by done.
  destruct (bh_warehouse (hr_head r)) as [k|] eqn:Ek; [|done]. exists k.
  destruct (dgt paid dzero) eqn:Hp; minv H.
  - assert (live_row t b (w_db w1) = Some r1) as Hr1 by (rewrite E1; by eapply live_same_row).
    eapply recordInitialPayment_Ok in H as (type & row & r2 & Ht & Hrow & Hf & Hle & E2 & S2 & Hs2 & Hv2 & Hp2 & Hb2 & Hw2);
      [|exact Hr1].
    exists r2, [row]. rewrite E2, E1. split; [|done]. constructor; try done.
    + simpl. by rewrite insert_insert_eq.
    + by etrans.
    + by right.
    + right. rewrite E1 in Hf. split_and!; [dec|done|done|]. eauto 10.
  - exists r1, []. rewrite E1. split; [|done]. constructor; try done.
    + by right.
    + by rewrite app_nil_r.
    + left. split_and!; [dec|done|done].
Qed.

Lemma approved_as_prefix t b by_ paid method k d r1 r d2 d' r' ps k0 :
  approved_as t b by_ paid method k d2 d' r1 r' ps ->
  line_frame (put_head b r1 d) d2 -> same_row r r1 ->
  bh_revision (hr_head r1) = bh_revision (hr_head r) -> bh_paid (hr_head r1) = bh_paid (hr_head r) ->
  bh_warehouse (hr_head r1) = Some k0 -> bh_warehouse (hr_head r) = None \/ bh_warehouse (hr_head r) = Some k0 ->
  approved_as t b by_ paid method k0 d d' r r' ps.
Proof.
  intros [A1 A2 A3 A4 A5 A6 A6' A7 A8 A9 A10] F S Hv Hp Hw Hw0.
  assert (k = k0) as -> by (destruct A6' as [A6'|A6']; congruence).
  pose proof (line_heads _ _ F) as Fh. pose proof (line_payments _ _ F) as Fp.
  constructor; try done.
  - rewrite A1, Fh. simpl. by rewrite insert_insert_eq.
  - by etrans.
  - congruence.
  - by rewrite A7, Fp.
  - apply same_row_fields in S as (_ & _ & _ & _ & _ & _ & Ht & _).
    destruct A8 as [(? & ? & ?)|(? & ? & ? & type & row & ? & ? & ? & Hf)]; [left|right].
    + split_and!; congruence.
    + split_and!; [done|congruence|done|]. exists type, row. split_and!; try done.
      unfold fresh_payment in *. by rewrite Fp in Hf.
  - rewrite <- A9. destruct F as [F _]. unfold strip_docs. rewrite <- F. done.
  - rewrite A10. by rewrite (line_items _ _ F).
Qed.

Lemma live_after t b r1 d d2 r :
  live_row t b d = Some r -> same_row r r1 -> line_frame (put_head b r1 d) d2 -> live_row t b d2 = Some r1.
Proof.
  intros Hr S F. rewrite (live_row_heads _ _ _ _ (line_heads _ _ F)). by eapply live_same_row.
Qed.

Lemma draft_status s : BillStatus_CanTransitionTo s StatusApproved = true -> s = StatusDraft.
Proof. unfold BillStatus_CanTransitionTo. by destruct (Z.eqb_spec s StatusDraft). Qed.

(** Either the bill was approved already and nothing happened, or this run approved it. *)
Lemma approve_purchase_body_Ok req w u w' :
  approve_purchase_body req w = (Ok u, w') ->
  exists r, live_row (ap_tenant req) (ap_bill req) (w_db w) = Some r /\
  ((bh_status (hr_head r) = StatusApproved /\ val (ap_paid req) <= 0 /\ w_db w' = w_db w) \/
   (bh_status (hr_head r) = StatusDraft /\ val (ap_paid req) <= val (bh_total (hr_head r)) /\
    (ap_allow_zero req = false -> zero_price_lines (lines_of (ap_tenant req) (ap_bill req) (w_db w)) = []) /\
    exists k r' ps ms,
      approved_as (ap_tenant req) (ap_bill req) (ap_by req) (ap_paid req) (ap_pay_type req) k
        (w_db w) (w_db w') r r' ps /\
      db_movements (w_db w') = db_movements (w_db w) ++ ms /\
      booked_lines (ap_tenant req) k (ap_bill req) DirectionIn RefPurchase (w_db w)
        (lines_of (ap_tenant req) (ap_bill req) (w_db w)) ms)).
Proof.
  intros H. unfold approve_purchase_body in H.
  apply bind_Ok in H as (? & w1 & H1 & H). minv H1.
  pose proof (keeps_run _ _ _ _ _ (keeps_AcquireBillAdvisoryLock eq _ _) H1) as [E1 _].
  apply bind_Ok in H as (h & w2 & H2 & H). minv H2. apply scan_head_Ok in H2 as (-> & r & Hr & ->).
  rewrite <- E1 in Hr. exists r. split; [done|]. simpl in H.
  destruct (Z.eqb_spec (bh_status (hr_head r)) StatusApproved) as [Es|Es].
  { left. unfold alreadyPaidApprovalResult in H. minv H. split_and!; [done|dec|by simpl]. }
  apply bind_Ok in H as (? & w3 & H3 & H). minv H3.
  apply bind_Ok in H as (? & w4 & H4 & H). minv H4. apply negb_false_iff, draft_status in H4.
  apply bind_Ok in H as (items & w5 & H5 & H). minv H5. apply GetBillItems_Ok in H5 as [-> E5]. wsimpl.
  rewrite <- E1 in *.
  apply bind_Ok in H as (? & w6 & H6 & H). minv H6.
  apply bind_Ok in H as (k & w7 & H7 & H). minv H7.
  eapply resolveApprovalWarehouse_Ok in H7 as (r1 & E7 & S1 & _ & Hv1 & Hp1 & Hk1 & Hk0);
    [|rewrite E5; exact Hr|done].
  apply bind_Ok in H as (? & w8 & H8 & H). apply approve_purchase_lines_Ok in H8 as (F8 & ms & Hms & Hb).
  rewrite E7, E5 in F8, Hms, Hb.
  apply bind_Ok in H as (now & w9 & H9 & H). minv H9.
  apply bind_Ok in H as (? & w10 & H10 & H).
  eapply approve_tail_Ok in H10 as (k' & r' & ps & HA & Hmv); [..|exact H].
  2:{ simpl. eapply live_after; [exact Hr|exact S1|exact F8]. }
  2:{ by rewrite Hk1. }
  right. split_and!; [done|dec| |].
  - intros Hz. rewrite Hz in H6. simpl in H6. by destruct (zero_price_lines _).
  - exists k, r', ps, ms. split_and!.
    + eapply approved_as_prefix; try done.
    + rewrite Hmv. simpl. by rewrite Hms.
    + exact Hb.
Qed.

(** What the approval of a sale writes besides the bill, the payments and the log: the stock rows of
    the products of its lines in the warehouse of the bill, and the purchase prices of its lines. *)
Definition sale_goods (t b : uuid) (d d' : DB) : Prop :=
  exists k r', db_heads d' !! b = Some r' /\ bh_warehouse (hr_head r') = Some k /\
    goods_only (bi_id <$> lines_of t b d) ((fun it => (t, bi_product it, k)) <$> lines_of t b d) (length (lines_of t b d)) d d'.

Lemma approve_sale_Ok req w ns w' :
  ApproveSale_executeInTx req w = (Ok ns, w') ->
  exists r, live_row (aq_tenant req) (aq_bill req) (w_db w) = Some r /\
  ((bh_status (hr_head r) = StatusApproved /\ val (aq_paid req) <= 0 /\ w_db w' = w_db w /\ ns = []) \/
   (bh_status (hr_head r) = StatusDraft /\ 0 <= val (aq_paid req) <= val (bh_total (hr_head r)) /\
    sale_goods (aq_tenant req) (aq_bill req) (w_db w) (w_db w') /\
    exists k r' ps ms,
      approved_as (aq_tenant req) (aq_bill req) (aq_creator req) (aq_paid req) (aq_pay_type req) k
        (w_db w) (w_db w') r r' ps /\
      db_movements (w_db w') = db_movements (w_db w) ++ ms /\
      booked_lines (aq_tenant req) k (aq_bill req) DirectionOut RefSale (w_db w)
        (lines_of (aq_tenant req) (aq_bill req) (w_db w)) ms)).
Proof.
  intros H. unfold ApproveSale_executeInTx in H.
  apply bind_Ok in H as (? & w1 & H1 & H). minv H1.
  pose proof (keeps_run _ _ _ _ _ (keeps_AcquireBillAdvisoryLock eq _ _) H1) as [E1 _].
  apply bind_Ok in H as (h & w2 & H2 & H). minv H2. apply scan_head_Ok in H2 as (-> & r & Hr & ->).
  rewrite <- E1 in Hr. exists r. split; [done|]. simpl in H.
  destruct (Z.eqb_spec (bh_status (hr_head r)) StatusApproved) as [Es|Es].
  { left. unfold alreadyApprovedResult in H. minv H. split_and!; [done|dec|by simpl|done]. }
  apply bind_Ok in H as (? & w3 & H3 & H). minv H3.
  apply bind_Ok in H as (? & w3' & H3' & H). minv H3'.
  apply bind_Ok in H as (? & w4 & H4 & H). minv H4. apply negb_false_iff, draft_status in H4.
  apply bind_Ok in H as (items & w5 & H5 & H). minv H5. apply GetBillItems_Ok in H5 as [-> E5]. wsimpl.
  rewrite <- E1 in *.
  apply bind_Ok in H as (k & w7 & H7 & H). minv H7.
  pose proof (keeps_run _ _ _ _ _ (same_resolveWarehouse _ _ _) H7) as [G7%goods_same_only _].
  eapply resolveApprovalWarehouse_Ok in H7 as (r1 & E7 & S1 & _ & Hv1 & Hp1 & Hk1 & Hk0);
    [|rewrite E5; exact Hr|done].
  apply bind_Ok in H as (acc & w8 & H8 & H). pose proof (approve_sale_lines_goods _ _ _ _ _ _ _ H8) as G8. apply approve_sale_lines_Ok in H8 as (F8 & l & Hl & Hb).
  rewrite E7, E5 in F8, Hb.
  apply bind_Ok in H as (? & w6 & H6 & H). minv H6. rewrite Hl in H6. simpl in H6.
  destruct l as [|]; [|done]. destruct (Hb eq_refl) as (ms & Hms & Hbl). specialize (G8 Hl).
  apply bind_Ok in H as (now & w9 & H9 & H). minv H9.
  apply bind_Ok in H as (? & w10 & H10 & H).
  apply bind_Ok in H as (? & w11 & H11 & H).
  match type of H10 with _ ?s = _ => assert (goods_only [] [] 0 (w_db s) (w_db w11)) as G9 end.
  { apply goods_same_only.
    assert (forall m, keeps (db_rel goods_same) (on_err (EWrap "approve sale: update status")
      (UpdateBillStatus (aq_tenant req) (aq_bill req) StatusApproved m))) as K1 by (intros; keeps_solve).
    pose proof (keeps_run _ _ _ _ _ (K1 _) H10) as [K _]. etrans; [exact K|]. clear K K1.
    destruct (dgt (aq_paid req) dzero); [|by minv H11].
    assert (forall h d, keeps (db_rel goods_same) (on_err (EWrap "approve sale") (recordInitialPayment h (aq_tenant req) (aq_bill req) (aq_creator req) (aq_paid req) (aq_pay_type req) d (aq_payment_remark req)))) as K2
      by (intros; apply keeps_on_err, same_recordInitialPayment).
    exact (proj1 (keeps_run _ _ _ _ _ (K2 _ _) H11)). }
  eapply approve_tail_Ok in H10 as (k' & r' & ps & HA & Hmv); [..|exact H11].
  2:{ simpl. eapply live_after; [exact Hr|exact S1|exact F8]. }
  2:{ by rewrite Hk1. }
  minv H. assert (approved_as (aq_tenant req) (aq_bill req) (aq_creator req) (aq_paid req) (aq_pay_type req) k (w_db w) (w_db w') r r' ps) as HA'
    by (eapply approved_as_prefix; try done).
  right. split_and!; [done|dec|dec| |].
  { exists k, r'. rewrite (aa_row _ _ _ _ _ _ _ _ _ _ _ HA'), lookup_insert_eq. split; [done|].
    split; [apply HA'|]. rewrite E5 in G7. simpl in G9.
    pose proof (goods_trans _ _ _ _ _ _ _ _ _ (goods_trans _ _ _ _ _ _ _ _ _ G7 G8) G9) as G.
    rewrite !app_nil_r, Nat.add_0_r in G. exact G. }
  exists k, r', ps, ms. split; [exact HA'|]. split; [|exact Hbl]. rewrite Hmv. simpl. by rewrite Hms.
Qed.

(** The use cases around the bodies: already approved before the lock, or in the transaction. *)
Lemma keeps_already_approved P `{!PreOrder P} t b : keeps (db_rel P) (already_approved t b).
Proof. unfold already_approved. keeps_solve. Qed.

#[local] Hint Resolve keeps_already_approved keeps_line_factor : keeps.

Lemma already_approved_Ok t b w x w' :
  already_approved t b w = (Ok x, w') ->
  w_db w' = w_db w /\
  (x = true -> exists r, live_row t b (w_db w) = Some r /\ bh_status (hr_head r) = StatusApproved).
Proof.
  intros H. split; [by destruct (keeps_run _ _ _ _ _ (keeps_already_approved eq t b) H)|].
  unfold already_approved in H. apply bind_Ok in H as (o & w1 & H1 & H). minv H1. minv H.
  destruct o as [e|h]; [done|]. intros Hs%Z.eqb_eq. unfold GetBill in H1.
  apply bind_Ok in H1 as (h0 & w2 & H2 & H1). apply scan_head_Ok in H2 as (-> & r & Hr & ->).
  exists r. split; [done|]. minv H1. exact Hs.
Qed.

(** The effect of an approval on the bill, the payments and the movement log. *)
Definition approval_effect (t b by_ : uuid) (paid : dec) (method : string) (dir : Direction) (ref : ReferenceType)
    (d d' : DB) (r : HeadRow) : Prop :=
  bh_status (hr_head r) = StatusDraft /\ val paid <= val (bh_total (hr_head r)) /\
  exists k r' ps ms,
    approved_as t b by_ paid method k d d' r r' ps /\
    db_movements d' = db_movements d ++ ms /\
    booked_lines t k b dir ref d (lines_of t b d) ms.

Lemma approve_purchase_cases req w u w' :
  ApprovePurchase_ExecuteWithPayment req w = (Ok u, w') ->
  0 <= val (ap_paid req) /\
  exists r, live_row (ap_tenant req) (ap_bill req) (w_db w) = Some r /\
  ((bh_status (hr_head r) = StatusApproved /\ val (ap_paid req) <= 0 /\ w_db w' = w_db w) \/
   ((ap_allow_zero req = false -> zero_price_lines (lines_of (ap_tenant req) (ap_bill req) (w_db w)) = []) /\
    approval_effect (ap_tenant req) (ap_bill req) (ap_by req) (ap_paid req) (ap_pay_type req)
      DirectionIn RefPurchase (w_db w) (w_db w') r)).
Proof.
  intros H. unfold ApprovePurchase_ExecuteWithPayment in H.
  apply bind_Ok in H as (? & ? & G1 & H). minv G1. apply bind_Ok in H as (? & ? & G2 & H). minv G2.
  apply bind_Ok in H as (? & ? & G3 & H). minv G3. apply bind_Ok in H as (? & ? & G4 & H). minv G4.
  apply bind_Ok in H as (? & ? & G5 & H). unfold check in G5. destruct (checkSettlementMethod _ _); [done|]. minv G5.
  apply bind_Ok in H as (? & ? & G6 & H). minv G6. apply bind_Ok in H as (al & w1 & Ha & H).
  apply already_approved_Ok in Ha as [E Ha]. split; [dec|].
  destruct al.
  { destruct (Ha eq_refl) as (r & Hr & Hs). exists r. split; [done|]. left.
    unfold alreadyPaidApprovalResult in H. minv H. split_and!; [done|dec|done]. }
  apply WithTx_Ok in H as (w2 & H & -> & _). apply approve_purchase_body_Ok in H as (r & Hr & D).
  simpl in *. rewrite E in *. exists r. split; [done|].
  destruct D as [D|(? & ? & ? & D)]; [by left|]. right. split; [done|]. by split_and!.
Qed.

Lemma approve_sale_cases req w u w' :
  ApproveSale_Execute req w = (Ok u, w') ->
  0 <= val (aq_paid req) /\
  exists r, live_row (aq_tenant req) (aq_bill req) (w_db w) = Some r /\
  ((bh_status (hr_head r) = StatusApproved /\ val (aq_paid req) <= 0 /\ w_db w' = w_db w) \/
   (sale_goods (aq_tenant req) (aq_bill req) (w_db w) (w_db w') /\
    approval_effect (aq_tenant req) (aq_bill req) (aq_creator req) (aq_paid req) (aq_pay_type req)
      DirectionOut RefSale (w_db w) (w_db w') r)).
Proof.
  intros H. unfold ApproveSale_Execute in H.
  apply bind_Ok in H as (? & ? & G1 & H). minv G1. apply bind_Ok in H as (? & ? & G2 & H). minv G2.
  apply bind_Ok in H as (? & ? & G3 & H). minv G3. apply bind_Ok in H as (? & ? & G4 & H). minv G4.
  apply bind_Ok in H as (al & w1 & Ha & H). apply already_approved_Ok in Ha as [E Ha]. split; [dec|].
  destruct al.
  { destruct (Ha eq_refl) as (r & Hr & Hs). exists r. split; [done|]. left.
    unfold alreadyApprovedResult in H. minv H. split_and!; [done|dec|done]. }
  apply WithTx_Ok in H as (w2 & H & -> & _). apply bind_Ok in H as (ns & w3 & H & Hx). minv Hx.
  apply approve_sale_Ok in H as (r & Hr & D).
  simpl in *. rewrite E in *. exists r. split; [done|].
  destruct D as [(? & ? & ? & _)|(? & [? ?] & ? & D)]; [by left|by right; split_and!].
Qed.

(** approving a purchase that was a draft books exactly one receipt per line, of the line's
    quantity in base units, into one warehouse; turns the bill approved by the caller; books
    the payment that rides along, and nothing else, on the bill and in the payments; and
    leaves every other document alone.  A line without a price goes through only when the
    caller says it is a gift. *)
Theorem approve_purchase_effect req w u w' r :
  ApprovePurchase_ExecuteWithPayment req w = (Ok u, w') ->
  live_row (ap_tenant req) (ap_bill req) (w_db w) = Some r -> bh_status (hr_head r) <> StatusApproved ->
  approval_effect (ap_tenant req) (ap_bill req) (ap_by req) (ap_paid req) (ap_pay_type req)
    DirectionIn RefPurchase (w_db w) (w_db w') r /\
  (ap_allow_zero req = false -> zero_price_lines (lines_of (ap_tenant req) (ap_bill req) (w_db w)) = []).
Proof.
  intros H Hr Hs. apply approve_purchase_cases in H as (_ & r0 & Hr0 & D).
  assert (r0 = r) as -> by congruence. by destruct D as [(? & _)|[? ?]].
Qed.

(** C10: approving a sale that was a draft issues exactly one movement per line, of the line's
    quantity in base units, out of one warehouse; turns the bill approved by the caller, and books
    the payment that rides along, and nothing else, on the bill and in the payments.  Besides these
    and one event per movement it writes the stock rows of the products of the lines in that
    warehouse and the purchase prices of the lines: every other bill row, line, payment and stock
    row and every other table stay as they are (the cost layers, which belong to the calculator,
    apart). *)
Theorem approve_sale_effect req w u w' r :
  ApproveSale_Execute req w = (Ok u, w') ->
  live_row (aq_tenant req) (aq_bill req) (w_db w) = Some r -> bh_status (hr_head r) <> StatusApproved ->
  approval_effect (aq_tenant req) (aq_bill req) (aq_creator req) (aq_paid req) (aq_pay_type req)
    DirectionOut RefSale (w_db w) (w_db w') r /\
  sale_goods (aq_tenant req) (aq_bill req) (w_db w) (w_db w').
Proof.
  intros H Hr Hs. apply approve_sale_cases in H as (_ & r0 & Hr0 & D).
  assert (r0 = r) as -> by congruence. by destruct D as [(? & _)|[? ?]].
Qed.

(** ** Shortages *)

(** What a list of issues is short of, one after the other: (product, on hand, asked). *)
Fixpoint short_ref (book : uuid -> Q) (lines : list (uuid * Q)) : list (uuid * Q * Q) :=
  match lines with
  | [] => []
  | (p, q) :: rest =>
      if Qlt_le_dec (book p) q then (p, book p, q) :: short_ref book rest
      else short_ref (fun x => if N.eqb x p then qround 4 (book p - q) else book x) rest
  end.

Lemma short_ref_ext book book' lines :
  (forall p, book p == book' p) ->
  Forall2 (fun a b => a.1.1 = b.1.1 /\ a.1.2 == b.1.2 /\ a.2 == b.2) (short_ref book lines) (short_ref book' lines).
Proof.
  revert book book'. induction lines as [|[p q] lines IH]; intros book book' H; simpl; [constructor|].
  destruct (Qlt_le_dec (book p) q), (Qlt_le_dec (book' p) q).
  - constructor; [by split_and!; simpl|]. by apply IH.
  - exfalso. specialize (H p). lra.
  - exfalso. specialize (H p). lra.
  - apply IH. intros x. destruct (N.eqb x p); [|done]. by rewrite (H p).
Qed.

Lemma convertToBase_not_short qty f e :
  convertToBase qty f = inl e -> errors_as_insufficient e = None.
Proof. unfold convertToBase, Parse. intros H. repeat case_match; by simplify_eq. Qed.

(** A movement that does not go through for lack of stock: the check said so, nothing moved. *)
Lemma ExecuteInTx_short r w e w' i :
  rq_direction r = DirectionOut ->
  ExecuteInTx r w = (Err e, w') -> errors_as_insufficient e = Some i ->
  w_db w' = w_db w /\ exists q, convertToBase (rq_qty r) (rq_conv_factor r) = inr q /\
    i = mkInsufficientStockError (rq_product r) (on_hand (w_db w) (rq_key r)) q /\
    val (on_hand (w_db w) (rq_key r)) < val q.
Proof.
  intros Hd H Hi. unfold ExecuteInTx in H.
  apply bind_Err in H as [H|(m & w1 & Hp & H)].
  { unfold prepare in H. errs_in H (fun e => errors_as_insufficient e = None);
      try done; [simpl; eauto using convertToBase_not_short | congruence]. }
  apply prepare_Ok in Hp as (E1 & _ & Hdv & _ & _ & _ & q & id & t & Hq & ->).
  apply bind_Err in H as [H|(? & w2 & Hl & H)].
  { unfold AcquireAdvisoryLock in H. by errs_in H (fun e => errors_as_insufficient e = None); [|congruence]. }
  minv Hl. pose proof (keeps_run _ _ _ _ _ (keeps_AcquireAdvisoryLock eq _ _ _) Hl) as [E2 _].
  apply bind_Err in H as [H|([] & w3 & Hv & H)].
  - pose proof (keeps_run _ _ _ _ _ (validate_reads _) H) as [E3 _].
    split; [congruence|]. exists q. split; [done|].
    pose proof (validate_short _ _ _ _ _ H Hi) as Hc. rewrite <- E2, E1 in Hc.
    unfold check_available in Hc. simpl in Hc. rewrite Hd in Hc. simpl in Hc.
    change (mv_key (new_movement r id q t)) with (rq_key r) in Hc.
    case_bool_in Hc; simplify_eq. simpl in Hi. simplify_eq. split; [done|]. by dec_tests.
  - exfalso. pose proof (keeps_run _ _ _ _ _ (validate_reads _) Hv) as [E3 _].
    apply validate_passes in Hv as [Hv|Hv]; [simpl in Hv; by rewrite Hd in Hv|].
    apply bind_Err in H as [H|([m' s] & w4 & Ha & H)].
    + apply on_err_Err in H as (e0 & H & ->). simpl in Hi.
      apply apply_not_short in H; [congruence|done|left; simpl; by rewrite Hd|].
      by rewrite <- E3.
    + apply bind_Err in H as [H|(? & ? & ? & H)]; [|done].
      destruct has_outbox; [|done]. unfold enqueueOutbox in H.
      by errs_in H (fun e => errors_as_insufficient e = None); [|congruence].
Qed.

Lemma recorded_out r s d d' :
  recorded r s d d' -> rq_direction r = DirectionOut -> rq_allow_negative r = false ->
  exists q, convertToBase (rq_qty r) (rq_conv_factor r) = inr q /\
    val q <= val (on_hand d (rq_key r)) /\
    forall k, val (on_hand d' k) ==
      if decide (k = rq_key r) then qround 4 (val (on_hand d (rq_key r)) - val q) else val (on_hand d k).
Proof.
  intros Hr Hd Ha.
  assert (exists q, convertToBase (rq_qty r) (rq_conv_factor r) = inr q /\ val q <= val (on_hand d (rq_key r)))
    as (q & Hq & Hle).
  { destruct Hr as (q & id & t & m' & d1 & rows & Hq & _ & [_ _ _ _ Hn Hg] & _).
    exists q. split; [done|]. change (mv_key (new_movement r id q t)) with (rq_key r) in Hn.
    assert (0 <= val (sn_on_hand s)) by (apply Hg; [simpl; by rewrite Hd|done]).
    unfold delta in Hn. simpl in Hn. rewrite Hd in Hn. simpl in Hn. lra. }
  exists q. split; [done|]. split; [done|]. intros k.
  apply (recorded_on_hand _ _ _ _ k) in Hr as (q' & m' & Hq' & _ & Hdir & Hqm & _ & Hv & _).
  rewrite Hv. destruct (decide _) as [->|]; [|done]. unfold delta. rewrite Hdir, Hd, Hqm. simpl.
  assert (q' = q) as -> by congruence. done.
Qed.

Lemma approve_sale_line_short req k acc it w acc' w' :
  aq_allow_negative req = false ->
  approve_sale_line req k acc it w = (Ok acc', w') ->
  let key := (aq_tenant req, bi_product it, k) in
  exists f q, factor_of (w_db w) it = Some f /\ val q == val (bi_qty it) * val f /\
  ((val q <= val (on_hand (w_db w) key) /\ sl_short acc' = sl_short acc /\
    forall x, val (on_hand (w_db w') x) ==
      if decide (x = key) then qround 4 (val (on_hand (w_db w) key) - val q) else val (on_hand (w_db w) x)) \/
   (val (on_hand (w_db w) key) < val q /\ w_db w' = w_db w /\
    sl_short acc' = sl_short acc ++ [mkInsufficientStockError (bi_product it) (on_hand (w_db w) key) q])).
Proof.
  intros Ha H key. unfold approve_sale_line in H.
  apply bind_Ok in H as ([t f] & w1 & H1 & H). apply line_factor_Ok in H1 as (E1 & Hf & Hc).
  apply bind_Ok in H as (r & w2 & H2 & H). apply try_Ok in H2. destruct r as [e|s].
  - destruct (errors_as_insufficient e) as [i|] eqn:Hi; [|done]. minv H.
    pose proof (ExecuteInTx_short (sale_movement req k it t) _ _ _ i eq_refl H2 Hi) as (E2 & q & Hq & -> & Hlt).
    rewrite E1 in *. exists f, q. split; [done|]. split; [by apply Hc|]. right. by rewrite E2.
  - apply ExecuteInTx_Ok in H2. rewrite E1 in H2.
    apply recorded_out in H2 as (q & Hq & Hle & Hk); [|done|done].
    apply bind_Ok in H as (x & w3 & H3 & H). minv H3. minv H.
    exists f, q. split; [done|]. split; [by apply Hc|]. left. split_and!; [done|done|].
    unfold UpdateItemPurchasePrice in H3. minv H3. exact Hk.
Qed.

Definition same_short (e : InsufficientStockError) (x : uuid * Q * Q) : Prop :=
  ise_product e = x.1.1 /\ val (ise_available e) == x.1.2 /\ val (ise_requested e) == x.2.

(** The lines in base units. *)
Definition base_line (d : DB) (it : BillItem) (x : uuid * Q) : Prop :=
  x.1 = bi_product it /\ exists f, factor_of d it = Some f /\ x.2 == val (bi_qty it) * val f.

Lemma approve_sale_lines_short req k items acc w acc' w' :
  aq_allow_negative req = false ->
  foldM (approve_sale_line req k) items acc w = (Ok acc', w') ->
  exists lines l, Forall2 (base_line (w_db w)) items lines /\
    sl_short acc' = sl_short acc ++ l /\
    Forall2 same_short l (short_ref (fun p => val (on_hand (w_db w) (aq_tenant req, p, k))) lines).
Proof.
  intros Ha. revert acc w. induction items as [|it items IH]; intros acc w H; cbn [foldM] in H.
  { minv H. exists [], []. split_and!; [constructor|by rewrite app_nil_r|constructor]. }
  apply bind_Ok in H as (a1 & w1 & H1 & H).
  pose proof (approve_sale_line_Ok _ _ _ _ _ _ _ H1) as [F1 _].
  apply approve_sale_line_short in H1 as (f & q & Hf & Hq & D); [|done].
  apply IH in H as (lines & l & Hb & Hl & Hs).
  assert (Forall2 (base_line (w_db w)) (it :: items) ((bi_product it, val q) :: lines)) as Hb'.
  { constructor; [split; [done|]; by exists f|]. eapply Forall2_impl; [exact Hb|].
    intros i x (Hx & g & Hg & Hv). split; [done|]. exists g. by rewrite <- (factor_frame _ _ i F1). }
  destruct D as [(Hle & S & Hk)|(Hlt & E & S)].
  - exists ((bi_product it, val q) :: lines), l. split; [done|]. rewrite Hl, S. split; [done|].
    simpl. destruct (Qlt_le_dec _ _) as [Hn|_]; [lra|].
    eapply Forall2_compose; [|exact Hs|apply short_ref_ext].
    + intros e x y (? & ? & ?) (? & ? & ?). unfold same_short in *. split_and!; [congruence|lra|lra].
    + intros p. simpl. rewrite Hk. destruct (N.eqb_spec p (bi_product it)) as [->|Hne].
      * by rewrite decide_True.
      * rewrite decide_False; [done|congruence].
  - exists ((bi_product it, val q) :: lines), (mkInsufficientStockError (bi_product it) (on_hand (w_db w) (aq_tenant req, bi_product it, k)) q :: l).
    split; [done|]. rewrite Hl, S, <- app_assoc. split; [done|].
    simpl. destruct (Qlt_le_dec _ _) as [_|Hn]; [|lra]. constructor; [done|]. by rewrite E in Hs.
Qed.

Definition not_batch (e : error) : Prop := forall l, e <> EBatchInsufficient l.

Lemma not_batch_line_factor l it : errs not_batch (line_factor l it).
Proof. unfold line_factor. errs_solve. intros w e w' _. done. Qed.
Lemma not_batch_lock t b : errs not_batch (AcquireBillAdvisoryLock t b).
Proof. unfold AcquireBillAdvisoryLock. by errs_solve. Qed.
#[local] Hint Resolve not_batch_line_factor not_batch_lock : errs.

Lemma not_batch_wrap {A} s (m : M A) : errs not_batch (on_err (EWrap s) m).
Proof. intros w e w' (e0 & _ & ->)%on_err_Err. by intros l. Qed.


Lemma not_batch_resolvePayType m e : resolvePayType m = inl e -> not_batch e.
Proof. unfold resolvePayType. intros H. by repeat case_match; simplify_eq. Qed.

Lemma not_batch_absurd l : not_batch (EBatchInsufficient l) -> False.
Proof. intros H. by apply (H l). Qed.

(** [m] ran, so the failure came later. *)
Ltac not_here H :=
  let G := fresh in
  apply bind_Err in H as [H|(? & ? & G & H)];
  [errs_in H not_batch; eauto using not_batch_resolvePayType; try done; destruct (not_batch_absurd _ H)|minv G].

Lemma approve_sale_batch req w l w' :
  ApproveSale_Execute req w = (Err (EBatchInsufficient l), w') ->
  w_db w' = w_db w /\ exists w1 w2, w_db w1 = w_db w /\
    ApproveSale_executeInTx req w1 = (Err (EBatchInsufficient l), w2).
Proof.
  intros H. unfold ApproveSale_Execute in H.
  not_here H. not_here H. not_here H. not_here H.
  apply bind_Err in H as [H|(al & w1 & Hal & H)].
  { unfold already_approved in H. errs_in H not_batch. destruct (not_batch_absurd _ H). }
  apply already_approved_Ok in Hal as [E _].
  destruct al; [unfold alreadyApprovedResult in H; errs_in H not_batch; [done|destruct (not_batch_absurd _ H)]|].
  apply WithTx_Err in H as [E' [[s Hs]|[w2 H]]]; [done|]. split; [congruence|].
  apply bind_Err in H as [H|(? & ? & _ & H)]; [|done]. by exists (bump w1), w2.
Qed.

Lemma approve_sale_in_tx_batch req w l w' r :
  ApproveSale_executeInTx req w = (Err (EBatchInsufficient l), w') ->
  aq_allow_negative req = false ->
  live_row (aq_tenant req) (aq_bill req) (w_db w) = Some r ->
  l <> [] /\
  exists k lines, (bh_warehouse (hr_head r) = None \/ bh_warehouse (hr_head r) = Some k) /\
    Forall2 (base_line (w_db w)) (lines_of (aq_tenant req) (aq_bill req) (w_db w)) lines /\
    Forall2 same_short l (short_ref (fun p => val (on_hand (w_db w) (aq_tenant req, p, k))) lines).
Proof.
  intros H Ha Hr. unfold ApproveSale_executeInTx in H.
  apply bind_Err in H as [H|(? & w1 & H1 & H)]; [apply on_err_Err in H as (? & _ & ?); done|].
  minv H1. pose proof (keeps_run _ _ _ _ _ (keeps_AcquireBillAdvisoryLock eq _ _) H1) as [E1 _].
  apply bind_Err in H as [H|(h & w2 & H2 & H)]; [apply not_batch_wrap in H; destruct (not_batch_absurd _ H)|].
  minv H2. apply scan_head_Ok in H2 as (-> & r0 & Hr0 & ->).
  rewrite <- E1 in Hr0. assert (r0 = r) as -> by congruence. clear Hr0. simpl in H.
  destruct (Z.eqb_spec (bh_status (hr_head r)) StatusApproved) as [Es|Es].
  { unfold alreadyApprovedResult in H. errs_in H not_batch; [done|]. destruct (not_batch_absurd _ H). }
  not_here H. not_here H. not_here H.
  apply bind_Err in H as [H|(items & w5 & H5 & H)]; [apply not_batch_wrap in H; destruct (not_batch_absurd _ H)|].
  minv H5. apply GetBillItems_Ok in H5 as [-> E5]. wsimpl. rewrite <- E1 in *.
  apply bind_Err in H as [H|(k & w7 & H7 & H)]; [apply not_batch_wrap in H; destruct (not_batch_absurd _ H)|].
  minv H7. eapply resolveApprovalWarehouse_Ok in H7 as (r1 & E7 & S1 & _ & _ & _ & _ & Hk0);
    [|rewrite E5; exact Hr|done].
  apply bind_Err in H as [H|(acc & w8 & H8 & H)].
  { unfold approve_sale_line in H. errs_in H not_batch; try done. destruct (not_batch_absurd _ H). }
  apply approve_sale_lines_short in H8 as (lines & l' & Hb & Hl & Hs); [|done].
  rewrite E7, E5 in Hb, Hs.
  apply bind_Err in H as [H|(? & w9 & H9 & H)].
  - unfold guard_err in H. destruct (negb _) eqn:Hn in H; [|done]. injection H as <- _.
    rewrite Hl in *. simpl in Hn |- *. split; [by destruct l'|]. by exists k, lines.
  - exfalso. not_here H. apply bind_Err in H as [H|(? & ? & ? & H)]; [apply not_batch_wrap in H; destruct (not_batch_absurd _ H)|].
    apply bind_Err in H as [H|(? & ? & ? & H)]; [|done].
    destruct (dgt (aq_paid req) dzero); [|done]. apply not_batch_wrap in H; destruct (not_batch_absurd _ H).
Qed.

(** C11: a sale that is refused for lack of stock is refused with every line that is short, and
    no other: taking the lines in order, each against what the earlier lines leave, exactly the
    lines asking for more than the book holds are reported, with what it held and what was
    asked.  Nothing is booked. *)
Theorem sale_shortages_complete req w l w' r :
  ApproveSale_Execute req w = (Err (EBatchInsufficient l), w') ->
  aq_allow_negative req = false ->
  live_row (aq_tenant req) (aq_bill req) (w_db w) = Some r ->
  w_db w' = w_db w /\ l <> [] /\
  exists k lines, (bh_warehouse (hr_head r) = None \/ bh_warehouse (hr_head r) = Some k) /\
    Forall2 (base_line (w_db w)) (lines_of (aq_tenant req) (aq_bill req) (w_db w)) lines /\
    Forall2 same_short l (short_ref (fun p => val (on_hand (w_db w) (aq_tenant req, p, k))) lines).
Proof.
  intros H Ha Hr. apply approve_sale_batch in H as (E & w1 & w2 & E1 & H).
  split; [done|]. rewrite <- E1 in *. by eapply approve_sale_in_tx_batch.
Qed.

(** ** Idempotence *)

Lemma approve_sale_atomic req : atomic (ApproveSale_Execute req).
Proof. unfold ApproveSale_Execute, alreadyApprovedResult. atomic_solve. Qed.
Lemma approve_purchase_atomic req : atomic (ApprovePurchase_ExecuteWithPayment req).
Proof. unfold ApprovePurchase_ExecuteWithPayment, check, alreadyPaidApprovalResult. atomic_solve. Qed.

(** approving a bill again, as a sale or as a purchase, never moves stock or money a second
    time: the database is unchanged, and a repeat that carries a payment does not report
    success. *)
Theorem approve_again_no_effect t b r :
  (forall req w x w', ApproveSale_Execute req w = (x, w') ->
     aq_tenant req = t -> aq_bill req = b -> live_row t b (w_db w) = Some r ->
     bh_status (hr_head r) = StatusApproved ->
     w_db w' = w_db w /\ (0 < val (aq_paid req) -> forall a, x <> Ok a)) /\
  (forall req w x w', ApprovePurchase_ExecuteWithPayment req w = (x, w') ->
     ap_tenant req = t -> ap_bill req = b -> live_row t b (w_db w) = Some r ->
     bh_status (hr_head r) = StatusApproved ->
     w_db w' = w_db w /\ (0 < val (ap_paid req) -> forall a, x <> Ok a)).
Proof.
  split; intros req w x w' H <- <- Hr Hs.
  - destruct x as [u|e|s]; [|split; [|done]; by eapply approve_sale_atomic..].
    apply approve_sale_cases in H as (_ & r0 & Hr0 & D). assert (r0 = r) as -> by congruence.
    destruct D as [(_ & ? & ?)|(_ & Hd & _)]; [|by rewrite Hs in Hd]. split; [done|]. intros; lra.
  - destruct x as [u|e|s]; [|split; [|done]; by eapply approve_purchase_atomic..].
    apply approve_purchase_cases in H as (_ & r0 & Hr0 & D). assert (r0 = r) as -> by congruence.
    destruct D as [(_ & ? & ?)|(_ & Hd & _)]; [|by rewrite Hs in Hd]. split; [done|]. intros; lra.
Qed.
End approve_laws.

(** ** On the small shop *)

(** Two teas at 5.00, paid in cash on approval. *)
Definition ex_tea_sale : CreateSaleRequest :=
  mkCreateSaleRequest ex_tenant ex_user (Some ex_customer) None time_zero (D 0 0) (D 0 0) ""
    [mkSaleItem ex_p1 ex_wh None "pc" 1 (D 2 0) (D 5 0) ""].
Definition ex_tea_world : World := (CreateSale_Execute ex_tea_sale ex_shelf).2.
Definition ex_tea_bill : uuid := created (CreateSale_Execute ex_tea_sale ex_shelf).
Definition ex_tea_approve : ApproveSaleRequest :=
  mkApproveSaleRequest ex_tenant ex_tea_bill ex_user (D 10 0) PayTypeCash "" time_zero false false.
Definition ex_tea_sold : World := (ApproveSale_Execute (calc := WACCalculator) ex_tea_approve ex_tea_world).2.

Definition ex_po_approve : ApprovePurchaseRequest :=
  mkApprovePurchaseRequest ex_tenant ex_po_bill ex_user (D 20 0) PayTypeBank false.

(** The cups are out of stock. *)
Definition ex_sale_approve : ApproveSaleRequest :=
  mkApproveSaleRequest ex_tenant ex_sale_bill ex_user (D 0 0) "" "" time_zero false false.

Definition is_draft (r : HeadRow) : bool := Z.eqb (bh_status (hr_head r)) StatusDraft.
Definition is_approved (r : HeadRow) : bool := Z.eqb (bh_status (hr_head r)) StatusApproved.

Lemma is_draft_not_approved r : is_draft r = true -> bh_status (hr_head r) <> StatusApproved.
Proof. unfold is_draft. by intros ->%Z.eqb_eq. Qed.
Lemma is_approved_status r : is_approved r = true -> bh_status (hr_head r) = StatusApproved.
Proof. apply Z.eqb_eq. Qed.

Lemma approve_purchase_effect_witness :
  exists u w' r, ApprovePurchase_ExecuteWithPayment (calc := WACCalculator) ex_po_approve ex_po_world = (Ok u, w') /\
    approval_effect ex_tenant ex_po_bill ex_user (D 20 0) PayTypeBank DirectionIn RefPurchase
      (w_db ex_po_world) (w_db w') r.
Proof.
  run_ok (ApprovePurchase_ExecuteWithPayment (calc := WACCalculator) ex_po_approve ex_po_world) as u w' H.
  destruct (row_run (live_row ex_tenant ex_po_bill (w_db ex_po_world)) is_draft) as (r & Hr & Hd); [reflexivity|].
  exists u, w', r. split; [exact H|].
  exact (proj1 (approve_purchase_effect (calc := WACCalculator) ex_po_approve ex_po_world u w' r H Hr (is_draft_not_approved r Hd))).
Defined.

Lemma approve_sale_effect_witness :
  exists u w' r, ApproveSale_Execute (calc := WACCalculator) ex_tea_approve ex_tea_world = (Ok u, w') /\
    approval_effect ex_tenant ex_tea_bill ex_user (D 10 0) PayTypeCash DirectionOut RefSale
      (w_db ex_tea_world) (w_db w') r /\
    sale_goods ex_tenant ex_tea_bill (w_db ex_tea_world) (w_db w').
Proof.
  run_ok (ApproveSale_Execute (calc := WACCalculator) ex_tea_approve ex_tea_world) as u w' H.
  destruct (row_run (live_row ex_tenant ex_tea_bill (w_db ex_tea_world)) is_draft) as (r & Hr & Hd); [reflexivity|].
  exists u, w', r. split; [exact H|].
  exact (approve_sale_effect (calc := WACCalculator) ex_tea_approve ex_tea_world u w' r H Hr (is_draft_not_approved r Hd)).
Defined.

(** The shortages a run reports. *)
Definition shortages {A} (r : res error A * World) : list InsufficientStockError :=
  match r.1 with Err (EBatchInsufficient l) => l | _ => [] end.

Lemma shortages_run {A} (r : res error A * World) n :
  length (shortages r) = S n -> exists l w', r = (Err (EBatchInsufficient l), w') /\ shortages r = l.
Proof. destruct r as [[a|[]|x] w']; unfold shortages; simpl; intros; try done. by eexists _, _. Qed.

Lemma sale_shortages_complete_witness :
  exists l w' r, ApproveSale_Execute (calc := WACCalculator) ex_sale_approve ex_sale_world = (Err (EBatchInsufficient l), w') /\
    live_row ex_tenant ex_sale_bill (w_db ex_sale_world) = Some r /\ w_db w' = w_db ex_sale_world /\ l <> [] /\
    ise_product <$> l = [ex_p2].
Proof.
  destruct (shortages_run (ApproveSale_Execute (calc := WACCalculator) ex_sale_approve ex_sale_world) 0)
    as (l & w' & H & Hl); [reflexivity|].
  destruct (row_run (live_row ex_tenant ex_sale_bill (w_db ex_sale_world)) is_draft) as (r & Hr & _); [reflexivity|].
  exists l, w', r. split; [exact H|]. split; [exact Hr|].
  destruct (sale_shortages_complete (calc := WACCalculator) ex_sale_approve ex_sale_world l w' r H eq_refl Hr) as (E & Hn & _).
  split; [exact E|]. split; [exact Hn|]. rewrite <- Hl. reflexivity.
Defined.

Lemma approve_again_no_effect_witness :
  exists r, live_row ex_tenant ex_tea_bill (w_db ex_tea_sold) = Some r /\
    w_db (ApproveSale_Execute (calc := WACCalculator) ex_tea_approve ex_tea_sold).2 = w_db ex_tea_sold /\
    forall a, (ApproveSale_Execute (calc := WACCalculator) ex_tea_approve ex_tea_sold).1 <> Ok a.
Proof.
  destruct (row_run (live_row ex_tenant ex_tea_bill (w_db ex_tea_sold)) is_approved) as (r & Hr & Hs); [reflexivity|].
  exists r. split; [exact Hr|].
  destruct (proj1 (approve_again_no_effect (calc := WACCalculator) ex_tenant ex_tea_bill r) ex_tea_approve ex_tea_sold _ _
    (surjective_pairing _) eq_refl eq_refl Hr (is_approved_status r Hs)) as [E Hn].
  split; [exact E|]. apply Hn. compute_goal.
Defined.
