(* ===== verification/BillEdit.v ===== *)
(** What the edits of a draft did: the update use cases, cancel and restore of BillDraft.

    An update replaces the lines of a draft and recomputes its money; it keeps the bill's
    identity, its currency and rate and its status.  Cancel and restore move the status. *)
From S2P Require Import Prelude Rounding Decimal SDec Types StockDomain BillDomain GoTime Store StockRepo StockCalc StockRecord BillRepo BillRows BillDraft BillApprove Concrete.
From stdpp Require Import base tactics strings gmap list.
From Stdlib Require Import ZArith QArith Qminmax Lqa Lia.

Section edit_laws.
Context {ops : DecimalOps} {laws : DecimalLaws ops} {env : Env} {wiring : Wiring}.
Local Open Scope Q_scope.

(** ** UpdateBill *)

(** The columns UPDATE bill_head SET .. writes. *)
Definition redraft (head h : BillHead) : BillHead :=
  with_draft h (bh_partner head) (bh_warehouse head) (bh_date head) (num4 (bh_subtotal head))
    (num4 (bh_shipping_fee head)) (num4 (bh_tax head)) (num4 (bh_total head))
    (num4 (if is_zero (bh_amount_local head) then bh_total head else bh_amount_local head))
    (bh_remark head) (bh_updated_at head).

Definition other_lines (t b : uuid) (d : DB) : list ItemRow :=
  select (fun r => negb (N.eqb (bi_head (ir_item r)) b && N.eqb (bi_tenant (ir_item r)) t)) (db_items d).

(** One draft was rewritten and its lines replaced. *)
Record redrafted (head : BillHead) (items : list BillItem) (d d' : DB) (r : HeadRow) : Prop := {
  rd_db : d' = set_items (put_head (bh_id head) (map_head (redraft head) r) d)
                 (other_lines (bh_tenant head) (bh_id head) d ++ new_rows items);
  rd_paid : val (bh_paid (hr_head r)) <= val (num4 (bh_total head));
  rd_ids : NoDup (bi_id <$> items);
  rd_new : forall o it, o ∈ other_lines (bh_tenant head) (bh_id head) d -> it ∈ items ->
             bi_id (ir_item o) <> bi_id it;
}.

Lemma UpdateBill_Ok head items w u w' r :
  live_row (bh_tenant head) (bh_id head) (w_db w) = Some r ->
  UpdateBill head items w = (Ok u, w') -> redrafted head items (w_db w) (w_db w') r.
Proof.
  intros Hr H. unfold UpdateBill in H.
  apply bind_Ok in H as (? & w1 & H1 & H). minv H1.
  unfold update_row_checked in H1. rewrite Hr in H1. destruct (head_checks _) eqn:Hc; simplify_eq.
  apply bind_Ok in H as (? & w2 & H2 & H). minv H2. wsimpl.
  apply insertItems_Ok in H as (E & Hn & Hnew). wsimpl. constructor; try done.
  unfold head_checks in Hc. simpl in Hc. case_bool_in Hc; simplify_eq. by dec_tests.
Qed.

(** ** update_purchase.go *)

Definition fee (x : Q) : Q := if Qlt_le_dec x 0 then 0 else x.

Lemma clamp_fee_val x : val (clamp_fee x) == fee (val x).
Proof.
  unfold clamp_fee, fee. destruct (is_negative x) eqn:E, (Qlt_le_dec (val x) 0); dec_tests; try done.
  - by rewrite val_zero.
  - exfalso. lra.
  - exfalso. lra.
Qed.

(** The unit price of an old line, in the unit of the new one. *)
Definition kept_price (d : DB) (old : list BillItem) (x : CreatePurchaseItemInput) (p : dec) : Prop :=
  match kept_line old x with
  | None => p = dzero
  | Some o =>
      if sameUnit (bi_unit o) (ci_unit x) then p = bi_unit_price o
      else p = dzero \/ exists from to_,
        unit_factor d (ci_product x) (bi_unit o) = Some from /\ unit_factor d (ci_product x) (ci_unit x) = Some to_ /\
        0 < val from /\ 0 < val to_ /\
        val p == qround 6 (qround 16 (val (bi_unit_price o) * val to_ / val from))
  end.

Lemma unitFactor_Ok p u w f w' :
  unitFactor p u w = (Ok f, w') ->
  w_db w' = w_db w /\ forall x, f = Some x -> unit_factor (w_db w) p u = Some x /\ 0 < val x.
Proof.
  unfold unitFactor. intros H. destruct u as [u|].
  2:{ minv H. split; [done|]. intros x [= <-]. split; [done|]. rewrite val_int. done. }
  destruct has_units; [|by minv H]. apply bind_Ok in H as (y & w1 & H1 & H). minv H1. minv H.
  destruct y as [e|f0].
  - split; [|done]. by destruct (keeps_run _ _ _ _ _ (keeps_GetConversionFactor eq p u) H1).
  - apply GetConversionFactor_Ok in H1 as [E Hf]. split; [done|].
    destruct (is_positive f0) eqn:Hp; intros; simplify_eq. split; [done|dec].
Qed.

Lemma keptPrice_Ok old x w p w' :
  keptPrice old x w = (Ok p, w') -> w_db w' = w_db w /\ kept_price (w_db w) old x p.
Proof.
  unfold keptPrice, kept_price. intros H. destruct (kept_line old x) as [o|]; [|by minv H].
  destruct (sameUnit _ _); [by minv H|].
  apply bind_Ok in H as (f & w1 & H1 & H). apply unitFactor_Ok in H1 as [E1 H1].
  destruct f as [f|]; [|minv H; by split; [|left]].
  apply bind_Ok in H as (g & w2 & H2 & H). apply unitFactor_Ok in H2 as [E2 H2].
  destruct g as [g|]; [|minv H; split; [congruence|by left]].
  destruct (H1 f eq_refl) as [Hf Pf]. destruct (H2 g eq_refl) as [Hg Pg]. rewrite E1 in Hg.
  minv H. split; [congruence|]. right. exists f, g. split_and!; try done.
  rewrite val_round, val_div, val_mul by lra. done.
Qed.

(** The price an update gives a line. *)
Definition priced (req : UpdatePurchaseDraftRequest) (d : DB) (x : CreatePurchaseItemInput) (p : dec) : Prop :=
  if up_keep_prices req then kept_price d (lines_of (up_tenant req) (up_bill req) d) x p else p = ci_price x.

Definition updated_line (req : UpdatePurchaseDraftRequest) (d : DB) (x : CreatePurchaseItemInput) (it : BillItem) : Prop :=
  line_of (up_tenant req) (up_bill req) (ci_product x) (ci_qty x) (bi_unit_price it) it /\
  0 < val (ci_qty x) /\ priced req d x (bi_unit_price it).

Lemma update_purchase_lines_Ok req old l acc w acc' w' :
  (up_keep_prices req = true -> old = lines_of (up_tenant req) (up_bill req) (w_db w)) ->
  foldM (update_purchase_line req old) l acc w = (Ok acc', w') -> sums acc ->
  w_db w' = w_db w /\ sums acc' /\ exists items, acc'.2 = acc.2 ++ items /\
    Forall2 (updated_line req (w_db w)) l items.
Proof.
  intros Ho. revert acc w Ho. induction l as [|x l IH]; intros acc w Ho H Hs; cbn [foldM] in H.
  { minv H. split_and!; [done|done|]. exists []. split; [by rewrite app_nil_r|constructor]. }
  apply bind_Ok in H as (a1 & w1 & H1 & H). unfold update_purchase_line in H1.
  mguard H1 as G1. mguard H1 as G2. apply bind_Ok in H1 as (p & w2 & Hp & H1).
  assert (w_db w2 = w_db w /\ priced req (w_db w) x p) as [E2 Hpr].
  { unfold priced. destruct (up_keep_prices req); [|by minv Hp].
    rewrite <- (Ho eq_refl). by apply keptPrice_Ok in Hp. }
  apply new_line_Ok in H1 as (E1 & it & Hit & Ha & Hb).
  apply IH in H as (E & Hs' & items & Hi & Hl); [|by rewrite E1, E2|].
  - rewrite E1, E2 in *. split_and!; [done|done|]. exists (it :: items).
    rewrite Hi, Hb, <- app_assoc. split; [done|]. constructor; [|done].
    pose proof Hit as (? & ? & ? & ? & Hx & ?). unfold updated_line. rewrite Hx. split_and!; [done| |done].
    apply orb_false_iff in G2 as [? ?]. dec_tests.
    match goal with H : ~ val _ == 0 |- _ => destruct (Qlt_le_dec 0 (val (ci_qty x))); [done|exfalso; apply H; lra] end.
  - unfold sums in *. rewrite Ha, Hb, val_add, Hs. unfold line_sum. rewrite !fmap_app, qsum_app. simpl.
    destruct Hit as (_ & _ & _ & _ & _ & ->). ring.
Qed.

(** a successful purchase update rewrites one live draft of the tenant, the creator's own
    when so restricted, and replaces its lines by the requested ones: each priced as asked, or
    when prices are kept at the old line's price carried to the new unit.  The amount is the
    lines plus the fees (the stored ones when kept, never negative) rounded to cents, the total
    that amount at the stored rate; number, type, currency, rate, status and every other bill
    stay. *)
Theorem update_purchase_effect req w h w' :
  keyed (w_db w) ->
  UpdatePurchaseDraft_Execute req w = (Ok h, w') ->
  exists r items, live_row (up_tenant req) (up_bill req) (w_db w) = Some r /\
    bh_id h = up_bill req /\ bh_tenant h = up_tenant req /\
    bh_status (hr_head r) = StatusDraft /\
    (up_only_creator req = uuid_nil \/ bh_creator (hr_head r) = up_only_creator req) /\
    redrafted h items (w_db w) (w_db w') r /\
    Forall2 (updated_line req (w_db w)) (up_items req) items /\
    bh_partner h = up_partner req /\ bh_warehouse h = up_warehouse req /\
    let old := hr_head r in
    let shipping := if up_keep_prices req then bh_shipping_fee old else up_shipping req in
    let tax := if up_keep_prices req then bh_tax old else up_tax req in
    let amount := qround 2 (line_sum items + fee (val shipping) + fee (val tax)) in
    val (bh_amount_local h) == amount /\
    if foreign old then 0 < val (bh_rate old) /\ val (bh_total h) == qround 2 (amount * val (bh_rate old))
    else val (bh_total h) == amount.
Proof.
  intros K H. unfold UpdatePurchaseDraft_Execute in H.
  mguard H as G1. mguard H as G2. mguard H as G3.
  apply bind_Ok in H as (? & w1 & Hr & H). apply validateRefs_Ok in Hr as (E1 & _).
  apply bind_Ok in H as (? & w2 & Hr & H). apply validatePartner_Ok in Hr as (E2 & _).
  apply WithTx_Ok in H as (w3 & H & -> & _). unfold update_purchase_body in H.
  apply bind_Ok in H as (h0 & w4 & H4 & H). minv H4. apply scan_head_Ok in H4 as (-> & r & Hr & ->).
  wsimpl. rewrite E2, E1 in Hr. exists r.
  mguard H as G4. mguard H as G5. apply negb_false_iff, Z.eqb_eq in G5. simpl in G4, G5.
  apply bind_Ok in H as (old & w5 & H5 & H).
  assert (w_db w5 = w_db w /\ (up_keep_prices req = true -> old = lines_of (up_tenant req) (up_bill req) (w_db w))) as [E5 Ho].
  { destruct (up_keep_prices req); [|minv H5; by rewrite <- E1, <- E2].
    minv H5. apply GetBillItems_Ok in H5 as [-> E5]. wsimpl. split; [congruence|]. by rewrite E2, E1. }
  apply bind_Ok in H as ([sub items] & w6 & H6 & H).
  apply update_purchase_lines_Ok in H6 as (E6 & Hs & its & Hi & Hl); [|by rewrite E5|exact sums_nil].
  simpl in Hi. subst its. rewrite E5 in *. mguard H as G6.
  apply bind_Ok in H as (now & w7 & G & H). minv G. apply bind_Ok in H as (? & w8 & H8 & H). minv H8. minv H.
  pose proof (live_row_id _ _ _ _ K Hr) as Hid. pose proof (live_row_Some _ _ _ _ Hr) as (_ & Ht & _).
  apply (UpdateBill_Ok _ _ _ _ _ r) in H8; [|by wsimpl; simpl; rewrite Hid, Ht, E6].
  wsimpl. rewrite E6 in *. exists items. split_and!; try done.
  - destruct (N.eqb_spec (up_only_creator req) uuid_nil) as [|Hn]; [by left|right].
    unfold uuid_is_nil in G4. apply N.eqb_neq in Hn. rewrite Hn in G4. simpl in G4.
    by apply negb_false_iff, N.eqb_eq in G4.
  - unfold sums in Hs. simpl in Hs |- *. rewrite val_round, !val_add, !clamp_fee_val, Hs. done.
  - unfold foreign in *. simpl in *. unfold sums in Hs. simpl in Hs.
    destruct (negb (String.eqb (bh_currency (hr_head r)) "") && _) eqn:Hfo; simpl in *; [split; [dec|]|].
    + by rewrite val_round, val_mul, val_round, !val_add, !clamp_fee_val, Hs.
    + by rewrite val_round, !val_add, !clamp_fee_val, Hs.
Qed.
(** *** A client that may not see prices cannot set them

    Two requests that agree on everything but money. *)
Definition forget_price (x : CreatePurchaseItemInput) : CreatePurchaseItemInput :=
  mkCreatePurchaseItemInput (ci_product x) (ci_unit x) (ci_unit_name x) (ci_line_no x) (ci_qty x) dzero.

Definition forget_money (req : UpdatePurchaseDraftRequest) : UpdatePurchaseDraftRequest :=
  mkUpdatePurchaseDraftRequest (up_tenant req) (up_bill req) (up_partner req) (up_warehouse req) (up_date req)
    dzero dzero (up_remark req) (forget_price <$> up_items req) (up_keep_prices req) (up_only_creator req).

Lemma foldM_ext {A X Y} (f : A -> X -> M A) (g : A -> Y -> M A) (R : X -> Y -> Prop) l k a w :
  (forall a x y w, R x y -> f a x w = g a y w) -> Forall2 R l k -> foldM f l a w = foldM g k a w.
Proof.
  intros Hf H. revert a w. induction H as [|x y l k Hx _ IH]; intros a w; [done|]. simpl.
  unfold mbind, stm_bind. rewrite (Hf _ _ _ _ Hx). by destruct (g a y w) as [[]].
Qed.

Lemma bind_ext {A B} (m m' : M A) (k k' : A -> M B) w :
  m w = m' w -> (forall a w, k a w = k' a w) -> (m ≫= k) w = (m' ≫= k') w.
Proof. intros Hm Hk. unfold mbind, stm_bind. rewrite Hm. destruct (m' w) as [[]]; [apply Hk|done..]. Qed.

Lemma update_purchase_line_kept req req' old acc x y w :
  forget_money req = forget_money req' -> up_keep_prices req = true -> forget_price x = forget_price y ->
  update_purchase_line req old acc x w = update_purchase_line req' old acc y w.
Proof.
  destruct req, req', x, y. unfold forget_money, forget_price. simpl.
  intros H -> Hx. injection H as <- <- _ _ _ _ _ <- _. injection Hx as <- <- <- <- <-.
  unfold update_purchase_line, keptPrice, kept_line. simpl. reflexivity.
Qed.

(** when an update keeps prices, what the client sent as prices and fees has no influence:
    two requests that differ in nothing else run alike, step for step. *)
Theorem update_keep_prices_ignores_client req req' w :
  up_keep_prices req = true -> forget_money req = forget_money req' ->
  UpdatePurchaseDraft_Execute req w = UpdatePurchaseDraft_Execute req' w.
Proof.
  intros Hk Hf. pose proof Hf as Hf'. destruct req as [t b p k dt sh tx rm l kp oc], req' as [t' b' p' k' dt' sh' tx' rm' l' kp' oc'].
  unfold forget_money in Hf'. simpl in Hf', Hk. injection Hf' as <- <- <- <- <- <- Hl <- <-. subst kp.
  assert (Forall2 (fun x y => forget_price x = forget_price y) l l') as Hl2.
  { clear -Hl. revert l' Hl. induction l as [|x l IH]; intros [|y l'] Hl; try done; constructor.
    - exact (f_equal (fun l => default (forget_price x) (head l)) Hl).
    - apply IH. exact (f_equal tail Hl). }
  assert (ci_product <$> l = ci_product <$> l') as Hp.
  { clear -Hl2. induction Hl2 as [|x y l l' H _ IH]; csimpl; [done|]. f_equal; [by injection H|done]. }
  assert (length l = length l') as Hn by (by eapply Forall2_length).
  assert (forall w, update_purchase_body (mkUpdatePurchaseDraftRequest t b p k dt sh tx rm l true oc) w =
    update_purchase_body (mkUpdatePurchaseDraftRequest t b p k dt sh' tx' rm l' true oc) w) as Hb.
  { intros w0. unfold update_purchase_body. simpl.
    do 4 (apply bind_ext; [done|intros ? ?]). apply bind_ext; [|intros ? ?; reflexivity].
    eapply foldM_ext; [|exact Hl2]. intros ? ? ? ? Hxy. by apply update_purchase_line_kept. }
  unfold UpdatePurchaseDraft_Execute. simpl. rewrite Hp, Hn.
  do 5 (apply bind_ext; [done|intros ? ?]). unfold WithTx. by rewrite Hb.
Qed.

(** ** update_sale.go *)

(** a successful sale update rewrites one live draft sale of the tenant, and of no other
    kind, and replaces its lines by the requested ones; its total is the lines plus the fees
    rounded to cents; every other bill stays. *)
Theorem update_sale_effect req w h w' :
  keyed (w_db w) ->
  UpdateSaleDraft_Execute req w = (Ok h, w') ->
  exists r items, live_row (us_tenant req) (us_bill req) (w_db w) = Some r /\
    bh_id h = us_bill req /\ bh_tenant h = us_tenant req /\
    bh_status (hr_head r) = StatusDraft /\
    bh_type (hr_head r) = BillTypeSale /\ bh_sub_type (hr_head r) = BillSubTypeSale /\
    redrafted h items (w_db w) (w_db w') r /\
    Forall2 (fun x it => line_of (us_tenant req) (us_bill req) (si_product x) (si_qty x) (si_price x) it /\
      si_product x <> uuid_nil /\ 0 < val (si_qty x) /\ 0 <= val (si_price x)) (us_items req) items /\
    bh_warehouse h = resolve_warehouse (us_warehouse req) (us_items req) /\
    val (bh_total h) == request_total si_qty si_price (us_items req) (us_shipping req) (us_tax req) /\
    0 <= val (us_shipping req) /\ 0 <= val (us_tax req).
Proof.
  intros K H. unfold UpdateSaleDraft_Execute in H.
  mguard H as G1. mguard H as G2. mguard H as G3. mguard H as G4. mguard H as G5.
  apply bind_Ok in H as ([sub items] & w2 & Hl & H).
  apply sale_lines_Ok in Hl as (E2 & Hs & its & Hi & Hl); [|exact sums_nil]. simpl in Hi. subst its.
  apply bind_Ok in H as (? & w3 & Hr & H). apply validateRefs_Ok in Hr as (E3 & _).
  apply bind_Ok in H as (? & w4 & Hr & H). apply validatePartner_Ok in Hr as (E4 & _).
  apply WithTx_Ok in H as (w5 & H & -> & _). unfold update_sale_body in H.
  apply bind_Ok in H as (h0 & w6 & H6 & H). minv H6. apply scan_head_Ok in H6 as (-> & r & Hr & ->).
  wsimpl. rewrite E4, E3, E2 in Hr. exists r, items. mguard H as G6. mguard H as G7.
  apply negb_false_iff, Z.eqb_eq in G7. apply orb_false_iff in G6 as [G6 G6'].
  apply negb_false_iff, String.eqb_eq in G6. apply negb_false_iff, String.eqb_eq in G6'. simpl in G6, G6', G7.
  apply bind_Ok in H as (now & w7 & G & H). minv G. apply bind_Ok in H as (? & w8 & H8 & H). minv H8. minv H.
  pose proof (live_row_id _ _ _ _ K Hr) as Hid. pose proof (live_row_Some _ _ _ _ Hr) as (_ & Ht & _).
  apply (UpdateBill_Ok _ _ _ _ _ r) in H8; [|by wsimpl; simpl; rewrite Hid, Ht, E4, E3, E2].
  wsimpl. rewrite E4, E3, E2 in *. split_and!; try done; [|dec|dec].
  eapply request_total_val; [|exact Hl|exact Hs]. by intros ? ? [(_ & _ & _ & _ & _ & ->) _].
Qed.

(** ** cancel_purchase.go, restore_purchase.go *)

(** One bill's status moved; nothing else of the document did. *)
Definition moved (b : uuid) (status : BillStatus) (rev : Z) (d d' : DB) (r : HeadRow) : Prop :=
  exists r', d' = put_head b r' d /\ same_row r r' /\ bh_status (hr_head r') = status /\
    bh_revision (hr_head r') = rev /\ bh_paid (hr_head r') = bh_paid (hr_head r) /\
    bh_warehouse (hr_head r') = bh_warehouse (hr_head r).

Lemma draft_to_cancelled s : BillStatus_CanTransitionTo s StatusCancelled = true -> s = StatusDraft.
Proof. unfold BillStatus_CanTransitionTo. by destruct (Z.eqb_spec s StatusDraft). Qed.

Lemma cancel_cases t b w u w' :
  CancelPurchase_Execute t b w = (Ok u, w') ->
  exists r, live_row t b (w_db w) = Some r /\
    ((bh_status (hr_head r) = StatusCancelled /\ w_db w' = w_db w) \/
     (bh_status (hr_head r) = StatusDraft /\
      moved b StatusCancelled (bh_revision (hr_head r)) (w_db w) (w_db w') r)).
Proof.
  intros H. unfold CancelPurchase_Execute in H. mguard H as G1. mguard H as G2.
  apply WithTx_Ok in H as (w1 & H & -> & _). unfold cancel_body in H.
  apply bind_Ok in H as (h & w2 & H2 & H). minv H2. apply scan_head_Ok in H2 as (-> & r & Hr & ->).
  wsimpl. exists r. split; [done|]. mguard H as G3. simpl in H.
  destruct (Z.eqb_spec (bh_status (hr_head r)) StatusCancelled) as [Es|Es]; [minv H; by left|right].
  mguard H as G4. apply negb_false_iff, draft_to_cancelled in G4. split; [done|]. minv H.
  eapply UpdateBillStatus_Ok in H as [now E]; [|exact Hr]. eexists. split; [exact E|]. by split_and!.
Qed.

Lemma restore_cases t b w u w' :
  RestorePurchase_Execute t b w = (Ok u, w') ->
  exists r, live_row t b (w_db w) = Some r /\
    ((bh_status (hr_head r) = StatusDraft /\ w_db w' = w_db w) \/
     (bh_status (hr_head r) = StatusCancelled /\ (bh_revision (hr_head r) < 1)%Z /\
      moved b StatusDraft (bh_revision (hr_head r) + 1)%Z (w_db w) (w_db w') r)).
Proof.
  intros H. unfold RestorePurchase_Execute in H. mguard H as G1. mguard H as G2.
  apply WithTx_Ok in H as (w1 & H & -> & _). unfold restore_body in H.
  apply bind_Ok in H as (h & w2 & H2 & H). minv H2. apply scan_head_Ok in H2 as (-> & r & Hr & ->).
  wsimpl. exists r. split; [done|]. mguard H as G3. simpl in H.
  destruct (Z.eqb_spec (bh_status (hr_head r)) StatusDraft) as [Es|Es]; [minv H; by left|right].
  mguard H as G4. mguard H as G5. apply negb_false_iff, Z.eqb_eq in G4. apply Z.leb_gt in G5. simpl in G4, G5.
  split_and!; [done|done|]. minv H.
  eapply UpdateBillStatus_Ok in H as [now E]; [|exact Hr]. eexists. split; [exact E|]. by split_and!.
Qed.
End edit_laws.

(** ** On the small shop *)

(** Five teas instead of three; the client sends no price. *)
Definition ex_up : UpdatePurchaseDraftRequest :=
  mkUpdatePurchaseDraftRequest ex_tenant ex_po_bill (Some ex_supplier) (Some ex_wh) time_zero (D 0 0) (D 0 0) ""
    [mkCreatePurchaseItemInput ex_p1 None "pc" 1 (D 5 0) (D 0 0)] true ex_user.
(** The same, with a price and a fee smuggled in. *)
Definition ex_up_priced : UpdatePurchaseDraftRequest :=
  mkUpdatePurchaseDraftRequest ex_tenant ex_po_bill (Some ex_supplier) (Some ex_wh) time_zero (D 9 0) (D 0 0) ""
    [mkCreatePurchaseItemInput ex_p1 None "pc" 1 (D 5 0) (D 1 2)] true ex_user.

Definition ex_us : UpdateSaleDraftRequest :=
  mkUpdateSaleDraftRequest ex_tenant ex_sale_bill (Some ex_customer) (Some ex_wh) time_zero (D 1 0) (D 0 0) "gift"
    [mkSaleItem ex_p1 ex_wh None "pc" 1 (D 1 0) (D 5 0) ""].

Definition total_of (r : res error BillHead * World) : dec :=
  match r.1 with Ok h => bh_total h | _ => dzero end.

Ltac decide_goal := apply (bool_decide_unpack _); vm_compute; exact I.

Lemma update_purchase_effect_witness :
  exists h w', UpdatePurchaseDraft_Execute ex_up ex_po_world = (Ok h, w') /\
    exists r items, redrafted h items (w_db ex_po_world) (w_db w') r /\ (val (bh_total h) == val (D 8050 2))%Q.
Proof.
  run_ok (UpdatePurchaseDraft_Execute ex_up ex_po_world) as h w' H. exists h, w'. split; [exact H|].
  assert (keyed (w_db ex_po_world)) as K by decide_goal.
  destruct (update_purchase_effect ex_up ex_po_world h w' K H) as (r & items & Hr & _ & _ & _ & _ & Hd & Hl & _).
  exists r, items. split; [exact Hd|].
  assert (val (total_of (UpdatePurchaseDraft_Execute ex_up ex_po_world)) == val (D 8050 2))%Q as Ht by compute_goal.
  rewrite H in Ht. exact Ht.
Defined.

Lemma update_keep_prices_ignores_client_witness :
  UpdatePurchaseDraft_Execute ex_up ex_po_world = UpdatePurchaseDraft_Execute ex_up_priced ex_po_world.
Proof. apply (update_keep_prices_ignores_client ex_up ex_up_priced ex_po_world); reflexivity. Defined.

Lemma update_sale_effect_witness :
  exists h w', UpdateSaleDraft_Execute ex_us ex_sale_world = (Ok h, w') /\
    exists r items, redrafted h items (w_db ex_sale_world) (w_db w') r /\ (val (bh_total h) == val (D 6 0))%Q.
Proof.
  run_ok (UpdateSaleDraft_Execute ex_us ex_sale_world) as h w' H. exists h, w'. split; [exact H|].
  assert (keyed (w_db ex_sale_world)) as K by decide_goal.
  destruct (update_sale_effect ex_us ex_sale_world h w' K H) as (r & items & _ & _ & _ & _ & _ & _ & Hd & _ & _ & Ht & _).
  exists r, items. split; [exact Hd|]. eapply Qeq_trans; [exact Ht|]. compute_goal.
Defined.
