(* ===== verification/Checkout.v ===== *)
(** The till: app/bill/quick_checkout.go.  One call creates a sale, approves it and books the
    payment, in one transaction. *)
From S2P Require Import Prelude GoStrings Rounding Decimal SDec Types StockDomain BillDomain GoTime Store StockRepo StockCalc StockRecord BillRepo BillRows BillDraft BillApprove BillEdit Concrete WAC.
From stdpp Require Import base tactics strings gmap list.
From Stdlib Require Import ZArith QArith Qminmax Lqa Lia.

Section checkout.
Context {ops : DecimalOps} {env : Env} {wiring : Wiring} {calc : InventoryCalculator}.

Record QuickCheckoutRequest := mkQuickCheckoutRequest {
  qc_tenant : uuid;
  qc_creator : uuid;
  qc_partner : option uuid;
  qc_customer_name : string;
  qc_remark : string;
  qc_items : list SaleItem;
  qc_method : string;
  qc_paid : dec;
  qc_discount : dec;
  qc_client_ref : string;
  qc_source : string;
  qc_occurred : time;
}.

Definition SourcePOS : string := "pos".
Definition SourcePOSOffline : string := "pos_offline".

Definition MaxClientRefLen : nat := 64.
Definition maxOccurredAtFuture : Z := (5 * minute)%Z.
Definition maxOccurredAtPastAge : Z := (30 * 24 * hour)%Z.

Record QuickCheckoutResult := mkQuickCheckoutResult {
  qr_bill : uuid;
  qr_no : string;
  qr_total : dec;
  qr_receivable : dec;
  qr_change : dec;
}.

Definition resolveOccurredAt (reported now : time) : error + time :=
  if time_is_zero reported then inr now
  else if Z.ltb (now + maxOccurredAtFuture) reported then inl (validation "occurred_at is in the future")
  else if Z.ltb reported (now - maxOccurredAtPastAge) then inl (validation "occurred_at is older than 30 days")
  else inr reported.

(** The source the bill carries; [None] is an unsupported one. *)
Definition resolve_source (source : string) : option string :=
  if String.eqb source "" then Some SourcePOS
  else if String.eqb source SourcePOS || String.eqb source SourcePOSOffline then Some source
  else None.

Definition findDuplicate (tenant : uuid) (ref : string) : M (option (uuid * string)) :=
  on_err (EWrap "quick checkout: look up client_ref") (FindBillByClientRef tenant ref).

Definition cashTenderRemark (method : string) (received change : dec) : string :=
  if (negb (String.eqb method "") && negb (String.eqb method "cash")) || negb (is_positive received) then ""
  else ("实收 " ++ dto_fixed 2 received ++ "，找零 " ++ dto_fixed 2 change)%string.

Definition assembleSaleItems (tenant bill : uuid) (items : list SaleItem) : M (dec * list BillItem) :=
  acc ← foldM (sale_line tenant bill) items (dzero, []);
  mret (dround 2 acc.1, acc.2).

(** In(CST).Format("2006-01-02 15:04") *)
Definition format_cst_minute (t : time) : string :=
  let t := (t + 8 * hour)%Z in
  let '(y, m, d) := civil (day_number t) in
  (fmt_d y 4 ++ "-" ++ fmt_d m 2 ++ "-" ++ fmt_d d 2 ++ " "
   ++ fmt_d (t / hour mod 24) 2 ++ ":" ++ fmt_d (t / minute mod 60) 2)%string.

Definition and_then (remark note : string) : string :=
  if String.eqb remark "" then note else (remark ++ "；" ++ note)%string.

Definition checkout_remark (req : QuickCheckoutRequest) (occurred : time) : string :=
  let remark := if is_none (qc_partner req) then qc_customer_name req else ""%string in
  let remark := if time_is_zero (qc_occurred req) then remark
                else and_then remark ("离线销售，实际发生于 " ++ format_cst_minute occurred)%string in
  let note := trim_space (qc_remark req) in
  if String.eqb note "" then remark else and_then remark note.

Definition checkout_body (req : QuickCheckoutRequest) (source : string) (now occurred : time)
  : M QuickCheckoutResult :=
  billID ← uuid_new;
  billNo ← on_err (EWrap "quick checkout: generate bill_no") (NextBillNo (qc_tenant req) "SL");
  lines ← on_err (EWrap "quick checkout: validate items") (assembleSaleItems (qc_tenant req) billID (qc_items req));
  let '(subtotal, items) := lines in
  guard_err (dgt (qc_discount req) subtotal) (validation "discount_amount exceeds the line total");;
  let total := dround 2 (dsub subtotal (qc_discount req)) in
  let recorded := if dgt (qc_paid req) total then total else qc_paid req in
  let change := if dgt (qc_paid req) total then dsub (qc_paid req) total else dzero in
  let head := draft_head billID (qc_tenant req) billNo BillTypeSale BillSubTypeSale (qc_partner req)
                (line_warehouse (qc_items req)) (qc_creator req) now subtotal dzero dzero total "" dzero dzero
                (checkout_remark req occurred) now (qc_client_ref req) source
                (if time_is_zero (qc_occurred req) then None else Some occurred) in
  on_err (EWrap "quick checkout: create bill") (CreateBill head items);;
  negatives ← on_err (EWrap "quick checkout: approve")
    (ApproveSale_executeInTx (mkApproveSaleRequest (qc_tenant req) billID (qc_creator req) recorded
       (qc_method req) (cashTenderRemark (qc_method req) (qc_paid req) change) time_zero
       (String.eqb source SourcePOSOffline) true));
  mapM_ (fun n : uuid * dec => on_err (EWrap "quick checkout: record negative stock")
           (RecordNegativeStock (qc_tenant req) billID (qc_creator req) n.1 n.2)) negatives;;
  mret (mkQuickCheckoutResult billID billNo total (dsub total recorded) change).

Definition QuickCheckout_Execute (req : QuickCheckoutRequest) : M QuickCheckoutResult :=
  guard_err (uuid_is_nil (qc_tenant req)) (validation "tenant_id is required");;
  guard_err (uuid_is_nil (qc_creator req)) (validation "creator_id is required");;
  guard_err (Nat.eqb (length (qc_items req)) 0) (validation "at least one item is required");;
  validateRefs (qc_tenant req) (si_product <$> qc_items req) (line_warehouse (qc_items req));;
  guard_err (is_negative (qc_paid req)) (validation "paid_amount must be non-negative");;
  guard_err (negb (whole_cents (qc_paid req))) (validation "paid_amount has more than 2 decimals");;
  guard_err (is_negative (qc_discount req)) (validation "discount_amount must be non-negative");;
  _ ← of_sum (resolvePayType (qc_method req));
  validatePartner (qc_tenant req) (qc_partner req);;
  guard_err (Nat.ltb MaxClientRefLen (String.length (qc_client_ref req))) (validation "client_ref is too long");;
  match resolve_source (qc_source req) with
  | None => throw (validation "unsupported source")
  | Some source =>
      guard_err (String.eqb source SourcePOSOffline
                 && (String.eqb (qc_client_ref req) "" || time_is_zero (qc_occurred req)))
        (validation "pos_offline requires client_ref and occurred_at");;
      now ← time_now;
      occurred ← of_sum (resolveOccurredAt (qc_occurred req) now);
      dup ← (if String.eqb (qc_client_ref req) "" then mret None
             else findDuplicate (qc_tenant req) (qc_client_ref req));
      match dup with
      | Some (id, no) => throw (EDuplicateCheckout id no)
      | None =>
          r ← try (WithTx "bill repo" (checkout_body req source now occurred));
          match r with
          | inr result => mret result
          | inl e =>
              if negb (String.eqb (qc_client_ref req) "") && errors_is e ErrDuplicateClientRef then
                dup ← findDuplicate (qc_tenant req) (qc_client_ref req);
                match dup with
                | Some (id, no) => throw (EDuplicateCheckout id no)
                | None => throw e
                end
              else throw e
          end
      end
  end.
End checkout.

Section checkout_laws.
Context {ops : DecimalOps} {laws : DecimalLaws ops} {env : Env} {env_laws : EnvLaws env} {wiring : Wiring}
  {calc : InventoryCalculator} {CL : CalculatorLaws calc}.
Local Open Scope Q_scope.

(** ** Replays *)

Definition booked_under (t : uuid) (ref : string) (d : DB) (b : uuid) (r : HeadRow) : Prop :=
  db_heads d !! b = Some r /\ bh_tenant (hr_head r) = t /\ bh_client_ref (hr_head r) = ref.

Lemma findDuplicate_Ok t ref w o w' :
  findDuplicate t ref w = (Ok o, w') ->
  w_db w' = w_db w /\
  match o with
  | Some (id, no) => exists b r, booked_under t ref (w_db w) b r /\ id = bh_id (hr_head r) /\ no = bh_bill_no (hr_head r)
  | None => ref <> "" -> forall b r, ~ booked_under t ref (w_db w) b r
  end.
Proof.
  unfold findDuplicate, FindBillByClientRef. intros H. minv H. split; [done|].
  set (p := fun r => N.eqb (bh_tenant (hr_head r)) t && negb (String.eqb ref "") && String.eqb (bh_client_ref (hr_head r)) ref).
  set (rows := snd <$> map_to_list (db_heads (w_db w))).
  destruct (select p rows) as [|r l] eqn:E; simpl.
  - intros Hr b r (Hb & Ht & Hc). assert (r ∈ select p rows) as Hin; [|rewrite E in Hin; by apply not_elem_of_nil in Hin].
    apply elem_of_select. unfold p. rewrite Ht, Hc, N.eqb_refl, String.eqb_refl.
    destruct (String.eqb_spec ref ""); [done|]. split; [done|].
    apply list_elem_of_fmap. exists (b, r). split; [done|]. by apply elem_of_map_to_list.
  - assert (r ∈ select p rows) as Hin by (rewrite E; left). apply elem_of_select in Hin as [Hp Hin].
    apply list_elem_of_fmap in Hin as ([b r'] & ? & Hin). simpl in *. subst r'. apply elem_of_map_to_list in Hin.
    unfold p in Hp. rewrite !andb_true_iff, N.eqb_eq, String.eqb_eq in Hp.
    exists b, r. split; [|done]. split_and!; tauto.
Qed.

Lemma keeps_findDuplicate P `{!PreOrder P} t r : keeps (db_rel P) (findDuplicate t r).
Proof. unfold findDuplicate. keeps_solve. Qed.
#[local] Hint Resolve keeps_findDuplicate : keeps.

Lemma atomic_try_tx {A B} repo (body : M A) (ok : A -> B) (failed : error -> M B) :
  (forall e, keeps (db_rel eq) (failed e)) -> (forall e w b w', failed e w <> (Ok b, w')) ->
  atomic (r ← try (WithTx repo body); match r with inr a => mret (ok a) | inl e => failed e end).
Proof.
  intros Hk Hf w x w' H Hx. unfold mbind, stm_bind, try in H.
  destruct (WithTx repo body w) as [[a|e|p] w1] eqn:E; pose proof (WithTx_atomic _ _ _ _ _ E) as D.
  - injection H as <- <-. by destruct (Hx (ok a)).
  - destruct D as [(a & ? & ? & _)|[Ed _]]; [done|]. destruct (keeps_run _ _ _ _ _ (Hk e) H) as [E1 _]. by rewrite <- E1.
  - injection H as <- <-. by destruct D as [(a & ? & ? & _)|[Ed _]].
Qed.

Lemma checkout_atomic req : atomic (QuickCheckout_Execute req).
Proof.
  unfold QuickCheckout_Execute. repeat (atomic_step || (intros; apply atomic_try_tx)).
  - intros e. keeps_solve.
  - intros e w b w' H. destruct (negb _ && _); [|done]. apply bind_Ok in H as ([[]|] & ? & _ & H); done.
Qed.

(** ** The money at the till *)

Lemma checkout_remainder paid total :
  let recorded := if dgt paid total then total else paid in
  let change := if dgt paid total then dsub paid total else dzero in
  val paid == val recorded + val change /\ val total == val recorded + val (dsub total recorded) /\
  0 <= val change /\ 0 <= val (dsub total recorded) /\
  (val change == 0 \/ val (dsub total recorded) == 0).
Proof. destruct (dgt paid total) eqn:E; simpl; split_and!; dec. Qed.

(** ** What a checkout did *)

Lemma assembleSaleItems_Ok t b l w acc w' :
  assembleSaleItems t b l w = (Ok acc, w') ->
  w_db w' = w_db w /\ val acc.1 == qsum ((fun x => cents_of (si_qty x) (si_price x)) <$> l) /\
  Forall2 (fun x it => line_of t b (si_product x) (si_qty x) (si_price x) it /\
    si_product x <> uuid_nil /\ 0 < val (si_qty x) /\ 0 <= val (si_price x)) l acc.2.
Proof.
  unfold assembleSaleItems. intros H. apply bind_Ok in H as (acc0 & w1 & H1 & H). minv H.
  apply sale_lines_Ok in H1 as (E & Hs & items & Hi & Hl); [|exact sums_nil]. simpl in *. subst items.
  assert (val acc0.1 == qsum ((fun x => cents_of (si_qty x) (si_price x)) <$> l)) as E0.
  { etrans; [exact Hs|]. eapply line_sum_cents; [|exact Hl]. by intros ? ? [(_ & _ & _ & _ & _ & ->) _]. }
  split_and!; [done| |done]. rewrite val_round, E0. apply qround_id.
  apply on_scale_qsum. apply Forall_fmap, Forall_true. intros x. apply qround_on_scale.
Qed.

Definition audit_frame (d d' : DB) : Prop := exists notes, d' = set_audit d (db_audit d ++ notes).
#[local] Instance audit_frame_preorder : PreOrder audit_frame.
Proof.
  split.
  - intros d. exists []. rewrite app_nil_r. by destruct d.
  - intros d1 d2 d3 [n1 ->] [n2 ->]. exists (n1 ++ n2). simpl. by rewrite app_assoc.
Qed.
Lemma keeps_RecordNegativeStock t b u p q : keeps (db_rel audit_frame) (RecordNegativeStock t b u p q).
Proof. unfold RecordNegativeStock. keeps_solve. by eexists. Qed.
(** The sale a checkout leaves, before and after its approval, and the money. *)
Record checked_out (req : QuickCheckoutRequest) (res : QuickCheckoutResult) (h : BillHead) (items : list BillItem)
    (recorded : dec) (d d1 d2 : DB) : Prop := {
  co_new : new_bill h items d d1;
  co_draft : draft_of (qc_tenant req) si_product si_qty si_price (qc_items req) (qc_partner req)
    (line_warehouse (qc_items req)) (qr_bill res) (qr_no res) h items d;
  co_sale : bh_type h = BillTypeSale /\ bh_sub_type h = BillSubTypeSale /\ bh_client_ref h = qc_client_ref req;
  co_lines : lines_of (qc_tenant req) (qr_bill res) d1 = sql_order bi_line_no (stored_item <$> items);
  co_discount : 0 <= val (qc_discount req) <= qsum ((fun x => cents_of (si_qty x) (si_price x)) <$> qc_items req);
  co_total : bh_total h = qr_total res /\
    val (qr_total res) == qround 2 (qsum ((fun x => cents_of (si_qty x) (si_price x)) <$> qc_items req)
                                    - val (qc_discount req));
  co_tender : on_scale 2 (val (qc_paid req)) /\ val (qc_paid req) == val recorded + val (qr_change res) /\
    val (qr_total res) == val recorded + val (qr_receivable res) /\
    0 <= val (qr_change res) /\ 0 <= val (qr_receivable res) /\
    (val (qr_change res) == 0 \/ val (qr_receivable res) == 0);
  co_approved : approval_effect (qc_tenant req) (qr_bill res) (qc_creator req) recorded (qc_method req)
    DirectionOut RefSale d1 d2 (mkHeadRow (stored_head h) None false);
}.

Lemma new_bill_wf h items d d1 : new_bill h items d d1 ->
  live_row (bh_tenant h) (bh_id h) d1 = Some (mkHeadRow (stored_head h) None false).
Proof. intros [_ _ _ Hh _ _ _ _]. apply live_row_intro; [|done|done]. rewrite Hh. apply lookup_insert_eq. Qed.

Lemma checkout_body_Ok req source now occ w res w' :
  docs_wf (w_db w) -> 0 <= val (qc_discount req) -> on_scale 2 (val (qc_paid req)) ->
  Forall (fun p => p = uuid_nil \/ product_of (qc_tenant req) p (w_db w)) (si_product <$> qc_items req) ->
  (forall x, line_warehouse (qc_items req) = Some x -> x = uuid_nil \/ warehouse_of (qc_tenant req) x (w_db w)) ->
  (forall p, qc_partner req = Some p -> p = uuid_nil \/ partner_of (qc_tenant req) p (w_db w)) ->
  checkout_body req source now occ w = (Ok res, w') ->
  exists h items recorded d1 d2, checked_out req res h items recorded (w_db w) d1 d2 /\ audit_frame d2 (w_db w').
Proof.
  intros WF Hd Hp Hps Hk Hq H. unfold checkout_body in H.
  apply bind_Ok in H as (bid & w0 & H0 & H). apply uuid_new_Ok in H0 as [-> ->].
  set (bid := uuid_at (w_tick w)) in *.
  apply bind_Ok in H as (no & w1 & H1 & H). minv H1. apply NextBillNo_Ok in H1 as [_ E1].
  apply bind_Ok in H as ([sub items] & w2 & H2 & H). minv H2.
  apply assembleSaleItems_Ok in H2 as (E2 & Hs & Hl). simpl in Hs, Hl. mguard H as G1.
  apply bind_Ok in H as (? & w3 & H3 & H). minv H3. apply CreateBill_new in H3. rewrite E2, E1 in H3.
  apply new_bill_seq in H3. wsimpl.
  apply bind_Ok in H as (ns & w4 & H4 & H). minv H4. apply approve_sale_Ok in H4 as (r & Hr & D). simpl in Hr, D.
  pose proof (new_bill_wf _ _ _ _ H3) as Hr'. simpl in Hr'. rewrite Hr' in Hr. injection Hr as <-.
  destruct D as [(? & _)|(Hst & Hpaid & _ & k & r' & ps & ms & HA & Hm & Hb)]; [done|].
  apply bind_Ok in H as (? & w5 & H5 & H). minv H.
  assert (audit_frame (w_db w4) (w_db w')) as HF.
  { eapply (keeps_run (db_rel audit_frame)); [|exact H5].
    keeps_solve. apply keeps_RecordNegativeStock. }
  eexists _, items, _, (w_db w3), (w_db w4). split; [|exact HF].
  assert (Forall (fun it => bi_tenant it = qc_tenant req /\ bi_head it = bid) items) as Hof.
  { clear -Hl. induction Hl as [|x it l its ((? & ? & _) & _) _ IH]; by constructor. }
  econstructor; try done.
  - split_and!; try done. eapply Forall2_impl_in; [exact Hl|]. intros y it Hin (Hx & Hn & ? & ?).
    split_and!; try done. rewrite Forall_fmap, Forall_forall in Hps. by destruct (Hps y Hin).
  - eapply fresh_lines; [exact WF| | |done]; destruct H3 as [Hf _ _ _ Hi _ _ _]; [done|].
    rewrite Hi, fmap_app. f_equal. unfold new_rows. by rewrite <- list_fmap_compose.
  - rewrite <- Hs. dec.
  - split; [done|]. simpl. by rewrite val_round, val_sub, Hs.
  - split; [done|]. apply checkout_remainder.
  - split_and!; [done|simpl in Hpaid |- *; apply Hpaid|]. exists k, r', ps, ms. by split_and!.
Qed.

(** What had been looked up when the transaction began. *)
Lemma checkout_run_Ok req w res w' :
  QuickCheckout_Execute req w = (Ok res, w') ->
  0 <= val (qc_discount req) /\ on_scale 2 (val (qc_paid req)) /\
  Forall (fun p => p = uuid_nil \/ product_of (qc_tenant req) p (w_db w)) (si_product <$> qc_items req) /\
  (forall x, line_warehouse (qc_items req) = Some x -> x = uuid_nil \/ warehouse_of (qc_tenant req) x (w_db w)) /\
  (forall p, qc_partner req = Some p -> p = uuid_nil \/ partner_of (qc_tenant req) p (w_db w)) /\
  (qc_client_ref req <> "" -> forall b r, ~ booked_under (qc_tenant req) (qc_client_ref req) (w_db w) b r) /\
  exists source now occ w1 w2, w_db w1 = w_db w /\ w_db w' = w_db w2 /\
    checkout_body req source now occ w1 = (Ok res, w2).
Proof.
  intros H. unfold QuickCheckout_Execute in H. mguard H as G1. mguard H as G2. mguard H as G3.
  apply bind_Ok in H as (? & w1 & R1 & H). apply validateRefs_Ok in R1 as (E1 & Hp & Hk).
  mguard H as G4. mguard H as G5. mguard H as G6. apply bind_Ok in H as (? & w2 & R2 & H). minv R2.
  apply bind_Ok in H as (? & w3 & R3 & H). apply validatePartner_Ok in R3 as (E3 & Hq). mguard H as G7.
  destruct (resolve_source _) as [source|]; [|done]. mguard H as G8.
  apply bind_Ok in H as (now & w4 & R4 & H). minv R4. apply bind_Ok in H as (occ & w5 & R5 & H). minv R5.
  apply bind_Ok in H as (dup & w6 & R6 & H).
  assert (w_db w6 = w_db w /\ (dup = None -> qc_client_ref req <> "" ->
    forall b r, ~ booked_under (qc_tenant req) (qc_client_ref req) (w_db w) b r)) as [E6 Hn].
  { destruct (String.eqb_spec (qc_client_ref req) "") as [Ee|].
    - minv R6. split; [wsimpl; congruence|done].
    - apply findDuplicate_Ok in R6 as [E6 Hd]. wsimpl. rewrite E3, E1 in *. split; [done|]. by intros ->. }
  destruct dup as [[id no]|]; [done|].
  apply bind_Ok in H as (r & w7 & R7 & H). apply try_Ok in R7. destruct r as [e|res'].
  { destruct (negb _ && _); [|done]. by apply bind_Ok in H as ([[]|] & ? & _ & H). }
  minv H. apply WithTx_Ok in R7 as (w8 & R7 & -> & _). wsimpl. rewrite E1 in *. clear E1 E3.
  split_and!; [dec| |done..|by apply Hn|].
  - unfold whole_cents in G5. dec_tests. rewrite G5. apply val_round_scale.
  - exists source, (clock_at (w_tick w3)), occ, (bump w6), w8. split_and!; done.
Qed.


(** The errors a refused checkout ends in. *)
Fixpoint is_driver (e : error) : bool :=
  match e with EDriver => true | EWrap _ e => is_driver e | _ => false end.

Definition refused_early (e : error) : Prop :=
  is_driver e = true \/ errors_is e ErrValidation = true \/ errors_is e ErrInvalidPayMethod = true.

Lemma resolvePayType_refused m e : resolvePayType m = inl e -> refused_early e.
Proof.
  unfold resolvePayType. repeat case_match; intros; simplify_eq; right; right; reflexivity.
Qed.
Ltac refused := intros; unfold refused_early in *; simpl;
  first [tauto | left; reflexivity | right; left; reflexivity | right; right; reflexivity].
Lemma refused_check_products t seen ps : errs refused_early (check_products t seen ps).
Proof. revert seen. induction ps as [|p ps IH]; intros seen; simpl; errs_solve; try apply IH;
  unfold ProductExists; errs_solve; refused. Qed.
Lemma refused_validateRefs t ps k : errs refused_early (validateRefs t ps k).
Proof. unfold validateRefs, WarehouseExists. apply errs_bind; [apply refused_check_products|]. errs_solve; refused. Qed.
Lemma refused_validatePartner t p : errs refused_early (validatePartner t p).
Proof. unfold validatePartner, PartnerExists. errs_solve; refused. Qed.

Lemma refused_resolveOccurredAt o n e : resolveOccurredAt o n = inl e -> refused_early e.
Proof. unfold resolveOccurredAt. repeat case_match; intros; simplify_eq; refused. Qed.
Lemma refused_findDuplicate t ref : errs refused_early (findDuplicate t ref).
Proof. unfold findDuplicate, FindBillByClientRef. errs_solve; refused. Qed.

(** Up to the look-up of the reference a checkout fails with one of those, and reads only. *)
Ltac early H G :=
  apply bind_Err in H as [H|(? & ? & G & H)];
  [left; errs_in H refused_early; try refused;
   eauto using refused_validateRefs, refused_validatePartner, resolvePayType_refused, refused_resolveOccurredAt; done|].

(** replaying a checkout whose client reference the tenant has already booked sells nothing:
    the call does not succeed, the database stays as it was, and unless the request is
    refused earlier (or the driver fails) the error names a bill booked under the reference. *)
Theorem checkout_replay_refused req w b r x w' :
  docs_wf (w_db w) -> qc_client_ref req <> "" ->
  booked_under (qc_tenant req) (qc_client_ref req) (w_db w) b r ->
  QuickCheckout_Execute req w = (x, w') ->
  w_db w' = w_db w /\ (forall res, x <> Ok res) /\
  (forall e, x = Err e -> refused_early e \/
     exists b r, booked_under (qc_tenant req) (qc_client_ref req) (w_db w) b r /\
       e = EDuplicateCheckout (bh_id (hr_head r)) (bh_bill_no (hr_head r))).
Proof.
  intros WF Hne Hb H.
  assert (forall res, x <> Ok res) as Hx.
  { intros res ->. apply checkout_run_Ok in H as (_ & _ & _ & _ & _ & H & _). by destruct (H Hne b r). }
  split; [by eapply checkout_atomic|]. split; [done|]. intros e ->. clear Hx.
  unfold QuickCheckout_Execute in H.
  early H G1. minv G1. early H G2. minv G2. early H G3. minv G3. early H G4. apply validateRefs_Ok in G4 as (E4 & _).
  early H G5. minv G5. early H G6. minv G6. early H G7. minv G7. early H G8. minv G8.
  early H G9. apply validatePartner_Ok in G9 as (E9 & _). early H G10. minv G10.
  destruct (resolve_source _) as [source|]; [|injection H as <- _; left; refused].
  early H G11. minv G11. early H G12. minv G12. early H G13. minv G13.
  destruct (String.eqb_spec (qc_client_ref req) ""); [done|].
  apply bind_Err in H as [H|(dup & w1 & H1 & H)]; [left; by eapply refused_findDuplicate|].
  apply findDuplicate_Ok in H1 as [E1 Hd]. wsimpl. rewrite E9, E4 in *.
  destruct dup as [[id no]|]; [|by destruct (Hd Hne b r)].
  destruct Hd as (b' & r' & Hbr & -> & ->). injection H as <- _. right. eauto.
Qed.
End checkout_laws.

(** ** On the small shop *)

(** Two teas at 5.00, half off one, a twenty tendered, under the till's reference. *)
Definition ex_checkout : QuickCheckoutRequest :=
  mkQuickCheckoutRequest ex_tenant ex_user (Some ex_customer) "" "gift wrap"
    [mkSaleItem ex_p1 ex_wh None "pc" 1 (D 2 0) (D 5 0) ""] PayTypeCash (D 20 0) (D 250 2) "till-1" "" time_zero.
Definition ex_checkout_world : World := (QuickCheckout_Execute (calc := WACCalculator) ex_checkout ex_shelf).2.
Definition ex_checkout_bill : uuid :=
  match (QuickCheckout_Execute (calc := WACCalculator) ex_checkout ex_shelf).1 with
  | Ok res => qr_bill res
  | _ => uuid_nil
  end.

Lemma ex_shelf_wf : docs_wf (w_db ex_shelf).
Proof. split; decide_goal. Defined.


Lemma checkout_replay_refused_witness :
  exists b r, booked_under ex_tenant "till-1" (w_db ex_checkout_world) b r /\
    forall x w', QuickCheckout_Execute (calc := WACCalculator) ex_checkout ex_checkout_world = (x, w') ->
      w_db w' = w_db ex_checkout_world.
Proof.
  destruct (row_run (live_row ex_tenant ex_checkout_bill (w_db ex_checkout_world))
    (fun r => String.eqb (bh_client_ref (hr_head r)) "till-1")) as (r & Hr & Hc%String.eqb_eq); [compute_goal|].
  apply live_row_Some in Hr as (Hb & Ht & _).
  assert (booked_under ex_tenant "till-1" (w_db ex_checkout_world) ex_checkout_bill r) as HB by (by split_and!).
  exists ex_checkout_bill, r. split; [exact HB|]. intros x w' H.
  assert (docs_wf (w_db ex_checkout_world)) as WF by (split; decide_goal).
  destruct (checkout_replay_refused (calc := WACCalculator) ex_checkout ex_checkout_world _ r x w' WF
    ltac:(intros; discriminate) HB H) as [E _]. exact E.
Defined.
