(* ===== verification/Ledger.v ===== *)
(** The partner ledger of adapter/repo/bill: the sale every return counts against
    (receivables.go, the returns CTE) and the bills a partner still owes (ledger.go). *)
From S2P Require Import Prelude GoStrings Rounding Decimal Types StockDomain BillDomain GoTime Store StockRepo BillRepo BillRows.
From stdpp Require Import base tactics strings gmap list sorting.
From Stdlib Require Import ZArith QArith Qminmax Lqa Lia Ascii.

Definition DirectionReceivable : string := "ar".
Definition DirectionPayable : string := "ap".
Definition validDirection (d : string) : bool := String.eqb d DirectionReceivable || String.eqb d DirectionPayable.

(** Bill type and sub type of the documents that make the partner owe. *)
Definition ledgerTypes (direction : string) : BillType * BillSubType :=
  if String.eqb direction DirectionPayable then (BillTypePurchase, BillSubTypePurchase)
  else (BillTypeSale, BillSubTypeSale).

(** The text shape of [uuidTailRe]: 8-4-4-4-12 hexadecimal digits. *)
Definition is_hex (a : ascii) : bool :=
  let n := N_of_ascii a in
  (N.leb 48 n && N.leb n 57) || (N.leb 65 n && N.leb n 70) || (N.leb 97 n && N.leb n 102).
Fixpoint uuid_shape (groups : list nat) (s : list ascii) : bool :=
  match groups with
  | [] => Nat.eqb (length s) 0
  | n :: rest =>
      Nat.eqb (length (firstn n s)) n && forallb is_hex (firstn n s)
      && match rest with
         | [] => Nat.eqb (length (skipn n s)) 0
         | _ => match skipn n s with a :: s' => Ascii.eqb a "-" && uuid_shape rest s' | [] => false end
         end
  end.
Definition uuid_text (s : string) : bool := uuid_shape [8; 4; 4; 4; 12]%nat (String.list_ascii_of_string s).

Section ledger.
Context {ops : DecimalOps} {env : Env}.

(** remark ~ '^cancel:.*:original_bill_id=<uuid>$' THEN right(remark, 36)::uuid *)
Definition cancelled_sale (remark : string) : option uuid :=
  match cut_prefix "cancel:" remark with
  | Some rest =>
      match cut_last ":original_bill_id=" rest with
      | Some (_, tail) => if uuid_text tail then uuid_parse tail else None
      | None => None
      end
  | None => None
  end.

(** The order a refund remark names: split_part(.., 2) and the text up to the last mark. *)
Definition refunded_order (remark : string) : option (string * string) :=
  match cut_prefix "refund:" remark with
  | Some rest =>
      match cut_first ":" rest with
      | Some (platform, tail) =>
          match cut_last ":refund_id=" tail with
          | Some (order, _) => Some (platform, order)
          | None => None
          end
      | None => None
      end
  | None => None
  end.

Definition refunded_sale (tenant : uuid) (remark : string) (d : DB) : option uuid :=
  match refunded_order remark with
  | Some (platform, order) =>
      head (os_bill <$> select (fun s => N.eqb (os_tenant s) tenant && String.eqb (os_platform s) platform
                                         && String.eqb (os_order_no s) order) (db_orders_seen d))
  | None => None
  end.

(** COALESCE(link, cancellation, refund): a return counts against exactly one sale. *)
Definition return_sale_of (d : DB) (r : HeadRow) : option uuid :=
  match hr_link r with
  | Some s => Some s
  | None =>
      match cancelled_sale (bh_remark (hr_head r)) with
      | Some s => Some s
      | None => refunded_sale (bh_tenant (hr_head r)) (bh_remark (hr_head r)) d
      end
  end.

(** rsum.amt, COALESCEd to 0; [extra] narrows the returns. *)
Definition sale_returns (tenant : uuid) (extra : HeadRow -> bool) (d : DB) (sale : uuid) : dec :=
  dsum_from dzero ((fun r => bh_total (hr_head r))
    <$> select (fun r => approved_return tenant BillSubTypeSaleReturn r && extra r
                         && bool_decide (return_sale_of d r = Some sale))
          (snd <$> map_to_list (db_heads d))).

(** Net worth of a bill: GREATEST(total - returns, 0) for a sale, the total for a purchase. *)
Definition net_worth (direction : string) (extra : HeadRow -> bool) (d : DB) (r : HeadRow) : dec :=
  if String.eqb direction DirectionReceivable
  then dmax (dsub (bh_total (hr_head r)) (sale_returns (bh_tenant (hr_head r)) extra d (bh_id (hr_head r)))) dzero
  else bh_total (hr_head r).

Definition ledger_bill (tenant partner : uuid) (direction : string) (r : HeadRow) : bool :=
  let '(type, sub) := ledgerTypes direction in
  N.eqb (bh_tenant (hr_head r)) tenant && bool_decide (bh_partner (hr_head r) = Some partner)
  && negb (hr_deleted r) && Z.eqb (bh_status (hr_head r)) StatusApproved
  && String.eqb (bh_type (hr_head r)) type && String.eqb (bh_sub_type (hr_head r)) sub.

(** ** OpenBills *)

Record OpenBill := mkOpenBill {
  op_bill : uuid;
  op_no : string;
  op_date : time;
  op_total : dec;
  op_outstanding : dec;
}.

Definition open_balance (direction : string) (d : DB) (r : HeadRow) : dec :=
  dround 2 (dsub (net_worth direction (fun _ => true) d r) (bh_paid (hr_head r))).

(** ORDER BY bill_date ASC, created_at ASC, id ASC; the id makes the order total. *)
Definition bill_order (r s : HeadRow) : Prop :=
  let a := hr_head r in let b := hr_head s in
  (bh_date a < bh_date b)%Z \/ (bh_date a = bh_date b /\
  ((bh_created_at a < bh_created_at b)%Z \/ (bh_created_at a = bh_created_at b /\ (bh_id a <= bh_id b)%N))).
#[export] Instance bill_order_dec : RelDecision bill_order.
Proof. intros r s. unfold bill_order. apply _. Defined.

Definition open_rows (tenant partner : uuid) (direction : string) (d : DB) : list HeadRow :=
  merge_sort bill_order
    (select (fun r => ledger_bill tenant partner direction r && is_positive (open_balance direction d r))
       (snd <$> map_to_list (db_heads d))).

Definition OpenBills (tenant : uuid) (direction : string) (partner : uuid) : M (list OpenBill) :=
  query "bill repo: open bills" (fun d =>
    (fun r => mkOpenBill (bh_id (hr_head r)) (bh_bill_no (hr_head r)) (bh_date (hr_head r)) (bh_total (hr_head r))
                (open_balance direction d r)) <$> open_rows tenant partner direction d).
End ledger.
