(* ===== verification/Payment.v ===== *)
(** Payments: app/payment/record.go, list.go and receipt.go. *)
From S2P Require Import Prelude GoStrings Rounding Decimal SDec Types StockDomain BillDomain GoTime Store StockRepo StockCalc StockRecord BillRepo BillRows BillDraft BillApprove BillEdit Ledger Concrete WAC.
From stdpp Require Import base tactics strings gmap list sorting.
From Stdlib Require Import ZArith QArith Qminmax Lqa Lia Sorting.Sorted.

Section payment.
Context {ops : DecimalOps} {env : Env} {wiring : Wiring}.

(** ** record.go *)

Definition pay_resolvePayType (method : string) : error + PayType :=
  if String.eqb method "" then inr PayTypeCash
  else match PayType_Validate method with
       | Some _ => inl (EWrap "record payment" (ESentinel ErrInvalidPayType))
       | None => if String.eqb method PayTypeCredit then inl (ESentinel ErrCreditNotPayment) else inr method
       end.

Record RecordPaymentRequest := mkRecordPaymentRequest {
  rp_tenant : uuid;
  rp_bill : uuid;
  rp_creator : uuid;
  rp_amount : dec;
  rp_pay_type : string;
  rp_remark : string;
}.

(** What the bill is worth: its total, net of the approved returns when it is a sale. *)
Definition net_amount (head : BillHead) (tenant bill : uuid) (wrap : string) : M dec :=
  if String.eqb (bh_type head) BillTypeSale then
    returned ← on_err (EWrap wrap) (ReturnedAmountTx tenant bill);
    mret (dmax (dsub (bh_total head) returned) dzero)
  else mret (bh_total head).

Definition new_payment (tenant bill creator : uuid) (payType : PayType) (amount : dec) (partner : option uuid)
    (remark : string) (id : uuid) (now : time) : Payment :=
  mkPayment id tenant bill payType amount amount partner None creator "" now remark now.

(** The amount booked and the new cumulative paid amount: paying the remainder rounded to
    the cent settles the remainder. *)
Definition settle (net currentPaid amount : dec) : dec * dec :=
  let rest := dsub net currentPaid in
  if is_positive rest && deqb amount (dround 2 rest) then (rest, net) else (amount, dadd currentPaid amount).

Definition record_payment_body (req : RecordPaymentRequest) (payType : PayType) : M Payment :=
  on_err (EWrap "record payment: lock bill") (AcquireBillAdvisoryLock (rp_tenant req) (rp_bill req));;
  head ← on_err (EWrap "record payment: load bill") (GetBillForUpdate (rp_tenant req) (rp_bill req));
  guard_err (String.eqb (bh_sub_type head) BillSubTypePurchaseReturn) (ESentinel ErrBillNotPayable);;
  guard_err (negb (Z.eqb (bh_status head) StatusApproved)) (EWrap "record payment" (ESentinel ErrBillNotApproved));;
  currentPaid ← on_err (EWrap "record payment: sum by bill") (SumByBill (rp_tenant req) (rp_bill req));
  net ← net_amount head (rp_tenant req) (rp_bill req) "record payment: returned amount";
  let '(amount, newPaid) := settle net currentPaid (rp_amount req) in
  guard_err (dgt newPaid net)
    (EExceedsOutstanding (rp_amount req) (dmax (dsub net currentPaid) dzero) (String.eqb (bh_type head) BillTypePurchase));;
  now ← time_now;
  id ← uuid_new;
  p ← on_err (EWrap "record payment: persist")
        (Record_ (new_payment (rp_tenant req) (rp_bill req) (rp_creator req) payType amount (bh_partner head)
                    (rp_remark req) id now));
  on_err (EWrap "record payment: update paid_amount") (UpdatePaidAmount (rp_tenant req) (rp_bill req) newPaid);;
  mret p.

Definition RecordPayment_ExecuteReturning (req : RecordPaymentRequest) : M Payment :=
  guard_err (uuid_is_nil (rp_tenant req)) (EMsg "record payment: tenant_id is required");;
  guard_err (uuid_is_nil (rp_bill req)) (EMsg "record payment: bill_id is required");;
  guard_err (uuid_is_nil (rp_creator req)) (EMsg "record payment: creator_id is required");;
  guard_err (is_zero (rp_amount req) || is_negative (rp_amount req)) (EMsg "record payment: amount must be positive");;
  guard_err (negb (whole_cents (rp_amount req))) (ESentinel ErrReceiptAmount);;
  payType ← of_sum (pay_resolvePayType (rp_pay_type req));
  WithTx "bill repo" (record_payment_body req payType).

Definition RecordPayment_Execute (req : RecordPaymentRequest) : M unit :=
  _ ← RecordPayment_ExecuteReturning req; mret tt.

(** ** list.go *)

Definition ListPayments_Execute (tenant bill : uuid) : M (list Payment) :=
  guard_err (uuid_is_nil tenant) (EMsg "list payments: tenant_id is required");;
  guard_err (uuid_is_nil bill) (EMsg "list payments: bill_id is required");;
  on_err (EWrap "list payments") (ListByBill tenant bill).

(** ** receipt.go *)

Record ReceiptRequest := mkReceiptRequest {
  rr_tenant : uuid;
  rr_creator : uuid;
  rr_direction : string;
  rr_partner : uuid;
  rr_amount : dec;
  rr_pay_type : string;
  rr_remark : string;
}.

Record Allocation := mkAllocation {
  al_bill : uuid;
  al_no : string;
  al_date : time;
  al_outstanding : dec;
  al_applied : dec;
  al_remaining : dec;
}.

Record ReceiptResult := mkReceiptResult {
  rs_owed : dec;
  rs_amount : dec;
  rs_booked : dec;
  rs_diff : dec;
  rs_allocations : list Allocation;
}.

Definition checkReceipt (direction : string) (amount : dec) : option error :=
  if negb (validDirection direction) then Some (ESentinel ErrInvalidReceiptDirection)
  else if negb (is_positive amount) || negb (whole_cents amount) then Some (ESentinel ErrReceiptAmount)
  else None.

(** The loop of allocate: what each bill takes of [rest], and what no bill could take. *)
Fixpoint allocate (open : list OpenBill) (rest : dec) : list Allocation * dec :=
  match open with
  | [] => ([], rest)
  | b :: open' =>
      if negb (is_positive rest) then ([], rest)
      else if negb (is_positive (op_outstanding b)) then allocate open' rest
      else
        let applied := dmin rest (op_outstanding b) in
        let '(out, rest') := allocate open' (dsub rest applied) in
        (mkAllocation (op_bill b) (op_no b) (op_date b) (op_outstanding b) applied
           (dsub (op_outstanding b) applied) :: out, rest')
  end.

Definition totalOwed (open : list OpenBill) : dec :=
  fold_left (fun sum b => if is_positive (op_outstanding b) then dadd sum (op_outstanding b) else sum) open dzero.

(** What a candidate turned out to be once locked: the bill with its committed balance, what
    is paid on it, its unrounded remainder and its total. *)
Record LiveBill := mkLiveBill {
  lb_open : OpenBill;
  lb_paid : dec;
  lb_raw : dec;
  lb_total : dec;
}.

Definition receipt_bill (req : ReceiptRequest) (live : list LiveBill) (c : OpenBill) : M (list LiveBill) :=
  let payable := String.eqb (rr_direction req) DirectionPayable in
  let wantType := if payable then BillTypePurchase else BillTypeSale in
  (if negb payable then on_err (EWrap "receipt: lock bill") (AcquireBillAdvisoryLock (rr_tenant req) (op_bill c))
   else mret tt);;
  head ← on_err (EWrap "receipt: load bill") (GetBillForUpdate (rr_tenant req) (op_bill c));
  if negb (Z.eqb (bh_status head) StatusApproved) || negb (String.eqb (bh_type head) wantType)
     || String.eqb (bh_sub_type head) BillSubTypePurchaseReturn
     || negb (bool_decide (bh_partner head = Some (rr_partner req)))
  then mret live
  else
    paid ← on_err (EWrap "receipt: sum by bill") (SumByBill (rr_tenant req) (op_bill c));
    net ← net_amount head (rr_tenant req) (op_bill c) "receipt: returned amount";
    let raw := dmax (dsub net paid) dzero in
    mret (live ++ [mkLiveBill (mkOpenBill (op_bill c) (op_no c) (op_date c) (op_total c) (dround 2 raw))
                     paid raw (bh_total head)]).

(** paids[bill], raws[bill] and totals[bill]: the maps hold the last entry of a bill. *)
Definition live_of (live : list LiveBill) (bill : uuid) : LiveBill :=
  fold_left (fun acc l => if N.eqb (op_bill (lb_open l)) bill then l else acc) live
    (mkLiveBill (mkOpenBill bill "" time_zero dzero dzero) dzero dzero dzero).

(** What the bill has paid afterwards: a bill settled in full books its raw remainder. *)
Definition paid_now (live : list LiveBill) (a : Allocation) : dec :=
  let l := live_of live (al_bill a) in
  dmin (dadd (lb_paid l) (if is_zero (al_remaining a) then lb_raw l else al_applied a)) (lb_total l).

Definition receipt_pay (req : ReceiptRequest) (payType : PayType) (now : time) (live : list LiveBill)
    (acc : dec * dec) (a : Allocation) : M (dec * dec) :=
  id ← uuid_new;
  _ ← on_err (EWrap "receipt: persist")
        (Record_ (new_payment (rr_tenant req) (al_bill a) (rr_creator req) payType (al_applied a)
                    (Some (rr_partner req)) (rr_remark req) id now));
  on_err (EWrap "receipt: update paid_amount") (UpdatePaidAmount (rr_tenant req) (al_bill a) (paid_now live a));;
  mret (dadd acc.1 (al_applied a),
        if is_zero (al_remaining a) then dadd acc.2 (dsub (al_applied a) (lb_raw (live_of live (al_bill a)))) else acc.2).

Definition receipt_body (req : ReceiptRequest) (payType : PayType) (candidates : list OpenBill) : M ReceiptResult :=
  live ← foldM (receipt_bill req) candidates [];
  let open := lb_open <$> live in
  let owed := dsum_from dzero (op_outstanding <$> open) in
  let '(allocs, rest) := allocate open (rr_amount req) in
  guard_err (is_positive rest) (EExceedsPartnerDebt (rr_amount req) owed (String.eqb (rr_direction req) DirectionPayable));;
  now ← time_now;
  acc ← foldM (receipt_pay req payType now live) allocs (dzero, dzero);
  mret (mkReceiptResult owed (rr_amount req) acc.1 acc.2 allocs).

Definition Receipt_Preview (tenant : uuid) (direction : string) (partner : uuid) (amount : dec) : M ReceiptResult :=
  check (checkReceipt direction amount);;
  open ← on_err (EWrap "receipt: open bills") (OpenBills tenant direction partner);
  let '(allocs, rest) := allocate open amount in
  guard_err (is_positive rest) (EExceedsPartnerDebt amount (totalOwed open) (String.eqb direction DirectionPayable));;
  mret (mkReceiptResult (totalOwed open) amount amount dzero allocs).

Definition Receipt_Execute (req : ReceiptRequest) : M ReceiptResult :=
  guard_err (uuid_is_nil (rr_tenant req) || uuid_is_nil (rr_partner req) || uuid_is_nil (rr_creator req))
    (EMsg "receipt: tenant, partner and creator are required");;
  check (checkReceipt (rr_direction req) (rr_amount req));;
  payType ← of_sum (pay_resolvePayType (rr_pay_type req));
  candidates ← on_err (EWrap "receipt: open bills") (OpenBills (rr_tenant req) (rr_direction req) (rr_partner req));
  WithTx "bill repo" (receipt_body req payType candidates).
End payment.

Section payment_laws.
Context {ops : DecimalOps} {laws : DecimalLaws ops} {env : Env} {env_laws : EnvLaws env} {wiring : Wiring}.
Local Open Scope Q_scope.

(** ** Allocation *)

(** What the bills still owe, bills with nothing left counting for nothing. *)
Definition owed (open : list OpenBill) : Q := qsum ((fun b => Qmax (val (op_outstanding b)) 0) <$> open).

(** Spread [amount] over the bills in their order: each takes what the ones before it left, up
    to what it owes. *)
Fixpoint spread (open : list OpenBill) (amount : Q) : list Q :=
  match open with
  | [] => []
  | b :: open' => Qmin amount (Qmax (val (op_outstanding b)) 0) :: spread open' (amount - Qmin amount (Qmax (val (op_outstanding b)) 0))
  end.

(** An allocation is of this bill and takes [q]. *)
Definition takes (b : OpenBill) (q : Q) (a : Allocation) : Prop :=
  al_bill a = op_bill b /\ al_outstanding a = op_outstanding b /\ val (al_applied a) == q /\
  val (al_remaining a) == val (op_outstanding b) - q.

(** The allocations are, in order, those of the bills that take something. *)
Inductive allocations : list OpenBill -> list Q -> list Allocation -> Prop :=
  | allocations_nil : allocations [] [] []
  | allocations_skip b open q qs out : q == 0 -> allocations open qs out -> allocations (b :: open) (q :: qs) out
  | allocations_take b open q qs a out : 0 < q -> takes b q a -> allocations open qs out ->
      allocations (b :: open) (q :: qs) (a :: out).

Lemma Qmax_0 q : q <= 0 -> Qmax q 0 == 0.
Proof. intros H. by apply Q.max_r. Qed.
Lemma Qmax_pos q : 0 < q -> Qmax q 0 == q.
Proof. intros H. apply Q.max_l. lra. Qed.
Lemma Qmax_0_nonneg q : 0 <= Qmax q 0.
Proof. apply Q.le_max_r. Qed.

Lemma spread_ext open x y : x == y -> Forall2 Qeq (spread open x) (spread open y).
Proof.
  revert x y. induction open as [|b open IH]; intros x y E; [constructor|]. simpl.
  constructor; [by rewrite E|]. apply IH. by rewrite E.
Qed.
Lemma allocations_ext open qs qs' out : Forall2 Qeq qs qs' -> allocations open qs out -> allocations open qs' out.
Proof.
  intros H HA. revert qs' H. induction HA as [|b open q qs out Hq _ IH|b open q qs a out Hq Ht _ IH]; intros qs' H.
  - apply Forall2_nil_inv_l in H as ->. constructor.
  - apply Forall2_cons_inv_l in H as (q' & qs0 & E & H & ->). constructor; [by rewrite <- E|by apply IH].
  - apply Forall2_cons_inv_l in H as (q' & qs0 & E & H & ->). destruct Ht as (? & ? & Ha & Hr).
    apply allocations_take; [by rewrite <- E| |by apply IH].
    split_and!; [done|done|by rewrite Ha|by rewrite Hr, E].
Qed.

Lemma spread_nothing open x : x == 0 -> allocations open (spread open x) [].
Proof.
  revert x. induction open as [|b open IH]; intros x Hx; simpl; [constructor|].
  assert (Qmin x (Qmax (val (op_outstanding b)) 0) == 0) as E.
  { rewrite Hx. apply Q.min_l, Qmax_0_nonneg. }
  constructor; [done|]. apply IH. rewrite E, Hx. ring.
Qed.

Lemma allocate_spread open amount :
  0 <= val amount ->
  let '(out, rest) := allocate open amount in
  allocations open (spread open (val amount)) out /\ val rest == Qmax (val amount - owed open) 0.
Proof.
  revert amount. induction open as [|b open IH]; intros amount Ha; simpl.
  { split; [constructor|]. unfold owed. simpl. rewrite Q.max_l; lra. }
  destruct (is_positive amount) eqn:Hp; simpl; dec_tests.
  2:{ assert (val amount == 0) as E by lra. split; [by apply (spread_nothing (b :: open))|].
      symmetry. rewrite E. apply Qmax_0. pose proof (qsum_nonneg ((fun b => Qmax (val (op_outstanding b)) 0) <$> (b :: open))) as Hn.
      assert (0 <= owed (b :: open)); [|lra]. apply Hn, Forall_fmap, Forall_true. intros x. apply Qmax_0_nonneg. }
  unfold owed. csimpl. fold (owed open).
  destruct (is_positive (op_outstanding b)) eqn:Ho; simpl; dec_tests.
  2:{ specialize (IH amount Ha). destruct (allocate open amount) as [out rest]. destruct IH as [HA Hr].
      pose proof (Qmax_0 _ Ho) as Em.
      assert (Qmin (val amount) (Qmax (val (op_outstanding b)) 0) == 0) as E by (rewrite Em; apply Q.min_r; lra).
      split; [|rewrite Hr, Em, Qplus_0_l; done]. constructor; [done|].
      eapply allocations_ext; [|exact HA]. apply spread_ext. rewrite E. ring. }
  set (applied := dmin amount (op_outstanding b)).
  assert (val applied == Qmin (val amount) (Qmax (val (op_outstanding b)) 0)) as E.
  { unfold applied. by rewrite val_min, (Qmax_pos _ Ho). }
  assert (0 <= val (dsub amount applied)) as Hs.
  { rewrite val_sub, E. pose proof (Q.le_min_l (val amount) (Qmax (val (op_outstanding b)) 0)). lra. }
  specialize (IH _ Hs). destruct (allocate open (dsub amount applied)) as [out rest]. destruct IH as [HA Hr]. split.
  - apply allocations_take.
    + rewrite (Qmax_pos _ Ho). by apply Q.min_glb_lt.
    + split_and!; [done|done|done|]. simpl. by rewrite val_sub, E.
    + eapply allocations_ext; [|exact HA]. apply spread_ext. by rewrite val_sub, E.
  - rewrite Hr, val_sub, E, (Qmax_pos _ Ho).
    destruct (Q.min_spec (val amount) (val (op_outstanding b))) as [[? Em]|[? Em]]; rewrite Em.
    + assert (0 <= owed open) by (apply qsum_nonneg, Forall_fmap, Forall_true; intros x; apply Qmax_0_nonneg).
      rewrite !Qmax_0; lra.
    + apply Q.max_compat; [lra|done].
Qed.

Lemma allocations_sum open qs out : allocations open qs out -> qsum ((fun a => val (al_applied a)) <$> out) == qsum qs.
Proof.
  induction 1 as [|b open q qs out Hq _ IH|b open q qs a out Hq (_ & _ & Ha & _) _ IH]; csimpl; [done|rewrite IH; lra|].
  rewrite IH, Ha. ring.
Qed.
Lemma spread_sum open x : 0 <= x -> x - Qmax (x - owed open) 0 == qsum (spread open x).
Proof.
  revert x. induction open as [|b open IH]; intros x Hx; simpl.
  { unfold owed. simpl. rewrite Q.max_l; lra. }
  unfold owed. csimpl. fold (owed open). set (m := Qmax (val (op_outstanding b)) 0).
  pose proof (Qmax_0_nonneg (val (op_outstanding b))). fold m in H.
  rewrite <- IH by (pose proof (Q.le_min_l x m); lra).
  assert (0 <= owed open) by (apply qsum_nonneg, Forall_fmap, Forall_true; intros y; apply Qmax_0_nonneg).
  destruct (Q.min_spec x m) as [[? Em]|[? Em]]; rewrite Em.
  - rewrite (Qmax_0 (x - (m + owed open))), (Qmax_0 (x - x - owed open)); lra.
  - assert (x - m - owed open == x - (m + owed open)) as -> by ring. ring.
Qed.

(** C15: an amount is allocated to the oldest bills first: along the list each bill takes exactly
    what the earlier ones left, up to what it owes, bills that take nothing are not listed,
    and what no bill could take is the excess over the total owed. *)
Theorem allocate_oldest_first open amount :
  0 <= val amount ->
  let '(out, rest) := allocate open amount in
  allocations open (spread open (val amount)) out /\
  qsum ((fun a => val (al_applied a)) <$> out) + val rest == val amount /\
  val rest == Qmax (val amount - owed open) 0.
Proof.
  intros Ha. pose proof (allocate_spread open amount Ha) as H.
  destruct (allocate open amount) as [out rest]. destruct H as [HA Hr]. split_and!; [done| |done].
  rewrite (allocations_sum _ _ _ HA), <- spread_sum, Hr by done. ring.
Qed.

(** ** One payment *)

(** What a bill is worth: net of the approved returns when it is a sale. *)
Definition worth (d : DB) (t : uuid) (r : HeadRow) (b : uuid) : Q :=
  if String.eqb (bh_type (hr_head r)) BillTypeSale
  then Qmax (val (bh_total (hr_head r)) - val (returned_amount t b d)) 0
  else val (bh_total (hr_head r)).

Lemma net_amount_Ok h t b l w n w' r :
  net_amount h t b l w = (Ok n, w') -> bh_type h = bh_type (hr_head r) -> bh_total h = bh_total (hr_head r) ->
  w_db w' = w_db w /\ val n == worth (w_db w) t r b.
Proof.
  unfold net_amount, worth. intros H E Ht. rewrite E in H. destruct (String.eqb _ _).
  - apply bind_Ok in H as (x & w1 & H1 & H). unfold ReturnedAmountTx in H1. minv H1. minv H.
    split; [done|]. by rewrite val_max, val_sub, val_zero, Ht.
  - minv H. by rewrite Ht.
Qed.

Definition paid_on (d : DB) (t b : uuid) : Q := val (paid_sum t b d).

(** A payment row added, and the bill's paid amount set; nothing else. *)
Record paid_into (t b : uuid) (pt : PayType) (creator : uuid) (partner : option uuid) (remark : string)
    (booked paid : dec) (d d' : DB) (r : HeadRow) : Prop := {
  pi_rows : exists r' row, d' = put_head b r' (set_payments d (db_payments d ++ [row])) /\
    payment_on t b pt booked row /\ fresh_payment row d /\
    py_partner (pr_payment row) = partner /\ py_creator (pr_payment row) = creator /\
    py_remark (pr_payment row) = remark /\
    same_row r r' /\ bh_status (hr_head r') = bh_status (hr_head r) /\
    bh_revision (hr_head r') = bh_revision (hr_head r) /\
    bh_warehouse (hr_head r') = bh_warehouse (hr_head r) /\
    bh_paid (hr_head r') = num4 paid;
  pi_fits : val (num4 paid) <= val (bh_total (hr_head r));
}.

Lemma pay_into_Ok l1 l2 t b creator pt amount partner remark id now paid w w1 p u w' r :
  live_row t b (w_db w) = Some r ->
  on_err l1 (Record_ (new_payment t b creator pt amount partner remark id now)) w = (Ok p, w1) ->
  on_err l2 (UpdatePaidAmount t b paid) w1 = (Ok u, w') ->
  paid_into t b pt creator partner remark amount paid (w_db w) (w_db w') r /\
  py_amount p = amount /\ py_bill p = b /\ py_tenant p = t.
Proof.
  intros Hr H1 H2. minv H1. minv H2.
  apply Record_Ok in H1 as (date & cr & row & Eq & -> & E & _ & Hfresh).
  eapply (UpdatePaidAmount_Ok _ _ _ _ _ _ r) in H2 as (Hle & now' & E'); [|rewrite E; exact Hr].
  rewrite E in E'. split; [|by rewrite Eq]. constructor; [|done].
  eexists _, _. split; [exact E'|]. rewrite Eq. by split_and!.
Qed.

(** a recorded payment is one positive payment on an approved bill that is not a purchase
    return.  What is booked is the amount asked for, or the exact remainder when the amount
    is the remainder rounded to the cent, so never more than half a cent away from it; the
    payments of the bill, this one included, never exceed what the bill is worth net of its
    returns; the bill's paid amount is set to that new sum; and nothing else changes. *)
Theorem record_payment_effect req w p w' :
  RecordPayment_ExecuteReturning req w = (Ok p, w') ->
  let t := rp_tenant req in let b := rp_bill req in let d := w_db w in
  exists r booked newPaid pt,
    live_row t b d = Some r /\ bh_status (hr_head r) = StatusApproved /\
    bh_sub_type (hr_head r) <> BillSubTypePurchaseReturn /\
    pay_resolvePayType (rp_pay_type req) = inr pt /\
    on_scale 2 (val (rp_amount req)) /\ 0 < val booked /\
    (val booked == val (rp_amount req) \/
     val booked == worth d t r b - paid_on d t b /\ val (rp_amount req) == qround 2 (val booked)) /\
    val newPaid == paid_on d t b + val booked /\ val newPaid <= worth d t r b /\
    paid_into t b pt (rp_creator req) (bh_partner (hr_head r)) (rp_remark req) booked newPaid d (w_db w') r /\
    py_amount p = booked /\ py_bill p = b.
Proof.
  intros H t b d. unfold RecordPayment_ExecuteReturning in H.
  mguard H as G1. mguard H as G2. mguard H as G3. mguard H as G4. mguard H as G5.
  apply bind_Ok in H as (pt & w1 & R1' & H). minv R1'. apply WithTx_Ok in H as (w2 & H & -> & _).
  unfold record_payment_body in H. fold t b in H.
  apply bind_Ok in H as (? & w3 & R3 & H). minv R3.
  pose proof (keeps_run _ _ _ _ _ (keeps_AcquireBillAdvisoryLock eq _ _) R3) as [E3 _]. clear R3. wsimpl.
  apply bind_Ok in H as (h & w4 & R4 & H). minv R4. apply scan_head_Ok in R4 as (-> & r & Hr & ->).
  rewrite <- E3 in Hr. mguard H as G6. mguard H as G7. apply negb_false_iff, Z.eqb_eq in G7.
  apply bind_Ok in H as (cur & w5 & R5 & H). unfold SumByBill in R5. minv R5.
  apply bind_Ok in H as (net & w6 & R6 & H). eapply (net_amount_Ok _ _ _ _ _ _ _ r) in R6 as [E6 Hnet]; [|done..].
  wsimpl. rewrite <- E3 in *.
  destruct (settle _ _ _) as [booked newPaid] eqn:Hs. mguard H as G8.
  apply bind_Ok in H as (now & w7 & R7 & H). minv R7. apply bind_Ok in H as (id & w8 & R8 & H). minv R8.
  apply bind_Ok in H as (q & w9 & R9 & H). apply bind_Ok in H as (? & w10 & R10 & H). minv H.
  eapply pay_into_Ok in R9 as (HP & Hp); [|wsimpl; rewrite E6; exact Hr|exact R10]. wsimpl. rewrite E6 in HP.
  simpl in G6. apply String.eqb_neq in G6. unfold whole_cents in G5.
  exists r, booked, newPaid, pt. split_and!; try done; [| | | | |apply Hp..].
  - dec_tests. rewrite G5. apply val_round_scale.
  - unfold settle in Hs. destruct (_ && deqb _ _) eqn:Hd; simplify_eq; dec_tests; [done|].
    match goal with H : ~ val (rp_amount req) == 0 |- _ =>
      destruct (Qlt_le_dec 0 (val (rp_amount req))); [done|exfalso; apply H; lra] end.
  - unfold settle in Hs. destruct (_ && deqb _ _) eqn:Hd; simplify_eq; dec_tests; [right|by left].
    match goal with H : val (rp_amount req) == _ |- _ => rewrite val_round in H end.
    split; [by rewrite val_sub, Hnet|done].
  - unfold settle, paid_on, d in *. destruct (_ && deqb _ _) eqn:Hd; simplify_eq; [rewrite val_sub; ring|by rewrite val_add].
  - unfold d. rewrite <- Hnet. dec.
Qed.

(** ** A receipt over several bills *)

(** A bill the receipt may settle, with the balance read under its lock. *)
Definition live_bill (req : ReceiptRequest) (d : DB) (l : LiveBill) : Prop :=
  let t := rr_tenant req in let b := op_bill (lb_open l) in
  exists r, live_row t b d = Some r /\ bh_status (hr_head r) = StatusApproved /\
    bh_type (hr_head r) = (if String.eqb (rr_direction req) DirectionPayable then BillTypePurchase else BillTypeSale) /\
    bh_sub_type (hr_head r) <> BillSubTypePurchaseReturn /\ bh_partner (hr_head r) = Some (rr_partner req) /\
    lb_total l = bh_total (hr_head r) /\ val (lb_paid l) == paid_on d t b /\
    val (lb_raw l) == Qmax (worth d t r b - paid_on d t b) 0 /\
    val (op_outstanding (lb_open l)) == qround 2 (val (lb_raw l)).

Definition bill_of (l : LiveBill) : uuid := op_bill (lb_open l).

(** What the ledger lists for a receipt: the rows of the partner's approved bills of the direction
    with a balance, each once, from the oldest on. *)
Record listed (req : ReceiptRequest) (d : DB) (rows : list HeadRow) : Prop := {
  ls_order : StronglySorted bill_order rows;
  ls_once : NoDup ((fun r => bh_id (hr_head r)) <$> rows);
  ls_open : forall r, r ∈ rows <->
    live_row (rr_tenant req) (bh_id (hr_head r)) d = Some r /\ bh_partner (hr_head r) = Some (rr_partner req) /\
    bh_status (hr_head r) = StatusApproved /\ 0 < val (open_balance (rr_direction req) d r) /\
    (bh_type (hr_head r), bh_sub_type (hr_head r)) =
      (if String.eqb (rr_direction req) DirectionPayable then (BillTypePurchase, BillSubTypePurchase) else (BillTypeSale, BillSubTypeSale));
}.

(** A bill that its locked row shows to be of the kind the receipt settles is taken. *)
Definition of_kind (req : ReceiptRequest) (r : HeadRow) : Prop :=
  bh_status (hr_head r) = StatusApproved /\
  bh_type (hr_head r) = (if String.eqb (rr_direction req) DirectionPayable then BillTypePurchase else BillTypeSale) /\
  bh_sub_type (hr_head r) <> BillSubTypePurchaseReturn /\ bh_partner (hr_head r) = Some (rr_partner req).

Lemma receipt_bill_Ok req live c w live' w' :
  receipt_bill req live c w = (Ok live', w') ->
  (exists r, live_row (rr_tenant req) (op_bill c) (w_db w) = Some r /\ of_kind req r) ->
  w_db w' = w_db w /\ exists l, live' = live ++ [l] /\ live_bill req (w_db w) l /\ bill_of l = op_bill c.
Proof.
  intros H (q & Hq & K1 & K2 & K3 & K4). unfold receipt_bill in H. apply bind_Ok in H as (? & w1 & H1 & H).
  assert (w_db w1 = w_db w) as E1.
  { destruct (negb _); minv H1; [|done]. symmetry.
    by destruct (keeps_run _ _ _ _ _ (keeps_AcquireBillAdvisoryLock eq _ _) H1). }
  apply bind_Ok in H as (h & w2 & H2 & H). minv H2. apply scan_head_Ok in H2 as (-> & r & Hr & ->).
  rewrite E1 in Hr. destruct (_ || negb (bool_decide _)) eqn:G.
  { exfalso. rewrite Hq in Hr. injection Hr as <-. simpl in G. rewrite K1, K4, K2 in G. apply String.eqb_neq in K3. rewrite K3 in G.
    rewrite String.eqb_refl, bool_decide_true in G by done. done. }
  clear q Hq K1 K2 K3 K4.
  apply orb_false_iff in G as [G G4]. apply orb_false_iff in G as [G G3]. apply orb_false_iff in G as [G1 G2].
  apply bind_Ok in H as (paid & w3 & H3 & H). unfold SumByBill in H3. minv H3.
  apply bind_Ok in H as (net & w4 & H4 & H). eapply (net_amount_Ok _ _ _ _ _ _ _ r) in H4 as [E4 Hn]; [|done..].
  wsimpl. minv H. rewrite E4, E1 in *. split; [done|]. eexists. split; [done|]. split; [|done].
  exists r. simpl in *. split_and!; try done.
  - by apply negb_false_iff, Z.eqb_eq in G1.
  - by apply negb_false_iff, String.eqb_eq in G2.
  - by apply String.eqb_neq in G3.
  - by apply negb_false_iff, bool_decide_eq_true in G4.
  - by rewrite val_max, val_sub, Hn, val_zero.
  - by rewrite val_round.
Qed.

Lemma receipt_bills_Ok req cs live w live' w' :
  foldM (receipt_bill req) cs live w = (Ok live', w') ->
  Forall (fun c => exists r, live_row (rr_tenant req) (op_bill c) (w_db w) = Some r /\ of_kind req r) cs ->
  w_db w' = w_db w /\ exists l, live' = live ++ l /\ Forall (live_bill req (w_db w)) l /\ bill_of <$> l = op_bill <$> cs.
Proof.
  revert live w. induction cs as [|c cs IH]; intros live w H Hk; cbn [foldM] in H.
  { minv H. split; [done|]. exists []. rewrite app_nil_r. split_and!; try done; constructor. }
  apply Forall_cons in Hk as [Hc Hk].
  apply bind_Ok in H as (live1 & w1 & H1 & H). apply receipt_bill_Ok in H1 as [E1 (x & -> & Hx & Hb)]; [|done].
  apply IH in H as (E & l & -> & Hl & Hs); [|by rewrite E1]. rewrite E1 in *. split; [done|].
  exists (x :: l). rewrite <- app_assoc. split_and!; [done|by constructor|]. csimpl. by rewrite Hb, Hs.
Qed.

Lemma live_of_In live l : NoDup (bill_of <$> live) -> l ∈ live -> live_of live (bill_of l) = l.
Proof.
  unfold live_of. generalize (mkLiveBill (mkOpenBill (bill_of l) "" time_zero dzero dzero) dzero dzero dzero).
  induction live as [|x live IH]; intros z Hn Hin; [by apply not_elem_of_nil in Hin|].
  csimpl in *. apply NoDup_cons in Hn as [Hx Hn]. fold (bill_of x). apply elem_of_cons in Hin as [->|Hin]; [|by apply IH].
  rewrite N.eqb_refl. clear IH. revert Hx. generalize (bill_of x). intros b. clear Hn.
  induction live as [|y live IH]; intros Hx; [done|]. csimpl in *. fold (bill_of y).
  apply not_elem_of_cons in Hx as [Hne Hx]. destruct (N.eqb_spec (bill_of y) b); [congruence|by apply IH].
Qed.

(** One bill paid: its row, before and after. *)
Definition settled (t : uuid) (live : list LiveBill) (d : DB) (hs : gmap uuid HeadRow) (a : Allocation) : Prop :=
  exists r r', live_row t (al_bill a) d = Some r /\ hs !! al_bill a = Some r' /\ same_row r r' /\
    bh_status (hr_head r') = bh_status (hr_head r) /\ bh_paid (hr_head r') = num4 (paid_now live a).

Definition receipt_row (req : ReceiptRequest) (pt : PayType) (a : Allocation) (row : PaymentRow) : Prop :=
  payment_on (rr_tenant req) (al_bill a) pt (al_applied a) row /\
  py_partner (pr_payment row) = Some (rr_partner req) /\ py_creator (pr_payment row) = rr_creator req /\
  py_remark (pr_payment row) = rr_remark req.

Lemma receipt_pays_Ok req pt now live out acc w acc' w' :
  foldM (receipt_pay req pt now live) out acc w = (Ok acc', w') ->
  NoDup (al_bill <$> out) ->
  Forall (fun a => is_Some (live_row (rr_tenant req) (al_bill a) (w_db w))) out ->
  val acc'.1 == val acc.1 + qsum ((fun a => val (al_applied a)) <$> out) /\
  exists rows hs, w_db w' = set_heads (set_payments (w_db w) (db_payments (w_db w) ++ rows)) hs /\
    Forall2 (receipt_row req pt) out rows /\
    (forall b, b ∉ al_bill <$> out -> hs !! b = db_heads (w_db w) !! b) /\
    Forall (settled (rr_tenant req) live (w_db w) hs) out.
Proof.
  revert acc w. induction out as [|a out IH]; intros acc w H Hn Hl; cbn [foldM] in H.
  { minv H. split; [csimpl; ring|]. exists [], (db_heads (w_db w')). rewrite app_nil_r.
    split_and!; try done. by destruct (w_db w'). }
  csimpl in Hn. apply NoDup_cons in Hn as [Ha Hn]. apply Forall_cons in Hl as [[r Hr] Hl].
  apply bind_Ok in H as (acc1 & w1 & H1 & H). unfold receipt_pay in H1.
  apply bind_Ok in H1 as (id & w2 & H2 & H1). minv H2.
  apply bind_Ok in H1 as (p & w3 & H3 & H1). apply bind_Ok in H1 as (? & w4 & H4 & H1). minv H1.
  eapply (pay_into_Ok _ _ _ _ _ _ _ _ _ _ _ _ (bump w)) in H4; [|exact Hr|exact H3]. destruct H4 as ([(r' & row & E & Hpay & _ & Hpp & Hpc & Hpr & Hs & Hst & _ & _ & Hpd) _] & _).
  wsimpl. pose proof (live_row_Some _ _ _ _ Hr) as (Hlk & Ht & Hdel).
  assert (forall b, b <> al_bill a -> db_heads (w_db w1) !! b = db_heads (w_db w) !! b) as Hother.
  { intros b Hb. rewrite E. simpl. by apply lookup_insert_ne. }
  apply IH in H as (Hsum & rows & hs & E' & HF & Hhs & HS); [|done|].
  2:{ rewrite Forall_forall in Hl |- *. intros y Hy. specialize (Hl y Hy). unfold live_row in *.
      rewrite Hother; [done|]. intros Ey. apply Ha. rewrite <- Ey. apply list_elem_of_fmap. by exists y. }
  split.
  { csimpl. rewrite Hsum. simpl. rewrite val_add. ring. }
  exists (row :: rows), hs. rewrite E', E. simpl. split_and!.
  - by rewrite <- app_assoc.
  - constructor; [|done]. by split_and!.
  - intros b [Hb1 Hb2]%not_elem_of_cons. rewrite Hhs by done. by apply Hother.
  - constructor.
    + exists r, r'. split; [done|]. split; [|by split_and!]. rewrite Hhs by done. rewrite E. simpl. apply lookup_insert_eq.
    + rewrite Forall_forall in HS |- *. intros y Hy. destruct (HS y Hy) as (q & q' & Hq & Hrest).
      exists q, q'. split; [|done]. unfold live_row in *. rewrite Hother in Hq; [done|].
      intros Ey. apply Ha. rewrite <- Ey. apply list_elem_of_fmap. by exists y.
Qed.

Lemma allocations_bills open qs out : allocations open qs out -> (al_bill <$> out) `sublist_of` (op_bill <$> open).
Proof.
  induction 1 as [|b open q qs out _ _ IH|b open q qs a out _ (Ha & _) _ IH]; csimpl; [done|by constructor|].
  rewrite Ha. by constructor.
Qed.

Lemma open_rows_NoDup t p dir d : keyed d -> NoDup ((fun r => bh_id (hr_head r)) <$> open_rows t p dir d).
Proof.
  intros K. unfold open_rows.
  rewrite (fmap_Permutation _ _ _ (merge_sort_Permutation bill_order _)).
  eapply sublist_NoDup; [|apply fmap_sublist, select_sublist].
  rewrite <- list_fmap_compose.
  assert (((fun r => bh_id (hr_head r)) ∘ snd) <$> map_to_list (db_heads d) = fst <$> map_to_list (db_heads d)) as ->.
  { apply list_fmap_ext. intros i [b r] Hi. simpl. apply (K b r).
    by apply elem_of_map_to_list, list_elem_of_lookup_2 with i. }
  apply NoDup_fst_map_to_list.
Qed.

#[local] Instance bill_order_total : Total bill_order.
Proof. intros r q. unfold bill_order. destruct (Z.lt_total (bh_date (hr_head r)) (bh_date (hr_head q))) as [?|[?|?]]; lia. Qed.
#[local] Instance bill_order_trans : Transitive bill_order.
Proof. intros r q p. unfold bill_order. lia. Qed.

Lemma ledger_bill_spec t p dir r : ledger_bill t p dir r = true <->
  bh_tenant (hr_head r) = t /\ bh_partner (hr_head r) = Some p /\ hr_deleted r = false /\ bh_status (hr_head r) = StatusApproved /\
  (bh_type (hr_head r), bh_sub_type (hr_head r)) =
    (if String.eqb dir DirectionPayable then (BillTypePurchase, BillSubTypePurchase) else (BillTypeSale, BillSubTypeSale)).
Proof.
  unfold ledger_bill, ledgerTypes. destruct (String.eqb dir _);
    rewrite !andb_true_iff, N.eqb_eq, bool_decide_eq_true, negb_true_iff, Z.eqb_eq, !String.eqb_eq;
    (split; [intros [[[[[? ?] ?] ?] ?] ?]; split_and!; congruence|intros (? & ? & ? & ? & ?); split_and!; congruence]).
Qed.

Lemma open_rows_listed req d : keyed d -> listed req d (open_rows (rr_tenant req) (rr_partner req) (rr_direction req) d).
Proof.
  intros K. split; [|by apply open_rows_NoDup|].
  { unfold open_rows. apply StronglySorted_merge_sort; tc_solve. }
  intros r. unfold open_rows. rewrite merge_sort_Permutation, elem_of_select, andb_true_iff, ledger_bill_spec, is_positive_true.
  assert ((r ∈ snd <$> map_to_list (db_heads d)) <-> db_heads d !! bh_id (hr_head r) = Some r) as ->.
  { rewrite list_elem_of_fmap. split.
    - intros ([b q] & -> & Hb%elem_of_map_to_list). simpl in *. by rewrite (K b q Hb).
    - intros Hr. exists (bh_id (hr_head r), r). split; [done|]. by apply elem_of_map_to_list. }
  unfold live_row. split.
  - intros [[(<- & ? & Hd & ? & ?) ?] ->]. rewrite N.eqb_refl, Hd. by split_and!.
  - intros (H & ? & ? & ? & ?). destruct (db_heads d !! bh_id (hr_head r)) as [q|]; [|done].
    destruct (N.eqb_spec (bh_tenant (hr_head q)) (rr_tenant req)); [|done]. destruct (hr_deleted q) eqn:Hd; [done|].
    injection H as ->. by split_and!.
Qed.

Lemma listed_of_kind req d rows r : listed req d rows -> r ∈ rows ->
  exists q, live_row (rr_tenant req) (bh_id (hr_head r)) d = Some q /\ of_kind req q.
Proof.
  intros L (Hr & Hp & Hs & _ & Ht)%(ls_open _ _ _ L). exists r. split; [done|]. unfold of_kind.
  destruct (String.eqb _ _); injection Ht as -> ->; by split_and!.
Qed.

(** C16: a receipt books the whole amount handed over, to the cent, as one payment per bill it
    settles, of the given method and partner; it goes through all the open bills of the partner, the
    approved ones of the direction with a balance, from the oldest on and without skipping one, and
    each takes what the earlier ones left up to its balance re-read under its lock; the amount never
    exceeds what these bills owe together; each settled bill's paid amount is raised accordingly
    (to its exact remainder when it is settled in full, and never above its total), and no
    other bill changes. *)
Theorem receipt_effect req w res w' :
  keyed (w_db w) ->
  Receipt_Execute req w = (Ok res, w') ->
  let t := rr_tenant req in let d := w_db w in let allocs := rs_allocations res in
  exists live pt rows hs opens,
    listed req d opens /\
    bill_of <$> live = (fun r => bh_id (hr_head r)) <$> opens /\
    Forall (live_bill req d) live /\
    allocations (lb_open <$> live) (spread (lb_open <$> live) (val (rr_amount req))) allocs /\
    val (rr_amount req) <= owed (lb_open <$> live) /\
    0 < val (rr_amount req) /\ on_scale 2 (val (rr_amount req)) /\
    qsum ((fun a => val (al_applied a)) <$> allocs) == val (rr_amount req) /\
    val (rs_booked res) == val (rr_amount req) /\
    pay_resolvePayType (rr_pay_type req) = inr pt /\
    w_db w' = set_heads (set_payments d (db_payments d ++ rows)) hs /\
    Forall2 (receipt_row req pt) allocs rows /\
    (forall b, b ∉ al_bill <$> allocs -> hs !! b = db_heads d !! b) /\
    Forall (settled t live d hs) allocs.
Proof.
  intros K H t d allocs. unfold Receipt_Execute in H. mguard H as G1.
  apply bind_Ok in H as (? & w1 & R1 & H). unfold check in R1. destruct (checkReceipt _ _) eqn:Hc; [done|]. minv R1.
  apply bind_Ok in H as (pt & w2 & R2 & H). minv R2.
  apply bind_Ok in H as (cs & w3 & R3 & H). unfold OpenBills in R3. minv R3.
  apply WithTx_Ok in H as (w4 & H & -> & _). unfold receipt_body in H.
  apply bind_Ok in H as (live & w5 & R5 & H). pose proof (open_rows_listed req d K) as HL.
  apply receipt_bills_Ok in R5 as (E5 & l & El & Hl & Hs).
  2:{ apply Forall_fmap, Forall_forall. intros r Hr. wsimpl. by eapply listed_of_kind. }
  simpl in El. subst live. wsimpl. unfold checkReceipt in Hc. destruct (negb (validDirection _)); [done|].
  destruct (negb (is_positive (rr_amount req)) || _) eqn:Ha; [done|]. apply orb_false_iff in Ha as [Ha Hcents]. dec_tests.
  pose proof (allocate_spread (lb_open <$> l) (rr_amount req) (Qlt_le_weak _ _ Ha)) as HA.
  destruct (allocate _ _) as [out rest]. destruct HA as [HA Hrest]. mguard H as G2.
  apply bind_Ok in H as (now & w6 & R6 & H). minv R6. apply bind_Ok in H as (acc & w7 & R7 & H). minv H.
  rewrite <- list_fmap_compose in Hs. unfold compose in Hs. simpl in Hs.
  assert (NoDup (bill_of <$> l)) as HND.
  { rewrite Hs. apply HL. }
  assert (NoDup (al_bill <$> out)) as HNO.
  { eapply sublist_NoDup; [|by eapply allocations_bills]. by rewrite <- list_fmap_compose. }
  apply receipt_pays_Ok in R7 as (Hsum & rows & hs & E7 & HF & Hhs & HS); [|done|].
  2:{ wsimpl. rewrite E5. apply Forall_forall. intros a Hin.
      assert (al_bill a ∈ bill_of <$> l) as Hb.
      { pose proof (allocations_bills _ _ _ HA) as Hsub. rewrite <- list_fmap_compose in Hsub.
        eapply elem_of_sublist; [|exact Hsub]. apply list_elem_of_fmap. by exists a. }
      apply list_elem_of_fmap in Hb as (x & -> & Hx). rewrite Forall_forall in Hl.
      destruct (Hl x Hx) as (r & Hr & _). by exists r. }
  wsimpl. rewrite E5 in *. subst allocs d. simpl.
  assert (val rest <= 0) as Hr0 by dec.
  exists l, pt, rows, hs. eexists. split; [exact HL|]. split_and!; try done.
  - rewrite Hrest in Hr0. pose proof (Q.le_max_l (val (rr_amount req) - owed (lb_open <$> l)) 0). lra.
  - unfold whole_cents in Hcents. dec_tests. rewrite Hcents. apply val_round_scale.
  - rewrite (allocations_sum _ _ _ HA), <- spread_sum by lra. rewrite <- Hrest.
    pose proof (Qmax_0_nonneg (val (rr_amount req) - owed (lb_open <$> l))). rewrite <- Hrest in *. lra.
  - rewrite Hsum. simpl. rewrite (allocations_sum _ _ _ HA), <- spread_sum by lra. rewrite <- Hrest, val_zero.
    pose proof (Qmax_0_nonneg (val (rr_amount req) - owed (lb_open <$> l))). rewrite <- Hrest in *. lra.
Qed.
End payment_laws.

(** ** On the small shop *)

(** The teas sold on credit, four of the ten paid. *)
Definition ex_credit_approve : ApproveSaleRequest :=
  mkApproveSaleRequest ex_tenant ex_tea_bill ex_user (D 4 0) PayTypeCash "" time_zero false false.
Definition ex_credit_world : World := (ApproveSale_Execute (calc := WACCalculator) ex_credit_approve ex_tea_world).2.

Definition ex_payment : RecordPaymentRequest :=
  mkRecordPaymentRequest ex_tenant ex_tea_bill ex_user (D 250 2) PayTypeWechat "second".
Definition ex_receipt : ReceiptRequest :=
  mkReceiptRequest ex_tenant ex_user DirectionReceivable ex_customer (D 6 0) PayTypeBank "all of it".

Definition ex_open (b : uuid) (q : dec) : OpenBill := mkOpenBill b "" time_zero q q.

Lemma allocate_oldest_first_witness :
  let open := [ex_open 1%N (D 3 0); ex_open 2%N (D 0 0); ex_open 3%N (D 250 2)] in
  let '(out, rest) := allocate open (D 5 0) in
  al_bill <$> out = [1%N; 3%N] /\ allocations open (spread open (val (D 5 0))) out /\ (val rest == 0)%Q.
Proof.
  assert (0 <= val (D 5 0))%Q as Ha by (compute_goal).
  pose proof (allocate_oldest_first [ex_open 1%N (D 3 0); ex_open 2%N (D 0 0); ex_open 3%N (D 250 2)] (D 5 0) Ha) as H.
  cbv zeta. assert (al_bill <$> (allocate [ex_open 1%N (D 3 0); ex_open 2%N (D 0 0); ex_open 3%N (D 250 2)] (D 5 0)).1 = [1%N; 3%N]) as Hb
    by reflexivity.
  assert (val (allocate [ex_open 1%N (D 3 0); ex_open 2%N (D 0 0); ex_open 3%N (D 250 2)] (D 5 0)).2 == 0)%Q as Hr by compute_goal.
  destruct (allocate _ _) as [out rest]. destruct H as (HA & _). by split_and!.
Defined.

Lemma record_payment_effect_witness :
  exists p w', RecordPayment_ExecuteReturning ex_payment ex_credit_world = (Ok p, w') /\
    exists r, live_row ex_tenant ex_tea_bill (w_db ex_credit_world) = Some r /\ bh_status (hr_head r) = StatusApproved.
Proof.
  run_ok (RecordPayment_ExecuteReturning ex_payment ex_credit_world) as p w' H. exists p, w'. split; [exact H|].
  destruct (record_payment_effect ex_payment ex_credit_world p w' H) as (r & bk & np & pt & Hr & Hs & _).
  exists r. split; [exact Hr|exact Hs].
Defined.

Lemma receipt_effect_witness :
  exists res w', Receipt_Execute ex_receipt ex_credit_world = (Ok res, w') /\ (val (rs_booked res) == 6)%Q.
Proof.
  run_ok (Receipt_Execute ex_receipt ex_credit_world) as res w' H. exists res, w'. split; [exact H|].
  destruct (receipt_effect ex_receipt ex_credit_world res w' ltac:(decide_goal) H)
    as (live & pt & rows & hs & opens & _ & _ & _ & _ & _ & _ & _ & _ & Hb & _).
  eapply Qeq_trans; [exact Hb|]. compute_goal.
Defined.
