(* ===== verification/BillReturn.v ===== *)
(** Sales returns: app/bill/create_return.go, create_return_clone.go, return_origin.go,
    return_remaining.go, return_strict.go, approve_return.go, sale_return.go,
    sale_return_refund.go and sale_refund_only.go.

    Go maps from ids to decimals are [gmap]s read with [mget].  Where the code ranges over a
    map the order is that of the list the map was filled from, or of [map_to_list]; the map
    updates involved commute. *)
From S2P Require Import Prelude GoStrings Rounding Decimal SDec Types StockDomain BillDomain GoTime Store StockRepo StockCalc StockRecord BillRepo BillRows BillDraft BillApprove.
From stdpp Require Import base tactics strings gmap list.
From Stdlib Require Import ZArith QArith Lqa Lia.

Section return_.
Context {ops : DecimalOps} {env : Env} {wiring : Wiring} {calc : InventoryCalculator}.

(** ** create_return.go *)

Record ReturnItem := mkReturnItem {
  ri_product : uuid;
  ri_unit : option uuid;
  ri_unit_name : string;
  ri_line_no : Z;
  ri_qty : dec;
  ri_price : dec;
  ri_link : option uuid;
}.

Record CreateReturnRequest := mkCreateReturnRequest {
  cr_tenant : uuid;
  cr_creator : uuid;
  cr_warehouse : option uuid;
  cr_partner : option uuid;
  cr_link : option uuid;
  cr_date : time;
  cr_remark : string;
  cr_items : list ReturnItem;
}.

(** The subtotal, the items and the links from return line to sale line so far. *)
Abbreviation return_acc := ((dec * list BillItem) * list (uuid * uuid))%type.

Definition return_line (tenant : uuid) (acc : return_acc) (it : ReturnItem) : M return_acc :=
  check_line (ri_product it) (ri_qty it) (ri_price it);;
  lines ← new_line tenant uuid_nil (ri_product it) (ri_unit it) (ri_unit_name it) (ri_line_no it)
            (ri_qty it) (ri_price it) acc.1;
  mret (lines, acc.2 ++ match ri_link it, last lines.2 with
                        | Some link, Some item => [(bi_id item, link)]
                        | _, _ => []
                        end).

Definition CreateReturn_Execute (req : CreateReturnRequest) : M CreateDraftOutput :=
  guard_err (uuid_is_nil (cr_tenant req)) (validation "tenant_id is required");;
  guard_err (uuid_is_nil (cr_creator req)) (validation "creator_id is required");;
  guard_err (Nat.eqb (length (cr_items req)) 0) (validation "at least one item is required");;
  date ← (if time_is_zero (cr_date req) then time_now else mret (cr_date req));
  lines ← foldM (return_line (cr_tenant req)) (cr_items req) ((dzero, []), []);
  let '((subtotal, items), links) := lines in
  validateRefs (cr_tenant req) (ri_product <$> cr_items req) (cr_warehouse req);;
  billID ← uuid_new;
  now ← time_now;
  WithTx "bill repo" (
    billNo ← on_err (EWrap "create return draft: generate bill_no") (NextBillNo (cr_tenant req) "RT");
    let head := draft_head billID (cr_tenant req) billNo BillTypePurchase BillSubTypeSaleReturn
                  (cr_partner req) (cr_warehouse req) (cr_creator req) date subtotal dzero
                  dzero subtotal "" dzero dzero (cr_remark req) now "" "" None in
    on_err (EWrap "create return draft: persist bill") (CreateBill head (with_head billID <$> items));;
    match cr_link req with
    | Some sale =>
        on_err (EWrap "create return draft: link sale") (SetLinkBill (cr_tenant req) billID sale);;
        (if Nat.eqb (length links) 0 then mret tt
         else on_err (EWrap "create return draft: link sale lines") (SetLinkItems (cr_tenant req) sale links))
    | None => mret tt
    end;;
    mret (mkCreateDraftOutput billID billNo)).

(** ** return_origin.go *)

Record OriginRef := mkOriginRef { or_bill : uuid; or_platform : string; or_order : string }.

Definition originBillIDKey : string := "original_bill_id=".
Definition refundIDKey : string := ":refund_id=".

Definition ParseOriginRef (remark : string) : option OriginRef :=
  match cut_last originBillIDKey remark with
  | Some (_, raw) =>
      match uuid_parse (trim_space raw) with
      | Some id => Some (mkOriginRef id "" "")
      | None => None
      end
  | None =>
      match cut_prefix "refund:" remark with
      | Some rest =>
          match cut_first ":" rest with
          | Some (platform, tail) =>
              match cut_last refundIDKey tail with
              | Some (order, _) =>
                  if negb (String.eqb order "") && negb (String.eqb platform "")
                  then Some (mkOriginRef uuid_nil platform order) else None
              | None => None
              end
          | None => None
          end
      | None => None
      end
  end.

(** [uuid_nil] when the return points at no sale. *)
Definition resolveOriginBill (head : BillHead) : M uuid :=
  linked ← on_err (EWrap "resolve linked bill") (LinkedBillID (bh_tenant head) (bh_id head));
  match linked with
  | Some id => mret id
  | None =>
      match ParseOriginRef (bh_remark head) with
      | None => mret uuid_nil
      | Some ref =>
          if negb (uuid_is_nil (or_bill ref)) then mret (or_bill ref)
          else
            found ← on_err (EWrap "resolve imported order bill")
                      (ImportedOrderBillID (bh_tenant head) (or_platform ref) (or_order ref));
            mret (default uuid_nil found)
      end
  end.

(** ** return_remaining.go *)

Definition baseFactor (product : uuid) (unit_ : option uuid) : M dec :=
  match unit_ with
  | None => mret (dint 1)
  | Some u =>
      if has_units then
        f ← GetConversionFactor product u;
        mret (if is_positive f then f else dint 1)
      else mret (dint 1)
  end.

(** pool[p] = pool[p].Add(q) *)
Definition madd (pool : gmap uuid dec) (p : uuid) (q : dec) : gmap uuid dec :=
  <[p := dadd (mget pool p) q]> pool.

Definition add_returned (pool : gmap uuid dec) (r : ReturnedLine) : M (gmap uuid dec) :=
  f ← on_err (EWrap "returned qty") (baseFactor (rl_product r) (rl_unit r));
  mret (madd pool (rl_product r) (dmul (rl_qty r) f)).

Definition returnedBase (tenant sale : uuid) : M (gmap uuid dec) :=
  returned ← on_err (EWrap "returned qty") (ReturnedQty tenant sale);
  foldM add_returned returned ∅.

Definition is_sale_bill (h : BillHead) : bool :=
  String.eqb (bh_type h) BillTypeSale && negb (String.eqb (bh_sub_type h) BillSubTypePurchaseReturn).

Definition add_sold (rem : gmap uuid dec) (l : BillItem) : M (gmap uuid dec) :=
  f ← on_err (EWrap "remaining qty") (baseFactor (bi_product l) (bi_unit l));
  mret (madd rem (bi_product l) (dmul (bi_qty l) f)).

(** rem[p] = Max(rem[p] - q, 0) for every product of [returned] *)
Definition subtract_returned (rem returned : gmap uuid dec) : gmap uuid dec :=
  fold_left (fun m pq => <[pq.1 := dmax (dsub (mget m pq.1) pq.2) dzero]> m) (map_to_list returned) rem.

(** [None] is the Go (nil, false): not a sale, nothing to cap against. *)
Definition remainingBase (tenant origin : uuid) : M (option (gmap uuid dec)) :=
  orig ← try (GetBill tenant origin);
  match orig with
  | inl e => if errors_is e ErrBillNotFound then mret None else throw (EWrap "remaining qty: load sale" e)
  | inr orig =>
      if negb (is_sale_bill orig) then mret None
      else if negb (Z.eqb (bh_status orig) StatusApproved) then mret (Some ∅)
      else
        lines ← on_err (EWrap "remaining qty: load items") (GetBillItems tenant origin);
        rem ← foldM add_sold lines ∅;
        returned ← returnedBase tenant origin;
        mret (Some (subtract_returned rem returned))
  end.

(** What is granted, and the pool after. *)
Definition takeBase (rem : gmap uuid dec) (product : uuid) (want : dec) : dec * gmap uuid dec :=
  let take := dmin (mget rem product) want in
  if negb (is_positive take) then (dzero, rem)
  else (take, <[product := dsub (mget rem product) take]> rem).

(** ** create_return_clone.go *)

Definition clone_line (acc : gmap uuid dec * list ReturnItem) (l : BillItem) : M (gmap uuid dec * list ReturnItem) :=
  let '(pool, items) := acc in
  f ← on_err (EWrap "clone original bill") (baseFactor (bi_product l) (bi_unit l));
  let take := dmin (mget pool (bi_product l)) (dmul (bi_qty l) f) in
  pl ← (if is_positive take
        then q ← Div take f;
             mret (<[bi_product l := dsub (mget pool (bi_product l)) take]> pool, dsub (bi_qty l) q)
        else mret (pool, bi_qty l));
  let '(pool, rest) := pl in
  mret (pool,
    if negb (is_positive rest) then items
    else items ++ [mkReturnItem (bi_product l) (bi_unit l) (bi_unit_name l) (bi_line_no l) rest (bi_unit_price l) None]).

Definition CloneOriginal (tenant original : uuid) : M (uuid * list ReturnItem) :=
  orig ← on_err (EWrap "clone original bill") (GetBill tenant original);
  guard_err (negb (is_sale_bill orig)) (validation "original bill is not a sale");;
  guard_err (negb (Z.eqb (bh_status orig) StatusApproved)) (ESentinel ErrNothingToReverse);;
  lines ← on_err (EWrap "clone original bill: load items") (GetBillItems tenant original);
  guard_err (Nat.eqb (length lines) 0) (validation "original sale has no lines");;
  pool ← on_err (EWrap "clone original bill") (returnedBase tenant original);
  acc ← foldM clone_line lines (pool, []);
  guard_err (Nat.eqb (length acc.2) 0) (ESentinel ErrNothingToReverse);;
  match bh_warehouse orig with
  | Some k => mret (k, acc.2)
  | None =>
      k ← on_err (EWrap "clone original bill: default warehouse") (DefaultWarehouseID tenant);
      match k with
      | None => throw (ESentinel ErrWarehouseRequired)
      | Some k => mret (k, acc.2)
      end
  end.

Definition with_qty (it : ReturnItem) (q : dec) : ReturnItem :=
  mkReturnItem (ri_product it) (ri_unit it) (ri_unit_name it) (ri_line_no it) q (ri_price it) (ri_link it).

Definition cap_line (acc : gmap uuid dec * list ReturnItem) (it : ReturnItem) : M (gmap uuid dec * list ReturnItem) :=
  let '(rem, capped) := acc in
  f ← on_err (EWrap "cap return") (baseFactor (ri_product it) (ri_unit it));
  let want := dmul (ri_qty it) f in
  let '(got, rem) := takeBase rem (ri_product it) want in
  if negb (is_positive got) then mret (rem, capped)
  else
    it ← (if dlt got want then q ← Div got f; mret (with_qty it q) else mret it);
    mret (rem, capped ++ [it]).

Definition CapToRemaining (tenant : uuid) (remark : string) (items : list ReturnItem) : M (list ReturnItem) :=
  match ParseOriginRef remark with
  | None => mret items
  | Some ref =>
      origin ← (if uuid_is_nil (or_bill ref)
                then on_err (EWrap "cap return") (ImportedOrderBillID tenant (or_platform ref) (or_order ref))
                else mret (Some (or_bill ref)));
      match origin with
      | None => mret items
      | Some origin =>
          rem ← on_err (EWrap "cap return") (remainingBase tenant origin);
          match rem with
          | None => mret items
          | Some rem =>
              acc ← foldM cap_line items (rem, []);
              guard_err (Nat.eqb (length acc.2) 0) (ESentinel ErrNothingToReverse);;
              mret acc.2
          end
      end
  end.

(** ** return_strict.go *)

Definition by_id (lines : list BillItem) : gmap uuid BillItem :=
  fold_left (fun m l => <[bi_id l := l]> m) lines ∅.

Record strictReturnCheck := mkStrictReturnCheck {
  sc_lines : gmap uuid BillItem;
  sc_links : gmap uuid uuid;
  sc_returned : gmap uuid dec;
}.

Definition newStrictCheck (tenant bill sale : uuid) : M strictReturnCheck :=
  links ← on_err (EWrap "return links") (ReturnLinks tenant bill);
  returned ← on_err (EWrap "returned qty by line") (ReturnedQtyByLine tenant sale);
  lines ← on_err (EWrap "sale items") (GetBillItems tenant sale);
  mret (mkStrictReturnCheck (by_id lines) links returned).

(** What the sale line with this id has left. *)
Definition line_left (c : strictReturnCheck) (link : uuid) (sl : BillItem) : dec :=
  dmax (dsub (bi_qty sl) (mget (sc_returned c) link)) dzero.

Definition strict_take (c : strictReturnCheck) (rem : gmap uuid dec) (item : BillItem) (factor : dec)
  : M (gmap uuid dec) :=
  match sc_links c !! bi_id item with
  | Some link =>
      match sc_lines c !! link with
      | Some sl => guard_err (dgt (bi_qty item) (line_left c link sl)) (EReturnExceeded (bi_line_no sl) (line_left c link sl))
      | None => mret tt
      end
  | None => mret tt
  end;;
  let want := dmul (bi_qty item) factor in
  let '(got, rem') := takeBase rem (bi_product item) want in
  if dlt got want then
    let line_no := match sc_lines c !! default uuid_nil (sc_links c !! bi_id item) with
                   | Some sl => bi_line_no sl
                   | None => bi_line_no item
                   end in
    q ← Div got factor;
    throw (EReturnExceeded line_no q)
  else mret rem'.

(** ** approve_return.go *)

Record ApproveReturnRequest := mkApproveReturnRequest {
  ar_tenant : uuid;
  ar_bill : uuid;
  ar_creator : uuid;
  ar_strict : bool;
}.

Definition returnUnitCost (origin tenant product warehouse : uuid) : M dec :=
  sold ← (if negb (uuid_is_nil origin) then SaleOutUnitCost tenant origin product else mret None);
  match sold with
  | Some c => mret c
  | None => c ← SnapshotUnitCost tenant product warehouse; mret (default dzero c)
  end.

(** The factor as the text a movement carries: unlike the other approvals, a missing unit
    repository means base units. *)
Definition return_factor (it : BillItem) : M string :=
  match bi_unit it with
  | None => mret "1"%string
  | Some u =>
      if has_units then f ← on_err (EWrap "approve return: item") (GetConversionFactor (bi_product it) u);
                        mret (dto_string f)
      else mret "1"%string
  end.

(** decimal.NewFromString(convFactor), or 1 *)
Definition factor_or_one (convFactor : string) : dec :=
  match dof_string convFactor with
  | Some f => if is_positive f then f else dint 1
  | None => dint 1
  end.

(** How much of the line goes back, and the pool after; [None] skips the line. *)
Definition granted_qty (strict : option strictReturnCheck) (rem : option (gmap uuid dec)) (it : BillItem)
    (convFactor : string) : M (option dec * option (gmap uuid dec)) :=
  match rem with
  | None => mret (Some (bi_qty it), None)
  | Some rem =>
      let f := factor_or_one convFactor in
      match strict with
      | Some c => rem ← strict_take c rem it f; mret (Some (bi_qty it), Some rem)
      | None =>
          let want := dmul (bi_qty it) f in
          let '(got, rem) := takeBase rem (bi_product it) want in
          if negb (is_positive got) then mret (None, Some rem)
          else if dlt got want then q ← Div got f; mret (Some q, Some rem)
          else mret (Some (bi_qty it), Some rem)
      end
  end.

Definition return_movement (req : ApproveReturnRequest) (warehouse : uuid) (it : BillItem) (qty : dec)
    (convFactor : string) (cost : dec) : RecordMovementRequest :=
  mkRecordMovementRequest (ar_tenant req) (bi_product it) warehouse DirectionIn qty
    (unit_or_nil it) convFactor cost false false "wac" RefReturn (Some (ar_bill req)) time_zero None "".

Definition approve_return_line (req : ApproveReturnRequest) (warehouse origin : uuid)
    (strict : option strictReturnCheck) (acc : option (gmap uuid dec) * nat) (it : BillItem)
  : M (option (gmap uuid dec) * nat) :=
  let '(rem, moved) := acc in
  convFactor ← return_factor it;
  g ← granted_qty strict rem it convFactor;
  let '(qty, rem) := g in
  match qty with
  | None => mret (rem, moved)
  | Some qty =>
      cost ← on_err (EWrap "approve return: cost for item") (returnUnitCost origin (ar_tenant req) (bi_product it) warehouse);
      _ ← on_err (EWrap "approve return: record movement")
            (ExecuteInTx (return_movement req warehouse it qty convFactor cost));
      mret (rem, S moved)
  end.

(** Whether nothing was left to give back, so that the draft was retired instead. *)
Definition approve_return_body (req : ApproveReturnRequest) : M bool :=
  let tenant := ar_tenant req in let bill := ar_bill req in
  on_err (fun _ => EWrap "approve return" (ESentinel ErrBillApprovalConflict))
    (AcquireBillAdvisoryLock tenant bill);;
  head ← on_err (EWrap "approve return: load bill") (GetBillForUpdate tenant bill);
  if Z.eqb (bh_status head) StatusApproved then mret false
  else
    guard_err (negb (BillStatus_CanTransitionTo (bh_status head) StatusApproved))
      (EWrap "approve return" (ESentinel ErrInvalidBillStatus));;
    items ← on_err (EWrap "approve return: load items") (GetBillItems tenant bill);
    warehouse ← on_err (EWrap "approve return") (resolveApprovalWarehouse head tenant bill);
    origin ← on_err (EWrap "approve return") (resolveOriginBill head);
    rem ← (if uuid_is_nil origin then mret None
           else
             on_err (fun _ => EWrap "approve return" (ESentinel ErrBillApprovalConflict))
               (AcquireBillAdvisoryLock tenant origin);;
             on_err (EWrap "approve return") (remainingBase tenant origin));
    strict ← (if ar_strict req && negb (uuid_is_nil origin)
              then c ← on_err (EWrap "approve return") (newStrictCheck tenant bill origin); mret (Some c)
              else mret None);
    acc ← foldM (approve_return_line req warehouse origin strict) items (rem, O);
    if negb (is_none rem) && Nat.eqb acc.2 0
    then UpdateBillStatus tenant bill StatusCancelled no_meta;; mret true
    else
      now ← time_now;
      on_err (EWrap "approve return: update status")
        (UpdateBillStatus tenant bill StatusApproved (approval_meta now (ar_creator req)));;
      mret false.

Definition ApproveReturn_Execute (req : ApproveReturnRequest) : M unit :=
  guard_err (uuid_is_nil (ar_tenant req)) (EMsg "approve return: tenant_id is required");;
  guard_err (uuid_is_nil (ar_bill req)) (EMsg "approve return: bill_id is required");;
  already ← already_approved (ar_tenant req) (ar_bill req);
  if (already : bool) then mret tt
  else
    nothingLeft ← WithTx "bill repo" (approve_return_body req);
    guard_err nothingLeft (ESentinel ErrNothingToReverse).
End return_.
