(* ===== verification/ReturnCap.v ===== *)
(** The cap on sales returns.

    [sold_base] and [returned_base] say, from the rows of the database, how many base units
    of a product a sale sold and how many approved returns gave back against it.  The
    code's [remainingBase] is bounded by their difference, so a strict approval, which must
    book every line in full, never takes the returned quantity past the sold one. *)
From S2P Require Import Prelude GoStrings Rounding Decimal SDec Types StockDomain BillDomain GoTime Store StockRepo StockCalc StockRecord StockLedger BillRepo BillRows BillDraft BillApprove BillEdit BillReturn Concrete WAC.
From stdpp Require Import base tactics strings gmap list.
From Stdlib Require Import ZArith QArith Qminmax Lqa Lia.

Section return_cap.
Context {ops : DecimalOps} {laws : DecimalLaws ops} {env : Env} {wiring : Wiring}
  {calc : InventoryCalculator} {CL : CalculatorLaws calc}.
Local Open Scope Q_scope.

(** ** Pools *)

Lemma mget_insert_eq {K} `{Countable K} (m : gmap K dec) k q : mget (<[k := q]> m) k = q.
Proof. unfold mget. by rewrite lookup_insert_eq. Qed.
Lemma mget_insert_ne {K} `{Countable K} (m : gmap K dec) k j q : k <> j -> mget (<[k := q]> m) j = mget m j.
Proof. intros H'. unfold mget. by rewrite lookup_insert_ne. Qed.
Lemma mget_empty {K} `{Countable K} (k : K) : mget ∅ k = dzero.
Proof. unfold mget. by rewrite lookup_empty. Qed.

Definition part (key p : uuid) (q : Q) : Q := if N.eqb key p then q else 0.

Lemma part_0 k p : part k p 0 == 0.
Proof. unfold part. by destruct (N.eqb k p). Qed.

Lemma mget_madd m k p q : val (mget (madd m k q) p) == val (mget m p) + part k p (val q).
Proof.
  unfold madd, part. destruct (N.eqb_spec k p) as [->|Hn].
  - by rewrite mget_insert_eq, val_add.
  - rewrite mget_insert_ne by done. ring.
Qed.

(** SUM .. GROUP BY keeps every weighted sum over the groups. *)
Section groups.
Context {K : Type} `{Countable K} (g : K -> Q).
Definition weigh (kq : K * dec) : Q := val kq.2 * g kq.1.

Lemma weigh_perm l l' : Permutation l l' -> qsum (weigh <$> l) == qsum (weigh <$> l').
Proof. intros Hp. apply qsum_perm. by apply Permutation_map. Qed.

Lemma weigh_insert m k q :
  qsum (weigh <$> map_to_list (<[k := dadd (mget m k) q]> m)) == qsum (weigh <$> map_to_list m) + val q * g k.
Proof.
  destruct (m !! k) as [y|] eqn:E.
  - pose proof (insert_delete_id m k y E) as Em. pose proof (lookup_delete_eq m k) as Ed.
    assert (forall x, qsum (weigh <$> map_to_list (<[k := x]> m)) ==
      qsum (weigh <$> map_to_list (delete k m)) + val x * g k) as Hi.
    { intros x. rewrite <- insert_delete_eq.
      rewrite (weigh_perm _ _ (map_to_list_insert _ k x Ed)). csimpl. unfold weigh at 1. simpl. ring. }
    rewrite <- Em at 3. rewrite insert_delete_eq, !Hi. unfold mget. rewrite E, val_add. ring.
  - rewrite (weigh_perm _ _ (map_to_list_insert m k _ E)).
    csimpl. unfold weigh at 1. simpl. unfold mget. rewrite E, val_add, val_zero. ring.
Qed.

Lemma group_sum_weight rows : qsum (weigh <$> map_to_list (group_sum rows)) == qsum (weigh <$> rows).
Proof.
  unfold group_sum.
  assert (forall m, qsum (weigh <$> map_to_list
    (fold_left (fun m kq => <[kq.1 := dadd (mget m kq.1) kq.2]> m) rows m)) ==
    qsum (weigh <$> map_to_list m) + qsum (weigh <$> rows)) as Hg.
  { induction rows as [|[k q] rows IH]; intros m; csimpl; [ring|].
    rewrite IH, weigh_insert. change (weigh (k, q)) with (val q * g k). ring. }
  rewrite Hg, map_to_list_empty. simpl. ring.
Qed.
End groups.
(** ** Base units *)

(** Base units in one unit of a line, as [baseFactor] has it. *)
Definition base_factor (d : DB) (product : uuid) (unit_ : option uuid) : Q :=
  match unit_ with
  | None => 1
  | Some _ =>
      if has_units then
        match unit_factor d product unit_ with
        | Some f => if is_positive f then val f else 1
        | None => 1
        end
      else 1
  end.

Lemma base_factor_pos d p u : 0 < base_factor d p u.
Proof.
  unfold base_factor. destruct u; [|done]. destruct has_units; [|done].
  destruct (unit_factor _ _ _) as [f|]; [|done]. destruct (is_positive f) eqn:E; [dec|done].
Qed.

Lemma baseFactor_Ok p u w f w' :
  baseFactor p u w = (Ok f, w') -> w_db w' = w_db w /\ val f == base_factor (w_db w) p u /\ 0 < val f.
Proof.
  unfold baseFactor, base_factor. intros H. destruct u as [u|].
  2:{ minv H. rewrite val_int. by split_and!. }
  destruct has_units.
  2:{ minv H. rewrite val_int. by split_and!. }
  apply bind_Ok in H as (g & w1 & H1 & H). apply GetConversionFactor_Ok in H1 as [E Hg]. minv H.
  rewrite Hg. split; [done|]. destruct (is_positive g) eqn:Hp; [split; [done|dec]|].
  by rewrite val_int.
Qed.

Definition base_qty (d : DB) (it : BillItem) : Q := val (bi_qty it) * base_factor d (bi_product it) (bi_unit it).

(** Base units of one product on some lines. *)
Definition product_total (d : DB) (p : uuid) (l : list BillItem) : Q :=
  qsum ((fun it => part (bi_product it) p (base_qty d it)) <$> l).

Definition sold_base (d : DB) (tenant sale p : uuid) : Q := product_total d p (lines_of tenant sale d).
Definition returned_base (d : DB) (tenant sale p : uuid) : Q :=
  product_total d p (ir_item <$> items_of (gives_back tenant sale d) d).

(** A loop that adds quantities to the pool of their products. *)
Lemma pool_fold {X} (f : gmap uuid dec -> X -> M (gmap uuid dec)) (product : X -> uuid) (q : DB -> X -> Q) l m w m' w' :
  (forall m x w m' w', f m x w = (Ok m', w') -> w_db w' = w_db w /\
     exists y, m' = madd m (product x) y /\ val y == q (w_db w) x) ->
  foldM f l m w = (Ok m', w') ->
  w_db w' = w_db w /\
  forall p, val (mget m' p) == val (mget m p) + qsum ((fun x => part (product x) p (q (w_db w) x)) <$> l).
Proof.
  intros Hf. revert m w. induction l as [|x l IH]; intros m w H; cbn [foldM] in H.
  { minv H. split; [done|]. intros p. csimpl. ring. }
  apply bind_Ok in H as (m1 & w1 & H1 & H). apply Hf in H1 as (E1 & y & -> & Hy).
  apply IH in H as (E & Hp). rewrite E1 in *. split; [done|]. intros p. rewrite Hp, mget_madd. csimpl.
  unfold part at 1 3. destruct (N.eqb _ p); [rewrite Hy|]; ring.
Qed.

Lemma returnedBase_Ok t s w m w' :
  returnedBase t s w = (Ok m, w') ->
  w_db w' = w_db w /\ forall p, val (mget m p) == returned_base (w_db w) t s p.
Proof.
  intros H. unfold returnedBase in H. apply bind_Ok in H as (l & w1 & H1 & H). minv H1.
  unfold ReturnedQty in H1. minv H1.
  apply (pool_fold add_returned rl_product
    (fun d r => val (rl_qty r) * base_factor d (rl_product r) (rl_unit r))) in H as [E Hp].
  - split; [done|]. intros p. simpl in Hp. rewrite Hp, mget_empty, val_zero.
    set (g := fun k : uuid * option uuid => if N.eqb k.1 p then base_factor (w_db w) k.1 k.2 else 0).
    rewrite <- list_fmap_compose.
    transitivity (0 + qsum (weigh g <$> map_to_list (group_sum
      ((fun i => ((bi_product (ir_item i), bi_unit (ir_item i)), bi_qty (ir_item i))) <$>
       items_of (gives_back t s (w_db w)) (w_db w))))).
    { apply Qplus_comp; [done|]. apply qsum_ext. intros [[a b] q] _. unfold part, weigh, g. simpl.
      destruct (N.eqb a p); ring. }
    rewrite group_sum_weight. unfold returned_base, product_total. rewrite <- !list_fmap_compose.
    rewrite Qplus_0_l. apply qsum_ext. intros i _. unfold weigh, part, base_qty, g. simpl.
    destruct (N.eqb _ p); ring.
  - clear. intros m x w m' w' H. unfold add_returned in H. apply bind_Ok in H as (f & w1 & H1 & H). minv H1.
    apply baseFactor_Ok in H1 as (E & Hf & _). minv H. split; [done|]. eexists. split; [done|].
    by rewrite val_mul, Hf.
Qed.

Definition subtract_one (m : gmap uuid dec) (pq : uuid * dec) : gmap uuid dec :=
  <[pq.1 := dmax (dsub (mget m pq.1) pq.2) dzero]> m.

Lemma subtract_other l m p : p ∉ l.*1 -> mget (fold_left subtract_one l m) p = mget m p.
Proof.
  revert m. induction l as [|[k q] l IH]; intros m Hp; [done|]. csimpl.
  apply not_elem_of_cons in Hp as [Hk Hp]. rewrite IH by done. by apply mget_insert_ne.
Qed.

Lemma subtract_in l m p q :
  NoDup l.*1 -> (p, q) ∈ l -> mget (fold_left subtract_one l m) p = dmax (dsub (mget m p) q) dzero.
Proof.
  revert m. induction l as [|[k x] l IH]; intros m Hn Hp; [by apply elem_of_nil in Hp|].
  csimpl in *. apply NoDup_cons in Hn as [Hk Hn]. apply elem_of_cons in Hp as [[= <- <-]|Hp].
  - rewrite subtract_other by done. apply mget_insert_eq.
  - rewrite IH by done. unfold subtract_one. simpl. rewrite mget_insert_ne; [done|].
    intros ->. apply Hk. by apply (list_elem_of_fmap_2 fst _ (p, q)).
Qed.

(** What remains is at most the difference. *)
Lemma subtract_returned_le rem ret p :
  val (mget (subtract_returned rem ret) p) <= Qmax (val (mget rem p) - val (mget ret p)) 0.
Proof.
  unfold subtract_returned. change (fold_left _ ?l ?m) with (fold_left subtract_one l m).
  destruct (ret !! p) as [q|] eqn:E.
  - rewrite (subtract_in _ _ p q); [|apply NoDup_fst_map_to_list|by apply elem_of_map_to_list].
    unfold mget at 3. rewrite E, val_max, val_sub, val_zero. apply Qle_refl.
  - rewrite subtract_other.
    + unfold mget at 3. rewrite E, val_zero. eapply Qle_trans; [|apply Q.le_max_l]. lra.
    + intros ([k q] & -> & Hk)%list_elem_of_fmap. apply elem_of_map_to_list in Hk. simpl in E. congruence.
Qed.

(** ** What remains of a sale *)

Lemma GetBill_Ok t b w h w' :
  GetBill t b w = (Ok h, w') ->
  w_db w' = w_db w /\ exists r p k, live_row t b (w_db w) = Some r /\ h = with_names (as_scanned (hr_head r)) p k.
Proof.
  intros H. split; [by destruct (keeps_run _ _ _ _ _ (keeps_GetBill eq t b) H)|].
  unfold GetBill in H. apply bind_Ok in H as (h0 & w1 & H1 & H). apply scan_head_Ok in H1 as (-> & r & Hr & ->).
  apply bind_Ok in H as (p & w2 & _ & H). apply bind_Ok in H as (k & w3 & _ & H). minv H. by exists r, p, k.
Qed.

Lemma add_sold_Ok m x w m' w' :
  add_sold m x w = (Ok m', w') ->
  w_db w' = w_db w /\ exists y, m' = madd m (bi_product x) y /\ val y == base_qty (w_db w) x.
Proof.
  unfold add_sold. intros H. apply bind_Ok in H as (f & w1 & H1 & H). minv H1.
  apply baseFactor_Ok in H1 as (E & Hf & _). minv H. split; [done|]. eexists. split; [done|].
  by rewrite val_mul, Hf.
Qed.

Definition sale_row (r : HeadRow) : Prop :=
  is_sale_bill (hr_head r) = true /\ bh_status (hr_head r) = StatusApproved.

(** The difference of what was sold and what came back, never below zero. *)
Definition remaining_base (d : DB) (t s p : uuid) : Q :=
  Qmax (sold_base d t s p - returned_base d t s p) 0.

Lemma remainingBase_Ok t s w o w' :
  remainingBase t s w = (Ok o, w') ->
  w_db w' = w_db w /\
  match o with
  | None => forall r, live_row t s (w_db w) = Some r -> is_sale_bill (hr_head r) = false
  | Some rem => exists r, live_row t s (w_db w) = Some r /\ is_sale_bill (hr_head r) = true /\
      forall p, val (mget rem p) <= remaining_base (w_db w) t s p
  end.
Proof.
  intros H. unfold remainingBase in H. apply bind_Ok in H as (o1 & w1 & H1 & H). minv H1.
  destruct o1 as [e|h].
  { pose proof (keeps_run _ _ _ _ _ (keeps_GetBill eq t s) H1) as [E _].
    destruct (errors_is e ErrBillNotFound) eqn:He; [|done]. minv H. split; [done|].
    intros r Hr. exfalso. unfold GetBill in H1.
    apply bind_Err in H1 as [H1|(h & w2 & H2 & H1)].
    - unfold scan_head in H1. apply bind_Err in H1 as [H1|(o2 & w2 & H2 & H1)].
      + unfold query, statement in H1. by destruct (db_fault _); simplify_eq.
      + minv H2. by rewrite Hr in H1.
    - errs_in H1 (fun e => errors_is e ErrBillNotFound = false); [done..|congruence]. }
  apply GetBill_Ok in H1 as (E & r & pn & kn & Hr & ->). simpl in H.
  change (is_sale_bill (with_names _ _ _)) with (is_sale_bill (hr_head r)) in H.
  destruct (is_sale_bill (hr_head r)) eqn:Hs; simpl in H.
  2:{ minv H. split; [done|]. intros r' Hr'. congruence. }
  destruct (Z.eqb_spec (bh_status (hr_head r)) StatusApproved) as [Ha|Ha]; simpl in H.
  2:{ minv H. split; [done|]. exists r. split_and!; [done..|]. intros p. rewrite mget_empty, val_zero. apply Q.le_max_r. }
  apply bind_Ok in H as (lines & w2 & H2 & H). minv H2. apply GetBillItems_Ok in H2 as [-> E2].
  apply bind_Ok in H as (sold & w3 & H3 & H).
  apply (pool_fold add_sold bi_product base_qty) in H3 as [E3 Hsold]; [|apply add_sold_Ok].
  apply bind_Ok in H as (ret & w4 & H4 & H). apply returnedBase_Ok in H4 as [E4 Hret]. minv H.
  split; [congruence|]. exists r. split_and!; [done..|]. intros p.
  eapply Qle_trans; [apply subtract_returned_le|]. unfold remaining_base.
  rewrite Hsold, Hret, mget_empty, val_zero, E3, E2, E. unfold sold_base, product_total. 
  apply Qle_lteq. right. by rewrite Qplus_0_l.
Qed.
(** ** One line *)

Lemma base_factor_frame d d' p u : line_frame d d' -> base_factor d' p u = base_factor d p u.
Proof.
  intros [H _]. unfold base_factor, unit_factor.
  rewrite (f_equal db_product_unit H : db_product_unit d = db_product_unit d').
  by rewrite (f_equal db_products H : db_products d = db_products d').
Qed.

Lemma base_qty_frame d d' it : line_frame d d' -> base_qty d' it = base_qty d it.
Proof. intros H. unfold base_qty. by rewrite (base_factor_frame _ _ _ _ H). Qed.

Lemma return_factor_Ok it w c w' :
  return_factor it w = (Ok c, w') ->
  let F := base_factor (w_db w) (bi_product it) (bi_unit it) in
  w_db w' = w_db w /\ val (factor_or_one c) == F /\
  forall qty q, convertToBase qty c = inr q -> val q == val qty * F.
Proof.
  intros H F. unfold return_factor in H.
  assert (val (factor_or_one "1") == 1) as H1.
  { unfold factor_or_one. destruct dof_string_1 as (b & -> & Hb). destruct (is_positive b) eqn:E; [done|dec]. }
  destruct (bi_unit it) as [u|] eqn:Hu.
  2:{ minv H. unfold F, base_factor. split_and!; [done|done|]. intros qty q [= <-]. ring. }
  destruct has_units eqn:Hh.
  2:{ minv H. unfold F, base_factor. rewrite Hh. split_and!; [done|done|]. intros qty q [= <-]. ring. }
  apply bind_Ok in H as (f & w1 & H2 & H). minv H2. apply GetConversionFactor_Ok in H2 as [E Hf]. minv H.
  unfold F, base_factor. rewrite Hh, Hf. split; [done|].
  destruct (dof_to_string f) as (b & Hb & Hv). unfold factor_or_one. rewrite Hb. split.
  - destruct (is_positive b) eqn:E1, (is_positive f) eqn:E2; dec_tests; [done|exfalso; lra|exfalso; lra|].
    by rewrite val_int.
  - intros qty q Hq. pose proof (convertToBase_cases qty (dto_string f)) as Hc. rewrite Hq in Hc.
    destruct Hc as [[[Hs|Hs] ->]|(g & Hg & Hp & ->)].
    + by destruct (dto_string_nonempty f).
    + destruct dof_string_1 as (c & Hc1 & Hc2). rewrite Hs in Hb. assert (b = c) as -> by congruence.
      destruct (is_positive f) eqn:E2; [rewrite <- Hv, Hc2; ring|dec_tests; exfalso; lra].
    + assert (g = b) as -> by congruence. destruct (is_positive f) eqn:E2; [by rewrite Hv|dec_tests; exfalso; lra].
Qed.

Lemma takeBase_spec rem product want got rem' :
  takeBase rem product want = (got, rem') ->
  (0 < val got /\ val got <= val want /\ val got <= val (mget rem product) /\
   forall p, val (mget rem' p) == val (mget rem p) - part product p (val got)) \/
  (val got == 0 /\ rem' = rem /\ (val want <= 0 \/ val (mget rem product) <= 0)).
Proof.
  unfold takeBase. intros H. pose proof (val_min_cases (mget rem product) want) as Hm.
  destruct (is_positive (dmin (mget rem product) want)) eqn:Hp; simpl in H; simplify_eq; dec_tests.
  - left. split_and!; [done|destruct Hm as [[-> ?]|[-> ?]]; lra..|].
    intros p. unfold part. destruct (N.eqb_spec product p) as [->|Hn].
    + by rewrite mget_insert_eq, val_sub.
    + rewrite mget_insert_ne by done. ring.
  - right. split_and!; [by rewrite val_zero|done|]. destruct Hm as [[? ?]|[? ?]]; [right|left]; lra.
Qed.

Lemma strict_take_Ok c rem it f w rem' w' :
  strict_take c rem it f w = (Ok rem', w') -> 0 <= val (bi_qty it) * val f ->
  w' = w /\ (forall p, val (mget rem' p) == val (mget rem p) - part (bi_product it) p (val (bi_qty it) * val f)) /\
  (0 < val (bi_qty it) * val f -> 0 <= val (mget rem' (bi_product it))).
Proof.
  unfold strict_take. intros H Hn. apply bind_Ok in H as (u & w1 & H1 & H).
  assert (w1 = w) as ->.
  { destruct (sc_links c !! _); [destruct (sc_lines c !! _)|]; by minv H1. }
  destruct (takeBase rem (bi_product it) (dmul (bi_qty it) f)) as [got rem1] eqn:Ht.
  apply takeBase_spec in Ht. rewrite val_mul in Ht.
  destruct (dlt got (dmul (bi_qty it) f)) eqn:Hl.
  { apply bind_Ok in H as (? & ? & _ & H). done. }
  minv H. dec_tests. rewrite val_mul in Hl. split; [done|].
  destruct Ht as [(Hp & Hle & Hr & Hm)|(Hz & -> & Hd)].
  - assert (val got == val (bi_qty it) * val f) as E by lra. split.
    + intros p. rewrite (Hm p). unfold part. destruct (N.eqb _ p); [by rewrite E|done].
    + intros _. rewrite (Hm (bi_product it)). unfold part. rewrite N.eqb_refl. lra.
  - split; [|intros; lra]. intros p. unfold part. destruct (N.eqb _ p); lra.
Qed.

(** What is granted of a line, in base units, and the receipt that books it. *)
Definition granted (d : DB) (t k b : uuid) (it : BillItem) (g : Q) (m : Movement) : Prop :=
  exists q, document_movement (t, bi_product it, k) b DirectionIn RefReturn q m /\
    ((g == base_qty d it /\ q == g) \/
     (0 < g < base_qty d it /\
      q == qround 16 (g / base_factor d (bi_product it) (bi_unit it)) * base_factor d (bi_product it) (bi_unit it))).

(** Lines, what was granted of each, and the receipts booked: a line granted nothing may be
    skipped. *)
Inductive booked_returns (d : DB) (t k b : uuid) : list BillItem -> list Q -> list Movement -> Prop :=
  | br_nil : booked_returns d t k b [] [] []
  | br_skip it items gs ms :
      booked_returns d t k b items gs ms -> booked_returns d t k b (it :: items) (0 :: gs) ms
  | br_take it g m items gs ms :
      granted d t k b it g m -> booked_returns d t k b items gs ms ->
      booked_returns d t k b (it :: items) (g :: gs) (m :: ms).

(** Only the units of the database matter. *)
Lemma booked_returns_units d d' t k b items gs ms :
  (forall p u, base_factor d' p u = base_factor d p u) ->
  booked_returns d' t k b items gs ms -> booked_returns d t k b items gs ms.
Proof.
  intros H. induction 1 as [| |it g m items gs ms Hg _ IH]; constructor; try done.
  unfold granted, base_qty in *. by rewrite !H in Hg.
Qed.
Lemma booked_returns_frame d d' t k b items gs ms :
  line_frame d d' -> booked_returns d' t k b items gs ms -> booked_returns d t k b items gs ms.
Proof. intros H. apply booked_returns_units. intros p u. by apply base_factor_frame. Qed.

Definition total_granted (p : uuid) (items : list BillItem) (gs : list Q) : Q :=
  qsum (zip_with (fun it g => part (bi_product it) p g) items gs).

(** The pool after granting [gs]. *)
Definition drawn (rem rem' : gmap uuid dec) (items : list BillItem) (gs : list Q) : Prop :=
  forall p, val (mget rem' p) == val (mget rem p) - total_granted p items gs /\
            (0 < total_granted p items gs -> 0 <= val (mget rem' p)).

Lemma keeps_returnUnitCost P `{!PreOrder P} o t p k : keeps (db_rel P) (returnUnitCost o t p k).
Proof. unfold returnUnitCost. keeps_solve. Qed.

Lemma granted_qty_Ok strict rem it c w o w' F :
  granted_qty strict rem it c w = (Ok o, w') ->
  val (factor_or_one c) == F -> 0 < F -> (strict <> None -> 0 <= val (bi_qty it)) ->
  w' = w /\
  match o.1 with
  | None => exists r, rem = Some r /\ o.2 = Some r /\ strict = None
  | Some q => exists g,
      ((g == val (bi_qty it) * F /\ val q == val (bi_qty it)) \/
       (strict = None /\ rem <> None /\ 0 < g < val (bi_qty it) * F /\ val q == qround 16 (g / F))) /\
      match rem with
      | None => o.2 = None
      | Some r => exists r', o.2 = Some r' /\ 0 <= g /\
          (forall p, val (mget r' p) == val (mget r p) - part (bi_product it) p g) /\
          (0 < g -> 0 <= val (mget r' (bi_product it)))
      end
  end.
Proof.
  intros H HF Hpos Hn. unfold granted_qty in H. destruct rem as [r|].
  2:{ minv H. split; [done|]. simpl. exists (val (bi_qty it) * F). split; [by left|done]. }
  destruct strict as [sc|].
  { apply bind_Ok in H as (r' & w1 & H1 & H). minv H.
    apply strict_take_Ok in H1 as (-> & Hp & Hg).
    2:{ rewrite HF. pose proof (Hn ltac:(done)). nra. }
    split; [done|]. simpl. exists (val (bi_qty it) * F). split; [by left|]. rewrite HF in Hg.
    exists r'. split_and!; [done|pose proof (Hn ltac:(done)); nra| |].
    - intros p. rewrite Hp. unfold part. destruct (N.eqb _ p); [by rewrite HF|done].
    - exact Hg. }
  destruct (takeBase r (bi_product it) (dmul (bi_qty it) (factor_or_one c))) as [got r'] eqn:Ht.
  apply takeBase_spec in Ht. rewrite val_mul, HF in Ht.
  destruct (is_positive got) eqn:Hp; simpl in H.
  2:{ minv H. split; [done|]. simpl. exists r. destruct Ht as [(? & _)|(_ & -> & _)]; [dec_tests; exfalso; lra|done]. }
  destruct Ht as [(_ & Hle & Hr & Hm)|(Hz & _)]; [|dec_tests; exfalso; lra].
  assert (forall g, g == val got -> (forall p, val (mget r' p) == val (mget r p) - part (bi_product it) p g) /\
    (0 < g -> 0 <= val (mget r' (bi_product it)))) as Hd.
  { intros g Eg. split.
    - intros p. rewrite (Hm p). unfold part. destruct (N.eqb _ p); [by rewrite Eg|done].
    - intros _. rewrite (Hm (bi_product it)). unfold part. rewrite N.eqb_refl. lra. }
  destruct (dlt got (dmul (bi_qty it) (factor_or_one c))) eqn:Hl; dec_tests; rewrite val_mul, HF in Hl.
  - apply bind_Ok in H as (q & w1 & H1 & H). minv H1. minv H. split; [done|]. simpl.
    exists (val got). split; [right|].
    + split_and!; [done|done|done|done|]. dec_tests. rewrite val_div by (rewrite HF; lra). by rewrite HF.
    + exists r'. split_and!; [done|lra|by apply Hd|by apply Hd].
  - minv H. split; [done|]. simpl. exists (val got). split; [left; split; [lra|done]|].
    exists r'. split_and!; [done|lra|by apply Hd|by apply Hd].
Qed.
Lemma approve_return_line_Ok req k o strict rem n it w acc w' :
  approve_return_line req k o strict (rem, n) it w = (Ok acc, w') ->
  (strict <> None -> 0 <= val (bi_qty it)) ->
  line_frame (w_db w) (w_db w') /\ exists g ms,
    db_movements (w_db w') = db_movements (w_db w) ++ ms /\
    booked_returns (w_db w) (ar_tenant req) k (ar_bill req) [it] [g] ms /\
    acc.2 = (n + length ms)%nat /\
    match rem with
    | None => acc.1 = None /\ g == base_qty (w_db w) it
    | Some r => exists r', acc.1 = Some r' /\ 0 <= g /\ (strict <> None -> g == base_qty (w_db w) it) /\
        (forall p, val (mget r' p) == val (mget r p) - part (bi_product it) p g) /\
        (0 < g -> 0 <= val (mget r' (bi_product it)))
    end.
Proof.
  intros H Hn. unfold approve_return_line in H.
  apply bind_Ok in H as (c & w1 & H1 & H). apply return_factor_Ok in H1 as (E1 & Hc & Hconv).
  apply bind_Ok in H as ([q rem'] & w2 & H2 & H).
  eapply granted_qty_Ok in H2 as [-> H2]; [|exact Hc|apply base_factor_pos|done]. simpl in H2.
  destruct q as [q|].
  2:{ minv H. destruct H2 as (r & -> & -> & ->). rewrite E1. split; [reflexivity|]. exists 0, [].
      rewrite app_nil_r. split_and!; [done|by constructor; constructor|simpl; lia|].
      exists r. split_and!; [done|done|done| |intros; lra]. intros p. rewrite part_0. ring. }
  apply bind_Ok in H as (cost & w3 & H3 & H). minv H3.
  pose proof (keeps_run _ _ _ _ _ (keeps_returnUnitCost eq _ _ _ _) H3) as [E3 _].
  apply bind_Ok in H as (sn & w4 & H4 & H). minv H4. minv H.
  apply ExecuteInTx_Ok in H4. rewrite <- E3, E1 in H4.
  eapply recorded_move in H4 as (F4 & m & Hm & Hd); [|exact Hconv|done|done].
  split; [by apply tx_line_frame|].
  destruct H2 as (g & Hg & Hr). exists g, [m]. split; [done|]. split.
  { apply br_take; [|constructor]. eexists. split; [exact Hd|]. unfold base_qty. simpl.
    destruct Hg as [[Eg Eq]|(_ & _ & Hlt & Eq)].
    - left. split; [exact Eg|]. by rewrite Eq, Eg.
    - right. split; [exact Hlt|]. by rewrite Eq. }
  split; [simpl; lia|].
  assert (strict <> None -> g == base_qty (w_db w) it) as Hs.
  { intros Hs. destruct Hg as [[Eg _]|(? & _)]; [exact Eg|done]. }
  destruct rem as [r|].
  - destruct Hr as (r' & -> & ? & ? & ?). exists r'. by split_and!.
  - subst rem'. split; [done|]. by destruct Hg as [[Eg _]|(_ & ? & _)].
Qed.
Lemma booked_returns_cons d t k b it g items gs ms1 ms2 :
  booked_returns d t k b [it] [g] ms1 -> booked_returns d t k b items gs ms2 ->
  booked_returns d t k b (it :: items) (g :: gs) (ms1 ++ ms2).
Proof.
  intros H1 H2. inversion H1; subst; clear H1;
    match goal with H : booked_returns _ _ _ _ [] [] _ |- _ => inversion H; subst end; simpl; by constructor.
Qed.

Lemma total_granted_nonneg p items gs : Forall (fun g => 0 <= g) gs -> 0 <= total_granted p items gs.
Proof.
  intros H. apply qsum_nonneg. revert items. induction H as [|g gs Hg _ IH]; intros [|it items]; simpl; constructor.
  - unfold part. destruct (N.eqb _ p); [done|apply Qle_refl].
  - apply IH.
Qed.

Lemma approve_return_lines_Ok req k o strict items rem n w acc w' :
  foldM (approve_return_line req k o strict) items (rem, n) w = (Ok acc, w') ->
  (strict <> None -> Forall (fun it => 0 <= val (bi_qty it)) items) ->
  line_frame (w_db w) (w_db w') /\ exists gs ms,
    db_movements (w_db w') = db_movements (w_db w) ++ ms /\
    booked_returns (w_db w) (ar_tenant req) k (ar_bill req) items gs ms /\
    acc.2 = (n + length ms)%nat /\
    let in_full := Forall2 (fun it g => g == base_qty (w_db w) it) items gs in
    match rem with
    | None => acc.1 = None /\ in_full
    | Some r => Forall (fun g => 0 <= g) gs /\ (strict <> None -> in_full) /\
        exists r', acc.1 = Some r' /\ drawn r r' items gs
    end.
Proof.
  revert rem n w. induction items as [|it items IH]; intros rem n w H Hn; cbn [foldM] in H.
  { minv H. split; [reflexivity|]. exists [], []. rewrite app_nil_r. split_and!; [done|constructor|simpl; lia|].
    destruct rem as [r|]; simpl; [|by split]. split_and!; [constructor|constructor|].
    exists r. split; [done|]. intros p. unfold total_granted. simpl. split; [ring|intros; lra]. }
  apply bind_Ok in H as ([rem1 n1] & w1 & H1 & H). apply approve_return_line_Ok in H1 as (F1 & g & ms1 & Hm1 & Hb1 & Hn1 & Hr1).
  2:{ intros Hs. specialize (Hn Hs). by inversion Hn. }
  apply IH in H as (F2 & gs & ms2 & Hm2 & Hb2 & Hn2 & Hr2).
  2:{ intros Hs. specialize (Hn Hs). by inversion Hn. }
  simpl in *. subst n1. split; [by etrans|]. exists (g :: gs), (ms1 ++ ms2). split_and!.
  - by rewrite Hm2, Hm1, app_assoc.
  - apply booked_returns_cons; [done|]. by eapply booked_returns_frame.
  - rewrite length_app. lia.
  - assert (forall l gs, Forall2 (fun it g => g == base_qty (w_db w1) it) l gs ->
      Forall2 (fun it g => g == base_qty (w_db w) it) l gs) as Hf.
    { intros l gs' Hl. eapply Forall2_impl; [exact Hl|]. intros x y Hx. by rewrite <- (base_qty_frame _ _ _ F1). }
    destruct rem as [r|].
    + destruct Hr1 as (r1 & -> & Hg & Hs & Hd & Hp). destruct Hr2 as (Hgs & Hs2 & r' & Hr' & Hd').
      split_and!; [by constructor|intros Hx; constructor; [by apply Hs|by apply Hf, Hs2]|].
      exists r'. split; [done|]. intros p. destruct (Hd' p) as [D1 D2].
      pose proof (total_granted_nonneg p items gs Hgs) as Hz.
      unfold total_granted. simpl. fold (total_granted p items gs). split; [rewrite D1, Hd; ring|].
      intros Hlt. destruct (Qlt_le_dec 0 (total_granted p items gs)) as [|Hle]; [by apply D2|].
      unfold part in Hlt. destruct (N.eqb_spec (bi_product it) p) as [<-|]; [|exfalso; lra].
      rewrite D1. assert (0 < g) as Hpos by lra. specialize (Hp Hpos). lra.
    + destruct Hr1 as [-> Hg]. destruct Hr2 as [-> Hl]. split; [done|]. constructor; [done|by apply Hf].
Qed.
(** ** The whole approval *)

(** The sale a return points at, [uuid_nil] when there is none. *)
Definition origin_of (d : DB) (t : uuid) (r : HeadRow) : uuid :=
  match hr_link r with
  | Some s => s
  | None =>
      match ParseOriginRef (bh_remark (hr_head r)) with
      | None => uuid_nil
      | Some ref =>
          if negb (uuid_is_nil (or_bill ref)) then or_bill ref
          else default uuid_nil (head (os_bill <$> select (fun o => N.eqb (os_tenant o) t
                 && String.eqb (os_platform o) (or_platform ref) && String.eqb (os_order_no o) (or_order ref))
                 (db_orders_seen d)))
      end
  end.

Lemma resolveOriginBill_Ok t b d0 r w o w' :
  keyed d0 -> live_row t b d0 = Some r -> db_heads (w_db w) !! b = Some r ->
  db_orders_seen (w_db w) = db_orders_seen d0 ->
  resolveOriginBill (as_scanned (hr_head r)) w = (Ok o, w') ->
  w_db w' = w_db w /\ o = origin_of d0 t r.
Proof.
  intros K Hr Hb Ho H. pose proof (live_row_id _ _ _ _ K Hr) as Hid.
  apply live_row_Some in Hr as (_ & Ht & _). subst b t.
  unfold resolveOriginBill in H. apply bind_Ok in H as (l & w1 & H1 & H). minv H1.
  unfold LinkedBillID in H1. minv H1. simpl in H. rewrite Hb, N.eqb_refl in H.
  unfold origin_of. destruct (hr_link r); [by minv H|].
  destruct (ParseOriginRef _) as [ref|]; [|by minv H].
  destruct (uuid_is_nil (or_bill ref)); simpl in *; [|by minv H].
  apply bind_Ok in H as (f & w2 & H2 & H). minv H2. unfold ImportedOrderBillID in H2. minv H2. minv H.
  simpl. by rewrite Ho.
Qed.

(** A draft return became approved: its receipts, and how much of each line they cover. *)
Definition return_booked (req : ApproveReturnRequest) (d d' : DB) (r : HeadRow) : Prop :=
  let t := ar_tenant req in let b := ar_bill req in
  exists k r' gs ms,
    db_heads d' = <[b := r']> (db_heads d) /\ same_row r r' /\
    bh_status (hr_head r') = StatusApproved /\ bh_approved_by (hr_head r') = Some (ar_creator req) /\
    bh_revision (hr_head r') = bh_revision (hr_head r) /\ bh_paid (hr_head r') = bh_paid (hr_head r) /\
    strip_docs d = strip_docs d' /\ db_payments d' = db_payments d /\
    ir_item <$> db_items d' = ir_item <$> db_items d /\
    db_movements d' = db_movements d ++ ms /\
    booked_returns d t k b (lines_of t b d) gs ms /\
    (ar_strict req = true \/ origin_of d t r = uuid_nil ->
     Forall2 (fun it g => g == base_qty d it) (lines_of t b d) gs) /\
    (forall s, origin_of d t r = s -> s <> uuid_nil -> s <> b -> forall rs, live_row t s d = Some rs ->
     is_sale_bill (hr_head rs) = true ->
     forall p, total_granted p (lines_of t b d) gs <= remaining_base d t s p).

Lemma strip_docs_line d d' b r1 :
  line_frame (put_head b r1 d) d' -> strip_docs d = strip_docs d'.
Proof. intros [F _]. unfold strip_docs. rewrite <- F. done. Qed.
(** The lines approved returns count with, one condition per line of the table. *)
Definition counts (t s : uuid) (d : DB) (it : BillItem) : bool :=
  match db_heads d !! bi_head it with
  | Some r => N.eqb (bi_tenant it) (bh_tenant (hr_head r)) && gives_back t s d r
  | None => false
  end.

Lemma qsum_select {A} (f : A -> Q) (c : A -> bool) l :
  qsum (f <$> select c l) == qsum ((fun x => if c x then f x else 0) <$> l).
Proof.
  unfold select. induction l as [|x l IH]; [done|]. csimpl. destruct (c x); csimpl; rewrite IH; ring.
Qed.

Definition rows_total (d : DB) (p : uuid) (c : BillItem -> bool) : Q :=
  qsum ((fun it => if c it then part (bi_product it) p (base_qty d it) else 0) <$> (ir_item <$> db_items d)).

Lemma returned_rows d t s p : returned_base d t s p == rows_total d p (counts t s d).
Proof.
  unfold returned_base, product_total, rows_total, items_of. rewrite <- list_fmap_compose, qsum_select.
  rewrite <- list_fmap_compose. done.
Qed.



Context {env_laws : EnvLaws env}.

Lemma lines_rows d t b p : product_total d p (lines_of t b d) == rows_total d p (on_bill t b).
Proof.
  unfold product_total, rows_total, lines_of.
  rewrite (qsum_perm _ _ (Permutation_map _ (sql_order_perm bi_line_no _))).
  change (fun r : ItemRow => N.eqb (bi_head (ir_item r)) b && N.eqb (bi_tenant (ir_item r)) t)
    with (fun r => on_bill t b (ir_item r)).
  rewrite (select_fmap ir_item (on_bill t b)). apply qsum_select.
Qed.

Lemma lines_same t b d d' : ir_item <$> db_items d' = ir_item <$> db_items d -> lines_of t b d' = lines_of t b d.
Proof.
  intros H. unfold lines_of. f_equal.
  change (fun r : ItemRow => N.eqb (bi_head (ir_item r)) b && N.eqb (bi_tenant (ir_item r)) t)
    with (fun r => on_bill t b (ir_item r)).
  by rewrite !(select_fmap ir_item (on_bill t b)), H.
Qed.

(** Databases with the same lines and the same units. *)
Definition same_lines (d d' : DB) : Prop :=
  ir_item <$> db_items d' = ir_item <$> db_items d /\ forall it, base_qty d' it = base_qty d it.

Lemma rows_total_ext d d' p c c' :
  same_lines d d' -> (forall it, c' it = c it) -> rows_total d' p c' == rows_total d p c.
Proof.
  intros [E B] Hc. unfold rows_total. rewrite E. apply qsum_ext. intros it _. by rewrite Hc, B.
Qed.

Lemma sold_same d d' t s p : same_lines d d' -> sold_base d' t s p == sold_base d t s p.
Proof.
  intros H. unfold sold_base. rewrite !lines_rows. by apply rows_total_ext.
Qed.

(** A bill that is not approved, before and after, does not count. *)
Lemma counts_put t s d d' b r r' it :
  db_heads d !! b = Some r -> db_heads d' = <[b := r']> (db_heads d) -> db_orders_seen d' = db_orders_seen d ->
  bh_status (hr_head r) <> StatusApproved -> bh_status (hr_head r') <> StatusApproved ->
  counts t s d' it = counts t s d it.
Proof.
  intros Hr Hd Ho H1 H2. unfold counts. rewrite Hd.
  assert (forall x, bh_status (hr_head x) <> StatusApproved -> forall d, gives_back t s d x = false) as K.
  { intros x Hx dd. unfold gives_back, approved_return. apply Z.eqb_neq in Hx. rewrite Hx.
    by rewrite andb_false_r. }
  destruct (decide (bi_head it = b)) as [->|Hne].
  - rewrite lookup_insert_eq, Hr, !K by done. by rewrite !andb_false_r.
  - rewrite lookup_insert_ne by done. destruct (db_heads d !! bi_head it); [|done].
    unfold gives_back, refunds. by rewrite Ho.
Qed.

(** An approved return linked to the sale counts with all its lines. *)
Lemma counts_approved t s d d' b r r' it :
  db_heads d !! b = Some r -> db_heads d' = <[b := r']> (db_heads d) -> db_orders_seen d' = db_orders_seen d ->
  bh_status (hr_head r) <> StatusApproved -> bh_status (hr_head r') = StatusApproved ->
  bh_sub_type (hr_head r') = BillSubTypeSaleReturn -> bh_tenant (hr_head r') = t -> hr_deleted r' = false ->
  hr_link r' = Some s ->
  counts t s d' it = counts t s d it || on_bill t b it /\ (on_bill t b it = true -> counts t s d it = false).
Proof.
  intros Hr Hd Ho H1 H2 Hsub Ht Hdel Hl. unfold counts, on_bill. rewrite Hd.
  assert (gives_back t s d r = false) as K1.
  { unfold gives_back, approved_return. apply Z.eqb_neq in H1. rewrite H1. by rewrite andb_false_r. }
  assert (gives_back t s d' r' = true) as K2.
  { unfold gives_back, approved_return, linked_to. rewrite H2, Hsub, Ht, Hdel, Hl, N.eqb_refl.
    by rewrite bool_decide_true. }
  destruct (N.eqb_spec (bi_head it) b) as [->|Hne].
  - rewrite lookup_insert_eq, Hr, K1, K2, Ht, !andb_false_r, andb_true_r. by split.
  - rewrite lookup_insert_ne by done. split; [|done]. simpl. rewrite orb_false_r.
    destruct (db_heads d !! bi_head it); [|done]. unfold gives_back, refunds. by rewrite Ho.
Qed.

Lemma rows_total_or d p c1 c2 :
  (forall it, c2 it = true -> c1 it = false) ->
  rows_total d p (fun it => c1 it || c2 it) == rows_total d p c1 + rows_total d p c2.
Proof.
  intros H. unfold rows_total. induction (ir_item <$> db_items d) as [|it l IH]; csimpl; [ring|].
  rewrite IH. specialize (H it). destruct (c1 it), (c2 it); simpl; try ring. by specialize (H eq_refl).
Qed.
(** A draft return was retired because nothing was left to give back. *)
Definition return_retired (b : uuid) (d d' : DB) (r : HeadRow) : Prop :=
  exists r', db_heads d' = <[b := r']> (db_heads d) /\ same_row r r' /\
    bh_status (hr_head r') = StatusCancelled /\ bh_revision (hr_head r') = bh_revision (hr_head r) /\
    bh_paid (hr_head r') = bh_paid (hr_head r) /\
    strip_docs d = strip_docs d' /\ db_payments d' = db_payments d /\
    ir_item <$> db_items d' = ir_item <$> db_items d /\ db_movements d' = db_movements d.

(** The bill's warehouse may have been filled in before the lines are read against the sale. *)
Lemma remaining_put d t s b r r1 p :
  db_heads d !! b = Some r -> bh_status (hr_head r) <> StatusApproved ->
  bh_status (hr_head r1) <> StatusApproved ->
  remaining_base (put_head b r1 d) t s p == remaining_base d t s p.
Proof.
  intros Hr H H1. unfold remaining_base.
  assert (same_lines d (put_head b r1 d)) as Hs by done.
  rewrite (sold_same d (put_head b r1 d) t s p Hs), !returned_rows.
  rewrite (rows_total_ext d (put_head b r1 d) p (counts t s d) (counts t s (put_head b r1 d)) Hs); [done|].
  intros it. by eapply counts_put.
Qed.

Lemma live_row_put_ne t b s r1 d : s <> b -> live_row t s (put_head b r1 d) = live_row t s d.
Proof. intros H. unfold live_row. simpl. by rewrite lookup_insert_ne. Qed.

Lemma not_approved_draft : StatusDraft <> StatusApproved.
Proof. done. Qed.

Lemma approve_return_body_Ok req w nl w' :
  keyed (w_db w) ->
  (ar_strict req = true -> Forall (fun it => 0 <= val (bi_qty it)) (lines_of (ar_tenant req) (ar_bill req) (w_db w))) ->
  approve_return_body req w = (Ok nl, w') ->
  exists r, live_row (ar_tenant req) (ar_bill req) (w_db w) = Some r /\
    ((bh_status (hr_head r) = StatusApproved /\ w_db w' = w_db w /\ nl = false) \/
     (bh_status (hr_head r) = StatusDraft /\ nl = false /\ return_booked req (w_db w) (w_db w') r) \/
     (bh_status (hr_head r) = StatusDraft /\ nl = true /\ return_retired (ar_bill req) (w_db w) (w_db w') r)).
Proof.
  intros K Hnn H. unfold approve_return_body in H.
  apply bind_Ok in H as (? & w1 & H1 & H). minv H1.
  pose proof (keeps_run _ _ _ _ _ (keeps_AcquireBillAdvisoryLock eq _ _) H1) as [E1 _].
  apply bind_Ok in H as (h & w2 & H2 & H). minv H2. apply scan_head_Ok in H2 as (-> & r & Hr & ->).
  rewrite <- E1 in Hr. exists r. split; [done|]. simpl in H.
  destruct (Z.eqb_spec (bh_status (hr_head r)) StatusApproved) as [Es|Es].
  { left. minv H. split_and!; [done|by simpl|done]. }
  right. mguard H as G. apply negb_false_iff, draft_status in G.
  apply bind_Ok in H as (items & w3 & H3 & H). minv H3. apply GetBillItems_Ok in H3 as [-> E3]. wsimpl.
  rewrite <- E1 in *.
  apply bind_Ok in H as (k & w4 & H4 & H). minv H4.
  eapply resolveApprovalWarehouse_Ok in H4 as (r1 & E4 & S1 & Hs1 & Hv1 & Hp1 & Hk1 & Hk0);
    [|rewrite E3; exact Hr|done].
  rewrite E3 in E4. pose proof (live_row_Some _ _ _ _ Hr) as (Hb & Ht & Hdel).
  apply bind_Ok in H as (o & w5 & H5 & H). minv H5.
  assert (w_db w5 = w_db w4 /\ o = origin_of (w_db w) (ar_tenant req) r) as [E5 ->].
  { assert (origin_of (put_head (ar_bill req) r1 (w_db w)) (ar_tenant req) r1 = origin_of (w_db w) (ar_tenant req) r) as Ho.
    { unfold origin_of. pose proof (same_row_fields _ _ S1) as (_ & _ & _ & _ & _ & _ & _ & _ & ->).
      by destruct S1 as (_ & -> & _). }
    rewrite <- Ho.
    pose proof (same_row_fields _ _ S1) as (Hid & Htt & _ & _ & _ & _ & _ & _ & Hrem).
    assert (resolveOriginBill (as_scanned (hr_head r)) = resolveOriginBill (as_scanned (hr_head r1))) as Hres.
    { unfold resolveOriginBill. simpl. by rewrite Hid, Htt, Hrem. }
    rewrite Hres in H5. rewrite <- E4.
    eapply (resolveOriginBill_Ok _ (ar_bill req) (w_db w4) r1); [| |rewrite E4; simpl; apply lookup_insert_eq|done|exact H5].
    - rewrite E4. intros j y. unfold put_head. simpl. destruct (decide (j = ar_bill req)) as [->|Hj].
      + rewrite lookup_insert_eq. intros [= <-]. rewrite Hid. by apply (live_row_id _ _ _ _ K Hr).
      + rewrite lookup_insert_ne by done. apply K.
    - rewrite E4. by eapply live_same_row. }
  set (o := origin_of (w_db w) (ar_tenant req) r) in *.
  apply bind_Ok in H as (rem & w6 & H6 & H).
  assert (w_db w6 = w_db w4 /\ (o = uuid_nil -> rem = None) /\
    (o <> uuid_nil -> match rem with
     | None => forall rs, live_row (ar_tenant req) o (w_db w4) = Some rs -> is_sale_bill (hr_head rs) = false
     | Some m => exists rs, live_row (ar_tenant req) o (w_db w4) = Some rs /\ is_sale_bill (hr_head rs) = true /\
          forall p, val (mget m p) <= remaining_base (w_db w4) (ar_tenant req) o p end)) as (E6 & Hrem0 & Hrem).
  { unfold uuid_is_nil in H6. destruct (N.eqb_spec o uuid_nil) as [->|Hn]; [minv H6; by rewrite E5|].
    apply bind_Ok in H6 as (? & w6' & Ha & H6). minv Ha. minv H6.
    pose proof (keeps_run _ _ _ _ _ (keeps_AcquireBillAdvisoryLock eq _ _) Ha) as [Ea _].
    apply remainingBase_Ok in H6 as [Eb Hx]. rewrite <- Ea, E5 in *. split_and!; [done|done|]. by intros _. }
  apply bind_Ok in H as (strict & w7 & H7 & H).
  assert (w_db w7 = w_db w4 /\ (strict <> None -> ar_strict req = true) /\
    (ar_strict req = true -> o <> uuid_nil -> strict <> None)) as (E7 & Hst & Hst').
  { unfold uuid_is_nil in H7. destruct (ar_strict req), (N.eqb_spec o uuid_nil); simpl in H7; try (minv H7; by split_and!).
    apply bind_Ok in H7 as (c & w8 & H8 & H7). minv H8. minv H7. split_and!; try done. unfold newStrictCheck in H8.
    assert (db_rel eq w6 w7) as [E _]; [|congruence].
    eapply keeps_run; [|exact H8]. keeps_solve. }
  apply bind_Ok in H as ([rem' n] & w8 & H8 & H).
  eapply approve_return_lines_Ok in H8 as (F8 & gs & ms & Hms & Hbk & Hn & Hpool).
  2:{ intros Hx. apply Hnn. by apply Hst. }
  rewrite E7, E4 in F8, Hms, Hbk, Hpool. simpl in Hn, Hpool, Hms. clear H5 H6 H7.
  assert (live_row (ar_tenant req) (ar_bill req) (w_db w8) = Some r1) as Hr8 by (by eapply live_after).
  pose proof (line_heads _ _ F8) as Fh. pose proof (line_payments _ _ F8) as Fp. pose proof (line_items _ _ F8) as Fi.

  cbn [fst snd] in H. destruct (negb (is_none rem) && Nat.eqb n 0) eqn:Hz.
  - right. apply andb_true_iff in Hz as [_ Hz%Nat.eqb_eq]. assert (ms = []) as -> by (destruct ms; [done|simpl in Hn; lia]).
    apply bind_Ok in H as (u & w9 & H9 & H). minv H.
    eapply UpdateBillStatus_Ok in H9 as [now E9]; [|exact Hr8]. split_and!; [done|done|].
    eexists. rewrite E9. unfold put_head at 1. simpl. rewrite Fh. simpl. rewrite insert_insert_eq. split; [done|].
    split_and!; try done; simpl; [exact (strip_docs_line _ _ _ _ F8)|by rewrite Hms, app_nil_r].
  - left. apply bind_Ok in H as (now & w9 & G9 & H). minv G9.
    apply bind_Ok in H as (u & w10 & H10 & H). minv H10. minv H.
    eapply UpdateBillStatus_Ok in H10 as [now' E10]; [|exact Hr8]. wsimpl. split_and!; [done|done|].
    exists k. eexists. exists gs, ms. rewrite E10. unfold put_head at 1. simpl. rewrite Fh. simpl. rewrite insert_insert_eq.
    split; [done|]. split_and!; try done; simpl.
    + exact (strip_docs_line _ _ _ _ F8).
    + by eapply booked_returns_units; [|exact Hbk].
    + intros Hor. destruct (N.eq_dec o uuid_nil) as [Hon|Hon].
      * rewrite (Hrem0 Hon) in Hpool. destruct Hpool as [_ Hp]. exact Hp.
      * destruct Hor as [Hor|]; [|done]. specialize (Hst' Hor Hon). destruct rem as [m|].
        -- destruct Hpool as (_ & Hp & _). by apply Hp.
        -- by destruct Hpool as [_ Hp].
    + intros s <- Hsn Hsb rs Hrs Hsale p. fold o in Hsn, Hsb, Hrs |- *. specialize (Hrem Hsn).
      assert (live_row (ar_tenant req) o (w_db w4) = Some rs) as Hrs' by (rewrite E4; by rewrite live_row_put_ne).
      destruct rem as [m|]; [|by rewrite (Hrem _ Hrs') in Hsale].
      destruct Hrem as (rs' & _ & _ & Hm). specialize (Hm p). destruct Hpool as (Hnng & _ & r' & _ & Hd). destruct (Hd p) as [D1 D2].
      rewrite E4, (remaining_put _ _ _ _ r) in Hm; [|done|done|by rewrite Hs1].
      destruct (Qlt_le_dec 0 (total_granted p (lines_of (ar_tenant req) (ar_bill req) (w_db w)) gs)) as [Hlt|Hle].
      * specialize (D2 Hlt). lra.
      * eapply Qle_trans; [exact Hle|]. apply Q.le_max_r.
Qed.
Lemma strip_docs_units d d' p u : strip_docs d = strip_docs d' -> base_factor d' p u = base_factor d p u.
Proof.
  intros H. unfold base_factor, unit_factor.
  rewrite (f_equal db_product_unit H : db_product_unit d = db_product_unit d').
  by rewrite (f_equal db_products H : db_products d = db_products d').
Qed.

Lemma strip_docs_same_lines d d' :
  strip_docs d = strip_docs d' -> ir_item <$> db_items d' = ir_item <$> db_items d -> same_lines d d'.
Proof. intros H Hi. split; [done|]. intros it. unfold base_qty. by rewrite (strip_docs_units _ _ _ _ H). Qed.

Lemma strip_docs_orders d d' : strip_docs d = strip_docs d' -> db_orders_seen d' = db_orders_seen d.
Proof. intros H. symmetry. exact (f_equal db_orders_seen H). Qed.

Lemma approve_return_cases req w u w' :
  keyed (w_db w) ->
  (ar_strict req = true -> Forall (fun it => 0 <= val (bi_qty it)) (lines_of (ar_tenant req) (ar_bill req) (w_db w))) ->
  ApproveReturn_Execute req w = (Ok u, w') ->
  exists r, live_row (ar_tenant req) (ar_bill req) (w_db w) = Some r /\
    ((bh_status (hr_head r) = StatusApproved /\ w_db w' = w_db w) \/
     (bh_status (hr_head r) = StatusDraft /\ return_booked req (w_db w) (w_db w') r)).
Proof.
  intros K Hn H. unfold ApproveReturn_Execute in H. mguard H as G1. mguard H as G2.
  apply bind_Ok in H as (al & w1 & Ha & H). apply already_approved_Ok in Ha as [E Ha].
  destruct al.
  { destruct (Ha eq_refl) as (r & Hr & Hs). minv H. exists r. split; [done|]. by left. }
  apply bind_Ok in H as (nl & w2 & H2 & H). apply guard_err_Ok in H as [-> <-].
  apply WithTx_Ok in H2 as (w3 & H2 & -> & _).
  apply approve_return_body_Ok in H2 as (r & Hr & D); [|by simpl; rewrite E|by simpl; rewrite E].
  simpl in *. rewrite E in *. exists r. split; [done|].
  destruct D as [(? & ? & _)|[(? & _ & ?)|(_ & ? & _)]]; [by left|by right|done].
Qed.

(** an approval of a draft return that goes through books the goods back into one warehouse, turns
    the bill approved by the caller and leaves every other bill, the payments and what the lines say
    as they are.  Each line is covered by at most one receipt, of the quantity granted, or, when the
    sale has nothing left of it, skipped; a strict approval (of lines whose quantities are not
    negative) or a return without a sale covers every line in full; and whatever the sale, the base
    units that come back of a product never exceed what the sale sold less what earlier returns gave
    back. *)
Theorem approve_return_effect req w u w' r :
  keyed (w_db w) ->
  (ar_strict req = true -> Forall (fun it => 0 <= val (bi_qty it)) (lines_of (ar_tenant req) (ar_bill req) (w_db w))) ->
  ApproveReturn_Execute req w = (Ok u, w') ->
  live_row (ar_tenant req) (ar_bill req) (w_db w) = Some r -> bh_status (hr_head r) <> StatusApproved ->
  return_booked req (w_db w) (w_db w') r.
Proof.
  intros K Hn H Hr Hs. apply approve_return_cases in H as (r0 & Hr0 & D); [|done..].
  assert (r0 = r) as -> by congruence. by destruct D as [[? _]|[_ ?]].
Qed.

(** A return that covers every line in full counts with its lines. *)
Lemma return_counts req d d' r s p :
  live_row (ar_tenant req) (ar_bill req) d = Some r -> bh_status (hr_head r) = StatusDraft ->
  bh_sub_type (hr_head r) = BillSubTypeSaleReturn -> hr_link r = Some s ->
  return_booked req d d' r ->
  returned_base d' (ar_tenant req) s p ==
    returned_base d (ar_tenant req) s p + product_total d p (lines_of (ar_tenant req) (ar_bill req) d).
Proof.
  intros Hr Hs Hsub Hl (k & r' & gs & ms & Hh & S & Hst & _ & _ & _ & Hd & _ & Hi & _).
  pose proof (strip_docs_same_lines _ _ Hd Hi) as HL.
  apply live_row_Some in Hr as (Hb & Ht & Hdel).
  pose proof (same_row_fields _ _ S) as (_ & Ht' & _ & _ & Hsub' & _). destruct S as (_ & Hl' & Hdel').
  rewrite !returned_rows, lines_rows.
  assert (forall it, counts (ar_tenant req) s d' it = counts (ar_tenant req) s d it || on_bill (ar_tenant req) (ar_bill req) it /\
    (on_bill (ar_tenant req) (ar_bill req) it = true -> counts (ar_tenant req) s d it = false)) as Hc.
  { intros it. eapply counts_approved; try done; [by apply strip_docs_orders|by rewrite Hs|congruence..]. }
  rewrite (rows_total_ext d d' p (fun it => counts (ar_tenant req) s d it || on_bill (ar_tenant req) (ar_bill req) it)).
  - apply rows_total_or. intros it. apply Hc.
  - done.
  - intros it. apply Hc.
Qed.

Lemma total_in_full d p items gs :
  Forall2 (fun it g => g == base_qty d it) items gs -> total_granted p items gs == product_total d p items.
Proof.
  unfold total_granted, product_total. induction 1 as [|it g items gs H _ IH]; csimpl; [done|].
  rewrite IH. unfold part. destruct (N.eqb _ p); [by rewrite H|done].
Qed.

(** A strict return booked against a sale. *)
Lemma strict_cap req d d' r s rs p :
  ar_strict req = true -> return_booked req d d' r ->
  live_row (ar_tenant req) (ar_bill req) d = Some r -> bh_status (hr_head r) = StatusDraft ->
  bh_sub_type (hr_head r) = BillSubTypeSaleReturn -> hr_link r = Some s -> s <> uuid_nil -> s <> ar_bill req ->
  live_row (ar_tenant req) s d = Some rs -> is_sale_bill (hr_head rs) = true ->
  returned_base d' (ar_tenant req) s p ==
    returned_base d (ar_tenant req) s p + product_total d p (lines_of (ar_tenant req) (ar_bill req) d) /\
  returned_base d' (ar_tenant req) s p <=
    Qmax (sold_base d' (ar_tenant req) s p) (returned_base d (ar_tenant req) s p).
Proof.
  intros Hst HB Hr Hs Hsub Hl Hsn Hsb Hrs Hsale.
  pose proof (return_counts req _ _ r s p Hr Hs Hsub Hl HB) as HR. split; [exact HR|].
  destruct HB as (k & r' & gs & ms & _ & _ & _ & _ & _ & _ & Hd & _ & Hi & _ & _ & Hfull & Hcap).
  pose proof (strip_docs_same_lines _ _ Hd Hi) as HL.
  assert (origin_of d (ar_tenant req) r = s) as Ho by (unfold origin_of; by rewrite Hl).
  specialize (Hcap s Ho Hsn Hsb rs Hrs Hsale p). rewrite (total_in_full _ p _ _ (Hfull (or_introl Hst))) in Hcap.
  rewrite HR, (sold_same _ _ _ _ _ HL). unfold remaining_base in Hcap.
  revert Hcap. generalize (product_total d p (lines_of (ar_tenant req) (ar_bill req) d)).
  intros P.
  destruct (Q.max_spec (sold_base d (ar_tenant req) s p - returned_base d (ar_tenant req) s p) 0) as [[? ->]|[? ->]];
  destruct (Q.max_spec (sold_base d (ar_tenant req) s p) (returned_base d (ar_tenant req) s p)) as [[? ->]|[? ->]];
  intros; lra.
Qed.


(** ** What a request asks for, per line *)

(** Repeated ids add up. *)
Definition asked {X} (id : X -> uuid) (qty : X -> dec) (items : list X) (k : uuid) : Q :=
  qsum ((fun it => part (id it) k (val (qty it))) <$> items).

Lemma asked_fold {X} (f : gmap uuid dec * list uuid -> X -> M (gmap uuid dec * list uuid)) (id : X -> uuid) (qty : X -> dec)
    items acc w acc' w' :
  (forall want order it w a w', f (want, order) it w = (Ok a, w') ->
     w' = w /\ a = (madd want (id it) (qty it), if is_none (want !! id it) then order ++ [id it] else order)) ->
  foldM f items acc w = (Ok acc', w') ->
  NoDup acc.2 -> (forall k, acc.1 !! k = None <-> k ∉ acc.2) ->
  w' = w /\ NoDup acc'.2 /\
  (forall k, k ∈ acc'.2 <-> k ∈ acc.2 \/ k ∈ id <$> items) /\
  (forall k, val (mget acc'.1 k) == val (mget acc.1 k) + asked id qty items k).
Proof.
  intros Hf. revert acc. induction items as [|it items IH]; intros [want order] H Hn Hw; cbn [foldM] in H.
  { minv H. split_and!; try done.
    - intros k. csimpl. rewrite elem_of_nil. tauto.
    - intros k. unfold asked. csimpl. ring. }
  apply bind_Ok in H as (a & w1 & H1 & H). apply Hf in H1 as [-> ->]. simpl in Hn, Hw.
  apply IH in H as (-> & Hn' & Hi & Hq); simpl.
  - split_and!; try done.
    + intros k. rewrite Hi. simpl. csimpl. rewrite elem_of_cons.
      destruct (is_none (want !! id it)) eqn:En; [rewrite elem_of_app, list_elem_of_singleton; tauto|].
      split; [tauto|]. intros [?|[->|?]]; [tauto| |tauto]. left.
      destruct (decide (id it ∈ order)) as [|Hx]; [done|]. apply Hw in Hx. by rewrite Hx in En.
    + intros k. rewrite Hq. simpl. rewrite mget_madd. unfold asked. csimpl. unfold part. destruct (N.eqb _ k); ring.
  - destruct (want !! id it) eqn:En; simpl; [done|]. apply Hw in En.
    apply NoDup_app. split_and!; [done| |by apply NoDup_singleton]. intros y Hy ->%list_elem_of_singleton. done.
  - intros k. unfold madd. destruct (decide (id it = k)) as [<-|Hne].
    + rewrite lookup_insert_eq. split; [done|]. intros K. exfalso. apply K.
      destruct (want !! id it) eqn:En; simpl; [|apply elem_of_app; right; by left].
      destruct (decide (id it ∈ order)) as [|Hx]; [done|]. apply Hw in Hx. congruence.
    + rewrite lookup_insert_ne by done. rewrite Hw.
      destruct (is_none _); [rewrite elem_of_app, list_elem_of_singleton|done].
      split; [intros K [?|?]; [by apply K|congruence]|tauto].
Qed.

Lemma asked_Ok {X} (f : gmap uuid dec * list uuid -> X -> M (gmap uuid dec * list uuid)) (id : X -> uuid) (qty : X -> dec)
    items w acc' w' :
  (forall want order it w a w', f (want, order) it w = (Ok a, w') ->
     w' = w /\ a = (madd want (id it) (qty it), if is_none (want !! id it) then order ++ [id it] else order)) ->
  foldM f items (∅, []) w = (Ok acc', w') ->
  w' = w /\ NoDup acc'.2 /\ (forall k, k ∈ acc'.2 <-> k ∈ id <$> items) /\
  (forall k, val (mget acc'.1 k) == asked id qty items k).
Proof.
  intros Hf H. eapply asked_fold in H as (-> & Hn & Hi & Hq); [|exact Hf|constructor|].
  - split_and!; [done|done| |].
    + intros k. rewrite Hi. simpl. rewrite elem_of_nil. tauto.
    + intros k. rewrite Hq. simpl. rewrite mget_empty, val_zero. ring.
  - intros k. simpl. rewrite lookup_empty. split; [intros _; apply not_elem_of_nil|done].
Qed.

Lemma by_id_Some lines id l : by_id lines !! id = Some l -> l ∈ lines /\ bi_id l = id.
Proof.
  unfold by_id.
  assert (forall m : gmap uuid BillItem, fold_left (fun m l => <[bi_id l := l]> m) lines m !! id = Some l ->
    m !! id = Some l \/ l ∈ lines /\ bi_id l = id) as K.
  { induction lines as [|x lines IH]; intros m H; simpl in H; [by left|].
    apply IH in H as [H|[? ?]]; [|right; split; [by right|done]].
    destruct (decide (bi_id x = id)) as [<-|Hne].
    - rewrite lookup_insert_eq in H. simplify_eq. right. split; [left|done].
    - rewrite lookup_insert_ne in H by done. by left. }
  intros [H|?]%K; [by rewrite lookup_empty in H|done].
Qed.

(** Only the links of lines changed. *)
Definition relinked (d d' : DB) : Prop :=
  exists l, d' = set_items d l /\ ir_item <$> l = ir_item <$> db_items d.

#[export] Instance relinked_preorder : PreOrder relinked.
Proof.
  split.
  - intros d. exists (db_items d). split; [by destruct d|done].
  - intros d1 d2 d3 (l & -> & H1) (k & -> & H2). exists k. simpl in *. split; [done|congruence].
Qed.

Lemma keeps_SetLinkItems t s links : keeps (db_rel relinked) (SetLinkItems t s links).
Proof.
  unfold SetLinkItems. apply keeps_mapM_; [tc_solve|]. intros [a b]. apply keeps_bind; [tc_solve| |keeps_solve].
  apply keeps_statement; [tc_solve|]. intros d n d' H. case_bool_in H; simplify_eq; [|reflexivity].
  eexists. split; [done|]. rewrite <- list_fmap_compose. apply list_fmap_ext. intros j r _. simpl. by case_match.
Qed.

End return_cap.

(** ** On the small shop *)

(** One of the two teas sold comes back. *)
Definition ex_return : CreateReturnRequest :=
  mkCreateReturnRequest ex_tenant ex_user (Some ex_wh) (Some ex_customer) (Some ex_tea_bill) time_zero "changed mind"
    [mkReturnItem ex_p1 None "pc" 1 (D 1 0) (D 5 0) None].
Definition ex_return_world : World := (CreateReturn_Execute ex_return ex_tea_sold).2.
Definition ex_return_bill : uuid := created (CreateReturn_Execute ex_return ex_tea_sold).
Definition ex_return_approve : ApproveReturnRequest := mkApproveReturnRequest ex_tenant ex_return_bill ex_user true.

Lemma nonneg_lines (l : list BillItem) :
  forallb (fun it => negb (is_negative (bi_qty it))) l = true -> Forall (fun it => 0 <= val (bi_qty it))%Q l.
Proof.
  intros H. apply Forall_forall. intros it Hit. rewrite forallb_forall in H.
  apply list_elem_of_In, H in Hit. by dec_tests.
Qed.

Definition is_linked_return (s : uuid) (r : HeadRow) : bool :=
  is_draft r && String.eqb (bh_sub_type (hr_head r)) BillSubTypeSaleReturn && bool_decide (hr_link r = Some s).

Lemma is_linked_return_spec s r :
  is_linked_return s r = true ->
  bh_status (hr_head r) = StatusDraft /\ bh_sub_type (hr_head r) = BillSubTypeSaleReturn /\ hr_link r = Some s.
Proof.
  unfold is_linked_return, is_draft. rewrite !andb_true_iff, Z.eqb_eq, String.eqb_eq, bool_decide_eq_true. tauto.
Qed.

Lemma approve_return_effect_witness :
  exists u w' r, ApproveReturn_Execute (calc := WACCalculator) ex_return_approve ex_return_world = (Ok u, w') /\
    return_booked ex_return_approve (w_db ex_return_world) (w_db w') r.
Proof.
  run_ok (ApproveReturn_Execute (calc := WACCalculator) ex_return_approve ex_return_world) as u w' H.
  destruct (row_run (live_row ex_tenant ex_return_bill (w_db ex_return_world)) (is_linked_return ex_tea_bill))
    as (r & Hr & Hd); [reflexivity|].
  exists u, w', r. split; [exact H|].
  apply (approve_return_effect (calc := WACCalculator) ex_return_approve ex_return_world u w' r).
  - decide_goal.
  - intros _. apply nonneg_lines. reflexivity.
  - exact H.
  - exact Hr.
  - rewrite (proj1 (is_linked_return_spec _ _ Hd)). compute_goal.
Defined.

