(* ===== verification/PurchaseReturn.v ===== *)
(** Returns to the supplier: app/bill/purchase_return.go. *)
From S2P Require Import Prelude GoStrings Rounding Decimal SDec Types StockDomain BillDomain GoTime Store StockRepo StockCalc StockRecord BillRepo BillRows BillDraft BillApprove BillEdit BillReturn ReturnCap Concrete WAC.
From stdpp Require Import base tactics strings gmap list.
From Stdlib Require Import ZArith QArith Qminmax Lqa Lia.

Section purchase_return.
Context {ops : DecimalOps} {env : Env} {wiring : Wiring} {calc : InventoryCalculator}.

Record PurchaseReturnLine := mkPurchaseReturnLine { pl_item : uuid; pl_qty : dec }.

Record PurchaseReturnRequest := mkPurchaseReturnRequest {
  pr_tenant : uuid;
  pr_creator : uuid;
  pr_purchase : uuid;
  pr_items : list PurchaseReturnLine;
  pr_remark : string;
}.

Record PurchaseReturnOutput := mkPurchaseReturnOutput {
  po_bill : uuid;
  po_no : string;
  po_amount : dec;
  po_reduced : dec;
  po_owes : dec;
}.

Definition purchase_returnable (po : BillHead) : bool :=
  String.eqb (bh_type po) BillTypePurchase && String.eqb (bh_sub_type po) BillSubTypePurchase
  && Z.eqb (bh_status po) StatusApproved.

(** One entry per purchase line: the wanted quantities and the order the lines came in. *)
Definition want_back (byID : gmap uuid BillItem) (acc : gmap uuid dec * list uuid) (it : PurchaseReturnLine)
  : M (gmap uuid dec * list uuid) :=
  let '(want, order) := acc in
  guard_err (is_none (byID !! pl_item it)) (ESentinel ErrReturnItemNotFound);;
  mret (madd want (pl_item it) (pl_qty it),
        if is_none (want !! pl_item it) then order ++ [pl_item it] else order).

(** The amount, the items and the links from return line to purchase line so far. *)
Definition back_line (tenant bill : uuid) (byID : gmap uuid BillItem) (want returned : gmap uuid dec) (rate : dec)
    (acc : (dec * list BillItem) * list (uuid * uuid)) (id : uuid)
  : M ((dec * list BillItem) * list (uuid * uuid)) :=
  match byID !! id with
  | None => panic nil_dereference
  | Some l =>
      let qty := mget want id in
      let rest := dmax (dsub (bi_qty l) (mget returned (bi_id l))) dzero in
      guard_err (dgt qty rest) (EReturnExceeded (bi_line_no l) rest);;
      let lineAmt := dround 2 (dmul (dmul qty (bi_unit_price l)) rate) in
      itemID ← uuid_new;
      mret ((dadd acc.1.1 lineAmt,
             acc.1.2 ++ [mkBillItem itemID tenant bill (bi_product l) (bi_unit l) (bi_unit_name l)
                           (Z.of_nat (length acc.1.2) + 1) qty (bi_unit_price l) lineAmt ""]),
            acc.2 ++ [(itemID, bi_id l)])
  end.

Definition back_rate (po : BillHead) : dec := if is_positive (bh_rate po) then bh_rate po else dint 1.

(** convFactor, factor := "1", 1 unless the line has a unit *)
Definition back_factor (it : BillItem) : M (string * dec) :=
  match bi_unit it with
  | None => mret ("1"%string, dint 1)
  | Some u =>
      if has_units then
        f ← on_err (EWrap "purchase return") (GetConversionFactor (bi_product it) u);
        mret (dto_string f, f)
      else mret ("1"%string, dint 1)
  end.

Definition back_movement (tenant warehouse bill : uuid) (it : BillItem) (convFactor : string) (cost : dec)
  : RecordMovementRequest :=
  mkRecordMovementRequest tenant (bi_product it) warehouse DirectionOut (bi_qty it) (unit_or_nil it) convFactor
    cost true false "" RefReturn (Some bill) time_zero None "".

Definition back_out (tenant warehouse bill : uuid) (rate : dec) (it : BillItem) : M unit :=
  f ← back_factor it;
  cost ← Div (dmul (bi_unit_price it) rate) f.2;
  _ ← on_err (EWrap "purchase return: stock out") (ExecuteInTx (back_movement tenant warehouse bill it f.1 cost));
  mret tt.

Definition offset_label (returnNo : string) : string := ("采购退货冲抵 " ++ returnNo)%string.

Definition offsetPayable (po : BillHead) (returnNo : string) (creator : uuid) (amount : dec) (now : time) : M dec :=
  if negb has_payments then mret dzero
  else
    let offset := dmin amount (dmax (dsub (bh_total po) (bh_paid po)) dzero) in
    if negb (is_positive offset) then mret dzero
    else
      id ← uuid_new;
      _ ← on_err (EWrap "purchase return: record offset")
            (Record_ (mkPayment id (bh_tenant po) (bh_id po) PayTypeCredit offset dzero (bh_partner po) None creator ""
                        now (offset_label returnNo) time_zero));
      on_err (EWrap "purchase return: update paid_amount")
        (UpdatePaidAmount (bh_tenant po) (bh_id po) (dadd (bh_paid po) offset));;
      mret offset.

Definition returnedByLine (tenant purchase : uuid) : M (gmap uuid dec) :=
  on_err (EWrap "purchase return: returned quantities") (PurchaseReturnedQtyByLine tenant purchase).

Definition back_remark (po : BillHead) (remark : string) : string :=
  ("采购退货 " ++ bh_bill_no po ++ (if String.eqb remark "" then "" else "：" ++ remark))%string.

(** From the resolved lines on: the bill, its links, the goods, the payable. *)
Definition book_back (req : PurchaseReturnRequest) (po : BillHead) (amount : dec) (items : list BillItem)
    (links : list (uuid * uuid)) : M PurchaseReturnOutput :=
  let tenant := pr_tenant req in let purchase := pr_purchase req in
  warehouse ← on_err (EWrap "purchase return") (resolveApprovalWarehouse po tenant purchase);
  billNo ← on_err (EWrap "purchase return: generate bill_no") (NextBillNo tenant "PR");
  now ← time_now;
  billID ← uuid_new;
  let head := draft_head billID tenant billNo BillTypeSale BillSubTypePurchaseReturn (bh_partner po) (Some warehouse)
                (pr_creator req) now amount dzero dzero amount "" dzero dzero (back_remark po (pr_remark req)) now
                "" "" None in
  let items := with_head billID <$> items in
  on_err (EWrap "purchase return: persist bill") (CreateBill head items);;
  on_err (EWrap "purchase return: link purchase") (SetLinkBill tenant billID purchase);;
  on_err (EWrap "purchase return: link purchase lines") (SetLinkItems tenant purchase links);;
  mapM_ (back_out tenant warehouse billID (back_rate po)) items;;
  on_err (EWrap "purchase return: update status")
    (UpdateBillStatus tenant billID StatusApproved (approval_meta now (pr_creator req)));;
  reduced ← offsetPayable po billNo (pr_creator req) amount now;
  mret (mkPurchaseReturnOutput billID billNo amount reduced (dsub amount reduced)).

Definition purchase_return_body (req : PurchaseReturnRequest) : M PurchaseReturnOutput :=
  let tenant := pr_tenant req in let purchase := pr_purchase req in
  on_err (fun _ => EWrap "purchase return" (ESentinel ErrBillApprovalConflict))
    (AcquireBillAdvisoryLock tenant purchase);;
  po ← on_err (EWrap "purchase return: load purchase") (GetBillForUpdate tenant purchase);
  guard_err (negb (purchase_returnable po)) (ESentinel ErrPurchaseNotReturnable);;
  lines ← on_err (EWrap "purchase return: load items") (GetBillItems tenant purchase);
  let byID := by_id lines in
  wo ← foldM (want_back byID) (pr_items req) (∅, []);
  returned ← returnedByLine tenant purchase;
  acc ← foldM (back_line tenant uuid_nil byID wo.1 returned (back_rate po)) wo.2 ((dzero, []), []);
  book_back req po acc.1.1 acc.1.2 acc.2.

Definition PurchaseReturn_Execute (req : PurchaseReturnRequest) : M PurchaseReturnOutput :=
  guard_err (uuid_is_nil (pr_tenant req) || uuid_is_nil (pr_creator req)) (validation "tenant_id and creator_id are required");;
  guard_err (Nat.eqb (length (pr_items req)) 0) (validation "at least one item is required");;
  guard_err (existsb (fun it => negb (is_positive (pl_qty it))) (pr_items req)) (validation "item qty must be positive");;
  WithTx "bill repo" (purchase_return_body req).

Definition PurchaseReturn_Summary (tenant : uuid) (po : BillHead) : M (gmap uuid dec) :=
  if negb (purchase_returnable po) then mret ∅ else returnedByLine tenant (bh_id po).
End purchase_return.

Section purchase_return_laws.
Context {ops : DecimalOps} {laws : DecimalLaws ops} {env : Env} {env_laws : EnvLaws env} {wiring : Wiring}
  {calc : InventoryCalculator} {CL : CalculatorLaws calc}.
Local Open Scope Q_scope.

(** ** What earlier returns gave back, per line *)

Lemma mget_group_sum (rows : list (uuid * dec)) k :
  val (mget (group_sum rows) k) == qsum ((fun kq => part kq.1 k (val kq.2)) <$> rows).
Proof.
  unfold group_sum.
  assert (forall m, val (mget (fold_left (fun m kq => <[kq.1 := dadd (mget m kq.1) kq.2]> m) rows m) k) ==
    val (mget m k) + qsum ((fun kq : uuid * dec => part kq.1 k (val kq.2)) <$> rows)) as Hg.
  { induction rows as [|[j q] rows IH]; intros m; csimpl; [ring|].
    rewrite IH. fold (madd m j q). rewrite mget_madd. ring. }
  rewrite Hg, mget_empty, val_zero. ring.
Qed.

Definition back_of (d : DB) (t b line : uuid) : Q :=
  val (mget (returned_by_line BillSubTypePurchaseReturn t b d) line).

(** What one line contributes to the quantity returned of [line] of bill [b]. *)
Definition back_part (hs : gmap uuid HeadRow) (t b line : uuid) (i : ItemRow) : Q :=
  match ir_link i, hs !! bi_head (ir_item i) with
  | Some k, Some r =>
      if N.eqb (bi_tenant (ir_item i)) (bh_tenant (hr_head r))
         && (approved_return t BillSubTypePurchaseReturn r && linked_to b r)
      then part k line (val (bi_qty (ir_item i))) else 0
  | _, _ => 0
  end.

Lemma back_of_parts d t b line : back_of d t b line == qsum (back_part (db_heads d) t b line <$> db_items d).
Proof.
  unfold back_of, returned_by_line, items_of. rewrite mget_group_sum.
  induction (db_items d) as [|i l IH]; [done|]. csimpl. rewrite <- IH. clear IH. unfold back_part at 1.
  unfold select at 1. simpl. fold (select (fun i0 => match db_heads d !! bi_head (ir_item i0) with
    | Some r => N.eqb (bi_tenant (ir_item i0)) (bh_tenant (hr_head r)) &&
                (approved_return t BillSubTypePurchaseReturn r && linked_to b r)
    | None => false end) l).
  destruct (db_heads d !! bi_head (ir_item i)) as [r|].
  - destruct (N.eqb _ _ && _); [|destruct (ir_link i); ring].
    csimpl. destruct (ir_link i) as [k|]; csimpl; ring.
  - destruct (ir_link i); ring.
Qed.

(** ** Links *)

Lemma SetLinkBill_Ok t b s w u w' :
  SetLinkBill t b s w = (Ok u, w') ->
  exists r, db_heads (w_db w) !! b = Some r /\
    w_db w' = put_head b (mkHeadRow (hr_head r) (Some s) (hr_deleted r)) (w_db w).
Proof.
  unfold SetLinkBill. intros H. apply bind_Ok in H as (n & w1 & H1 & H).
  apply statement_Ok in H1 as (_ & d & Ed & ->). apply guard_err_Ok in H as [Hn <-].
  destruct (db_heads (w_db w) !! b) as [r|]; [|by simplify_eq].
  destruct (db_heads (w_db w) !! s) as [rs|]; [|by simplify_eq].
  destruct (_ && _); [|by simplify_eq]. injection Ed as <- <-. by exists r.
Qed.

Definition relink (t : uuid) (links : list (uuid * uuid)) (r : ItemRow) : ItemRow :=
  fold_left (fun r il => if is_item t il.1 r
    then mkItemRow (ir_item r) (Some il.2) (ir_purchase_price r) (ir_deleted r) else r) links r.

Lemma SetLinkItems_Ok t s links w u w' :
  SetLinkItems t s links w = (Ok u, w') ->
  w_db w' = set_items (w_db w) (relink t links <$> db_items (w_db w)).
Proof.
  unfold SetLinkItems. revert w. induction links as [|[a b] links IH]; intros w H; cbn [mapM_] in H.
  { minv H. assert (relink t [] <$> db_items (w_db w') = db_items (w_db w')) as ->; [|by destruct (w_db w')].
    rewrite <- (list_fmap_id (db_items (w_db w'))) at 2. by apply list_fmap_ext. }
  apply bind_Ok in H as (x & w1 & H1 & H). apply IH in H. rewrite H. clear H IH.
  apply bind_Ok in H1 as (n & w2 & H2 & H1). apply statement_Ok in H2 as (_ & d & Ed & ->).
  apply guard_err_Ok in H1 as [Hn <-]. case_bool_in Ed; [|by simplify_eq]. injection Ed as <- <-. simpl.
  by rewrite <- list_fmap_compose.
Qed.

Lemma relink_item t links r : ir_item (relink t links r) = ir_item r.
Proof. revert r. induction links as [|il links IH]; intros r; [done|]. simpl. rewrite IH. by destruct (is_item _ _ _). Qed.

Lemma relink_other t links r : bi_id (ir_item r) ∉ links.*1 -> relink t links r = r.
Proof.
  induction links as [|[a b] links IH]; [done|]. csimpl. intros [Hn Hl]%not_elem_of_cons. simpl.
  unfold is_item at 1. destruct (N.eqb_spec (bi_id (ir_item r)) a); [done|]. simpl. by apply IH.
Qed.

Lemma relink_own t links r a b :
  NoDup links.*1 -> (a, b) ∈ links -> bi_id (ir_item r) = a -> bi_tenant (ir_item r) = t ->
  ir_link (relink t links r) = Some b.
Proof.
  revert r. induction links as [|[x y] links IH]; intros r Hn Hin Ha Ht; [by apply not_elem_of_nil in Hin|].
  csimpl in Hn. apply NoDup_cons in Hn as [Hx Hn]. apply elem_of_cons in Hin as [E|Hin].
  - injection E as -> ->. simpl. unfold is_item at 1. rewrite Ha, Ht, !N.eqb_refl. simpl.
    rewrite relink_other; [done|]. simpl. by rewrite Ha.
  - assert (x <> a). { intros ->. apply Hx. apply list_elem_of_fmap. by exists (a, b). }
    simpl. unfold is_item at 1. rewrite Ha. destruct (N.eqb_spec a x); [done|]. simpl. by apply IH.
Qed.

(** ** The loops *)

Definition asked_back (items : list PurchaseReturnLine) (id : uuid) : Q := asked pl_item pl_qty items id.

Lemma wants_back_Ok byID items w acc' w' :
  foldM (want_back byID) items (∅, []) w = (Ok acc', w') ->
  w' = w /\ NoDup acc'.2 /\ (forall id, id ∈ acc'.2 <-> id ∈ pl_item <$> items) /\
  (forall id, val (mget acc'.1 id) == asked_back items id).
Proof.
  apply (asked_Ok _ pl_item pl_qty). clear. intros want order it w [want' order'] w' H.
  unfold want_back in H. mguard H as G1. by minv H.
Qed.

(** The return line of a purchase line: what was asked of it, at its price in base currency. *)
Definition back_item (t h : uuid) (byID : gmap uuid BillItem) (want returned : gmap uuid dec) (rate : dec)
    (id : uuid) (it : BillItem) : Prop :=
  exists l, byID !! id = Some l /\ bi_tenant it = t /\ bi_head it = h /\ bi_product it = bi_product l /\
    bi_unit it = bi_unit l /\ bi_unit_price it = bi_unit_price l /\ bi_qty it = mget want id /\
    val (mget want id) <= Qmax (val (bi_qty l) - val (mget returned (bi_id l))) 0 /\
    bi_line_amount it = dround 2 (dmul (dmul (mget want id) (bi_unit_price l)) rate).

Lemma back_lines_Ok t h byID want returned rate order acc w acc' w' :
  (forall id l, byID !! id = Some l -> bi_id l = id) ->
  foldM (back_line t h byID want returned rate) order acc w = (Ok acc', w') -> sums acc.1 ->
  w_db w' = w_db w /\ sums acc'.1 /\
  exists items, acc'.1.2 = acc.1.2 ++ items /\ acc'.2 = acc.2 ++ zip (bi_id <$> items) order /\
    Forall2 (back_item t h byID want returned rate) order items.
Proof.
  intros Hid. revert acc w. induction order as [|id order IH]; intros acc w H Hs; cbn [foldM] in H.
  { minv H. split_and!; [done|done|]. exists []. rewrite !app_nil_r. by split_and!. }
  apply bind_Ok in H as (a1 & w1 & H1 & H). unfold back_line in H1.
  destruct (byID !! id) as [l|] eqn:El; [|done]. mguard H1 as G. minv H1.
  apply IH in H as (E & Hs' & items & Hi & Hk & Hl); simpl in *.
  - split_and!; [done|done|]. eexists (_ :: items). rewrite Hi, Hk, <- !app_assoc. simpl. rewrite (Hid _ _ El).
    split_and!; [done|done|]. constructor; [|done]. exists l. split_and!; try done.
    dec_tests. rewrite val_max, val_sub, val_zero in G. exact G.
  - unfold sums in *. simpl in *. rewrite val_add, Hs. unfold line_sum. rewrite !fmap_app, qsum_app. simpl. ring.
Qed.

(** One issue per line, of its quantity in base units, against the return. *)
Definition sent_back (d : DB) (t k b : uuid) (it : BillItem) (m : Movement) : Prop :=
  document_movement (t, bi_product it, k) b DirectionOut RefReturn (base_qty d it) m.

Lemma back_factor_Ok it w cf w' :
  back_factor it w = (Ok cf, w') ->
  w_db w' = w_db w /\
  forall qty q, convertToBase qty cf.1 = inr q -> val q == val qty * base_factor (w_db w) (bi_product it) (bi_unit it).
Proof.
  intros H. assert (return_factor it w = (Ok cf.1, w')) as Hr.
  { unfold back_factor in H. unfold return_factor. destruct (bi_unit it) as [u|]; [|by minv H].
    destruct has_units; [|by minv H]. apply bind_Ok in H as (f & w1 & H1 & H). minv H1. minv H.
    unfold mbind, stm_bind, on_err. by rewrite H1. }
  apply return_factor_Ok in Hr as (E & _ & Hc). split; [exact E|exact Hc].
Qed.

Lemma sent_back_frame d d' t k b it m : line_frame d d' -> sent_back d' t k b it m -> sent_back d t k b it m.
Proof. intros F. unfold sent_back. by rewrite (base_qty_frame _ _ _ F). Qed.

Lemma back_outs_Ok t k b rate items w u w' :
  mapM_ (back_out t k b rate) items w = (Ok u, w') ->
  tx_frame (w_db w) (w_db w') /\ exists ms, db_movements (w_db w') = db_movements (w_db w) ++ ms /\
    Forall2 (sent_back (w_db w) t k b) items ms.
Proof.
  revert w. induction items as [|it items IH]; intros w H; cbn [mapM_] in H.
  { minv H. split; [reflexivity|]. exists []. by rewrite app_nil_r. }
  apply bind_Ok in H as (x & w1 & H1 & H). unfold back_out in H1.
  apply bind_Ok in H1 as (cf & w2 & H2 & H1). apply back_factor_Ok in H2 as [E2 Hc].
  apply bind_Ok in H1 as (cost & w3 & H3 & H1). minv H3. apply bind_Ok in H1 as (sn & w4 & H4 & H1). minv H4. minv H1.
  apply ExecuteInTx_Ok in H4. rewrite E2 in H4.
  eapply recorded_move in H4 as (F & m & Hm & Hd); [|exact Hc|done|done].
  apply IH in H as (F' & ms & Hms & Hl). split; [by etrans|]. exists (m :: ms). rewrite Hms, Hm, <- app_assoc.
  split; [done|]. constructor; [exact Hd|]. eapply Forall2_impl; [exact Hl|].
  intros y n. apply sent_back_frame. by apply tx_line_frame.
Qed.

(** The payable is lowered by the return, down to nothing. *)
Definition offset_of (r : HeadRow) (amount : dec) : Q :=
  if has_payments then Qmin (val amount) (Qmax (val (bh_total (hr_head r)) - val (bh_paid (hr_head r))) 0) else 0.

Lemma offsetPayable_Ok h no c amount now w x w' r t b :
  live_row t b (w_db w) = Some r -> bh_tenant h = t -> bh_id h = b -> bh_total h = bh_total (hr_head r) ->
  bh_paid h = bh_paid (hr_head r) -> 0 <= val amount ->
  offsetPayable h no c amount now w = (Ok x, w') ->
  val x == offset_of r amount /\
  ((w_db w' = w_db w /\ val x == 0) \/
   (0 < val x /\ exists r' row,
      w_db w' = put_head b r' (set_payments (w_db w) (db_payments (w_db w) ++ [row])) /\
      payment_on t b PayTypeCredit x row /\ fresh_payment row (w_db w) /\ py_remark (pr_payment row) = offset_label no /\
      same_row r r' /\ bh_status (hr_head r') = bh_status (hr_head r) /\
      bh_paid (hr_head r') = num4 (dadd (bh_paid (hr_head r)) x))).
Proof.
  intros Hr <- <- Htot Hp Ha H. unfold offsetPayable, offset_of in *. destruct has_payments; simpl in H.
  2:{ minv H. split; [apply val_zero|]. left. split; [done|apply val_zero]. }
  rewrite Htot, Hp in H. set (off := dmin amount _) in H.
  assert (val off == Qmin (val amount) (Qmax (val (bh_total (hr_head r)) - val (bh_paid (hr_head r))) 0)) as Eo.
  { unfold off. by rewrite val_min, val_max, val_sub, val_zero. }
  destruct (is_positive off) eqn:Hpos; simpl in H; dec_tests.
  2:{ minv H. rewrite val_zero. split; [|by left]. rewrite <- Eo.
      assert (0 <= val off); [|lra]. rewrite Eo. apply Q.min_glb; [done|apply Q.le_max_r]. }
  apply bind_Ok in H as (id & w1 & H1 & H). minv H1. apply bind_Ok in H as (q & w2 & H2 & H). minv H2.
  apply bind_Ok in H as (u & w3 & H3 & H). minv H3. minv H.
  apply Record_Ok in H2 as (date & cr & row & Eq & -> & E & _ & Hf). wsimpl.
  eapply (UpdatePaidAmount_Ok _ _ _ _ _ _ r) in H3 as (_ & now' & E'); [|rewrite E; exact Hr].
  split; [exact Eo|]. right. split; [done|]. rewrite E in E'.
  eexists _, _. split; [exact E'|]. rewrite Eq. by split_and!.
Qed.

(** ** What the return adds to the quantities given back *)

Lemma asked_notin items line : line ∉ pl_item <$> items -> asked_back items line == 0.
Proof.
  unfold asked_back, asked. induction items as [|it items IH]; csimpl; [done|].
  intros [Hn Hl]%not_elem_of_cons. rewrite IH by done. unfold part.
  destruct (N.eqb_spec (pl_item it) line); [congruence|ring].
Qed.

Lemma qsum_part (f : uuid -> Q) order line :
  NoDup order -> qsum ((fun id => part id line (f id)) <$> order) == if decide (line ∈ order) then f line else 0.
Proof.
  induction 1 as [|id order Hn _ IH]; csimpl; [done|]. rewrite IH. unfold part.
  destruct (N.eqb_spec id line) as [->|Hne].
  - rewrite decide_False by done. rewrite decide_True by left. ring.
  - destruct (decide (line ∈ order)) as [Hi|Hi].
    + rewrite decide_True by (by right). ring.
    + rewrite decide_False; [ring|]. by intros [?|?]%elem_of_cons.
Qed.

(** The same row as far as returns are concerned. *)
Definition same_return (r r' : HeadRow) : Prop := same_row r r' /\ bh_status (hr_head r') = bh_status (hr_head r).

Lemma same_return_part hs t b line i p r r' :
  hs !! p = Some r -> same_return r r' -> back_part (<[p := r']> hs) t b line i = back_part hs t b line i.
Proof.
  intros Hp [S Hs]. unfold back_part. destruct (ir_link i) as [k|]; [|done].
  destruct (decide (bi_head (ir_item i) = p)) as [->|Hne]; [|by rewrite lookup_insert_ne].
  rewrite lookup_insert_eq, Hp. unfold approved_return, linked_to. rewrite Hs.
  pose proof (same_row_fields _ _ S) as (_ & -> & _ & _ & -> & _). by destruct S as (_ & -> & ->).
Qed.

(** A stored line of the return, linked to the purchase line it gives back. *)
Definition back_row (t b : uuid) (q : uuid -> Q) (id : uuid) (i : ItemRow) : Prop :=
  ir_link i = Some id /\ bi_head (ir_item i) = b /\ bi_tenant (ir_item i) = t /\ val (bi_qty (ir_item i)) == q id.

Definition counting_return (t p : uuid) (r : HeadRow) : Prop :=
  bh_tenant (hr_head r) = t /\ approved_return t BillSubTypePurchaseReturn r = true /\ hr_link r = Some p.

Lemma back_of_grows d d' t p b r q order rows line :
  db_items d' = db_items d ++ rows -> Forall2 (back_row t b q) order rows -> NoDup order ->
  (forall i, i ∈ db_items d -> back_part (db_heads d') t p line i = back_part (db_heads d) t p line i) ->
  db_heads d' !! b = Some r -> counting_return t p r ->
  back_of d' t p line == back_of d t p line + if decide (line ∈ order) then q line else 0.
Proof.
  intros Hi Hr Hn Hold Hb (Ht & Ha & Hl). rewrite !back_of_parts, Hi, fmap_app, qsum_app.
  rewrite (qsum_ext _ (back_part (db_heads d) t p line) (db_items d)) by (intros i Hin; by rewrite Hold).
  rewrite <- (qsum_part q order line Hn). apply Qplus_comp; [done|].
  clear -Hr Hb Ht Ha Hl. induction Hr as [|id i order rows (Hk & Hh & Hti & Hq) _ IH]; csimpl; [done|].
  rewrite IH. apply Qplus_comp; [|done]. unfold back_part. rewrite Hk, Hh, Hb, Hti, Ht, N.eqb_refl, Ha.
  unfold linked_to. rewrite Hl, bool_decide_true by done. simpl. unfold part. by destruct (N.eqb id line).
Qed.

(** ** purchase_return.go, Execute *)

(** Stored amounts keep the scale of their NUMERIC(18,4) columns. *)
Record numeric_wf (d : DB) : Prop := {
  nw_items : Forall (fun i => on_scale 4 (val (bi_qty (ir_item i)))) (db_items d);
  nw_heads : map_Forall (fun _ r => on_scale 4 (val (bh_total (hr_head r))) /\ on_scale 4 (val (bh_paid (hr_head r)))) (db_heads d);
}.

(** One line of the return. *)
Definition goes_back (t p : uuid) (d : DB) (rate : dec) (items : list PurchaseReturnLine) (id : uuid) (it : BillItem) : Prop :=
  exists l, l ∈ lines_of t p d /\ bi_id l = id /\ bi_product it = bi_product l /\ bi_unit it = bi_unit l /\
    bi_unit_price it = bi_unit_price l /\ val (bi_qty it) == asked_back items id /\
    val (bi_qty it) <= Qmax (val (bi_qty l) - back_of d t p id) 0 /\
    val (bi_line_amount it) == qround 2 (asked_back items id * val (bi_unit_price l) * val rate).

(** What a return to the supplier did. *)
Record purchase_returned (req : PurchaseReturnRequest) (out : PurchaseReturnOutput) (d d' : DB)
    (rp : HeadRow) (items : list BillItem) (order : list uuid) : Prop := {
  pu_purchase : live_row (pr_tenant req) (pr_purchase req) d = Some rp /\ purchase_returnable (hr_head rp) = true;
  (* the lines *)
  pu_order : NoDup order /\ forall id, id ∈ order <-> id ∈ pl_item <$> pr_items req;
  pu_lines : Forall2 (goes_back (pr_tenant req) (pr_purchase req) d (back_rate (hr_head rp)) (pr_items req)) order items;
  pu_amount : val (po_amount out) == line_sum items;
  (* one new approved bill, linked to the purchase *)
  pu_fresh : db_heads d !! po_bill out = None;
  pu_row : exists r', live_row (pr_tenant req) (po_bill out) d' = Some r' /\
    bh_status (hr_head r') = StatusApproved /\ bh_sub_type (hr_head r') = BillSubTypePurchaseReturn /\
    bh_bill_no (hr_head r') = po_no out /\ hr_link r' = Some (pr_purchase req) /\
    val (bh_total (hr_head r')) == val (po_amount out);
  (* the payable *)
  pu_split : val (po_amount out) == val (po_reduced out) + val (po_owes out) /\
    val (po_reduced out) == offset_of rp (po_amount out);
  pu_paid : exists rp', live_row (pr_tenant req) (pr_purchase req) d' = Some rp' /\ same_return rp rp' /\
    val (bh_paid (hr_head rp')) == val (bh_paid (hr_head rp)) + val (po_reduced out);
  pu_payments : (db_payments d' = db_payments d /\ val (po_reduced out) == 0) \/
    exists row, db_payments d' = db_payments d ++ [row] /\
      payment_on (pr_tenant req) (pr_purchase req) PayTypeCredit (po_reduced out) row;
  pu_others : forall b, b <> po_bill out -> b <> pr_purchase req -> db_heads d' !! b = db_heads d !! b;
  (* the goods *)
  pu_moves : exists k ms, db_movements d' = db_movements d ++ ms /\
    Forall2 (sent_back d (pr_tenant req) k (po_bill out)) items ms;
  pu_back : forall line, back_of d' (pr_tenant req) (pr_purchase req) line ==
    back_of d (pr_tenant req) (pr_purchase req) line + qround 4 (asked_back (pr_items req) line);
}.

(** The new lines once linked. *)
Lemma linked_rows t b byID want returned rate order items :
  NoDup (bi_id <$> items) -> Forall2 (back_item t uuid_nil byID want returned rate) order items ->
  Forall2 (back_row t b (fun id => qround 4 (val (mget want id)))) order
    (relink t (zip (bi_id <$> items) order) <$> new_rows (with_head b <$> items)).
Proof.
  intros Hn Hl. unfold new_rows. rewrite <- !list_fmap_compose. apply Forall2_fmap_r.
  apply Forall2_same_length_lookup_2; [by eapply Forall2_length|]. intros i id it Hi Hit.
  destruct (Forall2_lookup_lr _ _ _ _ _ _ Hl Hi Hit) as (l & _ & Ht & _ & _ & _ & _ & Hq & _).
  unfold back_row, compose. cbn beta. rewrite relink_item. simpl. split_and!; [|done|done|].
  - eapply relink_own; [| |done|done].
    + rewrite fst_zip; [done|]. rewrite length_fmap. by rewrite (Forall2_length _ _ _ Hl).
    + apply list_elem_of_lookup. exists i. apply lookup_zip_with_Some. exists (bi_id it), id.
      rewrite list_lookup_fmap, Hit. done.
  - rewrite Hq. apply val_round.
Qed.

(** The rows after the return was written and its goods booked. *)
Record back_booked (t p b : uuid) (h : BillHead) (items : list BillItem) (order : list uuid) (r1 : HeadRow) (d d5 d6 : DB) : Prop := {
  bb_ne : b <> p;
  bb_heads : db_heads d6 = <[b := mkHeadRow (stored_head h) (Some p) false]> (<[p := r1]> (db_heads d));
  bb_items : db_items d6 = db_items d ++ (relink t (zip (bi_id <$> items) order) <$> new_rows (with_head b <$> items));
  bb_payments : db_payments d6 = db_payments d;
  bb_movements : db_movements d5 = db_movements d;
  bb_units : forall it, base_qty d5 it = base_qty d it;
}.

Lemma back_booked_Ok t p b h items order r1 d d3 r2 d5 d6 :
  new_bill h (with_head b <$> items) (put_head p r1 d) d3 -> bh_id h = b -> length items = length order ->
  db_heads d3 !! b = Some r2 ->
  d5 = set_items (put_head b (mkHeadRow (hr_head r2) (Some p) (hr_deleted r2)) d3)
         (relink t (zip (bi_id <$> items) order) <$> db_items d3) ->
  tx_frame d5 d6 -> back_booked t p b h items order r1 d d5 d6.
Proof.
  intros HN Hb Hlen Hr2 E5 F. destruct HN as [Hf _ _ Hh Hi _ Hnew Hrest]. rewrite Hb in Hf, Hh.
  rewrite Hh, lookup_insert_eq in Hr2. injection Hr2 as <-.
  assert ((zip (bi_id <$> items) order).*1 = bi_id <$> items) as Hfst by (apply fst_zip; by rewrite length_fmap, Hlen).
  constructor.
  - intros ->. simpl in Hf. by rewrite lookup_insert_eq in Hf.
  - rewrite (tx_heads _ _ F), E5. simpl. by rewrite Hh, insert_insert_eq.
  - rewrite (tx_items _ _ F), E5. simpl. rewrite Hi, fmap_app. f_equal. simpl.
    rewrite <- (list_fmap_id (db_items d)) at 2. apply list_fmap_ext. intros i r Hr. apply relink_other.
    rewrite Hfst. intros (it & Eit & Hit)%list_elem_of_fmap.
    apply (Hnew r (with_head b it)); [by eapply list_elem_of_lookup_2|by apply list_elem_of_fmap_2|done].
  - rewrite (tx_payments _ _ F), E5. exact (eq_sym (f_equal db_payments Hrest)).
  - rewrite E5. exact (eq_sym (f_equal db_movements Hrest)).
  - intros it. rewrite E5. unfold base_qty, base_factor, unit_factor. simpl.
    rewrite <- (f_equal db_product_unit Hrest : db_product_unit d = db_product_unit d3).
    by rewrite <- (f_equal db_products Hrest : db_products d = db_products d3).
Qed.

(** The payable side, with or without an offset. *)
Lemma offset_rows h no c amount now w x w' r t b :
  live_row t b (w_db w) = Some r -> bh_tenant h = t -> bh_id h = b -> bh_total h = bh_total (hr_head r) ->
  bh_paid h = bh_paid (hr_head r) -> 0 <= val amount -> on_scale 4 (val amount) ->
  on_scale 4 (val (bh_total (hr_head r))) -> on_scale 4 (val (bh_paid (hr_head r))) ->
  offsetPayable h no c amount now w = (Ok x, w') ->
  val x == offset_of r amount /\
  (exists r', db_heads (w_db w') = <[b := r']> (db_heads (w_db w)) /\ same_return r r' /\
     val (bh_paid (hr_head r')) == val (bh_paid (hr_head r)) + val x) /\
  ((db_payments (w_db w') = db_payments (w_db w) /\ val x == 0) \/
   exists row, db_payments (w_db w') = db_payments (w_db w) ++ [row] /\ payment_on t b PayTypeCredit x row) /\
  db_items (w_db w') = db_items (w_db w) /\ db_movements (w_db w') = db_movements (w_db w).
Proof.
  intros Hr Ht Hb Htot Hp Ha Hsa Hst Hsp H.
  eapply offsetPayable_Ok in H as (Ex & D); [|exact Hr|done..]. split; [exact Ex|].
  pose proof (live_row_Some _ _ _ _ Hr) as (Hr0 & _).
  destruct D as [[E Hz]|(Hpos & r' & row & E & Hrow & _ & _ & S & Hs & Hp')]; rewrite E; simpl.
  - split_and!; try done; [|by left]. exists r. rewrite insert_id by done. split_and!; [done|by split|rewrite Hz; ring].
  - split_and!; try done; [|right; by exists row]. exists r'. split_and!; [done|by split|].
    rewrite Hp'. unfold num4. rewrite val_round, val_add. apply qround_id. apply on_scale_plus; [done|].
    assert (on_scale 4 (val x)) as Hsx; [|by rewrite <- Hsx || exact Hsx].
    rewrite Ex. unfold offset_of. destruct has_payments; [|apply on_scale_0].
    auto with scale.
Qed.

(** What the reads leave for the booking. *)
Record back_plan (req : PurchaseReturnRequest) (d : DB) (rp : HeadRow) (want : gmap uuid dec) (order : list uuid)
    (amount : dec) (items : list BillItem) : Prop := {
  bp_row : live_row (pr_tenant req) (pr_purchase req) d = Some rp;
  bp_order : NoDup order;
  bp_asked : forall id, id ∈ order <-> id ∈ pl_item <$> pr_items req;
  bp_want : forall id, val (mget want id) == asked_back (pr_items req) id;
  bp_sums : val amount == line_sum items;
  bp_lines : Forall2 (back_item (pr_tenant req) uuid_nil (by_id (lines_of (pr_tenant req) (pr_purchase req) d)) want
    (returned_by_line BillSubTypePurchaseReturn (pr_tenant req) (pr_purchase req) d) (back_rate (hr_head rp))) order items;
}.

Lemma back_plan_cents req d rp want order amount items :
  back_plan req d rp want order amount items -> on_scale 2 (val amount).
Proof.
  intros [_ _ _ _ Hs Hl]. rewrite Hs. apply line_sum_scale. apply Forall_forall. intros it Hit.
  apply list_elem_of_lookup in Hit as [j Hj].
  destruct (Forall2_lookup_r _ _ _ _ _ Hl Hj) as (id & _ & l & _ & _ & _ & _ & _ & _ & _ & _ & ->).
  rewrite val_round. apply qround_on_scale.
Qed.

(** Everything up to the payable. *)
Record back_written (req : PurchaseReturnRequest) (b : uuid) (no : string) (amount : dec) (items : list BillItem)
    (order : list uuid) (rp : HeadRow) (d d' : DB) : Prop := {
  bw_ne : b <> pr_purchase req;
  bw_fresh : db_heads d !! b = None;
  bw_nonneg : 0 <= val (num4 amount);
  bw_heads : exists r1 r', db_heads d' = <[b := r']> (<[pr_purchase req := r1]> (db_heads d)) /\
    same_return rp r1 /\ bh_paid (hr_head r1) = bh_paid (hr_head rp) /\
    counting_return (pr_tenant req) (pr_purchase req) r' /\ bh_bill_no (hr_head r') = no /\
    bh_total (hr_head r') = num4 amount;
  bw_items : db_items d' = db_items d ++
    (relink (pr_tenant req) (zip (bi_id <$> items) order) <$> new_rows (with_head b <$> items));
  bw_ids : NoDup (bi_id <$> items);
  bw_payments : db_payments d' = db_payments d;
  bw_moves : exists k ms, db_movements d' = db_movements d ++ ms /\ Forall2 (sent_back d (pr_tenant req) k b) items ms;
}.

Lemma book_back_Ok req rp amount items order w out w' :
  live_row (pr_tenant req) (pr_purchase req) (w_db w) = Some rp -> length items = length order ->
  book_back req (as_scanned (hr_head rp)) amount items (zip (bi_id <$> items) order) w = (Ok out, w') ->
  exists no now w1, back_written req (po_bill out) no amount items order rp (w_db w) (w_db w1) /\
    po_no out = no /\ po_amount out = amount /\ po_owes out = dsub amount (po_reduced out) /\
    offsetPayable (as_scanned (hr_head rp)) no (pr_creator req) amount now w1 = (Ok (po_reduced out), w').
Proof.
  intros Hrp Hlen H. unfold book_back in H. set (t := pr_tenant req) in *. set (p := pr_purchase req) in *.
  apply bind_Ok in H as (k & w7 & H7 & H). minv H7.
  eapply resolveApprovalWarehouse_Ok in H7 as (r1 & E7 & S1 & Hs1 & _ & Hp1 & _); [|exact Hrp|done].
  apply bind_Ok in H as (no & w8 & H8 & H). minv H8. apply NextBillNo_Ok in H8 as [_ E8].
  apply bind_Ok in H as (now & w9 & H9 & H). minv H9. apply bind_Ok in H as (b & w10 & H10 & H). minv H10.
  set (b := uuid_at _) in *.
  apply bind_Ok in H as (? & w11 & H11 & H). minv H11. apply CreateBill_new in H11. wsimpl.
  rewrite E8, E7 in H11. apply new_bill_seq in H11. rename H11 into HN.
  apply bind_Ok in H as (? & w12 & H12 & H). minv H12. apply SetLinkBill_Ok in H12 as (r2 & Hr2 & E12).
  apply bind_Ok in H as (? & w13 & H13 & H). minv H13. apply SetLinkItems_Ok in H13.
  apply bind_Ok in H as (? & w14 & H14 & H). apply back_outs_Ok in H14 as (F14 & ms & Hms & Hmv).
  apply bind_Ok in H as (? & w15 & H15 & H). minv H15. apply bind_Ok in H as (off & w16 & H16 & H). minv H.
  destruct (back_booked_Ok _ _ _ _ _ _ _ _ _ _ _ _ HN eq_refl Hlen Hr2
    (eq_trans H13 (f_equal (fun d => set_items d (relink t (zip (bi_id <$> items) order) <$> db_items d)) E12)) F14)
    as [Hne Hbh Hbi Hbp Hbm Hbu].
  match type of Hbh with _ = <[b := ?r]> _ => set (rb := r) in * end.
  eapply UpdateBillStatus_Ok in H15 as (now' & E15);
    [|apply (live_row_intro _ _ _ rb); [rewrite Hbh; apply lookup_insert_eq|done|done]].
  eexists no, _, w15. split; [|by split_and!]. rewrite E15. constructor; simpl; try done.
  - pose proof (nb_fresh _ _ _ _ HN) as Hf. simpl in Hf. by rewrite lookup_insert_ne in Hf.
  - exact (nb_total _ _ _ _ HN).
  - eexists r1, _. rewrite Hbh, insert_insert_eq. split_and!; try done.
    unfold counting_return, approved_return. simpl. by rewrite N.eqb_refl.
  - pose proof (nb_ids _ _ _ _ HN) as Hids. by rewrite <- list_fmap_compose in Hids.
  - exists k, ms. rewrite Hms, Hbm. split; [done|]. rewrite Forall2_fmap_l in Hmv.
    eapply Forall2_impl; [exact Hmv|]. intros it m. unfold compose, sent_back. cbn beta. by rewrite (Hbu (with_head b it)).
Qed.

(** The quantities given back, once the payable row was touched as well. *)
Lemma back_written_grows req b no amount items order rp want rp' d d1 d' line :
  docs_wf d -> back_plan req d rp want order amount items -> back_written req b no amount items order rp d d1 ->
  db_heads d' = <[pr_purchase req := rp']> (db_heads d1) -> db_items d' = db_items d1 -> same_return rp rp' ->
  back_of d' (pr_tenant req) (pr_purchase req) line ==
    back_of d (pr_tenant req) (pr_purchase req) line + qround 4 (asked_back (pr_items req) line).
Proof.
  intros WF [Hrp Hn Hin Hw _ Hl] [Hne Hf _ (r1 & rb & Hh & _ & _ & Hc & _) Hi Hids _ _] Hh' Hi' Sr.
  pose proof (live_row_Some _ _ _ _ Hrp) as (Hp0 & _).
  etrans; [eapply (back_of_grows d d' _ _ b rb _ order); [by rewrite Hi', Hi|by eapply linked_rows|exact Hn| | |exact Hc]|].
  - intros i Hii. rewrite Hh', Hh, (insert_insert_ne _ (pr_purchase req) b), insert_insert_eq by done.
    unfold back_part. destruct (ir_link i) as [k|] eqn:Ek; [|done]. pose proof (wf_items _ WF) as Wi.
    rewrite Forall_forall in Wi. destruct (Wi _ Hii) as [y Hy].
    rewrite lookup_insert_ne by congruence.
    pose proof (same_return_part (db_heads d) (pr_tenant req) (pr_purchase req) line i _ _ _ Hp0 Sr) as HP.
    unfold back_part in HP. by rewrite Ek in HP.
  - rewrite Hh', lookup_insert_ne, Hh by done. apply lookup_insert_eq.
  - apply Qplus_comp; [done|]. cbn beta. destruct (decide (line ∈ order)) as [|Hno]; [by rewrite Hw|].
    rewrite asked_notin; [|by rewrite <- Hin]. symmetry. apply qround_id, on_scale_0.
Qed.

Lemma back_plan_effect req rp want order amount items w out w' :
  docs_wf (w_db w) -> numeric_wf (w_db w) -> back_plan req (w_db w) rp want order amount items ->
  purchase_returnable (hr_head rp) = true ->
  book_back req (as_scanned (hr_head rp)) amount items (zip (bi_id <$> items) order) w = (Ok out, w') ->
  purchase_returned req out (w_db w) (w_db w') rp items order.
Proof.
  intros WF NW HP Hret H. pose proof (back_plan_cents _ _ _ _ _ _ _ HP) as Hc. pose proof HP as [Hrp Hn Hin Hw Hs Hl].
  apply book_back_Ok in H as (no & now & w1 & HW & <- & <- & Howe & H); [|done|symmetry; by eapply Forall2_length].
  pose proof HW as [Hne Hf Hnn (r1 & rb & Hh & S1 & Hp1 & (Htb & Hab & Hlb) & Hnob & Htotb) Hi Hids Hpay (k & ms & Hm & Hmv)].
  pose proof (live_row_Some _ _ _ _ Hrp) as (Hrp0 & Htp & Hdp). destruct (nw_heads _ NW _ _ Hrp0) as [Hst Hsp].
  pose proof (same_row_fields _ _ (proj1 S1)) as (_ & Ft & _ & _ & _ & _ & Ftot & _).
  assert (live_row (pr_tenant req) (pr_purchase req) (w_db w1) = Some r1) as Hr1.
  { apply live_row_intro; [by rewrite Hh, lookup_insert_ne, lookup_insert_eq|congruence|].
    by destruct S1 as [(_ & _ & ->) _]. }
  eapply offset_rows in H as (Hoff & (rp' & Hh' & S' & Hpd) & Hpay' & Hit & Hmo); [|exact Hr1|..];
    rewrite ?Ftot, ?Hp1; try done;
    [|by eapply live_row_id; [apply WF|exact Hrp]|by rewrite <- num4_cents|by eapply on_scale_weaken; [|exact Hc]; lia].
  assert (same_return rp rp') as Sr by (destruct S1, S'; split; [by etrans|congruence]).
  rewrite Hpay in Hpay'. unfold approved_return in Hab. rewrite !andb_true_iff, negb_true_iff in Hab.
  destruct Hab as [[[_ Hsub%String.eqb_eq] Hsta%Z.eqb_eq] Hdb].
  constructor; try done.
  - eapply Forall2_impl; [exact Hl|]. intros id it (l & [Hin' Hid]%by_id_Some & _ & _ & Hp & Hu & Hx & Hq & Hcap & Ham).
    exists l. rewrite Hq, Ham. split_and!; try done; [by rewrite <- Hid at 2|].
    rewrite val_round, !val_mul, Hw. done.
  - exists rb. split_and!; try done; [|by rewrite Htotb; apply num4_cents].
    apply live_row_intro; [|done|done]. by rewrite Hh', lookup_insert_ne, Hh, lookup_insert_eq.
  - rewrite Howe, val_sub. split; [ring|]. rewrite Hoff. unfold offset_of. by rewrite Ftot, Hp1.
  - exists rp'. split_and!; [|done|by rewrite Hpd, Hp1]. pose proof (same_row_fields _ _ (proj1 Sr)) as (_ & Ft' & _).
    apply live_row_intro; [by rewrite Hh'; apply lookup_insert_eq|by rewrite Ft'|].
    by destruct Sr as [(_ & _ & ->) _].
  - intros c Hb Hp. by rewrite Hh', lookup_insert_ne, Hh, !lookup_insert_ne.
  - exists k, ms. by rewrite Hmo.
  - intros line. by eapply back_written_grows.
Qed.

Lemma purchase_return_body_Ok req w out w' :
  docs_wf (w_db w) -> numeric_wf (w_db w) ->
  purchase_return_body req w = (Ok out, w') ->
  exists rp items order, purchase_returned req out (w_db w) (w_db w') rp items order.
Proof.
  intros WF NW H. unfold purchase_return_body in H.
  apply bind_Ok in H as (? & w1 & H1 & H). apply on_err_Ok in H1.
  pose proof (keeps_run _ _ _ _ _ (keeps_AcquireBillAdvisoryLock eq _ _) H1) as [E1 _]. clear H1.
  apply bind_Ok in H as (po & w2 & H2 & H). minv H2. apply scan_head_Ok in H2 as (-> & rp & Hrp & ->).
  mguard H as G1. apply negb_false_iff in G1.
  apply bind_Ok in H as (lines & w3 & H3 & H). minv H3. apply GetBillItems_Ok in H3 as [-> E3].
  apply bind_Ok in H as ([want order] & w4 & H4 & H). apply wants_back_Ok in H4 as (-> & Hn & Hin & Hw).
  apply bind_Ok in H as (returned & w5 & H5 & H). unfold returnedByLine, PurchaseReturnedQtyByLine in H5. minv H5.
  apply bind_Ok in H as ([[amount items] links] & w6 & H6 & H).
  apply back_lines_Ok in H6 as (E6 & Hs & its & Hi & Hk & Hl); [|by intros id l [_ <-]%by_id_Some|exact sums_nil].
  simpl in Hi, Hk, Hl, Hs, Hn, Hin, Hw. subst its links.
  assert (w_db w6 = w_db w) as E by (wsimpl; congruence).
  wsimpl. rewrite E3, <- E1 in *. exists rp, items, order. rewrite <- E.
  eapply back_plan_effect; rewrite ?E; [done..| |exact G1|exact H].
  by constructor.
Qed.

Lemma back_of_scale d t p line : numeric_wf d -> on_scale 4 (back_of d t p line).
Proof.
  intros [NI _]. rewrite back_of_parts. apply on_scale_qsum. apply Forall_fmap. eapply Forall_impl; [exact NI|].
  intros i Hs. unfold compose, back_part. destruct (ir_link i); [|apply on_scale_0].
  destruct (db_heads d !! _); [|apply on_scale_0]. unfold part. repeat case_match; try done; apply on_scale_0.
Qed.

Lemma line_scale t b d l : numeric_wf d -> l ∈ lines_of t b d -> on_scale 4 (val (bi_qty l)).
Proof.
  intros [NI _] Hl. rewrite lines_of_on_bill, sql_order_perm in Hl.
  apply elem_of_select in Hl as [_ (i & -> & Hi)%list_elem_of_fmap]. rewrite Forall_forall in NI. by apply NI.
Qed.

(** C14: a return to the supplier that succeeds takes lines of an approved purchase, repeated
    ids added up, each within what the line has left after earlier returns; it leaves one new
    approved bill linked to the purchase, one stock issue per line, in base units, and lowers
    the payable by the returned value but never below nothing, booked as a credit payment: what
    is not offset is owed by the supplier.  Per purchase line the quantity given back grows by
    what was asked, to the four decimals of the column, and stays within the quantity bought
    where it was before.  No other bill changes. *)
Theorem purchase_return_effect req w out w' :
  docs_wf (w_db w) -> numeric_wf (w_db w) ->
  PurchaseReturn_Execute req w = (Ok out, w') ->
  exists rp items order, purchase_returned req out (w_db w) (w_db w') rp items order /\
    Forall (fun id => exists l, l ∈ lines_of (pr_tenant req) (pr_purchase req) (w_db w) /\ bi_id l = id /\
      back_of (w_db w') (pr_tenant req) (pr_purchase req) id <=
        Qmax (val (bi_qty l)) (back_of (w_db w) (pr_tenant req) (pr_purchase req) id)) order.
Proof.
  intros WF NW H. unfold PurchaseReturn_Execute in H. mguard H as G1. mguard H as G2. mguard H as G3.
  apply WithTx_Ok in H as (w1 & H & -> & _). apply purchase_return_body_Ok in H as (rp & items & order & HP); [|done..].
  change (w_db (bump w)) with (w_db w) in HP. change (w_db (bump w1)) with (w_db w1).
  exists rp, items, order. split; [exact HP|]. apply Forall_forall. intros id Hid. apply list_elem_of_lookup in Hid as [j Hj].
  destruct (Forall2_lookup_l _ _ _ _ _ (pu_lines _ _ _ _ _ _ _ HP) Hj) as (it & _ & l & Hl & Hi & _ & _ & _ & Hq & Hcap & _).
  exists l. split_and!; [done|done|]. rewrite (pu_back _ _ _ _ _ _ _ HP). rewrite Hq in Hcap.
  pose proof (line_scale _ _ _ _ NW Hl) as Hls. pose proof (back_of_scale _ (pr_tenant req) (pr_purchase req) id NW) as Hbs.
  assert (qround 4 (asked_back (pr_items req) id) <=
    Qmax (val (bi_qty l) - back_of (w_db w) (pr_tenant req) (pr_purchase req) id) 0) as Hr.
  { eapply Qle_trans; [apply qround_mono, Hcap|]. rewrite qround_id; [apply Qle_refl|auto with scale]. }
  clear Hcap. revert Hr. qminmax.
Qed.
End purchase_return_laws.

(** ** On the small shop *)

(** The purchase of the first draft, approved with 20 paid; some of its first line goes back. *)
Definition ex_bought_world : World :=
  (ApprovePurchase_ExecuteWithPayment (calc := WACCalculator) ex_po_approve ex_po_world).2.
Definition ex_bought_line : uuid :=
  match db_items (w_db ex_bought_world) with i :: _ => bi_id (ir_item i) | [] => uuid_nil end.
Definition ex_back : PurchaseReturnRequest :=
  mkPurchaseReturnRequest ex_tenant ex_user ex_po_bill
    [mkPurchaseReturnLine ex_bought_line (D 1 0); mkPurchaseReturnLine ex_bought_line (D 5 1)] "damaged".

Lemma ex_bought_wf : docs_wf (w_db ex_bought_world).
Proof. split; decide_goal. Defined.
Lemma ex_bought_numeric : numeric_wf (w_db ex_bought_world).
Proof. split; decide_goal. Defined.

Lemma purchase_return_effect_witness :
  exists out w', PurchaseReturn_Execute (calc := WACCalculator) ex_back ex_bought_world = (Ok out, w') /\
    exists rp items order, purchase_returned ex_back out (w_db ex_bought_world) (w_db w') rp items order.
Proof.
  run_ok (PurchaseReturn_Execute (calc := WACCalculator) ex_back ex_bought_world) as out w' H.
  exists out, w'. split; [exact H|].
  destruct (purchase_return_effect (calc := WACCalculator) ex_back ex_bought_world out w' ex_bought_wf ex_bought_numeric H)
    as (rp & items & order & HP & _).
  by exists rp, items, order.
Defined.
