(* ===== verification/SaleReturn.v ===== *)
(** The shop-floor return and its refund: app/bill/sale_return.go, sale_return_refund.go and
    sale_refund_only.go. *)
From S2P Require Import Prelude GoStrings Rounding Decimal SDec Types StockDomain BillDomain GoTime Store StockRepo StockCalc StockRecord BillRepo BillRows BillDraft BillApprove BillEdit BillReturn ReturnCap Concrete WAC.
From stdpp Require Import base tactics strings gmap list.
From Stdlib Require Import ZArith QArith Qminmax Lqa Lia.

Section sale_return.
Context {ops : DecimalOps} {env : Env} {wiring : Wiring} {calc : InventoryCalculator}.

(** ** sale_return.go *)

Record ReturnSaleLine := mkReturnSaleLine { rs_item : uuid; rs_qty : dec }.

Record ReturnSaleRequest := mkReturnSaleRequest {
  rt_tenant : uuid;
  rt_creator : uuid;
  rt_sale : uuid;
  rt_items : list ReturnSaleLine;
  rt_warehouse : option uuid;
  rt_remark : string;
}.

Record ReturnSaleOutput := mkReturnSaleOutput { ro_bill : uuid; ro_no : string; ro_amount : dec }.

Definition returnable (sale : BillHead) : bool :=
  is_sale_bill sale && Z.eqb (bh_status sale) StatusApproved.

(** One entry per sale line: the wanted quantities and the order the lines came in. *)
Definition want_line (byID : gmap uuid BillItem) (acc : gmap uuid dec * list uuid) (it : ReturnSaleLine)
  : M (gmap uuid dec * list uuid) :=
  let '(want, order) := acc in
  guard_err (is_none (byID !! rs_item it)) (ESentinel ErrReturnItemNotFound);;
  guard_err (negb (is_positive (rs_qty it))) (validation "item qty must be positive");;
  mret (madd want (rs_item it) (rs_qty it),
        if is_none (want !! rs_item it) then order ++ [rs_item it] else order).

Definition take_line (byID : gmap uuid BillItem) (want lineReturned : gmap uuid dec)
    (acc : gmap uuid dec * list ReturnItem) (id : uuid) : M (gmap uuid dec * list ReturnItem) :=
  let '(rem, items) := acc in
  match byID !! id with
  | None => panic nil_dereference
  | Some l =>
      let qty := mget want id in
      f ← on_err (EWrap "return sale") (baseFactor (bi_product l) (bi_unit l));
      q ← Div (mget rem (bi_product l)) f;
      let rest := dmin q (dmax (dsub (bi_qty l) (mget lineReturned (bi_id l))) dzero) in
      guard_err (dgt qty rest) (EReturnExceeded (bi_line_no l) rest);;
      let '(_, rem) := takeBase rem (bi_product l) (dmul qty f) in
      mret (rem, items ++ [mkReturnItem (bi_product l) (bi_unit l) (bi_unit_name l)
                             (Z.of_nat (length items) + 1) qty (bi_unit_price l) (Some (bi_id l))])
  end.

(** Best effort: its own failures are logged and swallowed. *)
Definition discardDraft (tenant bill : uuid) : M unit :=
  h ← try (GetBill tenant bill);
  match h with
  | inl _ => mret tt
  | inr h =>
      if negb (Z.eqb (bh_status h) StatusDraft) then mret tt
      else _ ← try (WithTx "bill repo" (UpdateBillStatus tenant bill StatusCancelled no_meta)); mret tt
  end.

Definition items_amount (items : list ReturnItem) : dec :=
  fold_left (fun a it => dadd a (line_amount (ri_qty it) (ri_price it))) items dzero.

Definition ReturnSale_Execute (req : ReturnSaleRequest) : M ReturnSaleOutput :=
  guard_err (Nat.eqb (length (rt_items req)) 0) (validation "at least one item is required");;
  sale ← GetBill (rt_tenant req) (rt_sale req);
  guard_err (negb (returnable sale)) (ESentinel ErrSaleNotReturnable);;
  match rt_warehouse req with
  | Some k =>
      if uuid_is_nil k then mret tt
      else
        ok ← on_err (EWrap "return sale: check warehouse") (WarehouseExists (rt_tenant req) k);
        guard_err (negb ok) (ESentinel ErrWarehouseNotFound)
  | None => mret tt
  end;;
  lines ← on_err (EWrap "return sale: load items") (GetBillItems (rt_tenant req) (rt_sale req));
  let byID := by_id lines in
  wo ← foldM (want_line byID) (rt_items req) (∅, []);
  let '(want, order) := wo in
  rem ← on_err (EWrap "return sale") (remainingBase (rt_tenant req) (rt_sale req));
  lineReturned ← on_err (EWrap "return sale") (ReturnedQtyByLine (rt_tenant req) (rt_sale req));
  acc ← foldM (take_line byID want lineReturned) order (default ∅ rem, []);
  let items := acc.2 in
  let warehouse := match rt_warehouse req with Some k => Some k | None => bh_warehouse sale end in
  let remark := if String.eqb (rt_remark req) "" then ("销售退货 " ++ bh_bill_no sale)%string else rt_remark req in
  created ← CreateReturn_Execute (mkCreateReturnRequest (rt_tenant req) (rt_creator req) warehouse
              (bh_partner sale) (Some (rt_sale req)) time_zero remark items);
  r ← try (ApproveReturn_Execute (mkApproveReturnRequest (rt_tenant req) (co_bill created) (rt_creator req) true));
  match r with
  | inl e => discardDraft (rt_tenant req) (co_bill created);; throw e
  | inr _ => mret (mkReturnSaleOutput (co_bill created) (co_no created) (items_amount items))
  end.

(** Returned quantity per sale line, and the returned amount. *)
Record SaleReturnSummary := mkSaleReturnSummary { sr_qty : gmap uuid dec; sr_amount : dec }.

Definition summary_linked (byLine : gmap uuid dec)
    (acc : (gmap uuid dec * gmap uuid dec) * gmap uuid dec) (l : BillItem)
  : M ((gmap uuid dec * gmap uuid dec) * gmap uuid dec) :=
  let '((pool, out), factors) := acc in
  f ← baseFactor (bi_product l) (bi_unit l);
  let factors := <[bi_id l := f]> factors in
  let linked := dmin (mget byLine (bi_id l)) (bi_qty l) in
  mret (if is_positive linked
        then ((<[bi_product l := dmax (dsub (mget pool (bi_product l)) (dmul linked f)) dzero]> pool,
               <[bi_id l := linked]> out), factors)
        else ((pool, out), factors)).

Definition summary_rest (factors : gmap uuid dec) (acc : gmap uuid dec * gmap uuid dec) (l : BillItem)
  : M (gmap uuid dec * gmap uuid dec) :=
  let '(pool, out) := acc in
  let f := mget factors (bi_id l) in
  let room := dmul (dsub (bi_qty l) (mget out (bi_id l))) f in
  let take := dmin (mget pool (bi_product l)) room in
  if negb (is_positive take) then mret (pool, out)
  else
    q ← Div take f;
    mret (<[bi_product l := dsub (mget pool (bi_product l)) take]> pool,
          <[bi_id l := dadd (mget out (bi_id l)) q]> out).

Definition ReturnSale_Summary (tenant : uuid) (sale : BillHead) (items : list BillItem) : M SaleReturnSummary :=
  if negb (returnable sale) then mret (mkSaleReturnSummary ∅ dzero)
  else
    pool ← returnedBase tenant (bh_id sale);
    byLine ← ReturnedQtyByLine tenant (bh_id sale);
    acc ← foldM (summary_linked byLine) items ((pool, ∅), ∅);
    out ← foldM (summary_rest acc.2) items acc.1;
    amount ← on_err (EWrap "returned amount") (ReturnedAmount tenant (bh_id sale));
    mret (mkSaleReturnSummary out.2 amount).

(** ** sale_return_refund.go *)

Record SaleRefundRequest := mkSaleRefundRequest {
  rf_return : ReturnSaleRequest;
  rf_amount : dec;
  rf_method : string;
  rf_only : option BillHead;     (* onlyReturn *)
}.

Record SaleRefundOutput := mkSaleRefundOutput {
  so_return : ReturnSaleOutput;
  so_refunded : dec;
  so_err : option error;
}.

Definition refundCap (total paid returned : dec) : dec :=
  dmax (dsub paid (dmax (dsub total returned) dzero)) dzero.

Definition resolveRefundMethod (method : string) : error + PayType :=
  match resolvePayType method with
  | inl e => inl e
  | inr pt => if String.eqb pt PayTypeCredit then inl (EWrap method (ESentinel ErrInvalidPayMethod)) else inr pt
  end.

Definition request_value (lines : list BillItem) (items : list ReturnSaleLine) : dec :=
  let price := fold_left (fun m l => <[bi_id l := bi_unit_price l]> m) lines ∅ in
  fold_left (fun a it => dadd a (line_amount (rs_qty it) (mget price (rs_item it)))) items dzero.

Definition refund_precheck (req : SaleRefundRequest) : M unit :=
  let r := rf_return req in
  sale ← GetBill (rt_tenant r) (rt_sale r);
  guard_err (negb (returnable sale)) (ESentinel ErrSaleNotReturnable);;
  lines ← on_err (EWrap "sale refund: load items") (GetBillItems (rt_tenant r) (rt_sale r));
  before ← on_err (EWrap "sale refund") (ReturnedAmount (rt_tenant r) (rt_sale r));
  let limit := refundCap (bh_total sale) (bh_paid sale) (dadd before (request_value lines (rt_items r))) in
  guard_err (dgt (rf_amount req) limit) (ERefundExceeded limit).

Definition refund_label (billNo : string) : string := ("退货退款 " ++ billNo)%string.

Definition returnRefundLeft (tenant sale : uuid) (ret : BillHead) : M dec :=
  pays ← on_err (EWrap "list refunds") (ListByBill tenant sale);
  mret (dmax (fold_left (fun a p =>
          if is_negative (py_amount p) && String.eqb (py_remark p) (refund_label (bh_bill_no ret))
          then dadd a (py_amount p) else a) pays (bh_total ret)) dzero).

Definition refund_book (req : SaleRefundRequest) (billNo : string) (payType : PayType) : M unit :=
  let r := rf_return req in
  WithTx "bill repo" (
    on_err (fun _ => EWrap "refund" (ESentinel ErrBillApprovalConflict))
      (AcquireBillAdvisoryLock (rt_tenant r) (rt_sale r));;
    sale ← on_err (EWrap "load sale") (GetBillForUpdate (rt_tenant r) (rt_sale r));
    returned ← ReturnedAmountTx (rt_tenant r) (rt_sale r);
    let limit := refundCap (bh_total sale) (bh_paid sale) returned in
    guard_err (dgt (rf_amount req) limit) (ERefundExceeded limit);;
    match rf_only req with
    | Some ret =>
        rest ← returnRefundLeft (rt_tenant r) (rt_sale r) ret;
        guard_err (dgt (rf_amount req) rest) (ERefundExceeded rest)
    | None => mret tt
    end;;
    now ← time_now;
    id ← uuid_new;
    let p := mkPayment id (rt_tenant r) (rt_sale r) payType (dneg (rf_amount req)) dzero (bh_partner sale)
               None (rt_creator r) "" now (refund_label billNo) time_zero in
    _ ← on_err (EWrap "record refund") (Record_ p);
    on_err (EWrap "update paid_amount")
      (UpdatePaidAmount (rt_tenant r) (rt_sale r) (dsub (bh_paid sale) (rf_amount req)))).

Definition SaleRefund_Execute (req : SaleRefundRequest) : M SaleRefundOutput :=
  guard_err (is_negative (rf_amount req)) (validation "refund amount must not be negative");;
  if negb (is_positive (rf_amount req)) then
    out ← ReturnSale_Execute (rf_return req);
    mret (mkSaleRefundOutput out dzero None)
  else
    payType ← of_sum (resolveRefundMethod (rf_method req));
    refund_precheck req;;
    out ← ReturnSale_Execute (rf_return req);
    r ← try (refund_book req (ro_no out) payType);
    mret (match r with
          | inl e => mkSaleRefundOutput out dzero (Some e)
          | inr _ => mkSaleRefundOutput out (rf_amount req) None
          end).

(** ** sale_refund_only.go *)

Record SaleRefundOnlyRequest := mkSaleRefundOnlyRequest {
  ro_tenant : uuid;
  ro_creator : uuid;
  ro_sale : uuid;
  ro_refund : dec;
  ro_method : string;
  ro_return : uuid;
}.

Definition RecordRefund (req : SaleRefundOnlyRequest) : M unit :=
  guard_err (negb (is_positive (ro_refund req))) (validation "refund amount must be positive");;
  payType ← of_sum (resolveRefundMethod (ro_method req));
  sale ← GetBill (ro_tenant req) (ro_sale req);
  guard_err (negb (returnable sale)) (ESentinel ErrSaleNotReturnable);;
  r ← try (GetBill (ro_tenant req) (ro_return req));
  match r with
  | inl e => if errors_is e ErrBillNotFound then throw (ESentinel ErrRefundReturnMismatch) else throw e
  | inr ret =>
      guard_err (negb (String.eqb (bh_sub_type ret) BillSubTypeSaleReturn) || negb (Z.eqb (bh_status ret) StatusApproved))
        (ESentinel ErrRefundReturnMismatch);;
      linked ← LinkedBillID (ro_tenant req) (bh_id ret);
      guard_err (negb (bool_decide (linked = Some (ro_sale req)))) (ESentinel ErrRefundReturnMismatch);;
      refund_book (mkSaleRefundRequest
          (mkReturnSaleRequest (ro_tenant req) (ro_creator req) (ro_sale req) [] None "")
          (ro_refund req) "" (Some ret)) (bh_bill_no ret) payType
  end.
End sale_return.

(** ** Refunds *)
Section refund_laws.
Context {ops : DecimalOps} {laws : DecimalLaws ops} {env : Env} {env_laws : EnvLaws env} {wiring : Wiring}.
Local Open Scope Q_scope.

(** What the customer has paid beyond what the sale is worth net of its returns. *)
Definition refundable (total paid returned : Q) : Q := Qmax (paid - Qmax (total - returned) 0) 0.

Lemma refundCap_val total paid returned :
  val (refundCap total paid returned) == refundable (val total) (val paid) (val returned).
Proof. unfold refundCap, refundable. by rewrite val_max, val_sub, val_max, val_sub, val_zero. Qed.

(** Whole-bill terms: the refundable amount of a sale as it is stored. *)
Definition refundable_of (d : DB) (t s : uuid) (r : HeadRow) : Q :=
  refundable (val (bh_total (hr_head r))) (val (bh_paid (hr_head r))) (val (returned_amount t s d)).

(** The refunds already booked on a sale under the number of a return. *)
Definition refund_of (no : string) (p : Payment) : bool :=
  is_negative (py_amount p) && String.eqb (py_remark p) (refund_label no).
Definition refunded_for (d : DB) (t s : uuid) (no : string) : Q :=
  - qsum ((fun p => if refund_of no p then val (py_amount p) else 0) <$> payments_of t s d).

Lemma refund_left_fold no l a :
  val (fold_left (fun a p => if is_negative (py_amount p) && String.eqb (py_remark p) (refund_label no)
                             then dadd a (py_amount p) else a) l a) ==
  val a + qsum ((fun p => if refund_of no p then val (py_amount p) else 0) <$> l).
Proof.
  revert a. induction l as [|p l IH]; intros a; csimpl; [ring|]. rewrite IH.
  fold (refund_of no p). destruct (refund_of no p); [rewrite val_add|]; ring.
Qed.

Lemma returnRefundLeft_Ok t s h w x w' :
  returnRefundLeft t s h w = (Ok x, w') ->
  w_db w' = w_db w /\ val x == Qmax (val (bh_total h) - refunded_for (w_db w) t s (bh_bill_no h)) 0.
Proof.
  unfold returnRefundLeft. intros H. apply bind_Ok in H as (l & w1 & H1 & H). minv H1.
  unfold ListByBill in H1. minv H1. minv H. split; [done|]. rewrite val_max, val_zero, refund_left_fold.
  unfold refunded_for.
  rewrite (qsum_perm _ _ (Permutation_map _ (sql_order_perm py_date (payments_of t s (w_db w))))).
  match goal with |- Qmax (?a + ?x) _ == _ => assert (a - - x == a + x) as E by ring end. by rewrite E.
Qed.

(** A refund was booked on a sale: one negative payment, the paid amount lower by it. *)
Record refunded (t s creator : uuid) (amount : dec) (no : string) (pt : PayType) (d d' : DB) (r : HeadRow) : Prop := {
  re_cap : val amount <= refundable_of d t s r;
  re_rows : exists r' row, d' = put_head s r' (set_payments d (db_payments d ++ [row])) /\
    payment_on t s pt (dneg amount) row /\ fresh_payment row d /\
    py_remark (pr_payment row) = refund_label no /\ py_creator (pr_payment row) = creator /\
    same_row r r' /\ bh_status (hr_head r') = bh_status (hr_head r) /\
    bh_revision (hr_head r') = bh_revision (hr_head r) /\
    bh_warehouse (hr_head r') = bh_warehouse (hr_head r) /\
    bh_paid (hr_head r') = num4 (dsub (bh_paid (hr_head r)) amount);
}.

Lemma refund_book_Ok req no pt w u w' :
  refund_book req no pt w = (Ok u, w') ->
  let t := rt_tenant (rf_return req) in let s := rt_sale (rf_return req) in
  exists r, live_row t s (w_db w) = Some r /\
    refunded t s (rt_creator (rf_return req)) (rf_amount req) no pt (w_db w) (w_db w') r /\
    forall ret, rf_only req = Some ret ->
      val (rf_amount req) <= Qmax (val (bh_total ret) - refunded_for (w_db w) t s (bh_bill_no ret)) 0.
Proof.
  intros H t s. unfold refund_book in H. fold t s in H. apply WithTx_Ok in H as (w1 & H & -> & _).
  apply bind_Ok in H as (? & w2 & H2 & H). minv H2.
  pose proof (keeps_run _ _ _ _ _ (keeps_AcquireBillAdvisoryLock eq _ _) H2) as [E2 _].
  apply bind_Ok in H as (h & w3 & H3 & H). minv H3. apply scan_head_Ok in H3 as (-> & r & Hr & ->).
  wsimpl. rewrite <- E2 in Hr. exists r. split; [done|].
  apply bind_Ok in H as (ret & w4 & H4 & H). unfold ReturnedAmountTx in H4. minv H4. wsimpl.
  mguard H as G. dec_tests. rewrite refundCap_val, <- E2 in G. simpl in G.
  apply bind_Ok in H as (? & w5 & H5 & H).
  assert (w_db w5 = w_db w /\ forall h, rf_only req = Some h ->
    val (rf_amount req) <= Qmax (val (bh_total h) - refunded_for (w_db w) t s (bh_bill_no h)) 0) as [E5 Ho].
  { destruct (rf_only req) as [h|]; [|minv H5; by rewrite E2].
    apply bind_Ok in H5 as (rest & w6 & H6 & H5). apply guard_err_Ok in H5 as [G5 <-].
    apply returnRefundLeft_Ok in H6 as [E6 Hv]. wsimpl. rewrite <- E2 in *. split; [done|].
    intros h' [= <-]. dec_tests. by rewrite <- Hv. }
  clear H5. apply bind_Ok in H as (now & w6 & H6 & H). minv H6. apply bind_Ok in H as (id & w7 & H7 & H). minv H7.
  apply bind_Ok in H as (q & w8 & H8 & H). minv H8. minv H.
  apply Record_Ok in H8 as (date & cr & row & Eq & -> & E8 & _ & Hfresh). wsimpl. rewrite E5 in E8, Hfresh.
  eapply (UpdatePaidAmount_Ok _ _ _ _ _ _ r) in H as (Hle & now' & E); [|rewrite E8; exact Hr].
  split; [|exact Ho]. constructor; [exact G|]. rewrite E8 in E.
  eexists _, _. split; [exact E|]. rewrite Eq. by split_and!.
Qed.

Lemma refundable_bound total paid returned a :
  0 < a -> a <= refundable total paid returned -> Qmax (total - returned) 0 <= paid - a.
Proof.
  unfold refundable. intros Ha Hle.
  destruct (Q.max_spec (paid - Qmax (total - returned) 0) 0) as [[? E]|[? E]]; rewrite E in Hle; lra.
Qed.

(** a refund for a finished return pays back at most what the customer has paid beyond the
    sale's value net of its returns, and, together with the refunds already booked under the
    return's number, at most the value of that return; the return named is an approved sales
    return of this very sale.  It is booked as one negative payment on the sale, lowers the
    sale's paid amount by as much, and touches nothing else. *)
Theorem record_refund_within_cap req w u w' :
  keyed (w_db w) ->
  RecordRefund req w = (Ok u, w') ->
  exists rs rr pt,
    live_row (ro_tenant req) (ro_sale req) (w_db w) = Some rs /\ sale_row rs /\
    live_row (ro_tenant req) (ro_return req) (w_db w) = Some rr /\
    bh_sub_type (hr_head rr) = BillSubTypeSaleReturn /\ bh_status (hr_head rr) = StatusApproved /\
    hr_link rr = Some (ro_sale req) /\
    0 < val (ro_refund req) /\
    Qmax (val (bh_total (hr_head rs)) - val (returned_amount (ro_tenant req) (ro_sale req) (w_db w))) 0
      <= val (bh_paid (hr_head rs)) - val (ro_refund req) /\
    refunded_for (w_db w) (ro_tenant req) (ro_sale req) (bh_bill_no (hr_head rr)) + val (ro_refund req)
      <= val (bh_total (hr_head rr)) /\
    refunded (ro_tenant req) (ro_sale req) (ro_creator req) (ro_refund req) (bh_bill_no (hr_head rr)) pt
      (w_db w) (w_db w') rs.
Proof.
  intros K H. unfold RecordRefund in H. mguard H as G1. apply negb_false_iff in G1.
  apply bind_Ok in H as (pt & w1 & H1 & H). minv H1.
  apply bind_Ok in H as (h & w2 & H2 & H). apply GetBill_Ok in H2 as (E2 & rs & ? & ? & Hrs & ->).
  mguard H as G2. apply negb_false_iff in G2.
  apply bind_Ok in H as (o & w3 & H3 & H). minv H3. destruct o as [e|ret]; [by destruct (errors_is _ _)|].
  apply GetBill_Ok in H3 as (E3 & rr & ? & ? & Hrr & ->). mguard H as G3. apply orb_false_iff in G3 as [G3 G4].
  apply negb_false_iff, String.eqb_eq in G3. apply negb_false_iff, Z.eqb_eq in G4. simpl in G3, G4.
  apply bind_Ok in H as (l & w4 & H4 & H). unfold LinkedBillID in H4. minv H4. mguard H as G5.
  apply negb_false_iff, bool_decide_eq_true in G5.
  apply refund_book_Ok in H as (r & Hr & HR & Ho). wsimpl. simpl in *. rewrite E3, E2 in *.
  assert (r = rs) as -> by congruence.
  exists rs, rr, pt. apply is_positive_true in G1.
  pose proof (live_row_id _ _ _ _ K Hrr) as Hid. pose proof (live_row_Some _ _ _ _ Hrr) as (Hb & Ht & _).
  rewrite Hid, Hb, Ht, N.eqb_refl in G5.
  split_and!; try done.
  - unfold returnable in G2. apply andb_true_iff in G2 as [Ga Gb]. split; [exact Ga|]. by apply Z.eqb_eq in Gb.
  - apply refundable_bound; [done|]. exact (re_cap _ _ _ _ _ _ _ _ _ HR).
  - specialize (Ho _ eq_refl). simpl in Ho. revert Ho. set (A := val (bh_total _)). set (B := refunded_for _ _ _ _).
    destruct (Q.max_spec (A - B) 0) as [[? E]|[? E]]; rewrite E; intros; lra.
Qed.
End refund_laws.
