(* ===== verification/SaleReturnLaws.v ===== *)
(** The shop-floor return as a whole: create, link, approve strictly, or discard. *)
From S2P Require Import Prelude GoStrings Rounding Decimal SDec Types StockDomain BillDomain GoTime Store StockRepo StockCalc StockRecord StockLedger BillRepo BillRows BillDraft BillApprove BillEdit BillReturn ReturnCap SaleReturn Concrete WAC.
From stdpp Require Import base tactics strings gmap list.
From Stdlib Require Import ZArith QArith Qminmax Lqa Lia.

Section sale_return_laws.
Context {ops : DecimalOps} {laws : DecimalLaws ops} {env : Env} {env_laws : EnvLaws env} {wiring : Wiring}
  {calc : InventoryCalculator} {CL : CalculatorLaws calc}.
Local Open Scope Q_scope.

(** ** create_return.go *)

(** The item a requested return line becomes. *)
Definition returned_item (t : uuid) (x : ReturnItem) (it : BillItem) : Prop :=
  line_of t uuid_nil (ri_product x) (ri_qty x) (ri_price x) it /\ bi_unit it = ri_unit x /\
  ri_product x <> uuid_nil /\ 0 < val (ri_qty x) /\ 0 <= val (ri_price x).

Lemma new_line_unit t h p u n l q x acc w acc' w' :
  new_line t h p u n l q x acc w = (Ok acc', w') ->
  exists it, acc'.2 = acc.2 ++ [it] /\ line_of t h p q x it /\ bi_unit it = u.
Proof. unfold new_line. intros H. minv H. eexists. split; [done|]. by split_and!. Qed.

Lemma return_lines_Ok t l acc w acc' w' :
  foldM (return_line t) l acc w = (Ok acc', w') -> sums acc.1 ->
  w_db w' = w_db w /\ sums acc'.1 /\ exists items, acc'.1.2 = acc.1.2 ++ items /\ Forall2 (returned_item t) l items.
Proof.
  revert acc w. induction l as [|x l IH]; intros acc w H Hs; cbn [foldM] in H.
  { minv H. split_and!; [done|done|]. exists []. split; [by rewrite app_nil_r|constructor]. }
  apply bind_Ok in H as (a1 & w1 & H1 & H). unfold return_line in H1.
  apply bind_Ok in H1 as (u & w2 & H2 & H1). apply check_line_Ok in H2 as (-> & Hp & Hq & Hx).
  apply bind_Ok in H1 as (lines & w2 & H2 & H1). minv H1.
  pose proof (new_line_unit _ _ _ _ _ _ _ _ _ _ _ _ H2) as (it & Hb & Hit & Hu).
  apply new_line_Ok in H2 as (E2 & it' & _ & Ha & Hb').
  assert (it' = it) as -> by (rewrite Hb in Hb'; by apply app_inj_tail in Hb' as [_ ?]).
  apply IH in H as (E & Hs' & items & Hi & Hl); simpl in *.
  - split_and!; [congruence|done|]. exists (it :: items). rewrite Hi, Hb, <- app_assoc. split; [done|].
    constructor; [by split_and!|done].
  - unfold sums in *. simpl in *. rewrite Ha, Hb, val_add, Hs. unfold line_sum. rewrite !fmap_app, qsum_app. simpl.
    destruct Hit as (_ & _ & _ & _ & _ & ->). ring.
Qed.

(** The rows a created return leaves. *)
Record return_created (req : CreateReturnRequest) (out : CreateDraftOutput) (h : BillHead) (items : list BillItem)
    (d d' : DB) : Prop := {
  rc_fresh : db_heads d !! co_bill out = None;
  rc_heads : db_heads d' = <[co_bill out := mkHeadRow (stored_head h) (cr_link req) false]> (db_heads d);
  rc_items : ir_item <$> db_items d' = (ir_item <$> db_items d) ++ (stored_item <$> items);
  rc_rest : strip_new d = strip_new d';
  rc_head : bh_id h = co_bill out /\ bh_bill_no h = co_no out /\ bh_tenant h = cr_tenant req /\
            bh_status h = StatusDraft /\ bh_type h = BillTypePurchase /\ bh_sub_type h = BillSubTypeSaleReturn /\
            bh_partner h = cr_partner req /\ bh_warehouse h = cr_warehouse req /\ bh_remark h = cr_remark req;
  rc_total : val (bh_total h) == line_sum items;
  rc_lines : Forall2 (fun x it => line_of (cr_tenant req) (co_bill out) (ri_product x) (ri_qty x) (ri_price x) it /\
               bi_unit it = ri_unit x /\ 0 < val (ri_qty x) /\ 0 <= val (ri_price x) /\
               product_of (cr_tenant req) (ri_product x) d) (cr_items req) items;
}.

Lemma with_head_sum b items : line_sum (with_head b <$> items) = line_sum items.
Proof. unfold line_sum. by rewrite <- (list_fmap_compose (with_head b) bi_line_amount). Qed.

Lemma stored_head_fields h :
  bh_id (stored_head h) = bh_id h /\ bh_tenant (stored_head h) = bh_tenant h /\
  bh_status (stored_head h) = bh_status h /\ bh_type (stored_head h) = bh_type h /\
  bh_sub_type (stored_head h) = bh_sub_type h /\ bh_bill_no (stored_head h) = bh_bill_no h.
Proof. done. Qed.

Lemma CreateReturn_Ok req w out w' :
  docs_wf (w_db w) ->
  CreateReturn_Execute req w = (Ok out, w') ->
  exists h items, return_created req out h items (w_db w) (w_db w').
Proof.
  intros WF H. unfold CreateReturn_Execute in H. mguard H as G1. mguard H as G2. mguard H as G3.
  apply bind_Ok in H as (date & w1 & Hd & H).
  assert (w_db w1 = w_db w) as E1 by (destruct (time_is_zero _); by minv Hd).
  apply bind_Ok in H as ([[sub items] links] & w2 & Hl & H).
  apply return_lines_Ok in Hl as (E2 & Hs & its & Hi & Hl); [|exact sums_nil]. simpl in Hi. subst its.
  apply bind_Ok in H as (? & w3 & Hr & H). apply validateRefs_Ok in Hr as (E3 & Hp & _).
  apply bind_Ok in H as (bid & w4 & G & H). minv G. apply bind_Ok in H as (now & w5 & G & H). minv G.
  apply WithTx_Ok in H as (w6 & H & -> & _). cbn [bump w_db] in *.
  apply bind_Ok in H as (no & w7 & Hn & H). minv Hn. apply NextBillNo_Ok in Hn as [_ En].
  apply bind_Ok in H as (? & w8 & Hc & H). minv Hc. apply CreateBill_new in Hc.
  rewrite En in Hc. apply new_bill_seq in Hc.
  apply bind_Ok in H as (? & w9 & Hk & H). apply ret_Ok in H as [<- <-]. wsimpl. rewrite E3, E2, E1 in *. clear E1 E2 E3.
  destruct Hc as [C1 C2 C3 C4 C5 C6 C7 C8]. simpl in C1, C4.
  assert (exists l, w_db w9 = set_items (set_heads (w_db w8)
      (<[uuid_at (w_tick w3) := mkHeadRow (stored_head (draft_head (uuid_at (w_tick w3)) (cr_tenant req) no BillTypePurchase
          BillSubTypeSaleReturn (cr_partner req) (cr_warehouse req) (cr_creator req) date sub dzero dzero sub "" dzero dzero
          (cr_remark req) (clock_at (S (w_tick w3))) "" "" None)) (cr_link req) false]> (db_heads (w_db w)))) l /\
    ir_item <$> l = ir_item <$> db_items (w_db w8)) as (l & E9 & Hil).
  { destruct (cr_link req) as [s|].
    - apply bind_Ok in Hk as (? & w10 & Hk1 & Hk). minv Hk1. unfold SetLinkBill in Hk1.
      apply bind_Ok in Hk1 as (n & w11 & Hk2 & Hk1). apply statement_Ok in Hk2 as (_ & d & Ed & ->).
      apply guard_err_Ok in Hk1 as [Hn0 <-]. rewrite C4, lookup_insert_eq in Ed.
      match type of Ed with (match ?o with _ => _ end) = _ => destruct o as [sr|] end;
        [|injection Ed as <- <-; discriminate Hn0].
      match type of Ed with (if ?b then _ else _) = _ => destruct b end;
        [|injection Ed as <- <-; discriminate Hn0].
      injection Ed as <- <-. simpl in Hk.
      assert (relinked (set_heads (w_db w8) (<[uuid_at (w_tick w3) := mkHeadRow (stored_head (draft_head (uuid_at (w_tick w3)) (cr_tenant req) no BillTypePurchase
          BillSubTypeSaleReturn (cr_partner req) (cr_warehouse req) (cr_creator req) date sub dzero dzero sub "" dzero dzero
          (cr_remark req) (clock_at (S (w_tick w3))) "" "" None)) (Some s) false]> (db_heads (w_db w)))) (w_db w9)) as (l & El & Hl').
      { destruct (Nat.eqb (length links) 0).
        - minv Hk. simpl. unfold put_head. simpl. rewrite C4, insert_insert_eq. reflexivity.
        - minv Hk. destruct (keeps_run _ _ _ _ _ (keeps_SetLinkItems _ _ _) Hk) as [Hx _]. simpl in Hx.
          unfold put_head in Hx. rewrite C4, insert_insert_eq in Hx. exact Hx. }
      exists l. split; [exact El|exact Hl'].
    - minv Hk. exists (db_items (w_db w9)). split; [|done]. rewrite <- C4. by destruct (w_db w9). }
  rewrite E9. exists (draft_head (uuid_at (w_tick w3)) (cr_tenant req) no BillTypePurchase
          BillSubTypeSaleReturn (cr_partner req) (cr_warehouse req) (cr_creator req) date sub dzero dzero sub "" dzero dzero
          (cr_remark req) (clock_at (S (w_tick w3))) "" "" None), (with_head (uuid_at (w_tick w3)) <$> items).
  constructor; try done.
  - simpl. rewrite Hil, C5, fmap_app. f_equal. unfold new_rows. by rewrite <- list_fmap_compose.
  - rewrite with_head_sum. exact Hs.
  - simpl. rewrite Forall_fmap in Hp. apply Forall2_fmap_r. eapply Forall2_impl_in; [exact Hl|].
    intros y it Hy (Hline & Hu & Hnil & Hq & Hx). rewrite Forall_forall in Hp.
    split_and!; [by eapply with_head_line|done|done|done|]. by destruct (Hp y Hy).
Qed.
(** ** What was asked *)

Definition wanted (items : list ReturnSaleLine) (id : uuid) : Q := asked rs_item rs_qty items id.

Lemma want_lines_Ok byID items w acc' w' :
  foldM (want_line byID) items (∅, []) w = (Ok acc', w') ->
  w' = w /\ NoDup acc'.2 /\ (forall id, id ∈ acc'.2 <-> id ∈ rs_item <$> items) /\
  (forall id, val (mget acc'.1 id) == wanted items id).
Proof.
  apply (asked_Ok _ rs_item rs_qty). clear. intros want order it w [want' order'] w' H.
  unfold want_line in H. mguard H as G1. mguard H as G2. by minv H.
Qed.

(** A return item copies the sale line it points at and asks for its whole wanted quantity. *)
Definition copies (want : gmap uuid dec) (byID : gmap uuid BillItem) (id : uuid) (x : ReturnItem) : Prop :=
  exists l, byID !! id = Some l /\ ri_link x = Some (bi_id l) /\ ri_product x = bi_product l /\
    ri_unit x = bi_unit l /\ ri_price x = bi_unit_price l /\ ri_qty x = mget want id.

Lemma take_lines_Ok byID want lr order acc w acc' w' :
  foldM (take_line byID want lr) order acc w = (Ok acc', w') ->
  w_db w' = w_db w /\ exists items, acc'.2 = acc.2 ++ items /\ Forall2 (copies want byID) order items.
Proof.
  revert acc w. induction order as [|id order IH]; intros [rem items0] w H; cbn [foldM] in H.
  { minv H. split; [done|]. exists []. split; [by rewrite app_nil_r|constructor]. }
  apply bind_Ok in H as (a & w1 & H1 & H). unfold take_line in H1.
  destruct (byID !! id) as [l|] eqn:El; [|done].
  apply bind_Ok in H1 as (f & w2 & H2 & H1). minv H2. apply baseFactor_Ok in H2 as (E2 & _ & _).
  apply bind_Ok in H1 as (q & w3 & H3 & H1). minv H3. mguard H1 as G.
  destruct (takeBase _ _ _) as [g r]. minv H1.
  apply IH in H as (E & items & Hi & Hl). split; [congruence|].
  exists (mkReturnItem (bi_product l) (bi_unit l) (bi_unit_name l) (Z.of_nat (length items0) + 1) (mget want id)
    (bi_unit_price l) (Some (bi_id l)) :: items).
  simpl in *. rewrite Hi, <- app_assoc. split; [done|]. constructor; [|done]. by exists l.
Qed.

Lemma items_amount_val items :
  val (items_amount items) == qsum ((fun x => cents_of (ri_qty x) (ri_price x)) <$> items).
Proof.
  unfold items_amount.
  assert (forall a, val (fold_left (fun a it => dadd a (line_amount (ri_qty it) (ri_price it))) items a) ==
    val a + qsum ((fun x => cents_of (ri_qty x) (ri_price x)) <$> items)) as K.
  { induction items as [|x items IH]; intros a; csimpl; [ring|]. rewrite IH, val_add, line_amount_val. ring. }
  rewrite K, val_zero. ring.
Qed.
(** ** The draft that was created *)
Section created.
Context (req : CreateReturnRequest) (out : CreateDraftOutput) (h : BillHead) (items : list BillItem) (d d1 : DB).
Context (WF : docs_wf d) (HC : return_created req out h items d d1).

Definition created_row : HeadRow := mkHeadRow (stored_head h) (cr_link req) false.

Lemma created_live : live_row (cr_tenant req) (co_bill out) d1 = Some created_row.
Proof.
  destruct HC as [_ Hh _ _ (_ & _ & Ht & _) _ _]. apply live_row_intro; [|done|done].
  rewrite Hh. apply lookup_insert_eq.
Qed.

Lemma created_keyed : keyed d1.
Proof.
  destruct HC as [_ Hh _ _ (Hid & _) _ _]. intros b r. rewrite Hh.
  destruct (decide (b = co_bill out)) as [->|Hne].
  - rewrite lookup_insert_eq. by intros [= <-].
  - rewrite lookup_insert_ne by done. apply (wf_keyed _ WF).
Qed.

Lemma created_other s r : live_row (cr_tenant req) s d = Some r ->
  s <> co_bill out /\ live_row (cr_tenant req) s d1 = Some r.
Proof.
  intros Hr. destruct HC as [Hf Hh _ _ _ _ _]. pose proof (live_row_Some _ _ _ _ Hr) as (Hb & _).
  assert (s <> co_bill out) as Hne by congruence. split; [done|].
  unfold live_row. rewrite Hh, lookup_insert_ne by done. exact Hr.
Qed.

Lemma created_lines : lines_of (cr_tenant req) (co_bill out) d1 = sql_order bi_line_no (stored_item <$> items).
Proof.
  destruct HC as [Hf Hh Hi _ _ _ Hl]. apply fresh_lines with d; try done.
  clear -Hl. induction Hl as [|x it l its ((? & ? & _) & _) _ IH]; by constructor.
Qed.

Lemma created_nonneg : Forall (fun it => 0 <= val (bi_qty it)) (lines_of (cr_tenant req) (co_bill out) d1).
Proof.
  rewrite created_lines. apply Forall_forall. intros it Hit.
  apply list_elem_of_In, (Permutation_in _ (sql_order_perm bi_line_no _)), list_elem_of_In in Hit.
  apply list_elem_of_fmap in Hit as (y & -> & Hy). destruct HC as [_ _ _ _ _ _ Hl].
  apply list_elem_of_lookup in Hy as [j Hj]. destruct (Forall2_lookup_r _ _ _ _ _ Hl Hj) as (x & _ & Hx & _ & Hq & _).
  simpl. destruct Hx as (_ & _ & _ & -> & _). apply val_round_nonneg. lra.
Qed.

Lemma created_factor p u : base_factor d1 p u = base_factor d p u.
Proof.
  destruct HC as [_ _ _ H _ _ _]. unfold base_factor, unit_factor.
  rewrite (f_equal db_product_unit H : db_product_unit d = db_product_unit d1).
  by rewrite (f_equal db_products H : db_products d = db_products d1).
Qed.
Lemma created_orders : db_orders_seen d1 = db_orders_seen d.
Proof. destruct HC as [_ _ _ H _ _ _]. symmetry. exact (f_equal db_orders_seen H). Qed.
Lemma created_movements : db_movements d1 = db_movements d.
Proof. destruct HC as [_ _ _ H _ _ _]. symmetry. exact (f_equal db_movements H). Qed.
Lemma created_payments : db_payments d1 = db_payments d.
Proof. destruct HC as [_ _ _ H _ _ _]. symmetry. exact (f_equal db_payments H). Qed.

(** A draft counts for nothing. *)
Lemma created_returned t s p : returned_base d1 t s p == returned_base d t s p.
Proof.
  rewrite !returned_rows. unfold rows_total.
  pose proof created_orders as Ho. pose proof (fun it => f_equal (Qmult (val (bi_qty it))) (created_factor (bi_product it) (bi_unit it))) as Hbase.
  destruct HC as [Hf Hh Hi _ (_ & _ & _ & Hst & _) _ Hl]. rewrite Hi, fmap_app, qsum_app.
  assert (forall it, counts t s d1 it = if N.eqb (bi_head it) (co_bill out) then false else counts t s d it) as Hc.
  { intros it. unfold counts. rewrite Hh. destruct (N.eqb_spec (bi_head it) (co_bill out)) as [->|Hne].
    - rewrite lookup_insert_eq. unfold gives_back, approved_return. simpl. rewrite Hst. simpl.
      by rewrite !andb_false_r.
    - rewrite lookup_insert_ne by done. destruct (db_heads d !! bi_head it); [|done].
      unfold gives_back, refunds. by rewrite Ho. }
  transitivity (qsum ((fun it => if counts t s d it then part (bi_product it) p (base_qty d it) else 0) <$>
    (ir_item <$> db_items d)) + 0).
  - apply Qplus_comp.
    + apply qsum_ext. intros it _. rewrite Hc. destruct (N.eqb_spec (bi_head it) (co_bill out)) as [E|_].
      * unfold counts. by rewrite E, Hf.
      * unfold base_qty. by rewrite Hbase.
    + transitivity (qsum ((fun _ => 0) <$> (stored_item <$> items))).
      * apply qsum_ext. intros it (y & -> & Hy)%list_elem_of_fmap. rewrite Hc.
        apply list_elem_of_lookup in Hy as [j Hj].
        destruct (Forall2_lookup_r _ _ _ _ _ Hl Hj) as (x & _ & (_ & Hx & _) & _).
        simpl. rewrite Hx, N.eqb_refl. done.
      * apply qsum_zero.
  - ring.
Qed.

Lemma created_sold t s p r : live_row t s d = Some r -> sold_base d1 t s p == sold_base d t s p.
Proof.
  intros Hr. unfold sold_base. rewrite !lines_rows. unfold rows_total.
  pose proof (fun it => f_equal (Qmult (val (bi_qty it))) (created_factor (bi_product it) (bi_unit it))) as Hbase.
  destruct HC as [Hf Hh Hi _ _ _ Hl]. rewrite Hi, fmap_app, qsum_app.
  apply live_row_Some in Hr as (Hb & _).
  transitivity (qsum ((fun it => if on_bill t s it then part (bi_product it) p (base_qty d it) else 0) <$>
    (ir_item <$> db_items d)) + 0); [|ring].
  apply Qplus_comp.
  - apply qsum_ext. intros it _. unfold base_qty. by rewrite Hbase.
  - transitivity (qsum ((fun _ => 0) <$> (stored_item <$> items))).
    + apply qsum_ext. intros it (y & -> & Hy)%list_elem_of_fmap.
      apply list_elem_of_lookup in Hy as [j Hj].
      destruct (Forall2_lookup_r _ _ _ _ _ Hl Hj) as (x & _ & (_ & Hx & _) & _).
      unfold on_bill. simpl. rewrite Hx. destruct (N.eqb_spec (co_bill out) s) as [E|]; [congruence|done].
    + apply qsum_zero.
Qed.
End created.

(** ** sale_return.go, Execute *)

(** What a shop-floor return did. *)
Record sale_returned (req : ReturnSaleRequest) (out : ReturnSaleOutput) (items : list ReturnItem) (d d' : DB) : Prop := {
  sr_sale : exists rs, live_row (rt_tenant req) (rt_sale req) d = Some rs /\ sale_row rs;
  (* one new approved return, pointing at the sale *)
  sr_fresh : db_heads d !! ro_bill out = None;
  sr_row : exists r', live_row (rt_tenant req) (ro_bill out) d' = Some r' /\
    bh_status (hr_head r') = StatusApproved /\ bh_type (hr_head r') = BillTypePurchase /\
    bh_sub_type (hr_head r') = BillSubTypeSaleReturn /\
    hr_link r' = Some (rt_sale req) /\ bh_bill_no (hr_head r') = ro_no out /\
    val (bh_total (hr_head r')) == val (ro_amount out);
  sr_others : forall b, b <> ro_bill out -> db_heads d' !! b = db_heads d !! b;
  sr_payments : db_payments d' = db_payments d;
  (* its lines are what was asked, at the prices of the sale *)
  sr_asked : exists order, NoDup order /\ (forall id, id ∈ order <-> id ∈ rs_item <$> rt_items req) /\
    Forall2 (fun id x => exists l, l ∈ lines_of (rt_tenant req) (rt_sale req) d /\ bi_id l = id /\
      ri_link x = Some id /\ ri_product x = bi_product l /\ ri_unit x = bi_unit l /\ ri_price x = bi_unit_price l /\
      val (ri_qty x) == wanted (rt_items req) id) order items;
  sr_amount_ : val (ro_amount out) == qsum ((fun x => cents_of (ri_qty x) (ri_price x)) <$> items);
  (* every line went back in full, and no product past what was sold *)
  sr_moves : exists k gs ms, db_movements d' = db_movements d ++ ms /\
    booked_returns d (rt_tenant req) k (ro_bill out) (lines_of (rt_tenant req) (ro_bill out) d') gs ms /\
    Forall2 (fun it g => g == base_qty d it) (lines_of (rt_tenant req) (ro_bill out) d') gs;
  sr_within : forall p, returned_base d' (rt_tenant req) (rt_sale req) p <=
    Qmax (sold_base d (rt_tenant req) (rt_sale req) p) (returned_base d (rt_tenant req) (rt_sale req) p);
}.

Lemma line_sum_on_cents (R : ReturnItem -> BillItem -> Prop) l items :
  (forall x it, R x it -> bi_line_amount it = line_amount (ri_qty x) (ri_price x)) ->
  Forall2 R l items -> on_scale 2 (line_sum items).
Proof.
  intros HR H. apply line_sum_scale. clear -HR H. induction H as [|x it l items Hx _ IH]; constructor; [|done].
  rewrite (HR _ _ Hx). unfold line_amount. auto with scale.
Qed.

(** A created return, approved strictly. *)
Lemma created_approved cr out h bis d w u w' s rs creator :
  docs_wf d -> return_created cr out h bis d (w_db w) -> cr_link cr = Some s ->
  live_row (cr_tenant cr) s d = Some rs -> is_sale_bill (hr_head rs) = true ->
  ApproveReturn_Execute (mkApproveReturnRequest (cr_tenant cr) (co_bill out) creator true) w = (Ok u, w') ->
  let d' := w_db w' in let t := cr_tenant cr in
  (exists r', live_row t (co_bill out) d' = Some r' /\ bh_status (hr_head r') = StatusApproved /\
     core (hr_head r') = core (stored_head h) /\ hr_link r' = Some s) /\
  (forall b, b <> co_bill out -> db_heads d' !! b = db_heads d !! b) /\
  db_payments d' = db_payments d /\
  lines_of t (co_bill out) d' = lines_of t (co_bill out) (w_db w) /\
  (exists k gs ms, db_movements d' = db_movements d ++ ms /\
     booked_returns d t k (co_bill out) (lines_of t (co_bill out) (w_db w)) gs ms /\
     Forall2 (fun it g => g == base_qty d it) (lines_of t (co_bill out) (w_db w)) gs) /\
  (forall p, returned_base d' t s p <= Qmax (sold_base d t s p) (returned_base d t s p)).
Proof.
  intros WF HC Hl Hrs Hsale H d' t. subst d' t.
  pose proof (created_other _ _ _ _ _ _ HC _ _ Hrs) as [Hne Hrs'].
  pose proof (created_live _ _ _ _ _ _ HC) as Hr. pose proof (created_keyed _ _ _ _ _ _ WF HC) as K.
  pose proof (created_nonneg _ _ _ _ _ _ WF HC) as Hn.
  pose proof (rc_head _ _ _ _ _ _ HC) as (_ & _ & _ & Hst & _ & Hsub & _).
  assert (s <> uuid_nil) as Hsn.
  { intros ->. apply live_row_Some in Hrs as (Hb & _). by rewrite (wf_nil _ WF) in Hb. }
  assert (bh_status (hr_head (created_row cr h)) = StatusDraft) as Hst' by exact Hst.
  pose proof H as HA. apply approve_return_cases in HA as (r0 & Hr0 & D); [|done|done]. simpl in Hr0.
  assert (r0 = created_row cr h) as -> by congruence.
  destruct D as [[Hx _]|[_ HB]]; [by rewrite Hst' in Hx|].
  pose proof (fun p => strict_cap (mkApproveReturnRequest (cr_tenant cr) (co_bill out) creator true) _ _ _ s rs p eq_refl HB
    Hr Hst' Hsub Hl Hsn Hne Hrs' Hsale) as Hcap.
  destruct HB as (k & r' & gs & ms & Hh & S & Hs & _ & _ & _ & Hd & Hpay & Hi & Hmv & Hbk & Hfull & _). simpl in *.
  pose proof (strip_docs_same_lines _ _ Hd Hi) as HL.
  split_and!.
  - exists r'. split_and!; [|done| |].
    + eapply live_row_intro; [by rewrite Hh; apply lookup_insert_eq| |].
      * apply same_row_fields in S as (_ & -> & _). by apply live_row_Some in Hr as (_ & -> & _).
      * by destruct S as (_ & _ & ->).
    + by destruct S as (-> & _).
    + destruct S as (_ & -> & _). exact Hl.
  - intros b Hb. by rewrite Hh, lookup_insert_ne, (rc_heads _ _ _ _ _ _ HC), lookup_insert_ne by done.
  - rewrite Hpay. by eapply created_payments.
  - by apply lines_same.
  - exists k, gs, ms. split_and!.
    + rewrite Hmv. f_equal. by eapply created_movements.
    + eapply booked_returns_units; [|exact Hbk]. intros p x. by eapply created_factor.
    + eapply Forall2_impl; [exact (Hfull (or_introl eq_refl))|]. intros it g Hg. unfold base_qty in *.
      by rewrite <- (created_factor _ _ _ _ _ _ HC).
  - intros p. destruct (Hcap p) as [_ Hle]. eapply Qle_trans; [exact Hle|].
    rewrite (sold_same _ _ _ _ _ HL), (created_sold _ _ _ _ _ _ HC _ _ _ _ Hrs), (created_returned _ _ _ _ _ _ HC).
    apply Qle_refl.
Qed.

Lemma return_sale_Ok req w out w' :
  docs_wf (w_db w) ->
  ReturnSale_Execute req w = (Ok out, w') ->
  exists items, sale_returned req out items (w_db w) (w_db w').
Proof.
  intros WF H. unfold ReturnSale_Execute in H. mguard H as G1.
  apply bind_Ok in H as (sale & w1 & H1 & H). apply GetBill_Ok in H1 as (E1 & rs & pn & kn & Hrs & ->).
  mguard H as G2. apply negb_false_iff in G2.
  apply bind_Ok in H as (u & w2 & H2 & H).
  assert (w_db w2 = w_db w) as E2.
  { rewrite <- E1. destruct (rt_warehouse req) as [k|]; [|by minv H2]. destruct (uuid_is_nil k); [by minv H2|].
    apply bind_Ok in H2 as (ok & w3 & H3 & H2). minv H3. apply guard_err_Ok in H2 as [_ <-].
    symmetry. by destruct (keeps_run _ _ _ _ _ (keeps_WarehouseExists eq _ _) H3). }
  apply bind_Ok in H as (lines & w3 & H3 & H). minv H3. apply GetBillItems_Ok in H3 as [-> E3].
  apply bind_Ok in H as ([want order] & w4 & H4 & H).
  apply want_lines_Ok in H4 as (-> & Hord & Hin & Hwant).
  apply bind_Ok in H as (rem & w5 & H5 & H). minv H5. apply remainingBase_Ok in H5 as [E5 _].
  apply bind_Ok in H as (lr & w6 & H6 & H). minv H6.
  pose proof (keeps_run _ _ _ _ _ (keeps_ReturnedQtyByLine eq _ _) H6) as [E6 _].
  apply bind_Ok in H as ([rem' items] & w7 & H7 & H).
  apply take_lines_Ok in H7 as (E7 & its & Hi & Hcopy). simpl in Hi, Hcopy. subst its.
  rewrite E2 in E3. assert (w_db w7 = w_db w) as E by congruence. rewrite E2 in Hcopy. cbn [fst snd] in H, Hin, Hwant, Hord.
  apply bind_Ok in H as (created & w8 & H8 & H).
  match type of H8 with CreateReturn_Execute ?c _ = _ => set (cr := c) in H8 end.
  apply CreateReturn_Ok in H8 as (h & bis & HC); [|by rewrite E]. rewrite E in HC.
  apply bind_Ok in H as (r & w9 & H9 & H). apply try_Ok in H9. destruct r as [e|u'].
  { apply bind_Ok in H as (? & ? & _ & H). done. }
  minv H. unfold returnable in G2. apply andb_true_iff in G2 as [G2 G3]. apply Z.eqb_eq in G3.
  apply (created_approved cr _ _ _ _ _ _ _ (rt_sale req) rs _ WF HC eq_refl Hrs G2) in H9
    as ((r' & Hr' & Hs' & Hcore & Hl') & Hoth & Hpay & Hlines & Hmv & Hcap).
  pose proof (rc_head _ _ _ _ _ _ HC) as (Hid & Hno & Hten & Hst & Hty & Hsub & _).
  pose proof (core_fields _ _ Hcore) as (_ & _ & Cno & Cty & Csub & _ & Ctot & _).
  assert (bh_total h = bh_total h) as _ by done.
  pose proof (rc_lines _ _ _ _ _ _ HC) as HL.
  assert (line_sum bis == qsum ((fun x => cents_of (ri_qty x) (ri_price x)) <$> items)) as Hsum.
  { eapply line_sum_cents; [|exact HL]. by intros ? ? [(_ & _ & _ & _ & _ & ->) _]. }
  exists items. constructor; simpl in *.
  - exists rs. split; [exact Hrs|]. by split.
  - exact (rc_fresh _ _ _ _ _ _ HC).
  - exists r'. rewrite <- Cno, <- Cty, <- Csub, <- Ctot. simpl. split_and!; try done.
    rewrite items_amount_val, <- Hsum, <- (rc_total _ _ _ _ _ _ HC). apply num4_cents.
    rewrite (rc_total _ _ _ _ _ _ HC). eapply line_sum_on_cents; [|exact HL]. by intros ? ? [(_ & _ & _ & _ & _ & ->) _].
  - exact Hoth.
  - exact Hpay.
  - exists order. split; [exact Hord|]. split.
    + exact Hin.
    + eapply Forall2_impl; [exact Hcopy|]. intros id x (l & Hlk & Hlink & Hp & Hu & Hx & Hq).
      apply by_id_Some in Hlk as [Hin' <-]. exists l. split_and!; try done.
      by rewrite Hq, Hwant.
  - apply items_amount_val.
  - rewrite Hlines. exact Hmv.
  - exact Hcap.
Qed.

(** a successful shop-floor return of lines of an approved sale leaves exactly one new
    approved return that points at the sale: its lines are the sale lines asked for, repeated
    ids added up, at the prices of the sale; every line went back into stock in full; the
    amount reported is the total of the new bill; no payment and no other bill changed; and
    for no product do all returns together exceed what the sale sold. *)
Theorem return_sale_effect req w out w' :
  docs_wf (w_db w) ->
  ReturnSale_Execute req w = (Ok out, w') ->
  exists items, sale_returned req out items (w_db w) (w_db w').
Proof. apply return_sale_Ok. Qed.

(** ** sale_return_refund.go, Execute *)

#[local] Instance refundable_proper : Proper (Qeq ==> Qeq ==> Qeq ==> Qeq) refundable.
Proof. intros a a' Ha b b' Hb c c' Hc. unfold refundable. by rewrite Ha, Hb, Hc. Qed.

Lemma refund_precheck_Ok req w u w' :
  refund_precheck req w = (Ok u, w') ->
  let t := rt_tenant (rf_return req) in let s := rt_sale (rf_return req) in
  w_db w' = w_db w /\ exists rs, live_row t s (w_db w) = Some rs /\ sale_row rs /\
    val (rf_amount req) <= refundable (val (bh_total (hr_head rs))) (val (bh_paid (hr_head rs)))
      (val (returned_amount t s (w_db w)) + val (request_value (lines_of t s (w_db w)) (rt_items (rf_return req)))).
Proof.
  intros H t s. unfold refund_precheck in H. fold t s in H.
  apply bind_Ok in H as (sale & w1 & H1 & H). apply GetBill_Ok in H1 as (E1 & rs & pn & kn & Hrs & ->).
  mguard H as G. apply negb_false_iff in G. unfold returnable in G. apply andb_true_iff in G as [G1 G2].
  apply bind_Ok in H as (lines & w2 & H2 & H). minv H2. apply GetBillItems_Ok in H2 as [-> E2].
  apply bind_Ok in H as (before & w3 & H3 & H). minv H3. unfold ReturnedAmount in H3. minv H3.
  apply guard_err_Ok in H as [G3 <-]. dec_tests. rewrite refundCap_val, E2, E1, val_add in G3. simpl in G3.
  split; [wsimpl; congruence|]. exists rs. split_and!; [done| |done]. split; [exact G1|]. by apply Z.eqb_eq in G2.
Qed.

Lemma refund_book_atomic req no pt : atomic (refund_book req no pt).
Proof. unfold refund_book. atomic_solve. Qed.

(** a return with a refund: the goods go back as in a plain return, and the refund, when one
    was asked for, either is booked against the sale within what the customer is owed back, or
    is reported as failed with no money booked at all.  A refund larger than what the
    return would leave owing to the customer is refused before any stock moves. *)
Theorem sale_refund_effect req w out w' :
  docs_wf (w_db w) ->
  SaleRefund_Execute req w = (Ok out, w') ->
  let t := rt_tenant (rf_return req) in let s := rt_sale (rf_return req) in
  0 <= val (rf_amount req) /\
  exists items d1, sale_returned (rf_return req) (so_return out) items (w_db w) d1 /\
    (0 < val (rf_amount req) -> exists rs, live_row t s (w_db w) = Some rs /\
       val (rf_amount req) <= refundable (val (bh_total (hr_head rs))) (val (bh_paid (hr_head rs)))
         (val (returned_amount t s (w_db w)) + val (request_value (lines_of t s (w_db w)) (rt_items (rf_return req))))) /\
    ((so_refunded out = dzero /\ w_db w' = d1 /\ (so_err out = None -> val (rf_amount req) == 0)) \/
     (so_refunded out = rf_amount req /\ so_err out = None /\ 0 < val (rf_amount req) /\
      exists rs pt, resolveRefundMethod (rf_method req) = inr pt /\ live_row t s d1 = Some rs /\
        refunded t s (rt_creator (rf_return req)) (rf_amount req) (ro_no (so_return out)) pt d1 (w_db w') rs)).
Proof.
  intros WF H t s. unfold SaleRefund_Execute in H. mguard H as G1. dec_tests. split; [done|].
  destruct (is_positive (rf_amount req)) eqn:Hp; simpl in H; dec_tests.
  2:{ apply bind_Ok in H as (o & w1 & H1 & H). minv H. apply return_sale_Ok in H1 as (items & HR); [|done].
      exists items, (w_db w'). split; [exact HR|]. split; [intros; lra|]. left. split_and!; [done|done|]. intros _. lra. }
  apply bind_Ok in H as (pt & w1 & H1 & H). minv H1.
  apply bind_Ok in H as (? & w2 & H2 & H). apply refund_precheck_Ok in H2 as (E2 & rs & Hrs & _ & Hcap).
  apply bind_Ok in H as (o & w3 & H3 & H). apply return_sale_Ok in H3 as (items & HR); [|by rewrite E2].
  apply bind_Ok in H as (r & w4 & H4 & H). apply try_Ok in H4. minv H. rewrite E2 in HR.
  exists items, (w_db w3). destruct r as [e|u]; simpl in *.
  - split_and!; [exact HR|intros _; by exists rs|]. left. split_and!; [done| |done].
    eapply refund_book_atomic; [exact H4|done].
  - split_and!; [exact HR|intros _; by exists rs|]. right. split_and!; [done|done|done|].
    apply refund_book_Ok in H4 as (r & Hr & HRf & _). by exists r, pt.
Qed.
End sale_return_laws.

(** ** On the small shop *)

Definition ex_tea_line : uuid :=
  match db_items (w_db ex_tea_sold) with i :: _ => bi_id (ir_item i) | [] => uuid_nil end.

(** One tea back, in two halves of the same line; two of the five owed are refunded. *)
Definition ex_return_sale : ReturnSaleRequest :=
  mkReturnSaleRequest ex_tenant ex_user ex_tea_bill [mkReturnSaleLine ex_tea_line (D 5 1); mkReturnSaleLine ex_tea_line (D 5 1)]
    None "".
Definition ex_refund : SaleRefundRequest := mkSaleRefundRequest ex_return_sale (D 2 0) PayTypeCash None.

Definition ex_refunded_world : World := (SaleRefund_Execute (calc := WACCalculator) ex_refund ex_tea_sold).2.
Definition ex_refund_return : uuid :=
  match (SaleRefund_Execute (calc := WACCalculator) ex_refund ex_tea_sold).1 with
  | Ok out => ro_bill (so_return out)
  | _ => uuid_nil
  end.
(** The rest of what is owed, later. *)
Definition ex_refund_rest : SaleRefundOnlyRequest :=
  mkSaleRefundOnlyRequest ex_tenant ex_user ex_tea_bill (D 3 0) PayTypeWechat ex_refund_return.

Lemma ex_tea_sold_wf : docs_wf (w_db ex_tea_sold).
Proof. split; decide_goal. Defined.

Lemma return_sale_effect_witness :
  exists out w', ReturnSale_Execute (calc := WACCalculator) ex_return_sale ex_tea_sold = (Ok out, w') /\
    exists items, sale_returned ex_return_sale out items (w_db ex_tea_sold) (w_db w').
Proof.
  run_ok (ReturnSale_Execute (calc := WACCalculator) ex_return_sale ex_tea_sold) as out w' H.
  exists out, w'. split; [exact H|].
  exact (return_sale_effect (calc := WACCalculator) ex_return_sale ex_tea_sold out w' ex_tea_sold_wf H).
Defined.

Lemma sale_refund_effect_witness :
  exists out w', SaleRefund_Execute (calc := WACCalculator) ex_refund ex_tea_sold = (Ok out, w') /\
    exists items d1, sale_returned ex_return_sale (so_return out) items (w_db ex_tea_sold) d1.
Proof.
  run_ok (SaleRefund_Execute (calc := WACCalculator) ex_refund ex_tea_sold) as out w' H.
  exists out, w'. split; [exact H|].
  destruct (sale_refund_effect (calc := WACCalculator) ex_refund ex_tea_sold out w' ex_tea_sold_wf H)
    as (_ & items & d1 & HR & _). by exists items, d1.
Defined.

Lemma record_refund_within_cap_witness :
  exists u w', RecordRefund ex_refund_rest ex_refunded_world = (Ok u, w') /\
    exists rs rr pt, refunded ex_tenant ex_tea_bill ex_user (D 3 0) (bh_bill_no (hr_head rr)) pt
      (w_db ex_refunded_world) (w_db w') rs.
Proof.
  run_ok (RecordRefund ex_refund_rest ex_refunded_world) as u w' H. exists u, w'. split; [exact H|].
  destruct (record_refund_within_cap ex_refund_rest ex_refunded_world u w' ltac:(decide_goal) H)
    as (rs & rr & pt & _ & _ & _ & _ & _ & _ & _ & _ & _ & HR).
  by exists rs, rr, pt.
Defined.
