(* ===== verification/BillLife.v ===== *)
(** The life of a bill, along any history of use-case calls.

    [life_step] is the abstract machine: a draft is approved or cancelled, a cancelled bill is
    restored once.  [call] is one request to any of the modelled use cases, [run_call] what it
    does to the world, successful or not.  Every history refines the machine, keeps the
    ledger well formed, freezes approved bills with their lines and only appends to the logs.

    The proof follows the code with two relations: [quiet] is what everything but the three
    writers of a bill's state does, [life] is what the whole history does. *)
From S2P Require Import Prelude GoStrings Rounding Decimal SDec Types StockDomain BillDomain GoTime Store StockRepo StockCalc StockFIFO StockRecord StockAdjust BillRepo BillRows BillDraft BillApprove BillEdit BillReturn ReturnCap SaleReturn Checkout Ledger Payment PurchaseReturn Concrete.
From stdpp Require Import base tactics strings gmap list.
From Stdlib Require Import ZArith QArith Lqa Lia.

(** ** The abstract machine *)

Definition bill_state : Type := BillStatus * Z.

Inductive life_step : bill_state -> bill_state -> Prop :=
  | life_approve rev : life_step (StatusDraft, rev) (StatusApproved, rev)
  | life_cancel rev : life_step (StatusDraft, rev) (StatusCancelled, rev)
  | life_restore rev : (rev < 1)%Z -> life_step (StatusCancelled, rev) (StatusDraft, (rev + 1)%Z).

Definition born : bill_state := (StatusDraft, 0%Z).

(** The states a bill can be in. *)
Definition living (s : bill_state) : Prop := rtc life_step born s.

Lemma living_cases s : living s ->
  s ∈ [(StatusDraft, 0%Z); (StatusApproved, 0%Z); (StatusCancelled, 0%Z);
       (StatusDraft, 1%Z); (StatusApproved, 1%Z); (StatusCancelled, 1%Z)].
Proof.
  apply (rtc_ind_r (fun s => s ∈ _)); [left|]. clear. intros y z _ Hs Hy. rewrite !elem_of_cons, elem_of_nil in *.
  inversion Hs; subst; repeat destruct Hy as [Hy|Hy]; try done; injection Hy; intros; subst; try lia; auto 10.
Qed.

Lemma approved_final rev s : rtc life_step (StatusApproved, rev) s -> s = (StatusApproved, rev).
Proof. intros H. apply rtc_inv in H as [<-|(y & Hy & _)]; [done|]. by inversion Hy. Qed.

Section life.
Context {ops : DecimalOps} {laws : DecimalLaws ops} {env : Env} {env_laws : EnvLaws env} {wiring : Wiring}
  {calc : InventoryCalculator} {CL : CalculatorLaws calc}.

Definition head_state (h : BillHead) : bill_state := (bh_status h, bh_revision h).

(** What a bill keeps for good. *)
Definition identity (h : BillHead) :=
  (bh_id h, bh_tenant h, bh_bill_no h, bh_type h, bh_sub_type h, bh_creator h, bh_currency h, bh_rate h,
   bh_client_ref h, bh_source h, bh_occurred_at h, bh_created_at h).

(** The head less the columns that change at any time: warehouse, paid amount, updated_at. *)
Definition frozen (h : BillHead) : BillHead := with_paid (with_warehouse h None 0%Z) dzero 0%Z.

Lemma frozen_state h h' : frozen h = frozen h' -> head_state h' = head_state h /\ identity h' = identity h /\
  bh_total h' = bh_total h.
Proof.
  intros H. split_and!.
  - exact (eq_sym (f_equal head_state H)).
  - exact (eq_sym (f_equal identity H)).
  - exact (eq_sym (f_equal bh_total H)).
Qed.

(** The lines of a bill, in table order. *)
Definition bill_lines (b : uuid) (d : DB) : list BillItem := select (fun it => N.eqb (bi_head it) b) (ir_item <$> db_items d).

Record row_later (r r' : HeadRow) : Prop := {
  rl_identity : identity (hr_head r') = identity (hr_head r);
  rl_deleted : hr_deleted r' = hr_deleted r;
  rl_path : rtc life_step (head_state (hr_head r)) (head_state (hr_head r'));
  rl_frozen : bh_status (hr_head r) = StatusApproved -> frozen (hr_head r') = frozen (hr_head r);
}.

#[export] Instance row_later_preorder : PreOrder row_later.
Proof.
  split.
  - intros r. by constructor.
  - intros r1 r2 r3 [I1 D1 P1 F1] [I2 D2 P2 F2]. constructor; [congruence|congruence|by etrans|].
    intros H. rewrite <- (F1 H). apply F2. pose proof (frozen_state _ _ (F1 H)) as [E _].
    unfold head_state in E. congruence.
Qed.

Record later (d d' : DB) : Prop := {
  lt_moves : exists l, db_movements d' = db_movements d ++ l;
  lt_payments : exists l, db_payments d' = db_payments d ++ l;
  lt_heads : forall b r, db_heads d !! b = Some r -> exists r', db_heads d' !! b = Some r' /\ row_later r r';
  lt_lines : forall b r, db_heads d !! b = Some r -> bh_status (hr_head r) = StatusApproved ->
    bill_lines b d' = bill_lines b d;
}.

#[export] Instance later_preorder : PreOrder later.
Proof.
  split.
  - intros d. constructor; [exists []; by rewrite app_nil_r..| |done]. intros b r H. by exists r.
  - intros d1 d2 d3 [[l1 M1] [p1 P1] H1 L1] [[l2 M2] [p2 P2] H2 L2]. constructor.
    + exists (l1 ++ l2). by rewrite M2, M1, app_assoc.
    + exists (p1 ++ p2). by rewrite P2, P1, app_assoc.
    + intros b r Hr. destruct (H1 b r Hr) as (r2 & Hr2 & S1). destruct (H2 b r2 Hr2) as (r3 & Hr3 & S2).
      exists r3. split; [done|by etrans].
    + intros b r Hr Ha. destruct (H1 b r Hr) as (r2 & Hr2 & S1). rewrite <- (L1 b r Hr Ha). apply (L2 b r2 Hr2).
      pose proof (frozen_state _ _ (eq_sym (rl_frozen _ _ S1 Ha))) as [E _]. unfold head_state in E. congruence.
Qed.

(** Primary and foreign keys, column scales, and every bill in a state of the machine. *)
Record ledger_wf (d : DB) : Prop := {
  lw_docs : docs_wf d;
  lw_numeric : numeric_wf d;
  lw_living : map_Forall (fun _ r => living (head_state (hr_head r))) (db_heads d);
}.

Definition life (d d' : DB) : Prop := ledger_wf d -> ledger_wf d' /\ later d d'.

#[export] Instance life_preorder : PreOrder life.
Proof.
  split.
  - intros d W. by split.
  - intros d1 d2 d3 H1 H2 W. destruct (H1 W) as [W2 L1]. destruct (H2 W2) as [W3 L2]. split; [done|by etrans].
Qed.

(** Everything but the writers of a bill's state. *)
Definition same_head (r r' : HeadRow) : Prop :=
  frozen (hr_head r') = frozen (hr_head r) /\ hr_deleted r' = hr_deleted r /\
  (on_scale 4 (val (bh_paid (hr_head r))) -> on_scale 4 (val (bh_paid (hr_head r')))).

#[export] Instance same_head_preorder : PreOrder same_head.
Proof. split; [by intros r|]. intros r1 r2 r3 (? & ? & ?) (? & ? & ?). split_and!; [congruence|congruence|auto]. Qed.

Record quiet (d d' : DB) : Prop := {
  qt_moves : exists l, db_movements d' = db_movements d ++ l;
  qt_payments : exists l, db_payments d' = db_payments d ++ l;
  qt_heads : forall b, option_relation same_head (fun _ => False) (fun _ => False) (db_heads d !! b) (db_heads d' !! b);
  qt_items : ir_item <$> db_items d' = ir_item <$> db_items d;
}.

#[export] Instance quiet_preorder : PreOrder quiet.
Proof.
  split.
  - intros d. constructor; [exists []; by rewrite app_nil_r..| |done]. intros b. by destruct (db_heads d !! b); simpl.
  - intros d1 d2 d3 [[l1 M1] [p1 P1] H1 I1] [[l2 M2] [p2 P2] H2 I2]. constructor.
    + exists (l1 ++ l2). by rewrite M2, M1, app_assoc.
    + exists (p1 ++ p2). by rewrite P2, P1, app_assoc.
    + intros b. specialize (H1 b). specialize (H2 b).
      destruct (db_heads d1 !! b), (db_heads d2 !! b), (db_heads d3 !! b); simpl in *; try done. by etrans.
    + congruence.
Qed.

Lemma quiet_head d d' b r : quiet d d' -> db_heads d !! b = Some r -> exists r', db_heads d' !! b = Some r' /\ same_head r r'.
Proof. intros Q Hr. pose proof (qt_heads _ _ Q b) as H. rewrite Hr in H. destruct (db_heads d' !! b); simpl in H; [by eauto|done]. Qed.
Lemma quiet_head_back d d' b r' : quiet d d' -> db_heads d' !! b = Some r' -> exists r, db_heads d !! b = Some r /\ same_head r r'.
Proof. intros Q Hr. pose proof (qt_heads _ _ Q b) as H. rewrite Hr in H. destruct (db_heads d !! b); simpl in H; [by eauto|done]. Qed.

Lemma items_scale d d' : ir_item <$> db_items d' = ir_item <$> db_items d ->
  Forall (fun i => on_scale 4 (val (bi_qty (ir_item i)))) (db_items d) ->
  Forall (fun i => on_scale 4 (val (bi_qty (ir_item i)))) (db_items d').
Proof.
  intros E H. apply (Forall_fmap ir_item (fun it => on_scale 4 (val (bi_qty it)))). rewrite E. by apply Forall_fmap.
Qed.

Lemma quiet_life d d' : quiet d d' -> life d d'.
Proof.
  intros Q [[K WI WN] [NI NH] WL]. pose proof Q as [M P H I]. split.
  - split; [split|split|].
    + intros b r' Hr'. destruct (quiet_head_back _ _ _ _ Q Hr') as (r & Hr & F & _).
      rewrite <- (K _ _ Hr). exact (f_equal bh_id F).
    + apply (Forall_fmap ir_item (fun it => is_Some (db_heads d' !! bi_head it))). rewrite I. apply Forall_fmap.
      eapply Forall_impl; [exact WI|]. intros i [r Hr]. destruct (quiet_head _ _ _ _ Q Hr) as (r' & Hr' & _). by exists r'.
    + specialize (H uuid_nil). rewrite WN in H. by destruct (db_heads d' !! uuid_nil).
    + by eapply items_scale.
    + intros b r' Hr'. destruct (quiet_head_back _ _ _ _ Q Hr') as (r & Hr & F & _ & S).
      destruct (NH _ _ Hr) as [NT NP]. pose proof (f_equal bh_total F) as Et. simpl in Et. rewrite Et. auto.
    + intros b r' Hr'. destruct (quiet_head_back _ _ _ _ Q Hr') as (r & Hr & F & _).
      destruct (frozen_state _ _ (eq_sym F)) as [-> _]. by eapply WL.
  - constructor; try done.
    + intros b r Hr. destruct (quiet_head _ _ _ _ Q Hr) as (r' & Hr' & F & D & _). exists r'. split; [done|].
      destruct (frozen_state _ _ (eq_sym F)) as (E & J & _). constructor; try done. by rewrite E.
    + intros b r _ _. unfold bill_lines. by rewrite I.
Qed.

(** ** What is quiet *)

Lemma quiet_rows d d' : db_heads d' = db_heads d -> ir_item <$> db_items d' = ir_item <$> db_items d ->
  (exists l, db_movements d' = db_movements d ++ l) -> (exists l, db_payments d' = db_payments d ++ l) -> quiet d d'.
Proof. intros H I M P. constructor; try done. intros b. rewrite H. by destruct (db_heads d !! b); simpl. Qed.

Lemma nothing_appended {A} (l : list A) : exists k, l = l ++ k.
Proof. exists []. by rewrite app_nil_r. Qed.

Lemma tx_quiet d d' : tx_frame d d' -> quiet d d'.
Proof.
  intros F. apply quiet_rows; [by apply tx_heads|by rewrite (tx_items _ _ F)|apply F|].
  rewrite (tx_payments _ _ F). apply nothing_appended.
Qed.
Lemma line_quiet d d' : line_frame d d' -> quiet d d'.
Proof.
  intros F. apply quiet_rows; [by apply line_heads|by apply line_items|apply F|].
  rewrite (line_payments _ _ F). apply nothing_appended.
Qed.
Lemma audit_quiet d d' : audit_frame d d' -> quiet d d'.
Proof. intros [n ->]. apply quiet_rows; try done; apply nothing_appended. Qed.
Lemma relinked_quiet d d' : relinked d d' -> quiet d d'.
Proof. intros (l & -> & H). apply quiet_rows; try done; apply nothing_appended. Qed.

Lemma put_quiet b r r' d : db_heads d !! b = Some r -> same_head r r' -> quiet d (put_head b r' d).
Proof.
  intros Hr S. constructor; simpl; try done; try apply nothing_appended. intros c.
  destruct (decide (b = c)) as [<-|Hne]; [rewrite lookup_insert_eq, Hr; exact S|].
  rewrite lookup_insert_ne by done. by destruct (db_heads d !! c); simpl.
Qed.

Lemma keeps_to_quiet {A} (P : DB -> DB -> Prop) (m : M A) :
  (forall d d', P d d' -> quiet d d') -> keeps (db_rel P) m -> keeps (db_rel quiet) m.
Proof. apply keeps_weaken. Qed.

Lemma quiet_ExecuteInTx r : keeps (db_rel quiet) (ExecuteInTx r).
Proof. eapply keeps_to_quiet; [apply tx_quiet|apply keeps_ExecuteInTx]. Qed.
Lemma quiet_Execute r : keeps (db_rel quiet) (Execute r).
Proof. eapply keeps_to_quiet; [apply tx_quiet|apply keeps_Execute]. Qed.
Lemma quiet_UpdateItemPurchasePrice t i p : keeps (db_rel quiet) (UpdateItemPurchasePrice t i p).
Proof. eapply keeps_to_quiet; [apply line_quiet|apply keeps_UpdateItemPurchasePrice]. Qed.
Lemma quiet_RecordNegativeStock t b u p q : keeps (db_rel quiet) (RecordNegativeStock t b u p q).
Proof. eapply keeps_to_quiet; [apply audit_quiet|apply keeps_RecordNegativeStock]. Qed.
Lemma quiet_SetLinkItems t s l : keeps (db_rel quiet) (SetLinkItems t s l).
Proof. eapply keeps_to_quiet; [apply relinked_quiet|apply keeps_SetLinkItems]. Qed.

Lemma quiet_NextBillNo t p : keeps (db_rel quiet) (NextBillNo t p).
Proof.
  unfold NextBillNo. keeps_solve. intros d n d' H. injection H as _ <-.
  apply quiet_rows; try done; apply nothing_appended.
Qed.

Lemma update_row_quiet t b f d :
  (forall h, frozen (f h) = frozen h) -> (forall h, on_scale 4 (val (bh_paid h)) -> on_scale 4 (val (bh_paid (f h)))) ->
  quiet d (update_row t b f d).2.
Proof.
  intros Hf Hs. unfold update_row. destruct (live_row t b d) as [r|] eqn:E; cbn [snd]; [|reflexivity].
  apply live_row_Some in E as (E & _). eapply put_quiet; [exact E|]. split_and!; [apply Hf|done|apply Hs].
Qed.

Lemma quiet_SetBillWarehouse t b k : keeps (db_rel quiet) (SetBillWarehouse t b k).
Proof.
  unfold SetBillWarehouse. keeps_solve. intros d n d' H.
  pose proof (update_row_quiet t b (fun h => with_warehouse h (Some k) a) d) as Q.
  injection H as H. rewrite H in Q. by apply Q.
Qed.

Lemma quiet_UpdatePaidAmount t b p : keeps (db_rel quiet) (UpdatePaidAmount t b p).
Proof.
  unfold UpdatePaidAmount. keeps_solve. intros d d' H.
  unfold update_row_checked in H. destruct (live_row t b d) as [r|] eqn:E; [|by injection H as <-].
  destruct (head_checks _); [done|]. injection H as <-. apply live_row_Some in E as (E & _).
  eapply put_quiet; [exact E|]. split_and!; simpl; try done. intros _. unfold num4. rewrite val_round. apply qround_on_scale.
Qed.

Lemma quiet_Record p : keeps (db_rel quiet) (Record_ p).
Proof.
  unfold Record_. keeps_solve. intros d d' H.
  destruct (existsb _ _); [done|]. injection H as <-.
  apply quiet_rows; try done; [apply nothing_appended|by eexists].
Qed.

Lemma quiet_SetLinkBill t b s : keeps (db_rel quiet) (SetLinkBill t b s).
Proof.
  unfold SetLinkBill. apply keeps_bind; [tc_solve| |keeps_solve]. apply keeps_statement; [tc_solve|]. intros d n d' H.
  destruct (db_heads d !! b) as [r|] eqn:E; [|by injection H as _ <-].
  destruct (db_heads d !! s); [|by injection H as _ <-]. destruct (_ && _); [|by injection H as _ <-].
  injection H as _ <-. eapply put_quiet; [exact E|]. by split_and!.
Qed.
#[local] Hint Resolve quiet_ExecuteInTx quiet_Execute quiet_UpdateItemPurchasePrice quiet_RecordNegativeStock
  quiet_SetLinkItems quiet_NextBillNo quiet_SetBillWarehouse quiet_UpdatePaidAmount quiet_Record quiet_SetLinkBill : keeps.

(** ** The parts that write nothing else *)

Lemma quiet_resolveApprovalWarehouse h t b : keeps (db_rel quiet) (resolveApprovalWarehouse h t b).
Proof. unfold resolveApprovalWarehouse. keeps_solve. Qed.
Lemma quiet_recordInitialPayment h t b c a p n r : keeps (db_rel quiet) (recordInitialPayment h t b c a p n r).
Proof. unfold recordInitialPayment, check. keeps_solve. Qed.
Lemma quiet_line_factor l it : keeps (db_rel quiet) (line_factor l it).
Proof. apply keeps_line_factor. tc_solve. Qed.
#[local] Hint Resolve quiet_resolveApprovalWarehouse quiet_recordInitialPayment quiet_line_factor : keeps.
Lemma quiet_approve_purchase_line r k x it : keeps (db_rel quiet) (approve_purchase_line r k x it).
Proof. unfold approve_purchase_line. keeps_solve. Qed.
Lemma quiet_approve_sale_line r k acc it : keeps (db_rel quiet) (approve_sale_line r k acc it).
Proof. unfold approve_sale_line. keeps_solve. Qed.
#[local] Hint Resolve quiet_approve_purchase_line quiet_approve_sale_line : keeps.

(** ** Runs from a state where a bill is known *)

Definition on_db (P : DB -> DB -> Prop) (w w' : World) : Prop := P (w_db w) (w_db w').
#[export] Instance on_db_preorder P `{!PreOrder P} : PreOrder (on_db P).
Proof. split; [by intros w; red|]. intros w1 w2 w3 H1 H2. red. etrans; [exact H1|exact H2]. Qed.

Abbreviation lasting := (keeps (on_db life)).

(** The bill is live under its own id, in state [s]. *)
Definition bill_in (t b : uuid) (s : bill_state) (w : World) : Prop :=
  exists r, live_row t b (w_db w) = Some r /\ head_state (hr_head r) = s.

Definition keeps_if {A} (I : World -> Prop) (m : M A) : Prop :=
  forall w, ledger_wf (w_db w) -> I w -> ledger_wf (w_db (m w).2) /\ later (w_db w) (w_db (m w).2).

Lemma keeps_if_of {A} I (m : M A) : lasting m -> keeps_if I m.
Proof. intros H w W _. exact (H w W). Qed.

Lemma keeps_life {A} (m : M A) : keeps (db_rel quiet) m -> lasting m.
Proof. intros H w. apply quiet_life, H. Qed.

(** Nothing happened. *)
Ltac idle := unfold on_db; simpl; reflexivity.

Lemma lasting_WithTx {A} repo (body : M A) : lasting body -> lasting (WithTx repo body).
Proof.
  intros Hb w. specialize (Hb (bump w)). unfold WithTx, on_db in *. destruct (db_fault (w_tick w)); [reflexivity|].
  destruct (body (bump w)) as [[a|e|r] w1]; simpl in *; [destruct (db_fault (w_tick w1))..|]; simpl; try done; reflexivity.
Qed.

Lemma bill_in_quiet t b s w w' : bill_in t b s w -> quiet (w_db w) (w_db w') -> bill_in t b s w'.
Proof.
  intros (r & Hr & <-) Q. apply live_row_Some in Hr as (Hr & Ht & Hd).
  destruct (quiet_head _ _ _ _ Q Hr) as (r' & Hr' & F & D & _). exists r'.
  pose proof (f_equal bh_tenant F) as Et. simpl in Et.
  split; [apply live_row_intro; congruence|]. by destruct (frozen_state _ _ (eq_sym F)).
Qed.

(** A result with a property, from a quiet step, keeps what is known. *)
Lemma keeps_if_post {A B} (Q : A -> Prop) t b s (m : M A) (k : A -> M B) :
  keeps (db_rel quiet) m -> (forall w a w', m w = (Ok a, w') -> Q a) ->
  (forall a, Q a -> keeps_if (bill_in t b s) (k a)) -> keeps_if (bill_in t b s) (m ≫= k).
Proof.
  intros Hm HQ Hk w W HI. unfold mbind, stm_bind. pose proof (Hm w) as [Q' _]. destruct (quiet_life _ _ Q' W) as [W1 L1].
  destruct (m w) as [[a|e|x] w1] eqn:E; simpl in *; [|done..].
  destruct (Hk a (HQ _ _ _ E) w1 W1) as [W2 L2]; [by eapply bill_in_quiet|]. split; [done|by etrans].
Qed.

Lemma keeps_if_bind {A B} t b s (m : M A) (k : A -> M B) :
  keeps (db_rel quiet) m -> (forall a, keeps_if (bill_in t b s) (k a)) -> keeps_if (bill_in t b s) (m ≫= k).
Proof. intros Hm Hk. by apply (keeps_if_post (fun _ => True)). Qed.

(** After the write nothing more needs to be known. *)
Lemma keeps_if_then {A B} I (m : M A) (k : A -> M B) :
  keeps_if I m -> (forall a, lasting (k a)) -> keeps_if I (m ≫= k).
Proof.
  intros Hm Hk w W HI. unfold mbind, stm_bind. destruct (Hm w W HI) as [W1 L1].
  destruct (m w) as [[a|e|x] w1]; simpl in *; [|done..]. destruct (Hk a w1 W1) as [W2 L2]. split; [done|by etrans].
Qed.

Lemma keeps_if_guard {B} I (c : bool) e (k : unit -> M B) :
  (c = false -> keeps_if I (k tt)) -> keeps_if I (guard_err c e ≫= k).
Proof. intros H w W HI. destruct c; [by split|]. by apply H. Qed.

Lemma keeps_if_on_err {A} I f (m : M A) : keeps_if I m -> keeps_if I (on_err f m).
Proof. intros H w W HI. specialize (H w W HI). unfold on_err. by destruct (m w) as [[]]. Qed.

Lemma keeps_if_try {A} I (m : M A) : keeps_if I m -> keeps_if I (try m).
Proof. intros H w W HI. specialize (H w W HI). unfold try. by destruct (m w) as [[]]. Qed.

Lemma keeps_if_WithTx {A} t b s repo (body : M A) :
  keeps_if (bill_in t b s) body -> keeps_if (bill_in t b s) (WithTx repo body).
Proof.
  intros Hb w W HI. specialize (Hb (bump w) W HI). unfold WithTx. destruct (db_fault (w_tick w)); [by split|].
  destruct (body (bump w)) as [[a|e|r] w1]; simpl in *; [destruct (db_fault (w_tick w1))..|]; simpl; done.
Qed.

(** ** The writers of a bill's state *)

Lemma put_life b r r' d :
  db_heads d !! b = Some r -> row_later r r' ->
  (on_scale 4 (val (bh_total (hr_head r))) -> on_scale 4 (val (bh_total (hr_head r')))) ->
  (on_scale 4 (val (bh_paid (hr_head r))) -> on_scale 4 (val (bh_paid (hr_head r')))) ->
  life d (put_head b r' d).
Proof.
  intros Hr L Hs1 Hs2 [[K WI WN] [NI NH] WL]. destruct (NH _ _ Hr) as [N1 N2]. split.
  - split; [split|split|]; simpl.
    + apply map_Forall_insert_2; [|done]. rewrite <- (K _ _ Hr).
      exact (f_equal (fun x => x.1.1.1.1.1.1.1.1.1.1.1) (rl_identity _ _ L)).
    + eapply Forall_impl; [exact WI|]. intros i Hi. apply lookup_insert_is_Some.
      destruct (decide (b = bi_head (ir_item i))); [by left|by right].
    + rewrite lookup_insert_ne; [done|]. intros ->. congruence.
    + done.
    + apply map_Forall_insert_2; [|done]. auto.
    + apply map_Forall_insert_2; [|done]. unfold living. etrans; [eapply WL, Hr|]. apply L.
  - constructor; try apply nothing_appended; [|done]. simpl. intros c rc Hc.
    destruct (decide (b = c)) as [<-|Hne]; [|rewrite lookup_insert_ne by done; exists rc; split; [done|reflexivity]].
    rewrite lookup_insert_eq. exists r'. split; [done|]. congruence.
Qed.

Lemma status_set_keeps s meta now h :
  let h' := status_set s meta now h in
  identity h' = identity h /\ bh_total h' = bh_total h /\ bh_paid h' = bh_paid h /\
  head_state h' = (s, default (bh_revision h) (sm_revision meta)).
Proof. by destruct meta as [[[? ?]|] [?|]]. Qed.

Lemma UpdateBillStatus_life t b s s' meta :
  life_step s (s', default s.2 (sm_revision meta)) -> keeps_if (bill_in t b s) (UpdateBillStatus t b s' meta).
Proof.
  intros Hst w W (r & Hr & <-). unfold UpdateBillStatus, mbind, stm_bind. simpl.
  unfold update, statement. simpl. destruct (db_fault _); [by split|].
  rewrite (update_row_live _ _ _ _ _ Hr). simpl. revert W.
  pose proof (live_row_Some _ _ _ _ Hr) as (Hr0 & _).
  destruct (status_set_keeps s' meta (clock_at (w_tick w)) (hr_head r)) as (Hi & Ht & Hp & Hs).
  eapply put_life; [exact Hr0| |simpl; by rewrite Ht|simpl; by rewrite Hp].
  constructor; [done|done| |].
  - simpl. rewrite Hs. by apply rtc_once.
  - intros Ha. unfold head_state in Hst. rewrite Ha in Hst. by inversion Hst.
Qed.

(** Lines of a bill that is not approved may come and go. *)
Lemma set_items_life b r d l :
  db_heads d !! b = Some r -> bh_status (hr_head r) <> StatusApproved ->
  (forall c, c <> b -> bill_lines c (set_items d l) = bill_lines c d) ->
  (forall i, i ∈ l -> i ∈ db_items d \/ (bi_head (ir_item i) = b /\ on_scale 4 (val (bi_qty (ir_item i))))) ->
  life d (set_items d l).
Proof.
  intros Hr Hs Hl Hi [[K WI WN] [NI NH] WL]. rewrite Forall_forall in WI. rewrite Forall_forall in NI. split.
  - split; [split|split|]; simpl; try done; apply Forall_forall; intros i [?|[Hb ?]]%Hi; auto. simpl. rewrite Hb. by exists r.
  - constructor; try apply nothing_appended.
    + simpl. intros c rc Hc. exists rc. split; [done|reflexivity].
    + intros c rc Hc Ha. apply Hl. intros ->. congruence.
Qed.

Lemma insertItems_life b items :
  Forall (fun it => bi_head it = b) items ->
  forall w, (exists r, db_heads (w_db w) !! b = Some r /\ bh_status (hr_head r) <> StatusApproved) ->
  on_db life w (insertItems items w).2.
Proof.
  unfold insertItems. induction 1 as [|it items Hit _ IH]; intros w (r & Hr & Hs); cbn [mapM_]; [idle|].
  unfold mbind at 1, stm_bind at 1, update_checked, statement. destruct (db_fault _); [idle|].
  destruct (existsb _ _); [idle|]. cbn [fst snd].
  etrans; [|apply IH; by exists r]. eapply set_items_life; [exact Hr|done| |].
  - intros c Hc. unfold bill_lines. simpl. rewrite fmap_app, select_app. csimpl. unfold select at 2. simpl.
    destruct (N.eqb_spec (bi_head it) c); [congruence|]. by rewrite app_nil_r.
  - intros i [?|Hi]%elem_of_app; [by left|right]. apply list_elem_of_singleton in Hi as ->. simpl.
    split; [done|]. unfold num4. rewrite val_round. apply qround_on_scale.
Qed.

Lemma new_head_life h d :
  db_heads d !! bh_id h = None -> bh_id h <> uuid_nil -> bh_status h = StatusDraft ->
  life d (put_head (bh_id h) (mkHeadRow (stored_head h) None false) d).
Proof.
  intros Hn Hid Hs [[K WI WN] [NI NH] WL]. split.
  - split; [split|split|]; simpl; try (apply map_Forall_insert_2; [|done]).
    + done.
    + eapply Forall_impl; [exact WI|]. intros i Hi. apply lookup_insert_is_Some. right. split; [|done].
      intros E. destruct Hi as [y Hy]. congruence.
    + by rewrite lookup_insert_ne.
    + done.
    + simpl. unfold num4. rewrite val_round, val_zero. split; [apply qround_on_scale|apply on_scale_0].
    + unfold living, head_state. simpl. by rewrite Hs.
  - constructor; try apply nothing_appended; [|done]. simpl. intros c rc Hc.
    exists rc. split; [|reflexivity]. rewrite lookup_insert_ne; [done|]. congruence.
Qed.

(** A new draft, and what follows knowing it is there. *)
Lemma CreateBill_life {A} f h items (k : unit -> M A) :
  bh_id h <> uuid_nil -> bh_status h = StatusDraft -> Forall (fun it => bi_head it = bh_id h) items ->
  keeps_if (bill_in (bh_tenant h) (bh_id h) born) (k tt) ->
  lasting (on_err f (CreateBill h items) ≫= k).
Proof.
  intros Hid Hs Hi Hk w. unfold mbind at 1, stm_bind at 1, on_err, CreateBill.
  unfold mbind at 1, stm_bind at 1, update_checked at 1, statement. destruct (db_fault _); [idle|].
  destruct (head_checks _); [idle|].
  destruct (head_keys h (w_db w)) eqn:Hkeys; [idle|].
  assert (db_heads (w_db w) !! bh_id h = None) as Hn by (unfold head_keys in Hkeys; by destruct (db_heads (w_db w) !! bh_id h)).
  cbn [fst snd]. set (w1 := bump _).
  assert (db_heads (w_db w1) !! bh_id h = Some (mkHeadRow (stored_head h) None false)) as H1 by apply lookup_insert_eq.
  transitivity w1; [by apply new_head_life|].
  pose proof (insertItems_life (bh_id h) items Hi w1) as HL.
  destruct (insertItems items w1) as [[[]|e|x] w2] eqn:E; simpl in *;
    (assert (on_db life w1 w2) as HL2 by (apply HL; eexists; split; [exact H1|simpl; by rewrite Hs])); [|exact HL2..].
  etrans; [exact HL2|]. intros W2. apply (Hk w2 W2). apply insertItems_Ok in E as (E & _).
  exists (mkHeadRow (stored_head h) None false). split.
  - apply live_row_intro; [by rewrite E|done|done].
  - unfold head_state. simpl. by rewrite Hs.
Qed.

Lemma CreateBill_keeps f h items :
  bh_id h <> uuid_nil -> bh_status h = StatusDraft -> Forall (fun it => bi_head it = bh_id h) items ->
  lasting (on_err f (CreateBill h items)).
Proof.
  intros Hid Hs Hi w. pose proof (CreateBill_life f h items mret Hid Hs Hi) as H.
  specialize (H (keeps_if_of _ _ (keeps_ret _ _)) w). unfold mbind, stm_bind in H.
  by destruct (on_err f (CreateBill h items) w) as [[[]|e|x] w1].
Qed.

(** Deleting the lines of one bill leaves those of another. *)
Lemma bill_lines_drop (b c : uuid) (q : BillItem -> bool) (l : list ItemRow) : c <> b ->
  select (fun it => N.eqb (bi_head it) c) (ir_item <$> select (fun i => negb (N.eqb (bi_head (ir_item i)) b && q (ir_item i))) l)
  = select (fun it => N.eqb (bi_head it) c) (ir_item <$> l).
Proof.
  intros Hc. induction l as [|i l IH]; [done|]. unfold select in *. simpl.
  destruct (N.eqb_spec (bi_head (ir_item i)) b) as [E|]; simpl.
  - rewrite E. destruct (N.eqb_spec b c); [congruence|]. destruct (q (ir_item i)); simpl; [exact IH|].
    rewrite E. destruct (N.eqb_spec b c); [congruence|]. exact IH.
  - destruct (N.eqb (bi_head (ir_item i)) c); [f_equal|]; exact IH.
Qed.

(** A draft rewritten. *)
Lemma UpdateBill_life f t b rev h items :
  bh_id h = b -> bh_tenant h = t -> Forall (fun it => bi_head it = b) items ->
  keeps_if (bill_in t b (StatusDraft, rev)) (on_err f (UpdateBill h items)).
Proof.
  intros <- <- Hi. apply keeps_if_on_err. intros w W (r & Hr & Hs). revert W. change (on_db life w (UpdateBill h items w).2).
  unfold UpdateBill.
  unfold mbind at 1, stm_bind at 1, update_checked at 1, statement at 1. destruct (db_fault _); [idle|].
  unfold update_row_checked. rewrite Hr. destruct (head_checks _); [idle|].
  cbn [fst snd]. set (r' := mkHeadRow _ _ _). set (w1 := bump _).
  pose proof (live_row_Some _ _ _ _ Hr) as (Hr0 & Ht & Hd).
  assert (head_state (hr_head r') = (StatusDraft, rev)) as Hs' by exact Hs.
  assert (bh_status (hr_head r') <> StatusApproved) as Hna by (intros Ha; unfold head_state in Hs'; rewrite Ha in Hs'; discriminate).
  transitivity w1.
  { eapply put_life; [exact Hr0| | |done].
    - by constructor.
    - intros _. simpl. unfold num4. rewrite val_round. apply qround_on_scale. }
  assert (db_heads (w_db w1) !! bh_id h = Some r') as H1 by apply lookup_insert_eq.
  unfold mbind at 1, stm_bind at 1, update, statement at 1. destruct (db_fault _); [idle|].
  cbn [fst snd]. set (w2 := bump (with_db w1 _)).
  transitivity w2; [|apply (insertItems_life (bh_id h)); [done|by exists r']].
  eapply set_items_life; [exact H1|done| |].
  - intros c Hc. unfold bill_lines. simpl. by apply (bill_lines_drop (bh_id h) c (fun it => N.eqb (bi_tenant it) (bh_tenant h))).
  - intros i [_ ?]%elem_of_select. by left.
Qed.

(** ** Reading a bill, then acting on it *)

(** What follows a quiet read may use what the read established. *)
Lemma keeps_then {A B} (Q : A -> Prop) (J : A -> World -> Prop) (m : M A) (k : A -> M B) :
  keeps (db_rel quiet) m -> (forall w a w', ledger_wf (w_db w) -> m w = (Ok a, w') -> Q a /\ J a w') ->
  (forall a, Q a -> keeps_if (J a) (k a)) -> lasting (m ≫= k).
Proof.
  intros Hm HJ Hk w. unfold mbind, stm_bind. pose proof (keeps_life _ Hm w) as HL.
  destruct (m w) as [[a|e|x] w1] eqn:E; simpl in *; [|exact HL..]. intros W. destruct (HL W) as [W1 L1]. simpl in *.
  destruct (HJ _ _ _ W E) as [HQ HI]. destruct (Hk a HQ w1 W1 HI) as [W2 L2]. split; [done|by etrans].
Qed.

Lemma locked_life {B} f t b (k : BillHead -> M B) :
  (forall h, bh_id h = b /\ bh_tenant h = t -> keeps_if (bill_in t b (head_state h)) (k h)) ->
  lasting (on_err f (GetBillForUpdate t b) ≫= k).
Proof.
  intros Hk. apply (keeps_then (fun h => bh_id h = b /\ bh_tenant h = t) (fun h => bill_in t b (head_state h)));
    [apply keeps_on_err; apply keeps_scan_head; tc_solve| |exact Hk].
  intros w h w' W H. apply on_err_Ok in H. apply scan_head_Ok in H as (-> & r & Hr & ->). split; [|by exists r].
  split; [eapply live_row_id; [apply W|exact Hr]|]. by apply live_row_Some in Hr as (_ & ? & _).
Qed.

(** ** The use cases *)

Ltac quietly := apply keeps_life; keeps_solve.

(** Walk a run from a known bill up to the write of its state. *)
Ltac life_step :=
  lazymatch goal with
  | |- keeps_if _ (guard_err _ _ ≫= _) => apply keeps_if_guard; intros ?
  | |- keeps_if _ (match ?x with _ => _ end) => destruct x eqn:?
  | |- keeps_if _ (_ ≫= _) => apply keeps_if_bind; [solve [keeps_solve]|intros]
  | |- keeps_if _ _ => apply keeps_if_of; solve [quietly]
  end.
Ltac life_walk := repeat life_step.

Lemma draft_head_state h : bh_status h = StatusDraft -> head_state h = (StatusDraft, bh_revision h).
Proof. unfold head_state. by intros ->. Qed.

Lemma approve_state f t b h meta :
  BillStatus_CanTransitionTo (bh_status h) StatusApproved = true -> sm_revision meta = None ->
  keeps_if (bill_in t b (head_state h)) (on_err f (UpdateBillStatus t b StatusApproved meta)).
Proof.
  intros H Hm. apply keeps_if_on_err, UpdateBillStatus_life. rewrite Hm. apply draft_status in H.
  rewrite (draft_head_state _ H). constructor.
Qed.

Lemma quiet_alreadyApprovedResult r : keeps (db_rel quiet) (alreadyApprovedResult r).
Proof. unfold alreadyApprovedResult. keeps_solve. Qed.
Lemma quiet_alreadyPaidApprovalResult q : keeps (db_rel quiet) (alreadyPaidApprovalResult q).
Proof. unfold alreadyPaidApprovalResult. keeps_solve. Qed.
Lemma quiet_already_approved t b : keeps (db_rel quiet) (already_approved t b).
Proof. apply keeps_already_approved. tc_solve. Qed.
#[local] Hint Resolve quiet_alreadyApprovedResult quiet_alreadyPaidApprovalResult quiet_already_approved : keeps.

Lemma life_ApproveSale_executeInTx req : lasting (ApproveSale_executeInTx req).
Proof.
  unfold ApproveSale_executeInTx. apply keeps_bind; [tc_solve|quietly|intros _]. apply locked_life. intros h _.
  life_walk. apply keeps_if_then; [|intros; quietly]. apply approve_state; [|done]. by apply negb_false_iff.
Qed.

Lemma life_ApproveSale req : lasting (ApproveSale_Execute req).
Proof.
  unfold ApproveSale_Execute. do 5 (apply keeps_bind; [tc_solve|quietly|intros ?]).
  match goal with |- keeps _ (if ?x then _ else _) => destruct x end; [quietly|].
  apply lasting_WithTx. apply keeps_bind; [tc_solve|apply life_ApproveSale_executeInTx|].
  intros; quietly.
Qed.

Lemma life_ApprovePurchase req : lasting (ApprovePurchase_ExecuteWithPayment req).
Proof.
  unfold ApprovePurchase_ExecuteWithPayment. do 4 (apply keeps_bind; [tc_solve|quietly|intros ?]).
  apply keeps_bind; [tc_solve|unfold check; quietly|intros _]. do 2 (apply keeps_bind; [tc_solve|quietly|intros ?]).
  match goal with |- keeps _ (if ?x then _ else _) => destruct x end; [quietly|].
  apply lasting_WithTx. unfold approve_purchase_body.
  apply keeps_bind; [tc_solve|quietly|intros _]. apply locked_life. intros h _. life_walk.
  apply keeps_if_then; [|intros; quietly]. apply approve_state; [|done]. by apply negb_false_iff.
Qed.
(** A result with a property, and what follows. *)
Lemma keeps_post {A B} (Q : A -> Prop) (m : M A) (k : A -> M B) :
  lasting m -> (forall w a w', m w = (Ok a, w') -> Q a) -> (forall a, Q a -> lasting (k a)) ->
  lasting (m ≫= k).
Proof.
  intros Hm HQ Hk w. unfold mbind, stm_bind. pose proof (Hm w) as H.
  destruct (m w) as [[a|e|x] w1] eqn:E; simpl in *; [|exact H..]. etrans; [exact H|]. apply Hk. by eapply HQ.
Qed.

Lemma keeps_fresh {B} (k : uuid -> M B) :
  (forall u, u <> uuid_nil -> lasting (k u)) -> lasting (uuid_new ≫= k).
Proof.
  intros Hk. apply (keeps_post (fun u => u <> uuid_nil)); [quietly| |exact Hk].
  intros w u w' H. apply uuid_new_Ok in H as [-> _]. apply uuid_at_fresh.
Qed.

Lemma foldM_new {X} (f : dec * list BillItem -> X -> M (dec * list BillItem)) b l acc w acc' w' :
  (forall acc x w acc' w', f acc x w = (Ok acc', w') -> exists it, bi_head it = b /\ acc'.2 = acc.2 ++ [it]) ->
  Forall (fun it => bi_head it = b) acc.2 -> foldM f l acc w = (Ok acc', w') -> Forall (fun it => bi_head it = b) acc'.2.
Proof.
  intros Hf. revert acc w. induction l as [|x l IH]; intros acc w Ha H; cbn [foldM] in H; [by minv H|].
  apply bind_Ok in H as (a1 & w1 & H1 & H). apply Hf in H1 as (it & Hit & E1). apply IH in H; [done|].
  rewrite E1. apply Forall_app. auto.
Qed.

Lemma with_head_all b items : Forall (fun it => bi_head it = b) (with_head b <$> items).
Proof. apply Forall_fmap, Forall_true. done. Qed.

(** The creates: a fresh id, a number, the bill. *)
Ltac life_create :=
  repeat first
    [ apply keeps_fresh; intros
    | apply CreateBill_life; [done|done|first [apply with_head_all|done]|]
    | apply lasting_WithTx
    | apply keeps_bind; [tc_solve|solve [quietly]|intros]
    | match goal with |- keeps _ (match ?x with _ => _ end) => destruct x end
    | solve [quietly] ].

Lemma life_CreatePurchaseDraft req : lasting (CreatePurchaseDraft_Execute req).
Proof. unfold CreatePurchaseDraft_Execute. life_create. apply keeps_if_of. quietly. Qed.
Lemma life_CreateSale req : lasting (CreateSale_Execute req).
Proof. unfold CreateSale_Execute. life_create. apply keeps_if_of. quietly. Qed.
Lemma quiet_return_line t acc x : keeps (db_rel quiet) (return_line t acc x).
Proof. unfold return_line. keeps_solve. Qed.
#[local] Hint Resolve quiet_return_line : keeps.
Lemma life_CreateReturn req : lasting (CreateReturn_Execute req).
Proof. unfold CreateReturn_Execute. life_create. apply keeps_if_of. quietly. Qed.

(** The edits. *)
Lemma draft_of_guard h : negb (Z.eqb (bh_status h) StatusDraft) = false -> head_state h = (StatusDraft, bh_revision h).
Proof. intros H. apply draft_head_state. by destruct (Z.eqb_spec (bh_status h) StatusDraft). Qed.

Lemma new_line_on t b p u n l q x acc w acc' w' :
  new_line t b p u n l q x acc w = (Ok acc', w') -> exists it, bi_head it = b /\ acc'.2 = acc.2 ++ [it].
Proof. intros H. apply new_line_Ok in H as (_ & it & (_ & Hb & _) & _ & E). by exists it. Qed.

Lemma quiet_update_purchase_line req old acc x : keeps (db_rel quiet) (update_purchase_line req old acc x).
Proof. unfold update_purchase_line, keptPrice, unitFactor. keeps_solve. Qed.
Lemma quiet_sale_line t h acc x : keeps (db_rel quiet) (sale_line t h acc x).
Proof. apply keeps_sale_line. tc_solve. Qed.
#[local] Hint Resolve quiet_update_purchase_line quiet_sale_line : keeps.

Lemma update_purchase_lines_on req old l acc w acc' w' :
  Forall (fun it => bi_head it = up_bill req) acc.2 -> foldM (update_purchase_line req old) l acc w = (Ok acc', w') ->
  Forall (fun it => bi_head it = up_bill req) acc'.2.
Proof.
  apply foldM_new. clear. intros acc x w acc' w' H. unfold update_purchase_line in H. mguard H as G1. mguard H as G2.
  apply bind_Ok in H as (p & w1 & _ & H). by eapply new_line_on.
Qed.

Lemma sale_lines_on t b l acc w acc' w' :
  Forall (fun it => bi_head it = b) acc.2 -> foldM (sale_line t b) l acc w = (Ok acc', w') ->
  Forall (fun it => bi_head it = b) acc'.2.
Proof.
  apply foldM_new. clear. intros acc x w acc' w' H. unfold sale_line in H.
  apply bind_Ok in H as (p & w1 & _ & H). by eapply new_line_on.
Qed.

Lemma life_UpdatePurchaseDraft req : lasting (UpdatePurchaseDraft_Execute req).
Proof.
  unfold UpdatePurchaseDraft_Execute. do 5 (apply keeps_bind; [tc_solve|quietly|intros ?]).
  apply lasting_WithTx. unfold update_purchase_body.
  apply locked_life. intros h [Hid Ht]. apply keeps_if_guard. intros _. apply keeps_if_guard. intros G.
  rewrite (draft_of_guard _ G). apply keeps_if_bind; [keeps_solve|intros old].
  apply (keeps_if_post (fun acc => Forall (fun it => bi_head it = up_bill req) acc.2)); [keeps_solve| |].
  { intros w acc w' H. by eapply update_purchase_lines_on; [|exact H]. }
  intros [sub items] Hi. life_walk. apply keeps_if_then; [|intros; quietly]. by apply UpdateBill_life.
Qed.

Lemma life_UpdateSaleDraft req : lasting (UpdateSaleDraft_Execute req).
Proof.
  unfold UpdateSaleDraft_Execute. do 5 (apply keeps_bind; [tc_solve|quietly|intros ?]).
  apply (keeps_post (fun acc => Forall (fun it => bi_head it = us_bill req) acc.2)); [quietly| |].
  { intros w acc w' H. by eapply sale_lines_on; [|exact H]. }
  intros [sub items] Hi. do 2 (apply keeps_bind; [tc_solve|quietly|intros ?]).
  apply lasting_WithTx. unfold update_sale_body. apply locked_life. intros h [Hid Ht].
  apply keeps_if_guard. intros _. apply keeps_if_guard. intros G. rewrite (draft_of_guard _ G). life_walk.
  apply keeps_if_then; [|intros; quietly]. by apply UpdateBill_life.
Qed.

Lemma life_CancelPurchase t b : lasting (CancelPurchase_Execute t b).
Proof.
  unfold CancelPurchase_Execute. do 2 (apply keeps_bind; [tc_solve|quietly|intros ?]). apply lasting_WithTx.
  unfold cancel_body. apply locked_life. intros h _. life_walk.
  apply keeps_if_on_err, UpdateBillStatus_life. apply negb_false_iff, draft_to_cancelled in H0.
  rewrite (draft_head_state _ H0). constructor.
Qed.

Lemma life_RestorePurchase t b : lasting (RestorePurchase_Execute t b).
Proof.
  unfold RestorePurchase_Execute. do 2 (apply keeps_bind; [tc_solve|quietly|intros ?]). apply lasting_WithTx.
  unfold restore_body. apply locked_life. intros h _. life_walk.
  apply keeps_if_on_err, UpdateBillStatus_life. apply negb_false_iff, Z.eqb_eq in H0. apply Z.leb_gt in H1.
  unfold head_state. rewrite H0. by apply life_restore.
Qed.

(** Approving a return. *)
Lemma quiet_baseFactor p u : keeps (db_rel quiet) (baseFactor p u).
Proof. unfold baseFactor. keeps_solve. Qed.
#[local] Hint Resolve quiet_baseFactor : keeps.
Lemma quiet_returnedBase t s : keeps (db_rel quiet) (returnedBase t s).
Proof. unfold returnedBase, add_returned. keeps_solve. Qed.
#[local] Hint Resolve quiet_returnedBase : keeps.
Lemma quiet_remainingBase t s : keeps (db_rel quiet) (remainingBase t s).
Proof. unfold remainingBase, add_sold. keeps_solve. Qed.
Lemma quiet_resolveOriginBill h : keeps (db_rel quiet) (resolveOriginBill h).
Proof. unfold resolveOriginBill. keeps_solve. Qed.
Lemma quiet_newStrictCheck t b s : keeps (db_rel quiet) (newStrictCheck t b s).
Proof. unfold newStrictCheck. keeps_solve. Qed.
Lemma quiet_returnUnitCost o t p k : keeps (db_rel quiet) (returnUnitCost o t p k).
Proof. apply keeps_returnUnitCost. tc_solve. Qed.
#[local] Hint Resolve quiet_remainingBase quiet_resolveOriginBill quiet_newStrictCheck quiet_returnUnitCost : keeps.
Lemma quiet_approve_return_line req k o c acc it : keeps (db_rel quiet) (approve_return_line req k o c acc it).
Proof. unfold approve_return_line, return_factor, granted_qty, strict_take. keeps_solve. Qed.
#[local] Hint Resolve quiet_approve_return_line : keeps.

Lemma life_ApproveReturn req : lasting (ApproveReturn_Execute req).
Proof.
  unfold ApproveReturn_Execute. do 3 (apply keeps_bind; [tc_solve|quietly|intros ?]).
  match goal with |- keeps _ (if ?x then _ else _) => destruct x end; [quietly|].
  apply keeps_bind; [tc_solve| |intros; quietly]. apply lasting_WithTx. unfold approve_return_body.
  apply keeps_bind; [tc_solve|quietly|intros _]. apply locked_life. intros h _. life_walk.
  - apply keeps_if_then; [|intros; quietly]. apply UpdateBillStatus_life. apply negb_false_iff, draft_status in H.
    rewrite (draft_head_state _ H). constructor.
  - apply keeps_if_then; [|intros; quietly]. apply approve_state; [|done]. by apply negb_false_iff.
Qed.

(** The shop-floor return and its refund. *)
Lemma life_discardDraft t b : lasting (discardDraft t b).
Proof.
  unfold discardDraft. apply (keeps_then (fun _ => True) (fun r w => match r with inr h => bill_in t b (head_state h) w | inl _ => True end)).
  - keeps_solve.
  - intros w r w' W H. split; [done|]. apply try_Ok in H. destruct r as [e|h]; [done|].
    apply GetBill_Ok in H as (E & r & pn & kn & Hr & ->). exists r. by rewrite E.
  - intros [e|h] _; [apply keeps_if_of; quietly|]. destruct (negb _) eqn:G; [apply keeps_if_of; quietly|].
    apply keeps_if_then; [|intros; quietly]. apply keeps_if_try, keeps_if_WithTx, UpdateBillStatus_life.
    rewrite (draft_of_guard _ G). constructor.
Qed.

Create HintDb life discriminated.
Ltac life_parts := repeat first
  [ solve [eauto with life]
  | apply keeps_bind; [tc_solve|first [solve [quietly]|solve [eauto with life]|apply keeps_try; solve [eauto with life]]|intros]
  | match goal with |- keeps _ (match ?x with _ => _ end) => destruct x end
  | solve [quietly]
  | apply lasting_WithTx ].

#[local] Hint Resolve life_discardDraft life_CreateReturn life_ApproveReturn life_ApproveSale_executeInTx : life.

Lemma quiet_want_line m acc x : keeps (db_rel quiet) (want_line m acc x).
Proof. unfold want_line. keeps_solve. Qed.
Lemma quiet_take_line m w l acc x : keeps (db_rel quiet) (take_line m w l acc x).
Proof. unfold take_line. keeps_solve. Qed.
#[local] Hint Resolve quiet_want_line quiet_take_line : keeps.

Lemma life_ReturnSale req : lasting (ReturnSale_Execute req).
Proof. unfold ReturnSale_Execute. life_parts. Qed.
#[local] Hint Resolve life_ReturnSale : life.
Lemma life_refund_book req no pt : lasting (refund_book req no pt).
Proof. unfold refund_book, returnRefundLeft. life_parts. Qed.
#[local] Hint Resolve life_refund_book : life.
Lemma life_SaleRefund req : lasting (SaleRefund_Execute req).
Proof. unfold SaleRefund_Execute, refund_precheck. life_parts. Qed.
Lemma life_RecordRefund req : lasting (RecordRefund req).
Proof. unfold RecordRefund. life_parts. Qed.

(** The till. *)
Lemma life_checkout_body req source now occ : lasting (checkout_body req source now occ).
Proof.
  unfold checkout_body. apply keeps_fresh. intros b Hb. apply keeps_bind; [tc_solve|quietly|intros no].
  apply (keeps_post (fun acc => Forall (fun it => bi_head it = b) acc.2)).
  { unfold assembleSaleItems. quietly. }
  { intros w acc w' H. apply on_err_Ok in H. unfold assembleSaleItems in H. apply bind_Ok in H as (a & w1 & H & E). minv E.
    simpl. eapply sale_lines_on; [|exact H]. constructor. }
  intros [sub items] Hi. apply keeps_bind; [tc_solve|quietly|intros _].
  apply CreateBill_life; [done|done|done|]. apply keeps_if_of. apply keeps_bind; [tc_solve|apply keeps_on_err; apply life_ApproveSale_executeInTx|].
  intros; quietly.
Qed.
#[local] Hint Resolve life_checkout_body : life.
Lemma quiet_findDuplicate t r : keeps (db_rel quiet) (findDuplicate t r).
Proof. apply keeps_findDuplicate. tc_solve. Qed.
#[local] Hint Resolve quiet_findDuplicate : keeps.
Lemma life_QuickCheckout req : lasting (QuickCheckout_Execute req).
Proof. unfold QuickCheckout_Execute. life_parts.
  apply keeps_bind; [tc_solve|apply keeps_try, lasting_WithTx, life_checkout_body|intros; quietly].
Qed.

(** Payments and receipts change no state at all. *)
Lemma quiet_net_amount h t b l : keeps (db_rel quiet) (net_amount h t b l).
Proof. unfold net_amount. keeps_solve. Qed.
#[local] Hint Resolve quiet_net_amount : keeps.
Lemma quiet_record_payment_body req pt : keeps (db_rel quiet) (record_payment_body req pt).
Proof. unfold record_payment_body. keeps_solve. Qed.
#[local] Hint Resolve quiet_record_payment_body : keeps.
Lemma life_RecordPayment req : lasting (RecordPayment_ExecuteReturning req).
Proof. unfold RecordPayment_ExecuteReturning. life_parts. Qed.
Lemma quiet_receipt_bill req live c : keeps (db_rel quiet) (receipt_bill req live c).
Proof. unfold receipt_bill. keeps_solve. Qed.
Lemma quiet_receipt_pay req pt now live acc a : keeps (db_rel quiet) (receipt_pay req pt now live acc a).
Proof. unfold receipt_pay. keeps_solve. Qed.
Lemma quiet_OpenBills t d p : keeps (db_rel quiet) (OpenBills t d p).
Proof. unfold OpenBills. keeps_solve. Qed.
#[local] Hint Resolve quiet_receipt_bill quiet_receipt_pay quiet_OpenBills : keeps.
Lemma life_Receipt req : lasting (Receipt_Execute req).
Proof. unfold Receipt_Execute, receipt_body, check. life_parts. Qed.

(** Returns to the supplier. *)
Lemma quiet_back_out t k b rate it : keeps (db_rel quiet) (back_out t k b rate it).
Proof. unfold back_out, back_factor. keeps_solve. Qed.
Lemma quiet_offsetPayable h no c a n : keeps (db_rel quiet) (offsetPayable h no c a n).
Proof. unfold offsetPayable. keeps_solve. Qed.
Lemma quiet_returnedByLine t p : keeps (db_rel quiet) (returnedByLine t p).
Proof. unfold returnedByLine. keeps_solve. Qed.
Lemma quiet_want_back m acc it : keeps (db_rel quiet) (want_back m acc it).
Proof. unfold want_back. keeps_solve. Qed.
Lemma quiet_back_line t b m w r rate acc id : keeps (db_rel quiet) (back_line t b m w r rate acc id).
Proof. unfold back_line. keeps_solve. Qed.
#[local] Hint Resolve quiet_back_out quiet_offsetPayable quiet_returnedByLine quiet_want_back quiet_back_line : keeps.
Lemma life_book_back req po amount items links : lasting (book_back req po amount items links).
Proof.
  unfold book_back. do 3 (apply keeps_bind; [tc_solve|quietly|intros ?]). apply keeps_fresh. intros b Hb.
  apply CreateBill_life; [done|done|apply with_head_all|]. life_walk.
  apply keeps_if_then; [|intros; quietly]. apply keeps_if_on_err, UpdateBillStatus_life. constructor.
Qed.
#[local] Hint Resolve life_book_back : life.
Lemma life_PurchaseReturn req : lasting (PurchaseReturn_Execute req).
Proof. unfold PurchaseReturn_Execute, purchase_return_body. life_parts. Qed.

(** Stock. *)
Lemma quiet_adjust_item req id acc it : keeps (db_rel quiet) (adjust_item req id acc it).
Proof. unfold adjust_item, adjust_cost, FallbackCost. keeps_solve. Qed.
#[local] Hint Resolve quiet_adjust_item : keeps.
Lemma life_Adjust req : lasting (AdjustUseCase_Execute req).
Proof. unfold AdjustUseCase_Execute, adjust_body, CheckOwned. life_parts. Qed.


(** ** Histories *)

(** One request to a use case. *)
Inductive call : Type :=
  | call_movement (r : RecordMovementRequest)
  | call_adjust (r : AdjustRequest)
  | call_create_purchase (r : CreatePurchaseDraftRequest)
  | call_create_sale (r : CreateSaleRequest)
  | call_create_return (r : CreateReturnRequest)
  | call_update_purchase (r : UpdatePurchaseDraftRequest)
  | call_update_sale (r : UpdateSaleDraftRequest)
  | call_cancel (tenant bill : uuid)
  | call_restore (tenant bill : uuid)
  | call_approve_purchase (r : ApprovePurchaseRequest)
  | call_approve_sale (r : ApproveSaleRequest)
  | call_approve_return (r : ApproveReturnRequest)
  | call_return_sale (r : ReturnSaleRequest)
  | call_sale_refund (r : SaleRefundRequest)
  | call_refund_only (r : SaleRefundOnlyRequest)
  | call_checkout (r : QuickCheckoutRequest)
  | call_purchase_return (r : PurchaseReturnRequest)
  | call_payment (r : RecordPaymentRequest)
  | call_receipt (r : ReceiptRequest).

Definition run_call (c : call) : M unit :=
  match c with
  | call_movement r => _ ← Execute r; mret tt
  | call_adjust r => _ ← AdjustUseCase_Execute r; mret tt
  | call_create_purchase r => _ ← CreatePurchaseDraft_Execute r; mret tt
  | call_create_sale r => _ ← CreateSale_Execute r; mret tt
  | call_create_return r => _ ← CreateReturn_Execute r; mret tt
  | call_update_purchase r => _ ← UpdatePurchaseDraft_Execute r; mret tt
  | call_update_sale r => _ ← UpdateSaleDraft_Execute r; mret tt
  | call_cancel t b => CancelPurchase_Execute t b
  | call_restore t b => RestorePurchase_Execute t b
  | call_approve_purchase r => ApprovePurchase_ExecuteWithPayment r
  | call_approve_sale r => ApproveSale_Execute r
  | call_approve_return r => ApproveReturn_Execute r
  | call_return_sale r => _ ← ReturnSale_Execute r; mret tt
  | call_sale_refund r => _ ← SaleRefund_Execute r; mret tt
  | call_refund_only r => RecordRefund r
  | call_checkout r => _ ← QuickCheckout_Execute r; mret tt
  | call_purchase_return r => _ ← PurchaseReturn_Execute r; mret tt
  | call_payment r => _ ← RecordPayment_ExecuteReturning r; mret tt
  | call_receipt r => _ ← Receipt_Execute r; mret tt
  end.

(** Any number of requests, one after another, each with whatever outcome. *)
Definition after (cs : list call) (w : World) : World := fold_left (fun w c => (run_call c w).2) cs w.

Lemma run_call_life c : lasting (run_call c).
Proof.
  #[local] Hint Resolve life_CreatePurchaseDraft life_CreateSale life_UpdatePurchaseDraft life_UpdateSaleDraft
    life_CancelPurchase life_RestorePurchase life_ApprovePurchase life_ApproveSale life_SaleRefund life_RecordRefund
    life_QuickCheckout life_PurchaseReturn life_RecordPayment life_Receipt life_Adjust : life.
  destruct c; cbn [run_call]; first [solve [eauto with life]|apply keeps_bind; [tc_solve|first [solve [eauto with life]|quietly]|intros; quietly]].
Qed.

Lemma history_life cs w : on_db life w (after cs w).
Proof.
  revert w. induction cs as [|c cs IH]; intros w; [red; simpl; reflexivity|]. etrans; [|apply IH]. apply run_call_life.
Qed.

(** C4: every history of requests, whatever their outcomes, keeps the ledger well formed: bills
    sit under their own ids, every line belongs to a bill, stored amounts have the scale of
    their columns, and every bill is in a state its life can reach. *)
Theorem history_keeps_ledger_wf cs w : ledger_wf (w_db w) -> ledger_wf (w_db (after cs w)).
Proof. intros W. by apply (history_life cs w W). Qed.

(** The domain's own machine, [BillHead.CanTransitionTo]. *)
Definition domain_step (s s' : bill_state) : Prop := forall h, head_state h = s -> CanTransitionTo h s'.1 = None.

Lemma life_step_domain s s' : living s -> life_step s s' -> domain_step s s'.
Proof.
  intros L Hs h <-. apply living_cases in L. unfold CanTransitionTo, head_state in *.
  rewrite !elem_of_cons, elem_of_nil in L.
  repeat destruct L as [L|L]; try done; injection L as E1 E2; rewrite E1, E2 in *; inversion Hs; subst; try done; lia.
Qed.

Lemma life_path_domain s s' : living s -> rtc life_step s s' -> rtc domain_step s s'.
Proof.
  intros L H. induction H as [s|s1 s2 s3 H1 H2 IH]; [done|]. eapply rtc_l; [by apply life_step_domain|]. apply IH.
  unfold living in *. by eapply rtc_r.
Qed.

(** C3: along every history of requests the bills refine the machine of a bill's life: no bill
    disappears or changes its identity, every change of status is a path of the machine, and so
    of the domain's own CanTransitionTo, from the state the bill was in; a bill that was not
    there before was born a draft; movements and payments are only ever appended. *)
Theorem history_refines_life cs w :
  ledger_wf (w_db w) ->
  later (w_db w) (w_db (after cs w)) /\
  (forall b r r', db_heads (w_db w) !! b = Some r -> db_heads (w_db (after cs w)) !! b = Some r' ->
     rtc domain_step (head_state (hr_head r)) (head_state (hr_head r'))) /\
  (forall b r', db_heads (w_db (after cs w)) !! b = Some r' -> rtc domain_step born (head_state (hr_head r'))).
Proof.
  intros W. destruct (history_life cs w W) as [W' L]. split_and!; [done| |].
  - intros b r r' Hr Hr'. destruct (lt_heads _ _ L b r Hr) as (r2 & Hr2 & S). assert (r2 = r') as -> by congruence.
    apply life_path_domain; [by eapply (lw_living _ W)|apply S].
  - intros b r' Hr'. apply life_path_domain; [constructor|]. by eapply (lw_living _ W').
Qed.

(** an approved bill stays approved: whatever is requested afterwards, its head keeps every
    column but the warehouse, the paid amount and the time of the last update, and its lines
    stay as they are. *)
Theorem approved_bill_frozen cs w b r :
  ledger_wf (w_db w) -> db_heads (w_db w) !! b = Some r -> bh_status (hr_head r) = StatusApproved ->
  exists r', db_heads (w_db (after cs w)) !! b = Some r' /\ bh_status (hr_head r') = StatusApproved /\
    frozen (hr_head r') = frozen (hr_head r) /\ hr_deleted r' = hr_deleted r /\
    bill_lines b (w_db (after cs w)) = bill_lines b (w_db w).
Proof.
  intros W Hr Ha. destruct (history_life cs w W) as [_ L]. destruct (lt_heads _ _ L b r Hr) as (r' & Hr' & S).
  pose proof (rl_frozen _ _ S Ha) as F. exists r'. split_and!; [done| |done|by destruct S|by eapply (lt_lines _ _ L)].
  rewrite <- Ha. exact (f_equal bh_status F).
Qed.

(** How often the requests changed the state of a bill. *)
Definition state_of (b : uuid) (w : World) : option bill_state := (fun r => head_state (hr_head r)) <$> db_heads (w_db w) !! b.

Fixpoint changes (b : uuid) (cs : list call) (w : World) : nat :=
  match cs with
  | [] => 0
  | c :: cs =>
      let w' := (run_call c w).2 in
      (if bool_decide (state_of b w = state_of b w') then 0 else 1) + changes b cs w'
  end.

(** What is left of a life. *)
Definition left_of (s : bill_state) : nat :=
  if Z.eqb s.1 StatusApproved then 0
  else if Z.eqb s.1 StatusDraft then if Z.ltb s.2 1 then 3 else 1
  else if Z.ltb s.2 1 then 2 else 0.

Lemma left_of_step s s' : living s -> life_step s s' -> (left_of s' < left_of s)%nat.
Proof.
  intros L Hs. apply living_cases in L. rewrite !elem_of_cons, elem_of_nil in L.
  repeat destruct L as [->|L]; try done; inversion Hs; subst; try lia; unfold left_of; simpl; lia.
Qed.

Lemma left_of_path s s' : living s -> rtc life_step s s' -> s = s' \/ (left_of s' < left_of s)%nat.
Proof.
  intros L H. induction H as [s|s1 s2 s3 H1 H2 IH]; [by left|right].
  pose proof (left_of_step _ _ L H1). destruct IH as [->|?]; [unfold living in *; by eapply rtc_r|lia|lia].
Qed.

Lemma changes_left cs w b r : ledger_wf (w_db w) -> db_heads (w_db w) !! b = Some r ->
  (changes b cs w <= left_of (head_state (hr_head r)))%nat.
Proof.
  revert w r. induction cs as [|c cs IH]; intros w r W Hr; cbn [changes]; [lia|].
  destruct (run_call_life c w W) as [W1 L]. destruct (lt_heads _ _ L b r Hr) as (r1 & Hr1 & S).
  specialize (IH _ _ W1 Hr1). pose proof (left_of_path _ _ (lw_living _ W _ _ Hr) (rl_path _ _ S)) as D.
  unfold state_of. rewrite Hr, Hr1. simpl. destruct (bool_decide_reflect (Some (head_state (hr_head r)) = Some (head_state (hr_head r1)))) as [E|E].
  - destruct D as [->|D]; [exact IH|lia].
  - destruct D as [D|D]; [congruence|lia].
Qed.

(** C5: the life of a bill is finite: however long the history, the requests change the state of
    a bill at most three times (cancelled, restored once, and approved or cancelled again). *)
Theorem life_is_finite cs w b :
  ledger_wf (w_db w) -> db_heads (w_db w) !! b <> None -> (changes b cs w <= 3)%nat.
Proof.
  intros W Hb. destruct (db_heads (w_db w) !! b) as [r|] eqn:Hr; [|done].
  pose proof (changes_left cs w b r W Hr). unfold left_of in *. repeat case_match; lia.
Qed.
End life.

(** ** On the small shop *)

Lemma ex_shelf_ledger : ledger_wf (w_db ex_shelf).
Proof. split; [exact ex_shelf_wf|split; decide_goal|apply map_Forall_empty]. Defined.

(** A sale is drafted, cancelled, restored and approved; then someone tries to cancel it, and pays. *)
Definition ex_story_draft : World := after (calc := WACCalculator) [call_create_sale ex_tea_sale] ex_shelf.
Definition ex_story : list call :=
  [call_cancel ex_tenant ex_tea_bill; call_restore ex_tenant ex_tea_bill; call_approve_sale ex_tea_approve].
Definition ex_story_end : list call := [call_cancel ex_tenant ex_tea_bill; call_update_sale (mkUpdateSaleDraftRequest
  ex_tenant ex_tea_bill None None time_zero dzero dzero "" [mkSaleItem ex_p1 ex_wh None "pc" 1 (D 1 0) (D 1 0) ""])].

Lemma history_keeps_ledger_wf_witness : ledger_wf (w_db (after (calc := WACCalculator) ex_story ex_story_draft)).
Proof.
  apply (history_keeps_ledger_wf (calc := WACCalculator)).
  apply (history_life (calc := WACCalculator) [call_create_sale ex_tea_sale] ex_shelf ex_shelf_ledger).
Defined.

Lemma history_refines_life_witness :
  later (w_db ex_shelf) (w_db (after (calc := WACCalculator) (call_create_sale ex_tea_sale :: ex_story) ex_shelf)).
Proof.
  exact (proj1 (history_refines_life (calc := WACCalculator) (call_create_sale ex_tea_sale :: ex_story) ex_shelf ex_shelf_ledger)).
Defined.

Definition ex_story_approved : World := after (calc := WACCalculator) (call_create_sale ex_tea_sale :: ex_story) ex_shelf.

Lemma approved_bill_frozen_witness :
  exists r r', db_heads (w_db ex_story_approved) !! ex_tea_bill = Some r /\
    db_heads (w_db (after (calc := WACCalculator) ex_story_end ex_story_approved)) !! ex_tea_bill = Some r' /\
    frozen (hr_head r') = frozen (hr_head r).
Proof.
  destruct (row_run (db_heads (w_db ex_story_approved) !! ex_tea_bill)
    (fun r => Z.eqb (bh_status (hr_head r)) StatusApproved)) as (r & Hr & Ha%Z.eqb_eq); [compute_goal|].
  destruct (approved_bill_frozen (calc := WACCalculator) ex_story_end ex_story_approved ex_tea_bill r
    (proj1 (history_life (calc := WACCalculator) (call_create_sale ex_tea_sale :: ex_story) ex_shelf ex_shelf_ledger)) Hr Ha)
    as (r' & Hr' & _ & F & _).
  exists r, r'. split; [exact Hr|split; [exact Hr'|exact F]].
Defined.

Lemma life_is_finite_witness :
  changes (calc := WACCalculator) ex_tea_bill ex_story ex_story_draft = 3%nat /\
  (changes (calc := WACCalculator) ex_tea_bill ex_story ex_story_draft <= 3)%nat.
Proof.
  split; [compute_goal|]. apply (life_is_finite (calc := WACCalculator)).
  - apply (history_life (calc := WACCalculator) [call_create_sale ex_tea_sale] ex_shelf ex_shelf_ledger).
  - compute_goal.
Defined.
