(* ===== verification/Roles.v ===== *)
(** The shop roles and what each may do: src/internal/domain/team/role.go and
    src/internal/domain/permission/{permission,routes}.go.

    [Role] and [Perm] are string types in the program, and a role arrives as text from a
    request, from the platform and from the database, so they stay strings here: an unknown
    role is a value like any other.  [matrix] and [RoutePerm] are the two tables of the
    package, entry for entry. *)
From S2P Require Import Prelude GoStrings Rounding Decimal Types.
From stdpp Require Import base tactics strings gmap.
From Stdlib Require Import ZArith Lia.

#[local] Open Scope string_scope.

(** ** Roles (domain/team/role.go) *)

Definition Role := string.
#[global] Typeclasses Transparent Role.

Definition RoleOwner : Role := "owner".
Definition RoleManager : Role := "manager".
Definition RoleClerk : Role := "clerk".
Definition RoleCashier : Role := "cashier".
Definition RoleFinance : Role := "finance".

Definition ProductKey : string := "tally".
Definition PlatformOwner : string := "owner".
Definition PlatformAdmin : string := "admin".
Definition PlatformMember : string := "member".

Definition role_is (r s : Role) : bool := String.eqb r s.

(** Role.ManagesTeam *)
Definition ManagesTeam (r : Role) : bool := role_is r RoleOwner || role_is r RoleManager.

(** Role.Valid *)
Definition Role_Valid (r : Role) : bool :=
  role_is r RoleOwner || role_is r RoleManager || role_is r RoleClerk ||
  role_is r RoleCashier || role_is r RoleFinance.

(** Role.Label: the text the shop sees. *)
Definition Role_Label (r : Role) : string :=
  if role_is r RoleOwner then "老板"
  else if role_is r RoleManager then "店长"
  else if role_is r RoleCashier then "收银"
  else if role_is r RoleFinance then "财务"
  else "店员".

(** NormalizeLegacy: the role column of user_identity_mapping, old values included. *)
Definition NormalizeLegacy (role : string) (isOwner : bool) : Role :=
  if isOwner then RoleOwner
  else if role_is role "owner" then RoleOwner
  else if role_is role "admin" || role_is role "manager" then RoleManager
  else if role_is role "cashier" then RoleCashier
  else if role_is role "finance" then RoleFinance
  else RoleClerk.

(** A Go map read: the zero value where the key is absent. *)
Definition pr_get (m : gmap string string) (k : string) : string := default "" (m !! k).

(** FromPlatform *)
Definition FromPlatform (platformRole : string) (productRoles : gmap string string) : Role :=
  if role_is platformRole PlatformOwner then RoleOwner
  else if role_is platformRole PlatformAdmin then RoleManager
  else if role_is platformRole PlatformMember then
    (let r := pr_get productRoles ProductKey in
     if role_is r RoleCashier then RoleCashier
     else if role_is r RoleFinance then RoleFinance
     else RoleClerk)
  else RoleClerk.

(** ToPlatform; [None] is ErrRoleNotAssignable. *)
Definition ToPlatform (r : Role) : option (string * gmap string string) :=
  if role_is r RoleManager then Some (PlatformAdmin, ∅)
  else if role_is r RoleClerk || role_is r RoleCashier || role_is r RoleFinance
  then Some (PlatformMember, {[ ProductKey := r ]})
  else None.

Definition staff (r : Role) : bool := role_is r RoleClerk || role_is r RoleCashier || role_is r RoleFinance.

(** CanManage: may [actor] change or remove a member holding [target]? *)
Definition CanManage (actor target : Role) : bool :=
  if role_is actor RoleOwner then negb (role_is target RoleOwner)
  else if role_is actor RoleManager then staff target
  else false.

(** CanAssign: may [actor] hand out [role]? *)
Definition CanAssign (actor role : Role) : bool :=
  if role_is actor RoleOwner then negb (role_is role RoleOwner) && Role_Valid role
  else if role_is actor RoleManager then staff role
  else false.

(** ** Permissions (domain/permission/permission.go) *)

Definition Perm := string.
#[global] Typeclasses Transparent Perm.

Definition CostView : Perm := "cost.view".
Definition BillRead : Perm := "bill.read".
Definition BillDraft : Perm := "bill.draft".
Definition BillCheckout : Perm := "bill.checkout".
Definition BillApprove : Perm := "bill.approve".
Definition BillCancel : Perm := "bill.cancel".
Definition BillReturn : Perm := "bill.return".
Definition BillReturnOwn : Perm := "bill.return.own".
Definition PurchaseView : Perm := "purchase.view".
Definition PaymentRecord : Perm := "payment.record".
Definition PaymentRead : Perm := "payment.read".
Definition InvoiceManage : Perm := "invoice.manage".
Definition ReportView : Perm := "report.view".
Definition ExportStock : Perm := "export.stock".
Definition ProductWrite : Perm := "product.write".
Definition StockAdjust : Perm := "stock.adjust".
Definition CatalogWrite : Perm := "catalog.write".
Definition CustomerWrite : Perm := "customer.write".
Definition ReplenishView : Perm := "replenish.view".
Definition AIUse : Perm := "ai.use".
Definition AIExecute : Perm := "ai.execute".
Definition SettingsManage : Perm := "settings.manage".
Definition BillingManage : Perm := "billing.manage".
Definition TeamManage : Perm := "team.manage".
Definition TokenManage : Perm := "token.manage".
Definition AuditView : Perm := "audit.view".
Definition PrintReceipt : Perm := "print.receipt".
Definition PrintSettings : Perm := "print.settings".

(** set(...) *)
Definition perm_set (ps : list Perm) : gset Perm := list_to_set ps.

(** The package variable matrix. *)
Definition matrix : gmap Role (gset Perm) := list_to_map [
  (RoleOwner, perm_set [
    CostView; BillRead; BillDraft; BillCheckout; BillApprove; BillCancel; BillReturn;
    PaymentRecord; PaymentRead; InvoiceManage; ReportView; ExportStock; ProductWrite;
    StockAdjust; CatalogWrite; CustomerWrite; ReplenishView; AIUse; AIExecute;
    SettingsManage; BillingManage; TeamManage; TokenManage; BillReturnOwn;
    PurchaseView; AuditView; PrintReceipt; PrintSettings]);
  (RoleManager, perm_set [
    CostView; BillRead; BillDraft; BillCheckout; BillApprove; BillCancel; BillReturn;
    PaymentRecord; PaymentRead; InvoiceManage; ReportView; ExportStock; ProductWrite;
    StockAdjust; CatalogWrite; CustomerWrite; ReplenishView; AIUse; AIExecute;
    SettingsManage; TeamManage; BillReturnOwn; PurchaseView; AuditView; PrintReceipt;
    PrintSettings]);
  (RoleClerk, perm_set [
    BillRead; BillDraft; ExportStock; ProductWrite; StockAdjust; CatalogWrite;
    CustomerWrite; ReplenishView; AIUse; PurchaseView; PrintReceipt]);
  (RoleCashier, perm_set [
    BillRead; BillCheckout; CustomerWrite; BillReturnOwn; PrintReceipt]);
  (RoleFinance, perm_set [
    CostView; BillRead; PaymentRecord; PaymentRead; InvoiceManage; ReportView;
    ExportStock; ReplenishView; AIUse; PurchaseView; AuditView])].

(** Allowed: an unknown role holds nothing. *)
Definition Allowed (role : Role) (perm : Perm) : bool :=
  match matrix !! role with Some ps => bool_decide (perm ∈ ps) | None => false end.

(** Perms: in no particular order. *)
Definition Perms (role : Role) : gset Perm := default ∅ (matrix !! role).

(** Perm.Label: the text of a refusal. *)
Definition labels : gmap Perm string := list_to_map [
  (CostView, "查看成本和毛利");
  (BillDraft, "开单");
  (BillCheckout, "收银结账");
  (BillApprove, "审核单据");
  (BillCancel, "作废单据");
  (BillReturn, "办理退货");
  (BillReturnOwn, "办理退货");
  (PurchaseView, "查看采购单");
  (TokenManage, "管理 API 密钥");
  (PaymentRecord, "记收付款");
  (PaymentRead, "查看收付款和发票");
  (InvoiceManage, "管理发票");
  (ReportView, "查看报表");
  (ExportStock, "导出库存");
  (ProductWrite, "修改商品");
  (StockAdjust, "盘点调整库存");
  (CatalogWrite, "修改仓库、供应商、苗木字典、项目等基础资料");
  (CustomerWrite, "新建客户");
  (ReplenishView, "查看补货建议");
  (AIUse, "使用智能助手");
  (AIExecute, "确认智能助手的批量操作");
  (SettingsManage, "修改店铺设置");
  (BillingManage, "管理套餐和付费");
  (TeamManage, "管理团队成员");
  (PrintReceipt, "打印小票");
  (PrintSettings, "设置云打印机");
  (AuditView, "查看操作记录")].
Definition Perm_Label (p : Perm) : string := default "执行这个操作" (labels !! p).

(** ** The route table (domain/permission/routes.go) *)

Definition RoutePerm : gmap string Perm := list_to_map [
  ("GET /api/v1/purchase-bills", PurchaseView);
  ("GET /api/v1/purchase-bills/:id", PurchaseView);
  ("POST /api/v1/purchase-bills", BillDraft);
  ("PUT /api/v1/purchase-bills/:id", BillDraft);
  ("POST /api/v1/purchase-bills/:id/approve", BillApprove);
  ("POST /api/v1/purchase-bills/:id/cancel", BillCancel);
  ("POST /api/v1/purchase-bills/:id/restore", BillCancel);
  ("POST /api/v1/purchase-bills/:id/return", BillReturn);
  ("GET /api/v1/receivables", PaymentRead);
  ("POST /api/v1/sale-bills/quick-checkout", BillCheckout);
  ("POST /api/v1/sale-bills", BillDraft);
  ("PUT /api/v1/sale-bills/:id", BillDraft);
  ("POST /api/v1/sale-bills/:id/approve", BillApprove);
  ("POST /api/v1/sale-bills/:id/cancel", BillCancel);
  ("POST /api/v1/sale-bills/:id/restore", BillCancel);
  ("POST /api/v1/sale-bills/:id/return", BillReturnOwn);
  ("POST /api/v1/payments", PaymentRecord);
  ("GET /api/v1/payments", PaymentRead);
  ("GET /api/v1/receipts/preview", PaymentRecord);
  ("POST /api/v1/receipts", PaymentRecord);
  ("GET /api/v1/partners/:id/statement", PaymentRead);
  ("GET /api/v1/invoices", PaymentRead);
  ("GET /api/v1/invoices/:id", PaymentRead);
  ("POST /api/v1/invoices", InvoiceManage);
  ("POST /api/v1/invoices/:id/void", InvoiceManage);
  ("POST /api/v1/invoices/:id/red", InvoiceManage);
  ("POST /api/v1/products", ProductWrite);
  ("PUT /api/v1/products/:id", ProductWrite);
  ("DELETE /api/v1/products/:id", ProductWrite);
  ("POST /api/v1/products/:id/restore", ProductWrite);
  ("POST /api/v1/products/import", ProductWrite);
  ("POST /api/v1/units", ProductWrite);
  ("DELETE /api/v1/units/:id", ProductWrite);
  ("POST /api/v1/stock/adjustments", StockAdjust);
  ("PUT /api/v1/stock/safety-qty", CatalogWrite);
  ("POST /api/v1/warehouses", CatalogWrite);
  ("PUT /api/v1/warehouses/:id", CatalogWrite);
  ("DELETE /api/v1/warehouses/:id", CatalogWrite);
  ("POST /api/v1/warehouses/:id/restore", CatalogWrite);
  ("POST /api/v1/suppliers", CatalogWrite);
  ("PUT /api/v1/suppliers/:id", CatalogWrite);
  ("DELETE /api/v1/suppliers/:id", CatalogWrite);
  ("POST /api/v1/suppliers/:id/restore", CatalogWrite);
  ("POST /api/v1/suppliers/import", CatalogWrite);
  ("POST /api/v1/customers/import", CatalogWrite);
  ("POST /api/v1/nursery-dict", CatalogWrite);
  ("PUT /api/v1/nursery-dict/:id", CatalogWrite);
  ("DELETE /api/v1/nursery-dict/:id", CatalogWrite);
  ("POST /api/v1/nursery-dict/:id/restore", CatalogWrite);
  ("POST /api/v1/projects", CatalogWrite);
  ("PUT /api/v1/projects/:id", CatalogWrite);
  ("DELETE /api/v1/projects/:id", CatalogWrite);
  ("POST /api/v1/projects/:id/restore", CatalogWrite);
  ("POST /api/v1/exchange-rates", CatalogWrite);
  ("POST /api/v1/customers", CustomerWrite);
  ("PUT /api/v1/customers/:id", CustomerWrite);
  ("DELETE /api/v1/customers/:id", CustomerWrite);
  ("POST /api/v1/customers/:id/restore", CustomerWrite);
  ("GET /api/v1/reports/gross-margin", CostView);
  ("GET /api/v1/reports/abc", ReportView);
  ("GET /api/v1/reports/dead-stock", ReportView);
  ("GET /api/v1/reports/sales-top", ReportView);
  ("GET /api/v1/reports/monthly", ReportView);
  ("GET /api/v1/reports/monthly.csv", ReportView);
  ("GET /api/v1/exports/bills.csv", ReportView);
  ("GET /api/v1/exports/payments.csv", PaymentRead);
  ("GET /api/v1/exports/stock.csv", ExportStock);
  ("GET /api/v1/exports/all.zip", ReportView);
  ("GET /api/v1/replenish/suggestions", ReplenishView);
  ("GET /api/v1/replenish/scorecard", ReplenishView);
  ("POST /api/v1/replenish/draft-batch", BillDraft);
  ("POST /api/v1/ai/chat", AIUse);
  ("GET /api/v1/ai/plans", AIUse);
  ("POST /api/v1/ai/plans/:plan_id/confirm", AIExecute);
  ("POST /api/v1/ai/plans/:plan_id/cancel", AIExecute);
  ("POST /api/v1/ai/plans/:plan_id/revert", AIExecute);
  ("PUT /api/v1/tenant/print-settings", SettingsManage);
  ("POST /api/v1/print/receipts", PrintReceipt);
  ("GET /api/v1/tenant/printer/status", PrintReceipt);
  ("POST /api/v1/tenant/printer/test", PrintSettings);
  ("PUT /api/v1/tenant/cashier-mode", SettingsManage);
  ("POST /api/v1/onboarding/seed-demo", SettingsManage);
  ("POST /api/v1/onboarding/clear-demo", SettingsManage);
  ("POST /api/v1/imports/orders", SettingsManage);
  ("GET /api/v1/imports/mappings", SettingsManage);
  ("GET /api/v1/account/audit-log", SettingsManage);
  ("POST /api/v1/auth/pats", TokenManage);
  ("GET /api/v1/auth/pats", TokenManage);
  ("DELETE /api/v1/auth/pats/:id", TokenManage);
  ("POST /api/v1/shopify/shops", SettingsManage);
  ("GET /api/v1/shopify/shops", SettingsManage);
  ("DELETE /api/v1/shopify/shops/:id", SettingsManage);
  ("GET /api/v1/audit", AuditView);
  ("GET /api/v1/billing/overview", BillingManage);
  ("GET /api/v1/billing/orders/:order_no", BillingManage);
  ("POST /api/v1/billing/subscribe", BillingManage);
  ("GET /api/v1/team/members", TeamManage);
  ("PATCH /api/v1/team/members/:account_id", TeamManage);
  ("DELETE /api/v1/team/members/:account_id", TeamManage);
  ("POST /api/v1/team/invites", TeamManage);
  ("GET /api/v1/team/invites", TeamManage);
  ("DELETE /api/v1/team/invites/:id", TeamManage)].

Definition ForRoute (method fullPath : string) : option Perm := RoutePerm !! (method ++ " " ++ fullPath).
(** ** What the tables guarantee *)

Lemma role_is_spec r s : reflect (r = s) (role_is r s).
Proof. apply String.eqb_spec. Qed.

(** Case analysis on every comparison of a role with a name. *)
Ltac role_cases :=
  repeat match goal with
  | |- context [role_is ?r ?s] => destruct (role_is_spec r s); subst
  | H : context [role_is ?r ?s] |- _ => destruct (role_is_spec r s); subst
  end; simplify_eq/=; try done.

Lemma FromPlatform_owner p m : FromPlatform p m = RoleOwner -> p = PlatformOwner.
Proof. unfold FromPlatform. intros H. role_cases. Qed.

Lemma FromPlatform_valid p m : Role_Valid (FromPlatform p m) = true.
Proof. unfold FromPlatform. role_cases. Qed.

Lemma NormalizeLegacy_owner role own :
  NormalizeLegacy role own = RoleOwner -> own = true \/ role = RoleOwner.
Proof. unfold NormalizeLegacy. destruct own; [by left|]. intros H. right. role_cases. Qed.

Lemma ToPlatform_Some r p m : ToPlatform r = Some (p, m) -> p = PlatformAdmin \/ p = PlatformMember.
Proof. unfold ToPlatform. intros H. role_cases; auto. Qed.

(** The platform gives back the role it was sent, whatever other products keep there. *)
Lemma FromPlatform_ToPlatform r p m pr :
  ToPlatform r = Some (p, m) -> pr_get pr ProductKey = pr_get m ProductKey -> FromPlatform p pr = r.
Proof.
  unfold ToPlatform, FromPlatform. intros H E.
  assert (K : forall s, pr_get {[ProductKey := s]} ProductKey = s).
  { intros s. unfold pr_get. by rewrite lookup_singleton_eq. }
  role_cases; rewrite K in *; congruence.
Qed.

Lemma CanAssign_not_owner a r : CanAssign a r = true -> r <> RoleOwner.
Proof. unfold CanAssign, staff. intros H ->. role_cases. Qed.

Lemma CanManage_not_owner a r : CanManage a r = true -> r <> RoleOwner.
Proof. unfold CanManage, staff. intros H ->. role_cases. Qed.

Lemma CanAssign_manages a r : CanAssign a r = true -> ManagesTeam a = true.
Proof. unfold CanAssign, ManagesTeam. intros H. role_cases. Qed.

(** Nobody hands out more than they hold. *)
Lemma CanAssign_subset a r : CanAssign a r = true -> Perms r ⊆ Perms a.
Proof.
  unfold CanAssign, staff, Role_Valid. intros H.
  assert (D : forall s t, bool_decide (Perms s ⊆ Perms t) = true -> Perms s ⊆ Perms t).
  { intros s t. apply bool_decide_eq_true_1. }
  role_cases; apply D; vm_compute; reflexivity.
Qed.

(** Billing and API keys are the owner's alone. *)
Lemma Allowed_owner_only r p : p = BillingManage \/ p = TokenManage -> Allowed r p = true -> r = RoleOwner.
Proof.
  intros Hp. unfold Allowed. destruct (matrix !! r) as [ps|] eqn:E; [|done].
  intros H%bool_decide_eq_true. apply elem_of_list_to_map_2 in E.
  rewrite !elem_of_cons, elem_of_nil in E.
  destruct E as [E|[E|[E|[E|[E|[]]]]]]; injection E as -> ->; [done|..];
    exfalso; revert H; apply (bool_decide_eq_false_1 (_ ∈ _)); destruct Hp as [-> | ->]; vm_compute; reflexivity.
Qed.
