(* ===== verification/OrgApi.v ===== *)
(** The platform organization API as the team use cases see it: the interfaces OrgClient,
    OrgDissolver and AccountResolver of src/internal/app/team/ports.go, and what the team use
    cases rely on.

    The platform keeps the members of each shop; it is another service.  [OrgClient] is the Go
    interface, over a state [P] only its implementation knows; [OrgLaws] is its contract about
    ownership: nothing but the creation of an organization makes an owner, and what a reply says
    about an owner is so.  DevOrg.v is the implementation the repository holds. *)
From S2P Require Import Prelude Safe Types Decimal Roles.
From stdpp Require Import base tactics strings gmap list.
From Stdlib Require Import ZArith Lia.

(** OrgMember *)
Record OrgMember := mkOrgMember {
  om_AccountID : Z;
  om_Role : string;
  om_ProductRoles : gmap string string;
  om_DisplayName : string;
  om_EmailMasked : string;
  om_PhoneMasked : string;
  om_JoinedAt : time;
}.

(** OrgInvite *)
Record OrgInvite := mkOrgInvite {
  oi_ID : uuid;
  oi_Role : string;
  oi_ProductRoles : gmap string string;
  oi_InvitedBy : Z;
  oi_ExpiresAt : time;
  oi_CreatedAt : time;
}.

(** InviteCreated *)
Record InviteCreated := mkInviteCreated {
  ic_InviteID : uuid;
  ic_Token : string;
  ic_ExpiresAt : time;
  ic_ShopName : string;
}.

(** AcceptResult *)
Record AcceptResult := mkAcceptResult {
  ar_OrgID : Z;
  ar_Role : string;
  ar_ProductRoles : gmap string string;
}.

(** What a call to the platform runs on: the platform's state and the count of driver calls,
    ids and clock readings of this process. *)
Record Remote (P : Type) := mkRemote { rm_state : P; rm_tick : nat }.
Arguments mkRemote {P} _ _.
Arguments rm_state {P} _.
Arguments rm_tick {P} _.

Section api.
Context {ops : DecimalOps}.

Definition RM (P : Type) : Type -> Type := stm (Remote P) error.

(** OrgClient; [DissolveOrg] is the optional interface OrgDissolver. *)
Class OrgClient (P : Type) := {
  EnsureOrg : string -> Z -> string -> string -> RM P Z;
  ListMembers : Z -> RM P (list OrgMember);
  GetMember : Z -> Z -> RM P OrgMember;
  UpdateMember : Z -> Z -> Z -> string -> gmap string string -> RM P unit;
  RemoveMember : Z -> Z -> Z -> RM P unit;
  CreateInvite : Z -> Z -> string -> gmap string string -> Z -> RM P InviteCreated;
  ListInvites : Z -> RM P (list OrgInvite);
  RevokeInvite : Z -> uuid -> Z -> RM P unit;
  AcceptInvite : string -> Z -> RM P AcceptResult;
  DissolveOrg : option (Z -> Z -> RM P unit);
}.

(** AccountResolver *)
Class AccountResolver (P : Type) := EnsureAccount : string -> string -> string -> RM P Z.

(** ** The contract *)

(** What can be asked about a state of the platform: its own consistency, which shop an
    organization was created for, whose account an id is, and who owns what. *)
Class OrgView (P : Type) := {
  plat_wf : P -> Prop;
  org_ref : P -> Z -> option (string * string);
  account_sub : P -> Z -> option string;
  is_org_owner : P -> Z -> Z -> Prop;
}.

Section view.
Context {P : Type} {view : OrgView P}.

(** From [p] to [p']: organizations and accounts stay what they are, and a new owner is one
    [fresh] allows for the shop the organization belongs to. *)
Record plat_step (fresh : Z -> string * string -> Prop) (p p' : P) : Prop := mkPlatStep {
  ps_org : forall o k, org_ref p o = Some k -> org_ref p' o = Some k;
  ps_account : forall a s, account_sub p a = Some s -> account_sub p' a = Some s;
  ps_owner : forall o a, is_org_owner p' o a ->
    is_org_owner p o a \/ exists k, org_ref p' o = Some k /\ fresh a k;
}.

#[export] Instance plat_step_preorder fresh : PreOrder (plat_step fresh).
Proof.
  split.
  - intros p. split; auto.
  - intros p q r [H1 H2 H3] [K1 K2 K3]. split; [auto..|].
    intros o a Ha. destruct (K3 o a Ha) as [Hq|Hk]; [|by right].
    destruct (H3 o a Hq) as [Hp|(k & Hk & Hf)]; [by left|]. right. exists k. auto.
Qed.

Lemma plat_step_weaken (f g : Z -> string * string -> Prop) p p' :
  (forall a k, f a k -> g a k) -> plat_step f p p' -> plat_step g p p'.
Proof.
  intros Hfg [H1 H2 H3]. split; [done..|]. intros o a Ha.
  destruct (H3 o a Ha) as [?|(k & Hk & Hf)]; [by left|]. right. exists k. auto.
Qed.

Definition no_owner : Z -> string * string -> Prop := fun _ _ => False.

(** The same, of the state a call runs on. *)
Definition remote_wf (s : Remote P) : Prop := plat_wf (rm_state s).
Definition remote_step fresh (s s' : Remote P) : Prop := plat_step fresh (rm_state s) (rm_state s').

#[export] Instance remote_step_preorder fresh : PreOrder (remote_step fresh).
Proof. split; intros s; unfold remote_step; [reflexivity|]. intros t u H K. by etrans. Qed.

(** A call that keeps the platform consistent, takes a step that [fresh] allows, and whose
    reply satisfies [Q]. *)
Definition plat_call {A} (fresh : Z -> string * string -> Prop) (m : RM P A) (Q : A -> P -> Prop) : Prop :=
  safe remote_wf (remote_step fresh) m (fun a s => Q a (rm_state s)).
End view.

Class OrgLaws (P : Type) (view : OrgView P) (org : OrgClient P) (acc : AccountResolver P) := {
  owner_in_org p o a : plat_wf p -> is_org_owner p o a -> exists k, org_ref p o = Some k;
  EnsureOrg_law name owner product ref :
    plat_call (fun a k => a = owner /\ k = (product, ref)) (EnsureOrg name owner product ref)
      (fun o p => org_ref p o = Some (product, ref));
  ListMembers_law o : plat_call no_owner (ListMembers o) (fun _ _ => True);
  GetMember_law o a : plat_call no_owner (GetMember o a)
      (fun m p => a <> 0%Z -> om_Role m = PlatformOwner -> is_org_owner p o a);
  UpdateMember_law o a actor role pr : plat_call no_owner (UpdateMember o a actor role pr) (fun _ _ => True);
  RemoveMember_law o a actor : plat_call no_owner (RemoveMember o a actor) (fun _ _ => True);
  CreateInvite_law o actor role pr ttl : plat_call no_owner (CreateInvite o actor role pr ttl) (fun _ _ => True);
  ListInvites_law o : plat_call no_owner (ListInvites o) (fun _ _ => True);
  RevokeInvite_law o i actor : plat_call no_owner (RevokeInvite o i actor) (fun _ _ => True);
  AcceptInvite_law token a : plat_call no_owner (AcceptInvite token a)
      (fun r p => ar_Role r = PlatformOwner -> is_org_owner p (ar_OrgID r) a);
  DissolveOrg_law d o actor : DissolveOrg = Some d -> plat_call no_owner (d o actor) (fun _ _ => True);
  EnsureAccount_law sub email name : plat_call no_owner (EnsureAccount sub email name)
      (fun a p => a <> 0%Z /\ account_sub p a = Some sub);
}.
End api.
