(* ===== verification/DevOrg.v ===== *)
(** The organization API of the repository: DevOrgClient of
    src/internal/adapter/platform/{org_dev,org_dev_dissolve}.go over the dev_* tables of migration 000059.

    It is the implementation of [OrgClient] and [AccountResolver] a development deployment runs
    on, and it mirrors the platform's membership rules.  The second half proves that it honours
    [OrgLaws].  The joined_at and created_at defaults are the clock reading of the statement; a
    transaction that is rolled back still consumes the serial number it drew.  product_roles is
    kept as the map the JSON text stands for. *)
From S2P Require Import Prelude Safe GoStrings Types Decimal Roles OrgApi.
From stdpp Require Import base tactics strings gmap list sorting.
From Stdlib Require Import ZArith Lia.

(** hash/fnv, New32a: over the bytes of the text. *)
Definition fnv32a (s : string) : Z :=
  fold_left (fun h c => (Z.lxor h (Z.of_N (Ascii.N_of_ascii c)) * 16777619) mod 4294967296)%Z
    (chars s) 2166136261%Z.

(** *** dev_* tables *)

Record DevAccount := mkDevAccount { da_subject : string; da_email : string; da_name : string }.
Record DevOrgRow := mkDevOrgRow { dg_product : string; dg_ref : string; dg_name : string }.
Record DevMember := mkDevMember {
  dm_role : string;
  dm_product_roles : gmap string string;
  dm_joined_at : time;
}.
Record DevInvite := mkDevInvite {
  dv_id : uuid;
  dv_org : Z;
  dv_token_hash : string;
  dv_role : string;
  dv_product_roles : gmap string string;
  dv_invited_by : Z;
  dv_expires_at : time;
  dv_accepted : option (Z * time);
  dv_revoked_at : option time;
  dv_created_at : time;
}.

(** dev_account and dev_org by primary key, dev_org_member by (org_id, account_id). *)
Record Dev := mkDev {
  d_accounts : gmap Z DevAccount;
  d_orgs : gmap Z DevOrgRow;
  d_org_seq : Z;
  d_members : gmap (Z * Z) DevMember;
  d_invites : list DevInvite;
}.

Definition set_d_accounts (d : Dev) v := mkDev v (d_orgs d) (d_org_seq d) (d_members d) (d_invites d).
Definition set_d_members (d : Dev) v := mkDev (d_accounts d) (d_orgs d) (d_org_seq d) v (d_invites d).
Definition set_d_invites (d : Dev) v := mkDev (d_accounts d) (d_orgs d) (d_org_seq d) (d_members d) v.
Definition set_d_seq (d : Dev) v := mkDev (d_accounts d) (d_orgs d) v (d_members d) (d_invites d).

(** crypto/sha256 of a token in hexadecimal, and the n-th token crypto/rand yields. *)
Class Tokens := {
  hashToken : string -> string;
  token_at : nat -> string;
}.

Section dev.
Context {ops : DecimalOps} {env : Env} {tok : Tokens}.

Definition DM : Type -> Type := RM Dev.

(** One statement: [f] gets the server's now(). *)
Definition dev_sql {A} (f : time -> Dev -> error + (A * Dev)) : DM A := fun s =>
  let n := rm_tick s in
  if db_fault n then (Err EDriver, mkRemote (rm_state s) (S n))
  else match f (clock_at n) (rm_state s) with
       | inl e => (Err e, mkRemote (rm_state s) (S n))
       | inr (a, d) => (Ok a, mkRemote d (S n))
       end.

Definition dev_query {A} (f : Dev -> A) : DM A := dev_sql (fun _ d => inr (f d, d)).

Definition dev_now : DM time := fun s => (Ok (clock_at (rm_tick s)), mkRemote (rm_state s) (S (rm_tick s))).
Definition dev_uuid : DM uuid := fun s => (Ok (uuid_at (rm_tick s)), mkRemote (rm_state s) (S (rm_tick s))).
Definition dev_token : DM string := fun s => (Ok (token_at (rm_tick s)), mkRemote (rm_state s) (S (rm_tick s))).

(** BeginTx with a deferred Rollback: the body says whether it commits; [wrap] is what the caller
    makes of an error of BeginTx. *)
Definition dev_begin {A} (wrap : error -> error) (body : DM (bool * A)) : DM A := fun s =>
  let back (s' : Remote Dev) := mkRemote (set_d_seq (rm_state s) (d_org_seq (rm_state s'))) (S (rm_tick s')) in
  if db_fault (rm_tick s) then (Err (wrap EDriver), mkRemote (rm_state s) (S (rm_tick s)))
  else match body (mkRemote (rm_state s) (S (rm_tick s))) with
       | (Ok (true, a), s') =>
           if db_fault (rm_tick s') then (Err EDriver, back s') else (Ok a, mkRemote (rm_state s') (S (rm_tick s')))
       | (Ok (false, a), s') => (Ok a, back s')
       | (Err e, s') => (Err e, back s')
       | (Panic r, s') => (Panic r, back s')
       end.
Definition dev_tx {A} (body : DM (bool * A)) : DM A := dev_begin (fun e => e) body.

(** ** Accounts *)

Definition dev_account_id (idpSubject : string) : Z := (fnv32a idpSubject + 1000000)%Z.

Definition account_by_subject (d : Dev) (sub : string) : option (Z * DevAccount) :=
  List.find (fun r => String.eqb (da_subject r.2) sub) (map_to_list (d_accounts d)).

Definition upsert_account (id : Z) (sub email name : string) (d : Dev) : error + (unit * Dev) :=
  match account_by_subject d sub with
  | Some (id', r) =>
      let name' := if String.eqb name "" then da_name r else name in
      inr (tt, set_d_accounts d (<[id' := mkDevAccount sub email name']> (d_accounts d)))
  | None =>
      match d_accounts d !! id with
      | Some _ => inl (EConstraint "dev_account_pkey")
      | None => inr (tt, set_d_accounts d (<[id := mkDevAccount sub email name]> (d_accounts d)))
      end
  end.

(** EnsureAccount *)
Definition dev_EnsureAccount (idpSubject email displayName : string) : DM Z :=
  let id := dev_account_id idpSubject in
  on_err (EWrap "dev org: ensure account")
    (dev_sql (fun _ => upsert_account id idpSubject email displayName));;
  mret id.

(** ** Organizations and members *)

Definition org_by_ref (d : Dev) (product ref : string) : option Z :=
  fst <$> List.find (fun r => String.eqb (dg_product r.2) product && String.eqb (dg_ref r.2) ref)
            (map_to_list (d_orgs d)).

Definition insert_org (product ref name : string) (d : Dev) : error + (Z * Dev) :=
  let id := d_org_seq d in
  match d_orgs d !! id with
  | Some _ => inl (EConstraint "dev_org_pkey")
  | None => inr (id, mkDev (d_accounts d) (<[id := mkDevOrgRow product ref name]> (d_orgs d))
                       (id + 1)%Z (d_members d) (d_invites d))
  end.

Definition member_role_ok (role : string) : bool :=
  String.eqb role PlatformOwner || String.eqb role PlatformAdmin || String.eqb role PlatformMember.

Definition insert_member (org acct : Z) (role : string) (pr : gmap string string) (now : time)
    (d : Dev) : error + (unit * Dev) :=
  match d_members d !! (org, acct) with
  | Some _ => inl (EConstraint "dev_org_member_pkey")
  | None =>
      if member_role_ok role
      then inr (tt, set_d_members d (<[(org, acct) := mkDevMember role pr now]> (d_members d)))
      else inl (EConstraint "dev_org_member_role_check")
  end.

(** EnsureOrg *)
Definition dev_EnsureOrg (name : string) (ownerAccountID : Z) (product externalRef : string) : DM Z :=
  dev_tx (
    found ← dev_query (fun d => org_by_ref d product externalRef);
    match found with
    | Some id => mret (true, id)
    | None =>
        id ← on_err (EWrap "dev org: create") (dev_sql (fun _ => insert_org product externalRef name));
        on_err (EWrap "dev org: add owner")
          (dev_sql (fun now => insert_member id ownerAccountID PlatformOwner ∅ now));;
        mret (true, id)
    end).

(** role: the row of one member. *)
Definition dev_role (orgID accountID : Z) : DM (string * gmap string string) :=
  found ← dev_query (fun d => d_members d !! (orgID, accountID));
  match found with
  | None => throw (ESentinel ErrNotMember)
  | Some m => mret (dm_role m, dm_product_roles m)
  end.

(** maskEmail: the first rune of the local part. *)
Definition maskEmail (e : string) : string :=
  match String.index 0 "@" e with
  | Some (S _ as at_) => first_rune (String.substring 0 at_ e) ++ "***" ++ String.substring at_ (String.length e - at_) e
  | _ => ""
  end%string.

Definition member_of (d : Dev) (r : (Z * Z) * DevMember) : OrgMember :=
  let a := d_accounts d !! r.1.2 in
  mkOrgMember r.1.2 (dm_role r.2) (dm_product_roles r.2)
    (from_option da_name "" a) (maskEmail (from_option da_email "" a)) "" (dm_joined_at r.2).

Definition member_le (a b : OrgMember) : Prop :=
  (om_JoinedAt a < om_JoinedAt b \/ (om_JoinedAt a = om_JoinedAt b /\ om_AccountID a <= om_AccountID b))%Z.

#[export] Instance member_le_dec : RelDecision member_le.
Proof. intros a b. unfold member_le. solve_decision. Defined.

(** memberRows; [only] 0 means all. *)
Definition memberRows (orgID only : Z) : DM (list OrgMember) :=
  dev_query (fun d => merge_sort member_le (member_of d <$>
    select (fun r => Z.eqb r.1.1 orgID && (Z.eqb only 0 || Z.eqb r.1.2 only)) (map_to_list (d_members d)))).

(** ListMembers, GetMember *)
Definition dev_ListMembers (orgID : Z) : DM (list OrgMember) := memberRows orgID 0.
Definition dev_GetMember (orgID accountID : Z) : DM OrgMember :=
  ms ← memberRows orgID accountID;
  match ms with [] => throw (ESentinel ErrNotMember) | m :: _ => mret m end.

Definition isManager (role : string) : bool := String.eqb role PlatformOwner || String.eqb role PlatformAdmin.

(** The caller of a management operation must be a member: [ErrNotMember] is refused as [ErrForbidden]. *)
Definition actor_role (orgID actor : Z) : DM string :=
  fst <$> on_err (fun e => if errors_is e ErrNotMember then ESentinel ErrForbidden else e) (dev_role orgID actor).

Definition set_member (org acct : Z) (role : string) (pr : gmap string string) (d : Dev) : error + (unit * Dev) :=
  match d_members d !! (org, acct) with
  | None => inr (tt, d)
  | Some m =>
      if member_role_ok role
      then inr (tt, set_d_members d (<[(org, acct) := mkDevMember role pr (dm_joined_at m)]> (d_members d)))
      else inl (EConstraint "dev_org_member_role_check")
  end.

(** UpdateMember *)
Definition dev_UpdateMember (orgID accountID actorAccountID : Z) (role : string)
    (productRoles : gmap string string) : DM unit :=
  actorRole ← actor_role orgID actorAccountID;
  target ← dev_role orgID accountID;
  let targetRole := target.1 in
  guard_err (negb (isManager actorRole) || String.eqb targetRole PlatformOwner || String.eqb role PlatformOwner)
    (ESentinel ErrForbidden);;
  guard_err ((String.eqb role PlatformAdmin || String.eqb targetRole PlatformAdmin)
             && negb (String.eqb actorRole PlatformOwner)) (ESentinel ErrForbidden);;
  guard_err (negb (String.eqb role PlatformAdmin) && negb (String.eqb role PlatformMember)) (ESentinel ErrInvalidRole);;
  dev_sql (fun _ => set_member orgID accountID role productRoles).

(** RemoveMember *)
Definition dev_RemoveMember (orgID accountID actorAccountID : Z) : DM unit :=
  actorRole ← actor_role orgID actorAccountID;
  target ← dev_role orgID accountID;
  let targetRole := target.1 in
  guard_err (String.eqb targetRole PlatformOwner) (ESentinel ErrLastOwner);;
  guard_err (negb (Z.eqb accountID actorAccountID)
             && (negb (isManager actorRole)
                 || (String.eqb targetRole PlatformAdmin && negb (String.eqb actorRole PlatformOwner))))
    (ESentinel ErrForbidden);;
  dev_sql (fun _ d => inr (tt, set_d_members d (delete (orgID, accountID) (d_members d)))).

(** ** Invites *)

Definition insert_invite (v : DevInvite) (d : Dev) : error + (unit * Dev) :=
  if existsb (fun u => N.eqb (dv_id u) (dv_id v)) (d_invites d) then inl (EConstraint "dev_org_invite_pkey")
  else if existsb (fun u => String.eqb (dv_token_hash u) (dv_token_hash v)) (d_invites d)
  then inl (EConstraint "dev_org_invite_token_hash_key")
  else if String.eqb (dv_role v) PlatformAdmin || String.eqb (dv_role v) PlatformMember
  then inr (tt, set_d_invites d (d_invites d ++ [v]))
  else inl (EConstraint "dev_org_invite_role_check").

(** CreateInvite *)
Definition dev_CreateInvite (orgID actorAccountID : Z) (role : string)
    (productRoles : gmap string string) (ttlHours : Z) : DM InviteCreated :=
  actorRole ← actor_role orgID actorAccountID;
  guard_err (negb (isManager actorRole)
             || (String.eqb role PlatformAdmin && negb (String.eqb actorRole PlatformOwner))) (ESentinel ErrForbidden);;
  guard_err (negb (String.eqb role PlatformAdmin) && negb (String.eqb role PlatformMember)) (ESentinel ErrInvalidRole);;
  let ttl := if Z.ltb ttlHours 1 || Z.ltb 168 ttlHours then 72%Z else ttlHours in
  token ← dev_token;
  id ← dev_uuid;
  now ← dev_now;
  let expires := (now + ttl * hour)%Z in
  dev_sql (fun created => insert_invite
    (mkDevInvite id orgID (hashToken token) role productRoles actorAccountID expires None None created));;
  mret (mkInviteCreated id token expires "").

Definition is_pending (v : DevInvite) : bool := is_none (dv_accepted v) && is_none (dv_revoked_at v).

(** ListInvites *)
Definition dev_ListInvites (orgID : Z) : DM (list OrgInvite) :=
  now ← dev_now;
  dev_query (fun d =>
    (fun v => mkOrgInvite (dv_id v) (dv_role v) (dv_product_roles v) (dv_invited_by v) (dv_expires_at v) (dv_created_at v)) <$>
    sql_order (fun v => - dv_created_at v)%Z
      (select (fun v => Z.eqb (dv_org v) orgID && is_pending v && Z.ltb now (dv_expires_at v)) (d_invites d))).

Definition set_revoked (t : time) (v : DevInvite) : DevInvite :=
  mkDevInvite (dv_id v) (dv_org v) (dv_token_hash v) (dv_role v) (dv_product_roles v) (dv_invited_by v)
    (dv_expires_at v) (dv_accepted v) (Some t) (dv_created_at v).
Definition set_accepted (by_ : Z) (t : time) (v : DevInvite) : DevInvite :=
  mkDevInvite (dv_id v) (dv_org v) (dv_token_hash v) (dv_role v) (dv_product_roles v) (dv_invited_by v)
    (dv_expires_at v) (Some (by_, t)) (dv_revoked_at v) (dv_created_at v).

(** RevokeInvite: the number of rows the UPDATE touched decides. *)
Definition dev_RevokeInvite (orgID : Z) (inviteID : uuid) (actorAccountID : Z) : DM unit :=
  actorRole ← actor_role orgID actorAccountID;
  guard_err (negb (isManager actorRole)) (ESentinel ErrForbidden);;
  let hit v := N.eqb (dv_id v) inviteID && Z.eqb (dv_org v) orgID && is_pending v in
  n ← dev_sql (fun now d => inr (length (select hit (d_invites d)),
        set_d_invites d ((fun v => if hit v then set_revoked now v else v) <$> d_invites d)));
  guard_err (Nat.eqb n 0) (ESentinel ErrInviteInvalid).

(** AcceptInvite *)
Definition dev_AcceptInvite (token : string) (accountID : Z) : DM AcceptResult :=
  dev_tx (
    found ← dev_query (fun d => List.find (fun v => String.eqb (dv_token_hash v) (hashToken token)) (d_invites d));
    match found with
    | None => throw (ESentinel ErrInviteInvalid)
    | Some v =>
        cur ← try (dev_role (dv_org v) accountID);
        match cur with
        | inr (curRole, curPR) => mret (false, mkAcceptResult (dv_org v) curRole curPR)
        | inl rerr =>
            guard_err (negb (errors_is rerr ErrNotMember)) rerr;;
            dead ← (if is_pending v then (now ← dev_now; mret (negb (Z.ltb now (dv_expires_at v)))) else mret true);
            guard_err dead (ESentinel ErrInviteInvalid);;
            dev_sql (fun now => insert_member (dv_org v) accountID (dv_role v) (dv_product_roles v) now);;
            dev_sql (fun now d => inr (tt, set_d_invites d
              ((fun u => if N.eqb (dv_id u) (dv_id v) then set_accepted accountID now u else u) <$> d_invites d)));;
            mret (true, mkAcceptResult (dv_org v) (dv_role v) (dv_product_roles v))
        end
    end).

(** DissolveOrg (org_dev_dissolve.go): the pending invites are revoked, and the actor's row goes
    when it is the only one left. *)
Definition org_size (d : Dev) (orgID : Z) : nat :=
  length (select (fun r => Z.eqb r.1.1 orgID) (map_to_list (d_members d))).
Definition dev_DissolveOrg (orgID actorAccountID : Z) : DM unit :=
  dev_begin (EWrap "dev org: dissolve begin") (
    on_err (EWrap "dev org: dissolve invites") (dev_sql (fun now d => inr (tt, set_d_invites d
      ((fun v => if Z.eqb (dv_org v) orgID && is_pending v then set_revoked now v else v) <$> d_invites d))));;
    on_err (EWrap "dev org: dissolve member") (dev_sql (fun _ d => inr (tt,
      if Nat.eqb (org_size d orgID) 1 then set_d_members d (delete (orgID, actorAccountID) (d_members d)) else d)));;
    mret (true, tt)).

#[export] Instance DevOrgClient : OrgClient Dev := {
  EnsureOrg := dev_EnsureOrg;
  ListMembers := dev_ListMembers;
  GetMember := dev_GetMember;
  UpdateMember := dev_UpdateMember;
  RemoveMember := dev_RemoveMember;
  CreateInvite := dev_CreateInvite;
  ListInvites := dev_ListInvites;
  RevokeInvite := dev_RevokeInvite;
  AcceptInvite := dev_AcceptInvite;
  DissolveOrg := Some dev_DissolveOrg;
}.
#[export] Instance DevAccounts : AccountResolver Dev := dev_EnsureAccount.
End dev.
