(* ===== verification/DevOrgLaws.v ===== *)
(** DevOrg.v honours the contract of OrgApi.v: whatever the team use cases ask of it, in any
    order, nobody becomes an owner except the account an organization is created for. *)
From S2P Require Import Prelude Safe GoStrings Types Decimal Roles OrgApi DevOrg.
From stdpp Require Import base tactics strings gmap list sorting.
From Stdlib Require Import ZArith Lia.

Section laws.
Context {ops : DecimalOps} {env : Env} {tok : Tokens}.

(** Account ids are the hash of their subject, invites never offer ownership, and an owner is
    the owner of something. *)
Record dev_wf (d : Dev) : Prop := mkDevWf {
  dw_account : forall a r, d_accounts d !! a = Some r -> a = dev_account_id (da_subject r);
  dw_invite : forall v, v ∈ d_invites d -> dv_role v <> PlatformOwner;
  dw_org : forall o a m, d_members d !! (o, a) = Some m -> dm_role m = PlatformOwner -> is_Some (d_orgs d !! o);
}.

#[export] Instance DevView : OrgView Dev := {
  plat_wf := dev_wf;
  org_ref d o := (fun r => (dg_product r, dg_ref r)) <$> d_orgs d !! o;
  account_sub d a := da_subject <$> d_accounts d !! a;
  is_org_owner d o a := dm_role <$> d_members d !! (o, a) = Some PlatformOwner;
}.

Abbreviation dev_triple fresh := (triple (E:=error) (remote_wf (P:=Dev)) (remote_step fresh)).

(** What one statement has to do. *)
Lemma dev_sql_triple {A} fresh P (f : time -> Dev -> error + (A * Dev)) (Q : A -> Remote Dev -> Prop) :
  (forall now s a d n, dev_wf (rm_state s) -> P s -> f now (rm_state s) = inr (a, d) ->
     dev_wf d /\ plat_step fresh (rm_state s) d /\ Q a (mkRemote d n)) ->
  dev_triple fresh P (dev_sql f) Q.
Proof.
  unfold remote_wf, remote_step. intros H s r s' Hs HP. unfold dev_sql. destruct (db_fault _); [intros [= <- <-]; by split_and!|].
  destruct (f _ _) as [e|[a d]] eqn:Ef; intros [= <- <-]; [by split_and!|].
  destruct (H _ _ _ _ (S (rm_tick s)) Hs HP Ef) as (Hw & Hr & Hq). split_and!; [done..|]. by intros b [= <-].
Qed.

Lemma dev_query_triple {A} fresh P (f : Dev -> A) (Q : A -> Remote Dev -> Prop) :
  (forall s n, P s -> Q (f (rm_state s)) (mkRemote (rm_state s) n)) -> dev_triple fresh P (dev_query f) Q.
Proof. intros H. apply dev_sql_triple. intros now s a d n Hw HP [= <- <-]. by split_and!; [..|apply H]. Qed.

Lemma dev_draw_triple {A} fresh P (m : DM A) : (forall s, exists a, m s = (Ok a, mkRemote (rm_state s) (S (rm_tick s)))) ->
  dev_triple fresh P m (fun _ _ => True).
Proof. unfold remote_wf, remote_step. intros H s r s' Hs HP Hr. destruct (H s) as [a Ha]. rewrite Ha in Hr. injection Hr as <- <-. by split_and!. Qed.

Lemma dev_now_triple fresh P : dev_triple fresh P dev_now (fun _ _ => True).
Proof. apply dev_draw_triple. intros s. by eexists. Qed.
Lemma dev_uuid_triple fresh P : dev_triple fresh P dev_uuid (fun _ _ => True).
Proof. apply dev_draw_triple. intros s. by eexists. Qed.
Lemma dev_token_triple fresh P : dev_triple fresh P dev_token (fun _ _ => True).
Proof. apply dev_draw_triple. intros s. by eexists. Qed.

Lemma set_d_seq_step fresh d z : plat_step fresh d (set_d_seq d z).
Proof. split; simpl; auto. Qed.
Lemma set_d_seq_wf d z : dev_wf d -> dev_wf (set_d_seq d z).
Proof. by intros []. Qed.

(** A transaction: a reply given without a commit has to hold of the state before it. *)
Lemma dev_begin_triple {A} fresh wrap (body : DM (bool * A)) (Qb : bool * A -> Dev -> Prop) (Q : A -> Dev -> Prop) :
  dev_triple fresh (fun _ => True) body (fun v s => Qb v (rm_state s)) ->
  (forall a d, Qb (true, a) d -> Q a d) ->
  (forall a d d' z, plat_step fresh d d' -> Qb (false, a) d' -> Q a (set_d_seq d z)) ->
  dev_triple fresh (fun _ => True) (dev_begin wrap body) (fun a s => Q a (rm_state s)).
Proof.
  unfold remote_wf, remote_step. intros Hb HQt HQf s r s' Hs _. unfold dev_begin.
  destruct (db_fault _); [intros [= <- <-]; by split_and!|].
  destruct (body _) as [o s1] eqn:Eb. pose proof (Hb (mkRemote (rm_state s) (S (rm_tick s))) o s1 Hs I Eb) as (Hw & Hr & Hq).
  pose proof (set_d_seq_wf _ (d_org_seq (rm_state s1)) Hs) as Hw'.
  pose proof (set_d_seq_step fresh (rm_state s) (d_org_seq (rm_state s1))) as Hr'.
  destruct o as [[[|] a]|e|w]; simpl; [destruct (db_fault _)|..]; intros [= <- <-]; split_and!; try done;
    intros b [= <-]; simpl; [exact (HQt _ _ (Hq _ eq_refl))|]. eapply HQf; [exact Hr|exact (Hq _ eq_refl)].
Qed.

(** *** The statements *)

Lemma upsert_account_ok fresh sub email name d u d' :
  dev_wf d -> upsert_account (dev_account_id sub) sub email name d = inr (u, d') ->
  dev_wf d' /\ plat_step fresh d d' /\ account_sub d' (dev_account_id sub) = Some sub.
Proof.
  intros Hw. unfold upsert_account.
  assert (Hwf : forall r, da_subject r = sub -> dev_wf (set_d_accounts d (<[dev_account_id sub := r]> (d_accounts d)))).
  { intros r Er. destruct Hw as [Ha Hi Ho]. split; [|done..]. simpl. intros a r'.
    destruct (decide (a = dev_account_id sub)) as [->|n].
    - rewrite lookup_insert_eq. intros [= <-]. by rewrite Er.
    - rewrite lookup_insert_ne by done. apply Ha. }
  destruct (account_by_subject d sub) as [[id' r]|] eqn:Ef.
  - intros [= <- <-]. apply List.find_some in Ef as [Hin Es]. apply String.eqb_eq in Es. simpl in Es.
    rewrite <- list_elem_of_In, elem_of_map_to_list in Hin.
    assert (id' = dev_account_id sub) as -> by (rewrite <- Es; by apply dw_account in Hin).
    split_and!; [by apply Hwf| |by simpl; rewrite lookup_insert_eq].
    split; simpl; [auto| |auto]. intros a s. destruct (decide (a = dev_account_id sub)) as [->|n].
    + rewrite lookup_insert_eq, Hin. simpl. congruence.
    + by rewrite lookup_insert_ne.
  - destruct (d_accounts d !! dev_account_id sub) eqn:En; [done|]. intros [= <- <-].
    split_and!; [by apply Hwf| |by simpl; rewrite lookup_insert_eq].
    split; simpl; [auto| |auto]. intros a s. destruct (decide (a = dev_account_id sub)) as [->|n].
    + by rewrite En.
    + by rewrite lookup_insert_ne.
Qed.

Lemma org_by_ref_Some d product ref o :
  org_by_ref d product ref = Some o -> org_ref d o = Some (product, ref).
Proof.
  unfold org_by_ref. intros ([id r] & Hf & E)%fmap_Some. simpl in E. subst id.
  apply List.find_some in Hf as [Hin Hk]. simpl in Hk. apply andb_prop in Hk as [<-%String.eqb_eq <-%String.eqb_eq].
  rewrite <- list_elem_of_In, elem_of_map_to_list in Hin. simpl. by rewrite Hin.
Qed.

Lemma insert_org_ok fresh product ref name d o d' :
  dev_wf d -> insert_org product ref name d = inr (o, d') ->
  dev_wf d' /\ plat_step fresh d d' /\ org_ref d' o = Some (product, ref).
Proof.
  intros Hw. unfold insert_org. destruct (d_orgs d !! d_org_seq d) eqn:En; [done|]. intros [= <- <-].
  split_and!; [| |by simpl; rewrite lookup_insert_eq].
  { destruct Hw as [Ha Hi Ho]. split; [done..|]. simpl. intros o a m Hm Hr. apply lookup_insert_is_Some'.
    right. by eapply Ho. }
  split; simpl; [|auto..]. intros o k. destruct (decide (o = d_org_seq d)) as [->|n].
  - by rewrite En.
  - by rewrite lookup_insert_ne.
Qed.

(** A member row that is written is an owner row only when its role says so. *)
Lemma put_member_step (fresh : Z -> string * string -> Prop) d o a m :
  dev_wf d -> (dm_role m = PlatformOwner -> exists k, org_ref d o = Some k /\ fresh a k) ->
  dev_wf (set_d_members d (<[(o, a) := m]> (d_members d))) /\
  plat_step fresh d (set_d_members d (<[(o, a) := m]> (d_members d))).
Proof.
  intros [Ha Hi Ho] Hm. split.
  { split; [done..|]. simpl. intros o' a' m'. destruct (decide ((o, a) = (o', a'))) as [[= <- <-]|n].
    - rewrite lookup_insert_eq. intros [= <-] Hr. destruct (Hm Hr) as (k & Hk & _). simpl in Hk.
      destruct (d_orgs d !! o); [done|discriminate].
    - rewrite lookup_insert_ne by done. eapply Ho. }
  split; simpl; [auto..|]. intros o' a'.
  destruct (decide ((o, a) = (o', a'))) as [[= <- <-]|n].
  - rewrite lookup_insert_eq. simpl. intros [= E]. right. auto.
  - rewrite lookup_insert_ne by done. auto.
Qed.

Lemma insert_member_ok (fresh : Z -> string * string -> Prop) o a role pr now d u d' :
  dev_wf d -> (role = PlatformOwner -> exists k, org_ref d o = Some k /\ fresh a k) ->
  insert_member o a role pr now d = inr (u, d') -> dev_wf d' /\ plat_step fresh d d'.
Proof.
  intros Hw Hf. unfold insert_member. destruct (_ !! _); [done|]. destruct (member_role_ok _); [|done].
  intros [= <- <-]. by apply put_member_step.
Qed.

Lemma set_member_ok fresh o a role pr d u d' :
  dev_wf d -> role <> PlatformOwner -> set_member o a role pr d = inr (u, d') ->
  dev_wf d' /\ plat_step fresh d d'.
Proof.
  intros Hw Hf. unfold set_member. destruct (_ !! _); [|by intros [= <- <-]; split].
  destruct (member_role_ok _); [|done]. intros [= <- <-]. by apply put_member_step.
Qed.

Lemma delete_member_ok fresh o a d :
  dev_wf d -> dev_wf (set_d_members d (delete (o, a) (d_members d))) /\
  plat_step fresh d (set_d_members d (delete (o, a) (d_members d))).
Proof.
  intros [Ha Hi Ho]. split.
  { split; [done..|]. simpl. intros o' a' m' [_ Hm]%lookup_delete_Some. by eapply Ho. }
  split; simpl; [auto..|]. intros o' a'.
  destruct (decide ((o, a) = (o', a'))) as [[= <- <-]|n].
  - by rewrite lookup_delete_eq.
  - rewrite lookup_delete_ne by done. auto.
Qed.

Lemma set_invites_ok fresh d l :
  dev_wf d -> (forall v, v ∈ l -> dv_role v <> PlatformOwner) ->
  dev_wf (set_d_invites d l) /\ plat_step fresh d (set_d_invites d l).
Proof. intros [Ha Hi Ho] Hl. split; [by split|]. split; simpl; auto. Qed.

Lemma map_invites_ok fresh d (f : DevInvite -> DevInvite) :
  dev_wf d -> (forall v, dv_role (f v) = dv_role v) ->
  dev_wf (set_d_invites d (f <$> d_invites d)) /\ plat_step fresh d (set_d_invites d (f <$> d_invites d)).
Proof.
  intros Hw Hf. apply set_invites_ok; [done|].
  intros v (u & -> & Hu)%list_elem_of_fmap. rewrite Hf. by apply (dw_invite _ Hw).
Qed.

Lemma insert_invite_ok fresh v d u d' :
  dev_wf d -> insert_invite v d = inr (u, d') -> dev_wf d' /\ plat_step fresh d d'.
Proof.
  intros Hw. unfold insert_invite. destruct (existsb _ _); [done|]. destruct (existsb _ _); [done|].
  destruct (String.eqb (dv_role v) PlatformAdmin || _) eqn:Er; [|done]. intros [= <- <-].
  apply set_invites_ok; [done|]. intros x [Hx|Hx]%elem_of_app; [by apply (dw_invite _ Hw)|].
  apply list_elem_of_singleton in Hx as ->. intros E. by rewrite E in Er.
Qed.

(** *** The operations *)

Lemma step_keeps_nobody d d' o a :
  plat_step no_owner d d' -> is_org_owner d' o a -> is_org_owner d o a.
Proof. intros [_ _ H] K. by destruct (H o a K) as [|(k & _ & [])]. Qed.

Lemma dev_role_triple P o a : dev_triple no_owner P (dev_role o a)
  (fun r s => r.1 = PlatformOwner -> is_org_owner (rm_state s) o a).
Proof.
  apply triple_any. unfold dev_role. rule triple_bind; [apply stable_pure| |].
  - apply (dev_query_triple no_owner _ _ (fun m s => m = d_members (rm_state s) !! (o, a))). done.
  - intros [m|]; [|rule triple_throw]. rule triple_ret. simpl. intros s _ [E _] Hm.
    rewrite <- E. simpl. by f_equal.
Qed.

Lemma actor_role_triple P o a : dev_triple no_owner P (actor_role o a) (fun _ _ => True).
Proof.
  apply triple_any. unfold actor_role. apply triple_fmap, triple_on_err.
  eapply triple_weaken; [apply (dev_role_triple (fun _ => True)) | done..].
Qed.

(** Walks an operation whose replies matter only as values. *)
Ltac dev_step :=
  lazymatch goal with
  | |- triple _ _ _ (guard_err _ _ ≫= _) _ =>
      rule triple_guard; [apply stable_pure | intros ?]
  | |- triple _ _ _ (_ ≫= _) _ =>
      rule triple_then; [apply stable_pure | | intros ?]
  | |- triple _ _ _ (actor_role _ _) _ => apply actor_role_triple
  | |- triple _ _ _ (dev_role _ _) _ => eapply triple_weaken; [apply dev_role_triple | done..]
  | |- triple _ _ _ dev_now _ => apply dev_now_triple
  | |- triple _ _ _ dev_uuid _ => apply dev_uuid_triple
  | |- triple _ _ _ dev_token _ => apply dev_token_triple
  | |- triple _ _ _ (guard_err _ _) _ => eapply triple_weaken; [rule triple_guard_err | done..]
  | |- triple _ _ _ (dev_query _) _ => by apply dev_query_triple
  | |- triple _ _ _ (throw _) _ => rule triple_throw
  | |- triple _ _ _ (on_err _ _) _ => apply triple_on_err
  | |- triple _ _ _ (mret _) _ => by rule triple_ret
  | |- triple _ _ _ (if ?b then _ else _) _ => destruct b eqn:?
  end.
Ltac dev_walk := repeat dev_step.

Lemma eqb_neq' r s : String.eqb r s = false -> r <> s.
Proof. by intros ?%String.eqb_neq. Qed.

Lemma dev_UpdateMember_law o a actor role pr :
  plat_call no_owner (dev_UpdateMember o a actor role pr) (fun _ _ => True).
Proof.
  apply safe_triple. unfold dev_UpdateMember. dev_walk.
  apply dev_sql_triple. intros now s u d n Hw _ Hs.
  assert (role <> PlatformOwner) as Hr by (apply eqb_neq'; by destruct (String.eqb role PlatformOwner); rewrite ?orb_true_r in *).
  destruct (set_member_ok no_owner _ _ _ _ _ _ _ Hw Hr Hs). by split_and!.
Qed.

Lemma dev_RemoveMember_law o a actor : plat_call no_owner (dev_RemoveMember o a actor) (fun _ _ => True).
Proof.
  apply safe_triple. unfold dev_RemoveMember. dev_walk.
  apply dev_sql_triple. intros now s u d n Hw _ [= <- <-].
  destruct (delete_member_ok no_owner o a _ Hw). by split_and!.
Qed.

Lemma dev_CreateInvite_law o actor role pr ttl :
  plat_call no_owner (dev_CreateInvite o actor role pr ttl) (fun _ _ => True).
Proof.
  apply safe_triple. unfold dev_CreateInvite. dev_walk.
  apply dev_sql_triple. intros now s u d n Hw _ Hs.
  destruct (insert_invite_ok no_owner _ _ _ _ Hw Hs). by split_and!.
Qed.

Lemma dev_ListInvites_law o : plat_call no_owner (dev_ListInvites o) (fun _ _ => True).
Proof. apply safe_triple. unfold dev_ListInvites. dev_walk. Qed.

Lemma dev_RevokeInvite_law o i actor : plat_call no_owner (dev_RevokeInvite o i actor) (fun _ _ => True).
Proof.
  apply safe_triple. unfold dev_RevokeInvite. dev_walk.
  apply dev_sql_triple. intros now s u d n Hw _ [= <- <-].
  destruct (map_invites_ok no_owner _ (fun v => if N.eqb (dv_id v) i && Z.eqb (dv_org v) o && is_pending v
    then set_revoked now v else v) Hw). { intros v. by destruct (_ && _). }
  by split_and!.
Qed.

Lemma dev_ListMembers_law o : plat_call no_owner (dev_ListMembers o) (fun _ _ => True).
Proof. apply safe_triple. unfold dev_ListMembers, memberRows. dev_walk. Qed.

Lemma dev_GetMember_law o a : plat_call no_owner (dev_GetMember o a)
  (fun m p => a <> 0%Z -> om_Role m = PlatformOwner -> is_org_owner p o a).
Proof.
  apply safe_triple. unfold dev_GetMember, memberRows.
  rule triple_bind; [apply stable_pure| |].
  - apply (dev_query_triple no_owner _ _ (fun ms s => forall m, m ∈ ms -> a <> 0%Z ->
      exists r, d_members (rm_state s) !! (o, a) = Some r /\ dm_role r = om_Role m)).
    intros s n _ m. rewrite merge_sort_Permutation. intros ([[o' a'] r] & -> & Hin)%list_elem_of_fmap Ha.
    apply elem_of_select in Hin as [Hc Hin]. rewrite elem_of_map_to_list in Hin. simpl in *.
    apply andb_prop in Hc as [->%Z.eqb_eq [?%Z.eqb_eq| ->%Z.eqb_eq]%orb_prop]; [done|]. by exists r.
  - intros [|m ms]; [rule triple_throw|]. rule triple_ret. simpl. intros s _ [Hm _] Ha Hr.
    destruct (Hm m (list_elem_of_here _ _) Ha) as (r & Hr' & E). rewrite Hr'. simpl. congruence.
Qed.

Lemma dev_EnsureAccount_law sub email name : plat_call no_owner (dev_EnsureAccount sub email name)
  (fun a p => a <> 0%Z /\ account_sub p a = Some sub).
Proof.
  apply safe_triple. unfold dev_EnsureAccount.
  rule triple_bind; [apply stable_pure|apply triple_on_err|intros []; rule triple_ret].
  - apply (dev_sql_triple no_owner _ _ (fun _ s => account_sub (rm_state s) (dev_account_id sub) = Some sub)).
    intros now s u d n Hw _ Hu. by eapply upsert_account_ok.
  - intros s _ [E _]. split; [|done]. unfold dev_account_id.
    assert (0 <= fnv32a sub)%Z; [|lia]. unfold fnv32a.
    assert (G : forall l h, (0 <= h)%Z -> (0 <= fold_left (fun h c => (Z.lxor h (Z.of_N (Ascii.N_of_ascii c)) * 16777619) mod 4294967296) l h)%Z).
    { induction l as [|c l IH]; intros h Hh; simpl; [done|]. apply IH, Z.mod_pos_bound. lia. }
    by apply G.
Qed.

Lemma org_ref_stable fresh o k : stable (remote_step fresh) (fun s : Remote Dev => org_ref (rm_state s) o = Some k).
Proof. intros s s' H. apply (ps_org _ _ _ H). Qed.

Lemma dev_EnsureOrg_law name owner product ref :
  plat_call (fun a k => a = owner /\ k = (product, ref)) (dev_EnsureOrg name owner product ref)
    (fun o p => org_ref p o = Some (product, ref)).
Proof.
  apply safe_triple. unfold dev_EnsureOrg.
  apply (dev_begin_triple _ (fun e => e) _ (fun v p => v.1 = true /\ org_ref p v.2 = Some (product, ref))
    (fun o p => org_ref p o = Some (product, ref))); [|by intros a d []|by intros a d d' z _ []].
  rule triple_bind; [apply stable_pure| |].
  - apply (dev_query_triple _ _ _ (fun r s => forall o, r = Some o -> org_ref (rm_state s) o = Some (product, ref))).
    intros s n _ o. apply org_by_ref_Some.
  - intros [id|].
    { rule triple_ret. intros s _ [H _]. split; [done|]. by apply H. }
    apply triple_any. rule triple_bind; [apply stable_pure|apply triple_on_err|intros id].
    + apply (dev_sql_triple _ _ _ (fun o s => org_ref (rm_state s) o = Some (product, ref))).
      intros now s o d n Hw _ Ho. by eapply insert_org_ok.
    + eapply triple_weaken with (Q := fun v s => v.1 = true /\ org_ref (rm_state s) v.2 = Some (product, ref)); [|by intros s _ [H _]; exact H|done].
      rule triple_bind; [apply org_ref_stable|apply triple_on_err|intros []; rule triple_ret; by intros s _ [_ H]].
      apply (dev_sql_triple _ _ _ (fun _ _ => True)). intros now s u d n Hw Ho Hm.
      destruct (insert_member_ok (fun a k => a = owner /\ k = (product, ref)) _ _ _ _ _ _ _ _ Hw (fun _ => ex_intro _ _ (conj Ho (conj eq_refl eq_refl))) Hm).
      by split_and!.
Qed.

Lemma dev_AcceptInvite_law token a : plat_call no_owner (dev_AcceptInvite token a)
  (fun r p => ar_Role r = PlatformOwner -> is_org_owner p (ar_OrgID r) a).
Proof.
  apply safe_triple. unfold dev_AcceptInvite.
  apply (dev_begin_triple _ (fun e => e) _ (fun v p => ar_Role v.2 = PlatformOwner -> is_org_owner p (ar_OrgID v.2) a)
    (fun r p => ar_Role r = PlatformOwner -> is_org_owner p (ar_OrgID r) a));
    [|done|intros r d d' z Hs HQ Hr; by apply (step_keeps_nobody d d' _ _ Hs), HQ].
  rule triple_bind; [apply stable_pure| |].
  - apply (dev_query_triple _ _ _ (fun r s => forall v, r = Some v -> v ∈ d_invites (rm_state s))).
    intros s n _ v H. apply List.find_some in H as [H _]. by apply list_elem_of_In.
  - intros [v|]; [|rule triple_throw].
    eapply (triple_weaken _ _ (fun _ => dv_role v <> PlatformOwner /\ True)); [|intros s Hw [H _]; split; [by apply (dw_invite _ Hw), H|done]|intros ? ? _ H; exact H].
    apply triple_pure. intros Hv.
    rule triple_bind; [apply stable_pure|apply triple_try, (dev_role_triple (fun _ => True))|].
    intros [rerr|[curRole curPR]]; [|rule triple_ret; by intros s _ [H _]].
    apply triple_any. dev_walk; simpl in *; try done.
    + apply dev_sql_triple. intros now s u d n Hw _ Hm.
      destruct (insert_member_ok no_owner _ _ _ _ _ _ _ _ Hw (fun H => False_ind _ (Hv H)) Hm). by split_and!.
    + apply dev_sql_triple. intros now s u d n Hw _ [= <- <-].
      destruct (map_invites_ok no_owner _ (fun u => if N.eqb (dv_id u) (dv_id v) then set_accepted a now u else u) Hw) as [? ?].
      { intros x. by destruct (N.eqb _ _). }
      by split_and!.
Qed.

Lemma dev_DissolveOrg_law o a : plat_call no_owner (dev_DissolveOrg o a) (fun _ _ => True).
Proof.
  apply safe_triple. unfold dev_DissolveOrg.
  apply (dev_begin_triple _ _ _ (fun _ _ => True) (fun _ _ => True)); [|done..]. dev_walk.
  - apply dev_sql_triple. intros now s u d n Hw _ [= <- <-].
    destruct (map_invites_ok no_owner _ (fun v => if Z.eqb (dv_org v) o && is_pending v then set_revoked now v else v) Hw).
    { intros v. by destruct (_ && _). }
    by split_and!.
  - apply dev_sql_triple. intros now s u d n Hw _ [= <- <-].
    destruct (delete_member_ok no_owner o a _ Hw). by destruct (Nat.eqb _ _); split_and!.
Qed.

#[export] Instance DevOrgLaws : OrgLaws Dev DevView DevOrgClient DevAccounts.
Proof.
  split.
  - intros p o a Hp (m & Hm & Hr)%fmap_Some. destruct (dw_org _ Hp _ _ _ Hm (eq_sym Hr)) as [r E].
    eexists. simpl. by rewrite E.
  - apply dev_EnsureOrg_law.
  - apply dev_ListMembers_law.
  - apply dev_GetMember_law.
  - apply dev_UpdateMember_law.
  - apply dev_RemoveMember_law.
  - apply dev_CreateInvite_law.
  - apply dev_ListInvites_law.
  - apply dev_RevokeInvite_law.
  - apply dev_AcceptInvite_law.
  - intros d o a [= <-]. apply dev_DissolveOrg_law.
  - apply dev_EnsureAccount_law.
Qed.
End laws.
