(* ===== verification/TeamStore.v ===== *)
(** The tables and the in-process cache behind the team use cases:
    src/internal/adapter/repo/team/{store,shopname}.go and the role cache of
    src/internal/app/team/resolver.go.

    [TeamWorld] is what those use cases share with the rest of the process: the rows of tenant
    (with its profile and print settings), user_identity_mapping and personal_access_token, the
    role cache, the platform (OrgApi.v) and the count of calls.  Other requests run at the same
    time: [others n] is what they did to the shared state before the [n]-th operation of this
    one, and every operation below starts from there.  A statement, a call to the platform, a
    locked access to the cache are each one operation; AbandonShop is one, because it locks the
    tenant row first and those who write members of a shop need that row.

    Timestamps nothing reads back are left out.  [has_real_data] is the answer of realDataProbe,
    whose tables belong to other components. *)
From S2P Require Import Prelude Safe GoStrings Types Decimal Roles OrgApi DevOrg.
From stdpp Require Import base tactics strings gmap list.
From Stdlib Require Import ZArith Lia.

(** A row of tenant; the profile type is tenant_profile's, the shop name the print settings'. *)
Record TenantRow := mkTenantRow {
  tn_name : string;
  tn_org : option Z;
  tn_status : Z;
  tn_profile : option string;
  tn_print_name : string;
  tn_abandoned_by : option string;
}.

(** A row of user_identity_mapping. *)
Record MappingRow := mkMappingRow {
  mr_id : uuid;
  mr_tenant : uuid;
  mr_sub : string;
  mr_email : string;
  mr_name : string;
  mr_role : string;
  mr_owner : bool;
  mr_account : option Z;
}.

Record TokenRow := mkTokenRow { tk_id : uuid; tk_tenant : uuid; tk_revoked_at : option time }.

Record TeamDB := mkTeamDB {
  td_tenants : gmap uuid TenantRow;
  td_mappings : list MappingRow;
  td_tokens : list TokenRow;
}.

(** Mapping: the row as the use cases see it; account 0 is "not yet resolved". *)
Record Mapping := mkMapping {
  mp_TenantID : uuid;
  mp_IDPSubject : string;
  mp_Email : string;
  mp_DisplayName : string;
  mp_Role : string;
  mp_IsOwner : bool;
  mp_AccountID : Z;
}.

(** roleKey, roleEntry *)
Definition roleKey : Type := uuid * string.
Record roleEntry := mkRoleEntry {
  re_role : Role;
  re_orgID : Z;
  re_accountID : Z;
  re_expires : time;
}.

Record TeamWorld (P : Type) := mkTeamWorld {
  tw_db : TeamDB;
  tw_cache : gmap roleKey roleEntry;
  tw_org : P;
  tw_tick : nat;
}.
Arguments mkTeamWorld {P} _ _ _ _.
Arguments tw_db {P} _.
Arguments tw_cache {P} _.
Arguments tw_org {P} _.
Arguments tw_tick {P} _.

(** What the rest of the process and the business tables do meanwhile. *)
Class Surroundings (P : Type) := {
  others : nat -> TeamWorld P -> TeamWorld P;
  has_real_data : nat -> uuid -> bool;
}.

Section store.
Context {ops : DecimalOps} {env : Env} {P : Type} {around : Surroundings P}.

Definition TM : Type -> Type := stm (TeamWorld P) error.

(** The state an operation starts from, and its count. *)
Definition enter (w : TeamWorld P) : TeamWorld P :=
  let o := others (tw_tick w) w in mkTeamWorld (tw_db o) (tw_cache o) (tw_org o) (tw_tick w).

Definition tbump (w : TeamWorld P) : TeamWorld P := mkTeamWorld (tw_db w) (tw_cache w) (tw_org w) (S (tw_tick w)).
Definition set_db (w : TeamWorld P) (d : TeamDB) : TeamWorld P := mkTeamWorld d (tw_cache w) (tw_org w) (tw_tick w).
Definition set_cache (w : TeamWorld P) c : TeamWorld P := mkTeamWorld (tw_db w) c (tw_org w) (tw_tick w).

(** time.Now of the use case. *)
Definition team_now : TM time := fun w => (Ok (clock_at (tw_tick w)), tbump w).

Definition team_sql {A} (label : string) (f : nat -> TeamDB -> error + (A * TeamDB)) : TM A := fun w0 =>
  let w := enter w0 in
  if db_fault (tw_tick w) then (Err (EWrap label EDriver), tbump w)
  else match f (tw_tick w) (tw_db w) with
       | inl e => (Err e, tbump w)
       | inr (a, d) => (Ok a, tbump (set_db w d))
       end.

Definition team_query {A} (label : string) (f : TeamDB -> error + A) : TM A :=
  team_sql label (fun _ d => match f d with inl e => inl e | inr a => inr (a, d) end).

(** A call to the platform. *)
Definition org_call {A} (m : RM P A) : TM A := fun w0 =>
  let w := enter w0 in
  let '(r, s) := m (mkRemote (tw_org w) (tw_tick w)) in
  (r, mkTeamWorld (tw_db w) (tw_cache w) (rm_state s) (rm_tick s)).

(** ** The role cache (resolver.go) *)

Definition roleCacheTTL : Z := 60 * second.
Definition roleCacheMax : Z := 20000.

Definition on_cache {A} (f : gmap roleKey roleEntry -> A * gmap roleKey roleEntry) : TM A := fun w0 =>
  let w := enter w0 in
  let '(a, c) := f (tw_cache w) in (Ok a, tbump (set_cache w c)).

(** roleCache.get, put, delete, invalidate *)
Definition cache_get (k : roleKey) : TM (option roleEntry) := on_cache (fun c => (c !! k, c)).

Definition cache_evict (now : time) (c : gmap roleKey roleEntry) : gmap roleKey roleEntry :=
  if Z.ltb (Z.of_nat (size c)) roleCacheMax then c
  else
    let c' := filter (fun kv => Z.ltb (re_expires kv.2) now = false) c in
    if Z.ltb (Z.of_nat (size c')) roleCacheMax then c' else ∅.
Definition cache_put (k : roleKey) (e : roleEntry) (now : time) : TM unit :=
  on_cache (fun c => (tt, <[k := e]> (cache_evict now c))).

Definition cache_delete (k : roleKey) : TM unit := on_cache (fun c => (tt, delete k c)).

Definition entry_of (orgID accountID : Z) (e : roleEntry) : bool :=
  Z.eqb (re_orgID e) orgID && (Z.eqb accountID 0 || Z.eqb (re_accountID e) accountID).
Definition cache_invalidate (orgID accountID : Z) : TM unit :=
  on_cache (fun c => (tt, filter (fun kv => entry_of orgID accountID kv.2 = false) c)).

(** ** The store (store.go, shopname.go) *)

(** TenantOrg: the shop name and its organization, 0 when unset. *)
Definition TenantOrg (tenantID : uuid) : TM (string * Z) :=
  team_query "team store: tenant org" (fun d =>
    match td_tenants d !! tenantID with
    | None => inl (ESentinel ErrTenantNotFound)
    | Some t => inr (tn_name t, default 0%Z (tn_org t))
    end).

Definition set_tn_org (o : Z) (t : TenantRow) : TenantRow :=
  mkTenantRow (tn_name t) (Some o) (tn_status t) (tn_profile t) (tn_print_name t) (tn_abandoned_by t).

(** The unique index on platform_org_id. *)
Definition org_taken (o : Z) (d : TeamDB) : bool :=
  existsb (fun r => bool_decide (tn_org r.2 = Some o)) (map_to_list (td_tenants d)).

(** SetTenantOrg: only where no organization is pinned yet. *)
Definition SetTenantOrg (tenantID : uuid) (orgID : Z) : TM unit :=
  team_sql "team store: set tenant org" (fun _ d =>
    match td_tenants d !! tenantID with
    | Some t =>
        match tn_org t with
        | Some _ => inr (tt, d)
        | None =>
            if org_taken orgID d
            then inl (EWrap "team store: set tenant org" (EConstraint "tenant_platform_org_id_uidx"))
            else inr (tt, mkTeamDB (<[tenantID := set_tn_org orgID t]> (td_tenants d)) (td_mappings d) (td_tokens d))
        end
    | None => inr (tt, d)
    end).

(** TenantByOrg: the nil UUID when no live shop is linked. *)
Definition TenantByOrg (orgID : Z) : TM uuid :=
  team_query "team store: tenant by org" (fun d =>
    inr (match List.find (fun r => bool_decide (tn_org r.2 = Some orgID) && negb (Z.eqb (tn_status r.2) 0))
                 (map_to_list (td_tenants d)) with
         | Some r => r.1
         | None => uuid_nil
         end)).

(** scanMapping *)
Definition scanMapping (r : MappingRow) : Mapping :=
  mkMapping (mr_tenant r) (mr_sub r) (mr_email r) (mr_name r) (mr_role r) (mr_owner r) (default 0%Z (mr_account r)).

Definition find_mapping (p : MappingRow -> bool) (d : TeamDB) : option Mapping :=
  scanMapping <$> List.find p (td_mappings d).

(** MappingBySub, MappingByAccount *)
Definition MappingBySub (sub : string) : TM (option Mapping) :=
  team_query "team store: scan mapping" (fun d => inr (find_mapping (fun r => String.eqb (mr_sub r) sub) d)).
Definition MappingByAccount (tenantID : uuid) (accountID : Z) : TM (option Mapping) :=
  team_query "team store: scan mapping" (fun d =>
    inr (find_mapping (fun r => N.eqb (mr_tenant r) tenantID && bool_decide (mr_account r = Some accountID)) d)).

Definition legal_roles : list string := ["owner"; "manager"; "clerk"; "cashier"; "finance"; "admin"; "viewer"]%string.
Definition role_check (role : string) : bool := existsb (String.eqb role) legal_roles.

Definition set_mappings (d : TeamDB) (l : list MappingRow) : TeamDB := mkTeamDB (td_tenants d) l (td_tokens d).

(** InsertMapping; the subject is unique in the table. *)
Definition insert_mapping (id : uuid) (m : Mapping) (d : TeamDB) : error + (unit * TeamDB) :=
  if existsb (fun r => String.eqb (mr_sub r) (mp_IDPSubject m) || N.eqb (mr_id r) id) (td_mappings d)
  then inl (ESentinel ErrMappingExists)
  else if role_check (mp_Role m)
  then inr (tt, set_mappings d (td_mappings d ++
         [mkMappingRow id (mp_TenantID m) (mp_IDPSubject m) (mp_Email m) (mp_DisplayName m) (mp_Role m) (mp_IsOwner m)
            (if Z.ltb 0 (mp_AccountID m) then Some (mp_AccountID m) else None)]))
  else inl (EWrap "team store: insert mapping" (EConstraint "user_identity_mapping_role_check")).
Definition InsertMapping (m : Mapping) : TM unit :=
  team_sql "team store: insert mapping" (fun n d => insert_mapping (uuid_at n) m d).

(** SyncMapping: an owner row keeps the role owner. *)
Definition sync_row (role : string) (accountID : Z) (r : MappingRow) : MappingRow :=
  mkMappingRow (mr_id r) (mr_tenant r) (mr_sub r) (mr_email r) (mr_name r)
    (if mr_owner r then "owner"%string else role) (mr_owner r)
    (if Z.ltb 0 accountID then Some accountID else mr_account r).
Definition is_row (tenantID : uuid) (sub : string) (r : MappingRow) : bool :=
  N.eqb (mr_tenant r) tenantID && String.eqb (mr_sub r) sub.
Definition SyncMapping (tenantID : uuid) (sub role : string) (accountID : Z) : TM unit :=
  team_sql "team store: sync mapping" (fun _ d =>
    if existsb (fun r => is_row tenantID sub r && negb (role_check (mr_role (sync_row role accountID r)))) (td_mappings d)
    then inl (EWrap "team store: sync mapping" (EConstraint "user_identity_mapping_role_check"))
    else inr (tt, set_mappings d ((fun r => if is_row tenantID sub r then sync_row role accountID r else r) <$> td_mappings d))).

(** DeleteMappingByAccount: never an owner row. *)
Definition leaves (tenantID : uuid) (accountID : Z) (r : MappingRow) : bool :=
  N.eqb (mr_tenant r) tenantID && bool_decide (mr_account r = Some accountID) && negb (mr_owner r).
Definition DeleteMappingByAccount (tenantID : uuid) (accountID : Z) : TM unit :=
  team_sql "team store: delete mapping" (fun _ d =>
    inr (tt, set_mappings d (select (fun r => negb (leaves tenantID accountID r)) (td_mappings d)))).

(** memberCount *)
Definition member_count (tenantID : uuid) (d : TeamDB) : nat :=
  length (select (fun r => N.eqb (mr_tenant r) tenantID) (td_mappings d)).
Definition MemberCount (tenantID : uuid) : TM nat :=
  team_query "team store: member count" (fun d => inr (member_count tenantID d)).

(** ShopIsEmpty *)
Definition ShopIsEmpty (tenantID : uuid) : TM bool :=
  team_sql "team store: probe shop data" (fun n d => inr (negb (has_real_data n tenantID), d)).

(** AbandonShop: the transaction. *)
Definition retire_row (tenantID : uuid) (sub : string) (r : MappingRow) : MappingRow :=
  if is_row tenantID sub r
  then mkMappingRow (mr_id r) (mr_tenant r) ("abandoned:" ++ uuid_string (mr_id r)) (mr_email r) (mr_name r)
         (mr_role r) (mr_owner r) (mr_account r)
  else r.
Definition retire_tenant (sub : string) (t : TenantRow) : TenantRow :=
  mkTenantRow (tn_name t) (tn_org t) 0 (tn_profile t) (tn_print_name t) (Some sub).
Definition revoke_token (now : time) (tenantID : uuid) (k : TokenRow) : TokenRow :=
  if N.eqb (tk_tenant k) tenantID && is_none (tk_revoked_at k) then mkTokenRow (tk_id k) (tk_tenant k) (Some now) else k.

Definition abandon (now : time) (real : bool) (tenantID : uuid) (sub : string) (d : TeamDB) : error + (unit * TeamDB) :=
  match List.find (is_row tenantID sub) (td_mappings d) with
  | None => inl (ESentinel ErrShopNotEmpty)
  | Some r =>
      if negb (mr_owner r) || negb (Nat.eqb (member_count tenantID d) 1) then inl (ESentinel ErrShopNotEmpty)
      else if real then inl (ESentinel ErrShopNotEmpty)
      else inr (tt, mkTeamDB (alter (retire_tenant sub) tenantID (td_tenants d))
                      (retire_row tenantID sub <$> td_mappings d)
                      (revoke_token now tenantID <$> td_tokens d))
  end.
Definition AbandonShop (tenantID : uuid) (sub : string) : TM unit :=
  team_sql "team store: abandon" (fun n d => abandon (clock_at n) (has_real_data n tenantID) tenantID sub d).

(** ProfileType, PrintShopName: empty when there is no row. *)
Definition ProfileType (tenantID : uuid) : TM string :=
  team_query "team store: profile type" (fun d => inr (default "" (td_tenants d !! tenantID ≫= tn_profile))).
Definition PrintShopName (tenantID : uuid) : TM string :=
  team_query "team store: print shop name" (fun d => inr (from_option tn_print_name "" (td_tenants d !! tenantID))).

(** MemberNames: a label per creator id of one shop, never a full email address. *)
Definition member_label (email name : string) : string :=
  if negb (String.eqb (trim_space name) "") then trim_space name
  else if negb (String.eqb (maskEmail email) "") then maskEmail email
  else "未命名成员".
Definition MemberNames (actorID : string -> uuid) (tenantID : uuid) : TM (gmap uuid string) :=
  team_query "team store: member names" (fun d =>
    inr (fold_left (fun m r => <[actorID (mr_sub r) := member_label (mr_email r) (mr_name r)]> m)
           (select (fun r => N.eqb (mr_tenant r) tenantID) (td_mappings d)) ∅)).
End store.
