(* ===== verification/TeamService.v ===== *)
(** The team use cases: src/internal/app/team/{service,resolver}.go.

    Who may do what in a shop is decided from the platform's member list through [ResolveRole],
    with a cache and the local projection behind it; [authorize] is the gate of every management
    call.  [Service] says what is wired: the platform and the account resolver may be absent.
    Log lines are not modelled, so an error that is only logged is a [try] whose value is
    dropped. *)
From S2P Require Import Prelude Safe GoStrings Types Decimal Roles OrgApi TeamStore.
From stdpp Require Import base tactics strings gmap list.
From Stdlib Require Import ZArith Lia.

(** Caller *)
Record Caller := mkCaller { cl_TenantID : uuid; cl_Sub : string; cl_Email : string; cl_Name : string }.

(** actor *)
Record actor := mkActor { ac_role : Role; ac_accountID : Z; ac_orgID : Z }.

(** MemberView, InviteView *)
Record MemberView := mkMemberView {
  mv_AccountID : Z; mv_Role : Role; mv_RoleLabel : string; mv_DisplayName : string;
  mv_EmailMasked : string; mv_PhoneMasked : string; mv_JoinedAt : time; mv_IsSelf : bool; mv_RoleHint : string }.
Record InviteView := mkInviteView {
  iv_ID : uuid; iv_Role : Role; iv_RoleLabel : string; iv_ExpiresAt : time; iv_CreatedAt : time }.

(** JoinInput, JoinResult *)
Record JoinInput := mkJoinInput {
  ji_Sub : string; ji_Email : string; ji_Name : string; ji_Token : string;
  ji_InviteID : uuid; ji_AbandonEmptyShop : bool }.
Record JoinResult := mkJoinResult { jr_TenantID : uuid; jr_ShopName : string; jr_Role : Role }.

Definition platformProduct : string := "tally".
Definition defaultInviteTTL : Z := 72.
Definition maxInviteTTL : Z := 168.
Definition cashierHint : string := "建议改为店员".
Definition KeyMaxUsers : string := "max_users".

Section service.
Context {ops : DecimalOps} {env : Env} {P : Type} {around : Surroundings P}.
Context {org : OrgClient P} {acc : AccountResolver P}.

(** PlanGuard, and the Service's optional collaborators: [None] and [false] are the nil ones. *)
Record Service := mkService {
  has_org : bool;
  has_accounts : bool;
  plan_guard : option (uuid -> string -> Z -> TM (P:=P) unit);
}.

Context (svc : Service).

(** checkMemberLimit *)
Definition checkMemberLimit (tenantID : uuid) : TM unit :=
  match plan_guard svc with None => mret tt | Some check => check tenantID KeyMaxUsers 1%Z end.

(** accountID *)
Definition idp_email (sub email : string) : string :=
  if String.eqb email "" then (sub ++ "@idp.local")%string else email.
Definition accountID (sub email name : string) : TM Z :=
  if has_accounts svc then org_call (EnsureAccount sub (idp_email sub email) name)
  else throw (ESentinel ErrUnavailable).

(** ensureOrg *)
Definition ensureOrg (tenantID : uuid) (ownerAccountID : Z) : TM Z :=
  t ← TenantOrg tenantID;
  if negb (Z.eqb t.2 0) then mret t.2
  else
    guard_err (negb (has_org svc)) (ESentinel ErrUnavailable);;
    guard_err (Z.leb ownerAccountID 0) (ESentinel ErrOrgNotReady);;
    orgID ← org_call (EnsureOrg t.1 ownerAccountID platformProduct (uuid_string tenantID));
    SetTenantOrg tenantID orgID;;
    mret orgID.

(** EnsureTenantOrg *)
Definition EnsureTenantOrg (tenantID : uuid) (ownerAccountID : Z) : TM unit :=
  ensureOrg tenantID ownerAccountID;; mret tt.

(** ** Roles (resolver.go) *)

(** lastKnown *)
Definition lastKnown (cached : option roleEntry) (projected : Role) : Role :=
  match cached with Some e => re_role e | None => projected end.

Definition fresh_entry (now : time) (cached : option roleEntry) : option Role :=
  match cached with Some e => if Z.ltb now (re_expires e) then Some (re_role e) else None | None => None end.

(** The answer of the platform about one member, in three cases: the [switch] on err. *)
Definition role_from_platform (tenantID : uuid) (sub : string) (m : Mapping) (orgID acct : Z)
    (now : time) (cached : option roleEntry) (projected : Role) : TM Role :=
  let key := (tenantID, sub) in
  let entry role := mkRoleEntry role orgID acct (now + roleCacheTTL)%Z in
  reply ← try (org_call (GetMember orgID acct));
  match reply with
  | inl e =>
      if errors_is e ErrNotMember then
        if mp_IsOwner m then (cache_put key (entry RoleOwner) now;; mret RoleOwner)
        else (cache_delete key;; throw (ESentinel ErrNotMember))
      else mret (lastKnown cached projected)
  | inr member =>
      let role := FromPlatform (om_Role member) (om_ProductRoles member) in
      cache_put key (entry role) now;;
      (if negb (String.eqb role (mp_Role m)) || negb (Z.eqb (mp_AccountID m) acct)
       then (try (SyncMapping tenantID sub role acct);; mret tt) else mret tt);;
      mret role
  end.

(** ResolveRole *)
Definition ResolveRole (tenantID : uuid) (sub : string) : TM Role :=
  guard_err (String.eqb sub "" || uuid_is_nil tenantID) (ESentinel ErrNotMember);;
  let key := (tenantID, sub) in
  now ← team_now;
  cached ← cache_get key;
  match fresh_entry now cached with
  | Some role => mret role
  | None =>
      row ← try (MappingBySub sub);
      match row with
      | inl err => match cached with Some e => mret (re_role e) | None => throw err end
      | inr None => cache_delete key;; throw (ESentinel ErrNotMember)
      | inr (Some m) =>
          if negb (N.eqb (mp_TenantID m) tenantID) then (cache_delete key;; throw (ESentinel ErrNotMember))
          else
            let projected := NormalizeLegacy (mp_Role m) (mp_IsOwner m) in
            t ← try (TenantOrg tenantID);
            match t with
            | inl _ => mret (lastKnown cached projected)
            | inr (_, orgID) =>
                if Z.eqb orgID 0 || negb (has_org svc) then
                  cache_put key (mkRoleEntry projected 0 0 (now + roleCacheTTL)%Z) now;; mret projected
                else if Z.eqb (mp_AccountID m) 0 then
                  acct ← try (accountID (mp_IDPSubject m) (mp_Email m) (mp_DisplayName m));
                  match acct with
                  | inl _ => mret (lastKnown cached projected)
                  | inr a => role_from_platform tenantID sub m orgID a now cached projected
                  end
                else role_from_platform tenantID sub m orgID (mp_AccountID m) now cached projected
            end
      end
  end.

(** InvalidateMember *)
Definition InvalidateMember (orgID acct : Z) : TM unit := cache_invalidate orgID acct.

(** MemberEvent, HandleMemberEvent *)
Definition EventRemoved : string := "identity.org.member_removed".
Record MemberEvent := mkMemberEvent { me_Type : string; me_OrgID : Z; me_AccountID : Z }.
Definition HandleMemberEvent (ev : MemberEvent) : TM unit :=
  cache_invalidate (me_OrgID ev) (me_AccountID ev);;
  if negb (String.eqb (me_Type ev) EventRemoved) || Z.eqb (me_OrgID ev) 0 || Z.eqb (me_AccountID ev) 0 then mret tt
  else
    t ← try (TenantByOrg (me_OrgID ev));
    match t with
    | inl _ => mret tt
    | inr tenantID =>
        if uuid_is_nil tenantID then mret tt
        else (try (DeleteMappingByAccount tenantID (me_AccountID ev));; mret tt)
    end.

(** ** Management (service.go) *)

(** authorize *)
Definition actor_account (c : Caller) (role : Role) : TM Z :=
  m ← MappingBySub (cl_Sub c);
  let known := from_option mp_AccountID 0%Z m in
  if negb (Z.eqb known 0) then mret known
  else
    let '(email, name) := match m with Some r => (mp_Email r, mp_DisplayName r) | None => (cl_Email c, cl_Name c) end in
    a ← accountID (cl_Sub c) email name;
    try (SyncMapping (cl_TenantID c) (cl_Sub c) role a);;
    mret a.

Definition authorize (c : Caller) : TM actor :=
  guard_err (negb (has_org svc)) (ESentinel ErrUnavailable);;
  role ← on_err (fun e => if errors_is e ErrNotMember then ESentinel ErrForbidden else e)
    (ResolveRole (cl_TenantID c) (cl_Sub c));
  guard_err (negb (ManagesTeam role)) (ESentinel ErrForbidden);;
  a ← actor_account c role;
  t ← TenantOrg (cl_TenantID c);
  if negb (Z.eqb t.2 0) then mret (mkActor role a t.2)
  else
    guard_err (negb (String.eqb role RoleOwner)) (ESentinel ErrOrgNotReady);;
    orgID ← ensureOrg (cl_TenantID c) a;
    mret (mkActor role a orgID).

(** CashierAllowed: when the shop type cannot be read nothing is blocked. *)
Definition CashierAllowed (tenantID : uuid) : TM bool :=
  pt ← try (ProfileType tenantID);
  mret (match pt with inl _ => true | inr t => String.eqb t "" || String.eqb t "retail" end).

(** sort.SliceStable by JoinedAt *)
Fixpoint insert_by_joined (v : MemberView) (l : list MemberView) : list MemberView :=
  match l with
  | [] => [v]
  | u :: l' => if Z.ltb (mv_JoinedAt u) (mv_JoinedAt v) then u :: insert_by_joined v l' else v :: u :: l'
  end.
Definition sort_by_joined (l : list MemberView) : list MemberView := foldr insert_by_joined [] l.

Definition member_view (cashierOK : bool) (self : Z) (m : OrgMember) : MemberView :=
  let r := FromPlatform (om_Role m) (om_ProductRoles m) in
  mkMemberView (om_AccountID m) r (Role_Label r) (om_DisplayName m) (om_EmailMasked m) (om_PhoneMasked m)
    (om_JoinedAt m) (Z.eqb (om_AccountID m) self)
    (if String.eqb r RoleCashier && negb cashierOK then cashierHint else "").

(** ListMembers *)
Definition team_ListMembers (c : Caller) : TM (list MemberView) :=
  a ← authorize c;
  ms ← org_call (ListMembers (ac_orgID a));
  cashierOK ← CashierAllowed (cl_TenantID c);
  mret (sort_by_joined (member_view cashierOK (ac_accountID a) <$> ms)).

(** UpdateMemberRole *)
Definition UpdateMemberRole (c : Caller) (targetAccountID : Z) (newRole : Role) : TM unit :=
  match ToPlatform newRole with
  | None => throw (ESentinel ErrInvalidRole)
  | Some (platformRole, platformPR) =>
      a ← authorize c;
      (if String.eqb newRole RoleCashier then
         ok ← CashierAllowed (cl_TenantID c); guard_err (negb ok) (ESentinel ErrRoleNotForShop)
       else mret tt);;
      target ← org_call (GetMember (ac_orgID a) targetAccountID);
      let targetRole := FromPlatform (om_Role target) (om_ProductRoles target) in
      guard_err (negb (CanManage (ac_role a) targetRole) || negb (CanAssign (ac_role a) newRole)) (ESentinel ErrForbidden);;
      let pr := {[ ProductKey := pr_get platformPR ProductKey ]} in
      org_call (UpdateMember (ac_orgID a) targetAccountID (ac_accountID a) platformRole pr);;
      cache_invalidate (ac_orgID a) targetAccountID;;
      tm ← try (MappingByAccount (cl_TenantID c) targetAccountID);
      match tm with
      | inr (Some m) => try (SyncMapping (cl_TenantID c) (mp_IDPSubject m) newRole targetAccountID);; mret tt
      | _ => mret tt
      end
  end.

(** RemoveMember *)
Definition team_RemoveMember (c : Caller) (targetAccountID : Z) : TM unit :=
  a ← authorize c;
  (if Z.eqb targetAccountID (ac_accountID a) then
     guard_err (String.eqb (ac_role a) RoleOwner) (ESentinel ErrLastOwner)
   else
     target ← org_call (GetMember (ac_orgID a) targetAccountID);
     guard_err (negb (CanManage (ac_role a) (FromPlatform (om_Role target) (om_ProductRoles target))))
       (ESentinel ErrForbidden));;
  org_call (RemoveMember (ac_orgID a) targetAccountID (ac_accountID a));;
  cache_invalidate (ac_orgID a) targetAccountID;;
  try (DeleteMappingByAccount (cl_TenantID c) targetAccountID);;
  mret tt.

(** ShopDisplayName *)
Definition ShopDisplayName (tenantID : uuid) : TM string :=
  t ← try (TenantOrg tenantID);
  let name := match t with inr t => t.1 | inl _ => ""%string end in
  pn ← try (PrintShopName tenantID);
  mret (match pn with
        | inr p => if String.eqb (trim_space p) "" then name else trim_space p
        | inl _ => name
        end).

(** CreateInvite *)
Definition clamp_ttl (ttlHours : Z) : Z :=
  let t := if Z.leb ttlHours 0 then defaultInviteTTL else ttlHours in
  if Z.ltb maxInviteTTL t then maxInviteTTL else t.
Definition with_shop_name (i : InviteCreated) (name : string) : InviteCreated :=
  mkInviteCreated (ic_InviteID i) (ic_Token i) (ic_ExpiresAt i) name.
Definition team_CreateInvite (c : Caller) (role : Role) (ttlHours : Z) : TM InviteCreated :=
  match ToPlatform role with
  | None => throw (ESentinel ErrInvalidRole)
  | Some (platformRole, pr) =>
      a ← authorize c;
      guard_err (negb (CanAssign (ac_role a) role)) (ESentinel ErrForbidden);;
      (if String.eqb role RoleCashier then
         ok ← CashierAllowed (cl_TenantID c); guard_err (negb ok) (ESentinel ErrRoleNotForShop)
       else mret tt);;
      checkMemberLimit (cl_TenantID c);;
      res ← org_call (CreateInvite (ac_orgID a) (ac_accountID a) platformRole pr (clamp_ttl ttlHours));
      name ← ShopDisplayName (cl_TenantID c);
      mret (with_shop_name res name)
  end.

(** ListInvites, RevokeInvite *)
Definition invite_view (iv : OrgInvite) : InviteView :=
  let r := FromPlatform (oi_Role iv) (oi_ProductRoles iv) in
  mkInviteView (oi_ID iv) r (Role_Label r) (oi_ExpiresAt iv) (oi_CreatedAt iv).
Definition team_ListInvites (c : Caller) : TM (list InviteView) :=
  a ← authorize c;
  ivs ← org_call (ListInvites (ac_orgID a));
  mret (invite_view <$> ivs).
Definition team_RevokeInvite (c : Caller) (inviteID : uuid) : TM unit :=
  a ← authorize c;
  org_call (RevokeInvite (ac_orgID a) inviteID (ac_accountID a)).

(** ** Joining a shop *)

(** abandonable *)
Definition sole_member (ms : list OrgMember) (acct : Z) : bool :=
  match ms with
  | [] => true
  | [x] => negb (Z.ltb 0 acct) || Z.eqb (om_AccountID x) acct
  | _ => false
  end.
Definition abandonable (m : Mapping) : TM bool :=
  if negb (mp_IsOwner m) then mret false
  else
    n ← MemberCount (mp_TenantID m);
    if negb (Nat.eqb n 1) then mret false
    else
      empty ← ShopIsEmpty (mp_TenantID m);
      if negb empty then mret false
      else
        t ← TenantOrg (mp_TenantID m);
        if negb (Z.eqb t.2 0) && has_org svc then
          ms ← org_call (ListMembers t.2);
          mret (sole_member ms (mp_AccountID m))
        else mret true.

(** isOwnShopInvite *)
Definition isOwnShopInvite (m : Mapping) (inviteID : uuid) : TM bool :=
  if uuid_is_nil inviteID || negb (has_org svc) then mret false
  else
    t ← TenantOrg (mp_TenantID m);
    if Z.eqb t.2 0 then mret false
    else
      ivs ← org_call (ListInvites t.2);
      mret (existsb (fun iv => N.eqb (oi_ID iv) inviteID) ivs).

(** leaveOrg *)
Definition leaveOrg (orgID acct : Z) : TM unit :=
  try (org_call (RemoveMember orgID acct acct));;
  cache_invalidate orgID acct.

(** abandonRaced *)
Definition abandonRaced (oldTenant : uuid) (sub : string) (err : error) : TM bool :=
  if negb (errors_is err ErrShopNotEmpty) then mret false
  else
    cur ← try (MappingBySub sub);
    mret (match cur with
          | inl _ => false
          | inr None => true
          | inr (Some m) => negb (N.eqb (mp_TenantID m) oldTenant)
          end).

(** retireOrg *)
Definition retireOrg (tenantID : uuid) (acct : Z) : TM unit :=
  t ← try (TenantOrg tenantID);
  match t with
  | inl _ => mret tt
  | inr (_, orgID) =>
      if Z.eqb orgID 0 then mret tt
      else
        ivs ← try (org_call (ListInvites orgID));
        let invites := match ivs with inr l => l | inl _ => [] end in
        mapM_ (fun inv => try (org_call (RevokeInvite orgID (oi_ID inv) acct));; mret tt) invites;;
        match DissolveOrg with
        | Some d => try (org_call (d orgID acct));; mret tt
        | None => mret tt
        end
  end.

(** The checks on a person who already belongs to a shop. *)
Definition join_existing (in_ : JoinInput) (m : Mapping) : TM unit :=
  own ← on_err (fun _ => ESentinel ErrUnavailable) (isOwnShopInvite m (ji_InviteID in_));
  guard_err own (ESentinel ErrAlreadyMemberHere);;
  can ← on_err (fun _ => ESentinel ErrUnavailable) (abandonable m);
  guard_err (negb (ji_AbandonEmptyShop in_)) (EAlreadyInShop can (mp_IsOwner m));;
  guard_err (negb (mp_IsOwner m)) (EAlreadyInShop false false);;
  guard_err (negb can) (ESentinel ErrShopNotEmpty).

(** Giving up the old shop once the platform has accepted the person. *)
Definition give_up_shop (in_ : JoinInput) (old : Mapping) (orgID acct : Z) : TM unit :=
  r ← try (AbandonShop (mp_TenantID old) (ji_Sub in_));
  match r with
  | inr _ => cache_delete (mp_TenantID old, ji_Sub in_);; retireOrg (mp_TenantID old) acct
  | inl err =>
      raced ← abandonRaced (mp_TenantID old) (ji_Sub in_) err;
      if (raced : bool) then mret tt else (leaveOrg orgID acct;; throw err)
  end.

(** The local row of the new member. *)
Definition persist_member (in_ : JoinInput) (tenantID : uuid) (role : Role) (orgID acct : Z) : TM unit :=
  let email := idp_email (ji_Sub in_) (ji_Email in_) in
  r ← try (InsertMapping (mkMapping tenantID (ji_Sub in_) email (ji_Name in_) role (String.eqb role RoleOwner) acct));
  match r with
  | inr _ => mret tt
  | inl err =>
      if errors_is err ErrMappingExists then
        cur ← MappingBySub (ji_Sub in_);
        match cur with
        | Some m =>
            if negb (N.eqb (mp_TenantID m) tenantID) then (leaveOrg orgID acct;; throw (EAlreadyInShop false false))
            else mret tt
        | None => mret tt
        end
      else (leaveOrg orgID acct;; throw (EWrap "team join: persist mapping" err))
  end.

(** Join *)
Definition team_Join (in_ : JoinInput) : TM JoinResult :=
  guard_err (negb (has_org svc)) (ESentinel ErrUnavailable);;
  guard_err (String.eqb (ji_Sub in_) "" || String.eqb (ji_Token in_) "") (ESentinel ErrInviteInvalid);;
  existing ← MappingBySub (ji_Sub in_);
  match existing with None => mret tt | Some m => join_existing in_ m end;;
  acct ← accountID (ji_Sub in_) (ji_Email in_) (ji_Name in_);
  res ← org_call (AcceptInvite (ji_Token in_) acct);
  tenantID ← TenantByOrg (ar_OrgID res);
  if uuid_is_nil tenantID then (leaveOrg (ar_OrgID res) acct;; throw (ESentinel ErrInviteInvalid))
  else
    guard_err (match existing with Some m => N.eqb (mp_TenantID m) tenantID | None => false end)
      (ESentinel ErrAlreadyMemberHere);;
    limit ← try (checkMemberLimit tenantID);
    match limit with
    | inl err => leaveOrg (ar_OrgID res) acct;; throw err
    | inr _ =>
        match existing with None => mret tt | Some m => give_up_shop in_ m (ar_OrgID res) acct end;;
        let role := FromPlatform (ar_Role res) (ar_ProductRoles res) in
        persist_member in_ tenantID role (ar_OrgID res) acct;;
        cache_invalidate (ar_OrgID res) acct;;
        name ← ShopDisplayName tenantID;
        mret (mkJoinResult tenantID name role)
    end.
End service.
