(* ===== verification/TeamLaws.v ===== *)
(** Ownership of a shop across any history of team calls.

    A person owns a shop when a live row of user_identity_mapping, the role cache or the
    platform says so ([owner_of]).  No call of TeamService.v makes anyone an owner: not an
    invite, a role change, a removal, a join, an event or a role lookup, by whomever and in
    whatever order, with a platform that honours [OrgLaws] and whatever other requests that obey
    the same rule do in between ([others]).  Everything is derived from one triple per
    operation (Safe.v). *)
From S2P Require Import Prelude Safe GoStrings Types Decimal SDec Roles OrgApi DevOrg DevOrgLaws TeamStore TeamService Concrete.
From stdpp Require Import base tactics strings gmap list.
From Stdlib Require Import ZArith Lia.

(** The subject AbandonShop leaves on a retired row. *)
Definition retired (sub : string) : bool := String.prefix "abandoned:" sub.

Section ownership.
Context {ops : DecimalOps} {env : Env} {elaws : EnvLaws env} {P : Type} {around : Surroundings P}.
Context {org : OrgClient P} {acc : AccountResolver P} {view : OrgView P} {laws : OrgLaws P view org acc}.

(** The external reference ensureOrg gives the organization of a shop. *)
Definition tenant_ref (t : uuid) : string * string := (platformProduct, uuid_string t).

Lemma tenant_ref_inj t u : tenant_ref t = tenant_ref u -> t = u.
Proof. intros [= H]. by apply uuid_string_inj. Qed.

Definition owner_row (r : MappingRow) : Prop := NormalizeLegacy (mr_role r) (mr_owner r) = RoleOwner.

(** Who owns shop [t] by the rows, by the cache, by the platform. *)
Inductive owner_of (w : TeamWorld P) (t : uuid) (s : string) : Prop :=
  | owner_by_row r : r ∈ td_mappings (tw_db w) -> mr_tenant r = t -> mr_sub r = s -> owner_row r -> owner_of w t s
  | owner_by_cache e : tw_cache w !! (t, s) = Some e -> re_role e = RoleOwner -> owner_of w t s
  | owner_by_platform o a : org_ref (tw_org w) o = Some (tenant_ref t) -> is_org_owner (tw_org w) o a ->
      account_sub (tw_org w) a = Some s -> owner_of w t s.

(** The account of a row is its person's, the organization of a shop is its own, and the owners
    the platform knows have an account. *)
Record team_wf (w : TeamWorld P) : Prop := mkTeamWf {
  tf_plat : plat_wf (tw_org w);
  tf_account : forall r a, r ∈ td_mappings (tw_db w) -> retired (mr_sub r) = false ->
    mr_account r = Some a -> account_sub (tw_org w) a = Some (mr_sub r);
  tf_org : forall t r o, td_tenants (tw_db w) !! t = Some r -> tn_org r = Some o ->
    org_ref (tw_org w) o = Some (tenant_ref t);
  tf_owner : forall t o a, org_ref (tw_org w) o = Some (tenant_ref t) -> is_org_owner (tw_org w) o a ->
    exists s, account_sub (tw_org w) a = Some s;
}.

(** Well formed, and no live owner but those of [S]. *)
Definition owned_by (S : uuid -> string -> Prop) (w : TeamWorld P) : Prop :=
  team_wf w /\ forall t s, retired s = false -> owner_of w t s -> S t s.

(** Accounts and organizations stay what they are. *)
Record grows (w w' : TeamWorld P) : Prop := mkGrows {
  gr_org : forall o k, org_ref (tw_org w) o = Some k -> org_ref (tw_org w') o = Some k;
  gr_account : forall a s, account_sub (tw_org w) a = Some s -> account_sub (tw_org w') a = Some s;
}.

#[export] Instance grows_preorder : PreOrder grows.
Proof.
  split; [by intros w; split|]. intros u v w [H1 H2] [K1 K2]. split; auto.
Qed.

(** What other requests may do in between. *)
Definition well_behaved (S : uuid -> string -> Prop) : Prop :=
  forall n w, owned_by S w -> owned_by S (others n w) /\ grows w (others n w).

Section triples.
Context (S : uuid -> string -> Prop) (rely : well_behaved S).

Abbreviation team_triple := (triple (E:=error) (owned_by S) grows).

(** *** What a state that differs in one part still satisfies *)

Lemma owner_of_same w w' t s : tw_db w' = tw_db w -> tw_cache w' = tw_cache w -> tw_org w' = tw_org w ->
  owner_of w' t s -> owner_of w t s.
Proof.
  intros E1 E2 E3 [r H|e H|o a H]; rewrite ?E1, ?E2, ?E3 in *;
    [by eapply owner_by_row|by eapply owner_by_cache|by eapply owner_by_platform].
Qed.

Lemma owned_by_same w w' : tw_db w' = tw_db w -> tw_cache w' = tw_cache w -> tw_org w' = tw_org w ->
  owned_by S w -> owned_by S w'.
Proof.
  intros E1 E2 E3 [[] Ho]. split; [split; rewrite ?E1, ?E2, ?E3; auto|].
  intros t s Hs H. apply Ho; [done|]. by eapply owner_of_same.
Qed.

Lemma enter_ok w : owned_by S w -> owned_by S (enter w) /\ grows w (enter w).
Proof.
  intros Hw. destruct (rely (tw_tick w) w Hw) as [H G]. split; [|destruct G as [G1 G2]; split; [exact G1|exact G2]].
  by eapply owned_by_same; [..|exact H].
Qed.

Lemma grows_same w w' : tw_org w' = tw_org w -> grows w w'.
Proof. intros E. split; by rewrite E. Qed.

Lemma grows_enter w w' : owned_by S w -> tw_org w' = tw_org (enter w) -> grows w w'.
Proof. intros Hw E. etrans; [by apply enter_ok|]. by apply grows_same. Qed.

(** *** One operation at a time *)

Lemma team_now_triple Pre : team_triple Pre team_now (fun _ _ => True).
Proof.
  intros w r w' Hw HP [= <- <-]. split_and!; [by eapply owned_by_same; [..|exact Hw]|by apply grows_same|done].
Qed.

Lemma team_sql_triple {A} (Pre : TeamWorld P -> Prop) label (f : nat -> TeamDB -> error + (A * TeamDB))
    (Q : A -> TeamWorld P -> Prop) :
  stable grows Pre ->
  (forall n w a d k, owned_by S w -> Pre w -> f n (tw_db w) = inr (a, d) ->
     let w' := mkTeamWorld d (tw_cache w) (tw_org w) k in owned_by S w' /\ Q a w') ->
  team_triple Pre (team_sql label f) Q.
Proof.
  intros HP H w r w' Hw HPw. unfold team_sql. destruct (enter_ok w Hw) as [He Hg].
  pose proof (HP _ _ Hg HPw) as HPe.
  destruct (db_fault _). { intros [= <- <-]. split_and!; [by eapply owned_by_same; [..|exact He]|by apply grows_enter|done]. }
  destruct (f _ _) as [e|[a d]] eqn:Ef; intros [= <- <-].
  { split_and!; [by eapply owned_by_same; [..|exact He]|by apply grows_enter|done]. }
  destruct (H _ _ _ _ (Datatypes.S (tw_tick w)) He HPe Ef) as [Hi Hq]. split_and!; [done|by apply grows_enter|].
  by intros b [= <-].
Qed.

(** A read: the reply is a fact about the state it was taken from. *)
Lemma team_query_triple {A} (Pre : TeamWorld P -> Prop) label (f : TeamDB -> error + A) (Q : A -> TeamWorld P -> Prop) :
  stable grows Pre ->
  (forall w a, owned_by S w -> Pre w -> f (tw_db w) = inr a -> Q a w) ->
  (forall a w w', tw_db w' = tw_db w -> tw_cache w' = tw_cache w -> tw_org w' = tw_org w -> Q a w -> Q a w') ->
  team_triple Pre (team_query label f) Q.
Proof.
  intros HP H HQ. apply team_sql_triple; [done|]. intros n w a d k Hw HPw.
  destruct (f (tw_db w)) as [e|a'] eqn:Ef; [done|]. intros [= <- <-].
  split; [by eapply owned_by_same; [..|exact Hw]|]. by apply (HQ _ w), (H w).
Qed.

Lemma on_cache_triple {A} (Pre : TeamWorld P -> Prop) (f : gmap roleKey roleEntry -> A * gmap roleKey roleEntry)
    (Q : A -> Prop) :
  stable grows Pre ->
  (forall w, owned_by S w -> Pre w ->
     (forall t s e, retired s = false -> (f (tw_cache w)).2 !! (t, s) = Some e -> re_role e = RoleOwner -> S t s) /\
     Q (f (tw_cache w)).1) ->
  team_triple Pre (on_cache f) (fun a _ => Q a).
Proof.
  intros HP H w r w' Hw HPw. unfold on_cache. destruct (enter_ok w Hw) as [He Hg].
  destruct (H _ He (HP _ _ Hg HPw)) as [Hc Hq]. destruct (f _) as [a c]. intros [= <- <-].
  split_and!; [|by apply grows_enter|by intros b [= <-]].
  destruct He as [[] Ho]. split; [by split|]. intros t s Hs [r Hr|e He|o b Ho']; [..|by eapply Ho, owner_by_platform].
  - by eapply Ho, owner_by_row.
  - by eapply Hc.
Qed.

(** A call to the platform: whom the reply calls an owner is one of [S], and a fresh owner must be. *)
Lemma org_call_triple {A} fresh (Pre : TeamWorld P -> Prop) (m : RM P A) (Q : A -> P -> Prop) :
  stable grows Pre -> plat_call fresh m Q ->
  (forall w a t, owned_by S w -> Pre w -> fresh a (tenant_ref t) -> exists s, account_sub (tw_org w) a = Some s /\ (retired s = false -> S t s)) ->
  team_triple Pre (org_call m) (fun a w => Q a (tw_org w)).
Proof.
  intros HP Hm Hf w r w' Hw HPw. unfold org_call. destruct (enter_ok w Hw) as [He Hg].
  pose proof (HP _ _ Hg HPw) as HPv. set (v := enter w) in *. clearbody v.
  destruct (m _) as [o s'] eqn:Em. intros [= <- <-].
  destruct He as [[Hp Ha Ho Hn] Hs].
  destruct (Hm (mkRemote (tw_org v) (tw_tick v)) o s' Hp Em) as (Hw' & [S1 S2 S3] & Hq). simpl in *.
  assert (N : forall t i a, org_ref (rm_state s') i = Some (tenant_ref t) -> is_org_owner (rm_state s') i a ->
    exists s, account_sub (rm_state s') a = Some s /\ (retired s = false -> S t s)).
  { intros t i a Hi Hia. destruct (S3 i a Hia) as [Hold|(k & Hk & Hfr)].
    - destruct (owner_in_org _ i a Hp Hold) as [k Hk]. pose proof (S1 _ _ Hk) as Hk'.
      rewrite Hk' in Hi. injection Hi as ->. destruct (Hn t i a Hk Hold) as [s Hs'].
      exists s. split; [by apply S2|]. intros Hr. apply Hs; [done|]. by eapply owner_by_platform.
    - rewrite Hk in Hi. injection Hi as ->.
      destruct (Hf v a t (conj (mkTeamWf _ Hp Ha Ho Hn) Hs) HPv Hfr) as (s & Hs' & HS).
      exists s. split; [by apply S2|done]. }
  split_and!.
  - split; [split; simpl; eauto|].
    + intros t i a Hi Hia. destruct (N t i a Hi Hia) as (s & ? & _). by exists s.
    + intros t s Hr [x Hx|e He|i a Hi Hia Has]; [by eapply Hs, owner_by_row|by eapply Hs, owner_by_cache|].
      destruct (N t i a Hi Hia) as (s1 & Hs1 & HS). simpl in Has. rewrite Hs1 in Has. injection Has as ->. by apply HS.
  - etrans; [exact Hg|]. by split.
  - intros b ->. by apply Hq.
Qed.

(** *** Facts a use case carries along *)

Lemma stable_account a s : stable grows (fun w => account_sub (tw_org w) a = Some s).
Proof. intros w w' [_ H]. apply H. Qed.
Lemma stable_org o k : stable grows (fun w => org_ref (tw_org w) o = Some k).
Proof. intros w w' [H _]. apply H. Qed.

(** What a row read from the table says is true. *)
Definition mapping_ok (m : Mapping) (w : TeamWorld P) : Prop :=
  (retired (mp_IDPSubject m) = false ->
     NormalizeLegacy (mp_Role m) (mp_IsOwner m) = RoleOwner -> S (mp_TenantID m) (mp_IDPSubject m)) /\
  (retired (mp_IDPSubject m) = false -> mp_AccountID m <> 0%Z ->
     account_sub (tw_org w) (mp_AccountID m) = Some (mp_IDPSubject m)).

Lemma stable_mapping_ok m : stable grows (mapping_ok m).
Proof. intros w w' [_ H] [H1 H2]. split; auto. Qed.

Lemma scanMapping_ok w r : owned_by S w -> r ∈ td_mappings (tw_db w) -> mapping_ok (scanMapping r) w.
Proof.
  intros [[] Ho] Hr. split; simpl; intros Hs.
  - intros H. apply Ho; [done|]. by eapply owner_by_row.
  - destruct (mr_account r) as [a|] eqn:Ea; [|done]. by eauto.
Qed.

Lemma find_mapping_ok w p m : owned_by S w -> find_mapping p (tw_db w) = Some m ->
  mapping_ok m w /\ exists r, r ∈ td_mappings (tw_db w) /\ p r = true /\ m = scanMapping r.
Proof.
  intros Hw (r & Hf & ->)%fmap_Some. apply List.find_some in Hf as [Hin Hp]. rewrite <- list_elem_of_In in Hin.
  split; [by apply scanMapping_ok|]. by exists r.
Qed.

Definition org_fact (t : uuid) (o : Z) (w : TeamWorld P) : Prop :=
  o <> 0%Z -> org_ref (tw_org w) o = Some (tenant_ref t).
Lemma stable_org_fact t o : stable grows (org_fact t o).
Proof. intros w w' Hg H Ho. eapply stable_org; [done|by apply H]. Qed.

Hint Resolve stable_account stable_org stable_mapping_ok stable_org_fact : stable.
Hint Resolve stable_pure stable_and stable_impl : stable.

(** *** Reading *)

Lemma TenantOrg_triple Pre t : stable grows Pre ->
  team_triple Pre (TenantOrg t) (fun r => org_fact t r.2).
Proof.
  intros HP. apply team_query_triple; [done| |by intros a w w' _ _ E; unfold org_fact; rewrite E].
  intros w a [[] _] _. destruct (td_tenants (tw_db w) !! t) as [r|] eqn:Er; [|done].
  intros [= <-] Hne. simpl in *. destruct (tn_org r) as [o|] eqn:Eo; [|done]. by eauto.
Qed.

Lemma TenantByOrg_triple Pre o : stable grows Pre ->
  team_triple Pre (TenantByOrg o) (fun t w => uuid_is_nil t = false -> org_ref (tw_org w) o = Some (tenant_ref t)).
Proof.
  intros HP. apply team_query_triple; [done| |by intros a w w' _ _ E; rewrite E].
  intros w a [[] _] _ [= <-]. destruct (List.find _ _) as [[t r]|] eqn:Ef; [|done]. intros _.
  apply List.find_some in Ef as [Hin Hp]. rewrite <- list_elem_of_In, elem_of_map_to_list in Hin. simpl in *.
  apply andb_prop in Hp as [Hp%bool_decide_eq_true _]. by eauto.
Qed.

Lemma MappingBySub_triple Pre sub : stable grows Pre ->
  team_triple Pre (MappingBySub sub)
    (fun r w => forall m, r = Some m -> mapping_ok m w /\ mp_IDPSubject m = sub).
Proof.
  intros HP. apply team_query_triple; [done| |by intros a w w' _ _ E; unfold mapping_ok; rewrite E].
  intros w a Hw _ [= <-] m Hm. destruct (find_mapping_ok _ _ _ Hw Hm) as (Hok & r & _ & Hp & ->).
  split; [done|]. by apply String.eqb_eq in Hp.
Qed.

Lemma MappingByAccount_triple Pre t a : stable grows Pre ->
  team_triple Pre (MappingByAccount t a)
    (fun r w => forall m, r = Some m -> mapping_ok m w /\ mp_TenantID m = t /\ mp_AccountID m = a).
Proof.
  intros HP. apply team_query_triple; [done| |by intros b w w' _ _ E; unfold mapping_ok; rewrite E].
  intros w b Hw _ [= <-] m Hm. destruct (find_mapping_ok _ _ _ Hw Hm) as (Hok & r & _ & Hp & ->).
  apply andb_prop in Hp as [Ht%N.eqb_eq Ha%bool_decide_eq_true]. simpl. rewrite Ha. by split_and!.
Qed.

(** *** Writing *)

Lemma SetTenantOrg_triple t o :
  team_triple (fun w => org_ref (tw_org w) o = Some (tenant_ref t)) (SetTenantOrg t o) (fun _ _ => True).
Proof.
  apply team_sql_triple; [apply stable_org|]. intros n w u d k [[] Ho] Hr.
  destruct (td_tenants (tw_db w) !! t) as [r|] eqn:Er; [destruct (tn_org r) eqn:Eo; [|destruct (org_taken _ _); [done|]]|];
    intros [= <- <-]; (split; [|done]); (split; [split; simpl; eauto|]); simpl.
  all: try (intros t' s Hs [x Hx|e He|i a Hi Hia Has]; apply Ho;
            by eauto using owner_by_row, owner_by_cache, owner_by_platform).
  intros t' r' o'. destruct (decide (t' = t)) as [->|Hne].
  - rewrite lookup_insert_eq. intros [= <-] [= <-]. done.
  - rewrite lookup_insert_ne by done. eauto.
Qed.

(** Rows after a write: each one either was there or is fine. *)
Lemma set_mappings_owned w l k :
  owned_by S w ->
  (forall r, r ∈ l -> retired (mr_sub r) = false ->
     (owner_row r -> S (mr_tenant r) (mr_sub r)) /\
     (forall a, mr_account r = Some a -> account_sub (tw_org w) a = Some (mr_sub r))) ->
  owned_by S (mkTeamWorld (set_mappings (tw_db w) l) (tw_cache w) (tw_org w) k).
Proof.
  intros [[] Ho] Hl. split; [split; simpl; eauto|].
  - intros r a Hr Hs. by apply Hl.
  - intros t s Hs [x Hx <- <- Hox|e He|i a Hi Hia Has]; simpl in *.
    + by apply Hl.
    + by eapply Ho, owner_by_cache.
    + by eapply Ho, owner_by_platform.
Qed.

Lemma row_owned w r : owned_by S w -> r ∈ td_mappings (tw_db w) -> retired (mr_sub r) = false ->
  (owner_row r -> S (mr_tenant r) (mr_sub r)) /\
  (forall a, mr_account r = Some a -> account_sub (tw_org w) a = Some (mr_sub r)).
Proof.
  intros [[] Ho] Hr Hs. split; [|by eauto]. intros H. apply Ho; [done|]. by eapply owner_by_row.
Qed.

Lemma InsertMapping_triple m : team_triple (mapping_ok m) (InsertMapping m) (fun _ _ => True).
Proof.
  apply team_sql_triple; [apply stable_mapping_ok|]. intros n w u d k Hw [H1 H2].
  unfold insert_mapping. destruct (existsb _ _); [done|]. destruct (role_check _); [|done]. intros [= <- <-].
  split; [|done]. apply set_mappings_owned; [done|]. intros r [Hr| ->%list_elem_of_singleton]%elem_of_app Hs.
  - by apply row_owned.
  - simpl in *. split; [by apply H1|]. intros a. destruct (Z.ltb_spec 0 (mp_AccountID m)); [|done].
    intros [= <-]. apply H2; [done|lia].
Qed.

(** What SyncMapping may be told. *)
Definition sync_fact (t : uuid) (sub role : string) (a : Z) (w : TeamWorld P) : Prop :=
  retired sub = false ->
  (role = RoleOwner -> S t sub) /\ ((0 < a)%Z -> account_sub (tw_org w) a = Some sub).
Lemma stable_sync_fact t sub role a : stable grows (sync_fact t sub role a).
Proof. intros w w' [_ Hg] H Hs. destruct (H Hs) as [H1 H2]. split; auto. Qed.

Lemma SyncMapping_triple t sub role a : team_triple (sync_fact t sub role a) (SyncMapping t sub role a) (fun _ _ => True).
Proof.
  apply team_sql_triple; [apply stable_sync_fact|]. intros n w u d k Hw Hf.
  destruct (existsb _ _); [done|]. intros [= <- <-]. split; [|done]. apply set_mappings_owned; [done|].
  intros r (x & -> & Hx)%list_elem_of_fmap. destruct (is_row t sub x) eqn:Ex; [|by apply row_owned].
  apply andb_prop in Ex as [<-%N.eqb_eq <-%String.eqb_eq]. simpl. intros Hs.
  destruct (row_owned _ _ Hw Hx Hs) as [Ho Ha]. destruct (Hf Hs) as [H1 H2]. split.
  - unfold owner_row in *. simpl. destruct (mr_owner x) eqn:Eo; [intros _; by apply Ho|].
    intros [?|?]%NormalizeLegacy_owner; [done|]. by apply H1.
  - intros b. destruct (Z.ltb_spec 0 a); [|apply Ha]. intros [= <-]. by apply H2.
Qed.

Lemma DeleteMappingByAccount_triple Pre t a : stable grows Pre ->
  team_triple Pre (DeleteMappingByAccount t a) (fun _ _ => True).
Proof.
  intros HP. apply team_sql_triple; [done|]. intros n w u d k Hw _ [= <- <-]. split; [|done].
  apply set_mappings_owned; [done|]. intros r [_ Hr]%elem_of_select. by apply row_owned.
Qed.

Lemma retired_abandoned s : retired ("abandoned:" ++ s) = true.
Proof. unfold retired. apply String.prefix_correct. simpl. by destruct s. Qed.

Lemma AbandonShop_triple Pre t sub : stable grows Pre -> team_triple Pre (AbandonShop t sub) (fun _ _ => True).
Proof.
  intros HP. apply team_sql_triple; [done|]. intros n w u d k Hw _. unfold abandon.
  destruct (List.find _ _); [|done]. destruct (_ || _); [done|]. destruct (has_real_data _ _); [done|].
  intros [= <- <-]. split; [|done].
  assert (H : owned_by S (mkTeamWorld (set_mappings (tw_db w) (retire_row t sub <$> td_mappings (tw_db w))) (tw_cache w) (tw_org w) k)).
  { apply set_mappings_owned; [done|]. intros r (x & -> & Hx)%list_elem_of_fmap. unfold retire_row.
    destruct (is_row t sub x); [|by apply row_owned]. cbn [mr_sub]. by rewrite retired_abandoned. }
  destruct H as [[] Ho]. split; [split; simpl; eauto|].
  - intros t' r o. rewrite lookup_alter_Some. intros [(-> & r' & Hr & ->)|[_ Hr]]; simpl; eauto.
  - intros t' s Hs [x Hx|e He|i a Hi Hia Has]; apply Ho; [done|..];
      by eauto using owner_by_row, owner_by_cache, owner_by_platform.
Qed.

(** *** The cache *)

Lemma cache_keep (w : TeamWorld P) (c : gmap roleKey roleEntry) (t : uuid) (s : string) (e : roleEntry) : owned_by S w -> (forall k x, c !! k = Some x -> tw_cache w !! k = Some x) ->
  retired s = false -> c !! (t, s) = Some e -> re_role e = RoleOwner -> S t s.
Proof. intros [_ Ho] Hc Hs He Hr. apply Ho; [done|]. by eapply owner_by_cache; [apply Hc|]. Qed.

Lemma cache_get_triple Pre t s : stable grows Pre ->
  team_triple Pre (cache_get (t, s))
    (fun r _ => forall e, r = Some e -> retired s = false -> re_role e = RoleOwner -> S t s).
Proof.
  intros HP. apply on_cache_triple; [done|]. intros w Hw _. simpl. split.
  - intros t' s' e. by apply (cache_keep w).
  - intros e He Hs Hr. by eapply (cache_keep w).
Qed.

Lemma cache_evict_sub (now : time) (c : gmap roleKey roleEntry) (k : roleKey) (x : roleEntry) : cache_evict now c !! k = Some x -> c !! k = Some x.
Proof.
  unfold cache_evict. destruct (Z.ltb _ _); [done|]. destruct (Z.ltb _ _); [|by rewrite lookup_empty].
  by intros [? _]%map_lookup_filter_Some.
Qed.

Lemma cache_put_triple Pre t s e now : stable grows Pre -> (retired s = false -> re_role e = RoleOwner -> S t s) ->
  team_triple Pre (cache_put (t, s) e now) (fun _ _ => True).
Proof.
  intros HP He. apply (on_cache_triple Pre _ (fun _ => True)); [done|]. intros w Hw _. simpl. split; [|done].
  intros t' s' x Hs. destruct (decide ((t, s) = (t', s'))) as [[= <- <-]|Hne].
  - rewrite lookup_insert_eq. intros [= <-]. by apply He.
  - rewrite lookup_insert_ne by done. apply (cache_keep w); [done| |done]. apply cache_evict_sub.
Qed.

Lemma cache_delete_triple Pre k : stable grows Pre -> team_triple Pre (cache_delete k) (fun _ _ => True).
Proof.
  intros HP. apply (on_cache_triple Pre _ (fun _ => True)); [done|]. intros w Hw _. simpl. split; [|done].
  intros t s e. apply (cache_keep w); [done|]. by intros k' x [_ ?]%lookup_delete_Some.
Qed.

Lemma cache_invalidate_triple Pre o a : stable grows Pre -> team_triple Pre (cache_invalidate o a) (fun _ _ => True).
Proof.
  intros HP. apply (on_cache_triple Pre _ (fun _ => True)); [done|]. intros w Hw _. simpl. split; [|done].
  intros t s e. apply (cache_keep w); [done|]. by intros k' x [? _]%map_lookup_filter_Some.
Qed.

(** *** The service *)

Lemma org_call_plain {A} Pre (m : RM P A) (Q : A -> P -> Prop) :
  stable grows Pre -> plat_call no_owner m Q -> team_triple Pre (org_call m) (fun a w => Q a (tw_org w)).
Proof. intros HP Hm. eapply org_call_triple; [done|exact Hm|]. by intros w a t _ _ []. Qed.

Lemma accountID_triple svc Pre sub email name : stable grows Pre ->
  team_triple Pre (accountID svc sub email name) (fun a w => a <> 0%Z /\ account_sub (tw_org w) a = Some sub).
Proof.
  intros HP. unfold accountID. destruct (has_accounts svc); [|rule triple_throw].
  apply (org_call_plain Pre _ (fun a p => a <> 0%Z /\ account_sub p a = Some sub)); [done|]. apply EnsureAccount_law.
Qed.

Ltac stable_solve := solve [eauto 8 with stable].

Lemma ensureOrg_triple svc t a sub : S t sub ->
  team_triple (fun w => account_sub (tw_org w) a = Some sub) (ensureOrg svc t a) (fun o => org_fact t o).
Proof.
  intros HS. unfold ensureOrg. rule triple_bind; [stable_solve|apply TenantOrg_triple; stable_solve|].
  intros [name o]. simpl. destruct (negb (Z.eqb o 0)). { rule triple_ret. by intros w _ [H _]. }
  rule triple_guard; [stable_solve|intros _]. rule triple_guard; [stable_solve|intros _].
  rule triple_bind; [stable_solve| |].
  - apply (org_call_triple (fun b k => b = a /\ k = tenant_ref t) _ _ (fun i p => org_ref p i = Some (tenant_ref t)));
      [stable_solve|apply EnsureOrg_law|].
    intros w b u _ [_ Ha] [-> Hu]. apply tenant_ref_inj in Hu as ->. by exists sub.
  - intros i. eapply triple_weaken with (P := fun w => org_ref (tw_org w) i = Some (tenant_ref t));
      [|by intros w _ [H _]|intros r w _ H; exact H].
    rule triple_bind; [stable_solve|apply SetTenantOrg_triple|intros []].
    rule triple_ret. intros w _ [_ H] _. exact H.
Qed.

Section resolve.
Context (svc : Service (P:=P)) (t : uuid) (sub : string) (Hsub : retired sub = false).

(** Whoever is answered to be the owner is one. *)
Definition role_fact (r : Role) : Prop := r = RoleOwner -> S t sub.
Definition cached_fact (c : option roleEntry) : Prop := forall e, c = Some e -> role_fact (re_role e).

Lemma lastKnown_fact c r : cached_fact c -> role_fact r -> role_fact (lastKnown c r).
Proof. intros Hc Hr. destruct c as [e|]; simpl; [by apply Hc|done]. Qed.

Lemma triple_value {A} (Pre : TeamWorld P -> Prop) (a : A) (F : A -> Prop) : F a -> team_triple Pre (mret a) (fun b _ => F b).
Proof. intros H. rule triple_ret. by intros. Qed.

Lemma role_from_platform_triple m o a now cached projected :
  a <> 0%Z -> mp_TenantID m = t -> mp_IDPSubject m = sub ->
  role_fact (NormalizeLegacy (mp_Role m) (mp_IsOwner m)) -> cached_fact cached -> role_fact projected ->
  team_triple (fun w => account_sub (tw_org w) a = Some sub /\ org_ref (tw_org w) o = Some (tenant_ref t))
    (role_from_platform t sub m o a now cached projected) (fun r _ => role_fact r).
Proof.
  intros Ha Ht Hs Hrow Hc Hp. unfold role_from_platform.
  rule triple_bind; [stable_solve|apply triple_try|].
  - eapply triple_weaken with (Q := fun v w => role_fact (FromPlatform (om_Role v) (om_ProductRoles v)));
      [|by intros w _ H; exact H|intros v w _ H; exact H].
    intros w r w' Hw [H1 H2] Hr.
    destruct (org_call_plain (fun w => account_sub (tw_org w) a = Some sub /\ org_ref (tw_org w) o = Some (tenant_ref t))
      (GetMember o a) _ ltac:(stable_solve) (GetMember_law o a) w r w' Hw (conj H1 H2) Hr) as (Hw' & Hg & Hq).
    split_and!; [done..|]. intros v -> Hown. apply FromPlatform_owner in Hown.
    apply (proj2 Hw'); [done|]. eapply owner_by_platform; [by apply (gr_org _ _ Hg)| |by apply (gr_account _ _ Hg)].
    by apply (Hq v eq_refl Ha Hown).
  - intros [e|v].
    + destruct (errors_is e ErrNotMember); [destruct (mp_IsOwner m) eqn:Eo|].
      * rule triple_then; [stable_solve|apply cache_put_triple; [stable_solve|done]|intros []]. by apply triple_value.
      * rule triple_then; [stable_solve|apply cache_delete_triple; stable_solve|intros []]. rule triple_throw.
      * by apply triple_value, lastKnown_fact.
    + cbn beta. apply triple_pure. intros Hv. rule triple_then; [stable_solve|apply cache_put_triple; [stable_solve|done]|intros []].
      rule triple_then; [stable_solve| |intros []; by apply triple_value].
      destruct (_ || _); [|by rule triple_ret].
      rule triple_then; [stable_solve| |by intros; rule triple_ret].
      eapply triple_weaken; [apply triple_try, SyncMapping_triple| |done].
      intros w _ [H _] _. by split.
Qed.

Lemma ResolveRole_triple Pre : stable grows Pre -> team_triple Pre (ResolveRole svc t sub) (fun r _ => role_fact r).
Proof.
  intros HP. unfold ResolveRole. rule triple_guard; [stable_solve|intros _].
  rule triple_then; [stable_solve|apply team_now_triple|intros now].
  rule triple_learn; [stable_solve|apply cache_get_triple; stable_solve|cbn beta; intros cached Hc].
  assert (cached_fact cached) as Hcf by (intros e He Hr; by eapply Hc).
  destruct (fresh_entry now cached) as [role|] eqn:Ef.
  { apply triple_value. unfold fresh_entry in Ef. destruct cached; [|done]. destruct (Z.ltb _ _); [|done].
    injection Ef as <-. by apply Hcf. }
  rule triple_bind; [stable_solve|apply triple_try, MappingBySub_triple; stable_solve|].
  intros [err|[m|]]; cbn beta iota.
  { destruct cached as [e|]; [|rule triple_throw]. apply triple_value. by apply Hcf. }
  2: { apply triple_any. rule triple_then; [stable_solve|apply cache_delete_triple; stable_solve|intros []; rule triple_throw]. }
  eapply triple_weaken with (P := fun w => (mp_IDPSubject m = sub /\ (mp_TenantID m = t -> role_fact (NormalizeLegacy (mp_Role m) (mp_IsOwner m)))) /\
    (mp_AccountID m <> 0%Z -> account_sub (tw_org w) (mp_AccountID m) = Some sub)); [| |intros r w _ H; exact H].
  2: { intros w _ [H _]. destruct (H m eq_refl) as [[H1 H2] Es]. rewrite Es in H1, H2. split_and!; [done|..|by apply H2].
       intros Et Ho. rewrite Et in H1. by apply H1. }
  apply triple_pure. intros [Hm Hrow].
  destruct (N.eqb_spec (mp_TenantID m) t) as [Ht|Ht]; cbn [negb].
  2: { rule triple_then; [stable_solve|apply cache_delete_triple; stable_solve|intros []; rule triple_throw]. }
  specialize (Hrow Ht).
  rule triple_bind; [stable_solve|apply triple_try, TenantOrg_triple; stable_solve|].
  intros [err|[name o]]; cbn beta iota. { by apply triple_value, lastKnown_fact. }
  destruct (Z.eqb_spec o 0) as [Ho|Ho]; cbn [orb].
  { apply triple_any. rule triple_then; [stable_solve|by apply cache_put_triple; [stable_solve|]|intros []]. by apply triple_value. }
  destruct (negb (has_org svc)).
  { apply triple_any. rule triple_then; [stable_solve|by apply cache_put_triple; [stable_solve|]|intros []]. by apply triple_value. }
  destruct (Z.eqb_spec (mp_AccountID m) 0) as [Ha|Ha].
  - eapply triple_weaken with (P := fun w => org_ref (tw_org w) o = Some (tenant_ref t)); [|by intros w _ [H _]; apply H|intros r w _ H; exact H].
    rule triple_bind; [stable_solve|apply triple_try, accountID_triple; stable_solve|].
    intros [err|a]; cbn beta iota. { by apply triple_value, lastKnown_fact. }
    eapply triple_weaken with (P := fun w => a <> 0%Z /\ account_sub (tw_org w) a = Some sub /\ org_ref (tw_org w) o = Some (tenant_ref t));
      [|intros w _ [[? Hk] ?]; rewrite Hm in Hk; by split_and!|intros r w _ H; exact H].
    apply triple_pure. intros Hne. by apply role_from_platform_triple.
  - eapply triple_weaken; [by apply role_from_platform_triple|intros w _ [H1 H2]; split; [by apply H2|by apply H1]|done].
Qed.
End resolve.

(** *** Every call keeps the owners *)

Lemma triple_try_any {A} (Pre : TeamWorld P -> Prop) (m : TM A) Q :
  team_triple Pre m Q -> team_triple Pre (try m) (fun _ _ => True).
Proof. intros H. eapply triple_drop, triple_try, H. Qed.

(** Walks code whose replies matter only as values. *)
Ltac team_leaf :=
  lazymatch goal with
  | |- triple _ _ _ (TenantOrg _) _ => apply TenantOrg_triple
  | |- triple _ _ _ (TenantByOrg _) _ => apply TenantByOrg_triple
  | |- triple _ _ _ (MappingBySub _) _ => apply MappingBySub_triple
  | |- triple _ _ _ (MappingByAccount _ _) _ => apply MappingByAccount_triple
  | |- triple _ _ _ (DeleteMappingByAccount _ _) _ => apply DeleteMappingByAccount_triple
  | |- triple _ _ _ (AbandonShop _ _) _ => apply AbandonShop_triple
  | |- triple _ _ _ (cache_invalidate _ _) _ => apply cache_invalidate_triple
  | |- triple _ _ _ (cache_delete _) _ => apply cache_delete_triple
  | |- triple _ _ _ team_now _ => apply team_now_triple
  | |- triple _ _ _ (team_query _ _) _ => apply (team_query_triple _ _ _ (fun _ _ => True))
  | |- triple _ _ _ (org_call (ListMembers _)) _ => eapply org_call_plain; [|apply ListMembers_law]
  | |- triple _ _ _ (org_call (GetMember _ _)) _ => eapply org_call_plain; [|apply GetMember_law]
  | |- triple _ _ _ (org_call (UpdateMember _ _ _ _ _)) _ => eapply org_call_plain; [|apply UpdateMember_law]
  | |- triple _ _ _ (org_call (RemoveMember _ _ _)) _ => eapply org_call_plain; [|apply RemoveMember_law]
  | |- triple _ _ _ (org_call (CreateInvite _ _ _ _ _)) _ => eapply org_call_plain; [|apply CreateInvite_law]
  | |- triple _ _ _ (org_call (ListInvites _)) _ => eapply org_call_plain; [|apply ListInvites_law]
  | |- triple _ _ _ (org_call (RevokeInvite _ _ _)) _ => eapply org_call_plain; [|apply RevokeInvite_law]
  | |- triple _ _ _ (org_call (_ _ _)) _ => eapply org_call_plain; [|by eapply DissolveOrg_law]
  end.
Ltac team_step :=
  lazymatch goal with
  | |- stable _ _ => stable_solve
  | |- triple _ _ _ (guard_err _ _ ≫= _) _ => rule triple_guard; [stable_solve|intros ?]
  | |- triple _ _ _ (_ ≫= _) _ => rule triple_then; [stable_solve| |intros ?]
  | |- triple _ _ _ (guard_err _ _) _ => eapply triple_drop; rule triple_guard_err
  | |- triple _ _ _ (throw _) _ => rule triple_throw
  | |- triple _ _ _ (mret _) _ => by rule triple_ret
  | |- triple _ _ _ (on_err _ _) _ => apply triple_on_err
  | |- triple _ _ _ (try _) _ => eapply triple_try_any
  | |- triple _ _ _ (if ?b then _ else _) _ => destruct b eqn:?
  | |- triple _ _ _ (match ?x with _ => _ end) _ => destruct x eqn:?
  | |- triple _ _ _ (mapM_ _ _) _ => rule triple_mapM; [stable_solve|intros ?]
  | |- triple _ _ _ _ (fun _ _ => True) => eapply triple_drop; team_leaf
  | |- triple _ _ _ _ _ => team_leaf
  | |- _ => done
  end.
Ltac team_walk := repeat team_step.

Definition keeps_owners {A} (m : TM (P:=P) A) : Prop := team_triple (fun _ => True) m (fun _ _ => True).

Lemma checked svc Pre t : (forall c t k n, plan_guard svc = Some c -> keeps_owners (c t k n)) ->
  team_triple Pre (checkMemberLimit svc t) (fun _ _ => True).
Proof.
  intros H. apply triple_any. unfold checkMemberLimit. destruct (plan_guard svc) eqn:E; [|by rule triple_ret].
  by eapply H.
Qed.

Lemma CashierAllowed_triple t : keeps_owners (CashierAllowed t).
Proof. unfold keeps_owners, CashierAllowed, ProfileType. team_walk. Qed.

Lemma ShopDisplayName_triple t : keeps_owners (ShopDisplayName t).
Proof. unfold keeps_owners, ShopDisplayName, PrintShopName. team_walk. Qed.

Lemma HandleMemberEvent_triple ev : keeps_owners (HandleMemberEvent ev).
Proof. unfold keeps_owners, HandleMemberEvent. team_walk. Qed.

Section calls.
Context (svc : Service (P:=P)).
Context (Hguard : forall c t k n, plan_guard svc = Some c -> keeps_owners (c t k n)).

Lemma actor_account_triple c role : retired (cl_Sub c) = false -> (role = RoleOwner -> S (cl_TenantID c) (cl_Sub c)) ->
  team_triple (fun _ => True) (actor_account svc c role) (fun a w => account_sub (tw_org w) a = Some (cl_Sub c)).
Proof.
  intros Hs Hr. unfold actor_account. rule triple_bind; [stable_solve|apply MappingBySub_triple; stable_solve|].
  intros m. destruct (Z.eqb_spec (from_option mp_AccountID 0%Z m) 0) as [E|E]; cbn [negb].
  - apply triple_any. destruct (match m with Some r => _ | None => _ end) as [email name].
    rule triple_bind; [stable_solve|apply accountID_triple; stable_solve|intros a].
    eapply triple_weaken with (P := fun w => account_sub (tw_org w) a = Some (cl_Sub c)); [|by intros w _ [[_ H] _]|intros r w _ H; exact H].
    rule triple_then; [stable_solve| |intros _; by rule triple_ret].
    eapply triple_weaken; [eapply triple_try_any, SyncMapping_triple| |done]. intros w _ H _. by split.
  - rule triple_ret. intros w _ [H _]. destruct m as [m|]; [|done].
    destruct (H m eq_refl) as [[_ H2] E2]. rewrite E2 in H2. by apply H2.
Qed.

Lemma authorize_triple Pre c : retired (cl_Sub c) = false ->
  team_triple Pre (authorize svc c) (fun _ _ => True).
Proof.
  intros Hs. apply triple_any. unfold authorize. rule triple_guard; [stable_solve|intros _].
  rule triple_learn; [stable_solve|apply triple_on_err, ResolveRole_triple; [done|stable_solve]|intros role Hrole].
  rule triple_guard; [stable_solve|intros _].
  rule triple_bind; [stable_solve|by apply actor_account_triple|intros a].
  eapply triple_weaken with (P := fun w => account_sub (tw_org w) a = Some (cl_Sub c)); [|by intros w _ [H _]|intros r w _ H; exact H].
  rule triple_then; [stable_solve|eapply triple_drop, TenantOrg_triple; stable_solve|intros t].
  destruct (negb (Z.eqb t.2 0)); [by rule triple_ret|].
  rule triple_guard; [stable_solve|intros Hown]. apply negb_false_iff, String.eqb_eq in Hown.
  rule triple_then; [stable_solve| |intros o; by rule triple_ret].
  eapply triple_drop, ensureOrg_triple, Hrole, Hown.
Qed.

Ltac call_step :=
  lazymatch goal with
  | |- triple _ _ _ (authorize _ _) _ => by apply authorize_triple
  | |- triple _ _ _ (checkMemberLimit _ _) _ => by apply checked
  | |- triple _ _ _ (CashierAllowed _) _ => apply triple_any, CashierAllowed_triple
  | |- triple _ _ _ (ShopDisplayName _) _ => apply triple_any, ShopDisplayName_triple
  | _ => team_step
  end.
Ltac call_walk := repeat call_step.

Lemma ListMembers_keeps c : retired (cl_Sub c) = false -> keeps_owners (team_ListMembers svc c).
Proof. intros Hs. unfold keeps_owners, team_ListMembers. call_walk. Qed.

Lemma RemoveMember_keeps c a : retired (cl_Sub c) = false -> keeps_owners (team_RemoveMember svc c a).
Proof. intros Hs. unfold keeps_owners, team_RemoveMember. call_walk. Qed.

Lemma CreateInvite_keeps c r ttl : retired (cl_Sub c) = false -> keeps_owners (team_CreateInvite svc c r ttl).
Proof. intros Hs. unfold keeps_owners, team_CreateInvite. call_walk. Qed.

Lemma ListInvites_keeps c : retired (cl_Sub c) = false -> keeps_owners (team_ListInvites svc c).
Proof. intros Hs. unfold keeps_owners, team_ListInvites. call_walk. Qed.

Lemma RevokeInvite_keeps c i : retired (cl_Sub c) = false -> keeps_owners (team_RevokeInvite svc c i).
Proof. intros Hs. unfold keeps_owners, team_RevokeInvite. call_walk. Qed.

Lemma UpdateMemberRole_keeps c a r : retired (cl_Sub c) = false -> keeps_owners (UpdateMemberRole svc c a r).
Proof.
  intros Hs. unfold keeps_owners, UpdateMemberRole. destruct (ToPlatform r) as [[p pr]|] eqn:Er; [|rule triple_throw].
  rule triple_then; [stable_solve|by apply authorize_triple|intros act].
  rule triple_then; [stable_solve|call_walk|intros _].
  rule triple_then; [stable_solve|call_walk|intros target].
  rule triple_guard; [stable_solve|intros Hg].
  rule triple_then; [stable_solve|call_walk|intros _].
  rule triple_then; [stable_solve|call_walk|intros _].
  rule triple_bind; [stable_solve|apply triple_try, MappingByAccount_triple; stable_solve|].
  intros [e|[m|]]; [by rule triple_ret| |by rule triple_ret].
  eapply triple_weaken with (P := fun w => mapping_ok m w /\ mp_AccountID m = a); [|intros w _ [H _]; destruct (H m eq_refl) as (? & _ & ?); by split|intros r0 w _ H; exact H].
  rule triple_then; [stable_solve| |intros _; by rule triple_ret].
  eapply triple_weaken; [eapply triple_try_any, SyncMapping_triple| |done].
  intros w _ [[_ H2] <-] Hret. split; [|intros Ha; apply H2; [done|lia]].
  by intros ->.
Qed.

(** *** Joining *)

Lemma leaveOrg_triple Pre o a : stable grows Pre -> team_triple Pre (leaveOrg o a) (fun _ _ => True).
Proof. intros HP. apply triple_any. unfold leaveOrg. call_walk. Qed.

Lemma join_existing_triple Pre in_ m : stable grows Pre -> team_triple Pre (join_existing svc in_ m) (fun _ _ => True).
Proof.
  intros HP. apply triple_any. unfold join_existing, isOwnShopInvite, abandonable, MemberCount, ShopIsEmpty.
  call_walk. apply team_sql_triple; [stable_solve|]. intros n w b d k Hw _ [= <- <-].
  split; [by eapply owned_by_same; [..|exact Hw]|done].
Qed.

Lemma give_up_shop_triple Pre in_ m o a : stable grows Pre -> team_triple Pre (give_up_shop in_ m o a) (fun _ _ => True).
Proof.
  intros HP. apply triple_any. unfold give_up_shop, abandonRaced, retireOrg.
  repeat lazymatch goal with |- triple _ _ _ (leaveOrg _ _) _ => apply leaveOrg_triple; stable_solve | _ => call_step end.
Qed.

(** What the platform's acceptance says about the shop it turns out to be. *)
Definition joined_fact (sub : string) (r : AcceptResult) (w : TeamWorld P) : Prop :=
  FromPlatform (ar_Role r) (ar_ProductRoles r) = RoleOwner ->
  exists k, org_ref (tw_org w) (ar_OrgID r) = Some k /\ forall t, k = tenant_ref t -> S t sub.

Lemma stable_joined_fact sub r : stable grows (joined_fact sub r).
Proof. intros w w' [Hg _] H Hr. destruct (H Hr) as (k & Hk & HS). exists k. by split; [apply Hg|]. Qed.
Hint Resolve stable_joined_fact : stable.

Lemma AcceptInvite_triple token a sub : retired sub = false ->
  team_triple (fun w => account_sub (tw_org w) a = Some sub) (org_call (AcceptInvite token a)) (joined_fact sub).
Proof.
  intros Hs w r w' Hw Ha Hr.
  destruct (org_call_plain _ _ _ (stable_account a sub) (AcceptInvite_law token a) w r w' Hw Ha Hr) as (Hw' & Hg & Hq).
  split_and!; [done..|]. intros v -> Hown. apply FromPlatform_owner in Hown.
  pose proof (Hq v eq_refl Hown) as Ho. destruct Hw' as [Hwf Hlive].
  destruct (owner_in_org _ _ _ (tf_plat _ Hwf) Ho) as [k Hk]. exists k. split; [done|].
  intros t ->. apply Hlive; [done|]. eapply owner_by_platform; [done..|]. by apply (gr_account _ _ Hg).
Qed.

Lemma persist_member_triple in_ t role o a :
  retired (ji_Sub in_) = false -> (role = RoleOwner -> S t (ji_Sub in_)) ->
  team_triple (fun w => account_sub (tw_org w) a = Some (ji_Sub in_)) (persist_member in_ t role o a) (fun _ _ => True).
Proof.
  intros Hs Hr. unfold persist_member. rule triple_then; [stable_solve| |intros r].
  - eapply triple_try_any. eapply triple_weaken; [apply InsertMapping_triple| |done].
    intros w _ Ha. split; simpl; [|done]. intros _ [H| ->]%NormalizeLegacy_owner; [|by apply Hr].
    by apply Hr, String.eqb_eq.
  - apply triple_any.
    repeat lazymatch goal with |- triple _ _ _ (leaveOrg _ _) _ => apply leaveOrg_triple; stable_solve | _ => call_step end.
Qed.

Lemma Join_keeps in_ : retired (ji_Sub in_) = false -> keeps_owners (team_Join svc in_).
Proof.
  intros Hs. unfold keeps_owners, team_Join.
  rule triple_guard; [stable_solve|intros _]. rule triple_guard; [stable_solve|intros _].
  rule triple_then; [stable_solve|eapply triple_drop, MappingBySub_triple; stable_solve|intros existing].
  rule triple_then; [stable_solve|destruct existing; [apply join_existing_triple; stable_solve|by rule triple_ret]|intros _].
  rule triple_bind; [stable_solve|apply accountID_triple; stable_solve|intros acct].
  eapply triple_weaken with (P := fun w => account_sub (tw_org w) acct = Some (ji_Sub in_)); [|by intros w _ [[_ H] _]|intros r w _ H; exact H].
  rule triple_bind; [stable_solve|by apply AcceptInvite_triple|intros res].
  rule triple_bind; [stable_solve|apply TenantByOrg_triple; stable_solve|intros t]. cbn beta.
  destruct (uuid_is_nil t) eqn:Et.
  { rule triple_then; [stable_solve|apply leaveOrg_triple; stable_solve|intros _; rule triple_throw]. }
  set (role := FromPlatform (ar_Role res) (ar_ProductRoles res)).
  eapply triple_weaken with (P := fun w => (role = RoleOwner -> S t (ji_Sub in_)) /\ account_sub (tw_org w) acct = Some (ji_Sub in_));
    [| |intros r w _ H; exact H].
  2: { intros w _ (Ht & Hj & Ha). split; [|done]. intros Hr. destruct (Hj Hr) as (k & Hk & HS). apply HS.
       rewrite (Ht eq_refl) in Hk. by injection Hk as <-. }
  apply triple_pure. intros Hrole.
  rule triple_guard; [stable_solve|intros _].
  rule triple_then; [stable_solve|eapply triple_try_any; by apply checked|intros [err|_]].
  { rule triple_then; [stable_solve|apply leaveOrg_triple; stable_solve|intros _; rule triple_throw]. }
  rule triple_then; [stable_solve|destruct existing; [apply give_up_shop_triple; stable_solve|by rule triple_ret]|intros _].
  rule triple_then; [stable_solve|by apply persist_member_triple|intros _].
  apply triple_any. call_walk.
Qed.
End calls.
End triples.

(** ** Histories *)

Inductive team_call :=
  | CallListMembers (c : Caller)
  | CallUpdateMemberRole (c : Caller) (target : Z) (role : Role)
  | CallRemoveMember (c : Caller) (target : Z)
  | CallCreateInvite (c : Caller) (role : Role) (ttlHours : Z)
  | CallListInvites (c : Caller)
  | CallRevokeInvite (c : Caller) (invite : uuid)
  | CallJoin (in_ : JoinInput)
  | CallResolveRole (tenant : uuid) (sub : string)
  | CallMemberEvent (ev : MemberEvent).

Context (svc : Service (P:=P)).

Definition run_team_call (c : team_call) : TM unit :=
  match c with
  | CallListMembers c => team_ListMembers svc c;; mret tt
  | CallUpdateMemberRole c a r => UpdateMemberRole svc c a r
  | CallRemoveMember c a => team_RemoveMember svc c a
  | CallCreateInvite c r ttl => team_CreateInvite svc c r ttl;; mret tt
  | CallListInvites c => team_ListInvites svc c;; mret tt
  | CallRevokeInvite c i => team_RevokeInvite svc c i
  | CallJoin i => team_Join svc i;; mret tt
  | CallResolveRole t sub => ResolveRole svc t sub;; mret tt
  | CallMemberEvent ev => HandleMemberEvent ev
  end.

(** Whatever the outcome of a call, the next one finds the state it left. *)
Definition run_history (calls : list team_call) (w : TeamWorld P) : TeamWorld P :=
  fold_left (fun w c => (run_team_call c w).2) calls w.

(** No one signs in under the subject of a retired row. *)
Definition by_a_person (c : team_call) : Prop :=
  match c with
  | CallListMembers c | CallUpdateMemberRole c _ _ | CallRemoveMember c _ | CallCreateInvite c _ _
  | CallListInvites c | CallRevokeInvite c _ => retired (cl_Sub c) = false
  | CallJoin i => retired (ji_Sub i) = false
  | CallResolveRole _ sub => retired sub = false
  | CallMemberEvent _ => True
  end.

(** A plan check counts rows; it changes none. *)
Definition reads_only (m : TM (P:=P) unit) : Prop :=
  forall w, tw_db (m w).2 = tw_db w /\ tw_cache (m w).2 = tw_cache w /\ tw_org (m w).2 = tw_org w.

Lemma reads_only_keeps S (m : TM unit) : reads_only m -> keeps_owners S m.
Proof.
  intros H w r w' Hw _ E. specialize (H w). rewrite E in H. simpl in H. destruct H as (H1 & H2 & H3).
  split_and!; [by eapply owned_by_same; [..|exact Hw]|by apply grows_same|done].
Qed.

Lemma run_team_call_keeps S c : well_behaved S ->
  (forall g t k n, plan_guard svc = Some g -> reads_only (g t k n)) ->
  by_a_person c -> keeps_owners S (run_team_call c).
Proof.
  intros Hr Hg Hp. assert (Hg' : forall g t k n, plan_guard svc = Some g -> keeps_owners S (g t k n))
    by (intros g t k n E; by apply reads_only_keeps, Hg).
  unfold keeps_owners. destruct c; simpl in *;
    try (rule triple_then; [apply stable_pure| |intros ?; by rule triple_ret]).
  - by apply ListMembers_keeps.
  - by apply UpdateMemberRole_keeps.
  - by apply RemoveMember_keeps.
  - by apply CreateInvite_keeps.
  - by apply ListInvites_keeps.
  - by apply RevokeInvite_keeps.
  - by apply Join_keeps.
  - eapply triple_drop, ResolveRole_triple; [done..|apply stable_pure].
  - by apply HandleMemberEvent_triple.
Qed.

Lemma run_history_keeps S calls w : well_behaved S ->
  (forall g t k n, plan_guard svc = Some g -> reads_only (g t k n)) ->
  Forall by_a_person calls -> owned_by S w -> owned_by S (run_history calls w).
Proof.
  intros Hr Hg Hp. revert w. induction Hp as [|c l Hc Hl IH]; intros w Hw; simpl; [done|]. apply IH.
  destruct (run_team_call c w) as [r w'] eqn:E.
  by apply (run_team_call_keeps S c Hr Hg Hc w r w' Hw I E).
Qed.

(** C17: no sequence of team calls makes anyone an owner.  Whatever members are listed, invited,
    promoted, removed, whoever joins and whatever events arrive, in any order and with other
    requests in between, everyone the rows, the cache or the platform call an owner of a shop
    afterwards was one at the start - and so is everyone [ResolveRole] then answers the owner
    role to. *)
Theorem owners_never_grow (w : TeamWorld P) (calls : list team_call) :
  (forall g t k n, plan_guard svc = Some g -> reads_only (g t k n)) ->
  well_behaved (owner_of w) ->
  team_wf w ->
  Forall by_a_person calls ->
  team_wf (run_history calls w) /\
  (forall t s, retired s = false -> owner_of (run_history calls w) t s -> owner_of w t s) /\
  (forall t s w', retired s = false -> ResolveRole svc t s (run_history calls w) = (Ok RoleOwner, w') ->
     owner_of w t s).
Proof.
  intros Hg Hr Hw Hc.
  assert (H0 : owned_by (owner_of w) w) by (split; auto).
  pose proof (run_history_keeps _ calls w Hr Hg Hc H0) as H. split_and!; [apply H|apply H|].
  intros t s w' Hs E.
  destruct (ResolveRole_triple _ Hr svc t s Hs (fun _ => True) (stable_pure _ _) _ _ _ H I E) as (_ & _ & Hq).
  by apply (Hq RoleOwner).
Qed.
End ownership.

(** ** A shop to try it on

    Alice owns shop 7, with the organization of DevOrg.v behind it; in the middle of things the
    cache is lost. *)
Section example.
Definition ex_tokens : Tokens := {| hashToken s := ("#" ++ s)%string; token_at n := Z_to_string (Z.of_nat n) |}.
#[local] Existing Instance ex_tokens.

Definition ex_alice : Z := Eval vm_compute in dev_account_id "alice".
Definition ex_bob : Z := Eval vm_compute in dev_account_id "bob".

Definition ex_dev : Dev := mkDev
  {[ ex_alice := mkDevAccount "alice" "a@x" "Alice" ]}
  {[ 1%Z := mkDevOrgRow "tally" "7" "Tea" ]} 2
  {[ (1%Z, ex_alice) := mkDevMember "owner" ∅ ex_start ]} [].

Definition ex_team_db : TeamDB := mkTeamDB
  {[ 7%N := mkTenantRow "Tea" (Some 1%Z) 1 (Some "retail") "Tea house" None ]}
  [mkMappingRow 70%N 7%N "alice" "a@x" "Alice" "owner" true (Some ex_alice)] [].

Definition ex_around : Surroundings Dev := {|
  others n w := if Nat.eqb n 40 then mkTeamWorld (tw_db w) ∅ (tw_org w) (tw_tick w) else w;
  has_real_data _ _ := false;
|}.
#[local] Existing Instance ex_around.

Definition ex_team : TeamWorld Dev := mkTeamWorld ex_team_db ∅ ex_dev 0.
Definition ex_svc : Service := mkService (P:=Dev) true true None.

Definition ex_owner : Caller := mkCaller 7%N "alice" "" "".
Definition ex_bob_calls : Caller := mkCaller 7%N "bob" "" "".

(** Alice invites a clerk, Bob joins, is promoted to manager, tries to become the owner and to
    put Alice out. *)
Definition ex_calls : list team_call := [
  CallCreateInvite ex_owner RoleClerk 0;
  CallJoin (mkJoinInput "bob" "b@x" "Bob" "9" 0%N false);
  CallUpdateMemberRole ex_owner ex_bob RoleManager;
  CallUpdateMemberRole ex_bob_calls ex_bob RoleOwner;
  CallRemoveMember ex_bob_calls ex_alice;
  CallResolveRole 7%N "bob"].

Lemma ex_well_behaved S : well_behaved S.
Proof.
  intros n w [Hw Ho]. simpl. destruct (Nat.eqb n 40); [|by split].
  split; [|by split]. split; [by destruct Hw; split|].
  intros t s Hs [r Hr|e He|o a Hr]; (apply Ho; [done|]);
    [by eapply owner_by_row|by simpl in He; rewrite lookup_empty in He|by eapply owner_by_platform].
Qed.

Lemma ex_team_wf : team_wf ex_team.
Proof.
  split.
  - split; simpl.
    + by intros a r [<- <-]%lookup_singleton_Some.
    + by intros v Hv%elem_of_nil.
    + by intros o a m [[= <- <-] <-]%lookup_singleton_Some _.
  - intros r a ->%list_elem_of_singleton _ [= <-]. reflexivity.
  - intros t r o H. simpl in H. apply lookup_singleton_Some in H as [<- <-]. by intros [= <-].
  - intros t o a _ (m & H & _)%fmap_Some. simpl in H. apply lookup_singleton_Some in H as [[= <- <-] _].
    by eexists.
Qed.

(** Bob ends up a manager, and no owner: the theorem at this history. *)
Lemma owners_never_grow_witness :
  team_wf (run_history ex_svc ex_calls ex_team) /\
  (exists w', ResolveRole ex_svc 7%N "bob" (run_history ex_svc ex_calls ex_team) = (Ok RoleManager, w')) /\
  (forall s, retired s = false -> owner_of (run_history ex_svc ex_calls ex_team) 7%N s -> owner_of ex_team 7%N s).
Proof.
  assert (Hc : Forall by_a_person ex_calls) by (repeat constructor).
  destruct (owners_never_grow ex_svc ex_team ex_calls (fun g t k n E => ltac:(discriminate E))
              (ex_well_behaved _) ex_team_wf Hc) as (H1 & H2 & _).
  split; [exact H1|]. split; [|exact (H2 7%N)].
  eexists. vm_compute. reflexivity.
Defined.
End example.
