(* ===== verification/TeamTrip.v ===== *)
(** A change of role takes effect at once.

    With the organizations of DevOrg.v, no other request in between and a driver that answers:
    after UpdateMemberRole has answered without error, the next ResolveRole of that person
    answers exactly the role that was asked for, even inside the lifetime of a cached role; after
    RemoveMember it answers that the person is no member.  The role travels through ToPlatform,
    the member row and its product roles, FromPlatform and back. *)
From S2P Require Import Prelude Safe GoStrings Types Decimal SDec Roles OrgApi DevOrg TeamStore TeamService Concrete DevOrgLaws TeamLaws.
From stdpp Require Import base tactics strings gmap list sorting.
From Stdlib Require Import ZArith Lia.

Section trip.
Context {ops : DecimalOps} {env : Env} {tok : Tokens} {around : Surroundings Dev}.
Context (quiet : forall n w, others n w = w).

Abbreviation W := (TeamWorld Dev).

(** *** Successful operations, one by one *)

Lemma enter_quiet (w : W) : enter w = w.
Proof. unfold enter. rewrite quiet. by destruct w. Qed.

Lemma team_sql_Ok {A} l (f : nat -> TeamDB -> error + (A * TeamDB)) (w : W) a w' :
  team_sql l f w = (Ok a, w') ->
  exists d, f (tw_tick w) (tw_db w) = inr (a, d) /\ w' = mkTeamWorld d (tw_cache w) (tw_org w) (S (tw_tick w)).
Proof.
  unfold team_sql. rewrite enter_quiet. destruct (db_fault _); [done|].
  destruct (f _ _) as [e|[b d]]; [done|]. intros [= <- <-]. by exists d.
Qed.

Lemma team_query_Ok {A} l (f : TeamDB -> error + A) (w : W) a w' :
  team_query l f w = (Ok a, w') -> f (tw_db w) = inr a /\ w' = tbump w.
Proof. intros (d & H & ->)%team_sql_Ok. destruct (f _); [done|]. by injection H as -> <-. Qed.

Lemma team_query_same {A} l (f : TeamDB -> error + A) (w : W) r w' : team_query l f w = (r, w') -> w' = tbump w.
Proof.
  unfold team_query, team_sql. rewrite enter_quiet. destruct (db_fault _); [by intros [= _ <-]|].
  destruct (f _); intros [= _ <-]; by destruct w.
Qed.

Lemma on_cache_Ok {A} (f : gmap roleKey roleEntry -> A * gmap roleKey roleEntry) (w : W) :
  on_cache f w = (Ok (f (tw_cache w)).1, mkTeamWorld (tw_db w) (f (tw_cache w)).2 (tw_org w) (S (tw_tick w))).
Proof. unfold on_cache. rewrite enter_quiet. by destruct (f _). Qed.

Lemma org_call_Ok {A} (m : RM Dev A) (w : W) a w' : org_call m w = (Ok a, w') ->
  exists s, m (mkRemote (tw_org w) (tw_tick w)) = (Ok a, s) /\ w' = mkTeamWorld (tw_db w) (tw_cache w) (rm_state s) (rm_tick s).
Proof. unfold org_call. rewrite enter_quiet. destruct (m _) as [r s]. intros [= -> <-]. by exists s. Qed.

(** *** What a caller's gate leaves alone *)

(** Rewriting rows a filter does not keep changes nothing it keeps. *)
Lemma select_fmap_other {A} (p : A -> bool) (f : A -> A) l :
  (forall x, p x = true -> f x = x) -> (forall x, p x = false -> p (f x) = false) -> select p (f <$> l) = select p l.
Proof.
  intros H1 H2. unfold select. induction l as [|x l IH]; [done|]. csimpl. rewrite IH.
  destruct (p x) eqn:E; [by rewrite (H1 x E), E|by rewrite (H2 x E)].
Qed.

(** Pinned organizations, the rows of other people, and no new cached role for them. *)
Record leaves_others (sub : string) (w w' : W) : Prop := mkLeaves {
  lo_tenants : forall t tr o, td_tenants (tw_db w) !! t = Some tr -> tn_org tr = Some o -> td_tenants (tw_db w') !! t = Some tr;
  lo_rows : select (fun r => negb (String.eqb (mr_sub r) sub)) (td_mappings (tw_db w')) =
            select (fun r => negb (String.eqb (mr_sub r) sub)) (td_mappings (tw_db w));
  lo_subs : mr_sub <$> td_mappings (tw_db w') = mr_sub <$> td_mappings (tw_db w);
  lo_cache : forall t s e, s <> sub -> tw_cache w' !! (t, s) = Some e -> tw_cache w !! (t, s) = Some e;
}.

#[export] Instance leaves_others_preorder sub : PreOrder (leaves_others sub).
Proof.
  split; [by intros w; split|]. intros u v w [H1 H2 H3 H4] [K1 K2 K3 K4]. split; [by eauto|congruence..|auto].
Qed.

Lemma leaves_same (sub : string) (w w' : W) : tw_db w' = tw_db w -> tw_cache w' = tw_cache w -> leaves_others sub w w'.
Proof. intros E1 E2. split; rewrite ?E1, ?E2; auto. Qed.

Lemma leaves_sql {A} (sub : string) l (f : nat -> TeamDB -> error + (A * TeamDB)) :
  (forall n w a d k, f n (tw_db w) = inr (a, d) -> leaves_others sub w (mkTeamWorld d (tw_cache w) (tw_org w) k)) ->
  keeps (leaves_others sub) (team_sql l f).
Proof.
  intros H w. unfold team_sql. rewrite enter_quiet. destruct (db_fault _); [by apply leaves_same|].
  destruct (f _ _) as [e|[a d]] eqn:E; [by apply leaves_same|].
  exact (H (tw_tick w) w a d (S (tw_tick w)) E).
Qed.

Lemma leaves_query {A} (sub : string) l (f : TeamDB -> error + A) : keeps (leaves_others sub) (team_query l f).
Proof. apply leaves_sql. intros n w a d k. destruct (f _); [done|]. intros [= _ <-]. by apply leaves_same. Qed.

Lemma leaves_org {A} (sub : string) (m : RM Dev A) : keeps (leaves_others sub) (org_call m).
Proof. intros w. unfold org_call. rewrite enter_quiet. destruct (m _) as [r s]. by apply leaves_same. Qed.

Lemma leaves_now (sub : string) : keeps (leaves_others sub) team_now.
Proof. intros w. by apply leaves_same. Qed.

Lemma leaves_cache {A} (sub : string) (f : gmap roleKey roleEntry -> A * gmap roleKey roleEntry) :
  (forall c t s e, s <> sub -> (f c).2 !! (t, s) = Some e -> c !! (t, s) = Some e) ->
  keeps (leaves_others sub) (on_cache f).
Proof. intros H w. rewrite on_cache_Ok. split; simpl; eauto. Qed.

Lemma leaves_cache_get (sub : string) (k : roleKey) : keeps (leaves_others sub) (cache_get k).
Proof. by apply leaves_cache. Qed.
Lemma leaves_cache_delete (sub : string) (k : roleKey) : keeps (leaves_others sub) (cache_delete k).
Proof. apply leaves_cache. simpl. by intros c t s e _ [_ ?]%lookup_delete_Some. Qed.
Lemma leaves_cache_put (sub : string) (t : uuid) (e : roleEntry) (now : time) : keeps (leaves_others sub) (cache_put (t, sub) e now).
Proof.
  apply leaves_cache. simpl. intros c t' s e' Hs. rewrite lookup_insert_ne by congruence. apply cache_evict_sub.
Qed.

Lemma leaves_cache_invalidate (sub : string) o a : keeps (leaves_others sub) (cache_invalidate o a).
Proof. apply leaves_cache. simpl. by intros c t s e _ [? _]%map_lookup_filter_Some. Qed.

Lemma leaves_set_org (sub : string) t o : keeps (leaves_others sub) (SetTenantOrg t o).
Proof.
  apply leaves_sql. intros n w a d k. destruct (td_tenants (tw_db w) !! t) as [tr|] eqn:Et; [|intros [= _ <-]; by apply leaves_same].
  destruct (tn_org tr) as [o'|] eqn:Eo; [intros [= _ <-]; by apply leaves_same|]. destruct (org_taken _ _); [done|].
  intros [= _ <-]. split; simpl; [|done..]. intros t' tr' o' Ht' Ho'. rewrite lookup_insert_ne; [done|]. congruence.
Qed.

Lemma leaves_sync (sub : string) t role a : keeps (leaves_others sub) (SyncMapping t sub role a).
Proof.
  apply leaves_sql. intros n w u d k. destruct (existsb _ _); [done|]. intros [= _ <-]. split; simpl; [eauto| | |done].
  2: { rewrite <- list_fmap_compose. apply list_fmap_ext. intros i x _. simpl. by destruct (is_row t sub x). }
  apply select_fmap_other; intros r; unfold is_row; destruct (String.eqb (mr_sub r) sub) eqn:E; simpl; try done.
  - by rewrite andb_false_r.
  - rewrite andb_true_r. by destruct (N.eqb (mr_tenant r) t); simpl; rewrite E.
Qed.

Ltac leaves_step :=
  lazymatch goal with
  | |- keeps _ (_ ≫= _) => apply keeps_bind; [tc_solve| |intros ?]
  | |- keeps _ (guard_err _ _) => apply keeps_guard_err; tc_solve
  | |- keeps _ (mret _) => apply keeps_ret; tc_solve
  | |- keeps _ (throw _) => apply keeps_throw; tc_solve
  | |- keeps _ (on_err _ _) => apply keeps_on_err
  | |- keeps _ (try _) => apply keeps_try
  | |- keeps _ (if ?b then _ else _) => destruct b
  | |- keeps _ (match ?x with _ => _ end) => destruct x
  | |- keeps _ (org_call _) => apply leaves_org
  | |- keeps _ team_now => apply leaves_now
  | |- keeps _ (cache_get _) => apply leaves_cache_get
  | |- keeps _ (cache_delete _) => apply leaves_cache_delete
  | |- keeps _ (cache_put _ _ _) => apply leaves_cache_put
  | |- keeps _ (SyncMapping _ _ _ _) => apply leaves_sync
  | |- keeps _ (SetTenantOrg _ _) => apply leaves_set_org
  | |- keeps _ (TenantOrg _) => apply leaves_query
  | |- keeps _ (MappingBySub _) => apply leaves_query
  | |- keeps _ (team_query _ _) => apply leaves_query
  end.

Context (svc : Service (P:=Dev)).

Lemma ResolveRole_leaves t sub : keeps (leaves_others sub) (ResolveRole svc t sub).
Proof. unfold ResolveRole, role_from_platform, accountID. repeat leaves_step. Qed.
Lemma actor_account_leaves c r : keeps (leaves_others (cl_Sub c)) (actor_account svc c r).
Proof. unfold actor_account, accountID. repeat leaves_step. Qed.
Lemma ensureOrg_leaves (sub : string) t a : keeps (leaves_others sub) (ensureOrg svc t a).
Proof. unfold ensureOrg. repeat leaves_step. Qed.

Lemma authorize_Ok c w a w' tr o : authorize svc c w = (Ok a, w') ->
  td_tenants (tw_db w) !! cl_TenantID c = Some tr -> tn_org tr = Some o -> o <> 0%Z ->
  has_org svc = true /\ ac_orgID a = o /\ leaves_others (cl_Sub c) w w'.
Proof.
  intros H Ht Ho Hne. unfold authorize in H. minv H.
  pose proof (keeps_run _ _ _ _ _ (ResolveRole_leaves _ _) Hm0) as L1.
  pose proof (keeps_run _ _ _ _ _ (actor_account_leaves _ _) Hm2) as L2.
  apply team_query_Ok in Hm3 as [Hq ->].
  rewrite (lo_tenants _ _ _ L2 _ _ _ (lo_tenants _ _ _ L1 _ _ _ Ht Ho) Ho) in Hq. injection Hq as <-.
  rewrite Ho in H. simpl in H. destruct (Z.eqb_spec o 0) as [?|_]; [done|]. simpl in H. minv H.
  split_and!; [by apply negb_false_iff|done|]. etrans; [exact L1|]. etrans; [exact L2|]. by apply leaves_same.
Qed.

(** *** The member row UpdateMember leaves *)

Lemma dev_sql_Ok {A} (f : time -> Dev -> error + (A * Dev)) s a s' : dev_sql f s = (Ok a, s') ->
  exists d, f (clock_at (rm_tick s)) (rm_state s) = inr (a, d) /\ rm_state s' = d.
Proof. unfold dev_sql. destruct (db_fault _); [done|]. destruct (f _ _) as [e|[b d]]; [done|]. intros [= <- <-]. by exists d. Qed.

Lemma dev_role_Ok o a s r s' : dev_role o a s = (Ok r, s') ->
  rm_state s' = rm_state s /\ is_Some (d_members (rm_state s) !! (o, a)).
Proof.
  unfold dev_role. intros H. minv H. apply dev_sql_Ok in Hm as (d & [= <- <-] & E).
  destruct (d_members (rm_state s) !! (o, a)); [|by minv H]. minv H. by split.
Qed.

Lemma dev_UpdateMember_Ok o a actor role pr s s' : dev_UpdateMember o a actor role pr s = (Ok tt, s') ->
  exists j, d_members (rm_state s') !! (o, a) = Some (mkDevMember role pr j).
Proof.
  unfold dev_UpdateMember. intros H. minv H. apply dev_role_Ok in Hm0 as [E [m Hm0]].
  apply dev_sql_Ok in H as (d & H & ->). revert H. unfold set_member. rewrite E, Hm0.
  destruct (member_role_ok role); [|done]. intros [= <-]. exists (dm_joined_at m). simpl. by rewrite lookup_insert_eq.
Qed.

(** *** What ResolveRole then reads *)

Lemma bind_ends {S E A B} (m : stm S E A) (k : A -> stm S E B) s a s' b :
  m s = (Ok a, s') -> (exists w, k a s' = (Ok b, w)) -> exists w, (m ≫= k) s = (Ok b, w).
Proof. unfold mbind, stm_bind. by intros ->. Qed.
Lemma try_run {S E A} (m : stm S E A) s a s' : m s = (Ok a, s') -> try m s = (Ok (inr a), s').
Proof. unfold try. by intros ->. Qed.

(** The person [sub] of shop [t] is account [a] of organization [o], with member row [m]. *)
Record member_state (t : uuid) (sub : string) (o a : Z) (m : DevMember) (w : W) : Prop := mkMemberState {
  ms_cache : tw_cache w !! ((t, sub) : roleKey) = None;
  ms_tenant : exists tr, td_tenants (tw_db w) !! t = Some tr /\ tn_org tr = Some o;
  ms_row : exists r, r ∈ td_mappings (tw_db w) /\ mr_sub r = sub /\ mr_tenant r = t /\ mr_account r = Some a;
  ms_unique : NoDup (mr_sub <$> td_mappings (tw_db w));
  ms_member : d_members (tw_org w) !! (o, a) = Some m;
}.

Context (reliable : forall n, db_fault n = false).

Lemma team_query_run {A} l (f : TeamDB -> error + A) (w : W) a : f (tw_db w) = inr a -> team_query l f w = (Ok a, tbump w).
Proof. intros H. unfold team_query, team_sql. rewrite enter_quiet, reliable, H. by destruct w. Qed.

Lemma team_sql_answers {A} l (f : nat -> TeamDB -> error + (A * TeamDB)) (w : W) : exists v w', try (team_sql l f) w = (Ok v, w').
Proof. unfold try, team_sql. rewrite enter_quiet, reliable. destruct (f _ _) as [e|[a d]]; eauto. Qed.

Lemma SyncMapping_answers t sub role a (w : W) : exists v w', try (SyncMapping t sub role a) w = (Ok v, w').
Proof. apply team_sql_answers. Qed.

Lemma find_by_sub sub (l : list MappingRow) r : r ∈ l -> NoDup (mr_sub <$> l) -> mr_sub r = sub ->
  List.find (fun r => String.eqb (mr_sub r) sub) l = Some r.
Proof.
  intros Hin Hnd <-. induction l as [|x l IH]; [by apply elem_of_nil in Hin|].
  csimpl in Hnd. apply NoDup_cons in Hnd as [Hx Hnd]. simpl. apply elem_of_cons in Hin as [->|Hin].
  - by rewrite String.eqb_refl.
  - destruct (String.eqb_spec (mr_sub x) (mr_sub r)) as [E|]; [|by apply IH].
    exfalso. apply Hx. rewrite E. by apply list_elem_of_fmap_2.
Qed.

Lemma GetMember_run o a m (w : W) : a <> 0%Z -> d_members (tw_org w) !! (o, a) = Some m ->
  exists v, org_call (GetMember o a) w = (Ok v, tbump w) /\ om_Role v = dm_role m /\ om_ProductRoles v = dm_product_roles m.
Proof.
  intros Ha Hm. unfold org_call. rewrite enter_quiet. simpl. unfold dev_GetMember, memberRows, dev_query, dev_sql.
  unfold mbind, stm_bind. simpl. rewrite reliable.
  set (l := merge_sort _ _).
  assert (Hl : forall v, v ∈ l <-> v = member_of (tw_org w) ((o, a), m)).
  { intros v. unfold l. rewrite merge_sort_Permutation, list_elem_of_fmap. split.
    - intros ([[o' a'] m'] & -> & [Hc Hin]%elem_of_select). rewrite elem_of_map_to_list in Hin. simpl in *.
      apply andb_prop in Hc as [->%Z.eqb_eq [?%Z.eqb_eq| ->%Z.eqb_eq]%orb_prop]; [done|].
      rewrite Hm in Hin. by injection Hin as <-.
    - intros ->. exists ((o, a), m). split; [done|]. apply elem_of_select. rewrite elem_of_map_to_list. simpl.
      by rewrite !Z.eqb_refl, orb_true_r. }
  destruct l as [|v l'].
  - exfalso. assert (H : member_of (tw_org w) ((o, a), m) ∈ []) by (by apply Hl). by apply elem_of_nil in H.
  - exists v. assert (v = member_of (tw_org w) ((o, a), m)) as -> by (apply Hl; by left). by destruct w.
Qed.

Lemma ResolveRole_run t sub o a m w : uuid_is_nil t = false -> sub <> "" -> o <> 0%Z -> a <> 0%Z -> has_org svc = true ->
  member_state t sub o a m w ->
  exists w', ResolveRole svc t sub w = (Ok (FromPlatform (dm_role m) (dm_product_roles m)), w').
Proof.
  intros Ht Hs Ho Ha Horg [Hc (tr & Htr & Hto) (r & Hr & Hrs & Hrt & Hra) Hu Hm].
  unfold ResolveRole. rewrite Ht. destruct (String.eqb_spec sub ""); [done|].
  eapply bind_ends; [apply guard_err_false|]. eapply bind_ends; [done|].
  eapply bind_ends; [unfold cache_get; apply on_cache_Ok|]. simpl. rewrite Hc. simpl.
  eapply bind_ends; [apply try_run, team_query_run; unfold find_mapping; simpl; by rewrite (find_by_sub _ _ _ Hr Hu Hrs)|].
  simpl. rewrite Hrt, N.eqb_refl. simpl.
  eapply bind_ends; [apply try_run, team_query_run; simpl; by rewrite Htr|]. simpl.
  rewrite Hto. simpl. destruct (Z.eqb_spec o 0); [done|]. rewrite Horg, Hra. simpl.
  destruct (Z.eqb_spec a 0); [done|]. unfold role_from_platform.
  match goal with |- context [try (org_call _) ≫= _] => idtac end.
  match goal with |- exists _, (_ ≫= _) ?w1 = _ => destruct (GetMember_run o a m w1) as (v & Hv & Er & Ep); [done|exact Hm|] end.
  eapply bind_ends; [apply try_run, Hv|]. simpl. rewrite Er, Ep.
  eapply bind_ends; [unfold cache_put; apply on_cache_Ok|].
  match goal with |- context [if ?b then _ else _] => destruct b end; [|by eexists].
  match goal with |- exists _, (_ ≫= _) ?w1 = _ =>
    destruct (SyncMapping_answers t sub (FromPlatform (dm_role m) (dm_product_roles m)) a w1) as (x & w2 & Hx) end.
  eapply bind_ends; [rewrite (bind_run_Ok _ _ _ _ _ Hx); reflexivity|by eexists].
Qed.

(** *** After a role change *)

Lemma rows_of_others (sub : string) (w w' : W) r : leaves_others sub w w' -> mr_sub r <> sub ->
  r ∈ td_mappings (tw_db w) -> r ∈ td_mappings (tw_db w').
Proof.
  intros [_ H _ _] Hs Hr. assert (K : r ∈ select (fun r => negb (String.eqb (mr_sub r) sub)) (td_mappings (tw_db w))).
  { apply elem_of_select. split; [|done]. destruct (String.eqb_spec (mr_sub r) sub); done. }
  rewrite <- H in K. by apply elem_of_select in K as [_ K].
Qed.

Lemma member_state_sync t s sub o a m role (w : W) r w' : member_state t sub o a m w ->
  try (SyncMapping t s role a) w = (r, w') -> member_state t sub o a m w'.
Proof.
  intros [Hc Ht (x & Hx & Hs & Htn & Ha) Hu Hm]. unfold try, SyncMapping, team_sql. rewrite enter_quiet, reliable.
  destruct (existsb _ _); intros [= <- <-]; [split; simpl; eauto|]. split; simpl; [done|done| | |done].
  - exists (if is_row t s x then sync_row role a x else x). split.
    + by apply list_elem_of_fmap; exists x.
    + destruct (is_row t s x); simpl; [|done]. split_and!; [done..|]. by destruct (Z.ltb 0 a).
  - rewrite <- list_fmap_compose. erewrite list_fmap_ext; [exact Hu|].
    intros i y _. simpl. by destruct (is_row t s y).
Qed.

Lemma UpdateMemberRole_Ok c a r w w1 tr o row : UpdateMemberRole svc c a r w = (Ok tt, w1) ->
  td_tenants (tw_db w) !! cl_TenantID c = Some tr -> tn_org tr = Some o -> o <> 0%Z ->
  row ∈ td_mappings (tw_db w) -> mr_tenant row = cl_TenantID c -> mr_account row = Some a ->
  mr_sub row <> cl_Sub c -> NoDup (mr_sub <$> td_mappings (tw_db w)) ->
  (forall e, tw_cache w !! ((cl_TenantID c, mr_sub row) : roleKey) = Some e -> entry_of o a e = true) ->
  has_org svc = true /\ exists m, member_state (cl_TenantID c) (mr_sub row) o a m w1 /\
    FromPlatform (dm_role m) (dm_product_roles m) = r.
Proof.
  intros H Ht Ho Hne Hrow Hrt Hra Hrs Hnd Hc. unfold UpdateMemberRole in H.
  destruct (ToPlatform r) as [[p pr]|] eqn:Er; [|by minv H]. minv H.
  unfold MappingByAccount in Hm5. destruct (authorize_Ok _ _ _ _ _ _ Hm Ht Ho Hne) as (Horg & Eo & L). rewrite Eo in *.
  assert (L0 : leaves_others (cl_Sub c) w s0).
  { etrans; [exact L|]. eapply keeps_run; [|exact Hm0]. destruct (String.eqb r RoleCashier); [|apply keeps_ret; tc_solve].
    unfold CashierAllowed, ProfileType. repeat leaves_step. }
  apply org_call_Ok in Hm1 as (p1 & _ & ->). apply org_call_Ok in Hm3 as (p2 & Hup & ->).
  destruct x3. apply dev_UpdateMember_Ok in Hup as [j Hj].
  assert (L4 : leaves_others (cl_Sub c) w s4).
  { pose proof (keeps_run _ _ _ _ _ (leaves_cache_invalidate (cl_Sub c) o a) Hm4) as L3.
    etrans; [exact L0|]. etrans; [|etrans; [exact L3|]]; [by apply leaves_same|].
    destruct x5; (eapply keeps_run; [apply leaves_query|exact Hm5]). }
  split; [done|]. exists (mkDevMember p {[ProductKey := pr_get pr ProductKey]} j). split.
  2: { apply (FromPlatform_ToPlatform _ _ _ _ Er). simpl. unfold pr_get. by rewrite lookup_singleton_eq. }
  assert (G : member_state (cl_TenantID c) (mr_sub row) o a (mkDevMember p {[ProductKey := pr_get pr ProductKey]} j) s4).
  { assert (s4 = tbump s3) as -> by (destruct x5; by eapply team_query_same).
    unfold cache_invalidate in Hm4. rewrite on_cache_Ok in Hm4. injection Hm4 as _ <-. split; simpl in *.
    - apply map_lookup_filter_None_2. destruct (tw_cache s0 !! ((cl_TenantID c, mr_sub row) : roleKey)) as [e|] eqn:Ee; [|by left].
      right. intros e' He'. injection He' as <-. simpl.
      by rewrite (Hc e (lo_cache _ _ _ L0 _ _ _ Hrs Ee)).
    - exists tr. split; [|done]. by eapply (lo_tenants _ _ _ L4).
    - exists row. split; [by eapply (rows_of_others _ _ _ _ L4)|done].
    - pose proof (lo_subs _ _ _ L4) as Hsubs. simpl in Hsubs. by rewrite Hsubs.
    - exact Hj. }
  destruct x5 as [e|[m|]]; [by minv H| |by minv H]. apply bind_Ok in H as (v & s5 & Hv & H). minv H.
  by eapply member_state_sync.
Qed.

(** C18: a role handed out comes back.  With the repository's own organizations, a driver that
    answers and nothing in between: once UpdateMemberRole has answered without error, the next
    ResolveRole of that member answers the very role that was asked for - through ToPlatform,
    the platform's member row and FromPlatform - although a role cached a moment ago had not
    expired. *)
Theorem updated_role_is_resolved c a r w w1 tr o row :
  td_tenants (tw_db w) !! cl_TenantID c = Some tr -> tn_org tr = Some o -> o <> 0%Z ->
  uuid_is_nil (cl_TenantID c) = false ->
  row ∈ td_mappings (tw_db w) -> mr_tenant row = cl_TenantID c -> mr_account row = Some a -> a <> 0%Z ->
  mr_sub row <> "" -> mr_sub row <> cl_Sub c -> NoDup (mr_sub <$> td_mappings (tw_db w)) ->
  (forall e, tw_cache w !! ((cl_TenantID c, mr_sub row) : roleKey) = Some e -> entry_of o a e = true) ->
  UpdateMemberRole svc c a r w = (Ok tt, w1) ->
  exists w2, ResolveRole svc (cl_TenantID c) (mr_sub row) w1 = (Ok r, w2).
Proof.
  intros Ht Ho Hne Hnil Hrow Hrt Hra Ha Hs Hrs Hnd Hc H.
  destruct (UpdateMemberRole_Ok _ _ _ _ _ _ _ _ H Ht Ho Hne Hrow Hrt Hra Hrs Hnd Hc) as (Horg & m & Hm & <-).
  by apply (ResolveRole_run _ _ o a).
Qed.
End trip.

(** Bob is a clerk of Alice's shop; his role was looked up a moment ago, then Alice makes him
    the manager. *)
Section example.
#[local] Existing Instance ex_tokens.
#[local] Instance ex_alone : Surroundings Dev := {| others _ w := w; has_real_data _ _ := false |}.

Definition ex_staffed : TeamWorld Dev := Eval vm_compute in
  run_history ex_svc [
    CallCreateInvite ex_owner RoleClerk 0;
    CallJoin (mkJoinInput "bob" "b@x" "Bob" "9" 0%N false);
    CallResolveRole 7%N "bob"] ex_team.
Definition ex_bob_row : MappingRow := Eval vm_compute in
  default (mkMappingRow 0%N 0%N "" "" "" "" false None) (td_mappings (tw_db ex_staffed) !! 1).

Lemma updated_role_is_resolved_witness : exists w1 w2,
  (exists w0, ResolveRole ex_svc 7%N "bob" ex_staffed = (Ok RoleClerk, w0)) /\
  UpdateMemberRole ex_svc ex_owner ex_bob RoleManager ex_staffed = (Ok tt, w1) /\
  ResolveRole ex_svc 7%N "bob" w1 = (Ok RoleManager, w2).
Proof.
  destruct (UpdateMemberRole ex_svc ex_owner ex_bob RoleManager ex_staffed) as [[[]|e|x] w1] eqn:E;
    [|vm_compute in E; discriminate..].
  destruct (updated_role_is_resolved (env:=ex_env) (tok:=ex_tokens) (around:=ex_alone) (fun _ _ => eq_refl) ex_svc (fun _ => eq_refl) ex_owner ex_bob RoleManager
    ex_staffed w1 (mkTenantRow "Tea" (Some 1%Z) 1 (Some "retail") "Tea house" None) 1 ex_bob_row) as [w2 H];
    [done..|by right; left|done|done|done|done|done| | |exact E|].
  - apply (bool_decide_unpack _). vm_compute. exact I.
  - intros e He. vm_compute in He. injection He as <-. reflexivity.
  - exists w1, w2. split_and!; [|done|exact H]. eexists. vm_compute. reflexivity.
Defined.
End example.

