(* ===== verification/Access.v ===== *)
(** The gate in front of every /api/v1 handler: src/internal/adapter/middleware/permission.go,
    composed as src/internal/adapter/handler/router/router.go and src/internal/lifecycle/app.go
    mount it.

    A request context is what sign-in left in it: the shop and the subject, either of which may
    be absent.  [applyShopRole] adds the role, [EnforceRoutePerms] reads the route table
    (Roles.v); [api_gate] is the two in the order the router runs them.  The theorem joins it to
    the history of TeamLaws.v: the routes that are the owner's alone are reached, for a shop, by
    an owner of that shop only. *)
From S2P Require Import Prelude Safe GoStrings Types Decimal SDec Roles OrgApi DevOrg DevOrgLaws TeamStore TeamService Concrete TeamLaws.
From stdpp Require Import base tactics strings gmap list.
From Stdlib Require Import ZArith Lia.

(** The gin context keys the gate uses; the nil UUID and "" are what the getters answer when
    they are not set. *)
Record Ctx := mkCtx {
  cx_tenant : uuid;
  cx_sub : string;
  cx_role : option Role;
}.

Definition set_role (c : Ctx) (r : Role) : Ctx := mkCtx (cx_tenant c) (cx_sub c) (Some r).
Definition drop_tenant (c : Ctx) : Ctx := mkCtx uuid_nil (cx_sub c) (cx_role c).

(** httperr.Error: what the caller is answered. *)
Record HttpError := mkHttpError { he_Status : Z; he_Code : string; he_Message : string; he_Action : string }.

(** A middleware hands the context on or answers and aborts. *)
Inductive verdict := Next (c : Ctx) | Answer (e : HttpError).

(** HasPerm: a context without a role answers yes. *)
Definition HasPerm (c : Ctx) (perm : Perm) : bool :=
  match cx_role c with None => true | Some role => Allowed role perm end.
Definition CanViewCost (c : Ctx) : bool := HasPerm c CostView.

(** WriteForbidden *)
Definition WriteForbidden (perm : Perm) : HttpError :=
  let who := if String.eqb perm BillingManage || String.eqb perm TokenManage then "老板" else "老板或店长" in
  mkHttpError 403 "forbidden" ("你的角色没有“" ++ Perm_Label perm ++ "”的权限，请联系" ++ who) "".

(** checkPerm *)
Definition checkPerm (c : Ctx) (perm : Perm) : bool :=
  if uuid_is_nil (cx_tenant c) then true
  else match cx_role c with Some role => Allowed role perm | None => false end.

(** RequirePerm *)
Definition RequirePerm (perm : Perm) (c : Ctx) : verdict :=
  if checkPerm c perm then Next c else Answer (WriteForbidden perm).

(** EnforceRoutePerms *)
Definition EnforceRoutePerms (method fullPath : string) (c : Ctx) : verdict :=
  match ForRoute method fullPath with
  | None =>
      if negb (uuid_is_nil (cx_tenant c)) && is_none (cx_role c) then Answer (WriteForbidden "") else Next c
  | Some perm => RequirePerm perm c
  end.

Definition role_unavailable : HttpError :=
  mkHttpError 503 "role_unavailable" "暂时无法确认你在店里的权限，请稍后再试" "请稍后再试，一直不行请联系客服".

Section gate.
Context {ops : DecimalOps} {env : Env} {P : Type} {around : Surroundings P}.
Context {org : OrgClient P} {acc : AccountResolver P}.

(** The resolver lifecycle/app.go hands to the middleware. *)
Definition shopRoleResolver (svc : Service (P:=P)) (tenantID : uuid) (sub : string) : TM Role :=
  on_err (fun e => if errors_is e ErrNotMember then ESentinel ErrNotShopMember else e) (ResolveRole svc tenantID sub).

(** applyShopRole; [None] is the nil resolver. *)
Definition applyShopRole (resolve : option (uuid -> string -> TM (P:=P) Role)) (c : Ctx) : TM (P:=P) verdict :=
  match resolve with
  | None => mret (Next c)
  | Some f =>
      if uuid_is_nil (cx_tenant c) then mret (Next c)
      else if String.eqb (cx_sub c) "" then mret (Next (set_role c RoleManager))
      else
        r ← try (f (cx_tenant c) (cx_sub c));
        mret (match r with
              | inr role => Next (set_role c role)
              | inl e => if errors_is e ErrNotShopMember then Next (drop_tenant c) else Answer role_unavailable
              end)
  end.

(** WithShopRole and then EnforceRoutePerms, as the /api/v1 group mounts them. *)
Definition api_gate (svc : Service (P:=P)) (method fullPath : string) (c : Ctx) : TM (P:=P) verdict :=
  v ← applyShopRole (Some (shopRoleResolver svc)) c;
  mret (match v with Answer e => Answer e | Next c' => EnforceRoutePerms method fullPath c' end).

(** *** What the gate lets through *)

Lemma EnforceRoutePerms_Next method path c c' : EnforceRoutePerms method path c = Next c' ->
  c' = c /\ (uuid_is_nil (cx_tenant c) = true \/
    exists role, cx_role c = Some role /\ forall perm, ForRoute method path = Some perm -> Allowed role perm = true).
Proof.
  unfold EnforceRoutePerms, RequirePerm, checkPerm. destruct (ForRoute method path) as [perm|];
    destruct (uuid_is_nil (cx_tenant c)) eqn:Et; destruct (cx_role c) as [role|] eqn:Er; simpl; intros H;
    try (destruct (Allowed role perm) eqn:Ea); simplify_eq; split; auto.
  - right. exists role. split; [done|]. by intros p [= <-].
  - right. by exists role.
Qed.

(** The context behind the gate: no shop, or the shop that was claimed with a role in it that
    holds what the route needs - the role of an automation call or the one the team service
    answered. *)
Lemma api_gate_Next svc method path c c' w w' : cx_role c = None ->
  api_gate svc method path c w = (Ok (Next c'), w') ->
  uuid_is_nil (cx_tenant c') = true \/
  exists role, cx_tenant c' = cx_tenant c /\ cx_role c' = Some role /\
    (forall perm, ForRoute method path = Some perm -> Allowed role perm = true) /\
    (cx_sub c = "" /\ role = RoleManager \/ ResolveRole svc (cx_tenant c) (cx_sub c) w = (Ok role, w')).
Proof.
  intros Hr H. unfold api_gate in H. minv H.
  destruct x as [c1|e]; [|done]. apply EnforceRoutePerms_Next in H as [-> Hp].
  unfold applyShopRole in Hm. destruct (uuid_is_nil (cx_tenant c)) eqn:Et.
  { minv Hm. by left. }
  destruct (String.eqb_spec (cx_sub c) "") as [Es|Es].
  { minv Hm. simpl in *. right. destruct Hp as [Hp|(role & [= <-] & Ha)]; [by rewrite Et in Hp|].
    exists RoleManager. split_and!; auto. }
  minv Hm. destruct x as [e|role].
  - destruct (errors_is e ErrNotShopMember); simplify_eq. by left.
  - simplify_eq. unfold shopRoleResolver in Hm0. apply on_err_Ok in Hm0. simpl in *.
    destruct Hp as [Hp|(role' & [= <-] & Ha)]; [by rewrite Et in Hp|]. right. exists role. split_and!; auto.
Qed.
End gate.

Section owners.
Context {ops : DecimalOps} {env : Env} {elaws : EnvLaws env} {P : Type} {around : Surroundings P}.
Context {org : OrgClient P} {acc : AccountResolver P} {view : OrgView P} {laws : OrgLaws P view org acc}.

(** C19: the routes reserved to the owner - billing and API keys - are reached, in the name of a
    shop, by its owner only: whatever team calls were made before by whomever, a request that
    passes the gate with its shop was sent by someone who owned that shop from the start.  No
    automation token, no manager, no person who joined, was promoted or lost the shop passes. *)
Theorem owner_routes_for_owners_only (svc : Service (P:=P)) (w : TeamWorld P) (calls : list team_call)
    (method path : string) (perm : Perm) (c c' : Ctx) (w' : TeamWorld P) :
  (forall g t k n, plan_guard svc = Some g -> reads_only (g t k n)) ->
  well_behaved (owner_of w) -> team_wf w -> Forall by_a_person calls ->
  ForRoute method path = Some perm -> perm = BillingManage \/ perm = TokenManage ->
  cx_role c = None -> retired (cx_sub c) = false ->
  api_gate svc method path c (run_history svc calls w) = (Ok (Next c'), w') ->
  uuid_is_nil (cx_tenant c') = true \/ (cx_tenant c' = cx_tenant c /\ owner_of w (cx_tenant c) (cx_sub c)).
Proof.
  intros Hg Hb Hw Hc Hroute Hperm Hr Hs H.
  destruct (api_gate_Next _ _ _ _ _ _ _ Hr H) as [Hn|(role & Ht & _ & Ha & Hrole)]; [by left|].
  right. split; [done|]. apply (Allowed_owner_only _ _ Hperm) in Ha as ->; [|done].
  destruct Hrole as [[_ ?]|Hrole]; [discriminate|].
  assert (H0 : owned_by (owner_of w) w) by (split; auto).
  pose proof (run_history_keeps svc _ calls w Hb Hg Hc H0) as Hk.
  destruct (ResolveRole_triple _ Hb svc (cx_tenant c) (cx_sub c) Hs (fun _ => True) (stable_pure _ _) _ _ _ Hk I Hrole)
    as (_ & _ & Hq). by apply (Hq RoleOwner).
Qed.
End owners.

(** Alice may open the billing page of her shop, after all Bob's doings. *)
Section example.
#[local] Existing Instance ex_tokens.
#[local] Existing Instance ex_around.

Lemma owner_routes_for_owners_only_witness :
  (exists w', api_gate ex_svc "GET" "/api/v1/billing/overview" (mkCtx 7%N "alice" None) (run_history ex_svc ex_calls ex_team)
     = (Ok (Next (mkCtx 7%N "alice" (Some RoleOwner))), w')) /\
  (exists w' e, api_gate ex_svc "GET" "/api/v1/billing/overview" (mkCtx 7%N "bob" None) (run_history ex_svc ex_calls ex_team)
     = (Ok (Answer e), w') /\ he_Status e = 403%Z) /\
  owner_of ex_team 7%N "alice".
Proof.
  destruct (api_gate ex_svc "GET" "/api/v1/billing/overview" (mkCtx 7%N "alice" None) (run_history ex_svc ex_calls ex_team))
    as [r w'] eqn:E.
  assert (Er : r = Ok (Next (mkCtx 7%N "alice" (Some RoleOwner)))) by (apply (f_equal fst) in E; vm_compute in E; by rewrite <- E).
  rewrite Er in E. split; [by exists w'; rewrite Er|]. split; [eexists _, _; split; vm_compute; reflexivity|].
  assert (Hc : Forall by_a_person ex_calls) by (repeat constructor).
  destruct (owner_routes_for_owners_only ex_svc ex_team ex_calls "GET" "/api/v1/billing/overview" BillingManage
    (mkCtx 7%N "alice" None) _ w' (fun g t k n X => ltac:(discriminate X)) (ex_well_behaved _) ex_team_wf Hc
    ltac:(vm_compute; reflexivity) (or_introl eq_refl) eq_refl eq_refl E) as [H|[_ H]]; [discriminate|exact H].
Defined.
End example.
