(* ===== verification/Trim.v ===== *)
(** What a person without cost.view is shown: src/internal/domain/permission/strip.go and the
    response rewriting of src/internal/adapter/middleware/permission.go.

    A response body is the JSON it carries, or text that is none; encoding/json turns one into
    the other.  An object is the list of its members (a Go map: no key twice, no order).  Numbers
    keep their text, as UseNumber keeps them; [JInt] is a Go integer a middleware put there. *)
From S2P Require Import Prelude GoStrings GoTime Rounding Decimal SDec Types BillDomain Store BillRepo BillDraft Roles Access.
From stdpp Require Import base tactics strings gmap list.
From Stdlib Require Import ZArith Lia.

#[local] Open Scope string_scope.

#[warnings="-register-all"]
Inductive json :=
  | JNull
  | JBool (b : bool)
  | JNumber (text : string)
  | JInt (n : Z)
  | JString (s : string)
  | JArray (l : list json)
  | JObject (m : list (string * json)).

(** CostKeys *)
Definition CostKeys : list string := [
  "unit_cost"; "total_cost"; "cost_strategy"; "purchase_price"; "last_purchase_price"; "cost_of_goods";
  "gross_profit"; "avg_margin"; "overall_margin"; "margin"; "est_amount_cny"; "inventory_value";
  "amount_cny"; "total_value_cny"; "value_cny"].

Definition has_key (keys : list string) (k : string) : bool := existsb (String.eqb k) keys.

(** stripKeys *)
Fixpoint stripKeys (keys : list string) (v : json) : json :=
  match v with
  | JObject m =>
      JObject ((fix go (m : list (string * json)) :=
        match m with
        | [] => []
        | (k, x) :: m' => if has_key keys k then go m' else (k, stripKeys keys x) :: go m'
        end) m)
  | JArray l => JArray (map (stripKeys keys) l)
  | _ => v
  end.

(** StripNamed, StripCostFields, StripGeneric: a body built from structs is JSON already here. *)
Definition StripNamed (v : json) (keys : list string) : json := stripKeys keys v.
Definition StripCostFields (v : json) : json := StripNamed v CostKeys.
Definition StripGeneric (v : json) : json := stripKeys CostKeys v.

(** *** Map access of Go, on the members of an object *)

Definition member (k : string) (m : list (string * json)) : option json :=
  snd <$> List.find (fun e => String.eqb e.1 k) m.
Definition put (k : string) (v : json) (m : list (string * json)) : list (string * json) :=
  (k, v) :: List.filter (fun e => negb (String.eqb e.1 k)) m.
Definition drop_key (k : string) (m : list (string * json)) : list (string * json) :=
  List.filter (fun e => negb (String.eqb e.1 k)) m.

(** ** Responses *)

Inductive Body := BEmpty | BJson (v : json) | BText (s : string).
Record Response := mkResponse { rs_status : Z; rs_type : string; rs_body : Body }.

(** httperr.Write *)
Definition Write (e : HttpError) : Response :=
  mkResponse (he_Status e) "application/json; charset=utf-8" (BJson (JObject
    ([("error", JString (he_Code e)); ("message", JString (he_Message e))]
     ++ if String.eqb (he_Action e) "" then [] else [("action", JString (he_Action e))]))).

(** httperr.Internal, written by rewriteFailed *)
Definition internal_error : Response :=
  Write (mkHttpError 500 "internal_error" "系统出了点问题，请稍后再试；一直不行请联系客服" "请稍后再试，一直不行请联系客服").

(** rewriteJSON: the held-back response of the rest of the chain, rewritten when it is a 200 JSON
    body; a body that cannot be decoded is not shown. *)
Definition rewriteJSON (fn : json -> json) (r : Response) : Response :=
  if Z.eqb (rs_status r) 200 && String.prefix "application/json" (rs_type r) then
    match rs_body r with
    | BEmpty => r
    | BJson v => mkResponse 200 (rs_type r) (BJson (fn v))
    | BText _ => internal_error
    end
  else r.

(** JSONTrimmed *)
Definition JSONTrimmed (c : Ctx) (status : Z) (v : json) : Response :=
  mkResponse status "application/json; charset=utf-8" (BJson (if CanViewCost c then v else StripCostFields v)).

(** TrimCostResponse, for the routes it was given *)
Definition TrimCostResponse (fullPaths : list string) (path : string) (c : Ctx) (next : Response) : Response :=
  if negb (existsb (String.eqb path) fullPaths) || CanViewCost c then next else rewriteJSON StripGeneric next.

(** ** The to-do summary *)

(** json.Number.Int64: ParseInt in base 10. *)
Definition number_int64 (text : string) : option Z :=
  match Z_of_string text with
  | Some n => if Z.leb (-9223372036854775808) n && Z.leb n 9223372036854775807 then Some n else None
  | None => None
  end.
Definition wrap64 (n : Z) : Z := ((n + 9223372036854775808) mod 18446744073709551616 - 9223372036854775808)%Z.

(** todoSections, todoTotal: a Go int is neither of the two number types the switch lists. *)
Definition todoSections : list string := ["draft_purchases"; "draft_sales"; "low_stock"; "overdue_customers"; "uninvoiced_sales"].
Definition section_count (m : list (string * json)) (k : string) : Z :=
  match member k m with
  | Some (JObject sec) =>
      match member "count" sec with Some (JNumber t) => default 0%Z (number_int64 t) | _ => 0%Z end
  | _ => 0%Z
  end.
Definition todoTotal (m : list (string * json)) : Z :=
  fold_left (fun total k => wrap64 (total + section_count m k)) todoSections 0%Z.

Definition empty_section : json := JObject [("count", JInt 0); ("items", JArray [])].
Definition kpi_keys : list string := ["receivable_unpaid"; "today_collected"; "month_uninvoiced"].
Definition trim_kpis (m : list (string * json)) : list (string * json) :=
  match member "kpis" m with
  | Some (JObject k) => put "kpis" (JObject (fold_left (fun k x => drop_key x k) kpi_keys k)) m
  | _ => m
  end.

(** The function literal TrimTodoSummary rewrites with: the sections, then the badge. *)
Definition trimmed_members (cost pay : bool) (m : list (string * json)) : list (string * json) :=
  let m1 := if cost then m else put "draft_purchases" empty_section m in
  if pay then m1 else trim_kpis (put "uninvoiced_sales" empty_section (put "overdue_customers" empty_section m1)).

Definition trim_todo (cost pay : bool) (v : json) : json :=
  match v with
  | JObject m =>
      let m2 := trimmed_members cost pay m in
      JObject (match member "total" m2 with Some _ => put "total" (JInt (todoTotal m2)) m2 | None => m2 end)
  | _ => v
  end.

(** TrimTodoSummary *)
Definition TrimTodoSummary (fullPath path : string) (c : Ctx) (next : Response) : Response :=
  let cost := CanViewCost c in
  let pay := HasPerm c PaymentRead in
  if negb (String.eqb path fullPath) || (cost && pay) then next else rewriteJSON (trim_todo cost pay) next.

(** ** Purchase bills without their money (adapter/handler/bill/purchase_own.go) *)

Definition purchaseMoneyKeys : list string := [
  "subtotal"; "shipping_fee"; "tax_amount"; "total_amount"; "paid_amount"; "returned_amount"; "unpaid_amount";
  "invoiced_amount"; "payment_status"; "invoice_status"; "exchange_rate"; "amount_local"; "unit_price"; "line_amount"].

(** trimPurchaseMoney *)
Definition trimPurchaseMoney (v : json) : json := StripNamed v purchaseMoneyKeys.

(** alignSummaryCount *)
Definition alignSummaryCount (out : json) : json :=
  match out with
  | JObject body =>
      match member "summary" body, member "total" body with
      | Some (JObject summary), Some total => JObject (put "summary" (JObject (put "count" total summary)) body)
      | _, _ => out
      end
  | _ => out
  end.

(** writePurchaseJSON *)
Definition writePurchaseJSON (status : Z) (v : json) (trim : bool) : Response :=
  mkResponse status "application/json; charset=utf-8"
    (BJson (if trim then alignSummaryCount (trimPurchaseMoney v) else v)).

Section own.
Context {ops : DecimalOps}.

(** dropPurchaseMoney *)
Definition drop_price (it : CreatePurchaseItemInput) : CreatePurchaseItemInput :=
  mkCreatePurchaseItemInput (ci_product it) (ci_unit it) (ci_unit_name it) (ci_line_no it) (ci_qty it) dzero.
Definition dropPurchaseMoney (req : CreatePurchaseDraftRequest) : CreatePurchaseDraftRequest :=
  mkCreatePurchaseDraftRequest (cp_tenant req) (cp_creator req) (cp_partner req) (cp_warehouse req) (cp_date req)
    dzero dzero (cp_remark req) (drop_price <$> cp_items req) "CNY" dzero.

(** isOwnVisible *)
Definition ownApprovedWindow : Z := (7 * 24 * hour)%Z.
Definition isOwnVisible (head : option BillHead) (owner : uuid) (now : time) : bool :=
  match head with
  | None => false
  | Some h =>
      if negb (N.eqb (bh_creator h) owner) then false
      else if Z.eqb (bh_status h) StatusDraft then true
      else if Z.eqb (bh_status h) StatusApproved then
        match bh_approved_at h with Some t => negb (Z.ltb t (now - ownApprovedWindow)) | None => false end
      else false
  end.
End own.

(** ** What is left *)

Lemma has_key_spec keys k : has_key keys k = true <-> k ∈ keys.
Proof.
  unfold has_key. rewrite existsb_exists. split.
  - intros (x & Hx & ->%String.eqb_eq). by apply list_elem_of_In.
  - intros H. exists k. split; [by apply list_elem_of_In|apply String.eqb_refl].
Qed.

(** A place in a document: keys of objects and indices of arrays, outermost first. *)
Inductive step := Key (k : string) | Index (i : nat).

Inductive at_path : json -> list step -> json -> Prop :=
  | at_here v : at_path v [] v
  | at_key m k x p v : (k, x) ∈ m -> at_path x p v -> at_path (JObject m) (Key k :: p) v
  | at_index l i x p v : l !! i = Some x -> at_path x p v -> at_path (JArray l) (Index i :: p) v.

Definition hidden_step (keys : list string) (s : step) : bool :=
  match s with Key k => has_key keys k | Index _ => false end.

Definition strip_members (keys : list string) (m : list (string * json)) : list (string * json) :=
  (fun e => (e.1, stripKeys keys e.2)) <$> select (fun e => negb (has_key keys e.1)) m.

Lemma stripKeys_object keys m : stripKeys keys (JObject m) = JObject (strip_members keys m).
Proof.
  unfold strip_members, select. simpl. f_equal. induction m as [|[k x] m IH]; [done|]. csimpl.
  destruct (has_key keys k); csimpl; by rewrite IH.
Qed.

Lemma elem_of_strip keys m k x :
  (k, x) ∈ strip_members keys m <-> has_key keys k = false /\ exists y, (k, y) ∈ m /\ x = stripKeys keys y.
Proof.
  unfold strip_members. rewrite list_elem_of_fmap. split.
  - intros ([k' y] & [= -> ->] & [Hk Hin]%elem_of_select). simpl in *. apply negb_true_iff in Hk. eauto.
  - intros (Hk & y & Hin & ->). exists (k, y). split; [done|]. apply elem_of_select. simpl. by rewrite Hk.
Qed.

(** Stripping keeps every place no hidden key leads to, and what stands there, stripped. *)
Lemma strip_path keys v p u : at_path (stripKeys keys v) p u <->
  forallb (fun s => negb (hidden_step keys s)) p = true /\ exists w, at_path v p w /\ u = stripKeys keys w.
Proof.
  revert v u. induction p as [|s p IH]; intros v u.
  { split; [inversion 1; subst; split; [done|]; eexists; by split; [constructor|]|].
    intros [_ (w & Hw & ->)]. inversion Hw; subst. constructor. }
  split.
  - intros H. destruct v as [| | | | |l|m]; try by inversion H.
    + simpl in H. inversion H as [|? ? ? ? ? ?|? i x ? ? Hi Hx]; subst. apply list_lookup_fmap_Some in Hi as (y & -> & Hy).
      apply IH in Hx as (Hp & w & Hw & ->). split; [done|]. exists w. split; [by econstructor|done].
    + rewrite stripKeys_object in H. inversion H as [|? k x ? ? Hk Hx|]; subst.
      apply elem_of_strip in Hk as (Hf & y & Hy & ->). apply IH in Hx as (Hp & w & Hw & ->).
      split; [by simpl; rewrite Hf|]. exists w. split; [by econstructor|done].
  - intros [Hp (w & Hw & ->)]. simpl in Hp. apply andb_prop in Hp as [Hs Hp].
    inversion Hw as [|m k x ? ? Hk Hx|l i x ? ? Hi Hx]; subst.
    + rewrite stripKeys_object. econstructor; [apply elem_of_strip|apply IH; eauto].
      apply negb_true_iff in Hs. simpl in Hs. eauto.
    + simpl. econstructor; [by rewrite list_lookup_fmap, Hi|apply IH; eauto].
Qed.

(** C20: a person without cost.view sees no cost.  On the routes TrimCostResponse is mounted for,
    the JSON of a 200 answer holds exactly the places of the original that no cost key leads
    to, at any depth, with the values that stood there (themselves stripped) and nothing else;
    an answer that cannot be decoded is withheld altogether. *)
Theorem trimmed_reply_hides_cost (paths : list string) (path : string) (c : Ctx) (next : Response) :
  CanViewCost c = false -> path ∈ paths -> rs_status next = 200%Z -> String.prefix "application/json" (rs_type next) = true ->
  match rs_body next with
  | BEmpty => TrimCostResponse paths path c next = next
  | BText _ => TrimCostResponse paths path c next = internal_error
  | BJson v =>
      exists v', TrimCostResponse paths path c next = mkResponse 200 (rs_type next) (BJson v') /\
        forall p u, at_path v' p u <->
          (forall k, Key k ∈ p -> k ∉ CostKeys) /\ exists w, at_path v p w /\ u = StripGeneric w
  end.
Proof.
  intros Hc Hp Hs Ht. unfold TrimCostResponse, rewriteJSON. rewrite Hc, Hs, Ht.
  assert (existsb (String.eqb path) paths = true) as ->.
  { by apply has_key_spec. }
  simpl. destruct (rs_body next) as [|v|t]; [done| |done]. eexists. split; [done|].
  intros p u. unfold StripGeneric. rewrite strip_path.
  generalize CostKeys as keys. intros keys.
  assert (E : forallb (fun s => negb (hidden_step keys s)) p = true <-> forall k, Key k ∈ p -> k ∉ keys).
  { rewrite forallb_forall. setoid_rewrite <- list_elem_of_In. split.
    - intros H k Hk Hin%has_key_spec. specialize (H _ Hk). simpl in H. by rewrite Hin in H.
    - intros H [k|i] Hin; [|done]. simpl. apply negb_true_iff, not_true_iff_false. rewrite has_key_spec. by apply H. }
  by rewrite E.
Qed.

(** *** Nothing hidden leaks through the to-do badge *)

Lemma member_put k v m x : member x (put k v m) = if String.eqb k x then Some v else member x m.
Proof.
  unfold member, put. simpl. destruct (String.eqb_spec k x) as [->|n]; [done|].
  f_equal. induction m as [|[y u] m IH]; [done|]. simpl.
  destruct (String.eqb_spec y k) as [->|n']; simpl.
  - destruct (String.eqb_spec k x); [done|exact IH].
  - by destruct (String.eqb_spec y x).
Qed.

Lemma section_count_ext m m' k : member k m = member k m' -> section_count m k = section_count m' k.
Proof. unfold section_count. by intros ->. Qed.

(** The key performance figures a person without payment.read still gets. *)
Definition kpis_shown (m : list (string * json)) : option json :=
  match member "kpis" m with
  | Some (JObject k) => Some (JObject (fold_left (fun k x => drop_key x k) kpi_keys k))
  | o => o
  end.

Lemma member_trim_kpis m x : member x (trim_kpis m) = if String.eqb "kpis" x then kpis_shown m else member x m.
Proof.
  unfold trim_kpis, kpis_shown. destruct (member "kpis" m) as [[]|] eqn:E; rewrite ?member_put;
    destruct (String.eqb_spec "kpis" x) as [<-|]; done.
Qed.

(** Two summaries that a person with these permissions must not be able to tell apart. *)
Definition same_to_see (cost pay : bool) (m m' : list (string * json)) : Prop :=
  (is_Some (member "total" m) <-> is_Some (member "total" m')) /\
  (pay = false -> kpis_shown m = kpis_shown m') /\
  forall k, k <> "total" -> (cost = false -> k <> "draft_purchases") ->
    (pay = false -> k <> "overdue_customers" /\ k <> "uninvoiced_sales" /\ k <> "kpis") ->
    member k m = member k m'.

Lemma trimmed_members_total cost pay m : member "total" (trimmed_members cost pay m) = member "total" m.
Proof. unfold trimmed_members. destruct cost, pay; rewrite ?member_trim_kpis, ?member_put; done. Qed.

Lemma kpis_shown_put k v m : String.eqb k "kpis" = false -> kpis_shown (put k v m) = kpis_shown m.
Proof. intros H. unfold kpis_shown. by rewrite member_put, H. Qed.

Lemma trimmed_members_same cost pay m m' k : same_to_see cost pay m m' -> k <> "total" ->
  member k (trimmed_members cost pay m) = member k (trimmed_members cost pay m').
Proof.
  intros (_ & Hk & Hm) Ht. unfold trimmed_members. specialize (Hm k Ht).
  destruct pay.
  - destruct cost; [by apply Hm|]. rewrite !member_put. destruct (String.eqb_spec "draft_purchases" k); [done|].
    apply Hm; [by intros _ ->|done].
  - rewrite !member_trim_kpis, !member_put. destruct (String.eqb_spec "kpis" k) as [E|E].
    + rewrite !kpis_shown_put by done. destruct cost; [by apply Hk|]. rewrite !kpis_shown_put by done. by apply Hk.
    + destruct (String.eqb_spec "uninvoiced_sales" k); [done|]. destruct (String.eqb_spec "overdue_customers" k); [done|].
      destruct cost; [apply Hm; [done|intros _; split_and!; congruence]|]. rewrite !member_put.
      destruct (String.eqb_spec "draft_purchases" k); [done|]. apply Hm; [by intros _ ->|intros _; split_and!; congruence].
Qed.

Lemma todoTotal_ext m m' : (forall k, k ∈ todoSections -> member k m = member k m') -> todoTotal m = todoTotal m'.
Proof.
  intros H. unfold todoTotal. generalize 0%Z as z. revert H. generalize todoSections as l.
  induction l as [|k l IH]; intros H z; [done|]. simpl.
  rewrite (section_count_ext m m' k) by (apply H; by left). apply IH. intros x Hx. apply H. by right.
Qed.

(** the trimmed to-do summary tells nothing about what was trimmed.  If two summaries differ
    only in what a person may not see - the purchase drafts without cost.view; overdue
    customers, uninvoiced sales and the three money figures without payment.read; and the badge
    that counts them - the answers that person gets agree on every member, the badge included. *)
Theorem trimmed_todo_reveals_nothing (fullPath : string) (c : Ctx) (m m' : list (string * json)) (ty : string) :
  (CanViewCost c && HasPerm c PaymentRead = false) -> String.prefix "application/json" ty = true ->
  same_to_see (CanViewCost c) (HasPerm c PaymentRead) m m' ->
  exists o o',
    TrimTodoSummary fullPath fullPath c (mkResponse 200 ty (BJson (JObject m))) = mkResponse 200 ty (BJson (JObject o)) /\
    TrimTodoSummary fullPath fullPath c (mkResponse 200 ty (BJson (JObject m'))) = mkResponse 200 ty (BJson (JObject o')) /\
    forall k, member k o = member k o'.
Proof.
  intros Hp Ht Hs. unfold TrimTodoSummary, rewriteJSON. rewrite String.eqb_refl, Hp. simpl. rewrite Ht.
  set (cost := CanViewCost c) in *. set (pay := HasPerm c PaymentRead) in *.
  eexists _, _. split_and!; [reflexivity..|]. intros k.
  assert (T : todoTotal (trimmed_members cost pay m) = todoTotal (trimmed_members cost pay m')).
  { apply todoTotal_ext. intros x Hx. apply trimmed_members_same; [done|]. intros ->.
    apply has_key_spec in Hx. vm_compute in Hx. discriminate. }
  rewrite T, !trimmed_members_total. generalize (JInt (todoTotal (trimmed_members cost pay m'))) as badge. intros badge.
  pose proof (fun n => trimmed_members_same _ _ _ _ k Hs n) as Hsame. destruct Hs as (Hb & _).
  pose proof (trimmed_members_total cost pay m) as Em. pose proof (trimmed_members_total cost pay m') as Em'.
  revert Hsame Em Em'. generalize (trimmed_members cost pay m) as t, (trimmed_members cost pay m') as t'.
  intros t t' Hsame Em Em'. destruct (member "total" m) as [x|] eqn:E1, (member "total" m') as [x'|] eqn:E2.
  - rewrite (member_put "total" badge t k), (member_put "total" badge t' k).
    destruct (String.eqb_spec "total" k); [done|]. by apply Hsame.
  - destruct (proj1 Hb (ex_intro _ x eq_refl)) as [y H]. discriminate H.
  - destruct (proj2 Hb (ex_intro _ x' eq_refl)) as [y H]. discriminate H.
  - destruct (String.eqb_spec "total" k) as [<-|n]; [by rewrite Em, Em'|]. by apply Hsame.
Qed.

(** ** A cashier looks at the Monday card and at the to-do list *)

Definition ex_cashier : Ctx := mkCtx 7%N "carol" (Some RoleCashier).
Definition ex_card : Response := mkResponse 200 "application/json" (BJson (JObject
  [("low", JArray [JObject [("name", JString "tea"); ("est_amount_cny", JNumber "12.50")]]); ("total_cost", JNumber "3")])).

Lemma trimmed_reply_hides_cost_witness :
  CanViewCost ex_cashier = false /\
  exists v, TrimCostResponse ["/api/v1/weekly-summary"] "/api/v1/weekly-summary" ex_cashier ex_card
      = mkResponse 200 "application/json" (BJson v) /\
    at_path v [Key "low"; Index 0; Key "name"] (JString "tea") /\
    ~ exists u, at_path v [Key "low"; Index 0; Key "est_amount_cny"] u.
Proof.
  split; [vm_compute; reflexivity|].
  destruct (trimmed_reply_hides_cost ["/api/v1/weekly-summary"] "/api/v1/weekly-summary" ex_cashier ex_card)
    as (v & Hv & Hp); [vm_compute; reflexivity|by left|done|done|].
  exists v. split; [exact Hv|]. split.
  - apply Hp. split.
    + intros k Hk Hin%has_key_spec. rewrite !elem_of_cons, elem_of_nil in Hk.
      destruct Hk as [[= ->]|[?|[[= ->]|[]]]]; [vm_compute in Hin; discriminate|discriminate|vm_compute in Hin; discriminate].
    + exists (JString "tea"). split; [|done]. repeat first [eapply at_here|eapply at_key; [by left|]|eapply at_index; [done|]].
  - intros [u Hu]. apply Hp in Hu as [Hk _]. apply (Hk "est_amount_cny"); [by do 2 right; left|].
    apply has_key_spec. vm_compute. reflexivity.
Defined.

Definition ex_todo (overdue : string) (badge : string) : list (string * json) := [
  ("total", JNumber badge);
  ("draft_sales", JObject [("count", JNumber "2"); ("items", JArray [])]);
  ("overdue_customers", JObject [("count", JNumber overdue); ("items", JArray [])])].

Lemma trimmed_todo_reveals_nothing_witness :
  exists o o',
    TrimTodoSummary "/t" "/t" ex_cashier (mkResponse 200 "application/json" (BJson (JObject (ex_todo "1" "3"))))
      = mkResponse 200 "application/json" (BJson (JObject o)) /\
    TrimTodoSummary "/t" "/t" ex_cashier (mkResponse 200 "application/json" (BJson (JObject (ex_todo "40" "42"))))
      = mkResponse 200 "application/json" (BJson (JObject o')) /\
    member "total" o = Some (JInt 2) /\ forall k, member k o = member k o'.
Proof.
  destruct (trimmed_todo_reveals_nothing "/t" ex_cashier (ex_todo "1" "3") (ex_todo "40" "42") "application/json")
    as (o & o' & H1 & H2 & H); [vm_compute; reflexivity|done| |].
  - split; [by split; eexists|]. split; [done|]. intros k Ht Hc Hk. specialize (Hk ltac:(vm_compute; reflexivity)) as (Ho & _).
    unfold member, ex_todo. cbn [List.find fst].
    destruct (String.eqb_spec "total" k); [congruence|]. destruct (String.eqb "draft_sales" k); [done|].
    destruct (String.eqb_spec "overdue_customers" k); [congruence|done].
  - exists o, o'. split_and!; [done..| |exact H]. vm_compute in H1. injection H1 as <-. reflexivity.
Defined.
