(* ===== verification/ExtStore.v ===== *)
(** Use cases that keep tables of their own beside the commerce core's.

    [Ext X] is the shop's [World] with the rows of type [X] a component adds to it; the calls,
    ids and clock readings are counted in one place, so a run of the core is a run here
    ([lift]).  A statement on the added rows is [ext_statement]. *)
From S2P Require Import Prelude Rounding Decimal Types StockDomain BillDomain Store.
From stdpp Require Import base tactics strings gmap list.
From Stdlib Require Import ZArith Lia.

(** What becomes of a message to a service outside the program: it can arrive without its
    acknowledgement. *)
Inductive outcome := Acknowledged | Refused | Unacknowledged.

(** Threads that run at the same time, by their number: what one of them did. *)
Lemma lookup_thread {A} (ts : gmap nat A) i j (x y : A) : <[i := x]> ts !! j = Some y -> (j = i /\ y = x) \/ (j <> i /\ ts !! j = Some y).
Proof. intros H. apply lookup_insert_Some in H as [[-> ->]|[? ?]]; [by left|right; by split]. Qed.

(** A run that has succeeded has a result. *)
Lemma ext_ok_run {ops : DecimalOps} {A S} (r : res error A * S) :
  (match r.1 with Ok _ => true | _ => false end) = true -> exists a s', r = (Ok a, s').
Proof. destruct r as [[a|e|x] s']; [by eauto|done..]. Qed.

(** Take apart a computation that may fail. *)
Lemma sum_bind_inr {E A B} (m : E + A) (k : A -> E + B) b :
  match m with inl e => inl e | inr a => k a end = inr b -> exists a, m = inr a /\ k a = inr b.
Proof. destruct m; [done|eauto]. Qed.

(** *** One row of a list that is found by its key *)
Section rows.
Context {A K : Type} (key : A -> K).

Lemma split_found (P : A -> bool) l r : NoDup (key <$> l) -> (forall a b, P a = true -> P b = true -> key a = key b) ->
  List.find P l = Some r -> exists l1 l2, l = (l1 ++ r :: l2)%list /\ P r = true /\
    forall f, map (fun a => if P a then f a else a) l = (l1 ++ f r :: l2)%list.
Proof.
  intros Hn HP. induction l as [|a l IH]; [done|]. simpl. destruct (P a) eqn:Ea.
  - intros [= <-]. exists [], l. split_and!; [done..|]. intros f.
    assert (Hl : map (fun a => if P a then f a else a) l = l); [|simpl; by rewrite Hl].
    apply NoDup_cons in Hn as [Hni _]. rewrite <-(map_id l) at 2. apply map_ext_in. intros b Hb.
    destruct (P b) eqn:Eb; [|done]. exfalso. apply Hni. rewrite (HP a b Ea Eb). apply list_elem_of_fmap. exists b.
    split; [done|by apply list_elem_of_In].
  - intros H. apply NoDup_cons in Hn as [_ Hn]. destruct (IH Hn H) as (l1 & l2 & -> & Hr & Hf).
    exists (a :: l1), l2. split_and!; [done..|]. intros f. simpl in *. by rewrite Hf.
Qed.
End rows.

Section ext.
Context {ops : DecimalOps}.

Record Ext (X : Type) := mkExt { ex_shop : World; ex_rows : X }.
#[global] Arguments mkExt {X} _ _.
#[global] Arguments ex_shop {X} _.
#[global] Arguments ex_rows {X} _.

Context {env : Env} {X : Type}.

Definition XM : Type -> Type := stm (Ext X) error.

Definition lift {A} (m : M A) : XM A := fun s =>
  let '(r, w) := m (ex_shop s) in (r, mkExt w (ex_rows s)).

Definition ext_statement {A} (label : string) (f : X -> error + (A * X)) : XM A := fun s =>
  let w := ex_shop s in
  if db_fault (w_tick w) then (Err (EWrap label EDriver), mkExt (bump w) (ex_rows s))
  else match f (ex_rows s) with
       | inl e => (Err (EWrap label e), mkExt (bump w) (ex_rows s))
       | inr (a, x) => (Ok a, mkExt (bump w) x)
       end.

Definition ext_query {A} (label : string) (f : X -> A) : XM A := ext_statement label (fun x => inr (f x, x)).
Definition ext_update (label : string) (f : X -> X) : XM unit := ext_statement label (fun x => inr (tt, f x)).

Definition at_state {A} (f : Ext X -> XM A) : XM A := fun s => f s s.

(** A statement that checks a condition of the tables. *)
#[export] Instance sum_ret : MRet (sum error) := fun A a => inr a.
#[export] Instance sum_bind : MBind (sum error) := fun A B k m => match m with inl e => inl e | inr a => k a end.
Definition require (b : bool) (e : error) : error + unit := if b then inr tt else inl e.

Lemma require_inr b (e : error) u : require b e = inr u -> b = true.
Proof. by destruct b. Qed.

(** A transaction over both: begin, run, commit; an error or a panic rolls back. *)
Definition ext_bump (s : Ext X) : Ext X := mkExt (bump (ex_shop s)) (ex_rows s).
Definition undone (s s' : Ext X) : Ext X := mkExt (restore (w_db (ex_shop s)) (ex_shop s')) (ex_rows s).
Definition ext_tx {A} (repo : string) (body : XM A) : XM A := fun s =>
  if db_fault (w_tick (ex_shop s)) then (Err (EWrap (repo ++ ": begin tx")%string EDriver), ext_bump s)
  else match body (ext_bump s) with
       | (Ok a, s') =>
           if db_fault (w_tick (ex_shop s')) then (Err (EWrap (repo ++ ": commit tx")%string EDriver), ext_bump (undone s s'))
           else (Ok a, ext_bump s')
       | (Err e, s') =>
           if db_fault (w_tick (ex_shop s')) then (Err (EWrap (repo ++ ": rollback")%string EDriver), ext_bump (undone s s'))
           else (Err e, ext_bump (undone s s'))
       | (Panic r, s') => (Panic r, ext_bump (undone s s'))
       end.

(** *** What a run did *)

Lemma lift_run {A} (m : M A) s r w : m (ex_shop s) = (r, w) -> lift m s = (r, mkExt w (ex_rows s)).
Proof. unfold lift. by intros ->. Qed.

Lemma lift_Ok {A} (m : M A) s a s' :
  lift m s = (Ok a, s') <-> exists w, m (ex_shop s) = (Ok a, w) /\ s' = mkExt w (ex_rows s).
Proof.
  unfold lift. destruct (m (ex_shop s)) as [r w]. split; [intros [= -> <-]; eauto|].
  by intros (w' & [= -> ->] & ->).
Qed.

Lemma ext_statement_Ok {A} l (f : X -> error + (A * X)) s a s' :
  ext_statement l f s = (Ok a, s') <->
  db_fault (w_tick (ex_shop s)) = false /\
  exists x, f (ex_rows s) = inr (a, x) /\ s' = mkExt (bump (ex_shop s)) x.
Proof.
  unfold ext_statement. destruct (db_fault _).
  - split; [done | by intros [? _]].
  - destruct (f (ex_rows s)) as [e|[b x]] eqn:Hf.
    + split; [done | by intros (_ & ? & ? & _)].
    + split; [intros [= -> <-]; eauto | by intros (_ & x' & [= -> ->] & ->)].
Qed.

Lemma ext_query_Ok {A} l (f : X -> A) s a s' :
  ext_query l f s = (Ok a, s') <->
  db_fault (w_tick (ex_shop s)) = false /\ a = f (ex_rows s) /\ s' = mkExt (bump (ex_shop s)) (ex_rows s).
Proof.
  unfold ext_query. rewrite ext_statement_Ok. split.
  - intros (? & x & [= <- <-] & ->). auto.
  - intros (? & -> & ->). eauto.
Qed.

Lemma ext_update_Ok l (f : X -> X) s u s' :
  ext_update l f s = (Ok u, s') <->
  db_fault (w_tick (ex_shop s)) = false /\ s' = mkExt (bump (ex_shop s)) (f (ex_rows s)).
Proof.
  unfold ext_update. rewrite ext_statement_Ok. destruct u. split.
  - intros (? & x & [= <-] & ->). auto.
  - intros (? & ->). eauto.
Qed.

(** What ended a run that did not succeed. *)
Lemma ok_or_not {A} (r : res error A) : (exists a, r = Ok a) \/ forall a, r <> Ok a.
Proof. destruct r; [left; eauto|right; done..]. Qed.
Lemma on_err_fails {A} f (m : XM A) s r s' : on_err f m s = (r, s') -> (forall a, r <> Ok a) -> exists r0, m s = (r0, s') /\ forall a, r0 <> Ok a.
Proof. unfold on_err. destruct (m s) as [[a|e|w] s1]; intros [= <- <-] H; [by destruct (H a)|eexists; by split..]. Qed.
Lemma bind_fails {A B} (m : XM A) (k : A -> XM B) s r s' : (m ≫= k) s = (r, s') -> (forall b, r <> Ok b) ->
  (exists r0, m s = (r0, s') /\ forall a, r0 <> Ok a) \/ exists a s1, m s = (Ok a, s1) /\ k a s1 = (r, s').
Proof.
  unfold mbind, stm_bind. destruct (m s) as [[a|e|w] s1]; intros H Hr; [right; by exists a, s1|left..]; injection H as <- <-; eexists; (split; [reflexivity|done]).
Qed.

(** A transaction went through, or it left nothing but a count of calls. *)
Lemma ext_tx_Ok {A} repo (body : XM A) s a s' : ext_tx repo body s = (Ok a, s') ->
  exists s1, body (ext_bump s) = (Ok a, s1) /\ s' = ext_bump s1.
Proof.
  unfold ext_tx. destruct (db_fault _); [done|]. destruct (body (ext_bump s)) as [[b|e|w] s1]; try destruct (db_fault (w_tick (ex_shop s1))); try done.
  intros [= -> <-]. eauto.
Qed.
Lemma ext_tx_fails {A} repo (body : XM A) s r s' : ext_tx repo body s = (r, s') -> (forall a, r <> Ok a) ->
  ex_rows s' = ex_rows s /\ w_db (ex_shop s') = w_db (ex_shop s).
Proof.
  unfold ext_tx. intros H Hr. destruct (db_fault _); [by injection H as <- <-|].
  destruct (body (ext_bump s)) as [[a|e|w] s1]; try destruct (db_fault (w_tick (ex_shop s1))); injection H as <- <-; try done.
  by destruct (Hr a).
Qed.

(** *** Relations on the shop's database a run respects *)

Definition on_shop (R : DB -> DB -> Prop) (s s' : Ext X) : Prop := R (w_db (ex_shop s)) (w_db (ex_shop s')).

#[export] Instance on_shop_preorder R `{!PreOrder R} : PreOrder (on_shop R).
Proof. split; [by intros s; red|]. intros s1 s2 s3 H1 H2. red. etrans; [exact H1|exact H2]. Qed.

Lemma keeps_lift R {A} (m : M A) : keeps (fun w w' => R (w_db w) (w_db w')) m -> keeps (on_shop R) (lift m).
Proof. intros H s. specialize (H (ex_shop s)). unfold lift, on_shop. by destruct (m (ex_shop s)) as [r w]. Qed.

Lemma keeps_lift_rel R {A} (m : M A) : keeps (db_rel R) m -> keeps (on_shop R) (lift m).
Proof. intros H. apply keeps_lift. intros w. apply H. Qed.

Lemma keeps_ext_statement R `{!PreOrder R} {A} l (f : X -> error + (A * X)) : keeps (on_shop R) (ext_statement l f).
Proof.
  intros s. unfold ext_statement, on_shop. destruct (db_fault _); [reflexivity|].
  by destruct (f _) as [e|[a x]].
Qed.
Lemma keeps_ext_query R `{!PreOrder R} {A} l (f : X -> A) : keeps (on_shop R) (ext_query l f).
Proof. by apply keeps_ext_statement. Qed.
Lemma keeps_ext_update R `{!PreOrder R} l (f : X -> X) : keeps (on_shop R) (ext_update l f).
Proof. by apply keeps_ext_statement. Qed.
End ext.
#[export] Hint Resolve keeps_ext_query keeps_ext_update : keeps.
