(* ===== verification/Currency.v ===== *)
(** Exchange rates: src/internal/domain/currency, app/currency and adapter/repo/currency.

    A rate is a row of exchange_rate, one per shop, pair and instant; [GetRate_Execute] is the
    answer the order import converts prices with.  The rows live beside the shop's database:
    [HasRates] is where a component that uses them keeps them.  Foreign keys to currency and the
    listing of currencies are not modelled. *)
From S2P Require Import Prelude Rounding Decimal SDec Types StockDomain BillDomain Store ExtStore.
From stdpp Require Import base tactics strings gmap list.
From Stdlib Require Import ZArith Lia.

#[local] Open Scope string_scope.
#[local] Open Scope Z_scope.

Definition SourceManual : string := "manual".

Section currency.
Context {ops : DecimalOps}.

(** ExchangeRate *)
Record ExchangeRate := mkExchangeRate {
  er_id : uuid;
  er_tenant : uuid;
  er_from : string;
  er_to : string;
  er_rate : dec;
  er_source : string;
  er_effective_at : time;
  er_created_at : time;
}.

Definition rate_error (what : string) : error := EWrap what (ESentinel ErrRateValidation).

(** ExchangeRate.Validate *)
Definition ExchangeRate_Validate (r : ExchangeRate) : option error :=
  if is_negative (er_rate r) || is_zero (er_rate r) then Some (rate_error "rate must be positive")
  else if String.eqb (er_from r) "" then Some (rate_error "from_currency is required")
  else if String.eqb (er_to r) "" then Some (rate_error "to_currency is required")
  else if String.eqb (er_from r) (er_to r) then Some (rate_error "from_currency and to_currency must differ")
  else if time_is_zero (er_effective_at r) then Some (rate_error "effective_at is required")
  else None.

(** Where a component keeps the rows of exchange_rate. *)
Class HasRates (X : Type) := {
  rates_of : X -> list ExchangeRate;
  with_rates : X -> list ExchangeRate -> X;
}.

Context {env : Env} {X : Type} {HR : HasRates X}.

(** ** The repository *)

Definition same_pair (tenant : uuid) (from to_ : string) (r : ExchangeRate) : bool :=
  N.eqb (er_tenant r) tenant && String.eqb (er_from r) from && String.eqb (er_to r) to_.

(** GetRateOn: the latest rate in force on the date. *)
Definition GetRateOn (tenant : uuid) (from to_ : string) (date : time) : XM (X:=X) (option ExchangeRate) :=
  ext_query "currency repo: get rate" (fun x =>
    head (sql_order (fun r => - er_effective_at r)%Z
      (select (fun r => same_pair tenant from to_ r && Z.leb (er_effective_at r) date) (rates_of x)))).

(** SaveRate: ON CONFLICT keeps the row and takes the new rate and source. *)
Definition same_rate (r : ExchangeRate) (u : ExchangeRate) : bool :=
  same_pair (er_tenant r) (er_from r) (er_to r) u && Z.eqb (er_effective_at u) (er_effective_at r).
Definition take_rate (r u : ExchangeRate) : ExchangeRate :=
  mkExchangeRate (er_id u) (er_tenant u) (er_from u) (er_to u) (er_rate r) (er_source r) (er_effective_at u) (er_created_at u).
Definition save_rate (r : ExchangeRate) (rows : list ExchangeRate) : list ExchangeRate :=
  if existsb (same_rate r) rows then (fun u => if same_rate r u then take_rate r u else u) <$> rows
  else rows ++ [r].
Definition stored_rate (r : ExchangeRate) : ExchangeRate :=
  mkExchangeRate (er_id r) (er_tenant r) (er_from r) (er_to r) (num8 (er_rate r)) (er_source r) (er_effective_at r) (er_created_at r).
Definition SaveRate (r : ExchangeRate) : XM (X:=X) unit :=
  ext_statement "currency repo: save rate" (fun x =>
    if negb (is_positive (num8 (er_rate r))) then inl (EConstraint "exchange_rate_rate_check")
    else inr (tt, with_rates x (save_rate (stored_rate r) (rates_of x)))).

(** ListRateHistory *)
Definition rate_history (tenant : uuid) (from to_ : string) (since : time) (rows : list ExchangeRate) : list ExchangeRate :=
  sql_order er_effective_at (select (fun r => same_pair tenant from to_ r && Z.leb since (er_effective_at r)) rows).
Definition ListRateHistory_repo (tenant : uuid) (from to_ : string) (days : Z) : XM (X:=X) (list ExchangeRate) :=
  now ← lift time_now;
  ext_query "currency repo: list rate history" (fun x => rate_history tenant from to_ (now - days * 24 * hour)%Z (rates_of x)).

(** ** The use cases *)

Record CreateRateRequest := mkCreateRateRequest {
  rq_tenant : uuid; rq_from : string; rq_to : string; rq_rate : dec; rq_effective_at : time }.

(** CreateRateUseCase.Execute *)
Definition CreateRate_Execute (req : CreateRateRequest) : XM (X:=X) ExchangeRate :=
  guard_err (uuid_is_nil (rq_tenant req)) (rate_error "tenant_id is required");;
  guard_err (is_zero (rq_rate req) || is_negative (rq_rate req)) (rate_error "rate must be positive");;
  guard_err (String.eqb (rq_from req) "") (rate_error "from_currency is required");;
  guard_err (String.eqb (rq_to req) "") (rate_error "to_currency is required");;
  guard_err (String.eqb (rq_from req) (rq_to req)) (rate_error "from_currency and to_currency must differ");;
  guard_err (time_is_zero (rq_effective_at req)) (rate_error "effective_at is required");;
  id ← lift uuid_new;
  now ← lift time_now;
  let r := mkExchangeRate id (rq_tenant req) (rq_from req) (rq_to req) (rq_rate req) SourceManual (rq_effective_at req) now in
  on_err (EWrap "create rate") (SaveRate r);;
  mret r.

Record RateResult := mkRateResult { rr_Rate : dec; rr_Source : string; rr_Warning : string }.

(** GetRateUseCase.Execute *)
Definition GetRate_Execute (tenant : uuid) (from to_ : string) (date : time) : XM (X:=X) RateResult :=
  if String.eqb from to_ then mret (mkRateResult (dint 1) SourceManual "")
  else
    r ← on_err (EWrap "get rate") (GetRateOn tenant from to_ date);
    mret (match r with
          | None => mkRateResult (dint 1) "default" "no_rate_found"
          | Some r => mkRateResult (er_rate r) (er_source r) ""
          end).

(** ListRateHistoryUseCase.Execute *)
Definition maxHistoryDays : Z := 365.
Definition clamp_days (days : Z) : Z :=
  let d := if Z.leb days 0 then 30 else days in if Z.ltb maxHistoryDays d then maxHistoryDays else d.
Definition ListRateHistory_Execute (tenant : uuid) (from to_ : string) (days : Z) : XM (X:=X) (list ExchangeRate) :=
  on_err (EWrap "list rate history") (ListRateHistory_repo tenant from to_ (clamp_days days)).
End currency.
