(* ===== verification/Csv.v ===== *)
(** The text formats an order export comes in: encoding/csv, time.Parse and the letter case
    functions of package strings, as far as src/internal/app/importing/usecase.go uses them.

    [read_record] is csv.Reader.Read with TrimLeadingSpace on the bytes left; [parse_time] is
    time.Parse for the layout elements of the layouts the import tries.  Letters outside ASCII
    keep their case, except the two that lower-case into ASCII: every name the header is compared
    with is ASCII. *)
From S2P Require Import Prelude GoStrings Rounding Decimal Types GoTime.
From stdpp Require Import base tactics strings list.
From Stdlib Require Import ZArith Lia Ascii.

(** ** Letter case *)

Definition upper_char (a : ascii) : ascii :=
  let n := N_of_ascii a in if N.leb 97 n && N.leb n 122 then ascii_of_N (n - 32) else a.
Definition lower_char (a : ascii) : ascii :=
  let n := N_of_ascii a in if N.leb 65 n && N.leb n 90 then ascii_of_N (n + 32) else a.

Definition map_string (f : ascii -> ascii) (s : string) : string := String.string_of_list_ascii (f <$> chars s).

(** strings.ToUpper *)
Definition to_upper (s : string) : string := map_string upper_char s.

Definition is_byte (n : N) (a : ascii) : bool := N.eqb (N_of_ascii a) n.

(** U+0130 and U+212A. *)
Fixpoint lower_special (s : string) : string :=
  match s with
  | EmptyString => EmptyString
  | String a s1 =>
      match s1 with
      | EmptyString => s
      | String b s2 =>
          if is_byte 196 a && is_byte 176 b then String "i" (lower_special s2)
          else match s2 with
               | String c s3 =>
                   if is_byte 226 a && is_byte 132 b && is_byte 170 c then String "k" (lower_special s3)
                   else String a (lower_special s1)
               | EmptyString => String a (lower_special s1)
               end
      end
  end.

(** strings.ToLower *)
Definition to_lower (s : string) : string := map_string lower_char (lower_special s).

(** ** encoding/csv *)

Definition quote : string := String "034" EmptyString.
Definition newline : string := String "010" EmptyString.
Definition cr : string := String "013" EmptyString.

Definition drop_suffix (suf s : string) : option string :=
  rev_string <$> cut_prefix (rev_string suf) (rev_string s).

(** readLine: one line with its line feed, CR LF written as LF; the last one may end without,
    and then loses a trailing CR.  [None] is io.EOF. *)
Definition read_line (data : string) : option (string * string) :=
  match cut_first newline data with
  | Some (l, rest) => Some (default l (drop_suffix cr l) ++ newline, rest)%string
  | None =>
      match data with
      | EmptyString => None
      | _ => Some (default data (drop_suffix cr data), EmptyString)
      end
  end.

Definition drop_newline (line : string) : string := default line (drop_suffix newline line).
Definition is_blank (line : string) : bool := String.eqb (drop_newline line) "".
Definition has_quote (s : string) : bool := negb (is_none (cut_first quote s)).

Inductive csv_read := CsvEnd | CsvBad | CsvRecord (fields : list string) (rest : string).

(** The fields of a record from [line] on, with [rest] behind it; [inside] is the text of a
    quoted field that is still open.  Every round uses up at least one byte. *)
Fixpoint read_fields (fuel : nat) (inside : option string) (line rest : string) (acc : list string) : csv_read :=
  match fuel with
  | O => CsvBad
  | S n =>
      match inside with
      | None =>
          let line := trim_left spaces (String.length line) line in
          match cut_prefix quote line with
          | Some line' => read_fields n (Some ""%string) line' rest acc
          | None =>
              match cut_first "," line with
              | Some (field, line') =>
                  if has_quote field then CsvBad else read_fields n None line' rest (acc ++ [field])
              | None => if has_quote line then CsvBad else CsvRecord (acc ++ [drop_newline line]) rest
              end
          end
      | Some buf =>
          match cut_first quote line with
          | Some (pre, line') =>
              let buf := (buf ++ pre)%string in
              match cut_prefix quote line', cut_prefix "," line' with
              | Some l, _ => read_fields n (Some (buf ++ quote)%string) l rest acc
              | None, Some l => read_fields n None l rest (acc ++ [buf])
              | None, None => if is_blank line' then CsvRecord (acc ++ [buf]) rest else CsvBad
              end
          | None =>
              match line, read_line rest with
              | String _ _, Some (l, rest') => read_fields n (Some (buf ++ line)%string) l rest' acc
              | _, _ => CsvBad
              end
          end
      end
  end.

(** readRecord: blank lines are passed over. *)
Fixpoint skip_blank (fuel : nat) (data : string) : option (string * string) :=
  match fuel with
  | O => None
  | S n =>
      match read_line data with
      | None => None
      | Some (l, rest) => if is_blank l then skip_blank n rest else Some (l, rest)
      end
  end.
Definition read_record (data : string) : csv_read :=
  match skip_blank (S (String.length data)) data with
  | None => CsvEnd
  | Some (l, rest) => read_fields (S (String.length l + String.length rest)) None l rest []
  end.

(** ** time.Parse *)

Inductive layout_item := LLit (a : ascii) | LYear | LMonth | LDay | LHour | LMinute | LSecond | LZone (z : bool).

Record stamp := mkStamp {
  st_year : Z; st_month : Z; st_day : Z; st_hour : Z; st_minute : Z; st_second : Z; st_nano : Z; st_offset : Z }.

Definition digit (a : ascii) : option Z :=
  let n := N_of_ascii a in if N.leb 48 n && N.leb n 57 then Some (Z.of_N (n - 48)) else None.

(** getnum *)
Definition getnum (fixed : bool) (s : string) : option (Z * string) :=
  match s with
  | String a s1 =>
      d ← digit a;
      match s1 with
      | String b s2 =>
          match digit b with
          | Some e => Some (10 * d + e, s2)%Z
          | None => if fixed then None else Some (d, s1)
          end
      | EmptyString => if fixed then None else Some (d, s1)
      end
  | EmptyString => None
  end.

(** Four digits. *)
Definition getyear (s : string) : option (Z * string) :=
  '(hi, s1) ← getnum true s; '(lo, s2) ← getnum true s1; Some (100 * hi + lo, s2)%Z.

Fixpoint take_digits (s : string) : list Z * string :=
  match s with
  | String a s' => match digit a with Some d => let '(l, t) := take_digits s' in (d :: l, t) | None => ([], s) end
  | EmptyString => ([], s)
  end.

(** A fraction behind the seconds, to nine places; the rest of its digits is dropped. *)
Definition digits_value (l : list Z) : Z := fold_left (fun v d => 10 * v + d)%Z l 0%Z.
Definition fraction (s : string) : Z * string :=
  match s with
  | String a s' =>
      if Ascii.eqb a "." || Ascii.eqb a "," then
        match take_digits s' with
        | ([], _) => (0%Z, s)
        | (l, t) => let l := take 9 l in (digits_value l * 10 ^ (9 - Z.of_nat (length l)), t)%Z
        end
      else (0%Z, s)
  | EmptyString => (0%Z, s)
  end.

Definition in_range (lo hi : Z) (p : Z * string) : option (Z * string) :=
  if Z.leb lo p.1 && Z.leb p.1 hi then Some p else None.

(** +hh:mm or -hh:mm, in seconds. *)
Definition zone (s : string) : option (Z * string) :=
  match s with
  | String sign s1 =>
      h ← getnum true s1; h ← in_range 0 24 h;
      s2 ← cut_prefix ":" h.2;
      m ← getnum true s2; m ← in_range 0 60 m;
      let off := ((h.1 * 60 + m.1) * 60)%Z in
      if Ascii.eqb sign "+" then Some (off, m.2) else if Ascii.eqb sign "-" then Some (- off, m.2)%Z else None
  | EmptyString => None
  end.

(** A blank of the layout passes over any number of blanks, and over the end of the text. *)
Fixpoint cut_spaces (s : string) : string :=
  match s with String a s' => if Ascii.eqb a " " then cut_spaces s' else s | EmptyString => s end.
Definition skip_literal (a : ascii) (s : string) : option string :=
  if Ascii.eqb a " " then
    match s with
    | EmptyString => Some s
    | String b _ => if Ascii.eqb b " " then Some (cut_spaces s) else None
    end
  else cut_prefix (String a EmptyString) s.

Definition parse_item (i : layout_item) (t : stamp) (s : string) : option (stamp * string) :=
  let '(mkStamp y mo d h mi se ns off) := t in
  match i with
  | LLit a => s' ← skip_literal a s; Some (t, s')
  | LYear => '(v, s') ← getyear s; Some (mkStamp v mo d h mi se ns off, s')
  | LMonth => p ← getnum true s; '(v, s') ← in_range 1 12 p; Some (mkStamp y v d h mi se ns off, s')
  | LDay => '(v, s') ← getnum true s; Some (mkStamp y mo v h mi se ns off, s')
  | LHour => p ← getnum false s; '(v, s') ← in_range 0 23 p; Some (mkStamp y mo d v mi se ns off, s')
  | LMinute => p ← getnum true s; '(v, s') ← in_range 0 59 p; Some (mkStamp y mo d h v se ns off, s')
  | LSecond => p ← getnum true s; '(v, s') ← in_range 0 59 p;
               let '(n, s'') := fraction s' in Some (mkStamp y mo d h mi v n off, s'')
  | LZone z =>
      match cut_prefix "Z" s with
      | Some s' => if z then Some (t, s') else None
      | None => '(v, s') ← zone s; Some (mkStamp y mo d h mi se ns v, s')
      end
  end.

Fixpoint parse_items (l : list layout_item) (t : stamp) (s : string) : option stamp :=
  match l with
  | [] => if String.eqb s "" then Some t else None
  | i :: l' => '(t', s') ← parse_item i t s; parse_items l' t' s'
  end.

Definition days_in (y m : Z) : Z :=
  if is_leap y && Z.eqb m 2 then 29%Z else (days_before m - days_before (m - 1))%Z.

(** time.Date in UTC, from nanoseconds of the zero time. *)
Definition stamp_time (t : stamp) : time :=
  (days_of (st_year t) (st_month t) (st_day t) * (24 * hour) + st_hour t * hour + st_minute t * minute
   + (st_second t - st_offset t) * second + st_nano t)%Z.

Definition parse_time (layout : list layout_item) (s : string) : option time :=
  t ← parse_items layout (mkStamp 0 1 1 0 0 0 0 0) s;
  if Z.leb 1 (st_day t) && Z.leb (st_day t) (days_in (st_year t) (st_month t)) then Some (stamp_time t) else None.

Definition ymd (sep : ascii) : list layout_item := [LYear; LLit sep; LMonth; LLit sep; LDay].
Definition hms : list layout_item := [LHour; LLit ":"; LMinute; LLit ":"; LSecond].
Definition RFC3339 : list layout_item := ymd "-" ++ LLit "T" :: hms ++ [LZone true].

Example ex_parse_1 : parse_time RFC3339 "2024-02-29T23:30:05.25+08:00" = Some (stamp_time (mkStamp 2024 2 29 15 30 5 250000000 0)).
Proof. reflexivity. Qed.
Example ex_parse_2 : parse_time (ymd "-") "2023-02-29" = None.
Proof. reflexivity. Qed.
Example ex_record :
  read_record ("a, b," ++ quote ++ "x," ++ quote ++ quote ++ newline ++ "y" ++ quote ++ cr ++ newline ++ "z")
  = CsvRecord ["a"; "b"; ("x," ++ quote ++ newline ++ "y")%string] "z".
Proof. reflexivity. Qed.
