(* ===== verification/Importing.v ===== *)
(** The import of platform orders: src/internal/app/importing/usecase.go over
    src/internal/adapter/repo/importing and the adapters of src/internal/lifecycle
    (import_adapters.go, return_adapters.go).

    [ImportRows] are the tables of the import and the exchange rates it reads; import_order_seen
    is with the shop's database, which the sales returns read too.  An order becomes a draft sale
    that is approved at once; a cancellation or a refund becomes a sales return.  The text of a
    skip reason is kept as what it is made of ([SkipReason]).  Where the program answers a result
    and an error at once, the result is dropped here. *)
From S2P Require Import Prelude GoStrings Rounding Decimal SDec Types StockDomain BillDomain GoTime Store StockRepo StockCalc StockRecord BillRepo BillDraft BillApprove BillReturn ExtStore Currency Csv.
From stdpp Require Import base tactics strings gmap list pretty.
From Stdlib Require Import ZArith Lia Ascii.

#[local] Open Scope string_scope.

(** Platform *)
Definition Platform := string.
#[global] Typeclasses Transparent Platform.
Definition PlatformAmazon : Platform := "amazon".
Definition PlatformShopify : Platform := "shopify".

(** Platform.Validate *)
Definition Platform_known (p : Platform) : bool := String.eqb p PlatformAmazon || String.eqb p PlatformShopify.

Definition targetCurrency : string := "CNY".

Section importing.
Context {ops : DecimalOps}.

(** SKUMapping *)
Record SKUMapping := mkSKUMapping {
  sm_id : uuid; sm_tenant : uuid; sm_platform : string; sm_sku : string; sm_product : uuid;
  sm_created_at : time; sm_updated_at : time }.

(** import_order_cancel_seen, import_refund_seen *)
Record CancelRow := mkCancelRow {
  cn_tenant : uuid; cn_platform : string; cn_order : string; cn_original : uuid; cn_reversal : uuid }.
Record RefundRow := mkRefundRow {
  rf_tenant : uuid; rf_platform : string; rf_order : string; rf_refund : string; rf_bill : uuid }.

Record ImportRows := mkImportRows {
  im_skus : list SKUMapping;
  im_cancels : list CancelRow;
  im_refunds : list RefundRow;
  im_rates : list ExchangeRate;
}.
Definition set_skus (x : ImportRows) v := mkImportRows v (im_cancels x) (im_refunds x) (im_rates x).
Definition set_cancels (x : ImportRows) v := mkImportRows (im_skus x) v (im_refunds x) (im_rates x).
Definition set_refunds (x : ImportRows) v := mkImportRows (im_skus x) (im_cancels x) v (im_rates x).

#[export] Instance ImportRates : HasRates ImportRows := {
  rates_of := im_rates;
  with_rates x r := mkImportRows (im_skus x) (im_cancels x) (im_refunds x) r;
}.

(** OrderRow *)
Record OrderRow := mkOrderRow {
  or_PlatformOrderNo : string; or_PlatformSKU : string; or_Qty : dec; or_UnitPrice : dec;
  or_Currency : string; or_OrderDate : time }.

(** SKUHint, ImportRequest *)
Record SKUHint := mkSKUHint { sh_sku : string; sh_product : uuid }.
Record ImportRequest := mkImportRequest {
  ir_tenant : uuid; ir_creator : uuid; ir_warehouse : uuid; ir_platform : Platform;
  ir_csv : string; ir_hints : list SKUHint; ir_dry_run : bool }.

(** ImportedOrder, SkippedOrder, OversellRow, UnknownSKU, ImportResult *)
Record ImportedOrder := mkImportedOrder {
  io_order : string; io_bill : uuid; io_no : string; io_mark_error : option error }.
Inductive SkipReason :=
  | Duplicate (bill : uuid)
  | UnknownSku (sku : option string)
  | ApproveFailed (e : error)
  | CancelledBefore.
Record SkippedOrder := mkSkippedOrder { so_order : string; so_reason : SkipReason }.
Record OversellRow := mkOversellRow {
  ov_order : string; ov_sku : string; ov_product : uuid; ov_requested : dec; ov_available : dec }.
Record UnknownSKU := mkUnknownSKU { us_platform : string; us_sku : string }.
Record ImportResult := mkImportResult {
  ip_imported : list ImportedOrder; ip_skipped : list SkippedOrder;
  ip_oversells : list OversellRow; ip_unknown : list UnknownSKU }.

(** CancelRequest, CancelResult *)
Record CancelRequest := mkCancelRequest {
  cq_tenant : uuid; cq_creator : uuid; cq_platform : Platform; cq_order : string }.
Record CancelResult := mkCancelResult {
  cv_order : string; cv_original : uuid; cv_reversal : uuid; cv_reversal_no : string; cv_nothing : bool }.

(** RefundLine, RefundRequest, RefundResult *)
Record RefundLine := mkRefundLine { rn_sku : string; rn_qty : dec; rn_amount : dec }.
Record RefundRequest := mkRefundRequest {
  fq_tenant : uuid; fq_creator : uuid; fq_warehouse : uuid; fq_platform : Platform; fq_order : string;
  fq_refund : string; fq_currency : string; fq_date : time; fq_lines : list RefundLine }.
Record RefundResult := mkRefundResult {
  fv_order : string; fv_refund : string; fv_bill : uuid; fv_no : string; fv_nothing : bool }.

(** SingleOrderRequest *)
Record SingleOrderRequest := mkSingleOrderRequest {
  sq_tenant : uuid; sq_creator : uuid; sq_warehouse : uuid; sq_platform : Platform;
  sq_order : string; sq_alias : string; sq_lines : list OrderRow }.

(** SaleLineItem *)
Record SaleLineItem := mkSaleLineItem { sl_product : uuid; sl_line_no : Z; sl_qty : dec; sl_price : dec }.

(** ** The order export *)

Definition import_error (text : string) : error := EMsg ("importing: " ++ text).

(** columnIndex: the column of a field is where the first of its aliases that occurs stands
    first. *)
Definition find_column (header : list string) (name : string) : option nat :=
  fst <$> list_find (fun h => h = name) header.
Definition column (header aliases : list string) : option nat := head (omap (find_column header) aliases).
Definition normalised (header : list string) : list string := (fun h => to_lower (trim_space h)) <$> header.

Record columns := mkColumns {
  co_order : nat; co_sku : nat; co_qty : nat; co_price : nat; co_currency : nat; co_date : nat }.
Record aliases := mkAliases {
  al_order : list string; al_sku : list string; al_qty : list string; al_price : list string;
  al_currency : list string; al_date : list string }.

Definition columnIndex (header : list string) (a : aliases) : option columns :=
  let h := normalised header in
  order ← column h (al_order a); sku ← column h (al_sku a); qty ← column h (al_qty a);
  price ← column h (al_price a); currency ← column h (al_currency a); date ← column h (al_date a);
  Some (mkColumns order sku qty price currency date).

Definition amazon_columns : aliases := mkAliases
  ["order-id"; "order_id"; "orderid"] ["sku"; "asin"; "listing-sku"; "merchant-sku"]
  ["quantity-purchased"; "quantity"; "qty"] ["item-price"; "unit-price"; "price"] ["currency"]
  ["purchase-date"; "order-date"; "date"].
Definition shopify_columns : aliases := mkAliases
  ["name"; "order_name"; "order-name"; "order_id"; "order-id"] ["lineitem sku"; "lineitem_sku"; "sku"; "variant sku"]
  ["lineitem quantity"; "lineitem_quantity"; "quantity"; "qty"] ["lineitem price"; "lineitem_price"; "price"] ["currency"]
  ["created at"; "created_at"; "order_date"].

(** The field of a record, trimmed; empty when the record is too short. *)
Definition get (rec : list string) (i : nat) : string := from_option trim_space "" (rec !! i).

Definition date_layouts : list (list layout_item) :=
  let T := LLit "T"%char in let blank := LLit " "%char in let slash := LLit "/"%char in
  [RFC3339; (ymd "-"%char ++ T :: hms ++ [LZone false])%list; (ymd "-"%char ++ blank :: hms)%list; ymd "-"%char;
   [LMonth; slash; LDay; slash; LYear]; ymd "/"%char].

Definition parse_date (raw : string) : option time := head (omap (fun l => parse_time l raw) date_layouts).

(** buildRow; the fields and the layouts in the order they are tried. *)
Definition buildRow (rec : list string) (c : columns) : error + OrderRow :=
  match dof_string (get rec (co_qty c)) with
  | Some qty =>
      if is_negative qty || is_zero qty then inl (EMsg "invalid qty")
      else match dof_string (get rec (co_price c)) with
           | Some price =>
               if is_negative price then inl (EMsg "invalid unit_price")
               else match parse_date (get rec (co_date c)) with
                    | Some date =>
                        if time_is_zero date then inl (EMsg "cannot parse order_date")
                        else inr (mkOrderRow (get rec (co_order c)) (get rec (co_sku c)) qty price
                                    (to_upper (get rec (co_currency c))) date)
                    | None => inl (EMsg "cannot parse order_date")
                    end
           | None => inl (EMsg "invalid unit_price")
           end
  | None => inl (EMsg "invalid qty")
  end.

(** A Shopify line without a SKU is shipping or a fee. *)
Definition is_fee (shopify : bool) (rec : list string) (c : columns) : bool :=
  shopify && Nat.ltb (co_sku c) (length rec) && String.eqb (get rec (co_sku c)) "".

(** The records behind the header; each must have as many fields as the header. *)
Fixpoint parse_rows (fuel : nat) (name : string) (shopify : bool) (width : nat) (c : columns) (line_no : Z)
    (data : string) (rows : list OrderRow) : error + list OrderRow :=
  let at_line e := EWrap (name ++ " csv: line " ++ pretty line_no) e in
  match fuel with
  | O => inl (EMsg "csv")
  | S n =>
      match read_record data with
      | CsvEnd => inr rows
      | CsvBad => inl (at_line (EMsg "csv"))
      | CsvRecord rec rest =>
          if negb (Nat.eqb (length rec) width) then inl (at_line (EMsg "wrong number of fields"))
          else if is_fee shopify rec c then parse_rows n name shopify width c (line_no + 1) rest rows
          else match buildRow rec c with
               | inl e => inl (at_line e)
               | inr row => parse_rows n name shopify width c (line_no + 1) rest (rows ++ [row])
               end
      end
  end.

(** parseAmazonCSV and parseShopifyCSV, which differ in the names of the columns and in what
    they do with a line without a SKU. *)
Definition parse_export (name : string) (shopify : bool) (a : aliases) (data : string) : error + list OrderRow :=
  match read_record data with
  | CsvRecord header rest =>
      match columnIndex header a with
      | None => inl (EWrap (name ++ " csv") (EMsg "missing required column"))
      | Some c => parse_rows (S (String.length rest)) name shopify (length header) c 2 rest []
      end
  | _ => inl (EWrap (name ++ " csv: read header") (EMsg "csv"))
  end.

(** parseCSV *)
Definition parseCSV (p : Platform) (data : string) : error + list OrderRow :=
  if String.eqb p PlatformAmazon then parse_export "amazon" false amazon_columns data
  else if String.eqb p PlatformShopify then parse_export "shopify" true shopify_columns data
  else inl (import_error "no parser for platform").

(** ** The repository *)

Context {env : Env}.
Definition IM : Type -> Type := XM (X:=ImportRows).

Definition of_key (tenant : uuid) (platform sku : string) (m : SKUMapping) : bool :=
  N.eqb (sm_tenant m) tenant && String.eqb (sm_platform m) platform && String.eqb (sm_sku m) sku.

(** GetMapping *)
Definition GetMapping (tenant : uuid) (platform sku : string) : IM (option SKUMapping) :=
  ext_query "import repo: get mapping" (fun x => head (select (of_key tenant platform sku) (im_skus x))).

(** UpsertMapping of a mapping without an id *)
Definition upsert_sku (m : SKUMapping) (rows : list SKUMapping) : list SKUMapping :=
  let same := of_key (sm_tenant m) (sm_platform m) (sm_sku m) in
  if existsb same rows
  then (fun u => if same u then mkSKUMapping (sm_id u) (sm_tenant u) (sm_platform u) (sm_sku u) (sm_product m)
                                  (sm_created_at u) (sm_updated_at m) else u) <$> rows
  else rows ++ [m].
Definition UpsertMapping (tenant : uuid) (platform sku : string) (product : uuid) : IM unit :=
  now ← lift time_now;
  id ← lift uuid_new;
  ext_update "import repo: upsert mapping" (fun x =>
    set_skus x (upsert_sku (mkSKUMapping id tenant platform sku product now now) (im_skus x))).

Definition set_orders_seen (d : DB) v := mkDB (db_snapshots d) (db_movements d) (db_lots d) (db_heads d) (db_items d) (db_payments d) (db_sequence d) (db_warehouses d) (db_products d) (db_partners d) (db_product_unit d) (db_skus d) v (db_initial d) (db_audit d) (db_outbox d).

Definition seen_as (tenant : uuid) (platform order : string) (s : OrderSeenRow) : bool :=
  N.eqb (os_tenant s) tenant && String.eqb (os_platform s) platform && String.eqb (os_order_no s) order.

(** MarkOrderSeen: ON CONFLICT DO NOTHING *)
Definition MarkOrderSeen (tenant : uuid) (platform order : string) (bill : uuid) : M unit :=
  uuid_new;; time_now;;
  update "import repo: mark order seen" (fun d =>
    if existsb (seen_as tenant platform order) (db_orders_seen d) then d
    else set_orders_seen d (db_orders_seen d ++ [mkOrderSeenRow tenant platform order bill])).

Definition import_remark (platform order : string) : string := "import:" ++ platform ++ ":" ++ order.

Definition remarked (tenant : uuid) (remark : string) (r : HeadRow) : bool :=
  N.eqb (bh_tenant (hr_head r)) tenant && String.eqb (bh_remark (hr_head r)) remark && negb (hr_deleted r).

(** IsOrderSeen: the bill the order became, from the table or, failing that, from the remark of
    a live bill; that one is entered into the table for the next time. *)
Definition orphan_bill (tenant : uuid) (remark : string) (d : DB) : option uuid :=
  head (bh_id <$> sql_order (fun h => - bh_created_at h)%Z
          (hr_head <$> select (remarked tenant remark) (snd <$> map_to_list (db_heads d)))).
Definition IsOrderSeen (tenant : uuid) (platform order : string) : M (option uuid) :=
  seen ← query "import repo: is order seen" (fun d => head (os_bill <$> select (seen_as tenant platform order) (db_orders_seen d)));
  match seen with
  | Some b => mret (Some b)
  | None =>
      orphan ← query "import repo: orphan bill lookup" (orphan_bill tenant (import_remark platform order));
      match orphan with
      | Some b => try (MarkOrderSeen tenant platform order b);; mret (Some b)
      | None => mret None
      end
  end.

(** IsCancelSeen: the original and the reversal bill. *)
Definition cancel_of (tenant : uuid) (platform order : string) (c : CancelRow) : bool :=
  N.eqb (cn_tenant c) tenant && String.eqb (cn_platform c) platform && String.eqb (cn_order c) order.
Definition IsCancelSeen (tenant : uuid) (platform order : string) : IM (option (uuid * uuid)) :=
  ext_query "import repo: is cancel seen" (fun x =>
    head ((fun c => (cn_original c, cn_reversal c)) <$> select (cancel_of tenant platform order) (im_cancels x))).

(** MarkCancelSeen: a real reversal replaces a marker that had nothing to reverse. *)
Definition mark_cancel (n : CancelRow) (rows : list CancelRow) : list CancelRow :=
  let same := cancel_of (cn_tenant n) (cn_platform n) (cn_order n) in
  if existsb same rows
  then (fun c => if same c && uuid_is_nil (cn_reversal c) && negb (uuid_is_nil (cn_reversal n)) then n else c) <$> rows
  else rows ++ [n].
Definition MarkCancelSeen (tenant : uuid) (platform order : string) (original reversal : uuid) : IM unit :=
  lift uuid_new;; lift time_now;;
  ext_update "import repo: mark cancel seen" (fun x =>
    set_cancels x (mark_cancel (mkCancelRow tenant platform order original reversal) (im_cancels x))).

(** IsRefundSeen, MarkRefundSeen *)
Definition refund_of (tenant : uuid) (platform refund : string) (r : RefundRow) : bool :=
  N.eqb (rf_tenant r) tenant && String.eqb (rf_platform r) platform && String.eqb (rf_refund r) refund.
Definition IsRefundSeen (tenant : uuid) (platform refund : string) : IM (option uuid) :=
  ext_query "import repo: is refund seen" (fun x =>
    head (rf_bill <$> select (refund_of tenant platform refund) (im_refunds x))).
Definition MarkRefundSeen (tenant : uuid) (platform order refund : string) (bill : uuid) : IM unit :=
  lift uuid_new;; lift time_now;;
  ext_update "import repo: mark refund seen" (fun x =>
    if existsb (refund_of tenant platform refund) (im_refunds x) then x
    else set_refunds x (im_refunds x ++ [mkRefundRow tenant platform order refund bill])).

(** ReversalBillNo: empty when the bill is gone. *)
Definition ReversalBillNo (tenant bill : uuid) : M string :=
  query "import repo: reversal bill no" (fun d =>
    match db_heads d !! bill with
    | Some r => if N.eqb (bh_tenant (hr_head r)) tenant then bh_bill_no (hr_head r) else ""
    | None => ""
    end).

(** ** The adapters over the other components (lifecycle/import_adapters.go, return_adapters.go) *)

Context {wiring : Wiring} {calc : InventoryCalculator}.

(** importSaleCreator.Create *)
Definition sale_item (warehouse : uuid) (it : SaleLineItem) : SaleItem :=
  mkSaleItem (sl_product it) warehouse None "" (sl_line_no it) (sl_qty it) (sl_price it) "1".
Definition importSaleCreator_Create (tenant creator warehouse : uuid) (date : time) (remark : string)
    (items : list SaleLineItem) : M CreateDraftOutput :=
  CreateSale_Execute (mkCreateSaleRequest tenant creator None (Some warehouse) date dzero dzero remark
    (sale_item warehouse <$> items)).

(** importSaleApprover.Approve *)
Definition importSaleApprover_Approve (tenant bill creator : uuid) : M unit :=
  ApproveSale_Execute (mkApproveSaleRequest tenant bill creator dzero "" "" time_zero false false).

(** importStockChecker.AvailableQty *)
Definition AvailableQty (tenant product warehouse : uuid) : M dec :=
  snap ← on_err (EWrap "get snapshot") (GetSnapshot tenant product warehouse);
  mret (from_option sn_available dzero snap).

(** importWarehouseChecker.BelongsToTenant, over the warehouse repository's GetByID *)
Definition BelongsToTenant (tenant warehouse : uuid) : M unit :=
  found ← query "warehouse repo get" (fun d =>
    existsb (fun w => N.eqb (wh_id w) warehouse && N.eqb (wh_tenant w) tenant && negb (wh_deleted w)) (db_warehouses d));
  guard_err (negb found) (ESentinel ErrWarehouseMissing).

(** importCurrencyRater.GetRate *)
Definition GetRate (tenant : uuid) (from to_ : string) (date : time) : IM dec :=
  r ← GetRate_Execute tenant from to_ date; mret (rr_Rate r).

(** importReturnCreator.Create *)
Definition nothing_reversed (e : error) : error :=
  if errors_is e ErrNothingToReverse then ESentinel ErrNothingReversed else e.
Definition return_item (it : SaleLineItem) : ReturnItem :=
  mkReturnItem (sl_product it) None "" (sl_line_no it) (sl_qty it) (sl_price it) None.
Definition cloned_lines (tenant : uuid) (remark : string) (warehouse : option uuid)
    : M (option uuid * list ReturnItem) :=
  match ParseOriginRef remark with
  | Some ref =>
      if uuid_is_nil (or_bill ref) then mret (warehouse, [])
      else
        c ← on_err nothing_reversed (CloneOriginal tenant (or_bill ref));
        mret (Some (default c.1 warehouse), c.2)
  | None => mret (warehouse, [])
  end.
Definition importReturnCreator_Create (tenant creator : uuid) (warehouse : option uuid) (date : time)
    (remark : string) (items : list SaleLineItem) : M CreateDraftOutput :=
  l ← (match items with
       | [] => cloned_lines tenant remark warehouse
       | _ => capped ← on_err nothing_reversed (CapToRemaining tenant remark (return_item <$> items));
              mret (warehouse, capped)
       end);
  CreateReturn_Execute (mkCreateReturnRequest tenant creator l.1 None None date remark l.2).

(** importReturnApprover.Approve *)
Definition importReturnApprover_Approve (tenant bill creator : uuid) : M unit :=
  on_err nothing_reversed (ApproveReturn_Execute (mkApproveReturnRequest tenant bill creator false)).

(** ** The use case *)

(** resolveSKU: [None] when the SKU is unknown. *)
Definition resolveSKU (tenant : uuid) (platform sku : string) (hints : gmap string uuid) : IM (option uuid) :=
  match hints !! sku with
  | Some p => mret (Some p)
  | None => m ← GetMapping tenant platform sku; mret (sm_product <$> m)
  end.

(** A price in the target currency at the rate of the day. *)
Definition convert_price (tenant : uuid) (wrap : error -> error) (currency : string) (date : time) (price : dec) : IM dec :=
  let src := to_upper currency in
  if negb (String.eqb src "") && negb (String.eqb src targetCurrency) then
    rate ← on_err wrap (GetRate tenant src targetCurrency date);
    mret (dround 4 (dmul price rate))
  else mret price.

Definition resolved_line : Type := OrderRow * uuid.

Definition convert_line (tenant : uuid) (order : string) (l : resolved_line) : IM (resolved_line * dec) :=
  p ← convert_price tenant (EWrap ("importing: fx for order " ++ order)) (or_Currency l.1) (or_OrderDate l.1) (or_UnitPrice l.1);
  mret (l, p).

(** items[i] has line number i+1. *)
Definition sale_lines (l : list (resolved_line * dec)) : list SaleLineItem :=
  imap (fun i x => mkSaleLineItem x.1.2 (Z.of_nat i + 1) (or_Qty x.1.1) x.2) l.

Fixpoint mapM_list {A B} (f : A -> IM B) (l : list A) : IM (list B) :=
  match l with
  | [] => mret []
  | a :: l' => b ← f a; bs ← mapM_list f l'; mret (b :: bs)
  end.

(** The draft sale and its approval; the order is not marked yet. *)
Definition book_order (tenant creator warehouse : uuid) (platform order : string) (date : time)
    (lines : list (resolved_line * dec)) : IM (CreateDraftOutput * option error) :=
  out ← on_err (EWrap ("importing: create sale bill for order " ++ order))
    (lift (importSaleCreator_Create tenant creator warehouse date (import_remark platform order) (sale_lines lines)));
  a ← lift (try (importSaleApprover_Approve tenant (co_bill out) creator));
  mret (out, match a with inl e => Some e | inr _ => None end).

(** Marks the order and reports it; a failure to mark is reported with it. *)
Definition mark_imported (tenant : uuid) (platform order : string) (out : CreateDraftOutput) : IM ImportedOrder :=
  m ← lift (try (MarkOrderSeen tenant platform order (co_bill out)));
  mret (mkImportedOrder order (co_bill out) (co_no out) (match m with inl e => Some e | inr _ => None end)).

(** The lines of one order up to the first unknown SKU. *)
Fixpoint resolve_lines (tenant : uuid) (platform : string) (rows : list OrderRow) : IM (string + list resolved_line) :=
  match rows with
  | [] => mret (inr [])
  | row :: rows' =>
      p ← on_err (EWrap ("importing: resolve sku " ++ or_PlatformSKU row)) (resolveSKU tenant platform (or_PlatformSKU row) ∅);
      match p with
      | None => mret (inl (or_PlatformSKU row))
      | Some p =>
          rest ← resolve_lines tenant platform rows';
          mret (match rest with inl sku => inl sku | inr l => inr ((row, p) :: l) end)
      end
  end.

(** ingestOneOrder *)
Definition ingestOneOrder (tenant creator warehouse : uuid) (platform order : string) (rows : list OrderRow)
    : IM (SkippedOrder + ImportedOrder) :=
  seen ← on_err (EWrap ("importing: dedup check for order " ++ order)) (lift (IsOrderSeen tenant platform order));
  match seen with
  | Some b => mret (inl (mkSkippedOrder order (Duplicate b)))
  | None =>
      resolved ← resolve_lines tenant platform rows;
      match resolved with
      | inl sku => mret (inl (mkSkippedOrder order (UnknownSku (Some sku))))
      | inr l =>
          lines ← mapM_list (convert_line tenant order) l;
          b ← book_order tenant creator warehouse platform order (from_option or_OrderDate time_zero (head rows)) lines;
          match b.2 with
          | Some e => mret (inl (mkSkippedOrder order (ApproveFailed e)))
          | None => o ← mark_imported tenant platform order b.1; mret (inr o)
          end
      end
  end.

(** IngestSingleOrder *)
Definition IngestSingleOrder (req : SingleOrderRequest) : IM (SkippedOrder + ImportedOrder) :=
  guard_err (uuid_is_nil (sq_tenant req)) (import_error "tenant_id is required");;
  guard_err (uuid_is_nil (sq_creator req)) (import_error "creator_id is required");;
  guard_err (uuid_is_nil (sq_warehouse req)) (import_error "warehouse_id is required");;
  guard_err (negb (Platform_known (sq_platform req))) (import_error "unknown platform");;
  guard_err (String.eqb (sq_order req) "") (import_error "platform_order_no is required");;
  guard_err (Nat.eqb (length (sq_lines req)) 0) (import_error "at least one order line is required");;
  cancelled ← on_err (EWrap ("importing: cancel check for order " ++ sq_order req))
    (IsCancelSeen (sq_tenant req) (sq_platform req) (sq_order req));
  match cancelled with
  | Some _ => mret (inl (mkSkippedOrder (sq_order req) CancelledBefore))
  | None =>
      out ← ingestOneOrder (sq_tenant req) (sq_creator req) (sq_warehouse req) (sq_platform req) (sq_order req) (sq_lines req);
      match out with
      | inr o =>
          (if is_none (io_mark_error o) && negb (String.eqb (sq_alias req) "") && negb (String.eqb (sq_alias req) (sq_order req))
           then lift (try (MarkOrderSeen (sq_tenant req) (sq_platform req) (sq_alias req) (io_bill o)));; mret tt
           else mret tt);;
          mret out
      | inl _ => mret out
      end
  end.

(** *** The upload of an export *)

Record order_group := mkGroup { og_order : string; og_date : time; og_rows : list OrderRow }.

(** One row more: into the group of its order, or as a new group at the end. *)
Definition add_row (groups : list order_group) (r : OrderRow) : list order_group :=
  let mine g := String.eqb (og_order g) (or_PlatformOrderNo r) in
  if existsb mine groups
  then (fun g => if mine g then mkGroup (og_order g) (og_date g) (og_rows g ++ [r])%list else g) <$> groups
  else (groups ++ [mkGroup (or_PlatformOrderNo r) (or_OrderDate r) [r]])%list.
Definition group_rows (rows : list OrderRow) : list order_group := fold_left add_row rows [].

Definition hint_map (hints : list SKUHint) : gmap string uuid :=
  fold_left (fun m h => <[sh_sku h := sh_product h]> m) hints ∅.

(** appendUniqueSKU *)
Definition appendUniqueSKU (l : list UnknownSKU) (s : UnknownSKU) : list UnknownSKU :=
  if existsb (fun u => String.eqb (us_sku u) (us_sku s)) l then l else (l ++ [s])%list.

(** All lines of one order; what is unknown is collected. *)
Definition resolve_row (tenant : uuid) (platform : string) (hints : gmap string uuid)
    (acc : (list UnknownSKU * bool) * list resolved_line) (row : OrderRow) : IM ((list UnknownSKU * bool) * list resolved_line) :=
  p ← on_err (EWrap ("importing: resolve sku " ++ or_PlatformSKU row)) (resolveSKU tenant platform (or_PlatformSKU row) hints);
  mret (match p with
        | None => ((appendUniqueSKU acc.1.1 (mkUnknownSKU platform (or_PlatformSKU row)), true), acc.2 ++ [(row, uuid_nil)])
        | Some p => (acc.1, acc.2 ++ [(row, p)])
        end)%list.

Definition add_imported (r : ImportResult) (o : ImportedOrder) : ImportResult :=
  mkImportResult (ip_imported r ++ [o])%list (ip_skipped r) (ip_oversells r) (ip_unknown r).
Definition add_skipped (r : ImportResult) (order : string) (why : SkipReason) : ImportResult :=
  mkImportResult (ip_imported r) (ip_skipped r ++ [mkSkippedOrder order why])%list (ip_oversells r) (ip_unknown r).
Definition with_unknown (r : ImportResult) (l : list UnknownSKU) : ImportResult :=
  mkImportResult (ip_imported r) (ip_skipped r) (ip_oversells r) l.

(** A line of a preview that would oversell. *)
Definition check_oversell (tenant warehouse : uuid) (order : string) (r : ImportResult) (l : resolved_line * dec) : IM ImportResult :=
  avail ← on_err (EWrap ("importing: stock check for order " ++ order)) (lift (AvailableQty tenant l.1.2 warehouse));
  mret (if dgt (or_Qty l.1.1) avail
        then mkImportResult (ip_imported r) (ip_skipped r)
               (ip_oversells r ++ [mkOversellRow order (or_PlatformSKU l.1.1) l.1.2 (or_Qty l.1.1) avail])%list (ip_unknown r)
        else r).

(** The mappings learned from the hints an order used. *)
Definition learn_mapping (tenant : uuid) (platform : string) (hints : gmap string uuid) (l : resolved_line) : IM unit :=
  match hints !! or_PlatformSKU l.1 with
  | Some p => on_err (EWrap ("importing: persist mapping for sku " ++ or_PlatformSKU l.1))
                (UpsertMapping tenant platform (or_PlatformSKU l.1) p)
  | None => mret tt
  end.

(** The body of the loop over the orders. *)
Definition import_order (req : ImportRequest) (hints : gmap string uuid) (r : ImportResult) (g : order_group) : IM ImportResult :=
  let tenant := ir_tenant req in let order := og_order g in
  seen ← on_err (EWrap ("importing: dedup check for order " ++ order)) (lift (IsOrderSeen tenant (ir_platform req) order));
  match seen with
  | Some b => mret (add_skipped r order (Duplicate b))
  | None =>
      acc ← foldM (resolve_row tenant (ir_platform req) hints) (og_rows g) ((ip_unknown r, false), []);
      let r := with_unknown r acc.1.1 in
      if (acc.1.2 : bool) then mret (add_skipped r order (UnknownSku None))
      else
        lines ← mapM_list (convert_line tenant order) acc.2;
        if ir_dry_run req then
          r ← foldM (check_oversell tenant (ir_warehouse req) order) lines r;
          mret (add_imported r (mkImportedOrder order uuid_nil "(preview)" None))
        else
          b ← book_order tenant (ir_creator req) (ir_warehouse req) (ir_platform req) order (og_date g) lines;
          match b.2 with
          | Some e => mret (add_skipped r order (ApproveFailed e))
          | None =>
              o ← mark_imported tenant (ir_platform req) order b.1;
              (if is_none (io_mark_error o) then mapM_ (learn_mapping tenant (ir_platform req) hints) acc.2 else mret tt);;
              mret (add_imported r o)
          end
  end.

(** Execute *)
Definition ImportOrders_Execute (req : ImportRequest) : IM ImportResult :=
  guard_err (uuid_is_nil (ir_tenant req)) (import_error "tenant_id is required");;
  guard_err (uuid_is_nil (ir_creator req)) (import_error "creator_id is required");;
  guard_err (uuid_is_nil (ir_warehouse req)) (import_error "warehouse_id is required");;
  guard_err (negb (Platform_known (ir_platform req))) (import_error "unknown platform");;
  guard_err (String.eqb (ir_csv req) "") (import_error "csv_data is empty");;
  on_err (EWrap "importing: warehouse not in tenant") (lift (BelongsToTenant (ir_tenant req) (ir_warehouse req)));;
  rows ← on_err (EWrap "importing: parse csv") (of_sum (parseCSV (ir_platform req) (ir_csv req)));
  foldM (import_order req (hint_map (ir_hints req))) (group_rows rows) (mkImportResult [] [] [] []).

(** *** Cancellations *)

Definition cancel_remark (platform order : string) (sale : uuid) : string :=
  "cancel:" ++ platform ++ ":" ++ order ++ ":original_bill_id=" ++ uuid_string sale.

(** cancelNothingToReverse *)
Definition cancelNothingToReverse (req : CancelRequest) (original : uuid) : IM CancelResult :=
  on_err (EWrap ("importing: mark_cancel_seen for order " ++ cq_order req))
    (MarkCancelSeen (cq_tenant req) (cq_platform req) (cq_order req) original uuid_nil);;
  mret (mkCancelResult (cq_order req) original uuid_nil "" true).

(** The number of an earlier reversal, or nothing when it cannot be read. *)
Definition known_bill_no (tenant bill : uuid) : IM string :=
  if uuid_is_nil bill then mret ""
  else no ← lift (try (ReversalBillNo tenant bill)); mret (match no with inr s => s | inl _ => "" end).

(** The reversal of an order that was imported as [original]. *)
Definition reverse_order (req : CancelRequest) (original : uuid) : IM CancelResult :=
  let wrap what := EWrap ("importing: " ++ what ++ " reversal bill for order " ++ cq_order req) in
  now ← lift time_now;
  made ← lift (try (importReturnCreator_Create (cq_tenant req) (cq_creator req) None now
                      (cancel_remark (cq_platform req) (cq_order req) original) []));
  match made with
  | inl e => if errors_is e ErrNothingReversed then cancelNothingToReverse req original else throw (wrap "create" e)
  | inr out =>
      a ← lift (try (importReturnApprover_Approve (cq_tenant req) (co_bill out) (cq_creator req)));
      match a with
      | inl e => if errors_is e ErrNothingReversed then cancelNothingToReverse req original else throw (wrap "approve" e)
      | inr _ =>
          on_err (EWrap "importing: mark_cancel_seen failed (reversal committed)")
            (MarkCancelSeen (cq_tenant req) (cq_platform req) (cq_order req) original (co_bill out));;
          mret (mkCancelResult (cq_order req) original (co_bill out) (co_no out) false)
      end
  end.

(** IngestCancelOrder *)
Definition IngestCancelOrder (req : CancelRequest) : IM CancelResult :=
  guard_err (uuid_is_nil (cq_tenant req)) (import_error "tenant_id is required");;
  guard_err (uuid_is_nil (cq_creator req)) (import_error "creator_id is required");;
  guard_err (negb (Platform_known (cq_platform req))) (import_error "unknown platform");;
  guard_err (String.eqb (cq_order req) "") (import_error "platform_order_no is required");;
  before ← on_err (EWrap ("importing: cancel dedup check for order " ++ cq_order req))
    (IsCancelSeen (cq_tenant req) (cq_platform req) (cq_order req));
  match before with
  | Some (orig, rev) =>
      no ← known_bill_no (cq_tenant req) rev;
      mret (mkCancelResult (cq_order req) orig rev no (uuid_is_nil rev))
  | None =>
      seen ← on_err (EWrap ("importing: lookup original order " ++ cq_order req))
        (lift (IsOrderSeen (cq_tenant req) (cq_platform req) (cq_order req)));
      match seen with
      | None =>
          on_err (EWrap ("importing: mark_cancel_seen for unknown order " ++ cq_order req))
            (MarkCancelSeen (cq_tenant req) (cq_platform req) (cq_order req) uuid_nil uuid_nil);;
          mret (mkCancelResult (cq_order req) uuid_nil uuid_nil "" true)
      | Some original => reverse_order req original
      end
  end.

(** *** Refunds *)

(** The head of the remark is the key ReturnedQty finds the refunds of an order by. *)
Definition refund_bill_remark (platform order refund : string) : string :=
  refund_remark platform order ++ refund.

(** refundNothingToReverse *)
Definition refundNothingToReverse (req : RefundRequest) : IM RefundResult :=
  on_err (EWrap ("importing: mark_refund_seen for " ++ fq_refund req))
    (MarkRefundSeen (fq_tenant req) (fq_platform req) (fq_order req) (fq_refund req) uuid_nil);;
  mret (mkRefundResult (fq_order req) (fq_refund req) uuid_nil "" true).

Definition refund_line (req : RefundRequest) (acc : list SaleLineItem) (l : RefundLine) : IM (list SaleLineItem) :=
  p ← on_err (EWrap ("importing: refund resolve sku " ++ rn_sku l)) (resolveSKU (fq_tenant req) (fq_platform req) (rn_sku l) ∅);
  p ← of_option (import_error "refund sku not in import_sku_map; map it before re-sending") p;
  price ← convert_price (fq_tenant req) (EWrap ("importing: fx for refund " ++ fq_refund req)) (fq_currency req) (fq_date req) (rn_amount l);
  mret (acc ++ [mkSaleLineItem p (Z.of_nat (length acc) + 1) (rn_qty l) price])%list.

Definition book_refund (req : RefundRequest) (items : list SaleLineItem) : IM RefundResult :=
  let wrap what := EWrap ("importing: " ++ what ++ " refund bill for " ++ fq_refund req) in
  made ← lift (try (importReturnCreator_Create (fq_tenant req) (fq_creator req) (Some (fq_warehouse req)) (fq_date req)
                      (refund_bill_remark (fq_platform req) (fq_order req) (fq_refund req)) items));
  match made with
  | inl e => if errors_is e ErrNothingReversed then refundNothingToReverse req else throw (wrap "create" e)
  | inr out =>
      a ← lift (try (importReturnApprover_Approve (fq_tenant req) (co_bill out) (fq_creator req)));
      match a with
      | inl e => if errors_is e ErrNothingReversed then refundNothingToReverse req else throw (wrap "approve" e)
      | inr _ =>
          on_err (EWrap "importing: mark_refund_seen failed (bill committed)")
            (MarkRefundSeen (fq_tenant req) (fq_platform req) (fq_order req) (fq_refund req) (co_bill out));;
          mret (mkRefundResult (fq_order req) (fq_refund req) (co_bill out) (co_no out) false)
      end
  end.

(** IngestRefund *)
Definition IngestRefund (req : RefundRequest) : IM RefundResult :=
  guard_err (uuid_is_nil (fq_tenant req)) (import_error "tenant_id is required");;
  guard_err (uuid_is_nil (fq_creator req)) (import_error "creator_id is required");;
  guard_err (uuid_is_nil (fq_warehouse req)) (import_error "warehouse_id is required");;
  guard_err (negb (Platform_known (fq_platform req))) (import_error "unknown platform");;
  guard_err (String.eqb (fq_order req) "") (import_error "platform_order_no is required");;
  guard_err (String.eqb (fq_refund req) "") (import_error "platform_refund_id is required");;
  guard_err (Nat.eqb (length (fq_lines req)) 0) (import_error "refund has no lines");;
  before ← on_err (EWrap ("importing: refund dedup check for " ++ fq_refund req))
    (IsRefundSeen (fq_tenant req) (fq_platform req) (fq_refund req));
  match before with
  | Some bill =>
      no ← known_bill_no (fq_tenant req) bill;
      mret (mkRefundResult (fq_order req) (fq_refund req) bill no (uuid_is_nil bill))
  | None =>
      seen ← on_err (EWrap ("importing: lookup order " ++ fq_order req ++ " for refund"))
        (lift (IsOrderSeen (fq_tenant req) (fq_platform req) (fq_order req)));
      match seen with
      | None => mret (mkRefundResult (fq_order req) (fq_refund req) uuid_nil "" true)
      | Some _ => items ← foldM (refund_line req) (fq_lines req) []; book_refund req items
      end
  end.
End importing.
