(* ===== verification/ImportParse.v ===== *)
(** The fuel of the CSV reader is enough: more of it reads the same.

    [read_fields] and [parse_rows] (src/internal/app/importing/usecase.go reads an export line by
    line until io.EOF) are given the number of bytes left; what they answer does not depend on
    it beyond that, so running out is not among the ways a file can be refused. *)
From S2P Require Import Prelude GoStrings Rounding Decimal Types GoTime Csv Importing.
From stdpp Require Import base tactics strings list pretty.
From Stdlib Require Import ZArith Lia Ascii.

#[local] Open Scope nat_scope.

Definition len (s : string) : nat := String.length s.

Lemma len_app a b : len (a ++ b)%string = len a + len b.
Proof. unfold len. induction a; simpl; [done|]. by rewrite <- IHa. Qed.

Lemma len_chars s : len s = length (chars s).
Proof. unfold len, chars. induction s; simpl; [done|]. by rewrite IHs. Qed.

Lemma len_rev s : len (rev_string s) = len s.
Proof. by rewrite !len_chars, chars_rev, length_rev. Qed.

Lemma cut_prefix_len p s t : cut_prefix p s = Some t -> len s = len p + len t.
Proof. intros ->%cut_prefix_Some. apply len_app. Qed.

Lemma cut_first_len sep s b t : cut_first sep s = Some (b, t) -> len s = len b + len sep + len t.
Proof.
  revert b. induction s as [|a s IH]; intros b H; cbn [cut_first] in H.
  - destruct (cut_prefix sep "") as [u|] eqn:E; [|done]. injection H as <- <-. apply cut_prefix_len in E. done.
  - destruct (cut_prefix sep (String a s)) as [u|] eqn:E.
    + injection H as <- <-. by apply cut_prefix_len in E.
    + destruct (cut_first sep s) as [[b' u]|]; [|done]. injection H as <- <-. specialize (IH _ eq_refl).
      unfold len in *. simpl. lia.
Qed.

Lemma drop_suffix_len suf s t : drop_suffix suf s = Some t -> len s = len suf + len t.
Proof.
  unfold drop_suffix. destruct (cut_prefix _ _) as [u|] eqn:E; simpl; intros [= <-].
  apply cut_prefix_len in E. by rewrite !len_rev in *.
Qed.
Lemma default_drop_len suf s : len (default s (drop_suffix suf s)) <= len s.
Proof. destruct (drop_suffix suf s) as [t|] eqn:E; simpl; [|done]. apply drop_suffix_len in E. lia. Qed.

Lemma cut_space_len sps s t : cut_space sps s = Some t -> len t <= len s.
Proof.
  intros H. unfold cut_space in H. apply head_Some_elem_of, list_elem_of_omap in H as (p & _ & H).
  apply cut_prefix_len in H. lia.
Qed.
Lemma trim_left_len sps n s : len (trim_left sps n s) <= len s.
Proof.
  revert s. induction n as [|n IH]; intros s; simpl; [done|].
  destruct (cut_space sps s) as [t|] eqn:E; [|done]. etrans; [apply IH|by eapply cut_space_len].
Qed.

(** A line read is at most what is gone, and something is. *)
Lemma read_line_len data l rest : read_line data = Some (l, rest) -> len l + len rest <= len data /\ 0 < len data /\ len rest < len data.
Proof.
  unfold read_line. destruct (cut_first newline data) as [[b t]|] eqn:E.
  - intros [= <- <-]. apply cut_first_len in E. rewrite len_app. pose proof (default_drop_len cr b).
    change (len newline) with 1 in *. lia.
  - destruct data as [|a data]; [done|]. intros [= <- <-]. pose proof (default_drop_len cr (String a data)) as H.
    change (len "") with 0. change (len (String a data)) with (S (len data)) in *. lia.
Qed.

Lemma read_fields_fuel n m inside line rest acc : len line + len rest < n -> len line + len rest < m ->
  read_fields n inside line rest acc = read_fields m inside line rest acc.
Proof.
  revert m inside line rest acc. induction n as [|n IH]; intros [|m] inside line rest acc Hn Hm; try lia.
  cbn [read_fields]. destruct inside as [buf|].
  - destruct (cut_first quote line) as [[pre l']|] eqn:E.
    + apply cut_first_len in E. change (len quote) with 1 in E.
      destruct (cut_prefix quote l') as [l2|] eqn:E2; [apply cut_prefix_len in E2; apply IH; lia|].
      destruct (cut_prefix "," l') as [l2|] eqn:E3; [apply cut_prefix_len in E3; apply IH; lia|done].
    + destruct line as [|a line]; [done|]. destruct (read_line rest) as [[l rest']|] eqn:E2; [|done].
      apply read_line_len in E2. change (len (String a line)) with (S (len line)) in *. apply IH; lia.
  - pose proof (trim_left_len spaces (String.length line) line) as T. set (l := trim_left _ _ line) in *.
    destruct (cut_prefix quote l) as [l2|] eqn:E; [apply cut_prefix_len in E; change (len quote) with 1 in E; apply IH; lia|].
    destruct (cut_first "," l) as [[f l2]|] eqn:E2; [|done]. apply cut_first_len in E2. change (len ",") with 1 in E2.
    destruct (has_quote f); [done|]. apply IH; lia.
Qed.

Lemma read_fields_rest n inside line rest acc fs r : read_fields n inside line rest acc = CsvRecord fs r -> len r <= len rest.
Proof.
  revert inside line rest acc. induction n as [|n IH]; intros inside line rest acc; [done|]. cbn [read_fields].
  destruct inside as [buf|].
  - destruct (cut_first quote line) as [[pre l']|].
    + destruct (cut_prefix quote l'); [apply IH|]. destruct (cut_prefix "," l'); [apply IH|]. destruct (is_blank l'); [|done]. by intros [= _ <-].
    + destruct line; [done|]. destruct (read_line rest) as [[l rest']|] eqn:E; [|done]. intros H%IH. apply read_line_len in E. lia.
  - destruct (cut_prefix quote _); [apply IH|]. destruct (cut_first "," _) as [[f l2]|].
    + destruct (has_quote f); [done|apply IH].
    + destruct (has_quote _); [done|]. by intros [= _ <-].
Qed.

Lemma skip_blank_rest n data l rest : skip_blank n data = Some (l, rest) -> len rest < len data.
Proof.
  revert data. induction n as [|n IH]; intros data; [done|]. cbn [skip_blank].
  destruct (read_line data) as [[l' r']|] eqn:E; [|done]. apply read_line_len in E.
  destruct (is_blank l'); [intros H%IH; lia|]. intros [= <- <-]. lia.
Qed.

Lemma skip_blank_fuel n m data : len data < n -> len data < m -> skip_blank n data = skip_blank m data.
Proof.
  revert m data. induction n as [|n IH]; intros [|m] data Hn Hm; try lia. cbn [skip_blank].
  destruct (read_line data) as [[l r]|] eqn:E; [|done]. apply read_line_len in E. destruct (is_blank l); [apply IH; lia|done].
Qed.

(** Every record uses up something. *)
Lemma read_record_rest data fs rest : read_record data = CsvRecord fs rest -> len rest < len data.
Proof.
  unfold read_record. destruct (skip_blank _ data) as [[l r]|] eqn:E; [|done]. intros H%read_fields_rest.
  apply skip_blank_rest in E. lia.
Qed.

Section rows.
Context {ops : DecimalOps}.

Lemma parse_rows_fuel n m name shopify width c line_no data rows : len data < n -> len data < m ->
  parse_rows n name shopify width c line_no data rows = parse_rows m name shopify width c line_no data rows.
Proof.
  revert m line_no data rows. induction n as [|n IH]; intros [|m] line_no data rows Hn Hm; try lia. cbn [parse_rows].
  destruct (read_record data) as [| |rec rest] eqn:E; [done..|]. apply read_record_rest in E.
  destruct (negb _); [done|]. destruct (is_fee _ _ _); [apply IH; lia|]. destruct (buildRow rec c); [done|apply IH; lia].
Qed.

(** ** What an export is read as *)

(** The records of a file, to its end. *)
Inductive csv_file : string -> list (list string) -> Prop :=
  | file_end data : read_record data = CsvEnd -> csv_file data []
  | file_record data rec rest recs : read_record data = CsvRecord rec rest -> csv_file rest recs -> csv_file data (rec :: recs).

(** The rows of the records: none for a fee, the row built of any other. *)
Definition rows_of (shopify : bool) (c : columns) (recs : list (list string)) (rows : list OrderRow) : Prop :=
  Forall2 (fun rec row => buildRow rec c = inr row) (select (fun rec => negb (is_fee shopify rec c)) recs) rows.

Lemma parse_rows_spec n name shopify width c line_no data acc rows : len data < n ->
  parse_rows n name shopify width c line_no data acc = inr rows <->
  exists recs new, csv_file data recs /\ Forall (fun rec => length rec = width) recs /\ rows_of shopify c recs new /\
    rows = (acc ++ new)%list.
Proof.
  revert line_no data acc. induction n as [|n IH]; intros line_no data acc Hn; [lia|]. cbn [parse_rows].
  destruct (read_record data) as [| |rec rest] eqn:E.
  - split.
    + intros [= <-]. exists [], []. split_and!; [by constructor|by constructor|by constructor|by rewrite app_nil_r].
    + intros (recs & new & F & _ & R & ->). inversion F; subst; [|congruence]. inversion R. by rewrite app_nil_r.
  - split; [done|]. intros (recs & new & F & _). inversion F; congruence.
  - pose proof (read_record_rest _ _ _ E) as Hl. assert (len rest < n) as Hr by lia.
    assert (forall recs, csv_file data recs <-> exists recs', recs = rec :: recs' /\ csv_file rest recs') as K.
    { intros recs. split; [|by intros (? & -> & ?); econstructor].
      intros F. inversion F; [congruence|]. subst. rewrite H in E. injection E as -> ->. eauto. }
    destruct (Nat.eqb_spec (length rec) width) as [Hw|Hw]; simpl.
    + destruct (is_fee shopify rec c) eqn:Ef; [|destruct (buildRow rec c) as [e|row] eqn:Eb].
      * rewrite IH by done. split.
        -- intros (recs & new & F & W & R & ->). exists (rec :: recs), new. split_and!; [apply K; eauto|by constructor| |done].
           unfold rows_of in *. simpl. by rewrite Ef.
        -- intros (recs & new & (recs' & -> & F)%K & W & R & ->). inversion W; subst. exists recs', new. split_and!; [done|done| |done].
           unfold rows_of in *. simpl in R. by rewrite Ef in R.
      * split; [done|]. intros (recs & new & (recs' & -> & F)%K & W & R & ->).
        unfold rows_of in R. simpl in R. rewrite Ef in R. simpl in R. inversion R; congruence.
      * rewrite IH by done. split.
        -- intros (recs & new & F & W & R & ->). exists (rec :: recs), (row :: new).
           split_and!; [apply K; eauto|by constructor| |by rewrite <- app_assoc].
           unfold rows_of in *. simpl. rewrite Ef. simpl. by constructor.
        -- intros (recs & new & (recs' & -> & F)%K & W & R & ->). inversion W; subst.
           unfold rows_of in R. simpl in R. rewrite Ef in R. simpl in R. inversion R as [|? row' ? new' Hb R']; subst.
           rewrite Eb in Hb. injection Hb as <-. exists recs', new'. split_and!; [done|done|done|by rewrite <- app_assoc].
    + split; [done|]. intros (recs & new & (recs' & -> & F)%K & W & R & ->). by inversion W.
Qed.

(** C24: an export is accepted exactly when it is a file of records with a header that names every
    column, all records as wide as the header, and every record that is not a fee makes a row;
    and then its rows are these, in the order of the file, none lost and none twice.  In
    particular reading never stops short for want of fuel. *)
Theorem export_rows name shopify a data rows :
  parse_export name shopify a data = inr rows <->
  exists header recs c, csv_file data (header :: recs) /\ columnIndex header a = Some c /\
    Forall (fun rec => length rec = length header) recs /\ rows_of shopify c recs rows.
Proof.
  unfold parse_export. destruct (read_record data) as [| |header rest] eqn:E.
  1,2: split; [done|]; intros (h & recs & c & F & _); inversion F; congruence.
  assert (forall h recs, csv_file data (h :: recs) <-> h = header /\ csv_file rest recs) as K.
  { intros h recs. split; [|by intros [-> ?]; econstructor]. intros F. inversion F as [|? ? ? ? H]. subst. rewrite H in E. by injection E as -> ->. }
  destruct (columnIndex header a) as [c|] eqn:Ec.
  - rewrite parse_rows_spec by (unfold len; lia). split.
    + intros (recs & new & F & W & R & ->). exists header, recs, c. by rewrite K.
    + intros (h & recs & c' & [-> F]%K & Ec' & W & R). rewrite Ec in Ec'. injection Ec' as <-. exists recs, rows. by split_and!.
  - split; [done|]. intros (h & recs & c & [-> F]%K & Ec' & _). congruence.
Qed.
End rows.
