(* ===== verification/ImportLaws.v ===== *)
(** What an upload may be trusted with: an order becomes one bill however often it comes, and
    uploading a file twice is uploading it once.

    [order_bill] is the live bill an order became, found by the remark the import writes.  An
    order is [known] when it has one or is entered in import_order_seen; nothing the import does
    makes it forget an order ([grows]). *)
From S2P Require Import Prelude GoStrings Rounding Decimal SDec Types StockDomain BillDomain GoTime Store StockRepo StockCalc StockFIFO StockRecord StockAdjust BillRepo BillRows BillDraft BillApprove BillReturn ReturnCap Concrete ExtStore Currency Csv Importing.
From stdpp Require Import base tactics strings gmap list pretty.
From Stdlib Require Import ZArith QArith Lqa Lia Ascii.

Section import_laws.
Context {ops : DecimalOps} {laws : DecimalLaws ops} {env : Env} {env_laws : EnvLaws env} {wiring : Wiring}
  {calc : InventoryCalculator} {CL : CalculatorLaws calc}.

(** ** Marks *)

(** The shop and the remark of every live bill. *)
Definition live_mark (r : HeadRow) : option (uuid * string) :=
  if hr_deleted r then None else Some (bh_tenant (hr_head r), bh_remark (hr_head r)).
Definition marks (d : DB) : gmap uuid (uuid * string) := omap live_mark (db_heads d).

(** The bill an order became. *)
Definition order_bill (tenant : uuid) (platform order : string) (d : DB) (b : uuid) : Prop :=
  marks d !! b = Some (tenant, import_remark platform order).

Definition known (tenant : uuid) (platform order : string) (d : DB) : Prop :=
  (exists s, s ∈ db_orders_seen d /\ seen_as tenant platform order s = true) \/
  exists b, order_bill tenant platform order d b.

Lemma marks_lookup d b m : marks d !! b = Some m <-> exists r, db_heads d !! b = Some r /\ live_mark r = Some m.
Proof. unfold marks. rewrite lookup_omap. destruct (db_heads d !! b) as [r|]; simpl; [|by split; [|intros (? & ? & _)]]. split; [eauto|by intros (? & [= <-] & ?)]. Qed.

Lemma live_mark_remarked t k r : live_mark r = Some (t, k) <-> remarked t k r = true.
Proof.
  unfold live_mark, remarked. destruct (hr_deleted r); simpl.
  - rewrite andb_false_r. by split.
  - rewrite andb_true_r, andb_true_iff, N.eqb_eq, String.eqb_eq. split; [by intros [= <- <-]|by intros [-> ->]].
Qed.

Lemma orphan_bill_Some t k d b : orphan_bill t k d = Some b -> exists b', marks d !! b' = Some (t, k).
Proof.
  unfold orphan_bill. intros H. apply head_Some_elem_of in H.
  apply list_elem_of_fmap in H as (h & -> & Hh). rewrite sql_order_perm in Hh.
  apply list_elem_of_fmap in Hh as (r & -> & Hr). apply elem_of_select in Hr as [Hr Hin].
  apply list_elem_of_fmap in Hin as ([b' r'] & -> & Hin). apply elem_of_map_to_list in Hin.
  exists b'. apply marks_lookup. exists r'. by rewrite live_mark_remarked.
Qed.

Lemma orphan_bill_None t k d : orphan_bill t k d = None -> forall b, marks d !! b <> Some (t, k).
Proof.
  unfold orphan_bill. intros H b (r & Hr & Hm)%marks_lookup.
  apply head_None in H. apply (f_equal length) in H. rewrite length_fmap in H. simpl in H.
  apply nil_length_inv in H. apply live_mark_remarked in Hm.
  assert (hr_head r ∈ @nil BillHead) as K; [|by apply elem_of_nil in K].
  rewrite <- H, sql_order_perm. apply list_elem_of_fmap. exists r. split; [done|]. apply elem_of_select. split; [done|].
  apply list_elem_of_fmap. exists (b, r). split; [done|]. by apply elem_of_map_to_list.
Qed.

(** ** What the import keeps *)

Definition strip_seen (d : DB) : DB := set_orders_seen d [].

(** The shop is as it was; orders may have been entered as seen. *)
Definition same_shop (d d' : DB) : Prop :=
  strip_seen d' = strip_seen d /\ forall s, s ∈ db_orders_seen d -> s ∈ db_orders_seen d'.

#[export] Instance same_shop_preorder : PreOrder same_shop.
Proof. split; [by intros d|]. intros d1 d2 d3 [E1 H1] [E2 H2]. split; [congruence|auto]. Qed.

(** Bills keep their marks and seen orders stay so. *)
Definition remembers (d d' : DB) : Prop :=
  marks d ⊆ marks d' /\ forall s, s ∈ db_orders_seen d -> s ∈ db_orders_seen d'.

#[export] Instance remembers_preorder : PreOrder remembers.
Proof. split; [by intros d|]. intros d1 d2 d3 [E1 H1] [E2 H2]. split; [by etrans|auto]. Qed.

Lemma same_shop_marks d d' : same_shop d d' -> marks d' = marks d.
Proof. intros [E _]. unfold marks. by rewrite (f_equal db_heads E : db_heads d' = db_heads d). Qed.

Lemma same_shop_remembers d d' : same_shop d d' -> remembers d d'.
Proof. intros H. split; [by rewrite (same_shop_marks _ _ H)|apply H]. Qed.

Lemma known_remembers t p o d d' : remembers d d' -> known t p o d -> known t p o d'.
Proof.
  intros [Hm Hs] [(s & Hin & Hk)|(b & Hb)]; [left; eauto|right]. exists b. red.
  by eapply lookup_weaken.
Qed.

(** No SKU is mapped that was not mapped before, except those the hints map. *)
Definition same_key (m n : SKUMapping) : Prop :=
  sm_tenant m = sm_tenant n /\ sm_platform m = sm_platform n /\ sm_sku m = sm_sku n.
Definition learns (hints : gmap string uuid) (x x' : ImportRows) : Prop :=
  forall m, m ∈ im_skus x' -> (exists n, n ∈ im_skus x /\ same_key m n) \/ is_Some (hints !! sm_sku m).

#[export] Instance learns_preorder hints : PreOrder (learns hints).
Proof.
  split.
  - intros x m Hm. left. by exists m.
  - intros x y z H K m Hm. destruct (K m Hm) as [(n & Hn & K1 & K2 & K3)|]; [|by right].
    destruct (H n Hn) as [(o & Ho & L1 & L2 & L3)|]; [|right; by rewrite K3].
    left. exists o. split; [done|]. split_and!; congruence.
Qed.

Definition grows (hints : gmap string uuid) (s s' : Ext ImportRows) : Prop :=
  on_shop remembers s s' /\ learns hints (ex_rows s) (ex_rows s').

#[export] Instance grows_preorder hints : PreOrder (grows hints).
Proof. split; [by intros s|]. intros s1 s2 s3 [H1 L1] [H2 L2]. split; by etrans. Qed.

(** Nothing but orders entered as seen. *)
Definition idle (s s' : Ext ImportRows) : Prop := on_shop same_shop s s' /\ ex_rows s' = ex_rows s.

#[export] Instance idle_preorder : PreOrder idle.
Proof. split; [by intros s|]. intros s1 s2 s3 [H1 L1] [H2 L2]. split; [by etrans|congruence]. Qed.

Lemma idle_grows hints s s' : idle s s' -> grows hints s s'.
Proof. intros [H E]. split; [by apply same_shop_remembers|]. by rewrite E. Qed.

(** *** Operations *)

Lemma keeps_MarkOrderSeen t p o b : keeps (db_rel same_shop) (MarkOrderSeen t p o b).
Proof.
  unfold MarkOrderSeen. keeps_solve. intros d. destruct (existsb _ _); [done|]. split; [done|]. simpl. intros s Hs.
  apply elem_of_app. by left.
Qed.

Lemma keeps_IsOrderSeen t p o : keeps (db_rel same_shop) (IsOrderSeen t p o).
Proof.
  unfold IsOrderSeen. repeat (apply keeps_bind; [tc_solve|apply keeps_query; tc_solve|intros [?|]]); try (apply keeps_ret; tc_solve).
  apply keeps_bind; [tc_solve|apply keeps_try, keeps_MarkOrderSeen|]. intros ?. apply keeps_ret. tc_solve.
Qed.

Lemma IsOrderSeen_Ok t p o w r w' : IsOrderSeen t p o w = (Ok r, w') ->
  match r with Some _ => known t p o (w_db w) | None => ~ known t p o (w_db w) /\ w_db w' = w_db w end.
Proof.
  unfold IsOrderSeen. intros H. apply bind_Ok in H as (s & w1 & H1 & H). apply query_Ok in H1 as (_ & -> & ->).
  destruct (head _) as [b|] eqn:Eh.
  - minv H. apply head_Some_elem_of in Eh. apply list_elem_of_fmap in Eh as (s & _ & Hs). apply elem_of_select in Hs as [? ?].
    left. eauto.
  - apply bind_Ok in H as (b & w2 & H2 & H). apply query_Ok in H2 as (_ & -> & ->). simpl in *.
    destruct (orphan_bill _ _ _) as [b|] eqn:Eo.
    + apply bind_Ok in H as (? & ? & _ & H). minv H. right. by eapply orphan_bill_Some.
    + minv H. split; [|done]. intros [(s & Hin & Hs)|(b & Hb)]; [|by eapply orphan_bill_None].
      apply head_None in Eh. apply fmap_nil_inv in Eh.
      assert (s ∈ @nil OrderSeenRow) as K; [|by apply elem_of_nil in K]. rewrite <- Eh. by apply elem_of_select.
Qed.

Lemma create_sale_marks req w x w' : CreateSale_Execute req w = (x, w') ->
  match x with
  | Ok _ => exists b, marks (w_db w) !! b = None /\
      marks (w_db w') = <[b := (cs_tenant req, cs_remark req)]> (marks (w_db w)) /\
      db_orders_seen (w_db w') = db_orders_seen (w_db w)
  | _ => w_db w' = w_db w
  end.
Proof.
  intros H. destruct x as [out|e|s]; [|by eapply create_sale_atomic..].
  apply create_sale_run in H as (h & items & N & (_ & _ & Ht & _) & _ & _ & Hr & _). exists (bh_id h).
  unfold marks. rewrite lookup_omap, (nb_fresh _ _ _ _ N), (nb_heads _ _ _ _ N). split; [done|]. split.
  - by erewrite omap_insert_Some by (unfold live_mark; simpl; rewrite Ht, Hr; reflexivity).
  - exact (eq_sym (f_equal db_orders_seen (nb_rest _ _ _ _ N))).
Qed.

Lemma approve_sale_marks req w x w' : ApproveSale_Execute req w = (x, w') ->
  marks (w_db w') = marks (w_db w) /\ db_orders_seen (w_db w') = db_orders_seen (w_db w).
Proof.
  intros H. destruct x as [u|e|s]; [|split; by erewrite approve_sale_atomic..].
  apply approve_sale_cases in H as (_ & r & Hr & [(_ & _ & ->)|(_ & _ & _ & k & r' & ps & ms & A & _)]); [done|].
  split; [|exact (strip_docs_orders _ _ (aa_rest _ _ _ _ _ _ _ _ _ _ _ A))].
  unfold marks. rewrite (aa_row _ _ _ _ _ _ _ _ _ _ _ A). destruct (aa_same _ _ _ _ _ _ _ _ _ _ _ A) as (C & _ & D).
  apply live_row_Some in Hr as (Hr & _). apply core_fields in C as (_ & Et & _ & _ & _ & _ & _ & _ & Em).
  apply map_eq. intros c. rewrite !lookup_omap. destruct (decide (aq_bill req = c)) as [<-|n].
  - rewrite lookup_insert_eq, Hr. simpl. unfold live_mark. by rewrite D, <- Et, <- Em.
  - by rewrite lookup_insert_ne.
Qed.

(** ** The walk *)

(** A run of the shop's own code leaves the import's tables alone. *)
Lemma idle_lift {A} (m : M A) : keeps (db_rel same_shop) m -> keeps idle (lift m).
Proof.
  intros H s. split; [by apply keeps_lift_rel|]. unfold lift. by destruct (m (ex_shop s)).
Qed.
Lemma idle_read {A} (m : M A) : keeps (db_rel eq) m -> keeps idle (lift m).
Proof. intros H. apply idle_lift. eapply keeps_weaken; [|exact H]. by intros d d' ->. Qed.
Lemma idle_ext_query {A} l (f : ImportRows -> A) : keeps idle (ext_query l f).
Proof.
  intros s. split; [apply keeps_ext_query; tc_solve|]. unfold ext_query, ext_statement. by destruct (db_fault _).
Qed.
Lemma idle_GetMapping t p k : keeps idle (GetMapping t p k).
Proof. apply idle_ext_query. Qed.
#[local] Hint Resolve idle_GetMapping idle_ext_query : keeps.

Lemma idle_resolveSKU t p k h : keeps idle (resolveSKU t p k h).
Proof. unfold resolveSKU. keeps_solve. Qed.
Lemma idle_convert_price t e c d x : keeps idle (convert_price t e c d x).
Proof. unfold convert_price, GetRate, GetRate_Execute, GetRateOn. keeps_solve. Qed.
#[local] Hint Resolve idle_resolveSKU idle_convert_price : keeps.
Lemma idle_convert_line t o l : keeps idle (convert_line t o l).
Proof. unfold convert_line. keeps_solve. Qed.
Lemma keeps_mapM_list R `{!PreOrder R} {A B} (f : A -> IM B) l : (forall a, keeps R (f a)) -> keeps R (mapM_list f l).
Proof. intros Hf. induction l as [|a l IH]; simpl; [apply keeps_ret; tc_solve|]. keeps_solve; auto. Qed.
Lemma idle_resolve_lines t p l : keeps idle (resolve_lines t p l).
Proof. induction l as [|r l IH]; simpl; [apply keeps_ret; tc_solve|]. keeps_solve; auto. Qed.
Lemma idle_resolve_row t p h acc r : keeps idle (resolve_row t p h acc r).
Proof. unfold resolve_row. keeps_solve. Qed.
Lemma idle_IsOrderSeen t p o : keeps idle (lift (IsOrderSeen t p o)).
Proof. apply idle_lift, keeps_IsOrderSeen. Qed.
Lemma idle_MarkOrderSeen t p o b : keeps idle (lift (try (MarkOrderSeen t p o b))).
Proof. apply idle_lift, keeps_try, keeps_MarkOrderSeen. Qed.
#[local] Hint Resolve idle_convert_line idle_resolve_lines idle_resolve_row idle_IsOrderSeen idle_MarkOrderSeen : keeps.
Lemma idle_check_oversell t k o r l : keeps idle (check_oversell t k o r l).
Proof.
  unfold check_oversell, AvailableQty. keeps_solve. apply idle_read. unfold GetSnapshot. keeps_solve.
Qed.
Lemma idle_mark_imported t p o out : keeps idle (mark_imported t p o out).
Proof. unfold mark_imported. keeps_solve. Qed.
#[local] Hint Resolve idle_check_oversell idle_mark_imported : keeps.

Lemma keeps_idle_grows hints {A} (m : IM A) : keeps idle m -> keeps (grows hints) m.
Proof. intros H s. apply idle_grows, H. Qed.

(** The one writer of bills. *)
Lemma book_order_run t c k p o d l s x s' : book_order t c k p o d l s = (x, s') ->
  ex_rows s' = ex_rows s /\ db_orders_seen (w_db (ex_shop s')) = db_orders_seen (w_db (ex_shop s)) /\
  ((exists b, marks (w_db (ex_shop s)) !! b = None /\
      marks (w_db (ex_shop s')) = <[b := (t, import_remark p o)]> (marks (w_db (ex_shop s)))) \/
   (marks (w_db (ex_shop s')) = marks (w_db (ex_shop s)) /\ forall a, x <> Ok a)).
Proof.
  unfold book_order, importSaleCreator_Create. intros H. unfold mbind at 1, stm_bind at 1, on_err, lift at 1 in H.
  destruct (CreateSale_Execute _ _) as [y w1] eqn:E1. apply create_sale_marks in E1.
  destruct y as [out|e|m]; simpl in *.
  2,3: injection H as <- <-; simpl; rewrite E1; split_and!; [done..|by right].
  destruct E1 as (b & Hn & Hm & Hs). unfold mbind, stm_bind, lift, try in H. simpl in H.
  unfold importSaleApprover_Approve in H. destruct (ApproveSale_Execute _ w1) as [z w2] eqn:E2.
  apply approve_sale_marks in E2 as [Hm2 Hs2].
  destruct z; simpl in H; injection H as <- <-; simpl; (split_and!; [done|congruence|]); left; exists b; by rewrite Hm2.
Qed.

Lemma book_order_grows hints t c k p o d l : keeps (grows hints) (book_order t c k p o d l).
Proof.
  intros s. destruct (book_order t c k p o d l s) as [x s'] eqn:E. simpl.
  apply book_order_run in E as (Er & Es & D). split; [split|by rewrite Er]; [|by rewrite Es].
  destruct D as [(b & Hn & ->)|[-> _]]; [|done]. by apply insert_subseteq.
Qed.

Lemma upsert_sku_learns hints m x : is_Some (hints !! sm_sku m) -> learns hints x (set_skus x (upsert_sku m (im_skus x))).
Proof.
  intros Hh n. unfold upsert_sku. simpl. destruct (existsb _ _); intros Hn.
  - apply list_elem_of_fmap in Hn as (u & -> & Hu). destruct (of_key _ _ _ u); left; exists u; by split_and!.
  - apply elem_of_app in Hn as [Hn|Hn%list_elem_of_singleton]; [left; by exists n|right; by subst].
Qed.

Lemma learn_mapping_grows hints t p l : keeps (grows hints) (learn_mapping t p hints l).
Proof.
  unfold learn_mapping. destruct (hints !! _) as [q|] eqn:E; [|apply keeps_ret; tc_solve].
  apply keeps_on_err. unfold UpsertMapping.
  do 2 (apply keeps_bind; [tc_solve|apply keeps_idle_grows, idle_read; keeps_solve|intros ?]).
  intros s. unfold ext_update, ext_statement. destruct (db_fault _); (split; [done|]); [by intros m Hm; left; exists m|].
  apply upsert_sku_learns. simpl. by rewrite E.
Qed.
#[local] Hint Resolve book_order_grows learn_mapping_grows : keeps.

Lemma idle_convert_lines t o l : keeps idle (mapM_list (convert_line t o) l).
Proof. apply keeps_mapM_list; [tc_solve|]. intros a. apply idle_convert_line. Qed.
Lemma idle_resolve_rows t p h l acc : keeps idle (foldM (resolve_row t p h) l acc).
Proof. keeps_solve. Qed.
#[local] Hint Resolve idle_convert_lines idle_resolve_rows : keeps.

Lemma import_order_grows req hints r g : keeps (grows hints) (import_order req hints r g).
Proof. unfold import_order. keeps_solve; intros; apply keeps_idle_grows; auto with keeps. Qed.

(** ** What becomes of an order *)

(** A SKU the import cannot place. *)
Definition unplaced (tenant : uuid) (platform : string) (hints : gmap string uuid) (x : ImportRows) (row : OrderRow) : Prop :=
  hints !! or_PlatformSKU row = None /\
  forall m, m ∈ im_skus x -> of_key tenant platform (or_PlatformSKU row) m = false.

(** An order there is nothing left to do for. *)
Definition settled (req : ImportRequest) (hints : gmap string uuid) (s : Ext ImportRows) (g : order_group) : Prop :=
  known (ir_tenant req) (ir_platform req) (og_order g) (w_db (ex_shop s)) \/
  exists row, row ∈ og_rows g /\ unplaced (ir_tenant req) (ir_platform req) hints (ex_rows s) row.

Lemma settled_grows req hints s s' g : grows hints s s' -> settled req hints s g -> settled req hints s' g.
Proof.
  intros [H L] [K|(row & Hin & Hn & Hu)]; [left; by eapply known_remembers|right]. exists row. split; [done|split; [done|]].
  intros m Hm. destruct (L m Hm) as [(n & Hn' & E1 & E2 & E3)|[q Hq]].
  - rewrite <- (Hu n Hn'). unfold of_key. by rewrite E1, E2, E3.
  - unfold of_key. destruct (String.eqb_spec (sm_sku m) (or_PlatformSKU row)) as [E|]; [congruence|]. by rewrite andb_false_r.
Qed.

Lemma resolveSKU_Ok t p row h s r s' : resolveSKU t p (or_PlatformSKU row) h s = (Ok r, s') ->
  r = None <-> unplaced t p h (ex_rows s) row.
Proof.
  unfold resolveSKU, unplaced. destruct (h !! _) as [q|] eqn:E; intros H; [minv H; split; [done|by intros []]|].
  apply bind_Ok in H as (m & s1 & H1 & H). minv H. apply ext_query_Ok in H1 as (_ & -> & _).
  destruct (head _) as [m|] eqn:Eh; simpl; split; try done.
  - intros [_ Hu]. apply head_Some_elem_of, elem_of_select in Eh as [E1 Hin]. by rewrite (Hu _ Hin) in E1.
  - intros _. split; [done|]. intros m Hm. apply head_None in Eh. destruct (of_key _ _ _ m) eqn:Ek; [|done].
    assert (m ∈ @nil SKUMapping) as K; [|by apply elem_of_nil in K]. rewrite <- Eh. by apply elem_of_select.
Qed.

Lemma resolve_rows_Ok t p h l acc s acc' s' : foldM (resolve_row t p h) l acc s = (Ok acc', s') ->
  acc'.1.2 = true <-> acc.1.2 = true \/ exists row, row ∈ l /\ unplaced t p h (ex_rows s) row.
Proof.
  revert acc s. induction l as [|row l IH]; intros acc s H; cbn [foldM] in H.
  { minv H. split; [by left|]. intros [?|(row & Hr & _)]; [done|by apply elem_of_nil in Hr]. }
  apply bind_Ok in H as (a1 & s1 & H1 & H). apply IH in H. rewrite H. clear H IH.
  pose proof (idle_resolve_row t p h acc row s) as [_ Ei]. rewrite H1 in Ei. simpl in Ei. rewrite Ei. clear Ei.
  unfold resolve_row in H1. apply bind_Ok in H1 as (r & s2 & H1 & H). apply on_err_Ok in H1. apply resolveSKU_Ok in H1. minv H.
  setoid_rewrite elem_of_cons. destruct r as [q|]; simpl; split.
  - intros [?|(x & ? & ?)]; eauto.
  - intros [?|(x & [->|?] & Hx)]; [by left|by apply H1 in Hx|eauto].
  - intros _. right. exists row. split; [by left|by apply H1].
  - by left.
Qed.

Lemma import_order_settles req hints r g s r' s' : ir_dry_run req = false ->
  import_order req hints r g s = (Ok r', s') -> settled req hints s' g.
Proof.
  intros Hd H. pose proof (import_order_grows req hints r g s) as G. rewrite H in G. simpl in G.
  unfold import_order in H. rewrite Hd in H. apply bind_Ok in H as (seen & s1 & H1 & H). apply on_err_Ok in H1.
  apply lift_Ok in H1 as (w1 & H1 & ->). apply IsOrderSeen_Ok in H1.
  destruct seen as [b|]; [eapply settled_grows; [exact G|by left]|clear H1].
  apply bind_Ok in H as (acc & s2 & H2 & H).
  pose proof (keeps_run _ _ _ _ _ (idle_resolve_rows _ _ _ _ _) H2) as [_ E2]. apply resolve_rows_Ok in H2. simpl in *.
  destruct acc.1.2 eqn:Eu.
  { minv H. destruct H2 as [[|(row & Hr & Hu)] _]; [done|done|]. right. exists row. by rewrite E2. }
  apply bind_Ok in H as (lines & s3 & H3 & H). apply bind_Ok in H as ([out e] & s4 & H4 & H).
  apply book_order_run in H4 as (_ & _ & [(b & _ & Hb)|[_ Hx]]); [|by destruct (Hx _ eq_refl)].
  assert (settled req hints s4 g) as K.
  { left. right. exists b. red. rewrite Hb. by rewrite lookup_insert_eq. }
  eapply settled_grows; [|exact K]. simpl in H. destruct e as [e|]; [by minv H|].
  refine (keeps_run (grows hints) _ _ _ _ _ H). keeps_solve; intros; apply keeps_idle_grows; auto with keeps.
Qed.

(** Nothing happens for an order there is nothing left to do for. *)
Lemma import_order_idle req hints r g s : settled req hints s g -> idle s (import_order req hints r g s).2.
Proof.
  intros K. unfold import_order. unfold mbind at 1, stm_bind at 1, on_err.
  pose proof (idle_IsOrderSeen (ir_tenant req) (ir_platform req) (og_order g) s) as I1.
  destruct (lift (IsOrderSeen _ _ _) s) as [[seen|e|m] s1] eqn:E1; simpl in *; [|exact I1..].
  destruct seen as [b|]; [exact I1|]. apply lift_Ok in E1 as (w1 & E1 & ->). apply IsOrderSeen_Ok in E1 as [Hk Ew].
  destruct K as [K|(row & Hr & Hu)]; [done|]. etrans; [exact I1|].
  unfold mbind at 1, stm_bind at 1.
  pose proof (idle_resolve_rows (ir_tenant req) (ir_platform req) hints (og_rows g) ((ip_unknown r, false), []) (mkExt w1 (ex_rows s))) as I2.
  destruct (foldM _ _ _ _) as [[acc|e|m] s2] eqn:E2; simpl in *; [|exact I2..].
  apply resolve_rows_Ok in E2. simpl in E2. destruct E2 as [_ E2]. rewrite E2 by (right; eauto). exact I2.
Qed.

Lemma import_order_nothing_new req hints r g s r' s' : settled req hints s g ->
  import_order req hints r g s = (Ok r', s') -> ip_imported r' = ip_imported r.
Proof.
  intros K H. unfold import_order in H. apply bind_Ok in H as (seen & s1 & H1 & H). apply on_err_Ok in H1.
  apply lift_Ok in H1 as (w1 & H1 & ->). apply IsOrderSeen_Ok in H1.
  destruct seen as [b|]; [by minv H|]. destruct H1 as [Hk _]. destruct K as [K|(row & Hr & Hu)]; [done|].
  apply bind_Ok in H as (acc & s2 & H2 & H). apply resolve_rows_Ok in H2. simpl in H2. destruct H2 as [_ E2].
  rewrite E2 in H by (right; eauto). by minv H.
Qed.

Lemma import_orders_settle req hints gs r s r' s' : ir_dry_run req = false ->
  foldM (import_order req hints) gs r s = (Ok r', s') -> grows hints s s' /\ forall g, g ∈ gs -> settled req hints s' g.
Proof.
  intros Hd. revert r s. induction gs as [|g gs IH]; intros r s H; cbn [foldM] in H.
  { minv H. split; [done|]. by intros g ?%elem_of_nil. }
  apply bind_Ok in H as (r1 & s1 & H1 & H). apply IH in H as [G H].
  pose proof (keeps_run _ _ _ _ _ (import_order_grows _ _ _ _) H1) as G1. split; [by etrans|].
  intros x [->|Hx]%elem_of_cons; [|by apply H]. eapply settled_grows; [exact G|]. by eapply import_order_settles.
Qed.

Lemma import_orders_idle req hints gs r s : (forall g, g ∈ gs -> settled req hints s g) ->
  idle s (foldM (import_order req hints) gs r s).2 /\
  forall r' s', foldM (import_order req hints) gs r s = (Ok r', s') -> ip_imported r' = ip_imported r.
Proof.
  revert r s. induction gs as [|g gs IH]; intros r s Hg; cbn [foldM].
  { split; [done|]. intros r' s' H. by minv H. }
  pose proof (import_order_idle req hints r g s (Hg g ltac:(by left))) as I.
  unfold mbind, stm_bind. destruct (import_order req hints r g s) as [[r1|e|m] s1] eqn:E; simpl in *; [|by split..].
  destruct (IH r1 s1) as [I2 E2].
  { intros x Hx. eapply settled_grows; [apply idle_grows, I|]. apply Hg. by right. }
  split; [by etrans|]. intros r' s' H. rewrite (E2 _ _ H). eapply import_order_nothing_new; [|exact E]. apply Hg. by left.
Qed.

Lemma idle_BelongsToTenant t k : keeps idle (lift (BelongsToTenant t k)).
Proof. apply idle_read. unfold BelongsToTenant. keeps_solve. Qed.
#[local] Hint Resolve idle_BelongsToTenant : keeps.

(** Execute, behind its checks. *)
Lemma import_execute_run req s r s1 : ImportOrders_Execute req s = (Ok r, s1) ->
  exists rows s0, parseCSV (ir_platform req) (ir_csv req) = inr rows /\ idle s s0 /\
    foldM (import_order req (hint_map (ir_hints req))) (group_rows rows) (mkImportResult [] [] [] []) s0 = (Ok r, s1).
Proof.
  unfold ImportOrders_Execute. intros H. minv H.
  do 2 eexists. split_and!; [eassumption| |eassumption]. eapply (keeps_run idle); [|eassumption]. apply idle_BelongsToTenant.
Qed.

(** C22: once a file of orders has been uploaded and not just previewed, uploading it again books nothing,
    provided that in between no bill lost its import mark, no order entered as seen was forgotten and
    no SKU was mapped that was not, except those the upload itself maps (an order left aside for want
    of a mapping is booked once its SKU has one): even when the second upload fails on the way, the
    database differs at most in orders entered as seen, the mappings are untouched, and no order is
    reported imported. *)
Theorem import_twice_is_once req s r s1 s2 x s3 : ir_dry_run req = false ->
  ImportOrders_Execute req s = (Ok r, s1) -> grows (hint_map (ir_hints req)) s1 s2 ->
  ImportOrders_Execute req s2 = (x, s3) ->
  idle s2 s3 /\ forall r', x = Ok r' -> ip_imported r' = [].
Proof.
  intros Hd H1 G H2. apply import_execute_run in H1 as (rows & s0 & Hp & I0 & H1).
  apply import_orders_settle in H1 as [_ K]; [|done].
  assert (forall s', idle s2 s' -> forall g, g ∈ group_rows rows -> settled req (hint_map (ir_hints req)) s' g) as K'.
  { intros s' I g Hg. eapply settled_grows; [apply idle_grows, I|]. eapply settled_grows; [exact G|]. by apply K. }
  split.
  - revert H2. unfold ImportOrders_Execute. rewrite Hp. intros H2.
    assert (s3 = (ImportOrders_Execute req s2).2) as -> by (unfold ImportOrders_Execute; by rewrite Hp, H2).
    unfold ImportOrders_Execute. rewrite Hp.
    do 5 (apply bind_at; [tc_solve|apply keeps_guard_err; tc_solve|intros [] ? [_ <-]%guard_err_Ok]).
    apply bind_at; [tc_solve|apply keeps_on_err, idle_BelongsToTenant|intros [] t It].
    apply import_orders_idle, K'. eapply keeps_run, It. apply keeps_on_err, idle_BelongsToTenant.
  - intros r' ->. apply import_execute_run in H2 as (rows' & s' & Hp' & I & H2).
    assert (rows' = rows) as -> by congruence. eapply import_orders_idle in H2; [done|]. by apply K'.
Qed.
End import_laws.

(** ** Examples *)
Section examples.
#[local] Existing Instances SDecOps SDecLaws.
#[local] Open Scope string_scope.

Definition ex_newline : string := String "010"%char EmptyString.
(** Two orders of a shop: tea of which two pieces are on the shelf at least, and a SKU nobody
    has mapped. *)
Definition ex_export : string :=
  "Name,Lineitem sku,Lineitem quantity,Lineitem price,Currency,Created at" ++ ex_newline ++
  "#1001,TEA,2,5,CNY,2024-01-02" ++ ex_newline ++
  "#1002,CUP,1,3,CNY,2024-01-03" ++ ex_newline.
Definition ex_import_request : ImportRequest := {|
  ir_tenant := ex_tenant; ir_creator := ex_user; ir_warehouse := ex_wh; ir_platform := PlatformShopify;
  ir_csv := ex_export; ir_hints := [mkSKUHint "TEA" ex_p1]; ir_dry_run := false |}.
Definition ex_import_shop : Ext ImportRows := mkExt ex_shelf (mkImportRows [] [] [] []).

Definition ex_uploaded : res error ImportResult * Ext ImportRows :=
  ImportOrders_Execute (calc := WACCalculator) ex_import_request ex_import_shop.
Definition ex_uploaded_again : res error ImportResult * Ext ImportRows :=
  ImportOrders_Execute (calc := WACCalculator) ex_import_request ex_uploaded.2.

(** The tea is booked; the cups are reported as unknown. *)
Example ex_uploaded_tea :
  match ex_uploaded.1 with
  | Ok r => ((fun o => io_order o) <$> ip_imported r, (fun o => so_order o) <$> ip_skipped r, us_sku <$> ip_unknown r)
  | _ => ([], [], [])
  end = (["#1001"], ["#1002"], ["CUP"]).
Proof. vm_compute. reflexivity. Qed.

Lemma import_twice_is_once_witness :
  exists r r', ex_uploaded.1 = Ok r /\ ex_uploaded_again.1 = Ok r' /\ ip_imported r' = [] /\ idle ex_uploaded.2 ex_uploaded_again.2.
Proof.
  destruct (ext_ok_run ex_uploaded) as (r & s1 & H1); [vm_compute; reflexivity|].
  destruct (ext_ok_run ex_uploaded_again) as (r' & s2 & H2); [vm_compute; reflexivity|].
  exists r, r'. rewrite H1, H2. split; [done|]. split; [done|]. unfold ex_uploaded_again in H2. rewrite H1 in H2.
  destruct (import_twice_is_once (calc := WACCalculator) ex_import_request ex_import_shop r s1 s1 (Ok r') s2 eq_refl H1
    ltac:(reflexivity) H2) as [I N].
  split; [by apply N|exact I].
Defined.
End examples.
