(* ===== verification/ImportOnce.v ===== *)
(** One order, one bill; one cancellation, one reversal.

    Uploads, single orders, cancellations and refunds arrive in any order and as often as the
    platform likes, and the shop does its own work in between.  [once] says that no two live
    bills carry the mark of the same order; every request keeps it, because an order is looked up
    before it is booked and because the bills of cancellations and refunds carry marks of their
    own. *)
From S2P Require Import Prelude GoStrings Rounding Decimal SDec Types StockDomain BillDomain GoTime Store StockRepo StockCalc StockFIFO StockRecord StockAdjust BillRepo BillRows BillDraft BillApprove BillReturn ReturnCap BillLife Concrete ExtStore Currency Csv Importing ImportLaws.
From stdpp Require Import base tactics strings gmap list pretty.
From Stdlib Require Import ZArith QArith Lqa Lia Ascii.

Section import_once.
Context {ops : DecimalOps} {laws : DecimalLaws ops} {env : Env} {env_laws : EnvLaws env} {wiring : Wiring}
  {calc : InventoryCalculator} {CL : CalculatorLaws calc}.

(** ** New marks *)

Definition mark : Type := uuid * string.

(** Every mark of a live bill that is new is one of [P]. *)
Definition only (P : mark -> Prop) (d d' : DB) : Prop :=
  forall b m, marks d' !! b = Some m -> marks d !! b = Some m \/ P m.

#[export] Instance only_preorder P : PreOrder (only P).
Proof. split; [intros d b m; by left|]. intros d1 d2 d3 H1 H2 b m [H|H]%H2; [by apply H1|by right]. Qed.

Lemma only_same P d d' : marks d' = marks d -> only P d d'.
Proof. intros E b m. rewrite E. by left. Qed.

Lemma quiet_only P d d' : quiet d d' -> only P d d'.
Proof.
  intros Q b m (r' & Hr' & Hm)%marks_lookup. left. destruct (quiet_head_back _ _ _ _ Q Hr') as (r & Hr & F & D & _).
  apply marks_lookup. exists r. split; [done|]. unfold live_mark in *. rewrite <- D.
  pose proof (f_equal bh_tenant F) as Et. pose proof (f_equal bh_remark F) as Er. simpl in Et, Er. by rewrite <- Et, <- Er.
Qed.

Lemma keeps_quiet_only P {A} (m : M A) : keeps (db_rel quiet) m -> keeps (db_rel (only P)) m.
Proof. apply keeps_weaken, quiet_only. Qed.

Lemma marks_put b r r' d : db_heads d !! b = Some r -> live_mark r' = live_mark r -> marks (put_head b r' d) = marks d.
Proof.
  intros Hr E. unfold marks. simpl. apply map_eq. intros c. rewrite !lookup_omap.
  destruct (decide (b = c)) as [<-|n]; [|by rewrite lookup_insert_ne]. rewrite lookup_insert_eq, Hr. exact E.
Qed.

Lemma UpdateBillStatus_only P t b s meta : keeps (db_rel (only P)) (UpdateBillStatus t b s meta).
Proof.
  unfold UpdateBillStatus. keeps_solve. intros d. unfold update_row.
  destruct (live_row t b d) as [r|] eqn:E; cbn [snd]; [|reflexivity]. apply live_row_Some in E as (E & _).
  apply only_same. eapply marks_put; [exact E|]. unfold live_mark. simpl. by destruct meta as [[[? ?]|] [?|]].
Qed.

Lemma CreateBill_only (P : mark -> Prop) h items : P (bh_tenant h, bh_remark h) -> keeps (db_rel (only P)) (CreateBill h items).
Proof.
  intros HP. unfold CreateBill. apply keeps_bind; [tc_solve| |intros _; unfold insertItems; keeps_solve; intros d d' H; destruct (existsb _ _); [done|by injection H as <-; apply only_same]]. keeps_solve.
  intros d d' H. destruct (head_checks _); [done|]. destruct (head_keys h d) eqn:E; [done|]. injection H as <-.
  intros b m (r & Hr & Hm)%marks_lookup. simpl in Hr. destruct (decide (bh_id h = b)) as [<-|n].
  - rewrite lookup_insert_eq in Hr. injection Hr as <-. injection Hm as <-. by right.
  - rewrite lookup_insert_ne in Hr by done. left. apply marks_lookup. eauto.
Qed.

#[local] Hint Resolve quiet_NextBillNo quiet_SetLinkBill quiet_SetLinkItems quiet_return_line quiet_already_approved
  quiet_resolveApprovalWarehouse quiet_resolveOriginBill quiet_remainingBase quiet_newStrictCheck quiet_approve_return_line : keeps.

Ltac only_walk := repeat first
  [ solve [apply keeps_quiet_only; keeps_solve]
  | apply UpdateBillStatus_only
  | apply CreateBill_only; simpl
  | apply keeps_WithTx
  | apply keeps_on_err
  | apply keeps_bind; [tc_solve| |intros]
  | match goal with |- keeps _ (match ?x with _ => _ end) => destruct x end ].

(** A return carries the remark it is asked to carry. *)
Lemma CreateReturn_only (P : mark -> Prop) req : P (cr_tenant req, cr_remark req) -> keeps (db_rel (only P)) (CreateReturn_Execute req).
Proof. intros HP. unfold CreateReturn_Execute. only_walk; [tc_solve|exact HP]. Qed.

Lemma ApproveReturn_only P req : keeps (db_rel (only P)) (ApproveReturn_Execute req).
Proof. unfold ApproveReturn_Execute, approve_return_body. only_walk; tc_solve. Qed.

(** ** One bill per order *)

Definition imported (m : mark) : Prop := exists platform order, m.2 = import_remark platform order.

(** No two live bills carry the mark of the same order. *)
Definition once (d : DB) : Prop :=
  forall b b' m, marks d !! b = Some m -> marks d !! b' = Some m -> imported m -> b = b'.

(** What the rest of the shop does: no bill gets the mark of an order. *)
Abbreviation elsewhere := (only (fun m => ~ imported m)).

Lemma elsewhere_once d d' : elsewhere d d' -> once d -> once d'.
Proof. intros H O b b' m Hb Hb' Hi. apply H in Hb as [Hb|?]; [|done]. apply H in Hb' as [Hb'|?]; [|done]. by eapply O. Qed.

Definition once_kept (s s' : Ext ImportRows) : Prop := once (w_db (ex_shop s)) -> once (w_db (ex_shop s')).
#[export] Instance once_kept_preorder : PreOrder once_kept.
Proof. split; [intros s O; exact O|]. intros s1 s2 s3 H1 H2 O. apply H2, H1, O. Qed.

Lemma once_elsewhere {A} (m : IM A) : keeps (on_shop elsewhere) m -> keeps once_kept m.
Proof. intros H s. exact (elsewhere_once _ _ (H s)). Qed.
Lemma elsewhere_same_shop {A} (m : IM A) : keeps (on_shop same_shop) m -> keeps (on_shop elsewhere) m.
Proof. intros H s. apply only_same, same_shop_marks, H. Qed.
Lemma calm_idle {A} (m : IM A) : keeps idle m -> keeps (on_shop same_shop) m.
Proof. intros H s. apply H. Qed.
Lemma calm_once {A} (m : IM A) : keeps (on_shop same_shop) m -> keeps once_kept m.
Proof. intros H. by apply once_elsewhere, elsewhere_same_shop. Qed.
Lemma idle_once {A} (m : IM A) : keeps idle m -> keeps once_kept m.
Proof. intros H. by apply calm_once, calm_idle. Qed.

Lemma calm_learn_mapping t p h l : keeps (on_shop same_shop) (learn_mapping t p h l).
Proof.
  unfold learn_mapping, UpsertMapping. destruct (h !! _); [|apply keeps_ret; tc_solve].
  apply keeps_on_err. do 2 (apply keeps_bind; [tc_solve|apply calm_idle, idle_read; keeps_solve|intros ?]).
  apply keeps_ext_update. tc_solve.
Qed.

(** Steps towards booking an order that has no bill. *)
Definition booking (t : uuid) (remark : string) {A} (m : IM A) : Prop :=
  forall s, once (w_db (ex_shop s)) -> (forall b, marks (w_db (ex_shop s)) !! b <> Some (t, remark)) ->
  once (w_db (ex_shop (m s).2)).

Lemma booking_of t r {A} (m : IM A) : keeps once_kept m -> booking t r m.
Proof. intros H s O _. by apply H. Qed.

Lemma booking_bind t r {A B} (m : IM A) (k : A -> IM B) :
  keeps (on_shop same_shop) m -> (forall a, booking t r (k a)) -> booking t r (m ≫= k).
Proof.
  intros Hm Hk s O N. unfold mbind, stm_bind. pose proof (Hm s) as E. apply same_shop_marks in E.
  destruct (m s) as [[a|e|x] s1]; simpl in *; [apply Hk| |]; unfold once; by rewrite E.
Qed.

Lemma booking_book t c k p o d l {A} (f : CreateDraftOutput * option error -> IM A) :
  (forall a, keeps once_kept (f a)) -> booking t (import_remark p o) (book_order t c k p o d l ≫= f).
Proof.
  intros Hf s O N. unfold mbind, stm_bind. destruct (book_order _ _ _ _ _ _ _ s) as [x s1] eqn:E.
  apply book_order_run in E as (_ & _ & D).
  assert (once (w_db (ex_shop s1))) as O1.
  { destruct D as [(b & _ & Hm)|[Hm _]]; [|unfold once; by rewrite Hm].
    intros c1 c2 m. rewrite Hm. destruct (decide (b = c1)) as [<-|], (decide (b = c2)) as [<-|];
      rewrite ?lookup_insert_eq, ?lookup_insert_ne by done; [done|..|apply O].
    - intros [= <-] H. by apply N in H.
    - intros H [= <-]. by apply N in H. }
  destruct x; simpl; [by apply Hf|done..].
Qed.

(** The lookup comes first. *)
Lemma looked_up_once t p o f {A} (k : option uuid -> IM A) :
  (forall b, keeps once_kept (k (Some b))) -> booking t (import_remark p o) (k None) ->
  keeps once_kept (on_err f (lift (IsOrderSeen t p o)) ≫= k).
Proof.
  intros HS HN s O. pose proof (idle_once _ (idle_IsOrderSeen t p o) s O) as O1. unfold mbind, stm_bind, on_err.
  destruct (lift (IsOrderSeen t p o) s) as [[seen|e|m] s1] eqn:E; simpl in *; [|exact O1..].
  destruct seen as [b|]; [by apply HS|]. apply lift_Ok in E as (w1 & E & ->). apply IsOrderSeen_Ok in E as [Hk Ew].
  simpl in *. apply HN; [exact O1|]. simpl. rewrite Ew. intros b Hb. apply Hk. right. by exists b.
Qed.

#[local] Hint Resolve idle_IsOrderSeen idle_MarkOrderSeen idle_resolve_lines idle_resolve_rows idle_resolve_row idle_convert_lines
  idle_mark_imported idle_check_oversell idle_resolveSKU idle_convert_price idle_ext_query idle_BelongsToTenant : keeps.

Lemma import_order_once req hints r g : keeps once_kept (import_order req hints r g).
Proof.
  unfold import_order. apply looked_up_once; [intros b; apply keeps_ret; tc_solve|].
  apply booking_bind; [apply calm_idle; auto with keeps|intros acc]. destruct acc.1.2; [apply booking_of, keeps_ret; tc_solve|].
  apply booking_bind; [apply calm_idle; auto with keeps|intros lines].
  destruct (ir_dry_run req); [apply booking_of, idle_once; keeps_solve|].
  apply booking_book. intros [out [e|]]; [apply keeps_ret; tc_solve|]. apply calm_once.
  apply keeps_bind; [tc_solve|apply calm_idle; auto with keeps|intros o].
  apply keeps_bind; [tc_solve| |intros _; apply keeps_ret; tc_solve]. destruct (is_none _); [|apply keeps_ret; tc_solve].
  apply keeps_mapM_; [tc_solve|]. intros x. apply calm_learn_mapping.
Qed.

Lemma ingestOneOrder_once t c k p o rows : keeps once_kept (ingestOneOrder t c k p o rows).
Proof.
  unfold ingestOneOrder. apply looked_up_once; [intros b; apply keeps_ret; tc_solve|].
  apply booking_bind; [apply calm_idle; auto with keeps|intros [sku|l]]; [apply booking_of, keeps_ret; tc_solve|].
  apply booking_bind; [apply calm_idle; auto with keeps|intros lines].
  apply booking_book. intros [out [e|]]; [apply keeps_ret; tc_solve|]. apply idle_once. keeps_solve.
Qed.

Lemma cancel_not_imported t p o sale : ~ imported (t, cancel_remark p o sale).
Proof. by intros (p' & o' & H). Qed.
Lemma refund_not_imported t p o r : ~ imported (t, refund_bill_remark p o r).
Proof. by intros (p' & o' & H). Qed.

#[local] Hint Resolve quiet_baseFactor quiet_returnedBase : keeps.
Lemma quiet_cap_line a x : keeps (db_rel quiet) (cap_line a x).
Proof. unfold cap_line. keeps_solve. Qed.
Lemma quiet_clone_line a x : keeps (db_rel quiet) (clone_line a x).
Proof. unfold clone_line. keeps_solve. Qed.
#[local] Hint Resolve quiet_cap_line quiet_clone_line : keeps.
Lemma quiet_CapToRemaining t r l : keeps (db_rel quiet) (CapToRemaining t r l).
Proof. unfold CapToRemaining. keeps_solve. Qed.
Lemma quiet_CloneOriginal t b : keeps (db_rel quiet) (CloneOriginal t b).
Proof. unfold CloneOriginal. keeps_solve. Qed.
#[local] Hint Resolve quiet_CapToRemaining quiet_CloneOriginal : keeps.

Lemma importReturnCreator_only (P : mark -> Prop) t c k d r l : P (t, r) ->
  keeps (db_rel (only P)) (importReturnCreator_Create t c k d r l).
Proof.
  intros HP. unfold importReturnCreator_Create. apply keeps_bind; [tc_solve| |intros x; by apply CreateReturn_only].
  apply keeps_quiet_only. unfold cloned_lines. destruct l; keeps_solve.
Qed.
Lemma importReturnApprover_only P t b c : keeps (db_rel (only P)) (importReturnApprover_Approve t b c).
Proof. apply keeps_on_err, ApproveReturn_only. Qed.

(** ** Requests *)

Inductive delivery :=
  | Upload (req : ImportRequest)
  | SingleOrder (req : SingleOrderRequest)
  | Cancellation (req : CancelRequest)
  | Refund (req : RefundRequest).
Definition deliver (x : delivery) : IM unit :=
  match x with
  | Upload req => ImportOrders_Execute req;; mret tt
  | SingleOrder req => IngestSingleOrder req;; mret tt
  | Cancellation req => IngestCancelOrder req;; mret tt
  | Refund req => IngestRefund req;; mret tt
  end.

Lemma Upload_once req : keeps once_kept (ImportOrders_Execute req).
Proof.
  unfold ImportOrders_Execute. do 5 (apply keeps_bind; [tc_solve|apply keeps_guard_err; tc_solve|intros _]).
  apply keeps_bind; [tc_solve|apply idle_once; keeps_solve|intros _].
  apply keeps_bind; [tc_solve|apply idle_once; keeps_solve|intros rows].
  apply keeps_foldM; [tc_solve|]. intros r g. apply import_order_once.
Qed.

Lemma SingleOrder_once req : keeps once_kept (IngestSingleOrder req).
Proof.
  unfold IngestSingleOrder. do 6 (apply keeps_bind; [tc_solve|apply keeps_guard_err; tc_solve|intros _]).
  apply keeps_bind; [tc_solve|apply idle_once; unfold IsCancelSeen; keeps_solve|intros [x|]]; [apply keeps_ret; tc_solve|].
  apply keeps_bind; [tc_solve|apply ingestOneOrder_once|intros out]. apply idle_once. destruct out; keeps_solve.
Qed.

Lemma elsewhere_lift {A} (m : M A) : keeps (db_rel elsewhere) m -> keeps (on_shop elsewhere) (lift m : IM A).
Proof. apply keeps_lift_rel. Qed.
Lemma elsewhere_idle {A} (m : IM A) : keeps idle m -> keeps (on_shop elsewhere) m.
Proof. intros H. by apply elsewhere_same_shop, calm_idle. Qed.
Lemma elsewhere_marked_cancel t p o a b : keeps (on_shop elsewhere) (MarkCancelSeen t p o a b).
Proof. unfold MarkCancelSeen. do 2 (apply keeps_bind; [tc_solve|apply elsewhere_idle, idle_read; keeps_solve|intros _]). apply keeps_ext_update. tc_solve. Qed.
Lemma elsewhere_marked_refund t p o r b : keeps (on_shop elsewhere) (MarkRefundSeen t p o r b).
Proof. unfold MarkRefundSeen. do 2 (apply keeps_bind; [tc_solve|apply elsewhere_idle, idle_read; keeps_solve|intros _]). apply keeps_ext_update. tc_solve. Qed.
Lemma elsewhere_known_bill_no t b : keeps (on_shop elsewhere) (known_bill_no t b).
Proof. apply elsewhere_idle. unfold known_bill_no. keeps_solve. apply idle_read. unfold ReversalBillNo. keeps_solve. Qed.
Lemma elsewhere_return t c k d r l : ~ imported (t, r) -> keeps (on_shop elsewhere) (lift (try (importReturnCreator_Create t c k d r l)) : IM _).
Proof. intros H. by apply elsewhere_lift, keeps_try, importReturnCreator_only. Qed.
Lemma elsewhere_approve t b c : keeps (on_shop elsewhere) (lift (try (importReturnApprover_Approve t b c)) : IM _).
Proof. apply elsewhere_lift, keeps_try, importReturnApprover_only. Qed.
#[local] Hint Resolve elsewhere_marked_cancel elsewhere_marked_refund elsewhere_known_bill_no elsewhere_return elsewhere_approve
  cancel_not_imported refund_not_imported : keeps.

Lemma elsewhere_now : keeps (on_shop elsewhere) (lift time_now : IM _).
Proof. apply elsewhere_idle, idle_read. keeps_solve. Qed.
Lemma elsewhere_IsOrderSeen t p o : keeps (on_shop elsewhere) (lift (IsOrderSeen t p o) : IM _).
Proof. apply elsewhere_idle, idle_IsOrderSeen. Qed.
Lemma elsewhere_refund_line req acc l : keeps (on_shop elsewhere) (refund_line req acc l).
Proof. apply elsewhere_idle. unfold refund_line. keeps_solve. Qed.
#[local] Hint Resolve elsewhere_now elsewhere_IsOrderSeen elsewhere_refund_line : keeps.

Lemma Cancellation_elsewhere req : keeps (on_shop elsewhere) (IngestCancelOrder req).
Proof. unfold IngestCancelOrder, reverse_order, cancelNothingToReverse, IsCancelSeen. keeps_solve. Qed.
Lemma Refund_elsewhere req : keeps (on_shop elsewhere) (IngestRefund req).
Proof. unfold IngestRefund, book_refund, refundNothingToReverse, IsRefundSeen. keeps_solve. Qed.

(** What can happen to a shop with an import: requests, one after another, and the shop's own
    work in between. *)
Inductive history : Ext ImportRows -> Ext ImportRows -> Prop :=
  | history_start s : history s s
  | history_request s s1 x : history s s1 -> history s (deliver x s1).2
  | history_elsewhere s s1 s2 : history s s1 -> on_shop elsewhere s1 s2 -> history s s2.

(** C21: one order, one bill: whatever uploads, single orders, cancellations and refunds arrive,
    however often each is repeated, and however any of them fails on the way (a draft that could
    not be approved, an order that could not be entered as seen), no two live bills are ever
    those of the same order. *)
Theorem one_bill_per_order s s' : once (w_db (ex_shop s)) -> history s s' -> once (w_db (ex_shop s')).
Proof.
  intros O H. induction H as [s|s s1 x H IH|s s1 s2 H IH E]; [done| |by eapply elsewhere_once; [exact E|apply IH]].
  assert (keeps once_kept (deliver x)) as K; [|by apply K, IH].
  destruct x; simpl; (apply keeps_bind; [tc_solve| |intros ?; apply keeps_ret; tc_solve]).
  - apply Upload_once.
  - apply SingleOrder_once.
  - apply once_elsewhere, Cancellation_elsewhere.
  - apply once_elsewhere, Refund_elsewhere.
Qed.

(** ** A cancellation sent again *)

(** What is on record about the cancellation of an order: the original bill and its reversal. *)
Definition cancel_entry (req : CancelRequest) (x : ImportRows) : option (uuid * uuid) :=
  head ((fun c => (cn_original c, cn_reversal c)) <$> select (cancel_of (cq_tenant req) (cq_platform req) (cq_order req)) (im_cancels x)).

Lemma IsCancelSeen_Ok req s a s' : IsCancelSeen (cq_tenant req) (cq_platform req) (cq_order req) s = (Ok a, s') ->
  a = cancel_entry req (ex_rows s) /\ ex_rows s' = ex_rows s.
Proof. intros H. apply ext_query_Ok in H as (_ & -> & ->). by split. Qed.

Lemma lift_rows {A} (m : M A) (s : Ext ImportRows) x s' : lift m s = (x, s') -> ex_rows s' = ex_rows s.
Proof. unfold lift. destruct (m (ex_shop s)). by intros [= _ <-]. Qed.

Lemma mark_cancel_entry req s a b u s' : MarkCancelSeen (cq_tenant req) (cq_platform req) (cq_order req) a b s = (Ok u, s') ->
  cancel_entry req (ex_rows s) = None -> cancel_entry req (ex_rows s') = Some (a, b).
Proof.
  unfold MarkCancelSeen. intros H N. apply bind_Ok in H as (u1 & s1 & H1 & H). apply bind_Ok in H as (u2 & s2 & H2 & H).
  apply lift_rows in H1, H2. rewrite <- H1, <- H2 in N. apply ext_update_Ok in H as (_ & ->). simpl.
  unfold cancel_entry in *. apply head_None in N. apply fmap_nil_inv in N. unfold mark_cancel. simpl.
  rewrite (select_nil_existsb _ _ N). simpl. unfold select in *. rewrite List.filter_app, N. simpl.
  unfold cancel_of. simpl. by rewrite N.eqb_refl, !String.eqb_refl.
Qed.

Lemma CreateReturn_id req w out w' : CreateReturn_Execute req w = (Ok out, w') -> co_bill out <> uuid_nil.
Proof.
  unfold CreateReturn_Execute. intros H. mguard H as G1. mguard H as G2. mguard H as G3.
  apply bind_Ok in H as (d & w1 & _ & H). apply bind_Ok in H as ([[sub items] links] & w2 & _ & H).
  apply bind_Ok in H as (? & w3 & _ & H). apply bind_Ok in H as (b & w4 & Hb & H). apply bind_Ok in H as (now & w5 & _ & H).
  apply uuid_new_Ok in Hb as [-> _]. apply WithTx_Ok in H as (w6 & H & _).
  apply bind_Ok in H as (no & w7 & _ & H). apply bind_Ok in H as (u & w8 & _ & H). apply bind_Ok in H as (v & w9 & _ & H).
  minv H. apply uuid_at_fresh.
Qed.

(** Only time has passed. *)
Definition untouched (s s' : Ext ImportRows) : Prop := w_db (ex_shop s') = w_db (ex_shop s) /\ ex_rows s' = ex_rows s.
#[export] Instance untouched_preorder : PreOrder untouched.
Proof. split; [by intros s|]. intros s1 s2 s3 [] []. split; congruence. Qed.

Lemma untouched_lift {A} (m : M A) : keeps (db_rel eq) m -> keeps untouched (lift m).
Proof. intros H s. destruct (H (ex_shop s)) as [E _]. unfold untouched, lift. by destruct (m (ex_shop s)). Qed.
Lemma untouched_query {A} l (f : ImportRows -> A) : keeps untouched (ext_query l f).
Proof. intros s. unfold untouched, ext_query, ext_statement. by destruct (db_fault _). Qed.
Lemma untouched_known_bill_no t b : keeps untouched (known_bill_no t b).
Proof. unfold known_bill_no, ReversalBillNo. keeps_solve. apply untouched_lift. keeps_solve. Qed.

(** What an answer says is on record. *)
Definition recorded (req : CancelRequest) (r : CancelResult) (x : ImportRows) : Prop :=
  cancel_entry req x = Some (cv_original r, cv_reversal r) /\ cv_nothing r = uuid_is_nil (cv_reversal r) /\ cv_order r = cq_order req.

(** Answered after the fact, or because there is nothing to reverse. *)
Lemma cancel_nothing_recorded req o s r s1 : cancel_entry req (ex_rows s) = None ->
  cancelNothingToReverse req o s = (Ok r, s1) ->
  recorded req r (ex_rows s1).
Proof.
  intros N H. unfold cancelNothingToReverse in H. apply bind_Ok in H as (u & s2 & Hm & H).
  apply on_err_Ok, mark_cancel_entry in Hm; [|done]. by minv H.
Qed.

Lemma reverse_recorded req o s r s1 : cancel_entry req (ex_rows s) = None -> reverse_order req o s = (Ok r, s1) ->
  recorded req r (ex_rows s1).
Proof.
  intros N H. unfold reverse_order in H. apply bind_Ok in H as (now & s2 & H1 & H). apply lift_rows in H1.
  apply bind_Ok in H as (made & s3 & H2 & H). pose proof (lift_rows _ _ _ _ H2) as E2.
  destruct made as [e|out]; [destruct (errors_is _ _); [|by minv H]; eapply cancel_nothing_recorded; [|exact H]; congruence|].
  apply bind_Ok in H as (a & s4 & H3 & H). apply lift_rows in H3.
  destruct a as [e|u]; [destruct (errors_is _ _); [|by minv H]; eapply cancel_nothing_recorded; [|exact H]; congruence|].
  apply bind_Ok in H as (v & s5 & H4 & H). apply on_err_Ok, mark_cancel_entry in H4; [|congruence]. minv H. split; [done|split; [|done]].
  symmetry. apply N.eqb_neq. apply lift_Ok in H2 as (w & H2 & _). apply try_Ok in H2.
  apply bind_Ok in H2 as (l & w1 & _ & H2). by apply CreateReturn_id in H2.
Qed.

(** What an answered cancellation has left on record. *)
Lemma cancel_recorded req s r s1 : IngestCancelOrder req s = (Ok r, s1) ->
  recorded req r (ex_rows s1).
Proof.
  unfold IngestCancelOrder. intros H. mguard H as G1. mguard H as G2. mguard H as G3. mguard H as G4.
  apply bind_Ok in H as (before & s2 & Hb & H). apply on_err_Ok, IsCancelSeen_Ok in Hb as [-> E2].
  destruct (cancel_entry req (ex_rows s)) as [[orig rev]|] eqn:Ec.
  - apply bind_Ok in H as (no & s3 & Hn & H). apply (keeps_run _ _ _ _ _ (untouched_known_bill_no _ _)) in Hn as [_ E3].
    minv H. split; [simpl; congruence|by split].
  - apply bind_Ok in H as (seen & s3 & Hs & H). apply on_err_Ok, lift_rows in Hs.
    assert (cancel_entry req (ex_rows s3) = None) as N by congruence.
    destruct seen as [o|]; [by eapply reverse_recorded|].
    apply bind_Ok in H as (u & s4 & Hm & H). apply on_err_Ok, mark_cancel_entry in Hm; [|done]. by minv H.
Qed.

(** a cancellation the platform sends again is answered with what the first one did, the same
    original and the same reversal (or the same nothing), and changes nothing: not a bill, not
    a piece of stock, not an entry of the import, whether it is answered or fails. *)
Theorem cancel_again_changes_nothing req s r s1 s2 x s3 :
  IngestCancelOrder req s = (Ok r, s1) -> cancel_entry req (ex_rows s2) = cancel_entry req (ex_rows s1) ->
  IngestCancelOrder req s2 = (x, s3) ->
  untouched s2 s3 /\ forall r', x = Ok r' ->
    cv_order r' = cv_order r /\ cv_original r' = cv_original r /\ cv_reversal r' = cv_reversal r /\ cv_nothing r' = cv_nothing r.
Proof.
  intros H1 E H2. pose proof (cancel_recorded _ _ _ _ H1) as (R1 & R2 & R3).
  assert (untouched s2 s3) as U.
  { rewrite R1 in E. assert (s3 = (IngestCancelOrder req s2).2) as -> by (by rewrite H2). unfold IngestCancelOrder.
    do 4 (apply (bind_at untouched); [apply (keeps_guard_err untouched)|intros [] ? [_ <-]%guard_err_Ok]).
    apply (bind_at untouched); [apply (keeps_on_err untouched), untouched_query|].
    intros before s' Hb. apply on_err_Ok, IsCancelSeen_Ok in Hb as [-> _]. rewrite E.
    apply (keeps_bind untouched); [apply untouched_known_bill_no|intros no; apply (keeps_ret untouched)]. }
  split; [exact U|]. intros r' ->. apply cancel_recorded in H2 as (Q1 & Q2 & Q3).
  rewrite (proj2 U), E, R1 in Q1. injection Q1 as Q1 Q4. split_and!; congruence.
Qed.

End import_once.

(** ** Examples *)
Section once_examples.
#[local] Open Scope string_scope.

Definition ex_cancel : CancelRequest := mkCancelRequest ex_tenant ex_user PlatformShopify "#1001".
Definition ex_single : SingleOrderRequest :=
  mkSingleOrderRequest ex_tenant ex_user ex_wh PlatformShopify "#1001" "" [mkOrderRow "#1001" "TEA" (D 1 0) (D 5 0) "CNY" ex_start].

Definition ex_after (s : Ext ImportRows) (l : list delivery) : Ext ImportRows :=
  fold_left (fun s x => (deliver (calc := WACCalculator) x s).2) l s.
Definition ex_deliveries : list delivery :=
  [Upload ex_import_request; SingleOrder ex_single; Upload ex_import_request; Cancellation ex_cancel; Cancellation ex_cancel].
Definition ex_delivered : Ext ImportRows := ex_after ex_import_shop ex_deliveries.

Lemma ex_history l s s0 : history (calc := WACCalculator) s0 s -> history (calc := WACCalculator) s0 (ex_after s l).
Proof. revert s. induction l as [|x l IH]; intros s H; simpl; [done|]. apply IH. by constructor. Qed.

Definition ex_order_mark : mark := (ex_tenant, import_remark PlatformShopify "#1001").

Lemma one_bill_per_order_witness :
  exists b, marks (w_db (ex_shop ex_delivered)) !! b = Some ex_order_mark /\
    forall b', marks (w_db (ex_shop ex_delivered)) !! b' = Some ex_order_mark -> b' = b.
Proof.
  exists 1006%N. assert (marks (w_db (ex_shop ex_delivered)) !! 1006%N = Some ex_order_mark) as H by (vm_compute; reflexivity).
  split; [exact H|]. intros b' H'.
  eapply (one_bill_per_order (calc := WACCalculator) ex_import_shop ex_delivered); [|apply ex_history; constructor|exact H'|exact H|].
  - intros c c' m Hc. assert (marks (w_db (ex_shop ex_import_shop)) = ∅) as E by reflexivity. by rewrite E, lookup_empty in Hc.
  - by exists PlatformShopify, "#1001".
Defined.

Definition ex_cancelled := IngestCancelOrder (calc := WACCalculator) ex_cancel ex_uploaded.2.
Definition ex_cancelled_again := IngestCancelOrder (calc := WACCalculator) ex_cancel ex_cancelled.2.

(** The first cancellation takes the goods back: ten pieces of tea are on the shelf again. *)
Example ex_cancelled_back :
  (match ex_cancelled.1 with Ok r => cv_nothing r | _ => true end,
   dcmp (on_hand (w_db (ex_shop ex_uploaded.2)) (ex_tenant, ex_p1, ex_wh)) (D 8 0),
   dcmp (on_hand (w_db (ex_shop ex_cancelled.2)) (ex_tenant, ex_p1, ex_wh)) (D 10 0)) = (false, Eq, Eq).
Proof. vm_compute. reflexivity. Qed.

Lemma cancel_again_changes_nothing_witness :
  exists r r', ex_cancelled.1 = Ok r /\ ex_cancelled_again.1 = Ok r' /\ cv_reversal r' = cv_reversal r /\
    untouched ex_cancelled.2 ex_cancelled_again.2.
Proof.
  destruct (ext_ok_run ex_cancelled) as (r & s1 & H1); [vm_compute; reflexivity|].
  destruct (ext_ok_run ex_cancelled_again) as (r' & s2 & H2); [vm_compute; reflexivity|].
  exists r, r'. rewrite H1, H2. split; [done|]. split; [done|]. unfold ex_cancelled_again in H2. rewrite H1 in H2.
  destruct (cancel_again_changes_nothing (calc := WACCalculator) ex_cancel ex_uploaded.2 r s1 s1 (Ok r') s2 H1 eq_refl H2) as [U N].
  split; [by apply N|exact U].
Defined.
End once_examples.
