(* ===== verification/ImportRemarks.v ===== *)
(** The remarks the import writes on the bills of cancellations and refunds, as the returns read
    them back: the two components share nothing else that says which sale goes back. *)
From S2P Require Import Prelude GoStrings Rounding Decimal SDec Types StockDomain BillDomain GoTime Store StockRepo BillRepo BillReturn Concrete ExtStore Currency Csv Importing.
From stdpp Require Import base tactics strings gmap list pretty.
From Stdlib Require Import ZArith Lia Ascii.

#[local] Open Scope string_scope.

Section import_remarks.
Context {env : Env} {env_laws : EnvLaws env}.

Lemma cut_last_Some sep s b t : cut_last sep s = Some (b, t) -> s = b ++ sep ++ t.
Proof.
  revert b. induction s as [|a s IH]; intros b H; [done|]. cbn [cut_last] in H.
  destruct (cut_last sep s) as [[b' t']|] eqn:E.
  - injection H as <- <-. simpl. by rewrite (IH b').
  - destruct (cut_prefix sep (String a s)) as [t'|] eqn:E2; [|done]. injection H as <- <-.
    by apply cut_prefix_Some in E2.
Qed.

(** The only occurrence of a character splits a list in one way. *)
Lemma only_split {A} (c : A) l1 l2 k1 k2 : c ∉ l1 -> c ∉ l2 -> (l1 ++ c :: l2 = k1 ++ c :: k2)%list -> l1 = k1.
Proof.
  revert k1. induction l1 as [|a l1 IH]; intros [|b k1] H1 H2 H; simpl in *.
  - done.
  - injection H as -> H. exfalso. apply H2. rewrite H. apply elem_of_app. right. left.
  - injection H as -> H. exfalso. apply H1. left.
  - injection H as -> H. f_equal. apply IH; [|done|done]. intros K. apply H1. by right.
Qed.

Definition eq_sign : ascii := "="%char.

(** A text whose one equals sign ends ":refund_id=" names no original bill. *)
Lemma no_original pre post : eq_sign ∉ chars pre -> eq_sign ∉ chars post ->
  cut_last originBillIDKey (pre ++ refundIDKey ++ post) = None.
Proof.
  intros H1 H2. destruct (cut_last _ _) as [[b t]|] eqn:E; [|done]. exfalso.
  apply cut_last_Some, (f_equal chars) in E. rewrite !chars_app in E.
  change (chars refundIDKey) with (chars ":refund_id" ++ [eq_sign])%list in E.
  change (chars originBillIDKey) with (chars "original_bill_id" ++ [eq_sign])%list in E.
  rewrite <- !app_assoc in E. simpl ([eq_sign] ++ _)%list in E. rewrite !app_assoc in E.
  apply only_split in E; [| |done].
  - apply (f_equal (@rev ascii)) in E. rewrite !rev_app_distr in E. by vm_compute in E.
  - rewrite elem_of_app. intros [?|K]; [done|]. revert K. apply (bool_decide_unpack _). vm_compute. exact I.
Qed.

(** ** SQL LIKE on the text it was made from *)

Definition literal (a : ascii) : bool := negb (Ascii.eqb a "%"%char) && negb (Ascii.eqb a "_"%char).

Lemma like_literal a p s : forallb literal (chars a) = true ->
  like (like_pattern (a ++ p)) (a ++ s) = like (like_pattern p) s.
Proof.
  induction a as [|c a IH]; intros H; [done|]. simpl in H. apply andb_true_iff in H as [H1 H2]. simpl.
  unfold literal in H1. destruct (Ascii.eqb c "%"), (Ascii.eqb c "_"); try done. simpl. rewrite Ascii.eqb_refl. by apply IH.
Qed.

Lemma like_many p pre s : like p s = true -> like (LikeMany :: p) (pre ++ s) = true.
Proof.
  intros H. assert (forall t, like p t = true -> like (LikeMany :: p) t = true) as K.
  { intros t Ht. destruct t; simpl in *; by rewrite Ht. }
  induction pre as [|c pre IH]; [by apply K|]. simpl. apply orb_true_iff. right. exact IH.
Qed.

Lemma uuid_literal u : forallb literal (chars (uuid_string u)) = true.
Proof.
  apply forallb_forall. intros c Hc. pose proof (uuid_string_chars u) as K. rewrite Forall_forall in K.
  apply list_elem_of_In, K in Hc. unfold literal, uuid_char in *.
  destruct (Ascii.eqb_spec c "%") as [->|]; [vm_compute in Hc; intuition discriminate|].
  destruct (Ascii.eqb_spec c "_") as [->|]; [vm_compute in Hc; intuition discriminate|done].
Qed.

Lemma like_self a : forallb literal (chars a) = true -> like (like_pattern a) a = true.
Proof.
  induction a as [|c a IH]; intros H; [done|]. simpl in H. apply andb_true_iff in H as [H1 H2]. simpl.
  unfold literal in H1. destruct (Ascii.eqb c "%"), (Ascii.eqb c "_"); try done. simpl. rewrite Ascii.eqb_refl. by apply IH.
Qed.

(** C23: what the import writes on the bill of a cancellation is what the returns read: the sale
    it reverses, read back exactly, whatever platform and order are called; and the query of
    what has already gone back counts the bill against that sale. *)
Theorem cancel_remark_read_back p o sale :
  ParseOriginRef (cancel_remark p o sale) = Some (mkOriginRef sale "" "") /\ cancels (cancel_remark p o sale) sale = true.
Proof.
  split.
  - unfold ParseOriginRef, cancel_remark.
    replace ("cancel:" ++ p ++ ":" ++ o ++ ":original_bill_id=" ++ uuid_string sale)
      with (("cancel:" ++ p ++ ":" ++ o ++ ":") ++ ("original_bill_id" ++ "=") ++ uuid_string sale)
      by (simpl; by rewrite !append_assoc).
    change originBillIDKey with ("original_bill_id" ++ "=").
    rewrite (cut_last_app _ eq_sign).
    + by rewrite uuid_string_trim, uuid_parse_string.
    + apply uuid_string_free. unfold uuid_char. vm_compute. intuition discriminate.
  - unfold cancels, cancel_remark.
    change ("cancel:%:original_bill_id=" ++ uuid_string sale) with ("cancel:" ++ ("%:original_bill_id=" ++ uuid_string sale)).
    rewrite like_literal by reflexivity.
    replace (p ++ ":" ++ o ++ ":original_bill_id=" ++ uuid_string sale)
      with ((p ++ ":" ++ o) ++ (":original_bill_id=" ++ uuid_string sale)) by (by rewrite !append_assoc).
    apply like_many. simpl. apply like_self, uuid_literal.
Qed.

(** the bill of a refund names its order: platform and order number are read back exactly,
    and the bill counts against every sale the order is entered as, provided the platform has no
    colon and no equals sign, and order and refund numbers have no equals sign. *)
Theorem refund_remark_read_back p o r tenant sale d : p <> "" -> o <> "" ->
  ":"%char ∉ chars p -> eq_sign ∉ chars p -> eq_sign ∉ chars o -> eq_sign ∉ chars r ->
  ParseOriginRef (refund_bill_remark p o r) = Some (mkOriginRef uuid_nil p o) /\
  (mkOrderSeenRow tenant p o sale ∈ db_orders_seen d -> refunds tenant (refund_bill_remark p o r) sale d = true).
Proof.
  intros Np No Hc Hp Ho Hr. split.
  - assert (refund_bill_remark p o r = (("refund:" ++ p ++ ":" ++ o) ++ refundIDKey ++ r)) as E
      by (unfold refund_bill_remark, refund_remark; by rewrite !append_assoc).
    unfold ParseOriginRef. rewrite E, no_original; [|rewrite !chars_app, !elem_of_app|done].
    + replace (("refund:" ++ p ++ ":" ++ o) ++ refundIDKey ++ r) with ("refund:" ++ (p ++ ":" ++ (o ++ refundIDKey ++ r)))
        by (by rewrite !append_assoc).
      rewrite cut_prefix_app, (cut_first_app ":" ":"%char) by done.
      change refundIDKey with (":refund_id" ++ "="). rewrite (cut_last_app _ eq_sign) by done.
      by destruct (String.eqb_spec o ""), (String.eqb_spec p "").
    + assert ((eq_sign ∉ chars "refund:") /\ (eq_sign ∉ chars ":")) as [K1 K2] by (split; apply (bool_decide_unpack _); vm_compute; exact I).
      tauto.
  - intros Hin. unfold refunds. apply existsb_exists. exists (mkOrderSeenRow tenant p o sale).
    split; [by apply list_elem_of_In|]. simpl. rewrite !N.eqb_refl. unfold refund_bill_remark. by rewrite cut_prefix_app.
Qed.
End import_remarks.

(** ** Examples *)

Lemma cancel_remark_read_back_witness :
  ParseOriginRef "cancel:shopify:#1001:original_bill_id=1006" = Some (mkOriginRef 1006%N "" "").
Proof. exact (proj1 (cancel_remark_read_back (env := ex_env) "shopify" "#1001" 1006%N)). Defined.

Lemma refund_remark_read_back_witness :
  ParseOriginRef "refund:shopify:#1001:refund_id=77" = Some (mkOriginRef uuid_nil "shopify" "#1001").
Proof.
  refine (proj1 (refund_remark_read_back (env := ex_env) "shopify" "#1001" "77" ex_tenant 1006%N ex_db _ _ _ _ _ _)).
  all: apply (bool_decide_unpack _); vm_compute; exact I.
Defined.
