(* ===== verification/RetryQueue.v ===== *)
(** A queue of rows a worker tries to hand over, again and again: what
    src/internal/adapter/repo/event_outbox/store.go with adapter/nats/outbox_worker.go and
    adapter/repo/usage_report_outbox/store.go with adapter/usagereport/retry_worker.go have in
    common, which is everything but the rows and what handing one over means.

    [RetryQueue] is the interface: the rows, the columns the worker writes (attempts, the time
    it was done, the last error) and [q_attempt].  The operations below are the store's; a tick
    of the worker is [drainOnce].  The theorems are those of any such queue: a row marked done
    was handed over; a row whose attempts are used up is never tried again; and, with a database
    that does not fail, a row that is always taken is done after so many ticks, whatever becomes
    of the others and whatever is queued behind it. *)
From S2P Require Import Prelude Rounding Decimal Types StockDomain BillDomain Store ExtStore.
From stdpp Require Import base tactics strings gmap list sorting.
From Stdlib Require Import ZArith Lia Sorting.Sorted Sorting.Permutation.

#[local] Open Scope string_scope.

Section queue.
Context {ops : DecimalOps} {env : Env}.

Record Progress := mkProgress { pg_attempts : Z; pg_done : option time; pg_error : option error }.
(** The column defaults. *)
Definition queued_progress : Progress := mkProgress 0 None None.

Class RetryQueue (X : Type) := {
  q_item : Type;
  q_id : q_item -> uuid;
  q_created_at : q_item -> time;
  q_items : DB -> X -> list q_item;
  q_progress : X -> gmap uuid Progress;
  q_with_progress : X -> gmap uuid Progress -> X;
  q_name : string;
  q_limit : nat;
  q_max_attempts : Z;
  q_attempt : q_item -> XM (X:=X) (error + unit);
  q_handed : q_item -> X -> Prop;
}.

Section ops.
Context {X : Type} {Q : RetryQueue X}.
Abbreviation QM := (XM (X:=X)).

Definition progress_of (x : X) (id : uuid) : Progress := default queued_progress (q_progress x !! id).
Definition set_progress (id : uuid) (f : Progress -> Progress) (x : X) : X :=
  q_with_progress x (<[id := f (progress_of x id)]> (q_progress x)).

(** published_at IS NULL AND attempts < $2 *)
Definition is_pending (x : X) (i : q_item) : bool :=
  is_none (pg_done (progress_of x (q_id i))) && Z.ltb (pg_attempts (progress_of x (q_id i))) q_max_attempts.

(** A transaction of one statement as the service: begin, the tenant setting, the statement, and
    the commit that makes its effect visible. *)
Definition label (what : string) : string := q_name ++ ": " ++ what.
Definition service_tx {A} (what : string) (f : DB -> X -> A) (g : X -> X) : QM A :=
  ext_query (label (what ++ " begin tx")) (fun _ => tt);;
  ext_query (label (what ++ " set tenant")) (fun _ => tt);;
  a ← (fun s => ext_query (label what) (f (w_db (ex_shop s))) s);
  ext_update (label (what ++ " commit")) g;;
  mret a.

(** Store.Drain *)
Definition batch (d : DB) (x : X) : list q_item := take q_limit (sql_order q_created_at (select (is_pending x) (q_items d x))).
Definition Drain : QM (list q_item) := service_tx "drain" batch (fun x => x).

(** Store.MarkPublished, Store.MarkSent *)
Definition done_at (t : time) (p : Progress) : Progress := mkProgress (pg_attempts p) (Some t) (pg_error p).
Definition MarkDone (id : uuid) : QM unit :=
  now ← lift time_now;
  service_tx "mark done" (fun _ _ => tt) (set_progress id (done_at now)).

(** Store.RecordAttemptError *)
Definition failed_with (e : error) (p : Progress) : Progress := mkProgress (pg_attempts p + 1) (pg_done p) (Some e).
Definition RecordAttemptError (id : uuid) (e : error) : QM unit :=
  service_tx "record attempt error" (fun _ _ => tt) (set_progress id (failed_with e)).

(** Store.PendingStats; the count feeds a gauge. *)
Definition PendingStats : QM nat :=
  service_tx "pending stats" (fun d x => length (select (is_pending x) (q_items d x))) (fun x => x).

(** processRow *)
Definition processRow (i : q_item) : QM unit :=
  r ← q_attempt i;
  match r with
  | inl e => try (RecordAttemptError (q_id i) e);; mret tt
  | inr _ => try (MarkDone (q_id i));; mret tt
  end.

(** drainOnce *)
Definition drainOnce : QM unit :=
  try PendingStats;;
  rows ← try Drain;
  match rows with
  | inl _ => mret tt
  | inr rows => mapM_ processRow rows
  end.
End ops.

(** ** What a queue promises *)

Class RetryQueueLaws (X : Type) (Q : RetryQueue X) := {
  q_with_progress_get x p : q_progress (q_with_progress x p) = p;
  q_with_progress_items d x p : q_items d (q_with_progress x p) = q_items d x;
  (** Trying to hand over a row touches neither the rows nor their progress, and always answers. *)
  q_attempt_answers i s : exists r w x, q_attempt i s = (Ok r, mkExt w x) /\
    w_db w = w_db (ex_shop s) /\ w_tick (ex_shop s) <= w_tick w /\ q_progress x = q_progress (ex_rows s) /\
    forall d, q_items d x = q_items d (ex_rows s);
}.

(** What was handed over stays so; a success hands over. *)
Class HandoverLaws (X : Type) (Q : RetryQueue X) := {
  q_handed_with i x p : q_handed i x -> q_handed i (q_with_progress x p);
  q_handed_stays i j s r s' : q_attempt j s = (Ok r, s') -> q_handed i (ex_rows s) -> q_handed i (ex_rows s');
  q_handed_taken i s u s' : q_attempt i s = (Ok (inr u), s') -> q_handed i (ex_rows s');
}.

Section laws.
Context {env_laws : EnvLaws env} {X : Type} {Q : RetryQueue X} {QL : RetryQueueLaws X Q}.
Abbreviation state := (Ext X).

Definition items_of (s : state) : list q_item := q_items (w_db (ex_shop s)) (ex_rows s).
Definition prog (s : state) (id : uuid) : Progress := progress_of (ex_rows s) id.

(** The rows are the same; of the columns the worker writes, at most the progress differs. *)
Definition same_rows (s s' : state) : Prop := w_db (ex_shop s') = w_db (ex_shop s) /\
  (forall d, q_items d (ex_rows s') = q_items d (ex_rows s)) /\ w_tick (ex_shop s) <= w_tick (ex_shop s').
#[export] Instance same_rows_preorder : PreOrder same_rows.
Proof. split; [by intros s|]. intros s1 s2 s3 (E1 & H1 & T1) (E2 & H2 & T2). split_and!; [congruence| |lia]. intros d. by rewrite H2. Qed.

Lemma same_items s s' : same_rows s s' -> items_of s' = items_of s.
Proof. intros (E & H & _). unfold items_of. by rewrite E, H. Qed.

Lemma service_tx_cases {A} what (f : DB -> X -> A) g s r s' : service_tx what f g s = (r, s') ->
  w_db (ex_shop s') = w_db (ex_shop s) /\ w_tick (ex_shop s) <= w_tick (ex_shop s') /\
  match r with
  | Ok a => a = f (w_db (ex_shop s)) (ex_rows s) /\ ex_rows s' = g (ex_rows s)
  | Err _ => ex_rows s' = ex_rows s /\ ~ db_reliable
  | Panic _ => False
  end.
Proof.
  unfold service_tx, ext_query, ext_update, ext_statement, mbind, stm_bind. simpl.
  repeat (match goal with |- context [db_fault ?n] => destruct (db_fault n) eqn:? end; simpl;
    [intros [= <- <-]; simpl; split_and!; [done|lia|done|]; intros K; by rewrite K in *|]).
  intros [= <- <-]. simpl. split_and!; [done|lia|done|done].
Qed.

(** *** One row *)

(** What the worker writes after an attempt. *)
Definition result_of (r : error + unit) (t : time) : Progress -> Progress :=
  match r with inl e => failed_with e | inr _ => done_at t end.

(** An attempt, and its result recorded unless the database failed. *)
Definition tried (i : q_item) (s s' : state) : Prop := exists r s1 t, q_attempt i s = (Ok r, s1) /\
  (ex_rows s' = set_progress (q_id i) (result_of r t) (ex_rows s1) \/ ex_rows s' = ex_rows s1 /\ ~ db_reliable).

Lemma record_progress what id g s : exists s',
  (try (service_tx what (fun _ _ => tt) (set_progress id g));; mret tt) s = (Ok tt, s') /\ same_rows s s' /\
  (ex_rows s' = set_progress id g (ex_rows s) \/ ex_rows s' = ex_rows s /\ ~ db_reliable).
Proof.
  unfold mbind, stm_bind, try. destruct (service_tx _ _ _ s) as [r s1] eqn:E. apply service_tx_cases in E as (Ed & Et & E).
  exists s1. destruct r as [a|e|m]; [|destruct E as [E NR]|done]; (split; [done|]).
  - destruct E as [_ E]. split; [|by left]. split_and!; [done| |done]. intros d. rewrite E. apply q_with_progress_items.
  - split; [|by right]. split_and!; [done| |done]. intros d. by rewrite E.
Qed.

Lemma processRow_tried i s : exists s', processRow i s = (Ok tt, s') /\ same_rows s s' /\ tried i s s'.
Proof.
  destruct (q_attempt_answers i s) as (r & w & x & Ea & Ew & Et & Ep & Ei). unfold processRow, mbind at 1, stm_bind at 1. rewrite Ea.
  assert (forall s1 : state, w_db (ex_shop s1) = w_db w -> w_tick w <= w_tick (ex_shop s1) -> ex_rows s1 = x -> same_rows s s1) as K.
  { intros s1 Ed Et1 E. split_and!; [congruence| |lia]. intros d. by rewrite E. }
  destruct r as [e|u].
  - destruct (record_progress "record attempt error" (q_id i) (failed_with e) (mkExt w x)) as (s' & E & R & D).
    exists s'. split; [exact E|]. split; [etrans; [apply (K (mkExt w x)); simpl; first [done|lia]|exact R]|]. by exists (inl e), (mkExt w x), time_zero.
  - destruct (record_progress "mark done" (q_id i) (done_at (clock_at (w_tick w))) (mkExt (bump w) x)) as (s' & E & R & D).
    exists s'. split; [exact E|]. split; [etrans; [apply (K (mkExt (bump w) x)); simpl; first [done|lia]|exact R]|].
    by exists (inr u), (mkExt w x), (clock_at (w_tick w)).
Qed.

Lemma attempt_prog i s r s1 id : q_attempt i s = (Ok r, s1) -> prog s1 id = prog s id.
Proof.
  intros H. destruct (q_attempt_answers i s) as (r' & w & x & E & _ & _ & Ep & _). rewrite H in E. injection E as -> ->.
  unfold prog, progress_of. simpl. by rewrite Ep.
Qed.

Lemma set_progress_prog id f x j : progress_of (set_progress id f x) j = if decide (id = j) then f (progress_of x id) else progress_of x j.
Proof.
  unfold progress_of at 1, set_progress. rewrite q_with_progress_get. destruct (decide (id = j)) as [<-|n].
  - by rewrite lookup_insert_eq.
  - by rewrite lookup_insert_ne.
Qed.

Lemma tried_other i s s' id : tried i s s' -> id <> q_id i -> prog s' id = prog s id.
Proof.
  intros (r & s1 & t & Ea & D) n. rewrite <- (attempt_prog _ _ _ _ id Ea). unfold prog.
  destruct D as [->|[-> _]]; [|done]. rewrite set_progress_prog. by rewrite decide_False.
Qed.

Lemma tried_self i s s' : tried i s s' -> exists r s1 t, q_attempt i s = (Ok r, s1) /\
  (prog s' (q_id i) = result_of r t (prog s (q_id i)) \/ prog s' (q_id i) = prog s (q_id i) /\ ~ db_reliable).
Proof.
  intros (r & s1 & t & Ea & D). exists r, s1, t. split; [done|]. rewrite <- (attempt_prog _ _ _ _ (q_id i) Ea). unfold prog.
  destruct D as [->|[-> NR]]; [left|by right]. rewrite set_progress_prog. by rewrite decide_True.
Qed.

(** *** One tick *)

(** The rows of a tick, one after another. *)
Inductive tried_all : list q_item -> state -> state -> Prop :=
  | tried_none s : tried_all [] s s
  | tried_next i l s s1 s2 : same_rows s s1 -> tried i s s1 -> tried_all l s1 s2 -> tried_all (i :: l) s s2.

Lemma mapM_tried l s : exists s', mapM_ processRow l s = (Ok tt, s') /\ tried_all l s s'.
Proof.
  revert s. induction l as [|i l IH]; intros s; [exists s; split; [done|constructor]|].
  destruct (processRow_tried i s) as (s1 & E & R & T). destruct (IH s1) as (s2 & E2 & T2). exists s2.
  split; [|by econstructor]. simpl. unfold mbind, stm_bind. by rewrite E.
Qed.

Lemma tried_all_rows l s s' : tried_all l s s' -> same_rows s s'.
Proof. induction 1; [done|by etrans]. Qed.

Lemma same_state_same_rows s s' : w_db (ex_shop s') = w_db (ex_shop s) -> w_tick (ex_shop s) <= w_tick (ex_shop s') ->
  ex_rows s' = ex_rows s -> same_rows s s'.
Proof. intros E1 Et E2. split_and!; [done| |done]. intros d. by rewrite E2. Qed.

Lemma try_tx {A} what (f : DB -> X -> A) s : exists v s', try (service_tx what f (fun x => x)) s = (Ok v, s') /\
  w_db (ex_shop s') = w_db (ex_shop s) /\ w_tick (ex_shop s) <= w_tick (ex_shop s') /\ ex_rows s' = ex_rows s /\
  (v = inr (f (w_db (ex_shop s)) (ex_rows s)) \/ (exists e, v = inl e) /\ ~ db_reliable).
Proof.
  unfold try. destruct (service_tx _ _ _ s) as [r s1] eqn:E. apply service_tx_cases in E as (Ed & Et & E).
  destruct r as [a|e|m]; [| |done]; destruct E as [E1 E2]; do 2 eexists; split_and!; [done|done|done|done| |done|done|done|done|].
  - left. by rewrite E1.
  - right. eauto.
Qed.

(** A tick tries the oldest pending rows, at most [q_limit] of them; when the database fails it
    may try none. *)
Lemma drainOnce_tried s : exists s0 s' l, drainOnce s = (Ok tt, s') /\
  w_db (ex_shop s0) = w_db (ex_shop s) /\ w_tick (ex_shop s) <= w_tick (ex_shop s0) /\ ex_rows s0 = ex_rows s /\ tried_all l s0 s' /\
  (l = batch (w_db (ex_shop s)) (ex_rows s) \/ l = [] /\ ~ db_reliable).
Proof.
  destruct (try_tx "pending stats" (fun d x => length (select (is_pending x) (q_items d x))) s) as (v1 & s1 & E1 & D1 & T1 & R1 & _).
  destruct (try_tx "drain" batch s1) as (v2 & s2 & E2 & D2 & T2 & R2 & K).
  unfold drainOnce, mbind, stm_bind, PendingStats, Drain. rewrite E1, E2.
  destruct K as [->|[[e ->] NR]].
  - destruct (mapM_tried (batch (w_db (ex_shop s1)) (ex_rows s1)) s2) as (s3 & E3 & T). exists s2, s3, (batch (w_db (ex_shop s1)) (ex_rows s1)).
    rewrite D1, R1 in *. split_and!; [done|congruence|lia|congruence|done|by left].
  - exists s2, s2, []. split_and!; [done|congruence|lia|congruence|constructor|by right].
Qed.

(** ** Histories *)

(** Rows are queued while the worker rests: they are new, and nothing is handed over by it. *)
Record enqueued (late : q_item -> Prop) (s s' : state) : Prop := {
  en_progress : q_progress (ex_rows s') = q_progress (ex_rows s);
  en_items : exists new, Permutation (items_of s') (items_of s ++ new) /\
    Forall (fun i => prog s (q_id i) = queued_progress /\ late i) new;
  en_ids : NoDup (q_id <$> items_of s');
  en_tick : w_tick (ex_shop s) <= w_tick (ex_shop s');
  en_handed : forall i, q_handed i (ex_rows s') <-> q_handed i (ex_rows s);
}.

(** [n] ticks, with rows queued in between. *)
Inductive ran (late : q_item -> Prop) : nat -> state -> state -> Prop :=
  | ran_start s : ran late 0 s s
  | ran_tick n s s1 : ran late n s s1 -> ran late (S n) s (drainOnce s1).2
  | ran_enqueued n s s1 s2 : ran late n s s1 -> enqueued late s1 s2 -> ran late n s s2.

Lemma enqueued_prog late s s' id : enqueued late s s' -> prog s' id = prog s id.
Proof. intros E. unfold prog, progress_of. by rewrite (en_progress _ _ _ E). Qed.

Definition keyed (s : state) : Prop := NoDup (q_id <$> items_of s).

Lemma keyed_eq s i j : keyed s -> i ∈ items_of s -> j ∈ items_of s -> q_id i = q_id j -> i = j.
Proof. apply NoDup_key. Qed.

Lemma batch_items d x i : i ∈ batch d x -> i ∈ q_items d x /\ is_pending x i = true.
Proof.
  unfold batch. intros H. apply (elem_of_take _ _ _) in H as (k & H & _). apply list_elem_of_lookup_2 in H.
  rewrite sql_order_perm in H. apply elem_of_select in H as [? ?]. by split.
Qed.

Lemma items_keyed s s' : same_rows s s' -> keyed s -> keyed s'.
Proof. intros R. unfold keyed. by rewrite (same_items _ _ R). Qed.

Lemma enqueued_keeps late s s' i : enqueued late s s' -> i ∈ items_of s -> i ∈ items_of s'.
Proof. intros E Hi. destruct (en_items _ _ _ E) as (new & -> & _). apply elem_of_app. by left. Qed.

Lemma drainOnce_rows s : same_rows s (drainOnce s).2.
Proof.
  destruct (drainOnce_tried s) as (s0 & s' & l & -> & D & Tk & R & T & _). apply tried_all_rows in T. simpl.
  etrans; [by apply same_state_same_rows|exact T].
Qed.

Lemma ran_keyed late n s s' : keyed s -> ran late n s s' -> keyed s'.
Proof.
  intros K H. induction H as [|n s s1 H IH|n s s1 s2 H IH E]; [done| |exact (en_ids _ _ _ E)].
  eapply items_keyed; [apply drainOnce_rows|by apply IH].
Qed.

Lemma tried_all_other l s s' id : tried_all l s s' -> id ∉ q_id <$> l -> prog s' id = prog s id.
Proof.
  induction 1 as [|i l s s1 s2 Rw T H IH]; [done|]. simpl. intros [n Hl]%not_elem_of_cons.
  rewrite IH by done. by eapply tried_other.
Qed.

(** With a database that does not fail, every row of the tick gets the result of its attempt. *)
Lemma tried_all_one l s s' i : db_reliable -> tried_all l s s' -> NoDup (q_id <$> l) -> i ∈ l ->
  exists r s1 s2 t, w_tick (ex_shop s) <= w_tick (ex_shop s1) <= w_tick (ex_shop s') /\ q_attempt i s1 = (Ok r, s2) /\
    prog s' (q_id i) = result_of r t (prog s (q_id i)).
Proof.
  intros Hr. induction 1 as [|j l s s1 s2 Rw T H IH]; [by intros _ ?%elem_of_nil|]. simpl.
  intros [Hj Hl]%NoDup_cons [->|Hi]%elem_of_cons.
  - rewrite (tried_all_other _ _ _ _ H) by done. destruct (tried_self _ _ _ T) as (r & s3 & t & Ea & [E|[_ NR]]); [|done].
    exists r, s, s3, t. split; [|done]. apply tried_all_rows in H as (_ & _ & Tk2). destruct Rw as (_ & _ & Tk1). lia.
  - destruct (IH Hl Hi) as (r & s3 & s4 & t & Tk & Ea & E). exists r, s3, s4, t.
    split; [destruct Rw as (_ & _ & ?); lia|split; [done|]]. rewrite E. f_equal.
    eapply tried_other; [exact T|]. intros Eq. apply Hj. rewrite <- Eq. by apply list_elem_of_fmap_2.
Qed.

Lemma same_state_prog s s' id : ex_rows s' = ex_rows s -> prog s' id = prog s id.
Proof. unfold prog. by intros ->. Qed.

(** ** A row marked done was handed over *)
Section honest.
Context {QH : HandoverLaws X Q}.

(** A row marked done was handed over. *)
Definition honest_row (j : q_item) (s : state) : Prop := is_Some (pg_done (prog s (q_id j))) -> q_handed j (ex_rows s).
Definition honest (s : state) : Prop := forall i, i ∈ items_of s -> honest_row i s.

Lemma tried_honest i j s s' : keyed s -> i ∈ items_of s -> j ∈ items_of s -> tried i s s' -> honest_row j s -> honest_row j s'.
Proof.
  intros K Hi Hj T Ho Hd.
  assert (q_handed j (ex_rows s) -> q_handed j (ex_rows s')) as Hs.
  { intros Hk. destruct T as (r & s1 & t & Ea & D). apply (q_handed_stays _ _ _ _ _ Ea) in Hk.
    destruct D as [->|[-> _]]; [by apply q_handed_with|done]. }
  destruct (decide (q_id j = q_id i)) as [E|n]; [|apply Hs, Ho; by rewrite <- (tried_other _ _ _ _ T n)].
  apply (keyed_eq s) in E as ->; [|done..]. destruct T as (r & s1 & t & Ea & D).
  pose proof (attempt_prog _ _ _ _ (q_id i) Ea) as Ep.
  destruct D as [E|[E _]].
  - unfold prog in Hd. rewrite E, set_progress_prog, decide_True in Hd by done. rewrite E. apply q_handed_with.
    destruct r as [e|u]; [|by eapply q_handed_taken]. simpl in Hd. eapply q_handed_stays; [exact Ea|]. apply Ho. by rewrite <- Ep.
  - rewrite E. eapply q_handed_stays; [exact Ea|]. apply Ho. rewrite <- Ep. unfold prog in *. by rewrite <- E.
Qed.

Lemma tried_all_honest l j s s' : keyed s -> Forall (fun i => i ∈ items_of s) l -> j ∈ items_of s -> tried_all l s s' ->
  honest_row j s -> honest_row j s'.
Proof.
  intros K Hl Hj H. induction H as [|i l s s1 s2 Rw T H IH]; [done|]. inversion_clear Hl as [|? ? Hi Hl'].
  intros Ho. apply IH; [by eapply items_keyed|by rewrite (same_items _ _ Rw)..|by eapply tried_honest].
Qed.

Lemma drainOnce_honest j s : keyed s -> j ∈ items_of s -> honest_row j s -> honest_row j (drainOnce s).2.
Proof.
  intros K Hj Ho. destruct (drainOnce_tried s) as (s0 & s' & l & -> & D & Tk & R & T & L). simpl.
  assert (same_rows s s0) as Rw by by apply same_state_same_rows.
  eapply tried_all_honest; [by eapply items_keyed| |by rewrite (same_items _ _ Rw)|exact T|].
  - rewrite (same_items _ _ Rw). destruct L as [->|[-> _]]; [|constructor]. apply Forall_forall. intros i [Hi _]%batch_items. exact Hi.
  - unfold honest_row. by rewrite (same_state_prog _ _ _ R), R.
Qed.

Lemma ran_honest_row late n s s' j : keyed s -> j ∈ items_of s -> honest_row j s -> ran late n s s' -> honest_row j s'.
Proof.
  intros K Hj Ho H. assert (j ∈ items_of s' /\ honest_row j s') as [_ ?]; [|done].
  induction H as [|n s s1 H IH|n s s1 s2 H IH E]; [done| |]; destruct IH as [H1 IH]; try done.
  - rewrite (same_items _ _ (drainOnce_rows s1)). split; [done|]. apply drainOnce_honest; [by eapply ran_keyed|done..].
  - split; [by eapply enqueued_keeps|]. intros Hd. rewrite (enqueued_prog _ _ _ _ E) in Hd. apply (en_handed _ _ _ E). by apply IH.
Qed.

Lemma ran_honest late n s s' : keyed s -> honest s -> ran late n s s' -> honest s'.
Proof.
  intros K Ho H. induction H as [|n s s1 H IH|n s s1 s2 H IH E]; [done| |].
  - intros i Hi. rewrite (same_items _ _ (drainOnce_rows s1)) in Hi. apply drainOnce_honest; [by eapply ran_keyed|done|by apply IH].
  - intros i Hi Hd. rewrite (enqueued_prog _ _ _ _ E) in Hd. destruct (en_items _ _ _ E) as (new & P & Hn).
    rewrite P in Hi. apply elem_of_app in Hi as [Hi|Hi]; [apply (en_handed _ _ _ E); by apply IH|].
    rewrite Forall_forall in Hn. apply Hn in Hi as [Hi _]. rewrite Hi in Hd. by destruct Hd.
Qed.

End honest.

(** ** A row whose attempts are used up is never tried again *)

Lemma drainOnce_skips s i : is_pending (ex_rows s) i = false -> keyed s -> i ∈ items_of s -> prog (drainOnce s).2 (q_id i) = prog s (q_id i).
Proof.
  intros Hp K Hi. destruct (drainOnce_tried s) as (s0 & s' & l & -> & D & Tk & R & T & L). simpl.
  rewrite (tried_all_other _ _ _ _ T); [by apply same_state_prog|]. destruct L as [->|[-> _]]; [|by apply not_elem_of_nil].
  intros (j & E & Hj)%list_elem_of_fmap. apply batch_items in Hj as [Hj Hpj]. apply (keyed_eq s) in E as <-; [|done..]. congruence.
Qed.

Lemma pending_prog s s' i : prog s' (q_id i) = prog s (q_id i) -> is_pending (ex_rows s') i = is_pending (ex_rows s) i.
Proof. unfold is_pending, prog. by intros ->. Qed.

Lemma ran_given_up late n s s' i : keyed s -> i ∈ items_of s -> is_pending (ex_rows s) i = false -> ran late n s s' ->
  prog s' (q_id i) = prog s (q_id i).
Proof.
  intros K Hi Hp H. assert (prog s' (q_id i) = prog s (q_id i) /\ i ∈ items_of s') as [E _]; [|done].
  induction H as [|n s s1 H IH|n s s1 s2 H IH E]; [done| |].
  - destruct IH as [E1 I1]; [done..|]. rewrite drainOnce_skips; [|by rewrite (pending_prog s)|by eapply ran_keyed|done].
    split; [done|]. by rewrite (same_items _ _ (drainOnce_rows s1)).
  - destruct IH as [E1 I1]; [done..|]. rewrite (enqueued_prog _ _ _ _ E). split; [done|by eapply enqueued_keeps].
Qed.

(** ** A row that is always taken is done in the end *)

Definition budget (x : X) (i : q_item) : nat :=
  if is_pending x i then Z.to_nat (q_max_attempts - pg_attempts (progress_of x (q_id i))) else 0.
Definition before (i j : q_item) : bool := Z.leb (q_created_at j) (q_created_at i) && negb (N.eqb (q_id j) (q_id i)).
(** The attempts that may still be spent on rows that come before [i]. *)
Definition ahead (s : state) (i : q_item) : nat := sum_list_with (budget (ex_rows s)) (select (before i) (items_of s)).

Lemma sum_drop {A} (b b' : A -> nat) (B F : list A) : NoDup B -> (forall j, j ∈ B -> j ∈ F) ->
  (forall j, j ∈ F -> b' j <= b j) -> (forall j, j ∈ B -> S (b' j) <= b j) ->
  sum_list_with b' F + length B <= sum_list_with b F.
Proof.
  intros HB HF Hle Hlt. destruct (submseteq_Permutation B F) as [k P]; [by apply NoDup_submseteq|].
  rewrite P, !sum_list_with_app. setoid_rewrite P in Hle. clear P HF HB.
  assert (sum_list_with b' k <= sum_list_with b k).
  { induction k as [|a k IH]; simpl; [done|]. assert (b' a <= b a) by (apply Hle; apply elem_of_app; right; left).
    assert (sum_list_with b' k <= sum_list_with b k); [|lia]. apply IH. intros j [?|?]%elem_of_app; apply Hle, elem_of_app; [by left|right; by right]. }
  assert (sum_list_with b' B + length B <= sum_list_with b B); [|lia]. clear - Hlt.
  induction B as [|a B IH]; simpl; [done|]. assert (S (b' a) <= b a) by (apply Hlt; left).
  assert (sum_list_with b' B + length B <= sum_list_with b B); [|lia]. apply IH. intros j Hj. apply Hlt. by right.
Qed.

Lemma batch_NoDup d x : NoDup (q_id <$> q_items d x) -> NoDup (q_id <$> batch d x).
Proof.
  intros H. unfold batch. rewrite fmap_take. eapply sublist_NoDup; [|apply sublist_take].
  rewrite sql_order_perm. by apply NoDup_select_key.
Qed.

(** A pending row the tick does not reach leaves a whole batch of older ones before it. *)
Lemma batch_full d x i : i ∈ q_items d x -> is_pending x i = true -> i ∉ batch d x ->
  length (batch d x) = q_limit /\ forall j, j ∈ batch d x -> (q_created_at j <= q_created_at i)%Z.
Proof.
  intros Hi Hp Hb. unfold batch in *. set (l := sql_order q_created_at (select (is_pending x) (q_items d x))) in *.
  assert (i ∈ l) as Hl by (unfold l; rewrite sql_order_perm; apply elem_of_select; by split).
  pose proof (sql_order_sorted q_created_at (select (is_pending x) (q_items d x))) as S. fold l in S.
  rewrite <- (take_drop q_limit l) in Hl, S. apply elem_of_app in Hl as [Hl|Hl]; [done|]. split.
  - rewrite length_take. apply list_elem_of_lookup in Hl as [k Hk]. apply lookup_lt_Some in Hk. rewrite length_drop in Hk. lia.
  - intros j Hj. apply StronglySorted_app in S as (S & _). by apply S.
Qed.

Lemma budget_prog s s' i : prog s' (q_id i) = prog s (q_id i) -> budget (ex_rows s') i = budget (ex_rows s) i.
Proof. intros E. unfold budget. rewrite (pending_prog _ _ _ E). unfold prog in E. by rewrite E. Qed.

Lemma budget_result s s' i r t : is_pending (ex_rows s) i = true -> prog s' (q_id i) = result_of r t (prog s (q_id i)) ->
  S (budget (ex_rows s') i) <= budget (ex_rows s) i.
Proof.
  unfold budget. intros Hp E. rewrite Hp. unfold is_pending in *. unfold prog in E. rewrite E.
  apply andb_true_iff in Hp as [Hd Ha%Z.ltb_lt]. destruct r as [e|u]; simpl; [|lia].
  rewrite Hd. simpl. destruct (Z.ltb_spec (pg_attempts (progress_of (ex_rows s) (q_id i)) + 1) q_max_attempts); lia.
Qed.

(** What becomes of a row the tick reaches. *)
Definition reached (s s' : state) (i : q_item) : Prop := exists r s1 s2 t,
  w_tick (ex_shop s) <= w_tick (ex_shop s1) <= w_tick (ex_shop s') /\ q_attempt i s1 = (Ok r, s2) /\
  prog s' (q_id i) = result_of r t (prog s (q_id i)).

Lemma batch_reached s i : db_reliable -> keyed s -> i ∈ batch (w_db (ex_shop s)) (ex_rows s) -> reached s (drainOnce s).2 i.
Proof.
  intros Hr K Hi. destruct (drainOnce_tried s) as (s0 & s' & l & -> & D & Tk & R & T & L).
  destruct L as [->|[_ NR]]; [|done]. destruct (tried_all_one _ _ _ i Hr T (batch_NoDup _ _ K) Hi) as (r & s1 & s2 & t & Tk1 & Ea & Ep).
  exists r, s1, s2, t. simpl. split; [lia|]. split; [done|]. by rewrite Ep, (same_state_prog _ _ _ R).
Qed.

Lemma batch_missed s i : keyed s -> db_reliable -> q_id i ∉ q_id <$> batch (w_db (ex_shop s)) (ex_rows s) ->
  prog (drainOnce s).2 (q_id i) = prog s (q_id i).
Proof.
  intros K Hr Hi. destruct (drainOnce_tried s) as (s0 & s' & l & -> & D & Tk & R & T & L). simpl.
  destruct L as [->|[_ NR]]; [|done]. rewrite (tried_all_other _ _ _ _ T Hi). by apply same_state_prog.
Qed.

Lemma batch_id s i : keyed s -> i ∈ items_of s -> q_id i ∈ q_id <$> batch (w_db (ex_shop s)) (ex_rows s) -> i ∈ batch (w_db (ex_shop s)) (ex_rows s).
Proof.
  intros K Hi (j & Ej & Hj)%list_elem_of_fmap. pose proof (batch_items _ _ _ Hj) as [Hj2 _].
  by apply (keyed_eq s) in Ej as ->.
Qed.

Lemma tick_moves s i : db_reliable -> keyed s -> i ∈ items_of s -> is_pending (ex_rows s) i = true ->
  reached s (drainOnce s).2 i \/
  prog (drainOnce s).2 (q_id i) = prog s (q_id i) /\ ahead (drainOnce s).2 i + q_limit <= ahead s i.
Proof.
  intros Hr K Hi Hp. set (b := batch (w_db (ex_shop s)) (ex_rows s)).
  destruct (decide (q_id i ∈ q_id <$> b)) as [Hb|Hb]; [left; apply batch_reached; [done|done|by apply batch_id]|].
  right. split; [by apply batch_missed|].
  assert (i ∉ b) as Hib by (intros H; apply Hb; by apply list_elem_of_fmap_2).
  destruct (batch_full _ _ _ Hi Hp Hib) as [Hl Hc]. fold b in Hl, Hc. rewrite <- Hl.
  assert (forall j, j ∈ b -> S (budget (ex_rows (drainOnce s).2) j) <= budget (ex_rows s) j) as Hd.
  { intros j Hj. pose proof (batch_items _ _ _ Hj) as [_ Hkp]. destruct (batch_reached s j Hr K Hj) as (r & s1 & s2 & t & _ & _ & Ep).
    by eapply budget_result. }
  unfold ahead. rewrite (same_items _ _ (drainOnce_rows s)). apply sum_drop; [eapply NoDup_fmap_1, batch_NoDup, K| | |exact Hd].
  - intros j Hj. pose proof (batch_items _ _ _ Hj) as [Hj2 _]. apply elem_of_select. split; [|done]. unfold before.
    apply andb_true_iff. split; [by apply Z.leb_le, Hc|]. apply negb_true_iff, N.eqb_neq. intros Ej. apply Hb. rewrite <- Ej. by apply list_elem_of_fmap_2.
  - intros j Hj. apply elem_of_select in Hj as [_ Hj]. destruct (decide (q_id j ∈ q_id <$> b)) as [Hjb|Hjb].
    + apply batch_id, Hd in Hjb; [lia|done..].
    + by rewrite (budget_prog s) by by apply batch_missed.
Qed.

Lemma enqueued_ahead s s' i : enqueued (fun j => (q_created_at i < q_created_at j)%Z) s s' -> ahead s' i = ahead s i.
Proof.
  intros E. destruct (en_items _ _ _ E) as (new & P & Hn). unfold ahead.
  assert (select (before i) new = []) as Es.
  { clear P. induction Hn as [|j new [_ Hj] _ IH]; [done|]. simpl. unfold before. destruct (Z.leb_spec (q_created_at j) (q_created_at i)); [lia|done]. }
  rewrite P, select_app, Es, app_nil_r. induction (select (before i) (items_of s)) as [|j l IH]; simpl; [done|].
  rewrite IH. f_equal. apply budget_prog. by eapply enqueued_prog.
Qed.

Lemma ran_rows late n s s' i : i ∈ items_of s -> ran late n s s' -> i ∈ items_of s' /\ w_tick (ex_shop s) <= w_tick (ex_shop s').
Proof.
  intros Hi H. induction H as [|n s s1 H IH|n s s1 s2 H IH E]; [done| |].
  - destruct IH as [H1 T1]; [done|]. pose proof (drainOnce_rows s1) as R. rewrite (same_items _ _ R). destruct R as (_ & _ & T). split; [done|lia].
  - destruct IH as [H1 T1]; [done|]. split; [by eapply enqueued_keeps|]. pose proof (en_tick _ _ _ E). lia.
Qed.

(** As long as the row is not reached, every tick uses up a batch of attempts on older rows; as
    soon as it is, it is done. *)
Lemma ran_reaches n s s' i : db_reliable -> keyed s -> i ∈ items_of s -> is_pending (ex_rows s) i = true ->
  (forall s1, w_tick (ex_shop s) <= w_tick (ex_shop s1) -> exists u s2, q_attempt i s1 = (Ok (inr u), s2)) ->
  ran (fun j => (q_created_at i < q_created_at j)%Z) n s s' ->
  is_Some (pg_done (prog s' (q_id i))) \/
  (prog s' (q_id i) = prog s (q_id i) /\ ahead s' i + n * q_limit <= ahead s i).
Proof.
  intros Hr K Hi Hp Ht H. pose proof (ran_keyed _ _ _ _ K H) as K'. pose proof (ran_rows _ _ _ _ _ Hi H) as [Hi' Tk'].
  induction H as [s|n s s1 H IH|n s s1 s2 H IH E].
  - right. split; [done|lia].
  - pose proof (ran_keyed _ _ _ _ K H) as K1. destruct (ran_rows _ _ _ _ _ Hi H) as [Hi1 Tk1].
    destruct IH as [D|[E A]]; [done..| |].
    + left. rewrite drainOnce_skips; [done| |done|done]. unfold is_pending. unfold prog in D. by destruct D as [t ->].
    + destruct (tick_moves s1 i) as [(r & s2 & s3 & t & Tk & Ea & Ep)|[Ep Ah]]; [done|done|done|by rewrite (pending_prog s)| |].
      * left. destruct (Ht s2) as (u & s4 & Eu); [lia|]. rewrite Ea in Eu. injection Eu as -> _. rewrite Ep. by eexists.
      * right. rewrite Ep. split; [done|]. lia.
  - pose proof (ran_keyed _ _ _ _ K H) as K1. destruct (ran_rows _ _ _ _ _ Hi H) as [Hi1 Tk1].
    rewrite (enqueued_prog _ _ _ _ E), (enqueued_ahead _ _ _ E). by apply IH.
Qed.

Lemma ran_done n s s' i : db_reliable -> keyed s -> i ∈ items_of s -> is_pending (ex_rows s) i = true ->
  (forall s1, w_tick (ex_shop s) <= w_tick (ex_shop s1) -> exists u s2, q_attempt i s1 = (Ok (inr u), s2)) ->
  ran (fun j => (q_created_at i < q_created_at j)%Z) n s s' -> ahead s i < n * q_limit ->
  is_Some (pg_done (prog s' (q_id i))).
Proof. intros Hr K Hi Hp Ht H Hn. destruct (ran_reaches n s s' i) as [D|[_ A]]; [done..|]. lia. Qed.

(** ** An outage longer than the attempts last *)

Definition ticks (k : nat) (s : state) : state := Nat.iter k (fun s => (drainOnce s).2) s.

Lemma ran_ticks late n k s s1 : ran late n s s1 -> ran late (k + n) s (ticks k s1).
Proof. induction k; intros H; simpl; [done|]. constructor. auto. Qed.

Definition waiting (s : state) : list q_item := select (is_pending (ex_rows s)) (items_of s).

Lemma batch_waiting s i : length (waiting s) <= q_limit -> i ∈ items_of s -> is_pending (ex_rows s) i = true ->
  i ∈ batch (w_db (ex_shop s)) (ex_rows s).
Proof.
  intros Hl Hi Hp. unfold batch. rewrite take_ge.
  - rewrite sql_order_perm. apply elem_of_select. by split.
  - by rewrite (Permutation_length (sql_order_perm _ _)).
Qed.

Lemma waiting_shrinks s : keyed s -> db_reliable -> length (waiting (drainOnce s).2) <= length (waiting s).
Proof.
  intros K Hr. unfold waiting. rewrite (same_items _ _ (drainOnce_rows s)).
  assert (forall l, (forall i, i ∈ l -> is_pending (ex_rows (drainOnce s).2) i = true -> is_pending (ex_rows s) i = true) ->
    length (select (is_pending (ex_rows (drainOnce s).2)) l) <= length (select (is_pending (ex_rows s)) l)) as H.
  { induction l as [|i l IH]; intros H; simpl; [done|].
    assert (length (select (is_pending (ex_rows (drainOnce s).2)) l) <= length (select (is_pending (ex_rows s)) l))
      by (apply IH; intros; apply H; [by right|done]).
    destruct (is_pending (ex_rows (drainOnce s).2) i) eqn:E; [rewrite (H i) by (done || left)|destruct (is_pending (ex_rows s) i)]; simpl; lia. }
  apply H. intros i Hi Hp. destruct (is_pending (ex_rows s) i) eqn:E; [done|].
  rewrite <- (pending_prog s (drainOnce s).2) in E; [congruence|]. by apply drainOnce_skips.
Qed.

Lemma ticks_waiting k s : keyed s -> db_reliable -> length (waiting (ticks k s)) <= length (waiting s).
Proof.
  intros K Hr. induction k as [|k IH]; [done|]. etrans; [apply waiting_shrinks; [|done]|exact IH].
  eapply (ran_keyed (fun _ => True)); [exact K|apply (ran_ticks _ 0 k); constructor].
Qed.

(** While every attempt at a row fails, each tick of a short queue uses up one of its attempts. *)
Lemma ticks_fail k s i T : db_reliable -> keyed s -> i ∈ items_of s -> length (waiting s) <= q_limit ->
  pg_done (prog s (q_id i)) = None -> (pg_attempts (prog s (q_id i)) + Z.of_nat k <= q_max_attempts)%Z ->
  (forall s1, w_tick (ex_shop s) <= w_tick (ex_shop s1) <= T -> exists e s2, q_attempt i s1 = (Ok (inl e), s2)) ->
  w_tick (ex_shop (ticks k s)) <= T ->
  pg_done (prog (ticks k s) (q_id i)) = None /\
  pg_attempts (prog (ticks k s) (q_id i)) = (pg_attempts (prog s (q_id i)) + Z.of_nat k)%Z.
Proof.
  intros Hr K Hi Hl Hd Ha Hf HT. induction k as [|k IH]; [unfold ticks; simpl; split; [done|lia]|].
  assert (ran (fun _ => True) (k + 0) s (ticks k s)) as R by (apply ran_ticks; constructor).
  pose proof (ran_keyed _ _ _ _ K R) as K1. destruct (ran_rows _ _ _ _ _ Hi R) as [Hi1 Tk0].
  pose proof (ticks_waiting k s K Hr) as Hl1.
  change (ticks (S k) s) with (drainOnce (ticks k s)).2 in *. pose proof (drainOnce_rows (ticks k s)) as (_ & _ & Tk).
  destruct IH as [D A]; [lia|lia|]. set (s1 := ticks k s) in *.
  assert (is_pending (ex_rows s1) i = true) as Hp.
  { unfold is_pending, prog in *. rewrite D. simpl. apply Z.ltb_lt. rewrite A. lia. }
  destruct (batch_reached s1 i Hr K1) as (r & s2 & s3 & t & Tk2 & Ea & Ep); [apply batch_waiting; [lia|done|done]|].
  destruct (Hf s2) as (e & s4 & Ee); [lia|]. rewrite Ea in Ee. injection Ee as -> _. rewrite Ep. simpl. split; [done|lia].
Qed.
End laws.
End queue.
