(* ===== verification/EventOutbox.v ===== *)
(** The outbox of stock events: src/internal/adapter/nats/outbox_worker.go over
    src/internal/adapter/repo/event_outbox/store.go and the publishers of
    adapter/nats/publisher.go, as a [RetryQueue] over the rows that recording a movement writes
    (StockRecord.v).

    The message of a row is its subject and payload, which the row determines, so what has
    reached the broker is kept as the rows it was sent for.  The broker is outside the program:
    [broker_at] says what becomes of a message sent at a count of calls; a message can arrive
    without its acknowledgement. *)
From S2P Require Import Prelude GoStrings Rounding Decimal SDec Types StockDomain BillDomain Store StockRepo StockCalc Concrete WAC StockRecord StockLedger ExtStore RetryQueue.
From stdpp Require Import base tactics strings gmap list.
From Stdlib Require Import ZArith Lia.

#[local] Open Scope string_scope.

Section event_outbox.
Context {ops : DecimalOps} {env : Env}.

(** [nats_live]: the process has a JetStream publisher, not the no-op one. *)
Class Nats := { nats_live : bool; broker_at : nat -> OutboxRow -> outcome }.

(** The columns the worker writes, and what the broker has received. *)
Record EventRows := mkEventRows { er_progress : gmap uuid Progress; er_received : list OutboxRow }.

Context {nats : Nats}.

(** jsPublisher.Publish *)
Definition publish_error (i : OutboxRow) : error := EWrap ("nats publisher: publish to " ++ ob_subject i) (EMsg "nats").
Definition jsPublish (i : OutboxRow) : XM (X:=EventRows) (error + unit) := fun s =>
  let w := bump (ex_shop s) in let x := ex_rows s in
  let received := mkEventRows (er_progress x) (er_received x ++ [i]) in
  match broker_at (w_tick (ex_shop s)) i with
  | Acknowledged => (Ok (inr tt), mkExt w received)
  | Unacknowledged => (Ok (inl (publish_error i)), mkExt w received)
  | Refused => (Ok (inl (publish_error i)), mkExt w x)
  end.

(** noopPublisher.Publish *)
Definition noopPublish (i : OutboxRow) : XM (X:=EventRows) (error + unit) := mret (inr tt).

Definition Publish (i : OutboxRow) : XM (X:=EventRows) (error + unit) := if nats_live then jsPublish i else noopPublish i.

Definition outboxDrainLimit : nat := 100.
Definition MaxOutboxAttempts : Z := 10.

#[export] Instance EventOutbox : RetryQueue EventRows := {
  q_item := OutboxRow;
  q_id := ob_id;
  q_created_at := ob_created_at;
  q_items d _ := db_outbox d;
  q_progress := er_progress;
  q_with_progress x p := mkEventRows p (er_received x);
  q_name := "event_outbox";
  q_limit := outboxDrainLimit;
  q_max_attempts := MaxOutboxAttempts;
  q_attempt := Publish;
  q_handed i x := i ∈ er_received x;
}.

(** ** Laws *)

#[export] Instance EventOutboxLaws : RetryQueueLaws EventRows EventOutbox.
Proof.
  split; simpl; try done. intros i s. unfold Publish. destruct nats_live; [unfold jsPublish|].
  - destruct (broker_at _ i); do 3 eexists; (split; [reflexivity|]); simpl; split_and!; try done; lia.
  - destruct s as [w x]. by exists (inr tt), w, x.
Qed.

Lemma EventHandover : nats_live = true -> HandoverLaws EventRows EventOutbox.
Proof.
  intros Hlive. split; simpl; try done; unfold Publish; rewrite Hlive; unfold jsPublish.
  - intros i j s r s' H Hi. destruct (broker_at _ j); injection H as <- <-; simpl; first [done|apply elem_of_app; by left].
  - intros i s u s' H. destruct (broker_at _ i); [|done..]. injection H as _ <-. simpl. apply elem_of_app. right. by left.
Qed.

(** ** From a movement to the broker *)

Section announced.
Context {laws : DecimalLaws ops} {env_laws : EnvLaws env} {wiring : Wiring} {calc : InventoryCalculator} {CL : CalculatorLaws calc}.

(** The row tells of the movement that was recorded. *)
Record tells (r : RecordMovementRequest) (snap : Snapshot) (q : dec) (row : OutboxRow) : Prop := {
  tl_subject : ob_subject row = outbox_subject;
  tl_tenant : ob_tenant row = rq_tenant r;
  tl_product : ob_product row = rq_product r;
  tl_warehouse : ob_warehouse row = rq_warehouse r;
  tl_direction : ob_direction row = rq_direction r;
  tl_qty : ob_qty_delta row = q;
  tl_after : ob_on_hand_after row = sn_on_hand snap;
}.

Lemma Execute_event r w snap w' : has_outbox = true -> Execute r w = (Ok snap, w') ->
  exists q row, convertToBase (rq_qty r) (rq_conv_factor r) = inr q /\ tells r snap q row /\
    db_outbox (w_db w') = (db_outbox (w_db w) ++ [row])%list.
Proof.
  intros Ho. unfold Execute. rewrite Ho. intros H.
  apply bind_Ok in H as (m & w1 & Hp & H). apply prepare_Ok in Hp as (E1 & _ & Hd & _ & _ & _ & q & id & t & Hq & ->).
  apply WithTx_Ok in H as (w9 & H & -> & _).
  apply bind_Ok in H as (? & w2 & Hl & H). minv Hl.
  pose proof (keeps_run _ _ _ _ _ (keeps_AcquireAdvisoryLock eq _ _ _) Hl) as [E2 _].
  apply bind_Ok in H as (? & w3 & Hv & H).
  pose proof (keeps_run _ _ _ _ _ (validate_reads _) Hv) as [E3 _].
  apply bind_Ok in H as ([m' s'] & w4 & Ha & H). minv Ha. apply apply_effect in Ha; [|done].
  unfold enqueueOutbox in H. minv H. exists q. eexists. split; [done|].
  assert (db_outbox (w_db w4) = db_outbox (w_db w)) as Eo.
  { transitivity (db_outbox (w_db w3)); [|rewrite <- E3, <- E2; simpl; by rewrite E1].
    change (db_outbox (strip_stock (w_db w4)) = db_outbox (strip_stock (w_db w3))). by rewrite (se_rest _ _ _ _ _ Ha). }
  destruct (se_same _ _ _ _ _ Ha) as (_ & Ek & Ed & Eq & _). injection Ek as _ Ep Ew. simpl in *.
  split; [|simpl; by rewrite Eo]. by split.
Qed.

(** ** The worker over its whole life *)

Abbreviation state := (Ext EventRows).
Definition mk_state (w : World) (x : EventRows) : state := mkExt w x.

(** A published row was received: at least once. *)
Definition published (s : state) (row : OutboxRow) : Prop := is_Some (pg_done (prog s (ob_id row))).
Definition honest_outbox (s : state) : Prop := forall row, row ∈ db_outbox (w_db (ex_shop s)) -> published s row ->
  row ∈ er_received (ex_rows s).
(** The worker's columns are columns of the rows. *)
Definition progress_of_rows (x : EventRows) (l : list OutboxRow) : Prop :=
  forall id, is_Some (er_progress x !! id) -> id ∈ ob_id <$> l.
Definition later_than (row j : OutboxRow) : Prop := (ob_created_at row < ob_created_at j)%Z.

Lemma tried_received i s s' row : tried (X:=EventRows) i s s' -> row ∈ er_received (ex_rows s') ->
  row ∈ er_received (ex_rows s) \/ row = i /\ broker_at (w_tick (ex_shop s)) row <> Refused.
Proof.
  intros (r & s1 & t & Ea & D) H. assert (row ∈ er_received (ex_rows s1)) as H1 by by destruct D as [D|[D _]]; rewrite D in H.
  simpl in Ea. unfold Publish, jsPublish, noopPublish in Ea. destruct nats_live; [|injection Ea as _ <-; by left].
  destruct (broker_at _ i) eqn:E; injection Ea as _ <-; simpl in H1; [|by left|];
    (apply elem_of_app in H1 as [H1| ->%list_elem_of_singleton]; [by left|right; by rewrite E]).
Qed.

Lemma tried_all_received l s s' row : tried_all (X:=EventRows) l s s' -> row ∈ er_received (ex_rows s') ->
  row ∈ er_received (ex_rows s) \/ row ∈ l /\ exists n, w_tick (ex_shop s) <= n <= w_tick (ex_shop s') /\ broker_at n row <> Refused.
Proof.
  induction 1 as [|i l s s1 s2 R T H IH]; [by left|]. intros Hr. pose proof (tried_all_rows _ _ _ H) as R2.
  destruct R as (_ & _ & T1), R2 as (_ & _ & T2). destruct (IH Hr) as [H1|(H1 & n & Hn & Hb)].
  - destruct (tried_received _ _ _ _ T H1) as [?|[-> Hb]]; [by left|]. right. split; [left|]. exists (w_tick (ex_shop s)). split; [lia|done].
  - right. split; [by right|]. exists n. split; [lia|done].
Qed.

(** What a tick sends is a pending row the broker did not refuse. *)
Lemma drainOnce_received (s : state) row : row ∈ er_received (ex_rows (drainOnce s).2) ->
  row ∈ er_received (ex_rows s) \/ row ∈ db_outbox (w_db (ex_shop s)) /\ is_pending (ex_rows s) row = true /\
    exists n, w_tick (ex_shop s) <= n <= w_tick (ex_shop (drainOnce s).2) /\ broker_at n row <> Refused.
Proof.
  destruct (drainOnce_tried s) as (s0 & s' & l & -> & D & Tk & R & T & L). simpl. intros H.
  destruct (tried_all_received _ _ _ _ T H) as [H1|(Hl & n & Hn & Hb)]; [left; by rewrite <- R|].
  right. destruct L as [->|[-> _]]; [|by apply elem_of_nil in Hl]. apply batch_items in Hl as [Hl Hp].
  split_and!; [done|done|]. exists n. split; [lia|done].
Qed.

Lemma ran_unreceived late n s s' row : keyed s -> row ∈ db_outbox (w_db (ex_shop s)) -> is_pending (ex_rows s) row = false ->
  row ∉ er_received (ex_rows s) -> ran (X:=EventRows) late n s s' -> row ∉ er_received (ex_rows s').
Proof.
  intros K Hi Hp Hn H. induction H as [|n s s1 H IH|n s s1 s2 H IH E]; [done| |].
  - intros [Hr|(_ & Hp1 & _)]%drainOnce_received; [by apply IH|].
    rewrite (pending_prog s s1) in Hp1; [congruence|]. by apply (ran_given_up late n s s1).
  - intros Hr. apply IH; [done..|]. by apply (en_handed _ _ _ E).
Qed.

Lemma ticks_unreceived k s row T : (forall m, w_tick (ex_shop s) <= m <= T -> broker_at m row = Refused) ->
  w_tick (ex_shop (ticks k s)) <= T -> row ∉ er_received (ex_rows s) -> row ∉ er_received (ex_rows (ticks k s)).
Proof.
  intros Hb HT Hn. induction k as [|k IH]; [done|]. change (ticks (S k) s) with (drainOnce (ticks k s)).2 in *.
  pose proof (drainOnce_rows (ticks k s)) as (_ & _ & Tk).
  assert (w_tick (ex_shop s) <= w_tick (ex_shop (ticks k s))) as T0.
  { clear. induction k as [|k IH]; [done|]. pose proof (drainOnce_rows (ticks k s)) as (_ & _ & Tk).
    change (ticks (S k) s) with (drainOnce (ticks k s)).2. lia. }
  intros [H|(_ & _ & m & Hm & Hr)]%drainOnce_received; [apply IH; [lia|done]|]. apply Hr, Hb. lia.
Qed.

(** ** Theorems *)

(** Every row marked as published has been received by the broker, after any number of ticks and
    whatever was queued in between. *)
Theorem published_was_received n s s' : nats_live = true -> keyed s -> honest_outbox s ->
  ran (X:=EventRows) (fun _ => True) n s s' -> honest_outbox s'.
Proof. intros Hl K H R. pose proof (EventHandover Hl). exact (ran_honest (X:=EventRows) _ n s s' K H R). Qed.

(** C38: A recorded movement is announced.  With the outbox wired, a live publisher and a database that
    answers, the transaction of a movement leaves a row that tells of it; and if the broker
    acknowledges that row whenever it is sent from then on, and only later rows are queued in the
    meantime, the row is received by the broker and marked as published after [n] ticks, as soon as
    [n] batches come to more than the attempts the rows ahead of it can take. *)
Theorem recorded_movement_is_announced r w x snap w' n s' : has_outbox = true -> nats_live = true -> db_reliable ->
  Execute r w = (Ok snap, w') ->
  progress_of_rows x (db_outbox (w_db w)) -> keyed (mk_state w' x) ->
  exists q row, convertToBase (rq_qty r) (rq_conv_factor r) = inr q /\ tells r snap q row /\ row ∈ db_outbox (w_db w') /\
    ((forall m, w_tick w' <= m -> broker_at m row = Acknowledged) -> ran (X:=EventRows) (later_than row) n (mk_state w' x) s' ->
     ahead (mk_state w' x) row < n * outboxDrainLimit -> published s' row /\ row ∈ er_received (ex_rows s')).
Proof.
  intros Ho Hl Hr H Hp K. destruct (Execute_event _ _ _ _ Ho H) as (q & row & Hq & Ht & Hd).
  exists q, row. assert (row ∈ db_outbox (w_db w')) as Hi by (rewrite Hd; apply elem_of_app; right; left).
  assert (er_progress x !! ob_id row = None) as Hnew.
  { destruct (er_progress x !! ob_id row) eqn:E; [|done]. exfalso. pose proof (mk_is_Some _ _ E) as Ex. apply Hp in Ex.
    unfold keyed, items_of in K. simpl in K. rewrite Hd, fmap_app in K. apply NoDup_app in K as (_ & K & _). apply (K _ Ex). left. }
  split_and!; [done..|]. intros Hb R Ha.
  assert (published s' row) as D.
  { refine (ran_done (X:=EventRows) n _ _ row Hr K Hi _ _ R Ha).
    - unfold is_pending, progress_of. simpl. by rewrite Hnew.
    - intros s1 T1. simpl. unfold Publish, jsPublish. rewrite Hl, (Hb _ T1). by do 2 eexists. }
  split; [done|]. pose proof (EventHandover Hl).
  refine (ran_honest_row (X:=EventRows) (later_than row) n (mk_state w' x) s' row K Hi _ R D).
  intros Di. unfold prog, progress_of in Di. simpl in Di. rewrite Hnew in Di. by destruct Di.
Qed.

(** An outage of as many polls as a row has attempts loses the row: refused at each of them, it
    is not sent when the broker is back, however often the worker polls. *)
Theorem outage_loses_event n s s' row T : nats_live = true -> db_reliable -> keyed s -> row ∈ db_outbox (w_db (ex_shop s)) ->
  length (waiting s) <= outboxDrainLimit -> prog s (ob_id row) = queued_progress -> row ∉ er_received (ex_rows s) ->
  (forall m, w_tick (ex_shop s) <= m <= T -> broker_at m row = Refused) ->
  w_tick (ex_shop (ticks (Z.to_nat MaxOutboxAttempts) s)) <= T ->
  ran (X:=EventRows) (fun _ => True) n (ticks (Z.to_nat MaxOutboxAttempts) s) s' ->
  ~ published s' row /\ row ∉ er_received (ex_rows s').
Proof.
  intros Hl Hr K Hi Hw Hq Hn Hb HT R. set (k := Z.to_nat MaxOutboxAttempts) in *.
  pose proof (ran_ticks (X:=EventRows) (fun _ => True) 0 k s s (ran_start _ _)) as R0.
  destruct (ticks_fail (Q:=EventOutbox) k s row T) as [Hd Ha]; [done..|simpl; by rewrite Hq|simpl; by rewrite Hq| |done|].
  { intros s1 T1. simpl. unfold Publish, jsPublish. rewrite Hl, (Hb _ T1). by do 2 eexists. }
  simpl in Hd, Ha. rewrite Hq in Ha.
  assert (is_pending (ex_rows (ticks k s)) row = false) as Hg.
  { unfold is_pending, prog in *. simpl. rewrite Ha. apply andb_false_r. }
  pose proof (ran_keyed _ _ _ _ K R0) as K1. pose proof (ran_rows (Q:=EventOutbox) _ _ _ _ row Hi R0) as [Hi1 _]. split.
  - pose proof (ran_given_up (Q:=EventOutbox) _ _ _ _ row K1 Hi1 Hg R) as Eg. simpl in Eg. unfold published. rewrite Eg, Hd. by intros [].
  - exact (ran_unreceived _ _ _ _ _ K1 Hi1 Hg (ticks_unreceived k s row T Hb HT Hn) R).
Qed.

(** The no-op publisher sends nothing, and the worker marks the rows as published all the same. *)
Theorem noop_publisher_marks_rows s row : nats_live = false -> db_reliable -> keyed s -> row ∈ db_outbox (w_db (ex_shop s)) ->
  is_pending (ex_rows s) row = true -> length (waiting s) <= outboxDrainLimit ->
  published (drainOnce s).2 row /\ er_received (ex_rows (drainOnce s).2) = er_received (ex_rows s).
Proof.
  intros Hl Hr K Hi Hp Hw. split.
  - destruct (batch_reached (Q:=EventOutbox) s row Hr K) as (r & s1 & s2 & t & _ & Ea & Ep); [by apply batch_waiting|].
    simpl in Ea. unfold Publish, noopPublish in Ea. rewrite Hl in Ea. injection Ea as <- _. unfold published. simpl in Ep. rewrite Ep. by eexists.
  - destruct (drainOnce_tried s) as (s0 & s' & l & -> & D & Tk & R & T & L). rewrite <- R. simpl. clear - T Hl.
    induction T as [|i l s s1 s2 R T H IH]; [done|]. rewrite IH. destruct T as (r & s3 & t & Ea & D).
    simpl in Ea. unfold Publish, noopPublish in Ea. rewrite Hl in Ea. injection Ea as _ <-. by destruct D as [->|[-> _]].
Qed.
End announced.
End event_outbox.

(** ** Witnesses: the sale of 4 pieces, told to the broker at the next tick *)
Section examples.
#[local] Definition ex_nats (live : bool) (b : nat -> outcome) : Nats := {| nats_live := live; broker_at n _ := b n |}.
#[local] Instance ex_broker : Nats := ex_nats true (fun _ => Acknowledged).

Definition ex_rows_none : EventRows := mkEventRows ∅ [].
Definition ex_sold : World := (Execute (calc := WACCalculator) ex_sell4 ex_shelf).2.
Definition ex_queue : Ext EventRows := mkExt ex_sold ex_rows_none.
Definition ex_event : OutboxRow := List.hd (mkOutboxRow 0%N 0%Z 0%N EmptyString 0%N 0%Z 0%N 0%N DirectionIn dzero dzero dzero RefSale) (db_outbox (w_db ex_sold)).

Lemma ex_sold_outbox : db_outbox (w_db ex_sold) = [ex_event].
Proof. vm_compute. reflexivity. Qed.

Lemma recorded_movement_is_announced_witness :
  exists row, ob_qty_delta row = D 4 0 /\ ob_on_hand_after row = D 6 0 /\ row ∈ er_received (ex_rows (drainOnce ex_queue).2).
Proof.
  run_ok (Execute (calc := WACCalculator) ex_sell4 ex_shelf) as snap w' H.
  assert (match (Execute (calc := WACCalculator) ex_sell4 ex_shelf).1 with Ok s => sn_on_hand s = D 6 0 | _ => False end) as Es
    by (vm_compute; reflexivity). rewrite H in Es. simpl in Es.
  assert (w' = ex_sold) as -> by exact (eq_sym (f_equal snd H)).
  destruct (recorded_movement_is_announced (calc := WACCalculator) ex_sell4 ex_shelf ex_rows_none snap ex_sold 1 (drainOnce ex_queue).2)
    as (q & row & Hq & Ht & Hrow & Hrun).
  - reflexivity.
  - reflexivity.
  - by intros n.
  - exact H.
  - intros id [? E]. simpl in E. by rewrite lookup_empty in E.
  - unfold keyed, items_of. simpl. rewrite ex_sold_outbox. apply NoDup_singleton.
  - rewrite ex_sold_outbox in Hrow. apply list_elem_of_singleton in Hrow as ->. exists ex_event. split_and!.
    + rewrite (tl_qty _ _ _ _ Ht). vm_compute in Hq. by injection Hq as <-.
    + by rewrite (tl_after _ _ _ _ Ht).
    + apply Hrun; [by intros|constructor; constructor|]. apply (bool_decide_unpack _). vm_compute. exact I.
Defined.

Lemma published_was_received_witness : honest_outbox (nats := ex_broker) (ticks 2 ex_queue).
Proof.
  apply (published_was_received (nats := ex_broker) 2 ex_queue).
  - reflexivity.
  - unfold keyed, items_of. simpl. rewrite ex_sold_outbox. apply NoDup_singleton.
  - intros row _ D. by destruct D.
  - do 2 constructor. constructor.
Defined.
End examples.

Section outage.
(** The broker is away for the first ten polls. *)
#[local] Instance ex_outage : Nats := ex_nats true (fun n => if Nat.leb n 170 then Refused else Acknowledged).

Lemma outage_loses_event_witness : ex_event ∉ er_received (ex_rows (ticks 2 (ticks 10 ex_queue))).
Proof.
  apply (outage_loses_event (nats := ex_outage) 2 ex_queue (ticks 2 (ticks 10 ex_queue)) ex_event 170).
  - reflexivity.
  - by intros n.
  - unfold keyed, items_of. simpl. rewrite ex_sold_outbox. apply NoDup_singleton.
  - simpl. rewrite ex_sold_outbox. left.
  - apply (bool_decide_unpack _). vm_compute. exact I.
  - reflexivity.
  - apply not_elem_of_nil.
  - intros m [_ Hm]. simpl. apply Nat.leb_le in Hm. by rewrite Hm.
  - apply (bool_decide_unpack _). vm_compute. exact I.
  - do 2 constructor. constructor.
Defined.
End outage.

Section noop.
#[local] Instance ex_noop : Nats := ex_nats false (fun _ => Refused).

Lemma noop_publisher_marks_rows_witness :
  published (nats := ex_noop) (drainOnce ex_queue).2 ex_event /\ er_received (ex_rows (drainOnce ex_queue).2) = [].
Proof.
  apply (noop_publisher_marks_rows (nats := ex_noop) ex_queue ex_event).
  - reflexivity.
  - by intros n.
  - unfold keyed, items_of. simpl. rewrite ex_sold_outbox. apply NoDup_singleton.
  - simpl. rewrite ex_sold_outbox. left.
  - reflexivity.
  - apply (bool_decide_unpack _). vm_compute. exact I.
Defined.
End noop.
