(* ===== verification/UsageReport.v ===== *)
(** Metering of the assistant's tokens: src/internal/adapter/usagereport/reporter.go (the sink the
    assistant's calls report to and the workers that post them to the billing platform),
    retry_worker.go and outbox.go (what could not be posted is queued and tried again), over
    src/internal/adapter/repo/usage_report_outbox/store.go, GetPlatformAccountID of
    src/internal/adapter/repo/tenant/repo.go and ReportUsageEvent of
    src/internal/adapter/platform/usage.go, as a [RetryQueue].

    The platform is outside the program: [platform_at] says what becomes of a post sent at a
    count of calls, and [ur_posts] is what has reached it.  The tenant registry is written by
    onboarding: [registered_at] is its row at a count of calls.  The two workers take events off
    the channel in order; here one finishes an event before the next is taken. *)
From S2P Require Import Prelude GoStrings Rounding Decimal SDec Types StockDomain BillDomain Store StockCalc Concrete ExtStore RetryQueue EventOutbox.
From stdpp Require Import base tactics strings gmap list.
From Stdlib Require Import ZArith Lia.

#[local] Open Scope string_scope.

Section usage_report.
Context {ops : DecimalOps} {env : Env}.

(** ** Data *)

Record UsageEventRequest := mkUsageEventRequest {
  ue_account : Z; ue_product : string; ue_metric : string; ue_quantity : Z; ue_occurred_at : time;
  ue_key : string; ue_tenant : string; ue_model : string; ue_prompt : Z; ue_completion : Z;
  ue_source : string; ue_retry_reason : option string }.

(** event *)
Record Event := mkEvent { ev_id : uuid; ev_tenant : string; ev_model : string; ev_prompt : Z; ev_completion : Z; ev_occurred_at : time }.

(** PendingUsageRow, with the column the store adds *)
Record PendingUsageRow := mkPendingUsageRow {
  pu_id : uuid; pu_tenant : uuid; pu_model : string; pu_prompt : Z; pu_completion : Z; pu_occurred_at : time;
  pu_reason : string; pu_created_at : time }.

Record UsageRows := mkUsageRows {
  ur_rows : list PendingUsageRow;
  ur_progress : gmap uuid Progress;
  ur_cache : gmap string Z;
  ur_queue : list Event;
  ur_posts : list UsageEventRequest }.

Class BillingPlatform := {
  platform_at : nat -> UsageEventRequest -> outcome;
  registered_at : nat -> uuid -> option (option Z) }.
Context {platform : BillingPlatform}.
Abbreviation UM := (XM (X:=UsageRows)).

Definition memory (f : UsageRows -> UsageRows) : UM unit := fun s => (Ok tt, mkExt (ex_shop s) (f (ex_rows s))).
Definition set_rows (x : UsageRows) l := mkUsageRows l (ur_progress x) (ur_cache x) (ur_queue x) (ur_posts x).
Definition set_usage_progress (x : UsageRows) p := mkUsageRows (ur_rows x) p (ur_cache x) (ur_queue x) (ur_posts x).
Definition set_cache (x : UsageRows) c := mkUsageRows (ur_rows x) (ur_progress x) c (ur_queue x) (ur_posts x).
Definition set_queue (x : UsageRows) q := mkUsageRows (ur_rows x) (ur_progress x) (ur_cache x) q (ur_posts x).
Definition set_posts (x : UsageRows) l := mkUsageRows (ur_rows x) (ur_progress x) (ur_cache x) (ur_queue x) l.

Definition ProductID : string := "tally".
Definition MetricLLMTokens : string := "llm_tokens".
Definition defaultBuffer : nat := 256.
Definition usageRetryDrainLimit : nat := 100.
Definition MaxUsageOutboxAttempts : Z := 10.
Definition usageIdemKey (id : uuid) : string := "tally-usage-" ++ uuid_string id.
(** int64 arithmetic. *)
Definition int64 (z : Z) : Z := ((z + 2^63) mod 2^64 - 2^63)%Z.

(** ** The platform client *)

(** Client.ReportUsageEvent *)
Definition account_error : error := EMsg "account_id is required".
Definition product_error : error := EMsg "product_id and metric are required".
Definition ReportUsageEvent (req : UsageEventRequest) : UM (error + unit) := fun s =>
  if Z.leb (ue_account req) 0 then (Ok (inl account_error), s)
  else if String.eqb (ue_product req) "" || String.eqb (ue_metric req) "" then (Ok (inl product_error), s)
  else
    let w := bump (ex_shop s) in let x := ex_rows s in
    match platform_at (w_tick (ex_shop s)) req with
    | Acknowledged => (Ok (inr tt), mkExt w (set_posts x (ur_posts x ++ [req])%list))
    | Unacknowledged => (Ok (inl (EMsg "platform")), mkExt w (set_posts x (ur_posts x ++ [req])%list))
    | Refused => (Ok (inl (EMsg "platform")), mkExt w x)
    end.

(** TenantRepo.GetPlatformAccountID *)
Definition account_of (row : option (option Z)) : option Z :=
  match row with
  | Some (Some a) => if Z.leb a 0 then None else Some a
  | _ => None
  end.
Definition GetPlatformAccountID (tenant : uuid) : UM (option Z) := fun s =>
  ext_query "tenant repo get platform account id" (fun _ => account_of (registered_at (w_tick (ex_shop s)) tenant)) s.

(** ** The reporter *)

(** Reporter.Record: the send to the channel evaluates the event first, and drops it when the
    channel is full. *)
Definition RecordUsage (model : string) (prompt completion : Z) (tenant : string) : UM unit :=
  if Z.leb prompt 0 && Z.leb completion 0 then mret tt
  else if String.eqb tenant "" || String.eqb tenant "unknown" then mret tt
  else
    id ← lift uuid_new;
    now ← lift time_now;
    memory (fun x =>
      if Nat.ltb (length (ur_queue x)) defaultBuffer
      then set_queue x (ur_queue x ++ [mkEvent id tenant model prompt completion now])%list else x).

(** Store.Enqueue: the id is the primary key, the counts are INTEGER columns. *)
Definition int32_fits (z : Z) : bool := Z.leb (-2147483648) z && Z.leb z 2147483647.
Definition insert_check (row : PendingUsageRow) (x : UsageRows) : error + (unit * UsageRows) :=
  if existsb (fun i => N.eqb (pu_id i) (pu_id row)) (ur_rows x) then inl (EMsg "duplicate key")
  else if int32_fits (pu_prompt row) && int32_fits (pu_completion row) then inr (tt, x)
  else inl (EMsg "integer out of range").
Definition Enqueue (mk : uuid -> time -> PendingUsageRow) (id : uuid) : UM unit :=
  ext_query "usage_report_outbox: enqueue begin tx" (fun _ => tt);;
  ext_query "usage_report_outbox: enqueue set tenant" (fun _ => tt);;
  id ← (if N.eqb id uuid_nil then lift uuid_new else mret id);
  now ← lift time_now;
  ext_statement "usage_report_outbox: enqueue" (insert_check (mk id now));;
  ext_update "commit" (fun x => set_rows x (ur_rows x ++ [mk id now])%list).

(** enqueueForRetry, with the store wired *)
Definition row_of (ev : Event) (tenant : uuid) (reason : string) (id : uuid) (now : time) : PendingUsageRow :=
  mkPendingUsageRow id tenant (ev_model ev) (ev_prompt ev) (ev_completion ev) (ev_occurred_at ev) reason now.
Definition enqueueForRetry (ev : Event) (tenant : uuid) (reason : string) : UM unit :=
  try (Enqueue (row_of ev tenant reason) (ev_id ev));; mret tt.

(** resolveAccount: what was found once is kept. *)
Definition resolveAccount (tenant : uuid) : UM (string + Z) := fun s =>
  match ur_cache (ex_rows s) !! uuid_string tenant with
  | Some a => (Ok (inr a), s)
  | None => (
      r ← try (GetPlatformAccountID tenant);
      match r with
      | inl _ => mret (inl "resolve_error")
      | inr None => mret (inl "no_account")
      | inr (Some a) => memory (fun x => set_cache x (<[uuid_string tenant := a]> (ur_cache x)));; mret (inr a)
      end) s
  end.

Definition event_request (ev : Event) (account : Z) : UsageEventRequest := {|
  ue_account := account; ue_product := ProductID; ue_metric := MetricLLMTokens;
  ue_quantity := int64 (ev_prompt ev + ev_completion ev); ue_occurred_at := ev_occurred_at ev;
  ue_key := usageIdemKey (ev_id ev); ue_tenant := ev_tenant ev; ue_model := ev_model ev;
  ue_prompt := ev_prompt ev; ue_completion := ev_completion ev; ue_source := "ai_assistant"; ue_retry_reason := None |}.

(** process *)
Definition process (ev : Event) : UM unit :=
  match uuid_parse (ev_tenant ev) with
  | None => mret tt
  | Some tenant =>
      r ← resolveAccount tenant;
      match r with
      | inl reason => enqueueForRetry ev tenant reason
      | inr account =>
          r ← ReportUsageEvent (event_request ev account);
          match r with
          | inl _ => enqueueForRetry ev tenant "post_error"
          | inr _ => mret tt
          end
      end
  end.

(** A worker of Start: the next event of the channel, if there is one. *)
Definition work : UM unit := fun s =>
  match ur_queue (ex_rows s) with
  | [] => (Ok tt, s)
  | ev :: q => (memory (fun x => set_queue x q);; process ev) s
  end.

(** ** The retry worker *)

Definition row_request (i : PendingUsageRow) (account : Z) : UsageEventRequest := {|
  ue_account := account; ue_product := ProductID; ue_metric := MetricLLMTokens;
  ue_quantity := int64 (pu_prompt i + pu_completion i); ue_occurred_at := pu_occurred_at i;
  ue_key := usageIdemKey (pu_id i); ue_tenant := uuid_string (pu_tenant i); ue_model := pu_model i;
  ue_prompt := pu_prompt i; ue_completion := pu_completion i; ue_source := "ai_assistant";
  ue_retry_reason := Some (pu_reason i) |}.

(** RetryWorker.processRow up to the writing of its result *)
Definition retry (i : PendingUsageRow) : UM (error + unit) :=
  r ← try (GetPlatformAccountID (pu_tenant i));
  match r with
  | inl e => mret (inl (EWrap "resolve" e))
  | inr None => mret (inl (EMsg "still no platform account for tenant"))
  | inr (Some account) =>
      r ← ReportUsageEvent (row_request i account);
      match r with
      | inl e => mret (inl (EWrap "post" e))
      | inr u => mret (inr u)
      end
  end.

(** A post that reports the row. *)
Definition row_reported (i : PendingUsageRow) (x : UsageRows) : Prop := exists account, row_request i account ∈ ur_posts x.

#[export] Instance UsageOutbox : RetryQueue UsageRows := {
  q_item := PendingUsageRow;
  q_id := pu_id;
  q_created_at := pu_created_at;
  q_items _ x := ur_rows x;
  q_progress := ur_progress;
  q_with_progress := set_usage_progress;
  q_name := "usage_report_outbox";
  q_limit := usageRetryDrainLimit;
  q_max_attempts := MaxUsageOutboxAttempts;
  q_attempt := retry;
  q_handed := row_reported;
}.

(** ** What the steps do *)

(** The state but for the posts: what trying to report leaves alone. *)
Definition same_but_posts (s s' : Ext UsageRows) : Prop := w_db (ex_shop s') = w_db (ex_shop s) /\
  w_tick (ex_shop s) <= w_tick (ex_shop s') /\ exists l, ex_rows s' = set_posts (ex_rows s) (ur_posts (ex_rows s) ++ l)%list.

Lemma posts_same x : set_posts x (ur_posts x ++ [])%list = x.
Proof. unfold set_posts. rewrite app_nil_r. by destruct x. Qed.

(** The platform's answer: an error, or the post has arrived. *)
Lemma report_cases req s : exists r s', ReportUsageEvent req s = (Ok r, s') /\
  w_db (ex_shop s') = w_db (ex_shop s) /\ w_tick (ex_shop s) <= w_tick (ex_shop s') /\
  (ex_rows s' = ex_rows s /\ (exists e, r = inl e) \/
   ex_rows s' = set_posts (ex_rows s) (ur_posts (ex_rows s) ++ [req])%list).
Proof.
  unfold ReportUsageEvent. destruct (Z.leb _ _); [do 2 eexists; split_and!; eauto|].
  destruct (_ || _); [do 2 eexists; split_and!; eauto|].
  destruct (platform_at _ _); do 2 eexists; (split; [reflexivity|]); simpl; split_and!; try done; eauto; try lia.
Qed.

Lemma account_cases tenant s : exists v s', try (GetPlatformAccountID tenant) s = (Ok v, s') /\
  w_db (ex_shop s') = w_db (ex_shop s) /\ w_tick (ex_shop s) <= w_tick (ex_shop s') /\ ex_rows s' = ex_rows s /\
  (v = inr (account_of (registered_at (w_tick (ex_shop s)) tenant)) \/ (exists e, v = inl e) /\ ~ db_reliable).
Proof.
  unfold try, GetPlatformAccountID, ext_query, ext_statement. destruct (db_fault (w_tick (ex_shop s))) eqn:E; simpl;
    do 2 eexists; (split; [reflexivity|]); simpl; split_and!; try done; try lia; [right|by left].
  split; [by eexists|]. intros R. by rewrite R in E.
Qed.

(** An attempt of the retry worker. *)
Lemma retry_cases i s : exists r s', retry i s = (Ok r, s') /\ w_db (ex_shop s') = w_db (ex_shop s) /\
  w_tick (ex_shop s) <= w_tick (ex_shop s') /\
  (ex_rows s' = ex_rows s /\ (exists e, r = inl e) \/
   exists a, account_of (registered_at (w_tick (ex_shop s)) (pu_tenant i)) = Some a /\
     ex_rows s' = set_posts (ex_rows s) (ur_posts (ex_rows s) ++ [row_request i a])%list).
Proof.
  unfold retry, mbind at 1, stm_bind at 1. destruct (account_cases (pu_tenant i) s) as (v & s1 & -> & D1 & T1 & R1 & K).
  destruct v as [e|[a|]]; [do 2 eexists; split_and!; eauto| |do 2 eexists; split_and!; eauto].
  destruct K as [K|[[? [=]] _]]. injection K as K.
  destruct (report_cases (row_request i a) s1) as (r & s2 & E & D2 & T2 & C). unfold mbind, stm_bind. rewrite E.
  exists (match r with inl e => inl (EWrap "post" e) | inr u => inr u end), s2.
  split; [by destruct r|]. split_and!; [congruence|lia|]. rewrite <- R1. destruct C as [[C [e ->]]|C]; [left; eauto|right; eauto].
Qed.

#[export] Instance UsageOutboxLaws : RetryQueueLaws UsageRows UsageOutbox.
Proof.
  split; simpl; try done. intros i s. destruct (retry_cases i s) as (r & [w x] & E & D & T & C).
  exists r, w, x. split_and!; [done..| |]; simpl in *; destruct C as [[-> _]|(a & _ & ->)]; done.
Qed.

#[export] Instance UsageHandover : HandoverLaws UsageRows UsageOutbox.
Proof.
  split; simpl; try done.
  - intros i j s r s' E [a H]. exists a. destruct (retry_cases j s) as (r1 & s1 & E1 & _ & _ & C). rewrite E in E1. injection E1 as -> ->.
    destruct C as [[-> _]|(b & _ & ->)]; [done|]. simpl. apply elem_of_app. by left.
  - intros i s u s' E. destruct (retry_cases i s) as (r1 & s1 & E1 & _ & _ & C). rewrite E in E1. injection E1 as <- ->.
    destruct C as [[_ [e [=]]]|(a & _ & ->)]. exists a. simpl. apply elem_of_app. right. left.
Qed.

(** ** Nothing is billed that was not used, and nothing twice *)

(** One billable call of the assistant. *)
Record Call := mkCall { ca_tenant : option uuid; ca_model : string; ca_prompt : Z; ca_completion : Z; ca_at : time }.
Definition event_call (ev : Event) : uuid * Call :=
  (ev_id ev, mkCall (uuid_parse (ev_tenant ev)) (ev_model ev) (ev_prompt ev) (ev_completion ev) (ev_occurred_at ev)).
Definition row_call (i : PendingUsageRow) : uuid * Call :=
  (pu_id i, mkCall (Some (pu_tenant i)) (pu_model i) (pu_prompt i) (pu_completion i) (pu_occurred_at i)).

(** A post bills a call: its key is made of the call's id, its quantity of the call's tokens. *)
Record bills (req : UsageEventRequest) (c : uuid * Call) : Prop := {
  bi_key : ue_key req = usageIdemKey c.1;
  bi_quantity : ue_quantity req = int64 (ca_prompt c.2 + ca_completion c.2);
  bi_metric : ue_product req = ProductID /\ ue_metric req = MetricLLMTokens;
  bi_tenant : uuid_parse (ue_tenant req) = ca_tenant c.2;
  bi_model : ue_model req = ca_model c.2;
  bi_at : ue_occurred_at req = ca_at c.2;
}.

Lemma event_bills ev a : bills (event_request ev a) (event_call ev).
Proof. by split. Qed.

Context {env_laws : EnvLaws env}.

Lemma row_bills i a : bills (row_request i a) (row_call i).
Proof. split; try done. apply uuid_parse_string. Qed.

Lemma usageIdemKey_inj i j : usageIdemKey i = usageIdemKey j -> i = j.
Proof. unfold usageIdemKey. intros H. apply uuid_string_inj. by apply (inj (String.append "tally-usage-")) in H. Qed.

(** What a worker does one after another. *)
Inductive action := Called (model : string) (prompt completion : Z) (tenant : string) | Worked | Retried.
Definition act (a : action) : UM unit :=
  match a with
  | Called m p c t => RecordUsage m p c t
  | Worked => work
  | Retried => drainOnce
  end.
(** The actions of a history, the last one first. *)
Fixpoint usage_after (l : list action) (s : Ext UsageRows) : Ext UsageRows :=
  match l with [] => s | a :: l => (act a (usage_after l s)).2 end.

(** The queues and the posts speak of the calls [calls] only. *)
Record speaks (calls : list (uuid * Call)) (x : UsageRows) : Prop := {
  sp_queue ev : ev ∈ ur_queue x -> event_call ev ∈ calls;
  sp_rows i : i ∈ ur_rows x -> row_call i ∈ calls;
  sp_posts req : req ∈ ur_posts x -> exists c, c ∈ calls /\ bills req c;
}.
Definition within calls (s s' : Ext UsageRows) : Prop :=
  w_tick (ex_shop s) <= w_tick (ex_shop s') /\ (speaks calls (ex_rows s) -> speaks calls (ex_rows s')).
#[local] Instance within_preorder calls : PreOrder (within calls).
Proof. split; [by intros s|]. intros s1 s2 s3 [? H1] [? H2]. split; [lia|auto]. Qed.

Lemma within_statement {A} calls l (f : UsageRows -> error + (A * UsageRows)) :
  (forall x a x', f x = inr (a, x') -> speaks calls x -> speaks calls x') -> keeps (within calls) (ext_statement l f).
Proof.
  intros H s. unfold ext_statement. destruct (db_fault _); [split; [simpl; lia|done]|].
  destruct (f _) as [e|[a x]] eqn:E; (split; [simpl; lia|]); [done|]. simpl. by eapply H.
Qed.
Lemma within_query {A} calls l (f : UsageRows -> A) : keeps (within calls) (ext_query l f).
Proof. apply within_statement. intros x a x' [= _ <-]. done. Qed.
Lemma within_update calls l f : (forall x, speaks calls x -> speaks calls (f x)) -> keeps (within calls) (ext_update l f).
Proof. intros H. apply within_statement. intros x a x' [= _ <-]. apply H. Qed.
Lemma within_memory calls f : (forall x, speaks calls x -> speaks calls (f x)) -> keeps (within calls) (memory f).
Proof. intros H s. split; [done|apply H]. Qed.
Lemma within_lift {A} calls (m : M A) : keeps (fun w w' => w_tick w <= w_tick w') m -> keeps (within calls) (lift m).
Proof. intros H s. specialize (H (ex_shop s)). unfold lift. destruct (m _) as [r w]. by split. Qed.
Lemma within_uuid calls : keeps (within calls) (lift uuid_new).
Proof. apply within_lift. intros w. simpl. lia. Qed.
Lemma within_time calls : keeps (within calls) (lift time_now).
Proof. apply within_lift. intros w. simpl. lia. Qed.
#[local] Hint Resolve within_query within_uuid within_time : keeps.

Lemma within_report calls req : (exists c, c ∈ calls /\ bills req c) -> keeps (within calls) (ReportUsageEvent req).
Proof.
  intros Hc s. destruct (report_cases req s) as (r & s' & -> & _ & T & [[E _]|E]); (split; [done|]); simpl; rewrite E; [done|].
  intros [Hq Hr Hp]. split; [done..|]. simpl. intros q [?| ->%list_elem_of_singleton]%elem_of_app; [by apply Hp|done].
Qed.

Lemma within_enqueue calls ev tenant reason : event_call ev ∈ calls -> uuid_parse (ev_tenant ev) = Some tenant -> ev_id ev <> uuid_nil ->
  keeps (within calls) (enqueueForRetry ev tenant reason).
Proof.
  intros Hc Ht Hn. apply N.eqb_neq in Hn. apply keeps_bind; [tc_solve| |keeps_solve]. apply keeps_try.
  unfold Enqueue. rewrite Hn. do 2 (apply keeps_bind; [tc_solve|by auto with keeps|intros _]).
  change (keeps (within calls) (now ← lift time_now; ext_statement "usage_report_outbox: enqueue" (insert_check (row_of ev tenant reason (ev_id ev) now));;
    ext_update "commit" (fun x => set_rows x (ur_rows x ++ [row_of ev tenant reason (ev_id ev) now])%list))).
  keeps_solve.
  - apply within_statement. unfold insert_check. intros x u x'. destruct (existsb _ _); [done|]. by destruct (_ && _); [intros [= _ <-]|].
  - intros _. apply within_update. intros x [Hq Hr Hp]. split; [done| |done]. simpl. intros i [?| ->%list_elem_of_singleton]%elem_of_app; [by apply Hr|].
    unfold row_call. simpl. unfold event_call in Hc. by rewrite Ht in Hc.
Qed.

Lemma within_resolve calls tenant : keeps (within calls) (resolveAccount tenant).
Proof.
  intros s. unfold resolveAccount. destruct (_ !! _); [done|].
  match goal with |- within _ _ (?m _).2 => enough (keeps (within calls) m) as H by apply H end.
  keeps_solve; [intros s1; apply within_query|]. apply within_memory. by intros x [].
Qed.

Lemma within_process calls ev : event_call ev ∈ calls -> ev_id ev <> uuid_nil -> keeps (within calls) (process ev).
Proof.
  intros Hc Hn. unfold process. destruct (uuid_parse (ev_tenant ev)) eqn:Ht; [|keeps_solve].
  keeps_solve; [apply within_resolve|by apply within_enqueue|apply within_report|by apply within_enqueue].
  eexists. split; [exact Hc|apply event_bills].
Qed.

Lemma within_drain calls s : speaks calls (ex_rows s) -> speaks calls (ex_rows (drainOnce s).2).
Proof.
  intros H. destruct (drainOnce_tried s) as (s0 & s' & l & -> & D & Tk & R & T & L). simpl.
  assert (Forall (fun i => i ∈ ur_rows (ex_rows s0)) l) as Hl.
  { rewrite R. apply Forall_forall. intros i Hi. destruct L as [->|[-> _]]; [by apply batch_items in Hi as [? _]|by apply elem_of_nil in Hi]. }
  rewrite <- R in H. clear - T Hl H env_laws. induction T as [|i l s s1 s2 Rw T H1 IH]; [done|].
  apply Forall_cons in Hl as [Hi Hl]. destruct T as (r & s3 & t & Ea & D). simpl in Ea.
  destruct (retry_cases i s) as (r1 & s4 & E & _ & _ & C). rewrite E in Ea. injection Ea as <- <-.
  assert (speaks calls (ex_rows s4)) as H4.
  { destruct C as [[-> _]|(a & _ & ->)]; [done|]. destruct H as [Hq Hr Hp]. split; [done..|]. simpl.
    intros q [?| ->%list_elem_of_singleton]%elem_of_app; [by apply Hp|]. eexists. split; [by apply Hr|apply row_bills]. }
  assert (speaks calls (ex_rows s1)) as H2 by (destruct D as [->|[-> _]]; [by destruct H4|done]).
  apply IH; [done|]. destruct Rw as (_ & Rw & _). specialize (Rw (w_db (ex_shop s))). simpl in Rw. by rewrite Rw.
Qed.

Definition is_call (a : action) : bool := match a with Called _ _ _ _ => true | _ => false end.
Definition called_as (l : list action) (c : Call) : Prop := exists tenant,
  Called (ca_model c) (ca_prompt c) (ca_completion c) tenant ∈ l /\ ca_tenant c = uuid_parse tenant.

Record accounts_for (l : list action) (calls : list (uuid * Call)) (s : Ext UsageRows) : Prop := {
  af_ids : NoDup calls.*1;
  af_issued c : c ∈ calls -> exists k, k < w_tick (ex_shop s) /\ c.1 = uuid_at k;
  af_called c : c ∈ calls -> called_as l c.2;
  af_count : length calls <= length (select is_call l);
  af_speaks : speaks calls (ex_rows s);
}.

Lemma accounts_step l a calls s s' : accounts_for l calls s -> within calls s s' -> accounts_for (a :: l) calls s'.
Proof.
  intros [Hi Hs Hc Hn Hx] [T W]. split; [done| | |simpl; destruct (is_call a); simpl; lia|auto].
  - intros c H. destruct (Hs c H) as (k & ? & ?). exists k. split; [lia|done].
  - intros c H. destruct (Hc c H) as (t & ? & ?). exists t. split; [by right|done].
Qed.

(** A call that is recorded gets an id of its own, whether or not the channel has room. *)
Lemma record_accounts l m p c t calls s : accounts_for l calls s ->
  exists calls', accounts_for (Called m p c t :: l) calls' (RecordUsage m p c t s).2.
Proof.
  intros A. unfold RecordUsage. destruct (_ && _); [exists calls; by apply (accounts_step _ _ _ s)|].
  destruct (_ || _); [exists calls; by apply (accounts_step _ _ _ s)|]. unfold mbind, stm_bind. simpl.
  set (ev := mkEvent (uuid_at (w_tick (ex_shop s))) t m p c (clock_at (S (w_tick (ex_shop s))))).
  exists (event_call ev :: calls). destruct A as [Hi Hs Hc Hn [Hq Hr Hp]]. split.
  - simpl. apply NoDup_cons. split; [|done]. intros (c' & E & H)%list_elem_of_fmap. destruct (Hs c' H) as (k & Hk & E2).
    rewrite E2 in E. apply uuid_at_inj in E. lia.
  - simpl. intros c' [->|H]%elem_of_cons; [exists (w_tick (ex_shop s)); split; [lia|done]|]. destruct (Hs c' H) as (k & ? & ?). exists k. split; [lia|done].
  - intros c' [->|H]%elem_of_cons; [exists t; split; [left|done]|]. destruct (Hc c' H) as (t' & ? & ?). exists t'. split; [by right|done].
  - simpl. lia.
  - simpl. destruct (Nat.ltb _ _); split; simpl.
    + intros e [H| ->%list_elem_of_singleton]%elem_of_app; [right; by apply Hq|left].
    + intros i H. right. by apply Hr.
    + intros q H. destruct (Hp q H) as (c' & ? & ?). exists c'. split; [by right|done].
    + intros e H. right. by apply Hq.
    + intros i H. right. by apply Hr.
    + intros q H. destruct (Hp q H) as (c' & ? & ?). exists c'. split; [by right|done].
Qed.

Lemma work_within l calls s : accounts_for l calls s -> within calls s (work s).2.
Proof.
  intros [Hi Hs Hc Hn [Hq Hr Hp]]. unfold work. destruct (ur_queue (ex_rows s)) as [|ev q] eqn:E; [done|].
  assert (event_call ev ∈ calls) as He by (apply Hq; left). destruct (Hs _ He) as (k & _ & Ek). simpl in Ek.
  enough (keeps (within calls) (memory (fun x => set_queue x q);; process ev)) as H by apply H.
  destruct (decide (ev_id ev = uuid_nil)) as [Z|Z]; [by destruct (uuid_at_fresh k); rewrite <- Ek|].
  apply keeps_bind; [tc_solve| |intros _; by apply within_process].
  apply within_memory. intros x [_ Hr' Hp']. split; [|done..]. simpl. intros e H. apply Hq. by right.
Qed.

Definition unused (s : Ext UsageRows) : Prop :=
  ur_queue (ex_rows s) = [] /\ ur_rows (ex_rows s) = [] /\ ur_posts (ex_rows s) = [].

Lemma history_accounts l s : unused s -> exists calls, accounts_for l calls (usage_after l s).
Proof.
  intros (Eq & Er & Ep). induction l as [|a l (calls & A)]; simpl.
  - exists []. split; [constructor| | |done|]; try (by intros c ?%elem_of_nil). split; rewrite ?Eq, ?Er, ?Ep; by intros c ?%elem_of_nil.
  - destruct a as [m p c t| |]; [by eapply record_accounts| |]; exists calls; eapply accounts_step; try exact A.
    + by eapply work_within.
    + split; [by destruct (drainOnce_rows (usage_after l s)) as (_ & _ & ?)|apply within_drain].
Qed.

Definition same_bill (p q : UsageEventRequest) : Prop := ue_quantity p = ue_quantity q /\
  uuid_parse (ue_tenant p) = uuid_parse (ue_tenant q) /\ ue_model p = ue_model q /\ ue_occurred_at p = ue_occurred_at q.

(** C39: Whatever the assistant's calls, the workers and the retry worker do, and in which order:
    every post the platform has received bills a call that was made, with its tokens; posts of
    one idempotency key say the same; and there are no more keys than calls, so a platform that
    counts a key once counts no call twice. *)
Theorem usage_billed_once l s : unused s ->
  let posts := ur_posts (ex_rows (usage_after l s)) in
  (forall req, req ∈ posts -> exists c, called_as l c /\ ue_quantity req = int64 (ca_prompt c + ca_completion c) /\
    uuid_parse (ue_tenant req) = ca_tenant c /\ ue_model req = ca_model c) /\
  (forall p q, p ∈ posts -> q ∈ posts -> ue_key p = ue_key q -> same_bill p q) /\
  length (remove_dups (ue_key <$> posts)) <= length (select is_call l).
Proof.
  intros Hs posts. destruct (history_accounts l s Hs) as (calls & A). split_and!.
  - intros req H. destruct (sp_posts _ _ (af_speaks _ _ _ A) _ H) as (c & Hc & B). exists c.2.
    split_and!; [by apply (af_called _ _ _ A)|by apply B..].
  - intros p q Hp Hq E. destruct (sp_posts _ _ (af_speaks _ _ _ A) _ Hp) as (c & Hc & B).
    destruct (sp_posts _ _ (af_speaks _ _ _ A) _ Hq) as (c' & Hc' & B'). rewrite (bi_key _ _ B), (bi_key _ _ B') in E.
    apply usageIdemKey_inj in E. assert (c = c') as <- by (eapply (NoDup_key fst); [exact (af_ids _ _ _ A)|done..]).
    destruct B, B'. split_and!; congruence.
  - etrans; [|exact (af_count _ _ _ A)]. rewrite <- (length_fmap (fun c => usageIdemKey c.1) calls).
    apply submseteq_length, NoDup_submseteq; [apply NoDup_remove_dups|].
    intros k (req & -> & H)%elem_of_remove_dups%list_elem_of_fmap. destruct (sp_posts _ _ (af_speaks _ _ _ A) _ H) as (c & Hc & B).
    rewrite (bi_key _ _ B). by apply (list_elem_of_fmap_2 (fun c => usageIdemKey c.1)).
Qed.

(** ** Nothing is lost *)

Lemma enqueue_kept mk id s : db_reliable -> id <> uuid_nil -> (forall i, i ∈ ur_rows (ex_rows s) -> pu_id i <> id) ->
  (forall now, pu_id (mk id now) = id) -> (forall now, int32_fits (pu_prompt (mk id now)) && int32_fits (pu_completion (mk id now)) = true) ->
  exists now s', Enqueue mk id s = (Ok tt, s') /\ ex_rows s' = set_rows (ex_rows s) (ur_rows (ex_rows s) ++ [mk id now])%list /\
    w_tick (ex_shop s) <= w_tick (ex_shop s').
Proof.
  intros Hr Hn Hi He Hf. apply N.eqb_neq in Hn. unfold Enqueue. rewrite Hn.
  unfold mbind, stm_bind, ext_query, ext_update, ext_statement. rewrite !Hr. simpl. unfold insert_check. rewrite He.
  destruct (existsb _ _) eqn:E.
  - apply existsb_exists in E as (i & H & E%N.eqb_eq). by apply list_elem_of_In, Hi in H.
  - rewrite Hf, Hr. simpl. rewrite Hr. do 2 eexists. split; [reflexivity|]. simpl. split; [done|lia].
Qed.

Lemma retry_kept ev tenant reason s : db_reliable -> ev_id ev <> uuid_nil -> uuid_parse (ev_tenant ev) = Some tenant ->
  int32_fits (ev_prompt ev) && int32_fits (ev_completion ev) = true -> (forall i, i ∈ ur_rows (ex_rows s) -> pu_id i <> ev_id ev) ->
  exists i s', enqueueForRetry ev tenant reason s = (Ok tt, s') /\ row_call i = event_call ev /\
    ex_rows s' = set_rows (ex_rows s) (ur_rows (ex_rows s) ++ [i])%list.
Proof.
  intros Hr Hn Ht Hf Hi. destruct (enqueue_kept (row_of ev tenant reason) (ev_id ev) s Hr Hn Hi) as (now & s' & E & R & _); [done..|].
  exists (row_of ev tenant reason (ev_id ev) now), s'. unfold enqueueForRetry, mbind, stm_bind, try. rewrite E. split_and!; [done| |done].
  unfold row_call, event_call. by rewrite Ht.
Qed.

(** The columns the worker writes belong to the rows; ids are keys. *)
Definition usage_keyed (x : UsageRows) : Prop := NoDup (pu_id <$> ur_rows x) /\
  forall id, is_Some (ur_progress x !! id) -> id ∈ pu_id <$> ur_rows x.

Lemma resolve_rows tenant s : exists r s', resolveAccount tenant s = (Ok r, s') /\
  ur_rows (ex_rows s') = ur_rows (ex_rows s) /\ ur_progress (ex_rows s') = ur_progress (ex_rows s).
Proof.
  unfold resolveAccount. destruct (_ !! _); [by do 2 eexists|]. destruct (account_cases tenant s) as (v & s1 & E & _ & _ & R & _).
  unfold mbind, stm_bind. rewrite E. destruct v as [e|[a|]]; do 2 eexists; (split; [reflexivity|]); simpl; by rewrite R.
Qed.

(** An event a worker has taken is posted, or queued. *)
Lemma process_keeps ev tenant s : db_reliable -> ev_id ev <> uuid_nil -> uuid_parse (ev_tenant ev) = Some tenant ->
  int32_fits (ev_prompt ev) && int32_fits (ev_completion ev) = true -> (forall i, i ∈ ur_rows (ex_rows s) -> pu_id i <> ev_id ev) ->
  (exists a, event_request ev a ∈ ur_posts (ex_rows (process ev s).2)) \/
  (exists i, row_call i = event_call ev /\ ur_rows (ex_rows (process ev s).2) = (ur_rows (ex_rows s) ++ [i])%list /\
     ur_progress (ex_rows (process ev s).2) = ur_progress (ex_rows s)).
Proof.
  intros Hr Hn Ht Hf Hi. destruct (resolve_rows tenant s) as (r & s1 & E1 & R1 & P1).
  assert (forall reason s2, ur_rows (ex_rows s2) = ur_rows (ex_rows s) -> ur_progress (ex_rows s2) = ur_progress (ex_rows s) ->
    exists i, row_call i = event_call ev /\ ur_rows (ex_rows (enqueueForRetry ev tenant reason s2).2) = (ur_rows (ex_rows s) ++ [i])%list /\
     ur_progress (ex_rows (enqueueForRetry ev tenant reason s2).2) = ur_progress (ex_rows s)) as K.
  { intros reason s2 R2 P2. destruct (retry_kept ev tenant reason s2 Hr Hn Ht Hf) as (i & s3 & -> & Ei & E3); [by rewrite R2|].
    exists i. simpl. rewrite E3. simpl. by rewrite R2, P2. }
  unfold process, mbind, stm_bind. rewrite Ht, E1. destruct r as [reason|a]; [right; by apply K|].
  destruct (report_cases (event_request ev a) s1) as (r & s2 & E & _ & _ & C). rewrite E.
  destruct C as [[E2 [e ->]]|E2].
  - right. apply K; by rewrite E2.
  - left. exists a. destruct r as [e|u]; [|simpl; rewrite E2; simpl; apply elem_of_app; right; left].
    destruct (retry_kept ev tenant "post_error" s2 Hr Hn Ht Hf) as (i & s3 & -> & _ & E3); [rewrite E2; simpl; by rewrite R1|].
    simpl. rewrite E3, E2. simpl. apply elem_of_app. right. left.
Qed.

(** The event's tokens reach the platform: at once, or as a row of the queue within [n] ticks of
    the retry worker once the tenant has an account and the platform takes the post. *)
Theorem used_tokens_are_reported ev tenant s n s' : db_reliable -> ev_id ev <> uuid_nil -> uuid_parse (ev_tenant ev) = Some tenant ->
  int32_fits (ev_prompt ev) && int32_fits (ev_completion ev) = true ->
  usage_keyed (ex_rows s) -> ev_id ev ∉ pu_id <$> ur_rows (ex_rows s) ->
  let s1 := (process ev s).2 in
  (exists a, event_request ev a ∈ ur_posts (ex_rows s1)) \/
  exists i, row_call i = event_call ev /\ i ∈ ur_rows (ex_rows s1) /\
    ((forall m, w_tick (ex_shop s1) <= m -> exists a, account_of (registered_at m tenant) = Some a) ->
     (forall m a, w_tick (ex_shop s1) <= m -> platform_at m (row_request i a) = Acknowledged) ->
     ran (X:=UsageRows) (fun j => (pu_created_at i < pu_created_at j)%Z) n s1 s' -> ahead s1 i < n * usageRetryDrainLimit ->
     is_Some (pg_done (prog s' (pu_id i))) /\ exists req, req ∈ ur_posts (ex_rows s') /\ bills req (event_call ev)).
Proof.
  intros Hr Hn Ht Hf [K P] Hi s1.
  destruct (process_keeps ev tenant s Hr Hn Ht Hf) as [D|(i & Ei & R1 & P1)].
  { intros i H E. apply Hi. rewrite <- E. by apply list_elem_of_fmap_2. }
  - by left.
  - right. fold s1 in R1, P1. assert (pu_id i = ev_id ev) as Eid by exact (f_equal fst Ei).
    assert (i ∈ ur_rows (ex_rows s1)) as H1 by (rewrite R1; apply elem_of_app; right; left).
    assert (keyed s1) as K1.
    { unfold keyed, items_of. simpl. rewrite R1, fmap_app. apply NoDup_app. split_and!; [done| |apply NoDup_singleton].
      intros id H. simpl. rewrite Eid. intros ->%list_elem_of_singleton. done. }
    assert (prog s1 (pu_id i) = queued_progress) as Q1.
    { unfold prog, progress_of. simpl. rewrite P1. destruct (ur_progress (ex_rows s) !! pu_id i) eqn:E; [|done].
      exfalso. apply Hi. rewrite <- Eid. apply P. by eexists. }
    exists i. split_and!; [done..|]. intros Ha Hp R Hd.
    assert (is_Some (pg_done (prog s' (pu_id i)))) as D.
    { refine (ran_done (Q:=UsageOutbox) n s1 s' i Hr K1 H1 _ _ R Hd).
      - unfold is_pending, prog in *. simpl in *. by rewrite Q1.
      - intros s2 T2. simpl. assert (tenant = pu_tenant i) as -> by (unfold row_call, event_call in Ei; rewrite Ht in Ei; congruence).
        unfold retry, try, GetPlatformAccountID, ext_query, ext_statement, mbind, stm_bind. rewrite Hr. simpl.
        destruct (Ha (w_tick (ex_shop s2)) T2) as (a & Ea). rewrite Ea. unfold ReportUsageEvent. simpl.
        assert (0 < a)%Z as Hpos.
        { unfold account_of in Ea. destruct (registered_at _ _) as [[b|]|]; [|done..]. destruct (Z.leb_spec b 0); [done|]. injection Ea as ->. lia. }
        destruct (Z.leb_spec a 0); [lia|]. rewrite Hp by (simpl; lia). simpl. by do 2 eexists. }
    assert (honest_row (Q:=UsageOutbox) i s1) as Ho by (intros Hd1; simpl in Hd1; rewrite Q1 in Hd1; by destruct Hd1).
    split; [done|]. destruct (ran_honest_row (Q:=UsageOutbox) _ _ _ _ i K1 H1 Ho R D) as (a & Hreq).
    exists (row_request i a). split; [done|]. rewrite <- Ei. apply row_bills.
Qed.

(** ** An account that comes too late *)

Lemma same_request i j a b : row_request i a = row_request j b -> pu_id i = pu_id j.
Proof. intros H. apply usageIdemKey_inj. exact (f_equal ue_key H). Qed.

(** What a tick reports is a pending row whose tenant had an account. *)
Lemma tried_all_reported l s s' i : keyed s -> (forall j, j ∈ l -> j ∈ ur_rows (ex_rows s)) -> i ∈ ur_rows (ex_rows s) ->
  tried_all (X:=UsageRows) l s s' -> row_reported i (ex_rows s') ->
  row_reported i (ex_rows s) \/ i ∈ l /\ exists m, w_tick (ex_shop s) <= m <= w_tick (ex_shop s') /\
    account_of (registered_at m (pu_tenant i)) <> None.
Proof.
  intros K Hl Hi H. induction H as [|j l s s1 s2 Rw T H IH]; [by left|]. intros Hr.
  pose proof (tried_all_rows _ _ _ H) as (_ & _ & T2).
  assert (ur_rows (ex_rows s1) = ur_rows (ex_rows s)) as Er by exact (proj1 (proj2 Rw) (w_db (ex_shop s))).
  destruct IH as [H1|(H1 & m & Hm & Ha)]; [by eapply items_keyed|intros k Hk; rewrite Er; apply Hl; by right|by rewrite Er|done| |].
  - destruct T as (r & s3 & t & Ea & D). simpl in Ea. destruct (retry_cases j s) as (r1 & s4 & E & _ & _ & C).
    rewrite E in Ea. injection Ea as _ <-. assert (row_reported i (ex_rows s4)) as H4 by by destruct D as [D|[D _]]; rewrite D in H1.
    destruct C as [[C _]|(a & Ha & C)]; rewrite C in H4; [by left|]. destruct H4 as [b Hb].
    simpl in Hb. apply elem_of_app in Hb as [Hb|Hb%list_elem_of_singleton]; [left; by exists b|].
    right. apply same_request in Hb. assert (i = j) as ->.
    { apply (keyed_eq (Q:=UsageOutbox) s); [done|done|apply Hl; left|done]. }
    split; [left|]. exists (w_tick (ex_shop s)). rewrite Ha. split; [|done]. destruct Rw as (_ & _ & T1). simpl. lia.
  - right. split; [by right|]. exists m. split; [|done]. destruct Rw as (_ & _ & T1). lia.
Qed.

Lemma drain_reported s i : keyed s -> i ∈ ur_rows (ex_rows s) -> row_reported i (ex_rows (drainOnce s).2) ->
  row_reported i (ex_rows s) \/ is_pending (ex_rows s) i = true /\ exists m, w_tick (ex_shop s) <= m <= w_tick (ex_shop (drainOnce s).2) /\
    account_of (registered_at m (pu_tenant i)) <> None.
Proof.
  intros K Hi. destruct (drainOnce_tried s) as (s0 & s' & l & -> & D & Tk & R & T & L). simpl. intros H.
  destruct (tried_all_reported l s0 s' i) as [H1|(Hl & m & Hm & Ha)]; try done.
  - unfold keyed, items_of. simpl. by rewrite R.
  - intros j Hj. rewrite R. destruct L as [->|[-> _]]; [by apply batch_items in Hj as [? _]|by apply elem_of_nil in Hj].
  - by rewrite R.
  - left. by rewrite <- R.
  - right. destruct L as [->|[-> _]]; [|by apply elem_of_nil in Hl]. apply batch_items in Hl as [_ Hp].
    split; [done|]. exists m. split; [lia|done].
Qed.

Lemma ran_unreported late n s s' i : keyed s -> i ∈ ur_rows (ex_rows s) -> is_pending (ex_rows s) i = false ->
  ~ row_reported i (ex_rows s) -> ran (X:=UsageRows) late n s s' -> ~ row_reported i (ex_rows s').
Proof.
  intros K Hi Hp Hn H. induction H as [|n s s1 H IH|n s s1 s2 H IH E]; [done| |].
  - pose proof (ran_rows (Q:=UsageOutbox) _ _ _ _ i Hi H) as [H1 _].
    intros [Hr|(Hp1 & _)]%drain_reported; [by apply IH| |by eapply ran_keyed|done].
    rewrite (pending_prog (Q:=UsageOutbox) s s1) in Hp1; [congruence|]. by apply (ran_given_up (Q:=UsageOutbox) late n s s1).
  - intros Hr. apply IH; [done..|]. by apply (en_handed _ _ _ E).
Qed.

Lemma ticks_unreported k s i T : keyed s -> i ∈ ur_rows (ex_rows s) ->
  (forall m, w_tick (ex_shop s) <= m <= T -> account_of (registered_at m (pu_tenant i)) = None) ->
  w_tick (ex_shop (ticks k s)) <= T -> ~ row_reported i (ex_rows s) -> ~ row_reported i (ex_rows (ticks k s)).
Proof.
  intros K Hi Hb HT Hn. induction k as [|k IH]; [done|]. change (ticks (S k) s) with (drainOnce (ticks k s)).2 in *.
  pose proof (drainOnce_rows (ticks k s)) as (_ & _ & Tk).
  pose proof (ran_ticks (X:=UsageRows) (fun _ => True) 0 k s s (ran_start _ _)) as R0.
  pose proof (ran_rows (Q:=UsageOutbox) _ _ _ _ i Hi R0) as [H1 T0].
  intros [H|(_ & m & Hm & Hr)]%drain_reported; [apply IH; [lia|done]| |by eapply ran_keyed|done]. apply Hr, Hb. lia.
Qed.

(** A tenant that gets its account after the attempts of a queued row are used up is not billed
    for it: the row is never posted, however often the worker polls afterwards. *)
Theorem late_account_loses_usage n s s' i T : db_reliable -> keyed s -> i ∈ ur_rows (ex_rows s) ->
  length (waiting s) <= usageRetryDrainLimit -> prog s (pu_id i) = queued_progress -> ~ row_reported i (ex_rows s) ->
  (forall m, w_tick (ex_shop s) <= m <= T -> account_of (registered_at m (pu_tenant i)) = None) ->
  w_tick (ex_shop (ticks (Z.to_nat MaxUsageOutboxAttempts) s)) <= T ->
  ran (X:=UsageRows) (fun _ => True) n (ticks (Z.to_nat MaxUsageOutboxAttempts) s) s' ->
  pg_done (prog s' (pu_id i)) = None /\ ~ row_reported i (ex_rows s').
Proof.
  intros Hr K Hi Hw Hq Hn Hb HT R. set (k := Z.to_nat MaxUsageOutboxAttempts) in *.
  pose proof (ran_ticks (X:=UsageRows) (fun _ => True) 0 k s s (ran_start _ _)) as R0.
  destruct (ticks_fail (Q:=UsageOutbox) k s i T) as [Hd Ha]; [done..|simpl; by rewrite Hq|simpl; by rewrite Hq| |done|].
  { intros s1 T1. simpl. unfold retry, try, GetPlatformAccountID, ext_query, ext_statement, mbind, stm_bind.
    rewrite Hr. simpl. rewrite (Hb _ T1). by do 2 eexists. }
  simpl in Hd, Ha. rewrite Hq in Ha.
  assert (is_pending (ex_rows (ticks k s)) i = false) as Hg.
  { unfold is_pending, prog in *. simpl. rewrite Ha. apply andb_false_r. }
  pose proof (ran_keyed _ _ _ _ K R0) as K1. pose proof (ran_rows (Q:=UsageOutbox) _ _ _ _ i Hi R0) as [Hi1 _]. split.
  - pose proof (ran_given_up (Q:=UsageOutbox) _ _ _ _ i K1 Hi1 Hg R) as Eg. simpl in Eg. by rewrite Eg.
  - exact (ran_unreported _ _ _ _ _ K1 Hi1 Hg (ticks_unreported k s i T K Hi Hb HT Hn) R).
Qed.
End usage_report.

(** ** Witnesses *)
Section examples.
(** The account is pinned after the first calls; the platform always answers. *)
#[local] Instance ex_platform : BillingPlatform := {|
  platform_at _ _ := Acknowledged;
  registered_at n _ := if Nat.leb 6 n then Some (Some 7%Z) else Some None |}.
Definition ex_usage_rows : UsageRows := mkUsageRows [] ∅ ∅ [] [].
Definition ex_usage : Ext UsageRows := mkExt ex_world ex_usage_rows.
Definition ex_call : Event := mkEvent 900%N "1" "model" 10 20 ex_start.
Definition ex_metered : Ext UsageRows := (process ex_call ex_usage).2.
Definition ex_pending : PendingUsageRow :=
  List.hd (mkPendingUsageRow 0%N 0%N EmptyString 0%Z 0%Z 0%Z EmptyString 0%Z) (ur_rows (ex_rows ex_metered)).

Lemma ex_metered_rows : ur_rows (ex_rows ex_metered) = [ex_pending].
Proof. vm_compute. reflexivity. Qed.

(** Not billed while the tenant had no account, but at the next poll. *)
Lemma used_tokens_are_reported_witness :
  ur_posts (ex_rows ex_metered) = [] /\ exists req, req ∈ ur_posts (ex_rows (ticks 1 ex_metered)) /\ bills req (event_call ex_call).
Proof.
  assert (ur_posts (ex_rows ex_metered) = []) as E0 by (vm_compute; reflexivity). split; [exact E0|].
  destruct (used_tokens_are_reported ex_call ex_tenant ex_usage 1 (ticks 1 ex_metered)) as [[a H]|(i & Ei & Hi & Hrun)].
  - by intros n.
  - discriminate.
  - reflexivity.
  - reflexivity.
  - split; [constructor|]. intros id [? E]. simpl in E. by rewrite lookup_empty in E.
  - apply not_elem_of_nil.
  - fold ex_metered in H. rewrite E0 in H. by apply elem_of_nil in H.
  - fold ex_metered in Hi, Hrun. rewrite ex_metered_rows in Hi. apply list_elem_of_singleton in Hi as ->. apply Hrun.
    + intros m Hm. exists 7%Z. assert (6 <= m) as H6 by exact Hm. change (account_of (if Nat.leb 6 m then Some (Some 7%Z) else Some None) = Some 7%Z). by rewrite (proj2 (Nat.leb_le 6 m) H6).
    + by intros.
    + constructor. constructor.
    + apply (bool_decide_unpack _). vm_compute. exact I.
Defined.

(** Ten minutes are too short for some: no account for ten polls. *)
#[local] Instance ex_slow_onboarding : BillingPlatform := {|
  platform_at _ _ := Acknowledged;
  registered_at n _ := if Nat.leb n 160 then None else Some (Some 7%Z) |}.
Definition ex_unmetered : Ext UsageRows := (process (platform := ex_slow_onboarding) ex_call ex_usage).2.

Lemma late_account_loses_usage_witness :
  ~ row_reported ex_pending (ex_rows (ticks (Q := UsageOutbox (platform := ex_slow_onboarding)) 2
      (ticks (Q := UsageOutbox (platform := ex_slow_onboarding)) 10 ex_unmetered))).
Proof.
  apply (late_account_loses_usage (platform := ex_slow_onboarding) 2 ex_unmetered _ ex_pending 160).
  - by intros n.
  - apply (bool_decide_unpack _). vm_compute. exact I.
  - vm_compute. left.
  - apply (bool_decide_unpack _). vm_compute. exact I.
  - reflexivity.
  - intros [a H]. apply elem_of_nil in H as [].
  - intros m [_ Hm]. change (account_of (if Nat.leb m 160 then None else Some (Some 7%Z)) = None). by rewrite (proj2 (Nat.leb_le m 160) Hm).
  - apply (bool_decide_unpack _). vm_compute. exact I.
  - do 2 constructor. constructor.
Defined.

(** An acknowledgement is lost: the post arrives twice, under one key. *)
#[local] Instance ex_flaky : BillingPlatform := {|
  platform_at n _ := if Nat.leb n 4 then Unacknowledged else Acknowledged;
  registered_at _ _ := Some (Some 7%Z) |}.
Definition ex_actions : list action := [Retried; Worked; Called "model" 10 20 "1"].
Definition ex_posts : list UsageEventRequest := ur_posts (ex_rows (usage_after (platform := ex_flaky) ex_actions ex_usage)).

Lemma usage_billed_once_witness :
  length ex_posts = 2 /\ length (remove_dups (ue_key <$> ex_posts)) <= 1 /\ (forall p q, p ∈ ex_posts -> q ∈ ex_posts -> ue_key p = ue_key q -> same_bill p q).
Proof.
  destruct (usage_billed_once (platform := ex_flaky) ex_actions ex_usage) as (_ & H1 & H2); [by split_and!|].
  split; [vm_compute; reflexivity|]. split; [exact H2|exact H1].
Defined.
End examples.
