(* ===== verification/Idempotency.v ===== *)
(** Deduplication of repeated writes: src/internal/adapter/middleware/idempotency.go over
    idempotency_redis.go, with idempotency_require.go, as any number of requests served at the
    same time.

    A request is a thread; [advance] is what it does between two calls of the key-value store or
    the handler, which are its atomic steps, and [step] lets any thread go next, a request
    arrive, or time pass.  The store is Redis, outside the program: GET, SET NX, SET and DEL with
    their expiry as its documentation has them, and any call may be refused, or take effect with
    its answer lost.  The handler is any function on a state [W] of its own; what it did is
    kept in a log.  Entries are kept as the records whose JSON the code stores. *)
From S2P Require Import Prelude GoStrings Rounding Decimal Types Store SDec StockCalc Concrete ExtStore.
From stdpp Require Import base tactics strings gmap list relations.
From Stdlib Require Import ZArith Lia Ascii.

#[local] Open Scope string_scope.

Section idempotency.
Context {env : Env}.

(** ** Data *)

(** What the auth middleware left under the tenant's key. *)
Inductive TenantCtx := TenantMissing | TenantUUID (u : uuid) | TenantString (s : string) | TenantOther.

(** A request; [hq_body] is [None] when it cannot be read. *)
Record HttpRequest := mkHttpRequest {
  hq_method : string; hq_path : string; hq_route : string; hq_key : string; hq_tenant : TenantCtx; hq_body : option string }.
Record HttpResponse := mkHttpResponse { hs_status : Z; hs_content_type : string; hs_body : string }.

(** idempotencyEntry *)
Record IdempotencyEntry := mkIdempotencyEntry {
  ie_status : Z; ie_kind : string; ie_content_type : string; ie_body : string; ie_fingerprint : string }.

(** What a key of the store holds, and until when. *)
Inductive Stored := StoredEntry (e : IdempotencyEntry) | StoredLock.
Abbreviation KeyValues := (gmap string (Stored * time)).

Definition idempotencyKeyMaxLen : nat := 200.
Definition idempotencyCacheTTL : Z := (24 * 60 * 60 * second)%Z.
Definition idempotencyLockTTL : Z := (30 * second)%Z.
Definition idempotencyKeyPrefix : string := "tally:idem:".

(** classifyStatus *)
Definition classifyStatus (status : Z) : string :=
  if Z.leb 200 status && Z.ltb status 300 then "ok"
  else if Z.eqb status 429 then "transient"
  else if Z.leb 400 status && Z.ltb status 500 then "client_error"
  else "".

(** ** RequireIdempotencyKey *)
Definition requireIdempotencyKeyRoutes : list string :=
  ["POST /api/v1/payments"; "POST /api/v1/receipts"; "POST /api/v1/purchase-bills/:id/approve";
   "POST /api/v1/sale-bills/:id/approve"; "POST /api/v1/sale-bills/quick-checkout"; "POST /api/v1/sale-bills/:id/return";
   "POST /api/v1/purchase-bills/:id/return"; "POST /api/v1/ai/plans/:plan_id/confirm"; "POST /api/v1/billing/subscribe"].
Definition json_error (status : Z) (code : string) : HttpResponse := mkHttpResponse status "application/json; charset=utf-8" code.
Definition RequireIdempotencyKey (r : HttpRequest) : option HttpResponse :=
  if existsb (String.eqb (hq_method r ++ " " ++ hq_route r)) requireIdempotencyKeyRoutes && String.eqb (hq_key r) ""
  then Some (json_error 400 "missing_idempotency_key") else None.

(** ** The middleware *)

Definition tenant_text (t : TenantCtx) : option string :=
  match t with
  | TenantUUID u => if N.eqb u uuid_nil then None else Some (uuid_string u)
  | TenantString s => if String.eqb s "" then None else Some s
  | _ => None
  end.
(** The tenant a request is deduplicated for; [None] when it passes through. *)
Definition dedup_tenant (r : HttpRequest) : option string :=
  if existsb (String.eqb (hq_method r)) ["GET"; "HEAD"; "OPTIONS"] then None
  else if String.eqb (hq_key r) "" || Nat.ltb idempotencyKeyMaxLen (String.length (hq_key r)) then None
  else tenant_text (hq_tenant r).
Definition storeKey (tid : string) (r : HttpRequest) : string := idempotencyKeyPrefix ++ tid ++ ":" ++ hq_key r.
Definition lockKey (tid : string) (r : HttpRequest) : string := storeKey tid r ++ ":lock".

(** SHA-256 in hexadecimal. *)
Context (sha256 : string -> string).
Definition nul : string := String "000" EmptyString.
Definition requestFingerprint (r : HttpRequest) : option string :=
  b ← hq_body r; Some (sha256 (hq_method r ++ nul ++ hq_path r ++ nul ++ b)).

(** *** The store *)

(** What the program sees of a key: nothing once it has expired. *)
Definition live (now : time) (kv : KeyValues) (k : string) : option Stored :=
  match kv !! k with
  | Some (v, exp) => if Z.ltb now exp then Some v else None
  | None => None
  end.
(** A write the store may refuse, or take without the caller knowing. *)
Definition applied {A} (o : outcome) (f : A -> A) (a : A) : A := match o with Refused => a | _ => f a end.

(** *** Threads *)

(** Where a request is: [Missed] after the look-up, holding a lock taken at a time ([Locked]),
    with the handler's answer ([Ran]), with the lock given back ([Released]); [Passing] runs the
    handler without deduplication. [Broken] is a handler that panicked. *)
Inductive PC :=
  | Start
  | Missed (fp : string)
  | Passing
  | Locked (fp : string) (since : time)
  | Ran (fp : string) (since : time) (resp : HttpResponse)
  | Released (fp : string) (resp : HttpResponse)
  | Answered (resp : HttpResponse) (replayed : bool)
  | Broken.

Context {W : Type} (handle : HttpRequest -> W -> option HttpResponse * W).

(** [sh_log]: which thread's handler ran, and its answer. *)
Record Shared := mkShared { sh_now : time; sh_kv : KeyValues; sh_world : W; sh_log : list (nat * option HttpResponse) }.

Definition run_handler (i : nat) (r : HttpRequest) (s : Shared) : option HttpResponse * Shared :=
  let '(a, w) := handle r (sh_world s) in (a, mkShared (sh_now s) (sh_kv s) w (sh_log s ++ [(i, a)])%list).
Definition with_kv (s : Shared) (kv : KeyValues) : Shared := mkShared (sh_now s) kv (sh_world s) (sh_log s).

Definition ran_to (k : HttpResponse -> PC) (p : option HttpResponse * Shared) : PC * Shared :=
  (match p.1 with Some a => k a | None => Broken end, p.2).

Definition kept_entry (fp : string) (a : HttpResponse) : IdempotencyEntry :=
  mkIdempotencyEntry (hs_status a) (classifyStatus (hs_status a)) (hs_content_type a) (hs_body a) fp.
Definition replay (e : IdempotencyEntry) : HttpResponse := mkHttpResponse (ie_status e) (ie_content_type e) (ie_body e).

(** The answer to a look-up that found a stored value. *)
Definition found (fp : string) (v : Stored) : PC :=
  match v with
  | StoredEntry e =>
      if Z.ltb 0 (ie_status e) then
        if negb (String.eqb (ie_fingerprint e) "") && negb (String.eqb (ie_fingerprint e) fp)
        then Answered (json_error 422 "idempotency_key_reused") false
        else Answered (replay e) true
      else Missed fp
  | StoredLock => Missed fp
  end.

(** One step of thread [i], the store's answer to it being [o]. *)
Definition advance (o : outcome) (i : nat) (r : HttpRequest) (p : PC) (s : Shared) : PC * Shared :=
  let tid := default "" (dedup_tenant r) in
  match p with
  | Start =>
      match dedup_tenant r, requestFingerprint r with
      | None, _ => (Passing, s)
      | Some _, None => (Answered (json_error 413 "request_body_unreadable") false, s)
      | Some _, Some fp =>
          match o with
          | Acknowledged =>
              match live (sh_now s) (sh_kv s) (storeKey tid r) with
              | Some v => (found fp v, s)
              | None => (Missed fp, s)
              end
          | _ => (Passing, s)
          end
      end
  | Passing => ran_to (fun a => Answered a false) (run_handler i r s)
  | Missed fp =>
      let taken := negb (is_none (live (sh_now s) (sh_kv s) (lockKey tid r))) in
      let set := if taken then sh_kv s else <[lockKey tid r := (StoredLock, sh_now s + idempotencyLockTTL)%Z]> (sh_kv s) in
      match o with
      | Acknowledged => if taken then (Answered (json_error 409 "idempotency_in_flight") false, s) else (Locked fp (sh_now s), with_kv s set)
      | Refused => (Passing, s)
      | Unacknowledged => (Passing, with_kv s set)
      end
  | Locked fp t => ran_to (Ran fp t) (run_handler i r s)
  | Ran fp t a => (Released fp a, with_kv s (applied o (delete (lockKey tid r)) (sh_kv s)))
  | Released fp a =>
      (Answered a false,
       if String.eqb (classifyStatus (hs_status a)) "ok"
       then with_kv s (applied o <[storeKey tid r := (StoredEntry (kept_entry fp a), sh_now s + idempotencyCacheTTL)%Z]> (sh_kv s))
       else s)
  | Answered _ _ | Broken => (p, s)
  end.

(** *** Requests served together *)

Record State := mkState { st_shared : Shared; st_threads : gmap nat (HttpRequest * PC) }.
Definition pass (d : Z) (s : Shared) : Shared := mkShared (sh_now s + d)%Z (sh_kv s) (sh_world s) (sh_log s).

(** [allowed i o]: the store may answer thread [i] with [o]. *)
Inductive step (allowed : nat -> outcome -> Prop) : State -> State -> Prop :=
  | step_advance i r p o p' s ts s' : ts !! i = Some (r, p) -> allowed i o -> advance o i r p s = (p', s') ->
      step allowed (mkState s ts) (mkState s' (<[i := (r, p')]> ts))
  | step_arrive i r s ts : ts !! i = None -> step allowed (mkState s ts) (mkState s (<[i := (r, Start)]> ts))
  | step_time d s ts : (0 <= d)%Z -> step allowed (mkState s ts) (mkState (pass d s) ts).

(** ** Keys do not get in each other's way *)

Context {env_laws : EnvLaws env}.

(** A request of the program: the tenant is the one the auth middleware set; its key does not
    look like a lock. *)
Record clean (r : HttpRequest) : Prop := {
  cl_tenant : match hq_tenant r with TenantString _ | TenantOther => False | _ => True end;
  cl_key k : hq_key r <> k ++ ":lock";
}.
Definition all_clean (st : State) : Prop := forall i r p, st_threads st !! i = Some (r, p) -> clean r.

Definition key_of (r : HttpRequest) : string := storeKey (default "" (dedup_tenant r)) r.
Definition lock_of (r : HttpRequest) : string := lockKey (default "" (dedup_tenant r)) r.

Definition colon : ascii := ":".
Lemma tenant_free r : clean r -> colon ∉ chars (default "" (dedup_tenant r)).
Proof.
  intros [C _]. assert (colon ∉ chars "") as N by (simpl; apply not_elem_of_nil). unfold dedup_tenant, tenant_text.
  repeat case_match; try done. simpl. apply uuid_string_free. unfold uuid_char. vm_compute. intuition discriminate.
Qed.

Lemma key_parts a b x y : colon ∉ chars a -> colon ∉ chars b ->
  idempotencyKeyPrefix ++ a ++ ":" ++ x = idempotencyKeyPrefix ++ b ++ ":" ++ y -> a = b /\ x = y.
Proof.
  intros Ha Hb H. apply (inj (String.append idempotencyKeyPrefix)) in H. apply (f_equal (cut_first ":")) in H.
  rewrite !(cut_first_app ":" colon) in H by done. by injection H as -> ->.
Qed.

Lemma key_of_inj r r' : clean r -> clean r' -> key_of r = key_of r' ->
  default "" (dedup_tenant r) = default "" (dedup_tenant r') /\ hq_key r = hq_key r'.
Proof. intros C C' H. by apply key_parts in H; [|by apply tenant_free..]. Qed.

Lemma lock_of_key r : lock_of r = key_of r ++ ":lock".
Proof. done. Qed.

Lemma lock_of_inj r r' : clean r -> clean r' -> lock_of r = lock_of r' -> key_of r = key_of r'.
Proof.
  intros C C' H. unfold lock_of, lockKey, key_of, storeKey in *. rewrite !append_assoc in H.
  apply key_parts in H as [E H]; [|by apply tenant_free..]. rewrite E. do 3 f_equal.
  apply (f_equal chars) in H. rewrite !chars_app in H. apply app_inv_tail in H.
  rewrite <- (of_chars (hq_key r)), H. apply of_chars.
Qed.

Lemma key_not_lock r r' : clean r -> clean r' -> key_of r <> lock_of r'.
Proof.
  intros C C' H. unfold lock_of, lockKey, key_of, storeKey in *. rewrite !append_assoc in H.
  apply key_parts in H as [_ H]; [|by apply tenant_free..]. by apply (cl_key _ C) in H.
Qed.

(** ** What a step does *)

Definition section (p : PC) : option time :=
  match p with Locked _ t => Some t | Ran _ t _ => Some t | _ => None end.

(** The store after a step of a thread: as it was, with its lock taken, with its lock given
    back, or with its answer kept. *)
Inductive kv_step (r : HttpRequest) (p p' : PC) (s s' : Shared) : Prop :=
  | kv_same : sh_kv s' = sh_kv s -> section p' = None \/ section p' = section p -> kv_step r p p' s s'
  | kv_lock fp : p = Missed fp -> live (sh_now s) (sh_kv s) (lock_of r) = None ->
      sh_kv s' = <[lock_of r := (StoredLock, sh_now s + idempotencyLockTTL)%Z]> (sh_kv s) ->
      section p' = None \/ section p' = Some (sh_now s) -> kv_step r p p' s s'
  | kv_unlock fp t a : p = Ran fp t a -> p' = Released fp a -> sh_kv s' = delete (lock_of r) (sh_kv s) -> kv_step r p p' s s'
  | kv_keep fp a : p = Released fp a -> section p' = None -> classifyStatus (hs_status a) = "ok" ->
      sh_kv s' = <[key_of r := (StoredEntry (kept_entry fp a), sh_now s + idempotencyCacheTTL)%Z]> (sh_kv s) -> kv_step r p p' s s'.

Lemma advance_kv o i r p s p' s' : advance o i r p s = (p', s') -> sh_now s' = sh_now s /\ kv_step r p p' s s'.
Proof.
  unfold advance. destruct p as [|fp| |fp t|fp t a|fp a|a b|].
  - destruct (dedup_tenant r) as [tid|]; [|by intros [= <- <-]; split; [|apply kv_same; [done|by left]]].
    destruct (requestFingerprint r) as [fp|]; [|by intros [= <- <-]; split; [|apply kv_same; [done|by left]]].
    assert (forall v, section (found fp v) = None) as F by (intros [e|]; unfold found; repeat case_match; done).
    destruct o; try (by intros [= <- <-]; split; [|apply kv_same; [done|by left]]).
    destruct (live _ _ _); intros [= <- <-]; (split; [done|apply kv_same; [done|left; first [apply F|done]]]).
  - fold (lock_of r). destruct (live _ _ _) eqn:L; simpl; destruct o; intros [= <- <-]; (split; [done|]);
      try (by apply kv_same; [done|left]); (eapply kv_lock; [done|done|reflexivity|simpl; by auto]).
  - unfold run_handler. destruct (handle r _) as [[a|] w]; intros [= <- <-]; (split; [done|apply kv_same; [done|by left]]).
  - unfold run_handler. destruct (handle r _) as [[a|] w]; intros [= <- <-]; (split; [done|apply kv_same; [done|simpl; by auto]]).
  - intros [= <- <-]. split; [done|]. fold (lock_of r).
    destruct o; [eapply kv_unlock; done|apply kv_same; [done|by left]|eapply kv_unlock; done].
  - fold (key_of r). destruct (String.eqb_spec (classifyStatus (hs_status a)) "ok") as [E|E]; intros [= <- <-].
    + split; [done|]. destruct o; [eapply kv_keep; done|apply kv_same; [done|by left]|eapply kv_keep; done].
    + split; [done|apply kv_same; [done|by left]].
  - intros [= <- <-]. split; [done|apply kv_same; [done|by left]].
  - intros [= <- <-]. split; [done|apply kv_same; [done|by left]].
Qed.

(** ** One handler at a time *)

(** No handler holds its lock for longer than the lock lives. *)
Definition timely (st : State) : Prop := forall i r p t, st_threads st !! i = Some (r, p) -> section p = Some t ->
  (sh_now (st_shared st) < t + idempotencyLockTTL)%Z.
Definition timely_step (allowed : nat -> outcome -> Prop) (st st' : State) : Prop := step allowed st st' /\ timely st'.

Record held (st : State) : Prop := {
  he_lock i r p t : st_threads st !! i = Some (r, p) -> section p = Some t ->
    sh_kv (st_shared st) !! lock_of r = Some (StoredLock, t + idempotencyLockTTL)%Z;
  he_one i j r r' p p' : st_threads st !! i = Some (r, p) -> st_threads st !! j = Some (r', p') ->
    section p <> None -> section p' <> None -> lock_of r = lock_of r' -> i = j;
}.

Definition initial (t : time) (w : W) : State := mkState (mkShared t ∅ w []) ∅.

Lemma step_clean allowed st st' : step allowed st st' -> all_clean st' -> all_clean st.
Proof.
  intros H C i r p E. destruct H as [j rj pj o pj' s ts s' Ej _ _|j rj s ts Ej|d s ts _]; simpl in *.
  - destruct (decide (j = i)) as [->|n].
    + rewrite Ej in E. injection E as -> ->. apply (C i r pj'). simpl. by rewrite lookup_insert_eq.
    + apply (C i r p). simpl. by rewrite lookup_insert_ne.
  - apply (C i r p). simpl. rewrite lookup_insert_ne; [done|congruence].
  - by apply (C i r p).
Qed.

Lemma held_advance o i r p p' s s' ts : all_clean (mkState s ts) -> timely (mkState s ts) -> held (mkState s ts) ->
  ts !! i = Some (r, p) -> advance o i r p s = (p', s') -> held (mkState s' (<[i := (r, p')]> ts)).
Proof.
  intros C T [HL HO] Ei A. simpl in *. apply advance_kv in A as [En K]. destruct K as [Ek Hs|fp -> Hfree Ek Hs|fp t a -> -> Ek|fp a -> Hs Hc Ek].
  - split; simpl; rewrite ?Ek.
    + intros j rj pj t [[-> [= -> ->]]|[n Ej]]%lookup_thread Hp; [|by eapply HL].
      destruct Hs as [Hs|Hs]; [congruence|]. eapply HL; [exact Ei|]. by rewrite <- Hs.
    + intros j k rj rk pj pk [[-> [= -> ->]]|[nj Ej]]%lookup_thread [[-> [= -> ->]]|[nk Ek']]%lookup_thread Hj Hk E; try done.
      * eapply HO; [exact Ei|exact Ek'| |done|done]. destruct Hs as [Hs|<-]; [by rewrite Hs in Hj|done].
      * eapply HO; [exact Ej|exact Ei|done| |done]. destruct Hs as [Hs|<-]; [by rewrite Hs in Hk|done].
      * by eapply HO.
  - assert (forall j rj pj t, ts !! j = Some (rj, pj) -> section pj = Some t -> lock_of rj <> lock_of r) as Hn.
    { intros j rj pj t Ej Hj E. pose proof (HL _ _ _ _ Ej Hj) as Hk. pose proof (T j rj pj t Ej Hj) as Ht. simpl in Ht.
      unfold live in Hfree. rewrite <- E, Hk in Hfree. destruct (Z.ltb_spec (sh_now s) (t + idempotencyLockTTL)); [done|lia]. }
    split; simpl; rewrite ?Ek.
    + intros j rj pj t [[-> [= -> ->]]|[n Ej]]%lookup_thread Hp.
      * destruct Hs as [Hs|Hs]; [congruence|]. rewrite Hs in Hp. injection Hp as <-. by rewrite lookup_insert_eq.
      * rewrite lookup_insert_ne; [by eapply HL|]. intros E. by eapply Hn.
    + intros j k rj rk pj pk [[-> [= -> ->]]|[nj Ej]]%lookup_thread [[-> [= -> ->]]|[nk Ek']]%lookup_thread Hj Hk E; try done.
      * destruct (section pk) as [t|] eqn:Hp; [|done]. by destruct (Hn _ _ _ _ Ek' Hp).
      * destruct (section pj) as [t|] eqn:Hp; [|done]. by destruct (Hn _ _ _ _ Ej Hp).
      * by eapply HO.
  - assert (forall j rj pj, j <> i -> ts !! j = Some (rj, pj) -> section pj <> None -> lock_of rj <> lock_of r) as Hn.
    { intros j rj pj n Ej Hj E. apply n. by eapply HO. }
    split; simpl; rewrite ?Ek.
    + intros j rj pj u [[-> [= -> ->]]|[n Ej]]%lookup_thread Hp; [done|].
      rewrite lookup_delete_ne; [by eapply HL|]. intros E. eapply (Hn j rj pj); [done|done|by rewrite Hp|done].
    + intros j k rj rk pj pk [[-> [= -> ->]]|[nj Ej]]%lookup_thread [[-> [= -> ->]]|[nk Ek']]%lookup_thread Hj Hk E; try done. by eapply HO.
  - split; simpl; rewrite ?Ek.
    + intros j rj pj u [[-> [= -> ->]]|[n Ej]]%lookup_thread Hp; [congruence|].
      rewrite lookup_insert_ne; [by eapply HL|]. apply key_not_lock; by eapply C.
    + intros j k rj rk pj pk [[-> [= -> ->]]|[nj Ej]]%lookup_thread [[-> [= -> ->]]|[nk Ek']]%lookup_thread Hj Hk E; try done. by eapply HO.
Qed.

Lemma timely_held allowed t w st : rtc (timely_step allowed) (initial t w) st -> all_clean st -> timely st /\ held st.
Proof.
  revert st. apply (rtc_ind_r (fun st => all_clean st -> timely st /\ held st)).
  - intros _. split; [by intros i r p u E|]. split; [by intros i r p u E|by intros i j r r' p p' E].
  - intros st st' H [HS HT] IH C. specialize (IH (step_clean _ _ _ HS C)) as [T Hh]. split; [done|].
    assert (all_clean st) as C1 by by eapply step_clean.
    destruct HS as [i r p o p' s ts s' Ei _ A|i r s ts Ei|d s ts Hd].
    + by eapply held_advance.
    + destruct Hh as [HL HO]. split; simpl in *.
      * intros j rj pj u [[-> [= -> ->]]|[n Ej]]%lookup_thread Hp; [done|by eapply HL].
      * intros j k rj rk pj pk [[-> [= -> ->]]|[nj Ej]]%lookup_thread [[-> [= -> ->]]|[nk Ek']]%lookup_thread Hj Hk E; try done. by eapply HO.
    + destruct Hh as [HL HO]. by split.
Qed.

(** ** Replays are answers that were given *)

Context (sha256_text : forall x, sha256 x <> "").

(** The handler of thread [i] answered [a] to a request of this tenant, key and content. *)
Definition gave (st : State) (key : string) (fp : string) (a : HttpResponse) : Prop := exists j r p,
  st_threads st !! j = Some (r, p) /\ key_of r = key /\ requestFingerprint r = Some fp /\
  (j, Some a) ∈ sh_log (st_shared st) /\ classifyStatus (hs_status a) = "ok".

(** What thread [i], of request [r] and at [p], knows. *)
Definition knows (st : State) (i : nat) (r : HttpRequest) (p : PC) : Prop :=
  match p with
  | Missed fp | Locked fp _ => requestFingerprint r = Some fp
  | Ran fp _ a | Released fp a => requestFingerprint r = Some fp /\ (i, Some a) ∈ sh_log (st_shared st)
  | Answered a true => exists fp, requestFingerprint r = Some fp /\ gave st (key_of r) fp a
  | _ => True
  end.

(** The handler has run: never before these, and never again after. *)
Definition has_run (p : PC) : bool := match p with Ran _ _ _ | Released _ _ | Answered _ false | Broken => true | _ => false end.

Record faithful (st : State) : Prop := {
  fa_kv k e exp : sh_kv (st_shared st) !! k = Some (StoredEntry e, exp) ->
    exists a, gave st k (ie_fingerprint e) a /\ e = kept_entry (ie_fingerprint e) a;
  fa_knows i r p : st_threads st !! i = Some (r, p) -> knows st i r p;
  fa_ran i a : (i, a) ∈ sh_log (st_shared st) -> exists r p, st_threads st !! i = Some (r, p) /\ has_run p = true;
  fa_once : NoDup (sh_log (st_shared st)).*1;
}.

Lemma replay_entry fp a : replay (kept_entry fp a) = a.
Proof. by destruct a. Qed.

(** What a step adds to the log. *)
Lemma advance_log o i r p s p' s' : advance o i r p s = (p', s') ->
  (sh_log s' = sh_log s /\ (has_run p = true -> has_run p' = true)) \/
  (exists a, sh_log s' = (sh_log s ++ [(i, a)])%list /\ has_run p = false /\ has_run p' = true /\
     (p = Passing \/ exists fp t, p = Locked fp t /\ p' = match a with Some b => Ran fp t b | None => Broken end)).
Proof.
  unfold advance, run_handler. destruct p as [|fp| |fp t|fp t a|fp a|a b|];
    repeat case_match; try (destruct (handle r _) as [[a|] w]); intros [= <- <-]; simpl; try (left; by split);
    right; eexists; split_and!; try reflexivity; eauto. all: by case_match.
Qed.

(** The threads of a state are those of a later one, and the log goes on. *)
Record later (st st' : State) : Prop := {
  la_threads j r p : st_threads st !! j = Some (r, p) -> exists p', st_threads st' !! j = Some (r, p');
  la_log x : x ∈ sh_log (st_shared st) -> x ∈ sh_log (st_shared st');
}.
Lemma gave_later st st' k fp a : later st st' -> gave st k fp a -> gave st' k fp a.
Proof. intros [HT HL] (j & r & p & E & ? & ? & ? & ?). destruct (HT _ _ _ E) as (p' & E'). exists j, r, p'. split_and!; auto. Qed.
Lemma knows_later st st' i r p : later st st' -> knows st i r p -> knows st' i r p.
Proof.
  intros L. destruct p as [|fp| |fp t|fp t a|fp a|a [|]|]; simpl; try done.
  - intros [? ?]. split; [done|]. by apply L.
  - intros [? ?]. split; [done|]. by apply L.
  - intros (fp & ? & ?). exists fp. split; [done|]. by eapply gave_later.
Qed.

(** What a thread knows after its step. *)
Lemma advance_knows st st' o i r p p' : faithful st -> st_threads st !! i = Some (r, p) -> later st st' ->
  advance o i r p (st_shared st) = (p', st_shared st') -> knows st' i r p'.
Proof.
  intros F Ei L A. pose proof (fa_knows _ F _ _ _ Ei) as K. unfold advance in A. destruct p as [|fp| |fp t|fp t a|fp a|a b|].
  - destruct (dedup_tenant r) as [tid|] eqn:Ed; [|by injection A as <- _]. destruct (requestFingerprint r) as [fp|] eqn:Ef; [|by injection A as <- _].
    destruct o; try (by injection A as <- _). destruct (live _ _ _) as [v|] eqn:El; injection A as <- _; [|exact Ef].
    unfold found. destruct v as [e|]; [|exact Ef]. destruct (Z.ltb _ _); [|exact Ef].
    destruct (negb _ && negb _) eqn:Efp; [done|]. simpl. exists fp. split; [done|].
    assert (key_of r = storeKey (default "" (Some tid)) r) as Ek by (unfold key_of; by rewrite Ed).
    rewrite <- Ek in El. clear Ek. unfold live in El. destruct (sh_kv (st_shared st) !! key_of r) as [[v exp]|] eqn:Ekv; [|done].
    destruct (Z.ltb _ _); [|done]. injection El as ->.
    destruct (fa_kv _ F _ _ _ Ekv) as (a & G & Ee). eapply gave_later; [exact L|]. rewrite Ee, replay_entry.
    destruct G as (j & rj & pj & ? & ? & Hf & ? & ?).
    assert (ie_fingerprint e <> "") as Hne by (unfold requestFingerprint in Hf; destruct (hq_body rj); [injection Hf as <-; apply sha256_text|done]).
    apply String.eqb_neq in Hne. rewrite Hne in Efp. simpl in Efp. apply negb_false_iff, String.eqb_eq in Efp. rewrite Efp in *.
    exists j, rj, pj. by split_and!.
  - by destruct (negb _), o; injection A as <- _.
  - unfold run_handler in A. by destruct (handle r _) as [[a|] w]; injection A as <- _.
  - unfold run_handler in A. destruct (handle r _) as [[a|] w]; injection A as <- E; [|done]. simpl. split; [exact K|].
    rewrite <- E. simpl. apply elem_of_app. right. left.
  - injection A as <- _. by eapply (knows_later _ _ _ _ (Ran fp t a)).
  - by injection A as <- _.
  - injection A as <- _. by eapply knows_later.
  - by injection A as <- _.
Qed.

Lemma advance_later o i r p p' s s' ts : ts !! i = Some (r, p) -> advance o i r p s = (p', s') ->
  later (mkState s ts) (mkState s' (<[i := (r, p')]> ts)).
Proof.
  intros Ei A. split; simpl.
  - intros j rj pj Ej. destruct (decide (i = j)) as [<-|n].
    + rewrite Ei in Ej. injection Ej as <- <-. exists p'. by rewrite lookup_insert_eq.
    + exists pj. by rewrite lookup_insert_ne.
  - intros x Hx. apply advance_log in A as [[-> _]|(a & -> & _)]; [done|]. apply elem_of_app. by left.
Qed.

Lemma faithful_advance o i r p p' s s' ts : faithful (mkState s ts) -> ts !! i = Some (r, p) -> advance o i r p s = (p', s') ->
  faithful (mkState s' (<[i := (r, p')]> ts)).
Proof.
  intros F Ei A. pose proof (advance_later _ _ _ _ _ _ _ _ Ei A) as L.
  pose proof (advance_knows (mkState s ts) (mkState s' (<[i := (r, p')]> ts)) o i r p p' F Ei L A) as K.
  pose proof (advance_log _ _ _ _ _ _ _ A) as G. split; simpl.
  - intros k e exp Ek. apply advance_kv in A as [_ KV].
    assert (sh_kv s !! k = Some (StoredEntry e, exp) \/ (exists fp a, p = Released fp a /\ k = key_of r /\ e = kept_entry fp a /\ classifyStatus (hs_status a) = "ok")) as [Ek'|(fp & a & -> & -> & -> & Hc)].
    { destruct KV as [E _|fp _ _ E _|fp t a _ _ E|fp a Ep _ Hc E]; rewrite E in Ek; [by left| | |].
      - apply lookup_insert_Some in Ek as [[_ [=]]|[_ ?]]. by left.
      - apply lookup_delete_Some in Ek as [_ ?]. by left.
      - apply lookup_insert_Some in Ek as [[<- [= <- _]]|[_ ?]]; [|by left]. right. eauto 10. }
    + destruct (fa_kv _ F _ _ _ Ek') as (a & ? & ?). exists a. split; [by eapply gave_later|done].
    + exists a. split; [|done]. apply (gave_later _ _ _ _ _ L). destruct (fa_knows _ F _ _ _ Ei) as [? ?].
      exists i, r, (Released fp a). by split_and!.
  - intros j rj pj [[-> [= -> ->]]|[n Ej]]%lookup_thread; [done|]. eapply knows_later; [exact L|]. by apply (fa_knows _ F).
  - intros j a Hj.
    assert ((j, a) ∈ sh_log s \/ (j = i /\ has_run p' = true)) as [H|[-> H]].
    { destruct G as [[E _]|(b & E & _ & Hr & _)]; rewrite E in Hj; [by left|]. apply elem_of_app in Hj as [?|H]; [by left|].
      apply list_elem_of_singleton in H as [= -> _]. by right. }
    + destruct (fa_ran _ F _ _ H) as (rj & pj & Ej & Hr). simpl in Ej. destruct (decide (i = j)) as [<-|n].
      * rewrite Ei in Ej. injection Ej as <- <-. exists r, p'. rewrite lookup_insert_eq. split; [done|].
        destruct G as [[_ G]|(_ & _ & G & _)]; [by apply G|congruence].
      * exists rj, pj. by rewrite lookup_insert_ne.
    + exists r, p'. by rewrite lookup_insert_eq.
  - destruct G as [[-> _]|(a & -> & Hn & _)]; [apply F|]. rewrite fmap_app. simpl. apply NoDup_app. split_and!; [apply F| |apply NoDup_singleton].
    intros j ([j' b] & -> & Hj)%list_elem_of_fmap. simpl. intros ->%list_elem_of_singleton.
    destruct (fa_ran _ F _ _ Hj) as (rj & pj & Ej & Hr). simpl in Ej. rewrite Ei in Ej. injection Ej as <- <-. congruence.
Qed.

Lemma later_faithful st st' : later st st' -> sh_kv (st_shared st') = sh_kv (st_shared st) -> sh_log (st_shared st') = sh_log (st_shared st) ->
  (forall i r p, st_threads st' !! i = Some (r, p) -> st_threads st !! i = Some (r, p) \/ p = Start) ->
  (forall i x, st_threads st !! i = Some x -> st_threads st' !! i = Some x) -> faithful st -> faithful st'.
Proof.
  intros L Ek El Hnew Hold [HK HN HR HO]. split.
  - rewrite Ek. intros k e exp E. destruct (HK _ _ _ E) as (a & ? & ?). exists a. split; [by eapply gave_later|done].
  - intros i r p [E| ->]%Hnew; [|done]. eapply knows_later; [exact L|by apply HN].
  - rewrite El. intros i a H. destruct (HR _ _ H) as (r & p & E & ?). exists r, p. split; [by apply Hold|done].
  - by rewrite El.
Qed.

Lemma step_faithful allowed st st' : step allowed st st' -> faithful st -> faithful st'.
Proof.
  intros [i r p o p' s ts s' Ei _ A|i r s ts Ei|d s ts _] F.
  - by eapply faithful_advance.
  - assert (forall j x, ts !! j = Some x -> <[i := (r, Start)]> ts !! j = Some x) as Hold by (intros j x Ej; rewrite lookup_insert_ne; [done|congruence]).
    apply (later_faithful (mkState s ts)); try done; simpl.
    + split; simpl; [|done]. intros j rj pj Ej. exists pj. by apply Hold.
    + intros j rj pj [[-> [= -> ->]]|[_ ?]]%lookup_thread; [by right|by left].
  - apply (later_faithful (mkState s ts)); try done; simpl; [|by left]. split; simpl; [|done]. eauto.
Qed.

Lemma reachable_faithful allowed t w st : rtc (step allowed) (initial t w) st -> faithful st.
Proof.
  revert st. apply rtc_ind_r.
  - split; simpl; [by intros k e exp E|by intros i r p E|by intros i a H%elem_of_nil|constructor].
  - intros st st' _ H F. by eapply step_faithful.
Qed.

(** ** Once an answer is kept, the handler does not run again *)

(** The answer under [k] stays, at least until [exp]. *)
Definition kept (k : string) (exp : time) (st : State) : Prop := exists e exp',
  sh_kv (st_shared st) !! k = Some (StoredEntry e, exp') /\ (exp <= exp')%Z /\ (0 < ie_status e)%Z.
(** Thread [i] waits, or has been answered without running. *)
Definition spared (i : nat) (r : HttpRequest) (st : State) : Prop := exists p,
  st_threads st !! i = Some (r, p) /\ (p = Start \/ exists a b, p = Answered a b) /\ forall a, (i, a) ∉ sh_log (st_shared st).

Lemma ok_positive a : classifyStatus (hs_status a) = "ok" -> (0 < hs_status a)%Z.
Proof. unfold classifyStatus. destruct (Z.leb_spec 200 (hs_status a)); [lia|]. simpl. by repeat case_match. Qed.

Lemma step_kept allowed st st' k r0 exp : step allowed st st' -> all_clean st -> clean r0 -> k = key_of r0 ->
  (exp <= sh_now (st_shared st) + idempotencyCacheTTL)%Z -> kept k exp st -> kept k exp st'.
Proof.
  intros H C C0 -> Hexp (e & exp' & Ek & He & Hs). destruct H as [i r p o p' s ts s' Ei _ A|i r s ts Ei|d s ts Hd]; [|by exists e, exp'..].
  assert (clean r) as Cr by by eapply C. apply advance_kv in A as [_ K]. simpl in *.
  destruct K as [E _|fp _ _ E _|fp t a _ _ E|fp a _ _ Hc E]; unfold kept; simpl; rewrite E.
  - by exists e, exp'.
  - rewrite lookup_insert_ne; [by exists e, exp'|]. intros F. symmetry in F. by apply key_not_lock in F.
  - rewrite lookup_delete_ne; [by exists e, exp'|]. intros F. symmetry in F. by apply key_not_lock in F.
  - destruct (decide (key_of r = key_of r0)) as [->|n]; [|rewrite lookup_insert_ne; [by exists e, exp'|done]].
    rewrite lookup_insert_eq. do 2 eexists. split; [done|]. split; [lia|]. by apply ok_positive.
Qed.

Lemma step_now allowed st st' : step allowed st st' -> (sh_now (st_shared st) <= sh_now (st_shared st'))%Z.
Proof. intros [i r p o p' s ts s' Ei _ A|i r s ts Ei|d s ts Hd]; simpl; [apply advance_kv in A as [-> _]| |]; lia. Qed.

Lemma step_spared allowed st st' i r exp : step allowed st st' -> (forall o, allowed i o -> o = Acknowledged) ->
  dedup_tenant r <> None -> (sh_now (st_shared st) < exp)%Z -> kept (key_of r) exp st -> spared i r st -> spared i r st'.
Proof.
  intros H Ha Hd Hnow (e & exp' & Ek & He & Hs) (p & Ep & Hp & Hl). destruct H as [j rj pj o pj' s ts s' Ej Ho A|j rj s ts Ej|d s ts _]; simpl in *.
  - destruct (decide (j = i)) as [->|n].
    + rewrite Ej in Ep. injection Ep as -> ->. apply Ha in Ho as ->. unfold spared. simpl.
      assert (s' = s /\ exists a b, pj' = Answered a b) as [-> (a & b & ->)].
      { unfold advance in A. destruct Hp as [->|(a & b & ->)]; [|injection A as <- <-; eauto].
        unfold key_of in Ek. destruct (dedup_tenant r) as [tid|]; [|done]. destruct (requestFingerprint r) as [fp|]; [|injection A as <- <-; eauto].
        simpl in *. unfold live in A. rewrite Ek in A. destruct (Z.ltb_spec (sh_now s) exp'); [|lia]. injection A as <- <-.
        split; [done|]. unfold found. destruct (Z.ltb_spec 0 (ie_status e)); [|lia]. destruct (_ && _); eauto. }
      exists (Answered a b). rewrite lookup_insert_eq. split_and!; eauto.
    + exists p. simpl. rewrite lookup_insert_ne by done. split_and!; [done..|]. intros a.
      apply advance_log in A as [[-> _]|(b & -> & _)]; [done|]. intros [H|H]%elem_of_app; [by eapply Hl|].
      apply list_elem_of_singleton in H. injection H as -> _. done.
  - exists p. simpl. rewrite lookup_insert_ne; [by split_and!|congruence].
  - by exists p.
Qed.

Lemma kept_spares allowed st st' i r exp : rtc (step allowed) st st' -> (forall o, allowed i o -> o = Acknowledged) ->
  dedup_tenant r <> None -> all_clean st' -> (exp <= sh_now (st_shared st) + idempotencyCacheTTL)%Z ->
  (sh_now (st_shared st') < exp)%Z -> kept (key_of r) exp st -> spared i r st -> spared i r st'.
Proof.
  intros H Ha Hd C Hexp Hnow Hk Hp.
  assert (forall a b, rtc (step allowed) a b -> all_clean b -> all_clean a) as Cb.
  { intros a b R. induction R as [|a b c S R IH]; [done|]. intros Cc. by eapply step_clean, IH. }
  assert (forall a b, rtc (step allowed) a b -> (sh_now (st_shared a) <= sh_now (st_shared b))%Z) as Tb.
  { intros a b R. induction R as [|a b c S R IH]; [done|]. apply step_now in S. lia. }
  induction H as [|st1 st2 st3 S R IH]; [done|]. pose proof (step_now _ _ _ S). pose proof (Tb _ _ R).
  assert (all_clean st1) as C1 by by eapply step_clean, Cb.
  assert (clean r) as Cr by (destruct Hp as (p & Ep & _); by eapply C1).
  apply IH; [done|lia|done| |].
  - by eapply step_kept.
  - eapply step_spared; [exact S|done..| |exact Hk|exact Hp]. lia.
Qed.

(** An answer is kept for a day at most. *)
Lemma reachable_expiry allowed t w st : rtc (step allowed) (initial t w) st -> forall k e exp,
  sh_kv (st_shared st) !! k = Some (StoredEntry e, exp) -> (exp <= sh_now (st_shared st) + idempotencyCacheTTL)%Z.
Proof.
  revert st. apply (rtc_ind_r (fun st => forall k e exp, sh_kv (st_shared st) !! k = Some (StoredEntry e, exp) ->
    (exp <= sh_now (st_shared st) + idempotencyCacheTTL)%Z)); [by intros k e exp E|]. intros st st' _ H IH k e exp E. pose proof (step_now _ _ _ H) as Hn.
  assert (forall k e exp, sh_kv (st_shared st) !! k = Some (StoredEntry e, exp) -> (exp <= sh_now (st_shared st') + idempotencyCacheTTL)%Z) as IH'
    by (intros; etrans; [by eapply IH|lia]). clear IH.
  destruct H as [i r p o p' s ts s' Ei _ A|i r s ts Ei|d s ts Hd]; simpl in *; [|by eapply IH'..].
  apply advance_kv in A as [En K]. destruct K as [Ek _|fp _ _ Ek _|fp u a _ _ Ek|fp a _ _ Hc Ek]; rewrite Ek in E.
  - by eapply IH'.
  - apply lookup_insert_Some in E as [[_ [=]]|[_ E]]. by eapply IH'.
  - apply lookup_delete_Some in E as [_ E]. by eapply IH'.
  - apply lookup_insert_Some in E as [[_ [= _ <-]]|[_ E]]; [lia|by eapply IH'].
Qed.

(** ** Theorems *)

(** C36: While no handler outlasts the lock, two requests of one tenant and one key are never served
    under the lock at the same time. *)
Theorem one_handler_at_a_time allowed t w st i j r r' p p' : rtc (timely_step allowed) (initial t w) st -> all_clean st ->
  st_threads st !! i = Some (r, p) -> st_threads st !! j = Some (r', p') -> section p <> None -> section p' <> None ->
  dedup_tenant r = dedup_tenant r' -> hq_key r = hq_key r' -> i = j.
Proof.
  intros H C Ei Ej Hi Hj Ed Ek. destruct (timely_held _ _ _ _ H C) as [_ HO]. eapply (he_one _ HO); [exact Ei|exact Ej|done|done|].
  unfold lock_of, lockKey, storeKey. by rewrite Ed, Ek.
Qed.

(** C37: A replayed answer is a 2xx answer that another request's handler gave, of the same tenant
    and key and with the same method, path and content as far as the hash tells; the replayed
    request's own handler has not run. *)
Theorem replay_is_an_answer allowed t w st i r a : rtc (step allowed) (initial t w) st -> all_clean st ->
  st_threads st !! i = Some (r, Answered a true) ->
  (forall x, (i, x) ∉ sh_log (st_shared st)) /\
  exists j r' p', j <> i /\ st_threads st !! j = Some (r', p') /\ (j, Some a) ∈ sh_log (st_shared st) /\
    classifyStatus (hs_status a) = "ok" /\ requestFingerprint r' = requestFingerprint r /\
    default "" (dedup_tenant r') = default "" (dedup_tenant r) /\ hq_key r' = hq_key r.
Proof.
  intros H C Ei. pose proof (reachable_faithful _ _ _ _ H) as F.
  assert (forall x, (i, x) ∉ sh_log (st_shared st)) as Hn.
  { intros x Hx. destruct (fa_ran _ F _ _ Hx) as (r1 & p1 & E & Hr). rewrite Ei in E. injection E as <- <-. done. }
  split; [done|]. destruct (fa_knows _ F _ _ _ Ei) as (fp & Hf & j & r' & p' & Ej & Ek & Hf' & Hl & Hc).
  exists j, r', p'. destruct (key_of_inj r' r) as [Ed Eh]; [by eapply C..|done|].
  split_and!; try done; [|congruence]. intros ->. by eapply Hn.
Qed.

(** No handler runs twice for one request. *)
Theorem handler_runs_once allowed t w st : rtc (step allowed) (initial t w) st -> NoDup (sh_log (st_shared st)).*1.
Proof. intros H. apply (fa_once _ (reachable_faithful _ _ _ _ H)). Qed.

(** Once the store keeps an answer of its tenant and key, a request that arrives is answered
    without its handler being run, whatever the other requests do and whatever the store
    answers them, as long as the store answers this one and the answer has not expired. *)
Theorem kept_answer_is_final allowed t w st st' i r e exp : rtc (step allowed) (initial t w) st -> rtc (step allowed) st st' ->
  all_clean st' -> dedup_tenant r <> None -> (forall o, allowed i o -> o = Acknowledged) ->
  st_threads st !! i = Some (r, Start) -> sh_kv (st_shared st) !! key_of r = Some (StoredEntry e, exp) ->
  (sh_now (st_shared st') < exp)%Z -> spared i r st'.
Proof.
  intros H R C Hd Ha Ei Ek Hnow. pose proof (reachable_expiry _ _ _ _ H _ _ _ Ek) as Hexp. pose proof (reachable_faithful _ _ _ _ H) as F.
  eapply kept_spares; [exact R|done|done|done|exact Hexp|exact Hnow| |].
  - exists e, exp. split_and!; [done|lia|]. destruct (fa_kv _ F _ _ _ Ek) as (a & (_ & _ & _ & _ & _ & _ & _ & Hc) & ->). by apply ok_positive.
  - exists Start. split_and!; [done|by left|]. intros a Hl. destruct (fa_ran _ F _ _ Hl) as (r1 & p1 & E & Hr). rewrite Ei in E. injection E as <- <-. done.
Qed.

(** *** A request that loses the race for the lock *)

(** The store answers every call. *)
Definition answers (i : nat) (o : outcome) : Prop := o = Acknowledged.

(** A state in which no time has passed since the locks were taken. *)
Definition prompt (t : time) (st : State) : Prop := sh_now (st_shared st) = t /\
  forall i r p u, st_threads st !! i = Some (r, p) -> section p = Some u -> u = t.
Lemma prompt_timely t st : prompt t st -> timely st.
Proof. intros [En H] i r p u E Hp. rewrite (H _ _ _ _ E Hp), En. unfold idempotencyLockTTL, second. lia. Qed.

Definition soon (t : time) (w : W) (st : State) : Prop := rtc (timely_step answers) (initial t w) st /\ prompt t st.

Lemma soon_arrives t w i r s ts : soon t w (mkState s ts) -> ts !! i = None -> soon t w (mkState s (<[i := (r, Start)]> ts)).
Proof.
  intros [R [En P]] E. assert (prompt t (mkState s (<[i := (r, Start)]> ts))) as P'.
  { split; [done|]. intros j rj pj u [[-> [= -> ->]]|[n Ej]]%lookup_thread Hp; [done|by eapply P]. }
  split; [|done]. eapply rtc_r; [exact R|]. split; [by constructor|by eapply prompt_timely].
Qed.

Lemma soon_advances t w i r p p' s s' ts : soon t w (mkState s ts) -> ts !! i = Some (r, p) ->
  advance Acknowledged i r p s = (p', s') -> soon t w (mkState s' (<[i := (r, p')]> ts)).
Proof.
  intros [R [En P]] Ei A. assert (prompt t (mkState s' (<[i := (r, p')]> ts))) as P'.
  { pose proof (advance_kv _ _ _ _ _ _ _ A) as [En' K]. split; [simpl in *; congruence|].
    intros j rj pj u [[-> [= -> ->]]|[n Ej]]%lookup_thread Hp; [|by eapply P]. simpl in *.
    destruct K as [_ [Hs|Hs]|fp _ _ _ [Hs|Hs]|fp v a _ -> _|fp a _ Hs]; [congruence| |congruence|congruence|done|congruence].
    eapply P; [exact Ei|congruence]. }
  split; [|done]. eapply rtc_r; [exact R|]. split; [by eapply step_advance|by eapply prompt_timely].
Qed.

(** A schedule of threads, run. *)
Definition serve (i : nat) (st : State) : State :=
  match st_threads st !! i with
  | Some (r, p) => let '(p', s') := advance Acknowledged i r p (st_shared st) in mkState s' (<[i := (r, p')]> (st_threads st))
  | None => st
  end.
Definition arrive (i : nat) (r : HttpRequest) (st : State) : State :=
  match st_threads st !! i with
  | Some _ => st
  | None => mkState (st_shared st) (<[i := (r, Start)]> (st_threads st))
  end.
Lemma soon_serve t w i st : soon t w st -> soon t w (serve i st).
Proof.
  intros S. unfold serve. destruct (st_threads st !! i) as [[r p]|] eqn:E; [|done]. destruct (advance _ _ _ _ _) as [p' s'] eqn:A.
  destruct st as [s ts]. by eapply soon_advances.
Qed.
Lemma soon_arrive t w i r st : soon t w st -> soon t w (arrive i r st).
Proof. intros S. unfold arrive. destruct (st_threads st !! i) eqn:E; [done|]. destruct st as [s ts]. by apply soon_arrives. Qed.
Lemma serve_steps i st : rtc (step answers) st (serve i st).
Proof.
  unfold serve. destruct (st_threads st !! i) as [[r p]|] eqn:E; [|done]. destruct (advance _ _ _ _ _) as [p' s'] eqn:A.
  destruct st as [s ts]. apply rtc_once. by eapply step_advance.
Qed.
Lemma soon_initial t w : soon t w (initial t w).
Proof. split; [constructor|split; [done|by intros i r p u E]]. Qed.
Lemma soon_steps t w st : soon t w st -> rtc (step answers) (initial t w) st.
Proof. intros [R _]. eapply rtc_subrel; [|exact R]. by intros a b [H _]. Qed.

(** Two requests with one key can both miss before either locks.  The one that comes to the lock
    after the other has given it back does not look again: its handler runs as well, although
    the first one's answer is kept by then, no time has passed and the store has answered every
    call. *)
Theorem late_loser_runs_again t w r a1 a2 w1 w2 : dedup_tenant r <> None -> is_Some (requestFingerprint r) ->
  handle r w = (Some a1, w1) -> handle r w1 = (Some a2, w2) -> classifyStatus (hs_status a1) = "ok" ->
  exists st, rtc (timely_step answers) (initial t w) st /\ sh_log (st_shared st) = [(0, Some a1); (1, Some a2)] /\
    sh_world (st_shared st) = w2 /\ exists e exp, sh_kv (st_shared st) !! key_of r = Some (StoredEntry e, exp) /\ replay e = a1.
Proof.
  intros Hd [fp Hf] H1 H2 Hc. destruct (dedup_tenant r) as [tid|] eqn:Ed; [|done].
  assert (key_of r = storeKey tid r) as Ek by (unfold key_of; by rewrite Ed).
  assert (lockKey tid r <> storeKey tid r) as Hne.
  { unfold lockKey. intros E. apply (f_equal chars), (f_equal length) in E. rewrite chars_app, length_app in E. simpl in E. lia. }
  rewrite Ek. clear Ek.
  pose proof (soon_initial t w) as S.
  apply (soon_arrives _ _ 0 r) in S; [|done]. apply (soon_arrives _ _ 1 r) in S; [|done].
  eapply (soon_advances _ _ 0 r Start (Missed fp)) in S; [|done|unfold advance; by rewrite Ed, Hf].
  eapply (soon_advances _ _ 1 r Start (Missed fp)) in S; [|done|unfold advance; by rewrite Ed, Hf].
  eapply (soon_advances _ _ 0 r (Missed fp) (Locked fp t)) in S; [|done|unfold advance, live; rewrite Ed; simpl; rewrite lookup_empty; reflexivity].
  eapply (soon_advances _ _ 0 r (Locked fp t) (Ran fp t a1)) in S; [|done|unfold advance, run_handler; simpl; rewrite H1; reflexivity].
  eapply (soon_advances _ _ 0 r (Ran fp t a1) (Released fp a1)) in S; [|done|unfold advance; rewrite Ed; simpl; rewrite delete_insert_eq; reflexivity].
  eapply (soon_advances _ _ 0 r (Released fp a1) (Answered a1 false)) in S; [|done|unfold advance; rewrite Ed, Hc; simpl; reflexivity].
  eapply (soon_advances _ _ 1 r (Missed fp) (Locked fp t)) in S; [|done|].
  2: { unfold advance, live. rewrite Ed. simpl. rewrite delete_empty, lookup_insert_ne, lookup_empty by done. reflexivity. }
  eapply (soon_advances _ _ 1 r (Locked fp t) (Ran fp t a2)) in S; [|done|unfold advance, run_handler; simpl; rewrite H2; reflexivity].
  eexists. split; [exact (proj1 S)|]. simpl. split_and!; [done|done|].
  do 2 eexists. rewrite lookup_insert_ne, lookup_insert_eq by done. split; [reflexivity|apply replay_entry].
Qed.
End idempotency.

(** ** Witnesses: a payment sent twice *)
Section examples.
Definition ex_sha (s : string) : string := "h" ++ s.
Lemma ex_sha_text s : ex_sha s <> "".
Proof. done. Qed.
(** The handler counts the payments it has booked. *)
Definition ex_pay (r : HttpRequest) (n : nat) : option HttpResponse * nat := (Some (mkHttpResponse 201 "application/json" "paid"), S n).
Definition ex_payment_request : HttpRequest :=
  mkHttpRequest "POST" "/api/v1/payments" "/api/v1/payments" "k-1" (TenantUUID ex_tenant) (Some "{}").

Lemma ex_clean (ts : gmap nat (HttpRequest * PC)) : map_Forall (fun _ x => x.1 = ex_payment_request) ts ->
  forall i r p, ts !! i = Some (r, p) -> clean r.
Proof.
  intros H i r p E. apply H in E. simpl in E. rewrite E. split; [done|]. simpl. intros k F.
  apply (f_equal (fun s => length (chars s))) in F. rewrite chars_app, length_app in F. simpl in F. lia.
Qed.

Abbreviation ex_serve := (serve ex_sha ex_pay).
Abbreviation ex_start_state := (initial (W := nat) ex_start 0).
(** Served, kept, and sent again. *)
Definition ex_paid : State := Nat.iter 5 (ex_serve 0) (arrive 0 ex_payment_request ex_start_state).
Definition ex_again : State := arrive 1 ex_payment_request ex_paid.
Definition ex_replayed : State := ex_serve 1 ex_again.

(** The states below are reached promptly and serve the one request. *)
Definition ex_reached (st : State) : Prop := soon ex_sha ex_pay ex_start 0 st /\ map_Forall (fun _ x => x.1 = ex_payment_request) (st_threads st).
Lemma ex_reached_start : ex_reached ex_start_state.
Proof. split; [apply soon_initial|by intros i x E]. Qed.
Lemma ex_reached_serve i st : ex_reached st -> ex_reached (ex_serve i st).
Proof.
  intros [S H]. split; [by apply soon_serve|]. unfold serve. destruct (st_threads st !! i) as [[r p]|] eqn:E; [|done].
  destruct (advance _ _ _ _ _ _ _) as [p' s']. simpl. apply map_Forall_insert_2; [|done]. exact (H _ _ E).
Qed.
Lemma ex_reached_arrive i st : ex_reached st -> ex_reached (arrive i ex_payment_request st).
Proof.
  intros [S H]. split; [by apply soon_arrive|]. unfold arrive. destruct (st_threads st !! i) eqn:E; [done|]. by apply map_Forall_insert_2.
Qed.
Ltac ex_reach := repeat first [apply ex_reached_serve|apply ex_reached_arrive|apply ex_reached_start].
Lemma ex_reached_clean st : ex_reached st -> all_clean st.
Proof. intros [_ H]. exact (ex_clean _ H). Qed.

Lemma one_handler_at_a_time_witness :
  let st := ex_serve 0 (ex_serve 0 (arrive 0 ex_payment_request ex_start_state)) in
  exists r p, st_threads st !! 0 = Some (r, p) /\ section p <> None /\ forall j r' p', st_threads st !! j = Some (r', p') ->
    section p' <> None -> dedup_tenant r = dedup_tenant r' -> hq_key r = hq_key r' -> 0 = j.
Proof.
  intros st. assert (ex_reached st) as S by (unfold st; ex_reach).
  destruct (st_threads st !! 0) as [[r p]|] eqn:E; [|vm_compute in E; discriminate].
  assert (section p <> None) as Hp by (vm_compute in E; injection E as <- <-; discriminate).
  exists r, p. split_and!; [done|done|]. intros j r' p' Ej Hj Hd Hk.
  exact (one_handler_at_a_time ex_sha ex_pay answers ex_start 0 st 0 j r r' p p' (proj1 (proj1 S)) (ex_reached_clean _ S) E Ej Hp Hj Hd Hk).
Defined.

Lemma replay_is_an_answer_witness : exists a,
  st_threads ex_replayed !! 1 = Some (ex_payment_request, Answered a true) /\ hs_body a = "paid" /\ sh_world (st_shared ex_replayed) = 1 /\
  exists j, j <> 1 /\ (j, Some a) ∈ sh_log (st_shared ex_replayed).
Proof.
  set (a := mkHttpResponse 201 "application/json" "paid"). exists a. split; [vm_compute; reflexivity|]. split; [done|]. split; [vm_compute; reflexivity|].
  assert (ex_reached ex_replayed) as S by (unfold ex_replayed, ex_again, ex_paid; simpl Nat.iter; ex_reach).
  destruct (replay_is_an_answer ex_sha ex_pay ex_sha_text answers ex_start 0 ex_replayed 1 ex_payment_request a) as (_ & j & r' & p' & n & Ej & Hl & _).
  - by eapply soon_steps, S.
  - by apply ex_reached_clean.
  - vm_compute. reflexivity.
  - by exists j.
Defined.

Lemma kept_answer_is_final_witness : spared 1 ex_payment_request ex_replayed.
Proof.
  assert (ex_reached ex_again) as S by (unfold ex_again, ex_paid; simpl Nat.iter; ex_reach).
  assert (ex_reached ex_replayed) as S' by (unfold ex_replayed; by apply ex_reached_serve).
  destruct (sh_kv (st_shared ex_again) !! key_of ex_payment_request) as [[[e|] exp]|] eqn:E; [|vm_compute in E; discriminate..].
  apply (kept_answer_is_final ex_sha ex_pay ex_sha_text answers ex_start 0 ex_again ex_replayed 1 ex_payment_request e exp).
  - by eapply soon_steps, S.
  - apply serve_steps.
  - by apply ex_reached_clean.
  - discriminate.
  - by intros o.
  - vm_compute. reflexivity.
  - exact E.
  - vm_compute in E. injection E as _ <-. vm_compute. reflexivity.
Defined.

Lemma late_loser_runs_again_witness : exists st, rtc (timely_step ex_sha ex_pay answers) ex_start_state st /\ sh_world (st_shared st) = 2.
Proof.
  destruct (late_loser_runs_again ex_sha ex_pay ex_start 0 ex_payment_request (mkHttpResponse 201 "application/json" "paid") (mkHttpResponse 201 "application/json" "paid") 1 2)
    as (st & R & _ & Hw & _); [discriminate|by eexists|reflexivity|reflexivity|reflexivity|].
  exists st. by split.
Defined.

Lemma handler_runs_once_witness : NoDup (sh_log (st_shared ex_replayed)).*1.
Proof.
  assert (ex_reached ex_replayed) as S by (unfold ex_replayed, ex_again, ex_paid; simpl Nat.iter; ex_reach).
  apply (handler_runs_once ex_sha ex_pay ex_sha_text answers ex_start 0). by eapply soon_steps, S.
Defined.
End examples.
