(* ===== verification/Subscription.v ===== *)
(** The lock of a shop whose plan has lapsed: src/internal/app/subscription/subscription.go (the
    answer, its cache and the lookups that callers share) over
    src/internal/adapter/repo/subscription/resolver.go and
    src/internal/adapter/platform/subscription_source.go, and the middleware that makes such a
    shop read-only, src/internal/adapter/middleware/subscription_guard.go.

    Callers run at the same time: a call of State is a thread, [advance] what it does between
    two points where others can come in (the mutex, the lookup, the wait for another's lookup).
    The tables and the platform are outside: what they hold when they are asked is given by the
    time of asking. *)
From S2P Require Import Prelude GoStrings Rounding Decimal SDec Types Store StockCalc Concrete ExtStore.
From stdpp Require Import base tactics strings gmap list relations.
From Stdlib Require Import ZArith Lia.

#[local] Open Scope string_scope.

Section subscription.
Context {env : Env}.

(** ** Data *)

Definition CacheTTL : Z := (5 * 60 * second)%Z.
Definition MaxStale : Z := (30 * 60 * second)%Z.
Definition ReasonExpired : string := "subscription_expired".

(** State, Snapshot *)
Record Verdict := mkVerdict { vd_locked : bool; vd_reason : string; vd_plan : string; vd_status : string; vd_expires : string }.
Definition open_shop : Verdict := mkVerdict false "" "" "" "".
Record Snapshot := mkSnapshot { sn_plan : string; sn_status : string; sn_expires : string }.

(** Evaluate *)
Definition lapsed (status : string) : bool := existsb (String.eqb status) ["expired"; "cancelled"; "suspended"].
Definition Evaluate (s : option Snapshot) : Verdict :=
  match s with
  | None => open_shop
  | Some s =>
      if lapsed (sn_status s) then mkVerdict true ReasonExpired (sn_plan s) (sn_status s) (sn_expires s)
      else mkVerdict false "" (sn_plan s) (sn_status s) (sn_expires s)
  end.

(** tally.tenant and the owners of tally.user_identity_mapping, as PlanAccountID reads them *)
Record TenantRow := mkTenantRow { tn_account : option Z }.
Record OwnerMapping := mkOwnerMapping { om_tenant : uuid; om_owner : bool; om_account : option Z; om_created_at : time }.

(** Resolver.PlanAccountID *)
Definition owner_account (tenant : uuid) (ms : list OwnerMapping) : option Z :=
  match sql_order om_created_at (select (fun m => N.eqb (om_tenant m) tenant && om_owner m && negb (is_none (om_account m))) ms) with
  | m :: _ => om_account m
  | [] => None
  end.
Definition PlanAccountID (tenant : uuid) (row : option TenantRow) (ms : list OwnerMapping) : option Z :=
  t ← row;
  a ← match tn_account t with Some a => Some a | None => owner_account tenant ms end;
  if Z.leb a 0 then None else Some a.

(** What is asked of others at a time: [None] is an error. *)
Class Outside := {
  tables_at : time -> option (gmap uuid TenantRow * list OwnerMapping);
  subscription_at : time -> Z -> option (option Snapshot);
}.
Context {outside : Outside}.

(** fetch *)
Definition fetch (now : time) (tenant : uuid) : option Verdict :=
  db ← tables_at now;
  match PlanAccountID tenant (db.1 !! tenant) db.2 with
  | None => Some open_shop
  | Some a => Evaluate <$> subscription_at now a
  end.

(** entry *)
Record Entry := mkEntry { en_state : Verdict; en_at : time; en_until : time }.

(** stale *)
Definition stale (e : option Entry) (now : time) : Verdict :=
  match e with
  | Some e => if Z.leb (now - en_at e) MaxStale then en_state e else open_shop
  | None => open_shop
  end.

(** ** Service.State, one call of it *)

(** [since] is the time the call began, [e] the entry it found then: it leads a lookup, has its
    result, or waits for the lookup of thread [leader]. *)
Inductive PC :=
  | Asking
  | Leading (since : time) (e : option Entry)
  | Fetched (since : time) (e : option Entry) (r : option Verdict)
  | Joined (since : time) (e : option Entry) (leader : nat)
  | Told (since : time) (v : Verdict).

(** [sb_results]: the closed calls; [sb_answers]: what fetches answered, and when. *)
Record Shared := mkShared {
  sb_now : time;
  sb_cache : gmap uuid Entry;
  sb_calls : gmap uuid nat;
  sb_results : gmap nat (option Verdict);
  sb_answers : list (uuid * time * Verdict) }.

Definition fresh (now : time) (e : option Entry) : option Verdict :=
  match e with Some e => if Z.ltb now (en_until e) then Some (en_state e) else None | None => None end.

(** [gone]: the caller's context ends while it waits. *)
Definition advance (gone : bool) (i : nat) (tenant : uuid) (p : PC) (s : Shared) : PC * Shared :=
  let now := sb_now s in
  match p with
  | Asking =>
      if N.eqb tenant uuid_nil then (Told now open_shop, s)
      else
        let e := sb_cache s !! tenant in
        match fresh now e, sb_calls s !! tenant with
        | Some v, _ => (Told now v, s)
        | None, Some j => (Joined now e j, s)
        | None, None => (Leading now e, mkShared now (sb_cache s) (<[tenant := i]> (sb_calls s)) (sb_results s) (sb_answers s))
        end
  | Leading since e =>
      let r := fetch now tenant in
      (Fetched since e r, mkShared now (sb_cache s) (sb_calls s) (sb_results s)
         (match r with Some v => (sb_answers s ++ [(tenant, now, v)])%list | None => sb_answers s end))
  | Fetched since e r =>
      (Told since (match r with Some v => v | None => stale e since end),
       mkShared now (match r with Some v => <[tenant := mkEntry v since (since + CacheTTL)%Z]> (sb_cache s) | None => sb_cache s end)
         (delete tenant (sb_calls s)) (<[i := r]> (sb_results s)) (sb_answers s))
  | Joined since e j =>
      match sb_results s !! j with
      | Some (Some v) => (if gone then Told since (stale e since) else Told since v, s)
      | Some None => (Told since (stale e since), s)
      | None => (if gone then Told since (stale e since) else p, s)
      end
  | Told _ _ => (p, s)
  end.

(** Service.Invalidate *)
Definition Invalidate (tenant : uuid) (s : Shared) : Shared :=
  mkShared (sb_now s) (delete tenant (sb_cache s)) (sb_calls s) (sb_results s) (sb_answers s).

(** ** Callers at the same time *)
Record State := mkState { st_shared : Shared; st_threads : gmap nat (uuid * PC) }.
Definition pass (d : Z) (s : Shared) : Shared := mkShared (sb_now s + d)%Z (sb_cache s) (sb_calls s) (sb_results s) (sb_answers s).

Inductive step : State -> State -> Prop :=
  | step_advance gone i tenant p p' s ts s' : ts !! i = Some (tenant, p) -> advance gone i tenant p s = (p', s') ->
      step (mkState s ts) (mkState s' (<[i := (tenant, p')]> ts))
  | step_call i tenant s ts : ts !! i = None -> step (mkState s ts) (mkState s (<[i := (tenant, Asking)]> ts))
  | step_invalidate tenant s ts : step (mkState s ts) (mkState (Invalidate tenant s) ts)
  | step_time d s ts : (0 <= d)%Z -> step (mkState s ts) (mkState (pass d s) ts).

(** ** SubscriptionGuard *)
Definition SubscriptionWriteAllowlist : list string :=
  ["/api/v1/auth"; "/api/v1/me"; "/api/v1/billing"; "/api/v1/exports"; "/api/v1/team/join"; "/api/v1/tenant/profile";
   "/api/v1/account"; "/api/v1/tenant/cashier-mode/verify"].
Definition SubscriptionWriteAllowed (path : string) : bool :=
  existsb (fun p => String.eqb path p || negb (is_none (cut_prefix (p ++ "/") path))) SubscriptionWriteAllowlist.
(** Whether the request is turned away with 402; [check] is the checker's answer. *)
Definition SubscriptionGuard (check : option (uuid -> Verdict)) (method path : string) (tenant : uuid) : option Verdict :=
  match check with
  | None => None
  | Some state =>
      if existsb (String.eqb method) ["GET"; "HEAD"; "OPTIONS"] then None
      else if SubscriptionWriteAllowed path then None
      else if N.eqb tenant uuid_nil then None
      else if vd_locked (state tenant) then Some (state tenant) else None
  end.

(** ** Every answer has a source *)

(** The platform's side answered [v] for the shop at [ta]. *)
Definition answered (s : Shared) (tenant : uuid) (ta : time) (v : Verdict) : Prop := (tenant, ta, v) ∈ sb_answers s.
(** An answer given no earlier than [t]. *)
Definition since_then (s : Shared) (tenant : uuid) (t : time) (v : Verdict) : Prop := exists ta, answered s tenant ta v /\ (t <= ta)%Z.

Definition entry_ok (s : Shared) (tenant : uuid) (e : Entry) : Prop :=
  en_until e = (en_at e + CacheTTL)%Z /\ since_then s tenant (en_at e) (en_state e).

Definition looking (p : PC) : option time := match p with Leading t _ | Fetched t _ _ => Some t | _ => None end.
Definition begun (p : PC) : option time :=
  match p with Asking => None | Leading t _ | Fetched t _ _ | Joined t _ _ | Told t _ => Some t end.
Definition saw (p : PC) : option Entry :=
  match p with Leading _ e | Fetched _ e _ | Joined _ e _ => e | _ => None end.

(** What a call knows: the entry it saw was an answer; so is its result, and that of the call
    it waits for, which began not long before; what it tells is an answer not too old. *)
Definition knows (st : State) (tenant : uuid) (p : PC) : Prop :=
  (forall e, saw p = Some e -> entry_ok (st_shared st) tenant e) /\
  match p with
  | Fetched t _ (Some v) => since_then (st_shared st) tenant t v
  | Joined t _ j => exists pj tj, st_threads st !! j = Some (tenant, pj) /\ begun pj = Some tj /\ (t - MaxStale <= tj)%Z
  | Told t v => vd_locked v = true -> since_then (st_shared st) tenant (t - MaxStale)%Z v
  | _ => True
  end.

Record sound (st : State) : Prop := {
  so_answers tenant ta v : answered (st_shared st) tenant ta v -> fetch ta tenant = Some v;
  so_cache tenant e : sb_cache (st_shared st) !! tenant = Some e -> entry_ok (st_shared st) tenant e;
  so_knows i tenant p : st_threads st !! i = Some (tenant, p) -> knows st tenant p;
  so_calls tenant j : sb_calls (st_shared st) !! tenant = Some j ->
    exists p, st_threads st !! j = Some (tenant, p) /\ looking p <> None;
  so_looking i tenant p : st_threads st !! i = Some (tenant, p) -> looking p <> None -> sb_calls (st_shared st) !! tenant = Some i;
  so_results j v : sb_results (st_shared st) !! j = Some (Some v) ->
    exists tenant t, st_threads st !! j = Some (tenant, Told t v) /\ since_then (st_shared st) tenant t v;
}.

(** No lookup takes longer than an answer may be reused. *)
Definition prompt (st : State) : Prop := forall i tenant p t, st_threads st !! i = Some (tenant, p) -> looking p = Some t ->
  (sb_now (st_shared st) <= t + MaxStale)%Z.
Definition prompt_step (st st' : State) : Prop := step st st' /\ prompt st'.
Definition initial (t : time) : State := mkState (mkShared t ∅ ∅ ∅ []) ∅.

(** Answers stay, and calls go on. *)
Record later (st st' : State) : Prop := {
  la_answers x : x ∈ sb_answers (st_shared st) -> x ∈ sb_answers (st_shared st');
  la_threads j tenant p : st_threads st !! j = Some (tenant, p) -> exists p', st_threads st' !! j = Some (tenant, p') /\
    forall t, begun p = Some t -> begun p' = Some t;
}.
Lemma later_since st st' tenant t v : later st st' -> since_then (st_shared st) tenant t v -> since_then (st_shared st') tenant t v.
Proof. intros L (ta & H & ?). exists ta. split; [by apply L|done]. Qed.
Lemma later_entry st st' tenant e : later st st' -> entry_ok (st_shared st) tenant e -> entry_ok (st_shared st') tenant e.
Proof. intros L [? H]. split; [done|by eapply later_since]. Qed.
Lemma later_knows st st' tenant p : later st st' -> knows st tenant p -> knows st' tenant p.
Proof.
  intros L [He H]. split; [intros e E; by eapply later_entry, He|]. destruct p as [|t e|t e [v|]|t e j|t v]; try done.
  - by eapply later_since.
  - destruct H as (pj & tj & Ej & Hb & ?). destruct (la_threads _ _ L _ _ _ Ej) as (pj' & Ej' & Hb'). exists pj', tj. split_and!; auto.
  - intros Hv. eapply later_since; [exact L|]. by apply H.
Qed.

Lemma stale_ok s tenant e since : (forall x, e = Some x -> entry_ok s tenant x) -> vd_locked (stale e since) = true ->
  since_then s tenant (since - MaxStale)%Z (stale e since).
Proof.
  unfold stale. destruct e as [e|]; [|done]. intros H. destruct (Z.leb_spec (since - en_at e) MaxStale); [|done].
  intros _. destruct (H e eq_refl) as (_ & ta & Ha & ?). exists ta. split; [done|lia].
Qed.

Lemma call_later gone i tenant p p' s s' ts : ts !! i = Some (tenant, p) -> advance gone i tenant p s = (p', s') ->
  later (mkState s ts) (mkState s' (<[i := (tenant, p')]> ts)).
Proof.
  intros Ei A. assert ((forall x, x ∈ sb_answers s -> x ∈ sb_answers s') /\ forall t, begun p = Some t -> begun p' = Some t) as [Ha Hb].
  { unfold advance in A. destruct p as [|t e|t e r|t e j|t v]; repeat case_match; injection A as <- <-; simpl; (split; [|done]); try done.
    intros x Hx. apply elem_of_app. by left. }
  split; simpl; [done|]. intros j tj pj Ej. destruct (decide (i = j)) as [<-|n].
  - rewrite Ei in Ej. injection Ej as <- <-. exists p'. by rewrite lookup_insert_eq.
  - exists pj. by rewrite lookup_insert_ne.
Qed.

Lemma call_answers gone i tenant p p' s s' : advance gone i tenant p s = (p', s') ->
  sb_now s' = sb_now s /\
  (sb_answers s' = sb_answers s \/ exists t e v, p = Leading t e /\ fetch (sb_now s) tenant = Some v /\ sb_answers s' = (sb_answers s ++ [(tenant, sb_now s, v)])%list).
Proof.
  unfold advance. intros A. destruct p as [|t e|t e r|t e j|t v]; repeat case_match; injection A as <- <-; simpl; split; try done; try by left.
  right. eauto 10.
Qed.

(** What becomes of the thread that makes a step. *)
Lemma call_knows gone i tenant p p' s s' ts : sound (mkState s ts) -> prompt (mkState s ts) ->
  ts !! i = Some (tenant, p) -> (forall t, begun p = Some t -> (t <= sb_now s)%Z) -> advance gone i tenant p s = (p', s') ->
  knows (mkState s' (<[i := (tenant, p')]> ts)) tenant p'.
Proof.
  intros F P Ei Hnow A. pose proof (call_later _ _ _ _ _ _ _ _ Ei A) as L. pose proof (so_knows _ F _ _ _ Ei) as K.
  unfold advance in A. destruct p as [|t e|t e r|t e j|t v].
  - destruct (N.eqb tenant uuid_nil); [by injection A as <- <-|].
    assert (forall x, sb_cache s !! tenant = Some x -> entry_ok s tenant x) as He by apply (so_cache _ F).
    destruct (fresh _ _) as [v|] eqn:Ef; [|destruct (sb_calls s !! tenant) as [j|] eqn:Ec]; injection A as <- <-.
    + split; [done|]. simpl. intros Hv. unfold fresh in Ef. destruct (sb_cache s !! tenant) as [e|]; [|done].
      destruct (Z.ltb_spec (sb_now s) (en_until e)); [|done]. injection Ef as <-. destruct (He e eq_refl) as (Hu & ta & Ha & ?).
      exists ta. split; [done|]. rewrite Hu in *. unfold CacheTTL, MaxStale, second in *. lia.
    + split; [exact He|]. simpl. destruct (so_calls _ F _ _ Ec) as (pj & Ej & Hl). simpl in Ej.
      destruct (looking pj) as [tj|] eqn:El; [|done]. exists pj, tj. split.
      * rewrite lookup_insert_ne; [done|]. intros <-. rewrite Ei in Ej. by injection Ej as <-.
      * split; [by destruct pj; simplify_eq/=|]. pose proof (P _ _ _ _ Ej El) as Hp. simpl in Hp. lia.
    + split; [exact He|done].
  - destruct (fetch (sb_now s) tenant) as [v|] eqn:Ef; injection A as <- <-; (split; [by eapply (later_knows _ _ _ (Leading t e))|]); [|done].
    exists (sb_now s). split; [apply elem_of_app; right; left|by apply Hnow].
  - destruct r as [v|]; injection A as <- <-; (split; [done|]); simpl; intros Hv.
    + destruct K as [_ (ta & ? & ?)]. exists ta. split; [done|]. unfold MaxStale, second. lia.
    + by apply (stale_ok _ _ _ _ (proj1 K)).
  - assert (vd_locked (stale e t) = true -> since_then s tenant (t - MaxStale)%Z (stale e t)) as Hst by exact (stale_ok _ _ _ _ (proj1 K)).
    pose proof K as [He (pj & tj & Ej & Hb & Htj)].
    destruct (sb_results s !! j) as [[v|]|] eqn:Er.
    + destruct gone; injection A as <- <-; (split; [done|]); simpl; [done|]. intros _.
      destruct (so_results _ F _ _ Er) as (tenant' & t' & Ej' & ta & ? & ?). simpl in Ej, Ej'. rewrite Ej in Ej'. injection Ej' as -> ->.
      simpl in Hb. injection Hb as ->. exists ta. split; [done|lia].
    + injection A as <- <-. by split.
    + destruct gone; injection A as <- <-; [by split|]. by eapply (later_knows _ _ _ (Joined t e j)).
  - injection A as <- <-. by eapply (later_knows _ _ _ (Told t v)).
Qed.

(** What a step does to the calls under way. *)
Inductive call_step (i : nat) (tenant : uuid) (p p' : PC) (s s' : Shared) : Prop :=
  | cs_same : sb_calls s' = sb_calls s -> sb_results s' = sb_results s -> sb_cache s' = sb_cache s ->
      looking p' = looking p -> call_step i tenant p p' s s'
  | cs_begin : looking p = None -> looking p' <> None -> sb_calls s !! tenant = None -> sb_calls s' = <[tenant := i]> (sb_calls s) ->
      sb_results s' = sb_results s -> sb_cache s' = sb_cache s -> call_step i tenant p p' s s'
  | cs_finish t e r v : p = Fetched t e r -> p' = Told t v -> sb_calls s' = delete tenant (sb_calls s) ->
      sb_results s' = <[i := r]> (sb_results s) ->
      (r = None /\ sb_cache s' = sb_cache s \/ r = Some v /\ sb_cache s' = <[tenant := mkEntry v t (t + CacheTTL)%Z]> (sb_cache s)) ->
      call_step i tenant p p' s s'.

Lemma call_within gone i tenant p p' s s' : advance gone i tenant p s = (p', s') -> call_step i tenant p p' s s'.
Proof.
  unfold advance. intros A. destruct p as [|t e|t e r|t e j|t v].
  - destruct (N.eqb _ _); [injection A as <- <-; by apply cs_same|].
    destruct (fresh _ _); [injection A as <- <-; by apply cs_same|].
    destruct (sb_calls s !! tenant) eqn:E; injection A as <- <-; [by apply cs_same|by apply cs_begin].
  - destruct (fetch _ _); injection A as <- <-; by apply cs_same.
  - destruct r as [v|]; injection A as <- <-; (eapply cs_finish; [done..|]); [right|left]; done.
  - repeat case_match; injection A as <- <-; by apply cs_same.
  - injection A as <- <-. by apply cs_same.
Qed.

Lemma sound_advance gone i tenant p p' s s' ts : sound (mkState s ts) -> prompt (mkState s ts) ->
  ts !! i = Some (tenant, p) -> (forall t, begun p = Some t -> (t <= sb_now s)%Z) -> advance gone i tenant p s = (p', s') ->
  sound (mkState s' (<[i := (tenant, p')]> ts)).
Proof.
  intros F P Ei Hnow A. pose proof (call_later _ _ _ _ _ _ _ _ Ei A) as L.
  pose proof (call_knows _ _ _ _ _ _ _ _ F P Ei Hnow A) as K. pose proof (call_within _ _ _ _ _ _ _ A) as C.
  assert (forall j tj pj, j <> i -> ts !! j = Some (tj, pj) -> <[i := (tenant, p')]> ts !! j = Some (tj, pj)) as Hne by (intros; by rewrite lookup_insert_ne).
  split; simpl.
  - intros t ta v H. destruct (call_answers _ _ _ _ _ _ _ A) as [_ [E|(t0 & e & v0 & _ & Ef & E)]]; unfold answered in H; rewrite E in H.
    + by apply (so_answers _ F).
    + apply elem_of_app in H as [H|H]; [by apply (so_answers _ F)|]. apply list_elem_of_singleton in H. by injection H as -> -> ->.
  - intros t e E. assert (sb_cache s !! t = Some e \/ (exists t0 v, t = tenant /\ e = mkEntry v t0 (t0 + CacheTTL)%Z /\ exists e0, p = Fetched t0 e0 (Some v))) as [E'|(t0 & v & -> & -> & e0 & ->)].
    { destruct C as [_ _ Ec _|_ _ _ _ _ Ec|t0 e0 r v -> _ _ _ [[_ Ec]|[-> Ec]]]; rewrite Ec in E; [by left..|].
      apply lookup_insert_Some in E as [[<- <-]|[_ E]]; [right; eauto 10|by left]. }
    + eapply (later_entry _ _ _ _ L). by apply (so_cache _ F).
    + split; [done|]. eapply (later_since _ _ _ _ _ L). exact (proj2 (so_knows _ F _ _ _ Ei)).
  - intros j t pj [[-> [= -> ->]]|[n Ej]]%lookup_thread; [done|]. eapply later_knows; [exact L|]. by apply (so_knows _ F j).
  - intros t j E. destruct C as [Ec _ _ El|El El' Hn Ec _ _|t0 e0 r v -> -> Ec _ _]; rewrite Ec in E.
    + destruct (so_calls _ F _ _ E) as (pj & Ej & Hj). simpl in Ej. destruct (decide (j = i)) as [->|n].
      * rewrite Ei in Ej. injection Ej as <- <-. exists p'. rewrite lookup_insert_eq. split; [done|by rewrite El].
      * exists pj. split; [by apply Hne|done].
    + apply lookup_insert_Some in E as [[<- <-]|[n E]]; [exists p'; by rewrite lookup_insert_eq|].
      destruct (so_calls _ F _ _ E) as (pj & Ej & Hj). simpl in Ej. exists pj. split; [|done]. apply Hne; [|done].
      intros ->. rewrite Ei in Ej. injection Ej as <- <-. done.
    + apply lookup_delete_Some in E as [n E]. destruct (so_calls _ F _ _ E) as (pj & Ej & Hj). simpl in Ej. exists pj. split; [|done].
      apply Hne; [|done]. intros ->. rewrite Ei in Ej. injection Ej as <- <-. done.
  - intros j t pj [[-> [= -> ->]]|[n Ej]]%lookup_thread Hl.
    + destruct C as [Ec _ _ El|_ _ _ Ec _ _|t0 e0 r v -> -> _ _ _]; [|rewrite Ec; by apply lookup_insert_eq|done].
      rewrite Ec. eapply (so_looking _ F); [exact Ei|by rewrite <- El].
    + pose proof (so_looking _ F _ _ _ Ej Hl) as Hc. simpl in Hc. destruct C as [Ec _ _ _|_ _ Hn Ec _ _|t0 e0 r v -> -> Ec _ _]; rewrite Ec.
      * done.
      * rewrite lookup_insert_ne; [done|]. intros ->. congruence.
      * rewrite lookup_delete_ne; [done|]. intros ->. pose proof (so_looking _ F _ _ _ Ei ltac:(done)) as Hi. simpl in Hi. congruence.
  - intros j v E. assert (sb_results s !! j = Some (Some v) \/ j = i /\ exists t e, p = Fetched t e (Some v) /\ p' = Told t v) as [E'|(-> & t & e & -> & ->)].
    { destruct C as [_ Ec _ _|_ _ _ _ Ec _|t0 e0 r v0 -> -> _ Ec Hr]; rewrite Ec in E; [by left..|].
      apply lookup_insert_Some in E as [[<- ->]|[_ E]]; [|by left]. right. destruct Hr as [[[=] _]|[[= ->] _]]. eauto 10. }
    + destruct (so_results _ F _ _ E') as (t & t0 & Ej & Hs). simpl in Ej. destruct (decide (j = i)) as [->|n].
      * rewrite Ei in Ej. injection Ej as -> ->. injection A as <- <-. exists t, t0. rewrite lookup_insert_eq. by split.
      * exists t, t0. split; [by apply Hne|]. by eapply (later_since _ _ _ _ _ L).
    + exists tenant, t. rewrite lookup_insert_eq. split; [done|]. eapply (later_since _ _ _ _ _ L). exact (proj2 (so_knows _ F _ _ _ Ei)).
Qed.

Definition begun_before (st : State) : Prop := forall i tenant p t, st_threads st !! i = Some (tenant, p) -> begun p = Some t ->
  (t <= sb_now (st_shared st))%Z.

Lemma advance_begun gone i tenant p p' s s' t : advance gone i tenant p s = (p', s') -> begun p' = Some t ->
  begun p = Some t \/ t = sb_now s.
Proof.
  unfold advance. intros A Hb. destruct p as [|t0 e|t0 e r|t0 e j|t0 v]; repeat case_match; injection A as <- <-; simpl in Hb; simplify_eq; eauto.
Qed.

Lemma step_begun st st' : step st st' -> begun_before st -> begun_before st'.
Proof.
  intros [gone i tenant p p' s ts s' Ei A|i tenant s ts Ei|tenant s ts|d s ts Hd] B j t pj u; simpl.
  - rewrite (proj1 (call_answers _ _ _ _ _ _ _ A)). intros [[-> [= -> ->]]|[n Ej]]%lookup_thread Hu; [|by eapply B].
    destruct (advance_begun _ _ _ _ _ _ _ _ A Hu) as [Hu'| ->]; [by eapply B|done].
  - intros [[-> [= -> ->]]|[n Ej]]%lookup_thread Hu; [done|by eapply B].
  - intros Ej Hu. by eapply B.
  - intros Ej Hu. pose proof (B _ _ _ _ Ej Hu). simpl in *. lia.
Qed.

Lemma step_sound st st' : step st st' -> prompt st -> begun_before st -> sound st -> sound st'.
Proof.
  intros [gone i tenant p p' s ts s' Ei A|i tenant s ts Ei|tenant s ts|d s ts Hd] P B F.
  - eapply sound_advance; [done|done|done| |done]. intros t Ht. exact (B _ _ _ _ Ei Ht).
  - assert (later (mkState s ts) (mkState s (<[i := (tenant, Asking)]> ts))) as L.
    { split; simpl; [done|]. intros j t p Ej. exists p. rewrite lookup_insert_ne; [done|congruence]. }
    destruct F as [F1 F2 F3 F4 F5 F6]. split; simpl in *; [done|done| | | |].
    + intros j t p [[-> [= -> ->]]|[n Ej]]%lookup_thread; [done|]. eapply later_knows; [exact L|by eapply F3].
    + intros t j E. destruct (F4 _ _ E) as (p & Ej & ?). exists p. rewrite lookup_insert_ne; [done|congruence].
    + intros j t p [[-> [= -> ->]]|[n Ej]]%lookup_thread Hl; [done|by eapply F5].
    + intros j v E. destruct (F6 _ _ E) as (t & u & Ej & ?). exists t, u. rewrite lookup_insert_ne; [done|congruence].
  - destruct F as [F1 F2 F3 F4 F5 F6]. split; simpl in *; [done| |done..].
    intros t e E. apply lookup_delete_Some in E as [_ E]. by apply F2.
  - destruct F as [F1 F2 F3 F4 F5 F6]. by split.
Qed.

Lemma reachable_sound t st : rtc prompt_step (initial t) st -> prompt st /\ begun_before st /\ sound st.
Proof.
  revert st. apply (rtc_ind_r (fun st => prompt st /\ begun_before st /\ sound st)).
  - split_and!; [by intros i u p v E|by intros i u p v E|]. split; simpl; try done. intros u ta v H. by apply elem_of_nil in H.
  - intros st st' _ [H P'] (P & B & F). split_and!; [done|by eapply step_begun|by eapply step_sound].
Qed.

(** ** Theorems *)

(** C35: Whoever is told a shop is locked: the platform said so, of the account that holds the shop's
    plan, no longer ago than answers may be reused. *)
Theorem locked_was_answered t0 st i tenant t v : rtc prompt_step (initial t0) st ->
  st_threads st !! i = Some (tenant, Told t v) -> vd_locked v = true ->
  exists ta db a s, (t - MaxStale <= ta)%Z /\ tables_at ta = Some db /\ PlanAccountID tenant (db.1 !! tenant) db.2 = Some a /\
    subscription_at ta a = Some (Some s) /\ lapsed (sn_status s) = true.
Proof.
  intros H Ei Hv. destruct (reachable_sound _ _ H) as (_ & _ & F). destruct (proj2 (so_knows _ F _ _ _ Ei) Hv) as (ta & Ha & Hta).
  apply (so_answers _ F) in Ha. unfold fetch in Ha. destruct (tables_at ta) as [db|] eqn:Ed; [|done]. simpl in Ha.
  destruct (PlanAccountID _ _ _) as [a|] eqn:Ea; [|injection Ha as <-; done].
  destruct (subscription_at ta a) as [[s|]|] eqn:Es; [|injection Ha as <-; done|done]. injection Ha as <-.
  exists ta, db, a, s. split_and!; [done..|]. unfold Evaluate in Hv. by destruct (lapsed (sn_status s)).
Qed.

(** Concurrent callers of a shop share one lookup. *)
Theorem one_lookup_per_shop t0 st i j tenant p p' : rtc prompt_step (initial t0) st ->
  st_threads st !! i = Some (tenant, p) -> st_threads st !! j = Some (tenant, p') -> looking p <> None -> looking p' <> None -> i = j.
Proof.
  intros H Ei Ej Hp Hp'. destruct (reachable_sound _ _ H) as (_ & _ & F).
  pose proof (so_looking _ F _ _ _ Ei Hp). pose proof (so_looking _ F _ _ _ Ej Hp'). congruence.
Qed.

Lemma call_advances gone i tenant p p' s s' ts : ts !! i = Some (tenant, p) -> advance gone i tenant p s = (p', s') ->
  prompt (mkState s' (<[i := (tenant, p')]> ts)) -> rtc prompt_step (mkState s ts) (mkState s' (<[i := (tenant, p')]> ts)).
Proof. intros Ei A P. apply rtc_once. split; [by eapply step_advance|done]. Qed.

(** A payment that comes while a lookup is under way is overtaken by it: the answer fetched
    before the payment is cached after Invalidate, and who asks later is told the shop is
    locked, whatever the platform would answer by then. *)
Theorem renewal_overtaken t0 d tenant v : tenant <> uuid_nil -> (0 <= d < CacheTTL)%Z ->
  fetch t0 tenant = Some v -> vd_locked v = true ->
  exists s ts st, rtc prompt_step (initial t0) (mkState s ts) /\ sb_now s = (t0 + d)%Z /\ ts !! 1 = None /\
    rtc prompt_step (mkState (Invalidate tenant s) ts) st /\ st_threads st !! 1 = Some (tenant, Told (t0 + d)%Z v).
Proof.
  intros Hn Hd Hv Lv. apply N.eqb_neq in Hn.
  assert (forall s ts, (sb_now s <= t0 + d)%Z -> (forall j u p t, ts !! j = Some (u, p) -> looking p = Some t -> t = t0) -> prompt (mkState s ts)) as P.
  { intros s ts Hs H j u p t E Hl. rewrite (H _ _ _ _ E Hl). unfold CacheTTL, MaxStale, second in *. simpl. lia. }
  set (a1 := [(tenant, t0, v)]). set (ts1 := <[0 := (tenant, Leading t0 None)]> (<[0 := (tenant, Asking)]> ∅) : gmap nat (uuid * PC)).
  set (ts2 := <[0 := (tenant, Fetched t0 None (Some v))]> ts1).
  exists (mkShared (t0 + d)%Z ∅ (<[tenant := 0]> ∅) ∅ a1), ts2,
    (mkState (mkShared (t0 + d)%Z (<[tenant := mkEntry v t0 (t0 + CacheTTL)%Z]> ∅) (delete tenant (<[tenant := 0]> ∅)) (<[0 := Some v]> ∅) a1)
       (<[1 := (tenant, Told (t0 + d)%Z v)]> (<[1 := (tenant, Asking)]> (<[0 := (tenant, Told t0 v)]> ts2)))).
  assert (forall j u p t, ts2 !! j = Some (u, p) -> looking p = Some t -> t = t0) as L2.
  { intros j u p t [[-> [= -> ->]]|[n E]]%lookup_thread Hl; [by injection Hl as ->|]. apply lookup_thread in E as [[-> [= -> ->]]|[_ E]]; [done|].
    apply lookup_thread in E as [[-> [= -> ->]]|[_ E]]; done. }
  split_and!; [|done|done| |done].
  - eapply rtc_l; [split; [apply (step_call 0 tenant); done|]|].
    { apply P; simpl; [lia|]. intros j u p t [[-> [= -> ->]]|[_ E]]%lookup_thread Hl; done. }
    etrans.
    { eapply (call_advances false 0 tenant Asking (Leading t0 None)); [done|unfold advance; rewrite Hn; reflexivity|].
      apply P; simpl; [lia|]. intros j u p t [[-> [= -> ->]]|[_ E]]%lookup_thread Hl; [by injection Hl as ->|].
      apply lookup_thread in E as [[-> [= -> ->]]|[_ E]]; done. }
    etrans.
    { eapply (call_advances false 0 tenant (Leading t0 None) (Fetched t0 None (Some v))); [done|unfold advance; simpl; rewrite Hv; reflexivity|].
      apply P; simpl; [lia|exact L2]. }
    apply rtc_once. split; [apply (step_time d); lia|]. apply P; simpl; [lia|exact L2].
  - etrans.
    { eapply (call_advances false 0 tenant (Fetched t0 None (Some v)) (Told t0 v)); [done|unfold advance, Invalidate; simpl; rewrite delete_empty; reflexivity|].
      apply P; simpl; [lia|]. intros j u p t [[-> [= -> ->]]|[_ E]]%lookup_thread Hl; [done|by eapply L2]. }
    eapply rtc_l; [split; [apply (step_call 1 tenant); done|]|].
    { apply P; simpl; [lia|]. intros j u p t [[-> [= -> ->]]|[_ E]]%lookup_thread Hl; [done|].
      apply lookup_thread in E as [[-> [= -> ->]]|[_ E]]; [done|by eapply L2]. }
    eapply (call_advances false 1 tenant Asking (Told (t0 + d)%Z v)); [done| |].
    { unfold advance. rewrite Hn. simpl. rewrite lookup_insert_eq. simpl. destruct (Z.ltb_spec (t0 + d) (t0 + CacheTTL)); [done|lia]. }
    apply P; simpl; [lia|]. intros j u p t [[-> [= -> ->]]|[_ E]]%lookup_thread Hl; [done|].
    apply lookup_thread in E as [[-> [= -> ->]]|[_ E]]; [done|]. apply lookup_thread in E as [[-> [= -> ->]]|[_ E]]; [done|by eapply L2].
Qed.

(** A schedule of calls while no time passes. *)
Definition serve (i : nat) (st : State) : State :=
  match st_threads st !! i with
  | Some (tenant, p) => let '(p', s') := advance false i tenant p (st_shared st) in mkState s' (<[i := (tenant, p')]> (st_threads st))
  | None => st
  end.
Definition call (i : nat) (tenant : uuid) (st : State) : State :=
  match st_threads st !! i with
  | Some _ => st
  | None => mkState (st_shared st) (<[i := (tenant, Asking)]> (st_threads st))
  end.
Definition instant (t : time) (st : State) : Prop := rtc prompt_step (initial t) st /\ sb_now (st_shared st) = t /\
  forall i tenant p u, st_threads st !! i = Some (tenant, p) -> looking p = Some u -> u = t.

Lemma instant_step t st st' : instant t st -> step st st' -> sb_now (st_shared st') = t ->
  (forall i tenant p u, st_threads st' !! i = Some (tenant, p) -> looking p = Some u -> u = t) -> instant t st'.
Proof.
  intros (R & En & H) S En' H'. split; [|by split]. eapply rtc_r; [exact R|]. split; [done|].
  intros i tenant p u E Hl. rewrite (H' _ _ _ _ E Hl), En'. unfold MaxStale, second. lia.
Qed.
Lemma instant_initial t : instant t (initial t).
Proof. split; [constructor|]. by split. Qed.
Lemma instant_serve t i st : instant t st -> instant t (serve i st).
Proof.
  intros I. pose proof I as (R & En & H). unfold serve. destruct (st_threads st !! i) as [[tenant p]|] eqn:E; [|done].
  destruct (advance _ _ _ _ _) as [p' s'] eqn:A. destruct st as [s ts]. simpl in *. eapply instant_step; [exact I|by eapply step_advance| |].
  - simpl. by rewrite (proj1 (call_answers _ _ _ _ _ _ _ A)).
  - simpl. intros j u q v [[-> [= -> ->]]|[_ Ej]]%lookup_thread Hl; [|by eapply H].
    assert (begun p' = Some v) as Hb by (destruct p'; simplify_eq/=; done).
    destruct (advance_begun _ _ _ _ _ _ _ _ A Hb) as [Hb'| ->]; [|done].
    unfold advance in A. destruct p; repeat case_match; injection A as <- <-; simplify_eq/=; by eapply H.
Qed.
Lemma instant_call t i tenant st : instant t st -> instant t (call i tenant st).
Proof.
  intros I. pose proof I as (R & En & H). unfold call. destruct (st_threads st !! i) eqn:E; [done|]. destruct st as [s ts].
  eapply instant_step; [exact I|by apply step_call|done|]. simpl. intros j u q v [[-> [= -> ->]]|[_ Ej]]%lookup_thread Hl; [done|by eapply H].
Qed.
End subscription.

(** ** Witnesses: a shop whose plan ran out *)
Section examples.
Definition ex_expired : Snapshot := mkSnapshot "basic" "expired" "2024-01-01".
Definition ex_active : Snapshot := mkSnapshot "basic" "active" "2025-01-01".
(** It is renewed a minute later. *)
#[local] Instance ex_outside : Outside := {|
  tables_at _ := Some ({[ ex_tenant := mkTenantRow (Some 7%Z) ]}, []);
  subscription_at t _ := Some (Some (if Z.leb (ex_start + 60 * second) t then ex_active else ex_expired)) |}.
Definition ex_verdict : Verdict := Evaluate (Some ex_expired).
(** Two callers: the first looks it up, the second joins it. *)
Definition ex_looking : State := serve 1 (serve 0 (call 1 ex_tenant (call 0 ex_tenant (initial ex_start)))).
Definition ex_told : State := serve 1 (serve 0 (serve 0 ex_looking)).

Lemma ex_looking_instant : instant ex_start ex_looking.
Proof. unfold ex_looking. repeat first [apply instant_serve|apply instant_call|apply instant_initial]. Qed.
Lemma ex_told_instant : instant ex_start ex_told.
Proof. unfold ex_told. do 3 apply instant_serve. apply ex_looking_instant. Qed.

Lemma locked_was_answered_witness :
  st_threads ex_told !! 1 = Some (ex_tenant, Told ex_start ex_verdict) /\
  exists ta a s, (ex_start - MaxStale <= ta)%Z /\ subscription_at ta a = Some (Some s) /\ lapsed (sn_status s) = true.
Proof.
  split; [vm_compute; reflexivity|].
  destruct (locked_was_answered ex_start ex_told 1 ex_tenant ex_start ex_verdict (proj1 ex_told_instant)) as (ta & db & a & s & ? & _ & _ & ? & ?).
  - vm_compute. reflexivity.
  - reflexivity.
  - by exists ta, a, s.
Defined.

Lemma one_lookup_per_shop_witness : forall j p, st_threads ex_looking !! j = Some (ex_tenant, p) -> looking p <> None -> 0 = j.
Proof.
  intros j p Ej Hp. eapply (one_lookup_per_shop ex_start ex_looking 0 j ex_tenant (Leading ex_start None) p).
  - exact (proj1 ex_looking_instant).
  - vm_compute. reflexivity.
  - exact Ej.
  - discriminate.
  - exact Hp.
Defined.

Lemma renewal_overtaken_witness : exists st, st_threads st !! 1 = Some (ex_tenant, Told (ex_start + 120 * second)%Z ex_verdict) /\
  fetch (ex_start + 120 * second)%Z ex_tenant = Some (Evaluate (Some ex_active)).
Proof.
  destruct (renewal_overtaken ex_start (120 * second)%Z ex_tenant ex_verdict) as (s & ts & st & _ & _ & _ & _ & H).
  - discriminate.
  - vm_compute. split; [discriminate|reflexivity].
  - vm_compute. reflexivity.
  - reflexivity.
  - exists st. split; [exact H|]. vm_compute. reflexivity.
Defined.
End examples.
