(* ===== verification/Entitlement.v ===== *)
(** What a tenant's plan allows: src/internal/app/entitlement (service.go, limits.go, guard.go)
    over the counts of src/internal/adapter/repo/usage/repo.go, with the gate of
    src/internal/adapter/middleware/entitlement.go.

    The platform's entitlements and the tenant registry are outside: what they answer is given by
    the count of calls.  Who is counted is a component's own: [PlanStore] is what the guard needs
    of the state it runs on, the cache of limits and the usage counts. *)
From S2P Require Import Prelude GoStrings Rounding Decimal Types StockDomain BillDomain Store Csv ExtStore.
From stdpp Require Import base tactics strings gmap list.
From Stdlib Require Import ZArith Lia Ascii.

#[local] Open Scope string_scope.

Section entitlement.
Context {ops : DecimalOps} {env : Env}.

(** ** Data *)

(** Mode *)
Inductive Mode := ModeOff | ModeShadow | ModeEnforce.
#[export] Instance Mode_eq_dec : EqDecision Mode.
Proof. solve_decision. Defined.
Definition ParseMode (v : string) : Mode :=
  if String.eqb v "off" then ModeOff else if String.eqb v "enforce" then ModeEnforce else ModeShadow.

Definition KeyMaxUsers : string := "max_users".
Definition KeyMaxSKUs : string := "max_skus".
Definition KeyMaxWarehouses : string := "max_warehouses".
Definition Unlimited : Z := (-1)%Z.
Definition limitCacheTTL : Z := (60 * second)%Z.
Definition limitKeys : list (string * list string) :=
  [(KeyMaxUsers, [KeyMaxUsers; "users"]); (KeyMaxSKUs, [KeyMaxSKUs; "skus"]); (KeyMaxWarehouses, [KeyMaxWarehouses; "warehouses"])].
Definition productID : string := "tally".

(** limitEntry *)
Record LimitEntry := mkLimitEntry { le_vals : gmap string Z; le_at : time }.

(** ErrPlanLimitReached *)
Record ErrPlanLimitReached := mkErrPlanLimitReached { pl_key : string; pl_used : Z; pl_limit : Z }.

(** The platform's answer: the entitlements of an account, or an error, which may say that it
    rejected the service's key. *)
Inductive Fetched := FetchedMap (m : gmap string string) | FetchFailed (auth_rejected : bool).
Class PlanPlatform := {
  entitlements_at : nat -> Z -> string -> Fetched;
  plan_account_at : nat -> uuid -> option (option Z) }.
Context {platform : PlanPlatform}.

Class PlanStore (X : Type) := {
  ps_limits : X -> gmap uuid LimitEntry;
  ps_with_limits : X -> gmap uuid LimitEntry -> X;
  ps_used : DB -> X -> uuid -> string -> Z;
}.
Context {X : Type} {PS : PlanStore X}.
Abbreviation PM := (XM (X:=X)).

(** *** What it asks *)


(** TenantRepo.GetPlatformAccountID *)
Definition plan_account (row : option (option Z)) : option Z :=
  match row with Some (Some a) => if Z.leb a 0 then None else Some a | _ => None end.
Definition GetPlatformAccountID (tenant : uuid) : PM (option Z) := fun s =>
  ext_query "tenant repo get platform account id" (fun _ => plan_account (plan_account_at (w_tick (ex_shop s)) tenant)) s.
Definition GetEntitlements (account : Z) : PM Fetched := fun s =>
  (Ok (entitlements_at (w_tick (ex_shop s)) account productID), mkExt (bump (ex_shop s)) (ex_rows s)).
(** Repo.count: a read-only transaction of its own. *)
Definition used (tenant : uuid) (key : string) : PM Z :=
  if existsb (String.eqb key) limitKeys.*1 then
    ext_query "usage: begin" (fun _ => tt);;
    ext_query "usage: set rls context" (fun _ => tt);;
    at_state (fun s => ext_query "usage: count" (fun x => ps_used (w_db (ex_shop s)) x tenant key))
  else throw (EMsg "entitlement: unknown limit key").

(** ** Service *)

(** truthy *)
Definition truthy (v : string) : bool := negb (existsb (String.eqb (to_lower (trim_space v))) [""; "false"; "0"; "no"; "off"]).

(** Service.Has *)
Definition unauthenticated : error := EMsg "entitlement: caller is not authenticated".
Definition Has (tenant : uuid) (key : string) : PM bool :=
  if N.eqb tenant uuid_nil then throw unauthenticated
  else
    r ← try (GetPlatformAccountID tenant);
    match r with
    | inl _ => mret true
    | inr None => mret false
    | inr (Some account) =>
        f ← GetEntitlements account;
        mret (match f with
              | FetchFailed rejected => negb rejected
              | FetchedMap m => truthy (default "" (m !! key))
              end)
    end.

(** strconv.ParseInt(s, 10, 64) *)
Definition max_int64 : Z := (2 ^ 63 - 1)%Z.
Definition ParseInt (s : string) : option Z :=
  let '(neg, t) := match s with
                   | String c t => if Ascii.eqb c "-" then (true, t) else if Ascii.eqb c "+" then (false, t) else (false, s)
                   | EmptyString => (false, s)
                   end in
  match take_digits t with
  | ((_ :: _) as l, EmptyString) =>
      let v := digits_value l in
      let v := if neg : bool then (- v)%Z else v in
      if Z.leb (- max_int64 - 1) v && Z.leb v max_int64 then Some v else None
  | _ => None
  end.

(** parseLimit: the first alias that is present decides. *)
Fixpoint parseLimit (ents : gmap string string) (aliases : list string) : Z :=
  match aliases with
  | [] => Unlimited
  | a :: rest =>
      match ents !! a with
      | None => parseLimit ents rest
      | Some raw =>
          match ParseInt (trim_space raw) with
          | Some n => if Z.ltb n 0 then Unlimited else n
          | None => Unlimited
          end
      end
  end.

Definition no_limits : gmap string Z := list_to_map ((fun k => (k.1, Unlimited)) <$> limitKeys).
Definition limits_of (ents : gmap string string) : gmap string Z := list_to_map ((fun k => (k.1, parseLimit ents k.2)) <$> limitKeys).

Definition store_limits (tenant : uuid) (e : LimitEntry) : PM unit := fun s =>
  (Ok tt, mkExt (ex_shop s) (ps_with_limits (ex_rows s) (<[tenant := e]> (ps_limits (ex_rows s))))).
Definition limit_in (vals : gmap string Z) (key : string) : Z := default 0%Z (vals !! key).

(** What the platform says now; [None] when it cannot be asked. *)
Definition fetch_limits (tenant : uuid) : PM (option (gmap string Z)) :=
  r ← try (GetPlatformAccountID tenant);
  match r with
  | inl _ => mret None
  | inr None => mret (Some no_limits)
  | inr (Some account) =>
      f ← GetEntitlements account;
      mret (match f with FetchFailed _ => None | FetchedMap m => Some (limits_of m) end)
  end.

(** Service.Limit *)
Definition Limit (tenant : uuid) (key : string) : PM Z :=
  if N.eqb tenant uuid_nil then throw unauthenticated
  else if negb (existsb (String.eqb key) limitKeys.*1) then mret Unlimited
  else
    e ← at_state (fun s => mret (ps_limits (ex_rows s) !! tenant));
    cached ← match e with
             | Some e =>
                 now ← lift time_now;
                 mret (if Z.ltb (now - le_at e) limitCacheTTL then Some (limit_in (le_vals e) key) else None)
             | None => mret None
             end;
    match cached with
    | Some n => mret n
    | None =>
        vals ← fetch_limits tenant;
        match vals with
        | None => mret Unlimited
        | Some vals =>
            now ← lift time_now;
            store_limits tenant (mkLimitEntry vals now);;
            mret (limit_in vals key)
        end
    end.

(** ** Guard *)

(** Guard.Check: [None] lets through. *)
Definition Check (mode : Mode) (tenant : uuid) (key : string) (delta : Z) : PM (option ErrPlanLimitReached) :=
  match mode with
  | ModeOff => mret None
  | _ =>
      if Z.leb delta 0 then mret None
      else
        limit ← try (Limit tenant key);
        match limit with
        | inl _ => mret None
        | inr limit =>
            if Z.ltb limit 0 then mret None
            else
              n ← try (used tenant key);
              match n with
              | inl _ => mret None
              | inr n =>
                  if Z.leb (n + delta) limit then mret None
                  else match mode with
                       | ModeEnforce => mret (Some (mkErrPlanLimitReached key n limit))
                       | _ => mret None
                       end
              end
        end
  end.

(** Guard.Status without its own cache: the limits and counts it reports. *)
Record LimitStatus := mkLimitStatus { ls_limit : Z; ls_used : Z; ls_enforced : bool }.
Definition status_of (mode : Mode) (tenant : uuid) (key : string) : PM LimitStatus :=
  l ← try (Limit tenant key);
  u ← try (used tenant key);
  mret (mkLimitStatus (match l with inl _ => Unlimited | inr l => l end) (match u with inl _ => 0%Z | inr u => u end)
          (match mode with ModeEnforce => true | _ => false end)).

(** RequireEntitlementCode: the status it answers, 200 standing for the next handler. *)
Definition RequireEntitlement (tenant : uuid) (key : string) : PM Z :=
  r ← try (Has tenant key);
  mret (match r with inl _ => 401 | inr true => 200 | inr false => 403 end)%Z.

(** ** What the guard guarantees *)

Class PlanStoreLaws (X : Type) (PS : PlanStore X) := {
  ps_used_limits d x l tenant key : ps_used d (ps_with_limits x l) tenant key = ps_used d x tenant key;
  ps_limits_get x l : ps_limits (ps_with_limits x l) = l;
  ps_with_twice x l l' : ps_with_limits (ps_with_limits x l) l' = ps_with_limits x l';
}.
Context {PL : PlanStoreLaws X PS}.

(** What a question leaves: the clock runs on. *)
Definition asks (s s' : Ext X) : Prop :=
  w_db (ex_shop s') = w_db (ex_shop s) /\ w_tick (ex_shop s) <= w_tick (ex_shop s') /\ ex_rows s' = ex_rows s.
#[export] Instance asks_preorder : PreOrder asks.
Proof. split; [by intros s|]. intros s1 s2 s3 (? & ? & ?) (? & ? & ?). split_and!; [congruence|lia|congruence]. Qed.

(** The guard reads: of the state it changes at most its cache. *)
Definition only_limits (s s' : Ext X) : Prop := w_db (ex_shop s') = w_db (ex_shop s) /\ w_tick (ex_shop s) <= w_tick (ex_shop s') /\
  (ex_rows s' = ex_rows s \/ exists l, ex_rows s' = ps_with_limits (ex_rows s) l).
#[export] Instance only_limits_preorder : PreOrder only_limits.
Proof.
  split; [by intros s; split_and!; [done..|left]|]. intros s1 s2 s3 (E1 & T1 & R1) (E2 & T2 & R2). split_and!; [congruence|lia|].
  destruct R1 as [R1|[l1 R1]], R2 as [R2|[l2 R2]]; rewrite R2, R1; [by left|right; eauto..|right; exists l2; apply ps_with_twice].
Qed.

Lemma only_limits_used s s' tenant key : only_limits s s' ->
  ps_used (w_db (ex_shop s')) (ex_rows s') tenant key = ps_used (w_db (ex_shop s)) (ex_rows s) tenant key.
Proof. intros (-> & _ & [->|[l ->]]); [done|apply ps_used_limits]. Qed.

Lemma asks_limits {A} (m : PM A) : keeps asks m -> keeps only_limits m.
Proof. intros H s. destruct (H s) as (? & ? & ?). split_and!; [done..|by left]. Qed.
Lemma asks_statement {A} l (f : X -> A) : keeps asks (ext_query l f).
Proof. intros s. unfold ext_query, ext_statement. destruct (db_fault _); (split_and!; [done|simpl; lia|done]). Qed.
Lemma asks_at_state {A} (f : Ext X -> PM A) : (forall s, keeps asks (f s)) -> keeps asks (at_state f).
Proof. intros H s. apply H. Qed.
Lemma asks_time : keeps asks (lift time_now).
Proof. intros s. split_and!; [done|simpl; lia|done]. Qed.
Lemma asks_entitlements a : keeps asks (GetEntitlements a).
Proof. intros s. split_and!; [done|simpl; lia|done]. Qed.
#[local] Hint Resolve asks_statement asks_time asks_entitlements : keeps.
Lemma asks_account tenant : keeps asks (GetPlatformAccountID tenant).
Proof. intros s. apply asks_statement. Qed.
Lemma asks_used tenant key : keeps asks (used tenant key).
Proof. unfold used. keeps_solve. intros _. apply asks_at_state. intros s. apply asks_statement. Qed.
#[local] Hint Resolve asks_account : keeps.
Lemma asks_fetch tenant : keeps asks (fetch_limits tenant).
Proof. unfold fetch_limits. keeps_solve. Qed.

Lemma limits_store tenant e : keeps only_limits (store_limits tenant e).
Proof. intros s. split_and!; [done|done|right; by eexists]. Qed.
Lemma limits_time : keeps only_limits (lift time_now).
Proof. apply asks_limits, asks_time. Qed.
Lemma limits_fetch tenant : keeps only_limits (fetch_limits tenant).
Proof. apply asks_limits, asks_fetch. Qed.
Lemma limits_used tenant key : keeps only_limits (used tenant key).
Proof. apply asks_limits, asks_used. Qed.
#[local] Hint Resolve limits_store limits_time limits_fetch limits_used : keeps.
Lemma limits_Limit tenant key : keeps only_limits (Limit tenant key).
Proof. unfold Limit. keeps_solve. all: try apply limits_time. apply asks_limits, asks_at_state. intros. apply keeps_ret. tc_solve. Qed.
#[local] Hint Resolve limits_Limit : keeps.
Lemma limits_Check mode tenant key delta : keeps only_limits (Check mode tenant key delta).
Proof. unfold Check. destruct mode; keeps_solve. Qed.

(** Code that comes back with an answer or an error: nothing here panics. *)
Definition calm {A} (m : PM A) : Prop := forall s, match (m s).1 with Panic _ => False | _ => True end.
Lemma calm_bind {A B} (m : PM A) (k : A -> PM B) : calm m -> (forall a, calm (k a)) -> calm (m ≫= k).
Proof.
  intros Hm Hk s. specialize (Hm s). unfold mbind, stm_bind. destruct (m s) as [[a|e|w] s1]; [apply Hk|done..].
Qed.
Lemma calm_try {A} (m : PM A) : calm m -> calm (try m).
Proof. intros Hm s. specialize (Hm s). unfold try. by destruct (m s) as [[]]. Qed.
Lemma calm_statement {A} l (f : X -> A) : calm (ext_query l f).
Proof. intros s. unfold ext_query, ext_statement. by destruct (db_fault _). Qed.
Lemma calm_account tenant : calm (GetPlatformAccountID tenant).
Proof. intros s. apply calm_statement. Qed.
Lemma calm_used tenant key : calm (used tenant key).
Proof. unfold used. destruct (existsb _ _); [|done]. do 2 (apply calm_bind; [apply calm_statement|intros _]). intros s. apply calm_statement. Qed.
Lemma calm_fetch tenant : calm (fetch_limits tenant).
Proof.
  unfold fetch_limits. apply calm_bind; [apply calm_try, calm_account|]. intros [e|[a|]]; [done| |done].
  by apply calm_bind.
Qed.
Lemma calm_Limit tenant key : calm (Limit tenant key).
Proof.
  unfold Limit. destruct (N.eqb _ _); [done|]. destruct (negb _); [done|].
  apply calm_bind; [done|]. intros e. apply calm_bind; [destruct e; [by apply calm_bind|done]|].
  intros [n|]; [done|]. apply calm_bind; [apply calm_fetch|]. intros [v|]; [|done].
  apply calm_bind; [done|]. intros t. by apply calm_bind.
Qed.

Lemma try_total {A} (m : PM A) s : calm m -> exists r s', try m s = (Ok r, s') /\
  match r with inr a => m s = (Ok a, s') | inl e => m s = (Err e, s') end.
Proof.
  intros Hm. specialize (Hm s). unfold try. destruct (m s) as [[a|e|w] s1]; [by exists (inr a), s1|by exists (inl e), s1|done].
Qed.

Lemma used_Ok tenant key s n s' : used tenant key s = (Ok n, s') -> n = ps_used (w_db (ex_shop s)) (ex_rows s) tenant key.
Proof.
  unfold used. destruct (existsb _ _); [|done]. intros H.
  apply bind_Ok in H as (? & ? & (_ & _ & ->)%ext_query_Ok & H). apply bind_Ok in H as (? & ? & (_ & _ & ->)%ext_query_Ok & H).
  unfold at_state in H. apply ext_query_Ok in H as (_ & -> & _). done.
Qed.

(** What the platform said of a tenant's plan at some call before [t]. *)
Definition issued (tenant : uuid) (vals : gmap string Z) (t : nat) : Prop :=
  exists n, n < t /\ match plan_account (plan_account_at n tenant) with
  | None => vals = no_limits
  | Some account => exists m, entitlements_at (S n) account productID = FetchedMap m /\ vals = limits_of m
  end.
(** Every cached entry is an answer of the platform, kept with the time it came. *)
Definition cache_honest (s : Ext X) : Prop := forall tenant e, ps_limits (ex_rows s) !! tenant = Some e ->
  exists t, t < w_tick (ex_shop s) /\ issued tenant (le_vals e) t /\ le_at e = clock_at t.

Lemma cache_honest_asks s s' : asks s s' -> cache_honest s -> cache_honest s'.
Proof. intros (_ & T & E) H tenant e. rewrite E. intros He. destruct (H _ _ He) as (t & ? & ? & ?). exists t. split_and!; [lia|done..]. Qed.

Lemma issued_later tenant vals t t' : issued tenant vals t -> t <= t' -> issued tenant vals t'.
Proof. intros (n & Hn & H) ?. exists n. split; [lia|done]. Qed.

Lemma fetch_issued tenant s vals s' : fetch_limits tenant s = (Ok (Some vals), s') -> issued tenant vals (w_tick (ex_shop s')).
Proof.
  unfold fetch_limits. intros H. apply bind_Ok in H as (r & s1 & E & H). apply try_Ok in E.
  destruct r as [e|[a|]]; [by simplify_eq|..]; unfold GetPlatformAccountID in E; apply ext_query_Ok in E as (_ & Ea & ->).
  - apply bind_Ok in H as (f & s2 & [= <- <-] & H). destruct (entitlements_at _ _ _) as [m|] eqn:Em; [|done].
    apply ret_Ok in H as [[= <-] <-]. exists (w_tick (ex_shop s)). split; [simpl; lia|]. rewrite <-Ea. eauto.
  - apply ret_Ok in H as [[= <-] <-]. exists (w_tick (ex_shop s)). split; [simpl; lia|]. by rewrite <-Ea.
Qed.

(** A limit the service answers that is no [Unlimited] is one the platform issued, at most
    [limitCacheTTL] ago. *)
Definition recent_limit (tenant : uuid) (key : string) (limit : Z) (t' : nat) : Prop :=
  exists vals t now, issued tenant vals t /\ t < t' /\ now < t' /\ limit = limit_in vals key /\
    (clock_at now - clock_at t < limitCacheTTL)%Z.

Lemma Limit_recent tenant key s limit s' : cache_honest s -> Limit tenant key s = (Ok limit, s') ->
  cache_honest s' /\ (limit <> Unlimited -> recent_limit tenant key limit (w_tick (ex_shop s'))).
Proof.
  unfold Limit. intros Hc H. destruct (N.eqb _ _); [done|]. destruct (negb _); [by apply ret_Ok in H as [<- <-]|].
  apply bind_Ok in H as (e & s1 & [= <- <-] & H). apply bind_Ok in H as (c & s2 & Hcached & H).
  assert (Hs2 : cache_honest s2 /\ forall n, c = Some n -> recent_limit tenant key n (w_tick (ex_shop s2))).
  { destruct (ps_limits _ !! tenant) as [e|] eqn:Ee; [|by apply ret_Ok in Hcached as [<- <-]].
    destruct (Hc _ _ Ee) as (t & Ht & Hi & Hat).
    apply bind_Ok in Hcached as (now & s3 & (w & (-> & ->)%time_now_Ok & ->)%lift_Ok & Hcached).
    apply ret_Ok in Hcached as [<- <-]. split.
    - eapply cache_honest_asks, Hc. split_and!; [done|simpl; lia|done].
    - intros n Hn. destruct (Z.ltb_spec (clock_at (w_tick (ex_shop s)) - le_at e) limitCacheTTL); [|done].
      injection Hn as <-. exists (le_vals e), t, (w_tick (ex_shop s)). rewrite <-Hat. simpl. split_and!; [done|lia|lia|done..]. }
  destruct Hs2 as [Hc2 Hn]. destruct c as [n|]; [apply ret_Ok in H as [<- <-]; eauto|].
  apply bind_Ok in H as (vals & s4 & Hf & H).
  assert (Hc4 : cache_honest s4) by (eapply cache_honest_asks, Hc2; eapply keeps_run; [apply asks_fetch|done]).
  destruct vals as [vals|]; [|by apply ret_Ok in H as [<- <-]].
  apply fetch_issued in Hf.
  apply bind_Ok in H as (now & s5 & (w & (-> & ->)%time_now_Ok & ->)%lift_Ok & H).
  apply bind_Ok in H as ([] & s6 & [= <-] & H). apply ret_Ok in H as [<- <-]. split.
  - intros te e. simpl. rewrite ps_limits_get. destruct (decide (te = tenant)) as [->|].
    + rewrite lookup_insert_eq. intros [= <-]. exists (w_tick (ex_shop s4)). simpl. split_and!; [lia|done..].
    + rewrite lookup_insert_ne by done. intros Ee'. destruct (Hc4 _ _ Ee') as (t1 & ? & ? & ?). exists t1. split_and!; [lia|done..].
  - intros _. exists vals, (w_tick (ex_shop s4)), (w_tick (ex_shop s4)). simpl. split_and!; [done|lia|lia|done|].
    rewrite Z.sub_diag. done.
Qed.

(** A refusal names the limit and the count, and is right by both: the count is the tenant's at
    that moment, the limit one the platform issued at most a minute ago. *)
Definition justified (tenant : uuid) (key : string) (delta : Z) (s : Ext X) (t' : nat) (e : ErrPlanLimitReached) : Prop :=
  pl_key e = key /\ pl_used e = ps_used (w_db (ex_shop s)) (ex_rows s) tenant key /\
  (0 <= pl_limit e)%Z /\ (pl_limit e < pl_used e + delta)%Z /\ recent_limit tenant key (pl_limit e) t'.

(** The service has an answer for any tenant that is one. *)
Lemma Limit_answers tenant key : tenant <> uuid_nil -> errs (fun _ => False) (Limit tenant key).
Proof.
  intros Ht. unfold Limit. destruct (N.eqb_spec tenant uuid_nil); [done|]. destruct (negb _); [apply errs_ret|].
  apply errs_bind; [by intros s e s'|]. intros e. apply errs_bind; [destruct e; [by apply errs_bind|apply errs_ret]|].
  intros [?|]; [apply errs_ret|]. apply errs_bind.
  { unfold fetch_limits. apply errs_bind; [apply errs_try|]. intros [?|[a|]]; [apply errs_ret| |apply errs_ret].
    apply errs_bind; [by intros s e' s'|]. intros f. apply errs_ret. }
  intros [v|]; [|apply errs_ret]. apply errs_bind; [by intros s e' s'|]. intros t. apply errs_bind; [by intros s e' s'|]. intros _. apply errs_ret.
Qed.
(** Letting through has its three reasons: no limit, use that could not be counted, or within it. *)
Lemma check_admits tenant key delta s s' : (0 < delta)%Z -> tenant <> uuid_nil ->
  Check ModeEnforce tenant key delta s = (Ok None, s') ->
  exists limit s1, Limit tenant key s = (Ok limit, s1) /\
    ((limit < 0)%Z \/ (exists e s2, used tenant key s1 = (Err e, s2)) \/
     (ps_used (w_db (ex_shop s)) (ex_rows s) tenant key + delta <= limit)%Z).
Proof.
  intros Hd Ht H. unfold Check in H. destruct (Z.leb_spec delta 0); [lia|].
  apply bind_Ok in H as (r & s1 & E%try_Ok & H). destruct r as [e|limit]; [by destruct (Limit_answers _ _ Ht _ _ _ E)|].
  exists limit, s1. split; [done|]. destruct (Z.ltb_spec limit 0); [by left|]. right.
  apply bind_Ok in H as (u & s2 & U%try_Ok & H). destruct u as [e|n]; [left; by exists e, s2|right].
  pose proof (used_Ok _ _ _ _ _ U) as ->. destruct (Z.leb_spec (ps_used (w_db (ex_shop s1)) (ex_rows s1) tenant key + delta) limit); [|by apply ret_Ok in H as [? _]].
  rewrite <-(only_limits_used s s1); [done|]. eapply keeps_run; [apply limits_Limit|done].
Qed.

Lemma Limit_honest tenant key s : cache_honest s -> cache_honest (Limit tenant key s).2.
Proof.
  intros Hc. pose proof (calm_Limit tenant key s) as Hcalm. destruct (Limit tenant key s) as [[limit|e|w] s'] eqn:E; simpl in *; [|..|done].
  - by eapply Limit_recent.
  - destruct (decide (tenant = uuid_nil)) as [->|Ht]; [by injection E as _ <-|by destruct (Limit_answers _ _ Ht _ _ _ E)].
Qed.

(** The guard never stands in the way by failing; what it refuses it refuses in enforcing mode
    only, rightly, and of the state it touches at most its cache, which stays honest. *)
Lemma check_sound mode tenant key delta s : cache_honest s ->
  exists r s', Check mode tenant key delta s = (Ok r, s') /\ only_limits s s' /\ cache_honest s' /\
    forall e, r = Some e -> mode = ModeEnforce /\ justified tenant key delta s (w_tick (ex_shop s')) e.
Proof.
  intros Hc. cut (exists r s', Check mode tenant key delta s = (Ok r, s') /\ cache_honest s' /\
    forall e, r = Some e -> mode = ModeEnforce /\ justified tenant key delta s (w_tick (ex_shop s')) e).
  { intros (r & s' & E & H1 & H2). exists r, s'. split_and!; [done| |done..]. eapply keeps_run; [apply limits_Check|done]. }
  unfold Check. destruct (decide (mode = ModeOff)) as [->|Hm]; [by eexists _, _|].
  set (p := if Z.leb delta 0 then mret None else _).
  assert (Hp : exists r s', p s = (Ok r, s') /\ cache_honest s' /\
    forall e, r = Some e -> mode = ModeEnforce /\ justified tenant key delta s (w_tick (ex_shop s')) e); [|by destruct mode].
  subst p. destruct (Z.leb_spec delta 0); [by eexists _, _|].
  pose proof (Limit_honest tenant key s Hc) as Hc1.
  destruct (try_total (Limit tenant key) s (calm_Limit _ _)) as (o & s1 & E1 & L1);
    rewrite (bind_run_Ok _ _ _ _ _ E1); clear E1.
  destruct o as [e|limit]; rewrite L1 in Hc1; simpl in Hc1; [by eexists _, _|].
  cbv beta iota. destruct (Z.ltb_spec limit 0); [by eexists _, _|].
  destruct (try_total (used tenant key) s1 (calm_used _ _)) as (o & s2 & E2 & U);
    rewrite (bind_run_Ok _ _ _ _ _ E2); clear E2.
  assert (Ha : asks s1 s2). { destruct o; (eapply keeps_run; [apply asks_used|exact U]). }
  pose proof (cache_honest_asks _ _ Ha Hc1). destruct o as [e|n]; [by eexists _, _|].
  cbv beta iota. destruct (Z.leb_spec (n + delta) limit); [by eexists _, _|].
  destruct mode; [done|by eexists _, _|]. eexists _, _. split; [done|]. split; [done|]. intros e [= <-]. split; [done|].
  split_and!; simpl; [done| |done|done|].
  - apply used_Ok in U as ->. apply only_limits_used. eapply keeps_run; [apply limits_Limit|done].
  - destruct (Limit_recent tenant key s limit s1 Hc L1) as [_ (vals & t & now & ? & ? & ? & ? & ?)]; [unfold Unlimited; lia|].
    destruct Ha as (_ & T & _). exists vals, t, now. split_and!; [done|lia|lia|done..].
Qed.
End entitlement.
