(* ===== verification/Codegen.v ===== *)
(** Business codes given out by the service: src/internal/pkg/codegen/codegen.go.

    Randomness is outside: what four bytes the n-th reading of the random source gives. *)
From S2P Require Import Prelude GoStrings GoTime Rounding Decimal Types StockDomain BillDomain Store ExtStore.
From stdpp Require Import base tactics strings gmap list pretty.
From Stdlib Require Import ZArith Lia Ascii.

#[local] Open Scope string_scope.

(** io.ReadFull(rnd, b[:]): four bytes, or an error. *)
Class Entropy := { random_at : nat -> option (N * N * N * N) }.

Definition Alphabet : string := "23456789ABCDEFGHJKLMNPQRSTUVWXYZ".
Definition suffixLen : nat := 4.
Definition MaxRetries : nat := 3.
Definition PrefixProduct : string := "P".
Definition PrefixSupplier : string := "S".
Definition PrefixCustomer : string := "C".
Definition PrefixWarehouse : string := "W".
Definition PrefixUnit : string := "U".
Definition PrefixProject : string := "PJ".

(** t.AppendFormat("060102") of an instant read in the zone the source reads its clock in. *)
Definition yymmdd (t : time) : string :=
  let '(y, m, d) := civil (day_number t) in (fmt_d (y mod 100) 2 ++ fmt_d m 2 ++ fmt_d d 2).

(** Alphabet[v&31] *)
Definition symbol (v : N) : ascii := default "2"%char (String.get (N.to_nat (N.land v 31)) Alphabet).

Section codegen.
Context {ops : DecimalOps} {env : Env} {rnd : Entropy} {X : Type}.

(** IsUniqueViolation: SQLSTATE 23505 somewhere in the chain. *)
Definition unique_indexes : list string := ["product_pkey"; "idx_product_code"; "product_sku_pkey"; "unit_def_pkey"; "unit_def_tenant_id_code_key";
  "invoice_pkey"; "idx_invoice_no"; "invoice_bill_pkey"].
Fixpoint IsUniqueViolation (e : error) : bool :=
  match e with
  | EConstraint c => existsb (String.eqb c) unique_indexes
  | EWrap _ e => IsUniqueViolation e
  | _ => false
  end.

(** Generate *)
Definition Generate (prefix : string) (t : time) (b : option (N * N * N * N)) : error + string :=
  match b with
  | None => inl (EWrap "codegen: read random" EDriver)
  | Some (a, b, c, d) =>
      inr (prefix ++ yymmdd t ++ String (symbol a) (String (symbol b) (String (symbol c) (String (symbol d) ""))))
  end.

(** Source.Next, of the source Default returns: the Asia/Shanghai clock and the random source. *)
Definition read_random : XM (X:=X) (option (N * N * N * N)) := fun s =>
  (Ok (random_at (w_tick (ex_shop s))), mkExt (bump (ex_shop s)) (ex_rows s)).
Definition Next (prefix : string) : XM (X:=X) string :=
  now ← lift time_now;
  b ← read_random;
  of_sum (Generate prefix (now + billNoZone)%Z b).

(** Source.Create: the loop over the attempts, [tries] of them after this one. *)
Fixpoint attempts {A} (tries : nat) (prefix : string) (isConflict : error -> bool) (create : string -> XM (X:=X) A) : XM (X:=X) A :=
  code ← Next prefix;
  r ← try (create code);
  match r with
  | inr a => mret a
  | inl e =>
      if isConflict e then match tries with O => throw e | S more => attempts more prefix isConflict create end
      else throw e
  end.
Definition CreateCoded {A} (prefix explicit : string) (isConflict : error -> bool) (create : string -> XM (X:=X) A) : XM (X:=X) A :=
  if String.eqb explicit "" then attempts MaxRetries prefix isConflict create else create explicit.

(** ** What it guarantees *)

(** A generated code: the prefix, the day in Shanghai, four symbols nobody misreads. *)
Definition generated (prefix : string) (t : time) (code : string) : Prop :=
  exists suffix, code = prefix ++ yymmdd (t + billNoZone)%Z ++ suffix /\ String.length suffix = suffixLen /\
    Forall (fun c => c ∈ chars Alphabet) (chars suffix).

Lemma symbol_in v : symbol v ∈ chars Alphabet.
Proof.
  unfold symbol.
  assert (H : forall n, n < 32 -> default "2"%char (String.get n Alphabet) ∈ chars Alphabet).
  { intros n Hn. apply (bool_decide_unpack _).
    assert (Hf : forallb (fun n => bool_decide (default "2"%char (String.get n Alphabet) ∈ chars Alphabet)) (seq 0 32) = true) by (vm_compute; reflexivity).
    rewrite forallb_forall in Hf. apply Is_true_true, Hf, in_seq. lia. }
  apply H. pose proof (N.land_ones v 5) as E. change (N.ones 5) with 31%N in E. rewrite E.
  pose proof (N.mod_lt v (2 ^ 5) ltac:(done)). change (2 ^ 5)%N with 32%N in *. lia.
Qed.

Lemma Next_Ok prefix (s : Ext X) code s' : Next prefix s = (Ok code, s') ->
  generated prefix (clock_at (w_tick (ex_shop s))) code /\ s' = mkExt (bump (bump (ex_shop s))) (ex_rows s).
Proof.
  unfold Next. intros H. apply bind_Ok in H as (now & s1 & (w & (-> & ->)%time_now_Ok & ->)%lift_Ok & H).
  apply bind_Ok in H as (b & s2 & [= <- <-] & H). apply of_sum_Ok in H as [H <-].
  unfold Generate in H. destruct (random_at _) as [[[[a b] c] d]|]; [|done]. injection H as <-.
  split; [|done]. eexists. split; [reflexivity|]. split; [done|]. simpl.
  repeat (constructor; [apply symbol_in|]). constructor.
Qed.

Context (R : Ext X -> Ext X -> Prop) `{!PreOrder R}.

Lemma keeps_Next prefix : (forall s t, R s (mkExt (mkWorld (w_db (ex_shop s)) t) (ex_rows s))) -> keeps R (Next prefix).
Proof.
  intros HR. unfold Next. apply keeps_bind; [tc_solve| |]; [intros s; apply HR|intros now].
  apply keeps_bind; [tc_solve|intros s; apply HR|intros b]. apply keeps_of_sum. tc_solve.
Qed.
Lemma keeps_attempts {A} tries prefix c (create : string -> XM (X:=X) A) :
  (forall s t, R s (mkExt (mkWorld (w_db (ex_shop s)) t) (ex_rows s))) -> (forall code, keeps R (create code)) ->
  keeps R (attempts tries prefix c create).
Proof.
  intros HR Hc. induction tries as [|tries IH]; simpl.
  all: apply keeps_bind; [tc_solve|by apply keeps_Next|intros code]; apply keeps_bind; [tc_solve|by apply keeps_try|].
  all: intros [e|a]; [destruct (c e)|]; auto using keeps_ret, keeps_throw.
Qed.
Lemma keeps_CreateCoded {A} prefix explicit c (create : string -> XM (X:=X) A) :
  (forall s t, R s (mkExt (mkWorld (w_db (ex_shop s)) t) (ex_rows s))) -> (forall code, keeps R (create code)) ->
  keeps R (CreateCoded prefix explicit c create).
Proof. intros. unfold CreateCoded. destruct (String.eqb _ _); auto using keeps_attempts. Qed.

(** The create that succeeded ran on a state the failed ones before it left [R]-related. *)
Lemma attempts_Ok {A} tries prefix c (create : string -> XM (X:=X) A) s a s' :
  (forall s t, R s (mkExt (mkWorld (w_db (ex_shop s)) t) (ex_rows s))) ->
  (forall code s e s', create code s = (Err e, s') -> R s s') ->
  attempts tries prefix c create s = (Ok a, s') ->
  exists code s1 t, create code s1 = (Ok a, s') /\ R s s1 /\ generated prefix t code.
Proof.
  intros HR Hf. revert s. induction tries as [|tries IH]; intros s H; simpl in H.
  all: apply bind_Ok in H as (code & s1 & Hn & H); pose proof (keeps_run _ _ _ _ _ (keeps_Next prefix HR) Hn) as Hs1.
  all: apply Next_Ok in Hn as [Hg _]; apply bind_Ok in H as (r & s2 & Hr%try_Ok & H); destruct r as [e|b].
  all: try (apply ret_Ok in H as [<- <-]; by eauto 8).
  - by destruct (c e).
  - destruct (c e); [|done]. destruct (IH _ H) as (code' & s3 & t & ? & ? & ?).
    exists code', s3, t. split_and!; [done| |done]. etrans; [exact Hs1|]. etrans; [eapply Hf; exact Hr|done].
Qed.

Definition no_random : error := EWrap "codegen: read random" EDriver.
Lemma Next_Err prefix : errs (fun e => e = no_random) (Next prefix).
Proof.
  unfold Next. apply errs_bind; [by intros s e s'|]. intros now. apply errs_bind; [by intros s e s'|]. intros b.
  apply errs_of_sum. intros e. unfold Generate. destruct b as [[[[? ?] ?] ?]|]; [done|]. by intros [= <-].
Qed.

(** A conflict is reported only when every code that was drawn collided. *)
Lemma attempts_conflict {A} tries prefix c (create : string -> XM (X:=X) A) s e s' :
  c no_random = false -> attempts tries prefix c create s = (Err e, s') -> c e = true ->
  exists codes, length codes = S tries /\
    Forall (fun code => exists s1 e1 s2, create code s1 = (Err e1, s2) /\ c e1 = true) codes.
Proof.
  intros Hc0 H Hc. revert s H. induction tries as [|tries IH]; intros s H; simpl in H.
  all: apply bind_Err in H as [H|(code & s1 & _ & H)]; [apply Next_Err in H as ->; congruence|].
  all: apply bind_Err in H as [H|(r & s2 & Hr%try_Ok & H)]; [by apply (errs_try (fun _ => False)) in H|].
  all: destruct r as [e1|b]; [destruct (c e1) eqn:E1|done].
  - injection H as -> ->. exists [code]. repeat constructor. eauto.
  - injection H as -> ->. congruence.
  - destruct (IH _ H) as (codes & Hl & Hf). exists (code :: codes). simpl. split; [lia|constructor; eauto].
  - injection H as -> ->. congruence.
Qed.
End codegen.
