(* ===== verification/Runes.v ===== *)
(** Text as runes, the way package unicode/utf8 and PostgreSQL count it: a VARCHAR(n) column takes
    n runes, and a byte that starts no UTF-8 sequence counts for one. *)
From S2P Require Import Prelude GoStrings Rounding Decimal Types.
From stdpp Require Import base tactics strings list.
From Stdlib Require Import ZArith Lia Ascii.

#[local] Open Scope string_scope.

(** How many bytes the first rune of [l] has. *)
Definition rune_len (l : list ascii) : nat :=
  match l with
  | [] => 0
  | lead :: rest =>
      match rune_shape lead with
      | None => 1
      | Some (lo, hi, k) =>
          let tail := take k rest in
          if Nat.eqb (length tail) k
             && match tail with [] => true | b :: bs => byte_in lo hi b && forallb (byte_in 128%N 191%N) bs end
          then S k else 1
      end
  end.

Fixpoint runes_of (fuel : nat) (l : list ascii) : list (list ascii) :=
  match fuel, l with
  | S fuel, _ :: _ => take (rune_len l) l :: runes_of fuel (drop (rune_len l) l)
  | _, _ => []
  end.
(** []rune(s), each rune as the bytes it is *)
Definition rune_list (l : list ascii) : list (list ascii) := runes_of (length l) l.
Definition runes (s : string) : list (list ascii) := rune_list (chars s).
(** utf8.RuneCountInString *)
Definition RuneCount (s : string) : Z := Z.of_nat (length (runes s)).
Definition of_runes (l : list (list ascii)) : string := String.string_of_list_ascii (concat l).

(** VARCHAR(n): longer text is refused, unless all that exceeds is spaces. *)
Definition is_blank_rune (r : list ascii) : bool := bool_decide (r = [" "%char]).
Definition varchar (n : nat) (s : string) : option string :=
  let l := runes s in
  if Nat.leb (length l) n then Some s
  else if forallb is_blank_rune (drop n l) then Some (of_runes (take n l)) else None.

(** A value for a column of that width. *)
Definition limit_to {ops : DecimalOps} (n : nat) (column : string) (s : string) : error + string :=
  match varchar n s with Some t => inr t | None => inl (EConstraint ("value too long for " ++ column)) end.

Lemma limit_inr {ops : DecimalOps} n c s t : limit_to n c s = inr t -> varchar n s = Some t.
Proof. unfold limit_to. destruct (varchar n s); [|done]. by intros [= ->]. Qed.

(** ** What is cut is cut between runes *)

Lemma rune_len_pos a l : 1 <= rune_len (a :: l).
Proof. simpl. destruct (rune_shape a) as [[[lo hi] k]|]; [|done]. destruct (_ && _); lia. Qed.
Lemma rune_len_le l : rune_len l <= length l.
Proof.
  destruct l as [|a l]; [done|]. simpl. destruct (rune_shape a) as [[[lo hi] k]|]; [|lia].
  destruct (Nat.eqb_spec (length (take k l)) k) as [E|]; [|simpl; lia]. rewrite length_take in E. destruct (_ && _); lia.
Qed.

Lemma runes_of_fuel n m l : length l <= n -> length l <= m -> runes_of n l = runes_of m l.
Proof.
  revert m l. induction n as [|n IH]; intros m [|a l] Hn Hm; simpl in Hn; [by destruct m|lia|by destruct m|].
  destruct m as [|m]; [simpl in Hm; lia|]. cbn [runes_of]. f_equal. pose proof (rune_len_pos a l).
  apply IH; rewrite length_drop; simpl in *; lia.
Qed.
Lemma rune_list_cons a l : rune_list (a :: l) = take (rune_len (a :: l)) (a :: l) :: rune_list (drop (rune_len (a :: l)) (a :: l)).
Proof.
  unfold rune_list. cbn [length runes_of]. f_equal. pose proof (rune_len_pos a l). apply runes_of_fuel; rewrite ?length_drop; cbn [length]; lia.
Qed.

(** Bytes after the first rune do not matter to it, and neither does their absence. *)
Lemma rune_len_take l m : rune_len l <= m -> rune_len (take m l) = rune_len l.
Proof.
  destruct l as [|a l]; [by rewrite take_nil|]. pose proof (rune_len_pos a l). destruct m as [|m]; [lia|]. intros Hm. simpl in *.
  destruct (rune_shape a) as [[[lo hi] k]|]; [|done]. destruct (decide (k <= m)) as [Hk|Hk].
  - by rewrite take_take, Nat.min_l.
  - rewrite take_take, Nat.min_r by lia. destruct (Nat.eqb_spec (length (take m l)) k) as [E|]; [rewrite length_take in E; lia|].
    simpl. destruct (Nat.eqb (length (take k l)) k && _); simpl in *; lia.
Qed.

Lemma concat_runes l : concat (rune_list l) = l.
Proof.
  remember (length l) as n eqn:E. revert l E. induction (lt_wf n) as [n _ IH]. intros [|a l] ->; [done|].
  rewrite rune_list_cons. pose proof (rune_len_pos a l). cbn [concat]. erewrite IH; [|..|reflexivity]; [apply take_drop|].
  rewrite length_drop. cbn [length]. lia.
Qed.
Lemma concat_take_runes n l : exists m, concat (take n (rune_list l)) = take m l.
Proof.
  exists (length (concat (take n (rune_list l)))).
  assert (E : l = (concat (take n (rune_list l)) ++ concat (drop n (rune_list l)))%list).
  { by rewrite <-concat_app, take_drop, concat_runes. }
  rewrite <-(take_app_length (concat (take n (rune_list l))) (concat (drop n (rune_list l)))) at 1. by rewrite <-E.
Qed.

Lemma runes_cut n l : rune_list (concat (take n (rune_list l))) = take n (rune_list l).
Proof.
  revert l. induction n as [|n IH]; intros l; [done|]. destruct l as [|a l]; [done|].
  rewrite rune_list_cons. set (k := rune_len (a :: l)). cbn [take concat].
  pose proof (rune_len_pos a l) as Hpos. fold k in Hpos. pose proof (rune_len_le (a :: l)) as Hle. fold k in Hle.
  specialize (IH (drop k (a :: l))). destruct (concat_take_runes n (drop k (a :: l))) as [m Em].
  set (X := concat (take n (rune_list (drop k (a :: l))))) in *.
  assert (Ew : (take k (a :: l) ++ X)%list = take (k + m) (a :: l)) by (rewrite Em, <-take_take_drop; done).
  assert (Hk : rune_len (take k (a :: l) ++ X)%list = k) by (rewrite Ew; apply rune_len_take; fold k; lia).
  assert (Hl : length (take k (a :: l)) = k) by (rewrite length_take; lia).
  destruct (take k (a :: l) ++ X)%list as [|b w] eqn:E.
  { apply (f_equal length) in E. rewrite length_app, Hl in E. simpl in E. lia. }
  rewrite rune_list_cons, Hk, <-E. rewrite take_app_length', drop_app_length' by done. by rewrite IH.
Qed.

(** What a column holds fits the column. *)
Lemma varchar_fits n s t : varchar n s = Some t -> varchar n t = Some t.
Proof.
  unfold varchar. intros H. destruct (Nat.leb_spec (length (runes s)) n) as [Hl|Hl].
  - injection H as <-. by destruct (Nat.leb_spec (length (runes s)) n); [|lia].
  - destruct (forallb _ _); [|done]. injection H as <-. unfold runes, of_runes, chars in *.
    rewrite String.list_ascii_of_string_of_list_ascii, runes_cut.
    destruct (Nat.leb_spec (length (take n (rune_list (String.list_ascii_of_string s)))) n) as [|Hn]; [done|]. rewrite length_take in Hn. lia.
Qed.
