(* ===== verification/CatalogueStore.v ===== *)
(** The catalogue's tables: products, their SKUs and the units, as
    src/internal/adapter/repo/{product,sku,unit} read and write them, with the constraints of
    migrations 000005, 000014 and 000015 and the transactions of repo/dbscope.

    The commerce core sees a projection of these tables ([db_products], [db_skus]); a statement
    writes both.  What PostgreSQL makes of a number or an array given as text is outside. *)
From S2P Require Import Prelude GoStrings GoTime Rounding Decimal Types StockDomain BillDomain Store StockCalc Csv Trim ExtStore Entitlement Codegen Runes.
From stdpp Require Import base tactics strings gmap list.
From Stdlib Require Import ZArith Lia Ascii.

#[local] Open Scope string_scope.

(** What the server makes of text: a NUMERIC(precision, scale), and an array of text, as it gives
    them back, how it collates, and what it finds in text and JSON. *)
Class PgText := {
  numeric_text : nat -> nat -> string -> option string;
  text_array : string -> option string;
  text_order : string -> Z;
  ilike : string -> string -> bool;             (* text ILIKE pattern *)
  json_out : json -> string;                    (* jsonb as text *)
  json_contains : json -> json -> bool;         (* jsonb @> jsonb *)
}.

(** A NUMERIC reads the text it gave back as the same number. *)
Class PgTextLaws (pg : PgText) := {
  numeric_text_stable p s t u : numeric_text p s t = Some u -> numeric_text p s u = Some u;
}.

Section catalogue.
Context {ops : DecimalOps} {env : Env} {pg : PgText}.

(** ** Data *)

(** domain.Product *)
Record Product := mkProduct {
  p_ID : uuid; p_TenantID : uuid; p_CategoryID : option uuid; p_Code : string; p_Name : string;
  p_Manufacturer : string; p_Model : string; p_Spec : string; p_Brand : string; p_Mnemonic : string; p_Color : string;
  p_ExpiryDays : option Z; p_WeightKg : option string; p_Enabled : bool; p_EnableSerialNo : bool; p_EnableLotNo : bool;
  p_ShelfPosition : string; p_ImgURLs : list string; p_Remark : string; p_MeasurementStrategy : string;
  p_DefaultUnitID : option uuid; p_Attributes : json; p_CreatedAt : time; p_UpdatedAt : time }.

(** A row of tally.product: the columns, img_urls as the text the server shows. *)
Record CatalogueRow := mkCatalogueRow { cr_product : Product; cr_imgs : option string; cr_deleted_at : option time }.

(** A row of tally.product_sku *)
Record CatalogueSku := mkCatalogueSku {
  cs_id : uuid; cs_tenant : uuid; cs_product : uuid; cs_unit_name : option string;
  cs_purchase : dec; cs_retail : dec; cs_wholesale : dec; cs_default : bool;
  cs_created_at : time; cs_updated_at : time; cs_deleted : bool }.

(** domain/unit.UnitDef, a row of tally.unit_def *)
Record UnitDef := mkUnitDef {
  u_ID : uuid; u_TenantID : uuid; u_Code : string; u_Name : string; u_UnitType : string; u_IsSystem : bool;
  u_CreatedAt : time; u_UpdatedAt : time }.

Record Catalogue := mkCatalogue {
  ct_products : list CatalogueRow; ct_skus : list CatalogueSku; ct_units : list UnitDef;
  ct_categories : list uuid; ct_members : list uuid; ct_limits : gmap uuid LimitEntry }.

Definition with_products (x : Catalogue) l := mkCatalogue l (ct_skus x) (ct_units x) (ct_categories x) (ct_members x) (ct_limits x).
Definition with_skus (x : Catalogue) l := mkCatalogue (ct_products x) l (ct_units x) (ct_categories x) (ct_members x) (ct_limits x).
Definition with_units (x : Catalogue) l := mkCatalogue (ct_products x) (ct_skus x) l (ct_categories x) (ct_members x) (ct_limits x).
Definition with_limits (x : Catalogue) l := mkCatalogue (ct_products x) (ct_skus x) (ct_units x) (ct_categories x) (ct_members x) l.

(** *** What the commerce core sees *)

Definition core_product (r : CatalogueRow) : ProductRow :=
  mkProductRow (p_ID (cr_product r)) (p_TenantID (cr_product r)) (p_DefaultUnitID (cr_product r)) None (p_Name (cr_product r))
    (bool_decide (is_Some (cr_deleted_at r))).
Definition core_sku (r : CatalogueSku) : SkuRow := mkSkuRow (cs_tenant r) (cs_product r) (cs_default r) (cs_deleted r) (cs_purchase r).
Definition core_view (x : Catalogue) (d : DB) : DB :=
  mkDB (db_snapshots d) (db_movements d) (db_lots d) (db_heads d) (db_items d) (db_payments d) (db_sequence d) (db_warehouses d)
    (core_product <$> ct_products x) (db_partners d) (db_product_unit d) (core_sku <$> ct_skus x) (db_orders_seen d) (db_initial d)
    (db_audit d) (db_outbox d).

(** ** Statements and transactions *)

Abbreviation CM := (XM (X:=Catalogue)).

Definition cat_statement {A} (label : string) (f : Catalogue -> error + (A * Catalogue)) : CM A := fun s =>
  let w := ex_shop s in
  if db_fault (w_tick w) then (Err (EWrap label EDriver), mkExt (bump w) (ex_rows s))
  else match f (ex_rows s) with
       | inl e => (Err (EWrap label e), mkExt (bump w) (ex_rows s))
       | inr (a, x) => (Ok a, mkExt (bump (with_db w (core_view x (w_db w)))) x)
       end.

Definition cat_read {A} (label : string) (f : Catalogue -> error + A) : CM A :=
  ext_statement label (fun x => match f x with inl e => inl e | inr a => inr (a, x) end).

(** The rows as they were, the process's own cache as it is. *)
Definition rolled_back (s s' : Ext Catalogue) : Ext Catalogue :=
  mkExt (restore (w_db (ex_shop s)) (ex_shop s')) (with_limits (ex_rows s) (ct_limits (ex_rows s'))).
Definition tick_on (s : Ext Catalogue) : Ext Catalogue := mkExt (bump (ex_shop s)) (ex_rows s).

(** dbscope.InTx: begin, run, commit; an error or a panic rolls back.  Inside another one it joins it. *)
Definition InTx {A} (joined : bool) (body : CM A) : CM A := fun s =>
  if joined then body s
  else if db_fault (w_tick (ex_shop s)) then (Err (EWrap "dbscope: begin tx" EDriver), tick_on s)
  else match body (tick_on s) with
       | (Ok a, s') =>
           if db_fault (w_tick (ex_shop s')) then (Err (EWrap "dbscope: commit tx" EDriver), tick_on (rolled_back s s'))
           else (Ok a, tick_on s')
       | (Err e, s') =>
           if db_fault (w_tick (ex_shop s')) then (Err (EWrap "dbscope: rollback after error" EDriver), tick_on (rolled_back s s'))
           else (Err e, tick_on (rolled_back s s'))
       | (Panic r, s') => (Panic r, tick_on (rolled_back s s'))
       end.

(** ** Products (repo/product) *)

Definition validStrategies : list string := ["individual"; "weight"; "length"; "volume"; "batch"; "serial"].
Definition StrategyIndividual : string := "individual".
(** MeasurementStrategy.IsValid, Validate *)
Definition IsValidStrategy (s : string) : bool := existsb (String.eqb s) validStrategies.
Definition ValidateStrategy (s : string) : error + unit :=
  if IsValidStrategy s then inr tt else inl (EMsg "invalid measurement_strategy: must be one of individual|weight|length|volume|batch|serial").

(** sliceToArray, and the other way in scanProductCommon *)
Definition sliceToArray (l : list string) : option string :=
  match l with [] => None | _ => Some ("{" ++ String.concat "," l ++ "}") end.
Fixpoint split_on (sep : ascii) (s : string) : list string :=
  match s with
  | EmptyString => [""]
  | String c t =>
      match split_on sep t with
      | [] => [""]
      | w :: ws => if Ascii.eqb c sep then "" :: w :: ws else String c w :: ws
      end
  end.
Definition brace (c : ascii) : bool := Ascii.eqb c "{" || Ascii.eqb c "}".
Fixpoint trim_braces_left (s : string) : string :=
  match s with String c t => if brace c then trim_braces_left t else s | EmptyString => s end.
Definition trim_braces (s : string) : string := rev_string (trim_braces_left (rev_string (trim_braces_left s))).
Definition scan_imgs (raw : option string) : list string :=
  match raw with
  | None => []
  | Some t => let r := trim_braces t in if String.eqb r "" then [] else split_on ","%char r
  end.

Definition int4 (n : Z) : bool := Z.leb (-2147483648) n && Z.leb n 2147483647.

(** The row an INSERT or UPDATE of the product stores: what the column types and the foreign keys
    leave of it. *)
Definition stored_product (x : Catalogue) (p : Product) (code : string) (deleted_at : option time) : error + CatalogueRow :=
  name ← limit_to 200 "name" (p_Name p);
  manufacturer ← limit_to 100 "manufacturer" (p_Manufacturer p);
  model ← limit_to 100 "model" (p_Model p);
  spec ← limit_to 200 "spec" (p_Spec p);
  brand ← limit_to 100 "brand" (p_Brand p);
  mnemonic ← limit_to 100 "mnemonic" (p_Mnemonic p);
  color ← limit_to 50 "color" (p_Color p);
  shelf ← limit_to 100 "shelf_position" (p_ShelfPosition p);
  weight ← match p_WeightKg p with
           | None => inr None
           | Some t => match numeric_text 18 4 t with Some t => inr (Some t) | None => inl (EConstraint "weight_kg") end
           end;
  imgs ← match sliceToArray (p_ImgURLs p) with
         | None => inr None
         | Some t => match text_array t with Some t => inr (Some t) | None => inl (EConstraint "img_urls") end
         end;
  _ ← require (match p_ExpiryDays p with Some n => int4 n | None => true end) (EConstraint "expiry_days");
  _ ← require (match p_CategoryID p with Some c => bool_decide (c ∈ ct_categories x) | None => true end) (EConstraint "product_category_id_fkey");
  _ ← require (match p_DefaultUnitID p with Some u => bool_decide (u ∈ u_ID <$> ct_units x) | None => true end) (EConstraint "product_default_unit_id_fkey");
  _ ← require (IsValidStrategy (p_MeasurementStrategy p)) (EConstraint "product_measurement_strategy_check");
  mret (mkCatalogueRow
    (mkProduct (p_ID p) (p_TenantID p) (p_CategoryID p) code name manufacturer model spec brand mnemonic color (p_ExpiryDays p) weight
      (p_Enabled p) (p_EnableSerialNo p) (p_EnableLotNo p) shelf [] (p_Remark p) (p_MeasurementStrategy p) (p_DefaultUnitID p)
      (p_Attributes p) (p_CreatedAt p) (p_UpdatedAt p)) imgs deleted_at).
Definition alive (r : CatalogueRow) : bool := bool_decide (cr_deleted_at r = None).
(** The unique index on (tenant_id, code) of the rows not deleted. *)
Definition code_taken (x : Catalogue) (tenant : uuid) (code : string) : bool :=
  existsb (fun r => alive r && N.eqb (p_TenantID (cr_product r)) tenant && String.eqb (p_Code (cr_product r)) code) (ct_products x).

(** scanProductCommon *)
Definition scanned (r : CatalogueRow) : Product :=
  let p := cr_product r in
  mkProduct (p_ID p) (p_TenantID p) (p_CategoryID p) (p_Code p) (p_Name p) (p_Manufacturer p) (p_Model p) (p_Spec p) (p_Brand p)
    (p_Mnemonic p) (p_Color p) (p_ExpiryDays p) (p_WeightKg p) (p_Enabled p) (p_EnableSerialNo p) (p_EnableLotNo p) (p_ShelfPosition p)
    (scan_imgs (cr_imgs r)) (p_Remark p) (p_MeasurementStrategy p) (p_DefaultUnitID p) (p_Attributes p) (p_CreatedAt p) (p_UpdatedAt p).

(** Repo.Create *)
Definition product_insert (p : Product) (x : Catalogue) : error + (unit * Catalogue) :=
  code ← limit_to 100 "code" (p_Code p);
  r ← stored_product x p code None;
  _ ← require (negb (existsb (fun q => N.eqb (p_ID (cr_product q)) (p_ID p)) (ct_products x))) (EConstraint "product_pkey");
  _ ← require (negb (code_taken x (p_TenantID p) code)) (EConstraint "idx_product_code");
  mret (tt, with_products x (ct_products x ++ [r])%list).
Definition ProductCreate (p : Product) : CM unit := cat_statement "product repo create" (product_insert p).

Definition is_product (tenant id : uuid) (r : CatalogueRow) : bool :=
  N.eqb (p_ID (cr_product r)) id && N.eqb (p_TenantID (cr_product r)) tenant.
Definition live_product (x : Catalogue) (tenant id : uuid) : option CatalogueRow :=
  List.find (fun r => is_product tenant id r && alive r) (ct_products x).
(** Repo.GetByID *)
Definition ProductGetByID (tenant id : uuid) : CM Product :=
  r ← ext_query "product repo get" (fun x => live_product x tenant id);
  of_option (ESentinel ErrProductNotFound) (scanned <$> r).

(** Repo.List *)
Record ListFilter := mkListFilter {
  lf_TenantID : uuid; lf_Query : string; lf_Attributes : option (option json); lf_Enabled : option bool; lf_Limit : Z; lf_Offset : Z }.
(** attributes->>key *)
Definition json_text (k : string) (v : json) : option string :=
  match v with
  | JObject m => match member k m with
                 | None | Some JNull => None
                 | Some (JString s) => Some s
                 | Some v => Some (json_out v)
                 end
  | _ => None
  end.
Definition product_matches (f : ListFilter) (attrs : option json) (r : CatalogueRow) : bool :=
  let p := cr_product r in
  N.eqb (p_TenantID p) (lf_TenantID f) && alive r
  && (String.eqb (lf_Query f) ""
      || (let q := "%" ++ lf_Query f ++ "%" in
          ilike (p_Name p) q || ilike (p_Code p) q || ilike (p_Mnemonic p) q
          || bool_decide (json_text "barcode" (p_Attributes p) = Some (lf_Query f))))
  && match lf_Enabled f with Some b => Bool.eqb (p_Enabled p) b | None => true end
  && match attrs with Some a => json_contains (p_Attributes p) a | None => true end.
(** The containment filter is sent unless it is absent or the text of an empty object; text that is
    no JSON fails the cast. *)
Definition attributes_filter (a : option (option json)) : error + option json :=
  match a with
  | None | Some (Some (JObject [])) => inr None
  | Some (Some v) => inr (Some v)
  | Some None => inl (EConstraint "invalid input syntax for type json")
  end.
Definition products_matching (f : ListFilter) (x : Catalogue) : error + list CatalogueRow :=
  a ← attributes_filter (lf_Attributes f);
  mret (List.filter (product_matches f a) (ct_products x)).
Definition newest_first (l : list CatalogueRow) : list CatalogueRow := sql_order (fun r => - p_CreatedAt (cr_product r))%Z l.
Definition ProductList (f : ListFilter) : CM (list Product * Z) :=
  total ← cat_read "product repo list count" (fun x => l ← products_matching f x; mret (Z.of_nat (length l)));
  rows ← cat_read "product repo list" (fun x => l ← products_matching f x;
           mret (scanned <$> take (Z.to_nat (lf_Limit f)) (drop (Z.to_nat (lf_Offset f)) (newest_first l))));
  mret (rows, total).

(** Repo.Update: every column but the code; the row keeps its creation date. *)
Definition update_row (f : CatalogueRow -> CatalogueRow) (p : CatalogueRow -> bool) (l : list CatalogueRow) : list CatalogueRow :=
  map (fun r => if p r then f r else r) l.
Definition product_update (p : Product) (x : Catalogue) : error + (bool * Catalogue) :=
  match live_product x (p_TenantID p) (p_ID p) with
  | None => inr (false, x)
  | Some old =>
      let o := cr_product old in
      r ← stored_product x (mkProduct (p_ID o) (p_TenantID o) (p_CategoryID p) (p_Code o) (p_Name p) (p_Manufacturer p) (p_Model p) (p_Spec p)
            (p_Brand p) (p_Mnemonic p) (p_Color p) (p_ExpiryDays p) (p_WeightKg p) (p_Enabled p) (p_EnableSerialNo p) (p_EnableLotNo p)
            (p_ShelfPosition p) (p_ImgURLs p) (p_Remark p) (p_MeasurementStrategy p) (p_DefaultUnitID p) (p_Attributes p)
            (p_CreatedAt o) (p_UpdatedAt p)) (p_Code o) None;
      inr (true, with_products x (update_row (fun _ => r) (fun q => is_product (p_TenantID p) (p_ID p) q && alive q) (ct_products x)))
  end.
Definition ProductUpdate (p : Product) : CM unit :=
  n ← cat_statement "product repo update" (product_update p);
  guard_err (negb n) (ESentinel ErrProductNotFound).

(** Repo.Delete *)
Definition product_delete (tenant id : uuid) (now : time) (x : Catalogue) : error + (bool * Catalogue) :=
  match live_product x tenant id with
  | None => inr (false, x)
  | Some _ => inr (true, with_products x (update_row (fun r => mkCatalogueRow (cr_product r) (cr_imgs r) (Some now))
                                            (fun q => is_product tenant id q && alive q) (ct_products x)))
  end.
Definition ProductDelete (tenant id : uuid) : CM unit :=
  now ← lift time_now;
  n ← cat_statement "product repo delete" (product_delete tenant id now);
  guard_err (negb n) (ESentinel ErrProductNotFound).

(** Repo.Restore *)
Definition with_updated_at (p : Product) (t : time) : Product :=
  mkProduct (p_ID p) (p_TenantID p) (p_CategoryID p) (p_Code p) (p_Name p) (p_Manufacturer p) (p_Model p) (p_Spec p) (p_Brand p)
    (p_Mnemonic p) (p_Color p) (p_ExpiryDays p) (p_WeightKg p) (p_Enabled p) (p_EnableSerialNo p) (p_EnableLotNo p) (p_ShelfPosition p)
    (p_ImgURLs p) (p_Remark p) (p_MeasurementStrategy p) (p_DefaultUnitID p) (p_Attributes p) (p_CreatedAt p) t.
Definition product_restore (tenant id : uuid) (now : time) (x : Catalogue) : error + (bool * Catalogue) :=
  match List.find (fun r => is_product tenant id r && negb (alive r)) (ct_products x) with
  | None => inr (false, x)
  | Some r =>
      _ ← require (negb (code_taken x tenant (p_Code (cr_product r)))) (EConstraint "idx_product_code");
      inr (true, with_products x (update_row (fun r => mkCatalogueRow (with_updated_at (cr_product r) now) (cr_imgs r) None)
                                    (fun q => is_product tenant id q && negb (alive q)) (ct_products x)))
  end.
Definition ProductRestore (tenant id : uuid) : CM Product :=
  now ← lift time_now;
  n ← cat_statement "product repo restore" (product_restore tenant id now);
  guard_err (negb n) (ESentinel ErrProductNotFound);;
  on_err (EWrap "product repo restore refetch") (ProductGetByID tenant id).

(** ** SKUs (repo/sku) *)

(** app/sku.DefaultPrices, DefaultSKU *)
Record DefaultPrices := mkDefaultPrices { dp_Retail : option dec; dp_Wholesale : option dec; dp_Purchase : option dec }.
Definition no_prices : DefaultPrices := mkDefaultPrices None None None.
Definition IsEmpty (p : DefaultPrices) : bool := is_none (dp_Retail p) && is_none (dp_Wholesale p) && is_none (dp_Purchase p).
Record DefaultSKU := mkDefaultSKU { ds_SKUID : uuid; ds_ProductID : uuid; ds_Retail : dec; ds_Purchase : dec; ds_Wholesale : dec; ds_UnitName : string }.

(** NUMERIC(18,6) *)
Definition num_18_6 (d : dec) : error + dec :=
  let r := dround 6 d in if dlt (dabs r) (dint (10 ^ 12)) then inr r else inl (EConstraint "numeric field overflow").
Definition num_or (d : option dec) (old : dec) : error + dec := match d with Some d => num_18_6 d | None => inr old end.

(** ORDER BY is_default DESC, created_at ASC LIMIT 1 *)
Definition skus_of (x : Catalogue) (tenant product : uuid) : list CatalogueSku :=
  List.filter (fun k => N.eqb (cs_tenant k) tenant && N.eqb (cs_product k) product && negb (cs_deleted k)) (ct_skus x).
Definition default_sku (x : Catalogue) (tenant product : uuid) : option CatalogueSku :=
  let l := skus_of x tenant product in
  let flagged := List.filter cs_default l in
  head (sql_order cs_created_at (match flagged with [] => l | _ => flagged end)).

Definition update_sku (f : CatalogueSku -> CatalogueSku) (id : uuid) (l : list CatalogueSku) : list CatalogueSku :=
  map (fun k => if N.eqb (cs_id k) id then f k else k) l.
Definition price_sku (purchase retail wholesale : dec) (now : time) (k : CatalogueSku) : CatalogueSku :=
  mkCatalogueSku (cs_id k) (cs_tenant k) (cs_product k) (cs_unit_name k) purchase retail wholesale (cs_default k) (cs_created_at k) now (cs_deleted k).

Definition sku_update (tenant product : uuid) (p : DefaultPrices) (now : time) (x : Catalogue) : error + (bool * Catalogue) :=
  match default_sku x tenant product with
  | None => inr (false, x)
  | Some k =>
      retail ← num_or (dp_Retail p) (cs_retail k);
      wholesale ← num_or (dp_Wholesale p) (cs_wholesale k);
      purchase ← num_or (dp_Purchase p) (cs_purchase k);
      inr (true, with_skus x (update_sku (price_sku purchase retail wholesale now) (cs_id k) (ct_skus x)))
  end.
Definition sku_insert (id tenant product : uuid) (p : DefaultPrices) (now : time) (x : Catalogue) : error + (unit * Catalogue) :=
  retail ← num_or (dp_Retail p) dzero;
  wholesale ← num_or (dp_Wholesale p) dzero;
  purchase ← num_or (dp_Purchase p) dzero;
  _ ← require (bool_decide (product ∈ p_ID ∘ cr_product <$> ct_products x)) (EConstraint "product_sku_product_id_fkey");
  _ ← require (negb (existsb (fun k => N.eqb (cs_id k) id) (ct_skus x))) (EConstraint "product_sku_pkey");
  mret (tt, with_skus x (ct_skus x ++ [mkCatalogueSku id tenant product None purchase retail wholesale true now now false])%list).
(** Repo.UpsertDefaultSKU *)
Definition UpsertDefaultSKU (tenant product : uuid) (p : DefaultPrices) : CM unit :=
  if IsEmpty p then mret tt
  else
    now ← lift time_now;
    n ← cat_statement "sku repo upsert default: update" (sku_update tenant product p now);
    if n : bool then mret tt
    else
      id ← lift uuid_new;
      cat_statement "sku repo upsert default: insert" (sku_insert id tenant product p now).

(** Repo.ListDefaultSKUs *)
Definition sku_view (k : CatalogueSku) : DefaultSKU :=
  mkDefaultSKU (cs_id k) (cs_product k) (cs_retail k) (cs_purchase k) (cs_wholesale k) (default "" (cs_unit_name k)).
Definition default_skus (x : Catalogue) (tenant : uuid) (ids : list uuid) : list DefaultSKU :=
  sku_view <$> omap (default_sku x tenant) (sql_order Z.of_N (remove_dups ids)).
Definition ListDefaultSKUs (tenant : uuid) (ids : list uuid) : CM (list DefaultSKU) :=
  match ids with [] => mret [] | _ => ext_query "sku repo list default" (fun x => default_skus x tenant ids) end.

(** Repo.UpdateRetailPrice *)
Definition sku_retail (tenant id : uuid) (price : dec) (now : time) (x : Catalogue) : error + (bool * Catalogue) :=
  match List.find (fun k => N.eqb (cs_id k) id && N.eqb (cs_tenant k) tenant && negb (cs_deleted k)) (ct_skus x) with
  | None => inr (false, x)
  | Some k =>
      retail ← num_18_6 price;
      inr (true, with_skus x (update_sku (price_sku (cs_purchase k) retail (cs_wholesale k) now) id (ct_skus x)))
  end.
Definition UpdateRetailPrice (tenant id : uuid) (price : dec) : CM unit :=
  now ← lift time_now;
  n ← cat_statement "sku repo update retail price" (sku_retail tenant id price now);
  guard_err (negb n) (EMsg ("sku repo update: sku " ++ uuid_string id ++ " not found for tenant")).

(** ** Units (repo/unit) *)

Definition unit_types : list string := ["count"; "weight"; "length"; "volume"; "area"; "time"].
Definition unit_insert (u : UnitDef) (x : Catalogue) : error + (unit * Catalogue) :=
  code ← limit_to 20 "code" (u_Code u);
  name ← limit_to 50 "name" (u_Name u);
  _ ← require (existsb (String.eqb (u_UnitType u)) unit_types) (EConstraint "unit_def_unit_type_check");
  _ ← require (negb (existsb (fun v => N.eqb (u_ID v) (u_ID u)) (ct_units x))) (EConstraint "unit_def_pkey");
  _ ← require (negb (existsb (fun v => N.eqb (u_TenantID v) (u_TenantID u) && String.eqb (u_Code v) code) (ct_units x)))
        (EConstraint "unit_def_tenant_id_code_key");
  mret (tt, with_units x (ct_units x ++ [mkUnitDef (u_ID u) (u_TenantID u) code name (u_UnitType u) (u_IsSystem u) (u_CreatedAt u) (u_UpdatedAt u)])%list).
(** Repo.Create, List, GetByID, Delete *)
Definition UnitCreate (u : UnitDef) : CM unit := cat_statement "unit repo create" (unit_insert u).
Definition unit_visible (tenant : uuid) (u : UnitDef) : bool := u_IsSystem u || N.eqb (u_TenantID u) tenant.
Definition units_listed (tenant : uuid) (unit_type : string) (x : Catalogue) : list UnitDef :=
  let l := List.filter (fun u => unit_visible tenant u && (String.eqb unit_type "" || String.eqb (u_UnitType u) unit_type)) (ct_units x) in
  let by_code := sql_order (text_order ∘ u_Code) in
  (by_code (List.filter u_IsSystem l) ++ by_code (List.filter (negb ∘ u_IsSystem) l))%list.
Definition UnitList (tenant : uuid) (unit_type : string) : CM (list UnitDef) := ext_query "unit repo list" (units_listed tenant unit_type).
Definition UnitGetByID (tenant id : uuid) : CM UnitDef :=
  r ← ext_query "unit repo get" (fun x => List.find (fun u => N.eqb (u_ID u) id && unit_visible tenant u) (ct_units x));
  of_option (ESentinel ErrUnitNotFound) r.
(** ON DELETE SET NULL of the products, ON DELETE RESTRICT of their conversions. *)
Definition without_unit (id : uuid) (r : CatalogueRow) : CatalogueRow :=
  let p := cr_product r in
  if bool_decide (p_DefaultUnitID p = Some id)
  then mkCatalogueRow (mkProduct (p_ID p) (p_TenantID p) (p_CategoryID p) (p_Code p) (p_Name p) (p_Manufacturer p) (p_Model p) (p_Spec p) (p_Brand p)
    (p_Mnemonic p) (p_Color p) (p_ExpiryDays p) (p_WeightKg p) (p_Enabled p) (p_EnableSerialNo p) (p_EnableLotNo p) (p_ShelfPosition p)
    (p_ImgURLs p) (p_Remark p) (p_MeasurementStrategy p) None (p_Attributes p) (p_CreatedAt p) (p_UpdatedAt p)) (cr_imgs r) (cr_deleted_at r)
  else r.
Definition unit_delete (tenant id : uuid) (d : DB) (x : Catalogue) : error + (bool * Catalogue) :=
  if existsb (fun u => N.eqb (u_ID u) id && N.eqb (u_TenantID u) tenant && negb (u_IsSystem u)) (ct_units x) then
    _ ← require (negb (existsb (fun e => N.eqb e.1.2 id) (map_to_list (db_product_unit d)))) (EConstraint "product_unit_unit_id_fkey");
    inr (true, with_products (with_units x (List.filter (fun u => negb (N.eqb (u_ID u) id)) (ct_units x))) (without_unit id <$> ct_products x))
  else inr (false, x).
Definition UnitDelete (tenant id : uuid) : CM unit :=
  n ← at_state (fun s => cat_statement "unit repo delete" (unit_delete tenant id (w_db (ex_shop s))));
  guard_err (negb n) (ESentinel ErrUnitNotFound).
End catalogue.
