(* ===== verification/Catalogue.v ===== *)
(** The catalogue's use cases: src/internal/app/product, app/sku and app/unit, and what the handlers
    of src/internal/adapter/handler/product add to them.

    Products and their SKUs are wired as the composition root wires them: one repository each, the
    SKU repository's transactions, the plan guard of app/entitlement. *)
From S2P Require Import Prelude GoStrings GoTime Rounding Decimal Types StockDomain BillDomain Store StockRepo StockCalc Csv Roles Access Trim ExtStore Entitlement Codegen CatalogueStore.
From stdpp Require Import base tactics strings gmap list.
From Stdlib Require Import ZArith Lia Ascii.

#[local] Open Scope string_scope.

Section catalogue.
Context {ops : DecimalOps} {env : Env} {pg : PgText} {rnd : Entropy} {platform : PlanPlatform}.
Abbreviation CM := (XM (X:=Catalogue)).

(** ** Prices (app/sku) *)

Record PriceInput := mkPriceInput { pi_Retail : option string; pi_Wholesale : option string; pi_Purchase : option string }.
(** priceErr *)
Definition PriceError (msg : string) : error := EUser "PriceError" msg.
Definition max_price : dec := dint (10 ^ 12).

(** parseOnePrice *)
Definition parseOnePrice (raw : option string) (label : string) (blankClears : bool) : error + option dec :=
  match raw with
  | None => inr None
  | Some raw =>
      let s := trim_space raw in
      if String.eqb s "" then inr (if blankClears then Some dzero else None)
      else match Parse s label with
           | inl _ => inl (PriceError (label ++ "格式不正确，请输入数字"))
           | inr d =>
               if is_negative d then inl (PriceError (label ++ "不能为负数"))
               else if negb (dlt d max_price) then inl (PriceError (label ++ "数值过大"))
               else inr (Some (dround 6 d))
           end
  end.
(** parsePrices, ParsePrices, ParsePricesForUpdate *)
Definition parsePrices (blankClears : bool) (i : PriceInput) : error + DefaultPrices :=
  match parseOnePrice (pi_Retail i) "零售价" blankClears with
  | inl e => inl e
  | inr retail =>
      match parseOnePrice (pi_Wholesale i) "批发价" blankClears with
      | inl e => inl e
      | inr wholesale =>
          match parseOnePrice (pi_Purchase i) "进价" blankClears with
          | inl e => inl e
          | inr purchase => inr (mkDefaultPrices retail wholesale purchase)
          end
      end
  end.

(** ApplyAction *)
Definition hundred : dec := dint 100.
Definition ApplyAction (current : dec) (action : string) : error + dec :=
  let a := trim_space action in
  if String.eqb a "" then inl (EMsg "price action is empty")
  else
    let result :=
      match drop_suffix "%" a with
      | Some num =>
          match Parse (trim_space num) "percentage" with
          | inl e => inl (EWrap "invalid percentage action" e)
          | inr pct => inr (dmul current (dadd (dint 1) (ddiv pct hundred)))
          end
      | None =>
          match cut_prefix "=" a with
          | Some num =>
              match Parse (trim_space num) "absolute_price" with
              | inl e => inl (EWrap "invalid absolute action" e)
              | inr v => inr v
              end
          | None =>
              match Parse a "delta" with
              | inl _ => inl (EMsg "unrecognised price action (use '+5%', '-10%' or '=199.00')")
              | inr v => inr v
              end
          end
      end in
    match result with
    | inl e => inl e
    | inr r => let r := dround 6 r in inr (if is_negative r then dzero else r)
    end.

(** UpdatePriceUseCase.Execute: the count reached and the error, if one ended it. *)
Fixpoint update_prices (tenant : uuid) (action : string) (skus : list DefaultSKU) (affected : Z) : CM (Z * option error) :=
  match skus with
  | [] => mret (affected, None)
  | k :: rest =>
      match ApplyAction (ds_Retail k) action with
      | inl e => mret (affected, Some e)
      | inr price =>
          r ← try (UpdateRetailPrice tenant (ds_SKUID k) price);
          match r with
          | inl e => mret (affected, Some (EWrap ("update price: sku " ++ uuid_string (ds_SKUID k)) e))
          | inr _ => update_prices tenant action rest (affected + 1)
          end
      end
  end.
Definition UpdatePrice_Execute (tenant : uuid) (ids : list uuid) (action : string) : CM (Z * option error) :=
  if N.eqb tenant uuid_nil then mret (0%Z, Some (EMsg "update price: tenant_id is required"))
  else match ids with
       | [] => mret (0%Z, None)
       | _ =>
           match ApplyAction dzero action with
           | inl e => mret (0%Z, Some e)
           | inr _ =>
               l ← try (ListDefaultSKUs tenant ids);
               match l with
               | inl e => mret (0%Z, Some (EWrap "update price: list default skus" e))
               | inr skus => update_prices tenant action skus 0
               end
           end
       end.

(** ** Products (app/product) *)

Record CreateInput := mkCreateInput {
  ci_TenantID : uuid; ci_CategoryID : option uuid; ci_Code : string; ci_Name : string; ci_Manufacturer : string; ci_Model : string;
  ci_Spec : string; ci_Brand : string; ci_Mnemonic : string; ci_Color : string; ci_ExpiryDays : option Z; ci_WeightKg : option string;
  ci_EnableSerialNo : bool; ci_EnableLotNo : bool; ci_ShelfPosition : string; ci_ImgURLs : list string; ci_Remark : string;
  ci_MeasurementStrategy : string; ci_DefaultUnitID : option uuid; ci_Attributes : option json }.
Record UpdateInput := mkUpdateInput {
  ui_CategoryID : option uuid; ui_Name : string; ui_Manufacturer : string; ui_Model : string; ui_Spec : string; ui_Brand : string;
  ui_Mnemonic : string; ui_Color : string; ui_ExpiryDays : option Z; ui_WeightKg : option string; ui_Enabled : option bool;
  ui_EnableSerialNo : option bool; ui_EnableLotNo : option bool; ui_ShelfPosition : string; ui_ImgURLs : list string; ui_Remark : string;
  ui_MeasurementStrategy : string; ui_DefaultUnitID : option uuid; ui_Attributes : option json }.

#[export] Instance catalogue_plan : PlanStore Catalogue := {|
  ps_limits := ct_limits;
  ps_with_limits := with_limits;
  ps_used d x tenant key :=
    if String.eqb key KeyMaxUsers then Z.of_nat (length (List.filter (N.eqb tenant) (ct_members x)))
    else if String.eqb key KeyMaxSKUs then
      Z.of_nat (length (List.filter (fun r => N.eqb (p_TenantID (cr_product r)) tenant && alive r && p_Enabled (cr_product r)) (ct_products x)))
    else if String.eqb key KeyMaxWarehouses then
      Z.of_nat (length (List.filter (fun w => N.eqb (wh_tenant w) tenant && negb (wh_deleted w)) (db_warehouses d)))
    else 0%Z |}.
#[export] Instance catalogue_plan_laws : PlanStoreLaws Catalogue catalogue_plan.
Proof. by split. Qed.

(** A guard that is nil checks nothing. *)
Definition plan_check (guard : option Mode) (tenant : uuid) (key : string) (delta : Z) : CM unit :=
  match guard with
  | None => mret tt
  | Some mode =>
      r ← Check mode tenant key delta;
      match r with None => mret tt | Some e => throw (EPlanLimit (pl_key e) (pl_used e) (pl_limit e)) end
  end.

Definition new_product (i : CreateInput) (id : uuid) (code strategy : string) (now : time) : Product :=
  mkProduct id (ci_TenantID i) (ci_CategoryID i) code (ci_Name i) (ci_Manufacturer i) (ci_Model i) (ci_Spec i) (ci_Brand i) (ci_Mnemonic i)
    (ci_Color i) (ci_ExpiryDays i) (ci_WeightKg i) true (ci_EnableSerialNo i) (ci_EnableLotNo i) (ci_ShelfPosition i) (ci_ImgURLs i)
    (ci_Remark i) strategy (ci_DefaultUnitID i) (default (JObject []) (ci_Attributes i)) now now.
Definition save_new (joined : bool) (prices : DefaultPrices) (p : Product) : CM unit :=
  InTx joined (
    ProductCreate p;;
    if negb (IsEmpty prices) then on_err (EWrap "save prices") (UpsertDefaultSKU (p_TenantID p) (p_ID p) prices) else mret tt).
(** CreateUseCase.create; [joined] when the caller already holds a transaction *)
Definition create (guard : option Mode) (joined : bool) (i : CreateInput) (prices : DefaultPrices) : CM Product :=
  guard_err (N.eqb (ci_TenantID i) uuid_nil) (EMsg "create product: tenant_id is required");;
  guard_err (String.eqb (ci_Name i) "") (EMsg "create product: name is required");;
  plan_check guard (ci_TenantID i) KeyMaxSKUs 1;;
  let strategy := if String.eqb (ci_MeasurementStrategy i) "" then StrategyIndividual else ci_MeasurementStrategy i in
  on_err (EWrap "create product") (of_sum (ValidateStrategy strategy));;
  now ← lift time_now;
  id ← lift uuid_new;
  on_err (EWrap "create product")
    (CreateCoded PrefixProduct (ci_Code i) IsUniqueViolation (fun code =>
       let p := new_product i id code strategy now in save_new joined prices p;; mret p)).
(** CreateUseCase.ExecuteWithPrices, Execute *)
Definition CreateProduct_ExecuteWithPrices (guard : option Mode) (joined : bool) (i : CreateInput) (pi : PriceInput) : CM Product :=
  prices ← of_sum (parsePrices false pi);
  create guard joined i prices.
Definition CreateProduct_Execute (guard : option Mode) (i : CreateInput) : CM Product := create guard false i no_prices.

(** mergeAttributes *)
Definition drops (k : string) (v : json) : bool :=
  match v with JNull => true | JString s => String.eqb k "barcode" && String.eqb s "" | _ => false end.
Definition merge_member (acc : list (string * json)) (e : string * json) : list (string * json) :=
  if drops e.1 e.2 then drop_key e.1 acc else put e.1 e.2 acc.
Definition SaveError (msg : string) : error := EUser "SaveError" msg.
Definition mergeAttributes (base patch : json) : error + json :=
  let merged := match base with JObject m => m | _ => [] end in
  match patch with
  | JObject over => inr (JObject (fold_left merge_member over merged))
  | JNull => inr (JObject merged)
  | _ => inl (SaveError "商品的附加信息格式不正确，请刷新页面后重试")
  end.

Definition or_old (new old : string) : string := if String.eqb new "" then old else new.
Definition or_kept {A} (new old : option A) : option A := match new with Some a => Some a | None => old end.
Definition updated_product (u : UpdateInput) (p : Product) (attrs : json) (now : time) : Product :=
  mkProduct (p_ID p) (p_TenantID p) (or_kept (ui_CategoryID u) (p_CategoryID p)) (p_Code p) (or_old (ui_Name u) (p_Name p))
    (or_old (ui_Manufacturer u) (p_Manufacturer p)) (or_old (ui_Model u) (p_Model p)) (or_old (ui_Spec u) (p_Spec p))
    (or_old (ui_Brand u) (p_Brand p)) (or_old (ui_Mnemonic u) (p_Mnemonic p)) (or_old (ui_Color u) (p_Color p))
    (or_kept (ui_ExpiryDays u) (p_ExpiryDays p)) (or_kept (ui_WeightKg u) (p_WeightKg p)) (default (p_Enabled p) (ui_Enabled u))
    (default (p_EnableSerialNo p) (ui_EnableSerialNo u)) (default (p_EnableLotNo p) (ui_EnableLotNo u))
    (or_old (ui_ShelfPosition u) (p_ShelfPosition p)) (match ui_ImgURLs u with [] => p_ImgURLs p | l => l end)
    (or_old (ui_Remark u) (p_Remark p)) (or_old (ui_MeasurementStrategy u) (p_MeasurementStrategy p))
    (or_kept (ui_DefaultUnitID u) (p_DefaultUnitID p)) attrs (p_CreatedAt p) now.
(** UpdateUseCase.Execute *)
Definition UpdateProduct_Execute (guard : option Mode) (tenant id : uuid) (u : UpdateInput) : CM Product :=
  guard_err (N.eqb tenant uuid_nil) (EMsg "update product: tenant_id is required");;
  p ← on_err (EWrap "update product") (ProductGetByID tenant id);
  (if match ui_Enabled u with Some true => negb (p_Enabled p) | _ => false end then plan_check guard tenant KeyMaxSKUs 1 else mret tt);;
  (if String.eqb (ui_MeasurementStrategy u) "" then mret tt
   else on_err (EWrap "update product") (of_sum (ValidateStrategy (ui_MeasurementStrategy u))));;
  attrs ← match ui_Attributes u with
          | None => mret (p_Attributes p)
          | Some patch => on_err (EWrap "update product") (of_sum (mergeAttributes (p_Attributes p) patch))
          end;
  now ← lift time_now;
  let q := updated_product u p attrs now in
  on_err (EWrap "update product") (ProductUpdate q);;
  mret q.
(** UpdateUseCase.ExecuteWithPrices *)
Definition UpdateProduct_ExecuteWithPrices (guard : option Mode) (tenant id : uuid) (u : UpdateInput) (pi : PriceInput) : CM Product :=
  prices ← of_sum (parsePrices true pi);
  InTx false (
    p ← UpdateProduct_Execute guard tenant id u;
    (if negb (IsEmpty prices) then on_err (EWrap "update product: save prices") (UpsertDefaultSKU tenant (p_ID p) prices) else mret tt);;
    mret p).

(** DeleteUseCase, GetUseCase, RestoreUseCase, ListUseCase *)
Definition DeleteProduct_Execute (tenant id : uuid) : CM unit :=
  guard_err (N.eqb tenant uuid_nil) (EMsg "delete product: tenant_id is required");;
  on_err (EWrap "delete product") (ProductDelete tenant id).
Definition GetProduct_Execute (tenant id : uuid) : CM Product :=
  guard_err (N.eqb tenant uuid_nil) (EMsg "get product: tenant_id is required");;
  on_err (EWrap "get product") (ProductGetByID tenant id).
Definition RestoreProduct_Execute (tenant id : uuid) : CM Product :=
  guard_err (N.eqb tenant uuid_nil) (EMsg "restore product: tenant_id is required");;
  guard_err (N.eqb id uuid_nil) (EMsg "restore product: product_id is required");;
  on_err (EWrap "restore product") (ProductRestore tenant id).
Definition page_limit (n : Z) : Z := if Z.leb n 0 then 20 else if Z.ltb 500 n then 500 else n.
Definition ListProducts_Execute (f : ListFilter) : CM (list Product * Z) :=
  guard_err (N.eqb (lf_TenantID f) uuid_nil) (EMsg "list products: tenant_id is required");;
  on_err (EWrap "list products")
    (ProductList (mkListFilter (lf_TenantID f) (lf_Query f) (lf_Attributes f) (lf_Enabled f) (page_limit (lf_Limit f)) (lf_Offset f))).

(** ** Units (app/unit) *)

Definition CreateUnit_Execute (tenant : uuid) (code name unit_type : string) : CM UnitDef :=
  guard_err (N.eqb tenant uuid_nil) (EMsg "create unit: tenant_id is required");;
  guard_err (String.eqb name "") (EMsg "create unit: name is required");;
  guard_err (negb (existsb (String.eqb unit_type) unit_types)) (EMsg "create unit: invalid unit_type: must be one of count|weight|length|volume|area|time");;
  now ← lift time_now;
  id ← lift uuid_new;
  on_err (EWrap "create unit")
    (CreateCoded PrefixUnit code IsUniqueViolation (fun code =>
       let u := mkUnitDef id tenant code name unit_type false now now in UnitCreate u;; mret u)).
Definition ListUnits_Execute (tenant : uuid) (unit_type : string) : CM (list UnitDef) :=
  guard_err (N.eqb tenant uuid_nil) (EMsg "list units: tenant_id is required");;
  on_err (EWrap "list units") (UnitList tenant unit_type).
Definition DeleteUnit_Execute (tenant id : uuid) : CM unit :=
  guard_err (N.eqb tenant uuid_nil) (EMsg "delete unit: tenant_id is required");;
  u ← on_err (EWrap "delete unit") (UnitGetByID tenant id);
  guard_err (u_IsSystem u) (EMsg "delete unit: system unit cannot be deleted: only tenant-custom units may be deleted; system units are shared across all tenants");;
  on_err (EWrap "delete unit") (UnitDelete tenant id).

(** ** Handlers (adapter/handler/product) *)

(** purchaseInput *)
Definition purchaseInput (c : Ctx) (v : option string) : option string := if CanViewCost c then v else None.

(** productView, withPrices *)
Record ProductView := mkProductView { pv_product : Product; pv_Retail : option string; pv_Wholesale : option string; pv_Purchase : option string; pv_Unit : string }.
Definition bare_view (p : Product) : ProductView := mkProductView p None None None "".
Definition priced_view (showCost : bool) (skus : list DefaultSKU) (p : Product) : ProductView :=
  match List.find (fun k => N.eqb (ds_ProductID k) (p_ID p)) (rev skus) with
  | None => bare_view p
  | Some k => mkProductView p (Some (dto_string (ds_Retail k))) (Some (dto_string (ds_Wholesale k)))
                (if showCost then Some (dto_string (ds_Purchase k)) else None) (ds_UnitName k)
  end.
Definition withPrices (tenant : uuid) (items : list Product) (showCost : bool) : CM (list ProductView) :=
  match items with
  | [] => mret []
  | _ =>
      r ← try (ListDefaultSKUs tenant (p_ID <$> items));
      mret (match r with inl _ => bare_view <$> items | inr skus => priced_view showCost skus <$> items end)
  end.

(** Handler.Create, Update: the use case with the prices the person may set. *)
Definition handler_Create (guard : option Mode) (c : Ctx) (i : CreateInput) (pi : PriceInput) : CM Product :=
  CreateProduct_ExecuteWithPrices guard false i (mkPriceInput (pi_Retail pi) (pi_Wholesale pi) (purchaseInput c (pi_Purchase pi))).
Definition handler_Update (guard : option Mode) (c : Ctx) (id : uuid) (u : UpdateInput) (pi : PriceInput) : CM Product :=
  UpdateProduct_ExecuteWithPrices guard (cx_tenant c) id u (mkPriceInput (pi_Retail pi) (pi_Wholesale pi) (purchaseInput c (pi_Purchase pi))).
End catalogue.
