(* ===== verification/CatalogueLaws.v ===== *)
(** What the catalogue keeps true, whatever its use cases do: identifiers and codes are unique,
    strategies are known, prices are amounts of money, and the commerce core sees the same
    products and SKUs. *)
From S2P Require Import Prelude GoStrings GoTime Rounding Decimal SDec Types StockDomain BillDomain Store StockRepo StockCalc Concrete Csv Roles Access Trim ExtStore Entitlement Codegen Runes CatalogueStore Catalogue.
From stdpp Require Import base tactics strings gmap list.
From Stdlib Require Import ZArith Lia Ascii QArith Lqa.

#[local] Open Scope string_scope.

Section laws.
Context {ops : DecimalOps} {laws : DecimalLaws ops} {env : Env} {elaws : EnvLaws env} {pg : PgText} {plaws : PgTextLaws pg} {rnd : Entropy} {platform : PlanPlatform}.
Abbreviation CM := (XM (X:=Catalogue)).

(** ** The invariant *)

Definition row_id (r : CatalogueRow) : uuid := p_ID (cr_product r).
Definition row_code (r : CatalogueRow) : uuid * string := (p_TenantID (cr_product r), p_Code (cr_product r)).
Definition live_codes (x : Catalogue) : list (uuid * string) := row_code <$> List.filter alive (ct_products x).
Definition is_price (d : dec) : Prop := 0 <= val d < inject_Z (10 ^ 12) /\ on_scale 6 (val d).
Definition priced (k : CatalogueSku) : Prop := is_price (cs_purchase k) /\ is_price (cs_retail k) /\ is_price (cs_wholesale k).

(** What a row holds fits its columns. *)
Record fits (p : Product) : Prop := {
  ft_code : varchar 100 (p_Code p) = Some (p_Code p);
  ft_name : varchar 200 (p_Name p) = Some (p_Name p);
  ft_manufacturer : varchar 100 (p_Manufacturer p) = Some (p_Manufacturer p);
  ft_model : varchar 100 (p_Model p) = Some (p_Model p);
  ft_spec : varchar 200 (p_Spec p) = Some (p_Spec p);
  ft_brand : varchar 100 (p_Brand p) = Some (p_Brand p);
  ft_mnemonic : varchar 100 (p_Mnemonic p) = Some (p_Mnemonic p);
  ft_color : varchar 50 (p_Color p) = Some (p_Color p);
  ft_shelf : varchar 100 (p_ShelfPosition p) = Some (p_ShelfPosition p);
  ft_weight : p_WeightKg p ≫= numeric_text 18 4 = p_WeightKg p;
  ft_strategy : IsValidStrategy (p_MeasurementStrategy p) = true;
}.

Record rows_wf (x : Catalogue) : Prop := {
  rw_ids : NoDup (row_id <$> ct_products x);
  rw_codes : NoDup (live_codes x);
  rw_fits : Forall (fun r => fits (cr_product r)) (ct_products x);
  rw_sku_ids : NoDup (cs_id <$> ct_skus x);
  rw_sku_products : Forall (fun k => cs_product k ∈ row_id <$> ct_products x) (ct_skus x);
  rw_prices : Forall priced (ct_skus x);
  rw_unit_ids : NoDup (u_ID <$> ct_units x);
  rw_unit_codes : NoDup ((fun u => (u_TenantID u, u_Code u)) <$> ct_units x);
}.
Record catalogue_wf (s : Ext Catalogue) : Prop := {
  cw_rows : rows_wf (ex_rows s);
  cw_view : core_view (ex_rows s) (w_db (ex_shop s)) = w_db (ex_shop s);
}.
Definition stays_wf (s s' : Ext Catalogue) : Prop := catalogue_wf s -> catalogue_wf s'.
#[local] Instance stays_wf_preorder : PreOrder stays_wf.
Proof. split; [by intros s H|]. intros s1 s2 s3 H1 H2 H. by apply H2, H1. Qed.

Lemma core_view_twice x x' d : core_view x (core_view x' d) = core_view x d.
Proof. done. Qed.

(** *** Statements *)

Lemma wf_statement {A} l (f : Catalogue -> error + (A * Catalogue)) :
  (forall x a x', rows_wf x -> f x = inr (a, x') -> rows_wf x') -> keeps stays_wf (cat_statement l f).
Proof.
  intros Hf s H. destruct H as [Hr Hv]. unfold cat_statement. destruct (db_fault _); [by split|].
  destruct (f (ex_rows s)) as [e|[a x]] eqn:E; [by split|]. split; simpl; [by eapply Hf|done].
Qed.
Lemma wf_same {A} (m : CM A) : (forall s, ex_rows (m s).2 = ex_rows s /\ w_db (ex_shop (m s).2) = w_db (ex_shop s)) -> keeps stays_wf m.
Proof. intros H s [Hr Hv]. destruct (H s) as [E1 E2]. split; [by rewrite E1|by rewrite E1, E2]. Qed.
Lemma wf_query {A} l (f : Catalogue -> A) : keeps stays_wf (ext_query l f).
Proof. apply wf_same. intros s. unfold ext_query, ext_statement. by destruct (db_fault _). Qed.
Lemma wf_read {A} l (f : Catalogue -> error + A) : keeps stays_wf (cat_read l f).
Proof. apply wf_same. intros s. unfold cat_read, ext_statement. destruct (db_fault _); [done|]. by destruct (f _). Qed.
Lemma wf_time : keeps stays_wf (lift time_now).
Proof. by apply wf_same. Qed.
Lemma wf_uuid : keeps stays_wf (lift uuid_new).
Proof. by apply wf_same. Qed.
Lemma wf_tick s : stays_wf s (tick_on s).
Proof. by intros [? ?]. Qed.
Lemma rows_wf_limits x l : rows_wf x -> rows_wf (with_limits x l).
Proof. by intros []. Qed.
Lemma wf_rolled_back s s' : stays_wf s (tick_on (rolled_back s s')).
Proof. intros [Hr Hv]. split; simpl; [by apply rows_wf_limits|done]. Qed.
Lemma wf_InTx {A} joined (m : CM A) : keeps stays_wf m -> keeps stays_wf (InTx joined m).
Proof.
  intros Hm s. unfold InTx. destruct joined; [apply Hm|]. destruct (db_fault _); [apply wf_tick|].
  specialize (Hm (tick_on s)). destruct (m (tick_on s)) as [[a|e|w] s']; simpl in Hm.
  - destruct (db_fault _); [apply wf_rolled_back|]. intros H. by apply wf_tick, Hm, wf_tick.
  - destruct (db_fault _); apply wf_rolled_back.
  - apply wf_rolled_back.
Qed.
Lemma wf_plan guard tenant key delta : keeps stays_wf (plan_check guard tenant key delta).
Proof.
  unfold plan_check. destruct guard as [mode|]; [|apply keeps_ret; tc_solve]. apply keeps_bind; [tc_solve| |].
  - intros s [Hr Hv]. destruct (limits_Check mode tenant key delta s) as (Ed & _ & Er). split.
    + destruct Er as [->|[l ->]]; [done|by apply rows_wf_limits].
    + rewrite Ed. by destruct Er as [->|[l ->]].
  - intros [e|]; [apply keeps_throw|apply keeps_ret]; tc_solve.
Qed.

(** *** What a stored row holds *)

Record stored_as (p : Product) (code : string) (r : CatalogueRow) : Prop := {
  sa_id : p_ID (cr_product r) = p_ID p;
  sa_tenant : p_TenantID (cr_product r) = p_TenantID p;
  sa_category : p_CategoryID (cr_product r) = p_CategoryID p;
  sa_code : p_Code (cr_product r) = code;
  sa_name : varchar 200 (p_Name p) = Some (p_Name (cr_product r));
  sa_manufacturer : varchar 100 (p_Manufacturer p) = Some (p_Manufacturer (cr_product r));
  sa_model : varchar 100 (p_Model p) = Some (p_Model (cr_product r));
  sa_spec : varchar 200 (p_Spec p) = Some (p_Spec (cr_product r));
  sa_brand : varchar 100 (p_Brand p) = Some (p_Brand (cr_product r));
  sa_mnemonic : varchar 100 (p_Mnemonic p) = Some (p_Mnemonic (cr_product r));
  sa_color : varchar 50 (p_Color p) = Some (p_Color (cr_product r));
  sa_shelf : varchar 100 (p_ShelfPosition p) = Some (p_ShelfPosition (cr_product r));
  sa_weight : p_WeightKg p ≫= numeric_text 18 4 = p_WeightKg (cr_product r);
  sa_imgs : sliceToArray (p_ImgURLs p) ≫= text_array = cr_imgs r;
  sa_expiry : p_ExpiryDays (cr_product r) = p_ExpiryDays p;
  sa_flags : (p_Enabled (cr_product r), p_EnableSerialNo (cr_product r), p_EnableLotNo (cr_product r)) =
             (p_Enabled p, p_EnableSerialNo p, p_EnableLotNo p);
  sa_remark : p_Remark (cr_product r) = p_Remark p;
  sa_strategy : p_MeasurementStrategy (cr_product r) = p_MeasurementStrategy p;
  sa_unit : p_DefaultUnitID (cr_product r) = p_DefaultUnitID p;
  sa_attributes : p_Attributes (cr_product r) = p_Attributes p;
  sa_created : p_CreatedAt (cr_product r) = p_CreatedAt p;
  sa_updated : p_UpdatedAt (cr_product r) = p_UpdatedAt p;
}.


Lemma stored_inv x p code d r : stored_product x p code d = inr r ->
  stored_as p code r /\ cr_deleted_at r = d /\ (varchar 100 code = Some code -> fits (cr_product r)).
Proof.
  unfold stored_product, mbind, sum_bind. intros H.
  apply sum_bind_inr in H as (name & N1%limit_inr & H). apply sum_bind_inr in H as (man & N2%limit_inr & H).
  apply sum_bind_inr in H as (model & N3%limit_inr & H). apply sum_bind_inr in H as (spec & N4%limit_inr & H).
  apply sum_bind_inr in H as (brand & N5%limit_inr & H). apply sum_bind_inr in H as (mn & N6%limit_inr & H).
  apply sum_bind_inr in H as (color & N7%limit_inr & H). apply sum_bind_inr in H as (shelf & N8%limit_inr & H).
  apply sum_bind_inr in H as (weight & W & H). apply sum_bind_inr in H as (imgs & I & H).
  apply sum_bind_inr in H as (u1 & _ & H). apply sum_bind_inr in H as (u2 & _ & H). apply sum_bind_inr in H as (u3 & _ & H).
  apply sum_bind_inr in H as (u4 & S%require_inr & H). injection H as <-.
  assert (Hw : p_WeightKg p ≫= numeric_text 18 4 = weight).
  { destruct (p_WeightKg p) as [t|]; [|by injection W as <-]. simpl. destruct (numeric_text 18 4 t); [by injection W as <-|done]. }
  split; [|split; [done|]].
  2: { intros Hc. constructor; simpl; try done; try by eapply varchar_fits.
       rewrite <-Hw. destruct (p_WeightKg p) as [t|]; [|done]. simpl. destruct (numeric_text 18 4 t) as [v|] eqn:Ev; [|done].
       by eapply numeric_text_stable. }
  constructor; simpl; try done.
  - destruct (sliceToArray _) as [t|]; [|by injection I as <-]. simpl. destruct (text_array t); [by injection I as <-|done].
Qed.

(** *** Products *)

Lemma code_free x tenant code : code_taken x tenant code = false -> (tenant, code) ∉ live_codes x.
Proof.
  unfold code_taken, live_codes. intros H (r & E & Hr)%list_elem_of_fmap. apply list_elem_of_In, filter_In in Hr as [Hr Ha].
  apply not_true_iff_false in H. apply H, existsb_exists. exists r. split; [done|]. injection E as -> ->.
  by rewrite Ha, N.eqb_refl, String.eqb_refl.
Qed.
Lemma live_codes_app x l1 l2 : ct_products x = (l1 ++ l2)%list ->
  live_codes x = ((row_code <$> List.filter alive l1) ++ (row_code <$> List.filter alive l2))%list.
Proof. unfold live_codes. intros ->. by rewrite List.filter_app, fmap_app. Qed.

Lemma insert_wf x p u x' : rows_wf x -> product_insert p x = inr (u, x') -> rows_wf x'.
Proof.
  intros W. unfold product_insert, mbind, sum_bind. intros H.
  apply sum_bind_inr in H as (code & Hcode%limit_inr & H). apply sum_bind_inr in H as (r & (S & D & V)%stored_inv & H).
  apply sum_bind_inr in H as (u1 & F%require_inr & H). apply sum_bind_inr in H as (u2 & C%require_inr & H).
  injection H as _ <-. apply negb_true_iff in F, C. destruct W. constructor; simpl; try done.
  - rewrite fmap_app. simpl. apply NoDup_app. split_and!; [done| |apply NoDup_singleton].
    intros y (q & -> & Hq)%list_elem_of_fmap E%list_elem_of_singleton. apply not_true_iff_false in F. apply F, existsb_exists.
    exists q. split; [by apply list_elem_of_In|]. apply N.eqb_eq. rewrite <-(sa_id _ _ _ S). exact E.
  - rewrite (live_codes_app _ (ct_products x) [r]) by done. simpl. unfold alive at 2. rewrite D. simpl.
    apply NoDup_app. split_and!; [done| |apply NoDup_singleton]. intros y Hy ->%list_elem_of_singleton.
    apply code_free in C. apply C. unfold row_code in Hy. by rewrite (sa_tenant _ _ _ S), (sa_code _ _ _ S) in Hy.
  - apply Forall_app. split; [done|]. constructor; [|done]. by eapply V, varchar_fits.
  - eapply Forall_impl; [exact rw_sku_products0|]. intros k Hk. rewrite fmap_app. apply elem_of_app. by left.
Qed.

(** One row replaced: it keeps its identifier, and a live one its code or takes a free one. *)
Lemma replace_row_wf x l1 r l2 r' : rows_wf x -> ct_products x = (l1 ++ r :: l2)%list -> row_id r' = row_id r ->
  fits (cr_product r') ->
  (alive r' = true -> (alive r = true /\ row_code r' = row_code r) \/ row_code r' ∉ live_codes x) ->
  rows_wf (with_products x (l1 ++ r' :: l2)%list).
Proof.
  intros W E Hid Hs Hc. assert (Hids : row_id <$> (l1 ++ r' :: l2)%list = row_id <$> ct_products x).
  { rewrite E, !fmap_app. simpl. by rewrite Hid. }
  destruct W. constructor; simpl; try done.
  - by rewrite Hids.
  - rewrite (live_codes_app _ l1 (r' :: l2)) by done. rewrite (live_codes_app _ l1 (r :: l2)) in rw_codes0, Hc by done.
    simpl in *. destruct (alive r') eqn:Ea.
    + destruct (Hc eq_refl) as [[Har Eq]|Hni]; simpl in *; [rewrite Har in rw_codes0; by rewrite Eq|].
      assert (Hsub : NoDup ((row_code <$> List.filter alive l1) ++ (row_code <$> List.filter alive l2))).
      { destruct (alive r); [|done]. eapply sublist_NoDup; [exact rw_codes0|]. apply sublist_app; [done|]. simpl. by constructor. }
      apply NoDup_app. apply NoDup_app in Hsub as (H1 & H2 & H3). split_and!; [done| |constructor; [|done]].
      * intros y Hy [->|Hy2]%elem_of_cons; [|by eapply H2]. apply Hni. apply elem_of_app. by left.
      * intros Hy. apply Hni, elem_of_app. right. destruct (alive r); [by right|done].
    + destruct (alive r); [|done]. simpl in *. eapply sublist_NoDup; [exact rw_codes0|].
      apply sublist_app; [done|]. by constructor.
  - rewrite E in rw_fits0. apply Forall_app in rw_fits0 as [F1 [_ F2]%Forall_cons]. apply Forall_app. by split; [|constructor].
  - by rewrite Hids.
Qed.

Lemma is_product_id tenant id r : is_product tenant id r = true -> row_id r = id.
Proof. unfold is_product. intros [?%N.eqb_eq _]%andb_true_iff. done. Qed.

(** The rows [update_row] writes: the one that is found. *)
Lemma update_found x tenant id (p : CatalogueRow -> bool) r f : rows_wf x -> (forall q, p q = true -> is_product tenant id q = true) ->
  List.find p (ct_products x) = Some r ->
  exists l1 l2, ct_products x = (l1 ++ r :: l2)%list /\ p r = true /\ update_row f p (ct_products x) = (l1 ++ f r :: l2)%list.
Proof.
  intros W Hp Hf. destruct (split_found row_id p (ct_products x) r (rw_ids _ W)) as (l1 & l2 & E & Hr & Hm); [|done|].
  - intros a b Ha Hb. by rewrite (is_product_id _ _ _ (Hp _ Ha)), (is_product_id _ _ _ (Hp _ Hb)).
  - exists l1, l2. split_and!; [done..|]. apply Hm.
Qed.

Lemma update_wf x p b x' : rows_wf x -> product_update p x = inr (b, x') -> rows_wf x'.
Proof.
  intros W. unfold product_update, mbind, sum_bind. destruct (live_product x _ _) as [o|] eqn:Eo; [|by intros [= _ <-]].
  intros (r & (S & D & V)%stored_inv & H)%sum_bind_inr. injection H as _ <-.
  destruct (update_found x (p_TenantID p) (p_ID p) (fun q => is_product (p_TenantID p) (p_ID p) q && alive q) o (fun _ => r) W) with (2 := Eo) as (l1 & l2 & E & Ho & ->).
  { by intros q [? _]%andb_true_iff. }
  apply andb_true_iff in Ho as [Ho Ha].
  pose proof (rw_fits _ W) as F. rewrite E in F. apply Forall_app in F as [_ [F _]%Forall_cons].
  eapply replace_row_wf; [done..|exact (sa_id _ _ _ S)|by apply V, (ft_code _ F)|].
  intros _. left. split; [done|]. unfold row_code. by rewrite (sa_tenant _ _ _ S), (sa_code _ _ _ S).
Qed.
Lemma delete_wf x tenant id now b x' : rows_wf x -> product_delete tenant id now x = inr (b, x') -> rows_wf x'.
Proof.
  intros W. unfold product_delete. destruct (live_product x _ _) as [o|] eqn:Eo; [|by intros [= _ <-]]. intros [= _ <-].
  destruct (update_found x tenant id (fun q => is_product tenant id q && alive q) o (fun r => mkCatalogueRow (cr_product r) (cr_imgs r) (Some now)) W) with (2 := Eo)
    as (l1 & l2 & E & Ho & ->).
  { by intros q [? _]%andb_true_iff. }
  eapply replace_row_wf; [done..| |done]. simpl.
  pose proof (rw_fits _ W) as F. rewrite E in F. by apply Forall_app in F as [_ [? _]%Forall_cons].
Qed.
Lemma restore_wf x tenant id now b x' : rows_wf x -> product_restore tenant id now x = inr (b, x') -> rows_wf x'.
Proof.
  intros W. unfold product_restore, mbind, sum_bind. destruct (List.find _ _) as [o|] eqn:Eo; [|by intros [= _ <-]].
  intros (u & C%require_inr & H)%sum_bind_inr. injection H as _ <-. apply negb_true_iff in C.
  destruct (update_found x tenant id (fun q => is_product tenant id q && negb (alive q)) o (fun r => mkCatalogueRow (with_updated_at (cr_product r) now) (cr_imgs r) None) W) with (2 := Eo)
    as (l1 & l2 & E & Ho & ->).
  { by intros q [? _]%andb_true_iff. }
  eapply replace_row_wf; [done..| |]; simpl.
  - pose proof (rw_fits _ W) as F. rewrite E in F. apply Forall_app in F as [_ [[] _]%Forall_cons]. by constructor.
  - intros _. right. apply code_free in C. apply andb_true_iff in Ho as [Ho _]. unfold is_product in Ho.
    apply andb_true_iff in Ho as [_ Ht%N.eqb_eq]. unfold row_code. simpl. by rewrite Ht.
Qed.

(** *** SKUs and their prices *)

Definition nonneg (d : dec) : Prop := 0 <= val d.
Definition prices_ok (p : DefaultPrices) : Prop :=
  (forall d, dp_Retail p = Some d -> nonneg d) /\ (forall d, dp_Wholesale p = Some d -> nonneg d) /\ (forall d, dp_Purchase p = Some d -> nonneg d).

Lemma num_price d r : nonneg d -> num_18_6 d = inr r -> is_price r.
Proof.
  unfold num_18_6, nonneg. intros Hd. destruct (dlt _ _) eqn:E; [|done]. intros [= <-].
  apply dlt_true in E. rewrite val_abs, val_int, val_round in E. pose proof (qround_nonneg 6 _ Hd) as Hn.
  rewrite Qabs.Qabs_pos in E by done. unfold is_price. rewrite val_round. split; [done|apply qround_on_scale].
Qed.
Lemma num_or_price d old r : (forall d', d = Some d' -> nonneg d') -> is_price old -> num_or d old = inr r -> is_price r.
Proof. intros Hd Ho. unfold num_or. destruct d as [d|]; [|by intros [= <-]]. intros H. eapply num_price; [by apply Hd|done]. Qed.
Lemma price_zero : is_price dzero.
Proof.
  split; [|rewrite val_zero; apply on_scale_0]. rewrite val_zero. split; [done|]. reflexivity.
Qed.

Lemma update_sku_wf x id k f : rows_wf x -> (forall k', cs_id (f k') = cs_id k' /\ cs_product (f k') = cs_product k') ->
  k ∈ ct_skus x -> cs_id k = id -> (priced k -> priced (f k)) -> rows_wf (with_skus x (update_sku f id (ct_skus x))).
Proof.
  intros W Hf Hk Hid Hp. assert (Hids : forall B (g : CatalogueSku -> B), (forall k', g (f k') = g k') ->
    g <$> update_sku f id (ct_skus x) = g <$> ct_skus x).
  { intros B g Hg. unfold update_sku. rewrite <-list_fmap_compose. apply list_fmap_ext. intros i k' _. simpl.
    by destruct (N.eqb _ _). }
  destruct W. constructor; simpl; try done.
  - rewrite Hids; [done|]. intros k'. apply Hf.
  - unfold update_sku. rewrite Forall_forall in *. intros k' (k0 & -> & Hk0)%list_elem_of_fmap.
    specialize (rw_sku_products0 k0 Hk0). destruct (N.eqb _ _); [|done]. by rewrite (proj2 (Hf k0)).
  - unfold update_sku. apply Forall_forall. intros k' (k0 & -> & Hk0)%list_elem_of_fmap.
    rewrite Forall_forall in rw_prices0. destruct (N.eqb_spec (cs_id k0) id) as [E|_]; [|by apply rw_prices0].
    assert (k0 = k) as ->; [|by apply Hp, rw_prices0].
    rewrite <-Hid in E. by eapply (NoDup_key cs_id).
Qed.

Lemma skus_of_in x tenant product k : k ∈ skus_of x tenant product <->
  k ∈ ct_skus x /\ cs_tenant k = tenant /\ cs_product k = product /\ cs_deleted k = false.
Proof.
  unfold skus_of. rewrite list_elem_of_In, filter_In, <-list_elem_of_In, !andb_true_iff, !N.eqb_eq, negb_true_iff. tauto.
Qed.
Lemma default_sku_in x tenant product k : default_sku x tenant product = Some k -> k ∈ skus_of x tenant product.
Proof.
  unfold default_sku. set (l := match List.filter _ _ with [] => _ | _ => _ end). intros H.
  assert (Hin : k ∈ l).
  { rewrite <-(sql_order_perm cs_created_at l). destruct (sql_order cs_created_at l); [done|]. injection H as ->. by left. }
  subst l. destruct (List.filter cs_default _) as [|k0 l] eqn:E; [done|]. rewrite <-E in Hin.
  apply list_elem_of_In, filter_In in Hin as [Hin _]. by apply list_elem_of_In.
Qed.
Lemma default_sku_None x tenant product : default_sku x tenant product = None -> skus_of x tenant product = [].
Proof.
  unfold default_sku. set (l := match List.filter _ _ with [] => _ | _ => _ end). intros H.
  assert (Hl : l = []). { apply Permutation_nil. rewrite <-(sql_order_perm cs_created_at l). by destruct (sql_order cs_created_at l). }
  subst l. by destruct (List.filter cs_default _).
Qed.

Lemma sku_update_wf x tenant product p now b x' : rows_wf x -> prices_ok p -> sku_update tenant product p now x = inr (b, x') -> rows_wf x'.
Proof.
  intros W (P1 & P2 & P3). unfold sku_update, mbind, sum_bind. destruct (default_sku x tenant product) as [k|] eqn:Ek; [|by intros [= _ <-]].
  intros (r & R & H)%sum_bind_inr. apply sum_bind_inr in H as (w & Hw & H). apply sum_bind_inr in H as (u & U & H). injection H as _ <-.
  apply default_sku_in, skus_of_in in Ek as [Hk _].
  eapply update_sku_wf; [done|done|done|done|]. intros (K1 & K2 & K3). split; [|split]; simpl; (eapply num_or_price; [..|eassumption]); done.
Qed.
Lemma sku_insert_wf x id tenant product p now u x' : rows_wf x -> prices_ok p -> sku_insert id tenant product p now x = inr (u, x') -> rows_wf x'.
Proof.
  intros W (P1 & P2 & P3). unfold sku_insert, mbind, sum_bind.
  intros (r & R & H)%sum_bind_inr. apply sum_bind_inr in H as (w & Hw & H). apply sum_bind_inr in H as (c & Hc & H).
  apply sum_bind_inr in H as (u1 & F%require_inr%bool_decide_eq_true & H). apply sum_bind_inr in H as (u2 & K%require_inr%negb_true_iff & H).
  injection H as _ <-. destruct W. constructor; simpl; try done.
  - rewrite fmap_app. apply NoDup_app. split_and!; [done| |apply NoDup_singleton].
    intros y (q & -> & Hq)%list_elem_of_fmap E%list_elem_of_singleton. apply not_true_iff_false in K. apply K, existsb_exists.
    exists q. split; [by apply list_elem_of_In|]. by apply N.eqb_eq.
  - apply Forall_app. split; [done|]. by repeat constructor.
  - apply Forall_app. split; [done|]. constructor; [|done].
    split; [|split]; simpl; (eapply num_or_price; [..|eassumption]); try done; apply price_zero.
Qed.
Lemma sku_retail_wf x tenant id price now b x' : rows_wf x -> nonneg price -> sku_retail tenant id price now x = inr (b, x') -> rows_wf x'.
Proof.
  intros W Hp. unfold sku_retail, mbind, sum_bind. destruct (List.find _ _) as [k|] eqn:Ek; [|by intros [= _ <-]].
  intros (r & R & H)%sum_bind_inr. injection H as _ <-. apply find_some in Ek as [Hk Hid]. apply list_elem_of_In in Hk.
  apply andb_true_iff in Hid as [Hid _]. apply andb_true_iff in Hid as [Hid%N.eqb_eq _].
  eapply update_sku_wf; [done|done|exact Hk|done|]. intros (K1 & K2 & K3). split; [done|split; [|done]]. by eapply num_price.
Qed.

(** *** Units *)

Lemma unit_insert_wf x v u x' : rows_wf x -> unit_insert v x = inr (u, x') -> rows_wf x'.
Proof.
  intros W. unfold unit_insert, mbind, sum_bind. intros (code & _ & H)%sum_bind_inr.
  apply sum_bind_inr in H as (name & _ & H). apply sum_bind_inr in H as (u1 & _ & H).
  apply sum_bind_inr in H as (u2 & F%require_inr%negb_true_iff & H). apply sum_bind_inr in H as (u3 & C%require_inr%negb_true_iff & H).
  injection H as _ <-. destruct W. constructor; simpl; try done; rewrite fmap_app; (apply NoDup_app; split_and!; [done| |apply NoDup_singleton]);
    intros y (q & -> & Hq)%list_elem_of_fmap E%list_elem_of_singleton.
  - apply not_true_iff_false in F. apply F, existsb_exists. exists q. split; [by apply list_elem_of_In|]. by apply N.eqb_eq.
  - apply not_true_iff_false in C. apply C, existsb_exists. exists q. split; [by apply list_elem_of_In|]. simpl in E. injection E as -> ->.
    by rewrite N.eqb_refl, String.eqb_refl.
Qed.
Lemma sublist_list_filter {A} (p : A -> bool) l : List.filter p l `sublist_of` l.
Proof. induction l as [|a l IH]; simpl; [done|]. destruct (p a); by constructor. Qed.
Lemma unit_delete_wf tenant id d x b x' : rows_wf x -> unit_delete tenant id d x = inr (b, x') -> rows_wf x'.
Proof.
  intros W. unfold unit_delete, mbind, sum_bind. destruct (existsb _ _); [|by intros [= _ <-]].
  intros (u & _ & H)%sum_bind_inr. injection H as _ <-.
  assert (Hu : forall r, row_id (without_unit id r) = row_id r /\ row_code (without_unit id r) = row_code r /\ alive (without_unit id r) = alive r /\
    (fits (cr_product r) -> fits (cr_product (without_unit id r)))).
  { intros r. unfold without_unit. destruct (bool_decide _); [|done]. split_and!; [done..|]. by intros []. }
  assert (Hids : row_id <$> (without_unit id <$> ct_products x) = row_id <$> ct_products x).
  { rewrite <-list_fmap_compose. apply list_fmap_ext. intros i r _. apply Hu. }
  destruct W. constructor; simpl; try done.
  - by rewrite Hids.
  - unfold live_codes in *. simpl. clear -rw_codes0 Hu.
    assert (E : row_code <$> List.filter alive (without_unit id <$> ct_products x) = row_code <$> List.filter alive (ct_products x)); [|by rewrite E].
    clear rw_codes0. induction (ct_products x) as [|r l IH]; [done|]. simpl. destruct (Hu r) as (_ & Ec & Ea & _). rewrite Ea.
    destruct (alive r); [|exact IH]. simpl. f_equal; [exact Ec|exact IH].
  - apply Forall_forall. intros r' (r & -> & Hr)%list_elem_of_fmap. rewrite Forall_forall in rw_fits0.
    by apply Hu, rw_fits0.
  - by rewrite Hids.
  - eapply sublist_NoDup; [exact rw_unit_ids0|]. by rewrite sublist_list_filter.
  - eapply sublist_NoDup; [exact rw_unit_codes0|]. by rewrite sublist_list_filter.
Qed.

(** ** Every use case keeps it *)

Lemma parse_one_ok raw label b d : parseOnePrice raw label b = inr (Some d) -> nonneg d.
Proof.
  unfold parseOnePrice, nonneg. destruct raw as [raw|]; [|done]. destruct (String.eqb _ _).
  { destruct b; [|done]. intros [= <-]. by rewrite val_zero. }
  destruct (Parse _ _) as [|v]; [done|]. destruct (is_negative v) eqn:N; [done|]. destruct (negb _); [done|]. intros [= <-].
  rewrite val_round. apply qround_nonneg. by apply is_negative_false.
Qed.
Lemma parse_prices_ok b i p : parsePrices b i = inr p -> prices_ok p.
Proof.
  unfold parsePrices. destruct (parseOnePrice (pi_Retail i) _ _) as [|r] eqn:E1; [done|].
  destruct (parseOnePrice (pi_Wholesale i) _ _) as [|w] eqn:E2; [done|]. destruct (parseOnePrice (pi_Purchase i) _ _) as [|u] eqn:E3; [done|].
  intros [= <-]. split_and!; simpl; intros d ->; by eapply parse_one_ok.
Qed.
Lemma apply_action_ok d action r : ApplyAction d action = inr r -> nonneg r.
Proof.
  unfold ApplyAction, nonneg. destruct (String.eqb _ _); [done|]. destruct (match drop_suffix _ _ with Some _ => _ | None => _ end) as [|v]; [done|].
  destruct (is_negative (dround 6 v)) eqn:N; intros [= <-]; [by rewrite val_zero|by apply is_negative_false].
Qed.

Ltac wf_bind := apply keeps_bind; [tc_solve| |].
Ltac wf_leaf := first [apply wf_time | apply wf_uuid | apply wf_query | apply wf_read | apply wf_plan
  | apply keeps_ret; tc_solve | apply keeps_throw; tc_solve | apply keeps_guard_err; tc_solve | apply keeps_of_sum; tc_solve
  | apply keeps_of_option; tc_solve].

Lemma wf_ProductCreate p : keeps stays_wf (ProductCreate p).
Proof. apply wf_statement. intros x u x'. apply insert_wf. Qed.
Lemma wf_ProductGetByID tenant id : keeps stays_wf (ProductGetByID tenant id).
Proof. unfold ProductGetByID. wf_bind; [wf_leaf|intros r; wf_leaf]. Qed.
Lemma wf_ProductUpdate p : keeps stays_wf (ProductUpdate p).
Proof. unfold ProductUpdate. wf_bind; [|intros n; wf_leaf]. apply wf_statement. intros x b x'. apply update_wf. Qed.
Lemma wf_ProductDelete tenant id : keeps stays_wf (ProductDelete tenant id).
Proof.
  unfold ProductDelete. wf_bind; [wf_leaf|intros now]. wf_bind; [|intros n; wf_leaf]. apply wf_statement. intros x b x'. apply delete_wf.
Qed.
Lemma wf_ProductRestore tenant id : keeps stays_wf (ProductRestore tenant id).
Proof.
  unfold ProductRestore. wf_bind; [wf_leaf|intros now]. wf_bind; [apply wf_statement; intros x b x'; apply restore_wf|intros n].
  wf_bind; [wf_leaf|intros _]. apply keeps_on_err, wf_ProductGetByID.
Qed.
Lemma wf_UpsertDefaultSKU tenant product p : prices_ok p -> keeps stays_wf (UpsertDefaultSKU tenant product p).
Proof.
  intros Hp. unfold UpsertDefaultSKU. destruct (IsEmpty p); [wf_leaf|]. wf_bind; [wf_leaf|intros now].
  wf_bind; [apply wf_statement; intros x b x' W; by apply sku_update_wf|intros [|]; [wf_leaf|]].
  wf_bind; [wf_leaf|intros id]. apply wf_statement. intros x u x' W. by apply sku_insert_wf.
Qed.
Lemma wf_ListDefaultSKUs tenant ids : keeps stays_wf (ListDefaultSKUs tenant ids).
Proof. unfold ListDefaultSKUs. destruct ids; wf_leaf. Qed.
Lemma wf_UpdateRetailPrice tenant id price : nonneg price -> keeps stays_wf (UpdateRetailPrice tenant id price).
Proof.
  intros Hp. unfold UpdateRetailPrice. wf_bind; [wf_leaf|intros now]. wf_bind; [|intros n; wf_leaf].
  apply wf_statement. intros x b x' W. by apply sku_retail_wf.
Qed.
Lemma wf_update_prices tenant action skus n : keeps stays_wf (update_prices tenant action skus n).
Proof.
  revert n. induction skus as [|k skus IH]; intros n; simpl; [wf_leaf|]. destruct (ApplyAction _ _) as [e|price] eqn:E; [wf_leaf|].
  wf_bind; [apply keeps_try, wf_UpdateRetailPrice; by eapply apply_action_ok|]. intros [e|u]; [wf_leaf|apply IH].
Qed.
Lemma wf_UpdatePrice tenant ids action : keeps stays_wf (UpdatePrice_Execute tenant ids action).
Proof.
  unfold UpdatePrice_Execute. destruct (N.eqb _ _); [wf_leaf|]. destruct ids as [|i ids]; [wf_leaf|]. destruct (ApplyAction _ _); [wf_leaf|].
  wf_bind; [apply keeps_try, wf_ListDefaultSKUs|]. intros [e|skus]; [wf_leaf|apply wf_update_prices].
Qed.

Lemma wf_coded {A} prefix code c (f : string -> CM A) : (forall code, keeps stays_wf (f code)) -> keeps stays_wf (CreateCoded prefix code c f).
Proof. intros Hf. apply keeps_CreateCoded; [tc_solve| |done]. intros s t [Hr Hv]. by split. Qed.
Lemma wf_create guard joined i prices : prices_ok prices -> keeps stays_wf (create guard joined i prices).
Proof.
  intros Hp. unfold create. repeat (wf_bind; [solve [wf_leaf | apply keeps_on_err; wf_leaf]|intros ?]).
  apply keeps_on_err, wf_coded. intros code. wf_bind; [|intros u; wf_leaf]. apply wf_InTx. wf_bind; [apply wf_ProductCreate|intros ?].
  destruct (negb _); [|wf_leaf]. apply keeps_on_err. by apply wf_UpsertDefaultSKU.
Qed.
Lemma wf_CreateWithPrices guard joined i pi : keeps stays_wf (CreateProduct_ExecuteWithPrices guard joined i pi).
Proof.
  unfold CreateProduct_ExecuteWithPrices. intros s. apply (bind_at stays_wf); [apply keeps_of_sum; tc_solve|]. intros p s' [E <-]%of_sum_Ok. apply wf_create. by eapply parse_prices_ok.
Qed.
Lemma wf_UpdateProduct guard tenant id u : keeps stays_wf (UpdateProduct_Execute guard tenant id u).
Proof.
  unfold UpdateProduct_Execute. wf_bind; [wf_leaf|intros _]. wf_bind; [apply keeps_on_err, wf_ProductGetByID|intros p].
  wf_bind; [destruct (match ui_Enabled u with Some true => _ | _ => _ end); wf_leaf|intros _].
  wf_bind; [destruct (String.eqb _ _); [wf_leaf|apply keeps_on_err; wf_leaf]|intros _].
  wf_bind; [destruct (ui_Attributes u); [apply keeps_on_err|]; wf_leaf|intros attrs]. wf_bind; [wf_leaf|intros now].
  wf_bind; [apply keeps_on_err, wf_ProductUpdate|intros _; wf_leaf].
Qed.
Lemma wf_UpdateWithPrices guard tenant id u pi : keeps stays_wf (UpdateProduct_ExecuteWithPrices guard tenant id u pi).
Proof.
  unfold UpdateProduct_ExecuteWithPrices. intros s. apply (bind_at stays_wf); [apply keeps_of_sum; tc_solve|]. intros p s' [E <-]%of_sum_Ok. apply wf_InTx. wf_bind; [apply wf_UpdateProduct|intros q].
  wf_bind; [|intros _; wf_leaf]. destruct (negb _); [|wf_leaf]. apply keeps_on_err, wf_UpsertDefaultSKU. by eapply parse_prices_ok.
Qed.

Lemma wf_DeleteProduct tenant id : keeps stays_wf (DeleteProduct_Execute tenant id).
Proof. unfold DeleteProduct_Execute. wf_bind; [wf_leaf|intros _]. apply keeps_on_err, wf_ProductDelete. Qed.
Lemma wf_RestoreProduct tenant id : keeps stays_wf (RestoreProduct_Execute tenant id).
Proof. unfold RestoreProduct_Execute. do 2 (wf_bind; [wf_leaf|intros _]). apply keeps_on_err, wf_ProductRestore. Qed.
Lemma wf_CreateUnit tenant code name ty : keeps stays_wf (CreateUnit_Execute tenant code name ty).
Proof.
  unfold CreateUnit_Execute. do 5 (wf_bind; [wf_leaf|intros ?]). apply keeps_on_err, wf_coded. intros c.
  wf_bind; [|intros _; wf_leaf]. apply wf_statement. intros x u x'. apply unit_insert_wf.
Qed.
Lemma wf_DeleteUnit tenant id : keeps stays_wf (DeleteUnit_Execute tenant id).
Proof.
  unfold DeleteUnit_Execute. wf_bind; [wf_leaf|intros _]. wf_bind.
  { apply keeps_on_err. unfold UnitGetByID. wf_bind; [wf_leaf|intros r; wf_leaf]. }
  intros u. wf_bind; [wf_leaf|intros _]. apply keeps_on_err. unfold UnitDelete. wf_bind; [|intros n; wf_leaf].
  intros s. unfold at_state. apply wf_statement. intros x b x'. apply unit_delete_wf.
Qed.

(** A request to the catalogue, or one to another part of the program, which leaves the catalogue's
    tables alone. *)
Inductive CatalogueRequest :=
  | CreateProduct (guard : option Mode) (c : Ctx) (i : CreateInput) (pi : PriceInput)
  | UpdateProduct (guard : option Mode) (c : Ctx) (id : uuid) (u : UpdateInput) (pi : PriceInput)
  | DeleteProduct (tenant id : uuid)
  | RestoreProduct (tenant id : uuid)
  | ChangePrices (tenant : uuid) (ids : list uuid) (action : string)
  | CreateUnit (tenant : uuid) (code name unit_type : string)
  | DeleteUnit (tenant id : uuid).
Definition serve_catalogue (q : CatalogueRequest) : CM unit :=
  match q with
  | CreateProduct guard c i pi => handler_Create guard c i pi;; mret tt
  | UpdateProduct guard c id u pi => handler_Update guard c id u pi;; mret tt
  | DeleteProduct tenant id => DeleteProduct_Execute tenant id
  | RestoreProduct tenant id => RestoreProduct_Execute tenant id;; mret tt
  | ChangePrices tenant ids action => UpdatePrice_Execute tenant ids action;; mret tt
  | CreateUnit tenant code name ty => CreateUnit_Execute tenant code name ty;; mret tt
  | DeleteUnit tenant id => DeleteUnit_Execute tenant id
  end.
Inductive catalogue_step (s : Ext Catalogue) : Ext Catalogue -> Prop :=
  | StepRequest q : catalogue_step s (serve_catalogue q s).2
  | StepElsewhere w l : db_products (w_db w) = db_products (w_db (ex_shop s)) -> db_skus (w_db w) = db_skus (w_db (ex_shop s)) ->
      catalogue_step s (mkExt w (with_limits (ex_rows s) l)).

Lemma wf_serve q : keeps stays_wf (serve_catalogue q).
Proof.
  destruct q; cbn [serve_catalogue];
    lazymatch goal with |- keeps _ (_ ≫= _) => wf_bind; [|intros ?; wf_leaf] | _ => idtac end.
  - apply wf_CreateWithPrices.
  - apply wf_UpdateWithPrices.
  - apply wf_DeleteProduct.
  - apply wf_RestoreProduct.
  - apply wf_UpdatePrice.
  - apply wf_CreateUnit.
  - apply wf_DeleteUnit.
Qed.
Lemma core_view_fields x d : core_view x d = d <-> db_products d = (core_product <$> ct_products x) /\ db_skus d = (core_sku <$> ct_skus x).
Proof. destruct d. unfold core_view. simpl. split; [intros [= -> ->]; done|intros [-> ->]; done]. Qed.

(** C30: Whatever requests arrive, in any order and however they end, with other parts of the program
    at work in between, product identifiers and the codes of a tenant's live products stay unique,
    strategies known, every SKU price an amount of NUMERIC(18,6) that is not negative, and the
    commerce core sees the same products and SKUs. *)
Theorem catalogue_stays_wf (s s' : Ext Catalogue) : rtc catalogue_step s s' -> catalogue_wf s -> catalogue_wf s'.
Proof.
  induction 1 as [|s s1 s' H _ IH]; [done|]. intros W. apply IH. destruct H as [q|w l H1 H2]; [by apply wf_serve|].
  destruct W as [Hr Hv]. split; simpl; [by apply rows_wf_limits|]. apply core_view_fields in Hv as [V1 V2].
  apply core_view_fields. by rewrite H1, H2.
Qed.
End laws.

(** A shop that sells tea: a server that takes text as it comes, a plan of two products. *)
Section example.
#[export] Instance ex_pg : PgText := {|
  numeric_text _ _ t := Some t; text_array t := Some t; text_order t := Z.of_nat (String.length t);
  ilike t p := String.eqb t p; json_out _ := ""; json_contains _ _ := true |}.
#[export] Instance ex_pg_laws : PgTextLaws ex_pg.
Proof. by split. Qed.
#[export] Instance ex_entropy : Entropy := {| random_at n := Some (N.of_nat n, 1%N, 2%N, 3%N) |}.
#[export] Instance ex_platform : PlanPlatform := {|
  entitlements_at _ _ _ := FetchedMap {["max_skus" := "2"]}; plan_account_at _ _ := Some (Some 7%Z) |}.

Definition ex_no_rows : Catalogue := mkCatalogue [] [] [] [] [] ∅.
Definition ex_bare : Ext Catalogue := mkExt (mkWorld (core_view ex_no_rows ex_db) 0) ex_no_rows.
Lemma ex_bare_wf : catalogue_wf ex_bare.
Proof. split; [|done]. split; simpl; constructor. Qed.

Definition ex_tea : CreateInput := mkCreateInput ex_tenant None "" "Tea" "" "" "" "" "" "" None None false false "" [] "" "" None
  (Some (JObject [("barcode", JString "690")])).
Definition ex_boss : Ctx := mkCtx ex_tenant "alice" (Some RoleOwner).
Definition ex_clerk : Ctx := mkCtx ex_tenant "bob" (Some RoleClerk).
Definition ex_prices : PriceInput := mkPriceInput (Some "12") None (Some " 5 ").
Definition ex_create_tea : CatalogueRequest := CreateProduct (Some ModeEnforce) ex_boss ex_tea ex_prices.
Definition ex_stocked : Ext Catalogue := (serve_catalogue ex_create_tea ex_bare).2.
Lemma ex_stocked_wf : catalogue_wf ex_stocked.
Proof. apply wf_serve, ex_bare_wf. Qed.
Definition ex_tea_id : uuid := Eval vm_compute in match ct_products (ex_rows ex_stocked) with r :: _ => row_id r | [] => uuid_nil end.

Lemma catalogue_stays_wf_witness :
  let s := (serve_catalogue (ChangePrices ex_tenant [ex_tea_id] "=9") ex_stocked).2 in
  catalogue_wf s /\ length (ct_products (ex_rows s)) = 1%nat /\ ((fun k => Qred (val (cs_retail k))) <$> ct_skus (ex_rows s)) = [9 # 1].
Proof.
  intros s. split.
  - apply (catalogue_stays_wf ex_bare); [|exact ex_bare_wf].
    eapply rtc_l; [apply (StepRequest _ ex_create_tea)|]. apply rtc_once, StepRequest.
  - subst s. vm_compute. by split.
Defined.
End example.
