(* ===== verification/CatalogueEffects.v ===== *)
(** What the catalogue's use cases do: which row a create adds, what an update changes and what it
    leaves, how a price action moves the default SKUs, and that the plan's limit holds. *)
From S2P Require Import Prelude GoStrings GoTime Rounding Decimal SDec Types StockDomain BillDomain Store StockRepo StockCalc Concrete Csv Roles Access Trim ExtStore Entitlement Codegen Runes CatalogueStore Catalogue CatalogueLaws.
From stdpp Require Import base tactics strings gmap list.
From Stdlib Require Import ZArith Lia Ascii QArith Lqa.

#[local] Open Scope string_scope.

Section effects.
Context {ops : DecimalOps} {laws : DecimalLaws ops} {env : Env} {elaws : EnvLaws env} {pg : PgText} {plaws : PgTextLaws pg} {rnd : Entropy} {platform : PlanPlatform}.
Abbreviation CM := (XM (X:=Catalogue)).

(** *** The tables as they were *)

Definition same_tables (s s' : Ext Catalogue) : Prop :=
  ex_rows s' = with_limits (ex_rows s) (ct_limits (ex_rows s')) /\ w_db (ex_shop s') = w_db (ex_shop s).
#[local] Instance same_tables_preorder : PreOrder same_tables.
Proof.
  split; [intros s; split; [by destruct (ex_rows s)|done]|]. intros s1 s2 s3 (E1 & D1) (E2 & D2).
  split; [rewrite E2 at 1; by rewrite E1|congruence].
Qed.
Lemma same_asks {A} (m : CM A) : keeps asks m -> keeps same_tables m.
Proof. intros H s. destruct (H s) as (D & T & E). split; [by rewrite E; destruct (ex_rows s)|done]. Qed.
Lemma same_plan guard tenant key delta : keeps same_tables (plan_check guard tenant key delta).
Proof.
  unfold plan_check. destruct guard as [mode|]; [|apply keeps_ret; tc_solve]. apply keeps_bind; [tc_solve| |].
  - intros s. destruct (limits_Check mode tenant key delta s) as (Ed & T & Er).
    split; [|done]. destruct Er as [->|[l ->]]; by destruct (ex_rows s).
  - intros [e|]; [apply keeps_throw|apply keeps_ret]; tc_solve.
Qed.
Lemma same_InTx {A} (m : CM A) s r s' : InTx false m s = (r, s') -> (forall a, r <> Ok a) -> same_tables s s'.
Proof.
  unfold InTx. intros H Hr. destruct (db_fault _).
  { injection H as <- <-. split; simpl; [by destruct (ex_rows s)|done]. }
  destruct (m (tick_on s)) as [[a|e|w] s1]; try destruct (db_fault (w_tick (ex_shop s1)));
    injection H as <- <-; try (by destruct (Hr a)); (split; simpl; [by destruct (ex_rows s)|done]).
Qed.
Lemma InTx_Ok {A} (m : CM A) s a s' : InTx false m s = (Ok a, s') -> exists s1, m (tick_on s) = (Ok a, s1) /\ s' = tick_on s1.
Proof.
  unfold InTx. destruct (db_fault _); [done|]. destruct (m (tick_on s)) as [[b|e|w] s1]; try destruct (db_fault (w_tick (ex_shop s1))); try done.
  intros [= -> <-]. eauto.
Qed.

Lemma cat_statement_Ok {A} l (f : Catalogue -> error + (A * Catalogue)) s a s' : cat_statement l f s = (Ok a, s') ->
  exists x, f (ex_rows s) = inr (a, x) /\ s' = mkExt (bump (with_db (ex_shop s) (core_view x (w_db (ex_shop s))))) x.
Proof. unfold cat_statement. destruct (db_fault _); [done|]. destruct (f _) as [e|[b x]]; [done|]. intros [= -> <-]. eauto. Qed.

(** ** A created product *)

Lemma skus_of_new x tenant id : Forall (fun k => cs_product k ∈ row_id <$> ct_products x) (ct_skus x) -> id ∉ row_id <$> ct_products x ->
  skus_of x tenant id = [].
Proof.
  intros W Hn. destruct (skus_of x tenant id) as [|k l] eqn:E; [done|]. exfalso.
  assert (Hk : k ∈ skus_of x tenant id) by (rewrite E; by left). apply skus_of_in in Hk as (Hk & _ & <- & _).
  rewrite Forall_forall in W. by apply Hn, W.
Qed.

(** How a price field of the form is read: one that was not sent says nothing, a blank one nothing
    on a new product and zero on one there is, and a number, which is not negative and below the
    ceiling, counts to six digits. *)
Record read_as (blankClears : bool) (raw : option string) (d : option dec) : Prop := {
  ra_unsent : raw = None -> d = None;
  ra_blank : forall t, raw = Some t -> trim_space t = "" -> d = if blankClears then Some dzero else None;
  ra_number : forall t, raw = Some t -> trim_space t <> "" -> exists label v,
    Parse (trim_space t) label = inr v /\ (0 <= val v)%Q /\ (val v < val max_price)%Q /\ d = Some (dround 6 v);
}.
Record prices_sent (blankClears : bool) (pi : PriceInput) (p : DefaultPrices) : Prop := {
  pr_retail : read_as blankClears (pi_Retail pi) (dp_Retail p);
  pr_wholesale : read_as blankClears (pi_Wholesale pi) (dp_Wholesale p);
  pr_purchase : read_as blankClears (pi_Purchase pi) (dp_Purchase p);
}.
Lemma parseOnePrice_read b raw label d : parseOnePrice raw label b = inr d -> read_as b raw d.
Proof.
  unfold parseOnePrice. destruct raw as [t|]; [|by intros [= <-]]. destruct (String.eqb_spec (trim_space t) "") as [E|E].
  - intros [= <-]. split; [done|by intros ? [= <-]|by intros ? [= <-]].
  - destruct (Parse _ _) as [|v] eqn:Ev; [done|]. destruct (is_negative v) eqn:En; [done|]. destruct (dlt v max_price) eqn:El; [|done].
    intros [= <-]. split; [done|by intros ? [= <-]|]. intros ? [= <-] _. exists label, v.
    split_and!; [done|by apply is_negative_false|by apply dlt_true|done].
Qed.
Lemma parsePrices_sent b pi p : parsePrices b pi = inr p -> prices_sent b pi p.
Proof.
  unfold parsePrices. destruct (parseOnePrice (pi_Retail pi) _ _) eqn:E1; [done|]. destruct (parseOnePrice (pi_Wholesale pi) _ _) eqn:E2; [done|].
  destruct (parseOnePrice (pi_Purchase pi) _ _) eqn:E3; [done|]. intros [= <-]. split; by eapply parseOnePrice_read.
Qed.

Definition unpriced (p : DefaultPrices) : Prop := dp_Retail p = None /\ dp_Wholesale p = None /\ dp_Purchase p = None.
Lemma IsEmpty_true p : IsEmpty p = true <-> unpriced p.
Proof. unfold IsEmpty, unpriced. destruct p as [[] [] []]; simpl; (split; [done || by intros _|by intros (? & ? & ?)]). Qed.
Lemma IsEmpty_false p : IsEmpty p = false <-> ~ unpriced p.
Proof. rewrite <-IsEmpty_true. by destruct (IsEmpty p). Qed.

(** A price column takes what was given, as NUMERIC(18,6), and keeps what it has otherwise. *)
Definition takes (d : option dec) (old new : dec) : Prop := (d = None -> new = old) /\ (forall v, d = Some v -> num_18_6 v = inr new).
Lemma num_or_takes d old new : num_or d old = inr new -> takes d old new.
Proof. destruct d as [v|]; simpl; intros H; split; [done|by intros ? [= <-]|by injection H as <-|done]. Qed.

Definition new_sku (tenant product : uuid) (p : DefaultPrices) (k : CatalogueSku) : Prop :=
  cs_tenant k = tenant /\ cs_product k = product /\ cs_unit_name k = None /\ cs_default k = true /\ cs_deleted k = false /\
  takes (dp_Retail p) dzero (cs_retail k) /\ takes (dp_Wholesale p) dzero (cs_wholesale k) /\ takes (dp_Purchase p) dzero (cs_purchase k).

Lemma default_sku_nil x tenant id : skus_of x tenant id = [] -> default_sku x tenant id = None.
Proof.
  unfold default_sku. intros ->. simpl. pose proof (sql_order_perm cs_created_at []) as P. symmetry in P. apply Permutation_nil in P. by rewrite P.
Qed.

Lemma upsert_new tenant id p s s' u : IsEmpty p = false -> skus_of (ex_rows s) tenant id = [] ->
  UpsertDefaultSKU tenant id p s = (Ok u, s') ->
  exists k, new_sku tenant id p k /\ ex_rows s' = with_skus (ex_rows s) (ct_skus (ex_rows s) ++ [k])%list /\
    w_db (ex_shop s') = core_view (ex_rows s') (w_db (ex_shop s)).
Proof.
  intros He Hn. unfold UpsertDefaultSKU. rewrite He. intros H.
  apply bind_Ok in H as (now & s1 & (w & (-> & ->)%time_now_Ok & ->)%lift_Ok & H).
  apply bind_Ok in H as (n & s2 & (x & E & ->)%cat_statement_Ok & H).
  unfold sku_update in E. simpl in E. rewrite (default_sku_nil _ _ _ Hn) in E. injection E as <- <-.
  apply bind_Ok in H as (kid & s3 & (w & (-> & ->)%uuid_new_Ok & ->)%lift_Ok & H).
  apply cat_statement_Ok in H as (x & E & ->). unfold sku_insert, mbind, sum_bind in E.
  apply sum_bind_inr in E as (r & R & E). apply sum_bind_inr in E as (wh & Hw & E). apply sum_bind_inr in E as (c & Hc & E).
  apply sum_bind_inr in E as (_ & _ & E). apply sum_bind_inr in E as (_ & _ & E). injection E as _ <-.
  eexists. split; [|split; [reflexivity|done]]. split_and!; try done; by apply num_or_takes.
Qed.

(** A product with the fields that were sent: its code and strategy are the ones sent, a generated
    code and the individual strategy if none was; it is enabled, and it has no attributes unless
    they were sent. *)
Record as_sent (i : CreateInput) (p : Product) : Prop := {
  sn_tenant : p_TenantID p = ci_TenantID i;
  sn_category : p_CategoryID p = ci_CategoryID i;
  sn_code : (ci_Code i <> "" -> p_Code p = ci_Code i) /\ (ci_Code i = "" -> exists t, generated PrefixProduct t (p_Code p));
  sn_name : p_Name p = ci_Name i;
  sn_manufacturer : p_Manufacturer p = ci_Manufacturer i;
  sn_model : p_Model p = ci_Model i;
  sn_spec : p_Spec p = ci_Spec i;
  sn_brand : p_Brand p = ci_Brand i;
  sn_mnemonic : p_Mnemonic p = ci_Mnemonic i;
  sn_color : p_Color p = ci_Color i;
  sn_expiry : p_ExpiryDays p = ci_ExpiryDays i;
  sn_weight : p_WeightKg p = ci_WeightKg i;
  sn_enabled : p_Enabled p = true;
  sn_serial : p_EnableSerialNo p = ci_EnableSerialNo i;
  sn_lot : p_EnableLotNo p = ci_EnableLotNo i;
  sn_shelf : p_ShelfPosition p = ci_ShelfPosition i;
  sn_imgs : p_ImgURLs p = ci_ImgURLs i;
  sn_remark : p_Remark p = ci_Remark i;
  sn_strategy : IsValidStrategy (p_MeasurementStrategy p) = true /\
    (ci_MeasurementStrategy i <> "" -> p_MeasurementStrategy p = ci_MeasurementStrategy i) /\
    (ci_MeasurementStrategy i = "" -> p_MeasurementStrategy p = "individual");
  sn_unit : p_DefaultUnitID p = ci_DefaultUnitID i;
  sn_attributes : (forall a, ci_Attributes i = Some a -> p_Attributes p = a) /\ (ci_Attributes i = None -> p_Attributes p = JObject []);
  sn_updated : p_UpdatedAt p = p_CreatedAt p;
}.

Lemma new_product_sent i id code strategy now : IsValidStrategy strategy = true ->
  (ci_MeasurementStrategy i <> "" -> strategy = ci_MeasurementStrategy i) -> (ci_MeasurementStrategy i = "" -> strategy = "individual") ->
  (ci_Code i <> "" -> code = ci_Code i) -> (ci_Code i = "" -> exists t, generated PrefixProduct t code) ->
  as_sent i (new_product i id code strategy now).
Proof. intros. split; simpl; try done. split; [by intros a ->|by intros ->]. Qed.

(** What a create that went through left: one row more, which holds the product column by column
    ([stored_as], texts cut of the blanks that do not fit), and its SKU. *)
Record created (i : CreateInput) (prices : DefaultPrices) (x : Catalogue) (p : Product) (x' : Catalogue) : Prop := {
  cd_product : as_sent i p;
  cd_row : exists r code, varchar 100 (p_Code p) = Some code /\ stored_as p code r /\ alive r = true /\
    ((p_TenantID p, code) ∉ live_codes x) /\ ct_products x' = (ct_products x ++ [r])%list;
  cd_no_sku : unpriced prices -> ct_skus x' = ct_skus x;
  cd_sku : ~ unpriced prices -> exists k, new_sku (p_TenantID p) (p_ID p) prices k /\ ct_skus x' = (ct_skus x ++ [k])%list;
  cd_rest : ct_units x' = ct_units x /\ ct_categories x' = ct_categories x /\ ct_members x' = ct_members x;
}.

Lemma product_insert_Ok p x u x' : product_insert p x = inr (u, x') ->
  exists r code, varchar 100 (p_Code p) = Some code /\ stored_as p code r /\ alive r = true /\
    ((p_TenantID p, code) ∉ live_codes x) /\ (p_ID p ∉ row_id <$> ct_products x) /\ x' = with_products x (ct_products x ++ [r])%list.
Proof.
  unfold product_insert, mbind, sum_bind. intros H.
  apply sum_bind_inr in H as (code & Hc%limit_inr & H). apply sum_bind_inr in H as (r & (S & D & _)%stored_inv & H).
  apply sum_bind_inr in H as (u1 & F%require_inr%negb_true_iff & H). apply sum_bind_inr in H as (u2 & C%require_inr%negb_true_iff & H).
  injection H as _ <-. exists r, code. split_and!; [done..|unfold alive; by rewrite D|by apply code_free| |done].
  intros (q & E & Hq)%list_elem_of_fmap. apply not_true_iff_false in F. apply F, existsb_exists. exists q.
  split; [by apply list_elem_of_In|]. by apply N.eqb_eq.
Qed.

Lemma save_new_Ok prices p s u s' : Forall (fun k => cs_product k ∈ row_id <$> ct_products (ex_rows s)) (ct_skus (ex_rows s)) ->
  save_new false prices p s = (Ok u, s') ->
  (exists r code, varchar 100 (p_Code p) = Some code /\ stored_as p code r /\ alive r = true /\
    ((p_TenantID p, code) ∉ live_codes (ex_rows s)) /\ ct_products (ex_rows s') = (ct_products (ex_rows s) ++ [r])%list) /\
  (unpriced prices -> ct_skus (ex_rows s') = ct_skus (ex_rows s)) /\
  (~ unpriced prices -> exists k, new_sku (p_TenantID p) (p_ID p) prices k /\ ct_skus (ex_rows s') = (ct_skus (ex_rows s) ++ [k])%list) /\
  (ct_units (ex_rows s') = ct_units (ex_rows s) /\ ct_categories (ex_rows s') = ct_categories (ex_rows s) /\ ct_members (ex_rows s') = ct_members (ex_rows s)).
Proof.
  intros W. unfold save_new. intros (s1 & H & ->)%InTx_Ok.
  apply bind_Ok in H as (u1 & s2 & (x & (r & code & Hc & S & A & C & F & ->)%product_insert_Ok & ->)%cat_statement_Ok & H).
  destruct (IsEmpty prices) eqn:Ee; simpl in H.
  - apply ret_Ok in H as [_ <-]. apply IsEmpty_true in Ee. simpl. split_and!; [|done..]. by exists r, code.
  - apply on_err_Ok in H. apply upsert_new in H as (k & Hk & E & _); [|done|].
    + apply IsEmpty_false in Ee. simpl. rewrite E. simpl. split_and!; [by exists r, code|done|by exists k|done..].
    + assert (En : skus_of (ex_rows s) (p_TenantID p) (p_ID p) = []) by (by apply skus_of_new).
      exact En.
Qed.

(** A creation that fails has left the tables as they were, whatever the attempts at codes did. *)
Lemma coded_fails {A} prefix code c (f : string -> CM A) : (forall code s r s', f code s = (r, s') -> (forall a, r <> Ok a) -> same_tables s s') ->
  forall s r s', CreateCoded prefix code c f s = (r, s') -> (forall a, r <> Ok a) -> same_tables s s'.
Proof.
  intros Hf s r s' H Hr. unfold CreateCoded in H. destruct (String.eqb _ _); [|by eapply Hf]. revert s H.
  assert (Hn : keeps same_tables (Next (X:=Catalogue) prefix)).
  { apply keeps_Next; [tc_solve|]. intros s t. split; [by destruct (ex_rows s)|done]. }
  induction MaxRetries as [|n IH]; intros s H; simpl in H.
  all: apply bind_fails in H as [(r0 & H & _)|(code' & s1 & H1 & H)]; [by eapply keeps_run| |done].
  all: pose proof (keeps_run _ _ _ _ _ Hn H1) as R1; etrans; [exact R1|].
  all: apply bind_fails in H as [(r0 & H & H0)|(o & s2 & H2%try_Ok & H)]; [| |done].
  all: try (unfold try in H; destruct (f code' s1) as [[a|e|w] s2] eqn:E; injection H as <- <-; [by edestruct H0|by edestruct H0|];
    by eapply Hf).
  all: destruct o as [e|a]; [|by injection H as <- <-; edestruct Hr].
  all: assert (R2 : same_tables s1 s2) by (by eapply Hf).
  - destruct (c e); by injection H as <- <-.
  - destruct (c e); [etrans; [exact R2|by apply IH]|by injection H as <- <-].
Qed.

Lemma created_same i prices x x1 p x' : x1 = with_limits x (ct_limits x1) -> created i prices x1 p x' -> created i prices x p x'.
Proof. intros ->. by intros []. Qed.
Lemma same_rows_wf s s' : same_tables s s' -> rows_wf (ex_rows s) -> rows_wf (ex_rows s').
Proof. intros [-> _] W. by apply rows_wf_limits. Qed.

Lemma save_fails prices p s r s' : (save_new false prices p;; mret p : CM Product) s = (r, s') ->
  (forall a, r <> Ok a) -> same_tables s s'.
Proof.
  intros H Hr. apply bind_fails in H as [(r0 & H & H0)|(u & s1 & _ & H)]; [|by injection H as <- <-; edestruct Hr|done].
  by eapply same_InTx.
Qed.

(** The creation under a code, whichever code it ends with. *)
Definition coded_create (i : CreateInput) (prices : DefaultPrices) (id : uuid) (strategy : string) (now : time) : CM Product :=
  CreateCoded PrefixProduct (ci_Code i) IsUniqueViolation (fun code =>
    let p := new_product i id code strategy now in save_new false prices p;; mret p).
Lemma coded_create_Ok i prices id strategy now s p s' : rows_wf (ex_rows s) -> IsValidStrategy strategy = true ->
  (ci_MeasurementStrategy i <> "" -> strategy = ci_MeasurementStrategy i) -> (ci_MeasurementStrategy i = "" -> strategy = "individual") ->
  coded_create i prices id strategy now s = (Ok p, s') -> created i prices (ex_rows s) p (ex_rows s').
Proof.
  intros W Hv Hs Hi H. unfold coded_create, CreateCoded in H.
  assert (Hgoal : exists code s1, (save_new false prices (new_product i id code strategy now);; mret (new_product i id code strategy now) : CM Product) s1 = (Ok p, s') /\
    same_tables s s1 /\ (ci_Code i <> "" -> code = ci_Code i) /\ (ci_Code i = "" -> exists t, generated PrefixProduct t code)).
  { destruct (String.eqb_spec (ci_Code i) "") as [E|E]; [|by exists (ci_Code i), s].
    apply (attempts_Ok same_tables) in H as (code & s1 & t & H & R & G).
    - exists code, s1. split_and!; [done|done|done|by exists t].
    - intros s1 t. split; [by destruct (ex_rows s1)|done].
    - intros code s1 e s2 H1. eapply save_fails; [exact H1|done]. }
  destruct Hgoal as (code & s1 & H1 & R & C1 & C2).
  apply bind_Ok in H1 as (u & s2 & H1 & [<- <-]%ret_Ok). apply save_new_Ok in H1 as (Hrow & Hno & Hsku & Hrest);
    [|by apply rw_sku_products, (same_rows_wf s)].
  apply (created_same _ _ _ (ex_rows s1)); [apply R|]. constructor; [|done..].
  by apply new_product_sent.
Qed.
Lemma coded_create_fails i prices id strategy now s r s' : coded_create i prices id strategy now s = (r, s') -> (forall a, r <> Ok a) -> same_tables s s'.
Proof.
  intros H Hr. eapply coded_fails; [|exact H|done]. intros code s1 r1 s2 H1 Hr1. eapply save_fails; [exact H1|done].
Qed.

Lemma create_goes guard i pi s p s' : rows_wf (ex_rows s) -> CreateProduct_ExecuteWithPrices guard false i pi s = (Ok p, s') ->
  exists prices, parsePrices false pi = inr prices /\ created i prices (ex_rows s) p (ex_rows s').
Proof.
  intros W H. unfold CreateProduct_ExecuteWithPrices in H. apply bind_Ok in H as (prices & s0 & [Ep <-]%of_sum_Ok & H). exists prices. split; [done|].
  unfold create in H. mguard H as Ht. mguard H as Hn.
  apply bind_Ok in H as (u & s1 & Hp & H). pose proof (keeps_run _ _ _ _ _ (same_plan _ _ _ _) Hp) as R1.
  apply bind_Ok in H as (u2 & s2 & [Hv <-]%on_err_Ok%of_sum_Ok & H).
  apply bind_Ok in H as (now & s3 & (w & (-> & ->)%time_now_Ok & ->)%lift_Ok & H).
  apply bind_Ok in H as (id & s4 & (w & (-> & ->)%uuid_new_Ok & ->)%lift_Ok & H). apply on_err_Ok in H.
  apply (created_same _ _ _ (ex_rows s1)); [apply R1|]. apply coded_create_Ok in H; [exact H|by eapply same_rows_wf| | |].
  + unfold ValidateStrategy in Hv. by destruct (IsValidStrategy _).
  + intros Hs. by destruct (String.eqb_spec (ci_MeasurementStrategy i) "").
  + by intros ->.
Qed.
Lemma create_fails guard i pi s r s' : CreateProduct_ExecuteWithPrices guard false i pi s = (r, s') -> (forall p, r <> Ok p) -> same_tables s s'.
Proof.
  intros H Hr. unfold CreateProduct_ExecuteWithPrices in H. apply bind_fails in H as [(r0 & H & _)|(prices & s0 & [_ <-]%of_sum_Ok & H)]; [eapply keeps_run; [|exact H]; apply keeps_of_sum; tc_solve| |done].
  unfold create in H.
  apply bind_fails in H as [(r0 & H & _)|(u & s0 & [_ <-]%guard_err_Ok & H)]; [eapply keeps_run; [|exact H]; apply keeps_guard_err; tc_solve| |done].
  apply bind_fails in H as [(r0 & H & _)|(u1 & s0 & [_ <-]%guard_err_Ok & H)]; [eapply keeps_run; [|exact H]; apply keeps_guard_err; tc_solve| |done].
  apply bind_fails in H as [(r0 & H & _)|(u2 & s1 & Hp & H)]; [eapply keeps_run; [|exact H]; apply same_plan| |done].
  etrans; [eapply keeps_run; [|exact Hp]; apply same_plan|]. clear Hp.
  apply bind_fails in H as [(r0 & H & _)|(u3 & s2 & [_ <-]%on_err_Ok%of_sum_Ok & H)]; [eapply keeps_run; [|exact H]; apply keeps_on_err, keeps_of_sum; tc_solve| |done].
  apply bind_fails in H as [(r0 & H & _)|(now & s2 & (w & (-> & ->)%time_now_Ok & ->)%lift_Ok & H)]; [injection H as _ <-; split; [by destruct (ex_rows s1)|done]| |done].
  apply bind_fails in H as [(r0 & H & _)|(id & s2 & (w & (-> & ->)%uuid_new_Ok & ->)%lift_Ok & H)]; [injection H as _ <-; split; [by destruct (ex_rows s1)|done]| |done].
  apply on_err_fails in H as (r0 & H & Hr0); [|done]. by apply coded_create_fails in H.
Qed.

(** C31: A product that is created is one new row: field by field what was sent, its code the one that
    was sent or a generated one, which no live product of the tenant has, live and enabled, its
    strategy the one sent or the individual one, with a default SKU at the prices the form gave if it
    gave any; no other row of the catalogue changes.  A create that fails, at whatever point, leaves
    every table as it was. *)
Theorem create_effect (guard : option Mode) (i : CreateInput) (pi : PriceInput) (s : Ext Catalogue) r s' :
  catalogue_wf s -> CreateProduct_ExecuteWithPrices guard false i pi s = (r, s') ->
  (forall p, r = Ok p -> exists prices, prices_sent false pi prices /\ created i prices (ex_rows s) p (ex_rows s')) /\
  ((forall p, r <> Ok p) -> same_tables s s').
Proof.
  intros [W _] H. split; [|by eapply create_fails]. intros p ->. apply create_goes in H as (prices & E & C); [|done].
  exists prices. split; [by apply parsePrices_sent|done].
Qed.

(** ** An updated product *)

(** What giving prices does to the SKUs: the default SKU of the product takes those given and keeps
    the others; a product that has none gets one. *)
Record repriced_sku (p : DefaultPrices) (k k' : CatalogueSku) : Prop := {
  rp_key : (cs_id k', cs_tenant k', cs_product k') = (cs_id k, cs_tenant k, cs_product k);
  rp_kept : (cs_unit_name k', cs_default k', cs_created_at k', cs_deleted k') = (cs_unit_name k, cs_default k, cs_created_at k, cs_deleted k);
  rp_retail : takes (dp_Retail p) (cs_retail k) (cs_retail k');
  rp_wholesale : takes (dp_Wholesale p) (cs_wholesale k) (cs_wholesale k');
  rp_purchase : takes (dp_Purchase p) (cs_purchase k) (cs_purchase k');
}.
Definition repriced (tenant id : uuid) (p : DefaultPrices) (x : Catalogue) (skus : list CatalogueSku) : Prop :=
  (unpriced p -> skus = ct_skus x) /\
  (~ unpriced p -> match default_sku x tenant id with
                   | Some d => Forall2 (fun k k' => (cs_id k = cs_id d -> repriced_sku p k k') /\ (cs_id k <> cs_id d -> k' = k)) (ct_skus x) skus
                   | None => exists k, new_sku tenant id p k /\ skus = (ct_skus x ++ [k])%list
                   end).

Lemma price_sku_repriced p k purchase retail wholesale now :
  num_or (dp_Purchase p) (cs_purchase k) = inr purchase -> num_or (dp_Retail p) (cs_retail k) = inr retail ->
  num_or (dp_Wholesale p) (cs_wholesale k) = inr wholesale -> repriced_sku p k (price_sku purchase retail wholesale now k).
Proof. intros. split; [done|done|by apply num_or_takes..]. Qed.
Lemma update_sku_only f d l : NoDup (cs_id <$> l) -> d ∈ l ->
  Forall2 (fun k k' => (cs_id k = cs_id d -> k = d /\ k' = f k) /\ (cs_id k <> cs_id d -> k' = k)) l (update_sku f (cs_id d) l).
Proof.
  intros Hn Hd. apply Forall2_same_length_lookup. unfold update_sku. split; [by rewrite length_map|]. intros j k k' Hk Hk'.
  rewrite list_lookup_fmap, Hk in Hk'. injection Hk' as <-. apply list_elem_of_lookup_2 in Hk.
  destruct (N.eqb_spec (cs_id k) (cs_id d)) as [E|E].
  - split; [|done]. intros _. split; [by eapply (NoDup_key cs_id)|done].
  - done.
Qed.

Lemma default_sku_same x x' tenant id : ct_skus x' = ct_skus x -> default_sku x' tenant id = default_sku x tenant id.
Proof. unfold default_sku, skus_of. by intros ->. Qed.

Lemma upsert_effect tenant id p s u s' : NoDup (cs_id <$> ct_skus (ex_rows s)) -> UpsertDefaultSKU tenant id p s = (Ok u, s') ->
  repriced tenant id p (ex_rows s) (ct_skus (ex_rows s')) /\ ex_rows s' = with_skus (ex_rows s) (ct_skus (ex_rows s')).
Proof.
  intros W. unfold repriced. destruct (IsEmpty p) eqn:He.
  { unfold UpsertDefaultSKU. rewrite He. intros [_ <-]%ret_Ok. apply IsEmpty_true in He. split; [done|by destruct (ex_rows s)]. }
  destruct (default_sku (ex_rows s) tenant id) as [k|] eqn:Ek.
  - unfold UpsertDefaultSKU. rewrite He. intros H.
    apply bind_Ok in H as (now & s1 & (w & (-> & ->)%time_now_Ok & ->)%lift_Ok & H).
    apply bind_Ok in H as (n & s2 & (x & E & ->)%cat_statement_Ok & H).
    unfold sku_update, mbind, sum_bind in E. simpl in E. rewrite Ek in E.
    apply sum_bind_inr in E as (r & R & E). apply sum_bind_inr in E as (w & Hw & E). apply sum_bind_inr in E as (c & Hc & E).
    injection E as <- <-. apply ret_Ok in H as [_ <-]. apply IsEmpty_false in He. simpl. split; [split; [done|intros _]|done].
    apply default_sku_in, skus_of_in in Ek as [Hk _].
    eapply Forall2_impl; [by apply update_sku_only|]. intros q q' [H1 H2]. split; [|done]. intros E. destruct (H1 E) as [-> ->]. by apply price_sku_repriced.
  - intros H. apply upsert_new in H as (k & Hk & E & _); [|done|by apply default_sku_None]. apply IsEmpty_false in He.
    rewrite E. simpl. split; [split; [done|by exists k]|done].
Qed.

(** Members of a merged object. *)
Lemma member_after_put k k' v m : member k (put k' v m) = if String.eqb k' k then Some v else member k m.
Proof.
  unfold member, put. simpl. destruct (String.eqb_spec k' k) as [->|n]; [done|]. f_equal.
  induction m as [|[k1 v1] m IH]; [done|]. simpl. destruct (String.eqb_spec k1 k') as [->|]; simpl.
  - destruct (String.eqb_spec k' k); [done|exact IH].
  - by destruct (String.eqb k1 k).
Qed.
Lemma member_after_drop k k' m : member k (drop_key k' m) = if String.eqb k' k then None else member k m.
Proof.
  unfold member, drop_key. induction m as [|[k1 v1] m IH]; [by destruct (String.eqb k' k)|]. simpl.
  destruct (String.eqb k1 k') eqn:E1; simpl.
  - apply String.eqb_eq in E1 as ->. rewrite IH. by destruct (String.eqb k' k).
  - destruct (String.eqb k1 k) eqn:E2; [|done]. apply String.eqb_eq in E2 as ->. by rewrite String.eqb_sym, E1.
Qed.
Lemma merge_member_other k acc e : e.1 <> k -> member k (merge_member acc e) = member k acc.
Proof.
  intros n. unfold merge_member. apply String.eqb_neq in n. destruct (drops _ _); rewrite ?member_after_drop, ?member_after_put, n; done.
Qed.
(** The last member of a key counts, as it does when Go reads an object into a map. *)
Lemma merge_lookup over base k :
  member k (fold_left merge_member over base) =
  match member k (rev over) with Some v => if drops k v then None else Some v | None => member k base end.
Proof.
  induction over as [|[k1 v1] over IH] using rev_ind; [done|]. rewrite fold_left_app, rev_app_distr. simpl.
  unfold member at 2. simpl. destruct (String.eqb_spec k1 k) as [->|n].
  - unfold merge_member. simpl. destruct (drops k v1); rewrite ?member_after_drop, ?member_after_put, String.eqb_refl; done.
  - rewrite merge_member_other by done. exact IH.
Qed.

(** A key is cleared by a null, the barcode by an empty text as well. *)
Definition cleared (k : string) (v : json) : Prop := v = JNull \/ (k = "barcode" /\ v = JString "").
(** The attributes after an update: those there were when none are sent; otherwise an object in
    which a key that was not sent keeps its value, a key sent to be cleared is gone, and any other
    key sent has the value sent.  What is sent has to be an object, or null. *)
Record merged (base : json) (patch : option json) (attrs : json) : Prop := {
  mg_unsent : patch = None -> attrs = base;
  mg_sent : forall p, patch = Some p -> exists over m, (p = JObject over \/ (p = JNull /\ over = [])) /\ attrs = JObject m /\
    forall k, (member k (rev over) = None -> member k m = match base with JObject b => member k b | _ => None end) /\
      (forall v, member k (rev over) = Some v -> cleared k v -> member k m = None) /\
      (forall v, member k (rev over) = Some v -> ~ cleared k v -> member k m = Some v);
}.
Lemma drops_cleared k v : drops k v = true <-> cleared k v.
Proof.
  unfold cleared. destruct v; simpl; rewrite ?andb_true_iff, ?String.eqb_eq;
    (split; [intros H|intros [H|[H1 H2]]]); try done; try by left.
  - destruct H as [-> ->]. by right.
  - by injection H2 as ->.
Qed.
Lemma mergeAttributes_merged base p attrs : mergeAttributes base p = inr attrs -> merged base (Some p) attrs.
Proof.
  intros H. split; [done|]. intros ? [= <-]. unfold mergeAttributes in H. destruct p as [| | | | | |over]; try done; injection H as <-.
  - eexists [], _. split; [by right|]. split; [done|]. intros k. split_and!; [|done|done]. intros _. by destruct base.
  - eexists over, _. split; [by left|]. split; [done|]. intros k. rewrite merge_lookup. split_and!.
    + intros ->. by destruct base.
    + intros v -> Hv%drops_cleared. by rewrite Hv.
    + intros v -> Hv. rewrite <-drops_cleared in Hv. by destruct (drops k v).
Qed.

(** What a column holds after an update: a text that was sent, cut of the blanks that do not fit,
    and the text it has if none was; likewise a value. *)
Definition text_kept (width : nat) (sent old new : string) : Prop := (sent = "" -> new = old) /\ (sent <> "" -> varchar width sent = Some new).
Definition value_kept {A} (sent : option A) (old new : A) : Prop := (sent = None -> new = old) /\ (forall a, sent = Some a -> new = a).

(** One row rewritten by what was sent. *)
Record rewritten (u : UpdateInput) (o n : CatalogueRow) : Prop := {
  rw_key : (p_ID (cr_product n), p_TenantID (cr_product n), p_Code (cr_product n)) = (p_ID (cr_product o), p_TenantID (cr_product o), p_Code (cr_product o));
  rw_created : p_CreatedAt (cr_product n) = p_CreatedAt (cr_product o);
  rw_name : text_kept 200 (ui_Name u) (p_Name (cr_product o)) (p_Name (cr_product n));
  rw_manufacturer : text_kept 100 (ui_Manufacturer u) (p_Manufacturer (cr_product o)) (p_Manufacturer (cr_product n));
  rw_model : text_kept 100 (ui_Model u) (p_Model (cr_product o)) (p_Model (cr_product n));
  rw_spec : text_kept 200 (ui_Spec u) (p_Spec (cr_product o)) (p_Spec (cr_product n));
  rw_brand : text_kept 100 (ui_Brand u) (p_Brand (cr_product o)) (p_Brand (cr_product n));
  rw_mnemonic : text_kept 100 (ui_Mnemonic u) (p_Mnemonic (cr_product o)) (p_Mnemonic (cr_product n));
  rw_color : text_kept 50 (ui_Color u) (p_Color (cr_product o)) (p_Color (cr_product n));
  rw_shelf : text_kept 100 (ui_ShelfPosition u) (p_ShelfPosition (cr_product o)) (p_ShelfPosition (cr_product n));
  rw_remark : (ui_Remark u = "" -> p_Remark (cr_product n) = p_Remark (cr_product o)) /\ (ui_Remark u <> "" -> p_Remark (cr_product n) = ui_Remark u);
  rw_strategy : (ui_MeasurementStrategy u = "" -> p_MeasurementStrategy (cr_product n) = p_MeasurementStrategy (cr_product o)) /\
    (ui_MeasurementStrategy u <> "" -> p_MeasurementStrategy (cr_product n) = ui_MeasurementStrategy u);
  rw_category : value_kept (Some <$> ui_CategoryID u) (p_CategoryID (cr_product o)) (p_CategoryID (cr_product n));
  rw_unit : value_kept (Some <$> ui_DefaultUnitID u) (p_DefaultUnitID (cr_product o)) (p_DefaultUnitID (cr_product n));
  rw_expiry : value_kept (Some <$> ui_ExpiryDays u) (p_ExpiryDays (cr_product o)) (p_ExpiryDays (cr_product n));
  rw_weight : value_kept (numeric_text 18 4 <$> ui_WeightKg u) (p_WeightKg (cr_product o)) (p_WeightKg (cr_product n));
  rw_enabled : value_kept (ui_Enabled u) (p_Enabled (cr_product o)) (p_Enabled (cr_product n));
  rw_serial : value_kept (ui_EnableSerialNo u) (p_EnableSerialNo (cr_product o)) (p_EnableSerialNo (cr_product n));
  rw_lot : value_kept (ui_EnableLotNo u) (p_EnableLotNo (cr_product o)) (p_EnableLotNo (cr_product n));
  rw_imgs : (ui_ImgURLs u = [] -> cr_imgs n = sliceToArray (scan_imgs (cr_imgs o)) ≫= text_array) /\
    (ui_ImgURLs u <> [] -> cr_imgs n = sliceToArray (ui_ImgURLs u) ≫= text_array);
  rw_attributes : merged (p_Attributes (cr_product o)) (ui_Attributes u) (p_Attributes (cr_product n));
}.

Lemma or_old_kept width sent old new : varchar width old = Some old -> varchar width (or_old sent old) = Some new -> text_kept width sent old new.
Proof. unfold or_old, text_kept. destruct (String.eqb_spec sent ""); intros H1 H2; (split; intros; [congruence|done]). Qed.
Lemma or_old_plain sent old : (sent = "" -> or_old sent old = old) /\ (sent <> "" -> or_old sent old = sent).
Proof. unfold or_old. by destruct (String.eqb_spec sent ""). Qed.
Lemma or_kept_kept {A} (sent old : option A) : value_kept (Some <$> sent) old (or_kept sent old).
Proof. destruct sent; split; simpl; intros; congruence. Qed.
Lemma flag_kept (sent : option bool) old : value_kept sent old (default old sent).
Proof. destruct sent; split; simpl; intros; congruence. Qed.

Lemma updated_rewritten u o attrs now n : fits (cr_product o) -> merged (p_Attributes (cr_product o)) (ui_Attributes u) attrs ->
  stored_as (updated_product u (scanned o) attrs now) (p_Code (cr_product o)) n -> rewritten u o n.
Proof.
  intros F M S. destruct F, S as [S1 S2 S3 S4 S5 S6 S7 S8 S9 S10 S11 S12 S13 S14 S15 S16 S17 S18 S19 S20 S21 S22]. simpl in *.
  injection S16 as E1 E2 E3. constructor; try by eapply or_old_kept.
  - congruence.
  - done.
  - rewrite S17. apply or_old_plain.
  - rewrite S18. apply or_old_plain.
  - rewrite S3. apply or_kept_kept.
  - rewrite S19. apply or_kept_kept.
  - rewrite S15. apply or_kept_kept.
  - rewrite <-S13. destruct (ui_WeightKg u); split; simpl; intros; congruence.
  - rewrite E1. apply flag_kept.
  - rewrite E2. apply flag_kept.
  - rewrite E3. apply flag_kept.
  - rewrite <-S14. destruct (ui_ImgURLs u); split; simpl; intros; congruence.
  - by rewrite S20.
Qed.

(** What an update that went through left. *)
Record updated (tenant id : uuid) (u : UpdateInput) (prices : DefaultPrices) (x x' : Catalogue) : Prop := {
  up_row : exists l1 r r' l2,
    ct_products x = (l1 ++ r :: l2)%list /\ ct_products x' = (l1 ++ r' :: l2)%list /\
    p_TenantID (cr_product r) = tenant /\ p_ID (cr_product r) = id /\ alive r = true /\ alive r' = true /\ rewritten u r r';
  up_skus : repriced tenant id prices x (ct_skus x');
  up_rest : ct_units x' = ct_units x /\ ct_categories x' = ct_categories x /\ ct_members x' = ct_members x;
}.

Lemma live_product_limits x l tenant id : live_product (with_limits x l) tenant id = live_product x tenant id.
Proof. done. Qed.

Lemma UpdateProduct_Ok guard tenant id u s q s' : rows_wf (ex_rows s) -> UpdateProduct_Execute guard tenant id u s = (Ok q, s') ->
  p_ID q = id /\ exists l1 r r' l2,
    ct_products (ex_rows s) = (l1 ++ r :: l2)%list /\
    p_TenantID (cr_product r) = tenant /\ p_ID (cr_product r) = id /\ alive r = true /\ alive r' = true /\ rewritten u r r' /\
    ex_rows s' = with_products (with_limits (ex_rows s) (ct_limits (ex_rows s'))) (l1 ++ r' :: l2)%list.
Proof.
  intros W H. unfold UpdateProduct_Execute in H. mguard H as Ht.
  apply bind_Ok in H as (p & s1 & Hg%on_err_Ok & H). unfold ProductGetByID in Hg.
  apply bind_Ok in Hg as (o & s0 & (_ & -> & ->)%ext_query_Ok & [Hp <-]%of_option_Ok).
  destruct (live_product (ex_rows s) tenant id) as [r|] eqn:Er; [|done]. injection Hp as <-.
  apply bind_Ok in H as (u1 & s2 & Hc & H).
  assert (R2 : same_tables s s2).
  { destruct (match ui_Enabled u with Some true => _ | _ => _ end).
    - exact (keeps_run _ _ _ _ _ (same_plan _ _ _ _) Hc).
    - apply ret_Ok in Hc as [_ <-]. split; [by destruct (ex_rows s)|done]. }
  clear Hc. apply bind_Ok in H as (u2 & s3 & Hs & H).
  assert (s3 = s2) as ->.
  { destruct (String.eqb _ _); [|apply on_err_Ok in Hs]; [by apply ret_Ok in Hs as [_ <-]|by apply of_sum_Ok in Hs as [_ <-]]. }
  apply bind_Ok in H as (attrs & s3 & Ha & H).
  assert (Hm : merged (p_Attributes (cr_product r)) (ui_Attributes u) attrs /\ s3 = s2).
  { destruct (ui_Attributes u); simpl; [apply on_err_Ok in Ha|]; 
      [apply of_sum_Ok in Ha as [? <-]; by split; [apply mergeAttributes_merged|]|by apply ret_Ok in Ha as [<- <-]]. }
  destruct Hm as [Hm ->].
  apply bind_Ok in H as (now & s3 & (w & (-> & ->)%time_now_Ok & ->)%lift_Ok & H).
  apply bind_Ok in H as (u3 & s4 & H & [<- <-]%ret_Ok). apply on_err_Ok in H. unfold ProductUpdate in H.
  apply bind_Ok in H as (n & s5 & (x & E & ->)%cat_statement_Ok & H). apply guard_err_Ok in H as [Hn <-]. destruct n; [|done].
  simpl in E. destruct R2 as [Rx Rd]. rewrite Rx in E. unfold product_update, mbind, sum_bind in E. rewrite live_product_limits in E.
  assert (Hid : is_product tenant id r = true /\ alive r = true) by (apply find_some in Er as [_ Er]; by apply andb_true_iff in Er).
  assert (E1 : p_TenantID (cr_product r) = tenant /\ p_ID (cr_product r) = id).
  { destruct Hid as [Hid _]. unfold is_product in Hid. apply andb_true_iff in Hid as [A%N.eqb_eq B%N.eqb_eq]. done. }
  destruct E1 as [E1 E2]. simpl in E. rewrite E1, E2, Er in E.
  apply sum_bind_inr in E as (r' & (S & D & _)%stored_inv & E). injection E as <-.
  destruct (update_found (ex_rows s) tenant id (fun q => is_product tenant id q && alive q) r (fun _ => r') W) with (2 := Er) as (l1 & l2 & El & _ & Em).
  { by intros q [? _]%andb_true_iff. }
  assert (F : fits (cr_product r)).
  { pose proof (rw_fits _ W) as F. rewrite Forall_forall in F. apply F. rewrite El. apply elem_of_app. right. by left. }
  split; [exact E2|]. exists l1, r, r', l2. split_and!; [done|done|done|apply Hid|unfold alive; by rewrite D|by eapply updated_rewritten|].
  simpl. simpl in Em. by rewrite Em.
Qed.

Lemma update_goes guard tenant id u pi s p s' : rows_wf (ex_rows s) -> UpdateProduct_ExecuteWithPrices guard tenant id u pi s = (Ok p, s') ->
  exists prices, parsePrices true pi = inr prices /\ updated tenant id u prices (ex_rows s) (ex_rows s').
Proof.
  intros W H. unfold UpdateProduct_ExecuteWithPrices in H. apply bind_Ok in H as (prices & s0 & [Ep <-]%of_sum_Ok & H). exists prices. split; [done|].
  apply InTx_Ok in H as (s1 & H & ->). apply bind_Ok in H as (q & s2 & Hu & H).
  apply UpdateProduct_Ok in Hu as (Eq & l1 & o & r' & l2 & E1 & Ht & Hid & Ha & Ha' & Hm & Ex); [|done].
  apply bind_Ok in H as (u1 & s3 & Hs & [-> <-]%ret_Ok). simpl in Ex.
  assert (Hk : repriced tenant id prices (ex_rows s) (ct_skus (ex_rows s3)) /\ ex_rows s3 = with_skus (ex_rows s2) (ct_skus (ex_rows s3))).
  { destruct (negb (IsEmpty prices)) eqn:He.
    - apply on_err_Ok, upsert_effect in Hs as [Hr Hx]; [|rewrite Ex; apply W]. rewrite Eq, Ex in Hr. split; [exact Hr|done].
    - apply ret_Ok in Hs as [_ <-]. apply negb_false_iff, IsEmpty_true in He. split; [|by rewrite Ex]. by rewrite Ex. }
  destruct Hk as [Hr Hx]. constructor; simpl; [|done|by rewrite Hx, Ex].
  exists l1, o, r', l2. split_and!; try done. by rewrite Hx, Ex.
Qed.
Lemma update_fails guard tenant id u pi s r s' : UpdateProduct_ExecuteWithPrices guard tenant id u pi s = (r, s') -> (forall p, r <> Ok p) -> same_tables s s'.
Proof.
  intros H Hr. unfold UpdateProduct_ExecuteWithPrices in H. apply bind_fails in H as [(r0 & H & _)|(prices & s0 & [_ <-]%of_sum_Ok & H)];
    [eapply keeps_run; [|exact H]; apply keeps_of_sum; tc_solve| |done]. by eapply same_InTx.
Qed.

(** C32: An update that goes through rewrites one live row of the tenant, field by field: what was sent is
    stored, its code, its creation time and what was not sent stay (images not sent are written back
    as they were read), and the attributes are merged key by key, a key that was not sent kept, one
    sent to be cleared gone.  Of the SKUs only the product's default one changes, in the prices the
    form gave; a product without one gets it.  An update that fails leaves every table as it was,
    prices included. *)
Theorem update_effect (guard : option Mode) (tenant id : uuid) (u : UpdateInput) (pi : PriceInput) (s : Ext Catalogue) r s' :
  catalogue_wf s -> UpdateProduct_ExecuteWithPrices guard tenant id u pi s = (r, s') ->
  (forall p, r = Ok p -> exists prices, prices_sent true pi prices /\ updated tenant id u prices (ex_rows s) (ex_rows s')) /\
  ((forall p, r <> Ok p) -> same_tables s s').
Proof.
  intros [W _] H. split; [|by eapply update_fails]. intros p ->. apply update_goes in H as (prices & E & U); [|done].
  exists prices. split; [by apply parsePrices_sent|done].
Qed.

(** *** Prices of people who do not see costs *)

(** The purchase prices of the SKUs there were, and none for a SKU there was not. *)
Definition purchases_kept (x x' : Catalogue) : Prop :=
  exists l, (fun k => (cs_id k, cs_purchase k)) <$> ct_skus x' = (((fun k => (cs_id k, cs_purchase k)) <$> ct_skus x) ++ l)%list /\
    Forall (fun e => e.2 = dzero) l.

Lemma repriced_purchases tenant id p x skus : dp_Purchase p = None -> repriced tenant id p x skus ->
  purchases_kept x (with_skus x skus).
Proof.
  intros Hp [H1 H2]. unfold purchases_kept. simpl. destruct (IsEmpty p) eqn:He.
  { apply IsEmpty_true in He. rewrite (H1 He). exists []. by rewrite app_nil_r. }
  apply IsEmpty_false in He. specialize (H2 He). clear H1. destruct (default_sku x tenant id) as [d|].
  - exists []. rewrite app_nil_r. split; [|done]. induction H2 as [|k k' l l' [Hd Ho] _ IH]; [done|]. rewrite !fmap_cons, IH. f_equal.
    destruct (decide (cs_id k = cs_id d)) as [E|E]; [|by rewrite Ho]. destruct (Hd E) as [[= Ei _ _] _ _ _ [Hk _]]. by rewrite Ei, Hk.
  - destruct H2 as (k & Hk & ->). exists [(cs_id k, cs_purchase k)]. split; [by rewrite fmap_app|]. constructor; [|done].
    destruct Hk as (_ & _ & _ & _ & _ & _ & _ & [Hg _]). by apply Hg.
Qed.

Lemma no_purchase b i p : parsePrices b (mkPriceInput (pi_Retail i) (pi_Wholesale i) None) = inr p -> dp_Purchase p = None.
Proof.
  unfold parsePrices. simpl. destruct (parseOnePrice (pi_Retail i) _ _); [done|]. destruct (parseOnePrice (pi_Wholesale i) _ _); [done|].
  by intros [= <-].
Qed.
Lemma same_purchases s s' : same_tables s s' -> purchases_kept (ex_rows s) (ex_rows s').
Proof. intros [-> _]. exists []. by rewrite app_nil_r. Qed.

(** C33: Saving a product never lets a person without cost.view touch a purchase price: every SKU keeps
    the one it has, and a SKU their save creates has none. *)
Theorem clerk_keeps_purchase_price (guard : option Mode) (c : Ctx) (s s' : Ext Catalogue) :
  catalogue_wf s -> CanViewCost c = false ->
  (exists id u pi r, handler_Update guard c id u pi s = (r, s')) \/ (exists i pi r, handler_Create guard c i pi s = (r, s')) ->
  purchases_kept (ex_rows s) (ex_rows s').
Proof.
  intros W Hc [(id & u & pi & r & H)|(i & pi & r & H)]; unfold handler_Update, handler_Create, purchaseInput in H; rewrite Hc in H;
    (destruct (ok_or_not r) as [[p ->]|Hr]; [|apply same_purchases]).
  - apply update_goes in H as (prices & Ep & [_ Us _]); [|apply W].
    apply no_purchase in Ep. eapply repriced_purchases in Us; [|done]. exact Us.
  - by eapply update_fails.
  - apply create_goes in H as (prices & Ep & [_ _ Hno Hs _]); [|apply W].
    apply no_purchase in Ep. unfold purchases_kept. destruct (IsEmpty prices) eqn:He.
    { apply IsEmpty_true in He. exists []. by rewrite Hno, app_nil_r. }
    apply IsEmpty_false in He. destruct (Hs He) as (k & Hk & ->). exists [(cs_id k, cs_purchase k)]. split; [by rewrite fmap_app|]. constructor; [|done].
    destruct Hk as (_ & _ & _ & _ & _ & _ & _ & [Hg _]). by apply Hg.
  - by eapply create_fails.
Qed.

(** ** The plan's limit *)

Lemma used_skus d x tenant : ps_used d x tenant KeyMaxSKUs =
  Z.of_nat (length (List.filter (fun r => N.eqb (p_TenantID (cr_product r)) tenant && alive r && p_Enabled (cr_product r)) (ct_products x))).
Proof. done. Qed.

(** What a guard that let one more through knew: the limit the service answered. *)
Lemma plan_check_Ok tenant key delta s u s' : (0 < delta)%Z -> tenant <> uuid_nil ->
  plan_check (Some ModeEnforce) tenant key delta s = (Ok u, s') ->
  exists limit s1, Limit tenant key s = (Ok limit, s1) /\
    ((limit < 0)%Z \/ (exists e s2, used tenant key s1 = (Err e, s2)) \/
     (ps_used (w_db (ex_shop s)) (ex_rows s) tenant key + delta <= limit)%Z).
Proof.
  intros Hd Ht H. unfold plan_check in H. apply bind_Ok in H as (o & s1 & H & Ho). destruct o as [e|]; [done|].
  by eapply check_admits.
Qed.


Definition counted (tenant : uuid) (r : CatalogueRow) : bool := N.eqb (p_TenantID (cr_product r)) tenant && alive r && p_Enabled (cr_product r).
Lemma used_rows d x tenant : ps_used d x tenant KeyMaxSKUs = Z.of_nat (length (List.filter (counted tenant) (ct_products x))).
Proof. done. Qed.

(** C34: Under an enforced plan a create goes through for one of three reasons only: the limit the plan
    gives at that moment is unlimited, the products could not be counted just then (the guard then
    stands aside, as its comment says), or the tenant's live, enabled products, the new one with
    them, stay within the limit.  When the database answers and the plan has a limit, the limit holds. *)
Theorem sku_limit_holds (i : CreateInput) (pi : PriceInput) (s : Ext Catalogue) p s' :
  catalogue_wf s -> CreateProduct_ExecuteWithPrices (Some ModeEnforce) false i pi s = (Ok p, s') ->
  exists limit s1, Limit (ci_TenantID i) KeyMaxSKUs s = (Ok limit, s1) /\
    ((limit < 0)%Z \/ (exists e s2, used (ci_TenantID i) KeyMaxSKUs s1 = (Err e, s2)) \/
     (ps_used (w_db (ex_shop s')) (ex_rows s') (ci_TenantID i) KeyMaxSKUs <= limit)%Z).
Proof.
  intros W H. pose proof (create_goes _ _ _ _ _ _ (cw_rows _ W) H) as (prices & _ & [_ (r & code & _ & _ & _ & _ & Er) _ _ _]).
  unfold CreateProduct_ExecuteWithPrices in H. apply bind_Ok in H as (pr & s0 & [_ <-]%of_sum_Ok & H).
  unfold create in H. mguard H as Ht. mguard H as Hn. apply bind_Ok in H as (u & s1 & Hp & _).
  apply plan_check_Ok in Hp as (limit & s2 & L & Hl); [|done|by apply N.eqb_neq].
  exists limit, s2. split; [done|]. destruct Hl as [Hl|[Hl|Hl]]; [by left|by right; left|right; right]. rewrite used_rows in *.
  rewrite Er, List.filter_app, length_app. pose proof (List.filter_length_le (counted (ci_TenantID i)) [r]) as Hle. simpl in Hle |- *. lia.
Qed.
(** ** A price action over many products *)

(** The default SKUs the action is for, in the order the query gives them. *)
Definition actioned (x : Catalogue) (tenant : uuid) (ids : list uuid) : list CatalogueSku :=
  omap (default_sku x tenant) (sql_order Z.of_N (remove_dups ids)).
Definition repriced_by (action : string) (ids : list uuid) (k k' : CatalogueSku) : Prop :=
  if bool_decide (cs_id k ∈ ids)
  then exists price retail now, ApplyAction (cs_retail k) action = inr price /\ num_18_6 price = inr retail /\
         k' = price_sku (cs_purchase k) retail (cs_wholesale k) now k
  else k' = k.

Lemma repriced_none action l : Forall2 (repriced_by action []) l l.
Proof. apply Forall2_same_length_lookup. split; [done|]. intros i k k' Hk Hk'. unfold repriced_by. simpl. congruence. Qed.

Lemma repriced_one action k0 ids l now retail price : NoDup (cs_id <$> l) -> k0 ∈ l -> cs_id k0 ∉ ids ->
  ApplyAction (cs_retail k0) action = inr price -> num_18_6 price = inr retail ->
  forall l', Forall2 (repriced_by action ids) (update_sku (price_sku (cs_purchase k0) retail (cs_wholesale k0) now) (cs_id k0) l) l' ->
  Forall2 (repriced_by action (cs_id k0 :: ids)) l l'.
Proof.
  intros Hn Hk Hni Ha Hr l' H. unfold update_sku in H. apply Forall2_same_length_lookup in H as [Hl H].
  rewrite length_map in Hl. apply Forall2_same_length_lookup. split; [done|]. intros i k k' Hi Hi'.
  specialize (H i _ k' ltac:(rewrite list_lookup_fmap, Hi; reflexivity) Hi').
  apply list_elem_of_lookup_2 in Hi. unfold repriced_by in *.
  destruct (N.eqb_spec (cs_id k) (cs_id k0)) as [E|E].
  - assert (k = k0) as -> by (by eapply (NoDup_key cs_id)). simpl in H.
    rewrite bool_decide_false in H by done. rewrite bool_decide_true by (by left). subst k'. by exists price, retail, now.
  - destruct (decide (cs_id k ∈ ids)).
    + rewrite bool_decide_true in H by done. by rewrite bool_decide_true by (by right).
    + rewrite bool_decide_false in H by done. rewrite bool_decide_false; [done|]. by intros [?|?]%elem_of_cons.
Qed.

Lemma update_sku_ids f id l : (forall k, cs_id (f k) = cs_id k) -> cs_id <$> update_sku f id l = cs_id <$> l.
Proof.
  intros Hf. unfold update_sku. rewrite <-list_fmap_compose. apply list_fmap_ext. intros i k _. simpl. by destruct (N.eqb _ _).
Qed.
Lemma update_sku_other f id l k : k ∈ l -> cs_id k <> id -> k ∈ update_sku f id l.
Proof. intros Hk n. apply list_elem_of_fmap. exists k. split; [|done]. by apply N.eqb_neq in n as ->. Qed.

Lemma with_skus_same x : with_skus x (ct_skus x) = x.
Proof. by destruct x. Qed.

Lemma update_prices_effect tenant action ks m s m' o s' : NoDup (cs_id <$> ct_skus (ex_rows s)) -> NoDup (cs_id <$> ks) ->
  Forall (fun k => k ∈ ct_skus (ex_rows s)) ks ->
  update_prices tenant action (sku_view <$> ks) m s = (Ok (m', o), s') ->
  exists n l', m' = (m + Z.of_nat n)%Z /\ (n <= length ks)%nat /\ (o = None -> n = length ks) /\
    ex_rows s' = with_skus (ex_rows s) l' /\ Forall2 (repriced_by action (cs_id <$> take n ks)) (ct_skus (ex_rows s)) l'.
Proof.
  revert m s. induction ks as [|k ks IH]; intros m s Hn Hd Hin H; simpl in H.
  { injection H as <- <- <-. exists 0%nat, (ct_skus (ex_rows s)). rewrite with_skus_same. split_and!; [lia|done..|apply repriced_none]. }
  assert (Hstop : forall s1 : Ext Catalogue, ex_rows s1 = ex_rows s -> exists n l', m = (m + Z.of_nat n)%Z /\ (n <= length (k :: ks))%nat /\
    ex_rows s1 = with_skus (ex_rows s) l' /\ Forall2 (repriced_by action (cs_id <$> take n (k :: ks))) (ct_skus (ex_rows s)) l').
  { intros s1 ->. exists 0%nat, (ct_skus (ex_rows s)). rewrite with_skus_same. split_and!; [lia|simpl; lia|done|apply repriced_none]. }
  destruct (ApplyAction (cs_retail k) action) as [e|price] eqn:Ea.
  { injection H as <- <- <-. destruct (Hstop s eq_refl) as (n & l' & ? & ? & ? & ?). exists n, l'. by split_and!. }
  apply bind_Ok in H as (r & s1 & Hr%try_Ok & H). unfold UpdateRetailPrice in Hr. destruct r as [e|u].
  - injection H as <- <- <-. destruct (Hstop s1) as (n & l' & ? & ? & ? & ?); [|exists n, l'; by split_and!].
    apply bind_Err in Hr as [Hr|(now & s2 & (w & (-> & ->)%time_now_Ok & ->)%lift_Ok & Hr)]; [done|].
    apply bind_Err in Hr as [Hr|(b & s3 & (x & E & ->)%cat_statement_Ok & Hr)].
    + unfold cat_statement in Hr. destruct (db_fault _); [by injection Hr as _ <-|]. destruct (sku_retail _ _ _ _ _) as [|[? ?]]; [by injection Hr as _ <-|done].
    + destruct b; [done|]. injection Hr as _ <-. simpl in *. unfold sku_retail, mbind, sum_bind in E.
      destruct (List.find _ _) as [k'|]; [by destruct (num_18_6 price)|]. by injection E as <-.
  - apply bind_Ok in Hr as (now & s2 & (w & (-> & ->)%time_now_Ok & ->)%lift_Ok & Hr).
    apply bind_Ok in Hr as (b & s3 & (x & E & ->)%cat_statement_Ok & [Hb <-]%guard_err_Ok). destruct b; [|done]. simpl in *.
    unfold sku_retail, mbind, sum_bind in E. destruct (List.find _ _) as [k'|] eqn:Ef; [|done].
    apply sum_bind_inr in E as (retail & Hretail & E). injection E as <-.
    apply find_some in Ef as [Hk' Hid%andb_true_iff]. destruct Hid as [[Hid%N.eqb_eq _]%andb_true_iff _]. apply list_elem_of_In in Hk'.
    apply Forall_cons in Hin as [Hk Hin]. assert (k' = k) as -> by (by eapply (NoDup_key cs_id)).
    apply NoDup_cons in Hd as [Hni Hd].
    apply IH in H as (n & l' & -> & Hle & Ho & Hx & Hf); simpl in *; [|by rewrite update_sku_ids|done|].
    + exists (S n), l'. split_and!; [lia|lia|intros Hnone; by rewrite (Ho Hnone)|by rewrite Hx|].
      simpl. eapply repriced_one; [done|done| |done|done|exact Hf].
      intros Hin'. apply Hni. rewrite fmap_take in Hin'. apply list_elem_of_lookup in Hin' as [i Hi]. apply lookup_take_Some in Hi as [Hi _]. by apply list_elem_of_lookup_2 in Hi.
    + rewrite Forall_forall in Hin |- *. intros q Hq. apply update_sku_other; [by apply Hin|]. intros Eq. apply Hni. rewrite <-Eq. by apply list_elem_of_fmap_2.
Qed.

Lemma actioned_in x tenant ids k : k ∈ actioned x tenant ids -> k ∈ ct_skus x /\ cs_tenant k = tenant /\ cs_product k ∈ ids.
Proof.
  unfold actioned. intros (id & Hid & Hk%default_sku_in%skus_of_in)%list_elem_of_omap. destruct Hk as (Hk & <- & <- & _).
  rewrite sql_order_perm, elem_of_remove_dups in Hid. by split_and!.
Qed.
Lemma actioned_distinct x tenant ids : NoDup (cs_id <$> ct_skus x) -> NoDup (cs_id <$> actioned x tenant ids).
Proof.
  intros Hn. assert (Hl : NoDup (sql_order Z.of_N (remove_dups ids))) by (rewrite sql_order_perm; apply NoDup_remove_dups).
  unfold actioned. induction Hl as [|id l Hni _ IH]; [constructor|]. simpl. destruct (default_sku x tenant id) as [k|] eqn:Ek; [|done].
  simpl. constructor; [|done]. intros (q & E & (id' & Hid' & Hq)%list_elem_of_omap)%list_elem_of_fmap.
  apply default_sku_in, skus_of_in in Ek as (Hk & _ & Ep & _). apply default_sku_in, skus_of_in in Hq as (Hq & _ & Eq & _).
  assert (k = q) as -> by (by eapply (NoDup_key cs_id _ _ _ Hn)). apply Hni. by rewrite <-Ep, Eq.
Qed.

(** A price action moves the retail price of the default SKUs of the products it names, one after
    the other, each by the action and rounded to six digits, and nothing else in the catalogue; the
    number it reports is how many of them have moved, which is all of them unless it also reports an
    error, and then exactly the first ones. *)
Theorem price_action_effect (tenant : uuid) (ids : list uuid) (action : string) (s : Ext Catalogue) n o s' :
  catalogue_wf s -> UpdatePrice_Execute tenant ids action s = (Ok (n, o), s') ->
  exists moved l', n = Z.of_nat (length moved) /\ moved `prefix_of` actioned (ex_rows s) tenant ids /\
    (o = None -> moved = actioned (ex_rows s) tenant ids) /\
    ex_rows s' = with_skus (ex_rows s) l' /\ Forall2 (repriced_by action (cs_id <$> moved)) (ct_skus (ex_rows s)) l'.
Proof.
  intros [W _] H. unfold UpdatePrice_Execute in H.
  assert (Hnone : forall s1 : Ext Catalogue, ex_rows s1 = ex_rows s -> (o = None -> actioned (ex_rows s) tenant ids = []) -> exists moved l', 0%Z = Z.of_nat (length moved) /\ moved `prefix_of` actioned (ex_rows s) tenant ids /\
    (o = None -> moved = actioned (ex_rows s) tenant ids) /\
    ex_rows s1 = with_skus (ex_rows s) l' /\ Forall2 (repriced_by action (cs_id <$> moved)) (ct_skus (ex_rows s)) l').
  { intros s1 -> Ho. exists [], (ct_skus (ex_rows s)). rewrite with_skus_same.
    split_and!; [done|apply prefix_nil|intros E; by rewrite Ho|done|apply repriced_none]. }
  destruct (N.eqb _ _); [injection H as <- <- <-; by apply Hnone|]. destruct ids as [|id ids].
  { injection H as <- <- <-. apply Hnone; [done|]. intros _. unfold actioned. simpl.
    assert (sql_order Z.of_N ([] : list uuid) = []) as E0 by (apply Permutation_nil; symmetry; apply sql_order_perm). unfold uuid in *. by rewrite E0. }
  destruct (ApplyAction _ _) as [e|p]; [injection H as <- <- <-; by apply Hnone|].
  apply bind_Ok in H as (l & s1 & Hl%try_Ok & H). destruct l as [e|skus].
  { injection H as <- <- <-. apply Hnone; [|done]. unfold ListDefaultSKUs, ext_query, ext_statement in Hl. by destruct (db_fault _); injection Hl as _ <-. }
  apply ext_query_Ok in Hl as (_ & -> & ->).
  change (default_skus (ex_rows s) tenant (id :: ids)) with (sku_view <$> actioned (ex_rows s) tenant (id :: ids)) in H.
  apply update_prices_effect in H as (m & l' & -> & Hm & Ho & Hx & Hf); cbn [ex_rows] in *.
  - exists (take m (actioned (ex_rows s) tenant (id :: ids))), l'. split_and!; [|apply prefix_take| |done|done].
    + rewrite length_take, Nat.min_l; [lia|exact Hm].
    + intros E. apply take_ge. rewrite (Ho E). done.
  - apply W.
  - apply actioned_distinct, W.
  - apply Forall_forall. intros k Hk. by apply actioned_in in Hk as [Hk _].
Qed.
End effects.

(** The tea shop: the tea was created at 12, bought at 5. *)
Section example.
Definition ex_mug : CreateInput := mkCreateInput ex_tenant None "MUG" "Mug" "" "" "" "" "" "" None None false false "" [] "" "" None None.
Definition ex_rename : UpdateInput := mkUpdateInput None "Green tea" "" "" "" "" "" "" None None None None None "" [] "" "" None
  (Some (JObject [("barcode", JString "691")])).
Definition ex_mugged := CreateProduct_ExecuteWithPrices (Some ModeEnforce) false ex_mug ex_prices ex_stocked.
Definition ex_renamed := UpdateProduct_ExecuteWithPrices None ex_tenant ex_tea_id ex_rename ex_prices ex_stocked.
Definition ex_actioned := UpdatePrice_Execute ex_tenant [ex_tea_id; 7%N] "=9" ex_stocked.

Lemma create_effect_witness : exists p s', ex_mugged = (Ok p, s') /\ length (ct_products (ex_rows s')) = 2%nat /\
  exists prices, prices_sent false ex_prices prices /\ created ex_mug prices (ex_rows ex_stocked) p (ex_rows s').
Proof.
  destruct (ext_ok_run ex_mugged) as (p & s' & E); [vm_compute; reflexivity|]. exists p, s'. split; [done|]. split.
  - assert (length (ct_products (ex_rows ex_mugged.2)) = 2%nat) as H by (vm_compute; reflexivity). by rewrite E in H.
  - unfold ex_mugged in E. exact (proj1 (create_effect (Some ModeEnforce) ex_mug ex_prices ex_stocked (Ok p) s' ex_stocked_wf E) p eq_refl).
Defined.

Lemma update_effect_witness : exists p s', ex_renamed = (Ok p, s') /\
  exists prices, prices_sent true ex_prices prices /\ updated ex_tenant ex_tea_id ex_rename prices (ex_rows ex_stocked) (ex_rows s').
Proof.
  destruct (ext_ok_run ex_renamed) as (p & s' & E); [vm_compute; reflexivity|].
  exists p, s'. split; [done|].
  unfold ex_renamed in E. exact (proj1 (update_effect None ex_tenant ex_tea_id ex_rename ex_prices ex_stocked (Ok p) s' ex_stocked_wf E) p eq_refl).
Defined.

Lemma clerk_keeps_purchase_price_witness :
  let s' := (handler_Update None ex_clerk ex_tea_id ex_rename (mkPriceInput (Some "20") None (Some "1")) ex_stocked).2 in
  purchases_kept (ex_rows ex_stocked) (ex_rows s') /\
  (fun k => (Qred (val (cs_purchase k)), Qred (val (cs_retail k)))) <$> ct_skus (ex_rows s') = [(5 # 1, 20 # 1)].
Proof.
  intros s'. split; [|subst s'; vm_compute; reflexivity].
  apply (clerk_keeps_purchase_price None ex_clerk ex_stocked s' ex_stocked_wf); [reflexivity|]. left.
  eexists ex_tea_id, ex_rename, _, _. apply surjective_pairing.
Defined.

Lemma sku_limit_holds_witness : exists p s', ex_mugged = (Ok p, s') /\
  (ps_used (w_db (ex_shop s')) (ex_rows s') ex_tenant KeyMaxSKUs <= 2)%Z.
Proof.
  destruct (ext_ok_run ex_mugged) as (p & s' & E); [vm_compute; reflexivity|]. exists p, s'. split; [done|].
  pose proof E as E'. unfold ex_mugged in E'. destruct (sku_limit_holds ex_mug ex_prices ex_stocked p s' ex_stocked_wf E') as (limit & s1 & L & Hl).
  assert (limit = 2%Z) as ->.
  { assert ((Limit (ci_TenantID ex_mug) KeyMaxSKUs ex_stocked).1 = Ok 2%Z) as H by (vm_compute; reflexivity). rewrite L in H. by injection H. }
  destruct Hl as [Hl|[(e & s2 & U)|Hl]]; [lia| |exact Hl]. exfalso.
  assert ((used (ci_TenantID ex_mug) KeyMaxSKUs (Limit (ci_TenantID ex_mug) KeyMaxSKUs ex_stocked).2).1 = Ok 1%Z) as H by (vm_compute; reflexivity).
  rewrite L in H. cbn [snd] in H. by rewrite U in H.
Defined.

Lemma price_action_effect_witness : exists n o s', ex_actioned = (Ok (n, o), s') /\ n = 1%Z /\
  exists moved l', n = Z.of_nat (length moved) /\
    ex_rows s' = with_skus (ex_rows ex_stocked) l' /\ Forall2 (repriced_by "=9" (cs_id <$> moved)) (ct_skus (ex_rows ex_stocked)) l'.
Proof.
  destruct (ext_ok_run ex_actioned) as ([n o] & s' & E); [vm_compute; reflexivity|]. exists n, o, s'. split; [done|]. split.
  - assert (match ex_actioned.1 with Ok (n, _) => n | _ => 0%Z end = 1%Z) as H by (vm_compute; reflexivity). by rewrite E in H.
  - unfold ex_actioned in E. destruct (price_action_effect ex_tenant [ex_tea_id; 7%N] "=9" ex_stocked n o s' ex_stocked_wf E) as (moved & l' & ? & _ & _ & ? & ?).
    exists moved, l'. by split_and!.
Defined.
End example.
