(* ===== verification/InvoiceStore.v ===== *)
(** The invoice registry: src/internal/domain/invoice and src/internal/adapter/repo/invoice, over
    the tables of migration 000057.

    The tax invoice is issued elsewhere; the program records its number, its amounts and the
    approved bills it covers.  A red-letter invoice is a row of its own with negated amounts that
    points at the one it strikes. *)
From S2P Require Import Prelude GoStrings GoTime Rounding Decimal Types StockDomain BillDomain Store StockRepo BillRepo Ledger ExtStore Codegen Runes CatalogueStore.
From stdpp Require Import base tactics strings gmap list sorting.
From Stdlib Require Import ZArith Lia Ascii.

#[local] Open Scope string_scope.

(** ** Domain (domain/invoice) *)

(** Direction, Status, Types *)
Definition InvoiceOut : string := "out".
Definition InvoiceIn : string := "in".
Definition StatusIssued : string := "issued".
Definition StatusVoid : string := "void".
Definition StatusRed : string := "red".
Definition InvoiceTypes : list string := ["数电普票"; "数电专票"; "纸质普票"; "纸质专票"].
Definition maxNoRunes : Z := 64.
Definition maxCodeRunes : Z := 32.
Definition maxRemarkRunes : Z := 500.
Definition maxLinks : nat := 200.

(** ValidDirection, ValidStatus, validType *)
Definition ValidDirection (d : string) : bool := String.eqb d InvoiceIn || String.eqb d InvoiceOut.
Definition ValidStatus (s : string) : bool := String.eqb s StatusIssued || String.eqb s StatusVoid || String.eqb s StatusRed.
Definition validType (t : string) : bool := existsb (String.eqb t) InvoiceTypes.

(** The message of the first test that says so. *)
Definition first_failing (l : list (bool * string)) : option string := snd <$> List.find fst l.

Section invoices.
Context {ops : DecimalOps} {env : Env} {pg : PgText}.

(** Link, Invoice *)
Record Link := mkLink { lk_BillID : uuid; lk_BillNo : string; lk_Amount : dec }.
Record Invoice := mkInvoice {
  in_ID : uuid; in_TenantID : uuid; in_Direction : string; in_InvoiceNo : string; in_InvoiceCode : string; in_InvoiceType : string;
  in_PartnerID : uuid; in_IssueDate : time; in_AmountExclTax : dec; in_TaxAmount : dec; in_TotalAmount : dec; in_Status : string;
  in_RedOfID : option uuid; in_Remark : string; in_CreatedBy : option uuid; in_CreatedAt : time; in_UpdatedAt : time;
  in_PartnerName : string; in_Links : list Link }.
(** CreateInput *)
Record InvoiceInput := mkInvoiceInput {
  ii_TenantID : uuid; ii_Direction : string; ii_InvoiceNo : string; ii_InvoiceCode : string; ii_InvoiceType : string; ii_PartnerID : uuid;
  ii_IssueDate : time; ii_AmountExclTax : dec; ii_TaxAmount : dec; ii_Remark : string; ii_CreatedBy : option uuid; ii_Links : list Link }.

(** fitsNumeric *)
Definition fitsNumeric (d : dec) : bool := deqb d (dround 4 d) && dlt (dabs d) (dint (10 ^ 14)).

(** validateLinks: the loop, with the bills it has seen and their sum so far *)
Fixpoint link_sum (seen : list uuid) (sum : dec) (links : list Link) : string + dec :=
  match links with
  | [] => inr sum
  | l :: rest =>
      match first_failing [
        (N.eqb (lk_BillID l) uuid_nil, "请选择要关联的单据");
        (bool_decide (lk_BillID l ∈ seen), "同一张单据不能重复关联");
        (negb (is_positive (lk_Amount l)), "关联金额必须大于 0");
        (negb (fitsNumeric (lk_Amount l)), "关联金额最多保留 4 位小数")] with
      | Some e => inl e
      | None => link_sum (lk_BillID l :: seen) (dadd sum (lk_Amount l)) rest
      end
  end.
Definition validateLinks (links : list Link) (total : dec) (red : bool) : option string :=
  if red then match links with [] => None | _ => Some "红字发票不能直接关联单据" end
  else if Nat.ltb maxLinks (length links) then Some "关联的单据太多，最多 200 张"
  else match link_sum [] dzero links with
       | inl e => Some e
       | inr sum => if dgt sum total then Some "关联金额合计不能超过发票的价税合计" else None
       end.

(** Validate: the message of the first invariant that does not hold *)
Definition Validate (i : Invoice) : option string :=
  let no := trim_space (in_InvoiceNo i) in
  let original := is_none (in_RedOfID i) in
  match first_failing [
    (negb (ValidDirection (in_Direction i)), "发票方向不正确，应为销项或进项");
    (String.eqb no "", "请填写发票号码");
    (Z.ltb maxNoRunes (RuneCount no), "发票号码太长，最多 64 个字符");
    (Z.ltb maxCodeRunes (RuneCount (in_InvoiceCode i)), "发票代码太长，最多 32 个字符");
    (negb (validType (in_InvoiceType i)), "发票类型不正确");
    (N.eqb (in_PartnerID i) uuid_nil, "请选择往来单位");
    (Z.eqb (in_IssueDate i) 0, "请填写开票日期");
    (Z.ltb maxRemarkRunes (RuneCount (in_Remark i)), "备注太长，最多 500 个字");
    (negb (forallb fitsNumeric [in_AmountExclTax i; in_TaxAmount i; in_TotalAmount i]), "金额最多保留 4 位小数，且不能过大");
    (original && negb (is_positive (in_AmountExclTax i)), "不含税金额必须大于 0");
    (original && is_negative (in_TaxAmount i), "税额不能为负数");
    (negb (deqb (dadd (in_AmountExclTax i) (in_TaxAmount i)) (in_TotalAmount i)), "价税合计必须等于不含税金额加税额")] with
  | Some e => Some e
  | None => validateLinks (in_Links i) (in_TotalAmount i) (negb original)
  end.
Definition validated (i : Invoice) : string + Invoice := match Validate i with Some e => inl e | None => inr i end.

(** NewInvoice, NewRed; [id] is what uuid.New gives *)
Definition NewInvoice (i : InvoiceInput) (id : uuid) (now : time) : string + Invoice :=
  validated (mkInvoice id (ii_TenantID i) (ii_Direction i) (trim_space (ii_InvoiceNo i)) (trim_space (ii_InvoiceCode i)) (ii_InvoiceType i)
    (ii_PartnerID i) (ii_IssueDate i) (ii_AmountExclTax i) (ii_TaxAmount i) (dadd (ii_AmountExclTax i) (ii_TaxAmount i)) StatusIssued None
    (ii_Remark i) (ii_CreatedBy i) now now "" (ii_Links i)).
Definition NewRed (o : Invoice) (no code : string) (issue : time) (remark : string) (by_ : option uuid) (id : uuid) (now : time) : string + Invoice :=
  validated (mkInvoice id (in_TenantID o) (in_Direction o) (trim_space no) (trim_space code) (in_InvoiceType o)
    (in_PartnerID o) issue (dneg (in_AmountExclTax o)) (dneg (in_TaxAmount o)) (dneg (in_TotalAmount o)) StatusIssued (Some (in_ID o))
    remark by_ now now "" []).

(** CanVoid, CanRed *)
Definition CanVoid (i : Invoice) : option string := first_failing [
  (negb (is_none (in_RedOfID i)), "红字发票不能作废");
  (String.eqb (in_Status i) StatusVoid, "这张发票已经作废");
  (String.eqb (in_Status i) StatusRed, "这张发票已被红字发票冲销，不能作废")].
Definition CanRed (i : Invoice) : option string := first_failing [
  (negb (is_none (in_RedOfID i)), "红字发票不能再次红冲");
  (String.eqb (in_Status i) StatusVoid, "已作废的发票不能红冲");
  (String.eqb (in_Status i) StatusRed, "这张发票已经红冲过了")].

(** ** The tables *)

(** A row of tally.invoice: the invoice without what is only read beside it. *)
Record InvoiceRow := mkInvoiceRow { iw_invoice : Invoice; iw_deleted : bool }.
(** A row of tally.invoice_bill *)
Record LinkRow := mkLinkRow { lr_invoice : uuid; lr_bill : uuid; lr_tenant : uuid; lr_amount : dec }.
Record Invoices := mkInvoices { is_rows : list InvoiceRow; is_links : list LinkRow }.

Abbreviation IM := (XM (X:=Invoices)).

(** Repo.WithTx *)
Definition InvoiceTx {A} (body : IM A) : IM A := ext_tx "invoice repo" body.

(** PartnerName *)
Definition PartnerName (tenant partner : uuid) : IM string :=
  r ← lift (query "invoice repo: partner name" (fun d =>
        List.find (fun p => N.eqb (pt_id p) partner && N.eqb (pt_tenant p) tenant && negb (pt_deleted p)) (db_partners d)));
  of_option (ESentinel ErrInvoiceNotFound) (pt_name <$> r).

(** BillRef *)
Record BillRef := mkBillRef {
  br_ID : uuid; br_BillNo : string; br_SubType : BillSubType; br_Status : BillStatus; br_PartnerID : option uuid;
  br_TotalAmount : dec; br_Currency : string; br_Invoiced : dec }.
Definition bill_ref (h : BillHead) : BillRef :=
  mkBillRef (bh_id h) (bh_bill_no h) (bh_sub_type h) (bh_status h) (bh_partner h) (bh_total h) (bh_currency h) dzero.
Definition locked_bills (tenant : uuid) (ids : list uuid) (d : DB) : gmap uuid BillRef :=
  map_imap (fun id r => if N.eqb (bh_tenant (hr_head r)) tenant && negb (hr_deleted r) && bool_decide (id ∈ ids)
                        then Some (bill_ref (hr_head r)) else None) (db_heads d).
(** The row of rsum for a sale, if it has one. *)
Definition returns_sum (tenant : uuid) (d : DB) (sale : uuid) : option dec :=
  match select (fun r => approved_return tenant BillSubTypeSaleReturn r && bool_decide (return_sale_of d r = Some sale))
          (snd <$> map_to_list (db_heads d)) with
  | [] => None
  | l => Some (dsum_from dzero ((fun r => bh_total (hr_head r)) <$> l))
  end.
Definition net_of_returns (returns : gmap uuid dec) (id : uuid) (b : BillRef) : option BillRef :=
  Some (match returns !! id with
        | Some v => mkBillRef (br_ID b) (br_BillNo b) (br_SubType b) (br_Status b) (br_PartnerID b)
                      (dmax (dsub (br_TotalAmount b) v) dzero) (br_Currency b) (br_Invoiced b)
        | None => b
        end).
(** SUM(ib.amount) over the links of a bill whose invoice is issued *)
Definition issued_row (x : Invoices) (l : LinkRow) : bool :=
  existsb (fun r => N.eqb (in_ID (iw_invoice r)) (lr_invoice l) && String.eqb (in_Status (iw_invoice r)) StatusIssued && negb (iw_deleted r))
    (is_rows x).
Definition invoiced_sum (tenant : uuid) (x : Invoices) (bill : uuid) : option dec :=
  match select (fun l => N.eqb (lr_tenant l) tenant && N.eqb (lr_bill l) bill && issued_row x l) (is_links x) with
  | [] => None
  | l => Some (dsum_from dzero (lr_amount <$> l))
  end.
Definition with_sum (sums : gmap uuid dec) (id : uuid) (b : BillRef) : option BillRef :=
  Some (match sums !! id with
        | Some v => mkBillRef (br_ID b) (br_BillNo b) (br_SubType b) (br_Status b) (br_PartnerID b) (br_TotalAmount b) (br_Currency b) v
        | None => b
        end).
(** LockBills *)
Definition LockBills (tenant : uuid) (ids : list uuid) : IM (gmap uuid BillRef) :=
  heads ← lift (query "invoice repo: lock bills" (locked_bills tenant ids));
  returns ← lift (query "invoice repo: sale returns" (fun d => map_imap (fun id _ => returns_sum tenant d id) heads));
  let net := map_imap (net_of_returns returns) heads in
  sums ← ext_query "invoice repo: invoiced amounts" (fun x => map_imap (fun id _ => invoiced_sum tenant x id) net);
  mret (map_imap (with_sum sums) net).

(** Insert *)
Definition num_18_4 (d : dec) : error + dec :=
  let r := dround 4 d in if dlt (dabs r) (dint (10 ^ 14)) then inr r else inl (EConstraint "numeric field overflow").
(** A date column keeps the calendar day, read back as its midnight; an issue date is a time in UTC
    (parseDate in handler/invoice/handler.go makes it the midnight of the day that was entered). *)
Definition date_of (t : time) : time := (day_number t * (24 * hour))%Z.
Definition stored_invoice (i : Invoice) (no code type : string) (excl tax total : dec) : Invoice :=
  mkInvoice (in_ID i) (in_TenantID i) (in_Direction i) no code type (in_PartnerID i) (date_of (in_IssueDate i)) excl tax total
    (in_Status i) (in_RedOfID i) (in_Remark i) (in_CreatedBy i) (in_CreatedAt i) (in_UpdatedAt i) "" [].
Definition number_taken (x : Invoices) (i : Invoice) (no : string) : bool :=
  existsb (fun r => negb (iw_deleted r) && N.eqb (in_TenantID (iw_invoice r)) (in_TenantID i)
                    && String.eqb (in_Direction (iw_invoice r)) (in_Direction i) && String.eqb (in_InvoiceNo (iw_invoice r)) no) (is_rows x).
Definition invoice_insert (i : Invoice) (d : DB) (x : Invoices) : error + (unit * Invoices) :=
  no ← limit_to 64 "invoice_no" (in_InvoiceNo i);
  code ← limit_to 32 "invoice_code" (in_InvoiceCode i);
  type ← limit_to 32 "invoice_type" (in_InvoiceType i);
  excl ← num_18_4 (in_AmountExclTax i);
  tax ← num_18_4 (in_TaxAmount i);
  total ← num_18_4 (in_TotalAmount i);
  _ ← require (ValidDirection (in_Direction i)) (EConstraint "invoice_direction_check");
  _ ← require (ValidStatus (in_Status i)) (EConstraint "invoice_status_check");
  _ ← require (negb (existsb (fun r => N.eqb (in_ID (iw_invoice r)) (in_ID i)) (is_rows x))) (EConstraint "invoice_pkey");
  _ ← require (negb (number_taken x i no)) (EConstraint "idx_invoice_no");
  _ ← require (existsb (fun p => N.eqb (pt_id p) (in_PartnerID i)) (db_partners d)) (EConstraint "invoice_partner_id_fkey");
  _ ← require (match in_RedOfID i with Some o => existsb (fun r => N.eqb (in_ID (iw_invoice r)) o) (is_rows x) | None => true end)
        (EConstraint "invoice_red_of_id_fkey");
  mret (tt, mkInvoices (is_rows x ++ [mkInvoiceRow (stored_invoice i no code type excl tax total) false])%list (is_links x)).
Definition link_insert (i : Invoice) (l : Link) (d : DB) (x : Invoices) : error + (unit * Invoices) :=
  amount ← num_18_4 (lk_Amount l);
  _ ← require (is_positive amount) (EConstraint "invoice_bill_amount_check");
  _ ← require (negb (existsb (fun q => N.eqb (lr_invoice q) (in_ID i) && N.eqb (lr_bill q) (lk_BillID l)) (is_links x)))
        (EConstraint "invoice_bill_pkey");
  _ ← require (existsb (fun r => N.eqb (in_ID (iw_invoice r)) (in_ID i)) (is_rows x)) (EConstraint "invoice_bill_invoice_id_fkey");
  _ ← require (bool_decide (is_Some (db_heads d !! lk_BillID l))) (EConstraint "invoice_bill_bill_id_fkey");
  mret (tt, mkInvoices (is_rows x) (is_links x ++ [mkLinkRow (in_ID i) (lk_BillID l) (in_TenantID i) amount])%list).
Definition insert_error (e : error) : error := if IsUniqueViolation e then ESentinel ErrDuplicateNo else e.
Definition InvoiceInsert (i : Invoice) : IM unit :=
  on_err insert_error (at_state (fun s => ext_statement "invoice repo: insert" (invoice_insert i (w_db (ex_shop s)))));;
  mapM_ (fun l => at_state (fun s => ext_statement "invoice repo: insert link" (link_insert i l (w_db (ex_shop s))))) (in_Links i).

(** GetForUpdate, GetByID: the head with the partner's name *)
Definition with_partner_name (d : DB) (i : Invoice) : Invoice :=
  mkInvoice (in_ID i) (in_TenantID i) (in_Direction i) (in_InvoiceNo i) (in_InvoiceCode i) (in_InvoiceType i) (in_PartnerID i) (in_IssueDate i)
    (in_AmountExclTax i) (in_TaxAmount i) (in_TotalAmount i) (in_Status i) (in_RedOfID i) (in_Remark i) (in_CreatedBy i) (in_CreatedAt i)
    (in_UpdatedAt i)
    (default "" (pt_name <$> List.find (fun p => N.eqb (pt_id p) (in_PartnerID i) && N.eqb (pt_tenant p) (in_TenantID i)) (db_partners d)))
    (in_Links i).
Definition is_invoice (tenant id : uuid) (r : InvoiceRow) : bool :=
  N.eqb (in_ID (iw_invoice r)) id && N.eqb (in_TenantID (iw_invoice r)) tenant && negb (iw_deleted r).
Definition find_invoice (tenant id : uuid) (d : DB) (x : Invoices) : option Invoice :=
  (fun r => with_partner_name d (iw_invoice r)) <$> List.find (is_invoice tenant id) (is_rows x).
Definition GetForUpdate (tenant id : uuid) : IM Invoice :=
  r ← at_state (fun s => ext_query "invoice repo: get for update" (find_invoice tenant id (w_db (ex_shop s))));
  of_option (ESentinel ErrInvoiceNotFound) r.

(** SetStatus *)
Definition with_status (i : Invoice) (status : string) (now : time) : Invoice :=
  mkInvoice (in_ID i) (in_TenantID i) (in_Direction i) (in_InvoiceNo i) (in_InvoiceCode i) (in_InvoiceType i) (in_PartnerID i) (in_IssueDate i)
    (in_AmountExclTax i) (in_TaxAmount i) (in_TotalAmount i) status (in_RedOfID i) (in_Remark i) (in_CreatedBy i) (in_CreatedAt i) now
    (in_PartnerName i) (in_Links i).
Definition has_status (tenant id : uuid) (from : string) (r : InvoiceRow) : bool :=
  is_invoice tenant id r && String.eqb (in_Status (iw_invoice r)) from.
Definition set_status (tenant id : uuid) (from to : string) (now : time) (x : Invoices) : bool * Invoices :=
  (existsb (has_status tenant id from) (is_rows x),
   mkInvoices (map (fun r => if has_status tenant id from r then mkInvoiceRow (with_status (iw_invoice r) to now) (iw_deleted r) else r) (is_rows x))
     (is_links x)).
Definition SetStatus (tenant id : uuid) (from to : string) : IM bool := fun s =>
  ext_statement "invoice repo: set status" (fun x => inr (set_status tenant id from to (clock_at (w_tick (ex_shop s))) x)) s.

(** The links of an invoice: LEFT JOIN bill_head, ORDER BY b.bill_no, ib.bill_id *)
Definition link_no (tenant : uuid) (d : DB) (l : LinkRow) : option string :=
  match db_heads d !! lr_bill l with
  | Some r => if N.eqb (bh_tenant (hr_head r)) tenant then Some (bh_bill_no (hr_head r)) else None
  | None => None
  end.
Definition link_key (tenant : uuid) (d : DB) (l : LinkRow) : bool * Z * N :=
  match link_no tenant d l with Some no => (false, text_order no, lr_bill l) | None => (true, 0%Z, lr_bill l) end.
Definition link_order (tenant : uuid) (d : DB) (a b : LinkRow) : Prop :=
  let '(n1, z1, i1) := link_key tenant d a in let '(n2, z2, i2) := link_key tenant d b in
  (n1 = false /\ n2 = true) \/ (n1 = n2 /\ ((z1 < z2)%Z \/ (z1 = z2 /\ (i1 <= i2)%N))).
#[export] Instance link_order_dec tenant d : RelDecision (link_order tenant d).
Proof.
  intros a b. unfold link_order. destruct (link_key tenant d a) as [[n1 z1] i1], (link_key tenant d b) as [[n2 z2] i2]. apply _.
Defined.
Definition links_of (tenant id : uuid) (d : DB) (x : Invoices) : list Link :=
  (fun l => mkLink (lr_bill l) (default "" (link_no tenant d l)) (lr_amount l)) <$>
  merge_sort (link_order tenant d) (select (fun l => N.eqb (lr_invoice l) id && N.eqb (lr_tenant l) tenant) (is_links x)).
Definition with_links (i : Invoice) (links : list Link) : Invoice :=
  mkInvoice (in_ID i) (in_TenantID i) (in_Direction i) (in_InvoiceNo i) (in_InvoiceCode i) (in_InvoiceType i) (in_PartnerID i) (in_IssueDate i)
    (in_AmountExclTax i) (in_TaxAmount i) (in_TotalAmount i) (in_Status i) (in_RedOfID i) (in_Remark i) (in_CreatedBy i) (in_CreatedAt i)
    (in_UpdatedAt i) (in_PartnerName i) links.
Definition InvoiceGetByID (tenant id : uuid) : IM Invoice :=
  r ← at_state (fun s => ext_query "invoice repo: get" (find_invoice tenant id (w_db (ex_shop s))));
  inv ← of_option (ESentinel ErrInvoiceNotFound) r;
  links ← at_state (fun s => ext_query "invoice repo: get links" (links_of tenant id (w_db (ex_shop s))));
  mret (with_links inv links).

(** ** List, Summarize *)

(** ListFilter *)
Record InvoiceFilter := mkInvoiceFilter {
  if_TenantID : uuid; if_Direction : string; if_Status : string; if_PartnerID : option uuid; if_BillID : option uuid;
  if_DateFrom : option time; if_DateTo : option time; if_Keyword : string; if_Limit : Z; if_Offset : Z }.
(** escapeLike *)
Fixpoint escapeLike (s : string) : string :=
  match s with
  | EmptyString => ""
  | String c t => if Ascii.eqb c "\" || Ascii.eqb c "%" || Ascii.eqb c "_" then String "\" (String c (escapeLike t)) else String c (escapeLike t)
  end.
(** buildWhere *)
Definition wanted {A} (p : A -> bool) (o : option A) : bool := match o with Some a => p a | None => true end.
(** DateFrom.Format, DateTo.Format: the handler reads both dates in the shop's zone
    (listLocation, UTC+8), so the day that is formatted is the day there. *)
Definition list_date (t : time) : time := date_of (t + billNoZone)%Z.
Definition matches (f : InvoiceFilter) (x : Invoices) (r : InvoiceRow) : bool :=
  let i := iw_invoice r in
  N.eqb (in_TenantID i) (if_TenantID f) && negb (iw_deleted r)
  && (String.eqb (if_Direction f) "" || String.eqb (in_Direction i) (if_Direction f))
  && (String.eqb (if_Status f) "" || String.eqb (in_Status i) (if_Status f))
  && wanted (N.eqb (in_PartnerID i)) (if_PartnerID f)
  && wanted (fun b => existsb (fun l => N.eqb (lr_invoice l) (in_ID i) && N.eqb (lr_tenant l) (in_TenantID i) && N.eqb (lr_bill l) b) (is_links x))
       (if_BillID f)
  && wanted (fun t => Z.leb (list_date t) (in_IssueDate i)) (if_DateFrom f)
  && wanted (fun t => Z.ltb (in_IssueDate i) (list_date t)) (if_DateTo f)
  && (String.eqb (if_Keyword f) "" || ilike (in_InvoiceNo i) ("%" ++ escapeLike (if_Keyword f) ++ "%")).
Definition matching (f : InvoiceFilter) (x : Invoices) : list Invoice := iw_invoice <$> select (matches f x) (is_rows x).
(** ORDER BY i.issue_date DESC, i.created_at DESC, i.id DESC *)
Definition invoice_order (a b : Invoice) : Prop :=
  (in_IssueDate b < in_IssueDate a)%Z \/ (in_IssueDate a = in_IssueDate b /\
  ((in_CreatedAt b < in_CreatedAt a)%Z \/ (in_CreatedAt a = in_CreatedAt b /\ (in_ID b <= in_ID a)%N))).
#[export] Instance invoice_order_dec : RelDecision invoice_order.
Proof. intros a b. unfold invoice_order. apply _. Defined.
(** List, attachLinks *)
Definition InvoiceList (f : InvoiceFilter) : IM (list Invoice * Z) :=
  total ← ext_query "invoice repo: list count" (fun x => Z.of_nat (length (matching f x)));
  items ← at_state (fun s => ext_query "invoice repo: list" (fun x =>
    with_partner_name (w_db (ex_shop s)) <$>
    take (Z.to_nat (if_Limit f)) (drop (Z.to_nat (if_Offset f)) (merge_sort invoice_order (matching f x)))));
  match items with
  | [] => mret ([], total)
  | _ =>
      links ← at_state (fun s => ext_query "invoice repo: list links" (fun x =>
        (fun i => links_of (if_TenantID f) (in_ID i) (w_db (ex_shop s)) x) <$> items));
      mret (zip_with with_links items links, total)
  end.
(** Summary, Summarize *)
Record Summary := mkSummary { sm_Count : Z; sm_AmountExclTax : dec; sm_TaxAmount : dec; sm_TotalAmount : dec }.
Definition summary (f : InvoiceFilter) (x : Invoices) : Summary :=
  let l := matching f x in
  let counted := select (fun i => negb (String.eqb (in_Status i) StatusVoid)) l in
  mkSummary (Z.of_nat (length l)) (dsum_from dzero (in_AmountExclTax <$> counted)) (dsum_from dzero (in_TaxAmount <$> counted))
    (dsum_from dzero (in_TotalAmount <$> counted)).
Definition Summarize (f : InvoiceFilter) : IM Summary := ext_query "invoice repo: summarize" (summary f).
End invoices.
