(* ===== verification/Invoice.v ===== *)
(** The use cases of the invoice registry: src/internal/app/invoice. *)
From S2P Require Import Prelude GoStrings GoTime Rounding Decimal Types StockDomain BillDomain Store StockRepo BillRepo Ledger ExtStore Codegen Runes CatalogueStore InvoiceStore.
From stdpp Require Import base tactics strings gmap list.
From Stdlib Require Import ZArith Lia Ascii.

#[local] Open Scope string_scope.

Section invoices.
Context {ops : DecimalOps} {env : Env} {pg : PgText}.
Abbreviation IM := (XM (X:=Invoices)).

Definition defaultLimit : Z := 20.
Definition maxLimit : Z := 200.

(** newErr *)
Definition newErr (kind : sentinel) (msg : string) : error := EInvoice kind msg.

(** billSubTypeFor *)
Definition billSubTypeFor (direction : string) : BillSubType * string :=
  if String.eqb direction InvoiceOut then (BillSubTypeSale, "销售单") else (BillSubTypePurchase, "采购单").

(** CreateUseCase.checkLinks: the rules on one bill, and what is left of it to invoice *)
Definition remaining (b : BillRef) : dec := dsub (dtruncate 2 (br_TotalAmount b)) (br_Invoiced b).
Definition check_bill (i : Invoice) (b : BillRef) (l : Link) : option string :=
  let '(sub, name) := billSubTypeFor (in_Direction i) in
  first_failing [
    (negb (Z.eqb (br_Status b) StatusApproved), "单据 " ++ br_BillNo b ++ " 还没有审核，审核后才能登记发票");
    (negb (String.eqb (br_SubType b) sub), "单据 " ++ br_BillNo b ++ " 不是" ++ name ++ "，不能关联到这张发票");
    (negb (bool_decide (br_PartnerID b = Some (in_PartnerID i))), "单据 " ++ br_BillNo b ++ " 的往来单位与发票不一致");
    (negb (String.eqb (br_Currency b) "") && negb (String.eqb (br_Currency b) "CNY"), "单据 " ++ br_BillNo b ++ " 是外币单据，暂不支持关联发票");
    (dgt (lk_Amount l) (remaining b), "单据 " ++ br_BillNo b ++ " 本次关联已超出")].
Fixpoint check_links (i : Invoice) (refs : gmap uuid BillRef) (links : list Link) : error + list Link :=
  match links with
  | [] => inr []
  | l :: rest =>
      match refs !! lk_BillID l with
      | None => inl (newErr ErrRule "关联的单据不存在")
      | Some b =>
          match check_bill i b l with
          | Some msg => inl (newErr ErrRule msg)
          | None =>
              match check_links i refs rest with
              | inl e => inl e
              | inr done => inr (mkLink (lk_BillID l) (br_BillNo b) (lk_Amount l) :: done)
              end
          end
      end
  end.
Definition checkLinks (i : Invoice) : IM (list Link) :=
  match in_Links i with
  | [] => mret []
  | links =>
      refs ← LockBills (in_TenantID i) (lk_BillID <$> links);
      of_sum (check_links i refs links)
  end.

(** CreateUseCase.Execute *)
Definition named (i : Invoice) (name : string) : Invoice :=
  mkInvoice (in_ID i) (in_TenantID i) (in_Direction i) (in_InvoiceNo i) (in_InvoiceCode i) (in_InvoiceType i) (in_PartnerID i) (in_IssueDate i)
    (in_AmountExclTax i) (in_TaxAmount i) (in_TotalAmount i) (in_Status i) (in_RedOfID i) (in_Remark i) (in_CreatedBy i) (in_CreatedAt i)
    (in_UpdatedAt i) name (in_Links i).
Definition register (i : Invoice) : IM Invoice :=
  r ← try (PartnerName (in_TenantID i) (in_PartnerID i));
  name ← match r with
         | inl e => throw (if errors_is e ErrInvoiceNotFound then newErr ErrRule "往来单位不存在或已被删除" else e)
         | inr name => mret name
         end;
  links ← checkLinks i;
  let inv := with_links (named i name) links in
  InvoiceInsert inv;;
  mret inv.
Definition CreateInvoice_Execute (i : InvoiceInput) : IM Invoice :=
  now ← lift time_now;
  id ← lift uuid_new;
  match NewInvoice i id now with
  | inl msg => throw (newErr ErrInvalidInput msg)
  | inr inv => on_err (EWrap "invoice create") (InvoiceTx (register inv))
  end.

(** GetUseCase.Execute *)
Definition GetInvoice_Execute (tenant id : uuid) : IM Invoice :=
  on_err (fun e => if errors_is e ErrInvoiceNotFound then e else EWrap "invoice get" e) (InvoiceGetByID tenant id).

(** ListUseCase.Execute *)
Definition clamp_page (f : InvoiceFilter) : InvoiceFilter :=
  mkInvoiceFilter (if_TenantID f) (if_Direction f) (if_Status f) (if_PartnerID f) (if_BillID f) (if_DateFrom f) (if_DateTo f) (if_Keyword f)
    (if Z.leb (if_Limit f) 0 then defaultLimit else if Z.ltb maxLimit (if_Limit f) then maxLimit else if_Limit f)
    (if Z.ltb (if_Offset f) 0 then 0%Z else if_Offset f).
Definition ListInvoices_Execute (f : InvoiceFilter) : IM (list Invoice * Z * Summary) :=
  guard_err (N.eqb (if_TenantID f) uuid_nil) (EMsg "invoice list: tenant_id is required");;
  let f := clamp_page f in
  r ← on_err (EWrap "invoice list") (InvoiceList f);
  sum ← on_err (EWrap "invoice list: summary") (Summarize f);
  mret (r.1, r.2, sum).

(** VoidUseCase.Execute *)
Definition unless (kinds : list sentinel) (label : string) (e : error) : error :=
  if existsb (errors_is e) kinds then e else EWrap label e.
Definition state_changed : error := newErr ErrConflict "发票状态已变化，请刷新后重试".
Definition refused (kind : sentinel) (o : option string) : IM unit :=
  match o with Some msg => throw (newErr kind msg) | None => mret tt end.
Definition void_body (tenant id : uuid) : IM unit :=
  inv ← GetForUpdate tenant id;
  refused ErrConflict (CanVoid inv);;
  ok ← SetStatus tenant id StatusIssued StatusVoid;
  guard_err (negb ok) state_changed.
Definition VoidInvoice_Execute (tenant id : uuid) : IM Invoice :=
  on_err (unless [ErrInvoiceNotFound; ErrConflict] "invoice void") (InvoiceTx (void_body tenant id));;
  InvoiceGetByID tenant id.

(** RedUseCase.Execute *)
Record RedInput := mkRedInput {
  ri_TenantID : uuid; ri_ID : uuid; ri_InvoiceNo : string; ri_InvoiceCode : string; ri_IssueDate : time; ri_Remark : string;
  ri_CreatedBy : option uuid }.
Definition red_body (q : RedInput) : IM Invoice :=
  orig ← GetForUpdate (ri_TenantID q) (ri_ID q);
  refused ErrConflict (CanRed orig);;
  now ← lift time_now;
  id ← lift uuid_new;
  red ← of_sum (match NewRed orig (ri_InvoiceNo q) (ri_InvoiceCode q) (ri_IssueDate q) (ri_Remark q) (ri_CreatedBy q) id now with
                | inl msg => inl (newErr ErrInvalidInput msg)
                | inr red => inr red
                end);
  InvoiceInsert red;;
  ok ← SetStatus (ri_TenantID q) (ri_ID q) StatusIssued StatusRed;
  guard_err (negb ok) state_changed;;
  mret red.
Definition RedInvoice_Execute (q : RedInput) : IM Invoice :=
  red ← on_err (unless [ErrInvoiceNotFound; ErrConflict; ErrInvalidInput; ErrDuplicateNo] "invoice red") (InvoiceTx (red_body q));
  InvoiceGetByID (ri_TenantID q) (in_ID red).
End invoices.
