(* ===== verification/InvoiceLaws.v ===== *)
(** The invoice registry over time: what each use case does to it, that along any history numbers
    stay unique, an invoice is voided or struck at most once, and no bill is invoiced for more than
    it is worth.

    [registered] is the registry's contract: one invoice is entered, one is voided, or one is struck
    by a red-letter invoice.  The use cases of Invoice.v refine it. *)
From S2P Require Import Prelude GoStrings Rounding Decimal SDec Types StockDomain BillDomain GoTime Store StockRepo StockCalc StockFIFO StockRecord StockAdjust BillRepo BillRows BillDraft BillApprove BillEdit BillReturn ReturnCap SaleReturn Checkout Ledger Payment PurchaseReturn Concrete BillLife ExtStore Codegen Runes CatalogueStore CatalogueLaws InvoiceStore Invoice.
From stdpp Require Import base tactics strings gmap list.
From Stdlib Require Import ZArith QArith Qminmax Lia Lqa Ascii.

#[local] Open Scope string_scope.

Section laws.
Context {ops : DecimalOps} {laws : DecimalLaws ops} {env : Env} {elaws : EnvLaws env} {pg : PgText}.
Abbreviation IM := (XM (X:=Invoices)).

(** ** What a valid invoice is *)

Record valid (i : Invoice) : Prop := {
  vd_direction : ValidDirection (in_Direction i) = true;
  vd_type : validType (in_InvoiceType i) = true;
  vd_excl : on_scale 4 (val (in_AmountExclTax i));
  vd_tax : on_scale 4 (val (in_TaxAmount i));
  vd_total : on_scale 4 (val (in_TotalAmount i));
  vd_sum : val (in_AmountExclTax i) + val (in_TaxAmount i) == val (in_TotalAmount i);
  vd_original : in_RedOfID i = None -> 0 < val (in_AmountExclTax i) /\ 0 <= val (in_TaxAmount i);
  vd_red : in_RedOfID i <> None -> in_Links i = [];
  vd_bills : NoDup (lk_BillID <$> in_Links i);
  vd_amounts : Forall (fun l => 0 < val (lk_Amount l) /\ on_scale 4 (val (lk_Amount l))) (in_Links i);
  vd_within : in_RedOfID i = None -> qsum ((fun l => val (lk_Amount l)) <$> in_Links i) <= val (in_TotalAmount i);
}.

Lemma first_failing_None l : first_failing l = None -> Forall (fun e => e.1 = false) l.
Proof.
  unfold first_failing. intros H. induction l as [|[[|] m] l IH]; simpl in *; [done|done|]. constructor; [done|by apply IH].
Qed.
Lemma fits_scale d : fitsNumeric d = true -> on_scale 4 (val d).
Proof.
  unfold fitsNumeric. intros [H%deqb_true _]%andb_true_iff. rewrite H. apply val_round_scale.
Qed.
#[local] Instance on_scale_proper n : Proper (Qeq ==> iff) (on_scale n).
Proof. intros a b E. unfold on_scale. split; intros [z Hz]; exists z; [by rewrite <-E|by rewrite E]. Qed.

Lemma link_sum_inr links : forall seen acc sum, link_sum seen acc links = inr sum ->
  val sum == val acc + qsum ((fun l => val (lk_Amount l)) <$> links) /\
  Forall (fun l => 0 < val (lk_Amount l) /\ on_scale 4 (val (lk_Amount l))) links /\
  NoDup (lk_BillID <$> links) /\ Forall (fun l => lk_BillID l ∉ seen) links.
Proof.
  induction links as [|l links IH]; intros seen acc sum H; simpl in H.
  { injection H as <-. split_and!; [cbn; ring|constructor..]. }
  destruct (first_failing _) eqn:F; [done|]. apply first_failing_None in F. do 4 (apply Forall_cons in F as [? F]). cbn [fst] in *.
  apply IH in H as (Hs & Ha & Hn & Hf). rewrite Hs, val_add. split_and!; rewrite ?fmap_cons; cbn [qsum].
  - ring.
  - constructor; [|done]. split; [by apply is_positive_true, negb_false_iff|by apply fits_scale, negb_false_iff].
  - constructor; [|done]. intros (q & E & Hq)%list_elem_of_fmap. rewrite Forall_forall in Hf. apply (Hf q Hq). rewrite <-E. by left.
  - constructor; [by case_bool_decide|]. eapply Forall_impl; [exact Hf|]. simpl. intros q Hq Hin. apply Hq. by right.
Qed.

Lemma Validate_valid i : Validate i = None -> valid i.
Proof.
  unfold Validate. destruct (first_failing _) eqn:F; [done|]. apply first_failing_None in F.
  do 12 (apply Forall_cons in F as [? F]). simpl in *. intros HL.
  match goal with K : negb (_ && (_ && _)) = false |- _ => apply negb_false_iff in K end.
  repeat match goal with K : _ && _ = true |- _ => apply andb_true_iff in K as [? K] end.
  assert (Hred : in_RedOfID i <> None -> negb (is_none (in_RedOfID i)) = true) by (by destruct (in_RedOfID i)).
  constructor; try (by apply fits_scale); try (by apply negb_false_iff).
  - match goal with K : negb (deqb _ _) = false |- _ => by apply negb_false_iff, deqb_true in K; rewrite val_add in K end.
  - intros E. rewrite E in *. simpl in *. split; [by apply is_positive_true, negb_false_iff|by apply is_negative_false].
  - intros E. rewrite (Hred E) in HL. simpl in HL. by destruct (in_Links i).
  - unfold validateLinks in HL. destruct (negb (is_none _)); [destruct (in_Links i); [constructor|done]|].
    destruct (Nat.ltb _ _); [done|]. destruct (link_sum _ _ _) as [|sum] eqn:E; [done|]. by apply link_sum_inr in E as (_ & _ & ? & _).
  - unfold validateLinks in HL. destruct (negb (is_none _)); [destruct (in_Links i); [constructor|done]|].
    destruct (Nat.ltb _ _); [done|]. destruct (link_sum _ _ _) as [|sum] eqn:E; [done|]. by apply link_sum_inr in E as (_ & ? & _).
  - intros En. rewrite En in HL. simpl in HL. unfold validateLinks in HL. destruct (Nat.ltb _ _); [done|].
    destruct (link_sum _ _ _) as [|sum] eqn:E; [done|]. apply link_sum_inr in E as (Hs & _).
    destruct (dgt sum _) eqn:G; [done|]. apply dgt_false in G. rewrite Hs, val_zero in G. lra.
Qed.

(** ** The contract *)

Definition iid (r : InvoiceRow) : uuid := in_ID (iw_invoice r).
Definition number (r : InvoiceRow) : uuid * string * string :=
  (in_TenantID (iw_invoice r), in_Direction (iw_invoice r), in_InvoiceNo (iw_invoice r)).
Definition live_numbers (x : Invoices) : list (uuid * string * string) := number <$> select (fun r => negb (iw_deleted r)) (is_rows x).

(** What a row keeps of the invoice that was entered. *)
Record entered (i : Invoice) (r : InvoiceRow) : Prop := {
  en_live : iw_deleted r = false;
  en_id : iid r = in_ID i;
  en_tenant : in_TenantID (iw_invoice r) = in_TenantID i;
  en_direction : in_Direction (iw_invoice r) = in_Direction i;
  en_no : varchar 64 (in_InvoiceNo i) = Some (in_InvoiceNo (iw_invoice r));
  en_code : varchar 32 (in_InvoiceCode i) = Some (in_InvoiceCode (iw_invoice r));
  en_type : varchar 32 (in_InvoiceType i) = Some (in_InvoiceType (iw_invoice r));
  en_partner : in_PartnerID (iw_invoice r) = in_PartnerID i;
  en_date : in_IssueDate (iw_invoice r) = date_of (in_IssueDate i);
  en_excl : val (in_AmountExclTax (iw_invoice r)) == val (in_AmountExclTax i);
  en_tax : val (in_TaxAmount (iw_invoice r)) == val (in_TaxAmount i);
  en_total : val (in_TotalAmount (iw_invoice r)) == val (in_TotalAmount i);
  en_status : in_Status (iw_invoice r) = in_Status i;
  en_red : in_RedOfID (iw_invoice r) = in_RedOfID i;
  en_remark : in_Remark (iw_invoice r) = in_Remark i;
  en_by : in_CreatedBy (iw_invoice r) = in_CreatedBy i;
}.

(** A bill an invoice may cover, what it is worth net of returns, and what is invoiced of it. *)
Record invoiceable (i : Invoice) (h : HeadRow) : Prop := {
  ib_tenant : bh_tenant (hr_head h) = in_TenantID i;
  ib_live : hr_deleted h = false;
  ib_approved : bh_status (hr_head h) = StatusApproved;
  ib_kind : bh_sub_type (hr_head h) = (billSubTypeFor (in_Direction i)).1;
  ib_partner : bh_partner (hr_head h) = Some (in_PartnerID i);
  ib_currency : bh_currency (hr_head h) = "" \/ bh_currency (hr_head h) = "CNY";
}.
Definition worth (d : DB) (tenant bill : uuid) (h : HeadRow) : dec :=
  match returns_sum tenant d bill with
  | Some v => dmax (dsub (bh_total (hr_head h)) v) dzero
  | None => bh_total (hr_head h)
  end.
Definition already (tenant : uuid) (x : Invoices) (bill : uuid) : dec := default dzero (invoiced_sum tenant x bill).

Record linked (d : DB) (x : Invoices) (i : Invoice) (l : Link) (lr : LinkRow) : Prop := {
  lk_invoice : lr_invoice lr = in_ID i;
  lk_bill : lr_bill lr = lk_BillID l;
  lk_tenant : lr_tenant lr = in_TenantID i;
  lk_amount : val (lr_amount lr) == val (lk_Amount l);
  lk_head : exists h, db_heads d !! lk_BillID l = Some h /\ invoiceable i h /\
    val (lk_Amount l) + val (already (in_TenantID i) x (lk_BillID l)) <= val (dtruncate 2 (worth d (in_TenantID i) (lk_BillID l) h));
}.

(** An issued original at its place among the rows, and the rows with it in another status. *)
Definition issued_at (x : Invoices) (r1 : list InvoiceRow) (r : InvoiceRow) (r2 : list InvoiceRow) : Prop :=
  is_rows x = (r1 ++ r :: r2)%list /\ iw_deleted r = false /\ in_RedOfID (iw_invoice r) = None /\ in_Status (iw_invoice r) = StatusIssued.
Definition moved (to : string) (now : time) (r : InvoiceRow) : InvoiceRow := mkInvoiceRow (with_status (iw_invoice r) to now) (iw_deleted r).
Definition fresh (x : Invoices) (r : InvoiceRow) : Prop := (iid r ∉ iid <$> is_rows x) /\ (number r ∉ live_numbers x).

(** The red letter of an original: its parties, its amounts negated, no bills. *)
Record strikes (o i : Invoice) : Prop := {
  sk_of : in_RedOfID i = Some (in_ID o);
  sk_status : in_Status i = StatusIssued;
  sk_tenant : in_TenantID i = in_TenantID o;
  sk_direction : in_Direction i = in_Direction o;
  sk_partner : in_PartnerID i = in_PartnerID o;
  sk_excl : val (in_AmountExclTax i) == - val (in_AmountExclTax o);
  sk_tax : val (in_TaxAmount i) == - val (in_TaxAmount o);
  sk_total : val (in_TotalAmount i) == - val (in_TotalAmount o);
  sk_links : in_Links i = [];
}.

Inductive registered (d : DB) (x : Invoices) : Invoices -> Prop :=
  | reg_create i r ls : valid i -> in_RedOfID i = None -> in_Status i = StatusIssued -> entered i r -> fresh x r ->
      Forall2 (linked d x i) (in_Links i) ls ->
      registered d x (mkInvoices (is_rows x ++ [r])%list (is_links x ++ ls)%list)
  | reg_void r1 r r2 now : issued_at x r1 r r2 ->
      registered d x (mkInvoices (r1 ++ moved StatusVoid now r :: r2)%list (is_links x))
  | reg_strike r1 r r2 i red now : issued_at x r1 r r2 -> valid i -> strikes (iw_invoice r) i -> entered i red -> fresh x red ->
      registered d x (mkInvoices (r1 ++ moved StatusRed now r :: r2 ++ [red])%list (is_links x)).

(** ** The statements *)

Lemma num_18_4_val d r : on_scale 4 (val d) -> num_18_4 d = inr r -> val r == val d.
Proof. unfold num_18_4. intros Hs. destruct (dlt _ _); [|done]. intros [= <-]. by apply val_round_id. Qed.

Lemma invoice_insert_Ok i d x u x' : valid i -> invoice_insert i d x = inr (u, x') ->
  exists r, entered i r /\ fresh x r /\ x' = mkInvoices (is_rows x ++ [r])%list (is_links x).
Proof.
  intros V. unfold invoice_insert, mbind, sum_bind. intros H.
  apply sum_bind_inr in H as (no & N%limit_inr & H). apply sum_bind_inr in H as (code & C%limit_inr & H).
  apply sum_bind_inr in H as (type & T%limit_inr & H). apply sum_bind_inr in H as (excl & E%num_18_4_val & H); [|apply V].
  apply sum_bind_inr in H as (tax & X%num_18_4_val & H); [|apply V]. apply sum_bind_inr in H as (total & L%num_18_4_val & H); [|apply V].
  apply sum_bind_inr in H as (u1 & _ & H). apply sum_bind_inr in H as (u2 & _ & H).
  apply sum_bind_inr in H as (u3 & F%require_inr%negb_true_iff & H). apply sum_bind_inr in H as (u4 & K%require_inr%negb_true_iff & H).
  apply sum_bind_inr in H as (u5 & _ & H). apply sum_bind_inr in H as (u6 & _ & H). injection H as _ <-.
  eexists. split; [|split; [|reflexivity]]; [by constructor|]. split.
  - intros (q & Eq & Hq)%list_elem_of_fmap. apply not_true_iff_false in F. apply F, existsb_exists. exists q.
    split; [by apply list_elem_of_In|]. by apply N.eqb_eq.
  - intros (q & Eq & Hq)%list_elem_of_fmap. apply elem_of_select in Hq as [Hd Hq]. apply not_true_iff_false in K.
    apply K, existsb_exists. exists q. split; [by apply list_elem_of_In|]. injection Eq as E1 E2 E3. simpl in *.
    by rewrite Hd, <-E1, <-E2, <-E3, N.eqb_refl, !String.eqb_refl.
Qed.

Lemma link_insert_Ok i l d x u x' : on_scale 4 (val (lk_Amount l)) -> link_insert i l d x = inr (u, x') ->
  exists lr, lr_invoice lr = in_ID i /\ lr_bill lr = lk_BillID l /\ lr_tenant lr = in_TenantID i /\ val (lr_amount lr) == val (lk_Amount l) /\
    x' = mkInvoices (is_rows x) (is_links x ++ [lr])%list.
Proof.
  intros Hs. unfold link_insert, mbind, sum_bind. intros H.
  apply sum_bind_inr in H as (a & A%num_18_4_val & H); [|done]. apply sum_bind_inr in H as (u1 & _ & H).
  apply sum_bind_inr in H as (u2 & _ & H). apply sum_bind_inr in H as (u3 & _ & H). apply sum_bind_inr in H as (u4 & _ & H).
  injection H as _ <-. eexists. split_and!; [..|reflexivity]; done.
Qed.

Lemma ext_stmt_Ok {A} l (f : Invoices -> error + (A * Invoices)) (s : Ext Invoices) a s' : ext_statement l f s = (Ok a, s') ->
  exists x, f (ex_rows s) = inr (a, x) /\ s' = mkExt (bump (ex_shop s)) x.
Proof. rewrite ext_statement_Ok. by intros (_ & x & ? & ?); exists x. Qed.

Lemma InvoiceInsert_Ok i s u s' : valid i -> InvoiceInsert i s = (Ok u, s') ->
  w_db (ex_shop s') = w_db (ex_shop s) /\ exists r ls, entered i r /\ fresh (ex_rows s) r /\
    ex_rows s' = mkInvoices (is_rows (ex_rows s) ++ [r])%list (is_links (ex_rows s) ++ ls)%list /\
    Forall2 (fun l lr => lr_invoice lr = in_ID i /\ lr_bill lr = lk_BillID l /\ lr_tenant lr = in_TenantID i /\ val (lr_amount lr) == val (lk_Amount l))
      (in_Links i) ls.
Proof.
  intros V. unfold InvoiceInsert. intros H. apply bind_Ok in H as (u1 & s1 & H1%on_err_Ok%ext_stmt_Ok & H).
  destruct H1 as (x1 & H1 & ->). apply invoice_insert_Ok in H1 as (r & En & Fr & ->); [|done].
  assert (L : forall ls s1 s', Forall (fun l => on_scale 4 (val (lk_Amount l))) ls ->
    mapM_ (fun l => at_state (fun s : Ext Invoices => ext_statement "invoice repo: insert link" (link_insert i l (w_db (ex_shop s))))) ls s1 = (Ok u, s') ->
    w_db (ex_shop s') = w_db (ex_shop s1) /\ exists lrs, ex_rows s' = mkInvoices (is_rows (ex_rows s1)) (is_links (ex_rows s1) ++ lrs)%list /\
    Forall2 (fun l lr => lr_invoice lr = in_ID i /\ lr_bill lr = lk_BillID l /\ lr_tenant lr = in_TenantID i /\ val (lr_amount lr) == val (lk_Amount l)) ls lrs).
  { clear. induction ls as [|l ls IH]; intros s1 s' Hs H.
    - apply ret_Ok in H as [_ <-]. split; [done|]. exists []. rewrite app_nil_r. split; [by destruct (ex_rows s1)|constructor].
    - apply Forall_cons in Hs as [Hl Hs]. apply bind_Ok in H as (u1 & s2 & H1%ext_stmt_Ok & H). destruct H1 as (x2 & H1 & ->).
      apply link_insert_Ok in H1 as (lr & ? & ? & ? & ? & ->); [|done]. apply IH in H as (-> & lrs & -> & F); [|done]. split; [done|].
      exists (lr :: lrs). simpl. rewrite <-app_assoc. split; [done|]. by constructor. }
  apply L in H as (-> & ls & -> & F); [|eapply Forall_impl; [apply V|]; by intros l []]. split; [done|]. by exists r, ls.
Qed.

Lemma GetForUpdate_Ok tenant id s i s' : GetForUpdate tenant id s = (Ok i, s') ->
  s' = ext_bump s /\ exists r, List.find (is_invoice tenant id) (is_rows (ex_rows s)) = Some r /\ i = with_partner_name (w_db (ex_shop s)) (iw_invoice r).
Proof.
  unfold GetForUpdate. intros H. apply bind_Ok in H as (o & s1 & (_ & -> & ->)%ext_query_Ok & [Ho <-]%of_option_Ok). split; [done|].
  unfold find_invoice in Ho. destruct (List.find _ _) as [r|]; [|done]. injection Ho as <-. by exists r.
Qed.

Lemma SetStatus_Ok tenant id from to s b s' : SetStatus tenant id from to s = (Ok b, s') ->
  w_db (ex_shop s') = w_db (ex_shop s) /\ exists now, (b, ex_rows s') = set_status tenant id from to now (ex_rows s).
Proof.
  unfold SetStatus. intros (x & [= <- <-] & ->)%ext_stmt_Ok. split; [done|]. by exists (clock_at (w_tick (ex_shop s))).
Qed.

Lemma is_invoice_spec tenant id r : is_invoice tenant id r = true <-> iid r = id /\ in_TenantID (iw_invoice r) = tenant /\ iw_deleted r = false.
Proof. unfold is_invoice, iid. rewrite !andb_true_iff, !N.eqb_eq, negb_true_iff. tauto. Qed.

(** The one row a change of status hits. *)
Lemma set_status_hits tenant id from to now x x' r : NoDup (iid <$> is_rows x) -> List.find (is_invoice tenant id) (is_rows x) = Some r ->
  set_status tenant id from to now x = (true, x') ->
  exists r1 r2, is_rows x = (r1 ++ r :: r2)%list /\ in_Status (iw_invoice r) = from /\ x' = mkInvoices (r1 ++ moved to now r :: r2)%list (is_links x).
Proof.
  intros Hn Hf [= He <-]. apply find_some in Hf as [Hin [Hid [_ Hd]]%is_invoice_spec]. apply list_elem_of_In in Hin.
  apply existsb_exists in He as (r' & Hin' & Hs'). apply list_elem_of_In in Hin'. pose proof Hs' as Hs.
  unfold has_status in Hs. apply andb_true_iff in Hs as [[Hid' _]%is_invoice_spec Hst%String.eqb_eq].
  assert (r' = r) as -> by (eapply (NoDup_key iid); [exact Hn|done|done|congruence]).
  destruct (List.find (has_status tenant id from) (is_rows x)) as [q|] eqn:Eq.
  2: { exfalso. assert (has_status tenant id from r = false); [|congruence]. eapply (find_none _ _ Eq). by apply list_elem_of_In. }
  assert (q = r) as ->.
  { apply find_some in Eq as [Hq Hq2]. apply list_elem_of_In in Hq. unfold has_status in Hq2. apply andb_true_iff in Hq2 as [[? _]%is_invoice_spec _].
    eapply (NoDup_key iid); [exact Hn|done|done|congruence]. }
  destruct (split_found iid (has_status tenant id from) (is_rows x) r Hn) as (r1 & r2 & El & _ & Em); [|done|].
  { intros a b Ha Hb. unfold has_status in Ha, Hb. apply andb_true_iff in Ha as [[Ha _]%is_invoice_spec _], Hb as [[Hb _]%is_invoice_spec _]. congruence. }
  exists r1, r2. split_and!; [done..|]. f_equal. apply (Em (moved to now)).
Qed.

(** ** The bills that are locked *)

Lemma imap_Some {A B} (f : uuid -> A -> option B) (m : gmap uuid A) k b : map_imap f m !! k = Some b -> exists a, m !! k = Some a /\ f k a = Some b.
Proof. rewrite map_lookup_imap. destruct (m !! k) as [a|]; [|done]. simpl. by exists a. Qed.

Lemma LockBills_Ok tenant ids s refs s' : LockBills tenant ids s = (Ok refs, s') ->
  ex_rows s' = ex_rows s /\ w_db (ex_shop s') = w_db (ex_shop s) /\
  forall id b, refs !! id = Some b -> exists h, db_heads (w_db (ex_shop s)) !! id = Some h /\
    bh_tenant (hr_head h) = tenant /\ hr_deleted h = false /\ br_Status b = bh_status (hr_head h) /\ br_SubType b = bh_sub_type (hr_head h) /\
    br_PartnerID b = bh_partner (hr_head h) /\ br_Currency b = bh_currency (hr_head h) /\ br_BillNo b = bh_bill_no (hr_head h) /\
    br_TotalAmount b = worth (w_db (ex_shop s)) tenant id h /\ br_Invoiced b = already tenant (ex_rows s) id.
Proof.
  unfold LockBills. intros H. apply bind_Ok in H as (heads & s1 & (w1 & (_ & -> & ->)%query_Ok & ->)%lift_Ok & H).
  apply bind_Ok in H as (rets & s2 & (w2 & (_ & -> & ->)%query_Ok & ->)%lift_Ok & H).
  apply bind_Ok in H as (sums & s3 & (_ & -> & ->)%ext_query_Ok & H). apply ret_Ok in H as [<- <-]. split_and!; [done..|].
  intros id b Hb. simpl in Hb. apply imap_Some in Hb as (b1 & Hb1 & Hb).
  apply imap_Some in Hb1 as (b2 & Hb2 & Hb1). pose proof Hb2 as Hl.
  unfold locked_bills in Hb2. apply imap_Some in Hb2 as (h & Hh & Hb2).
  destruct (_ && _) eqn:E in Hb2; [|done]. injection Hb2 as <-.
  apply andb_true_iff in E as [[Ht%N.eqb_eq Hd%negb_true_iff]%andb_true_iff _].
  exists h. split; [done|]. split; [done|]. split; [done|].
  unfold net_of_returns in Hb1. rewrite map_lookup_imap, Hl in Hb1. simpl in Hb1.
  unfold with_sum in Hb. rewrite map_lookup_imap in Hb. rewrite map_lookup_imap, Hl in Hb. simpl in Hb.
  unfold net_of_returns, worth, already in *. injection Hb1 as <-. injection Hb as <-.
  destruct (returns_sum _ _ _), (invoiced_sum _ _ _); done.
Qed.

Lemma check_links_Ok i refs ls ls' : check_links i refs ls = inr ls' ->
  Forall2 (fun l l' => lk_BillID l' = lk_BillID l /\ lk_Amount l' = lk_Amount l /\
    exists b, refs !! lk_BillID l = Some b /\ lk_BillNo l' = br_BillNo b /\ check_bill i b l = None) ls ls'.
Proof.
  revert ls'. induction ls as [|l ls IH]; intros ls' H; simpl in H; [by injection H as <-|].
  destruct (refs !! lk_BillID l) as [b|] eqn:Eb; [|done]. destruct (check_bill i b l) eqn:Ec; [done|].
  destruct (check_links i refs ls) as [|done'] eqn:El; [done|]. injection H as <-. constructor; [|by apply IH].
  split_and!; [done..|]. by exists b.
Qed.

Lemma check_bill_None i b l : check_bill i b l = None ->
  br_Status b = StatusApproved /\ br_SubType b = (billSubTypeFor (in_Direction i)).1 /\ br_PartnerID b = Some (in_PartnerID i) /\
  (br_Currency b = "" \/ br_Currency b = "CNY") /\ val (lk_Amount l) <= val (dtruncate 2 (br_TotalAmount b)) - val (br_Invoiced b).
Proof.
  unfold check_bill. destruct (billSubTypeFor _) as [sub name]. intros F%first_failing_None.
  do 5 (apply Forall_cons in F as [? F]). cbn [fst] in *. split_and!.
  - by apply Z.eqb_eq, negb_false_iff.
  - by apply String.eqb_eq, negb_false_iff.
  - apply negb_false_iff in H1. by case_bool_decide.
  - apply andb_false_iff in H2 as [H2|H2]; apply negb_false_iff, String.eqb_eq in H2; auto.
  - apply dgt_false in H3. unfold remaining in H3. by rewrite val_sub in H3.
Qed.

(** The bills an invoice would cover, as the check lets them through. *)
Definition covers (d : DB) (x : Invoices) (i : Invoice) (l : Link) : Prop :=
  exists h, db_heads d !! lk_BillID l = Some h /\ invoiceable i h /\
    val (lk_Amount l) + val (already (in_TenantID i) x (lk_BillID l)) <= val (dtruncate 2 (worth d (in_TenantID i) (lk_BillID l) h)).

Lemma checkLinks_Ok i s ls s' : checkLinks i s = (Ok ls, s') ->
  ex_rows s' = ex_rows s /\ w_db (ex_shop s') = w_db (ex_shop s) /\
  Forall2 (fun l l' => lk_BillID l' = lk_BillID l /\ lk_Amount l' = lk_Amount l /\ covers (w_db (ex_shop s)) (ex_rows s) i l) (in_Links i) ls.
Proof.
  unfold checkLinks. destruct (in_Links i) as [|l0 links] eqn:El; [intros [<- <-]%ret_Ok; by split_and!|]. rewrite <-El. clear El l0 links.
  intros H. apply bind_Ok in H as (refs & s1 & (E1 & E2 & Hr)%LockBills_Ok & [H <-]%of_sum_Ok). split_and!; [done..|].
  apply check_links_Ok in H. eapply Forall2_impl; [exact H|]. intros l l' (Eb & Ea & b & Hb & _ & Hc). split_and!; [done..|].
  apply Hr in Hb as (h & Hh & Ht & Hd & Es & Ek & Ep & Ec & _ & Et & Ei). apply check_bill_None in Hc as (C1 & C2 & C3 & C4 & C5).
  exists h. split; [done|]. split; [constructor; congruence|]. rewrite Et, Ei in C5. lra.
Qed.

(** ** The use cases *)

Lemma NewInvoice_valid q id now i : NewInvoice q id now = inr i -> Validate i = None /\ in_RedOfID i = None /\ in_Status i = StatusIssued.
Proof. unfold NewInvoice, validated. destruct (Validate _) eqn:V; [done|]. by intros [= <-]. Qed.
Lemma NewRed_strikes o no code issue remark by_ id now i : NewRed o no code issue remark by_ id now = inr i -> valid i /\ strikes o i /\ in_ID i = id.
Proof.
  unfold NewRed, validated. destruct (Validate _) eqn:V; [done|]. intros [= <-]. split; [by apply Validate_valid|]. split; [|done].
  constructor; simpl; try done; apply val_neg.
Qed.

Lemma valid_with i name ls : valid i -> Forall2 (fun l l' => lk_BillID l' = lk_BillID l /\ lk_Amount l' = lk_Amount l) (in_Links i) ls ->
  valid (with_links (named i name) ls).
Proof.
  intros V F. assert (Eb : lk_BillID <$> ls = lk_BillID <$> in_Links i).
  { induction F as [|l l' k k' [E _] F IH]; [done|]. by rewrite !fmap_cons, E, IH. }
  assert (Ea : (fun l => lk_Amount l) <$> ls = (fun l => lk_Amount l) <$> in_Links i).
  { clear Eb. induction F as [|l l' k k' [_ E] F IH]; [done|]. by rewrite !fmap_cons, E, IH. }
  destruct V. constructor; simpl; try done.
  - intros H. rewrite (vd_red0 H) in F. by inversion F.
  - by rewrite Eb.
  - apply Forall_forall. intros l' Hl'. apply list_elem_of_lookup in Hl' as [n Hn]. destruct (Forall2_lookup_r _ _ _ _ _ F Hn) as (l & Hl & _ & E).
    rewrite E. rewrite Forall_forall in vd_amounts0. by eapply vd_amounts0, list_elem_of_lookup_2.
  - intros H. change (qsum ((fun l => val (lk_Amount l)) <$> ls) <= val (in_TotalAmount i)).
    assert (E : (fun l => val (lk_Amount l)) <$> ls = (fun l => val (lk_Amount l)) <$> in_Links i); [|rewrite E; by apply vd_within0].
    change (fun l => val (lk_Amount l)) with (val ∘ (fun l : Link => lk_Amount l)). by rewrite !list_fmap_compose, Ea.
Qed.

Lemma register_Ok i s inv s' : valid i -> in_RedOfID i = None -> in_Status i = StatusIssued -> register i s = (Ok inv, s') ->
  w_db (ex_shop s') = w_db (ex_shop s) /\ (exists name ls, inv = with_links (named i name) ls) /\
  exists r ls, entered i r /\ fresh (ex_rows s) r /\ Forall2 (linked (w_db (ex_shop s)) (ex_rows s) i) (in_Links i) ls /\
    ex_rows s' = mkInvoices (is_rows (ex_rows s) ++ [r])%list (is_links (ex_rows s) ++ ls)%list.
Proof.
  intros V Ho Hs H. unfold register in H. apply bind_Ok in H as (o & s1 & Hp%try_Ok & H).
  assert (Hs1 : ex_rows s1 = ex_rows s /\ w_db (ex_shop s1) = w_db (ex_shop s)).
  { assert (K : forall r, PartnerName (in_TenantID i) (in_PartnerID i) s = (r, s1) -> ex_rows s1 = ex_rows s /\ w_db (ex_shop s1) = w_db (ex_shop s)).
    { clear. intros r H. unfold PartnerName, mbind, stm_bind, lift, query, statement in H. destruct (db_fault _); simpl in H; [by injection H as <- <-|].
      destruct (pt_name <$> _) in H; by injection H as <- <-. }
    destruct o; by eapply K. }
  destruct Hs1 as [R1 D1]. apply bind_Ok in H as (name & s2 & Hn & H). destruct o as [e|nm]; [done|]. apply ret_Ok in Hn as [<- <-].
  apply bind_Ok in H as (ls & s3 & (R2 & D2 & F)%checkLinks_Ok & H). cbv zeta in H.
  assert (V' : valid (with_links (named i nm) ls)) by (apply valid_with; [done|]; eapply Forall2_impl; [exact F|]; by intros l l' (? & ? & _)).
  apply bind_Ok in H as (u & s4 & Hi & [<- <-]%ret_Ok). apply InvoiceInsert_Ok in Hi as (D3 & r & lrs & En & Fr & Hx & G); [|done].
  split; [congruence|]. split; [by exists nm, ls|]. exists r, lrs. rewrite R2, R1, D1 in *. split_and!; [|done| |done].
  - by destruct En.
  - simpl in G. clear -F G. revert lrs G. induction F as [|l l' k k' (Eb & Ea & C) F IH]; intros lrs G; inversion G; subst; [constructor|].
    constructor; [|by apply IH]. destruct H1 as (G1 & G2 & G3 & G4). rewrite Ea in G4. rewrite Eb in G2. by constructor.
Qed.

Definition same_registry (s s' : Ext Invoices) : Prop := ex_rows s' = ex_rows s /\ w_db (ex_shop s') = w_db (ex_shop s).
Definition one_step (s s' : Ext Invoices) : Prop :=
  w_db (ex_shop s') = w_db (ex_shop s) /\ registered (w_db (ex_shop s)) (ex_rows s) (ex_rows s').

Lemma filing_goes q s i s' : CreateInvoice_Execute q s = (Ok i, s') -> w_db (ex_shop s') = w_db (ex_shop s) /\
  exists i0 r ls name links, NewInvoice q (in_ID i0) (in_CreatedAt i0) = inr i0 /\ i = with_links (named i0 name) links /\
    entered i0 r /\ fresh (ex_rows s) r /\ Forall2 (linked (w_db (ex_shop s)) (ex_rows s) i0) (in_Links i0) ls /\
    ex_rows s' = mkInvoices (is_rows (ex_rows s) ++ [r])%list (is_links (ex_rows s) ++ ls)%list.
Proof.
  unfold CreateInvoice_Execute. intros H. apply bind_Ok in H as (now & s1 & (w1 & (-> & ->)%time_now_Ok & ->)%lift_Ok & H).
  apply bind_Ok in H as (id & s2 & (w2 & (-> & ->)%uuid_new_Ok & ->)%lift_Ok & H).
  destruct (NewInvoice _ _ _) as [msg|i0] eqn:N; [done|]. apply on_err_Ok, ext_tx_Ok in H as (s3 & H & ->).
  pose proof (NewInvoice_valid _ _ _ _ N) as (V%Validate_valid & Ho & Hs).
  apply register_Ok in H as (D & (name & links & ->) & r & ls & En & Fr & F & X); [|done..]. simpl in *. split; [done|].
  exists i0, r, ls, name, links. split_and!; try done.
  assert (in_ID i0 = uuid_at (w_tick (bump (ex_shop s))) /\ in_CreatedAt i0 = clock_at (w_tick (ex_shop s))) as [-> ->]; [|done].
  unfold NewInvoice, validated in N. destruct (Validate _); [done|]. by injection N as <-.
Qed.
Lemma fails_same {A} (m : IM A) s r s' : InvoiceTx m s = (r, s') -> (forall a, r <> Ok a) -> same_registry s s'.
Proof. intros H Hr. exact (ext_tx_fails _ _ _ _ _ H Hr). Qed.

Lemma filing_fails q s r s' : CreateInvoice_Execute q s = (r, s') -> (forall i, r <> Ok i) -> same_registry s s'.
Proof.
  unfold CreateInvoice_Execute. intros H Hr.
  apply bind_fails in H as [(r0 & H & _)|(now & s1 & (w1 & (-> & ->)%time_now_Ok & ->)%lift_Ok & H)]; [by injection H as _ <-| |done].
  apply bind_fails in H as [(r0 & H & _)|(id & s2 & (w2 & (-> & ->)%uuid_new_Ok & ->)%lift_Ok & H)]; [by injection H as _ <-| |done].
  destruct (NewInvoice _ _ _) as [msg|i0]; [by injection H as _ <-|].
  apply on_err_fails in H as (r0 & H & Hr0); [|done]. by apply fails_same in H.
Qed.

Lemma refused_Ok kind o s u s' : refused kind o s = (Ok u, s') -> o = None /\ s' = s.
Proof. destruct o; [done|]. by intros [_ <-]%ret_Ok. Qed.

Lemma GetByID_same tenant id s r s' : InvoiceGetByID tenant id s = (r, s') -> same_registry s s'.
Proof.
  unfold InvoiceGetByID. intros H.
  unfold mbind, stm_bind, at_state, ext_query, ext_statement in H. destruct (db_fault _); [by injection H as _ <-|].
  destruct (find_invoice _ _ _ _); simpl in H; [|by injection H as _ <-]. destruct (db_fault _) in H; by injection H as _ <-.
Qed.

Lemma no_letter i : CanVoid i = None \/ CanRed i = None -> in_RedOfID i = None.
Proof.
  unfold CanVoid, CanRed. intros [F|F]; apply first_failing_None in F; apply Forall_cons in F as [F _]; simpl in F; by destruct (in_RedOfID i).
Qed.

Lemma void_body_Ok tenant id s u s' : NoDup (iid <$> is_rows (ex_rows s)) -> void_body tenant id s = (Ok u, s') ->
  w_db (ex_shop s') = w_db (ex_shop s) /\
  exists r1 r r2 now, issued_at (ex_rows s) r1 r r2 /\ is_invoice tenant id r = true /\
    ex_rows s' = mkInvoices (r1 ++ moved StatusVoid now r :: r2)%list (is_links (ex_rows s)).
Proof.
  intros Hn H. unfold void_body in H. apply bind_Ok in H as (i & s1 & (-> & r & Hf & ->)%GetForUpdate_Ok & H).
  apply bind_Ok in H as (u1 & s2 & [Hc ->]%refused_Ok & H). pose proof (no_letter _ (or_introl Hc)) as Ho. simpl in Ho.
  apply bind_Ok in H as (b & s3 & (D & now & Hs)%SetStatus_Ok & [Hb <-]%guard_err_Ok). apply negb_false_iff in Hb as ->. simpl in *.
  pose proof (find_some _ _ Hf) as [_ Hi]. symmetry in Hs. destruct (set_status_hits _ _ _ _ _ _ _ _ Hn Hf Hs) as (r1 & r2 & E & Est & Ex).
  split; [done|]. exists r1, r, r2, now. split_and!; [|done|done]. split_and!; [done| |done|done].
  by apply is_invoice_spec in Hi as (_ & _ & ?).
Qed.

Lemma find_app_l {A} (p : A -> bool) l k r : List.find p l = Some r -> List.find p (l ++ k) = Some r.
Proof. induction l as [|a l IH]; simpl; [done|]. by destruct (p a). Qed.

Lemma red_body_Ok q s red s' : NoDup (iid <$> is_rows (ex_rows s)) -> red_body q s = (Ok red, s') ->
  w_db (ex_shop s') = w_db (ex_shop s) /\
  exists r1 r r2 row now, issued_at (ex_rows s) r1 r r2 /\ is_invoice (ri_TenantID q) (ri_ID q) r = true /\
    valid red /\ strikes (iw_invoice r) red /\ entered red row /\ fresh (ex_rows s) row /\
    in_InvoiceNo red = trim_space (ri_InvoiceNo q) /\
    ex_rows s' = mkInvoices (r1 ++ moved StatusRed now r :: r2 ++ [row])%list (is_links (ex_rows s)).
Proof.
  intros Hn H. unfold red_body in H. apply bind_Ok in H as (o & s1 & (-> & r & Hf & ->)%GetForUpdate_Ok & H).
  apply bind_Ok in H as (u1 & s2 & [Hc ->]%refused_Ok & H). pose proof (no_letter _ (or_intror Hc)) as Ho. simpl in Ho.
  apply bind_Ok in H as (now & s3 & (w1 & (-> & ->)%time_now_Ok & ->)%lift_Ok & H).
  apply bind_Ok in H as (id & s4 & (w2 & (-> & ->)%uuid_new_Ok & ->)%lift_Ok & H).
  apply bind_Ok in H as (i & s5 & [Hr <-]%of_sum_Ok & H). destruct (NewRed _ _ _ _ _ _ _ _) as [|i'] eqn:N; [done|]. injection Hr as ->.
  assert (Eno : in_InvoiceNo i = trim_space (ri_InvoiceNo q)) by (unfold NewRed, validated in N; destruct (Validate _); [done|]; by injection N as <-).
  apply NewRed_strikes in N as (V & K & _). assert (K' : strikes (iw_invoice r) i) by (by destruct K). clear K.
  apply bind_Ok in H as (u2 & s6 & (D & row & ls & En & Fr & Hx & F)%InvoiceInsert_Ok & H); [|done].
  apply bind_Ok in H as (b & s7 & (D2 & now2 & Hs)%SetStatus_Ok & H). apply bind_Ok in H as (u3 & s8 & [Hb <-]%guard_err_Ok & [<- <-]%ret_Ok).
  apply negb_false_iff in Hb as ->. simpl in *. rewrite (sk_links _ _ K') in F. inversion F; subst ls. clear F.
  pose proof (find_some _ _ Hf) as [Hin Hi]. pose proof Hi as Hi2. apply is_invoice_spec in Hi2 as (Eid & _ & Hd). apply list_elem_of_In in Hin.
  symmetry in Hs. rewrite Hx in Hs.
  destruct (set_status_hits (ri_TenantID q) (ri_ID q) StatusIssued StatusRed now2
    (mkInvoices (is_rows (ex_rows s) ++ [row])%list (is_links (ex_rows s) ++ [])%list) (ex_rows s7) r) as (r1 & r2 & E & Est & Ex); [..|exact Hs|].
  { simpl. rewrite fmap_app. apply NoDup_app. split_and!; [done| |apply NoDup_singleton]. intros y Hy ->%list_elem_of_singleton. by apply (proj1 Fr). }
  { simpl. by apply find_app_l. }
  simpl in E, Ex. rewrite app_nil_r in Ex.
  assert (exists r2', r2 = (r2' ++ [row])%list /\ is_rows (ex_rows s) = (r1 ++ r :: r2')%list) as (r2' & -> & E').
  { destruct (exists_last (l := r :: r2)) as (l & a & El); [done|].
    assert (E2 : (is_rows (ex_rows s) ++ [row])%list = ((r1 ++ l) ++ [a])%list) by (by rewrite E, El, <-app_assoc).
    apply app_inj_tail in E2 as [E2 ->]. destruct l as [|r' l]; simpl in El; injection El as <- ->.
    - exfalso. apply (proj1 Fr). by apply list_elem_of_fmap_2.
    - by exists l. }
  split; [congruence|]. exists r1, r, r2', row, now2. by split_and!.
Qed.

(** A request to the registry. *)
Inductive InvoiceRequest :=
  | CreateInvoice (q : InvoiceInput)
  | VoidInvoice (tenant id : uuid)
  | RedInvoice (q : RedInput)
  | GetInvoice (tenant id : uuid).
Definition serve_invoice (q : InvoiceRequest) : IM unit :=
  match q with
  | CreateInvoice q => CreateInvoice_Execute q;; mret tt
  | VoidInvoice tenant id => VoidInvoice_Execute tenant id;; mret tt
  | RedInvoice q => RedInvoice_Execute q;; mret tt
  | GetInvoice tenant id => GetInvoice_Execute tenant id;; mret tt
  end.

Lemma drop_result {A} (m : IM A) s : ((m;; mret tt : IM unit) s).2 = (m s).2.
Proof. unfold mbind, stm_bind. by destruct (m s) as [[a|e|w] s1]. Qed.

Lemma create_step q s : one_step s (CreateInvoice_Execute q s).2 \/ same_registry s (CreateInvoice_Execute q s).2.
Proof.
  destruct (CreateInvoice_Execute q s) as [r s'] eqn:H. simpl. destruct (ok_or_not r) as [[i ->]|Hr]; [left|right; by eapply filing_fails].
  apply filing_goes in H as (D & i0 & r & ls & name & links & N & _ & En & Fr & F & X). split; [done|]. rewrite X.
  apply NewInvoice_valid in N as (V & Ho & Hs). eapply reg_create; [by apply Validate_valid|done..].
Qed.

Lemma tx_then {A B} f (m : IM A) (k : A -> IM B) s : (forall a s1 r s', k a s1 = (r, s') -> same_registry s1 s') ->
  (exists a s1, m (ext_bump s) = (Ok a, s1) /\ same_registry s1 ((on_err f (InvoiceTx m) ≫= k) s).2) \/ same_registry s ((on_err f (InvoiceTx m) ≫= k) s).2.
Proof.
  intros Hk. destruct ((on_err f (InvoiceTx m) ≫= k) s) as [r s'] eqn:H. simpl.
  assert (K : (exists a s1, InvoiceTx m s = (Ok a, s1) /\ same_registry s1 s') \/ same_registry s s').
  { unfold mbind, stm_bind in H. destruct (on_err f (InvoiceTx m) s) as [r1 s1] eqn:H1. destruct (ok_or_not r1) as [[a ->]|Hr1].
    - apply on_err_Ok in H1. left. exists a, s1. split; [done|]. by eapply Hk.
    - right. apply on_err_fails in H1 as (r0 & H1 & Hr0); [|done]. apply fails_same in H1; [|done]. destruct r1; [by destruct (Hr1 a)|by injection H as _ <-..]. }
  destruct K as [(a & s1 & H1 & K)|K]; [left|by right]. apply ext_tx_Ok in H1 as (s2 & H1 & ->). exists a, s2. split; [done|]. exact K.
Qed.

Lemma void_step tenant id s : NoDup (iid <$> is_rows (ex_rows s)) ->
  one_step s (VoidInvoice_Execute tenant id s).2 \/ same_registry s (VoidInvoice_Execute tenant id s).2.
Proof.
  intros Hn. unfold VoidInvoice_Execute. edestruct (tx_then (unless [ErrInvoiceNotFound; ErrConflict] "invoice void") (void_body tenant id)
    (fun _ => InvoiceGetByID tenant id) s) as [(a & s1 & H & R1 & R2)|K]; [by intros ????; apply GetByID_same| |by right].
  left. apply void_body_Ok in H as (D & r1 & r & r2 & now & I & _ & X); [|done]. split; [by rewrite R2, D|]. rewrite R1, X. by eapply reg_void.
Qed.
Lemma red_step q s : NoDup (iid <$> is_rows (ex_rows s)) ->
  one_step s (RedInvoice_Execute q s).2 \/ same_registry s (RedInvoice_Execute q s).2.
Proof.
  intros Hn. unfold RedInvoice_Execute. edestruct (tx_then (unless [ErrInvoiceNotFound; ErrConflict; ErrInvalidInput; ErrDuplicateNo] "invoice red") (red_body q)
    (fun red => InvoiceGetByID (ri_TenantID q) (in_ID red)) s) as [(a & s1 & H & R1 & R2)|K]; [by intros ????; apply GetByID_same| |by right].
  left. apply red_body_Ok in H as (D & r1 & r & r2 & row & now & I & _ & V & K & En & Fr & _ & X); [|done]. split; [by rewrite R2, D|]. rewrite R1, X.
  by eapply reg_strike.
Qed.
Lemma serve_refines q s : NoDup (iid <$> is_rows (ex_rows s)) -> one_step s (serve_invoice q s).2 \/ same_registry s (serve_invoice q s).2.
Proof.
  intros Hn. destruct q as [q|tenant id|q|tenant id]; cbn [serve_invoice]; rewrite drop_result; [apply create_step|by apply void_step|by apply red_step|].
  right. unfold GetInvoice_Execute. destruct (on_err _ _ s) as [r s'] eqn:H. unfold on_err in H.
  destruct (InvoiceGetByID tenant id s) as [r0 s0] eqn:G. apply GetByID_same in G. destruct r0; by injection H as _ <-.
Qed.

(** ** What the registry keeps *)

(** What links to a bill come to, of the invoices that are issued. *)
Definition live_on (x : Invoices) (b : uuid) (l : LinkRow) : bool := N.eqb (lr_bill l) b && issued_row x l.
Definition live_sum (x : Invoices) (b : uuid) : Q := qsum ((fun l => val (lr_amount l)) <$> select (live_on x b) (is_links x)).

(** An invoice and the red letter that struck it. *)
Record struck_by (o i : Invoice) : Prop := {
  sb_of : in_RedOfID i = Some (in_ID o);
  sb_original : in_RedOfID o = None;
  sb_status : in_Status o = StatusRed;
  sb_letter : in_Status i = StatusIssued;
  sb_parties : (in_TenantID i, in_Direction i, in_PartnerID i) = (in_TenantID o, in_Direction o, in_PartnerID o);
  sb_excl : val (in_AmountExclTax i) == - val (in_AmountExclTax o);
  sb_tax : val (in_TaxAmount i) == - val (in_TaxAmount o);
  sb_total : val (in_TotalAmount i) == - val (in_TotalAmount o);
}.
Definition letters (x : Invoices) : list uuid := omap (fun r => in_RedOfID (iw_invoice r)) (is_rows x).
Definition has_row (x : Invoices) (P : InvoiceRow -> Prop) : Prop := exists r, r ∈ is_rows x /\ P r.

Record registry_wf (x : Invoices) : Prop := {
  rg_ids : NoDup (iid <$> is_rows x);
  rg_numbers : NoDup (live_numbers x);
  rg_status : Forall (fun r => ValidStatus (in_Status (iw_invoice r)) = true) (is_rows x);
  rg_live : Forall (fun r => iw_deleted r = false) (is_rows x);
  rg_sums : Forall (fun r => val (in_AmountExclTax (iw_invoice r)) + val (in_TaxAmount (iw_invoice r)) == val (in_TotalAmount (iw_invoice r))) (is_rows x);
  rg_letters : Forall (fun r => forall o, in_RedOfID (iw_invoice r) = Some o -> has_row x (fun q => iid q = o /\ struck_by (iw_invoice q) (iw_invoice r))) (is_rows x);
  rg_struck : Forall (fun r => in_Status (iw_invoice r) = StatusRed -> has_row x (fun q => struck_by (iw_invoice r) (iw_invoice q))) (is_rows x);
  rg_once : NoDup (letters x);
  rg_links : Forall (fun l => 0 < val (lr_amount l) /\
    has_row x (fun r => iid r = lr_invoice l /\ in_TenantID (iw_invoice r) = lr_tenant l /\ in_RedOfID (iw_invoice r) = None)) (is_links x);
}.
Record covered (d : DB) (x : Invoices) : Prop := {
  cv_bills : Forall (fun l => exists h, db_heads d !! lr_bill l = Some h /\ bh_tenant (hr_head h) = lr_tenant l /\
    bh_status (hr_head h) = StatusApproved /\ hr_deleted h = false) (is_links x);
  cv_sum : forall b h, db_heads d !! b = Some h -> live_sum x b <= Qmax 0 (val (bh_total (hr_head h)));
}.

(** *** Sums over rows *)

Lemma qsum_select_le {A} (f : A -> Q) (p q : A -> bool) l : Forall (fun a => 0 <= f a) l -> (forall a, a ∈ l -> p a = true -> q a = true) ->
  qsum (f <$> select p l) <= qsum (f <$> select q l).
Proof.
  unfold select. induction l as [|a l IH]; intros Hf Hp; [cbn; lra|]. apply Forall_cons in Hf as [Ha Hf].
  specialize (IH Hf (fun b Hb => Hp b (list_elem_of_further _ _ _ Hb))). specialize (Hp a (list_elem_of_here _ _)). cbn [List.filter].
  destruct (p a); [rewrite (Hp eq_refl)|destruct (q a)]; rewrite ?fmap_cons; cbn [qsum]; lra.
Qed.
Lemma issued_spec x l : issued_row x l = true <-> has_row x (fun r => iid r = lr_invoice l /\ in_Status (iw_invoice r) = StatusIssued /\ iw_deleted r = false).
Proof.
  unfold issued_row, has_row. rewrite existsb_exists. split; intros (r & H1 & H2); exists r; rewrite <-list_elem_of_In in *; (split; [done|]).
  - rewrite !andb_true_iff, N.eqb_eq, String.eqb_eq, negb_true_iff in H2. tauto.
  - unfold iid in H2. destruct H2 as (-> & -> & ->). by rewrite N.eqb_refl.
Qed.
Lemma live_sum_le x x' b : registry_wf x -> is_links x' = is_links x -> (forall l, l ∈ is_links x -> issued_row x' l = true -> issued_row x l = true) ->
  live_sum x' b <= live_sum x b.
Proof.
  intros W E H. unfold live_sum. rewrite E. apply qsum_select_le.
  - eapply Forall_impl; [apply W|]. intros l [Hl _]. simpl. lra.
  - intros l Hl. unfold live_on. rewrite !andb_true_iff. intros [? ?]. auto.
Qed.
Lemma already_live d x tenant b h : covered d x -> db_heads d !! b = Some h -> bh_tenant (hr_head h) = tenant ->
  val (already tenant x b) == live_sum x b.
Proof.
  intros C Hh Ht. unfold already, invoiced_sum, live_sum.
  assert (E : select (fun l => N.eqb (lr_tenant l) tenant && N.eqb (lr_bill l) b && issued_row x l) (is_links x) = select (live_on x b) (is_links x)).
  { unfold select. apply List.filter_ext_in. intros l Hl%list_elem_of_In. unfold live_on. destruct (N.eqb_spec (lr_bill l) b) as [Eb|]; [|by rewrite andb_false_r].
    pose proof (cv_bills _ _ C) as F. rewrite Forall_forall in F. destruct (F l Hl) as (h' & Hh' & Ht' & _). rewrite Eb, Hh in Hh'. injection Hh' as <-.
    by rewrite <-Ht', Ht, N.eqb_refl. }
  rewrite E. clear E. destruct (select (live_on x b) (is_links x)) as [|l ls]; [apply val_zero|]. change (val (dsum_from dzero (lr_amount <$> l :: ls)) == qsum ((fun l => val (lr_amount l)) <$> l :: ls)).
  rewrite val_dsum_from, val_zero. rewrite <-list_fmap_compose. unfold compose. ring.
Qed.

(** *** One step *)

Lemma moved_status to now r : in_Status (iw_invoice (moved to now r)) = to.
Proof. done. Qed.
Lemma split_row x r1 r r2 : issued_at x r1 r r2 -> r ∈ is_rows x.
Proof. intros [-> _]. apply elem_of_app. right. by left. Qed.

(** The rows with one of them in another status. *)
Lemma elem_moved {r1 r2 : list InvoiceRow} {r r' q} : q ∈ (r1 ++ r' :: r2)%list -> q = r' \/ q ∈ (r1 ++ r :: r2)%list /\ (NoDup (iid <$> (r1 ++ r :: r2)%list) -> iid q <> iid r).
Proof.
  intros H. apply elem_of_app in H as [H|[->|H]%elem_of_cons]; [right|by left|right].
  - split; [apply elem_of_app; by left|]. rewrite fmap_app, fmap_cons. intros (_ & N & _)%NoDup_app E. eapply N; [|by left].
    rewrite <-E. by apply list_elem_of_fmap_2.
  - split; [apply elem_of_app; right; by right|]. rewrite fmap_app, fmap_cons. intros (_ & _ & [N _]%NoDup_cons)%NoDup_app E. apply N.
    rewrite <-E. by apply list_elem_of_fmap_2.
Qed.
Lemma elem_kept {r1 r2 : list InvoiceRow} {r r' q} : q ∈ (r1 ++ r :: r2)%list -> q = r \/ q ∈ (r1 ++ r' :: r2)%list.
Proof. rewrite !elem_of_app, !elem_of_cons. tauto. Qed.
Lemma live_numbers_moved r1 r r2 to now ls ls' : live_numbers (mkInvoices (r1 ++ moved to now r :: r2)%list ls) = live_numbers (mkInvoices (r1 ++ r :: r2)%list ls').
Proof. unfold live_numbers. simpl. rewrite !select_app, !fmap_app. f_equal. unfold select. simpl. by destruct (iw_deleted r). Qed.
Lemma live_numbers_app rs ks ls : live_numbers (mkInvoices (rs ++ ks)%list ls) = (live_numbers (mkInvoices rs ls) ++ live_numbers (mkInvoices ks ls))%list.
Proof. unfold live_numbers. simpl. by rewrite select_app, fmap_app. Qed.

Lemma wf_created x r ls : registry_wf x -> fresh x r -> in_RedOfID (iw_invoice r) = None -> in_Status (iw_invoice r) = StatusIssued -> iw_deleted r = false ->
  val (in_AmountExclTax (iw_invoice r)) + val (in_TaxAmount (iw_invoice r)) == val (in_TotalAmount (iw_invoice r)) ->
  Forall (fun l => 0 < val (lr_amount l) /\ lr_invoice l = iid r /\ lr_tenant l = in_TenantID (iw_invoice r)) ls ->
  registry_wf (mkInvoices (is_rows x ++ [r])%list (is_links x ++ ls)%list).
Proof.
  intros W [F1 F2] Ho Hs Hd Hv Hl.
  assert (M : forall P, has_row x P -> has_row (mkInvoices (is_rows x ++ [r])%list (is_links x ++ ls)%list) P).
  { intros P (q & Hq & HP). exists q. split; [apply elem_of_app; by left|done]. }
  destruct W. constructor; simpl.
  - rewrite fmap_app. apply NoDup_app. split_and!; [done| |apply NoDup_singleton]. by intros y Hy ->%list_elem_of_singleton.
  - change (is_rows x) with (is_rows (mkInvoices (is_rows x) (is_links x))). rewrite live_numbers_app. simpl.
    apply NoDup_app. split_and!; [done| |unfold live_numbers, select; simpl; destruct (negb _); [apply NoDup_singleton|constructor]].
    intros y Hy Hy'. unfold live_numbers, select in Hy'. simpl in Hy'. destruct (negb _); [|by apply elem_of_nil in Hy'].
    apply list_elem_of_singleton in Hy' as ->. by apply F2.
  - apply Forall_app. split; [done|]. constructor; [by rewrite Hs|done].
  - apply Forall_app. split; [done|]. by constructor.
  - apply Forall_app. split; [done|]. by constructor.
  - apply Forall_app. split; [|constructor; [|done]; intros o E; congruence]. eapply Forall_impl; [exact rg_letters0|]. simpl. intros q Hq o E. by apply M, Hq.
  - apply Forall_app. split; [|constructor; [|done]; rewrite Hs; discriminate]. eapply Forall_impl; [exact rg_struck0|]. simpl. intros q Hq E. by apply M, Hq.
  - unfold letters in *. simpl. rewrite omap_app. simpl. rewrite Ho. by rewrite app_nil_r.
  - apply Forall_app. split.
    + eapply Forall_impl; [exact rg_links0|]. simpl. intros l [Hp Hr]. split; [done|by apply M].
    + eapply Forall_impl; [exact Hl|]. simpl. intros l (Hp & Hi & Ht). split; [done|]. exists r. split; [apply elem_of_app; right; by left|]. by split_and!.
Qed.

Lemma elem_after {x r1 r r2} r' k q : registry_wf x -> issued_at x r1 r r2 -> q ∈ (r1 ++ r' :: r2 ++ k)%list ->
  q = r' \/ (q ∈ is_rows x /\ iid q <> iid r) \/ q ∈ k.
Proof.
  intros W [E _] H. rewrite app_comm_cons, app_assoc in H. apply elem_of_app in H as [H|H]; [|by right; right].
  destruct (elem_moved (r := r) H) as [->|[H1 H2]]; [by left|]. right. left. rewrite E. split; [done|]. apply H2. rewrite <-E. apply W.
Qed.
Lemma elem_before {x r1 r r2} r' k q : issued_at x r1 r r2 -> q ∈ is_rows x -> q = r \/ q ∈ (r1 ++ r' :: r2 ++ k)%list.
Proof.
  intros [-> _] H. destruct (elem_kept (r' := r') H) as [->|K]; [by left|]. right. rewrite app_comm_cons, app_assoc. apply elem_of_app. by left.
Qed.

(** What joins the rows when one of them is moved: its red letter, if it is struck. *)
Definition letter_of (to : string) (now : time) (x : Invoices) (r : InvoiceRow) (k : list InvoiceRow) : Prop :=
  (to = StatusVoid /\ k = []) \/
  exists red, to = StatusRed /\ k = [red] /\ fresh x red /\ iw_deleted red = false /\ struck_by (iw_invoice (moved to now r)) (iw_invoice red) /\
    val (in_AmountExclTax (iw_invoice red)) + val (in_TaxAmount (iw_invoice red)) == val (in_TotalAmount (iw_invoice red)).

Lemma wf_moved x r1 r r2 to now k : registry_wf x -> issued_at x r1 r r2 -> letter_of to now x r k ->
  registry_wf (mkInvoices (r1 ++ moved to now r :: r2 ++ k)%list (is_links x)).
Proof.
  intros W I L. pose proof I as (E & Hd & Ho & Hs). set (x' := mkInvoices _ _).
  assert (Hk : Forall (fun q => fresh x q /\ iw_deleted q = false /\ in_Status (iw_invoice q) = StatusIssued /\ in_RedOfID (iw_invoice q) = Some (iid r) /\
    val (in_AmountExclTax (iw_invoice q)) + val (in_TaxAmount (iw_invoice q)) == val (in_TotalAmount (iw_invoice q)) /\
    to = StatusRed /\ struck_by (iw_invoice (moved to now r)) (iw_invoice q)) k /\ (length k <= 1)%nat).
  { destruct L as [[_ ->]|(red & -> & -> & ? & ? & S & ?)]; [split; [done|simpl; lia]|]. split; [|simpl; lia]. constructor; [|done]. pose proof S as []. by split_and!. }
  destruct Hk as [Hk Hk1]. rewrite Forall_forall in Hk.
  assert (M : forall P, has_row x (fun q => q <> r /\ P q) -> has_row x' P).
  { intros P (q & Hq & Hne & HP). exists q. split; [|done]. by destruct (elem_before (moved to now r) k q I Hq). }
  assert (Erow : is_rows x' = ((r1 ++ moved to now r :: r2) ++ k)%list) by (subst x'; simpl; by rewrite app_comm_cons, app_assoc).
  assert (Hto : ValidStatus to = true) by (destruct L as [[-> _]|(? & -> & _)]; done).
  pose proof W as W0. destruct W. constructor.
  - rewrite Erow, fmap_app. assert (Ei : iid <$> (r1 ++ moved to now r :: r2)%list = iid <$> is_rows x) by (by rewrite E, !fmap_app).
    rewrite Ei. apply NoDup_app. split_and!; [done| |].
    + intros y Hy (q & -> & Hq)%list_elem_of_fmap. by apply (proj1 (proj1 (Hk q Hq))).
    + destruct k as [|a [|b k]]; [constructor|apply NoDup_singleton|simpl in Hk1; lia].
  - unfold x'. rewrite app_comm_cons, app_assoc, live_numbers_app. rewrite (live_numbers_moved _ _ _ _ _ _ (is_links x)).
    assert (Ex : mkInvoices (r1 ++ r :: r2)%list (is_links x) = x) by (rewrite <-E; by destruct x). rewrite Ex. apply NoDup_app. split_and!; [done| |].
    + unfold live_numbers at 2. simpl. intros y Hy (q & -> & [_ Hq]%elem_of_select)%list_elem_of_fmap. by apply (proj2 (proj1 (Hk q Hq))).
    + unfold live_numbers. simpl. destruct k as [|a [|b k]]; [constructor| |simpl in Hk1; lia]. unfold select. simpl. destruct (negb _); [apply NoDup_singleton|constructor].
  - apply Forall_forall. intros q [->|[[Hq _]|Hq]]%(elem_after (moved to now r) k q W0 I); [done| |].
    + rewrite Forall_forall in rg_status0. by apply rg_status0.
    + by destruct (Hk q Hq) as (_ & _ & -> & _).
  - apply Forall_forall. rewrite Forall_forall in rg_live0. intros q [->|[[Hq _]|Hq]]%(elem_after (moved to now r) k q W0 I);
      [done|by apply rg_live0|by destruct (Hk q Hq) as (_ & ? & _)].
  - apply Forall_forall. rewrite Forall_forall in rg_sums0. intros q [->|[[Hq _]|Hq]]%(elem_after (moved to now r) k q W0 I);
      [apply (rg_sums0 r), (split_row _ _ _ _ I)|by apply rg_sums0|by destruct (Hk q Hq) as (_ & _ & _ & _ & ? & _)].
  - apply Forall_forall. rewrite Forall_forall in rg_letters0. intros q [->|[[Hq _]|Hq]]%(elem_after (moved to now r) k q W0 I) o Eo.
    + simpl in Eo. congruence.
    + apply M. destruct (rg_letters0 q Hq o Eo) as (q0 & Hq0 & Ei & S). exists q0. split; [done|]. split; [|done]. intros ->.
      rewrite (sb_status _ _ S) in Hs. discriminate.
    + destruct (Hk q Hq) as (_ & _ & _ & Er & _ & _ & S). exists (moved to now r). split; [|split; [change (iid r = o); congruence|done]].
      rewrite Erow. apply elem_of_app. left. apply elem_of_app. right. by left.
  - apply Forall_forall. rewrite Forall_forall in rg_struck0. intros q [->|[[Hq _]|Hq]]%(elem_after (moved to now r) k q W0 I) Es.
    + simpl in Es. destruct L as [[-> _]|(red & _ & -> & _ & _ & S & _)]; [discriminate|]. exists red. split; [|exact S]. rewrite Erow. apply elem_of_app. right. by left.
    + apply M. destruct (rg_struck0 q Hq Es) as (q0 & Hq0 & S). exists q0. split; [done|]. split; [|done]. intros ->. rewrite (sb_of _ _ S) in Ho. discriminate.
    + destruct (Hk q Hq) as (_ & _ & K & _). rewrite K in Es. discriminate.
  - unfold letters. rewrite Erow, omap_app.
    assert (El : omap (fun r => in_RedOfID (iw_invoice r)) (r1 ++ moved to now r :: r2)%list = letters x).
    { unfold letters. rewrite E, !omap_app. simpl. by rewrite Ho. }
    rewrite El. destruct k as [|a [|b k]]; [by rewrite app_nil_r| |simpl in Hk1; lia]. destruct (Hk a (list_elem_of_here _ _)) as (_ & _ & _ & Er & _).
    simpl. rewrite Er. apply NoDup_app. split_and!; [done| |apply NoDup_singleton]. intros y Hy ->%list_elem_of_singleton.
    apply list_elem_of_omap in Hy as (q & Hq & Eq). rewrite Forall_forall in rg_letters0. destruct (rg_letters0 q Hq _ Eq) as (q0 & Hq0 & Ei & S).
    assert (q0 = r) as -> by (eapply (NoDup_key iid); [exact rg_ids0|done|by eapply split_row|done]). rewrite (sb_status _ _ S) in Hs. discriminate.
  - simpl. eapply Forall_impl; [exact rg_links0|]. simpl. intros l [Hp (q & Hq & Hi & Ht & Hn)]. split; [done|].
    destruct (elem_before (moved to now r) k q I Hq) as [->|K]; [|exists q; by split_and!]. exists (moved to now r). split; [|by split_and!].
    rewrite Erow. apply elem_of_app. left. apply elem_of_app. right. by left.
Qed.

(** *** What is invoiced of a bill *)

(** Sales are given back for amounts of money that are not negative. *)
Definition returns_sound (d : DB) : Prop := forall tenant sale v, returns_sum tenant d sale = Some v -> 0 <= val v.

Lemma truncate_le n a : val (dtruncate n a) <= Qmax 0 (val a).
Proof.
  destruct (Qlt_le_dec (val a) 0) as [H|H].
  - rewrite Q.max_l by lra. apply val_truncate_neg. lra.
  - rewrite Q.max_r by lra. by apply val_truncate.
Qed.
Lemma worth_le d tenant b h : returns_sound d -> val (dtruncate 2 (worth d tenant b h)) <= Qmax 0 (val (bh_total (hr_head h))).
Proof.
  intros R. eapply Qle_trans; [apply truncate_le|]. apply Q.max_lub; [apply Q.le_max_l|]. unfold worth. destruct (returns_sum tenant d b) as [v|] eqn:E; [|apply Q.le_max_r].
  specialize (R _ _ _ E). rewrite val_max, val_zero, val_sub. pose proof (Q.le_max_l 0 (val (bh_total (hr_head h)))). pose proof (Q.le_max_r 0 (val (bh_total (hr_head h)))).
  apply Q.max_lub; lra.
Qed.

Lemma live_sum_created d x i r ls b : registry_wf x -> fresh x r -> entered i r -> in_Status i = StatusIssued -> valid i ->
  Forall2 (linked d x i) (in_Links i) ls ->
  live_sum (mkInvoices (is_rows x ++ [r])%list (is_links x ++ ls)%list) b ==
    live_sum x b + qsum ((fun l => val (lr_amount l)) <$> select (fun l => N.eqb (lr_bill l) b) ls).
Proof.
  intros W [F _] En Hs V L. set (x' := mkInvoices _ _). unfold live_sum. simpl. rewrite select_app, fmap_app, qsum_app.
  assert (E1 : select (live_on x' b) (is_links x) = select (live_on x b) (is_links x)).
  { unfold select. apply List.filter_ext_in. intros l Hl%list_elem_of_In. unfold live_on. f_equal. apply eq_true_iff_eq. rewrite !issued_spec. split.
    - intros (q & Hq & Hi & Hst & Hd). apply elem_of_app in Hq as [Hq| ->%list_elem_of_singleton]; [exists q; by split_and!|]. exfalso.
      pose proof (rg_links _ W) as K. rewrite Forall_forall in K. destruct (K l Hl) as [_ (q & Hq & Hi' & _)]. apply F. rewrite Hi, <-Hi'. by apply list_elem_of_fmap_2.
    - intros (q & Hq & ?). exists q. split; [apply elem_of_app; by left|done]. }
  rewrite E1. apply Qplus_inj_l.
  assert (E2 : select (live_on x' b) ls = select (fun l => N.eqb (lr_bill l) b) ls); [|by rewrite E2].
  unfold select. apply List.filter_ext_in. intros l Hl%list_elem_of_In. unfold live_on. rewrite (proj2 (issued_spec x' l)); [by rewrite andb_true_r|].
  apply list_elem_of_lookup in Hl as [n Hn]. destruct (Forall2_lookup_r _ _ _ _ _ L Hn) as (l0 & _ & K). exists r.
  split; [apply elem_of_app; right; by left|]. split_and!; [by rewrite (lk_invoice _ _ _ _ _ K), (en_id _ _ En)|by rewrite (en_status _ _ En)|apply En].
Qed.

(** Of the links of one invoice, at most one is to a bill. *)
Lemma one_link d x i links ls b : NoDup (lk_BillID <$> links) -> Forall2 (linked d x i) links ls ->
  select (fun l => N.eqb (lr_bill l) b) ls = [] \/
  exists l lr, select (fun l => N.eqb (lr_bill l) b) ls = [lr] /\ l ∈ links /\ lk_BillID l = b /\ linked d x i l lr.
Proof.
  intros Hn H. induction H as [|l lr links ls H _ IH]; [by left|].
  rewrite fmap_cons in Hn. apply NoDup_cons in Hn as [Hni Hn]. specialize (IH Hn). unfold select in *. cbn [List.filter]. rewrite (lk_bill _ _ _ _ _ H).
  destruct (N.eqb_spec (lk_BillID l) b) as [Eb|].
  - right. exists l, lr. destruct IH as [->|(l2 & lr2 & _ & Hl & E2 & _)]; [split_and!; [done|by left|done..]|].
    exfalso. apply Hni. rewrite Eb, <-E2. by apply list_elem_of_fmap_2.
  - destruct IH as [IH|(l2 & lr2 & E & Hl & ?)]; [by left|]. right. exists l2, lr2. split; [done|]. split; [by right|done].
Qed.

Lemma covered_created d x i r ls : registry_wf x -> covered d x -> returns_sound d -> fresh x r -> entered i r -> in_Status i = StatusIssued -> valid i ->
  Forall2 (linked d x i) (in_Links i) ls -> covered d (mkInvoices (is_rows x ++ [r])%list (is_links x ++ ls)%list).
Proof.
  intros W C R F En Hs V L. constructor.
  - simpl. apply Forall_app. split; [apply C|]. apply Forall_forall. intros lr [n Hn]%list_elem_of_lookup.
    destruct (Forall2_lookup_r _ _ _ _ _ L Hn) as (l & _ & K). destruct (lk_head _ _ _ _ _ K) as (h & Hh & B & _). exists h.
    rewrite (lk_bill _ _ _ _ _ K), (lk_tenant _ _ _ _ _ K). split_and!; [done|apply B..].
  - intros b h Hh. rewrite (live_sum_created d x i r ls b W F En Hs V L). pose proof (cv_sum _ _ C b h Hh) as Hc.
    destruct (one_link d x i (in_Links i) ls b) as [->|(l & lr & -> & _ & Eb & K)]; [apply V|done|cbn; lra|].
    destruct (lk_head _ _ _ _ _ K) as (h' & Hh' & B & Hle). rewrite Eb, Hh in Hh'. injection Hh' as <-. rewrite Eb in Hle.
    rewrite (already_live d x (in_TenantID i) b h C Hh (ib_tenant _ _ B)) in Hle. pose proof (worth_le d (in_TenantID i) b h R) as Hw.
    change (qsum _) with (val (lr_amount lr) + 0). rewrite (lk_amount _ _ _ _ _ K). lra.
Qed.

Lemma live_sum_moved x r1 r r2 to now k b : registry_wf x -> issued_at x r1 r r2 -> letter_of to now x r k ->
  live_sum (mkInvoices (r1 ++ moved to now r :: r2 ++ k)%list (is_links x)) b <= live_sum x b.
Proof.
  intros W I L. apply live_sum_le; [done|done|]. intros l Hl (q & Hq & Ei & Es & Ed)%issued_spec. apply issued_spec.
  simpl in Hq. destruct (elem_after _ _ _ W I Hq) as [->|[[Hq' _]|Hq']].
  - exfalso. simpl in Es. destruct L as [[-> _]|(red & -> & _)]; discriminate.
  - by exists q.
  - destruct L as [[_ ->]|(red & _ & -> & Fr & _)]; [by apply elem_of_nil in Hq'|]. apply list_elem_of_singleton in Hq' as ->. exfalso.
    pose proof (rg_links _ W) as K. rewrite Forall_forall in K. destruct (K l Hl) as (_ & q & Hq2 & Ei2 & _). apply (proj1 Fr). rewrite Ei, <-Ei2.
    by apply list_elem_of_fmap_2.
Qed.
Lemma covered_moved d x r1 r r2 to now k : registry_wf x -> covered d x -> issued_at x r1 r r2 -> letter_of to now x r k ->
  covered d (mkInvoices (r1 ++ moved to now r :: r2 ++ k)%list (is_links x)).
Proof.
  intros W C I L. constructor; [apply C|]. intros b h Hh. eapply Qle_trans; [by apply live_sum_moved|]. by apply (cv_sum _ _ C).
Qed.

Lemma struck_letter x r i red now : in_RedOfID (iw_invoice r) = None -> fresh x red -> strikes (iw_invoice r) i -> valid i -> entered i red ->
  letter_of StatusRed now x r [red].
Proof.
  intros Ho Fr K V En. right. exists red. split_and!; try done; [apply En| |].
  - destruct K, En. constructor; simpl; try congruence.
    + by rewrite en_excl0.
    + by rewrite en_tax0.
    + by rewrite en_total0.
  - rewrite (en_excl _ _ En), (en_tax _ _ En), (en_total _ _ En). apply V.
Qed.

(** The contract keeps the registry well formed and no bill over-invoiced. *)
Lemma registered_wf d x x' : registered d x x' -> registry_wf x -> registry_wf x'.
Proof.
  intros H W. destruct H as [i r ls V Ho Hs En Fr L|r1 r r2 now I|r1 r r2 i red now I V K En Fr].
  - apply wf_created; [done|done|by rewrite (en_red _ _ En)|by rewrite (en_status _ _ En)|apply En| |].
    + rewrite (en_excl _ _ En), (en_tax _ _ En), (en_total _ _ En). apply V.
    + apply Forall_forall. intros lr [n Hn]%list_elem_of_lookup. destruct (Forall2_lookup_r _ _ _ _ _ L Hn) as (l & Hl & Hk).
      pose proof (vd_amounts _ V) as P. rewrite Forall_forall in P. destruct (P l) as [P1 _]; [by eapply list_elem_of_lookup_2|].
      split_and!; [by rewrite (lk_amount _ _ _ _ _ Hk)|by rewrite (lk_invoice _ _ _ _ _ Hk), (en_id _ _ En)|by rewrite (lk_tenant _ _ _ _ _ Hk), (en_tenant _ _ En)].
  - rewrite <-(app_nil_r r2). apply wf_moved; [done|done|by left].
  - by eapply wf_moved, struck_letter, En; [| |apply I|..].
Qed.
Lemma registered_covered d x x' : registered d x x' -> registry_wf x -> returns_sound d -> covered d x -> covered d x'.
Proof.
  intros H W R C. destruct H as [i r ls V Ho Hs En Fr L|r1 r r2 now I|r1 r r2 i red now I V K En Fr].
  - by eapply covered_created.
  - rewrite <-(app_nil_r r2). apply covered_moved; [done|done|done|by left].
  - by eapply covered_moved, struck_letter, En; [| | |apply I|..].
Qed.

(** ** Histories *)

(** Bills with links are approved, and those keep their total for good. *)
Lemma covered_later d d' x : covered d x -> later d d' -> covered d' x.
Proof.
  intros C L. pose proof (cv_bills _ _ C) as B. rewrite Forall_forall in B.
  assert (K : forall l, l ∈ is_links x -> exists h h', db_heads d !! lr_bill l = Some h /\ db_heads d' !! lr_bill l = Some h' /\
    bh_tenant (hr_head h) = lr_tenant l /\ bh_status (hr_head h) = StatusApproved /\ hr_deleted h = false /\ row_later h h').
  { intros l Hl. destruct (B l Hl) as (h & Hh & ? & ? & ?). destruct (lt_heads _ _ L _ _ Hh) as (h' & Hh' & S). exists h, h'. by split_and!. }
  constructor.
  - apply Forall_forall. intros l Hl. destruct (K l Hl) as (h & h' & _ & Hh' & Et & Ea & Ed & S). exists h'.
    pose proof (rl_frozen _ _ S Ea) as F. pose proof (frozen_state _ _ F) as (E & I & _). injection (rl_identity _ _ S) as _ I' _.
    split_and!; [done|congruence| |by rewrite (rl_deleted _ _ S)]. rewrite <-Ea. exact (f_equal bh_status F).
  - intros b h' Hh'. destruct (select (live_on x b) (is_links x)) as [|l ls] eqn:E.
    { unfold live_sum. rewrite E. apply Q.le_max_l. }
    assert (Hl : l ∈ select (live_on x b) (is_links x)) by (rewrite E; by left). apply elem_of_select in Hl as [Hb Hl].
    unfold live_on in Hb. apply andb_true_iff in Hb as [Hb%N.eqb_eq _]. destruct (K l Hl) as (h & h2 & Hh & Hh2 & _ & Ea & _ & S).
    rewrite Hb in Hh, Hh2. assert (h2 = h') as -> by congruence. pose proof (frozen_state _ _ (eq_sym (rl_frozen _ _ S Ea))) as (_ & _ & Et).
    rewrite Et. by apply (cv_sum _ _ C).
Qed.

(** A row later on: its status may have left [issued], once, and only of an original. *)
Record row_kept (r r' : InvoiceRow) : Prop := {
  kp_same : with_status (iw_invoice r') "" 0%Z = with_status (iw_invoice r) "" 0%Z;
  kp_deleted : iw_deleted r' = iw_deleted r;
  kp_status : in_Status (iw_invoice r') = in_Status (iw_invoice r) \/
    in_RedOfID (iw_invoice r) = None /\ in_Status (iw_invoice r) = StatusIssued /\
    (in_Status (iw_invoice r') = StatusVoid \/ in_Status (iw_invoice r') = StatusRed);
}.
Lemma kept_fields r r' : row_kept r r' -> iid r' = iid r /\ number r' = number r /\ in_RedOfID (iw_invoice r') = in_RedOfID (iw_invoice r).
Proof.
  intros K. pose proof (kp_same _ _ K) as E. split_and!; [exact (f_equal in_ID E)| |exact (f_equal in_RedOfID E)].
  exact (f_equal (fun i => (in_TenantID i, in_Direction i, in_InvoiceNo i)) E).
Qed.
#[export] Instance row_kept_preorder : PreOrder row_kept.
Proof.
  split; [intros r; constructor; auto|]. intros r1 r2 r3 K1 K2. pose proof (kept_fields _ _ K1) as (_ & _ & E).
  destruct K1 as [S1 D1 T1], K2 as [S2 D2 T2]. constructor; [congruence|congruence|].
  destruct T1 as [T1|(N1 & I1 & T1)], T2 as [T2|(N2 & I2 & T2)].
  - left. congruence.
  - right. rewrite <-E, <-T1. auto.
  - right. rewrite T2. auto.
  - exfalso. destruct T1 as [T1|T1]; rewrite T1 in I2; discriminate.
Qed.

(** The registry later on: its rows are kept and others follow them; links are only added, and to
    the invoices that are new. *)
Definition registry_later (x x' : Invoices) : Prop :=
  (exists kept new, is_rows x' = (kept ++ new)%list /\ Forall2 row_kept (is_rows x) kept) /\
  (exists new, is_links x' = (is_links x ++ new)%list /\ Forall (fun l => lr_invoice l ∉ iid <$> is_rows x) new).
Lemma kept_ids l k : Forall2 row_kept l k -> iid <$> k = iid <$> l.
Proof. induction 1 as [|r r' l k K _ IH]; [done|]. rewrite !fmap_cons, IH. by destruct (kept_fields _ _ K) as [-> _]. Qed.
#[export] Instance registry_later_preorder : PreOrder registry_later.
Proof.
  split.
  - intros x. split; [exists (is_rows x), []|exists []]; rewrite app_nil_r; (split; [done|]); [|constructor].
    apply Forall_Forall2_diag, Forall_forall. intros r _. reflexivity.
  - intros x1 x2 x3 [(k1 & n1 & R1 & F1) (l1 & L1 & G1)] [(k2 & n2 & R2 & F2) (l2 & L2 & G2)]. split.
    + rewrite R1 in F2. apply Forall2_app_inv_l in F2 as (k3 & k4 & F3 & F4 & ->). exists k3, (k4 ++ n2)%list. split; [by rewrite app_assoc|].
      by etrans.
    + exists (l1 ++ l2)%list. split; [by rewrite L2, L1, app_assoc|]. apply Forall_app. split; [done|].
      eapply Forall_impl; [exact G2|]. simpl. intros l Hl Hin. apply Hl. rewrite R1, fmap_app, (kept_ids _ _ F1). apply elem_of_app. by left.
Qed.

Lemma moved_kept x r1 r r2 to now : issued_at x r1 r r2 -> to = StatusVoid \/ to = StatusRed -> Forall2 row_kept (is_rows x) (r1 ++ moved to now r :: r2)%list.
Proof.
  intros (-> & _ & Ho & Hs) Ht. assert (D : forall l, Forall2 row_kept l l) by (intros l; apply Forall_Forall2_diag, Forall_forall; intros ? _; reflexivity).
  apply Forall2_app; [apply D|]. constructor; [|apply D]. constructor; [done..|]. right. by destruct Ht as [-> | ->]; auto.
Qed.
Lemma registered_later d x x' : registered d x x' -> registry_later x x'.
Proof.
  intros H. destruct H as [i r ls V Ho Hs En Fr L|r1 r r2 now I|r1 r r2 i red now I V K En Fr].
  - split.
    + exists (is_rows x), [r]. split; [done|]. apply Forall_Forall2_diag, Forall_forall. intros ? _. reflexivity.
    + exists ls. split; [done|]. apply Forall_forall. intros lr [n Hn]%list_elem_of_lookup. destruct (Forall2_lookup_r _ _ _ _ _ L Hn) as (l & _ & K).
      rewrite (lk_invoice _ _ _ _ _ K), <-(en_id _ _ En). apply Fr.
  - split; [exists (r1 ++ moved StatusVoid now r :: r2)%list, []; rewrite app_nil_r|exists []; rewrite app_nil_r]; (split; [done|]); [|constructor].
    eapply moved_kept; [done|by left].
  - split; [exists (r1 ++ moved StatusRed now r :: r2)%list, [red]|exists []; rewrite app_nil_r].
    + split; [simpl; by rewrite <-app_assoc|]. eapply moved_kept; [done|by right].
    + split; [done|constructor].
Qed.

Context {wiring : Wiring} {calc : InventoryCalculator} {CL : CalculatorLaws calc}.

(** A request to the registry or to a use case of bills, payments and stock, with whatever outcome. *)
Inductive shop_step (s : Ext Invoices) : Ext Invoices -> Prop :=
  | step_invoice q : shop_step s (serve_invoice q s).2
  | step_bill c : shop_step s (mkExt (run_call c (ex_shop s)).2 (ex_rows s)).
(** One taken while the sales returns to each sale come to no less than nothing. *)
Definition sound_step (s s' : Ext Invoices) : Prop := shop_step s s' /\ returns_sound (w_db (ex_shop s)).

Definition shop_wf (s : Ext Invoices) : Prop := ledger_wf (w_db (ex_shop s)) /\ registry_wf (ex_rows s).
Lemma shop_step_wf s s' : shop_step s s' -> shop_wf s -> shop_wf s' /\ registry_later (ex_rows s) (ex_rows s').
Proof.
  intros H [L W]. destruct H as [q|c].
  - destruct (serve_refines q s (rg_ids _ W)) as [[D R]|[R D]]; [|unfold shop_wf; rewrite R, D; split_and!; [done|done|reflexivity]].
    split; [split; [by rewrite D|by eapply registered_wf]|by eapply registered_later].
  - split; [|reflexivity]. split; [by apply (run_call_life c)|done].
Qed.
Lemma shop_steps_wf s s' : rtc shop_step s s' -> shop_wf s -> shop_wf s' /\ registry_later (ex_rows s) (ex_rows s').
Proof.
  intros H W. induction H as [s|s1 s2 s3 H _ IH]; [by split|]. apply shop_step_wf in H as [W2 L]; [|done].
  destruct (IH W2) as [W3 L3]. split; [done|by etrans].
Qed.
Lemma sound_step_covered s s' : sound_step s s' -> shop_wf s -> covered (w_db (ex_shop s)) (ex_rows s) -> covered (w_db (ex_shop s')) (ex_rows s').
Proof.
  intros [H Rs] [L W] C. destruct H as [q|c].
  - destruct (serve_refines q s (rg_ids _ W)) as [[D R]|[R D]]; [|by rewrite R, D]. rewrite D. by eapply registered_covered.
  - simpl. by eapply covered_later, (run_call_life c).
Qed.

(** *** What the summary adds up *)

(** A filter by parties alone. *)
Definition by_party (f : InvoiceFilter) : Prop :=
  if_Status f = "" /\ if_BillID f = None /\ if_DateFrom f = None /\ if_DateTo f = None /\ if_Keyword f = "".
Definition same_party (f : InvoiceFilter) (i : Invoice) : bool :=
  N.eqb (in_TenantID i) (if_TenantID f) && (String.eqb (if_Direction f) "" || String.eqb (in_Direction i) (if_Direction f))
  && wanted (N.eqb (in_PartnerID i)) (if_PartnerID f).
Lemma matches_party f x r : by_party f -> iw_deleted r = false -> matches f x r = same_party f (iw_invoice r).
Proof.
  intros (E1 & E2 & E3 & E4 & E5) Hd. unfold matches, same_party. rewrite Hd, E1, E2, E3, E4, E5. simpl. by rewrite !andb_true_r.
Qed.

(** The three kinds of invoice that are not void. *)
Definition standing (i : Invoice) : bool := is_none (in_RedOfID i) && String.eqb (in_Status i) StatusIssued.
Definition struck (i : Invoice) : bool := is_none (in_RedOfID i) && String.eqb (in_Status i) StatusRed.
Definition letter (i : Invoice) : bool := negb (is_none (in_RedOfID i)).
Definition not_void (i : Invoice) : bool := negb (String.eqb (in_Status i) StatusVoid).

Lemma three_kinds x r : registry_wf x -> r ∈ is_rows x -> let i := iw_invoice r in
  (not_void i = false /\ standing i = false /\ struck i = false /\ letter i = false) \/ (not_void i = true /\
  ((standing i = true /\ struck i = false /\ letter i = false) \/ (standing i = false /\ struck i = true /\ letter i = false) \/
   (standing i = false /\ struck i = false /\ letter i = true))).
Proof.
  intros W Hr i. pose proof (rg_status _ W) as S. pose proof (rg_letters _ W) as K. rewrite Forall_forall in S, K. specialize (S r Hr). specialize (K r Hr).
  subst i. unfold not_void, standing, struck, letter. destruct (in_RedOfID (iw_invoice r)) as [o|] eqn:Eo.
  - destruct (K o eq_refl) as (q & _ & _ & B). rewrite (sb_letter _ _ B). simpl. auto 10.
  - unfold ValidStatus in S. apply orb_true_iff in S as [[S|S]%orb_true_iff|S]; apply String.eqb_eq in S; rewrite S; simpl; auto 10.
Qed.
Lemma split_kinds (f : Invoice -> Q) x l : registry_wf x -> Forall (fun r => r ∈ is_rows x) l ->
  qsum (f <$> select not_void (iw_invoice <$> l)) == qsum (f <$> select standing (iw_invoice <$> l)) +
    (qsum (f <$> select struck (iw_invoice <$> l)) + qsum (f <$> select letter (iw_invoice <$> l))).
Proof.
  intros W. unfold select. induction l as [|r l IH]; intros H; [cbn; ring|]. apply Forall_cons in H as [Hr H]. specialize (IH H).
  rewrite !fmap_cons. cbn [List.filter].
  destruct (three_kinds x r W Hr) as [(-> & -> & -> & ->)|(-> & [(-> & -> & ->)|[(-> & -> & ->)|(-> & -> & ->)]])]; rewrite ?fmap_cons; cbn [qsum]; rewrite IH; ring.
Qed.

Lemma omap_select_NoDup {A B} (h : A -> option B) p l : NoDup (omap h l) -> NoDup (omap h (select p l)).
Proof.
  unfold select. induction l as [|a l IH]; [done|]. simpl. destruct (h a) as [b|] eqn:Eb; intros H.
  - apply NoDup_cons in H as [Hni H]. destruct (p a); simpl; [rewrite Eb; constructor; [|by apply IH]|by apply IH].
    intros (c & Hc & E)%list_elem_of_omap. apply Hni, list_elem_of_omap. exists c. split; [|done]. by apply elem_of_select in Hc as [_ ?].
  - destruct (p a); simpl; rewrite ?Eb; by apply IH.
Qed.
Lemma select_select {A} (p q : A -> bool) l : select p (select q l) = select (fun a => q a && p a) l.
Proof. unfold select. induction l as [|a l IH]; [done|]. simpl. destruct (q a); simpl; [destruct (p a)|]; by rewrite IH. Qed.

(** The value of the invoice with an id. *)
Definition value_at (f : Invoice -> Q) (x : Invoices) (id : uuid) : Q :=
  match List.find (fun r => N.eqb (iid r) id) (is_rows x) with Some r => f (iw_invoice r) | None => 0 end.
Lemma value_at_row f x r : registry_wf x -> r ∈ is_rows x -> value_at f x (iid r) = f (iw_invoice r).
Proof.
  intros W Hr. unfold value_at. destruct (List.find _ _) as [q|] eqn:E.
  - apply find_some in E as [Hq E%N.eqb_eq]. apply list_elem_of_In in Hq. by rewrite (NoDup_key iid _ _ _ (rg_ids _ W) Hq Hr E).
  - pose proof (find_none _ _ E r (proj1 (list_elem_of_In _ _) Hr)) as K. simpl in K. by rewrite N.eqb_refl in K.
Qed.

(** What was struck and the letters that strike it come to nothing together. *)
Lemma struck_cancels (f : Invoice -> Q) flt x : registry_wf x -> by_party flt -> (forall o i, struck_by o i -> f i == - f o) ->
  qsum (f <$> select struck (matching flt x)) + qsum (f <$> select letter (matching flt x)) == 0.
Proof.
  intros W F Hf. unfold matching. rewrite <-!select_fmap, !select_select, <-!list_fmap_compose.
  set (R := select _ _). set (L := select _ _). pose proof W as []. rewrite Forall_forall in rg_live0, rg_letters0, rg_struck0.
  assert (HR : forall r, r ∈ R <-> r ∈ is_rows x /\ same_party flt (iw_invoice r) = true /\ struck (iw_invoice r) = true).
  { intros r. unfold R. rewrite elem_of_select, andb_true_iff. split; [intros [[? ?] ?]|intros (? & ? & ?)]; rewrite matches_party in *; auto. }
  assert (HL : forall r, r ∈ L <-> r ∈ is_rows x /\ same_party flt (iw_invoice r) = true /\ letter (iw_invoice r) = true).
  { intros r. unfold L. rewrite elem_of_select, andb_true_iff. split; [intros [[? ?] ?]|intros (? & ? & ?)]; rewrite matches_party in *; auto. }
  assert (SP : forall o i, struck_by o i -> same_party flt i = same_party flt o).
  { intros o i B. pose proof (sb_parties _ _ B) as [= E1 E2 E3]. unfold same_party. by rewrite E1, E2, E3. }
  assert (P : iid <$> R ≡ₚ omap (fun r => in_RedOfID (iw_invoice r)) L).
  { apply NoDup_Permutation; [by apply NoDup_select_key|by apply omap_select_NoDup|]. intros id. rewrite list_elem_of_fmap, list_elem_of_omap. split.
    - intros (r & -> & (Hr & Hp & [Ho Hs%String.eqb_eq]%andb_true_iff)%HR). destruct (rg_struck0 r Hr Hs) as (q & Hq & B). exists q.
      split; [|apply B]. apply HL. split; [done|]. unfold letter. rewrite (SP _ _ B), (sb_of _ _ B). by split.
    - intros (q & (Hq & Hp & _)%HL & E). destruct (rg_letters0 q Hq id E) as (r & Hr & Ei & B). exists r. split; [done|]. apply HR. split; [done|].
      rewrite <-(SP _ _ B). unfold struck. by rewrite (sb_original _ _ B), (sb_status _ _ B). }
  assert (ER : qsum ((f ∘ iw_invoice) <$> R) == qsum (value_at f x <$> (iid <$> R))).
  { rewrite <-list_fmap_compose. apply qsum_ext. intros r (Hr & _)%HR. unfold compose. by rewrite value_at_row. }
  assert (EL : qsum ((f ∘ iw_invoice) <$> L) == - qsum (value_at f x <$> omap (fun r => in_RedOfID (iw_invoice r)) L)).
  { assert (HL' : forall r, r ∈ L -> r ∈ is_rows x /\ letter (iw_invoice r) = true) by (intros r Hr; apply HL in Hr; tauto). clear -HL' Hf rg_letters0 W.
    induction L as [|r L IH]; [cbn; ring|]. destruct (HL' r (list_elem_of_here _ _)) as [Hr Hl]. rewrite fmap_cons. simpl. unfold letter in Hl.
    destruct (in_RedOfID (iw_invoice r)) as [o|] eqn:Eo; [|done]. rewrite fmap_cons. cbn [qsum]. rewrite IH by (intros; apply HL'; by right).
    destruct (rg_letters0 r Hr o Eo) as (q & Hq & <- & B). rewrite value_at_row by done. unfold compose. rewrite (Hf _ _ B).
    change (list_omap _ _ ?h L) with (omap h L). ring. }
  rewrite ER, EL, (qsum_perm _ _ (fmap_Permutation (value_at f x) _ _ P)). ring.
Qed.
Lemma sum_of_standing (g : Invoice -> dec) flt x : registry_wf x -> by_party flt -> (forall o i, struck_by o i -> val (g i) == - val (g o)) ->
  val (dsum_from dzero (g <$> select not_void (matching flt x))) == qsum ((fun i => val (g i)) <$> select standing (matching flt x)).
Proof.
  intros W F Hg. rewrite val_dsum_from, val_zero, <-list_fmap_compose. change (val ∘ g) with (fun i => val (g i)).
  unfold matching at 1. rewrite (split_kinds _ x); [|done|apply Forall_forall; by intros r [_ ?]%elem_of_select].
  pose proof (struck_cancels (fun i => val (g i)) flt x W F Hg) as K. unfold matching in *. rewrite K. ring.
Qed.

(** ** Theorems *)

(** C26: whatever is asked of the registry and of the bills, in whatever order and with whatever
    outcome, the registry stays well formed: ids and the numbers of a direction are unique, the amounts of
    every invoice add up, every red letter strikes one invoice of the same parties for exactly the
    opposite amounts, every invoice that is red has its letter and no two letters strike the same
    one; what was registered keeps its number, its parties and its amounts for good, and its status
    changes at most once, from issued to void or to red. *)
Theorem invoices_stay_sound s s' : rtc shop_step s s' -> shop_wf s ->
  registry_wf (ex_rows s') /\ registry_later (ex_rows s) (ex_rows s').
Proof. intros H W. destruct (shop_steps_wf _ _ H W) as [[_ W'] L]. by split. Qed.

(** C25: no bill is invoiced for more than it is worth: along any history of requests, as long as
    sales are given back for amounts that are not negative, the issued invoices on a bill never come
    to more than its total, whatever is issued, voided, struck, approved, paid or given back in
    between; and only approved bills are ever covered. *)
Theorem no_bill_overinvoiced s s' b h : rtc sound_step s s' -> shop_wf s -> covered (w_db (ex_shop s)) (ex_rows s) ->
  db_heads (w_db (ex_shop s')) !! b = Some h ->
  live_sum (ex_rows s') b <= Qmax 0 (val (bh_total (hr_head h))) /\
  (forall l, l ∈ is_links (ex_rows s') -> lr_bill l = b -> bh_status (hr_head h) = StatusApproved).
Proof.
  intros H W C Hh. assert (C' : covered (w_db (ex_shop s')) (ex_rows s')).
  { clear Hh. induction H as [s|s1 s2 s3 H _ IH]; [done|]. apply IH; [by eapply shop_step_wf; [apply H|]|by eapply sound_step_covered]. }
  split; [by apply (cv_sum _ _ C')|]. intros l Hl Eb. pose proof (cv_bills _ _ C') as B. rewrite Forall_forall in B.
  destruct (B l Hl) as (h' & Hh' & _ & E & _). congruence.
Qed.

(** The invoice that was asked for, field by field. *)
Record asked_for (q : InvoiceInput) (i : Invoice) : Prop := {
  af_tenant : in_TenantID i = ii_TenantID q;
  af_direction : in_Direction i = ii_Direction q;
  af_no : in_InvoiceNo i = trim_space (ii_InvoiceNo q);
  af_code : in_InvoiceCode i = trim_space (ii_InvoiceCode q);
  af_type : in_InvoiceType i = ii_InvoiceType q;
  af_partner : in_PartnerID i = ii_PartnerID q;
  af_date : in_IssueDate i = ii_IssueDate q;
  af_excl : in_AmountExclTax i = ii_AmountExclTax q;
  af_tax : in_TaxAmount i = ii_TaxAmount q;
  af_total : val (in_TotalAmount i) == val (ii_AmountExclTax q) + val (ii_TaxAmount q);
  af_status : in_Status i = StatusIssued;
  af_original : in_RedOfID i = None;
  af_remark : in_Remark i = ii_Remark q;
  af_by : in_CreatedBy i = ii_CreatedBy q;
  af_links : in_Links i = ii_Links q;
}.
Lemma NewInvoice_asked q id now i : NewInvoice q id now = inr i -> asked_for q i.
Proof. unfold NewInvoice, validated. destruct (Validate _); [done|]. intros [= <-]. split; simpl; try done. apply val_add. Qed.

(** C27: an invoice that is created is one row more, which holds the invoice that was asked for field
    by field: its direction, number and code without the blanks around them, type, partner, day of
    issue, net amount, tax and their sum, remark and author, issued and no red letter; under a
    number no other live invoice of the shop and direction has; and one link per bill it is to cover, for the amount asked, once the bill
    is there, approved, of the right kind, of the same partner and in the shop's currency, and is
    invoiced, this invoice included, for no more than it is worth net of what was given back, in
    whole cents; otherwise nothing happens. *)
Theorem create_invoice_effect (q : InvoiceInput) (s : Ext Invoices) r s' : CreateInvoice_Execute q s = (r, s') ->
  (forall i, r = Ok i -> w_db (ex_shop s') = w_db (ex_shop s) /\
    exists i0 row ls, asked_for q i0 /\ valid i0 /\ entered i0 row /\ fresh (ex_rows s) row /\
      Forall2 (linked (w_db (ex_shop s)) (ex_rows s) i0) (ii_Links q) ls /\
      ex_rows s' = mkInvoices (is_rows (ex_rows s) ++ [row])%list (is_links (ex_rows s) ++ ls)%list) /\
  ((forall i, r <> Ok i) -> same_registry s s').
Proof.
  intros H. split; [|by apply (filing_fails q)]. intros i ->. apply filing_goes in H as (D & i0 & row & ls & _ & _ & N & _ & En & Fr & L & X).
  split; [done|]. exists i0, row, ls. pose proof (NewInvoice_valid _ _ _ _ N) as (V%Validate_valid & _).
  assert (in_Links i0 = ii_Links q) as E by (unfold NewInvoice, validated in N; destruct (Validate _); [done|]; by injection N as <-).
  rewrite E in L. split_and!; try done. by eapply NewInvoice_asked.
Qed.

(** A change by a use case that reads the invoice back when it is done: the change, or nothing. *)
Lemma red_goes q s i s' : NoDup (iid <$> is_rows (ex_rows s)) -> RedInvoice_Execute q s = (Ok i, s') ->
  w_db (ex_shop s') = w_db (ex_shop s) /\ exists r1 r r2 red row now, issued_at (ex_rows s) r1 r r2 /\
    is_invoice (ri_TenantID q) (ri_ID q) r = true /\ valid red /\ strikes (iw_invoice r) red /\ entered red row /\ fresh (ex_rows s) row /\
    in_InvoiceNo red = trim_space (ri_InvoiceNo q) /\
    ex_rows s' = mkInvoices (r1 ++ moved StatusRed now r :: r2 ++ [row])%list (is_links (ex_rows s)).
Proof.
  intros Hn H. unfold RedInvoice_Execute in H. apply bind_Ok in H as (red & s1 & (s2 & H1 & ->)%on_err_Ok%ext_tx_Ok & [R D]%GetByID_same).
  apply red_body_Ok in H1 as (D1 & r1 & r & r2 & row & now & H1); [|done]. simpl in *. split; [congruence|].
  destruct H1 as (? & ? & ? & ? & ? & ? & ? & X). exists r1, r, r2, red, row, now. rewrite R. by split_and!.
Qed.

(** C28: a red letter strikes an invoice that is issued and is no letter itself: the invoice becomes red
    and the letter, under the number given, takes the same parties, the opposite amounts and no
    bills; nothing else in the registry moves.  A letter for any other invoice is refused and nothing
    happens. *)
Theorem red_letter_effect (q : RedInput) (s : Ext Invoices) r s' : registry_wf (ex_rows s) -> RedInvoice_Execute q s = (r, s') ->
  (forall i, r = Ok i -> exists r1 row r2 red letter now, issued_at (ex_rows s) r1 row r2 /\ is_invoice (ri_TenantID q) (ri_ID q) row = true /\
    strikes (iw_invoice row) red /\ valid red /\ in_InvoiceNo red = trim_space (ri_InvoiceNo q) /\ entered red letter /\ fresh (ex_rows s) letter /\
    ex_rows s' = mkInvoices (r1 ++ moved StatusRed now row :: r2 ++ [letter])%list (is_links (ex_rows s))) /\
  ((forall row, row ∈ is_rows (ex_rows s) -> is_invoice (ri_TenantID q) (ri_ID q) row = true ->
      in_RedOfID (iw_invoice row) <> None \/ in_Status (iw_invoice row) <> StatusIssued) -> same_registry s s' /\ forall i, r <> Ok i).
Proof.
  intros W H. split.
  - intros i ->. apply red_goes in H as (_ & r1 & row & r2 & red & letter & now & ? & ? & ? & ? & ? & ? & ? & ?); [|apply W].
    exists r1, row, r2, red, letter, now. by split_and!.
  - intros Hno. assert (K : forall red s1, red_body q (ext_bump s) = (Ok red, s1) -> False).
    { intros red s1 H1. apply red_body_Ok in H1 as (_ & r1 & row & r2 & _ & _ & I & E & _); [|apply W]. pose proof I as (_ & _ & Ho & Hs).
      destruct (Hno row (split_row _ _ _ _ I) E); congruence. }
    unfold RedInvoice_Execute in H. destruct (ok_or_not r) as [[i ->]|Hr].
    + exfalso. apply bind_Ok in H as (red & s1 & (s2 & H1 & _)%on_err_Ok%ext_tx_Ok & _). by eapply K.
    + split; [|done]. apply bind_fails in H as [(r0 & H & Hr0)|(red & s1 & (s2 & H1 & _)%on_err_Ok%ext_tx_Ok & _)]; [|by exfalso; eapply K|done].
      apply on_err_fails in H as (r1 & H & Hr1); [|done]. by eapply fails_same.
Qed.
(** C29: the totals over the invoices of a party are those of the invoices that stand: a void invoice
    counts for nothing, and one that was struck adds up to nothing with the letter that struck it. *)
Theorem summary_of_standing (f : InvoiceFilter) (x : Invoices) : registry_wf x -> by_party f ->
  let l := select standing (matching f x) in
  val (sm_AmountExclTax (summary f x)) == qsum ((fun i => val (in_AmountExclTax i)) <$> l) /\
  val (sm_TaxAmount (summary f x)) == qsum ((fun i => val (in_TaxAmount i)) <$> l) /\
  val (sm_TotalAmount (summary f x)) == qsum ((fun i => val (in_TotalAmount i)) <$> l) /\
  sm_Count (summary f x) = Z.of_nat (length (matching f x)).
Proof.
  intros W F l. split_and!; [..|done]; (apply sum_of_standing; [done|done|]); by intros o i []. 
Qed.
End laws.

(** The tea sale of 10 is invoiced in full; then the invoice is struck. *)
Section example.
Definition ex_invoice : InvoiceInput := mkInvoiceInput ex_tenant InvoiceOut " F1 " "" "数电普票" ex_customer (24 * hour)%Z (D 8 0) (D 2 0) ""
  (Some ex_user) [mkLink ex_tea_bill "" (D 10 0)].
Definition ex_books : Ext Invoices := mkExt ex_story_approved (mkInvoices [] []).
Definition ex_filing := CreateInvoice_Execute ex_invoice ex_books.
Definition ex_filed : Ext Invoices := (serve_invoice (CreateInvoice ex_invoice) ex_books).2.
Definition ex_filed_id : uuid := Eval vm_compute in match is_rows (ex_rows ex_filed) with r :: _ => iid r | [] => uuid_nil end.
Definition ex_strike : RedInput := mkRedInput ex_tenant ex_filed_id "F2" "" (48 * hour)%Z "" None.
Definition ex_striking := RedInvoice_Execute ex_strike ex_filed.
Definition ex_struck : Ext Invoices := (serve_invoice (RedInvoice ex_strike) ex_filed).2.
Definition ex_out : InvoiceFilter := mkInvoiceFilter ex_tenant InvoiceOut "" None None None None "" 20%Z 0%Z.

Lemma ex_books_wf : shop_wf ex_books.
Proof.
  split; [exact (proj1 (history_life (calc := WACCalculator) (call_create_sale ex_tea_sale :: ex_story) ex_shelf ex_shelf_ledger))|].
  by split; simpl; constructor.
Qed.
Lemma ex_books_covered : covered (w_db (ex_shop ex_books)) (ex_rows ex_books).
Proof. split; [constructor|]. intros b h _. apply Q.le_max_l. Qed.
Lemma no_returns_sound d : forallb (fun r => negb (String.eqb (bh_sub_type (hr_head r)) BillSubTypeSaleReturn)) (snd <$> map_to_list (db_heads d)) = true ->
  returns_sound d.
Proof.
  intros H tenant sale v. unfold returns_sum. destruct (select _ _) as [|r l] eqn:E; [done|]. exfalso.
  assert (K : r ∈ select (fun r => approved_return tenant BillSubTypeSaleReturn r && bool_decide (return_sale_of d r = Some sale)) (snd <$> map_to_list (db_heads d)))
    by (rewrite E; by left).
  apply elem_of_select in K as [K Hr]. rewrite forallb_forall in H. apply list_elem_of_In, H in Hr. apply andb_true_iff in K as [K _].
  unfold approved_return in K. destruct (String.eqb (bh_sub_type _) _); [done|]. by rewrite ?andb_false_r in K.
Qed.
Lemma ex_books_step : sound_step (calc := WACCalculator) ex_books ex_filed.
Proof. split; [constructor|]. apply no_returns_sound. vm_compute. reflexivity. Qed.
Lemma ex_books_filed : rtc (shop_step (calc := WACCalculator)) ex_books ex_struck.
Proof. eapply rtc_l; [constructor|]. apply rtc_once. constructor. Qed.

Lemma invoices_stay_sound_witness : registry_wf (ex_rows ex_struck) /\
  (fun r => (in_Status (iw_invoice r), Qred (val (in_TotalAmount (iw_invoice r))))) <$> is_rows (ex_rows ex_struck) = [(StatusRed, 10 # 1); (StatusIssued, (-10) # 1)].
Proof.
  split; [|vm_compute; reflexivity]. exact (proj1 (invoices_stay_sound (calc := WACCalculator) ex_books ex_struck ex_books_filed ex_books_wf)).
Defined.

Lemma no_bill_overinvoiced_witness : exists h, db_heads (w_db (ex_shop ex_filed)) !! ex_tea_bill = Some h /\
  Qred (live_sum (ex_rows ex_filed) ex_tea_bill) = 10 # 1 /\ live_sum (ex_rows ex_filed) ex_tea_bill <= Qmax 0 (val (bh_total (hr_head h))).
Proof.
  destruct (row_run (db_heads (w_db (ex_shop ex_filed)) !! ex_tea_bill) (fun _ => true)) as (h & Hh & _); [vm_compute; reflexivity|].
  exists h. split; [exact Hh|]. split; [vm_compute; reflexivity|].
  exact (proj1 (no_bill_overinvoiced (calc := WACCalculator) ex_books ex_filed ex_tea_bill h (rtc_once _ _ ex_books_step) ex_books_wf ex_books_covered Hh)).
Defined.

Lemma create_invoice_effect_witness : exists i s', ex_filing = (Ok i, s') /\ w_db (ex_shop s') = w_db (ex_shop ex_books) /\
  length (is_rows (ex_rows s')) = 1%nat.
Proof.
  destruct (ext_ok_run ex_filing) as (i & s' & E); [vm_compute; reflexivity|]. exists i, s'. split; [done|]. split.
  - unfold ex_filing in E. exact (proj1 (proj1 (create_invoice_effect ex_invoice ex_books (Ok i) s' E) i eq_refl)).
  - assert (length (is_rows (ex_rows ex_filing.2)) = 1%nat) as H by (vm_compute; reflexivity). by rewrite E in H.
Defined.

Lemma red_letter_effect_witness : exists i s' r1 row r2, ex_striking = (Ok i, s') /\ issued_at (ex_rows ex_filed) r1 row r2.
Proof.
  destruct (ext_ok_run ex_striking) as (i & s' & E); [vm_compute; reflexivity|]. unfold ex_striking in E.
  assert (W : registry_wf (ex_rows ex_filed)) by (eapply (shop_step_wf (calc := WACCalculator)); [apply step_invoice|exact ex_books_wf]).
  destruct (proj1 (red_letter_effect ex_strike ex_filed (Ok i) s' W E) i eq_refl) as (r1 & row & r2 & _ & _ & _ & I & _).
  exists i, s', r1, row, r2. split; [exact E|exact I].
Defined.

Lemma summary_of_standing_witness : val (sm_TotalAmount (summary ex_out (ex_rows ex_struck))) ==
    qsum ((fun i => val (in_TotalAmount i)) <$> select standing (matching ex_out (ex_rows ex_struck))) /\
  sm_Count (summary ex_out (ex_rows ex_struck)) = 2%Z.
Proof.
  assert (W : registry_wf (ex_rows ex_struck)) by exact (proj2 (proj1 (shop_steps_wf (calc := WACCalculator) ex_books ex_struck ex_books_filed ex_books_wf))).
  split; [|vm_compute; reflexivity]. refine (proj1 (proj2 (proj2 (summary_of_standing ex_out (ex_rows ex_struck) W _)))). by split_and!.
Defined.
End example.
