(* ===== verification/Replenish.v ===== *)
(** Replenishment: src/internal/app/replenish and src/internal/adapter/repo/replenish.

    What to order of each product is computed from its stock, what was sold of it in thirty days,
    how long its supplier takes and what is under way; the suggestions that ask for something are
    kept in a log, one row per product and day, and stamped when they become a purchase draft. *)
From S2P Require Import Prelude GoStrings GoTime Rounding Decimal Types StockDomain BillDomain Store StockRepo BillRepo BillDraft ExtStore CatalogueStore.
From stdpp Require Import base tactics strings pretty gmap list sorting.
From Stdlib Require Import ZArith QArith Lia.

#[local] Open Scope string_scope.

(** sort.Slice: some order of the elements in which no later one is less than an earlier one. *)
Class SortSlice := { sort_slice : forall {A}, (A -> A -> bool) -> list A -> list A }.
Class SortSliceLaws (S : SortSlice) := {
  sort_slice_perm {A} (less : A -> A -> bool) l : Permutation (sort_slice less l) l;
  sort_slice_sorted {A} (less : A -> A -> bool) l :
    (forall a b c, less b a = false -> less c b = false -> less c a = false) ->
    (forall a b, less a b = false \/ less b a = false) ->
    StronglySorted (fun a b => less b a = false) (sort_slice less l);
}.

(** float64 values are the rational numbers they stand for.  PostgreSQL: the quotient of two
    NUMERICs, the days of an interval as double precision, and the middle of two of them
    (percentile_cont); Go: decimal.NewFromFloat(math.Sqrt(float64(n))). *)
Class FloatMath {ops : DecimalOps} := {
  numeric_div : dec -> dec -> dec;
  interval_days : Z -> Q;
  middle : Q -> Q -> Q;
  sqrt_float : Z -> dec;
}.
Class FloatLaws {ops : DecimalOps} {laws : DecimalLaws ops} (F : FloatMath) := { sqrt_float_pos n : (0 <= val (sqrt_float n))%Q }.

(** ** Suggestions (usecase.go) *)

Definition LeadTimeSourceLearned : string := "learned".
Definition LeadTimeSourceConfigured : string := "configured".
Definition LeadTimeSourceDefault : string := "default".
Definition DefaultWeeks : Z := 2.
Definition defaultLeadTimeDays : Z := 7.
Definition minLeadTimeSamples : Z := 2.
Definition leadLearnMaxSamples : nat := 5.
Definition leadLearnMinSamples : nat := 2.
Definition leadLearnMinSampleHours : Z := 12.

Section replenish.
Context {ops : DecimalOps} {env : Env} {pg : PgText} {float : FloatMath} {sorts : SortSlice}.

(** RawRow, SuggestionRow, SnapshotRow *)
Record RawRow := mkRawRow {
  rr_ProductID : uuid; rr_ProductName : string; rr_ProductCode : string; rr_AvailableQty : dec; rr_SafetyQty : dec; rr_UnitCost : dec;
  rr_AvgDailySales : dec; rr_LeadTimeDays : Z; rr_InTransit : dec; rr_SupplierID : option uuid; rr_SupplierName : string;
  rr_LearnedLeadDays : Q; rr_LeadTimeSamples : Z; rr_LastPurchasePrice : option dec }.
Record SuggestionRow := mkSuggestionRow {
  sg_ProductID : uuid; sg_ProductName : string; sg_ProductCode : string; sg_AvailableQty : dec; sg_SafetyQty : dec; sg_AvgDailySales : dec;
  sg_SuggestedQty : dec; sg_EstAmountCNY : dec; sg_SupplierID : option uuid; sg_SupplierName : string; sg_UrgencyScore : dec;
  sg_LeadTimeDays : Z; sg_InTransit : dec; sg_ROP : dec; sg_SafetyStock : dec; sg_Reason : string; sg_LastPurchasePrice : option dec;
  sg_LeadTimeSource : string; sg_LeadTimeSamples : Z }.
Record SnapshotRow := mkSnapshotRow {
  ns_ProductID : uuid; ns_SuggestedQty : dec; ns_AvailableQty : dec; ns_AvgDailySales : dec; ns_LeadTimeDays : Z; ns_LeadTimeSource : string;
  ns_DaysOfSupply : dec }.

(** z, sigmaFactor *)
Definition z_factor : dec := dnew 165 2.
Definition sigmaFactor : dec := dnew 3 1.

(** Forecast *)
Definition lead_time (r : RawRow) : Z * string :=
  if Z.leb minLeadTimeSamples (rr_LeadTimeSamples r) then
    (let learned := half_away (rr_LearnedLeadDays r) in if Z.ltb learned 1 then 1%Z else learned, LeadTimeSourceLearned)
  else if Z.leb (rr_LeadTimeDays r) 0 then (defaultLeadTimeDays, LeadTimeSourceDefault)
  else (rr_LeadTimeDays r, if Z.eqb (rr_LeadTimeDays r) defaultLeadTimeDays then LeadTimeSourceDefault else LeadTimeSourceConfigured).
Definition safety_stock (r : RawRow) : dec :=
  if is_zero (rr_AvgDailySales r) then dzero
  else dmul (dmul z_factor (dmul (rr_AvgDailySales r) sigmaFactor)) (sqrt_float (lead_time r).1).
Definition weeks_or_default (weeks : Z) : Z := if Z.leb weeks 0 then DefaultWeeks else weeks.
Definition suggested_qty (r : RawRow) (weeks : Z) : dec :=
  let target := dmul (dmul (rr_AvgDailySales r) (dint 7)) (dint (weeks_or_default weeks)) in
  let suggested := dsub (dsub (dadd target (safety_stock r)) (rr_AvailableQty r)) (rr_InTransit r) in
  dceil (if is_negative suggested then dzero else suggested).
Definition unit_price (r : RawRow) : dec :=
  match rr_LastPurchasePrice r with Some p => if is_positive p then p else rr_UnitCost r | None => rr_UnitCost r end.
Definition urgency (r : RawRow) : dec :=
  if is_zero (rr_AvgDailySales r) then dint 999999 else ddiv (rr_AvailableQty r) (rr_AvgDailySales r).
Definition print_int (n : Z) : string := if Z.ltb n 0 then "-" ++ pretty (Z.abs_N n) else pretty (Z.abs_N n).
Definition reason (r : RawRow) : string :=
  let '(lead, source) := lead_time r in
  "日均" ++ dto_fixed 1 (rr_AvgDailySales r) ++ "×提前期" ++ print_int lead ++ "天 + 安全库存" ++ dto_fixed 1 (safety_stock r)
    ++ " − 可用" ++ dto_fixed 0 (rr_AvailableQty r) ++ " − 在途" ++ dto_fixed 0 (rr_InTransit r)
    ++ (if String.eqb source LeadTimeSourceLearned
        then "；基于最近" ++ print_int (rr_LeadTimeSamples r) ++ "次实际到货,中位交期" ++ print_int lead ++ "天" else "").
Definition Forecast (r : RawRow) (weeks : Z) : SuggestionRow :=
  let '(lead, source) := lead_time r in
  let suggested := suggested_qty r weeks in
  mkSuggestionRow (rr_ProductID r) (rr_ProductName r) (rr_ProductCode r) (rr_AvailableQty r) (rr_SafetyQty r) (rr_AvgDailySales r)
    suggested (dmul suggested (unit_price r)) (rr_SupplierID r) (rr_SupplierName r) (urgency r)
    lead (rr_InTransit r) (dadd (dmul (rr_AvgDailySales r) (dint lead)) (safety_stock r)) (safety_stock r) (reason r)
    (rr_LastPurchasePrice r) source (rr_LeadTimeSamples r).

(** ** The tables *)

(** Columns of tally.product beside those of [db_products]; tally.partner.partner_type *)
Record ProductInfo := mkProductInfo { pi_code : string; pi_enabled : bool; pi_lead_time : Z }.
(** tally.replenish_suggestion_log *)
Record LogRow := mkLogRow {
  lg_tenant : uuid; lg_product : uuid; lg_day : Z; lg_suggested : dec; lg_available : dec; lg_avg : dec; lg_lead : dec; lg_source : string;
  lg_days : dec; lg_created : time; lg_adopted : option (time * uuid) }.
Record ReplenishRows := mkReplenishRows {
  rp_products : gmap uuid ProductInfo; rp_partner_types : gmap uuid string; rp_log : list LogRow }.
Abbreviation RM := (XM (X:=ReplenishRows)).

(** ** ListSuggestions (repo.go) *)

(** velocity *)
Definition sale_bill (d : DB) (m : Movement) : option uuid :=
  match mv_reference_id m with
  | Some r =>
      match List.find (fun it => N.eqb (bi_id (ir_item it)) r && N.eqb (bi_tenant (ir_item it)) (mv_tenant m)) (db_items d) with
      | Some it => Some (bi_head (ir_item it))
      | None => Some r
      end
  | None => None
  end.
Definition bill_there (d : DB) (tenant : uuid) (bill : option uuid) : bool :=
  match bill with
  | Some b => match db_heads d !! b with Some h => N.eqb (bh_tenant (hr_head h)) tenant | None => false end
  | None => false
  end.
Definition sold (tenant : uuid) (now : time) (d : DB) (m : Movement) : bool :=
  N.eqb (mv_tenant m) tenant && String.eqb (mv_direction m) DirectionOut
  && negb (String.eqb (mv_reference_type m) RefReturn) && negb (String.eqb (mv_reference_type m) RefAdjust)
  && (negb (String.eqb (mv_reference_type m) RefSale) || bill_there d (mv_tenant m) (sale_bill d m))
  && Z.leb (now - 30 * (24 * hour)) (mv_occurred_at m).
Definition velocity (tenant : uuid) (now : time) (d : DB) (product : uuid) : dec :=
  match select (fun m => sold tenant now d m && N.eqb (mv_product m) product) (db_movements d) with
  | [] => dzero
  | l => numeric_div (dsum_from dzero (mv_qty_base <$> l)) (dint 30)
  end.
(** stock *)
Definition snapshots_of (tenant product : uuid) (d : DB) : list Snapshot :=
  select (fun s => N.eqb (sn_tenant s) tenant && N.eqb (sn_product s) product) (snd <$> map_to_list (db_snapshots d)).
Definition available_of (tenant product : uuid) (d : DB) : dec := dsum_from dzero (sn_available <$> snapshots_of tenant product d).
Definition cost_of (tenant product : uuid) (d : DB) : dec :=
  match snapshots_of tenant product d with
  | [] => dzero
  | l =>
      let available := dsum_from dzero (sn_available <$> l) in
      if is_positive available
      then numeric_div (dsum_from dzero ((fun s => dmul (sn_unit_cost s) (sn_available s)) <$> l)) available
      else numeric_div (dsum_from dzero (sn_unit_cost <$> l)) (dint (Z.of_nat (length l)))
  end.
(** safety *)
Definition safety_of (tenant product : uuid) (d : DB) : dec :=
  match omap (fun '((t, p, _), (_, low)) => if N.eqb t tenant && N.eqb p product then low else None) (map_to_list (db_initial d)) with
  | [] => dzero
  | q :: l => fold_left dmin l q
  end.
(** The lines of a product on purchases that are not deleted, with their heads. *)
Definition purchases (tenant product : uuid) (d : DB) : list (ItemRow * HeadRow) :=
  omap (fun it =>
    match db_heads d !! bi_head (ir_item it) with
    | Some h => if N.eqb (bi_product (ir_item it)) product && N.eqb (bh_tenant (hr_head h)) tenant
                   && String.eqb (bh_type (hr_head h)) BillTypePurchase && String.eqb (bh_sub_type (hr_head h)) BillSubTypePurchase
                   && negb (hr_deleted h)
                then Some (it, h) else None
    | None => None
    end) (db_items d).
Definition approved (x : ItemRow * HeadRow) : bool := Z.eqb (bh_status (hr_head x.2)) StatusApproved.
Definition line_live (x : ItemRow * HeadRow) : bool := negb (ir_deleted x.1).
Definition newest (x : ItemRow * HeadRow) : Z := (- bh_date (hr_head x.2))%Z.
(** in_transit *)
Definition in_transit (tenant product : uuid) (d : DB) : dec :=
  dsum_from dzero ((fun x => bi_qty (ir_item x.1)) <$>
    select (fun x => (Z.eqb (bh_status (hr_head x.2)) 0 || Z.eqb (bh_status (hr_head x.2)) 1) && line_live x) (purchases tenant product d)).
(** last_supplier *)
Definition supplier_row (x : ReplenishRows) (d : DB) (h : HeadRow) : option PartnerRow :=
  p ← bh_partner (hr_head h);
  List.find (fun q => N.eqb (pt_id q) p && negb (pt_deleted q) &&
    match rp_partner_types x !! pt_id q with Some t => String.eqb t "supplier" || String.eqb t "both" | None => false end) (db_partners d).
Definition last_supplier (tenant product : uuid) (x : ReplenishRows) (d : DB) : option PartnerRow :=
  h ← head (sql_order newest (select (fun y => approved y && negb (is_none (supplier_row x d y.2))) (purchases tenant product d)));
  supplier_row x d h.2.
(** lead_learned *)
Definition lead_sample (y : ItemRow * HeadRow) : option (time * Q) :=
  match bh_approved_at (hr_head y.2) with
  | Some a => let took := (a - bh_created_at (hr_head y.2))%Z in
              if approved y && line_live y && Z.leb (leadLearnMinSampleHours * hour) took then Some (a, interval_days took) else None
  | None => None
  end.
#[local] Instance qle_dec : RelDecision Qle := fun a b =>
  match Qlt_le_dec b a with left H => right (Qlt_not_le _ _ H) | right H => left H end.
Definition median (l : list Q) : Q :=
  let sorted := merge_sort Qle l in
  let n := length l in
  if Nat.even n then middle (nth (n / 2 - 1) sorted 0) (nth (n / 2) sorted 0) else nth (n / 2) sorted 0.
Definition lead_learned (tenant product : uuid) (d : DB) : option (Q * Z) :=
  let samples := firstn leadLearnMaxSamples (sql_order (fun s => (- s.1)%Z) (omap lead_sample (purchases tenant product d))) in
  if Nat.leb leadLearnMinSamples (length samples) then Some (median (snd <$> samples), Z.of_nat (length samples)) else None.
(** last_price *)
Definition cny_price (y : ItemRow * HeadRow) : dec := dmul (bi_unit_price (ir_item y.1)) (bh_rate (hr_head y.2)).
Definition last_price (tenant product : uuid) (d : DB) : option dec :=
  cny_price <$> head (sql_order newest (select (fun y => approved y && line_live y) (purchases tenant product d))).

Definition raw_row (tenant : uuid) (now : time) (x : ReplenishRows) (d : DB) (p : ProductRow) : option RawRow :=
  match rp_products x !! pd_id p with
  | Some i =>
      if N.eqb (pd_tenant p) tenant && negb (pd_deleted p) && pi_enabled i then
        let supplier := last_supplier tenant (pd_id p) x d in
        let learned := lead_learned tenant (pd_id p) d in
        Some (mkRawRow (pd_id p) (pd_name p) (pi_code i) (available_of tenant (pd_id p) d) (safety_of tenant (pd_id p) d)
          (cost_of tenant (pd_id p) d) (velocity tenant now d (pd_id p)) (pi_lead_time i) (in_transit tenant (pd_id p) d)
          (pt_id <$> supplier) (default "" (pt_name <$> supplier))
          (default 0%Q (fst <$> learned)) (default 0%Z (snd <$> learned)) (last_price tenant (pd_id p) d))
      else None
  | None => None
  end.
Definition ListSuggestions (tenant : uuid) : RM (list RawRow) :=
  at_state (fun s => ext_query "replenish list suggestions" (fun x =>
    firstn (Z.to_nat 10000) (sql_order (fun r => text_order (rr_ProductName r))
      (omap (raw_row tenant (clock_at (w_tick (ex_shop s))) x (w_db (ex_shop s))) (db_products (w_db (ex_shop s))))))).

(** ** The ledger (ledger.go) *)

Definition adoptionLookbackDays : Z := 7.
Definition today (now : time) : Z := day_number now.

(** UpsertSnapshots *)
Definition log_key (r : LogRow) : uuid * uuid * Z := (lg_tenant r, lg_product r, lg_day r).
Definition snapshot_log (tenant : uuid) (now : time) (r : SnapshotRow) : LogRow :=
  mkLogRow tenant (ns_ProductID r) (today now) (num4 (ns_SuggestedQty r)) (num4 (ns_AvailableQty r)) (num4 (ns_AvgDailySales r))
    (dround 2 (dint (ns_LeadTimeDays r))) (ns_LeadTimeSource r) (num4 (ns_DaysOfSupply r)) now None.
Definition refreshed (new old : LogRow) : LogRow :=
  mkLogRow (lg_tenant old) (lg_product old) (lg_day old) (lg_suggested new) (lg_available new) (lg_avg new) (lg_lead new) (lg_source new)
    (lg_days new) (lg_created old) (lg_adopted old).
Definition upsert_one (log : list LogRow) (new : LogRow) : list LogRow :=
  if existsb (fun r => bool_decide (log_key r = log_key new)) log
  then map (fun r => if bool_decide (log_key r = log_key new) && is_none (lg_adopted r) then refreshed new r else r) log
  else (log ++ [new])%list.
Definition known_source (s : string) : bool :=
  existsb (String.eqb s) [LeadTimeSourceLearned; LeadTimeSourceConfigured; LeadTimeSourceDefault].
Definition upsert_snapshots (tenant : uuid) (now : time) (rows : list SnapshotRow) (d : DB) (x : ReplenishRows) : error + (unit * ReplenishRows) :=
  _ ← require (bool_decide (NoDup (ns_ProductID <$> rows))) (EConstraint "ON CONFLICT DO UPDATE command cannot affect row a second time");
  _ ← require (forallb (fun r => known_source (ns_LeadTimeSource r)) rows) (EConstraint "replenish_suggestion_log_lead_time_source_check");
  _ ← require (forallb (fun r => existsb (fun p => N.eqb (pd_id p) (ns_ProductID r)) (db_products d)) rows)
        (EConstraint "replenish_suggestion_log_product_id_fkey");
  mret (tt, mkReplenishRows (rp_products x) (rp_partner_types x) (fold_left upsert_one (snapshot_log tenant now <$> rows) (rp_log x))).
Definition UpsertSnapshots (tenant : uuid) (rows : list SnapshotRow) : RM unit :=
  match rows with
  | [] => mret tt
  | _ => at_state (fun s => ext_statement "replenish upsert snapshots"
           (upsert_snapshots tenant (clock_at (w_tick (ex_shop s))) rows (w_db (ex_shop s))))
  end.

(** MarkAdopted *)
Definition adoptable (tenant : uuid) (products : list uuid) (now : time) (r : LogRow) : bool :=
  N.eqb (lg_tenant r) tenant && bool_decide (lg_product r ∈ products) && is_none (lg_adopted r)
  && Z.leb (now - adoptionLookbackDays * (24 * hour)) (lg_created r).
Definition adopt (now : time) (bill : uuid) (r : LogRow) : LogRow :=
  mkLogRow (lg_tenant r) (lg_product r) (lg_day r) (lg_suggested r) (lg_available r) (lg_avg r) (lg_lead r) (lg_source r) (lg_days r)
    (lg_created r) (Some (now, bill)).
Definition mark_adopted (tenant : uuid) (products : list uuid) (bill : uuid) (now : time) (d : DB) (x : ReplenishRows)
    : error + (unit * ReplenishRows) :=
  _ ← require (negb (existsb (adoptable tenant products now) (rp_log x)) || bool_decide (is_Some (db_heads d !! bill)))
        (EConstraint "replenish_suggestion_log_adopted_bill_id_fkey");
  mret (tt, mkReplenishRows (rp_products x) (rp_partner_types x)
    (map (fun r => if adoptable tenant products now r then adopt now bill r else r) (rp_log x))).
Definition MarkAdopted (tenant : uuid) (products : list uuid) (bill : uuid) : RM unit :=
  match products with
  | [] => mret tt
  | _ => at_state (fun s => ext_statement "replenish mark adopted"
           (mark_adopted tenant products bill (clock_at (w_tick (ex_shop s))) (w_db (ex_shop s))))
  end.

(** Scorecard *)
Record ScorecardRaw := mkScorecardRaw { sr_SuggestionsCount : Z; sr_AdoptedCount : Z; sr_StockoutMisses : Z }.
Definition in_window (tenant : uuid) (day days : Z) (r : LogRow) : bool := N.eqb (lg_tenant r) tenant && Z.leb (day - days) (lg_day r).
Definition never_adopted (win : list LogRow) : list uuid :=
  select (fun p => forallb (fun r => negb (N.eqb (lg_product r) p) || is_none (lg_adopted r)) win) (remove_dups (lg_product <$> win)).
Definition scorecard (tenant : uuid) (day days : Z) (d : DB) (x : ReplenishRows) : ScorecardRaw :=
  let win := select (in_window tenant day days) (rp_log x) in
  mkScorecardRaw (Z.of_nat (length win)) (Z.of_nat (length (select (fun r => negb (is_none (lg_adopted r))) win)))
    (Z.of_nat (length (select (fun p => match snapshots_of tenant p d with [] => false | _ => negb (is_positive (available_of tenant p d)) end)
       (never_adopted win)))).

(** ** Use cases *)

(** ListSuggestionsUseCase.Execute *)
Definition more_urgent (a b : SuggestionRow) : bool := dlt (sg_UrgencyScore a) (sg_UrgencyScore b).
Definition snapshots_to_keep (out : list SuggestionRow) : list SnapshotRow :=
  (fun s => mkSnapshotRow (sg_ProductID s) (sg_SuggestedQty s) (sg_AvailableQty s) (sg_AvgDailySales s) (sg_LeadTimeDays s)
              (sg_LeadTimeSource s) (sg_UrgencyScore s)) <$> select (fun s => is_positive (sg_SuggestedQty s)) out.
Definition ListSuggestions_Execute (tenant : uuid) (weeks : Z) : RM (list SuggestionRow) :=
  let weeks := if Z.leb weeks 0 then DefaultWeeks else weeks in
  raws ← ListSuggestions tenant;
  let out := sort_slice more_urgent ((fun r => Forecast r weeks) <$> raws) in
  try (UpsertSnapshots tenant (snapshots_to_keep out));;
  mret out.

(** ListLowStockUseCase.Execute (low_stock.go) *)
Record LowStockRow := mkLowStockRow {
  ls_ProductID : uuid; ls_ProductCode : string; ls_ProductName : string; ls_AvailableQty : string; ls_ReorderPoint : string;
  ls_AvgDailySales : string; ls_DaysOfSupply : string }.
Definition ReorderPoint (f : SuggestionRow) : dec := if is_positive (sg_SafetyQty f) then sg_SafetyQty f else sg_ROP f.
Definition is_low (f : SuggestionRow) : bool :=
  negb (is_zero (ReorderPoint f) || negb (dlt (sg_AvailableQty f) (ReorderPoint f))).
Definition low_row (f : SuggestionRow) : LowStockRow :=
  mkLowStockRow (sg_ProductID f) (sg_ProductCode f) (sg_ProductName f) (dto_string (sg_AvailableQty f)) (dto_string (ReorderPoint f))
    (dto_string (sg_AvgDailySales f)) (dto_string (sg_UrgencyScore f)).
Definition low_stock (raws : list RawRow) (limit : Z) : list SuggestionRow :=
  firstn (Z.to_nat limit) (sort_slice more_urgent (select is_low ((fun r => Forecast r DefaultWeeks) <$> raws))).
Definition ListLowStock_Execute (tenant : uuid) (limit : Z) : RM (list LowStockRow) :=
  let limit := if Z.leb limit 0 then 200%Z else limit in
  raws ← on_err (EWrap "list low stock") (ListSuggestions tenant);
  mret (low_row <$> low_stock raws limit).

(** GetScorecardUseCase.Execute (scorecard.go); a float64 rate *)
Definition scorecardWindowDays : Z := 28.
Record Scorecard := mkScorecard { sd_WindowDays : Z; sd_SuggestionsCount : Z; sd_AdoptedCount : Z; sd_AdoptionRate : Q; sd_StockoutMisses : Z }.
Definition GetScorecard_Execute (tenant : uuid) : RM Scorecard :=
  guard_err (N.eqb tenant uuid_nil) (EMsg "replenish scorecard: tenant_id required");;
  raw ← on_err (EWrap "replenish scorecard") (at_state (fun s => ext_query "replenish scorecard"
          (scorecard tenant (today (clock_at (w_tick (ex_shop s)))) scorecardWindowDays (w_db (ex_shop s)))));
  let rate := if Z.ltb 0 (sr_SuggestionsCount raw) then (inject_Z (sr_AdoptedCount raw) / inject_Z (sr_SuggestionsCount raw))%Q else 0%Q in
  mret (mkScorecard scorecardWindowDays (sr_SuggestionsCount raw) (sr_AdoptedCount raw) rate (sr_StockoutMisses raw)).

(** ** Drafts (batch_draft.go, repo.go) *)

(** DraftBatchLine, DraftBatchRequest, DraftResult; no names are resolved on the server *)
Record DraftBatchLine := mkDraftBatchLine { dl_ProductID : uuid; dl_SupplierID : option uuid; dl_Qty : dec }.
Record DraftBatchRequest := mkDraftBatchRequest { db_TenantID : uuid; db_CreatorID : uuid; db_Lines : list DraftBatchLine; db_Remark : string }.
Record DraftResult := mkDraftResult { dr_BillID : uuid; dr_BillNo : string; dr_SupplierID : option uuid; dr_LineCount : nat }.
Record Group := mkGroup { gp_supplierID : option uuid; gp_lines : list DraftBatchLine }.

(** LastPurchasePrices: of the same supplier, else of another one, else of a bill without one *)
Definition supplier_rank (supplier : option uuid) (y : ItemRow * HeadRow) : Z :=
  match bh_partner (hr_head y.2), supplier with
  | Some p, Some s => if N.eqb p s then 0 else 1
  | _, _ => 2
  end.
Definition price_order (a b : option uuid * (ItemRow * HeadRow)) : Prop :=
  (supplier_rank a.1 a.2 < supplier_rank b.1 b.2)%Z \/
  (supplier_rank a.1 a.2 = supplier_rank b.1 b.2 /\ (newest a.2 <= newest b.2)%Z).
#[export] Instance price_order_dec : RelDecision price_order.
Proof. intros a b. unfold price_order. apply _. Defined.
Definition candidates (tenant : uuid) (d : DB) (pairs : list (uuid * option uuid)) (product : uuid) : list (option uuid * (ItemRow * HeadRow)) :=
  flat_map (fun pr => if N.eqb pr.1 product
                      then (fun y => (pr.2, y)) <$> select (fun y => approved y && line_live y) (purchases tenant product d) else []) pairs.
Definition last_purchase_price (tenant : uuid) (d : DB) (pairs : list (uuid * option uuid)) (product : uuid) : option dec :=
  (fun c => cny_price c.2) <$> head (merge_sort price_order (candidates tenant d pairs product)).
Definition LastPurchasePrices (tenant : uuid) (pairs : list (uuid * option uuid)) : RM (gmap uuid dec) :=
  match pairs with
  | [] => mret ∅
  | _ => lift (query "replenish last purchase prices" (fun d =>
           list_to_map (omap (fun p => (fun v => (p, v)) <$> last_purchase_price tenant d pairs p) (remove_dups (fst <$> pairs)))))
  end.

(** The groups of a batch, in the order in which their suppliers first appear. *)
Fixpoint add_line (l : DraftBatchLine) (gs : list Group) : list Group :=
  match gs with
  | [] => [mkGroup (dl_SupplierID l) [l]]
  | g :: rest =>
      if bool_decide (gp_supplierID g = dl_SupplierID l) then mkGroup (gp_supplierID g) (gp_lines g ++ [l])%list :: rest
      else g :: add_line l rest
  end.
Definition groups_of (lines : list DraftBatchLine) : list Group :=
  fold_left (fun gs l => if is_zero (dl_Qty l) || is_negative (dl_Qty l) then gs else add_line l gs) lines [].
Definition group_key (g : Group) : string := match gp_supplierID g with Some s => uuid_string s | None => "__no_supplier__" end.

Definition draft_items (prices : gmap uuid dec) (lines : list DraftBatchLine) : list CreatePurchaseItemInput :=
  imap (fun i l => mkCreatePurchaseItemInput (dl_ProductID l) None "" (Z.of_nat i + 1) (dl_Qty l) (default dzero (prices !! dl_ProductID l))) lines.
Definition group_request (req : DraftBatchRequest) (remark : string) (prices : gmap uuid dec) (now : time) (g : Group) : CreatePurchaseDraftRequest :=
  mkCreatePurchaseDraftRequest (db_TenantID req) (db_CreatorID req) (gp_supplierID g) None now dzero dzero remark
    (draft_items prices (gp_lines g)) "" dzero.
Definition create_group (req : DraftBatchRequest) (remark : string) (prices : gmap uuid dec) (now : time) (g : Group) : RM DraftResult :=
  created ← on_err (EWrap ("replenish batch draft: create group " ++ group_key g))
              (lift (CreatePurchaseDraft_Execute (group_request req remark prices now g)));
  try (MarkAdopted (db_TenantID req) (dl_ProductID <$> gp_lines g) (co_bill created));;
  mret (mkDraftResult (co_bill created) (co_no created) (gp_supplierID g) (length (gp_lines g))).
Fixpoint create_groups (req : DraftBatchRequest) (remark : string) (prices : gmap uuid dec) (now : time) (gs : list Group) : RM (list DraftResult) :=
  match gs with
  | [] => mret []
  | g :: rest =>
      r ← create_group req remark prices now g;
      rs ← create_groups req remark prices now rest;
      mret (r :: rs)
  end.
Definition batch_remark (req : DraftBatchRequest) : string := if String.eqb (db_Remark req) "" then "补货建议批量草稿" else db_Remark req.
Definition price_pairs (gs : list Group) : list (uuid * option uuid) :=
  flat_map (fun g => (fun l => (dl_ProductID l, gp_supplierID g)) <$> gp_lines g) gs.
Definition CreateDraftBatch_Execute (req : DraftBatchRequest) : RM (list DraftResult) :=
  guard_err (N.eqb (db_TenantID req) uuid_nil) (EMsg "replenish batch draft: tenant_id required");;
  guard_err (Nat.eqb (length (db_Lines req)) 0) (EMsg "replenish batch draft: at least one line required");;
  let gs := groups_of (db_Lines req) in
  guard_err (Nat.eqb (length gs) 0) (EMsg "replenish batch draft: all lines have zero or negative qty");;
  prices ← on_err (EWrap "replenish batch draft: last purchase prices") (LastPurchasePrices (db_TenantID req) (price_pairs gs));
  now ← lift time_now;
  create_groups req (batch_remark req) prices now gs.
End replenish.
