(* ===== verification/ReplenishLaws.v ===== *)
(** What replenishment promises: the suggested quantity is the least that covers the demand, the
    low-stock list is exactly the products below their reorder point, most urgent first, a batch
    becomes one draft per supplier, group by group, and an adopted suggestion is never rewritten. *)
From S2P Require Import Prelude GoStrings GoTime Rounding Decimal SDec Types StockDomain BillDomain Store StockRepo StockCalc StockFIFO StockRecord StockAdjust BillRepo BillRows BillDraft BillApprove BillEdit BillReturn ReturnCap SaleReturn Checkout Ledger Payment PurchaseReturn Concrete BillLife ExtStore CatalogueStore CatalogueLaws Replenish.
From stdpp Require Import base tactics strings gmap list sorting.
From Stdlib Require Import ZArith QArith Qround Qminmax Lia Lqa Sorting.Sorted.

#[local] Open Scope string_scope.

Section laws.
Context {ops : DecimalOps} {laws : DecimalLaws ops} {env : Env} {elaws : EnvLaws env} {pg : PgText}
  {float : FloatMath} {flaws : FloatLaws float} {sorts : SortSlice} {slaws : SortSliceLaws sorts}.
Abbreviation RM := (XM (X:=ReplenishRows)).

(** ** How much to order *)

(** What the next weeks take beyond what is there and under way, with the safety stock. *)
Definition demand (r : RawRow) (weeks : Z) : Q :=
  val (rr_AvgDailySales r) * 7 * inject_Z (weeks_or_default weeks) + val (safety_stock r) - val (rr_AvailableQty r) - val (rr_InTransit r).

Lemma val_pick (b : bool) (p q : dec) : val (if b then p else q) == (if b then val p else val q).
Proof. by destruct b. Qed.

Lemma suggested_val r weeks : val (suggested_qty r weeks) == inject_Z (Qceiling (Qmax 0 (demand r weeks))).
Proof.
  unfold suggested_qty. rewrite val_ceil. apply inject_Z_injective, Qceiling_comp.
  set (t := dsub _ _). assert (E : val t == demand r weeks).
  { unfold t, demand. rewrite !val_sub, val_add, !val_mul, !val_int. change (inject_Z 7) with 7. ring. }
  destruct (is_negative t) eqn:N; dec_tests.
  - rewrite val_zero, Q.max_l; [reflexivity|]. rewrite <-E. lra.
  - rewrite E in *. by rewrite Q.max_r.
Qed.

Lemma lead_time_pos r : (1 <= (lead_time r).1)%Z.
Proof.
  unfold lead_time. destruct (Z.leb_spec minLeadTimeSamples (rr_LeadTimeSamples r)); [simpl; destruct (Z.ltb_spec (half_away (rr_LearnedLeadDays r)) 1); lia|].
  destruct (Z.leb_spec (rr_LeadTimeDays r) 0); simpl; unfold defaultLeadTimeDays; lia.
Qed.

Lemma safety_stock_pos r : 0 <= val (rr_AvgDailySales r) -> 0 <= val (safety_stock r).
Proof.
  intros H. unfold safety_stock. destruct (is_zero _); [rewrite val_zero; lra|]. rewrite !val_mul. unfold z_factor, sigmaFactor. rewrite !val_new.
  pose proof (sqrt_float_pos (lead_time r).1). apply Qmult_le_0_compat; [|done]. apply Qmult_le_0_compat; [by compute|]. apply Qmult_le_0_compat; [done|by compute].
Qed.

(** a suggestion asks for the least whole quantity that covers what the coming weeks are expected
    to sell, with the safety stock, beyond what is in stock and on order, and for nothing when that
    is enough; its amount is that quantity at the last purchase price, or at cost when there is none;
    and its reorder point is what the lead time, at least a day, sells and the safety stock. *)
Theorem suggestion_is_least (r : RawRow) (weeks : Z) :
  let f := Forecast r weeks in
  exists n : Z, (0 <= n)%Z /\ val (sg_SuggestedQty f) == inject_Z n /\ demand r weeks <= inject_Z n /\
    (forall m : Z, (0 <= m)%Z -> demand r weeks <= inject_Z m -> (n <= m)%Z) /\
    val (sg_EstAmountCNY f) == inject_Z n * val (unit_price r) /\
    (1 <= sg_LeadTimeDays f)%Z /\
    val (sg_ROP f) == val (rr_AvgDailySales r) * inject_Z (sg_LeadTimeDays f) + val (sg_SafetyStock f) /\
    (0 <= val (rr_AvgDailySales r) -> val (rr_AvgDailySales r) <= val (sg_ROP f)).
Proof.
  intros f. exists (Qceiling (Qmax 0 (demand r weeks))). set (n := Qceiling _).
  pose proof (Q.le_max_l 0 (demand r weeks)) as H0. pose proof (Q.le_max_r 0 (demand r weeks)) as HD. pose proof (Qle_ceiling (Qmax 0 (demand r weeks))) as HC.
  fold n in HC. assert (Hlead : (1 <= (lead_time r).1)%Z) by apply lead_time_pos.
  subst f. unfold Forecast. destruct (lead_time r) as [lead source]. cbn [fst sg_SuggestedQty sg_EstAmountCNY sg_LeadTimeDays sg_ROP sg_SafetyStock] in *. split_and!.
  - rewrite Zle_Qle. change (inject_Z 0) with 0. lra.
  - apply suggested_val.
  - lra.
  - intros m Hm Hd. assert (Qmax 0 (demand r weeks) <= inject_Z m) as K by (apply Q.max_lub; [rewrite Zle_Qle in Hm; done|done]).
    apply Qceiling_resp_le in K. rewrite Qceiling_Z in K. exact K.
  - by rewrite val_mul, suggested_val.
  - done.
  - by rewrite val_add, val_mul, val_int.
  - intros Ha. rewrite val_add, val_mul, val_int. pose proof (safety_stock_pos r Ha). rewrite Zle_Qle in Hlead. change (inject_Z 1) with 1 in Hlead.
    pose proof (Qmult_le_0_compat _ (inject_Z lead - 1) Ha ltac:(lra)). lra.
Qed.

(** ** What is low *)

Definition below (f : SuggestionRow) : Prop := ~ val (ReorderPoint f) == 0 /\ val (sg_AvailableQty f) < val (ReorderPoint f).
Lemma is_low_true f : is_low f = true <-> below f.
Proof.
  unfold is_low, below. rewrite negb_true_iff, orb_false_iff, negb_false_iff. split; intros [? ?]; split; dec_tests; try done; by (apply is_zero_false || apply dlt_true).
Qed.

Lemma more_urgent_spec a b : more_urgent b a = false <-> val (sg_UrgencyScore a) <= val (sg_UrgencyScore b).
Proof. unfold more_urgent. apply dlt_false. Qed.
Lemma sorted_by_urgency l : StronglySorted (fun a b => val (sg_UrgencyScore a) <= val (sg_UrgencyScore b)) (sort_slice more_urgent l).
Proof.
  assert (S : StronglySorted (fun a b => more_urgent b a = false) (sort_slice more_urgent l)).
  { apply sort_slice_sorted.
    - intros a b c. rewrite !more_urgent_spec. intros. lra.
    - intros a b. rewrite !more_urgent_spec. lra. }
  induction S as [|a k S IH F]; constructor; [done|]. eapply Forall_impl; [exact F|]. simpl. intros b. by rewrite more_urgent_spec.
Qed.
Lemma sorted_split {A} (R : A -> A -> Prop) l k : StronglySorted R (l ++ k) -> Forall (fun a => Forall (R a) k) l.
Proof.
  induction l as [|a l IH]; intros H; [constructor|]. simpl in H. apply StronglySorted_inv in H as [H F]. constructor; [|by apply IH].
  apply Forall_app in F. tauto.
Qed.

Lemma ListSuggestions_Ok tenant s raws s' : ListSuggestions tenant s = (Ok raws, s') ->
  ex_rows s' = ex_rows s /\ w_db (ex_shop s') = w_db (ex_shop s) /\
  raws = firstn (Z.to_nat 10000) (sql_order (fun r => text_order (rr_ProductName r))
      (omap (raw_row tenant (clock_at (w_tick (ex_shop s))) (ex_rows s) (w_db (ex_shop s))) (db_products (w_db (ex_shop s))))).
Proof. unfold ListSuggestions, at_state. intros (_ & -> & ->)%ext_query_Ok. by split_and!. Qed.

(** the low-stock list is, of the products the suggestions are made for, exactly those whose stock is
    below their reorder point, the one set by hand where there is one and the learned one otherwise,
    except that at most [limit] are listed and those left out are no more urgent than any listed; it
    is in order of the days the stock will last. *)
Theorem low_stock_exact (tenant : uuid) (limit : Z) (s : Ext ReplenishRows) rows s' :
  ListLowStock_Execute tenant limit s = (Ok rows, s') ->
  exists raws s1 listed rest, ListSuggestions tenant s = (Ok raws, s1) /\ rows = low_row <$> listed /\
    listed ++ rest ≡ₚ select is_low ((fun r => Forecast r DefaultWeeks) <$> raws) /\
    (forall r, r ∈ raws -> below (Forecast r DefaultWeeks) <-> Forecast r DefaultWeeks ∈ (listed ++ rest)%list) /\
    length listed = Nat.min (length (listed ++ rest)) (Z.to_nat (if Z.leb limit 0 then 200 else limit)) /\
    StronglySorted (fun a b => val (sg_UrgencyScore a) <= val (sg_UrgencyScore b)) listed /\
    Forall (fun a => Forall (fun b => val (sg_UrgencyScore a) <= val (sg_UrgencyScore b)) rest) listed.
Proof.
  unfold ListLowStock_Execute. intros H. apply bind_Ok in H as (raws & s1 & H%on_err_Ok & [<- <-]%ret_Ok). unfold low_stock.
  set (n := Z.to_nat _). set (low := select _ _). exists raws, s1, (take n (sort_slice more_urgent low)), (drop n (sort_slice more_urgent low)).
  pose proof (sorted_by_urgency low) as S. rewrite <-(take_drop n (sort_slice more_urgent low)) in S. split_and!; [done|done| | | | |by apply sorted_split].
  - rewrite take_drop. apply sort_slice_perm.
  - intros r Hr. rewrite take_drop, sort_slice_perm. unfold low. rewrite elem_of_select, is_low_true. split; [|tauto]. intros B. split; [done|].
    by apply (list_elem_of_fmap_2 (fun r => Forecast r DefaultWeeks)).
  - rewrite take_drop, length_take. lia.
  - clear -S. induction (take n _) as [|a l IH]; [constructor|]. simpl in S. apply StronglySorted_inv in S as [S F]. constructor; [by apply IH|].
    apply Forall_app in F. tauto.
Qed.

(** ** The ledger *)

(** A row of the log later on: the same day's suggestion, refreshed as long as it was not taken up. *)
Definition row_final (r r' : LogRow) : Prop :=
  log_key r' = log_key r /\ lg_created r' = lg_created r /\ (lg_adopted r <> None -> r' = r).
#[export] Instance row_final_preorder : PreOrder row_final.
Proof.
  split; [by intros r|]. intros r1 r2 r3 (K1 & C1 & A1) (K2 & C2 & A2). split_and!; [congruence..|].
  intros H. rewrite <-(A1 H). apply A2. by rewrite (A1 H).
Qed.
Definition log_later (l l' : list LogRow) : Prop := exists kept new, l' = (kept ++ new)%list /\ Forall2 row_final l kept.
#[export] Instance log_later_preorder : PreOrder log_later.
Proof.
  split.
  - intros l. exists l, []. rewrite app_nil_r. split; [done|]. apply Forall_Forall2_diag, Forall_forall. intros ? _. reflexivity.
  - intros l1 l2 l3 (k1 & n1 & -> & F1) (k2 & n2 & -> & F2). apply Forall2_app_inv_l in F2 as (k3 & k4 & F3 & F4 & ->).
    exists k3, (k4 ++ n2)%list. rewrite app_assoc. split; [done|]. by etrans.
Qed.
Definition log_step (l l' : list LogRow) : Prop := NoDup (log_key <$> l) -> NoDup (log_key <$> l') /\ log_later l l'.
#[export] Instance log_step_preorder : PreOrder log_step.
Proof. split; [by intros l N|]. intros l1 l2 l3 H1 H2 N. destruct (H1 N) as [N2 L1]. destruct (H2 N2) as [N3 L2]. split; [done|by etrans]. Qed.

Lemma log_mapped (f : LogRow -> LogRow) l : (forall r, row_final r (f r)) -> log_step l (map f l).
Proof.
  intros Hf N. split.
  - assert (E : log_key <$> map f l = log_key <$> l); [|by rewrite E]. clear N. induction l as [|r l IH]; [done|].
    change (log_key (f r) :: (log_key <$> map f l) = log_key r :: (log_key <$> l)). rewrite IH. f_equal. apply Hf.
  - exists (map f l), []. rewrite app_nil_r. split; [done|]. clear N. induction l as [|r l IH]; simpl; constructor; [apply Hf|done].
Qed.
Lemma upsert_one_step log new : log_step log (upsert_one log new).
Proof.
  unfold upsert_one. destruct (existsb _ log) eqn:E.
  - apply log_mapped. intros r. destruct (bool_decide _ && _) eqn:B; [|reflexivity]. apply andb_true_iff in B as [_ B]. split_and!; [done..|].
    by destruct (lg_adopted r).
  - intros N. split; [|exists log, [new]; split; [done|]; apply Forall_Forall2_diag, Forall_forall; intros ? _; reflexivity].
    rewrite fmap_app. apply NoDup_app. split_and!; [done| |apply NoDup_singleton]. intros k (r & -> & Hr)%list_elem_of_fmap Hk%list_elem_of_singleton.
    apply not_true_iff_false in E. apply E, existsb_exists. exists r. split; [by apply list_elem_of_In|]. by apply bool_decide_eq_true.
Qed.
Lemma upsert_rows_step news log : log_step log (fold_left upsert_one news log).
Proof. revert log. induction news as [|n news IH]; intros log; [by intros N|]. simpl. etrans; [apply upsert_one_step|apply IH]. Qed.
Lemma adopt_step tenant products now bill log : log_step log (map (fun r => if adoptable tenant products now r then adopt now bill r else r) log).
Proof.
  apply log_mapped. intros r. destruct (adoptable tenant products now r) eqn:A; [|reflexivity]. split_and!; [done..|].
  unfold adoptable in A. apply andb_true_iff in A as [[_ A]%andb_true_iff _]. by destruct (lg_adopted r).
Qed.

(** What a run does to the log. *)
Definition on_log (s s' : Ext ReplenishRows) : Prop := log_step (rp_log (ex_rows s)) (rp_log (ex_rows s')).
#[export] Instance on_log_preorder : PreOrder on_log.
Proof. split; [by intros s; red|]. intros s1 s2 s3 H1 H2. red. etrans; [exact H1|exact H2]. Qed.

Lemma log_lift {A} (m : M A) : keeps on_log (lift (X:=ReplenishRows) m).
Proof. intros s. unfold lift. destruct (m (ex_shop s)). red. simpl. reflexivity. Qed.
Lemma log_query {A} l (f : ReplenishRows -> A) : keeps on_log (ext_query l f).
Proof. intros s. unfold ext_query, ext_statement, on_log. destruct (db_fault _); reflexivity. Qed.
Lemma log_upsert tenant rows : keeps on_log (UpsertSnapshots tenant rows).
Proof.
  unfold UpsertSnapshots. destruct rows as [|r rows]; [intros s; red; simpl; reflexivity|]. generalize (r :: rows). clear r rows. intros rows s.
  unfold at_state, ext_statement, on_log. destruct (db_fault _); [reflexivity|]. destruct (upsert_snapshots _ _ _ _ _) as [e|[u x]] eqn:E; [reflexivity|].
  unfold upsert_snapshots, mbind, sum_bind in E. apply sum_bind_inr in E as (u1 & _ & E). apply sum_bind_inr in E as (u2 & _ & E).
  apply sum_bind_inr in E as (u3 & _ & E). injection E as _ <-. simpl. apply upsert_rows_step.
Qed.
Lemma log_mark tenant products bill : keeps on_log (MarkAdopted tenant products bill).
Proof.
  unfold MarkAdopted. destruct products as [|p ps]; [intros s; red; simpl; reflexivity|]. generalize (p :: ps). clear p ps. intros products s.
  unfold at_state, ext_statement, on_log. destruct (db_fault _); [reflexivity|]. destruct (mark_adopted _ _ _ _ _ _) as [e|[u x]] eqn:E; [reflexivity|].
  unfold mark_adopted, mbind, sum_bind in E. apply sum_bind_inr in E as (u1 & _ & E). injection E as _ <-. simpl. apply adopt_step.
Qed.
#[local] Hint Resolve log_lift log_query log_upsert log_mark : keeps.

Lemma log_create_groups req remark prices now gs : keeps on_log (create_groups req remark prices now gs).
Proof. induction gs as [|g gs IH]; cbn [create_groups]; unfold create_group; keeps_solve. Qed.
Lemma log_at {A} (f : Ext ReplenishRows -> RM A) : (forall s, keeps on_log (f s)) -> keeps on_log (at_state f).
Proof. intros H s. apply H. Qed.
Lemma log_list tenant : keeps on_log (ListSuggestions tenant).
Proof. unfold ListSuggestions. apply log_at. intros s. apply log_query. Qed.
Lemma log_at_query {A} l (f : Ext ReplenishRows -> ReplenishRows -> A) : keeps on_log (at_state (fun s => ext_query l (f s))).
Proof. apply log_at. intros s. apply log_query. Qed.
Lemma log_prices tenant pairs : keeps on_log (LastPurchasePrices tenant pairs).
Proof. unfold LastPurchasePrices. destruct pairs; [apply keeps_ret, _|apply log_lift]. Qed.
#[local] Hint Resolve log_create_groups log_list log_at_query log_prices : keeps.

(** A request to the replenishment pages. *)
Inductive ReplenishRequest :=
  | AskSuggestions (tenant : uuid) (weeks : Z)
  | AskLowStock (tenant : uuid) (limit : Z)
  | AskScorecard (tenant : uuid)
  | DraftBatch (req : DraftBatchRequest).
Definition serve_replenish (q : ReplenishRequest) : RM unit :=
  match q with
  | AskSuggestions tenant weeks => ListSuggestions_Execute tenant weeks;; mret tt
  | AskLowStock tenant limit => ListLowStock_Execute tenant limit;; mret tt
  | AskScorecard tenant => GetScorecard_Execute tenant;; mret tt
  | DraftBatch req => CreateDraftBatch_Execute req;; mret tt
  end.
Lemma log_serve q : keeps on_log (serve_replenish q).
Proof.
  destruct q; cbn [serve_replenish]; unfold ListSuggestions_Execute, ListLowStock_Execute, GetScorecard_Execute, CreateDraftBatch_Execute; keeps_solve.
Qed.
Context {wiring : Wiring} {calc : InventoryCalculator}.

(** A request to the replenishment pages, or to a use case of bills, payments and stock. *)
Inductive replenish_step (s : Ext ReplenishRows) : Ext ReplenishRows -> Prop :=
  | step_replenish q : replenish_step s (serve_replenish q s).2
  | step_call c : replenish_step s (mkExt (run_call c (ex_shop s)).2 (ex_rows s)).


(** ** The scorecard *)

Lemma never_adopted_rows win : (length (never_adopted win) <= length (select (fun r => is_none (lg_adopted r)) win))%nat.
Proof.
  assert (N : NoDup (never_adopted win)).
  { unfold never_adopted. pose proof (NoDup_select_key (fun p : uuid => p) (fun p => forallb (fun r => negb (N.eqb (lg_product r) p) || is_none (lg_adopted r)) win) (remove_dups (lg_product <$> win))) as K.
    rewrite !list_fmap_id in K. apply K, NoDup_remove_dups. }
  rewrite <-(length_fmap lg_product). apply submseteq_length, NoDup_submseteq; [done|]. intros p (Hf & Hp)%elem_of_select.
  rewrite elem_of_remove_dups in Hp. apply list_elem_of_fmap in Hp as (r & -> & Hr). apply list_elem_of_fmap_2, elem_of_select. split; [|done].
  rewrite forallb_forall in Hf. apply list_elem_of_In in Hr. specialize (Hf r Hr). by rewrite N.eqb_refl in Hf.
Qed.
Lemma select_both {A} (p : A -> bool) l : (length (select p l) + length (select (fun a => negb (p a)) l) = length l)%nat.
Proof. unfold select. induction l as [|a l IH]; [done|]. simpl. destruct (p a); simpl; lia. Qed.

(** the scorecard's counts are of disjoint sets of suggestions: those taken up and the products that
    ran out after nobody took a suggestion up never come to more than were made, and the rate is
    between nothing and one. *)
Theorem scorecard_sound (tenant : uuid) (s : Ext ReplenishRows) c s' : GetScorecard_Execute tenant s = (Ok c, s') ->
  (0 <= sd_AdoptedCount c)%Z /\ (0 <= sd_StockoutMisses c)%Z /\ (sd_AdoptedCount c + sd_StockoutMisses c <= sd_SuggestionsCount c)%Z /\
  0 <= sd_AdoptionRate c <= 1 /\ (ex_rows s' = ex_rows s) /\ w_db (ex_shop s') = w_db (ex_shop s).
Proof.
  unfold GetScorecard_Execute. intros H. apply bind_Ok in H as (u & s1 & [_ <-]%guard_err_Ok & H).
  apply bind_Ok in H as (raw & s2 & H1%on_err_Ok & [<- <-]%ret_Ok). unfold at_state in H1. apply ext_query_Ok in H1 as (_ & -> & ->).
  unfold scorecard. cbn [sd_AdoptedCount sd_StockoutMisses sd_SuggestionsCount sd_AdoptionRate sr_SuggestionsCount sr_AdoptedCount sr_StockoutMisses].
  set (win := select _ (rp_log _)). set (misses := select _ (never_adopted win)).
  assert (Hm : (length misses <= length (never_adopted win))%nat) by (unfold misses, select; apply List.filter_length_le).
  pose proof (never_adopted_rows win) as Hn. pose proof (select_both (fun r => is_none (lg_adopted r)) win) as Hb.
  cbv beta in Hb. set (adopted := length (select (fun r => negb (is_none (lg_adopted r))) win)) in *.
  split; [lia|]. split; [lia|]. split; [lia|]. split; [|done].
  destruct (Z.ltb_spec 0 (Z.of_nat (length win))) as [H|H]; [|lra]. rewrite Zlt_Qlt in H. change (inject_Z 0) with 0 in H.
  assert (Ha0 : inject_Z 0 <= inject_Z (Z.of_nat adopted)) by (rewrite <-Zle_Qle; lia). change (inject_Z 0) with 0 in Ha0.
  assert (Ha1 : inject_Z (Z.of_nat adopted) <= inject_Z (Z.of_nat (length win))) by (rewrite <-Zle_Qle; lia).
  split; [apply Qle_shift_div_l; [done|lra]|apply Qle_shift_div_r; [done|lra]].
Qed.

(** ** Batches of drafts *)

Definition ordered (l : DraftBatchLine) : bool := negb (is_zero (dl_Qty l) || is_negative (dl_Qty l)).
(** One group per supplier, with its lines in the order of the request. *)
Record grouped (lines : list DraftBatchLine) (gs : list Group) : Prop := {
  gr_suppliers : NoDup (gp_supplierID <$> gs);
  gr_lines : Forall (fun g => gp_lines g <> [] /\
    gp_lines g = select (fun l => ordered l && bool_decide (dl_SupplierID l = gp_supplierID g)) lines) gs;
  gr_all : forall l, l ∈ lines -> ordered l = true -> dl_SupplierID l ∈ gp_supplierID <$> gs;
}.

Lemma add_line_suppliers l gs :
  (gp_supplierID <$> add_line l gs) = (gp_supplierID <$> gs) \/
  (dl_SupplierID l ∉ gp_supplierID <$> gs) /\ (gp_supplierID <$> add_line l gs) = ((gp_supplierID <$> gs) ++ [dl_SupplierID l])%list.
Proof.
  induction gs as [|g gs IH]; cbn [add_line]; [right; split; [by apply not_elem_of_nil|done]|]. case_bool_decide as E; [by left|].
  destruct IH as [IH|[N IH]]; [left|right]; rewrite !fmap_cons, IH; [done|]. split; [|done]. rewrite not_elem_of_cons. split; [congruence|done].
Qed.
Lemma add_line_has l gs : dl_SupplierID l ∈ gp_supplierID <$> add_line l gs.
Proof.
  induction gs as [|g gs IH]; cbn [add_line]; [by left|]. case_bool_decide as B; rewrite fmap_cons, elem_of_cons; [by left|by right].
Qed.
Lemma add_line_in l gs g : NoDup (gp_supplierID <$> gs) -> g ∈ add_line l gs ->
  (gp_supplierID g <> dl_SupplierID l /\ g ∈ gs) \/
  (gp_supplierID g = dl_SupplierID l /\ ((exists g0, g0 ∈ gs /\ gp_supplierID g0 = dl_SupplierID l /\ gp_lines g = (gp_lines g0 ++ [l])%list) \/
    ((dl_SupplierID l ∉ gp_supplierID <$> gs) /\ gp_lines g = [l]))).
Proof.
  induction gs as [|g0 gs IH]; cbn [add_line]; intros N H.
  - apply list_elem_of_singleton in H as ->. right. split; [done|]. right. split; [by apply not_elem_of_nil|done].
  - rewrite fmap_cons in N. apply NoDup_cons in N as [Ni N]. case_bool_decide as E.
    + apply elem_of_cons in H as [->|H]; [right; split; [done|]; left; exists g0; split; [by left|done]|]. left. split; [|by right].
      intros E2. apply Ni. rewrite E, <-E2. by apply list_elem_of_fmap_2.
    + apply elem_of_cons in H as [->|H]; [left; split; [done|by left]|]. destruct (IH N H) as [[? ?]|(E1 & [(g1 & ? & ? & ?)|[? ?]])].
      * left. split; [done|by right].
      * right. split; [done|]. left. exists g1. split; [by right|done].
      * right. split; [done|]. right. split; [|done]. rewrite fmap_cons, not_elem_of_cons. split; [congruence|done].
Qed.

Lemma groups_grouped lines : grouped lines (groups_of lines).
Proof.
  induction lines as [|l lines [N F A]] using rev_ind; [constructor; [constructor|constructor|by intros l ?%elem_of_nil]|].
  assert (Eg : groups_of (lines ++ [l]) = if ordered l then add_line l (groups_of lines) else groups_of lines)
    by (unfold groups_of, ordered; rewrite fold_left_app; simpl; by destruct (is_zero _ || _)).
  rewrite Eg. clear Eg. rewrite Forall_forall in F. destruct (ordered l) eqn:O.
  2: { constructor; [done| |].
    - apply Forall_forall. intros g Hg. destruct (F g Hg) as [F1 F2]. split; [done|]. rewrite select_app. unfold select at 2. simpl. by rewrite O, app_nil_r.
    - intros q [Hq| ->%list_elem_of_singleton]%elem_of_app Oq; [by apply A|congruence]. }
  constructor.
  - destruct (add_line_suppliers l (groups_of lines)) as [->|[Nl ->]]; [done|]. apply NoDup_app. split_and!; [done| |apply NoDup_singleton].
    by intros y Hy ->%list_elem_of_singleton.
  - apply Forall_forall. intros g Hg. rewrite select_app. unfold select at 2. simpl. rewrite O.
    destruct (add_line_in l _ g N Hg) as [[E Hg']|(E & [(g0 & Hg0 & E0 & ->)|[Nl ->]])].
    + destruct (F g Hg') as [F1 F2]. split; [done|]. rewrite bool_decide_eq_false_2 by congruence. simpl. by rewrite app_nil_r.
    + destruct (F g0 Hg0) as [F1 F2]. rewrite bool_decide_eq_true_2 by congruence. simpl. split; [by destruct (gp_lines g0)|].
      f_equal. rewrite E, <-E0. exact F2.
    + split; [done|]. rewrite bool_decide_eq_true_2 by congruence. simpl.
      assert (En : select (fun l0 => ordered l0 && bool_decide (dl_SupplierID l0 = gp_supplierID g)) lines = []); [|by rewrite En].
      destruct (select _ lines) as [|q qs] eqn:Q; [done|]. exfalso.
      assert (Hq : q ∈ select (fun l0 => ordered l0 && bool_decide (dl_SupplierID l0 = gp_supplierID g)) lines) by (rewrite Q; by left).
      apply elem_of_select in Hq as [[Oq Sq%bool_decide_eq_true]%andb_true_iff Hq]. apply Nl. rewrite <-E, <-Sq. by apply A.
  - intros q Hq Oq. apply elem_of_app in Hq as [Hq| ->%list_elem_of_singleton].
    + specialize (A q Hq Oq). destruct (add_line_suppliers l (groups_of lines)) as [->|[_ ->]]; [done|]. apply elem_of_app. by left.
    + apply add_line_has.
Qed.

(** A purchase draft of one group, and of several, one after the other. *)
Definition group_drafted (req : DraftBatchRequest) (prices : gmap uuid dec) (g : Group) (r : DraftResult) (d d' : DB) : Prop :=
  dr_SupplierID r = gp_supplierID g /\ dr_LineCount r = length (gp_lines g) /\
  exists h items, new_bill h items d d' /\ bh_type h = BillTypePurchase /\ bh_sub_type h = BillSubTypePurchase /\
    draft_of (db_TenantID req) ci_product ci_qty ci_price (draft_items prices (gp_lines g)) (gp_supplierID g) None (dr_BillID r) (dr_BillNo r) h items d.
Inductive drafted (req : DraftBatchRequest) (prices : gmap uuid dec) : list Group -> list DraftResult -> DB -> DB -> Prop :=
  | drafted_nil d : drafted req prices [] [] d d
  | drafted_cons g gs r rs d d1 d2 : group_drafted req prices g r d d1 -> drafted req prices gs rs d1 d2 ->
      drafted req prices (g :: gs) (r :: rs) d d2.
(** The rows of the log that were open for the products of a draft may carry that draft now. *)
Definition stamped (tenant : uuid) (ps : list (list uuid * uuid)) (l l' : list LogRow) : Prop :=
  Forall2 (fun r r' => r' = r \/ (lg_adopted r = None /\ lg_tenant r = tenant /\
    exists products bill now, (products, bill) ∈ ps /\ lg_product r ∈ products /\ r' = adopt now bill r)) l l'.
Definition stamps (gs : list Group) (rs : list DraftResult) : list (list uuid * uuid) :=
  zip_with (fun g r => (dl_ProductID <$> gp_lines g, dr_BillID r)) gs rs.

Lemma stamped_refl tenant ps l : stamped tenant ps l l.
Proof. apply Forall_Forall2_diag, Forall_forall. intros r _. by left. Qed.
Lemma stamped_trans tenant p ps l l1 l2 : stamped tenant [p] l l1 -> stamped tenant ps l1 l2 -> stamped tenant (p :: ps) l l2.
Proof.
  intros H1. revert l2. induction H1 as [|r r1 l l1 H1 _ IH]; intros l2 H2; inversion H2; subst; constructor; [|by apply IH]. destruct H1 as [->|(A & T & pr & b & n & Hp & Hr & ->)].
  - destruct H3 as [->|(A & T & pr & b & n & Hp & Hr & ->)]; [by left|right]. split_and!; [done..|]. exists pr, b, n. split; [by right|done].
  - destruct H3 as [->|(A2 & _)]; [|done]. right. split_and!; [done..|]. exists pr, b, n. split; [|done]. apply list_elem_of_singleton in Hp as ->. by left.
Qed.

Lemma mark_run tenant products bill s r s' : try (MarkAdopted tenant products bill) s = (r, s') ->
  (exists a, r = Ok a) /\ w_db (ex_shop s') = w_db (ex_shop s) /\ stamped tenant [(products, bill)] (rp_log (ex_rows s)) (rp_log (ex_rows s')).
Proof.
  unfold try, MarkAdopted. destruct products as [|p ps]; [intros [= <- <-]; split_and!; [by eexists|done|apply stamped_refl]|].
  generalize (p :: ps). clear p ps. intros products. unfold at_state, ext_statement. destruct (db_fault _); [intros [= <- <-]; split_and!; [by eexists|done|apply stamped_refl]|].
  destruct (mark_adopted _ _ _ _ _ _) as [e|[u x]] eqn:E; intros [= <- <-]; (split_and!; [by eexists|done|]); [apply stamped_refl|].
  unfold mark_adopted, mbind, sum_bind in E. apply sum_bind_inr in E as (u1 & _ & E). injection E as _ <-. simpl. unfold stamped.
  set (now := clock_at _). generalize (rp_log (ex_rows s)). induction l as [|q l IH]; constructor; [|done]. destruct (adoptable tenant products now q) eqn:A; [right|by left].
  unfold adoptable in A. apply andb_true_iff in A as [[[T%N.eqb_eq P%bool_decide_eq_true]%andb_true_iff N]%andb_true_iff _].
  split; [by destruct (lg_adopted q)|]. split; [done|]. exists products, bill, now. split; [by left|done].
Qed.

Lemma create_group_run req remark prices now g s r s' : create_group req remark prices now g s = (r, s') ->
  (exists d, r = Ok d /\ group_drafted req prices g d (w_db (ex_shop s)) (w_db (ex_shop s')) /\
     stamped (db_TenantID req) (stamps [g] [d]) (rp_log (ex_rows s)) (rp_log (ex_rows s'))) \/
  ((forall d, r <> Ok d) /\ w_db (ex_shop s') = w_db (ex_shop s) /\ ex_rows s' = ex_rows s).
Proof.
  unfold create_group. intros H. destruct (ok_or_not r) as [[d ->]|Hr]; [left; exists d; split; [done|]|right; split; [done|]].
  - apply bind_Ok in H as (c & s1 & (w1 & H1 & ->)%on_err_Ok%lift_Ok & H). apply bind_Ok in H as (o & s2 & (_ & D & St)%mark_run & [<- <-]%ret_Ok).
    simpl in *. rewrite D. apply create_purchase_effect in H1 as (h & items & N & Dr & Ty & Su & _). cbn in Dr. split; [|exact St].
    split; [done|]. split; [done|]. exists h, items. by split_and!.
  - apply bind_fails in H as [(r0 & H & Hr0)|(c & s1 & _ & H)]; [|exfalso|done].
    + apply on_err_fails in H as (r1 & H & Hr1); [|done]. unfold lift in H. destruct (CreatePurchaseDraft_Execute _ _) as [r2 w2] eqn:C. injection H as -> <-.
      split; [|done]. by eapply create_purchase_atomic.
    + apply bind_fails in H as [(r0 & H & Hr0)|(o & s2 & _ & H)]; [|by injection H as <- _; eapply Hr|done]. apply mark_run in H as ([a ->] & _). by eapply Hr0.
Qed.

Lemma create_groups_run req remark prices now gs : forall s r s', create_groups req remark prices now gs s = (r, s') ->
  exists done todo rs, gs = (done ++ todo)%list /\ drafted req prices done rs (w_db (ex_shop s)) (w_db (ex_shop s')) /\
    stamped (db_TenantID req) (stamps done rs) (rp_log (ex_rows s)) (rp_log (ex_rows s')) /\
    (forall out, r = Ok out -> todo = [] /\ out = rs).
Proof.
  induction gs as [|g gs IH]; intros s r s' H; cbn [create_groups] in H.
  - injection H as <- <-. exists [], [], []. split_and!; [done|constructor|apply stamped_refl|]. by intros out [= <-].
  - unfold mbind, stm_bind in H. destruct (create_group req remark prices now g s) as [r1 s1] eqn:H1.
    destruct (create_group_run _ _ _ _ _ _ _ _ H1) as [(d & -> & G & St)|(Hr1 & D & R)].
    + destruct (create_groups req remark prices now gs s1) as [r2 s2] eqn:H2.
      destruct (IH _ _ _ H2) as (dn & todo & rs & -> & Dr & St2 & Ho). exists (g :: dn), todo, (d :: rs).
      assert (s' = s2 /\ forall out, r = Ok out -> exists rs2, r2 = Ok rs2 /\ out = d :: rs2) as [-> Hout].
      { clear -H. destruct r2; injection H as <- <-; (split; [done|]); [|by intros|by intros]. intros out [= <-]. eauto. }
      split_and!; [done|by econstructor|exact (stamped_trans _ _ _ _ _ _ St St2)|]. intros out (rs2 & -> & ->)%Hout. by destruct (Ho rs2 eq_refl) as [-> ->].
    + exists [], (g :: gs), []. assert (s' = s1 /\ forall out, r <> Ok out) as [-> Hr] by (destruct r1; [by destruct (Hr1 a)|by injection H as <- <-..]).
      rewrite D, R. split_and!; [done|constructor|apply stamped_refl|]. intros out ->. by destruct (Hr out).
Qed.

Lemma prices_run tenant pairs s r s' : LastPurchasePrices tenant pairs s = (r, s') ->
  ex_rows s' = ex_rows s /\ w_db (ex_shop s') = w_db (ex_shop s) /\
  forall prices, r = Ok prices -> forall p, p ∈ fst <$> pairs -> prices !! p = last_purchase_price tenant (w_db (ex_shop s)) pairs p.
Proof.
  unfold LastPurchasePrices. destruct pairs as [|q qs]; [intros [= <- <-]; split_and!; [done..|]; intros ? _ p ?%elem_of_nil; done|].
  generalize (q :: qs). clear q qs. intros pairs. unfold lift, query, statement. destruct (db_fault _); intros [= <- <-]; (split_and!; [done..|]); [done|].
  intros prices [= <-] p Hp. set (l := omap _ _).
  assert (N : NoDup (fst <$> l)).
  { unfold l. generalize (NoDup_remove_dups (fst <$> pairs)). generalize (remove_dups (fst <$> pairs)). induction l0 as [|x l0 IH]; [constructor|].
    intros [Hx Hn]%NoDup_cons. specialize (IH Hn). simpl. destruct (last_purchase_price _ _ _ x) as [v|]; simpl; [|done]. constructor; [|done].
    intros (y & E & Hy)%list_elem_of_fmap. apply list_elem_of_omap in Hy as (z & Hz & Ez). destruct (last_purchase_price _ _ _ z); [|done].
    injection Ez as <-. simpl in E. by subst. }
  destruct (last_purchase_price _ _ pairs p) as [v|] eqn:V.
  - apply elem_of_list_to_map_1; [done|]. apply list_elem_of_omap. exists p. split; [by rewrite elem_of_remove_dups|]. by rewrite V.
  - apply not_elem_of_list_to_map_1. intros (y & -> & Hy)%list_elem_of_fmap. apply list_elem_of_omap in Hy as (z & _ & Ez).
    destruct (last_purchase_price _ _ _ z) eqn:Vz; [|done]. injection Ez as <-. simpl in V. congruence.
Qed.

(** a batch of lines becomes one purchase draft per supplier, in the order in which the suppliers
    appear: each draft has exactly the supplier's lines of positive quantity, at the last purchase
    price of the product or nothing; the suggestions for its products that were open are stamped
    with it; nothing else in the books or the log changes.  When a group fails the batch stops with an error, and
    the drafts of the groups before it stay, with their stamps. *)
Theorem batch_drafts_by_supplier (req : DraftBatchRequest) (s : Ext ReplenishRows) r s' : CreateDraftBatch_Execute req s = (r, s') ->
  grouped (db_Lines req) (groups_of (db_Lines req)) /\
  exists prices done todo rs, groups_of (db_Lines req) = (done ++ todo)%list /\
    drafted req prices done rs (w_db (ex_shop s)) (w_db (ex_shop s')) /\
    stamped (db_TenantID req) (stamps done rs) (rp_log (ex_rows s)) (rp_log (ex_rows s')) /\
    (done <> [] -> forall p, p ∈ fst <$> price_pairs (groups_of (db_Lines req)) ->
       prices !! p = last_purchase_price (db_TenantID req) (w_db (ex_shop s)) (price_pairs (groups_of (db_Lines req))) p) /\
    (forall out, r = Ok out -> todo = [] /\ out = rs /\ rs <> []).
Proof.
  intros H. split; [apply groups_grouped|]. unfold CreateDraftBatch_Execute in H.
  set (gs := groups_of (db_Lines req)) in *.
  assert (K : (exists prices now s1, create_groups req (batch_remark req) prices now gs s1 = (r, s') /\ gs <> [] /\
      ex_rows s1 = ex_rows s /\ w_db (ex_shop s1) = w_db (ex_shop s) /\
      forall p, p ∈ fst <$> price_pairs gs -> prices !! p = last_purchase_price (db_TenantID req) (w_db (ex_shop s)) (price_pairs gs) p) \/
    ((forall out, r <> Ok out) /\ ex_rows s' = ex_rows s /\ w_db (ex_shop s') = w_db (ex_shop s))).
  { unfold mbind, stm_bind in H. destruct (N.eqb _ _); cbn in H; [right; by injection H as <- <-|].
    destruct (Nat.eqb (length (db_Lines req)) 0); cbn in H; [right; by injection H as <- <-|]. destruct (Nat.eqb_spec (length gs) 0) as [|Hgs]; cbn in H; [right; by injection H as <- <-|].
    unfold on_err in H. destruct (LastPurchasePrices _ _ s) as [r1 s1] eqn:P. apply prices_run in P as (R & D & Hp).
    destruct r1 as [prices|e|pn]; [|right; by injection H as <- <-..]. cbn in H. left. exists prices, (clock_at (w_tick (ex_shop s1))), (ext_bump s1).
    split; [exact H|]. split; [by intros ->|]. split; [done|]. split; [done|]. by apply Hp. }
  destruct K as [(prices & now & s1 & H1 & Hgs & R & D & Hp)|(Hr & R & D)].
  - apply create_groups_run in H1 as (dn & todo & rs & E & Dr & St & Ho). exists prices, dn, todo, rs. rewrite R in St. rewrite D in Dr.
    split_and!; [done|done|done|by intros _|]. intros out Eo. destruct (Ho out Eo) as [-> ->]. split_and!; [done|done|]. intros ->. rewrite app_nil_r in E.
    apply Hgs. rewrite E. by inversion Dr.
  - exists ∅, [], gs, []. rewrite R, D. split_and!; [done|constructor|apply stamped_refl|done|]. intros out ->. by destruct (Hr out).
Qed.
End laws.

(** ** A shop that sells three teas a day *)
Section example.
Section by_less.
Context {A : Type} (less : A -> A -> bool).
#[local] Instance not_less_dec : RelDecision (fun a b => less b a = false).
Proof. intros a b. apply _. Defined.
Definition less_sort (l : list A) : list A := merge_sort (fun a b => less b a = false) l.
End by_less.
#[export] Instance ex_sorts : SortSlice := {| sort_slice A := less_sort |}.
#[export] Instance ex_sorts_laws : SortSliceLaws ex_sorts.
Proof.
  split; intros A less l.
  - apply merge_sort_Permutation.
  - intros T C. apply StronglySorted_merge_sort; [intros a b c; apply T|intros a b; apply C].
Qed.
#[export] Instance ex_float : FloatMath := {|
  numeric_div := ddiv; interval_days t := (inject_Z t / inject_Z (24 * hour))%Q; middle a b := ((a + b) / 2)%Q;
  sqrt_float n := SD (Z.sqrt (n * 10 ^ 32)) 16 |}.
#[export] Instance ex_float_laws : FloatLaws ex_float.
Proof.
  split. intros n. change (0 <= inject_Z (Z.sqrt (n * 10 ^ 32)) / pow10 16). apply Qle_shift_div_l; [apply pow10_pos|].
  setoid_replace (0 * pow10 16) with (inject_Z 0) using relation Qeq by ring. rewrite <-Zle_Qle. apply Z.sqrt_nonneg.
Qed.

Definition ex_teas_sold : World := with_db ex_shelf (set_movements (w_db ex_shelf)
  [mkMovement 5%N ex_tenant ex_p1 ex_wh DirectionOut (D 90 0) (D 2 0) (D 180 0) RefTransfer None ex_start None "" ex_start false false]).
Definition ex_plan : Ext ReplenishRows := mkExt ex_teas_sold (mkReplenishRows
  {[ ex_p1 := mkProductInfo "T" true 7; ex_p2 := mkProductInfo "C" true 7 ]} ∅ []).
Definition ex_raw : RawRow := mkRawRow ex_p1 "tea" "T" (D 10 0) (D 0 0) (D 2 0) (D 3 0) 7 (D 0 0) None "" 0 0 None.
Definition ex_low := ListLowStock_Execute ex_tenant 1 ex_plan.
Definition ex_planned : Ext ReplenishRows := (serve_replenish (AskSuggestions ex_tenant 2) ex_plan).2.
Definition ex_batch : DraftBatchRequest := mkDraftBatchRequest ex_tenant ex_user
  [mkDraftBatchLine ex_p1 (Some ex_supplier) (D 36 0); mkDraftBatchLine ex_p2 None (D 4 0); mkDraftBatchLine ex_p2 None (D 0 0)] "".
Definition ex_drafting := CreateDraftBatch_Execute ex_batch ex_planned.
Definition ex_drafted : Ext ReplenishRows := (serve_replenish (DraftBatch ex_batch) ex_planned).2.
Definition ex_card := GetScorecard_Execute ex_tenant ex_drafted.

Lemma suggestion_is_least_witness : Qred (val (sg_SuggestedQty (Forecast ex_raw 2))) = 36 # 1 /\
  exists n : Z, val (sg_SuggestedQty (Forecast ex_raw 2)) == inject_Z n /\ demand ex_raw 2 <= inject_Z n.
Proof.
  split; [vm_compute; reflexivity|]. destruct (suggestion_is_least ex_raw 2) as (n & _ & H1 & H2 & _). exists n. split; [exact H1|exact H2].
Defined.

Lemma low_stock_exact_witness : exists rows s' listed, ex_low = (Ok rows, s') /\ ls_ProductCode <$> rows = ["T"] /\ rows = low_row <$> listed.
Proof.
  destruct (ext_ok_run ex_low) as (rows & s' & E); [vm_compute; reflexivity|].
  assert (match ex_low.1 with Ok l => ls_ProductCode <$> l | _ => [] end = ["T"]) as K by (vm_compute; reflexivity). rewrite E in K. simpl in K.
  pose proof E as E'. unfold ex_low in E'. destruct (low_stock_exact ex_tenant 1 ex_plan rows s' E') as (_ & _ & listed & _ & _ & H & _).
  exists rows, s', listed. split; [exact E|]. split; [exact K|exact H].
Defined.


Lemma scorecard_sound_witness : exists c s', ex_card = (Ok c, s') /\ sd_SuggestionsCount c = 1%Z /\ 0 <= sd_AdoptionRate c <= 1.
Proof.
  destruct (ext_ok_run ex_card) as (c & s' & E); [vm_compute; reflexivity|].
  assert (match ex_card.1 with Ok c => sd_SuggestionsCount c | _ => 0%Z end = 1%Z) as K by (vm_compute; reflexivity). rewrite E in K. simpl in K.
  pose proof E as E'. unfold ex_card in E'. exists c, s'. split; [exact E|]. split; [exact K|].
  exact (proj1 (proj2 (proj2 (proj2 (scorecard_sound ex_tenant ex_drafted c s' E'))))).
Defined.

Lemma batch_drafts_by_supplier_witness : exists out s', ex_drafting = (Ok out, s') /\ dr_LineCount <$> out = [1%nat; 1%nat] /\
  grouped (db_Lines ex_batch) (groups_of (db_Lines ex_batch)).
Proof.
  destruct (ext_ok_run ex_drafting) as (out & s' & E); [vm_compute; reflexivity|].
  assert (match ex_drafting.1 with Ok l => dr_LineCount <$> l | _ => [] end = [1%nat; 1%nat]) as K by (vm_compute; reflexivity). rewrite E in K.
  pose proof E as E'. unfold ex_drafting in E'. exists out, s'. split; [exact E|]. split; [exact K|].
  exact (proj1 (batch_drafts_by_supplier ex_batch ex_planned (Ok out) s' E')).
Defined.
End example.
